(* ===== verification/_CoqProject ===== *)
-Q . S2P
Prelude.v
Floats.v
Relational.v
Upsert.v
Text.v
Vocabulary.v
LearningVocabulary.v
Schema.v
Fixtures.v
Crypto.v
Notices.v
AgeBands.v
AgeAssurance.v
Branding.v
ConsentExpiry.v
AuthPolicies.v
ConsentRepo.v
ConsentFacts.v
ConsentDecisions.v
ConsentService.v
ConsentOutbox.v
AuthRepo.v
AuthService.v
AuthFacts.v
AuthProperties.v
ParentCodes.v
AuthExamples.v
PermissionRepo.v
PermissionFacts.v
PermissionService.v
PermissionExamples.v
Access.v
Regex.v
ZeroTag.v
Privacy.v
Json.v
Email.v
Pdf.v
Kept.v
Calendar.v
Money.v
AiSafety.v
AiGateway.v
AiRepo.v
Gateway.v
GatewayFacts.v
AskFormatting.v
AskAllowance.v
AskDirectory.v
AskThreads.v
AskNevo.v
AskFacts.v
AskExamples.v
Mastery.v
Scheduler.v
Breaks.v
Adaptation.v
Scaffolds.v
Sittings.v
PostLesson.v
SignalIntake.v
AttentionFlags.v
LearningExamples.v
TeacherAssignments.v
Quotes.v
Billing.v
Paystack.v
Issuance.v
PaymentRepo.v
PaymentService.v
PaymentFacts.v
PaymentBooks.v
PaymentPays.v
PaymentExamples.v
IssuanceFacts.v
BillingFacts.v
IssuanceProperties.v
BillingEmails.v
BillingExamples.v
