(* ===== verification/Prelude.v ===== *)
(** * Nevo backend: a verification library

    Nevo is a learning platform for schools; its backend is a Python service
    (FastAPI over SQLAlchemy and PostgreSQL) under [src/src/nevo]. This library
    models, function by function, the parts that decide who may learn, who may
    sign in, who runs a school and what it pays, what a language model may be
    asked and may answer, and how a lesson follows its learner; and it proves
    what those parts promise.

    ** How the program is modelled

    A handler of the program is a computation [M A] of [Schema]: it reads and
    writes a database, and returns a value or raises one of the exceptions
    ([Vocabulary.exn]). [Relational] gives the statements of SQLAlchemy on a
    database of typed tables ([select], [scalar], [get], [insert], [save] for
    the attributes assigned to a loaded object, [update_where],
    [delete_where]), the flush, which checks every CHECK and UNIQUE constraint
    declared in [db/models], and [transaction], the block
    [async with sessions.begin()]: it commits when the constraints hold and
    leaves the database as it was when anything is raised. [Schema] has one
    record per mapped class and one constraint decision per table. An operation
    of two transactions keeps the first when the second fails, as the program
    does.

    What is abstracted, and how:
    - transactions are serial; row locks therefore do nothing. Constraints are
      checked at the flush and the commit, not at an autoflush in between.
    - a clock the code reads is an argument [now]; one call reads one moment.
      [func.now()] and column defaults read [db_now]. [uuid4()] draws from a
      supply of identifiers not yet used.
    - an object added to the session has no status until the flush, since the
      column only has a server default; this is visible in the program and is
      kept ([ConsentRepo.ensure_pending_record]).
    - foreign keys are not checked; the one deletion that cascades is written
      out. Triggers and the bookkeeping columns nothing reads are left out.
    - text is ASCII ([Pdf] alone has UTF-8): [casefold] and [func.lower] fold
      the letters A to Z.
      [ORDER BY] compares text byte by byte, NULL last, and first for [DESC].
    - amounts are exact decimals and the lengths of text columns are not
      checked. A Python [float] is the binary64 of [Floats], also in JSON; the
      [pow] of the C library is a parameter of [Scheduler]. The HTTP client,
      [json.loads] and [datetime.fromisoformat] are the class [Json.Network].
    - the keyed hashes and the random source are the class [Crypto], the
      password hasher and the mail delivery are parameters; theorems that need
      a property of them state it as a hypothesis, and [Crypto.Toy] is a
      concrete instance the witnesses run.

    ** The files, and what their theorems show

    - [Prelude]: the computations, their Hoare-style rules ([preserves],
      [keeps], [obeys]) with the tactics that walk down a handler, lists,
      sorting and record update. [Relational]: the database. [Text]: Python's
      text functions, dates and JSON values. [Floats]: Python's floats. [Upsert]:
      writing the one row of a key. [Vocabulary] and [LearningVocabulary]: the
      enums of [domain/*/vocabulary.py] and the exceptions. [Schema]: the tables
      of [db/models]. [Fixtures]: a small school the witnesses run on. [Crypto]:
      the interface of the keyed hashes.
    - [Notices]: [notifications/links.py] and [notifications/dispatch.py].
      [Branding]: [notifications/branding.py].
    - [AgeBands] ([domain/accounts/age_bands.py]) and [AgeAssurance]
      ([consent/age_assurance.py]): the stored checks stay consistent; the
      first date a parent gives decides; a held child is not released by
      resubmitting; a final check is final.
    - [ConsentExpiry] ([consent/expiry.py], [retention/anonymisation.py]):
      recording unanswered requests is idempotent, a learner with a confirmed
      consent is never removed, one without is removed for good.
    - [ConsentRepo] is [consent/repositories.py]; [ConsentFacts] has the effect
      of its operations on the records and the theorems on the parent's answer
      and the single use of a link; [ConsentDecisions] has the invariant over
      sequences of operations (a decision keeps its evidence) and the
      withdrawal. [ConsentService] is [consent/service.py] over the interface
      [ConsentRepository]: the gate opens for exactly the students with a
      confirmed consent. [ConsentOutbox] is [consent/worker.py]: an email is
      attempted at most six times whatever the delivery does.
    - [AuthPolicies], [AuthRepo], [AuthService] are [auth/policies.py],
      [auth/repositories.py], [auth/service.py] and their security classes.
      [AuthFacts] and [AuthProperties] show what the check of every request
      decides, and through arbitrary sequences of sign-ins and sign-outs that
      sessions end with their role's lifetime, that ended sessions stay ended,
      that a learner has one session, that failed sign-ins close an address.
      [ParentCodes] is [auth/parent_codes.py]: a refinement to a four-state
      specification of a code. [AuthExamples] runs them.
    - [PermissionRepo], [PermissionService] are [permissions/repositories.py]
      and [permissions/service.py]; [PermissionFacts] shows that a school keeps
      an administrator with oversight through any sequence of operations,
      that an invitation is accepted once, that a member switched off is signed
      out. [PermissionExamples] runs them.
    - [Money] is Python's [decimal] arithmetic, [Json] decoded JSON, the text
      of floats, HTTP messages and the class of the network; [Calendar] is
      [datetime.date]. [Email] is [notifications/email.py].
    - [Paystack] is [payments/paystack.py] with the settings and the entities;
      [PaymentRepo] and [PaymentService] are [payments/repositories.py] and
      [payments/service.py]. [Kept] has the rows that stay; [PaymentFacts] what
      the steps do and that money received stays received; [PaymentBooks] that
      an invoice is paid exactly when a transaction of its school and amount
      succeeded, and only for the amount asked; [PaymentPays] that payments,
      callbacks and transfers are applied once, and that a matching payment
      does pay. All of it for sequences of the five operations and for
      every network. [PaymentExamples] runs them.
    - [Quotes] and [Billing] are [billing/service.py] and
      [billing/repositories.py], the price of a school and its billing page;
      [Issuance] is [billing/issuance.py], the daily sweep over the contracts.
      [IssuanceFacts] shows what an invoice number determines, what one
      contract does and what the sweep does, [IssuanceProperties]
      that exactly the periods that have begun are billed and a second sweep
      bills nothing, [BillingFacts] that what is saved is shown.
      [BillingEmails] is [billing/email_worker.py]: a due email that the mail
      service takes is sent, with the invoice printed by [Pdf]: its objects
      stand where its table says and printable text can be read back.
      [BillingExamples] runs them.
    - [TeacherAssignments] is [teacher_assignments/]: through any sequence of
      operations an assignment stays in its school, with its subject and with
      somebody who may teach.
    - [Access] is [access.py]: the learners somebody may ask about. [Regex] is
      the part of Python's [re] the patterns use, with the matcher shown equal
      to the declarative meaning of a pattern. [ZeroTag] is
      [ai_gateway/compliance.py]: a text is refused exactly when it names a
      prohibited term, and a sanitised text is never refused. [Privacy] is
      [ai_gateway/privacy.py]: no known name survives the
      masking, and the names of a lesson's characters come back. [AiSafety] is
      [ai_gateway/safety.py]: content passes only when every
      part was reviewed, allowed and recorded. [AiGateway] is the tool loop, the
      fallback and the rate limit, [AiRepo] the prompts, the context and the
      audit rows, [Gateway] the Claude provider and [ai_gateway/service.py];
      [GatewayFacts] shows that a provider only gets masked and reviewed
      requests and that every answer was reviewed and recorded.
    - [AskFormatting], [AskAllowance], [AskDirectory], [AskThreads] and
      [AskNevo] are [ask_nevo/]: what an answer looks like, what a day may
      cost, pseudonyms, conversations with their sweep from
      [retention/service.py], and the service over the gateway. [AskThreads]
      shows that conversations stay whole, that a deleted one is never read
      and that old ones are swept; [AskFacts] that an answer that is shown was
      checked and that a day closes before it is overspent. [AskExamples] runs
      them.
    - [Mastery] ([mastery/]) keeps probabilities between nought and one;
      [Scheduler] ([scheduler/]) the dates of reviews; [Breaks]
      ([intelligence/breaks.py]) offers breaks; [Adaptation]
      ([intelligence/adaptation.py]) shows that an adaptation is earned by the
      signals and that what is held back is on record; [Scaffolds]
      ([intelligence/scaffolds.py] and its service and repository) refines a
      ladder of four rungs. [LearningExamples] runs them.
    - [Sittings] is [signal_events/]: through any sequence of batches a sitting
      only moves forward, and each batch is recorded or refused as a whole.
      [SignalIntake] is [api/signals.py] with [api/privacy.py], the catalogue
      of [domain/signal_events] and the reading half of
      [intelligence/away_time.py]: the privacy check accepts exactly the data
      without raw measurements, and events are only taken from a learner with
      a confirmed consent. [PostLesson] is
      [learner_profiles/post_lesson_worker.py]: wherever the worker dies, a
      finished lesson is not forgotten and no stage counts as done that was
      not, and a lesson comes to an end within five turns of the worker.
      [AttentionFlags] is [attention_flags/service.py]: after an evaluation
      exactly the flag that was noticed is open, whatever the gateway does.

    ** Fuel and bounds

    Loops run over lists that are there, with these exceptions.
    [ConsentOutbox.run_worker] runs the worker's endless loop over a given list
    of moments, for all lists. [Issuance.issue_years], [AiGateway.tool_iterations] and
    [Gateway.attempts] count down the [range] of the program's own loops (six
    contract years, five tool turns, the retries and one).
    [AskThreads.sweep_chats] has a bound on its batches, and
    [AskThreads.chats_are_swept] shows that enough batches empty the table of
    what has expired. [BillingEmails.run_worker] and [PostLesson.history] run a
    worker over given moments, for all of them. [Json.shortest] tries up to
    seventeen digits, which determine a binary64.
    [AiRepo.parse_format] has the length of the template as fuel, and every step
    consumes a character of it; [Regex.run] recurs on the pattern and, inside a
    repetition, on the text. The scheduler of the gateway runs
    one request after the other: its queue and its workers are asyncio, the
    rate limit is modelled for any moments at which workers ask.

    ** Not modelled

    The HTTP handlers of [api] but the one of [SignalIntake] (parsing of
    requests and queries for screens), content parsing, single sign-on, the
    tools of Ask Nevo, the rest of [intelligence] and the updates of learner
    profiles (statistics over signals, the baseline, comprehension, the
    recording of time away), the purge of learners, exports,
    media and storage, the notification worker and its digests, the operational
    modules and the migrations. In the gateway: the Gemini provider; the
    rounding of a stored cost to eight places; text that is not ASCII; fields
    of a prompt template other than plain names. *)

From stdpp Require Export base decidable option list gmap strings.
From stdpp Require Import fin_maps.
From Stdlib Require Export ZArith Lia.
From Stdlib Require Import Ascii String.

Declare Scope nevo_scope.
Delimit Scope nevo_scope with nevo.
#[global] Open Scope Z_scope.
#[global] Open Scope nevo_scope.

(** Boolean equality on a type with decidable equality: Python's [==] and
    SQL's [=] between two non-null values. *)
Notation "x == y" := (bool_decide (x = y)) (at level 70, no associativity) : nevo_scope.
Notation "x != y" := (negb (bool_decide (x = y))) (at level 70, no associativity) : nevo_scope.

(** ** Identifiers and time *)

(** A UUID is an opaque 128-bit value; only its identity is used. *)
Definition uuid : Type := Z.

(** A [datetime] with time zone: microseconds since the epoch, the exact
    resolution of Python's [datetime]; a [timedelta] is a difference. *)
Definition datetime : Type := Z.
Definition timedelta : Type := Z.

Definition seconds (n : Z) : timedelta := n * 1000000.
Definition minutes (n : Z) : timedelta := seconds (60 * n).
Definition hours (n : Z) : timedelta := minutes (60 * n).
Definition days (n : Z) : timedelta := hours (24 * n).

(** ** Optional values *)

Definition is_none {A} (o : option A) : bool := match o with None => true | Some _ => false end.
Definition is_some {A} (o : option A) : bool := negb (is_none o).

(** Python's [a or b] on an optional value whose present values are truthy. *)
Definition or_else {A} (o : option A) (d : option A) : option A :=
  match o with Some a => Some a | None => d end.

Lemma is_none_spec {A} (o : option A) : is_none o = true ↔ o = None.
Proof. by destruct o. Qed.

Lemma is_some_spec {A} (o : option A) : is_some o = true ↔ ∃ a, o = Some a.
Proof. destruct o; split; naive_solver. Qed.

(** ** Functional record update

    [r <| f := v |>] is the record [r] with its field [f] replaced, the
    model of an attribute assignment on an ORM object. The update function of
    a projection is derived on demand. *)
Class FieldUpdate {R F : Type} (proj : R → F) := field_update : (F → F) → R → R.
Arguments field_update {_ _} proj {_} _ _.

Ltac derive_field_update :=
  match goal with
  | |- @FieldUpdate ?R ?F ?proj =>
    let f := fresh "f" in
    let r := fresh "r" in
    intros f r;
    let t := constr:(ltac:(
      let v := fresh "v" in
      pose (v := proj r); destruct r;
      match goal with
      | v := proj ?c |- _ =>
        let x := eval cbn in (proj c) in
        let g := eval pattern x in c in
        match g with
        | ?h _ => let t := eval cbv beta in (h (f x)) in clear v; exact t
        end
      end) : R) in
    let t' := eval cbv beta zeta match in t in
    exact t'
  end.

#[export] Hint Extern 1 (FieldUpdate _) => derive_field_update : typeclass_instances.

Notation "r <| p := v |>" := (field_update p (λ _, v) r)
  (at level 1, left associativity, format "r  <| p  :=  v |>") : nevo_scope.

(** ** Computations that read and write a state and may raise

    A [Comp S E A] runs on a state, and returns a value or raises an
    exception, together with the state it leaves behind. What an exception
    does to the state is decided by the operations, not by the monad: an
    [async with session.begin()] block rolls back, a sequence of two such
    blocks keeps the first. *)
Definition Comp (S E A : Type) : Type := S → (E + A) * S.

#[export] Instance comp_ret {S E} : MRet (Comp S E) := λ A a s, (inr a, s).
#[export] Instance comp_bind {S E} : MBind (Comp S E) := λ A B f m s,
  match m s with
  | (inl e, s') => (inl e, s')
  | (inr a, s') => f a s'
  end.
#[export] Instance comp_fmap {S E} : FMap (Comp S E) := λ A B f m, m ≫= (λ a, mret (f a)).

Definition raise {S E A} (e : E) : Comp S E A := λ s, (inl e, s).

(** [try: m except e: h(e)]; the handler decides by returning [None] that the
    exception is not one it catches. *)
Definition try_except {S E A} (m : Comp S E A) (h : E → option (Comp S E A)) : Comp S E A := λ s,
  match m s with
  | (inl e, s') => match h e with Some k => k s' | None => (inl e, s') end
  | (inr a, s') => (inr a, s')
  end.

Definition guard_or {S E} (b : bool) (e : E) : Comp S E unit := if b then mret tt else raise e.

(** [for x in xs: body(x)] *)
Fixpoint for_each {S E A} (xs : list A) (body : A → Comp S E unit) : Comp S E unit :=
  match xs with
  | [] => mret tt
  | x :: xs' => body x ≫= λ _, for_each xs' body
  end.

(** [[body(x) for x in xs]] with effects *)
Fixpoint map_each {S E A B} (xs : list A) (body : A → Comp S E B) : Comp S E (list B) :=
  match xs with
  | [] => mret []
  | x :: xs' => body x ≫= λ y, map_each xs' body ≫= λ ys, mret (y :: ys)
  end.

(** [for x in xs: acc = body(acc, x)] *)
Fixpoint fold_each {S E A B} (xs : list A) (acc : B) (body : B → A → Comp S E B) : Comp S E B :=
  match xs with
  | [] => mret acc
  | x :: xs' => body acc x ≫= λ acc', fold_each xs' acc' body
  end.

(** *** Equations of the monad *)

Section CompLaws.
Context {S E : Type}.

Lemma ret_run {A} (a : A) (s : S) : (mret a : Comp S E A) s = (inr a, s).
Proof. done. Qed.

Lemma bind_run {A B} (m : Comp S E A) (f : A → Comp S E B) (s : S) :
  (m ≫= f) s = match m s with (inl e, s') => (inl e, s') | (inr a, s') => f a s' end.
Proof. done. Qed.

Lemma bind_inr {A B} (m : Comp S E A) (f : A → Comp S E B) (s s' : S) (a : A) :
  m s = (inr a, s') → (m ≫= f) s = f a s'.
Proof. intros H. by rewrite bind_run, H. Qed.

Lemma bind_inl {A B} (m : Comp S E A) (f : A → Comp S E B) (s s' : S) (e : E) :
  m s = (inl e, s') → (m ≫= f) s = (inl e, s').
Proof. intros H. by rewrite bind_run, H. Qed.

(** Inversion of a successful sequence. *)
Lemma bind_inv_inr {A B} (m : Comp S E A) (f : A → Comp S E B) (s s' : S) (b : B) :
  (m ≫= f) s = (inr b, s') ↔ ∃ a s1, m s = (inr a, s1) ∧ f a s1 = (inr b, s').
Proof.
  rewrite bind_run. split.
  - destruct (m s) as [[e|a] s1]; [discriminate|]. eauto.
  - intros (a & s1 & Hm & Hf). by rewrite Hm.
Qed.

Lemma bind_inv_inl {A B} (m : Comp S E A) (f : A → Comp S E B) (s s' : S) (e : E) :
  (m ≫= f) s = (inl e, s') ↔
    m s = (inl e, s') ∨ ∃ a s1, m s = (inr a, s1) ∧ f a s1 = (inl e, s').
Proof.
  rewrite bind_run. split.
  - destruct (m s) as [[e'|a] s1]; [naive_solver|]. eauto.
  - intros [Hm|(a & s1 & Hm & Hf)]; by rewrite Hm.
Qed.
End CompLaws.

(** A run that returns, as the pair of its result and the state it leaves. *)
Lemma run_returns {S E A} (m : Comp S E A) (s : S) (a : A) :
  fst (m s) = inr a → m s = (inr a, snd (m s)).
Proof. destruct (m s) as [r s']; simpl. by intros ->. Qed.

(** The same when only that it returns is computed. *)
Definition returned {A E} (r : E + A) : bool := match r with inr _ => true | inl _ => false end.

Lemma run_returned {S E A} (m : Comp S E A) (s : S) :
  returned (fst (m s)) = true → ∃ a, m s = (inr a, snd (m s)).
Proof. destruct (m s) as [[e|a] s']; [done|]. by exists a. Qed.

(** A run that returns a value of which a check is computed. *)
Lemma run_checked {S E A} (m : Comp S E A) (s : S) (p : A → bool) :
  match fst (m s) with inr a => p a | inl _ => false end = true →
  ∃ a, m s = (inr a, snd (m s)) ∧ p a = true.
Proof. destruct (m s) as [[e|a] s']; [done|]. by exists a. Qed.

(** *** Loops *)
Section Loops.
Context {S E A B : Type} (body : B → A → Comp S E B).

(** Each pass establishes [Q] for its element and keeps what was established. *)
Lemma fold_each_establishes (Q : A → S → Prop) (xs : list A) (acc acc' : B) (s s' : S) :
  (∀ x b t b' t', body b x t = (inr b', t') → Q x t' ∧ ∀ y, Q y t → Q y t') →
  fold_each xs acc body s = (inr acc', s') →
  (∀ x, x ∈ xs → Q x s') ∧ (∀ y, Q y s → Q y s').
Proof.
  intros Hb. revert acc s. induction xs as [|x xs IH]; intros acc s; simpl.
  - intros [= _ <-]. split; [set_solver|done].
  - intros (b & t & Hx & Hrun)%bind_inv_inr. apply Hb in Hx as [Hx Hmono].
    apply IH in Hrun as [Hxs Hmono']. split; [|eauto].
    intros y [->|Hy]%elem_of_cons; eauto.
Qed.

(** A loop whose passes do nothing does nothing. *)
Lemma fold_each_idle (xs : list A) (acc : B) (s : S) :
  (∀ x b, x ∈ xs → body b x s = (inr b, s)) → fold_each xs acc body s = (inr acc, s).
Proof.
  revert acc. induction xs as [|x xs IH]; intros acc Hb; simpl; [done|].
  rewrite bind_run, Hb by set_solver. apply IH. set_solver.
Qed.
End Loops.

(** *** Invariants of computations

    [preserves I m]: the state satisfies [I] after [m] whenever it did before,
    whether [m] returned or raised. The rules compose along the syntax of a
    handler, and the database of hints [preserves] applies them. *)
Definition preserves {S E A} (I : S → Prop) (m : Comp S E A) : Prop :=
  ∀ s, I s → I (snd (m s)).

Section Preserves.
Context {S E : Type} (I : S → Prop).

Lemma preserves_ret {A} (a : A) : preserves I (mret a : Comp S E A).
Proof. by intros s Hs. Qed.

Lemma preserves_raise {A} (e : E) : preserves I (raise e : Comp S E A).
Proof. by intros s Hs. Qed.

Lemma preserves_bind {A B} (m : Comp S E A) (f : A → Comp S E B) :
  preserves I m → (∀ a, preserves I (f a)) → preserves I (m ≫= f).
Proof.
  intros Hm Hf s Hs. rewrite bind_run. specialize (Hm s Hs).
  destruct (m s) as [[e|a] s']; [done|]. by apply Hf.
Qed.

Lemma preserves_fmap {A B} (m : Comp S E A) (f : A → B) :
  preserves I m → preserves I (f <$> m).
Proof. intros Hm. apply preserves_bind; [done|]. intros a. apply preserves_ret. Qed.

Lemma preserves_try {A} (m : Comp S E A) h :
  preserves I m → (∀ e k, h e = Some k → preserves I k) → preserves I (try_except m h).
Proof.
  intros Hm Hh s Hs. unfold try_except. specialize (Hm s Hs).
  destruct (m s) as [[e|a] s']; [|done].
  destruct (h e) as [k|] eqn:Hk; [|done]. by apply (Hh e k).
Qed.

Lemma preserves_for_each {A} (xs : list A) (body : A → Comp S E unit) :
  (∀ x, x ∈ xs → preserves I (body x)) → preserves I (for_each xs body).
Proof.
  induction xs as [|x xs IH]; intros Hb; simpl; [apply preserves_ret|].
  apply preserves_bind; [apply Hb; set_solver|]. intros _. apply IH. set_solver.
Qed.

Lemma preserves_map_each {A B} (xs : list A) (body : A → Comp S E B) :
  (∀ x, x ∈ xs → preserves I (body x)) → preserves I (map_each xs body).
Proof.
  induction xs as [|x xs IH]; intros Hb; simpl; [apply preserves_ret|].
  apply preserves_bind; [apply Hb; set_solver|]. intros y.
  apply preserves_bind; [apply IH; set_solver|]. intros ys. apply preserves_ret.
Qed.

Lemma preserves_fold_each {A B} (xs : list A) (body : B → A → Comp S E B) :
  (∀ b x, x ∈ xs → preserves I (body b x)) → ∀ b, preserves I (fold_each xs b body).
Proof.
  induction xs as [|x xs IH]; intros Hb b; simpl; [apply preserves_ret|].
  apply preserves_bind; [apply Hb; set_solver|]. intros y. apply IH. set_solver.
Qed.

(** A computation that only reads preserves everything. *)
Lemma preserves_reads {A} (m : Comp S E A) : (∀ s, snd (m s) = s) → preserves I m.
Proof. intros Hm s Hs. by rewrite Hm. Qed.

(** The continuation may use how the first step ran. *)
Lemma preserves_bind_run {A B} (m : Comp S E A) (f : A → Comp S E B) :
  preserves I m → (∀ s a s', I s → m s = (inr a, s') → preserves I (f a)) → preserves I (m ≫= f).
Proof.
  intros Hm Hf s Hs. rewrite bind_run. specialize (Hm s Hs).
  destruct (m s) as [[e|a] s'] eqn:Hrun; [done|]. by eapply Hf.
Qed.

Lemma preserves_guard (b : bool) (e : E) : preserves I (guard_or b e : Comp S E unit).
Proof. by destruct b; intros s Hs. Qed.
End Preserves.

Create HintDb preserves discriminated.
#[export] Hint Resolve preserves_ret preserves_raise preserves_fmap preserves_guard : preserves.

(** Walk down a handler, leaving the primitive steps. *)
Ltac preserves_step :=
  lazymatch goal with
  | |- preserves _ (_ ≫= _) => apply preserves_bind; [| intros ?]
  | |- preserves _ (mret _) => apply preserves_ret
  | |- preserves _ (raise _) => apply preserves_raise
  | |- preserves _ (guard_or _ _) => apply preserves_guard
  | |- preserves _ (_ <$> _) => apply preserves_fmap
  | |- preserves _ (for_each _ _) => apply preserves_for_each; intros ? ?
  | |- preserves _ (map_each _ _) => apply preserves_map_each; intros ? ?
  | |- preserves _ (fold_each _ _ _) => apply preserves_fold_each; intros ? ? ?
  | |- preserves _ (try_except _ _) => apply preserves_try; [| intros ? ? ?]
  | |- preserves _ (if ?b then _ else _) => destruct b eqn:?
  | |- preserves _ (match ?x with _ => _ end) => destruct x eqn:?
  end.
Ltac preserves_tac := repeat (first [ progress simplify_eq | preserves_step | solve [eauto with preserves] ]).

(** [keeps I m]: an invariant of the runs that return. Inside a transaction
    this is all that is needed, since a run that raises is undone. *)
Definition keeps {S E A} (I : S → Prop) (m : Comp S E A) : Prop :=
  ∀ s a s', I s → m s = (inr a, s') → I s'.

Section Keeps.
Context {S E : Type} (I : S → Prop).

Lemma keeps_ret {A} (a : A) : keeps I (mret a : Comp S E A).
Proof. by intros s b s' Hs [= _ <-]. Qed.

Lemma keeps_raise {A} (e : E) : keeps I (raise e : Comp S E A).
Proof. by intros s b s' Hs. Qed.

(** The continuation may use how the first step ran. *)
Lemma keeps_bind_run {A B} (m : Comp S E A) (f : A → Comp S E B) :
  keeps I m → (∀ s a s', I s → m s = (inr a, s') → keeps I (f a)) → keeps I (m ≫= f).
Proof.
  intros Hm Hf s b s' Hs (a & s1 & Hrun & Hrun')%bind_inv_inr.
  eapply Hf; [| |eapply Hm|]; eauto.
Qed.

Lemma keeps_bind {A B} (m : Comp S E A) (f : A → Comp S E B) :
  keeps I m → (∀ a, keeps I (f a)) → keeps I (m ≫= f).
Proof. intros Hm Hf. apply keeps_bind_run; eauto. Qed.

Lemma keeps_fmap {A B} (m : Comp S E A) (f : A → B) : keeps I m → keeps I (f <$> m).
Proof. intros Hm. apply keeps_bind; [done|]. intros a. apply keeps_ret. Qed.

Lemma keeps_for_each {A} (xs : list A) (body : A → Comp S E unit) :
  (∀ x, x ∈ xs → keeps I (body x)) → keeps I (for_each xs body).
Proof.
  induction xs as [|x xs IH]; intros Hb; simpl; [apply keeps_ret|].
  apply keeps_bind; [apply Hb; set_solver|]. intros _. apply IH. set_solver.
Qed.

Lemma keeps_map_each {A B} (xs : list A) (body : A → Comp S E B) :
  (∀ x, x ∈ xs → keeps I (body x)) → keeps I (map_each xs body).
Proof.
  induction xs as [|x xs IH]; intros Hb; simpl; [apply keeps_ret|].
  apply keeps_bind; [apply Hb; set_solver|]. intros y.
  apply keeps_bind; [apply IH; set_solver|]. intros ys. apply keeps_ret.
Qed.

Lemma keeps_fold_each {A B} (xs : list A) (body : B → A → Comp S E B) :
  (∀ b x, x ∈ xs → keeps I (body b x)) → ∀ b, keeps I (fold_each xs b body).
Proof.
  induction xs as [|x xs IH]; intros Hb b; simpl; [apply keeps_ret|].
  apply keeps_bind; [apply Hb; set_solver|]. intros y. apply IH. set_solver.
Qed.

Lemma keeps_guard (b : bool) (e : E) : keeps I (guard_or b e : Comp S E unit).
Proof. destruct b; [apply keeps_ret|apply keeps_raise]. Qed.

(** A computation that only reads keeps everything. *)
Lemma keeps_reads {A} (m : Comp S E A) : (∀ s, snd (m s) = s) → keeps I m.
Proof. intros Hm s a s' Hs Hrun. specialize (Hm s). rewrite Hrun in Hm. by simpl in Hm; subst. Qed.
End Keeps.

Create HintDb keeps discriminated.
#[export] Hint Resolve keeps_ret keeps_raise keeps_guard : keeps.

Ltac keeps_step :=
  lazymatch goal with
  | |- keeps _ (_ ≫= _) => apply keeps_bind; [| intros ?]
  | |- keeps _ (_ <$> _) => apply keeps_fmap
  | |- keeps _ (for_each _ _) => apply keeps_for_each; intros ? ?
  | |- keeps _ (map_each _ _) => apply keeps_map_each; intros ? ?
  | |- keeps _ (fold_each _ _ _) => apply keeps_fold_each; intros ? ? ?
  | |- keeps _ (if ?b then _ else _) => destruct b eqn:?
  | |- keeps _ (match ?x with _ => _ end) => destruct x eqn:?
  end.
Ltac keeps_tac := repeat (first [ progress simplify_eq | keeps_step | solve [eauto with keeps] ]).

(** [obeys R m]: a run that returns relates the states before and after by the
    preorder [R]. *)
Definition obeys {S E A} (R : S → S → Prop) (m : Comp S E A) : Prop :=
  ∀ s a s', m s = (inr a, s') → R s s'.

Section Obeys.
Context {S E : Type} (R : S → S → Prop) `{!PreOrder R}.

Lemma obeys_reads {A} (m : Comp S E A) : (∀ s, snd (m s) = s) → obeys R m.
Proof. intros Hm s a s' Hrun. specialize (Hm s). rewrite Hrun in Hm. by simpl in Hm; subst. Qed.

Lemma obeys_ret {A} (a : A) : obeys R (mret a : Comp S E A).
Proof. by apply obeys_reads. Qed.

Lemma obeys_raise {A} (e : E) : obeys R (raise e : Comp S E A).
Proof. by apply obeys_reads. Qed.

Lemma obeys_guard (b : bool) (e : E) : obeys R (guard_or b e : Comp S E unit).
Proof. by apply obeys_reads; destruct b. Qed.

Lemma obeys_bind {A B} (m : Comp S E A) (f : A → Comp S E B) :
  obeys R m → (∀ a, obeys R (f a)) → obeys R (m ≫= f).
Proof.
  intros Hm Hf s b s' (a & s1 & Hrun & Hrun')%bind_inv_inr.
  transitivity s1; [by eapply Hm|by eapply Hf].
Qed.

Lemma obeys_fmap {A B} (m : Comp S E A) (f : A → B) : obeys R m → obeys R (f <$> m).
Proof. intros Hm. apply obeys_bind; [done|]. intros a. apply obeys_ret. Qed.

Lemma obeys_for_each {A} (xs : list A) (body : A → Comp S E unit) :
  (∀ x, obeys R (body x)) → obeys R (for_each xs body).
Proof.
  intros Hb. induction xs as [|x xs IH]; simpl; [apply obeys_ret|]. apply obeys_bind; auto.
Qed.

Lemma obeys_map_each {A B} (xs : list A) (body : A → Comp S E B) :
  (∀ x, obeys R (body x)) → obeys R (map_each xs body).
Proof.
  intros Hb. induction xs as [|x xs IH]; simpl; [apply obeys_ret|].
  apply obeys_bind; [auto|]. intros y. apply obeys_bind; [done|]. intros ys. apply obeys_ret.
Qed.

Lemma obeys_fold_each {A B} (xs : list A) (body : B → A → Comp S E B) :
  (∀ b x, obeys R (body b x)) → ∀ b, obeys R (fold_each xs b body).
Proof.
  intros Hb. induction xs as [|x xs IH]; intros b; simpl; [apply obeys_ret|].
  apply obeys_bind; auto.
Qed.
End Obeys.

Create HintDb obeys discriminated.

Ltac obeys_step :=
  lazymatch goal with
  | |- obeys _ (_ ≫= _) => apply obeys_bind; [typeclasses eauto| | intros ?]
  | |- obeys _ (mret _) => apply obeys_ret; typeclasses eauto
  | |- obeys _ (raise _) => apply obeys_raise; typeclasses eauto
  | |- obeys _ (guard_or _ _) => apply obeys_guard; typeclasses eauto
  | |- obeys _ (_ <$> _) => apply obeys_fmap; [typeclasses eauto|]
  | |- obeys _ (for_each _ _) => apply obeys_for_each; [typeclasses eauto|]; intros ?
  | |- obeys _ (map_each _ _) => apply obeys_map_each; [typeclasses eauto|]; intros ?
  | |- obeys _ (fold_each _ _ _) => apply obeys_fold_each; [typeclasses eauto|]; intros ? ?
  | |- obeys _ (if ?b then _ else _) => destruct b eqn:?
  | |- obeys _ (match ?x with _ => _ end) => destruct x eqn:?
  end.
Ltac obeys_tac := repeat (first [ solve [eauto with obeys] | obeys_step ]).

(** *** Inverting a run

    [comp_inv] decomposes hypotheses [m s = (inr a, s')] along the syntax of
    the computation and substitutes what each primitive step determines. *)
Ltac comp_inv_step :=
  match goal with
  | H : (_ ≫= _) _ = (inr _, _) |- _ =>
    apply bind_inv_inr in H; destruct H as (? & ? & ? & H)
  | H : mret tt _ = (inr tt, _) |- _ => injection H as ?; try subst
  | H : mret _ _ = (inr _, _) |- _ => injection H as ? ?; try subst
  | H : raise _ _ = (inr _, _) |- _ => discriminate H
  | H : (inr _, _) = (inr _, _) |- _ => injection H as ? ?; try subst
  | H : (inl _, _) = (inr _, _) |- _ => discriminate H
  | H : guard_or ?b _ _ = (inr _, _) |- _ =>
    unfold guard_or in H; destruct b eqn:?; [injection H as ?; subst | discriminate H]
  | H : (if ?b then _ else _) _ = (inr _, _) |- _ => destruct b eqn:?
  | H : (match ?x with _ => _ end) _ = (inr _, _) |- _ => destruct x eqn:?
  end.
Ltac comp_inv := repeat (comp_inv_step; simpl in *).

(** ** Lists *)

Section Lists.
Context {A : Type}.
Implicit Types (l : list A) (p : A → bool).

Definition filterb p l : list A := filter (λ a, p a = true) l.

Lemma elem_of_filterb p l a : a ∈ filterb p l ↔ p a = true ∧ a ∈ l.
Proof. unfold filterb. by rewrite list_elem_of_filter. Qed.

Lemma filterb_nil p l : (∀ a, a ∈ l → p a = false) → filterb p l = [].
Proof.
  induction l as [|a l IH]; intros H; [done|]. unfold filterb in *. rewrite filter_cons.
  rewrite decide_False by (rewrite (H a); [done|set_solver]). apply IH. set_solver.
Qed.

Lemma filterb_cons p a l : filterb p (a :: l) = if p a then a :: filterb p l else filterb p l.
Proof.
  unfold filterb. rewrite filter_cons.
  destruct (p a) eqn:Hp; [by rewrite decide_True | by rewrite decide_False].
Qed.

Lemma filterb_ext p q l : (∀ a, a ∈ l → p a = q a) → filterb p l = filterb q l.
Proof.
  induction l as [|a l IH]; intros H; [done|].
  rewrite !filterb_cons, (H a), IH by set_solver. done.
Qed.

Lemma filterb_all p l : (∀ a, a ∈ l → p a = true) → filterb p l = l.
Proof. induction l as [|a l IH]; intros H; [done|]. rewrite filterb_cons, H, IH by set_solver. done. Qed.

Lemma filterb_twice p q l : filterb p (filterb q l) = filterb (λ a, p a && q a) l.
Proof.
  induction l as [|a l IH]; [done|]. rewrite !filterb_cons.
  destruct (q a); rewrite ?filterb_cons, ?andb_true_r, ?andb_false_r, IH; done.
Qed.

Definition findb p l : option A := head (filterb p l).

Lemma findb_cons p a l : findb p (a :: l) = if p a then Some a else findb p l.
Proof.
  unfold findb, filterb. rewrite filter_cons.
  destruct (p a) eqn:Hp; case_decide; by simplify_eq/=.
Qed.

Lemma findb_Some p l a : findb p l = Some a → p a = true ∧ a ∈ l.
Proof.
  induction l as [|b l IH]; [done|]. rewrite findb_cons.
  destruct (p b) eqn:Hp.
  - intros [= ->]. set_solver.
  - intros H. destruct (IH H). set_solver.
Qed.

Lemma findb_None p l : findb p l = None ↔ ∀ a, a ∈ l → p a = false.
Proof.
  induction l as [|b l IH]; [set_solver|]. rewrite findb_cons.
  destruct (p b) eqn:Hp; split.
  - done.
  - intros H. specialize (H b). rewrite Hp in H. set_solver.
  - intros H a Ha. apply elem_of_cons in Ha as [->|Ha]; [done|]. by apply IH.
  - intros H. apply IH. set_solver.
Qed.

Lemma findb_is_Some p l a : a ∈ l → p a = true → is_Some (findb p l).
Proof.
  intros Ha Hp. destruct (findb p l) eqn:Hf; [eauto|].
  rewrite findb_None in Hf. rewrite (Hf a Ha) in Hp. done.
Qed.

Lemma findb_app p l1 l2 :
  findb p (l1 ++ l2) = match findb p l1 with Some a => Some a | None => findb p l2 end.
Proof.
  induction l1 as [|b l1 IH]; [done|]. simpl. rewrite !findb_cons.
  by destruct (p b).
Qed.

Lemma findb_ext p q l : (∀ a, a ∈ l → p a = q a) → findb p l = findb q l.
Proof.
  induction l as [|b l IH]; intros H; [done|]. rewrite !findb_cons.
  rewrite (H b) by set_solver. destruct (q b); [done|]. apply IH. set_solver.
Qed.

(** A list whose elements satisfying [p] are all equal to [a]. *)
Lemma findb_unique p l a :
  a ∈ l → p a = true → (∀ b, b ∈ l → p b = true → b = a) → findb p l = Some a.
Proof.
  intros Ha Hp Hu. destruct (findb_is_Some p l a Ha Hp) as [b Hb].
  rewrite Hb. apply findb_Some in Hb as [Hpb Hb]. f_equal. by apply Hu.
Qed.

(** [UPDATE ... SET f WHERE p] on a list of rows. *)
Definition update_list p (f : A → A) l : list A := map (λ a, if p a then f a else a) l.

Lemma update_list_cons p f a l :
  update_list p f (a :: l) = (if p a then f a else a) :: update_list p f l.
Proof. done. Qed.

Lemma update_list_twice p f g l :
  (∀ a, a ∈ l → p (f a) = p a) → update_list p g (update_list p f l) = update_list p (λ a, g (f a)) l.
Proof.
  induction l as [|a l IH]; intros H; [done|]. rewrite !update_list_cons, IH by set_solver.
  destruct (p a) eqn:Hp; [rewrite H, Hp by set_solver|rewrite Hp]; done.
Qed.

Lemma elem_of_update_list p f l b :
  b ∈ update_list p f l ↔ ∃ a, a ∈ l ∧ b = if p a then f a else a.
Proof. unfold update_list. rewrite list_elem_of_fmap. naive_solver. Qed.

Lemma update_list_app p f l1 l2 :
  update_list p f (l1 ++ l2) = update_list p f l1 ++ update_list p f l2.
Proof. apply map_app. Qed.

Lemma update_list_id p f l : (∀ a, a ∈ l → p a = true → f a = a) → update_list p f l = l.
Proof.
  induction l as [|a l IH]; intros H; [done|]. rewrite update_list_cons, IH by set_solver.
  destruct (p a) eqn:Hp; [|done]. rewrite H by set_solver. done.
Qed.

(** Finding after an update that does not change what is looked for. *)
Lemma findb_update_list p f q l :
  (∀ a, a ∈ l → p a = true → q (f a) = q a) →
  findb q (update_list p f l) = (λ a, if p a then f a else a) <$> findb q l.
Proof.
  induction l as [|a l IH]; intros H; [done|]. rewrite update_list_cons, !findb_cons.
  destruct (p a) eqn:Hp.
  - rewrite H by (done || set_solver). destruct (q a); simpl; [by rewrite Hp|].
    apply IH. set_solver.
  - destruct (q a); simpl; [by rewrite Hp|]. apply IH. set_solver.
Qed.

Lemma elem_of_filterb_negb p l a : a ∈ filterb (λ a, negb (p a)) l → p a = false ∧ a ∈ l.
Proof. intros [Hp Ha]%elem_of_filterb. by apply negb_true_iff in Hp. Qed.

(** Rows an update or a deletion does not touch. *)
Lemma filterb_delete p q l :
  (∀ a, a ∈ l → q a = true → p a = false) → filterb p (filterb (λ a, negb (q a)) l) = filterb p l.
Proof.
  unfold filterb. induction l as [|a l IH]; intros H; [done|].
  rewrite (filter_cons (λ a, negb (q a) = true)), (filter_cons (λ a, p a = true) a l).
  specialize (IH ltac:(set_solver)). destruct (q a) eqn:Hq.
  - rewrite decide_False by done. rewrite (H a) by set_solver. by rewrite decide_False.
  - rewrite decide_True by done. rewrite filter_cons. by rewrite IH.
Qed.

Lemma filterb_update p q f l :
  (∀ a, a ∈ l → q a = true → p a = false ∧ p (f a) = false) →
  filterb p (update_list q f l) = filterb p l.
Proof.
  induction l as [|a l IH]; intros H; [done|].
  rewrite update_list_cons. unfold filterb in *. rewrite !filter_cons, IH by set_solver.
  destruct (q a) eqn:Hq; [|done]. destruct (H a) as [-> ->]; [set_solver|done|].
  by rewrite !decide_False.
Qed.

Lemma Forall_update_list (P : A → Prop) p f l :
  Forall P l → (∀ a, a ∈ l → p a = true → P a → P (f a)) → Forall P (update_list p f l).
Proof.
  intros Hl Hf. apply Forall_forall. intros b (a & Ha & ->)%elem_of_update_list.
  rewrite Forall_forall in Hl. destruct (p a) eqn:Hp; eauto.
Qed.
End Lists.

(** [ORDER BY]: a stable insertion sort. *)
Section Sorting.
Context {A : Type} (le : A → A → bool).

Fixpoint insert_sorted (a : A) (l : list A) : list A :=
  match l with
  | [] => [a]
  | b :: l' => if le a b then a :: l else b :: insert_sorted a l'
  end.
Definition order_by (l : list A) : list A := foldr insert_sorted [] l.

Lemma insert_sorted_perm a l : insert_sorted a l ≡ₚ a :: l.
Proof.
  induction l as [|b l IH]; simpl; [done|]. destruct (le a b); [done|].
  rewrite IH. apply Permutation_swap.
Qed.

Lemma order_by_perm l : order_by l ≡ₚ l.
Proof. induction l as [|a l IH]; simpl; [done|]. by rewrite insert_sorted_perm, IH. Qed.

Lemma elem_of_order_by l a : a ∈ order_by l ↔ a ∈ l.
Proof. by rewrite order_by_perm. Qed.

(** [ORDER BY ... LIMIT 1]: the row comes before every other. *)
Lemma order_by_head l x :
  (∀ a b, le a b = true ∨ le b a = true) →
  (∀ a b c, le a b = true → le b c = true → le a c = true) →
  head (order_by l) = Some x → x ∈ l ∧ ∀ y, y ∈ l → le x y = true.
Proof.
  intros Htotal Htrans Hx. split; [by apply elem_of_order_by, head_Some_elem_of|].
  assert (Hrefl : ∀ a, le a a = true) by (intros a; by destruct (Htotal a a)).
  revert x Hx. induction l as [|a l IH]; [done|]. simpl. intros x Hx.
  destruct (order_by l) as [|b m] eqn:Hm; simpl in Hx.
  - injection Hx as <-. intros y [->|Hy]%elem_of_cons; [done|].
    apply elem_of_order_by in Hy. rewrite Hm in Hy. set_solver.
  - specialize (IH b eq_refl). destruct (le a b) eqn:Hab; injection Hx as <-;
      intros y [->|Hy]%elem_of_cons; eauto.
    destruct (Htotal a b); congruence || done.
Qed.

Lemma order_by_head_None l : head (order_by l) = None → l = [].
Proof.
  destruct (order_by l) eqn:Hl; [|done]. intros _. apply Permutation_nil_r.
  by rewrite <- (order_by_perm l), Hl.
Qed.
End Sorting.

#[global] Arguments filterb {A} p l : simpl never.
#[global] Arguments findb {A} p l : simpl never.
#[global] Arguments update_list {A} p f l : simpl never.

Lemma existsb_elem {A} (p : A → bool) l : existsb p l = true ↔ ∃ a, a ∈ l ∧ p a = true.
Proof. rewrite existsb_exists. by setoid_rewrite list_elem_of_In. Qed.

Lemma map_update_list {A B} (g : A → B) p f (l : list A) :
  (∀ a, a ∈ l → p a = true → g (f a) = g a) → map g (update_list p f l) = map g l.
Proof.
  induction l as [|a l IH]; intros H; [done|]. rewrite update_list_cons; simpl. rewrite IH by set_solver.
  destruct (p a) eqn:Hp; [|done]. rewrite H by set_solver. done.
Qed.

(** ** Booleans in proofs *)

(** Turn the boolean tests of the code in the hypotheses and the goal into
    propositions. *)
Ltac bool_to_prop :=
  repeat match goal with
  | H : _ && _ = true |- _ => apply andb_prop in H; destruct H
  | H : _ || _ = false |- _ => apply orb_false_iff in H; destruct H
  | H : negb _ = true |- _ => apply negb_true_iff in H
  | H : negb _ = false |- _ => apply negb_false_iff in H
  | H : bool_decide _ = true |- _ => apply bool_decide_eq_true in H
  | H : bool_decide _ = false |- _ => apply bool_decide_eq_false in H
  | H : (_ <=? _) = true |- _ => apply Z.leb_le in H
  | H : (_ <=? _) = false |- _ => apply Z.leb_gt in H
  | H : (_ <? _) = true |- _ => apply Z.ltb_lt in H
  | H : (_ <? _) = false |- _ => apply Z.ltb_ge in H
  | H : is_none ?o = true |- _ => destruct o eqn:?; [discriminate H | clear H]
  | H : is_none ?o = false |- _ => destruct o eqn:?; [clear H | discriminate H]
  end.
