(* ===== verification/Floats.v ===== *)
(** * Floating point numbers

    Python's [float] is the 64-bit number of IEEE 754, computed here by the
    executable specification of the Standard Library. [max], [min], [sum] and
    [round] are those of Python. *)

From Stdlib Require Import SpecFloat.
From S2P Require Import Prelude.

Local Open Scope Z_scope.
Local Open Scope nevo_scope.

Definition float : Type := spec_float.

#[export] Instance float_eq_dec : EqDecision float.
Proof. unfold float. solve_decision. Defined.

Declare Scope float_scope.
Delimit Scope float_scope with F.
Bind Scope float_scope with float.

Definition f_add : float → float → float := SFadd 53 1024.
Definition f_sub : float → float → float := SFsub 53 1024.
Definition f_mul : float → float → float := SFmul 53 1024.
Definition f_quot : float → float → float := SFdiv 53 1024.
Definition f_lt (a b : float) : bool := SFltb a b.
Definition f_le (a b : float) : bool := SFleb a b.

Notation "a + b" := (f_add a b) : float_scope.
Notation "a - b" := (f_sub a b) : float_scope.
Notation "a * b" := (f_mul a b) : float_scope.
Notation "a <? b" := (f_lt a b) : float_scope.
Notation "a <=? b" := (f_le a b) : float_scope.

(** An integer as a float, and the literal [n/d]: the float next to it. *)
Definition f_of_Z (z : Z) : float := binary_normalize 53 1024 z 0 false.
Definition f_ratio (n d : Z) : float := f_quot (f_of_Z n) (f_of_Z d).

Definition f_zero : float := f_of_Z 0.
Definition f_one : float := f_of_Z 1.

(** [bool(x)] is false for the two zeros only. *)
Definition f_truthy (x : float) : bool := match x with S754_zero _ => false | _ => true end.

(** [a / b]; [None] is the [ZeroDivisionError]. *)
Definition f_div (a b : float) : option float := if f_truthy b then Some (f_quot a b) else None.

(** [max(a, b)] keeps [a] unless [b] is greater, [min(a, b)] unless it is
    less. *)
Definition f_max (a b : float) : float := if f_lt a b then b else a.
Definition f_min (a b : float) : float := if f_lt b a then b else a.

Definition f_finite (x : float) : bool := match x with S754_zero _ | S754_finite _ _ _ => true | _ => false end.

(** [sum] of floats carries along what rounding lost (Neumaier), and adds it
    at the end when that is a number. *)
Fixpoint f_sum_from (total lost : float) (xs : list float) : float :=
  match xs with
  | [] => if f_truthy lost && f_finite lost then (total + lost)%F else total
  | x :: xs' =>
    let t := (total + x)%F in
    let lost := if f_le (SFabs x) (SFabs total) then (lost + ((total - t) + x))%F
                else (lost + ((x - t) + total))%F in
    f_sum_from t lost xs'
  end.
Definition f_sum (xs : list float) : float :=
  match xs with [] => f_zero | x :: xs' => f_sum_from (f_zero + x)%F f_zero xs' end.

(** The integer nearest to [n / 2^k], a tie going to the even one. *)
Definition round_shift (n : Z) (k : Z) : Z :=
  let q := Z.shiftr n k in
  let twice := 2 * (n - Z.shiftl q k) in
  let unit := Z.shiftl 1 k in
  if (unit <? twice) || ((twice =? unit) && Z.odd q) then q + 1 else q.

(** [round(x, n)]: the float next to the nearest multiple of [10^-n]. *)
Definition f_round (n : Z) (x : float) : float :=
  match x with
  | S754_finite s m e =>
    let scale := 10 ^ n in
    let k := Z.pos m * scale in
    let q := if 0 <=? e then Z.shiftl k e else round_shift k (- e) in
    match q, scale with
    | Z.pos p, Z.pos d => f_quot (S754_finite s p 0) (S754_finite false d 0)
    | _, _ => S754_zero s
    end
  | _ => x
  end.

(** [round(x)] and [int(x)] of a number; [None] for infinities and NaN. *)
Definition f_signed (s : bool) (z : Z) : Z := if s then - z else z.
Definition f_round_int (x : float) : option Z :=
  match x with
  | S754_zero _ => Some 0
  | S754_finite s m e =>
    Some (f_signed s (if 0 <=? e then Z.shiftl (Z.pos m) e else round_shift (Z.pos m) (- e)))
  | _ => None
  end.
Definition f_trunc (x : float) : option Z :=
  match x with
  | S754_zero _ => Some 0
  | S754_finite s m e => Some (f_signed s (Z.shiftl (Z.pos m) e))
  | _ => None
  end.

Example float_examples :
  f_ratio 1 5 = S754_finite false 7205759403792794 (-55) ∧
  (f_ratio 1 10 + f_ratio 2 10)%F ≠ f_ratio 3 10 ∧
  f_sum (replicate 10 (f_ratio 1 10)) = f_one ∧
  f_round 6 (f_ratio 2 3) = f_ratio 666667 1000000 ∧
  f_round 6 (f_ratio 5 10000000) = f_zero ∧
  f_round 2 (f_ratio 565 100) = f_ratio 565 100 ∧ f_round 2 (f_ratio 2675 1000) = f_ratio 267 100 ∧
  f_round_int (f_ratio 5 2) = Some 2 ∧ f_round_int (f_ratio (-7) 2) = Some (-4) ∧ f_trunc (f_ratio (-7) 2) = Some (-3) ∧
  f_div f_one f_zero = None ∧ f_max f_zero S754_nan = f_zero.
Proof. split_and!; try reflexivity; vm_compute; done. Qed.
