(* ===== verification/Relational.v ===== *)
(** * Tables, statements and transactions

    The database as the repositories use it: a family of tables, each the list
    of its rows in insertion order, the statements the code issues (select,
    insert, update, delete), and [async with session.begin()] as
    [transaction]: the block either commits a state that satisfies every
    declared constraint, or leaves the state it started from.

    The file is generic in the set of tables [T] and in the row type of each
    table; [Schema] instantiates it with the tables of [src/nevo/db/models]. *)

From S2P Require Import Prelude.

(** A schema: a closed set of tables, the type of their rows, the primary key
    of a row, and the declared constraints of a table, as a decision on its
    rows. [all_tables] lists every table once. *)
Class Schema (T : Type) := {
  schema_eq_dec :: EqDecision T;
  row : T → Type;
  row_id : ∀ t, row t → uuid;
  table_ok : ∀ t, list (row t) → bool;
  all_tables : list T;
  all_tables_complete : ∀ t, t ∈ all_tables
}.

(** The database: its tables, a supply of identifiers standing for [uuid4()]
    and [gen_random_uuid()] (values are never repeated), and the database
    clock read by [func.now()]. *)
Record Db (T : Type) `{Schema T} := mkDb {
  db_tables : ∀ t, list (row t);
  db_uuids : uuid;
  db_now : datetime
}.
Arguments mkDb {_ _} _ _ _.
Arguments db_tables {_ _} _ _.
Arguments db_uuids {_ _} _.
Arguments db_now {_ _} _.

Section Relational.
Context {T : Type} `{Schema T} {E : Type}.
Implicit Types (t : T) (db : Db T).

Definition set_table t (l : list (row t)) db : Db T :=
  mkDb (λ t', match decide (t = t') with
              | left e => eq_rect t (λ u, list (row u)) l t' e
              | right _ => db_tables db t'
              end)
       (db_uuids db) (db_now db).

Lemma set_table_eq t l db : db_tables (set_table t l db) t = l.
Proof.
  unfold set_table; simpl. destruct (decide (t = t)) as [e|]; [|done].
  rewrite (proof_irrel e eq_refl). done.
Qed.

Lemma set_table_ne t t' l db :
  t ≠ t' → db_tables (set_table t l db) t' = db_tables db t'.
Proof. intros Hne. unfold set_table; simpl. by destruct (decide (t = t')). Qed.

Lemma set_table_uuids t l db : db_uuids (set_table t l db) = db_uuids db.
Proof. done. Qed.

Lemma set_table_now t l db : db_now (set_table t l db) = db_now db.
Proof. done. Qed.

(** *** Statements *)

Definition rows t : Comp (Db T) E (list (row t)) := λ db, (inr (db_tables db t), db).

(** [select(t).where(p)] *)
Definition select t (p : row t → bool) : Comp (Db T) E (list (row t)) := λ db,
  (inr (filterb p (db_tables db t)), db).

(** [session.scalar(select(t).where(p))]: the first matching row. *)
Definition scalar t (p : row t → bool) : Comp (Db T) E (option (row t)) := λ db,
  (inr (findb p (db_tables db t)), db).

(** [session.get(t, id)] *)
Definition get t (i : uuid) : Comp (Db T) E (option (row t)) :=
  scalar t (λ r, row_id t r == i).

(** [session.add(t(...))] *)
Definition insert t (r : row t) : Comp (Db T) E unit := λ db,
  (inr tt, set_table t (db_tables db t ++ [r]) db).

(** [update(t).where(p).values(f)] *)
Definition update_where t (p : row t → bool) (f : row t → row t) : Comp (Db T) E unit := λ db,
  (inr tt, set_table t (update_list p f (db_tables db t)) db).

(** Assignments to the attributes of a loaded object: its row becomes [r]. *)
Definition save t (r : row t) : Comp (Db T) E unit :=
  update_where t (λ r', row_id t r' == row_id t r) (λ _, r).

(** [delete(t).where(p)] *)
Definition delete_where t (p : row t → bool) : Comp (Db T) E unit := λ db,
  (inr tt, set_table t (filterb (λ r, negb (p r)) (db_tables db t)) db).

Definition uuid4 : Comp (Db T) E uuid := λ db,
  (inr (db_uuids db), mkDb (db_tables db) (db_uuids db + 1) (db_now db)).

(** [func.now()] *)
Definition func_now : Comp (Db T) E datetime := λ db, (inr (db_now db), db).

(** *** Constraints and transactions *)

Definition db_ok db : bool := forallb (λ t, table_ok t (db_tables db t)) all_tables.

Lemma db_ok_spec db : db_ok db = true ↔ ∀ t, table_ok t (db_tables db t) = true.
Proof.
  unfold db_ok. rewrite forallb_forall. split.
  - intros Hall t. apply Hall. apply list_elem_of_In, all_tables_complete.
  - intros Hall t _. apply Hall.
Qed.

Lemma db_ok_set_table t l db :
  db_ok db = true → table_ok t l = true → db_ok (set_table t l db) = true.
Proof.
  rewrite !db_ok_spec. intros Hdb Hl t'. destruct (decide (t = t')) as [<-|Hne].
  - by rewrite set_table_eq.
  - by rewrite set_table_ne.
Qed.

(** [await session.flush()]: the pending writes reach the database, which
    refuses them when a constraint fails. *)
Definition flush (integrity_error : E) : Comp (Db T) E unit := λ db,
  if db_ok db then (inr tt, db) else (inl integrity_error, db).

(** [async with self._sessions.begin() as session:] *)
Definition transaction (integrity_error : E) {A} (m : Comp (Db T) E A) : Comp (Db T) E A := λ db,
  match m db with
  | (inl e, _) => (inl e, db)
  | (inr a, db') => if db_ok db' then (inr a, db') else (inl integrity_error, db)
  end.

(** A transaction that raises changes nothing; one that returns leaves a
    database on which every constraint holds. *)
Lemma transaction_raise e {A} (m : Comp (Db T) E A) db x db' :
  transaction e m db = (inl x, db') → db' = db.
Proof.
  unfold transaction. destruct (m db) as [[y|a] db1]; [by intros [= _ ->]|].
  destruct (db_ok db1); by intros [= _ ->].
Qed.

Lemma transaction_commit e {A} (m : Comp (Db T) E A) db a db' :
  transaction e m db = (inr a, db') → m db = (inr a, db') ∧ db_ok db' = true.
Proof.
  unfold transaction. destruct (m db) as [[y|b] db1] eqn:Hm; [done|].
  destruct (db_ok db1) eqn:Hok; intros [= <- <-]. eauto.
Qed.

Lemma transaction_ok e {A} (m : Comp (Db T) E A) db a db' :
  m db = (inr a, db') → db_ok db' = true → transaction e m db = (inr a, db').
Proof. intros Hm Hok. unfold transaction. by rewrite Hm, Hok. Qed.

Lemma transaction_inl e {A} (m : Comp (Db T) E A) db x db1 :
  m db = (inl x, db1) → transaction e m db = (inl x, db).
Proof. intros Hm. unfold transaction. by rewrite Hm. Qed.

Lemma transaction_commit_bind e {A B} (m : Comp (Db T) E A) (f : A → Comp (Db T) E B) db b db' :
  transaction e (m ≫= f) db = (inr b, db') →
  ∃ a db1, m db = (inr a, db1) ∧ f a db1 = (inr b, db').
Proof. intros [Hrun _]%transaction_commit. by apply bind_inv_inr. Qed.

Lemma transaction_preserves_ok e {A} (m : Comp (Db T) E A) :
  preserves (λ db, db_ok db = true) (transaction e m).
Proof.
  intros db Hdb. unfold transaction. destruct (m db) as [[y|a] db1]; [done|].
  by destruct (db_ok db1) eqn:Hok.
Qed.

Lemma preserves_transaction (I : Db T → Prop) e {A} (m : Comp (Db T) E A) :
  preserves I m → preserves I (transaction e m).
Proof.
  intros Hm db Hdb. unfold transaction. specialize (Hm db Hdb).
  destruct (m db) as [[y|a] db1]; [done|]. by destruct (db_ok db1).
Qed.

(** *** Uniqueness *)

(** A [UNIQUE] constraint on the non-null values of a key. *)
Definition unique_on {R K} `{EqDecision K} (key : R → option K) (l : list R) : bool :=
  bool_decide (NoDup (omap key l)).

Lemma unique_on_spec {R K} `{EqDecision K} (key : R → option K) (l : list R) :
  unique_on key l = true ↔ NoDup (omap key l).
Proof. unfold unique_on. by rewrite bool_decide_eq_true. Qed.

Lemma elem_of_omap_key {R K} (key : R → option K) (l : list R) k :
  k ∈ omap key l ↔ ∃ r, r ∈ l ∧ key r = Some k.
Proof. rewrite list_elem_of_omap. naive_solver. Qed.

Lemma unique_on_snoc {R K} `{EqDecision K} (key : R → option K) (l : list R) r :
  unique_on key l = true →
  (∀ k, key r = Some k → ∀ r', r' ∈ l → key r' ≠ Some k) →
  unique_on key (l ++ [r]) = true.
Proof.
  rewrite !unique_on_spec. intros Hl Hr. rewrite omap_app. apply NoDup_app.
  split; [done|]. split.
  - intros k Hk Hk'. apply elem_of_omap_key in Hk as (r' & Hr' & Hkey).
    apply elem_of_omap_key in Hk' as (r'' & ->%list_elem_of_singleton & Hkey').
    by eapply Hr.
  - simpl. destruct (key r); [apply NoDup_singleton | apply NoDup_nil_2].
Qed.

Lemma omap_list_cons {R K} (key : R → option K) r l :
  omap key (r :: l) = match key r with Some k => k :: omap key l | None => omap key l end.
Proof. done. Qed.

Lemma omap_update_list {R K} (key : R → option K) p (f : R → R) (l : list R) :
  (∀ r, r ∈ l → p r = true → key (f r) = key r) →
  omap key (update_list p f l) = omap key l.
Proof.
  induction l as [|r l IH]; intros Hf; [done|].
  rewrite update_list_cons, !omap_list_cons, IH by set_solver.
  destruct (p r) eqn:Hp; [|done]. by rewrite Hf by (done || set_solver).
Qed.

Lemma unique_on_update {R K} `{EqDecision K} (key : R → option K) p (f : R → R) (l : list R) :
  unique_on key l = true →
  (∀ r, r ∈ l → p r = true → key (f r) = key r) →
  unique_on key (update_list p f l) = true.
Proof. rewrite !unique_on_spec. intros Hl Hf. by rewrite omap_update_list. Qed.

(** Dropping keys keeps uniqueness: the update may clear the key of a row
    (a partial unique index the row leaves), or keep it. *)
Lemma unique_on_update_drop {R K} `{EqDecision K} (key : R → option K) p (f : R → R) (l : list R) :
  unique_on key l = true →
  (∀ r, r ∈ l → p r = true → key (f r) = key r ∨ key (f r) = None) →
  unique_on key (update_list p f l) = true.
Proof.
  rewrite !unique_on_spec. intros Hl Hf.
  eapply sublist_NoDup; [exact Hl|]. clear Hl.
  induction l as [|r l IH]; [done|]. rewrite update_list_cons, !omap_list_cons.
  assert (omap key (update_list p f l) `sublist_of` omap key l) by (apply IH; set_solver).
  destruct (p r) eqn:Hp.
  - destruct (Hf r) as [->| ->]; [set_solver|done|..].
    + destruct (key r); [by constructor|done].
    + destruct (key r); [by constructor|done].
  - destruct (key r); [by constructor|done].
Qed.

Lemma unique_on_filter {R K} `{EqDecision K} (key : R → option K) p (l : list R) :
  unique_on key l = true → unique_on key (filterb p l) = true.
Proof.
  rewrite !unique_on_spec. intros Hl. eapply sublist_NoDup; [exact Hl|]. clear Hl.
  induction l as [|r l IH]; [done|]. unfold filterb in *. rewrite filter_cons.
  case_decide; rewrite ?omap_list_cons; destruct (key r); try done; by constructor; apply IH.
Qed.

(** Two rows with the same non-null unique key are the same row. *)
Lemma unique_on_eq {R K} `{EqDecision K} (key : R → option K) (l : list R) r1 r2 k :
  unique_on key l = true → r1 ∈ l → r2 ∈ l →
  key r1 = Some k → key r2 = Some k → r1 = r2.
Proof.
  rewrite unique_on_spec. induction l as [|r l IH]; [set_solver|].
  intros Hnd H1 H2 Hk1 Hk2. rewrite omap_list_cons in Hnd.
  assert (∀ x, x ∈ l → key x = Some k → key r = Some k → False) as Hhead.
  { intros x Hx Hkx Hkr. rewrite Hkr in Hnd. apply NoDup_cons in Hnd as [Hnin _].
    apply Hnin. apply elem_of_omap_key. eauto. }
  assert (NoDup (omap key l)) by (destruct (key r); [by apply NoDup_cons in Hnd as [??]|done]).
  apply elem_of_cons in H1 as [->|H1]; apply elem_of_cons in H2 as [->|H2]; eauto.
  - exfalso. eauto.
  - exfalso. eauto.
Qed.
End Relational.

Arguments rows {T _ E} t.
Arguments select {T _ E} t p.
Arguments scalar {T _ E} t p.
Arguments get {T _ E} t i.
Arguments insert {T _ E} t r.
Arguments update_where {T _ E} t p f.
Arguments save {T _ E} t r.
Arguments delete_where {T _ E} t p.

#[global] Opaque set_table.

Lemma db_tables_mk {T} `{Schema T} (f : ∀ t, list (row t)) u n t : db_tables (mkDb f u n) t = f t.
Proof. done. Qed.
Lemma db_uuids_mk {T} `{Schema T} (f : ∀ t, list (row t)) u n : db_uuids (mkDb f u n) = u.
Proof. done. Qed.
Lemma db_now_mk {T} `{Schema T} (f : ∀ t, list (row t)) u n : db_now (mkDb f u n) = n.
Proof. done. Qed.

(** Reading a table after writes: [autorewrite with store]. *)
Create HintDb store.
#[export] Hint Rewrite @db_tables_mk @db_uuids_mk @db_now_mk @set_table_eq @set_table_uuids @set_table_now : store.
#[export] Hint Rewrite @set_table_ne using discriminate : store.

(** [run_inv] also resolves the statements: after it the hypotheses say which
    branches ran, and the final state is a chain of [set_table]s. *)
Ltac run_inv_step :=
  match goal with
  | H : rows _ _ = (inr _, _) |- _ => injection H as ? ?; try subst
  | H : select _ _ _ = (inr _, _) |- _ => injection H as ? ?; try subst
  | H : scalar _ _ _ = (inr _, _) |- _ => injection H as ? ?; try subst
  | H : get _ _ _ = (inr _, _) |- _ => injection H as ? ?; try subst
  | H : insert _ _ _ = (inr _, _) |- _ => injection H as ?; try subst
  | H : update_where _ _ _ _ = (inr _, _) |- _ => injection H as ?; try subst
  | H : save _ _ _ = (inr _, _) |- _ => injection H as ?; try subst
  | H : delete_where _ _ _ = (inr _, _) |- _ => injection H as ?; try subst
  | H : uuid4 _ = (inr _, _) |- _ => injection H as ? ?; try subst
  | H : func_now _ = (inr _, _) |- _ => injection H as ? ?; try subst
  | H : flush _ ?d = (inr _, _) |- _ =>
    unfold flush in H; destruct (db_ok d) eqn:?; [injection H as ?; try subst | discriminate H]
  | H : transaction _ _ _ = (inr _, _) |- _ => apply transaction_commit in H as [H ?]
  end.
Ltac run_inv := repeat (first [ run_inv_step | comp_inv_step ]; cbn beta iota in *).

(** *** Series of insertions

    [session.add(T(...))] in a loop, each row with an identifier of its own. *)
Section Stamped.
Context {T : Type} `{Schema T} {E : Type} (t : T).

Fixpoint stamped {A} (mk : uuid → A → row t) (n : uuid) (xs : list A) : list (row t) :=
  match xs with
  | [] => []
  | x :: xs' => mk n x :: stamped mk (n + 1) xs'
  end.

Lemma for_each_insert {A} (mk : uuid → A → row t) (xs : list A) (db : Db T) :
  ∃ db', for_each (E := E) xs (λ x, uuid4 ≫= λ i, insert t (mk i x)) db = (inr tt, db') ∧
    db_tables db' t = (db_tables db t ++ stamped mk (db_uuids db) xs)%list ∧
    (∀ t', t' ≠ t → db_tables db' t' = db_tables db t') ∧
    db_uuids db' = db_uuids db + Z.of_nat (length xs) ∧ db_now db' = db_now db.
Proof.
  revert db. induction xs as [|x xs IH]; intros db; simpl.
  - exists db. repeat split; [by rewrite app_nil_r | lia].
  - rewrite bind_run. unfold uuid4 at 1, insert at 1. rewrite bind_run.
    edestruct IH as (db' & -> & Ht & Hne & Hu & Hn). exists db'.
    rewrite set_table_eq in Ht. autorewrite with store in Ht, Hu, Hn. simpl in *.
    split_and!; [done|by rewrite Ht, <- app_assoc| |lia|done].
    intros t' Hne'. rewrite Hne by done. by rewrite set_table_ne.
Qed.

Lemma stamped_length {A} (mk : uuid → A → row t) n xs : length (stamped mk n xs) = length xs.
Proof. revert n. induction xs; intros n; simpl; [done|]. by rewrite IHxs. Qed.

Lemma elem_of_stamped {A} (mk : uuid → A → row t) n xs r :
  r ∈ stamped mk n xs →
  ∃ i x, x ∈ xs ∧ r = mk i x ∧ n <= i < n + Z.of_nat (length xs).
Proof.
  revert n. induction xs as [|x xs IH]; intros n; simpl; [set_solver|].
  intros [->|Hr]%elem_of_cons.
  - exists n, x. split_and!; [set_solver|done|lia|lia].
  - apply IH in Hr as (i & y & Hy & -> & Hi). exists i, y. split_and!; [set_solver|done|lia|lia].
Qed.

(** Rows stamped with identifiers that are not in use keep a primary key. *)
Lemma stamped_NoDup {A} (mk : uuid → A → row t) n xs (l : list (row t)) :
  (∀ i x, row_id t (mk i x) = i) →
  (∀ r, r ∈ l → row_id t r < n) →
  NoDup (map (row_id t) l) → NoDup (map (row_id t) (l ++ stamped mk n xs)).
Proof.
  intros Hmk. revert n l. induction xs as [|x xs IH]; intros n l Hl Hnd; simpl.
  - by rewrite app_nil_r.
  - rewrite cons_middle, (assoc_L (++)). apply IH.
    + intros r [Hr|Hr]%elem_of_app; [specialize (Hl r Hr); lia|].
      apply list_elem_of_singleton in Hr as ->. rewrite Hmk. lia.
    + rewrite map_app. apply NoDup_app. split; [done|]. split; [|apply NoDup_singleton].
      intros k Hk [= ->]%list_elem_of_singleton. apply list_elem_of_fmap in Hk as (r & Hr & Hin).
      specialize (Hl r Hin). rewrite Hmk in Hr. lia.
Qed.
End Stamped.

(** The identifiers handed out are those not yet in use. *)
Definition ids_fresh {T} `{Schema T} (db : Db T) : Prop :=
  ∀ t r, r ∈ db_tables db t → row_id t r < db_uuids db.

(** A database the code can reach: every constraint holds and [uuid4()] never
    returns an identifier in use. *)
Definition db_wf {T} `{Schema T} (db : Db T) : Prop := db_ok db = true ∧ ids_fresh db.

(** *** Frame rules

    A statement on table [t] preserves any property of the other tables. *)
Definition frames {T} `{Schema T} {E A} (ts : list T) (m : Comp (Db T) E A) : Prop :=
  ∀ db t, t ∉ ts → db_tables (snd (m db)) t = db_tables db t.

Section Frames.
Context {T : Type} `{Schema T} {E : Type} (ts : list T).

Lemma frames_ret {A} (a : A) : frames ts (mret a : Comp (Db T) E A).
Proof. by intros db t _. Qed.
Lemma frames_raise {A} (e : E) : frames ts (raise e : Comp (Db T) E A).
Proof. by intros db t _. Qed.
Lemma frames_bind {A B} (m : Comp (Db T) E A) (f : A → Comp (Db T) E B) :
  frames ts m → (∀ a, frames ts (f a)) → frames ts (m ≫= f).
Proof.
  intros Hm Hf db t Ht. rewrite bind_run. specialize (Hm db t Ht).
  destruct (m db) as [[e|a] db']; [done|]. rewrite (Hf a db' t Ht). done.
Qed.
Lemma frames_fmap {A B} (m : Comp (Db T) E A) (f : A → B) : frames ts m → frames ts (f <$> m).
Proof. intros Hm. apply frames_bind; [done|]. intros a. apply frames_ret. Qed.
Lemma frames_for_each {A} (xs : list A) (body : A → Comp (Db T) E unit) :
  (∀ x, frames ts (body x)) → frames ts (for_each xs body).
Proof.
  intros Hb. induction xs as [|x xs IH]; simpl; [apply frames_ret|].
  apply frames_bind; auto.
Qed.
Lemma frames_map_each {A B} (xs : list A) (body : A → Comp (Db T) E B) :
  (∀ x, frames ts (body x)) → frames ts (map_each xs body).
Proof.
  intros Hb. induction xs as [|x xs IH]; simpl; [apply frames_ret|].
  apply frames_bind; [auto|]. intros y. apply frames_bind; [auto|]. intros ys. apply frames_ret.
Qed.
Lemma frames_fold_each {A B} (xs : list A) (body : B → A → Comp (Db T) E B) :
  (∀ b x, frames ts (body b x)) → ∀ b, frames ts (fold_each xs b body).
Proof.
  intros Hb. induction xs as [|x xs IH]; intros b; simpl; [apply frames_ret|].
  apply frames_bind; auto.
Qed.
Lemma frames_guard (b : bool) (e : E) : frames ts (guard_or b e : Comp (Db T) E unit).
Proof. by destruct b; intros db t _. Qed.
(** A computation that only reads changes no table. *)
Lemma frames_reads {A} (m : Comp (Db T) E A) : (∀ db, snd (m db) = db) → frames ts m.
Proof. intros Hm db t' _. by rewrite Hm. Qed.
Lemma frames_uuid4 : frames ts (uuid4 : Comp (Db T) E _).
Proof. by intros db t' _. Qed.
Lemma frames_flush e : frames ts (flush e : Comp (Db T) E _).
Proof. intros db t' _. unfold flush. by destruct (db_ok db). Qed.
Lemma frames_insert t r : t ∈ ts → frames ts (insert t r : Comp (Db T) E _).
Proof. intros Ht db t' Ht'. apply set_table_ne. congruence. Qed.
Lemma frames_update t p f : t ∈ ts → frames ts (update_where t p f : Comp (Db T) E _).
Proof. intros Ht db t' Ht'. apply set_table_ne. congruence. Qed.
Lemma frames_save t r : t ∈ ts → frames ts (save t r : Comp (Db T) E _).
Proof. apply frames_update. Qed.
Lemma frames_delete t p : t ∈ ts → frames ts (delete_where t p : Comp (Db T) E _).
Proof. intros Ht db t' Ht'. apply set_table_ne. congruence. Qed.
Lemma frames_transaction e {A} (m : Comp (Db T) E A) :
  frames ts m → frames ts (transaction e m).
Proof.
  intros Hm db t Ht. unfold transaction. specialize (Hm db t Ht).
  destruct (m db) as [[x|a] db']; [done|]. by destruct (db_ok db').
Qed.
Lemma frames_try {A} (m : Comp (Db T) E A) h :
  frames ts m → (∀ e k, h e = Some k → frames ts k) → frames ts (try_except m h).
Proof.
  intros Hm Hh db t Ht. unfold try_except. specialize (Hm db t Ht).
  destruct (m db) as [[x|a] db']; [|done].
  destruct (h x) as [k|] eqn:Hk; [|done]. by rewrite (Hh x k Hk db' t Ht).
Qed.
End Frames.

Lemma frames_run {T} `{Schema T} {E A} ts (m : Comp (Db T) E A) db r db' t :
  frames ts m → m db = (r, db') → t ∉ ts → db_tables db' t = db_tables db t.
Proof. intros Hm Hrun Ht. specialize (Hm db t Ht). by rewrite Hrun in Hm. Qed.

(** Every table but one. *)
Definition all_but {T} `{Schema T} (t : T) : list T := filter (λ t', t' ≠ t) all_tables.

Lemma elem_of_all_but {T} `{Schema T} (t t' : T) : t' ∈ all_but t ↔ t' ≠ t.
Proof. unfold all_but. rewrite list_elem_of_filter. pose proof (all_tables_complete t'). naive_solver. Qed.

Ltac solve_in_tables := first [ apply elem_of_all_but; discriminate | set_solver ].

Create HintDb frames discriminated.
#[export] Hint Resolve frames_ret frames_raise frames_guard frames_flush : frames.
#[export] Hint Extern 1 (frames _ (rows _)) => apply frames_reads; reflexivity : frames.
#[export] Hint Extern 1 (frames _ (select _ _)) => apply frames_reads; reflexivity : frames.
#[export] Hint Extern 1 (frames _ (scalar _ _)) => apply frames_reads; reflexivity : frames.
#[export] Hint Extern 1 (frames _ (get _ _)) => apply frames_reads; reflexivity : frames.
#[export] Hint Extern 1 (frames _ uuid4) => apply frames_uuid4 : frames.
#[export] Hint Extern 1 (frames _ func_now) => apply frames_reads; reflexivity : frames.
#[export] Hint Extern 2 (frames _ (insert _ _)) => apply frames_insert; solve_in_tables : frames.
#[export] Hint Extern 2 (frames _ (update_where _ _ _)) => apply frames_update; solve_in_tables : frames.
#[export] Hint Extern 2 (frames _ (save _ _)) => apply frames_save; solve_in_tables : frames.
#[export] Hint Extern 2 (frames _ (delete_where _ _)) => apply frames_delete; solve_in_tables : frames.

Ltac frames_step :=
  lazymatch goal with
  | |- frames _ (_ ≫= _) => apply frames_bind; [| intros ?]
  | |- frames _ (_ <$> _) => apply frames_fmap
  | |- frames _ (for_each _ _) => apply frames_for_each; intros ?
  | |- frames _ (map_each _ _) => apply frames_map_each; intros ?
  | |- frames _ (fold_each _ _ _) => apply frames_fold_each; intros ? ?
  | |- frames _ (transaction _ _) => apply frames_transaction
  | |- frames _ (try_except _ _) => apply frames_try; [| intros ? ? ?]
  | |- frames _ (if ?b then _ else _) => destruct b eqn:?
  | |- frames _ (match ?x with _ => _ end) => destruct x eqn:?
  end.
Ltac frames_tac := repeat (first [ progress simplify_eq | frames_step | solve [eauto with frames] ]).

(** *** Invariants of the statements *)
Section KeepsStatements.
Context {T : Type} `{Schema T} {E : Type} (I : Db T → Prop).

Lemma keeps_flush e : keeps I (flush e : Comp (Db T) E unit).
Proof. apply keeps_reads. intros db. unfold flush. by destruct (db_ok db). Qed.

(** What an exception leaves behind does not matter to a transaction. *)
Lemma preserves_transaction_keeps e {A} (m : Comp (Db T) E A) :
  keeps I m → preserves I (transaction e m).
Proof.
  intros Hm db Hdb. unfold transaction. destruct (m db) as [[x|a] db'] eqn:Hrun; [done|].
  destruct (db_ok db'); [|done]. by eapply Hm.
Qed.
Lemma keeps_transaction e {A} (m : Comp (Db T) E A) : keeps I m → keeps I (transaction e m).
Proof.
  intros Hm db a db' Hdb Hrun. apply transaction_commit in Hrun as [Hrun _]. by eapply Hm.
Qed.
End KeepsStatements.

#[export] Hint Resolve keeps_flush : keeps.
#[export] Hint Extern 1 (keeps _ (rows _)) => apply keeps_reads; reflexivity : keeps.
#[export] Hint Extern 1 (keeps _ (select _ _)) => apply keeps_reads; reflexivity : keeps.
#[export] Hint Extern 1 (keeps _ (scalar _ _)) => apply keeps_reads; reflexivity : keeps.
#[export] Hint Extern 1 (keeps _ (get _ _)) => apply keeps_reads; reflexivity : keeps.
#[export] Hint Extern 1 (keeps _ func_now) => apply keeps_reads; reflexivity : keeps.

(** A table invariant is not affected by statements on other tables. *)
Section KeepsTable.
Context {T : Type} `{Schema T} {E : Type} (t : T) (P : list (row t) → Prop).

Definition on_table (db : Db T) : Prop := P (db_tables db t).

Lemma keeps_frames ts {A} (m : Comp (Db T) E A) :
  frames ts m → t ∉ ts → keeps on_table m.
Proof.
  intros Hm Ht db a db' Hdb Hrun. unfold on_table in *. specialize (Hm db t Ht).
  rewrite Hrun in Hm. simpl in Hm. by rewrite Hm.
Qed.
Lemma keeps_frames_but {A} (m : Comp (Db T) E A) : frames (all_but t) m → keeps on_table m.
Proof. intros Hm. eapply keeps_frames; [exact Hm|]. rewrite elem_of_all_but. by intros []. Qed.
Lemma keeps_uuid4 : keeps on_table (uuid4 : Comp (Db T) E _).
Proof. by intros db a db' Hdb [= _ <-]. Qed.
Lemma keeps_insert r : (∀ l, P l → P (l ++ [r])) → keeps on_table (insert t r : Comp (Db T) E _).
Proof. intros HP db a db' Hdb [= _ <-]. unfold on_table. rewrite set_table_eq. by apply HP. Qed.
Lemma keeps_update_where p f :
  (∀ l, P l → P (update_list p f l)) → keeps on_table (update_where t p f : Comp (Db T) E _).
Proof. intros HP db a db' Hdb [= _ <-]. unfold on_table. rewrite set_table_eq. by apply HP. Qed.
End KeepsTable.

(** *** Keys in use

    The identifiers of a table are distinct and were all handed out before. *)
Definition keyed {T} `{Schema T} (t : T) (db : Db T) : Prop :=
  NoDup (map (row_id t) (db_tables db t)) ∧
  ∀ r, r ∈ db_tables db t → row_id t r < db_uuids db.

(** At least [n] identifiers were handed out. *)
Definition issued {T} `{Schema T} (n : Z) (db : Db T) : Prop := n <= db_uuids db.

Lemma NoDup_map_inj {A B} (f : A → B) (l : list A) a b :
  NoDup (map f l) → a ∈ l → b ∈ l → f a = f b → a = b.
Proof.
  induction l as [|x l IH]; simpl; [set_solver|]. intros [Hx Hnd]%NoDup_cons Ha Hb Heq.
  apply elem_of_cons in Ha as [->|Ha]; apply elem_of_cons in Hb as [->|Hb]; auto.
  - exfalso. apply Hx. rewrite Heq. by apply list_elem_of_fmap_2.
  - exfalso. apply Hx. rewrite <- Heq. by apply list_elem_of_fmap_2.
Qed.

Section Keyed.
Context {T : Type} `{Schema T} {E : Type} (t : T).

(** Saving a loaded row changes the row it was loaded from and no other. *)
Lemma findb_save_keyed (q : row t → bool) (l : list (row t)) (r r' : row t) :
  NoDup (map (row_id t) l) → r ∈ l → q r' = q r →
  findb q (update_list (λ x, row_id t x == row_id t r) (λ _, r') l) =
    (λ x, if row_id t x == row_id t r then r' else x) <$> findb q l.
Proof.
  intros Hnd Hr Hq. apply findb_update_list. intros x Hx Hid. bool_to_prop.
  by rewrite (NoDup_map_inj _ _ _ _ Hnd Hx Hr Hid).
Qed.

Lemma keyed_save r' db : keyed t db → keyed t (snd (save (E := E) t r' db)).
Proof.
  intros [Hnd Hlt]. unfold keyed, save, update_where. simpl. autorewrite with store. split.
  - rewrite map_update_list; [done|]. intros a _ Ha. by bool_to_prop.
  - intros x (a & Ha & ->)%elem_of_update_list. case_bool_decide as Hc; [|auto].
    rewrite <- Hc. auto.
Qed.

(** Saving a changed copy of each of some loaded rows. *)
Lemma for_each_save (f : row t → row t) (xs : list (row t)) (db : Db T) :
  (∀ x, row_id t (f x) = row_id t x) → NoDup (map (row_id t) xs) →
  NoDup (map (row_id t) (db_tables db t)) → (∀ x, x ∈ xs → x ∈ db_tables db t) →
  ∃ db', for_each (E := E) xs (λ x, save t (f x)) db = (inr tt, db') ∧
    db_tables db' t = update_list (λ x, bool_decide (row_id t x ∈ map (row_id t) xs)) f (db_tables db t) ∧
    (∀ t', t' ≠ t → db_tables db' t' = db_tables db t') ∧
    db_uuids db' = db_uuids db ∧ db_now db' = db_now db.
Proof.
  intros Hid. revert db. induction xs as [|x xs IH]; intros db Hxs Hnd Hin.
  - exists db. split; [done|]. split; [|done]. rewrite update_list_id; [done|].
    intros a _ Ha%bool_decide_eq_true. set_solver.
  - simpl in Hxs. apply NoDup_cons in Hxs as [Hx Hxs]. simpl for_each.
    set (l := db_tables db t) in *.
    set (l1 := update_list (λ a, row_id t a == row_id t (f x)) (λ _, f x) l).
    set (db1 := set_table t l1 db).
    assert (∀ a, a ∈ l → row_id t a = row_id t x → a = x) as Hinj.
    { intros a Ha Heq. apply (NoDup_map_inj (row_id t) l); [done|done|apply Hin; by left|done]. }
    destruct (IH db1) as (db' & Hrun & Ht & Hne & Hu & Hn); [done|..].
    { unfold db1, l1. rewrite set_table_eq, map_update_list; [done|].
      intros a _ Ha. by bool_to_prop. }
    { intros y Hy. unfold db1, l1. rewrite set_table_eq. apply elem_of_update_list. exists y.
      split; [apply Hin; by right|]. rewrite bool_decide_false; [done|]. rewrite Hid. intros Heq.
      apply Hx. rewrite <- Heq. by apply list_elem_of_fmap_2. }
    exists db'. split; [exact Hrun|]. unfold db1 in *. rewrite set_table_eq in Ht.
    rewrite set_table_uuids in Hu. rewrite set_table_now in Hn. split; [|split; [|done]].
    + rewrite Ht. unfold l1, update_list. rewrite map_map. apply map_ext_in.
      intros a Ha%list_elem_of_In. rewrite Hid. destruct (bool_decide (row_id t a = row_id t x)) eqn:Heq.
      * bool_to_prop. rewrite (Hinj a Ha Heq). rewrite Hid.
        rewrite (bool_decide_false (row_id t x ∈ map (row_id t) xs)) by done.
        by rewrite bool_decide_true by (simpl; by left).
      * bool_to_prop. apply (f_equal (λ b : bool, if b then f a else a)), bool_decide_ext. simpl.
        rewrite elem_of_cons. naive_solver.
    + intros t' Hne'. rewrite Hne by done. by rewrite set_table_ne.
Qed.

Lemma keyed_insert r db :
  keyed t db → (∀ x, x ∈ db_tables db t → row_id t x < row_id t r) →
  row_id t r < db_uuids db → keyed t (set_table t (db_tables db t ++ [r]) db).
Proof.
  intros [Hnd Hlt] Hfresh Hr. unfold keyed. autorewrite with store. split.
  - rewrite map_app. apply NoDup_app. split; [done|]. split; [|apply NoDup_singleton].
    intros k Hk [= ->]%list_elem_of_singleton. apply list_elem_of_fmap in Hk as (x & Hx & Hin).
    specialize (Hfresh x Hin). lia.
  - intros x [Hx|Hx]%elem_of_app; [auto|]. by apply list_elem_of_singleton in Hx as ->.
Qed.

(** A computation that leaves the table alone and hands out identifiers. *)
Lemma keyed_frame {A} (m : Comp (Db T) E A) db :
  keyed t db → db_tables (snd (m db)) t = db_tables db t →
  db_uuids db <= db_uuids (snd (m db)) → keyed t (snd (m db)).
Proof.
  intros [Hnd Hlt] Ht Hu. unfold keyed. rewrite Ht. split; [done|].
  intros r Hr. specialize (Hlt r Hr). lia.
Qed.
End Keyed.

Section Issued.
Context {T : Type} `{Schema T} {E : Type} (n : Z).

Lemma keeps_issued_insert t r : keeps (issued n) (insert t r : Comp (Db T) E _).
Proof. by intros db a db' Hdb [= _ <-]. Qed.
Lemma keeps_issued_update t p f : keeps (issued n) (update_where t p f : Comp (Db T) E _).
Proof. by intros db a db' Hdb [= _ <-]. Qed.
Lemma keeps_issued_save t r : keeps (issued n) (save t r : Comp (Db T) E _).
Proof. by intros db a db' Hdb [= _ <-]. Qed.
Lemma keeps_issued_delete t p : keeps (issued n) (delete_where t p : Comp (Db T) E _).
Proof. by intros db a db' Hdb [= _ <-]. Qed.
Lemma keeps_issued_uuid4 : keeps (issued n) (uuid4 : Comp (Db T) E _).
Proof. intros db a db' Hdb [= _ <-]. unfold issued in *. simpl. lia. Qed.
End Issued.

#[export] Hint Extern 1 (keeps (issued _) (insert _ _)) => apply keeps_issued_insert : keeps.
#[export] Hint Extern 1 (keeps (issued _) (update_where _ _ _)) => apply keeps_issued_update : keeps.
#[export] Hint Extern 1 (keeps (issued _) (save _ _)) => apply keeps_issued_save : keeps.
#[export] Hint Extern 1 (keeps (issued _) (delete_where _ _)) => apply keeps_issued_delete : keeps.
#[export] Hint Extern 1 (keeps (issued _) uuid4) => apply keeps_issued_uuid4 : keeps.

(** Statements under a relation between states. *)
Section ObeysStatements.
Context {T : Type} `{Schema T} {E : Type} (R : Db T → Db T → Prop).

Lemma obeys_transaction e {A} (m : Comp (Db T) E A) : obeys R m → obeys R (transaction e m).
Proof. intros Hm db a db' [Hrun _]%transaction_commit. by eapply Hm. Qed.

Lemma transaction_obeys e {A} (m : Comp (Db T) E A) db :
  Reflexive R → obeys R m → R db (snd (transaction e m db)).
Proof.
  intros HR Hm. unfold transaction. destruct (m db) as [[x|a] db'] eqn:Hrun; [done|].
  destruct (db_ok db'); [|done]. by eapply Hm.
Qed.
End ObeysStatements.

#[export] Hint Extern 1 (obeys _ (rows _)) => apply obeys_reads; [typeclasses eauto|reflexivity] : obeys.
#[export] Hint Extern 1 (obeys _ (select _ _)) => apply obeys_reads; [typeclasses eauto|reflexivity] : obeys.
#[export] Hint Extern 1 (obeys _ (scalar _ _)) => apply obeys_reads; [typeclasses eauto|reflexivity] : obeys.
#[export] Hint Extern 1 (obeys _ (get _ _)) => apply obeys_reads; [typeclasses eauto|reflexivity] : obeys.
#[export] Hint Extern 1 (obeys _ func_now) => apply obeys_reads; [typeclasses eauto|reflexivity] : obeys.
#[export] Hint Extern 1 (obeys _ (flush _)) =>
  apply obeys_reads; [typeclasses eauto|intros ?; unfold flush; case_match; reflexivity] : obeys.
#[export] Hint Extern 1 (obeys _ (transaction _ _)) => apply obeys_transaction : obeys.

(** [db_wf], decided. *)
Definition db_wfb {T} `{Schema T} (db : Db T) : bool :=
  db_ok db && forallb (λ t, forallb (λ r, row_id t r <? db_uuids db) (db_tables db t)) all_tables.

Lemma db_wfb_spec {T} `{Schema T} (db : Db T) : db_wfb db = true → db_wf db.
Proof.
  intros [Hok Hfresh]%andb_prop. split; [done|]. intros t r Hr.
  rewrite forallb_forall in Hfresh.
  specialize (Hfresh t (proj1 (list_elem_of_In _ _) (all_tables_complete t))).
  rewrite forallb_forall in Hfresh. apply Z.ltb_lt, Hfresh. by apply list_elem_of_In.
Qed.

(** Inserting a row with a fresh identifier keeps a primary key. *)
Lemma unique_on_id_snoc {T} `{Schema T} t (db : Db T) (r : row t) :
  ids_fresh db → row_id t r = db_uuids db →
  unique_on (λ x, Some (row_id t x)) (db_tables db t) = true →
  unique_on (λ x, Some (row_id t x)) (db_tables db t ++ [r]) = true.
Proof.
  intros Hfresh Hr Hu. apply unique_on_snoc; [done|]. intros k [= <-] r' Hr' [= Heq].
  specialize (Hfresh t r' Hr'). lia.
Qed.


(** *** Writing one row in a transaction of its own *)
Section Append.
Context {T : Type} `{Schema T} {E : Type} (t : T).

Lemma db_wf_set_table (l : list (row t)) (db : Db T) :
  db_wf db → table_ok t l = true → (∀ r, r ∈ l → row_id t r < db_uuids db) →
  db_wf (set_table t l db).
Proof.
  intros [Hok Hfresh] Hl Hids. split; [by apply db_ok_set_table|].
  intros t' r. rewrite set_table_uuids. destruct (decide (t = t')) as [<-|Hne].
  - rewrite set_table_eq. apply Hids.
  - rewrite set_table_ne by done. apply Hfresh.
Qed.

(** More identifiers may be handed out without a row to show for it. *)
Lemma db_wf_later (db db' : Db T) :
  db_wf db → db_tables db' = db_tables db → db_uuids db <= db_uuids db' → db_wf db'.
Proof.
  intros [Hok Hfresh] Ht Hu. split.
  - apply db_ok_spec. rewrite Ht. by apply db_ok_spec.
  - intros t' r. rewrite Ht. intros Hr. specialize (Hfresh t' r Hr). lia.
Qed.

Definition appended (mk : uuid → row t) (db : Db T) : Db T :=
  set_table t (db_tables db t ++ [mk (db_uuids db)])
    (mkDb (db_tables db) (db_uuids db + 1) (db_now db)).

Lemma appended_eq mk db : db_tables (appended mk db) t = (db_tables db t ++ [mk (db_uuids db)])%list.
Proof. apply set_table_eq. Qed.
Lemma appended_ne mk db t' : t ≠ t' → db_tables (appended mk db) t' = db_tables db t'.
Proof. intros Hne. unfold appended. by rewrite set_table_ne. Qed.

Lemma append_run (e : E) mk db :
  db_wf db → table_ok t (db_tables db t ++ [mk (db_uuids db)])%list = true →
  transaction e (uuid4 ≫= λ i, insert t (mk i)) db = (inr tt, appended mk db).
Proof. intros [Hok _] Ht. apply transaction_ok; [done|]. by apply db_ok_set_table. Qed.

Lemma appended_wf mk db :
  db_wf db → (∀ i, row_id t (mk i) = i) →
  table_ok t (db_tables db t ++ [mk (db_uuids db)])%list = true → db_wf (appended mk db).
Proof.
  intros Hwf Hid Ht. apply db_wf_set_table; [by eapply db_wf_later; [exact Hwf|done|simpl; lia]|done|].
  simpl. intros r [Hr|Hr]%elem_of_app.
  - destruct Hwf as [_ Hfresh]. specialize (Hfresh t r Hr). lia.
  - apply list_elem_of_singleton in Hr as ->. rewrite Hid. lia.
Qed.
End Append.
