(* ===== verification/Upsert.v ===== *)
(** * Writing the one row of a key

    Several repositories look up the row of a key, insert one when there is
    none, and otherwise overwrite the row they found. What such a write does on
    a table whose only constraints are a primary key, a condition on each row
    and the uniqueness of that key. *)

From S2P Require Import Prelude Relational.

Local Open Scope Z_scope.
Local Open Scope nevo_scope.

Section Upsert.
Context {T : Type} `{Schema T} {E : Type} (t : T).
Implicit Types (p : row t → bool) (mk : uuid → row t).

Definition upsert p mk : Comp (Db T) E unit :=
  record ← scalar t p;
  match record with
  | None => i ← uuid4; insert t (mk i)
  | Some r => update_where t (λ x, row_id t x == row_id t r) (λ x, mk (row_id t x))
  end.

Section Run.
Context {K : Type} `{EqDecision K} (key : row t → option K) (row_ok : row t → bool).
Hypothesis Htable : ∀ l, table_ok t l = unique_on (λ r, Some (row_id t r)) l && forallb row_ok l && unique_on key l.
Context (p : row t → bool) (mk : uuid → row t) (k : K).
Hypotheses (Hkey : ∀ r, p r = true ↔ key r = Some k) (Hid : ∀ i, row_id t (mk i) = i)
  (Hp : ∀ i, p (mk i) = true) (Hrow : ∀ i, row_ok (mk i) = true).

Lemma table_ok_inv (l : list (row t)) :
  table_ok t l = true →
  unique_on (λ r, Some (row_id t r)) l = true ∧ forallb row_ok l = true ∧ unique_on key l = true.
Proof. rewrite Htable, !andb_true_iff. tauto. Qed.

Lemma table_ok_insert (db : Db T) :
  db_wf db → findb p (db_tables db t) = None → table_ok t (db_tables db t ++ [mk (db_uuids db)]) = true.
Proof using All.
  intros [Hok Hfresh] Hnone. apply db_ok_spec with (t := t) in Hok. apply table_ok_inv in Hok as (Hpk & Hrows & Hu).
  rewrite Htable, !andb_true_iff. split_and!.
  - by apply unique_on_id_snoc.
  - rewrite forallb_app, Hrows. simpl. by rewrite Hrow.
  - apply unique_on_snoc; [done|]. intros k' Hk' r Hr Hr'.
    assert (k' = k) as -> by (pose proof (proj1 (Hkey _) (Hp (db_uuids db))); congruence).
    apply Hkey in Hr'. apply findb_None with (a := r) in Hnone; [congruence|done].
Qed.

(** The row found is the one that is overwritten. *)
Lemma overwritten (l : list (row t)) r :
  table_ok t l = true → findb p l = Some r →
  update_list (λ x, row_id t x == row_id t r) (λ x, mk (row_id t x)) l =
  update_list p (λ _, mk (row_id t r)) l.
Proof using All.
  intros (Hpk & _ & Hu)%table_ok_inv [Hpr Hr]%findb_Some. apply map_ext_in. intros x Hx%list_elem_of_In.
  destruct (p x) eqn:Hpx.
  - assert (x = r) as -> by (apply (unique_on_eq key l x r k); [done..|by apply Hkey|by apply Hkey]).
    by rewrite bool_decide_true.
  - rewrite bool_decide_false; [done|]. intros Heq.
    assert (x = r) as -> by (by apply (unique_on_eq (λ r, Some (row_id t r)) l x r (row_id t r)); [..|by rewrite Heq|]).
    congruence.
Qed.

Lemma table_ok_overwrite (l : list (row t)) r :
  table_ok t l = true → findb p l = Some r → table_ok t (update_list p (λ _, mk (row_id t r)) l) = true.
Proof using All.
  intros Hok Hr. pose proof (table_ok_inv l Hok) as (Hpk & Hrows & Hu). rewrite <- (overwritten l r Hok Hr).
  pose proof Hr as [Hpr Hin]%findb_Some.
  rewrite Htable, !andb_true_iff. split_and!.
  - apply unique_on_update; [done|]. intros x _ _. by rewrite Hid.
  - rewrite forallb_forall in *. intros x Hx%list_elem_of_In. apply elem_of_update_list in Hx as (y & Hy & ->).
    case_match; [done|]. apply Hrows. by apply list_elem_of_In.
  - apply unique_on_update; [done|]. intros x Hx Heq. bool_to_prop.
    assert (x = r) as -> by (by apply (unique_on_eq (λ r, Some (row_id t r)) l x r (row_id t r)); [..|by rewrite Heq|]).
    rewrite (proj1 (Hkey _) (Hp _)). symmetry. by apply Hkey.
Qed.

(** The write goes through: the key has the new row, under the identifier it
    had or a new one, and every other row is as it was. *)
Lemma upsert_run (e : E) (db : Db T) :
  db_wf db →
  ∃ i db', transaction e (upsert p mk) db = (inr tt, db') ∧ db_wf db' ∧
    findb p (db_tables db' t) = Some (mk i) ∧
    filterb (λ r, negb (p r)) (db_tables db' t) = filterb (λ r, negb (p r)) (db_tables db t) ∧
    (∀ r, findb p (db_tables db t) = Some r → i = row_id t r) ∧
    (∀ t', t' ≠ t → db_tables db' t' = db_tables db t') ∧ db_now db' = db_now db.
Proof using All.
  intros Hwf. pose proof Hwf as [Hok Hfresh].
  destruct (findb p (db_tables db t)) as [r|] eqn:Hr.
  - pose proof (proj1 (db_ok_spec db) Hok t) as Ht.
    exists (row_id t r), (set_table t (update_list p (λ _, mk (row_id t r)) (db_tables db t)) db).
    pose proof Hr as [Hpr Hin]%findb_Some. split_and!.
    + apply transaction_ok.
      * unfold upsert. erewrite bind_inr by reflexivity. rewrite Hr. unfold update_where.
        by rewrite (overwritten _ _ Ht Hr).
      * apply db_ok_set_table; [done|]. by apply table_ok_overwrite.
    + apply db_wf_set_table; [done|by apply table_ok_overwrite|].
      intros x (y & Hy & ->)%elem_of_update_list. case_match; [rewrite Hid|]; by apply Hfresh.
    + rewrite set_table_eq, findb_update_list by (intros; rewrite Hp; done). rewrite Hr. simpl. by rewrite Hpr.
    + rewrite set_table_eq. clear -Hp. induction (db_tables db t) as [|x l IH]; [done|].
      rewrite update_list_cons, !filterb_cons. destruct (p x) eqn:Hx; [rewrite Hp|rewrite Hx]; simpl; by rewrite IH.
    + by intros ? [= <-].
    + intros t' Hne. by rewrite set_table_ne.
    + done.
  - exists (db_uuids db), (appended t mk db). split_and!.
    + apply transaction_ok.
      * unfold upsert. erewrite bind_inr by reflexivity. rewrite Hr. done.
      * apply db_ok_set_table; [done|]. by apply table_ok_insert.
    + by apply appended_wf; [..|apply table_ok_insert].
    + rewrite appended_eq, findb_app, Hr, findb_cons. by rewrite Hp.
    + rewrite appended_eq. unfold filterb. rewrite filter_app, filter_cons, Hp. simpl. by rewrite app_nil_r.
    + done.
    + intros t' Hne. by rewrite appended_ne.
    + done.
Qed.
End Run.

(** A row its table does not allow is not written. *)
Lemma upsert_refused (row_ok : row t → bool) p mk (e : E) (db : Db T) :
  (∀ l, table_ok t l = true → forallb row_ok l = true) → (∀ i, row_ok (mk i) = false) →
  transaction e (upsert p mk) db = (inl e, db).
Proof.
  intros Htable Hrow.
  assert (∀ l i, mk i ∈ l → table_ok t l = true → False) as Hin.
  { intros l i Hi Hl%Htable. rewrite forallb_forall in Hl. apply list_elem_of_In in Hi. specialize (Hl _ Hi).
    by rewrite Hrow in Hl. }
  assert (∃ db1 i, upsert p mk db = (inr tt, db1) ∧ mk i ∈ db_tables db1 t) as (db1 & i & Hrun & Hi).
  { unfold upsert. erewrite bind_inr by reflexivity. destruct (findb p _) as [r|] eqn:Hr.
    - apply findb_Some in Hr as [_ Hr]. eexists _, (row_id t r). split; [done|]. rewrite set_table_eq.
      apply elem_of_update_list. exists r. split; [done|]. by rewrite bool_decide_true.
    - eexists _, (db_uuids db). split; [done|]. rewrite set_table_eq. apply elem_of_app. right. by apply list_elem_of_singleton. }
  unfold transaction. rewrite Hrun. destruct (db_ok db1) eqn:Hok; [|done].
  exfalso. apply (Hin _ _ Hi). by apply db_ok_spec.
Qed.
End Upsert.
