(* ===== verification/Text.v ===== *)
(** * Text and calendar dates

    The string operations of Python the modelled code applies to names,
    contacts and codes ([strip], [casefold], [split], [join], [str] of a UUID
    or an integer), the pattern of an email address, JSON values, and calendar
    dates. Text is ASCII: [casefold] and PostgreSQL's [lower] agree there. *)

From S2P Require Import Prelude Floats.
From stdpp Require Import pretty.
From Stdlib Require Import Ascii String.

Local Open Scope string_scope.
Local Open Scope Z_scope.
Local Open Scope nevo_scope.

(** ** Characters and strings *)

(** [str.isspace] and the class [\s] of [re], on ASCII. *)
Definition is_space (c : ascii) : bool :=
  let n := N_of_ascii c in
  ((9 <=? n) && (n <=? 13) || (28 <=? n) && (n <=? 32))%N.

Definition lower_ascii (c : ascii) : ascii :=
  let n := N_of_ascii c in
  if ((65 <=? n) && (n <=? 90))%N then ascii_of_N (n + 32) else c.

Definition is_digit (c : ascii) : bool :=
  let n := N_of_ascii c in ((48 <=? n) && (n <=? 57))%N.

Definition is_alnum (c : ascii) : bool :=
  let n := N_of_ascii (lower_ascii c) in
  is_digit c || ((97 <=? n) && (n <=? 122))%N.

Fixpoint string_map (f : ascii → ascii) (s : string) : string :=
  match s with
  | EmptyString => EmptyString
  | String c s' => String (f c) (string_map f s')
  end.

Fixpoint string_filter (p : ascii → bool) (s : string) : string :=
  match s with
  | EmptyString => EmptyString
  | String c s' => if p c then String c (string_filter p s') else string_filter p s'
  end.

Fixpoint string_forall (p : ascii → bool) (s : string) : bool :=
  match s with
  | EmptyString => true
  | String c s' => p c && string_forall p s'
  end.

Fixpoint string_count (p : ascii → bool) (s : string) : nat :=
  match s with
  | EmptyString => 0
  | String c s' => (if p c then 1 else 0) + string_count p s'
  end%nat.

Definition casefold : string → string := string_map lower_ascii.

Definition upper_ascii (c : ascii) : ascii :=
  let n := N_of_ascii c in
  if ((97 <=? n) && (n <=? 122))%N then ascii_of_N (n - 32) else c.
Definition upper : string → string := string_map upper_ascii.

Lemma append_cons c (a b : string) : String c a ++ b = String c (a ++ b).
Proof. done. Qed.

Lemma append_length (a b : string) : String.length (a ++ b) = (String.length a + String.length b)%nat.
Proof. induction a as [|c a IH]; [done|]. rewrite append_cons. simpl. by rewrite IH. Qed.

Lemma append_assoc (a b c : string) : (a ++ b) ++ c = a ++ (b ++ c).
Proof. induction a as [|x a IH]; [done|]. rewrite !append_cons. by rewrite IH. Qed.

Lemma append_nil (a : string) : a ++ "" = a.
Proof. induction a as [|x a IH]; [done|]. rewrite append_cons. by rewrite IH. Qed.

Lemma string_forall_app p a b : string_forall p (a ++ b) = string_forall p a && string_forall p b.
Proof. induction a as [|c a IH]; [done|]. rewrite append_cons. simpl. by rewrite IH, andb_assoc. Qed.

Lemma string_forall_filter p s : string_forall p (string_filter p s) = true.
Proof. induction s as [|c s IH]; [done|]. simpl. destruct (p c) eqn:Hc; [simpl; by rewrite Hc|done]. Qed.

Lemma string_forall_elem p s : string_forall p s = true ↔ ∀ c, c ∈ list_ascii_of_string s → p c = true.
Proof.
  induction s as [|c s IH]; [split; [set_solver|done]|]. simpl. rewrite andb_true_iff, IH. set_solver.
Qed.

Fixpoint lstrip (s : string) : string :=
  match s with
  | String c s' => if is_space c then lstrip s' else s
  | EmptyString => EmptyString
  end.

Fixpoint rstrip (s : string) : string :=
  match s with
  | EmptyString => EmptyString
  | String c s' =>
    let t := rstrip s' in
    if is_space c && (t == EmptyString) then EmptyString else String c t
  end.

Definition strip (s : string) : string := rstrip (lstrip s).

(** [s.split()]: the maximal runs of non-space characters. *)
Fixpoint split_words (s : string) : list string :=
  match s with
  | EmptyString => []
  | String c s' =>
    if is_space c then split_words s'
    else match s' with
         | EmptyString => [String c EmptyString]
         | String c' _ =>
           if is_space c' then String c EmptyString :: split_words s'
           else match split_words s' with
                | [] => [String c EmptyString]
                | w :: ws => String c w :: ws
                end
         end
  end.

(** [sep.join(parts)] *)
Fixpoint join (sep : string) (parts : list string) : string :=
  match parts with
  | [] => ""
  | [p] => p
  | p :: ps => p ++ sep ++ join sep ps
  end.

(** Python truthiness of a string, and [a or b] on strings. *)
Definition truthy (s : string) : bool := s != "".
Definition str_or (s d : string) : string := if truthy s then s else d.

(** [(o or d)] for an optional string: [None] and [""] fall through. *)
Definition opt_str_or (o : option string) (d : string) : string :=
  match o with Some s => str_or s d | None => d end.
Definition opt_truthy (o : option string) : bool :=
  match o with Some s => truthy s | None => false end.
(** [a or b] where both are optional strings. *)
Definition opt_or (a b : option string) : option string := if opt_truthy a then a else b.
(** [s or None] *)
Definition none_if_empty (s : string) : option string := if truthy s then Some s else None.

(** [s[:n]] *)
Fixpoint take_string (n : nat) (s : string) : string :=
  match n, s with
  | S n', String c s' => String c (take_string n' s')
  | _, _ => EmptyString
  end.

(** [s.rstrip("/")] *)
Fixpoint rstrip_slash (s : string) : string :=
  match s with
  | EmptyString => EmptyString
  | String c s' =>
    let t := rstrip_slash s' in
    if (c == "/"%char) && (t == EmptyString) then EmptyString else String c t
  end.

(** ** Email addresses

    [re.compile(r"^[^@\s]+@[^@\s]+\.[^@\s]+$").fullmatch]: no white space,
    exactly one at-sign, a non-empty local part, and a domain with a full stop
    that has at least one character on either side. *)
Fixpoint dot_inside (seen : bool) (s : string) : bool :=
  match s with
  | EmptyString => false
  | String c s' =>
    (seen && (c == "."%char) && (s' != EmptyString)) || dot_inside true s'
  end.

Fixpoint after_at (s : string) : option string :=
  match s with
  | EmptyString => None
  | String c s' => if c == "@"%char then Some s' else after_at s'
  end.

Definition email_pattern (s : string) : bool :=
  string_forall (λ c, negb (is_space c)) s &&
  (string_count (λ c, c == "@"%char) s == 1%nat) &&
  match s with
  | String c _ => c != "@"%char
  | EmptyString => false
  end &&
  match after_at s with
  | Some domain => dot_inside false domain
  | None => false
  end.

Example email_pattern_examples :
  map email_pattern ["a@b.c"; "ada@mail.school.ng"; "a@b"; "a@.c"; "a@b."; "@b.c"; "a b@c.d"; "a@b@c.d"; "a@..c"]
  = [true; true; false; false; false; false; false; false; true].
Proof. vm_compute. reflexivity. Qed.

Example strip_examples :
  (strip "  Ada  Obi ", join " " (split_words "  Ada   Obi "), casefold "ADA@X.Y")
  = ("Ada  Obi", "Ada Obi", "ada@x.y").
Proof. vm_compute. reflexivity. Qed.

(** ** Text of integers and UUIDs *)

Definition int_str (z : Z) : string := pretty z.

Lemma pretty_N_go_digits x s :
  string_forall is_digit s = true → string_forall is_digit (pretty_N_go x s) = true.
Proof.
  revert s. induction (N.lt_wf_0 x) as [x _ IH]. intros s Hs.
  destruct (decide (0 < x)%N) as [Hx|Hx].
  - rewrite pretty_N_go_step by done. apply IH; [apply N.div_lt; lia|]. cbn. rewrite Hs.
    unfold pretty_N_char. by repeat case_match.
  - replace x with 0%N by lia. by rewrite pretty_N_go_0.
Qed.

(** A number that is not negative is written in digits. *)
Lemma int_str_digits z : 0 <= z → string_forall is_digit (int_str z) = true.
Proof.
  intros Hz. destruct z as [|x|x]; [done| |lia].
  change (string_forall is_digit (if decide (Npos x = 0)%N then "0" else pretty_N_go (Npos x) "") = true).
  destruct (decide _); [done|]. by apply pretty_N_go_digits.
Qed.

Definition hex_digit (n : Z) : string :=
  match String.get (Z.to_nat n) "0123456789abcdef" with
  | Some c => String c EmptyString
  | None => ""
  end.

(** [width] hexadecimal digits of [n], most significant first. *)
Fixpoint hex_of (width : nat) (n : Z) : string :=
  match width with
  | O => ""
  | S w => hex_of w (n / 16) ++ hex_digit (n mod 16)
  end.

(** [str(uuid)]: groups of 8, 4, 4, 4 and 12 hexadecimal digits. *)
Definition uuid_str (u : uuid) : string :=
  hex_of 8 (u / 2 ^ 96) ++ "-" ++ hex_of 4 (u / 2 ^ 80) ++ "-" ++
  hex_of 4 (u / 2 ^ 64) ++ "-" ++ hex_of 4 (u / 2 ^ 48) ++ "-" ++ hex_of 12 u.

Example uuid_str_example : uuid_str (2 ^ 127 + 255) = "80000000-0000-0000-0000-0000000000ff".
Proof. vm_compute. reflexivity. Qed.

(** ** JSON values *)

Inductive Json :=
| JNull
| JBool (b : bool)
| JInt (z : Z)
| JFloat (x : float)
| JStr (s : string)
| JArr (items : list Json)
| JObj (fields : list (string * Json)).

(** [d.get(key)] on a decoded object; [None] for a missing key. *)
Fixpoint assoc (key : string) (fields : list (string * Json)) : option Json :=
  match fields with
  | [] => None
  | (k, v) :: rest => if k == key then Some v else assoc key rest
  end.

(** Truthiness of a decoded value. *)
Definition json_truthy (j : Json) : bool :=
  match j with
  | JNull => false
  | JBool b => b
  | JInt z => z != 0
  | JFloat x => f_truthy x
  | JStr s => truthy s
  | JArr items => match items with [] => false | _ => true end
  | JObj fields => match fields with [] => false | _ => true end
  end.

(** ** Calendar dates *)

Record date := mkDate { year : Z; month : Z; day : Z }.

#[export] Instance date_eq_dec : EqDecision date.
Proof. solve_decision. Defined.

(** Dates compare lexicographically. *)
Definition date_lt (a b : date) : bool :=
  (year a <? year b) ||
  ((year a =? year b) &&
   ((month a <? month b) || ((month a =? month b) && (day a <? day b)))).

Definition date_le (a b : date) : bool := negb (date_lt b a).

(** [max(dates)] of two dates: the first of two equal maxima. *)
Definition date_max (a b : date) : date := if date_lt a b then b else a.

Definition leap_year (y : Z) : bool :=
  (y mod 4 =? 0) && (negb (y mod 100 =? 0) || (y mod 400 =? 0)).

Definition days_in_month (y m : Z) : Z :=
  if m =? 2 then (if leap_year y then 29 else 28)
  else if (m =? 4) || (m =? 6) || (m =? 9) || (m =? 11) then 30 else 31.

(** The dates Python's [date] can represent. *)
Definition date_valid (d : date) : bool :=
  (1 <=? year d) && (year d <=? 9999) && (1 <=? month d) && (month d <=? 12) &&
  (1 <=? day d) && (day d <=? days_in_month (year d) (month d)).

(** [datetime.date()] of an instant in UTC: the civil date of a day count
    (days since 1970-01-01), with years starting in March so that the leap
    day is the last of its year. *)
Definition civil_of_days (n : Z) : date :=
  let z := n + 719468 in
  let era := z / 146097 in
  let doe := z - era * 146097 in
  let yoe := (doe - doe / 1460 + doe / 36524 - doe / 146096) / 365 in
  let doy := doe - (365 * yoe + yoe / 4 - yoe / 100) in
  let mp := (5 * doy + 2) / 153 in
  let d := doy - (153 * mp + 2) / 5 + 1 in
  let m := if mp <? 10 then mp + 3 else mp - 9 in
  mkDate (yoe + era * 400 + (if m <=? 2 then 1 else 0)) m d.

Definition date_of_datetime (t : datetime) : date := civil_of_days (t / days 1).

Example civil_of_days_examples :
  map civil_of_days [0; 59; 60; 11016; 20635; -1; 20636 + 365 * 3]
  = [mkDate 1970 1 1; mkDate 1970 3 1; mkDate 1970 3 2; mkDate 2000 2 29;
     mkDate 2026 7 1; mkDate 1969 12 31; mkDate 2029 7 1].
Proof. vm_compute. reflexivity. Qed.

Definition pad (width : nat) (n : Z) : string :=
  let s := int_str n in
  (fix zeros (k : nat) : string := match k with O => s | S k' => String "0" (zeros k') end)
    (width - String.length s)%nat.

(** [date.isoformat()] *)
Definition isoformat (d : date) : string :=
  pad 4 (year d) ++ "-" ++ pad 2 (month d) ++ "-" ++ pad 2 (day d).

Example isoformat_example : isoformat (mkDate 2026 9 1) = "2026-09-01".
Proof. vm_compute. reflexivity. Qed.

Lemma date_lt_irrefl d : date_lt d d = false.
Proof. unfold date_lt. rewrite !Z.ltb_irrefl, !Z.eqb_refl. done. Qed.

Lemma date_lt_spec a b :
  date_lt a b = true ↔
  year a < year b ∨ (year a = year b ∧ (month a < month b ∨ (month a = month b ∧ day a < day b))).
Proof.
  unfold date_lt.
  rewrite !orb_true_iff, !andb_true_iff, !orb_true_iff, !andb_true_iff, !Z.ltb_lt, !Z.eqb_eq. done.
Qed.

Lemma date_lt_trans a b c : date_lt a b = true → date_lt b c = true → date_lt a c = true.
Proof. rewrite !date_lt_spec. lia. Qed.

Lemma date_lt_total a b : date_lt a b = true ∨ a = b ∨ date_lt b a = true.
Proof.
  destruct a as [y m d], b as [y' m' d']. rewrite !date_lt_spec. simpl.
  destruct (Z.lt_total y y') as [|[->|]]; [lia| |lia].
  destruct (Z.lt_total m m') as [|[->|]]; [lia| |lia].
  destruct (Z.lt_total d d') as [|[->|]]; [lia| |lia]. auto.
Qed.

(** ** Ordering of texts

    Byte order, the order of the C collation, with NULLs last. *)
Definition text_le (a b : string) : bool := String.leb a b.
Definition opt_text_le (a b : option string) : bool :=
  match a, b with
  | Some x, Some y => text_le x y
  | _, None => true
  | None, Some _ => false
  end.

Lemma string_forall_take p n s : string_forall p s = true → string_forall p (take_string n s) = true.
Proof.
  revert s. induction n as [|n IH]; intros [|c s]; simpl; try done.
  intros [-> ?]%andb_prop. by apply IH.
Qed.

(** [base64.b64encode] of bytes *)
Definition b64_char (n : N) : ascii :=
  if (n <? 26)%N then ascii_of_N (n + 65) else if (n <? 52)%N then ascii_of_N (n + 71)
  else if (n <? 62)%N then ascii_of_N (n - 4) else if (n =? 62)%N then "+"%char else "/"%char.
Fixpoint b64encode (s : string) : string :=
  match s with
  | String a (String b (String c rest)) =>
    let n := (N_of_ascii a * 65536 + N_of_ascii b * 256 + N_of_ascii c)%N in
    String (b64_char (n / 262144)) (String (b64_char (n / 4096 mod 64)) (String (b64_char (n / 64 mod 64))
      (String (b64_char (n mod 64)) (b64encode rest))))
  | String a (String b "") =>
    let n := (N_of_ascii a * 1024 + N_of_ascii b * 4)%N in
    String (b64_char (n / 4096)) (String (b64_char (n / 64 mod 64)) (String (b64_char (n mod 64)) "="))
  | String a "" =>
    let n := (N_of_ascii a * 16)%N in String (b64_char (n / 64)) (String (b64_char (n mod 64)) "==")
  | "" => ""
  end.

Example b64encode_examples : map b64encode ["Man"; "Ma"; "M"; ""] = ["TWFu"; "TWE="; "TQ=="; ""].
Proof. vm_compute. reflexivity. Qed.

(** [s.replace(c, new)] for one character [c]. *)
Fixpoint replace_char (c : ascii) (new s : string) : string :=
  match s with
  | "" => ""
  | String d s' => (if d == c then new else String d "") ++ replace_char c new s'
  end.
