(* ===== verification/Vocabulary.v ===== *)
(** * Vocabularies

    The closed sets of values of [src/nevo/domain/*/vocabulary.py], each an
    inductive type with the constructors of the Python [StrEnum] and its
    string value; the class [StrEnum] states what every one of them promises
    (its members are complete, its values distinct, so that a value parses
    back to its member). The exceptions the modelled components raise, and
    their public codes. Notification categories, permission scopes and the
    navigation derived from them. *)

From S2P Require Import Prelude Text.
From Stdlib Require Import String.

Local Open Scope string_scope.
Local Open Scope Z_scope.
Local Open Scope nevo_scope.

(** ** String enumerations *)

Class StrEnum (A : Type) `{EqDecision A} := {
  members : list A;
  value : A → string;
  members_complete : ∀ a, a ∈ members;
  value_inj : ∀ a b, value a = value b → a = b
}.

(** [A(s)]: the member with that value; Python raises [ValueError] on [None]. *)
Definition parse {A} `{StrEnum A} (s : string) : option A := findb (λ a, value a == s) members.

Lemma parse_value {A} `{StrEnum A} (a : A) : parse (value a) = Some a.
Proof.
  apply findb_unique.
  - apply members_complete.
  - by apply bool_decide_eq_true.
  - intros b _ Hb%bool_decide_eq_true. by apply value_inj.
Qed.

Lemma value_is {A} `{StrEnum A} (a b : A) : (value a == value b) = (a == b).
Proof. apply bool_decide_ext. split; [apply value_inj | by intros ->]. Qed.

Lemma parse_Some {A} `{StrEnum A} (s : string) (a : A) : parse s = Some a → value a = s.
Proof. intros [Hp _]%findb_Some. by apply bool_decide_eq_true in Hp. Qed.

(** A string enumeration is countable through its values, so that Python's
    [frozenset] of members is a [gset]. *)
#[export] Instance str_enum_countable {A} `{StrEnum A} : Countable A :=
  inj_countable value parse parse_value.

Ltac members_complete_tac := intros []; set_solver.
Ltac value_inj_tac := intros [] []; (reflexivity || discriminate).

(** ** Accounts ([domain/accounts/vocabulary.py]) *)

(** Primary account role. *)
Inductive UserRole :=
| STUDENT
| TEACHER
| SENCO_ADMIN
| OTHER_ADMIN
| PARENT_GUARDIAN.

#[export] Instance UserRole_eq_dec : EqDecision UserRole.
Proof. solve_decision. Defined.

Definition UserRole_value (x : UserRole) : string :=
  match x with
  | STUDENT => "student" | TEACHER => "teacher" | SENCO_ADMIN => "senco_admin"
  | OTHER_ADMIN => "other_admin" | PARENT_GUARDIAN => "parent_guardian"
  end.

#[export] Instance UserRole_str_enum : StrEnum UserRole := {|
  members := [STUDENT; TEACHER; SENCO_ADMIN; OTHER_ADMIN; PARENT_GUARDIAN];
  value := UserRole_value;
  members_complete := ltac:(members_complete_tac);
  value_inj := ltac:(value_inj_tac)
|}.

(** How an account, or a school by default, authenticates. *)
Inductive AuthMethod :=
| EMAIL_PASSWORD
| PIN
| SSO.

#[export] Instance AuthMethod_eq_dec : EqDecision AuthMethod.
Proof. solve_decision. Defined.

Definition AuthMethod_value (x : AuthMethod) : string :=
  match x with
  | EMAIL_PASSWORD => "email_password" | PIN => "pin" | SSO => "sso"
  end.

#[export] Instance AuthMethod_str_enum : StrEnum AuthMethod := {|
  members := [EMAIL_PASSWORD; PIN; SSO];
  value := AuthMethod_value;
  members_complete := ltac:(members_complete_tac);
  value_inj := ltac:(value_inj_tac)
|}.

(** Lifecycle state of an account. *)
Inductive UserStatus :=
| ACTIVE
| INVITED
| DEACTIVATED.

#[export] Instance UserStatus_eq_dec : EqDecision UserStatus.
Proof. solve_decision. Defined.

Definition UserStatus_value (x : UserStatus) : string :=
  match x with
  | ACTIVE => "active" | INVITED => "invited" | DEACTIVATED => "deactivated"
  end.

#[export] Instance UserStatus_str_enum : StrEnum UserStatus := {|
  members := [ACTIVE; INVITED; DEACTIVATED];
  value := UserStatus_value;
  members_complete := ltac:(members_complete_tac);
  value_inj := ltac:(value_inj_tac)
|}.

(** Lifecycle of a consent record. *)
Inductive ConsentStatus :=
| NOT_SENT
| PENDING
| CONFIRMED
| WITHDRAWN.

#[export] Instance ConsentStatus_eq_dec : EqDecision ConsentStatus.
Proof. solve_decision. Defined.

Definition ConsentStatus_value (x : ConsentStatus) : string :=
  match x with
  | NOT_SENT => "not_sent" | PENDING => "pending" | CONFIRMED => "confirmed"
  | WITHDRAWN => "withdrawn"
  end.

#[export] Instance ConsentStatus_str_enum : StrEnum ConsentStatus := {|
  members := [NOT_SENT; PENDING; CONFIRMED; WITHDRAWN];
  value := ConsentStatus_value;
  members_complete := ltac:(members_complete_tac);
  value_inj := ltac:(value_inj_tac)
|}.

(** What a consent record grants. *)
Inductive ConsentType :=
| DATA_PROCESSING
| CAMERA
| OFFLINE_STORAGE
| CROSS_BORDER_TRANSFER.

#[export] Instance ConsentType_eq_dec : EqDecision ConsentType.
Proof. solve_decision. Defined.

Definition ConsentType_value (x : ConsentType) : string :=
  match x with
  | DATA_PROCESSING => "data_processing" | CAMERA => "camera"
  | OFFLINE_STORAGE => "offline_storage" | CROSS_BORDER_TRANSFER => "cross_border_transfer"
  end.

#[export] Instance ConsentType_str_enum : StrEnum ConsentType := {|
  members := [DATA_PROCESSING; CAMERA; OFFLINE_STORAGE; CROSS_BORDER_TRANSFER];
  value := ConsentType_value;
  members_complete := ltac:(members_complete_tac);
  value_inj := ltac:(value_inj_tac)
|}.

(** How a consent confirmation was obtained. *)
Inductive ConsentMethod :=
| WRITTEN
| VERBAL
| EMAIL
| DIGITAL.

#[export] Instance ConsentMethod_eq_dec : EqDecision ConsentMethod.
Proof. solve_decision. Defined.

Definition ConsentMethod_value (x : ConsentMethod) : string :=
  match x with
  | WRITTEN => "written" | VERBAL => "verbal" | EMAIL => "email" | DIGITAL => "digital"
  end.

#[export] Instance ConsentMethod_str_enum : StrEnum ConsentMethod := {|
  members := [WRITTEN; VERBAL; EMAIL; DIGITAL];
  value := ConsentMethod_value;
  members_complete := ltac:(members_complete_tac);
  value_inj := ltac:(value_inj_tac)
|}.

(** Commercial enrolment banding of a school. *)
Inductive SchoolEnrollmentBand :=
| SMALL
| MEDIUM
| LARGE
| VERY_LARGE.

#[export] Instance SchoolEnrollmentBand_eq_dec : EqDecision SchoolEnrollmentBand.
Proof. solve_decision. Defined.

Definition SchoolEnrollmentBand_value (x : SchoolEnrollmentBand) : string :=
  match x with
  | SMALL => "small" | MEDIUM => "medium" | LARGE => "large" | VERY_LARGE => "very_large"
  end.

#[export] Instance SchoolEnrollmentBand_str_enum : StrEnum SchoolEnrollmentBand := {|
  members := [SMALL; MEDIUM; LARGE; VERY_LARGE];
  value := SchoolEnrollmentBand_value;
  members_complete := ltac:(members_complete_tac);
  value_inj := ltac:(value_inj_tac)
|}.

(** Notification streams a user can mute independently. *)
Inductive NotificationCategory :=
| CATEGORY_ASSIGNMENTS
| CATEGORY_MESSAGES
| CATEGORY_ATTENTION
| CATEGORY_REPORTS
| CATEGORY_CONSENT
| CATEGORY_BILLING
| CATEGORY_ACCOUNT.

#[export] Instance NotificationCategory_eq_dec : EqDecision NotificationCategory.
Proof. solve_decision. Defined.

Definition NotificationCategory_value (x : NotificationCategory) : string :=
  match x with
  | CATEGORY_ASSIGNMENTS => "assignments" | CATEGORY_MESSAGES => "messages"
  | CATEGORY_ATTENTION => "attention" | CATEGORY_REPORTS => "reports"
  | CATEGORY_CONSENT => "consent" | CATEGORY_BILLING => "billing"
  | CATEGORY_ACCOUNT => "account"
  end.

#[export] Instance NotificationCategory_str_enum : StrEnum NotificationCategory := {|
  members := [CATEGORY_ASSIGNMENTS; CATEGORY_MESSAGES; CATEGORY_ATTENTION; CATEGORY_REPORTS;
    CATEGORY_CONSENT; CATEGORY_BILLING; CATEGORY_ACCOUNT];
  value := NotificationCategory_value;
  members_complete := ltac:(members_complete_tac);
  value_inj := ltac:(value_inj_tac)
|}.

(** What a notification is about. *)
Inductive NotificationType :=
| ATTENTION_SUMMARY
| MODALITY_SHIFT
| CONCEPT_SUPPORT_NEEDED
| PIN_RESET_REQUESTED
| DEACTIVATED_STUDENT_SUPPORT_REQUESTED
| ADMIN_WELCOME
| CONSENT_ACTION_REQUIRED
| ROSTER_SYNC_COMPLETED
| ROSTER_SYNC_NEEDS_ATTENTION
| INVOICE_ISSUED
| PAYMENT_CLEARED
| SSO_NEEDS_ATTENTION
| LESSON_ASSIGNED
| REVIEW_DUE
| TEACHER_REPLIED
| SIGN_IN_CHANGED.

#[export] Instance NotificationType_eq_dec : EqDecision NotificationType.
Proof. solve_decision. Defined.

Definition NotificationType_value (x : NotificationType) : string :=
  match x with
  | ATTENTION_SUMMARY => "attention_summary" | MODALITY_SHIFT => "modality_shift"
  | CONCEPT_SUPPORT_NEEDED => "concept_support_needed"
  | PIN_RESET_REQUESTED => "pin_reset_requested"
  | DEACTIVATED_STUDENT_SUPPORT_REQUESTED => "deactivated_student_support_requested"
  | ADMIN_WELCOME => "admin_welcome" | CONSENT_ACTION_REQUIRED => "consent_action_required"
  | ROSTER_SYNC_COMPLETED => "roster_sync_completed"
  | ROSTER_SYNC_NEEDS_ATTENTION => "roster_sync_needs_attention"
  | INVOICE_ISSUED => "invoice_issued" | PAYMENT_CLEARED => "payment_cleared"
  | SSO_NEEDS_ATTENTION => "sso_needs_attention" | LESSON_ASSIGNED => "lesson_assigned"
  | REVIEW_DUE => "review_due" | TEACHER_REPLIED => "teacher_replied"
  | SIGN_IN_CHANGED => "sign_in_changed"
  end.

#[export] Instance NotificationType_str_enum : StrEnum NotificationType := {|
  members := [ATTENTION_SUMMARY; MODALITY_SHIFT; CONCEPT_SUPPORT_NEEDED; PIN_RESET_REQUESTED;
    DEACTIVATED_STUDENT_SUPPORT_REQUESTED; ADMIN_WELCOME; CONSENT_ACTION_REQUIRED;
    ROSTER_SYNC_COMPLETED; ROSTER_SYNC_NEEDS_ATTENTION; INVOICE_ISSUED; PAYMENT_CLEARED;
    SSO_NEEDS_ATTENTION; LESSON_ASSIGNED; REVIEW_DUE; TEACHER_REPLIED; SIGN_IN_CHANGED];
  value := NotificationType_value;
  members_complete := ltac:(members_complete_tac);
  value_inj := ltac:(value_inj_tac)
|}.

(** [NOTIFICATION_CATEGORY_BY_TYPE] *)
Definition NOTIFICATION_CATEGORY_BY_TYPE (t : NotificationType) : NotificationCategory :=
  match t with
  | ATTENTION_SUMMARY | MODALITY_SHIFT | CONCEPT_SUPPORT_NEEDED => CATEGORY_ATTENTION
  | PIN_RESET_REQUESTED => CATEGORY_ACCOUNT
  | DEACTIVATED_STUDENT_SUPPORT_REQUESTED => CATEGORY_MESSAGES
  | ADMIN_WELCOME => CATEGORY_ACCOUNT
  | CONSENT_ACTION_REQUIRED => CATEGORY_CONSENT
  | ROSTER_SYNC_COMPLETED | ROSTER_SYNC_NEEDS_ATTENTION => CATEGORY_REPORTS
  | INVOICE_ISSUED | PAYMENT_CLEARED => CATEGORY_BILLING
  | SSO_NEEDS_ATTENTION => CATEGORY_ACCOUNT
  | LESSON_ASSIGNED | REVIEW_DUE => CATEGORY_ASSIGNMENTS
  | TEACHER_REPLIED => CATEGORY_MESSAGES
  | SIGN_IN_CHANGED => CATEGORY_ACCOUNT
  end.

(** The types a child can be sent. *)
Definition STUDENT_NOTIFICATION_TYPES : gset NotificationType :=
  {[ LESSON_ASSIGNED; REVIEW_DUE; TEACHER_REPLIED; SIGN_IN_CHANGED ]}.

(** [notification_category]: the category of a stored type, [None] when the
    value is absent or names no type. *)
Definition notification_category (notification_type : option string) : option NotificationCategory :=
  match notification_type with
  | None => None
  | Some s => NOTIFICATION_CATEGORY_BY_TYPE <$> parse s
  end.

(** ** Consent ([domain/consent/vocabulary.py]) *)

(** How a parent is reached: email, and nothing else. *)
Inductive ParentContactMethod :=
| CONTACT_EMAIL.

#[export] Instance ParentContactMethod_eq_dec : EqDecision ParentContactMethod.
Proof. solve_decision. Defined.

Definition ParentContactMethod_value (x : ParentContactMethod) : string :=
  match x with
  | CONTACT_EMAIL => "email"
  end.

#[export] Instance ParentContactMethod_str_enum : StrEnum ParentContactMethod := {|
  members := [CONTACT_EMAIL];
  value := ParentContactMethod_value;
  members_complete := ltac:(members_complete_tac);
  value_inj := ltac:(value_inj_tac)
|}.

(** Who confirmed a consent. *)
Inductive ConsentConfirmationSource :=
| SOURCE_SCHOOL
| SOURCE_PARENT.

#[export] Instance ConsentConfirmationSource_eq_dec : EqDecision ConsentConfirmationSource.
Proof. solve_decision. Defined.

Definition ConsentConfirmationSource_value (x : ConsentConfirmationSource) : string :=
  match x with
  | SOURCE_SCHOOL => "school" | SOURCE_PARENT => "parent"
  end.

#[export] Instance ConsentConfirmationSource_str_enum : StrEnum ConsentConfirmationSource := {|
  members := [SOURCE_SCHOOL; SOURCE_PARENT];
  value := ConsentConfirmationSource_value;
  members_complete := ltac:(members_complete_tac);
  value_inj := ltac:(value_inj_tac)
|}.

(** What an outbox row is for. *)
Inductive ConsentNotificationKind :=
| KIND_REQUEST
| KIND_RECEIPT.

#[export] Instance ConsentNotificationKind_eq_dec : EqDecision ConsentNotificationKind.
Proof. solve_decision. Defined.

Definition ConsentNotificationKind_value (x : ConsentNotificationKind) : string :=
  match x with
  | KIND_REQUEST => "request" | KIND_RECEIPT => "receipt"
  end.

#[export] Instance ConsentNotificationKind_str_enum : StrEnum ConsentNotificationKind := {|
  members := [KIND_REQUEST; KIND_RECEIPT];
  value := ConsentNotificationKind_value;
  members_complete := ltac:(members_complete_tac);
  value_inj := ltac:(value_inj_tac)
|}.

(** Delivery of an outbox row. *)
Inductive ConsentDeliveryStatus :=
| DELIVERY_QUEUED
| DELIVERY_PROCESSING
| DELIVERY_SENT
| DELIVERY_FAILED.

#[export] Instance ConsentDeliveryStatus_eq_dec : EqDecision ConsentDeliveryStatus.
Proof. solve_decision. Defined.

Definition ConsentDeliveryStatus_value (x : ConsentDeliveryStatus) : string :=
  match x with
  | DELIVERY_QUEUED => "queued" | DELIVERY_PROCESSING => "processing" | DELIVERY_SENT => "sent"
  | DELIVERY_FAILED => "failed"
  end.

#[export] Instance ConsentDeliveryStatus_str_enum : StrEnum ConsentDeliveryStatus := {|
  members := [DELIVERY_QUEUED; DELIVERY_PROCESSING; DELIVERY_SENT; DELIVERY_FAILED];
  value := ConsentDeliveryStatus_value;
  members_complete := ltac:(members_complete_tac);
  value_inj := ltac:(value_inj_tac)
|}.

(** The data-subject rights a parent can exercise. *)
Inductive ParentRightType :=
| REQUEST_DATA
| OBJECT
| WITHDRAW_CONSENT
| RESTORE_CONSENT.

#[export] Instance ParentRightType_eq_dec : EqDecision ParentRightType.
Proof. solve_decision. Defined.

Definition ParentRightType_value (x : ParentRightType) : string :=
  match x with
  | REQUEST_DATA => "request_data" | OBJECT => "object"
  | WITHDRAW_CONSENT => "withdraw_consent" | RESTORE_CONSENT => "restore_consent"
  end.

#[export] Instance ParentRightType_str_enum : StrEnum ParentRightType := {|
  members := [REQUEST_DATA; OBJECT; WITHDRAW_CONSENT; RESTORE_CONSENT];
  value := ParentRightType_value;
  members_complete := ltac:(members_complete_tac);
  value_inj := ltac:(value_inj_tac)
|}.

(** Where a date of birth stands between school and parent. *)
Inductive AgeCheckState :=
| MATCHED
| MISMATCH
| RESOLVED
| AWAITING_PARENT.

#[export] Instance AgeCheckState_eq_dec : EqDecision AgeCheckState.
Proof. solve_decision. Defined.

Definition AgeCheckState_value (x : AgeCheckState) : string :=
  match x with
  | MATCHED => "matched" | MISMATCH => "mismatch" | RESOLVED => "resolved"
  | AWAITING_PARENT => "awaiting_parent"
  end.

#[export] Instance AgeCheckState_str_enum : StrEnum AgeCheckState := {|
  members := [MATCHED; MISMATCH; RESOLVED; AWAITING_PARENT];
  value := AgeCheckState_value;
  members_complete := ltac:(members_complete_tac);
  value_inj := ltac:(value_inj_tac)
|}.

(** Why a parent is not asked again. *)
Inductive ConsentRefusalReason :=
| REFUSAL_NO_RESPONSE
| REFUSAL_DECLINED
| REFUSAL_WITHDRAWN.

#[export] Instance ConsentRefusalReason_eq_dec : EqDecision ConsentRefusalReason.
Proof. solve_decision. Defined.

Definition ConsentRefusalReason_value (x : ConsentRefusalReason) : string :=
  match x with
  | REFUSAL_NO_RESPONSE => "no_response" | REFUSAL_DECLINED => "declined"
  | REFUSAL_WITHDRAWN => "withdrawn"
  end.

#[export] Instance ConsentRefusalReason_str_enum : StrEnum ConsentRefusalReason := {|
  members := [REFUSAL_NO_RESPONSE; REFUSAL_DECLINED; REFUSAL_WITHDRAWN];
  value := ConsentRefusalReason_value;
  members_complete := ltac:(members_complete_tac);
  value_inj := ltac:(value_inj_tac)
|}.

(** The one consent a learner cannot start without. *)
Definition REQUIRED_LEARNING_CONSENT : ConsentType := DATA_PROCESSING.

(** ** Permissions ([domain/permissions/vocabulary.py]) *)

(** Senior and standard administrators. *)
Inductive AdminAccessLevel :=
| SENIOR
| STANDARD.

#[export] Instance AdminAccessLevel_eq_dec : EqDecision AdminAccessLevel.
Proof. solve_decision. Defined.

Definition AdminAccessLevel_value (x : AdminAccessLevel) : string :=
  match x with
  | SENIOR => "senior" | STANDARD => "standard"
  end.

#[export] Instance AdminAccessLevel_str_enum : StrEnum AdminAccessLevel := {|
  members := [SENIOR; STANDARD];
  value := AdminAccessLevel_value;
  members_complete := ltac:(members_complete_tac);
  value_inj := ltac:(value_inj_tac)
|}.

(** What an administrator may do. *)
Inductive PermissionScope :=
| SCOPE_BILLING
| SCOPE_ROSTER
| SCOPE_CURRICULUM
| SCOPE_SENCO
| SCOPE_IT_SSO
| SCOPE_OVERSIGHT
| SCOPE_TEACHER.

#[export] Instance PermissionScope_eq_dec : EqDecision PermissionScope.
Proof. solve_decision. Defined.

Definition PermissionScope_value (x : PermissionScope) : string :=
  match x with
  | SCOPE_BILLING => "billing" | SCOPE_ROSTER => "roster" | SCOPE_CURRICULUM => "curriculum"
  | SCOPE_SENCO => "senco" | SCOPE_IT_SSO => "it_sso" | SCOPE_OVERSIGHT => "oversight"
  | SCOPE_TEACHER => "teacher"
  end.

#[export] Instance PermissionScope_str_enum : StrEnum PermissionScope := {|
  members := [SCOPE_BILLING; SCOPE_ROSTER; SCOPE_CURRICULUM; SCOPE_SENCO; SCOPE_IT_SSO;
    SCOPE_OVERSIGHT; SCOPE_TEACHER];
  value := PermissionScope_value;
  members_complete := ltac:(members_complete_tac);
  value_inj := ltac:(value_inj_tac)
|}.

(** [IMPLICIT_SCOPES_BY_ROLE[role]]; [None] is the [KeyError]. *)
Definition IMPLICIT_SCOPES_BY_ROLE (role : string) : option (gset PermissionScope) :=
  match parse role with
  | Some STUDENT => Some ∅
  | Some TEACHER => Some {[ SCOPE_TEACHER ]}
  | Some SENCO_ADMIN => Some {[ SCOPE_SENCO ]}
  | Some OTHER_ADMIN => Some ∅
  | Some PARENT_GUARDIAN => Some ∅
  | None => None
  end.

Definition NAVIGATION_BY_SCOPE (scope : PermissionScope) : list string :=
  match scope with
  | SCOPE_BILLING => ["billing"]
  | SCOPE_ROSTER => ["classes"; "students"; "team"]
  | SCOPE_CURRICULUM => ["curriculum"; "lessons"]
  | SCOPE_SENCO => ["students"; "insights"; "iep_exporter"]
  | SCOPE_IT_SSO => ["integrations"; "settings"]
  | SCOPE_OVERSIGHT => ["overview"; "reports"; "team"]
  | SCOPE_TEACHER => ["dashboard"; "lessons"; "students"; "insights"; "connect"]
  end.

Definition NAVIGATION_ORDER : list string :=
  ["overview"; "dashboard"; "classes"; "lessons"; "curriculum"; "students"; "insights";
   "iep_exporter"; "reports"; "billing"; "integrations"; "settings"; "team"; "connect"].

(** [effective_scopes]: the assigned scopes and those the role implies; an
    unknown role raises [ValueError], here [None]. *)
Definition effective_scopes (role : string) (assigned_scopes : gset PermissionScope)
  : option (gset PermissionScope) :=
  implicit ← IMPLICIT_SCOPES_BY_ROLE role;
  Some (assigned_scopes ∪ implicit).

(** [navigation_for]: the destinations some scope opens, in display order. *)
Definition navigation_for (scopes : gset PermissionScope) : list string :=
  let allowed := elements scopes ≫= NAVIGATION_BY_SCOPE in
  filterb (λ item, bool_decide (item ∈ allowed)) NAVIGATION_ORDER.

(** ** Billing ([domain/billing/vocabulary.py]) *)

(** How a school buys Nevo. *)
Inductive PricingPlan :=
| ANNUAL
| PER_TERM.

#[export] Instance PricingPlan_eq_dec : EqDecision PricingPlan.
Proof. solve_decision. Defined.

Definition PricingPlan_value (x : PricingPlan) : string :=
  match x with
  | ANNUAL => "annual" | PER_TERM => "per_term"
  end.

#[export] Instance PricingPlan_str_enum : StrEnum PricingPlan := {|
  members := [ANNUAL; PER_TERM];
  value := PricingPlan_value;
  members_complete := ltac:(members_complete_tac);
  value_inj := ltac:(value_inj_tac)
|}.

(** Which rate card a school is held to. *)
Inductive RateType :=
| RATE_FOUNDING_PARTNER
| RATE_STANDARD.

#[export] Instance RateType_eq_dec : EqDecision RateType.
Proof. solve_decision. Defined.

Definition RateType_value (x : RateType) : string :=
  match x with
  | RATE_FOUNDING_PARTNER => "founding_partner" | RATE_STANDARD => "standard"
  end.

#[export] Instance RateType_str_enum : StrEnum RateType := {|
  members := [RATE_FOUNDING_PARTNER; RATE_STANDARD];
  value := RateType_value;
  members_complete := ltac:(members_complete_tac);
  value_inj := ltac:(value_inj_tac)
|}.

(** What the fee buys access to. *)
Inductive AccessWindow :=
| YEAR_ROUND
| SCHOOL_SESSION.

#[export] Instance AccessWindow_eq_dec : EqDecision AccessWindow.
Proof. solve_decision. Defined.

Definition AccessWindow_value (x : AccessWindow) : string :=
  match x with
  | YEAR_ROUND => "year_round" | SCHOOL_SESSION => "school_session"
  end.

#[export] Instance AccessWindow_str_enum : StrEnum AccessWindow := {|
  members := [YEAR_ROUND; SCHOOL_SESSION];
  value := AccessWindow_value;
  members_complete := ltac:(members_complete_tac);
  value_inj := ltac:(value_inj_tac)
|}.

(** Superseded tiers, retained to read old rows. *)
Inductive SubscriptionTier :=
| BOUTIQUE
| MID_MARKET
| PREMIUM
| ENTERPRISE.

#[export] Instance SubscriptionTier_eq_dec : EqDecision SubscriptionTier.
Proof. solve_decision. Defined.

Definition SubscriptionTier_value (x : SubscriptionTier) : string :=
  match x with
  | BOUTIQUE => "boutique" | MID_MARKET => "mid_market" | PREMIUM => "premium"
  | ENTERPRISE => "enterprise"
  end.

#[export] Instance SubscriptionTier_str_enum : StrEnum SubscriptionTier := {|
  members := [BOUTIQUE; MID_MARKET; PREMIUM; ENTERPRISE];
  value := SubscriptionTier_value;
  members_complete := ltac:(members_complete_tac);
  value_inj := ltac:(value_inj_tac)
|}.

(** State of an invoice. *)
Inductive InvoiceStatus :=
| INVOICE_PAID
| INVOICE_PENDING
| INVOICE_OVERDUE.

#[export] Instance InvoiceStatus_eq_dec : EqDecision InvoiceStatus.
Proof. solve_decision. Defined.

Definition InvoiceStatus_value (x : InvoiceStatus) : string :=
  match x with
  | INVOICE_PAID => "paid" | INVOICE_PENDING => "pending" | INVOICE_OVERDUE => "overdue"
  end.

#[export] Instance InvoiceStatus_str_enum : StrEnum InvoiceStatus := {|
  members := [INVOICE_PAID; INVOICE_PENDING; INVOICE_OVERDUE];
  value := InvoiceStatus_value;
  members_complete := ltac:(members_complete_tac);
  value_inj := ltac:(value_inj_tac)
|}.

(** Kind of stored payment method. *)
Inductive PaymentMethodType :=
| CARD
| DIRECT_DEBIT.

#[export] Instance PaymentMethodType_eq_dec : EqDecision PaymentMethodType.
Proof. solve_decision. Defined.

Definition PaymentMethodType_value (x : PaymentMethodType) : string :=
  match x with
  | CARD => "card" | DIRECT_DEBIT => "direct_debit"
  end.

#[export] Instance PaymentMethodType_str_enum : StrEnum PaymentMethodType := {|
  members := [CARD; DIRECT_DEBIT];
  value := PaymentMethodType_value;
  members_complete := ltac:(members_complete_tac);
  value_inj := ltac:(value_inj_tac)
|}.

(** Currencies an amount is stated in. *)
Inductive PricingCurrency :=
| USD
| NGN
| GBP.

#[export] Instance PricingCurrency_eq_dec : EqDecision PricingCurrency.
Proof. solve_decision. Defined.

Definition PricingCurrency_value (x : PricingCurrency) : string :=
  match x with
  | USD => "USD" | NGN => "NGN" | GBP => "GBP"
  end.

#[export] Instance PricingCurrency_str_enum : StrEnum PricingCurrency := {|
  members := [USD; NGN; GBP];
  value := PricingCurrency_value;
  members_complete := ltac:(members_complete_tac);
  value_inj := ltac:(value_inj_tac)
|}.

(** State of a school's contract. *)
Inductive ContractStatus :=
| CONTRACT_ACTIVE
| CONTRACT_SUSPENDED
| CONTRACT_TERMINATED
| CONTRACT_PENDING_RENEWAL.

#[export] Instance ContractStatus_eq_dec : EqDecision ContractStatus.
Proof. solve_decision. Defined.

Definition ContractStatus_value (x : ContractStatus) : string :=
  match x with
  | CONTRACT_ACTIVE => "active" | CONTRACT_SUSPENDED => "suspended"
  | CONTRACT_TERMINATED => "terminated" | CONTRACT_PENDING_RENEWAL => "pending_renewal"
  end.

#[export] Instance ContractStatus_str_enum : StrEnum ContractStatus := {|
  members := [CONTRACT_ACTIVE; CONTRACT_SUSPENDED; CONTRACT_TERMINATED; CONTRACT_PENDING_RENEWAL];
  value := ContractStatus_value;
  members_complete := ltac:(members_complete_tac);
  value_inj := ltac:(value_inj_tac)
|}.

(** Who pays. *)
Inductive PaymentSource :=
| DIRECT
| STERLING
| PARTNER.

#[export] Instance PaymentSource_eq_dec : EqDecision PaymentSource.
Proof. solve_decision. Defined.

Definition PaymentSource_value (x : PaymentSource) : string :=
  match x with
  | DIRECT => "direct" | STERLING => "sterling" | PARTNER => "partner"
  end.

#[export] Instance PaymentSource_str_enum : StrEnum PaymentSource := {|
  members := [DIRECT; STERLING; PARTNER];
  value := PaymentSource_value;
  members_complete := ltac:(members_complete_tac);
  value_inj := ltac:(value_inj_tac)
|}.

(** State of one attempt to collect money. *)
Inductive PaymentTransactionStatus :=
| TX_PENDING
| TX_SUCCESS
| TX_FAILED
| TX_ABANDONED.

#[export] Instance PaymentTransactionStatus_eq_dec : EqDecision PaymentTransactionStatus.
Proof. solve_decision. Defined.

Definition PaymentTransactionStatus_value (x : PaymentTransactionStatus) : string :=
  match x with
  | TX_PENDING => "pending" | TX_SUCCESS => "success" | TX_FAILED => "failed"
  | TX_ABANDONED => "abandoned"
  end.

#[export] Instance PaymentTransactionStatus_str_enum : StrEnum PaymentTransactionStatus := {|
  members := [TX_PENDING; TX_SUCCESS; TX_FAILED; TX_ABANDONED];
  value := PaymentTransactionStatus_value;
  members_complete := ltac:(members_complete_tac);
  value_inj := ltac:(value_inj_tac)
|}.

(** State of one processor callback. *)
Inductive WebhookEventStatus :=
| EVENT_RECEIVED
| EVENT_PROCESSED
| EVENT_IGNORED
| EVENT_FAILED.

#[export] Instance WebhookEventStatus_eq_dec : EqDecision WebhookEventStatus.
Proof. solve_decision. Defined.

Definition WebhookEventStatus_value (x : WebhookEventStatus) : string :=
  match x with
  | EVENT_RECEIVED => "received" | EVENT_PROCESSED => "processed" | EVENT_IGNORED => "ignored"
  | EVENT_FAILED => "failed"
  end.

#[export] Instance WebhookEventStatus_str_enum : StrEnum WebhookEventStatus := {|
  members := [EVENT_RECEIVED; EVENT_PROCESSED; EVENT_IGNORED; EVENT_FAILED];
  value := WebhookEventStatus_value;
  members_complete := ltac:(members_complete_tac);
  value_inj := ltac:(value_inj_tac)
|}.

(** ** The AI gateway ([domain/ai_gateway/vocabulary.py]) *)

(** What a text is generated for. *)
Inductive AiService :=
| ADAPTATION
| LESSON_GENERATION
| NARRATIVE.

#[export] Instance AiService_eq_dec : EqDecision AiService.
Proof. solve_decision. Defined.

Definition AiService_value (x : AiService) : string :=
  match x with
  | ADAPTATION => "adaptation" | LESSON_GENERATION => "lesson_generation" | NARRATIVE => "narrative"
  end.

#[export] Instance AiService_str_enum : StrEnum AiService := {|
  members := [ADAPTATION; LESSON_GENERATION; NARRATIVE];
  value := AiService_value;
  members_complete := ltac:(members_complete_tac);
  value_inj := ltac:(value_inj_tac)
|}.

(** [SERVICE_PRIORITIES], as the integers of [AiPriority] *)
Definition AiPriority_value (x : AiService) : Z :=
  match x with ADAPTATION => 0 | LESSON_GENERATION => 10 | NARRATIVE => 20 end.

(** How a call of the gateway ended. *)
Inductive AiCallStatus :=
| CALL_SUCCEEDED
| CALL_FALLBACK
| CALL_FAILED.

#[export] Instance AiCallStatus_eq_dec : EqDecision AiCallStatus.
Proof. solve_decision. Defined.

Definition AiCallStatus_value (x : AiCallStatus) : string :=
  match x with
  | CALL_SUCCEEDED => "succeeded" | CALL_FALLBACK => "fallback" | CALL_FAILED => "failed"
  end.

#[export] Instance AiCallStatus_str_enum : StrEnum AiCallStatus := {|
  members := [CALL_SUCCEEDED; CALL_FALLBACK; CALL_FAILED];
  value := AiCallStatus_value;
  members_complete := ltac:(members_complete_tac);
  value_inj := ltac:(value_inj_tac)
|}.

(** Who wrote a text. *)
Inductive AiProviderName :=
| CLAUDE
| GEMINI
| RULE_BASED.

#[export] Instance AiProviderName_eq_dec : EqDecision AiProviderName.
Proof. solve_decision. Defined.

Definition AiProviderName_value (x : AiProviderName) : string :=
  match x with
  | CLAUDE => "claude" | GEMINI => "gemini" | RULE_BASED => "rule_based"
  end.

#[export] Instance AiProviderName_str_enum : StrEnum AiProviderName := {|
  members := [CLAUDE; GEMINI; RULE_BASED];
  value := AiProviderName_value;
  members_complete := ltac:(members_complete_tac);
  value_inj := ltac:(value_inj_tac)
|}.

(** ** Teacher assignments ([domain/teacher_assignments/vocabulary.py]) *)

(** What a teacher is to a class. *)
Inductive TeacherAssignmentRole :=
| PRIMARY
| CO_TEACHER.

#[export] Instance TeacherAssignmentRole_eq_dec : EqDecision TeacherAssignmentRole.
Proof. solve_decision. Defined.

Definition TeacherAssignmentRole_value (x : TeacherAssignmentRole) : string :=
  match x with
  | PRIMARY => "primary" | CO_TEACHER => "co_teacher"
  end.

#[export] Instance TeacherAssignmentRole_str_enum : StrEnum TeacherAssignmentRole := {|
  members := [PRIMARY; CO_TEACHER];
  value := TeacherAssignmentRole_value;
  members_complete := ltac:(members_complete_tac);
  value_inj := ltac:(value_inj_tac)
|}.

(** Where an assignment came from. *)
Inductive TeacherAssignmentSource :=
| FROM_MANUAL
| FROM_ROSTER_SYNC.

#[export] Instance TeacherAssignmentSource_eq_dec : EqDecision TeacherAssignmentSource.
Proof. solve_decision. Defined.

Definition TeacherAssignmentSource_value (x : TeacherAssignmentSource) : string :=
  match x with
  | FROM_MANUAL => "manual" | FROM_ROSTER_SYNC => "roster_sync"
  end.

#[export] Instance TeacherAssignmentSource_str_enum : StrEnum TeacherAssignmentSource := {|
  members := [FROM_MANUAL; FROM_ROSTER_SYNC];
  value := TeacherAssignmentSource_value;
  members_complete := ltac:(members_complete_tac);
  value_inj := ltac:(value_inj_tac)
|}.

(** Outcome of importing assignments from a roster. *)
Inductive TeacherRosterSyncStatus :=
| SYNC_COMPLETED
| SYNC_PARTIAL
| SYNC_MANUAL.

#[export] Instance TeacherRosterSyncStatus_eq_dec : EqDecision TeacherRosterSyncStatus.
Proof. solve_decision. Defined.

Definition TeacherRosterSyncStatus_value (x : TeacherRosterSyncStatus) : string :=
  match x with
  | SYNC_COMPLETED => "completed" | SYNC_PARTIAL => "partial_manual_fallback_required" | SYNC_MANUAL => "manual_fallback_required"
  end.

#[export] Instance TeacherRosterSyncStatus_str_enum : StrEnum TeacherRosterSyncStatus := {|
  members := [SYNC_COMPLETED; SYNC_PARTIAL; SYNC_MANUAL];
  value := TeacherRosterSyncStatus_value;
  members_complete := ltac:(members_complete_tac);
  value_inj := ltac:(value_inj_tac)
|}.

(** Who is asking Nevo, which decides the prompt and the tools. *)
Inductive AskNevoRole :=
| ASK_STUDENT
| ASK_TEACHER
| ASK_PARENT
| ASK_ADMIN.

#[export] Instance AskNevoRole_eq_dec : EqDecision AskNevoRole.
Proof. solve_decision. Defined.

Definition AskNevoRole_value (x : AskNevoRole) : string :=
  match x with
  | ASK_STUDENT => "student" | ASK_TEACHER => "teacher" | ASK_PARENT => "parent"
  | ASK_ADMIN => "admin"
  end.

#[export] Instance AskNevoRole_str_enum : StrEnum AskNevoRole := {|
  members := [ASK_STUDENT; ASK_TEACHER; ASK_PARENT; ASK_ADMIN];
  value := AskNevoRole_value;
  members_complete := ltac:(members_complete_tac);
  value_inj := ltac:(value_inj_tac)
|}.

(** What a question to Nevo is about. *)
Inductive AskNevoQuestionCategory :=
| LESSON_HELP
| PROFILE_PATTERN
| CLASS_PLANNING
| FAMILY_MESSAGE
| FLAG_REVIEW
| GENERAL.

#[export] Instance AskNevoQuestionCategory_eq_dec : EqDecision AskNevoQuestionCategory.
Proof. solve_decision. Defined.

Definition AskNevoQuestionCategory_value (x : AskNevoQuestionCategory) : string :=
  match x with
  | LESSON_HELP => "lesson_help" | PROFILE_PATTERN => "profile_pattern"
  | CLASS_PLANNING => "class_planning" | FAMILY_MESSAGE => "family_message"
  | FLAG_REVIEW => "flag_review" | GENERAL => "general"
  end.

#[export] Instance AskNevoQuestionCategory_str_enum : StrEnum AskNevoQuestionCategory := {|
  members := [LESSON_HELP; PROFILE_PATTERN; CLASS_PLANNING; FAMILY_MESSAGE; FLAG_REVIEW; GENERAL];
  value := AskNevoQuestionCategory_value;
  members_complete := ltac:(members_complete_tac);
  value_inj := ltac:(value_inj_tac)
|}.

(** Who said a thing in a conversation. *)
Inductive AskNevoMessageAuthor :=
| ASKER
| NEVO.

#[export] Instance AskNevoMessageAuthor_eq_dec : EqDecision AskNevoMessageAuthor.
Proof. solve_decision. Defined.

Definition AskNevoMessageAuthor_value (x : AskNevoMessageAuthor) : string :=
  match x with
  | ASKER => "asker" | NEVO => "nevo"
  end.

#[export] Instance AskNevoMessageAuthor_str_enum : StrEnum AskNevoMessageAuthor := {|
  members := [ASKER; NEVO];
  value := AskNevoMessageAuthor_value;
  members_complete := ltac:(members_complete_tac);
  value_inj := ltac:(value_inj_tac)
|}.

(** How far a lesson was taken. *)
Inductive LessonCompletionStatus :=
| LESSON_IN_PROGRESS
| LESSON_COMPLETED
| LESSON_EXITED.

#[export] Instance LessonCompletionStatus_eq_dec : EqDecision LessonCompletionStatus.
Proof. solve_decision. Defined.

Definition LessonCompletionStatus_value (x : LessonCompletionStatus) : string :=
  match x with
  | LESSON_IN_PROGRESS => "in_progress" | LESSON_COMPLETED => "completed"
  | LESSON_EXITED => "exited"
  end.

#[export] Instance LessonCompletionStatus_str_enum : StrEnum LessonCompletionStatus := {|
  members := [LESSON_IN_PROGRESS; LESSON_COMPLETED; LESSON_EXITED];
  value := LessonCompletionStatus_value;
  members_complete := ltac:(members_complete_tac);
  value_inj := ltac:(value_inj_tac)
|}.

(** What a wrong answer is put down to. *)
Inductive FailureAttribution :=
| FAILED_CONCEPT
| FAILED_READING
| FAILED_MIXED
| FAILED_NONE.

#[export] Instance FailureAttribution_eq_dec : EqDecision FailureAttribution.
Proof. solve_decision. Defined.

Definition FailureAttribution_value (x : FailureAttribution) : string :=
  match x with
  | FAILED_CONCEPT => "concept" | FAILED_READING => "reading" | FAILED_MIXED => "mixed"
  | FAILED_NONE => "none"
  end.

#[export] Instance FailureAttribution_str_enum : StrEnum FailureAttribution := {|
  members := [FAILED_CONCEPT; FAILED_READING; FAILED_MIXED; FAILED_NONE];
  value := FailureAttribution_value;
  members_complete := ltac:(members_complete_tac);
  value_inj := ltac:(value_inj_tac)
|}.

(** What a flag for attention says. *)
Inductive AttentionFlagType :=
| ENGAGEMENT_DECLINE
| SUDDEN_CHANGE.

#[export] Instance AttentionFlagType_eq_dec : EqDecision AttentionFlagType.
Proof. solve_decision. Defined.

Definition AttentionFlagType_value (x : AttentionFlagType) : string :=
  match x with
  | ENGAGEMENT_DECLINE => "engagement_decline" | SUDDEN_CHANGE => "sudden_change"
  end.

#[export] Instance AttentionFlagType_str_enum : StrEnum AttentionFlagType := {|
  members := [ENGAGEMENT_DECLINE; SUDDEN_CHANGE];
  value := AttentionFlagType_value;
  members_complete := ltac:(members_complete_tac);
  value_inj := ltac:(value_inj_tac)
|}.

(** ** Exceptions

    The exceptions the modelled code raises: those of each component's
    [errors.py], SQLAlchemy's [IntegrityError], and the built-in ones. *)
Inductive exn :=
(** built in *)
| IntegrityError
| ValueError (message : string)
| AttributeError
| TypeError
| KeyError
| MultipleResultsFound
(** raised by the HTTP client *)
| HttpxError (message : string)
(** [consent/errors.py] *)
| StudentNotFoundError
| InvalidParentContactError
| InvalidConsentMethodError
| ParentAccountConflictError
| StudentConsentAccessError
| ConsentRequiredError
| ConsentPendingError
| ConsentUnavailableError
| ConsentWithdrawnError
| ParentAlreadyRefusedError
(** [auth/errors.py] *)
| InvalidCredentialsError
| RateLimitExceededError (retry_at : datetime)
| InvalidSessionError
| SessionExpiredError
| SessionRevokedError
| AccountPausedError
| SessionReplacedError
| SchoolCodeRequiredError
(** [permissions/errors.py] *)
| PermissionDeniedError
| TeamMemberNotFoundError
| TeamMemberAlreadyExistsError
| InvalidInvitationError
| LastOversightAdminError
| LastSeniorAdminError
| LastLearningSupportHolderError
| LearningSupportGrantActiveError
| SelfScopeRemovalError
| SelfDeactivationError
| SsoManagedTeamError
| InvalidAdminRoleError
| AdminSeatLimitReachedError
(** [payments/errors.py] *)
| PaymentProviderUnavailableError
| PaymentProviderRejectedError (message : string)
| PaymentNotFoundError
| InvoiceNotPayableError
| MissingBillingContactError
| NoReusablePaymentMethodError
| InvalidWebhookSignatureError
(** [billing/errors.py] *)
| BillingSchoolContextError
| BillingNotFoundError
| BillingPaymentMethodError
(** [ai_gateway/errors.py] and [ai_gateway/safety.py] *)
| PromptTemplateNotFoundError
| PromptVariablesError
| InvalidAiContextError
| ProviderUnavailableError
| ProviderNotConfiguredError
| ProviderResponseError
| SchedulerClosedError
| SafetyUnavailable
| SafetyBlocked
(** [notifications/email.py] *)
| EmailDeliveryUnavailableError (message : string)
(** [teacher_assignments/errors.py] *)
| AssignmentNotFoundError
| ClassNotFoundError
| TeacherNotFoundError
| TeacherNotActiveError
| AssignmentConflictError
| PrimaryTeacherExistsError
| TeacherNotAssignedError
| MissingSchoolContextError
| SubjectRequiredError
| SubjectNotOnTeacherError
| SubjectNotOnClassError
(** [ask_nevo/errors.py]: what a person is told and when it starts again *)
| AskNevoDailyLimitError (public_message : string) (resets_at : datetime)
(** [signal_events/errors.py] *)
| EmptySignalBatchError
| SignalBatchTooLargeError
| SessionMismatchError
(** [fastapi]: the answer to a request, its status and its code *)
| HTTPException (status_code : Z) (code : string)
(** raised by arithmetic *)
| ZeroDivisionError
| OverflowError.

#[export] Instance exn_eq_dec : EqDecision exn.
Proof. solve_decision. Defined.

(** Which exceptions are [ConsentError]s ([except ConsentError: raise]). *)
Definition is_consent_error (e : exn) : bool :=
  match e with
  | StudentNotFoundError | InvalidParentContactError | InvalidConsentMethodError
  | ParentAccountConflictError | StudentConsentAccessError | ConsentRequiredError
  | ConsentPendingError | ConsentUnavailableError | ConsentWithdrawnError
  | ParentAlreadyRefusedError => true
  | _ => false
  end.

(** The public code of a consent error. *)
Definition consent_error_code (e : exn) : option string :=
  match e with
  | StudentNotFoundError => Some "student_not_found"
  | InvalidParentContactError => Some "invalid_parent_contact"
  | InvalidConsentMethodError => Some "invalid_consent_method"
  | ParentAccountConflictError => Some "parent_account_conflict"
  | StudentConsentAccessError => Some "student_consent_access_denied"
  | ConsentRequiredError => Some "consent_required"
  | ConsentPendingError => Some "consent_pending"
  | ConsentUnavailableError => Some "consent_service_unavailable"
  | ConsentWithdrawnError => Some "consent_withdrawn"
  | ParentAlreadyRefusedError => Some "parent_already_refused"
  | _ => None
  end.

(** The public code of an authentication error; [InvalidCredentialsError]
    inherits the code of [AuthError]. *)
Definition auth_error_code (e : exn) : option string :=
  match e with
  | InvalidCredentialsError => Some "authentication_failed"
  | RateLimitExceededError _ => Some "too_many_attempts"
  | InvalidSessionError => Some "invalid_session"
  | SessionExpiredError => Some "session_expired"
  | SessionRevokedError => Some "session_revoked"
  | AccountPausedError => Some "account_paused"
  | SessionReplacedError => Some "session_replaced"
  | SchoolCodeRequiredError => Some "school_code_required"
  | _ => None
  end.

(** Every handled exception has a public code, and no two share one. *)
Lemma consent_error_code_total e : is_consent_error e = true ↔ is_Some (consent_error_code e).
Proof. destruct e; split; intros Hx; try done; by destruct Hx. Qed.

(** The public code of a payment error. *)
Definition payment_error_code (e : exn) : option string :=
  match e with
  | PaymentProviderUnavailableError => Some "payment_provider_unavailable"
  | PaymentProviderRejectedError _ => Some "payment_provider_rejected"
  | PaymentNotFoundError => Some "payment_not_found"
  | InvoiceNotPayableError => Some "invoice_not_payable"
  | MissingBillingContactError => Some "missing_billing_contact"
  | NoReusablePaymentMethodError => Some "no_reusable_payment_method"
  | InvalidWebhookSignatureError => Some "invalid_webhook_signature"
  | _ => None
  end.

(** Which exceptions are [PaymentError]s ([except PaymentError]). *)
Definition is_payment_error (e : exn) : bool := is_some (payment_error_code e).

(** The public code of a billing error. *)
Definition billing_error_code (e : exn) : option string :=
  match e with
  | BillingSchoolContextError => Some "missing_school_context"
  | BillingNotFoundError => Some "billing_not_found"
  | BillingPaymentMethodError => Some "invalid_payment_method"
  | _ => None
  end.

(** The public code of an error of the AI gateway. *)
Definition ai_error_code (e : exn) : option string :=
  match e with
  | PromptTemplateNotFoundError => Some "prompt_template_not_found"
  | PromptVariablesError => Some "invalid_prompt_variables"
  | InvalidAiContextError => Some "invalid_ai_context"
  | ProviderUnavailableError => Some "provider_unavailable"
  | ProviderNotConfiguredError => Some "provider_not_configured"
  | ProviderResponseError => Some "provider_response_invalid"
  | SchedulerClosedError => Some "scheduler_closed"
  | SafetyUnavailable => Some "safety_check_unavailable"
  | SafetyBlocked => Some "content_safety_blocked"
  | _ => None
  end.

(** The public code of an error of the teacher assignments. *)
Definition assignment_error_code (e : exn) : option string :=
  match e with
  | AssignmentNotFoundError => Some "assignment_not_found"
  | ClassNotFoundError => Some "class_not_found"
  | TeacherNotFoundError => Some "teacher_not_found"
  | TeacherNotActiveError => Some "teacher_not_active"
  | AssignmentConflictError => Some "assignment_conflict"
  | PrimaryTeacherExistsError => Some "primary_teacher_exists"
  | TeacherNotAssignedError => Some "teacher_not_assigned"
  | MissingSchoolContextError => Some "missing_school_context"
  | SubjectRequiredError => Some "subject_required"
  | SubjectNotOnTeacherError => Some "subject_not_on_teacher"
  | SubjectNotOnClassError => Some "subject_not_on_class"
  | _ => None
  end.

Definition signal_error_code (e : exn) : option string :=
  match e with
  | EmptySignalBatchError => Some "empty_signal_batch"
  | SignalBatchTooLargeError => Some "signal_batch_too_large"
  | SessionMismatchError => Some "session_mismatch"
  | _ => None
  end.
