(* ===== verification/LearningVocabulary.v ===== *)
(** * The vocabulary of lessons

    The enums of [src/nevo/domain/intelligence/vocabulary.py] that the modelled
    code uses, of [domain/signal_events/vocabulary.py] and the levels of
    confidence of [domain/learner_profiles/vocabulary.py]. *)

From Stdlib Require Import String.
From S2P Require Import Prelude Vocabulary.

Local Open Scope string_scope.

(** When an adaptation is asked for. *)
Inductive AdaptationMode :=
| LESSON_LOAD
| IN_LESSON.

#[export] Instance AdaptationMode_eq_dec : EqDecision AdaptationMode.
Proof. solve_decision. Defined.

Definition AdaptationMode_value (x : AdaptationMode) : string :=
  match x with
  | LESSON_LOAD => "lesson_load" | IN_LESSON => "in_lesson"
  end.

#[export] Instance AdaptationMode_str_enum : StrEnum AdaptationMode := {|
  members := [LESSON_LOAD; IN_LESSON];
  value := AdaptationMode_value;
  members_complete := ltac:(members_complete_tac);
  value_inj := ltac:(value_inj_tac)
|}.

(** How content is presented. *)
Inductive ContentModality :=
| VISUAL
| AUDIO
| TEXT_MODALITY
| INTERACTIVE.

#[export] Instance ContentModality_eq_dec : EqDecision ContentModality.
Proof. solve_decision. Defined.

Definition ContentModality_value (x : ContentModality) : string :=
  match x with
  | VISUAL => "visual" | AUDIO => "audio" | TEXT_MODALITY => "text"
  | INTERACTIVE => "interactive"
  end.

#[export] Instance ContentModality_str_enum : StrEnum ContentModality := {|
  members := [VISUAL; AUDIO; TEXT_MODALITY; INTERACTIVE];
  value := ContentModality_value;
  members_complete := ltac:(members_complete_tac);
  value_inj := ltac:(value_inj_tac)
|}.

(** What a part of a lesson is. *)
Inductive ContentSegmentType :=
| DIAGRAM
| WORKED_EXAMPLE
| EXPLANATION
| DEFINITION
| SUMMARY
| PRACTICE
| INTERACTION
| CHECKPOINT
| CALCULATION.

#[export] Instance ContentSegmentType_eq_dec : EqDecision ContentSegmentType.
Proof. solve_decision. Defined.

Definition ContentSegmentType_value (x : ContentSegmentType) : string :=
  match x with
  | DIAGRAM => "diagram" | WORKED_EXAMPLE => "worked_example" | EXPLANATION => "explanation"
  | DEFINITION => "definition" | SUMMARY => "summary" | PRACTICE => "practice"
  | INTERACTION => "interaction" | CHECKPOINT => "checkpoint" | CALCULATION => "calculation"
  end.

#[export] Instance ContentSegmentType_str_enum : StrEnum ContentSegmentType := {|
  members := [DIAGRAM; WORKED_EXAMPLE; EXPLANATION; DEFINITION; SUMMARY; PRACTICE; INTERACTION; CHECKPOINT; CALCULATION];
  value := ContentSegmentType_value;
  members_complete := ltac:(members_complete_tac);
  value_inj := ltac:(value_inj_tac)
|}.

(** How much is shown at once. *)
Inductive DensityLevel :=
| DENSITY_LOW
| DENSITY_MEDIUM
| DENSITY_HIGH.

#[export] Instance DensityLevel_eq_dec : EqDecision DensityLevel.
Proof. solve_decision. Defined.

Definition DensityLevel_value (x : DensityLevel) : string :=
  match x with
  | DENSITY_LOW => "low" | DENSITY_MEDIUM => "medium" | DENSITY_HIGH => "high"
  end.

#[export] Instance DensityLevel_str_enum : StrEnum DensityLevel := {|
  members := [DENSITY_LOW; DENSITY_MEDIUM; DENSITY_HIGH];
  value := DensityLevel_value;
  members_complete := ltac:(members_complete_tac);
  value_inj := ltac:(value_inj_tac)
|}.

(** How much support a part of a lesson gives. *)
Inductive ScaffoldingLevel :=
| SCAFFOLDING_NONE
| LIGHT
| SCAFFOLDING_STANDARD
| STRONG.

#[export] Instance ScaffoldingLevel_eq_dec : EqDecision ScaffoldingLevel.
Proof. solve_decision. Defined.

Definition ScaffoldingLevel_value (x : ScaffoldingLevel) : string :=
  match x with
  | SCAFFOLDING_NONE => "none" | LIGHT => "light" | SCAFFOLDING_STANDARD => "standard"
  | STRONG => "strong"
  end.

#[export] Instance ScaffoldingLevel_str_enum : StrEnum ScaffoldingLevel := {|
  members := [SCAFFOLDING_NONE; LIGHT; SCAFFOLDING_STANDARD; STRONG];
  value := ScaffoldingLevel_value;
  members_complete := ltac:(members_complete_tac);
  value_inj := ltac:(value_inj_tac)
|}.

(** The breaks Nevo offers. *)
Inductive BreakType :=
| MICRO
| MOVEMENT
| CONSOLIDATION
| FULL
| STOP_FOR_DAY.

#[export] Instance BreakType_eq_dec : EqDecision BreakType.
Proof. solve_decision. Defined.

Definition BreakType_value (x : BreakType) : string :=
  match x with
  | MICRO => "micro" | MOVEMENT => "movement" | CONSOLIDATION => "consolidation"
  | FULL => "full" | STOP_FOR_DAY => "stop_for_day"
  end.

#[export] Instance BreakType_str_enum : StrEnum BreakType := {|
  members := [MICRO; MOVEMENT; CONSOLIDATION; FULL; STOP_FOR_DAY];
  value := BreakType_value;
  members_complete := ltac:(members_complete_tac);
  value_inj := ltac:(value_inj_tac)
|}.

(** What a learner may be accommodated for. *)
Inductive AccommodationType :=
| READING
| ATTENTION
| NUMERICAL.

#[export] Instance AccommodationType_eq_dec : EqDecision AccommodationType.
Proof. solve_decision. Defined.

Definition AccommodationType_value (x : AccommodationType) : string :=
  match x with
  | READING => "reading" | ATTENTION => "attention" | NUMERICAL => "numerical"
  end.

#[export] Instance AccommodationType_str_enum : StrEnum AccommodationType := {|
  members := [READING; ATTENTION; NUMERICAL];
  value := AccommodationType_value;
  members_complete := ltac:(members_complete_tac);
  value_inj := ltac:(value_inj_tac)
|}.

(** The rungs of support on problems, most support first. *)
Inductive ScaffoldIntensity :=
| FULL_SUPPORT
| PARTIAL_SUPPORT
| HINTS_ONLY
| INDEPENDENT.

#[export] Instance ScaffoldIntensity_eq_dec : EqDecision ScaffoldIntensity.
Proof. solve_decision. Defined.

Definition ScaffoldIntensity_value (x : ScaffoldIntensity) : string :=
  match x with
  | FULL_SUPPORT => "full_support" | PARTIAL_SUPPORT => "partial_support"
  | HINTS_ONLY => "hints_only" | INDEPENDENT => "independent"
  end.

#[export] Instance ScaffoldIntensity_str_enum : StrEnum ScaffoldIntensity := {|
  members := [FULL_SUPPORT; PARTIAL_SUPPORT; HINTS_ONLY; INDEPENDENT];
  value := ScaffoldIntensity_value;
  members_complete := ltac:(members_complete_tac);
  value_inj := ltac:(value_inj_tac)
|}.

(** How a problem went. *)
Inductive ScaffoldOutcome :=
| CORRECT
| STRUGGLED.

#[export] Instance ScaffoldOutcome_eq_dec : EqDecision ScaffoldOutcome.
Proof. solve_decision. Defined.

Definition ScaffoldOutcome_value (x : ScaffoldOutcome) : string :=
  match x with
  | CORRECT => "correct" | STRUGGLED => "struggled"
  end.

#[export] Instance ScaffoldOutcome_str_enum : StrEnum ScaffoldOutcome := {|
  members := [CORRECT; STRUGGLED];
  value := ScaffoldOutcome_value;
  members_complete := ltac:(members_complete_tac);
  value_inj := ltac:(value_inj_tac)
|}.

(** What can make Nevo suggest a break. *)
Inductive BreakThreshold :=
| TIME_THRESHOLD
| PERSISTENT_STALL
| BREAK_ENGAGEMENT_DECLINE
| COMPREHENSION_DROP
| REPEATED_ERRORS
| REPLAY_ACCUMULATION
| FRUSTRATION_HIGH.

#[export] Instance BreakThreshold_eq_dec : EqDecision BreakThreshold.
Proof. solve_decision. Defined.

Definition BreakThreshold_value (x : BreakThreshold) : string :=
  match x with
  | TIME_THRESHOLD => "time_threshold" | PERSISTENT_STALL => "persistent_stall"
  | BREAK_ENGAGEMENT_DECLINE => "engagement_decline"
  | COMPREHENSION_DROP => "comprehension_drop" | REPEATED_ERRORS => "repeated_errors"
  | REPLAY_ACCUMULATION => "replay_accumulation" | FRUSTRATION_HIGH => "frustration_high"
  end.

#[export] Instance BreakThreshold_str_enum : StrEnum BreakThreshold := {|
  members := [TIME_THRESHOLD; PERSISTENT_STALL; BREAK_ENGAGEMENT_DECLINE; COMPREHENSION_DROP; REPEATED_ERRORS; REPLAY_ACCUMULATION; FRUSTRATION_HIGH];
  value := BreakThreshold_value;
  members_complete := ltac:(members_complete_tac);
  value_inj := ltac:(value_inj_tac)
|}.

(** How strongly a break is suggested. *)
Inductive BreakSeverity :=
| SEVERITY_NONE
| MILD
| SEVERITY_MEDIUM
| SEVERITY_HIGH.

#[export] Instance BreakSeverity_eq_dec : EqDecision BreakSeverity.
Proof. solve_decision. Defined.

Definition BreakSeverity_value (x : BreakSeverity) : string :=
  match x with
  | SEVERITY_NONE => "none" | MILD => "mild" | SEVERITY_MEDIUM => "medium"
  | SEVERITY_HIGH => "high"
  end.

#[export] Instance BreakSeverity_str_enum : StrEnum BreakSeverity := {|
  members := [SEVERITY_NONE; MILD; SEVERITY_MEDIUM; SEVERITY_HIGH];
  value := BreakSeverity_value;
  members_complete := ltac:(members_complete_tac);
  value_inj := ltac:(value_inj_tac)
|}.

(** How sure a finding is. *)
Inductive ConfidenceLevel :=
| CONFIDENCE_LOW
| CONFIDENCE_MEDIUM
| CONFIDENCE_HIGH.

#[export] Instance ConfidenceLevel_eq_dec : EqDecision ConfidenceLevel.
Proof. solve_decision. Defined.

Definition ConfidenceLevel_value (x : ConfidenceLevel) : string :=
  match x with
  | CONFIDENCE_LOW => "low" | CONFIDENCE_MEDIUM => "medium" | CONFIDENCE_HIGH => "high"
  end.

#[export] Instance ConfidenceLevel_str_enum : StrEnum ConfidenceLevel := {|
  members := [CONFIDENCE_LOW; CONFIDENCE_MEDIUM; CONFIDENCE_HIGH];
  value := ConfidenceLevel_value;
  members_complete := ltac:(members_complete_tac);
  value_inj := ltac:(value_inj_tac)
|}.

Inductive ProfileChangeSource :=
| SYSTEM_INFERENCE
| EDUCATOR_REVIEW
| LEARNER_INPUT
| CHANGE_ROSTER_IMPORT
| CORRECTION.

#[export] Instance ProfileChangeSource_eq_dec : EqDecision ProfileChangeSource.
Proof. solve_decision. Defined.

Definition ProfileChangeSource_value (x : ProfileChangeSource) : string :=
  match x with
  | SYSTEM_INFERENCE => "system_inference" | EDUCATOR_REVIEW => "educator_review" | LEARNER_INPUT => "learner_input"
  | CHANGE_ROSTER_IMPORT => "roster_import" | CORRECTION => "correction"
  end.

#[export] Instance ProfileChangeSource_str_enum : StrEnum ProfileChangeSource := {|
  members := [SYSTEM_INFERENCE; EDUCATOR_REVIEW; LEARNER_INPUT; CHANGE_ROSTER_IMPORT; CORRECTION];
  value := ProfileChangeSource_value;
  members_complete := ltac:(members_complete_tac);
  value_inj := ltac:(value_inj_tac)
|}.

Inductive ProfileAttentionFlagStatus :=
| PROFILE_FLAG_OPEN
| PROFILE_FLAG_REVIEWED
| PROFILE_FLAG_DISMISSED.

#[export] Instance ProfileAttentionFlagStatus_eq_dec : EqDecision ProfileAttentionFlagStatus.
Proof. solve_decision. Defined.

Definition ProfileAttentionFlagStatus_value (x : ProfileAttentionFlagStatus) : string :=
  match x with
  | PROFILE_FLAG_OPEN => "open" | PROFILE_FLAG_REVIEWED => "reviewed" | PROFILE_FLAG_DISMISSED => "dismissed"
  end.

#[export] Instance ProfileAttentionFlagStatus_str_enum : StrEnum ProfileAttentionFlagStatus := {|
  members := [PROFILE_FLAG_OPEN; PROFILE_FLAG_REVIEWED; PROFILE_FLAG_DISMISSED];
  value := ProfileAttentionFlagStatus_value;
  members_complete := ltac:(members_complete_tac);
  value_inj := ltac:(value_inj_tac)
|}.

Definition CANONICAL_PROFILE_DIMENSIONS : list string :=
  ["cognitive_load_threshold"; "processing_speed"; "working_memory_capacity"; "attention_span"; "performance_sensitivity"].

(** What a client may report of a lesson. *)
Inductive SignalEventType :=
| TIME_ON_SEGMENT
| REPLAY
| SCROLL
| READING_CHUNK_VIEWED
| SIMPLIFY_TRIGGER
| EXPAND_TRIGGER
| SLOWER_TRIGGER
| COMPREHENSION_RESPONSE
| EXIT_ATTEMPT
| BREAK_SUGGESTED
| BREAK_TAKEN
| BREAK_DECLINED
| BREAK_START
| BREAK_END
| FEELING_CHECKIN
| MODULE_BOUNDARY_REACHED
| MODULE_BOUNDARY_ACTION
| ENGAGEMENT_SIGNAL
| MODALITY_SUGGESTION_SHOWN
| MODALITY_SUGGESTION_ACCEPTED
| MODALITY_SUGGESTION_DECLINED
| MODALITY_SUGGESTION_IGNORED
| MODALITY_SWITCH_OUTCOME
| MODALITY_MANUAL_SWITCH
| CALCULATION_STEP_RESPONSE
| CALCULATION_COMPLETE
| NARRATION_PLAYED
| NARRATION_REPLAYED
| MANIPULATIVE_PIECE_PLACED
| ASK_NEVO_QUESTION_STUDENT
| ASK_NEVO_QUESTION_TEACHER
| ASK_NEVO_CANNOT_HELP
| ASK_NEVO_REDIRECT_USED
| ADAPTATION_SUPPRESSED
| MEDIA_LOAD_FAILED
| SYSTEM_BUSY
| TAP_BLOCKED
| SESSION_CONTEXT
| BASELINE_MODULE_START
| BASELINE_MODULE_COMPLETE
| BASELINE_SUBMITTED
| HINT_OFFERED
| HINT_USED
| STEP_UP_OFFERED
| STEP_UP_ACCEPTED
| STEP_UP_DECLINED
| GUIDED_QUESTION_SHOWN
| GUIDED_QUESTION_ANSWERED.

#[export] Instance SignalEventType_eq_dec : EqDecision SignalEventType.
Proof. solve_decision. Defined.

Definition SignalEventType_value (x : SignalEventType) : string :=
  match x with
  | TIME_ON_SEGMENT => "time_on_segment" | REPLAY => "replay" | SCROLL => "scroll"
  | READING_CHUNK_VIEWED => "reading_chunk_viewed" | SIMPLIFY_TRIGGER => "simplify_trigger"
  | EXPAND_TRIGGER => "expand_trigger" | SLOWER_TRIGGER => "slower_trigger"
  | COMPREHENSION_RESPONSE => "comprehension_response" | EXIT_ATTEMPT => "exit_attempt"
  | BREAK_SUGGESTED => "break_suggested" | BREAK_TAKEN => "break_taken"
  | BREAK_DECLINED => "break_declined" | BREAK_START => "break_start" | BREAK_END => "break_end"
  | FEELING_CHECKIN => "feeling_checkin" | MODULE_BOUNDARY_REACHED => "module_boundary_reached"
  | MODULE_BOUNDARY_ACTION => "module_boundary_action"
  | ENGAGEMENT_SIGNAL => "engagement_signal"
  | MODALITY_SUGGESTION_SHOWN => "modality_suggestion_shown"
  | MODALITY_SUGGESTION_ACCEPTED => "modality_suggestion_accepted"
  | MODALITY_SUGGESTION_DECLINED => "modality_suggestion_declined"
  | MODALITY_SUGGESTION_IGNORED => "modality_suggestion_ignored"
  | MODALITY_SWITCH_OUTCOME => "modality_switch_outcome"
  | MODALITY_MANUAL_SWITCH => "modality_manual_switch"
  | CALCULATION_STEP_RESPONSE => "calculation_step_response"
  | CALCULATION_COMPLETE => "calculation_complete" | NARRATION_PLAYED => "narration_played"
  | NARRATION_REPLAYED => "narration_replayed"
  | MANIPULATIVE_PIECE_PLACED => "manipulative_piece_placed"
  | ASK_NEVO_QUESTION_STUDENT => "ask_nevo_question_student"
  | ASK_NEVO_QUESTION_TEACHER => "ask_nevo_question_teacher"
  | ASK_NEVO_CANNOT_HELP => "ask_nevo_cannot_help"
  | ASK_NEVO_REDIRECT_USED => "ask_nevo_redirect_used"
  | ADAPTATION_SUPPRESSED => "adaptation_suppressed" | MEDIA_LOAD_FAILED => "media_load_failed"
  | SYSTEM_BUSY => "system_busy" | TAP_BLOCKED => "tap_blocked"
  | SESSION_CONTEXT => "session_context" | BASELINE_MODULE_START => "baseline_module_start"
  | BASELINE_MODULE_COMPLETE => "baseline_module_complete"
  | BASELINE_SUBMITTED => "baseline_submitted" | HINT_OFFERED => "hint_offered"
  | HINT_USED => "hint_used" | STEP_UP_OFFERED => "step_up_offered"
  | STEP_UP_ACCEPTED => "step_up_accepted" | STEP_UP_DECLINED => "step_up_declined"
  | GUIDED_QUESTION_SHOWN => "guided_question_shown"
  | GUIDED_QUESTION_ANSWERED => "guided_question_answered"
  end.

#[export] Instance SignalEventType_str_enum : StrEnum SignalEventType := {|
  members := [TIME_ON_SEGMENT; REPLAY; SCROLL; READING_CHUNK_VIEWED; SIMPLIFY_TRIGGER; EXPAND_TRIGGER; SLOWER_TRIGGER; COMPREHENSION_RESPONSE; EXIT_ATTEMPT; BREAK_SUGGESTED; BREAK_TAKEN; BREAK_DECLINED; BREAK_START; BREAK_END; FEELING_CHECKIN; MODULE_BOUNDARY_REACHED; MODULE_BOUNDARY_ACTION; ENGAGEMENT_SIGNAL; MODALITY_SUGGESTION_SHOWN; MODALITY_SUGGESTION_ACCEPTED; MODALITY_SUGGESTION_DECLINED; MODALITY_SUGGESTION_IGNORED; MODALITY_SWITCH_OUTCOME; MODALITY_MANUAL_SWITCH; CALCULATION_STEP_RESPONSE; CALCULATION_COMPLETE; NARRATION_PLAYED; NARRATION_REPLAYED; MANIPULATIVE_PIECE_PLACED; ASK_NEVO_QUESTION_STUDENT; ASK_NEVO_QUESTION_TEACHER; ASK_NEVO_CANNOT_HELP; ASK_NEVO_REDIRECT_USED; ADAPTATION_SUPPRESSED; MEDIA_LOAD_FAILED; SYSTEM_BUSY; TAP_BLOCKED; SESSION_CONTEXT; BASELINE_MODULE_START; BASELINE_MODULE_COMPLETE; BASELINE_SUBMITTED; HINT_OFFERED; HINT_USED; STEP_UP_OFFERED; STEP_UP_ACCEPTED; STEP_UP_DECLINED; GUIDED_QUESTION_SHOWN; GUIDED_QUESTION_ANSWERED];
  value := SignalEventType_value;
  members_complete := ltac:(members_complete_tac);
  value_inj := ltac:(value_inj_tac)
|}.

