(* ===== verification/Schema.v ===== *)
(** * The database schema

    The tables of [src/nevo/db/models] the modelled components read and write:
    a record per mapped class with its columns, the column defaults applied by
    its constructor, and, for every table, the declared CHECK and UNIQUE
    constraints as a decision on its rows. The bookkeeping columns
    [created_at] and [updated_at] are kept where modelled code reads them;
    [activation_student_ids], a JSON list of UUID texts, is a list of UUIDs.
    Foreign keys are not part of a table's own constraints; the one deletion
    that cascades is written out where it happens ([ConsentExpiry]). *)

From S2P Require Import Prelude Floats Relational Text Vocabulary LearningVocabulary.
From Stdlib Require Import String.

Local Open Scope string_scope.
Local Open Scope Z_scope.
Local Open Scope nevo_scope.

(** ** Decimals

    Python's [Decimal] and PostgreSQL's [NUMERIC]: [coef / 10 ^ scale]. *)
Record decimal := mkDecimal { dec_coef : Z; dec_scale : nat }.

#[export] Instance decimal_eq_dec : EqDecision decimal.
Proof. solve_decision. Defined.

(** ** Rows *)

#[global] Set Primitive Projections.

(** One school (tenant). *)
Record School := mkSchool {
  school_id : uuid;
  school_name : string;
  school_school_code : string;
  school_school_url_slug : string;
  school_auth_method : AuthMethod;
  school_enrollment_band : option SchoolEnrollmentBand;
  school_is_founding_partner : bool;
  school_price_lock_expiry : option datetime;
  school_data_retention_days : Z;
  school_admin_seat_limit : Z;
  school_profile : Json;
  school_academic_config : Json;
  school_retention_policy : string;
  school_subscription_tier : option SubscriptionTier;
  school_payment_source : PaymentSource;
  school_contract_value : option decimal;
  school_pricing_plan : PricingPlan;
  school_per_student_rate : option decimal;
  school_contract_start : option datetime;
  school_contract_end : option datetime;
  school_billing_contact_id : option uuid
}.

(** [School(...)] with the column defaults. *)
Definition new_School
    (id : uuid) (name : string) (school_code : string) (school_url_slug : string) : School := {|
  school_id := id; school_name := name; school_school_code := school_code;
  school_school_url_slug := school_url_slug; school_auth_method := EMAIL_PASSWORD;
  school_enrollment_band := None; school_is_founding_partner := false;
  school_price_lock_expiry := None; school_data_retention_days := 180;
  school_admin_seat_limit := 5; school_profile := JObj []; school_academic_config := JObj [];
  school_retention_policy := "contract"; school_subscription_tier := None;
  school_payment_source := DIRECT; school_contract_value := None;
  school_pricing_plan := ANNUAL; school_per_student_rate := None;
  school_contract_start := None; school_contract_end := None;
  school_billing_contact_id := None
|}.

(** One account: learner, teacher, administrator or parent. *)
Record User := mkUser {
  user_id : uuid;
  user_school_id : option uuid;
  user_role : UserRole;
  user_auth_method : AuthMethod;
  user_first_name : option string;
  user_last_name : option string;
  user_email : option string;
  user_email_confirmed_at : option datetime;
  user_login_identifier : option string;
  user_admission_number : option string;
  user_password_hash : option string;
  user_pin_hash : option string;
  user_pin_cleared_at : option datetime;
  user_sso_external_id : option string;
  user_baseline_profile : Json;
  user_engine_config : Json;
  user_preferences : Json;
  user_avatar_tone : option string;
  user_avatar_shape : option string;
  user_avatar_colourway : option string;
  user_age_band : option string;
  user_preferred_name : option string;
  user_date_of_birth : option date;
  user_is_first_use : bool;
  user_status : UserStatus;
  user_anonymised_at : option datetime;
  user_purpose_ended_at : option datetime;
  user_retention_due_at : option datetime;
  user_retention_purged_at : option datetime;
  user_deactivated_at : option datetime
}.

(** [User(...)] with the column defaults. *)
Definition new_User
    (id : uuid) (school_id : option uuid) (role : UserRole) (auth_method : AuthMethod) : User := {|
  user_id := id; user_school_id := school_id; user_role := role;
  user_auth_method := auth_method; user_first_name := None; user_last_name := None;
  user_email := None; user_email_confirmed_at := None; user_login_identifier := None;
  user_admission_number := None; user_password_hash := None; user_pin_hash := None;
  user_pin_cleared_at := None; user_sso_external_id := None; user_baseline_profile := JObj [];
  user_engine_config := JObj []; user_preferences := JObj []; user_avatar_tone := None;
  user_avatar_shape := None; user_avatar_colourway := None; user_age_band := None;
  user_preferred_name := None; user_date_of_birth := None; user_is_first_use := true;
  user_status := ACTIVE; user_anonymised_at := None; user_purpose_ended_at := None;
  user_retention_due_at := None; user_retention_purged_at := None; user_deactivated_at := None
|}.

(** One class of a school in an academic session. *)
Record Class_ := mkClass_ {
  class_id : uuid;
  class_school_id : uuid;
  class_name : string;
  class_normalised_name : string;
  class_class_code : option string;
  class_year_group : option string;
  class_section : option string;
  class_academic_session : string;
  class_capacity : option Z;
  class_source : string;
  class_archived_at : option datetime
}.

(** [Class(...)] with the column defaults. *)
Definition new_Class_
    (id : uuid) (school_id : uuid) (name : string) (normalised_name : string)
    (academic_session : string) : Class_ := {|
  class_id := id; class_school_id := school_id; class_name := name;
  class_normalised_name := normalised_name; class_class_code := None;
  class_year_group := None; class_section := None; class_academic_session := academic_session;
  class_capacity := None; class_source := "manual"; class_archived_at := None
|}.

(** A learner on the roster of a class. *)
Record StudentClassEnrollment := mkStudentClassEnrollment {
  enrollment_id : uuid;
  enrollment_student_id : uuid;
  enrollment_class_id : uuid
}.

(** [StudentClassEnrollment(...)] with the column defaults. *)
Definition new_StudentClassEnrollment
    (id : uuid) (student_id : uuid) (class_id : uuid) : StudentClassEnrollment := {|
  enrollment_id := id; enrollment_student_id := student_id; enrollment_class_id := class_id
|}.

(** One consent, asked and answered for one learner. *)
Record ConsentRecord := mkConsentRecord {
  cr_id : uuid;
  cr_subject_user_id : uuid;
  cr_consent_holder_parent_link_id : option uuid;
  cr_consent_type : ConsentType;
  cr_status : ConsentStatus;
  cr_confirmed_by_admin_id : option uuid;
  cr_confirmed_by_parent_id : option uuid;
  cr_confirmation_source : option ConsentConfirmationSource;
  cr_confirmed_via : option ConsentMethod;
  cr_confirmed_at : option datetime;
  cr_last_actor_user_id : option uuid;
  cr_last_changed_at : option datetime;
  cr_last_channel : option string;
  cr_parent_name_on_form : option string;
  cr_parent_relationship : option string;
  cr_signed_on : option date;
  cr_notice_version : option string;
  cr_evidence_storage_path : option string;
  cr_uploaded_by_user_id : option uuid;
  cr_uploaded_at : option datetime
}.

(** [ConsentRecord(...)] with the column defaults. *)
Definition new_ConsentRecord
    (id : uuid) (subject_user_id : uuid) (consent_type : ConsentType) : ConsentRecord := {|
  cr_id := id; cr_subject_user_id := subject_user_id;
  cr_consent_holder_parent_link_id := None; cr_consent_type := consent_type;
  cr_status := PENDING; cr_confirmed_by_admin_id := None; cr_confirmed_by_parent_id := None;
  cr_confirmation_source := None; cr_confirmed_via := None; cr_confirmed_at := None;
  cr_last_actor_user_id := None; cr_last_changed_at := None; cr_last_channel := None;
  cr_parent_name_on_form := None; cr_parent_relationship := None; cr_signed_on := None;
  cr_notice_version := None; cr_evidence_storage_path := None; cr_uploaded_by_user_id := None;
  cr_uploaded_at := None
|}.

(** A parent contact a school holds for one learner. *)
Record ParentLink := mkParentLink {
  link_id : uuid;
  link_school_id : uuid;
  link_student_id : uuid;
  link_parent_id : option uuid;
  link_parent_name : string;
  link_parent_contact : string;
  link_contact_method : ParentContactMethod;
  link_account_created : bool;
  link_updated_at : datetime
}.

(** [ParentLink(...)] with the column defaults. *)
Definition new_ParentLink
    (id : uuid) (school_id : uuid) (student_id : uuid) (parent_name : string)
    (parent_contact : string) (contact_method : ParentContactMethod) (updated_at : datetime) : ParentLink := {|
  link_id := id; link_school_id := school_id; link_student_id := student_id;
  link_parent_id := None; link_parent_name := parent_name;
  link_parent_contact := parent_contact; link_contact_method := contact_method;
  link_account_created := false; link_updated_at := updated_at
|}.

(** One consent request sent to a parent. *)
Record ConsentInvitation := mkConsentInvitation {
  inv_id : uuid;
  inv_parent_link_id : uuid;
  inv_school_id : uuid;
  inv_student_id : uuid;
  inv_token_digest : string;
  inv_requested_by_user_id : uuid;
  inv_created_at : datetime;
  inv_expires_at : datetime;
  inv_accepted_at : option datetime;
  inv_revoked_at : option datetime
}.

(** [ConsentInvitation(...)] with the column defaults. *)
Definition new_ConsentInvitation
    (id : uuid) (parent_link_id : uuid) (school_id : uuid) (student_id : uuid)
    (token_digest : string) (requested_by_user_id : uuid) (created_at : datetime)
    (expires_at : datetime) : ConsentInvitation := {|
  inv_id := id; inv_parent_link_id := parent_link_id; inv_school_id := school_id;
  inv_student_id := student_id; inv_token_digest := token_digest;
  inv_requested_by_user_id := requested_by_user_id; inv_created_at := created_at;
  inv_expires_at := expires_at; inv_accepted_at := None; inv_revoked_at := None
|}.

(** One consent type asked for by an invitation. *)
Record ConsentInvitationItem := mkConsentInvitationItem {
  item_id : uuid;
  item_invitation_id : uuid;
  item_consent_type : ConsentType
}.

(** [ConsentInvitationItem(...)] with the column defaults. *)
Definition new_ConsentInvitationItem
    (id : uuid) (invitation_id : uuid) (consent_type : ConsentType) : ConsentInvitationItem := {|
  item_id := id; item_invitation_id := invitation_id; item_consent_type := consent_type
|}.

(** One email waiting for the delivery worker. *)
Record ConsentNotificationOutbox := mkConsentNotificationOutbox {
  outbox_id : uuid;
  outbox_invitation_id : uuid;
  outbox_contact_method : ParentContactMethod;
  outbox_destination : string;
  outbox_consent_url : string;
  outbox_kind : ConsentNotificationKind;
  outbox_status : ConsentDeliveryStatus;
  outbox_last_error : option string;
  outbox_created_at : datetime;
  outbox_sent_at : option datetime;
  outbox_attempt_count : Z;
  outbox_next_attempt_at : datetime
}.

(** [ConsentNotificationOutbox(...)] with the column defaults. *)
Definition new_ConsentNotificationOutbox
    (id : uuid) (invitation_id : uuid) (contact_method : ParentContactMethod)
    (destination : string) (consent_url : string) (created_at : datetime)
    (next_attempt_at : datetime) : ConsentNotificationOutbox := {|
  outbox_id := id; outbox_invitation_id := invitation_id;
  outbox_contact_method := contact_method; outbox_destination := destination;
  outbox_consent_url := consent_url; outbox_kind := KIND_REQUEST;
  outbox_status := DELIVERY_QUEUED; outbox_last_error := None;
  outbox_created_at := created_at; outbox_sent_at := None; outbox_attempt_count := 0;
  outbox_next_attempt_at := next_attempt_at
|}.

(** The school's date of birth beside the parent's. *)
Record AgeCheck := mkAgeCheck {
  ac_id : uuid;
  ac_school_id : uuid;
  ac_student_id : uuid;
  ac_school_date_of_birth : option date;
  ac_parent_date_of_birth : option date;
  ac_parent_notified_at : option datetime;
  ac_state : AgeCheckState;
  ac_agreed_date_of_birth : option date;
  ac_resolution_note : option string;
  ac_resolved_by_user_id : option uuid;
  ac_resolved_at : option datetime;
  ac_updated_at : datetime;
  ac_school_notified_at : option datetime;
  ac_school_rechecked_at : option datetime;
  ac_school_rechecked_by : option uuid;
  ac_parent_reconfirmed_at : option datetime;
  ac_parent_reconfirmed_by : option uuid;
  ac_enrolled_age_band : option string;
  ac_band_checked_on : option date;
  ac_hold_reasons : list string
}.

(** [AgeCheck(...)] with the column defaults. *)
Definition new_AgeCheck
    (id : uuid) (school_id : uuid) (student_id : uuid) (updated_at : datetime) : AgeCheck := {|
  ac_id := id; ac_school_id := school_id; ac_student_id := student_id;
  ac_school_date_of_birth := None; ac_parent_date_of_birth := None;
  ac_parent_notified_at := None; ac_state := AWAITING_PARENT; ac_agreed_date_of_birth := None;
  ac_resolution_note := None; ac_resolved_by_user_id := None; ac_resolved_at := None;
  ac_updated_at := updated_at; ac_school_notified_at := None; ac_school_rechecked_at := None;
  ac_school_rechecked_by := None; ac_parent_reconfirmed_at := None;
  ac_parent_reconfirmed_by := None; ac_enrolled_age_band := None; ac_band_checked_on := None;
  ac_hold_reasons := []
|}.

(** A parent who is not to be asked again about a learner. *)
Record ConsentRefusal := mkConsentRefusal {
  refusal_id : uuid;
  refusal_school_id : uuid;
  refusal_student_id : uuid;
  refusal_contact_digest : string;
  refusal_reason : ConsentRefusalReason;
  refusal_recorded_at : datetime;
  refusal_roster_deleted_at : option datetime
}.

(** [ConsentRefusal(...)] with the column defaults. *)
Definition new_ConsentRefusal
    (id : uuid) (school_id : uuid) (student_id : uuid) (contact_digest : string)
    (reason : ConsentRefusalReason) (recorded_at : datetime) : ConsentRefusal := {|
  refusal_id := id; refusal_school_id := school_id; refusal_student_id := student_id;
  refusal_contact_digest := contact_digest; refusal_reason := reason;
  refusal_recorded_at := recorded_at; refusal_roster_deleted_at := None
|}.

(** A data-subject right a parent exercised. *)
Record ParentDataRequest := mkParentDataRequest {
  pdr_id : uuid;
  pdr_student_id : uuid;
  pdr_parent_id : uuid;
  pdr_request_type : string;
  pdr_reason : option string;
  pdr_status : string;
  pdr_created_at : datetime;
  pdr_resolved_at : option datetime
}.

(** [ParentDataRequest(...)] with the column defaults. *)
Definition new_ParentDataRequest
    (id : uuid) (student_id : uuid) (parent_id : uuid) (request_type : string)
    (created_at : datetime) : ParentDataRequest := {|
  pdr_id := id; pdr_student_id := student_id; pdr_parent_id := parent_id;
  pdr_request_type := request_type; pdr_reason := None; pdr_status := "open";
  pdr_created_at := created_at; pdr_resolved_at := None
|}.

(** One entry of a user's bell. *)
Record Notification := mkNotification {
  note_id : uuid;
  note_recipient_id : uuid;
  note_recipient_role : string;
  note_type : string;
  note_title : string;
  note_description : string;
  note_navigates_to : option string;
  note_read : bool;
  note_category : string;
  note_archived_at : option datetime;
  note_created_at : datetime
}.

(** [Notification(...)] with the column defaults. *)
Definition new_Notification
    (id : uuid) (recipient_id : uuid) (recipient_role : string) (type : string)
    (title : string) (description : string) (created_at : datetime) : Notification := {|
  note_id := id; note_recipient_id := recipient_id; note_recipient_role := recipient_role;
  note_type := type; note_title := title; note_description := description;
  note_navigates_to := None; note_read := false; note_category := "general";
  note_archived_at := None; note_created_at := created_at
|}.

(** A member of a school's administration team. *)
Record Admin := mkAdmin {
  admin_id : uuid;
  admin_user_id : uuid;
  admin_school_id : uuid;
  admin_created_by_user_id : option uuid;
  admin_access_level : AdminAccessLevel;
  admin_senior_promoted_by : option uuid;
  admin_senior_promoted_by_name : option string;
  admin_senior_promoted_at : option datetime
}.

(** [Admin(...)] with the column defaults. *)
Definition new_Admin
    (id : uuid) (user_id : uuid) (school_id : uuid) : Admin := {|
  admin_id := id; admin_user_id := user_id; admin_school_id := school_id;
  admin_created_by_user_id := None; admin_access_level := STANDARD;
  admin_senior_promoted_by := None; admin_senior_promoted_by_name := None;
  admin_senior_promoted_at := None
|}.

(** One scope granted to an administrator. *)
Record AdminScopeAssignment := mkAdminScopeAssignment {
  asg_id : uuid;
  asg_admin_id : uuid;
  asg_scope : PermissionScope;
  asg_granted_by_user_id : option uuid;
  asg_granted_at : datetime;
  asg_revoked_at : option datetime
}.

(** [AdminScopeAssignment(...)] with the column defaults. *)
Definition new_AdminScopeAssignment
    (id : uuid) (admin_id : uuid) (scope : PermissionScope) (granted_at : datetime) : AdminScopeAssignment := {|
  asg_id := id; asg_admin_id := admin_id; asg_scope := scope; asg_granted_by_user_id := None;
  asg_granted_at := granted_at; asg_revoked_at := None
|}.

(** One invitation to an administration team. *)
Record AdminInvitation := mkAdminInvitation {
  ainv_id : uuid;
  ainv_user_id : uuid;
  ainv_school_id : uuid;
  ainv_role : UserRole;
  ainv_token_digest : string;
  ainv_invited_by_user_id : option uuid;
  ainv_created_at : datetime;
  ainv_expires_at : datetime;
  ainv_accepted_at : option datetime;
  ainv_revoked_at : option datetime
}.

(** [AdminInvitation(...)] with the column defaults. *)
Definition new_AdminInvitation
    (id : uuid) (user_id : uuid) (school_id : uuid) (role : UserRole)
    (token_digest : string) (created_at : datetime) (expires_at : datetime) : AdminInvitation := {|
  ainv_id := id; ainv_user_id := user_id; ainv_school_id := school_id; ainv_role := role;
  ainv_token_digest := token_digest; ainv_invited_by_user_id := None;
  ainv_created_at := created_at; ainv_expires_at := expires_at; ainv_accepted_at := None;
  ainv_revoked_at := None
|}.

(** Who holds the per-child learning support view. *)
Record LearningSupportGrant := mkLearningSupportGrant {
  grant_id : uuid;
  grant_school_id : uuid;
  grant_holder_user_id : uuid;
  grant_granted_by_user_id : uuid;
  grant_granted_at : datetime;
  grant_revoked_at : option datetime;
  grant_revoked_by_user_id : option uuid;
  grant_handed_over : bool
}.

(** [LearningSupportGrant(...)] with the column defaults. *)
Definition new_LearningSupportGrant
    (id : uuid) (school_id : uuid) (holder_user_id : uuid) (granted_by_user_id : uuid)
    (granted_at : datetime) : LearningSupportGrant := {|
  grant_id := id; grant_school_id := school_id; grant_holder_user_id := holder_user_id;
  grant_granted_by_user_id := granted_by_user_id; grant_granted_at := granted_at;
  grant_revoked_at := None; grant_revoked_by_user_id := None; grant_handed_over := false
|}.

(** One signed-in session. *)
Record AuthSession := mkAuthSession {
  ses_id : uuid;
  ses_user_id : uuid;
  ses_role : UserRole;
  ses_token_digest : string;
  ses_created_at : datetime;
  ses_last_seen_at : datetime;
  ses_expires_at : datetime;
  ses_revoked_at : option datetime;
  ses_revocation_reason : option string;
  ses_replaced_by_session_id : option uuid
}.

(** [AuthSession(...)] with the column defaults. *)
Definition new_AuthSession
    (id : uuid) (user_id : uuid) (role : UserRole) (token_digest : string)
    (created_at : datetime) (last_seen_at : datetime) (expires_at : datetime) : AuthSession := {|
  ses_id := id; ses_user_id := user_id; ses_role := role; ses_token_digest := token_digest;
  ses_created_at := created_at; ses_last_seen_at := last_seen_at;
  ses_expires_at := expires_at; ses_revoked_at := None; ses_revocation_reason := None;
  ses_replaced_by_session_id := None
|}.

(** One attempt to sign in. *)
Record AuthLoginAttempt := mkAuthLoginAttempt {
  attempt_id : uuid;
  attempt_identity_digest : string;
  attempt_ip_digest : string;
  attempt_succeeded : bool;
  attempt_occurred_at : datetime
}.

(** [AuthLoginAttempt(...)] with the column defaults. *)
Definition new_AuthLoginAttempt
    (id : uuid) (identity_digest : string) (ip_digest : string) (succeeded : bool)
    (occurred_at : datetime) : AuthLoginAttempt := {|
  attempt_id := id; attempt_identity_digest := identity_digest;
  attempt_ip_digest := ip_digest; attempt_succeeded := succeeded;
  attempt_occurred_at := occurred_at
|}.

(** One entry of the authentication audit log. *)
Record AuthAuditEvent := mkAuthAuditEvent {
  audit_id : uuid;
  audit_event_type : string;
  audit_occurred_at : datetime;
  audit_user_id : option uuid;
  audit_session_id : option uuid;
  audit_identity_digest : option string;
  audit_ip_digest : option string;
  audit_details : list (string * string)
}.

(** [AuthAuditEvent(...)] with the column defaults. *)
Definition new_AuthAuditEvent
    (id : uuid) (event_type : string) (occurred_at : datetime) : AuthAuditEvent := {|
  audit_id := id; audit_event_type := event_type; audit_occurred_at := occurred_at;
  audit_user_id := None; audit_session_id := None; audit_identity_digest := None;
  audit_ip_digest := None; audit_details := []
|}.

(** A short-lived sign-in code sent to a parent. *)
Record ParentLoginCode := mkParentLoginCode {
  code_id : uuid;
  code_contact : string;
  code_code_digest : string;
  code_parent_user_id : option uuid;
  code_expires_at : datetime;
  code_consumed_at : option datetime;
  code_attempt_count : Z;
  code_created_at : datetime
}.

(** [ParentLoginCode(...)] with the column defaults. *)
Definition new_ParentLoginCode
    (id : uuid) (contact : string) (code_digest : string) (expires_at : datetime)
    (created_at : datetime) : ParentLoginCode := {|
  code_id := id; code_contact := contact; code_code_digest := code_digest;
  code_parent_user_id := None; code_expires_at := expires_at; code_consumed_at := None;
  code_attempt_count := 0; code_created_at := created_at
|}.

(** Who a school's invoices are addressed to. *)
Record BillingContact := mkBillingContact {
  bc_id : uuid;
  bc_school_id : uuid;
  bc_email : string;
  bc_phone : option string;
  bc_address_line1 : string;
  bc_address_line2 : option string;
  bc_city : string;
  bc_region : option string;
  bc_postal_code : option string;
  bc_country : string;
  bc_updated_by_user_id : uuid;
  bc_created_at : datetime
}.

(** [BillingContact(...)] with the column defaults. *)
Definition new_BillingContact
    (id : uuid) (school_id : uuid) (email : string) (address_line1 : string) (city : string)
    (country : string) (updated_by_user_id : uuid) (created_at : datetime) : BillingContact := {|
  bc_id := id; bc_school_id := school_id; bc_email := email; bc_phone := None;
  bc_address_line1 := address_line1; bc_address_line2 := None; bc_city := city;
  bc_region := None; bc_postal_code := None; bc_country := country;
  bc_updated_by_user_id := updated_by_user_id; bc_created_at := created_at
|}.

(** A stored payment authorization. *)
Record BillingPaymentMethod := mkBillingPaymentMethod {
  method_id : uuid;
  method_school_id : uuid;
  method_method_type : PaymentMethodType;
  method_processor_name : option string;
  method_processor_payment_method_ref : option string;
  method_display_name : string;
  method_last_four : string;
  method_card_brand : option string;
  method_expiry_month : option Z;
  method_expiry_year : option Z;
  method_bank_name : option string;
  method_account_holder_name : option string;
  method_is_reusable : bool;
  method_processor_customer_code : option string;
  method_updated_by_user_id : uuid
}.

(** [BillingPaymentMethod(...)] with the column defaults. *)
Definition new_BillingPaymentMethod
    (id : uuid) (school_id : uuid) (method_type : PaymentMethodType) (display_name : string)
    (last_four : string) (updated_by_user_id : uuid) : BillingPaymentMethod := {|
  method_id := id; method_school_id := school_id; method_method_type := method_type;
  method_processor_name := None; method_processor_payment_method_ref := None;
  method_display_name := display_name; method_last_four := last_four;
  method_card_brand := None; method_expiry_month := None; method_expiry_year := None;
  method_bank_name := None; method_account_holder_name := None; method_is_reusable := false;
  method_processor_customer_code := None; method_updated_by_user_id := updated_by_user_id
|}.

(** One invoice of a school. *)
Record Invoice := mkInvoice {
  invoice_id : uuid;
  invoice_invoice_number : string;
  invoice_school_id : uuid;
  invoice_issued_at : date;
  invoice_amount : decimal;
  invoice_status : InvoiceStatus;
  invoice_due_at : date;
  invoice_paid_at : option datetime;
  invoice_pdf_url : string;
  invoice_currency : PricingCurrency;
  invoice_student_count : option Z;
  invoice_activation_student_ids : list uuid;
  invoice_per_student_rate : option decimal;
  invoice_total_before_vat : option decimal;
  invoice_vat_amount : option decimal;
  invoice_vat_rate : option decimal;
  invoice_period_label : option string
}.

(** [Invoice(...)] with the column defaults. *)
Definition new_Invoice
    (id : uuid) (invoice_number : string) (school_id : uuid) (issued_at : date)
    (amount : decimal) (status : InvoiceStatus) (due_at : date) (pdf_url : string) : Invoice := {|
  invoice_id := id; invoice_invoice_number := invoice_number; invoice_school_id := school_id;
  invoice_issued_at := issued_at; invoice_amount := amount; invoice_status := status;
  invoice_due_at := due_at; invoice_paid_at := None; invoice_pdf_url := pdf_url;
  invoice_currency := NGN; invoice_student_count := None;
  invoice_activation_student_ids := []; invoice_per_student_rate := None;
  invoice_total_before_vat := None; invoice_vat_amount := None; invoice_vat_rate := None;
  invoice_period_label := None
|}.

(** One attempt to collect money for an invoice. *)
Record PaymentTransaction := mkPaymentTransaction {
  tx_id : uuid;
  tx_school_id : uuid;
  tx_invoice_id : option uuid;
  tx_reference : string;
  tx_provider : string;
  tx_provider_reference : option string;
  tx_status : PaymentTransactionStatus;
  tx_amount : decimal;
  tx_amount_minor : Z;
  tx_currency : PricingCurrency;
  tx_authorization_url : option string;
  tx_initiated_by_user_id : option uuid;
  tx_paid_at : option datetime;
  tx_last_error : option string
}.

(** [PaymentTransaction(...)] with the column defaults. *)
Definition new_PaymentTransaction
    (id : uuid) (school_id : uuid) (invoice_id : option uuid) (reference : string)
    (amount : decimal) (amount_minor : Z) (currency : PricingCurrency) : PaymentTransaction := {|
  tx_id := id; tx_school_id := school_id; tx_invoice_id := invoice_id;
  tx_reference := reference; tx_provider := "paystack"; tx_provider_reference := None;
  tx_status := TX_PENDING; tx_amount := amount; tx_amount_minor := amount_minor;
  tx_currency := currency; tx_authorization_url := None; tx_initiated_by_user_id := None;
  tx_paid_at := None; tx_last_error := None
|}.

(** Durable, de-duplicated record of a processor callback. *)
Record PaymentWebhookEvent := mkPaymentWebhookEvent {
  event_id : uuid;
  event_provider : string;
  event_event_key : string;
  event_event_type : string;
  event_payload : Json;
  event_status : WebhookEventStatus;
  event_last_error : option string;
  event_processed_at : option datetime
}.

(** [PaymentWebhookEvent(...)] with the column defaults. *)
Definition new_PaymentWebhookEvent
    (id : uuid) (event_key : string) (event_type : string) : PaymentWebhookEvent := {|
  event_id := id; event_provider := "paystack"; event_event_key := event_key;
  event_event_type := event_type; event_payload := JObj []; event_status := EVENT_RECEIVED;
  event_last_error := None; event_processed_at := None
|}.

(** The commercial contract of a school. *)
Record Contract := mkContract {
  contract_contract_id : uuid;
  contract_school_id : uuid;
  contract_tier_id : uuid;
  contract_status : ContractStatus;
  contract_is_founding_partner : bool;
  contract_payment_source : PaymentSource;
  contract_start_date : date;
  contract_end_date : date;
  contract_current_year_index : Z
}.

(** [Contract(...)] with the column defaults. *)
Definition new_Contract
    (contract_id : uuid) (school_id : uuid) (tier_id : uuid) (start_date end_date : date) : Contract := {|
  contract_contract_id := contract_id; contract_school_id := school_id; contract_tier_id := tier_id;
  contract_status := CONTRACT_ACTIVE; contract_is_founding_partner := false;
  contract_payment_source := DIRECT; contract_start_date := start_date;
  contract_end_date := end_date; contract_current_year_index := 1
|}.

(** One email about an invoice to one address. *)
Record BillingEmailDelivery := mkBillingEmailDelivery {
  bed_id : uuid;
  bed_invoice_id : uuid;
  bed_email : string;
  bed_kind : string;
  bed_status : string;
  bed_attempt_count : Z;
  bed_next_attempt_at : datetime;
  bed_last_error : option string;
  bed_delivered_at : option datetime
}.

(** [BillingEmailDelivery(...)] with the column defaults; [next_attempt_at] is
    [func.now()]. *)
Definition new_BillingEmailDelivery
    (id : uuid) (invoice_id : uuid) (email : string) (kind : string) (next_attempt_at : datetime)
  : BillingEmailDelivery := {|
  bed_id := id; bed_invoice_id := invoice_id; bed_email := email; bed_kind := kind;
  bed_status := "pending"; bed_attempt_count := 0; bed_next_attempt_at := next_attempt_at;
  bed_last_error := None; bed_delivered_at := None
|}.

(** Bookkeeping of a recurring job. *)
Record ScheduledJobRun := mkScheduledJobRun {
  job_id : uuid;
  job_job_name : string;
  job_last_started_at : option datetime;
  job_last_finished_at : option datetime;
  job_last_status : string;
  job_last_summary : option string;
  job_last_error : option string;
  job_run_count : Z
}.

(** [ScheduledJobRun(...)] with the column defaults. *)
Definition new_ScheduledJobRun (id : uuid) (job_name : string) : ScheduledJobRun := {|
  job_id := id; job_job_name := job_name; job_last_started_at := None; job_last_finished_at := None;
  job_last_status := "pending"; job_last_summary := None; job_last_error := None; job_run_count := 0
|}.

(** One review of a text or picture. *)
Record ContentSafetyEvent := mkContentSafetyEvent {
  cse_id : uuid;
  cse_school_id : option uuid;
  cse_student_id : option uuid;
  cse_actor_user_id : option uuid;
  cse_phase : string;
  cse_action : string;
  cse_categories : list string;
  cse_policy_version : string;
  cse_model : string;
  cse_input_tokens : Z;
  cse_output_tokens : Z;
  cse_acknowledged_by : option uuid;
  cse_acknowledged_at : option datetime;
  cse_created_at : datetime
}.

(** A teacher on a class, for a subject. *)
Record TeacherClassAssignment := mkTeacherClassAssignment {
  tca_id : uuid;
  tca_school_id : uuid;
  tca_school_subject_id : option uuid;
  tca_teacher_id : uuid;
  tca_class_id : uuid;
  tca_role : TeacherAssignmentRole;
  tca_source : TeacherAssignmentSource;
  tca_source_reference : option string;
  tca_assigned_by_user_id : option uuid;
  tca_assigned_at : datetime;
  tca_removed_at : option datetime;
  tca_replaced_by_assignment_id : option uuid
}.

(** One subject on the list of a school. *)
Record SchoolSubject := mkSchoolSubject {
  ss_id : uuid;
  ss_school_id : uuid;
  ss_name : string;
  ss_normalised_name : string
}.

(** A subject that a class is taught, and one that a teacher teaches. *)
Record ClassSubject := mkClassSubject { cs_id : uuid; cs_class_id : uuid; cs_school_subject_id : uuid }.
Record TeacherSubject := mkTeacherSubject { ts_id : uuid; ts_teacher_id : uuid; ts_school_subject_id : uuid }.

(** An invitation to a school that was not accepted yet. *)
Record SchoolInvitation := mkSchoolInvitation {
  sinv_id : uuid;
  sinv_school_id : uuid;
  sinv_role : string;
  sinv_first_name : option string;
  sinv_last_name : option string;
  sinv_email : option string;
  sinv_class_id : option uuid;
  sinv_token_digest : string;
  sinv_status : string;
  sinv_expires_at : datetime;
  sinv_accepted_at : option datetime;
  sinv_revoked_at : option datetime
}.

(** A prompt, in one of its versions. *)
Record AiPromptTemplate := mkAiPromptTemplate {
  apt_id : uuid;
  apt_service : AiService;
  apt_name : string;
  apt_version : Z;
  apt_system_template : string;
  apt_user_template : string;
  apt_required_variables : list string;
  apt_active : bool
}.

(** One call of the gateway. *)
Record AiGatewayCall := mkAiGatewayCall {
  call_id : uuid;
  call_school_id : option uuid;
  call_requester_user_id : uuid;
  call_student_id : option uuid;
  call_prompt_template_id : uuid;
  call_service : AiService;
  call_priority : Z;
  call_provider : AiProviderName;
  call_model : string;
  call_status : AiCallStatus;
  call_input_tokens : Z;
  call_output_tokens : Z;
  call_thought_tokens : Z;
  call_latency_ms : Z;
  call_estimated_cost_usd : decimal;
  call_compliance_retries : Z;
  call_fallback_used : bool;
  call_error_code : option string;
  call_created_at : datetime
}.

#[global] Unset Primitive Projections.

(** One question to Nevo and its answer, as telemetry keeps it; the context
    has the identifiers the page gave. *)
Record AskNevoInteraction := mkAskNevoInteraction {
  ani_id : uuid;
  ani_actor_user_id : uuid;
  ani_role : AskNevoRole;
  ani_current_page : string;
  ani_context_ids : list (string * option string);
  ani_question_category : AskNevoQuestionCategory;
  ani_ai_gateway_call_id : option uuid;
  ani_response_helpful : option bool;
  ani_created_at : datetime
}.

(** A conversation with Nevo. *)
Record AskNevoThread := mkAskNevoThread {
  thr_id : uuid;
  thr_actor_user_id : uuid;
  thr_school_id : option uuid;
  thr_role : AskNevoRole;
  thr_title : string;
  thr_message_count : Z;
  thr_last_message_at : datetime;
  thr_deleted_at : option datetime;
  thr_created_at : datetime
}.

(** One turn of a conversation; a block is its kind, its text and its
    items. *)
Record AskNevoMessage := mkAskNevoMessage {
  msg_id : uuid;
  msg_thread_id : uuid;
  msg_interaction_id : option uuid;
  msg_author : AskNevoMessageAuthor;
  msg_sequence : Z;
  msg_body : string;
  msg_blocks : list (string * string * list string);
  msg_created_at : datetime
}.

(** What one person has spent on Nevo on one day. *)
Record AskNevoDailyUsage := mkAskNevoDailyUsage {
  usage_id : uuid;
  usage_actor_user_id : uuid;
  usage_usage_date : date;
  usage_role : AskNevoRole;
  usage_units_spent : Z;
  usage_exchanges : Z
}.

(** [LearnerProfileDimensionsMixin] *)
Record LearnerProfileDimensions := mkLearnerProfileDimensions {
  pd_cognitive_load_threshold : option Z;
  pd_cognitive_load_threshold_confidence : ConfidenceLevel;
  pd_processing_speed : option Z;
  pd_processing_speed_confidence : ConfidenceLevel;
  pd_working_memory_capacity : option Z;
  pd_working_memory_capacity_confidence : ConfidenceLevel;
  pd_attention_span : option Z;
  pd_attention_span_confidence : ConfidenceLevel;
  pd_performance_sensitivity : option Z;
  pd_performance_sensitivity_confidence : ConfidenceLevel
}.

Record LearnerProfile := mkLearnerProfile {
  lp_id : uuid;
  lp_learner_id : uuid;
  lp_version : Z;
  lp_observed_event_count : Z;
  lp_last_evaluated_at : option datetime;
  lp_dimensions : LearnerProfileDimensions
}.
Definition lp_working_memory_capacity (p : LearnerProfile) : option Z := pd_working_memory_capacity (lp_dimensions p).
Definition lp_attention_span (p : LearnerProfile) : option Z := pd_attention_span (lp_dimensions p).

Record LearnerProfileHistory := mkLearnerProfileHistory {
  lph_id : uuid;
  lph_learner_profile_id : uuid;
  lph_learner_id : uuid;
  lph_version : Z;
  lph_observed_event_count : Z;
  lph_last_evaluated_at : option datetime;
  lph_change_source : ProfileChangeSource;
  lph_changed_by : option uuid;
  lph_change_reason : option string;
  lph_dimensions : LearnerProfileDimensions
}.

Record LearnerProfileAttentionFlag := mkLearnerProfileAttentionFlag {
  lpf_id : uuid;
  lpf_student_id : uuid;
  lpf_lesson_session_id : uuid;
  lpf_learner_profile_id : uuid;
  lpf_dimension : string;
  lpf_current_value : option string;
  lpf_recommended_value : option string;
  lpf_rationale : string;
  lpf_status : ProfileAttentionFlagStatus
}.

Record AttentionFlag := mkAttentionFlag {
  flag_id : uuid;
  flag_student_id : uuid;
  flag_flag_type : AttentionFlagType;
  flag_description : string;
  flag_evidence_series : list Json;
  flag_action_targets : list string;
  flag_generated_at : datetime;
  flag_resolved_at : option datetime
}.

Record Escalation := mkEscalation {
  esc_id : uuid;
  esc_attention_flag_id : option uuid;
  esc_student_id : uuid;
  esc_teacher_id : uuid;
  esc_teacher_note : string;
  esc_generated_at : datetime
}.

Record InterventionRecommendation := mkInterventionRecommendation {
  ir_id : uuid;
  ir_attention_flag_id : uuid;
  ir_student_id : uuid;
  ir_lesson_id : option uuid;
  ir_recommendation_text : string;
  ir_ai_gateway_call_id : option uuid;
  ir_generated_at : datetime
}.

Record LessonSession := mkLessonSession {
  lsn_id : uuid;
  lsn_student_id : uuid;
  lsn_lesson_id : option uuid;
  lsn_started_at : datetime;
  lsn_ended_at : option datetime;
  lsn_completion_status : LessonCompletionStatus;
  lsn_break_count : Z;
  lsn_session_type : string;
  lsn_exit_position : option string;
  lsn_proactive_adjustments_count : Z;
  lsn_delivery_state : Json
}.

Record Concept := mkConcept {
  concept_id : uuid;
  concept_school_id : option uuid;
  concept_lesson_id : option uuid;
  concept_name : string
}.

(** What a learner knows of a concept; the weights are a JSON object, whose
    keys are identifiers. *)
Record StudentConceptMastery := mkStudentConceptMastery {
  scm_id : uuid;
  scm_student_id : uuid;
  scm_concept_id : uuid;
  scm_mastery_probability_concept : float;
  scm_mastery_probability_reading : float;
  scm_attention_weights : list (uuid * float);
  scm_guess_probability : float;
  scm_slip_probability : float;
  scm_practice_count : Z;
  scm_last_response_correct : option bool;
  scm_last_failure_attribution : FailureAttribution;
  scm_seeding_source : string;
  scm_transition_probability : float;
  scm_model_version : string;
  scm_last_updated : datetime
}.

(** When a learner should see a concept again. *)
Record StudentConceptScheduling := mkStudentConceptScheduling {
  scs_id : uuid;
  scs_student_id : uuid;
  scs_concept_id : uuid;
  scs_stability : float;
  scs_difficulty : float;
  scs_last_review : datetime;
  scs_review_count : Z;
  scs_next_review_due : datetime
}.

(** The receipt of the removal of a learner's data. *)
Record LearnerPurgeReceipt := mkLearnerPurgeReceipt {
  lpr_id : uuid;
  lpr_student_id : option uuid;
  lpr_school_id : option uuid;
  lpr_subject_digest : string;
  lpr_status : string;
  lpr_object_paths : list string;
  lpr_error_code : option string;
  lpr_completed_at : option datetime;
  lpr_created_at : datetime
}.

(** What a client reported of a lesson. *)
Record SignalEvent := mkSignalEvent {
  sig_id : uuid;
  sig_student_id : uuid;
  sig_session_id : uuid;
  sig_event_type : SignalEventType;
  sig_event_data : Json;
  sig_timestamp : datetime
}.

(** What is left to do after a lesson; the key is the sitting. *)
Record PostLessonProcessing := mkPostLessonProcessing {
  plp_session_id : uuid;
  plp_student_id : uuid;
  plp_completed_at : datetime;
  plp_status : string;
  plp_attempt_count : Z;
  plp_next_attempt_at : datetime;
  plp_profile_updated : bool;
  plp_flags_evaluated : bool;
  plp_last_error : option string;
  plp_processed_at : option datetime
}.

(** How much support a learner gets on a concept, and the runs that decide
    when it changes. *)
Record StudentConceptScaffoldState := mkStudentConceptScaffoldState {
  sss_id : uuid;
  sss_student_id : uuid;
  sss_concept_id : uuid;
  sss_current_intensity : ScaffoldIntensity;
  sss_consecutive_correct : Z;
  sss_response_time_improvement_streak : Z;
  sss_reduced_hint_streak : Z;
  sss_last_response_time_ms : option Z;
  sss_last_hint_count : option Z
}.

Record ScaffoldProblemLog := mkScaffoldProblemLog {
  spl_id : uuid;
  spl_student_id : uuid;
  spl_concept_id : uuid;
  spl_problem_id : string;
  spl_scaffold_intensity : ScaffoldIntensity;
  spl_outcome : ScaffoldOutcome;
  spl_response_time_ms : option Z;
  spl_expected_response_time_ms : option Z;
  spl_hint_count : Z;
  spl_next_scaffold_intensity : ScaffoldIntensity;
  spl_level_changed : bool;
  spl_change_reason : option string;
  spl_created_at : datetime
}.

(** ** Tables *)

Inductive Table :=
| Schools
| Users
| Classes
| StudentClassEnrollments
| ConsentRecords
| ParentLinks
| ConsentInvitations
| ConsentInvitationItems
| ConsentOutbox
| AgeChecks
| ConsentRefusals
| ParentDataRequests
| Notifications
| Admins
| AdminScopeAssignments
| AdminInvitations
| LearningSupportGrants
| AuthSessions
| AuthLoginAttempts
| AuthAuditEvents
| ParentLoginCodes
| BillingContacts
| BillingPaymentMethods
| Invoices
| PaymentTransactions
| PaymentWebhookEvents
| Contracts
| BillingEmailDeliveries
| ScheduledJobRuns
| ContentSafetyEvents
| TeacherClassAssignments
| SchoolSubjects
| ClassSubjects
| TeacherSubjects
| SchoolInvitations
| AiPromptTemplates
| AiGatewayCalls
| AskNevoInteractions
| AskNevoThreads
| AskNevoMessages
| AskNevoDailyUsages
| LearnerProfiles
| LearnerProfileHistories
| LearnerProfileAttentionFlags
| AttentionFlags
| InterventionRecommendations
| Escalations
| LessonSessions
| Concepts
| StudentConceptMasteries
| StudentConceptSchedulings
| LearnerPurgeReceipts
| PostLessonProcessings
| SignalEvents
| StudentConceptScaffoldStates
| ScaffoldProblemLogs.

#[export] Instance Table_eq_dec : EqDecision Table.
Proof. solve_decision. Defined.

(** The row type of each table. *)
Definition table_row (t : Table) : Type :=
  match t with
  | Schools => School
  | Users => User
  | Classes => Class_
  | StudentClassEnrollments => StudentClassEnrollment
  | ConsentRecords => ConsentRecord
  | ParentLinks => ParentLink
  | ConsentInvitations => ConsentInvitation
  | ConsentInvitationItems => ConsentInvitationItem
  | ConsentOutbox => ConsentNotificationOutbox
  | AgeChecks => AgeCheck
  | ConsentRefusals => ConsentRefusal
  | ParentDataRequests => ParentDataRequest
  | Notifications => Notification
  | Admins => Admin
  | AdminScopeAssignments => AdminScopeAssignment
  | AdminInvitations => AdminInvitation
  | LearningSupportGrants => LearningSupportGrant
  | AuthSessions => AuthSession
  | AuthLoginAttempts => AuthLoginAttempt
  | AuthAuditEvents => AuthAuditEvent
  | ParentLoginCodes => ParentLoginCode
  | BillingContacts => BillingContact
  | BillingPaymentMethods => BillingPaymentMethod
  | Invoices => Invoice
  | PaymentTransactions => PaymentTransaction
  | PaymentWebhookEvents => PaymentWebhookEvent
  | Contracts => Contract
  | BillingEmailDeliveries => BillingEmailDelivery
  | ScheduledJobRuns => ScheduledJobRun
  | ContentSafetyEvents => ContentSafetyEvent
  | TeacherClassAssignments => TeacherClassAssignment
  | SchoolSubjects => SchoolSubject
  | ClassSubjects => ClassSubject
  | TeacherSubjects => TeacherSubject
  | SchoolInvitations => SchoolInvitation
  | AiPromptTemplates => AiPromptTemplate
  | AiGatewayCalls => AiGatewayCall
  | AskNevoInteractions => AskNevoInteraction
  | AskNevoThreads => AskNevoThread
  | AskNevoMessages => AskNevoMessage
  | AskNevoDailyUsages => AskNevoDailyUsage
  | LearnerProfiles => LearnerProfile
  | LearnerProfileHistories => LearnerProfileHistory
  | LearnerProfileAttentionFlags => LearnerProfileAttentionFlag
  | AttentionFlags => AttentionFlag
  | InterventionRecommendations => InterventionRecommendation
  | Escalations => Escalation
  | LessonSessions => LessonSession
  | Concepts => Concept
  | StudentConceptMasteries => StudentConceptMastery
  | StudentConceptSchedulings => StudentConceptScheduling
  | LearnerPurgeReceipts => LearnerPurgeReceipt
  | PostLessonProcessings => PostLessonProcessing
  | SignalEvents => SignalEvent
  | StudentConceptScaffoldStates => StudentConceptScaffoldState
  | ScaffoldProblemLogs => ScaffoldProblemLog
  end.

(** The primary key of each table. *)
Definition table_id (t : Table) : table_row t → uuid :=
  match t with
  | Schools => school_id
  | Users => user_id
  | Classes => class_id
  | StudentClassEnrollments => enrollment_id
  | ConsentRecords => cr_id
  | ParentLinks => link_id
  | ConsentInvitations => inv_id
  | ConsentInvitationItems => item_id
  | ConsentOutbox => outbox_id
  | AgeChecks => ac_id
  | ConsentRefusals => refusal_id
  | ParentDataRequests => pdr_id
  | Notifications => note_id
  | Admins => admin_id
  | AdminScopeAssignments => asg_id
  | AdminInvitations => ainv_id
  | LearningSupportGrants => grant_id
  | AuthSessions => ses_id
  | AuthLoginAttempts => attempt_id
  | AuthAuditEvents => audit_id
  | ParentLoginCodes => code_id
  | BillingContacts => bc_id
  | BillingPaymentMethods => method_id
  | Invoices => invoice_id
  | PaymentTransactions => tx_id
  | PaymentWebhookEvents => event_id
  | Contracts => contract_contract_id
  | BillingEmailDeliveries => bed_id
  | ScheduledJobRuns => job_id
  | ContentSafetyEvents => cse_id
  | TeacherClassAssignments => tca_id
  | SchoolSubjects => ss_id
  | ClassSubjects => cs_id
  | TeacherSubjects => ts_id
  | SchoolInvitations => sinv_id
  | AiPromptTemplates => apt_id
  | AiGatewayCalls => call_id
  | AskNevoInteractions => ani_id
  | AskNevoThreads => thr_id
  | AskNevoMessages => msg_id
  | AskNevoDailyUsages => usage_id
  | LearnerProfiles => lp_id
  | LearnerProfileHistories => lph_id
  | LearnerProfileAttentionFlags => lpf_id
  | AttentionFlags => flag_id
  | InterventionRecommendations => ir_id
  | Escalations => esc_id
  | LessonSessions => lsn_id
  | Concepts => concept_id
  | StudentConceptMasteries => scm_id
  | StudentConceptSchedulings => scs_id
  | LearnerPurgeReceipts => lpr_id
  | PostLessonProcessings => plp_session_id
  | SignalEvents => sig_id
  | StudentConceptScaffoldStates => sss_id
  | ScaffoldProblemLogs => spl_id
  end.

Definition tables : list Table :=
  [Schools; Users; Classes; StudentClassEnrollments; ConsentRecords; ParentLinks;
   ConsentInvitations; ConsentInvitationItems; ConsentOutbox; AgeChecks; ConsentRefusals;
   ParentDataRequests; Notifications; Admins; AdminScopeAssignments; AdminInvitations;
   LearningSupportGrants; AuthSessions; AuthLoginAttempts; AuthAuditEvents; ParentLoginCodes;
   BillingContacts; BillingPaymentMethods; Invoices; PaymentTransactions;
   PaymentWebhookEvents; Contracts; BillingEmailDeliveries; ScheduledJobRuns;
   ContentSafetyEvents; TeacherClassAssignments; SchoolSubjects; ClassSubjects; TeacherSubjects;
   SchoolInvitations; AiPromptTemplates; AiGatewayCalls; AskNevoInteractions; AskNevoThreads; AskNevoMessages; AskNevoDailyUsages;
   LearnerProfiles; LearnerProfileHistories; LearnerProfileAttentionFlags; AttentionFlags; InterventionRecommendations; Escalations; LessonSessions; Concepts;
   StudentConceptMasteries; StudentConceptSchedulings; LearnerPurgeReceipts; PostLessonProcessings; SignalEvents; StudentConceptScaffoldStates;
   ScaffoldProblemLogs].

(** ** Constraints *)

Definition lower_opt (s : option string) : option string := casefold <$> s.

(** A composite key counts as NULL when one of its columns is. *)
Definition key2 {A B} (a : option A) (b : option B) : option (A * B) :=
  match a, b with Some x, Some y => Some (x, y) | _, _ => None end.

Definition primary_key {R} (id : R → uuid) (l : list R) : bool := unique_on (λ r, Some (id r)) l.

Definition decimal_nonneg (d : decimal) : bool := 0 <=? dec_coef d.

Definition school_row_ok (r : School) : bool :=
  (0 <? school_data_retention_days r) && (0 <? school_admin_seat_limit r) &&
  match school_contract_value r with Some v => decimal_nonneg v | None => true end &&
  match school_contract_start r, school_contract_end r with
  | Some s, Some e => s <=? e
  | _, _ => true
  end.
Definition schools_ok (l : list School) : bool :=
  primary_key school_id l && forallb school_row_ok l &&
  unique_on (λ r, Some (casefold (school_school_code r))) l &&
  unique_on (λ r, Some (school_school_url_slug r)) l.

(** [deactivated_at_matches_status] *)
Definition user_row_ok (r : User) : bool :=
  Bool.eqb (user_status r == DEACTIVATED) (is_some (user_deactivated_at r)).
Definition users_ok (l : list User) : bool :=
  primary_key user_id l && forallb user_row_ok l &&
  unique_on (λ r, lower_opt (user_email r)) l &&
  unique_on user_sso_external_id l &&
  unique_on (λ r, key2 (user_school_id r) (lower_opt (user_login_identifier r))) l &&
  unique_on (λ r, key2 (user_school_id r) (lower_opt (user_admission_number r))) l.

Definition class_row_ok (r : Class_) : bool :=
  match class_capacity r with Some c => 0 <? c | None => true end.
Definition classes_ok (l : list Class_) : bool :=
  primary_key class_id l && forallb class_row_ok l && unique_on class_class_code l &&
  unique_on (λ r, if is_none (class_archived_at r)
                  then Some (class_school_id r, class_academic_session r, class_normalised_name r)
                  else None) l.

Definition enrollments_ok (l : list StudentClassEnrollment) : bool :=
  primary_key enrollment_id l &&
  unique_on (λ r, Some (enrollment_student_id r, enrollment_class_id r)) l.

(** [confirmation_fields_match_status] *)
Definition confirmation_fields_match_status (r : ConsentRecord) : bool :=
  match cr_status r with
  | PENDING | NOT_SENT =>
    is_none (cr_confirmation_source r) && is_none (cr_confirmed_by_admin_id r) &&
    is_none (cr_confirmed_by_parent_id r) && is_none (cr_confirmed_via r) &&
    is_none (cr_confirmed_at r)
  | CONFIRMED | WITHDRAWN =>
    is_some (cr_confirmed_via r) && is_some (cr_confirmed_at r) &&
    match cr_confirmation_source r with
    | Some SOURCE_SCHOOL =>
      is_some (cr_confirmed_by_admin_id r) && is_none (cr_confirmed_by_parent_id r)
    | Some SOURCE_PARENT =>
      is_some (cr_confirmed_by_parent_id r) && is_none (cr_confirmed_by_admin_id r)
    | None => false
    end
  end.
(** [written_consent_identifies_the_parent]; a NULL method passes the check. *)
Definition written_consent_identifies_the_parent (r : ConsentRecord) : bool :=
  match cr_confirmed_via r with
  | Some WRITTEN =>
    is_some (cr_parent_name_on_form r) && is_some (cr_signed_on r) && is_some (cr_notice_version r)
  | _ => true
  end.
Definition consent_row_ok (r : ConsentRecord) : bool :=
  confirmation_fields_match_status r && written_consent_identifies_the_parent r.
Definition consent_key (r : ConsentRecord) : option (uuid * ConsentType) :=
  Some (cr_subject_user_id r, cr_consent_type r).
Definition consent_records_ok (l : list ConsentRecord) : bool :=
  primary_key cr_id l && forallb consent_row_ok l && unique_on consent_key l.

(** [account_created_matches_parent] *)
Definition link_row_ok (r : ParentLink) : bool :=
  Bool.eqb (link_account_created r) (is_some (link_parent_id r)).
Definition link_key (r : ParentLink) : option (uuid * string * ParentContactMethod) :=
  Some (link_student_id r, link_parent_contact r, link_contact_method r).
Definition parent_links_ok (l : list ParentLink) : bool :=
  primary_key link_id l && forallb link_row_ok l && unique_on link_key l.

(** [not_accepted_and_revoked] *)
Definition inv_row_ok (r : ConsentInvitation) : bool :=
  negb (is_some (inv_accepted_at r) && is_some (inv_revoked_at r)).
Definition invitations_ok (l : list ConsentInvitation) : bool :=
  primary_key inv_id l && forallb inv_row_ok l && unique_on (λ r, Some (inv_token_digest r)) l.

Definition items_ok (l : list ConsentInvitationItem) : bool :=
  primary_key item_id l && unique_on (λ r, Some (item_invitation_id r, item_consent_type r)) l.

(** [sent_status_matches_timestamp] *)
Definition outbox_row_ok (r : ConsentNotificationOutbox) : bool :=
  Bool.eqb (outbox_status r == DELIVERY_SENT) (is_some (outbox_sent_at r)).
Definition outbox_ok (l : list ConsentNotificationOutbox) : bool :=
  primary_key outbox_id l && forallb outbox_row_ok l &&
  unique_on (λ r, Some (outbox_invitation_id r, outbox_kind r)) l.

(** [age_check_resolution_matches_state] *)
Definition age_check_row_ok (r : AgeCheck) : bool :=
  Bool.eqb (ac_state r == RESOLVED) (is_some (ac_resolved_at r) && is_some (ac_resolved_by_user_id r)).
Definition age_checks_ok (l : list AgeCheck) : bool :=
  primary_key ac_id l && forallb age_check_row_ok l && unique_on (λ r, Some (ac_student_id r)) l.

Definition refusals_ok (l : list ConsentRefusal) : bool :=
  primary_key refusal_id l &&
  unique_on (λ r, Some (refusal_student_id r, refusal_contact_digest r)) l.

Definition admins_ok (l : list Admin) : bool :=
  primary_key admin_id l && unique_on (λ r, Some (admin_user_id r)) l.

(** [revoked_after_grant] *)
Definition assignment_row_ok (r : AdminScopeAssignment) : bool :=
  match asg_revoked_at r with Some t => asg_granted_at r <=? t | None => true end.
Definition assignment_key (r : AdminScopeAssignment) : option (uuid * PermissionScope) :=
  if is_none (asg_revoked_at r) then Some (asg_admin_id r, asg_scope r) else None.
Definition assignments_ok (l : list AdminScopeAssignment) : bool :=
  primary_key asg_id l && forallb assignment_row_ok l && unique_on assignment_key l.

Definition admin_invitation_row_ok (r : AdminInvitation) : bool :=
  (ainv_created_at r <? ainv_expires_at r) &&
  (is_none (ainv_accepted_at r) || is_none (ainv_revoked_at r)).
Definition admin_invitation_live_key (r : AdminInvitation) : option uuid :=
  if is_none (ainv_accepted_at r) && is_none (ainv_revoked_at r) then Some (ainv_user_id r) else None.
Definition admin_invitations_ok (l : list AdminInvitation) : bool :=
  primary_key ainv_id l && forallb admin_invitation_row_ok l &&
  unique_on (λ r, Some (ainv_token_digest r)) l && unique_on admin_invitation_live_key l.

Definition grants_ok (l : list LearningSupportGrant) : bool :=
  primary_key grant_id l &&
  unique_on (λ r, if is_none (grant_revoked_at r)
                  then Some (grant_school_id r, grant_holder_user_id r) else None) l.

Definition session_row_ok (r : AuthSession) : bool :=
  (ses_created_at r <? ses_expires_at r) &&
  Bool.eqb (is_some (ses_revoked_at r)) (is_some (ses_revocation_reason r)).
(** [uq_auth_sessions_one_active_student] *)
Definition active_student_key (r : AuthSession) : option uuid :=
  if (ses_role r == STUDENT) && is_none (ses_revoked_at r) then Some (ses_user_id r) else None.
Definition sessions_ok (l : list AuthSession) : bool :=
  primary_key ses_id l && forallb session_row_ok l &&
  unique_on (λ r, Some (ses_token_digest r)) l && unique_on active_student_key l.

Definition codes_ok (l : list ParentLoginCode) : bool :=
  primary_key code_id l && forallb (λ r, 0 <=? code_attempt_count r) l.

Definition billing_contacts_ok (l : list BillingContact) : bool :=
  primary_key bc_id l && unique_on (λ r, Some (bc_school_id r, bc_email r)) l.

(** [last_four_digits] *)
Definition method_row_ok (r : BillingPaymentMethod) : bool :=
  (String.length (method_last_four r) == 4%nat) && string_forall is_digit (method_last_four r).
Definition payment_methods_ok (l : list BillingPaymentMethod) : bool :=
  primary_key method_id l && forallb method_row_ok l && unique_on (λ r, Some (method_school_id r)) l.

(** [paid_status_matches_paid_at] *)
Definition invoice_row_ok (r : Invoice) : bool :=
  decimal_nonneg (invoice_amount r) &&
  Bool.eqb (invoice_status r == INVOICE_PAID) (is_some (invoice_paid_at r)).
Definition invoices_ok (l : list Invoice) : bool :=
  primary_key invoice_id l && forallb invoice_row_ok l &&
  unique_on (λ r, Some (invoice_invoice_number r)) l.

Definition transaction_row_ok (r : PaymentTransaction) : bool :=
  decimal_nonneg (tx_amount r) && (0 <=? tx_amount_minor r) &&
  Bool.eqb (tx_status r == TX_SUCCESS) (is_some (tx_paid_at r)).
Definition transactions_ok (l : list PaymentTransaction) : bool :=
  primary_key tx_id l && forallb transaction_row_ok l && unique_on (λ r, Some (tx_reference r)) l.

Definition webhook_events_ok (l : list PaymentWebhookEvent) : bool :=
  primary_key event_id l && unique_on (λ r, Some (event_provider r, event_event_key r)) l.

(** [contract_year_index_valid] and [contract_dates_valid] *)
Definition contract_row_ok (r : Contract) : bool :=
  (1 <=? contract_current_year_index r) && (contract_current_year_index r <=? 6) &&
  date_le (contract_start_date r) (contract_end_date r).
Definition contracts_ok (l : list Contract) : bool :=
  primary_key contract_contract_id l && forallb contract_row_ok l.

Definition billing_emails_ok (l : list BillingEmailDelivery) : bool :=
  primary_key bed_id l && unique_on (λ r, Some (bed_invoice_id r, bed_email r, bed_kind r)) l.

Definition job_runs_ok (l : list ScheduledJobRun) : bool :=
  primary_key job_id l && unique_on (λ r, Some (job_job_name r)) l.

(** [NULLS NOT DISTINCT]: no subject counts as a subject. *)
Definition teacher_assignment_row_ok (r : TeacherClassAssignment) : bool :=
  match tca_removed_at r with Some t => tca_assigned_at r <=? t | None => true end.
Definition teacher_assignments_ok (l : list TeacherClassAssignment) : bool :=
  primary_key tca_id l && forallb teacher_assignment_row_ok l &&
  unique_on (λ r, if is_none (tca_removed_at r)
                  then Some (tca_teacher_id r, tca_class_id r, tca_school_subject_id r) else None) l &&
  unique_on (λ r, if (tca_role r == PRIMARY) && is_none (tca_removed_at r)
                  then Some (tca_class_id r) else None) l.

Definition school_subjects_ok (l : list SchoolSubject) : bool :=
  primary_key ss_id l && unique_on (λ r, Some (ss_school_id r, ss_normalised_name r)) l.
Definition class_subjects_ok (l : list ClassSubject) : bool :=
  primary_key cs_id l && unique_on (λ r, Some (cs_class_id r, cs_school_subject_id r)) l.
Definition teacher_subjects_ok (l : list TeacherSubject) : bool :=
  primary_key ts_id l && unique_on (λ r, Some (ts_teacher_id r, ts_school_subject_id r)) l.
Definition school_invitations_ok (l : list SchoolInvitation) : bool :=
  primary_key sinv_id l && unique_on (λ r, Some (sinv_token_digest r)) l.

Definition prompt_templates_ok (l : list AiPromptTemplate) : bool :=
  primary_key apt_id l && unique_on (λ r, Some (apt_name r, apt_version r)) l &&
  unique_on (λ r, if apt_active r then Some (apt_name r) else None) l.

(** [token_counts_non_negative], [performance_values_non_negative] and
    [fallback_status_matches_flag] *)
Definition gateway_call_row_ok (r : AiGatewayCall) : bool :=
  (0 <=? call_input_tokens r) && (0 <=? call_output_tokens r) && (0 <=? call_thought_tokens r) &&
  (0 <=? call_latency_ms r) && decimal_nonneg (call_estimated_cost_usd r) &&
  Bool.eqb (call_status r == CALL_FALLBACK) (call_fallback_used r).
Definition gateway_calls_ok (l : list AiGatewayCall) : bool :=
  primary_key call_id l && forallb gateway_call_row_ok l.

Definition ask_messages_ok (l : list AskNevoMessage) : bool :=
  primary_key msg_id l && unique_on (λ r, Some (msg_thread_id r, msg_sequence r)) l.

(** [ask_nevo_usage_non_negative] *)
Definition usage_row_ok (r : AskNevoDailyUsage) : bool := (0 <=? usage_units_spent r) && (0 <=? usage_exchanges r).
Definition daily_usage_ok (l : list AskNevoDailyUsage) : bool :=
  primary_key usage_id l && forallb usage_row_ok l &&
  unique_on (λ r, Some (usage_actor_user_id r, usage_usage_date r)) l.

(** [dimension_checks] *)
Definition opt_between (low high : Z) (o : option Z) : bool :=
  match o with Some n => (low <=? n) && (n <=? high) | None => true end.
Definition dimensions_ok (d : LearnerProfileDimensions) : bool :=
  opt_between 1 5 (pd_cognitive_load_threshold d) && opt_between 1 5 (pd_processing_speed d) &&
  opt_between 1 5 (pd_working_memory_capacity d) && opt_between 1 240 (pd_attention_span d) &&
  opt_between 1 5 (pd_performance_sensitivity d).
Definition profile_row_ok (r : LearnerProfile) : bool :=
  dimensions_ok (lp_dimensions r) && (0 <? lp_version r) && (0 <=? lp_observed_event_count r).
Definition learner_profiles_ok (l : list LearnerProfile) : bool :=
  primary_key lp_id l && forallb profile_row_ok l && unique_on (λ r, Some (lp_learner_id r)) l.
Definition profile_history_row_ok (r : LearnerProfileHistory) : bool :=
  dimensions_ok (lph_dimensions r) && (0 <? lph_version r) && (0 <=? lph_observed_event_count r).
Definition profile_histories_ok (l : list LearnerProfileHistory) : bool :=
  primary_key lph_id l && forallb profile_history_row_ok l &&
  unique_on (λ r, Some (lph_learner_profile_id r, lph_version r)) l.

Definition lesson_session_row_ok (r : LessonSession) : bool :=
  match lsn_ended_at r with Some t => lsn_started_at r <=? t | None => true end &&
  (0 <=? lsn_break_count r) && (0 <=? lsn_proactive_adjustments_count r).
Definition lesson_sessions_ok (l : list LessonSession) : bool :=
  primary_key lsn_id l && forallb lesson_session_row_ok l.

(** [x BETWEEN 0 AND 1]; NaN is above every number there. *)
Definition probability (x : float) : bool := f_le f_zero x && f_le x f_one.
Definition mastery_row_ok (r : StudentConceptMastery) : bool :=
  probability (scm_transition_probability r) && probability (scm_mastery_probability_concept r) &&
  probability (scm_mastery_probability_reading r) && probability (scm_guess_probability r) &&
  probability (scm_slip_probability r) && (0 <=? scm_practice_count r).
Definition concept_masteries_ok (l : list StudentConceptMastery) : bool :=
  primary_key scm_id l && forallb mastery_row_ok l && unique_on (λ r, Some (scm_student_id r, scm_concept_id r)) l.

(** [stability > 0], where NaN is above every number, and [difficulty BETWEEN
    1 AND 10]. *)
Definition scheduling_row_ok (r : StudentConceptScheduling) : bool :=
  (f_lt f_zero (scs_stability r) || (scs_stability r == SpecFloat.S754_nan)) &&
  f_le f_one (scs_difficulty r) && f_le (scs_difficulty r) (f_of_Z 10) && (0 <=? scs_review_count r).
Definition concept_schedulings_ok (l : list StudentConceptScheduling) : bool :=
  primary_key scs_id l && forallb scheduling_row_ok l &&
  unique_on (λ r, Some (scs_student_id r, scs_concept_id r)) l.

Definition purge_receipts_ok (l : list LearnerPurgeReceipt) : bool :=
  primary_key lpr_id l && unique_on lpr_student_id l && unique_on (λ r, Some (lpr_subject_digest r)) l.

Definition scaffold_state_row_ok (r : StudentConceptScaffoldState) : bool :=
  (0 <=? sss_consecutive_correct r) && (0 <=? sss_response_time_improvement_streak r) && (0 <=? sss_reduced_hint_streak r).
Definition scaffold_states_ok (l : list StudentConceptScaffoldState) : bool :=
  primary_key sss_id l && forallb scaffold_state_row_ok l && unique_on (λ r, Some (sss_student_id r, sss_concept_id r)) l.

Definition scaffold_log_row_ok (r : ScaffoldProblemLog) : bool :=
  (0 <=? spl_hint_count r) && match spl_response_time_ms r with Some n => 0 <=? n | None => true end &&
  match spl_expected_response_time_ms r with Some n => 0 <? n | None => true end.
Definition scaffold_logs_ok (l : list ScaffoldProblemLog) : bool := primary_key spl_id l && forallb scaffold_log_row_ok l.

Definition table_constraints (t : Table) : list (table_row t) → bool :=
  match t with
  | Schools => schools_ok
  | Users => users_ok
  | Classes => classes_ok
  | StudentClassEnrollments => enrollments_ok
  | ConsentRecords => consent_records_ok
  | ParentLinks => parent_links_ok
  | ConsentInvitations => invitations_ok
  | ConsentInvitationItems => items_ok
  | ConsentOutbox => outbox_ok
  | AgeChecks => age_checks_ok
  | ConsentRefusals => refusals_ok
  | ParentDataRequests => primary_key pdr_id
  | Notifications => primary_key note_id
  | Admins => admins_ok
  | AdminScopeAssignments => assignments_ok
  | AdminInvitations => admin_invitations_ok
  | LearningSupportGrants => grants_ok
  | AuthSessions => sessions_ok
  | AuthLoginAttempts => primary_key attempt_id
  | AuthAuditEvents => primary_key audit_id
  | ParentLoginCodes => codes_ok
  | BillingContacts => billing_contacts_ok
  | BillingPaymentMethods => payment_methods_ok
  | Invoices => invoices_ok
  | PaymentTransactions => transactions_ok
  | PaymentWebhookEvents => webhook_events_ok
  | Contracts => contracts_ok
  | BillingEmailDeliveries => billing_emails_ok
  | ScheduledJobRuns => job_runs_ok
  | ContentSafetyEvents => primary_key cse_id
  | TeacherClassAssignments => teacher_assignments_ok
  | SchoolSubjects => school_subjects_ok
  | ClassSubjects => class_subjects_ok
  | TeacherSubjects => teacher_subjects_ok
  | SchoolInvitations => school_invitations_ok
  | AiPromptTemplates => prompt_templates_ok
  | AiGatewayCalls => gateway_calls_ok
  | AskNevoInteractions => primary_key ani_id
  | AskNevoThreads => primary_key thr_id
  | AskNevoMessages => ask_messages_ok
  | AskNevoDailyUsages => daily_usage_ok
  | LearnerProfiles => learner_profiles_ok
  | LearnerProfileHistories => profile_histories_ok
  | LearnerProfileAttentionFlags => primary_key lpf_id
  | AttentionFlags => primary_key flag_id
  | InterventionRecommendations => primary_key ir_id
  | Escalations => primary_key esc_id
  | LessonSessions => lesson_sessions_ok
  | Concepts => primary_key concept_id
  | StudentConceptMasteries => concept_masteries_ok
  | StudentConceptSchedulings => concept_schedulings_ok
  | LearnerPurgeReceipts => purge_receipts_ok
  | PostLessonProcessings => primary_key plp_session_id
  | SignalEvents => primary_key sig_id
  | StudentConceptScaffoldStates => scaffold_states_ok
  | ScaffoldProblemLogs => scaffold_logs_ok
  end.

Lemma tables_complete t : t ∈ tables.
Proof. destruct t; set_solver. Qed.

#[export] Instance nevo_schema : Schema Table := {|
  schema_eq_dec := Table_eq_dec;
  row := table_row;
  row_id := table_id;
  table_ok := table_constraints;
  all_tables := tables;
  all_tables_complete := tables_complete
|}.

(** ** Computations on the database *)

Abbreviation Database := (Db Table).
Abbreviation M := (Comp Database exn).

(** The statements of [Relational] at this schema. *)
Abbreviation rows := (@Relational.rows Table nevo_schema exn).
Abbreviation select := (@Relational.select Table nevo_schema exn).
Abbreviation scalar := (@Relational.scalar Table nevo_schema exn).
Abbreviation get := (@Relational.get Table nevo_schema exn).
Abbreviation insert := (@Relational.insert Table nevo_schema exn).
Abbreviation update_where := (@Relational.update_where Table nevo_schema exn).
Abbreviation save := (@Relational.save Table nevo_schema exn).
Abbreviation delete_where := (@Relational.delete_where Table nevo_schema exn).
Abbreviation uuid4 := (@Relational.uuid4 Table nevo_schema exn).
Abbreviation func_now := (@Relational.func_now Table nevo_schema exn).
Abbreviation set_table := (@Relational.set_table Table nevo_schema).
Abbreviation for_each_insert := (@Relational.for_each_insert Table nevo_schema exn).
Abbreviation for_each_save := (@Relational.for_each_save Table nevo_schema exn).
Abbreviation keeps_insert := (@Relational.keeps_insert Table nevo_schema exn).
Abbreviation keeps_update_where := (@Relational.keeps_update_where Table nevo_schema exn).
Abbreviation keeps_frames_but := (@Relational.keeps_frames_but Table nevo_schema exn).
Abbreviation keyed := (@Relational.keyed Table nevo_schema).
Abbreviation issued := (@Relational.issued Table nevo_schema).
Abbreviation keyed_insert := (@Relational.keyed_insert Table nevo_schema).
Abbreviation keyed_save := (@Relational.keyed_save Table nevo_schema exn).
Abbreviation keyed_frame := (@Relational.keyed_frame Table nevo_schema exn).
Abbreviation findb_save_keyed := (@Relational.findb_save_keyed Table nevo_schema).
Abbreviation appended := (@Relational.appended Table nevo_schema).
Abbreviation on_table := (@Relational.on_table Table nevo_schema).

Definition begin_ {A} (m : M A) : M A := transaction IntegrityError m.
Definition flush_ : M unit := flush IntegrityError.

Definition empty_db (now : datetime) : Database :=
  mkDb (λ t, match t return list (table_row t) with _ => [] end) 1 now.

Example empty_db_ok : db_ok (empty_db 0) = true.
Proof. vm_compute. reflexivity. Qed.

(** Every table has a primary key, so on a well-formed database every table's
    identifiers are distinct and in use. *)
Lemma table_primary_key t (l : list (table_row t)) :
  table_constraints t l = true → NoDup (map (table_id t) l).
Proof.
  assert (∀ R (id : R → uuid) (k : list R), primary_key id k = true → NoDup (map id k)) as Hpk.
  { intros R id k Hk%unique_on_spec. revert Hk. clear.
    assert (omap (λ r, Some (id r)) k = map id k) as ->; [|done].
    induction k as [|x k IH]; [done|]. simpl. by rewrite <- IH. }
  intros Hok. destruct t; apply Hpk; simpl in Hok; try exact Hok;
    unfold schools_ok, users_ok, classes_ok, enrollments_ok, consent_records_ok, parent_links_ok,
      invitations_ok, items_ok, outbox_ok, age_checks_ok, refusals_ok, admins_ok, assignments_ok,
      admin_invitations_ok, grants_ok, sessions_ok, codes_ok, billing_contacts_ok,
      payment_methods_ok, invoices_ok, transactions_ok, webhook_events_ok, contracts_ok,
      billing_emails_ok, job_runs_ok, teacher_assignments_ok, school_subjects_ok, class_subjects_ok,
      teacher_subjects_ok, school_invitations_ok, prompt_templates_ok, gateway_calls_ok,
      ask_messages_ok, daily_usage_ok, learner_profiles_ok, profile_histories_ok, lesson_sessions_ok, concept_masteries_ok, concept_schedulings_ok, purge_receipts_ok, scaffold_states_ok, scaffold_logs_ok in Hok;
    repeat match goal with H : _ && _ = true |- _ => apply andb_prop in H; destruct H end; assumption.
Qed.

Lemma db_wf_keyed t (db : Database) : db_wf db → keyed t db.
Proof.
  intros [Hok Hfresh]. split; [|exact (Hfresh t)].
  rewrite db_ok_spec in Hok. exact (table_primary_key t _ (Hok t)).
Qed.

(** ** Saving a loaded row

    The constraints of a table after one of its rows was changed: the row's own
    checks, and its unique keys when they are kept. *)
Section SaveOk.
Context {R : Type} (id : R → uuid) (l : list R) (r r' : R).
Hypothesis (Hpk : primary_key id l = true) (Hin : r ∈ l) (Hid : id r' = id r).

Lemma primary_key_inj a : a ∈ l → id a = id r → a = r.
Proof.
  intros Ha Heq. unfold primary_key in Hpk.
  exact (unique_on_eq (λ x, Some (id x)) l a r (id r) Hpk Ha Hin (f_equal Some Heq) eq_refl).
Qed.

Let l' := update_list (λ x, id x == id r) (λ _, r') l.

Lemma unique_on_save {K} `{EqDecision K} (key : R → option K) :
  unique_on key l = true → key r' = key r → unique_on key l' = true.
Proof.
  intros Hu Hk. apply unique_on_update; [done|]. intros a Ha Hm. bool_to_prop.
  by rewrite (primary_key_inj a Ha Hm).
Qed.

Lemma primary_key_save : primary_key id l' = true.
Proof. apply unique_on_save; [exact Hpk|]. by rewrite Hid. Qed.

Lemma forallb_save (p : R → bool) : forallb p l = true → p r' = true → forallb p l' = true.
Proof.
  rewrite !forallb_forall. intros Hl Hr x Hx%list_elem_of_In.
  apply elem_of_update_list in Hx as (a & Ha & ->). case_match; [done|].
  apply Hl. by apply list_elem_of_In.
Qed.
End SaveOk.

Lemma users_ok_save (l : list User) u u' :
  users_ok l = true → u ∈ l → user_row_ok u' = true → user_id u' = user_id u →
  user_email u' = user_email u → user_sso_external_id u' = user_sso_external_id u →
  user_school_id u' = user_school_id u → user_login_identifier u' = user_login_identifier u →
  user_admission_number u' = user_admission_number u →
  users_ok (update_list (λ x, user_id x == user_id u) (λ _, u') l) = true.
Proof.
  unfold users_ok. intros Hok Hin Hrow Hid He Hs Hsch Hl Ha. bool_to_prop.
  repeat (apply andb_true_intro; split); first
    [ by apply primary_key_save | by apply forallb_save
    | apply unique_on_save; try done; by rewrite ?He, ?Hs, ?Hsch, ?Hl, ?Ha ].
Qed.

Lemma consent_records_ok_save (l : list ConsentRecord) r r' :
  consent_records_ok l = true → r ∈ l → consent_row_ok r' = true → cr_id r' = cr_id r →
  cr_subject_user_id r' = cr_subject_user_id r → cr_consent_type r' = cr_consent_type r →
  consent_records_ok (update_list (λ x, cr_id x == cr_id r) (λ _, r') l) = true.
Proof.
  unfold consent_records_ok. intros Hok Hin Hrow Hid Hs Ht. bool_to_prop.
  repeat (apply andb_true_intro; split); first
    [ by apply primary_key_save | by apply forallb_save
    | apply unique_on_save; try done; unfold consent_key; by rewrite Hs, Ht ].
Qed.

Lemma primary_key_fresh t (id : table_row t → uuid) (db : Database) r :
  id = table_id t → ids_fresh db → id r = db_uuids db →
  primary_key id (db_tables db t) = true → primary_key id (db_tables db t ++ [r]) = true.
Proof. intros ->. apply (@unique_on_id_snoc Table nevo_schema t db r). Qed.
