(* ===== verification/Fixtures.v ===== *)
(** * A small school

    The concrete school the worked examples run on: one tenant, a learner in a
    Primary 4 class, a parent account, two administrators and a teacher. *)

From Stdlib Require Import String.
From S2P Require Import Prelude Relational Text Vocabulary Schema.

Local Open Scope string_scope.
Local Open Scope Z_scope.
Local Open Scope nevo_scope.

Definition the_school : School := new_School 1 "Greenfield" "GF01" "greenfield".

(** Ten years and three months old at [t0]. *)
Definition born : date := mkDate 2015 10 1.
Definition t0 : datetime := days 20454.

Definition learner : User :=
  (new_User 2 (Some 1) STUDENT EMAIL_PASSWORD)
    <| user_first_name := Some "Ada" |> <| user_date_of_birth := Some born |>
    <| user_login_identifier := Some "NV-00002" |>.
Definition parent_user : User :=
  (new_User 3 (Some 1) PARENT_GUARDIAN EMAIL_PASSWORD)
    <| user_first_name := Some "Ngozi" |> <| user_email := Some "ngozi@example.com" |>.
Definition senior : User :=
  (new_User 4 (Some 1) SENCO_ADMIN EMAIL_PASSWORD)
    <| user_first_name := Some "Bola" |> <| user_email := Some "bola@example.com" |>.
Definition bursar : User :=
  (new_User 5 (Some 1) OTHER_ADMIN EMAIL_PASSWORD)
    <| user_first_name := Some "Chidi" |> <| user_email := Some "chidi@example.com" |>.
Definition teacher : User :=
  (new_User 6 (Some 1) TEACHER EMAIL_PASSWORD)
    <| user_first_name := Some "Dele" |> <| user_email := Some "dele@example.com" |>.

Definition the_class : Class_ :=
  (new_Class_ 7 1 "Primary 4" "primary 4" "2025/2026") <| class_year_group := Some "Primary 4" |>.

Definition school_db : Database :=
  set_table Schools [the_school] (set_table Users [learner; parent_user; senior; bursar; teacher]
  (set_table Classes [the_class]
  (set_table StudentClassEnrollments [new_StudentClassEnrollment 8 2 7]
     (mkDb (db_tables (empty_db t0)) 100 t0)))).

Example school_db_ok : db_ok school_db = true.
Proof. vm_compute. reflexivity. Qed.

(** The school has asked the learner's parent at [t0]. *)
Definition the_link : ParentLink :=
  new_ParentLink 20 1 2 "Ngozi Obi" "ngozi@example.com" CONTACT_EMAIL t0.
Definition the_invitation : ConsentInvitation :=
  new_ConsentInvitation 21 20 1 2 "hmac256:pepper:parent-consent:tok" 4 t0 (t0 + days 30).
Definition pending_record : ConsentRecord := new_ConsentRecord 22 2 DATA_PROCESSING.
Definition asked_db : Database :=
  set_table ParentLinks [the_link] (set_table ConsentInvitations [the_invitation]
  (set_table ConsentInvitationItems [new_ConsentInvitationItem 23 21 DATA_PROCESSING]
  (set_table ConsentRecords [pending_record] school_db))).

(** The parent has confirmed. *)
Definition confirmed_record : ConsentRecord :=
  pending_record <| cr_status := CONFIRMED |> <| cr_confirmation_source := Some SOURCE_PARENT |>
    <| cr_confirmed_by_parent_id := Some 3 |> <| cr_confirmed_via := Some DIGITAL |>
    <| cr_confirmed_at := Some t0 |>.
Definition consented_db : Database := set_table ConsentRecords [confirmed_record] asked_db.

Example asked_db_ok : db_ok asked_db && db_ok consented_db = true.
Proof. vm_compute. reflexivity. Qed.
