(* ===== verification/Crypto.v ===== *)
(** * Secrets and digests

    The functions of [hashlib], [hmac], [secrets] and [argon2] the services
    call, as the operations of an interface: the development is proved for
    every implementation of it. Random values are drawn by their position in
    the identifier supply. [Toy] is an instance to evaluate examples with; the
    laws a theorem needs (such as a digest without collisions) are stated by
    the theorem. *)

From Stdlib Require Import String.
From S2P Require Import Prelude Relational Text Vocabulary Schema.

Local Open Scope string_scope.
Local Open Scope Z_scope.
Local Open Scope nevo_scope.

Class Crypto := {
  (** [hashlib.sha256(s.encode()).hexdigest()] *)
  sha256_hex : string → string;
  (** [hmac.new(key, s.encode(), hashlib.sha256).hexdigest()] *)
  hmac_sha256_hex : string → string → string;
  (** [hmac.new(key, s, hashlib.sha512).hexdigest()] *)
  hmac_sha512_hex : string → string → string;
  (** [secrets.token_urlsafe(32)] *)
  token_urlsafe : Z → string;
  (** [secrets.token_hex(n)] *)
  token_hex : Z → nat → string;
  (** [secrets.choice("0123456789")], for the k-th character of a code. *)
  random_digit : Z → nat → Ascii.ascii;
  (** [PasswordHasher.hash] and [PasswordHasher.verify] *)
  argon2_hash : string → Z → string;
  argon2_verify : string → string → bool
}.

(** Every random value is drawn once. *)
Definition draw {A} (f : Z → A) : M A := n ← uuid4; mret (f n).

Module Toy.
#[local] Instance crypto : Crypto := {|
  sha256_hex s := "sha256:" ++ s;
  hmac_sha256_hex k s := "hmac256:" ++ k ++ ":" ++ s;
  hmac_sha512_hex k s := "hmac512:" ++ k ++ ":" ++ s;
  token_urlsafe n := "token-" ++ int_str n;
  token_hex n _ := "hex-" ++ int_str n;
  random_digit n k := Ascii.ascii_of_nat (48 + Z.to_nat ((n + Z.of_nat k) mod 10));
  argon2_hash s n := "argon2:" ++ s;
  argon2_verify h s := h == ("argon2:" ++ s)
|}.
End Toy.

Lemma keeps_draw I {A} (f : Z → A) :
  (∀ db, I db → I (snd (uuid4 db))) → keeps I (draw f).
Proof. intros HI db a db' Hdb [= <- <-]. exact (HI db Hdb). Qed.

Lemma frames_draw ts {A} (f : Z → A) : frames ts (draw f).
Proof. unfold draw. frames_tac. Qed.

#[export] Hint Resolve frames_draw : frames.
