(* ===== verification/Notices.v ===== *)
(** * Notices and the links in them

    [src/nevo/notifications/dispatch.py]: raising a notification, once, from
    wherever the thing happened; and [src/nevo/notifications/links.py]: every
    link the backend puts in an email. *)

From Stdlib Require Import String Ascii.
From S2P Require Import Prelude Relational Text Vocabulary Schema.

Local Open Scope string_scope.
Local Open Scope Z_scope.
Local Open Scope nevo_scope.

(** ** Links *)

Definition PARENT_CONSENT_PATH : string := "/parent".
Definition JOIN_PATH : string := "/join".
Definition ADMIN_EMAIL_CONFIRMATION_PATH : string := "/auth/admin/confirm".
Definition PASSWORD_RESET_PATH : string := "/reset-password".

(** The characters [urllib.parse.quote(s, safe='')] leaves alone. *)
Definition unreserved (c : ascii) : bool :=
  let n := nat_of_ascii c in
  is_digit c ||
  ((65 <=? n)%nat && (n <=? 90)%nat) || ((97 <=? n)%nat && (n <=? 122)%nat) ||
  (n =? 95)%nat || (n =? 46)%nat || (n =? 45)%nat || (n =? 126)%nat.

Definition hex_digit (n : nat) : ascii :=
  if (n <? 10)%nat then ascii_of_nat (48 + n) else ascii_of_nat (55 + n).

Fixpoint quote (s : string) : string :=
  match s with
  | EmptyString => EmptyString
  | String c s' =>
    if unreserved c then String c (quote s')
    else
      let n := nat_of_ascii c in
      String "%" (String (hex_digit (n / 16)) (String (hex_digit (n mod 16)) (quote s')))
  end.

(** [quote_plus], which [urlencode] applies to a value. *)
Fixpoint quote_plus (s : string) : string :=
  match s with
  | EmptyString => EmptyString
  | String c s' =>
    if (c == " "%char) then String "+" (quote_plus s')
    else if unreserved c then String c (quote_plus s')
    else
      let n := nat_of_ascii c in
      String "%" (String (hex_digit (n / 16)) (String (hex_digit (n mod 16)) (quote_plus s')))
  end.

Definition url_ (base_url path : string) (query : list (string * string)) : string :=
  let link := rstrip_slash base_url ++ path in
  match query with
  | [] => link
  | _ => link ++ "?" ++ join "&" (map (λ kv, quote_plus kv.1 ++ "=" ++ quote_plus kv.2) query)
  end.

Definition parent_consent_url (base_url token : string) : string :=
  url_ base_url (PARENT_CONSENT_PATH ++ "/" ++ quote token) [].
Definition join_url (base_url token : string) : string :=
  url_ base_url (JOIN_PATH ++ "/" ++ quote token) [].
Definition admin_email_confirmation_url (base_url token : string) : string :=
  url_ base_url (ADMIN_EMAIL_CONFIRMATION_PATH ++ "/" ++ quote token) [].
Definition password_reset_url (base_url token : string) : string :=
  url_ base_url PASSWORD_RESET_PATH [("token", token)].

(** ** Dispatch *)

(** [_category_follows_type], run before a notification is inserted. *)
Definition category_follows_type (target : Notification) : Notification :=
  match notification_category (Some (note_type target)) with
  | Some derived => target <| note_category := value derived |>
  | None => target
  end.

(** [notify]; the category follows the type when the row is inserted. *)
Definition notify (recipient_id : uuid) (recipient_role : string) (notification_type : NotificationType)
    (title description : string) (navigates_to : option string) : M Notification :=
  i ← uuid4;
  now ← func_now;
  let record := category_follows_type
    ((new_Notification i recipient_id recipient_role (value notification_type)
        title description now) <| note_navigates_to := navigates_to |>) in
  insert Notifications record;;
  mret record.

Definition notify_each (recipients : list (uuid * string)) (notification_type : NotificationType)
    (title description : string) (navigates_to : option string) : M Z :=
  for_each recipients (λ r,
    notify r.1 r.2 notification_type title description navigates_to;; mret tt);;
  mret (Z.of_nat (length recipients)).
