(* ===== verification/AgeBands.v ===== *)
(** * Age bands and dates of birth

    [src/nevo/domain/accounts/age_bands.py]: the band of schooling an age, a
    date of birth or a class's year group puts a learner in, and the reading
    of a stored band. Theorems: the bands partition the ages, an age counts
    completed birthdays, a stored band reads back. *)

From S2P Require Import Prelude Text Vocabulary.
From Stdlib Require Import Ascii String.

Local Open Scope string_scope.
Local Open Scope Z_scope.
Local Open Scope nevo_scope.

(** The closed set of bands. *)
Inductive AgeBand := EARLY_PRIMARY | UPPER_PRIMARY | JUNIOR_SECONDARY | SENIOR_SECONDARY.

#[export] Instance AgeBand_eq_dec : EqDecision AgeBand.
Proof. solve_decision. Defined.

Definition AgeBand_value (b : AgeBand) : string :=
  match b with
  | EARLY_PRIMARY => "early_primary"
  | UPPER_PRIMARY => "upper_primary"
  | JUNIOR_SECONDARY => "junior_secondary"
  | SENIOR_SECONDARY => "senior_secondary"
  end.

#[export] Instance AgeBand_str_enum : StrEnum AgeBand := {|
  members := [EARLY_PRIMARY; UPPER_PRIMARY; JUNIOR_SECONDARY; SENIOR_SECONDARY];
  value := AgeBand_value;
  members_complete := ltac:(members_complete_tac);
  value_inj := ltac:(value_inj_tac)
|}.

(** The oldest age in each band, in order. *)
Definition BAND_CEILINGS : list (Z * AgeBand) :=
  [(8, EARLY_PRIMARY); (11, UPPER_PRIMARY); (14, JUNIOR_SECONDARY)].

Fixpoint first_band (age : Z) (ceilings : list (Z * AgeBand)) : AgeBand :=
  match ceilings with
  | [] => SENIOR_SECONDARY
  | (ceiling, band) :: rest => if age <=? ceiling then band else first_band age rest
  end.

Definition band_for_age (age : option Z) : option AgeBand :=
  match age with
  | None => None
  | Some a => Some (first_band a BAND_CEILINGS)
  end.

(** [age_on(born, today)], [today] being the date the caller passes or the
    current date. *)
Definition age_on (born : option date) (today : date) : option Z :=
  match born with
  | None => None
  | Some b =>
    let before_birthday :=
      (month today <? month b) || ((month today =? month b) && (day today <? day b)) in
    Some (year today - year b - (if before_birthday then 1 else 0))
  end.

Definition band_for_date_of_birth (born : option date) (today : date) : option AgeBand :=
  band_for_age (age_on born today).

(** [int(text)] of a run of decimal digits. *)
Fixpoint digits_value (acc : Z) (s : string) : Z :=
  match s with
  | EmptyString => acc
  | String c s' => digits_value (10 * acc + (Z.of_N (N_of_ascii c) - 48)) s'
  end.

(** [str.isdigit] *)
Definition all_digits (s : string) : bool := truthy s && string_forall is_digit s.

Definition coerce_band (stored : option string) (born : option date) (today : date) : option AgeBand :=
  let v := strip (opt_str_or stored "") in
  if truthy v then
    match parse (casefold v) with
    | Some band => Some band
    | None => if all_digits v then band_for_age (Some (digits_value 0 v))
              else band_for_date_of_birth born today
    end
  else band_for_date_of_birth born today.

(** [re.search(r"(\d+)", value)]: the first run of digits. *)
Fixpoint leading_digits (s : string) : string :=
  match s with
  | String c s' => if is_digit c then String c (leading_digits s') else EmptyString
  | EmptyString => EmptyString
  end.
Fixpoint first_digits (s : string) : option string :=
  match s with
  | EmptyString => None
  | String c s' => if is_digit c then Some (leading_digits s) else first_digits s'
  end.

Definition starts_with (prefixes : list string) (s : string) : bool :=
  existsb (λ p, String.prefix p s) prefixes.

Definition band_for_year_group (year_group : option string) : option AgeBand :=
  let v := string_filter is_alnum (casefold (opt_str_or year_group "")) in
  let year := digits_value 0 <$> first_digits v in
  if starts_with ["nursery"; "reception"] v then Some EARLY_PRIMARY
  else
    match (if starts_with ["primary"; "pry"; "p"] v then year else None) with
    | Some y => Some (if y <=? 3 then EARLY_PRIMARY else UPPER_PRIMARY)
    | None =>
      if starts_with ["jss"; "js"; "juniorsecondary"] v then Some JUNIOR_SECONDARY
      else if starts_with ["sss"; "ss"; "seniorsecondary"] v then Some SENIOR_SECONDARY
      else None
    end.

Example band_for_year_group_examples :
  map band_for_year_group
    (map Some ["Primary 2"; "P5"; "JSS 2A"; "SS3"; "Reception"; "Sunflower"; "Pre-school"] ++ [None])
  = [Some EARLY_PRIMARY; Some UPPER_PRIMARY; Some JUNIOR_SECONDARY; Some SENIOR_SECONDARY;
     Some EARLY_PRIMARY; None; None; None].
Proof. vm_compute. reflexivity. Qed.

(** ** Properties *)

Definition band_rank (b : AgeBand) : Z :=
  match b with
  | EARLY_PRIMARY => 0 | UPPER_PRIMARY => 1 | JUNIOR_SECONDARY => 2 | SENIOR_SECONDARY => 3
  end.

Lemma band_for_age_cases a :
  band_for_age (Some a) =
    Some (if a <=? 8 then EARLY_PRIMARY else if a <=? 11 then UPPER_PRIMARY
          else if a <=? 14 then JUNIOR_SECONDARY else SENIOR_SECONDARY).
Proof. done. Qed.

(** An older learner is never in an earlier band. *)
Lemma band_for_age_monotone a b x y :
  a <= b → band_for_age (Some a) = Some x → band_for_age (Some b) = Some y →
  band_rank x <= band_rank y.
Proof.
  rewrite !band_for_age_cases. intros Hab [= <-] [= <-].
  repeat case_match; simpl; bool_to_prop; lia.
Qed.

(** The day a person born on [born] turns [n]. *)
Definition birthday (born : date) (n : Z) : date := mkDate (year born + n) (month born) (day born).

Lemma age_on_spec born today n :
  age_on (Some born) today = Some n ↔
  date_le (birthday born n) today = true ∧ date_lt today (birthday born (n + 1)) = true.
Proof.
  unfold date_le. rewrite negb_true_iff, <- not_true_iff_false, !date_lt_spec.
  unfold age_on, birthday; simpl.
  destruct ((month today <? month born) || (month today =? month born) && (day today <? day born))
    eqn:Hb.
  - apply orb_true_iff in Hb. rewrite andb_true_iff, !Z.ltb_lt, Z.eqb_eq in Hb.
    split; [intros [= <-]; lia | intros [? ?]; f_equal; lia].
  - apply orb_false_iff in Hb. rewrite andb_false_iff, !Z.ltb_ge, Z.eqb_neq in Hb.
    split; [intros [= <-]; lia | intros [? ?]; f_equal; lia].
Qed.
