(* ===== verification/AgeAssurance.v ===== *)
(** * Age assurance

    [src/nevo/consent/age_assurance.py]: reconciling the date of birth a
    school uploaded with the one a parent gave. A check is [MATCHED] or
    [RESOLVED] when learning may go on, [MISMATCH] while access is held, and
    [AWAITING_PARENT] while a date is missing. *)

From Stdlib Require Import String.
From S2P Require Import Prelude Relational Text Vocabulary Schema Fixtures AgeBands.

Local Open Scope string_scope.
Local Open Scope Z_scope.
Local Open Scope nevo_scope.

(** ** Pure decisions *)

(** [date.replace(year=y)]; [None] is the [ValueError] of 29 February. *)
Definition replace_year (d : date) (y : Z) : option date :=
  let d' := mkDate y (month d) (day d) in
  if date_valid d' then Some d' else None.

Definition discrepancy_exceeds_two_years (first second : date) : bool :=
  let '(earlier, later) := if date_lt second first then (second, first) else (first, second) in
  if 9997 <? year earlier then false
  else
    let anniversary :=
      match replace_year earlier (year earlier + 2) with
      | Some d => d
      | None => mkDate (year earlier + 2) (month earlier) 28
      end in
    date_lt anniversary later.

Definition age_check_blocks (student_id : uuid) : M bool :=
  check ← scalar AgeChecks (λ c : AgeCheck, (ac_student_id c == student_id) && (ac_state c == MISMATCH));
  mret (is_some check).

(** The year groups of the classes of the check's school the learner is
    enrolled in. *)
Definition enrolled_year_groups (check : AgeCheck) : M (list (option string)) :=
  enrollments ← select StudentClassEnrollments
    (λ e : StudentClassEnrollment, enrollment_student_id e == ac_student_id check);
  classes ← rows Classes;
  mret ((enrollments : list StudentClassEnrollment) ≫= λ e,
    class_year_group <$>
      filterb (λ c : Class_, (class_id c == enrollment_class_id e) &&
                             (class_school_id c == ac_school_id check))
              (classes : list Class_)).

(** [capture_band]: the one band all the learner's classes agree on. *)
Definition the_only_band (years : list (option string)) : option AgeBand :=
  match list_to_set (C := gset (option AgeBand)) (map band_for_year_group years) with
  | bands =>
    match elements bands with
    | [Some band] => Some band
    | _ => None
    end
  end.

Definition capture_band (check : AgeCheck) (today : date) : M AgeCheck :=
  years ← enrolled_year_groups check;
  mret (check
    <| ac_enrolled_age_band := value <$> the_only_band years |>
    <| ac_band_checked_on := Some today |>).

(** Whether a birth date falls outside the enrolled band on [today]. *)
Definition outside_band (band : string) (today born : date) : bool :=
  match age_on (Some born) today with
  | None => false
  | Some age =>
    (age <? 0) ||
    match band_for_age (Some age) with Some b => value b != band | None => true end
  end.

Definition blocking_reasons (check : AgeCheck) : list string :=
  let school := ac_school_date_of_birth check in
  let parent := ac_parent_date_of_birth check in
  (if is_none school || is_none parent then ["date_missing"] else []) ++
  (if is_none (ac_enrolled_age_band check) then ["enrolled_age_band_unavailable"] else []) ++
  match school, parent with
  | Some s, Some p =>
    (if discrepancy_exceeds_two_years s p then ["date_gap_exceeds_two_years"] else []) ++
    match ac_band_checked_on check, ac_enrolled_age_band check with
    | Some today, Some band =>
      if truthy band && existsb (outside_band band today) [s; p]
      then ["outside_enrolled_age_band"] else []
    | _, _ => []
    end
  | _, _ => []
  end.

(** ** Notices *)

Definition is_school_admin (school_id : uuid) (u : User) : bool :=
  (user_school_id u == Some school_id) &&
  ((user_role u == SENCO_ADMIN) || (user_role u == OTHER_ADMIN)) &&
  (user_status u == ACTIVE).

Definition add_notification (recipient : User) (title description : string)
    (navigates_to : option string) (now : datetime) : M unit :=
  i ← uuid4;
  insert Notifications
    ((new_Notification i (user_id recipient) (value (user_role recipient))
        "consent_action_required" title description now)
       <| note_category := "consent" |> <| note_navigates_to := navigates_to |>).

(** [notify_school]: the deletion clock starts only when a durable school
    inbox notice exists. *)
Definition notify_school (check : AgeCheck) (now : datetime) : M AgeCheck :=
  if is_some (ac_school_notified_at check) then mret check
  else
    recipients ← select Users (is_school_admin (ac_school_id check));
    for_each (recipients : list User) (λ actor,
      add_notification actor "Please recheck a pupil's date of birth"
        ("A pupil's account is on hold while the school and parent recheck "
         ++ "the date of birth. Unresolved roster records are removed 30 days "
         ++ "after this notice. No identity document is needed.")
        (Some ("/admin/students/" ++ uuid_str (ac_student_id check))) now);;
    mret (match (recipients : list User) with
          | [] => check
          | _ => check <| ac_school_notified_at := Some now |>
          end).

(** The active parent accounts linked to the learner, each once. *)
Definition linked_parents (check : AgeCheck) : M (list User) :=
  links ← select ParentLinks (λ l : ParentLink,
    (link_student_id l == ac_student_id check) && (link_school_id l == ac_school_id check));
  select Users (λ u : User,
    (user_role u == PARENT_GUARDIAN) && (user_status u == ACTIVE) &&
    existsb (λ l : ParentLink, link_parent_id l == Some (user_id u)) links).

Definition notify_linked_parents (check : AgeCheck) (now : datetime) : M (AgeCheck * bool) :=
  parents ← linked_parents check;
  for_each parents (λ parent,
    add_notification parent "Please confirm your child's date of birth again"
      ("The school has rechecked its admissions record. Please sign in to Nevo "
       ++ "and confirm your child's date of birth again. No identity document is needed.")
      (Some "/parent-portal") now);;
  mret (match parents with
        | [] => (check, false)
        | _ => (check <| ac_parent_notified_at := Some now |>, true)
        end).

(** [notify_unresolved_recheck]: both adults are told; the hold stays. *)
Definition notify_unresolved_recheck (check : AgeCheck) (now : datetime) : M unit :=
  recipients ← select Users (is_school_admin (ac_school_id check));
  parents ← linked_parents check;
  for_each ((recipients : list User) ++ parents) (λ recipient,
    let is_parent := user_role recipient == PARENT_GUARDIAN in
    add_notification recipient "Date of birth re-check still needs resolution"
      (if is_parent
       then "The dates still differ after both re-checks. Your child's account remains on hold; "
            ++ "the school will contact you about the next step. No identity document is needed."
       else "The school and parent rechecked the date of birth, but their dates still differ. "
            ++ "The pupil's account remains on hold. Please review the admissions record.")
      (Some (if is_parent then "/parent-portal"
             else "/admin/students/" ++ uuid_str (ac_student_id check))) now).

Definition notify_school_operative_date (check : AgeCheck) (now : datetime) : M unit :=
  if ac_school_date_of_birth check == ac_parent_date_of_birth check then mret tt
  else
    recipients ← select Users (is_school_admin (ac_school_id check));
    for_each (recipients : list User) (λ recipient,
      match ac_parent_date_of_birth check with
      | None => raise AttributeError
      | Some parent_date =>
        add_notification recipient "Update the pupil's roster date of birth"
          ("The parent's confirmed date, " ++ isoformat parent_date ++ ", "
           ++ "is now operative in Nevo and differs from the school's admissions date. "
           ++ "Please reconcile the roster record.")
          (Some ("/admin/students/" ++ uuid_str (ac_student_id check))) now
      end).

(** ** Applying a check *)

Definition reconfirmed (check : AgeCheck) : bool :=
  match ac_school_rechecked_at check, ac_parent_reconfirmed_at check with
  | Some school, Some parent => school <=? parent
  | _, _ => false
  end.

Definition dates_match (check : AgeCheck) : bool :=
  is_some (ac_school_date_of_birth check) &&
  (ac_school_date_of_birth check == ac_parent_date_of_birth check).

(** Once held, even agreeing corrected dates require both adults' fresh
    checks. *)
Definition can_confirm (check : AgeCheck) : bool :=
  match blocking_reasons check with
  | [] => reconfirmed check ||
          (dates_match check && is_none (ac_school_notified_at check) && (ac_state check != MISMATCH))
  | _ => false
  end.

(** [max(dates) if dates else None] over the dates that are present. *)
Definition latest_date (dates : list (option date)) : option date :=
  match omap id dates with
  | [] => None
  | d :: ds => Some (fold_left date_max ds d)
  end.

Definition stored_band (born : option date) (now : datetime) : option string :=
  value <$> band_for_date_of_birth born (date_of_datetime now).

Definition apply_check (check : AgeCheck) (student : option User) (now : datetime)
    (parent_actor : option uuid) : M AgeCheck :=
  let was_resolved := ac_state check == RESOLVED in
  let reasons := blocking_reasons check in
  if is_none (ac_school_date_of_birth check) || is_none (ac_parent_date_of_birth check) then
    (** An absent date is not a discrepancy and must not start the removal clock. *)
    let check := check
      <| ac_state := AWAITING_PARENT |> <| ac_school_notified_at := None |>
      <| ac_resolved_at := None |> <| ac_resolved_by_user_id := None |>
      <| ac_agreed_date_of_birth := None |> <| ac_hold_reasons := [] |>
      <| ac_updated_at := now |> in
    save AgeChecks check;; flush_;; mret check
  else
    let confirm := can_confirm check in
    let again := reconfirmed check in
    let check := check
      <| ac_resolved_at := None |> <| ac_resolved_by_user_id := None |>
      <| ac_agreed_date_of_birth := None |> in
    '(check, born) ←
      (if confirm then
         let check := check <| ac_agreed_date_of_birth := ac_parent_date_of_birth check |> in
         let check :=
           if again then
             check <| ac_state := RESOLVED |> <| ac_resolved_at := Some now |>
               <| ac_resolved_by_user_id := or_else parent_actor (ac_parent_reconfirmed_by check) |>
               <| ac_resolution_note :=
                    Some "School rechecked; parent reconfirmed. Parent date is operative." |>
           else check <| ac_state := MATCHED |> in
         (if again && negb was_resolved &&
             (ac_school_date_of_birth check != ac_parent_date_of_birth check)
          then notify_school_operative_date check now else mret tt);;
         mret (check <| ac_hold_reasons := reasons |>, ac_parent_date_of_birth check)
       else
         let check := check <| ac_state := MISMATCH |> in
         check ← notify_school check now;
         mret (check <| ac_hold_reasons :=
                 (reasons ++ (if again then [] else ["reconfirmation_required"]))%list |>,
               latest_date [ac_school_date_of_birth check; ac_parent_date_of_birth check]));
    let check := check <| ac_updated_at := now |> in
    match student with
    | None => raise AttributeError
    | Some u =>
      save Users (u <| user_date_of_birth := born |> <| user_age_band := stored_band born now |>);;
      save AgeChecks check;; flush_;; mret check
    end.

(** ** Operations *)

Definition load_check (student_id : uuid) : M (option AgeCheck) :=
  scalar AgeChecks (λ c : AgeCheck, ac_student_id c == student_id).

Definition record_parent_date (school_id student_id : uuid) (born : option date) (now : datetime)
  : M AgeCheckState :=
  student ← get Users student_id;
  check ← load_check student_id;
  match born with
  | None => mret (match check with Some c => ac_state c | None => AWAITING_PARENT end)
  | Some born =>
    match check with
    | Some c =>
      if (ac_state c == MATCHED) || (ac_state c == RESOLVED) then mret (ac_state c)
      else
        let c := if ac_state c == MISMATCH
                 then c <| ac_parent_reconfirmed_at := None |> <| ac_parent_reconfirmed_by := None |>
                 else c in
        c ← apply_check (c <| ac_parent_date_of_birth := Some born |>) student now None;
        mret (ac_state c)
    | None =>
      match student with
      | None => raise AttributeError
      | Some u =>
        i ← uuid4;
        stamp ← func_now;
        let c := (new_AgeCheck i school_id student_id stamp)
                   <| ac_school_date_of_birth := user_date_of_birth u |> in
        insert AgeChecks c;;
        c ← capture_band c (date_of_datetime now);
        c ← apply_check (c <| ac_parent_date_of_birth := Some born |>) (Some u) now None;
        mret (ac_state c)
      end
    end
  end.

Definition reconcile_school_date (student_id : uuid) (school_date_of_birth : option date)
    (now : datetime) : M unit :=
  student ← get Users student_id;
  check ← load_check student_id;
  match check with
  | None => mret tt
  | Some c =>
    if ac_school_date_of_birth c == school_date_of_birth then
      match ac_agreed_date_of_birth c with
      | Some agreed =>
        if ac_state c != MISMATCH then
          match student with
          | None => raise AttributeError
          | Some u => save Users (u <| user_date_of_birth := Some agreed |>
                                    <| user_age_band := stored_band (Some agreed) now |>)
          end
        else mret tt
      | None => mret tt
      end
    else if (ac_state c == MATCHED) || (ac_state c == RESOLVED) then mret tt
    else
      let c := c
        <| ac_school_date_of_birth := school_date_of_birth |>
        <| ac_school_rechecked_at := None |> <| ac_parent_reconfirmed_at := None |>
        <| ac_school_rechecked_by := None |> <| ac_parent_reconfirmed_by := None |> in
      c ← capture_band c (date_of_datetime now);
      apply_check (c <| ac_state := MISMATCH |>) student now None;;
      mret tt
  end.

(** [prepare_pending_holds]: notify mismatches whose school has not been told
    and has somebody to tell, at most 200 a run. *)
Definition prepare_pending_holds (now : datetime) : M unit :=
  begin_ (
    checks ← rows AgeChecks;
    users ← rows Users;
    let due (u : User) :=
      existsb (λ c : AgeCheck, (ac_student_id c == user_id u) && (ac_state c == MISMATCH) &&
                               is_none (ac_school_notified_at c)) (checks : list AgeCheck) &&
      match user_school_id u with
      | Some s => existsb (is_school_admin s) (users : list User)
      | None => false
      end in
    for_each (take 200 (filterb due (users : list User))) (λ student : User,
      check ← load_check (user_id student);
      match check with
      | None => raise AttributeError
      | Some c =>
        c ← capture_band c (date_of_datetime now);
        apply_check c (Some student) now None;; mret tt
      end)).

(** ** Specification of a decided check *)

(** The state a check with both dates reaches. *)
Definition outcome (check : AgeCheck) : AgeCheckState :=
  if can_confirm check then (if reconfirmed check then RESOLVED else MATCHED) else MISMATCH.

(** The date of birth the account carries after the check. *)
Definition operative_date (check : AgeCheck) : option date :=
  if can_confirm check then ac_parent_date_of_birth check
  else latest_date [ac_school_date_of_birth check; ac_parent_date_of_birth check].

(** What [apply_check] leaves on the check it was given. *)
Record decided (check check' : AgeCheck) (now : datetime) (actor : option uuid) : Prop := {
  decided_id : ac_id check' = ac_id check;
  decided_student : ac_student_id check' = ac_student_id check;
  decided_school : ac_school_id check' = ac_school_id check;
  decided_dates : ac_school_date_of_birth check' = ac_school_date_of_birth check ∧
                  ac_parent_date_of_birth check' = ac_parent_date_of_birth check;
  decided_state : ac_state check' = outcome check;
  decided_agreed : ac_agreed_date_of_birth check' =
                   if can_confirm check then ac_parent_date_of_birth check else None;
  decided_resolved : (ac_resolved_at check', ac_resolved_by_user_id check') =
    if outcome check == RESOLVED
    then (Some now, or_else actor (ac_parent_reconfirmed_by check)) else (None, None);
  decided_reasons : ac_hold_reasons check' = [] ↔ outcome check ≠ MISMATCH
}.

(** ** Lemmas *)

(** A series of notices only adds rows to the inbox. *)
Definition only_inbox (db db' : Database) : Prop :=
  (∀ t, t ≠ Notifications → db_tables db' t = db_tables db t) ∧ db_now db' = db_now db.

Lemma only_inbox_refl db : only_inbox db db.
Proof. done. Qed.

Lemma add_notifications_run (xs : list User) (f : User → string * string * option string) now db :
  ∃ db', for_each xs (λ u, add_notification u (f u).1.1 (f u).1.2 (f u).2 now) db = (inr tt, db') ∧
    only_inbox db db' ∧
    length (db_tables db' Notifications) = (length (db_tables db Notifications) + length xs)%nat.
Proof.
  destruct (for_each_insert Notifications
    (λ i u, (new_Notification i (user_id u) (value (user_role u)) "consent_action_required"
               (f u).1.1 (f u).1.2 now) <| note_category := "consent" |>
               <| note_navigates_to := (f u).2 |>) xs db)
    as (db' & Hrun & Ht & Hne & _ & Hnow).
  exists db'. split; [exact Hrun|]. split; [done|]. rewrite Ht.
  by rewrite length_app, stamped_length.
Qed.

Lemma notify_school_run check now db :
  ∃ db' check', notify_school check now db = (inr check', db') ∧ only_inbox db db' ∧
    (check' = check ∨ check' = check <| ac_school_notified_at := Some now |>).
Proof.
  unfold notify_school. destruct (is_some _); [exists db, check; eauto using only_inbox_refl|].
  rewrite bind_run; simpl.
  match goal with |- context [for_each ?xs _] =>
    destruct (add_notifications_run xs (λ actor,
      ("Please recheck a pupil's date of birth",
       "A pupil's account is on hold while the school and parent recheck "
         ++ "the date of birth. Unresolved roster records are removed 30 days "
         ++ "after this notice. No identity document is needed.",
       Some ("/admin/students/" ++ uuid_str (ac_student_id check)))) now db)
      as (db' & Hrun & Hdb & _) end.
  rewrite bind_run. simpl in Hrun. rewrite Hrun.
  eexists db', _. split; [reflexivity|]. split; [done|]. destruct (filterb _ _); auto.
Qed.

Lemma notify_operative_run check now db :
  is_some (ac_parent_date_of_birth check) = true →
  ∃ db', notify_school_operative_date check now db = (inr tt, db') ∧ only_inbox db db'.
Proof.
  intros Hp. unfold notify_school_operative_date.
  destruct (_ == _); [by exists db|]. destruct (ac_parent_date_of_birth check) as [p|]; [|done].
  rewrite bind_run; simpl.
  match goal with |- context [for_each ?xs _] =>
    destruct (add_notifications_run xs (λ actor,
      ("Update the pupil's roster date of birth",
       "The parent's confirmed date, " ++ isoformat p ++ ", "
           ++ "is now operative in Nevo and differs from the school's admissions date. "
           ++ "Please reconcile the roster record.",
       Some ("/admin/students/" ++ uuid_str (ac_student_id check)))) now db)
      as (db' & Hrun & Hdb & _) end.
  exists db'. split; [exact Hrun|done].
Qed.

Lemma commit_check_run (u' : User) (c' : AgeCheck) (db : Database) :
  ∃ db', (save Users u';; save AgeChecks c';; flush_;; mret c') db =
      ((if db_ok db' then inr c' else inl IntegrityError), db') ∧
    db_tables db' AgeChecks =
      update_list (λ c : AgeCheck, ac_id c == ac_id c') (λ _, c') (db_tables db AgeChecks) ∧
    db_tables db' Users =
      update_list (λ r : User, user_id r == user_id u') (λ _, u') (db_tables db Users) ∧
    (∀ t, t ∉ [AgeChecks; Users] → db_tables db' t = db_tables db t).
Proof.
  unfold save, update_where, flush_, flush. rewrite !bind_run.
  match goal with |- context [db_ok ?d] => exists d end.
  split; [by destruct (db_ok _)|]. autorewrite with store.
  split_and!; [done|done|]. intros t Ht. rewrite !set_table_ne by set_solver. done.
Qed.

(** A check is blocked exactly when some reason is recorded for it. *)
Lemma hold_reasons_spec check :
  can_confirm check = false →
  (blocking_reasons check ++ (if reconfirmed check then [] else ["reconfirmation_required"]))%list ≠ [].
Proof.
  unfold can_confirm. destruct (blocking_reasons check); [|done].
  by destruct (reconfirmed check).
Qed.

(** [apply_check] on a check with both dates: the decided check and the
    learner's date are written, and nothing else but the inbox changes. *)
Lemma apply_check_run check u now actor db :
  is_some (ac_school_date_of_birth check) = true →
  is_some (ac_parent_date_of_birth check) = true →
  ∃ db' check',
    apply_check check (Some u) now actor db =
      ((if db_ok db' then inr check' else inl IntegrityError), db') ∧
    decided check check' now actor ∧
    db_tables db' AgeChecks =
      update_list (λ c : AgeCheck, ac_id c == ac_id check) (λ _, check') (db_tables db AgeChecks) ∧
    db_tables db' Users =
      update_list (λ r : User, user_id r == user_id u)
        (λ _, u <| user_date_of_birth := operative_date check |>
                <| user_age_band := stored_band (operative_date check) now |>) (db_tables db Users) ∧
    (∀ t, t ∉ [AgeChecks; Users; Notifications] → db_tables db' t = db_tables db t).
Proof.
  intros Hs Hp. unfold apply_check. unfold is_some in Hs, Hp.
  apply negb_true_iff in Hs, Hp. rewrite Hs, Hp. cbn [orb].
  unfold operative_date, outcome. destruct (can_confirm check) eqn:Hc.
  - rewrite bind_run.
    match goal with |- context [(if ?b then notify_school_operative_date ?c now else _) ≫= _] =>
      assert (∃ db1, (if b then notify_school_operative_date c now else mret tt) db = (inr tt, db1)
                     ∧ only_inbox db db1) as (db1 & Hrun & [Hdb1 _]) end.
    { destruct (_ && _); [|exists db; eauto using only_inbox_refl].
      apply notify_operative_run. apply negb_true_iff. by destruct (reconfirmed check). }
    rewrite bind_run, Hrun, ret_run.
    match goal with |- context [(save Users ?u';; save AgeChecks ?c';; _) db1] =>
      destruct (commit_check_run u' c' db1) as (db' & Hrun' & Hc' & Hu' & Hne);
      exists db', c' end.
    split; [exact Hrun'|]. rewrite Hc', Hu', !Hdb1 by done.
    split_and!.
    + assert (blocking_reasons check = []) as Hbr
        by (unfold can_confirm in Hc; by destruct (blocking_reasons check)).
      rewrite Hbr. split; destruct (reconfirmed check) eqn:Hr; simpl;
        unfold outcome; try rewrite Hc; try rewrite Hr; try done; by split.
    + by destruct (reconfirmed check).
    + by destruct (reconfirmed check).
    + intros t Ht. rewrite Hne, Hdb1 by set_solver. done.
  - rewrite bind_run.
    match goal with |- context [notify_school ?c now] =>
      destruct (notify_school_run c now db) as (db1 & c1 & Hrun & [Hdb1 _] & Hc1) end.
    rewrite bind_run, Hrun, ret_run.
    match goal with |- context [(save Users ?u';; save AgeChecks ?c';; _) db1] =>
      destruct (commit_check_run u' c' db1) as (db' & Hrun' & Hc' & Hu' & Hne);
      exists db', c' end.
    split; [exact Hrun'|]. rewrite Hc', Hu', !Hdb1 by done.
    pose proof (hold_reasons_spec check Hc) as Hne'.
    split_and!.
    + split; destruct Hc1 as [-> | ->]; simpl; unfold outcome; try rewrite Hc; auto; by split.
    + by destruct Hc1 as [-> | ->].
    + by destruct Hc1 as [-> | ->].
    + intros t Ht. rewrite Hne, Hdb1 by set_solver. done.
Qed.

(** With a date missing the check waits, and nothing but the check changes. *)
Lemma apply_check_missing check student now actor db :
  is_none (ac_school_date_of_birth check) || is_none (ac_parent_date_of_birth check) = true →
  ∃ db' check',
    apply_check check student now actor db =
      ((if db_ok db' then inr check' else inl IntegrityError), db') ∧
    ac_id check' = ac_id check ∧ ac_student_id check' = ac_student_id check ∧
    ac_state check' = AWAITING_PARENT ∧ ac_agreed_date_of_birth check' = None ∧
    ac_hold_reasons check' = [] ∧
    db_tables db' AgeChecks =
      update_list (λ c : AgeCheck, ac_id c == ac_id check) (λ _, check') (db_tables db AgeChecks) ∧
    (∀ t, t ≠ AgeChecks → db_tables db' t = db_tables db t).
Proof.
  intros Hd. unfold apply_check. rewrite Hd.
  unfold save, update_where, flush_, flush. rewrite !bind_run.
  match goal with |- context [db_ok ?d] => exists d end.
  eexists. split; [by destruct (db_ok _)|]. autorewrite with store.
  split_and!; try done. intros t Ht. by rewrite set_table_ne.
Qed.

(** ** The invariant of the table *)

(** What a stored check's state says of its dates and of its hold. *)
Definition check_consistent (c : AgeCheck) : bool :=
  match ac_state c with
  | MATCHED =>
    is_some (ac_agreed_date_of_birth c) &&
    (ac_agreed_date_of_birth c == ac_parent_date_of_birth c) &&
    (ac_school_date_of_birth c == ac_parent_date_of_birth c) && (ac_hold_reasons c == [])
  | RESOLVED =>
    is_some (ac_agreed_date_of_birth c) &&
    (ac_agreed_date_of_birth c == ac_parent_date_of_birth c) && (ac_hold_reasons c == [])
  | MISMATCH => is_none (ac_agreed_date_of_birth c) && (ac_hold_reasons c != [])
  | AWAITING_PARENT => is_none (ac_agreed_date_of_birth c) && (ac_hold_reasons c == [])
  end.

Definition checks_consistent (db : Database) : Prop :=
  Forall (λ c, check_consistent c = true) (db_tables db AgeChecks).

Lemma decided_consistent check check' now actor :
  is_some (ac_parent_date_of_birth check) = true →
  decided check check' now actor → check_consistent check' = true.
Proof.
  intros Hp [_ _ _ [Hs' Hp'] Hstate Hagreed _ Hreasons].
  unfold check_consistent. rewrite Hstate, Hagreed, Hs', Hp'.
  unfold outcome in *. destruct (can_confirm check) eqn:Hc.
  - assert (ac_hold_reasons check' = []) as -> by (apply Hreasons; by destruct (reconfirmed check)).
    rewrite !bool_decide_true by done. rewrite !Hp. unfold can_confirm in Hc.
    destruct (reconfirmed check); [done|]. destruct (blocking_reasons check); [|done].
    simpl in *. unfold dates_match in Hc. bool_to_prop. by rewrite bool_decide_true.
  - simpl. apply negb_true_iff, bool_decide_false. intros He. by apply Hreasons in He.
Qed.

(** Whatever the dates, a check that was applied is consistent and replaces
    the row it was loaded from. *)
Lemma apply_check_consistent check student now actor db c' db' :
  apply_check check student now actor db = (inr c', db') →
  check_consistent c' = true ∧ ac_id c' = ac_id check ∧
  db_tables db' AgeChecks =
    update_list (λ c : AgeCheck, ac_id c == ac_id check) (λ _, c') (db_tables db AgeChecks).
Proof.
  intros Hrun.
  destruct (is_none (ac_school_date_of_birth check) || is_none (ac_parent_date_of_birth check)) eqn:Hd.
  - destruct (apply_check_missing check student now actor db Hd)
      as (db1 & c1 & Hrun' & Hid & _ & Hst & Hag & Hre & Htab & _).
    rewrite Hrun' in Hrun. destruct (db_ok db1); simplify_eq.
    split_and!; [|done|done]. unfold check_consistent. by rewrite Hst, Hag, Hre.
  - destruct student as [u|].
    + apply orb_false_iff in Hd as [Hs Hp]. rewrite <- negb_true_iff in Hs, Hp.
      destruct (apply_check_run check u now actor db Hs Hp) as (db1 & c1 & Hrun' & Hdec & Htab & _).
      rewrite Hrun' in Hrun. destruct (db_ok db1); simplify_eq.
      split_and!; [by eapply decided_consistent|apply Hdec|done].
    + exfalso. revert Hrun. unfold apply_check. rewrite Hd. intros Hrun. comp_inv.
Qed.

Lemma Forall_save (P : AgeCheck → Prop) i c' (l : list AgeCheck) :
  Forall P l → P c' → Forall P (update_list (λ c, ac_id c == i) (λ _, c') l).
Proof. intros Hl Hc. by apply Forall_update_list. Qed.

Lemma keeps_apply_check check student now actor :
  keeps checks_consistent (apply_check check student now actor).
Proof.
  intros db c' db' Hdb Hrun. apply apply_check_consistent in Hrun as (Hc & _ & Htab).
  unfold checks_consistent. rewrite Htab. by apply Forall_save.
Qed.

Lemma capture_band_run check today db :
  ∃ band, capture_band check today db =
    (inr (check <| ac_enrolled_age_band := band |> <| ac_band_checked_on := Some today |>), db).
Proof. by eexists. Qed.

Lemma keeps_capture_band I check today : keeps I (capture_band check today).
Proof. by apply keeps_reads. Qed.

Lemma keeps_insert_check c :
  check_consistent c = true → keeps checks_consistent (insert AgeChecks c).
Proof.
  intros Hc. apply (keeps_insert AgeChecks (Forall (λ c, check_consistent c = true))).
  intros l Hl. apply Forall_app. by repeat constructor.
Qed.

#[export] Hint Resolve keeps_apply_check keeps_capture_band : keeps.
#[export] Hint Extern 1 (keeps checks_consistent (insert _ _)) =>
  apply keeps_insert_check; reflexivity : keeps.
#[export] Hint Extern 2 (keeps checks_consistent _) =>
  apply (keeps_frames_but AgeChecks (Forall (λ c, check_consistent c = true))); solve [frames_tac] : keeps.

Lemma keeps_record_parent_date school student born now :
  keeps checks_consistent (record_parent_date school student born now).
Proof. unfold record_parent_date, load_check. keeps_tac. Qed.

Lemma keeps_reconcile_school_date student born now :
  keeps checks_consistent (reconcile_school_date student born now).
Proof. unfold reconcile_school_date, load_check. keeps_tac. Qed.

Lemma preserves_prepare_pending_holds now :
  preserves checks_consistent (prepare_pending_holds now).
Proof. apply preserves_transaction_keeps. unfold load_check. keeps_tac. Qed.

Lemma age_check_blocks_run student db :
  age_check_blocks student db =
    (inr (existsb (λ c : AgeCheck, (ac_student_id c == student) && (ac_state c == MISMATCH))
            (db_tables db AgeChecks)), db).
Proof.
  unfold age_check_blocks, scalar, Relational.scalar. rewrite bind_run, ret_run. repeat f_equal.
  induction (db_tables db AgeChecks) as [|c l IH]; [done|]. rewrite findb_cons. simpl.
  destruct (_ && _); [done|]. apply IH.
Qed.

Lemma load_check_run student db :
  load_check student db =
    (inr (findb (λ c : AgeCheck, ac_student_id c == student) (db_tables db AgeChecks)), db).
Proof. done. Qed.

(** Without both adults' fresh checks a held check is held again. *)
Lemma can_confirm_held check :
  ac_state check = MISMATCH → ac_parent_reconfirmed_at check = None → can_confirm check = false.
Proof.
  intros Hst Hre. unfold can_confirm, reconfirmed. rewrite Hst, Hre.
  destruct (blocking_reasons check); [|done]. simpl.
  destruct (ac_school_rechecked_at check); simpl; by rewrite ?andb_false_r.
Qed.

(** A date submitted for a child on hold is applied as a fresh date, with no
    reconfirmation. *)
Lemma record_parent_date_held school student born now db c :
  findb (λ c : AgeCheck, ac_student_id c == student) (db_tables db AgeChecks) = Some c →
  ac_state c = MISMATCH →
  record_parent_date school student (Some born) now db =
    (c' ← apply_check
       (c <| ac_parent_reconfirmed_at := None |> <| ac_parent_reconfirmed_by := None |>
          <| ac_parent_date_of_birth := Some born |>)
       (findb (λ u : User, user_id u == student) (db_tables db Users)) now None;
     mret (ac_state c')) db.
Proof.
  intros Hload Hst. unfold record_parent_date.
  erewrite bind_inr by reflexivity. erewrite bind_inr by apply load_check_run.
  by rewrite Hload, Hst.
Qed.

Lemma apply_check_no_student check now actor db c db' :
  is_none (ac_school_date_of_birth check) || is_none (ac_parent_date_of_birth check) = false →
  apply_check check None now actor db ≠ (inr c, db').
Proof. intros Hd. unfold apply_check. rewrite Hd. intros Hrun. comp_inv. Qed.

(** ** Properties *)

(** Every operation of the age assurance keeps the stored checks consistent: a [MATCHED] or
    [RESOLVED] check carries the parent's date as the agreed one (and [MATCHED] only if the
    school's is the same) and no hold reason; a [MISMATCH] carries no agreed date and at least
    one reason. *)
Theorem age_checks_stay_consistent :
  (∀ school student born now,
     keeps checks_consistent (record_parent_date school student born now)) ∧
  (∀ student born now, keeps checks_consistent (reconcile_school_date student born now)) ∧
  (∀ now, preserves checks_consistent (prepare_pending_holds now)).
Proof.
  split_and!; intros.
  - apply keeps_record_parent_date.
  - apply keeps_reconcile_school_date.
  - apply preserves_prepare_pending_holds.
Qed.

(** A child on hold is not released by the parent submitting the consent form again: whatever
    date the form carries, or none, the check stays [MISMATCH] and learning stays blocked. *)
Theorem held_child_not_released_by_resubmission school student born now db db' c st :
  findb (λ c : AgeCheck, ac_student_id c == student) (db_tables db AgeChecks) = Some c →
  ac_state c = MISMATCH → is_some (ac_school_date_of_birth c) = true →
  record_parent_date school student born now db = (inr st, db') →
  st = MISMATCH ∧ age_check_blocks student db' = (inr true, db').
Proof.
  intros Hload Hst Hschool Hrun. pose proof (findb_Some _ _ _ Hload) as [Hid Hin].
  apply bool_decide_eq_true in Hid. rewrite age_check_blocks_run.
  destruct born as [born|].
  - rewrite (record_parent_date_held _ _ _ _ _ c) in Hrun by done.
    apply bind_inv_inr in Hrun as (c1 & db1 & Hrun & Hret). injection Hret as <- <-.
    match type of Hrun with apply_check ?k ?s now None db = _ => set (check := k) in *; destruct s as [u|] end.
    + destruct (apply_check_run check u now None db) as (db2 & c2 & Hrun2 & Hdec & Htab & _);
        [done|done|].
      rewrite Hrun2 in Hrun. destruct (db_ok db2); [|done]. injection Hrun as -> ->.
      assert (outcome check = MISMATCH) as Hout by (unfold outcome; by rewrite can_confirm_held).
      rewrite (decided_state _ _ _ _ Hdec), Hout. split; [done|]. repeat f_equal.
      apply existsb_elem; exists c1; split.
      * rewrite Htab. apply elem_of_update_list. exists c. split; [done|].
        by rewrite bool_decide_true.
      * rewrite (decided_state _ _ _ _ Hdec), (decided_student _ _ _ _ Hdec), Hout.
        by rewrite !bool_decide_true.
    + exfalso. revert Hrun. apply apply_check_no_student. unfold is_some in Hschool.
      apply negb_true_iff in Hschool. simpl. by rewrite orb_false_r.
  - unfold record_parent_date in Hrun. erewrite bind_inr in Hrun by reflexivity.
    erewrite bind_inr in Hrun by apply load_check_run. rewrite Hload in Hrun.
    injection Hrun as <- <-. rewrite Hst. split; [done|]. repeat f_equal.
    apply existsb_elem. exists c. split; [done|]. by rewrite Hst, !bool_decide_true.
Qed.

Definition held_db : Database :=
  snd (record_parent_date 1 2 (Some (mkDate 2011 1 1)) t0 school_db).
Definition matched_db : Database := snd (record_parent_date 1 2 (Some born) t0 school_db).

Lemma held_child_not_released_by_resubmission_witness :
  let db' := snd (record_parent_date 1 2 (Some born) (t0 + days 1) held_db) in
  MISMATCH = MISMATCH ∧ age_check_blocks 2 db' = (inr true, db').
Proof.
  eapply (held_child_not_released_by_resubmission 1 2 (Some born) (t0 + days 1) held_db);
    [vm_compute; reflexivity | reflexivity | reflexivity |].
  apply run_returns. vm_compute. reflexivity.
Defined.

(** A confirmed date of birth is final: submitting another date answers with the state on file
    and writes nothing, and a roster import that brings another date cannot touch the check
    either. *)
Theorem final_age_check_is_final school student born now db c st :
  findb (λ c : AgeCheck, ac_student_id c == student) (db_tables db AgeChecks) = Some c →
  ac_state c = st → st = MATCHED ∨ st = RESOLVED →
  record_parent_date school student born now db = (inr st, db) ∧
  (∀ d, db_tables (snd (reconcile_school_date student d now db)) AgeChecks = db_tables db AgeChecks).
Proof.
  intros Hload <- Hst. split.
  - unfold record_parent_date. erewrite bind_inr by reflexivity.
    erewrite bind_inr by apply load_check_run. rewrite Hload.
    destruct born; [|done]. by destruct Hst as [-> | ->].
  - intros d. unfold reconcile_school_date. erewrite bind_inr by reflexivity.
    erewrite bind_inr by apply load_check_run. rewrite Hload.
    assert ((ac_state c == MATCHED) || (ac_state c == RESOLVED) = true) as ->
      by (by destruct Hst as [-> | ->]).
    destruct (_ == _); [|done]. destruct (ac_agreed_date_of_birth c); [|done].
    destruct (_ != _); [|done]. case_match; [|done].
    apply (frames_save [Users]); set_solver.
Qed.

Lemma final_age_check_is_final_witness :
  record_parent_date 1 2 (Some (mkDate 2011 1 1)) (t0 + days 1) matched_db = (inr MATCHED, matched_db) ∧
  (∀ d, db_tables (snd (reconcile_school_date 2 d (t0 + days 1) matched_db)) AgeChecks =
        db_tables matched_db AgeChecks).
Proof.
  eapply (final_age_check_is_final 1 2 (Some (mkDate 2011 1 1)) (t0 + days 1) matched_db);
    [vm_compute; reflexivity | reflexivity | left; reflexivity].
Defined.

(** Two equal dates are no discrepancy. *)
Lemma discrepancy_refl d : discrepancy_exceeds_two_years d d = false.
Proof.
  unfold discrepancy_exceeds_two_years. rewrite date_lt_irrefl.
  destruct (9997 <? year d); [done|]. unfold replace_year.
  destruct (date_valid _); apply not_true_iff_false; rewrite date_lt_spec; simpl; lia.
Qed.

(** Whether the band of the learner's classes is known and the date is in it. *)
Definition in_enrolled_band (years : list (option string)) (today born : date) : bool :=
  match the_only_band years with
  | Some band => negb (outside_band (value band) today born)
  | None => false
  end.

(** The year groups of the learner's classes at the school, in [db]. *)
Definition class_years (db : Database) (school student : uuid) : list (option string) :=
  filterb (λ e : StudentClassEnrollment, enrollment_student_id e == student)
    (db_tables db StudentClassEnrollments) ≫= λ e,
  class_year_group <$>
    filterb (λ c : Class_, (class_id c == enrollment_class_id e) && (class_school_id c == school))
      (db_tables db Classes).

Lemma capture_band_eq check today db :
  capture_band check today db =
    (inr (check <| ac_enrolled_age_band :=
            value <$> the_only_band (class_years db (ac_school_id check) (ac_student_id check)) |>
          <| ac_band_checked_on := Some today |>), db).
Proof. done. Qed.

Definition first_check_outcome (school_date : option date) (years : list (option string))
    (today born : date) : AgeCheckState :=
  match school_date with
  | None => AWAITING_PARENT
  | Some s => if (s == born) && in_enrolled_band years today born then MATCHED else MISMATCH
  end.

(** The outcome of a check nobody has rechecked. *)
Lemma outcome_fresh check s born today years :
  ac_school_date_of_birth check = Some s → ac_parent_date_of_birth check = Some born →
  ac_band_checked_on check = Some today → ac_school_notified_at check = None →
  ac_enrolled_age_band check = value <$> the_only_band years →
  ac_school_rechecked_at check = None → ac_state check = AWAITING_PARENT →
  outcome check = first_check_outcome (Some s) years today born.
Proof.
  intros Hs Hp Hon Hnot Hband Hre Hst. unfold outcome, can_confirm, reconfirmed, dates_match.
  unfold blocking_reasons, first_check_outcome, in_enrolled_band.
  rewrite Hs, Hp, Hon, Hnot, Hband, Hre, Hst. simpl.
  destruct (decide (s = born)) as [->|Hne].
  - rewrite discrepancy_refl, !bool_decide_true by done.
    destruct (the_only_band years) as [[]|]; simpl; try done; by destruct (outside_band _ _ _).
  - rewrite (bool_decide_false (s = born)), (bool_decide_false (Some s = Some born)) by congruence.
    by destruct (_ ++ _)%list.
Qed.

(** The first date a parent gives decides the check: with no school date on the account it
    waits, the same date in the band of the learner's classes is a match, and anything else is
    held. *)
Theorem first_parent_date_decides school student born now db db' u st :
  findb (λ c : AgeCheck, ac_student_id c == student) (db_tables db AgeChecks) = None →
  findb (λ u : User, user_id u == student) (db_tables db Users) = Some u →
  record_parent_date school student (Some born) now db = (inr st, db') →
  st = first_check_outcome (user_date_of_birth u) (class_years db school student)
         (date_of_datetime now) born.
Proof.
  intros Hload Huser Hrun. unfold record_parent_date in Hrun.
  erewrite bind_inr in Hrun by reflexivity.
  erewrite bind_inr in Hrun by apply load_check_run.
  rewrite Hload in Hrun. change (findb _ _) with
    (findb (λ u : User, user_id u == student) (db_tables db Users)) in Hrun.
  rewrite Huser in Hrun. do 3 (erewrite bind_inr in Hrun by reflexivity).
  erewrite bind_inr in Hrun by apply capture_band_eq.
  unfold class_years in Hrun. rewrite !set_table_ne in Hrun by done.
  apply bind_inv_inr in Hrun as (c & db1 & Hrun & Hret). injection Hret as <- <-.
  match type of Hrun with apply_check ?k _ _ _ _ = _ => set (check := k) in * end.
  destruct (user_date_of_birth u) as [s|] eqn:Hs.
  - match type of Hrun with apply_check _ _ _ _ ?d = _ =>
      destruct (apply_check_run check u now None d) as (db2 & c2 & Hrun2 & Hdec & _) end;
      [done|done|].
    rewrite Hrun2 in Hrun. destruct (db_ok db2); [|done]. injection Hrun as <- <-.
    rewrite (decided_state _ _ _ _ Hdec). by apply outcome_fresh.
  - match type of Hrun with apply_check _ _ _ _ ?d = _ =>
      destruct (apply_check_missing check (Some u) now None d)
        as (db2 & c2 & Hrun2 & _ & _ & Hst & _) end; [done|].
    rewrite Hrun2 in Hrun. destruct (db_ok db2); [|done]. injection Hrun as <- <-. done.
Qed.

Lemma first_parent_date_decides_witness :
  MATCHED = first_check_outcome (Some born) (class_years school_db 1 2) (date_of_datetime t0) born.
Proof.
  eapply (first_parent_date_decides 1 2 born t0 school_db _ learner);
    [vm_compute; reflexivity | vm_compute; reflexivity |].
  apply run_returns. vm_compute. reflexivity.
Defined.
