(* ===== verification/Branding.v ===== *)
(** * One look for every email

    [src/nevo/notifications/branding.py]: the HTML shell. The module's texts
    are full of double quotes; they are written here with a back quote in their
    place, which [text] turns into a double quote. *)

From Stdlib Require Import String Ascii.
From S2P Require Import Prelude Text.

Local Open Scope string_scope.
Local Open Scope Z_scope.
Local Open Scope nevo_scope.

Definition double_quote : ascii := ascii_of_nat 34.
Definition text (s : string) : string :=
  string_map (λ c, if c == "`"%char then double_quote else c) s.
(** [f"..."] *)
Definition format (parts : list string) : string := join "" parts.

(** [html.escape(s, quote=True)] *)
Fixpoint escape (s : string) : string :=
  match s with
  | EmptyString => EmptyString
  | String c s' =>
    (if c == "&"%char then "&amp;"
     else if c == "<"%char then "&lt;"
     else if c == ">"%char then "&gt;"
     else if c == double_quote then "&quot;"
     else if c == "'"%char then "&#x27;"
     else String c EmptyString) ++ escape s'
  end.

Definition INK : string := "#2b2b2f".
Definition INDIGO : string := "#3b3f6e".
Definition CREAM : string := "#f7f1e6".
Definition PAPER : string := "#ffffff".
Definition MUTED : string := "#6b6b73".
Definition RULE : string := "#ded7c8".
Definition LOGO_URL : string := "https://www.nevolearning.com/brand/nevo-wordmark.png".
Definition LOGO_WIDTH : Z := 116.
Definition LOGO_HEIGHT : Z := 39.
Definition SUPPORT_EMAIL : string := "support@nevolearning.com".
Definition FONT_STACK : string :=
  "-apple-system,BlinkMacSystemFont,'Segoe UI',Roboto,'Helvetica Neue',Arial,sans-serif".

Definition paragraph (content : string) : string :=
  format
    [text "<p style=`margin:0 0 16px;font-family:"; FONT_STACK; ";font-size:16px;";
     "line-height:1.6;color:"; INK; text "`>"; content; "</p>"].

Definition button (label url : string) : string :=
  format
    [text "<table role=`presentation` cellpadding=`0` cellspacing=`0` border=`0` ";
     text "style=`margin:8px 0 24px`>";
     text "<tr><td align=`center` bgcolor=`"; INDIGO; text "` style=`border-radius:6px`>";
     text "<a href=`"; escape url; text "` ";
     text "style=`display:inline-block;padding:13px 28px;font-family:"; FONT_STACK; ";";
     "font-size:16px;font-weight:600;color:#ffffff;text-decoration:none;";
     text "border-radius:6px`>"; escape label; "</a>";
     "</td></tr></table>"].

(** The rows of the message: its paragraphs, the button, the footnote. *)
Definition email_body (paragraphs : list string) (cta : option (string * string))
    (footnote : option string) : string :=
  join "" (map (λ item, paragraph (escape item)) paragraphs) ++
  match cta with Some (label, url) => button label url | None => "" end ++
  match footnote with
  | Some note =>
    if truthy note then format
      [text "<p style=`margin:24px 0 0;font-family:"; FONT_STACK; ";font-size:13px;";
       "line-height:1.5;color:"; MUTED; text "`>"; escape note; "</p>"]
    else ""
  | None => ""
  end.

(** The line an inbox shows beside the subject. *)
Definition email_hidden (preheader : option string) : string :=
  match preheader with
  | Some line =>
    if truthy line then format
      [text "<div style=`display:none;max-height:0;overflow:hidden;opacity:0`>";
       escape line; "</div>"]
    else ""
  | None => ""
  end.

Definition render_email (heading : string) (paragraphs : list string)
    (cta : option (string * string)) (footnote preheader : option string) : string :=
  let body := email_body paragraphs cta footnote in
  let hidden := email_hidden preheader in
  format
    [text "<!doctype html>
<html lang=`en`><head>
<meta charset=`utf-8`>
<meta name=`viewport` content=`width=device-width,initial-scale=1`>
<meta name=`color-scheme` content=`light`>
<title>";
     escape heading;
     text "</title>
</head>
<body style=`margin:0;padding:0;background:";
     CREAM;
     text "`>
";
     hidden;
     text "
<table role=`presentation` width=`100%` cellpadding=`0` cellspacing=`0` border=`0`
       style=`background:";
     CREAM;
     text ";padding:32px 12px`>
  <tr><td align=`center`>
    <table role=`presentation` width=`600` cellpadding=`0` cellspacing=`0` border=`0`
           style=`width:100%;max-width:600px`>
      <tr><td style=`padding:0 4px 20px`>
        <img src=`";
     LOGO_URL;
     text "` width=`";
     int_str LOGO_WIDTH;
     text "` height=`";
     int_str LOGO_HEIGHT;
     text "` alt=`Nevo`
             style=`display:block;border:0;outline:none;text-decoration:none`>
      </td></tr>
      <tr><td style=`background:";
     PAPER;
     text ";border:1px solid ";
     RULE;
     text ";border-radius:10px;
                     padding:32px 28px`>
        <h1 style=`margin:0 0 18px;font-family:";
     FONT_STACK;
     text ";font-size:22px;
                   line-height:1.3;font-weight:700;color:";
     INK;
     text "`>";
     escape heading;
     text "</h1>
        ";
     body;
     text "
      </td></tr>
      <tr><td style=`padding:22px 4px 0`>
        <p style=`margin:0 0 6px;font-family:";
     FONT_STACK;
     text ";font-size:13px;
                  line-height:1.5;color:";
     MUTED;
     text "`>
          Nevo &middot; learning that adapts to the child
        </p>
        <p style=`margin:0;font-family:";
     FONT_STACK;
     text ";font-size:13px;
                  line-height:1.5;color:";
     MUTED;
     text "`>
          Need help? <a href=`mailto:";
     SUPPORT_EMAIL;
     text "`
             style=`color:";
     INDIGO;
     text ";text-decoration:underline`>";
     SUPPORT_EMAIL;
     text "</a>
        </p>
      </td></tr>
    </table>
  </td></tr>
</table>
</body></html>"].

(** ** Escaping *)

(** No character that could open a tag or close an attribute. *)
Fixpoint harmless (s : string) : bool :=
  match s with
  | EmptyString => true
  | String c s' =>
    (c != "<"%char) && (c != ">"%char) && (c != double_quote) && (c != "'"%char) && harmless s'
  end.

Lemma harmless_app s t : harmless (s ++ t) = harmless s && harmless t.
Proof. induction s as [|c s IH]; simpl; [done|]. rewrite IH. by rewrite !andb_assoc. Qed.

Lemma escape_harmless s : harmless (escape s) = true.
Proof.
  induction s as [|c s IH]; [done|]. simpl. rewrite harmless_app, IH, andb_true_r.
  repeat case_bool_decide; try done. simpl.
  rewrite !bool_decide_false by done. done.
Qed.

Lemma escape_char_inj c s c' s' :
  escape (String c s) = escape (String c' s') → c = c' ∧ escape s = escape s'.
Proof.
  simpl. repeat case_bool_decide; subst; simpl; intros Heq; simplify_eq; auto; done.
Qed.

Lemma escape_nonempty c s : escape (String c s) ≠ "".
Proof. simpl. repeat case_bool_decide; done. Qed.

(** What a caller passes cannot break out of the page: the escaped text holds no angle bracket
    and no quote of either kind, so it can neither open a tag nor leave the attribute it sits
    in, and no text is lost: two texts that escape alike are the same. *)
Theorem escape_is_safe_and_injective s t :
  harmless (escape s) = true ∧ (escape s = escape t ↔ s = t).
Proof.
  split; [apply escape_harmless|]. split; [|by intros ->]. revert t. induction s as [|c s IH]; intros [|c' t] Heq; [done|..].
  - by destruct (escape_nonempty c' t).
  - by destruct (escape_nonempty c s).
  - apply escape_char_inj in Heq as [-> Heq]. f_equal. by apply IH.
Qed.
