(* ===== verification/ConsentExpiry.v ===== *)
(** * Requests nobody answered

    [src/nevo/consent/expiry.py] and [src/nevo/retention/anonymisation.py]:
    thirty days after an invitation expires unanswered the refusal is recorded,
    thirty days after that the learner's roster entry is removed. *)

From Stdlib Require Import String.
From S2P Require Import Prelude Relational Text Vocabulary Schema Fixtures Crypto.

Local Open Scope string_scope.
Local Open Scope Z_scope.
Local Open Scope nevo_scope.

Section ConsentExpiry.
Context `{Crypto}.

(** ** Anonymisation *)

Definition ANONYMISED_FIRST_NAME : string := "Former".
Definition ANONYMISED_LAST_NAME : string := "Student".

(** [anonymise_student]; the suffix is a fresh random text. *)
Definition anonymise_student (student : User) (suffix : string) (now : datetime) : User :=
  student
    <| user_first_name := Some ANONYMISED_FIRST_NAME |>
    <| user_last_name := Some ANONYMISED_LAST_NAME |>
    <| user_email := None |>
    <| user_login_identifier := Some ("deleted-" ++ suffix) |>
    <| user_password_hash := None |>
    <| user_pin_hash := None |>
    <| user_sso_external_id := None |>
    <| user_baseline_profile := JObj [] |>
    <| user_engine_config := JObj [] |>
    <| user_preferences := JObj [] |>
    <| user_status := DEACTIVATED |>
    <| user_anonymised_at := Some now |>
    <| user_deactivated_at := or_else (user_deactivated_at student) (Some now) |>.

(** ** Refusals *)

Definition DELETE_ROSTER_AFTER : timedelta := days 30.

Definition contact_digest (contact : string) : string := sha256_hex (casefold (strip contact)).

Definition already_refused (student_id : uuid) (parent_contact : string) : M bool :=
  refusal ← scalar ConsentRefusals (λ r : ConsentRefusal,
    (refusal_student_id r == student_id) &&
    (refusal_contact_digest r == contact_digest parent_contact));
  mret (is_some refusal).

(** ** Recording the unanswered requests *)

Definition unanswered (now : datetime) (i : ConsentInvitation) : bool :=
  is_none (inv_accepted_at i) && is_none (inv_revoked_at i) && (inv_expires_at i <=? now).

(** The unanswered invitations joined with the contact they were sent to. *)
Definition unanswered_rows (now : datetime) : M (list (ConsentInvitation * ParentLink)) :=
  invitations ← select ConsentInvitations (unanswered now);
  links ← rows ParentLinks;
  mret ((invitations : list ConsentInvitation) ≫= λ i,
    (λ l, (i, l)) <$> filterb (λ l : ParentLink, link_id l == inv_parent_link_id i) links).

Definition record_unanswered_one (now : datetime) (recorded : Z)
    (r : ConsentInvitation * ParentLink) : M Z :=
  let '(invitation, link) := r in
  let digest := contact_digest (link_parent_contact link) in
  already ← scalar ConsentRefusals (λ r : ConsentRefusal,
    (refusal_student_id r == inv_student_id invitation) && (refusal_contact_digest r == digest));
  if is_some already then mret recorded
  else
    i ← uuid4;
    insert ConsentRefusals
      (new_ConsentRefusal i (inv_school_id invitation) (inv_student_id invitation) digest
         REFUSAL_NO_RESPONSE now);;
    mret (recorded + 1).

Definition record_unanswered (now : datetime) : M Z :=
  begin_ (
    pairs ← unanswered_rows now;
    fold_each pairs 0 (record_unanswered_one now)).

(** ** Removing the roster entries *)

Definition consent_arrived_late (student_id : uuid) : M bool :=
  status ← scalar ConsentRecords (λ r : ConsentRecord,
    (cr_subject_user_id r == student_id) && (cr_status r == CONFIRMED));
  mret (is_some status).

(** [delete(ParentLink)] with the declared foreign keys: the invitations of a
    link, their items and their emails go with it, and a consent record held
    by a link forbids it. *)
Definition delete_parent_links (p : ParentLink → bool) : M unit :=
  links ← select ParentLinks p;
  let gone (i : uuid) := existsb (λ l : ParentLink, link_id l == i) (links : list ParentLink) in
  held ← scalar ConsentRecords (λ r : ConsentRecord,
    match cr_consent_holder_parent_link_id r with Some l => gone l | None => false end);
  guard_or (is_none held) IntegrityError;;
  invitations ← select ConsentInvitations (λ i : ConsentInvitation, gone (inv_parent_link_id i));
  let lost (i : uuid) :=
    existsb (λ v : ConsentInvitation, inv_id v == i) (invitations : list ConsentInvitation) in
  delete_where ConsentInvitationItems (λ i : ConsentInvitationItem, lost (item_invitation_id i));;
  delete_where ConsentOutbox (λ o : ConsentNotificationOutbox, lost (outbox_invitation_id o));;
  delete_where ConsentInvitations (λ i : ConsentInvitation, gone (inv_parent_link_id i));;
  delete_where ParentLinks p.

Definition remove_roster_entry (student_id : uuid) (now : datetime) : M unit :=
  student ← get Users student_id;
  match student with
  | None => mret tt
  | Some student =>
    delete_where StudentClassEnrollments
      (λ e : StudentClassEnrollment, enrollment_student_id e == student_id);;
    delete_parent_links (λ l, link_student_id l == student_id);;
    delete_where ConsentRecords (λ r : ConsentRecord, cr_subject_user_id r == student_id);;
    suffix ← draw (λ n, token_hex n 8);
    save Users ((anonymise_student student suffix now)
                  <| user_date_of_birth := None |> <| user_status := DEACTIVATED |>)
  end.

Definition removable (now : datetime) (r : ConsentRefusal) : bool :=
  (refusal_reason r == REFUSAL_NO_RESPONSE) && is_none (refusal_roster_deleted_at r) &&
  (refusal_recorded_at r <=? now - DELETE_ROSTER_AFTER).

Definition remove_expired_one (now : datetime) (removed : Z) (refusal : ConsentRefusal) : M Z :=
  late ← consent_arrived_late (refusal_student_id refusal);
  if late : bool then
    delete_where ConsentRefusals (λ r : ConsentRefusal, refusal_id r == refusal_id refusal);;
    mret removed
  else
    remove_roster_entry (refusal_student_id refusal) now;;
    save ConsentRefusals (refusal <| refusal_roster_deleted_at := Some now |>);;
    mret (removed + 1).

Definition remove_expired_rosters (now : datetime) : M Z :=
  begin_ (
    refusals ← select ConsentRefusals (removable now);
    fold_each (refusals : list ConsentRefusal) 0 (remove_expired_one now)).

(** ** The sweep *)

Record ConsentExpirySweep := { expired : Z; rosters_removed : Z }.

Definition summary (s : ConsentExpirySweep) : string :=
  "recorded " ++ int_str (expired s) ++ " unanswered consent requests, "
  ++ "removed " ++ int_str (rosters_removed s) ++ " expired roster entries".

Definition sweep (now : datetime) : M ConsentExpirySweep :=
  expired ← record_unanswered now;
  removed ← remove_expired_rosters now;
  mret {| expired := expired; rosters_removed := removed |}.

(** ** Recording is idempotent *)

Definition refusal_of (r : ConsentInvitation * ParentLink) (x : ConsentRefusal) : bool :=
  (refusal_student_id x == inv_student_id r.1) &&
  (refusal_contact_digest x == contact_digest (link_parent_contact r.2)).

(** The parent of an unanswered request is on record as not answering. *)
Definition refused (r : ConsentInvitation * ParentLink) (db : Database) : Prop :=
  is_some (findb (refusal_of r) (db_tables db ConsentRefusals)) = true.

Lemma refused_app r db x l :
  db_tables db ConsentRefusals = (l ++ [x])%list →
  is_some (findb (refusal_of r) l) = true ∨ refusal_of r x = true → refused r db.
Proof.
  intros Hdb Hr. unfold refused. rewrite Hdb, findb_app.
  destruct (findb (refusal_of r) l) eqn:Hf; [done|]. destruct Hr as [?|Hr]; [done|].
  by rewrite findb_cons, Hr.
Qed.

Lemma record_unanswered_one_spec now n r db n' db' :
  record_unanswered_one now n r db = (inr n', db') →
  refused r db' ∧ (∀ r', refused r' db → refused r' db').
Proof.
  destruct r as [i l]. unfold record_unanswered_one. rewrite bind_run; simpl.
  intros Hrun. destruct (is_some (findb _ _)) eqn:Hf.
  - injection Hrun as <- <-. by split.
  - injection Hrun as <- <-. split.
    + eapply refused_app; [apply set_table_eq|]. right. unfold refusal_of. simpl.
      by rewrite !bool_decide_true.
    + intros r' Hr'. eapply refused_app; [apply set_table_eq|]. by left.
Qed.

Lemma record_unanswered_one_refused now n r db :
  refused r db → record_unanswered_one now n r db = (inr n, db).
Proof.
  destruct r as [i l]. intros Hr. unfold record_unanswered_one. rewrite bind_run; simpl.
  unfold refused, refusal_of in Hr. simpl in Hr. by rewrite Hr.
Qed.

Lemma unanswered_rows_run now db :
  unanswered_rows now db =
    (inr (filterb (unanswered now) (db_tables db ConsentInvitations) ≫= λ i,
       (λ l, (i, l)) <$> filterb (λ l : ParentLink, link_id l == inv_parent_link_id i)
                           (db_tables db ParentLinks)), db).
Proof. done. Qed.

Lemma frames_record_one now n r : frames [ConsentRefusals] (record_unanswered_one now n r).
Proof. destruct r. unfold record_unanswered_one. frames_tac. Qed.

Lemma record_unanswered_inv now db n db1 pairs :
  unanswered_rows now db = (inr pairs, db) →
  record_unanswered now db = (inr n, db1) →
  db_ok db1 = true ∧ (∀ r, r ∈ pairs → refused r db1) ∧ (∀ r, refused r db → refused r db1) ∧
  unanswered_rows now db1 = (inr pairs, db1).
Proof.
  intros Hpairs Hrun. apply transaction_commit in Hrun as [Hrun Hok].
  erewrite bind_inr in Hrun by exact Hpairs.
  assert (frames [ConsentRefusals] (fold_each pairs 0 (record_unanswered_one now))) as Hfr.
  { apply frames_fold_each. intros. apply frames_record_one. }
  pose proof (fold_each_establishes (record_unanswered_one now) refused pairs 0 n db db1) as Hest.
  destruct Hest as [Hall Hmono]; [|exact Hrun|].
  { intros x b t b' t'. apply record_unanswered_one_spec. }
  split_and!; [done..|]. rewrite unanswered_rows_run in Hpairs |- *.
  assert (db1 = snd (fold_each pairs 0 (record_unanswered_one now) db)) as -> by (by rewrite Hrun).
  rewrite !Hfr by set_solver. injection Hpairs as Hpairs. by rewrite Hpairs.
Qed.

(** Recording the unanswered requests is idempotent: a second pass at the same moment records
    nothing and writes nothing, and in between every contact of an unanswered request is
    refused, so the school cannot ask that parent about that learner again. *)
Theorem record_unanswered_idempotent now db n db1 :
  record_unanswered now db = (inr n, db1) →
  record_unanswered now db1 = (inr 0, db1) ∧
  (∀ i l, i ∈ db_tables db ConsentInvitations → unanswered now i = true →
     l ∈ db_tables db ParentLinks → link_id l = inv_parent_link_id i →
     already_refused (inv_student_id i) (link_parent_contact l) db1 = (inr true, db1)).
Proof.
  intros Hrun. destruct (record_unanswered_inv _ _ _ _ _ (unanswered_rows_run now db) Hrun)
    as (Hok & Hall & _ & Hrows). split.
  - apply transaction_ok; [|done]. erewrite bind_inr by exact Hrows.
    apply fold_each_idle. intros. by apply record_unanswered_one_refused, Hall.
  - intros i l Hi Hun Hl Hid. specialize (Hall (i, l)). unfold refused, refusal_of in Hall.
    unfold already_refused. rewrite bind_run; simpl. simpl in Hall. rewrite Hall; [done|].
    apply list_elem_of_bind. exists i. split; [|by apply elem_of_filterb].
    apply list_elem_of_fmap. exists l. split; [done|]. apply elem_of_filterb.
    by rewrite bool_decide_true.
Qed.

(** ** What removal keeps, and what it removes *)

Definition same_rows (t : Table) (p : table_row t → bool) (db db' : Database) : Prop :=
  filterb p (db_tables db' t) = filterb p (db_tables db t).

(** The roster data of one learner. *)
Definition same_learner (s : uuid) (db db' : Database) : Prop :=
  same_rows Users (λ u, user_id u == s) db db' ∧
  same_rows StudentClassEnrollments (λ e, enrollment_student_id e == s) db db' ∧
  same_rows ParentLinks (λ l, link_student_id l == s) db db' ∧
  same_rows ConsentRecords (λ r, cr_subject_user_id r == s) db db'.

Definition consented (s : uuid) (db : Database) : Prop :=
  ∃ r, r ∈ db_tables db ConsentRecords ∧ cr_subject_user_id r = s ∧ cr_status r = CONFIRMED.

#[local] Instance same_learner_refl s : Reflexive (same_learner s).
Proof. intros db. by split_and!. Qed.

Lemma same_learner_trans s db1 db2 db3 :
  same_learner s db1 db2 → same_learner s db2 db3 → same_learner s db1 db3.
Proof. unfold same_learner, same_rows. intros (-> & -> & -> & ->) (-> & -> & -> & ->). by split_and!. Qed.

Lemma same_learner_consented s db db' : same_learner s db db' → consented s db → consented s db'.
Proof.
  intros (_ & _ & _ & Hr) (r & Hin & Hs & Hc). exists r. split; [|done].
  assert (r ∈ filterb (λ r, cr_subject_user_id r == s) (db_tables db' ConsentRecords)) as Hr'.
  { unfold same_rows in Hr. simpl in *. rewrite Hr. apply elem_of_filterb. by rewrite bool_decide_true. }
  by apply elem_of_filterb in Hr' as [_ ?].
Qed.

Lemma consent_arrived_late_run s db :
  ∃ b, consent_arrived_late s db = (inr b, db) ∧ (b = true ↔ consented s db).
Proof.
  unfold consent_arrived_late. rewrite bind_run; simpl. eexists. split; [done|].
  rewrite is_some_spec. split.
  - intros [r Hr]. apply findb_Some in Hr as [Hp Hin]. bool_to_prop. by exists r.
  - intros (r & Hin & Hs & Hc). apply (findb_is_Some _ _ r Hin). by rewrite Hs, Hc, !bool_decide_true.
Qed.

(** The run of [delete_parent_links], table by table. *)
Lemma delete_parent_links_spec p db db' :
  delete_parent_links p db = (inr tt, db') →
  db_tables db' ParentLinks = filterb (λ l, negb (p l)) (db_tables db ParentLinks) ∧
  (∀ t, t ∉ [ParentLinks; ConsentInvitations; ConsentInvitationItems; ConsentOutbox] →
     db_tables db' t = db_tables db t).
Proof.
  intros Hrun.
  assert (frames [ParentLinks; ConsentInvitations; ConsentInvitationItems; ConsentOutbox]
    (delete_parent_links p)) as Hfr by (unfold delete_parent_links; frames_tac).
  split.
  - unfold delete_parent_links in Hrun. run_inv. by autorewrite with store.
  - intros t Ht. specialize (Hfr db t Ht). by rewrite Hrun in Hfr.
Qed.

(** The row [anonymise_student] leaves. *)
Definition anonymised (u : User) : bool :=
  (user_first_name u == Some ANONYMISED_FIRST_NAME) && (user_last_name u == Some ANONYMISED_LAST_NAME) &&
  is_none (user_email u) && is_none (user_password_hash u) && is_none (user_pin_hash u) &&
  is_none (user_sso_external_id u) && is_none (user_date_of_birth u) &&
  (user_status u == DEACTIVATED) && is_some (user_anonymised_at u).

(** Nothing of the roster entry is left but the anonymised row. *)
Definition roster_gone (s : uuid) (db : Database) : Prop :=
  (∀ e, e ∈ db_tables db StudentClassEnrollments → enrollment_student_id e ≠ s) ∧
  (∀ l, l ∈ db_tables db ParentLinks → link_student_id l ≠ s) ∧
  (∀ r, r ∈ db_tables db ConsentRecords → cr_subject_user_id r ≠ s) ∧
  (∀ u, u ∈ db_tables db Users → user_id u = s → anonymised u = true).

Lemma remove_roster_entry_run s now db db' :
  remove_roster_entry s now db = (inr tt, db') →
  (findb (λ u : User, user_id u == s) (db_tables db Users) = None ∧ db' = db) ∨
  ∃ u suffix, findb (λ u : User, user_id u == s) (db_tables db Users) = Some u ∧
    db_tables db' Users = update_list (λ r : User, user_id r == user_id u)
      (λ _, (anonymise_student u suffix now)
              <| user_date_of_birth := None |> <| user_status := DEACTIVATED |>) (db_tables db Users) ∧
    db_tables db' StudentClassEnrollments =
      filterb (λ e, negb (enrollment_student_id e == s)) (db_tables db StudentClassEnrollments) ∧
    db_tables db' ParentLinks =
      filterb (λ l, negb (link_student_id l == s)) (db_tables db ParentLinks) ∧
    db_tables db' ConsentRecords =
      filterb (λ r, negb (cr_subject_user_id r == s)) (db_tables db ConsentRecords) ∧
    db_tables db' ConsentRefusals = db_tables db ConsentRefusals.
Proof.
  unfold remove_roster_entry. intros (o & db1 & Hget & Hrun)%bind_inv_inr.
  injection Hget as <- <-. destruct (findb _ _) as [u|] eqn:Hu in Hrun.
  - right. apply bind_inv_inr in Hrun as ([] & db2 & Hdel & Hrun). injection Hdel as <-.
    apply bind_inv_inr in Hrun as ([] & db3 & Hlinks & Hrun).
    apply delete_parent_links_spec in Hlinks as [Hlinks Hne]. unfold draw in Hrun. run_inv.
    eexists u, _. split; [exact Hu|]. autorewrite with store.
    autorewrite with store. rewrite Hlinks, !Hne by set_solver. autorewrite with store. by split_and!.
  - left. injection Hrun as <-. by split.
Qed.

Lemma remove_roster_entry_other s s' now db db' :
  remove_roster_entry s now db = (inr tt, db') → s ≠ s' → same_learner s' db db'.
Proof.
  intros [[_ ->]|(u & x & Hu & HU & HE & HL & HR & _)]%remove_roster_entry_run Hne; [done|].
  apply findb_Some in Hu as [Hu _]. bool_to_prop. unfold same_learner, same_rows.
  rewrite HU, HE, HL, HR. split_and!; first [apply filterb_delete | apply filterb_update].
  all: intros a _ Ha; bool_to_prop; simpl in *; rewrite ?bool_decide_false by congruence; done.
Qed.

Lemma remove_roster_entry_gone s now db db' u :
  remove_roster_entry s now db = (inr tt, db') →
  u ∈ db_tables db Users → user_id u = s → roster_gone s db'.
Proof.
  intros [[Hno _]|(u' & x & Hu & HU & HE & HL & HR & _)]%remove_roster_entry_run Hin Hid.
  - rewrite findb_None in Hno. specialize (Hno u Hin). by rewrite bool_decide_true in Hno.
  - apply findb_Some in Hu as [Hu _]. bool_to_prop. unfold roster_gone. rewrite HU, HE, HL, HR.
    split_and!; try (intros a [Ha _]%elem_of_filterb_negb; by bool_to_prop).
    intros v (w & Hw & ->)%elem_of_update_list Hv. case_bool_decide as Hc; [done|]. congruence.
Qed.

Lemma remove_roster_entry_gone_mono s s' now db db' :
  remove_roster_entry s now db = (inr tt, db') → roster_gone s' db → roster_gone s' db'.
Proof.
  intros [[_ ->]|(u & x & Hu & HU & HE & HL & HR & _)]%remove_roster_entry_run Hgone; [done|].
  destruct Hgone as (H1 & H2 & H3 & H4). unfold roster_gone. rewrite HU, HE, HL, HR.
  split_and!; try (intros a [_ Ha]%elem_of_filterb_negb; auto).
  intros v (w & Hw & ->)%elem_of_update_list Hv. case_bool_decide; [done|]. auto.
Qed.

(** One refusal of the sweep: a learner whose consent arrived keeps everything
    and loses the refusal; any other loses the roster entry. *)
Lemma remove_expired_one_run now n x db n' db' :
  remove_expired_one now n x db = (inr n', db') →
  (consented (refusal_student_id x) db ∧
   db_tables db' ConsentRefusals =
     filterb (λ r, negb (refusal_id r == refusal_id x)) (db_tables db ConsentRefusals) ∧
   ∀ t, t ≠ ConsentRefusals → db_tables db' t = db_tables db t) ∨
  (¬ consented (refusal_student_id x) db ∧
   ∃ db1, remove_roster_entry (refusal_student_id x) now db = (inr tt, db1) ∧
     db_tables db' ConsentRefusals = update_list (λ r, refusal_id r == refusal_id x)
       (λ _, x <| refusal_roster_deleted_at := Some now |>) (db_tables db ConsentRefusals) ∧
     ∀ t, t ≠ ConsentRefusals → db_tables db' t = db_tables db1 t).
Proof.
  unfold remove_expired_one. intros (late & db1 & Hlate & Hrun)%bind_inv_inr.
  destruct (consent_arrived_late_run (refusal_student_id x) db) as (b & Hb & Hiff).
  rewrite Hb in Hlate. injection Hlate as <- <-. destruct b.
  - left. run_inv. autorewrite with store. split_and!; [by apply Hiff|done|].
    intros t Ht. by rewrite set_table_ne.
  - right. split; [by rewrite <- Hiff|]. apply bind_inv_inr in Hrun as ([] & db2 & Hrem & Hrun).
    exists db2. split; [done|]. run_inv. autorewrite with store. split; [|intros; by rewrite set_table_ne].
    apply remove_roster_entry_run in Hrem as [[_ ->]|(u & sx & _ & _ & _ & _ & _ & ->)]; done.
Qed.

Lemma same_tables_same_learner s db1 db2 db3 :
  (∀ t, t ≠ ConsentRefusals → db_tables db3 t = db_tables db2 t) →
  same_learner s db1 db2 → same_learner s db1 db3.
Proof. unfold same_learner, same_rows. intros Ht. by rewrite !Ht. Qed.

Lemma remove_expired_one_keeps s now n x db n' db' :
  remove_expired_one now n x db = (inr n', db') → consented s db → same_learner s db db'.
Proof.
  intros [(_ & _ & Ht)|(Hno & db1 & Hrem & _ & Ht)]%remove_expired_one_run Hs.
  - by eapply same_tables_same_learner.
  - eapply same_tables_same_learner; [exact Ht|]. eapply remove_roster_entry_other; [done|]. by intros <-.
Qed.

Lemma removal_keeps s now xs n db n' db' :
  fold_each xs n (remove_expired_one now) db = (inr n', db') →
  consented s db → same_learner s db db'.
Proof.
  revert n db. induction xs as [|x xs IH]; intros n db; simpl; [by intros [= _ <-]|].
  intros (k & db1 & Hx & Hrun)%bind_inv_inr Hs.
  pose proof (remove_expired_one_keeps s _ _ _ _ _ _ Hx Hs) as Hsame.
  eapply same_learner_trans; [exact Hsame|]. eapply IH; [done|]. by eapply same_learner_consented.
Qed.

(** The removal of expired rosters never touches a learner for whom some consent is confirmed:
    the account, the classes, the parent links and the consent records are exactly what they
    were. *)
Theorem confirmed_roster_never_removed s now db n db' :
  remove_expired_rosters now db = (inr n, db') → consented s db → same_learner s db db'.
Proof.
  intros (refusals & db1 & Hsel & Hrun)%transaction_commit_bind.
  injection Hsel as <- <-. intros Hs. by eapply removal_keeps.
Qed.

(** What processing the refusal [x] establishes: it is settled, and unless the
    consent arrived the roster entry is gone. *)
Definition settled (now : datetime) (x : ConsentRefusal) (db : Database) : Prop :=
  (∀ r, r ∈ db_tables db ConsentRefusals → refusal_id r = refusal_id x → removable now r = false) ∧
  (consented (refusal_student_id x) db ∨ roster_gone (refusal_student_id x) db ∨
   ∀ u, u ∈ db_tables db Users → user_id u ≠ refusal_student_id x).

Lemma removable_deleted now x : removable now (x <| refusal_roster_deleted_at := Some now |>) = false.
Proof. unfold removable. simpl. by rewrite andb_false_r. Qed.

Lemma remove_expired_one_users now n x db n' db' s :
  remove_expired_one now n x db = (inr n', db') →
  (∀ u, u ∈ db_tables db Users → user_id u ≠ s) → ∀ u, u ∈ db_tables db' Users → user_id u ≠ s.
Proof.
  intros [(_ & _ & Ht)|(_ & db1 & Hrem & _ & Ht)]%remove_expired_one_run Hno u; rewrite Ht by done; auto.
  destruct (remove_roster_entry_run _ _ _ _ Hrem) as [[_ ->]|(v & sx & Hv & -> & _)]; [auto|].
  intros (w & Hw & ->)%elem_of_update_list. apply findb_Some in Hv as [_ Hv].
  case_match; [|auto]. simpl. auto.
Qed.

Lemma remove_expired_one_gone now n x db n' db' s :
  remove_expired_one now n x db = (inr n', db') → roster_gone s db → roster_gone s db'.
Proof.
  intros [(_ & _ & Ht)|(_ & db1 & Hrem & _ & Ht)]%remove_expired_one_run Hgone.
  - unfold roster_gone. by rewrite !Ht.
  - eapply remove_roster_entry_gone_mono in Hrem; [|exact Hgone]. unfold roster_gone. by rewrite !Ht.
Qed.

Lemma remove_expired_one_settles now n x db n' db' :
  remove_expired_one now n x db = (inr n', db') →
  settled now x db' ∧ ∀ y, settled now y db → settled now y db'.
Proof.
  intros Hrun. pose proof (remove_expired_one_run _ _ _ _ _ _ Hrun) as Hcase. split.
  - split.
    + destruct Hcase as [(_ & Href & _)|(_ & db1 & _ & Href & _)]; rewrite Href.
      * intros r [Hr _]%elem_of_filterb_negb Hid. by rewrite bool_decide_true in Hr.
      * intros r (w & Hw & ->)%elem_of_update_list Hid. case_bool_decide; [|done].
        apply removable_deleted.
    + destruct Hcase as [(Hc & _ & Ht)|(_ & db1 & Hrem & _ & Ht)].
      * left. eapply same_learner_consented; [|exact Hc]. by eapply remove_expired_one_keeps.
      * right. destruct (findb (λ u : User, user_id u == refusal_student_id x) (db_tables db Users)) as [u|] eqn:Hu.
        -- left. apply findb_Some in Hu as [Hu Hin]. bool_to_prop.
           pose proof (remove_roster_entry_gone _ _ _ _ _ Hrem Hin Hu) as Hgone.
           unfold roster_gone. by rewrite !Ht.
        -- right. rewrite findb_None in Hu. eapply remove_expired_one_users; [done|].
           intros u Hin Hid. specialize (Hu u Hin). by rewrite bool_decide_true in Hu.
  - intros y [Hy Hy']. split.
    + destruct Hcase as [(_ & Href & _)|(_ & db1 & _ & Href & _)]; rewrite Href.
      * intros r [_ Hr]%elem_of_filterb_negb. auto.
      * intros r (w & Hw & ->)%elem_of_update_list. case_bool_decide; [|auto].
        intros _. apply removable_deleted.
    + destruct Hy' as [Hc|[Hg|Hu]].
      * left. eapply same_learner_consented; [|exact Hc]. by eapply remove_expired_one_keeps.
      * right; left. by eapply remove_expired_one_gone.
      * right; right. by eapply remove_expired_one_users.
Qed.

(** Processing marks or deletes refusals, it adds none. *)
Lemma removal_adds_none now xs n db n' db' r :
  fold_each xs n (remove_expired_one now) db = (inr n', db') →
  r ∈ db_tables db' ConsentRefusals → removable now r = true → r ∈ db_tables db ConsentRefusals.
Proof.
  revert n db. induction xs as [|x xs IH]; intros n db; simpl; [by intros [= _ <-]|].
  intros (k & db1 & Hx & Hrun)%bind_inv_inr Hr Hrem. specialize (IH _ _ Hrun Hr Hrem).
  apply remove_expired_one_run in Hx as [(_ & Href & _)|(_ & db2 & _ & Href & _)]; rewrite Href in IH.
  - by apply elem_of_filterb_negb in IH as [_ ?].
  - apply elem_of_update_list in IH as (w & Hw & ->). case_bool_decide; [|done].
    by rewrite removable_deleted in Hrem.
Qed.

(** Thirty days after a refusal was recorded, a learner without any confirmed consent is
    removed: no class, parent link or consent record of theirs is left, the account row is
    anonymised, and a second pass at the same moment finds nothing to do. *)
Theorem expired_roster_removed now db n db' :
  remove_expired_rosters now db = (inr n, db') →
  (∀ x u, x ∈ db_tables db ConsentRefusals → removable now x = true →
     u ∈ db_tables db' Users → user_id u = refusal_student_id x →
     ¬ consented (refusal_student_id x) db' → roster_gone (refusal_student_id x) db') ∧
  remove_expired_rosters now db' = (inr 0, db').
Proof.
  intros Hrun. apply transaction_commit in Hrun as [Hrun Hok].
  apply bind_inv_inr in Hrun as (xs & db1 & Hsel & Hrun). injection Hsel as <- <-.
  destruct (fold_each_establishes _ (settled now) _ _ _ _ _
    (λ x b t b' t', remove_expired_one_settles now b x t b' t') Hrun) as [Hall _].
  split.
  - intros x u Hx Hrem Hu Hid Hno. destruct (Hall x) as [_ [?|[?|Hnone]]]; [|done..|].
    + by apply elem_of_filterb.
    + by destruct (Hnone u Hu).
  - apply transaction_ok; [|done].
    change (fold_each (filterb (removable now) (db_tables db' ConsentRefusals)) 0
              (remove_expired_one now) db' = (inr 0, db')).
    rewrite filterb_nil; [done|]. intros r Hin. apply not_true_iff_false. intros Hr.
    pose proof (removal_adds_none _ _ _ _ _ _ _ Hrun Hin Hr) as Hin'.
    destruct (Hall r) as [Hset _]; [by apply elem_of_filterb|].
    by rewrite (Hset r Hin eq_refl) in Hr.
Qed.
End ConsentExpiry.

(** ** At the small school *)

#[local] Existing Instance Toy.crypto.

Definition day (n : Z) : datetime := t0 + days n.
Definition refused_db : Database := snd (record_unanswered (day 31) asked_db).

Lemma record_unanswered_idempotent_witness :
  record_unanswered (day 31) refused_db = (inr 0, refused_db) ∧
  (∀ i l, i ∈ db_tables asked_db ConsentInvitations → unanswered (day 31) i = true →
     l ∈ db_tables asked_db ParentLinks → link_id l = inv_parent_link_id i →
     already_refused (inv_student_id i) (link_parent_contact l) refused_db = (inr true, refused_db)).
Proof.
  apply (record_unanswered_idempotent (day 31) asked_db 1).
  apply run_returns. vm_compute. reflexivity.
Defined.

Lemma expired_roster_removed_witness :
  let db' := snd (remove_expired_rosters (day 62) refused_db) in
  (∀ x u, x ∈ db_tables refused_db ConsentRefusals → removable (day 62) x = true →
     u ∈ db_tables db' Users → user_id u = refusal_student_id x →
     ¬ consented (refusal_student_id x) db' → roster_gone (refusal_student_id x) db') ∧
  remove_expired_rosters (day 62) db' = (inr 0, db').
Proof.
  apply (expired_roster_removed (day 62) refused_db 1).
  apply run_returns. vm_compute. reflexivity.
Defined.

(** The other parent confirmed while this one's request expired. *)
Definition late_db : Database := set_table ConsentRecords [confirmed_record] refused_db.

Lemma confirmed_roster_never_removed_witness :
  same_learner 2 late_db (snd (remove_expired_rosters (day 62) late_db)).
Proof.
  apply (confirmed_roster_never_removed 2 (day 62) late_db 0).
  - apply run_returns. vm_compute. reflexivity.
  - exists confirmed_record. split_and!; [vm_compute; left | reflexivity..].
Defined.

(** The refusal that is dropped because the consent arrived by another way does not stay
    dropped: the request is still unanswered, so the next sweep records the refusal again. *)
Theorem late_consent_refusal_returns :
  let db1 := snd (sweep (day 62) late_db) in
  let db2 := snd (sweep (day 63) db1) in
  db_tables db1 ConsentRefusals = [] ∧
  map refusal_student_id (db_tables db2 ConsentRefusals) = [2] ∧
  fst (already_refused 2 "ngozi@example.com" db2) = inr true.
Proof. vm_compute. split_and!; reflexivity. Qed.
