(* ===== verification/AuthPolicies.v ===== *)
(** * Sessions: entities, policies and secrets

    [src/nevo/auth/entities.py], [policies.py] and [security.py]: what a
    session is, how long each role's may last, and the interfaces of the
    credential hasher and the token service with their implementations. *)

From Stdlib Require Import String.
From S2P Require Import Prelude Relational Text Vocabulary Schema Crypto.

Local Open Scope string_scope.
Local Open Scope Z_scope.
Local Open Scope nevo_scope.

(** ** Entities *)

Record AuthUser := mkAuthUser {
  au_id : uuid; au_school_id : option uuid; au_role : string; au_auth_method : string;
  au_status : string; au_email : option string; au_password_hash : option string;
  au_pin_hash : option string; au_login_identifier : option string;
  au_school_auth_method : option string; au_deactivated_at : option datetime;
  au_preferences : Json
}.

Record SessionDraft := mkSessionDraft {
  sd_id : uuid; sd_user_id : uuid; sd_role : string; sd_token_digest : string;
  sd_created_at : datetime; sd_last_seen_at : datetime; sd_expires_at : datetime
}.

Record SessionRecord := mkSessionRecord {
  sr_id : uuid; sr_user_id : uuid; sr_role : string; sr_token_digest : string;
  sr_created_at : datetime; sr_last_seen_at : datetime; sr_expires_at : datetime;
  sr_revoked_at : option datetime; sr_revocation_reason : option string;
  sr_replaced_by_session_id : option uuid
}.

Record AuthPrincipal := mkAuthPrincipal {
  principal_user_id : uuid; principal_role : string; principal_session_id : uuid
}.

Record IssuedSession := mkIssuedSession {
  issued_access_token : string; issued_token_type : string; issued_expires_at : datetime;
  issued_user_id : uuid; issued_role : string; issued_replaced_session : bool;
  issued_preferences : Json
}.

(** ** Policies *)

(** [d[key]] on a dict with text keys. *)
Fixpoint dict_get {A} (key : string) (d : list (string * A)) : option A :=
  match d with
  | [] => None
  | (k, v) :: rest => if k == key then Some v else dict_get key rest
  end.

Definition ROLE_IDLE_TIMEOUTS : list (string * timedelta) :=
  [("student", minutes 60); ("teacher", minutes 120); ("senco_admin", minutes 30);
   ("other_admin", minutes 120); ("parent_guardian", minutes 120)].

Definition ROLE_ABSOLUTE_LIFETIMES : list (string * timedelta) :=
  [("student", hours 10); ("teacher", hours 14); ("senco_admin", hours 12);
   ("other_admin", hours 14); ("parent_guardian", hours 14)].

Definition DEFAULT_ABSOLUTE_LIFETIME : timedelta := hours 12.

Definition absolute_lifetime_for_role (role : string) : timedelta :=
  match dict_get role ROLE_ABSOLUTE_LIFETIMES with
  | Some t => t
  | None => DEFAULT_ABSOLUTE_LIFETIME
  end.

Definition idle_timeout_for_role (role : string) : exn + timedelta :=
  match dict_get role ROLE_IDLE_TIMEOUTS with
  | Some t => inr t
  | None => inl (ValueError ("unsupported session role: " ++ role))
  end.

Definition requires_single_session (role : string) : bool := role == "student".

(** A computed value that may be an exception. *)
Definition lift {A} (r : exn + A) : M A :=
  match r with inl e => raise e | inr a => mret a end.

(** ** Credentials *)

(** A hasher checks a secret against a stored hash; an account without a hash
    is refused after the same work. *)
Class CredentialHasher := {
  verify_password : option string → string → bool;
  verify_pin : option string → string → bool;
  verify_password_none s : verify_password None s = false;
  verify_pin_none s : verify_pin None s = false
}.

Section Argon2id.
Context `{Crypto} (password_pepper pin_pepper : string).

Definition peppered (secret pepper : string) : string := hmac_sha256_hex pepper secret.

Definition hash_password (password : string) (salt : Z) : string :=
  argon2_hash (peppered password password_pepper) salt.
Definition hash_pin (pin : string) (salt : Z) : string := argon2_hash (peppered pin pin_pepper) salt.

(** [_dummy_password_hash] and [_dummy_pin_hash], made by the constructor. *)
Definition dummy_password_hash : string := hash_password "constant-work-placeholder-password" 0.
Definition dummy_pin_hash : string := hash_pin "000000" 0.

(** [secret_hash or dummy] *)
Definition hash_or (stored : option string) (dummy : string) : string := opt_str_or stored dummy.

Definition argon2id_verify_password (password_hash : option string) (password : string) : bool :=
  argon2_verify (hash_or password_hash dummy_password_hash) (peppered password password_pepper) &&
  is_some password_hash.
Definition argon2id_verify_pin (pin_hash : option string) (pin : string) : bool :=
  argon2_verify (hash_or pin_hash dummy_pin_hash) (peppered pin pin_pepper) && is_some pin_hash.

Program Definition Argon2idCredentialHasher : CredentialHasher := {|
  verify_password := argon2id_verify_password;
  verify_pin := argon2id_verify_pin
|}.
Next Obligation. intros s. apply andb_false_r. Qed.
Next Obligation. intros s. apply andb_false_r. Qed.
End Argon2id.

(** ** Tokens *)

(** A token service hands out secrets and recognises them by their digest;
    issuing one writes nothing. *)
Class TokenService := {
  issue_token : M (string * string);
  token_digest : string → string;
  protect_identifier : string → string;
  issue_token_digest db t d db' :
    issue_token db = (inr (t, d), db') → d = token_digest t;
  issue_token_returns db : ∃ t db', issue_token db = (inr (t, token_digest t), db') ∧
    db_tables db' = db_tables db ∧ db_now db' = db_now db ∧ db_uuids db <= db_uuids db'
}.

Section HmacTokens.
Context `{Crypto} (session_pepper : string).

Definition hmac_token_digest (token : string) : string :=
  hmac_sha256_hex session_pepper ("session:" ++ token).
Definition hmac_protect_identifier (v : string) : string :=
  hmac_sha256_hex session_pepper ("identifier:" ++ strip (casefold v)).
Definition hmac_issue : M (string * string) :=
  token ← draw token_urlsafe;
  mret (token, hmac_token_digest token).

Program Definition HmacTokenService : TokenService := {|
  issue_token := hmac_issue;
  token_digest := hmac_token_digest;
  protect_identifier := hmac_protect_identifier
|}.
Next Obligation. by intros db t d db' [= <- <- _]. Qed.
Next Obligation. intros db. eexists _, _. split; [reflexivity|]. simpl. split_and!; [done..|lia]. Qed.
End HmacTokens.
