(* ===== verification/ConsentRepo.v ===== *)
(** * The consent repository

    [src/nevo/consent/repositories.py] with the views of
    [src/nevo/consent/entities.py]: every statement a consent request, its
    answer, a parent account and a parent's rights run, one transaction per
    operation. *)

From Stdlib Require Import String.
From S2P Require Import Prelude Relational Text Vocabulary Schema Fixtures Crypto Notices AgeAssurance ConsentExpiry.

Local Open Scope string_scope.
Local Open Scope Z_scope.
Local Open Scope nevo_scope.

(** ** Views *)

Record ConsentActor := mkConsentActor { actor_user_id : uuid; actor_school_id : uuid }.

Record ConsentRecordView := mkConsentRecordView {
  crv_id : uuid; crv_student_id : uuid; crv_consent_type : ConsentType;
  crv_status : ConsentStatus; crv_confirmation_source : option ConsentConfirmationSource;
  crv_confirmed_via : option ConsentMethod; crv_confirmed_at : option datetime
}.

Record ParentLinkView := mkParentLinkView {
  plv_id : uuid; plv_school_id : uuid; plv_student_id : uuid; plv_parent_id : option uuid;
  plv_parent_name : string; plv_parent_contact : string;
  plv_contact_method : ParentContactMethod; plv_account_created : bool
}.

Record ParentRightLogEntry := mkParentRightLogEntry {
  log_id : uuid; log_student_id : uuid; log_student_name : string; log_parent_id : uuid;
  log_parent_name : string; log_request_type : ParentRightType; log_reason_recorded : bool;
  log_status : string; log_created_at : datetime; log_resolved_at : option datetime
}.

Record ParentConsentRequestDraft := mkDraft {
  draft_invitation_id : uuid; draft_parent_link_id : uuid; draft_school_id : uuid;
  draft_student_id : uuid; draft_parent_name : string; draft_parent_contact : string;
  draft_contact_method : ParentContactMethod; draft_consent_types : gset ConsentType;
  draft_token_digest : string; draft_consent_url : string;
  draft_requested_by_user_id : uuid; draft_created_at : datetime; draft_expires_at : datetime
}.

Record QueuedParentConsentRequest := mkQueued {
  queued_invitation_id : uuid; queued_parent_link_id : uuid; queued_student_id : uuid;
  queued_consent_types : gset ConsentType; queued_delivery_status : ConsentDeliveryStatus;
  queued_expires_at : datetime
}.

Record ParentConsentCompletion := mkCompletion {
  done_invitation_id : uuid; done_parent_link_id : uuid; done_parent_id : uuid;
  done_student_id : uuid; done_confirmed_types : gset ConsentType; done_completed_at : datetime;
  done_declined_types : gset ConsentType; done_age_check : AgeCheckState;
  done_receipt_sent_to : option ParentContactMethod
}.

Record ConsentGate := mkGate {
  gate_student_id : uuid; gate_granted : bool; gate_blocked : bool;
  gate_required_type : ConsentType; gate_status : ConsentStatus
}.

Record ParentInvitationView := mkInvitationView {
  view_invitation_id : uuid; view_student_id : uuid; view_student_first_name : string;
  view_school_name : string; view_school_phone : option string; view_school_email : option string;
  view_parent_name : string; view_parent_contact : string;
  view_parent_contact_method : ParentContactMethod; view_status : ConsentStatus;
  view_consent_types : gset ConsentType; view_expires_at : datetime;
  view_decided_at : option datetime; view_parent_account_ready : bool;
  view_age_check_state : option AgeCheckState; view_age_check_hold_reasons : list string
}.

Record ParentRightOutcome := mkRightOutcome {
  right_request_id : uuid; right_request_type : ParentRightType; right_status : string;
  right_reason_recorded : bool
}.

Record ParentAccount := mkParentAccount {
  account_user_id : uuid; account_contact : string; account_contact_method : ParentContactMethod;
  account_student_id : uuid; account_already_active : bool
}.

Record ParentChildView := mkChildView {
  child_student_id : uuid; child_first_name : option string; child_last_name : option string;
  child_status : UserStatus; child_school_id : uuid; child_school_name : string
}.

Definition consent_view (record : ConsentRecord) : ConsentRecordView :=
  mkConsentRecordView (cr_id record) (cr_subject_user_id record) (cr_consent_type record)
    (cr_status record) (cr_confirmation_source record) (cr_confirmed_via record)
    (cr_confirmed_at record).

Definition parent_link_view (link : ParentLink) : ParentLinkView :=
  mkParentLinkView (link_id link) (link_school_id link) (link_student_id link)
    (link_parent_id link) (link_parent_name link) (link_parent_contact link)
    (link_contact_method link) (link_account_created link).

(** [" ".join(part for part in parts if part) or "Unknown"] *)
Definition display_name (user : User) : string :=
  let parts := omap (λ p, if opt_truthy p then p else None) [user_first_name user; user_last_name user] in
  str_or (join " " parts) "Unknown".

(** [ParentRightType(request.request_type)] raises on an unknown value. *)
Definition rights_log_entry (request : ParentDataRequest) (student parent : User)
  : exn + ParentRightLogEntry :=
  match parse (pdr_request_type request) with
  | None => inl (ValueError (pdr_request_type request))
  | Some kind =>
    inr (mkParentRightLogEntry (pdr_id request) (pdr_student_id request) (display_name student)
      (pdr_parent_id request) (display_name parent) kind
      (opt_truthy (strip <$> pdr_reason request)) (pdr_status request)
      (pdr_created_at request) (pdr_resolved_at request))
  end.

Section ConsentRepo.
Context `{Crypto}.

(** ** Shared statements *)

Definition require_student (school_id student_id : uuid) : M unit :=
  found ← scalar Users (λ u : User,
    (user_id u == student_id) && (user_school_id u == Some school_id) &&
    (user_role u == STUDENT) && (user_status u != DEACTIVATED));
  guard_or (is_some found) StudentNotFoundError.

Definition consent_for_update (student_id : uuid) (consent_type : ConsentType)
  : M (option ConsentRecord) :=
  scalar ConsentRecords (λ r : ConsentRecord,
    (cr_subject_user_id r == student_id) && (cr_consent_type r == consent_type)).

(** The record of a consent, added when there is none. The second component is
    the [status] attribute of the object: one just constructed has none until
    the session flushes it and the column default applies. *)
Definition ensure_pending_record (student_id : uuid) (consent_type : ConsentType)
  : M (ConsentRecord * option ConsentStatus) :=
  existing ← consent_for_update student_id consent_type;
  match existing with
  | Some record => mret (record, Some (cr_status record))
  | None =>
    i ← uuid4;
    let record := new_ConsentRecord i student_id consent_type in
    insert ConsentRecords record;;
    mret (record, None)
  end.

(** The account behind a parent link: the linked one, the one already holding
    the contact at that school, or a new invited one. *)
Definition parent_for_link (parent_link : ParentLink) : M User :=
  match link_parent_id parent_link with
  | Some parent_id =>
    linked_parent ← scalar Users (λ u : User, user_id u == parent_id);
    match linked_parent with
    | None => raise ParentAccountConflictError
    | Some parent => mret parent
    end
  | None =>
    let contact := casefold (link_parent_contact parent_link) in
    let by_email := link_contact_method parent_link == CONTACT_EMAIL in
    parent ← scalar Users (λ u : User,
      (user_school_id u == Some (link_school_id parent_link)) &&
      (if by_email then lower_opt (user_email u) == Some contact
       else lower_opt (user_login_identifier u) == Some contact));
    match parent with
    | Some parent =>
      if user_role parent != PARENT_GUARDIAN then raise ParentAccountConflictError else mret parent
    | None =>
      i ← uuid4;
      let parent := (new_User i (Some (link_school_id parent_link)) PARENT_GUARDIAN EMAIL_PASSWORD)
        <| user_first_name := Some (link_parent_name parent_link) |>
        <| user_email := if by_email then Some contact else None |>
        <| user_login_identifier := if by_email then None else Some contact |>
        <| user_status := INVITED |> in
      insert Users parent;;
      mret parent
    end
  end.

(** ** The school confirms *)

Definition school_confirmation (record : ConsentRecord) (confirmed_by_user_id : uuid)
    (confirmed_via : ConsentMethod) (confirmed_at : datetime) : ConsentRecord :=
  record <| cr_status := CONFIRMED |> <| cr_confirmation_source := Some SOURCE_SCHOOL |>
    <| cr_confirmed_by_admin_id := Some confirmed_by_user_id |>
    <| cr_confirmed_by_parent_id := None |> <| cr_confirmed_via := Some confirmed_via |>
    <| cr_confirmed_at := Some confirmed_at |>
    <| cr_last_actor_user_id := Some confirmed_by_user_id |>
    <| cr_last_changed_at := Some confirmed_at |>
    <| cr_last_channel := Some (value confirmed_via) |>.

Definition confirm_one_by_school (student_id confirmed_by_user_id : uuid)
    (confirmed_via : ConsentMethod) (confirmed_at : datetime) (consent_type : ConsentType)
  : M ConsentRecord :=
  '(record, status) ← ensure_pending_record student_id consent_type;
  if status == Some PENDING then
    let record := school_confirmation record confirmed_by_user_id confirmed_via confirmed_at in
    save ConsentRecords record;; mret record
  else mret record.

Definition confirm_by_school (school_id student_id : uuid) (consent_types : gset ConsentType)
    (confirmed_by_user_id : uuid) (confirmed_via : ConsentMethod) (confirmed_at : datetime)
  : M (list ConsentRecordView) :=
  begin_ (
    require_student school_id student_id;;
    records ← map_each (elements consent_types)
      (confirm_one_by_school student_id confirmed_by_user_id confirmed_via confirmed_at);
    flush_;;
    mret (map consent_view records)).

(** ** Asking a parent *)

Definition is_active_admin (school_id : uuid) (u : User) : bool :=
  (user_school_id u == Some school_id) &&
  ((user_role u == SENCO_ADMIN) || (user_role u == OTHER_ADMIN)) && (user_status u == ACTIVE).

Definition notify_school_of_pending_consent (school_id student_id : uuid) (parent_name : string)
  : M unit :=
  student ← get Users student_id;
  admins ← select Users (is_active_admin school_id);
  let child := opt_str_or (student ≫= λ u : User, user_first_name u) "A learner" in
  notify_each (map (λ a : User, (user_id a, value (user_role a))) admins)
    CONSENT_ACTION_REQUIRED ("Consent requested for " ++ child)
    (parent_name ++ " has been asked for permission. " ++ child ++ " cannot start until they answer.")
    (Some "/admin/consent");;
  mret tt.

(** [ParentAccountConflictError] stands for a violated constraint. *)
Definition conflict_on_integrity_error {A} (e : exn) : option (M A) :=
  match e with IntegrityError => Some (raise ParentAccountConflictError) | _ => None end.

(** The link of the draft's contact, added or renamed. *)
Definition upsert_parent_link (draft : ParentConsentRequestDraft) : M ParentLink :=
  existing ← scalar ParentLinks (λ l : ParentLink,
    (link_student_id l == draft_student_id draft) &&
    (link_parent_contact l == draft_parent_contact draft) &&
    (link_contact_method l == draft_contact_method draft));
  match existing with
  | None =>
    now ← func_now;
    let link := new_ParentLink (draft_parent_link_id draft) (draft_school_id draft)
      (draft_student_id draft) (draft_parent_name draft) (draft_parent_contact draft)
      (draft_contact_method draft) now in
    insert ParentLinks link;; mret link
  | Some link =>
    let link := link <| link_parent_name := draft_parent_name draft |> in
    save ParentLinks link;; mret link
  end.

Definition live_invitation (parent_link_id : uuid) (i : ConsentInvitation) : bool :=
  (inv_parent_link_id i == parent_link_id) && is_none (inv_accepted_at i) &&
  is_none (inv_revoked_at i).

Definition create_parent_request_body (draft : ParentConsentRequestDraft)
  : M QueuedParentConsentRequest :=
  require_student (draft_school_id draft) (draft_student_id draft);;
  refused ← already_refused (draft_student_id draft) (draft_parent_contact draft);
  guard_or (negb refused) ParentAlreadyRefusedError;;
  parent_link ← upsert_parent_link draft;
  flush_;;
  update_where ConsentInvitations (live_invitation (link_id parent_link))
    (λ i : ConsentInvitation, i <| inv_revoked_at := Some (draft_created_at draft) |>);;
  let invitation := new_ConsentInvitation (draft_invitation_id draft) (link_id parent_link)
    (draft_school_id draft) (draft_student_id draft) (draft_token_digest draft)
    (draft_requested_by_user_id draft) (draft_created_at draft) (draft_expires_at draft) in
  insert ConsentInvitations invitation;;
  flush_;;
  for_each (elements (draft_consent_types draft)) (λ consent_type,
    i ← uuid4;
    insert ConsentInvitationItems (new_ConsentInvitationItem i (inv_id invitation) consent_type);;
    ensure_pending_record (draft_student_id draft) consent_type;;
    mret tt);;
  i ← uuid4;
  now ← func_now;
  insert ConsentOutbox (new_ConsentNotificationOutbox i (inv_id invitation)
    (draft_contact_method draft) (draft_parent_contact draft) (draft_consent_url draft) now now);;
  notify_school_of_pending_consent (draft_school_id draft) (draft_student_id draft)
    (draft_parent_name draft);;
  flush_;;
  mret (mkQueued (inv_id invitation) (link_id parent_link) (draft_student_id draft)
    (draft_consent_types draft) DELIVERY_QUEUED (draft_expires_at draft)).

Definition create_parent_request (draft : ParentConsentRequestDraft) : M QueuedParentConsentRequest :=
  try_except (begin_ (create_parent_request_body draft)) conflict_on_integrity_error.

(** ** The parent answers *)

Definition usable_invitation (now : datetime) (i : ConsentInvitation) : bool :=
  is_none (inv_accepted_at i) && is_none (inv_revoked_at i) && negb (inv_expires_at i <=? now).

Definition parent_confirmation (record : ConsentRecord) (parent_id : uuid) (completed_at : datetime)
    (parent_relationship notice_version parent_name : option string) : ConsentRecord :=
  let record := record
    <| cr_status := CONFIRMED |> <| cr_confirmation_source := Some SOURCE_PARENT |>
    <| cr_confirmed_by_admin_id := None |> <| cr_confirmed_by_parent_id := Some parent_id |>
    <| cr_confirmed_via := Some DIGITAL |> <| cr_confirmed_at := Some completed_at |>
    <| cr_last_actor_user_id := Some parent_id |> <| cr_last_changed_at := Some completed_at |>
    <| cr_last_channel := Some (value DIGITAL) |>
    <| cr_parent_relationship := parent_relationship |> <| cr_notice_version := notice_version |> in
  match parent_name with
  | Some name => if truthy (strip name) then record <| cr_parent_name_on_form := Some (strip name) |>
                 else record
  | None => record
  end.

(** One consent the parent ticked: confirmed when it was pending. *)
Definition grant_one (student_id parent_id : uuid) (completed_at : datetime)
    (parent_relationship notice_version parent_name : option string)
    (confirmed_now : gset ConsentType) (consent_type : ConsentType) : M (gset ConsentType) :=
  '(record, status) ← ensure_pending_record student_id consent_type;
  if status == Some PENDING then
    save ConsentRecords (parent_confirmation record parent_id completed_at
      parent_relationship notice_version parent_name);;
    mret ({[consent_type]} ∪ confirmed_now)
  else mret confirmed_now.

(** One consent the parent left unticked: asked and not granted is an answer. *)
Definition decline_one (student_id parent_id : uuid) (completed_at : datetime)
    (declined_now : gset ConsentType) (consent_type : ConsentType) : M (gset ConsentType) :=
  '(refused, status) ← ensure_pending_record student_id consent_type;
  if (status == Some PENDING) || (status == Some NOT_SENT) then
    save ConsentRecords (refused <| cr_last_actor_user_id := Some parent_id |>
      <| cr_last_changed_at := Some completed_at |> <| cr_last_channel := Some (value DIGITAL) |>);;
    mret ({[consent_type]} ∪ declined_now)
  else mret declined_now.

Definition invitation_types (invitation_id : uuid) : M (gset ConsentType) :=
  items ← select ConsentInvitationItems
    (λ i : ConsentInvitationItem, item_invitation_id i == invitation_id);
  mret (list_to_set (map item_consent_type (items : list ConsentInvitationItem))).

Definition answer_invitation (invitation : ConsentInvitation) (parent_link : ParentLink)
    (completed_at : datetime) (granted_types : gset ConsentType)
    (child_date_of_birth : option date)
    (parent_relationship parent_name notice_version : option string) : M ParentConsentCompletion :=
  parent ← parent_for_link parent_link;
  flush_;;
  consent_types ← invitation_types (inv_id invitation);
  let granted := consent_types ∩ granted_types in
  let declined := consent_types ∖ granted_types in
  confirmed_now ← fold_each (elements granted) ∅
    (grant_one (inv_student_id invitation) (user_id parent) completed_at
       parent_relationship notice_version parent_name);
  declined_now ← fold_each (elements declined) ∅
    (decline_one (inv_student_id invitation) (user_id parent) completed_at);
  age_check ← record_parent_date (link_school_id parent_link) (inv_student_id invitation)
    child_date_of_birth completed_at;
  save ParentLinks (parent_link <| link_parent_id := Some (user_id parent) |>
    <| link_account_created := true |> <| link_updated_at := completed_at |>);;
  save ConsentInvitations (invitation <| inv_accepted_at := Some completed_at |>);;
  update_where ConsentOutbox
    (λ o : ConsentNotificationOutbox, outbox_invitation_id o == inv_id invitation)
    (λ o : ConsentNotificationOutbox, o <| outbox_consent_url := "" |>);;
  (if confirmed_now != ∅ then
     i ← uuid4;
     now ← func_now;
     insert ConsentOutbox ((new_ConsentNotificationOutbox i (inv_id invitation)
       (link_contact_method parent_link) (link_parent_contact parent_link) "" now now)
         <| outbox_kind := KIND_RECEIPT |>)
   else mret tt);;
  flush_;;
  mret (mkCompletion (inv_id invitation) (link_id parent_link) (user_id parent)
    (inv_student_id invitation) confirmed_now completed_at declined_now age_check
    (if confirmed_now != ∅ then Some (link_contact_method parent_link) else None)).

Definition complete_parent_request (token_digest : string) (completed_at : datetime)
    (granted_types : gset ConsentType) (child_date_of_birth : option date)
    (parent_relationship parent_name notice_version : option string)
  : M (option ParentConsentCompletion) :=
  try_except (begin_ (
    invitation ← scalar ConsentInvitations (λ i : ConsentInvitation, inv_token_digest i == token_digest);
    match invitation with
    | None => mret None
    | Some invitation =>
      if negb (usable_invitation completed_at invitation) then mret None
      else
        parent_link ← scalar ParentLinks (λ l : ParentLink, link_id l == inv_parent_link_id invitation);
        match parent_link with
        | None => mret None
        | Some parent_link =>
          completion ← answer_invitation invitation parent_link completed_at granted_types
            child_date_of_birth parent_relationship parent_name notice_version;
          mret (Some completion)
        end
    end)) conflict_on_integrity_error.

(** ** Parent accounts *)

(** An invitation that was not revoked, by the digest of its token. *)
Definition unrevoked_invitation (token_digest : string) : M (option ConsentInvitation) :=
  scalar ConsentInvitations (λ i : ConsentInvitation,
    (inv_token_digest i == token_digest) && is_none (inv_revoked_at i)).

(** [user.email = user.email or contact], or the login identifier. *)
Definition keep_contact (method : ParentContactMethod) (contact : string) (parent : User) : User :=
  if method == CONTACT_EMAIL
  then parent <| user_email := opt_or (user_email parent) (Some contact) |>
  else parent <| user_login_identifier := opt_or (user_login_identifier parent) (Some contact) |>.

Definition activate_parent_account (token_digest password_hash : string) (now : datetime)
  : M (option ParentAccount) :=
  begin_ (
    invitation ← unrevoked_invitation token_digest;
    match invitation with
    | None => mret None
    | Some invitation =>
      if inv_expires_at invitation <=? now then mret None
      else
        link ← get ParentLinks (inv_parent_link_id invitation);
        match link : option ParentLink with
        | None => mret None
        | Some link =>
          parent ← parent_for_link link;
          flush_;;
          save ParentLinks (link <| link_parent_id := Some (user_id parent) |>
            <| link_account_created := true |> <| link_updated_at := now |>);;
          let contact := casefold (link_parent_contact link) in
          if (user_status parent == ACTIVE) && opt_truthy (user_password_hash parent) then
            mret (Some (mkParentAccount (user_id parent)
              (opt_str_or (user_email parent) (opt_str_or (user_login_identifier parent) contact))
              (link_contact_method link) (link_student_id link) true))
          else
            let parent := (keep_contact (link_contact_method link) contact parent)
              <| user_auth_method := EMAIL_PASSWORD |>
              <| user_password_hash := Some password_hash |>
              <| user_status := ACTIVE |> <| user_deactivated_at := None |> in
            save Users parent;;
            flush_;;
            mret (Some (mkParentAccount (user_id parent) contact (link_contact_method link)
              (link_student_id link) false))
        end
    end).

(** The parent a sign-in code goes to, by the consent token. *)
Definition parent_by_token (wanted digest : string) : M (option ParentAccount) :=
  invitation ← unrevoked_invitation digest;
  match invitation with
  | None => mret None
  | Some invitation =>
    link ← get ParentLinks (inv_parent_link_id invitation);
    match link : option ParentLink with
    | None => mret None
    | Some link =>
      if casefold (strip (link_parent_contact link)) != wanted then mret None
      else
        parent ← parent_for_link link;
        flush_;;
        save ParentLinks (link <| link_parent_id := Some (user_id parent) |>
          <| link_account_created := true |>);;
        let parent := keep_contact (link_contact_method link) wanted
          (parent <| user_status := ACTIVE |> <| user_deactivated_at := None |>) in
        save Users parent;;
        mret (Some (mkParentAccount (user_id parent) wanted (link_contact_method link)
          (link_student_id link) false))
    end
  end.

(** The parent a sign-in code goes to, by the contact alone. *)
Definition parent_by_contact (wanted : string) : M (option ParentAccount) :=
  parents ← select Users (λ u : User,
    (user_role u == PARENT_GUARDIAN) && (user_status u != DEACTIVATED) &&
    ((lower_opt (user_email u) == Some wanted) || (lower_opt (user_login_identifier u) == Some wanted)));
  links ← rows ParentLinks;
  let pairs := (parents : list User) ≫= λ u,
    (λ l, (u, l)) <$> filterb (λ l : ParentLink, link_parent_id l == Some (user_id u)) links in
  mret (match pairs with
        | [] => None
        | (parent, link) :: _ => Some (mkParentAccount (user_id parent) wanted
            (link_contact_method link) (user_id parent) true)
        end).

Definition parent_for_login (contact : string) (token_digest : option string)
  : M (option ParentAccount) :=
  let wanted := casefold (strip contact) in
  begin_ (match token_digest with
          | Some digest => parent_by_token wanted digest
          | None => parent_by_contact wanted
          end).

(** ** Reads *)

(** [ORDER BY first_name, last_name] *)
Definition child_le (a b : ParentChildView) : bool :=
  if child_first_name a == child_first_name b
  then opt_text_le (child_last_name a) (child_last_name b)
  else opt_text_le (child_first_name a) (child_first_name b).

Definition children_for_parent (parent_id : uuid) : M (list ParentChildView) :=
  links ← select ParentLinks (λ l : ParentLink, link_parent_id l == Some parent_id);
  users ← rows Users;
  schools ← rows Schools;
  mret (order_by child_le
    ((links : list ParentLink) ≫= λ l,
      filterb (λ u : User, user_id u == link_student_id l) users ≫= λ u,
      (λ s, mkChildView (link_student_id l) (user_first_name u) (user_last_name u)
              (user_status u) (link_school_id l) (school_name s)) <$>
        filterb (λ s : School, school_id s == link_school_id l) schools)).

Definition parent_links (school_id student_id : uuid) : M (list ParentLinkView) :=
  require_student school_id student_id;;
  links ← select ParentLinks (λ l : ParentLink,
    (link_school_id l == school_id) && (link_student_id l == student_id));
  mret (map parent_link_view
    (order_by (λ a b : ParentLink, text_le (link_parent_name a) (link_parent_name b)) links)).

(** Newest first. *)
Definition request_le (a b : ParentDataRequest * User * User) : bool :=
  let x := a.1.1 in
  let y := b.1.1 in
  if pdr_created_at x == pdr_created_at y then pdr_id y <=? pdr_id x
  else pdr_created_at y <=? pdr_created_at x.

Definition parent_rights_rows (school_id : uuid) (student_id : option uuid)
    (request_type : option ParentRightType) : M (list (ParentDataRequest * User * User)) :=
  requests ← select ParentDataRequests (λ r : ParentDataRequest,
    match student_id with Some s => pdr_student_id r == s | None => true end &&
    match request_type with Some k => pdr_request_type r == value k | None => true end);
  users ← rows Users;
  mret ((requests : list ParentDataRequest) ≫= λ r,
    filterb (λ u : User, (user_id u == pdr_student_id r) && (user_school_id u == Some school_id)) users
      ≫= λ student,
    (λ parent, (r, student, parent)) <$> filterb (λ u : User, user_id u == pdr_parent_id r) users).

Definition parent_rights_log (school_id : uuid) (student_id : option uuid)
    (request_type : option ParentRightType) (limit offset : Z)
  : M (list ParentRightLogEntry * Z) :=
  matching ← parent_rights_rows school_id student_id request_type;
  entries ← map_each
    (take (Z.to_nat limit) (drop (Z.to_nat offset) (order_by request_le matching)))
    (λ r, match rights_log_entry r.1.1 r.1.2 r.2 with
          | inl e => raise e
          | inr entry => mret entry
          end);
  mret (entries, Z.of_nat (length matching)).

Definition has_confirmed_consent (student_id : uuid) (consent_type : ConsentType) : M bool :=
  record ← scalar ConsentRecords (λ r : ConsentRecord,
    (cr_subject_user_id r == student_id) && (cr_consent_type r == consent_type) &&
    (cr_status r == CONFIRMED));
  mret (is_some record).

Definition consent_status (student_id : uuid) (consent_type : ConsentType) : M ConsentStatus :=
  record ← scalar ConsentRecords (λ r : ConsentRecord,
    (cr_subject_user_id r == student_id) && (cr_consent_type r == consent_type));
  mret (match record with Some r => cr_status r | None => NOT_SENT end).

Definition ensure_pending (student_id : uuid) (consent_types : gset ConsentType) : M unit :=
  begin_ (
    student ← scalar Users (λ u : User, (user_id u == student_id) && (user_role u == STUDENT));
    guard_or (is_some student) StudentNotFoundError;;
    for_each (elements consent_types) (λ consent_type,
      ensure_pending_record student_id consent_type;; mret tt)).

(** The names a consent screen shows: the learner's, the school's, and the
    school's billing contact when it has one. *)
Definition invitation_names (invitation : ConsentInvitation)
  : M (option (option string * string * option BillingContact)) :=
  users ← select Users (λ u : User, user_id u == inv_student_id invitation);
  schools ← select Schools (λ s : School, school_id s == inv_school_id invitation);
  contacts ← rows BillingContacts;
  mret (match (users : list User), (schools : list School) with
        | u :: _, s :: _ =>
          Some (user_first_name u, school_name s,
                findb (λ c : BillingContact, Some (bc_id c) == school_billing_contact_id s) contacts)
        | _, _ => None
        end).

Definition parent_invitation (token_digest : string) (now : datetime)
  : M (option ParentInvitationView) :=
  invitation ← unrevoked_invitation token_digest;
  match invitation with
  | None => mret None
  | Some invitation =>
    if inv_expires_at invitation <=? now then mret None
    else
      names ← invitation_names invitation;
      match names with
      | None => mret None
      | Some (student_first_name, school_name, contact) =>
        parent_link ← get ParentLinks (inv_parent_link_id invitation);
        consent_types ← invitation_types (inv_id invitation);
        record ← consent_for_update (inv_student_id invitation) REQUIRED_LEARNING_CONSENT;
        age_check ← scalar AgeChecks (λ c : AgeCheck, ac_student_id c == inv_student_id invitation);
        let status := match record : option ConsentRecord with
                      | Some r => cr_status r | None => PENDING end in
        let decided_at := (record : option ConsentRecord) ≫= λ r, cr_last_changed_at r in
        let seeded := is_some (inv_accepted_at invitation) && (status == PENDING) in
        let status := if seeded then CONFIRMED else status in
        let decided_at := if seeded then inv_accepted_at invitation else decided_at in
        let parent_link : option ParentLink := parent_link in
        mret (Some (mkInvitationView (inv_id invitation) (inv_student_id invitation)
          (opt_str_or student_first_name "your child") school_name
          (contact ≫= λ c : BillingContact, bc_phone c) (bc_email <$> contact)
          (match parent_link with
           | Some l => str_or (strip (link_parent_name l)) "Parent or guardian"
           | None => "Parent or guardian"
           end)
          (match parent_link with Some l => link_parent_contact l | None => "" end)
          (match parent_link with Some l => link_contact_method l | None => CONTACT_EMAIL end)
          status consent_types (inv_expires_at invitation)
          (if status != PENDING then decided_at else None)
          (match parent_link with Some l => is_some (link_parent_id l) | None => false end)
          (ac_state <$> (age_check : option AgeCheck))
          (match age_check : option AgeCheck with Some c => ac_hold_reasons c | None => [] end)))
      end
  end.

(** ** A parent's rights *)

(** The account of the link, created when the parent never completed it. *)
Definition rights_holder (link : ParentLink) (now : datetime) : M uuid :=
  match link_parent_id link with
  | Some parent_id => mret parent_id
  | None =>
    parent ← parent_for_link link;
    flush_;;
    save ParentLinks (link <| link_parent_id := Some (user_id parent) |>
      <| link_account_created := true |> <| link_updated_at := now |>);;
    mret (user_id parent)
  end.

(** Withdrawing suspends the learner and moves the consent record. *)
Definition withdraw_learning_consent (student_id parent_id : uuid) (now : datetime) : M unit :=
  student ← get Users student_id;
  (match student : option User with
   | Some u => save Users (u <| user_status := DEACTIVATED |> <| user_deactivated_at := Some now |>)
   | None => mret tt
   end);;
  '(consent, status) ← ensure_pending_record student_id REQUIRED_LEARNING_CONSENT;
  if status != Some WITHDRAWN then
    save ConsentRecords (consent <| cr_status := WITHDRAWN |>
      <| cr_last_actor_user_id := Some parent_id |> <| cr_last_changed_at := Some now |>
      <| cr_last_channel := Some "parent_portal" |>)
  else mret tt.

Definition exercise_parent_right (token_digest : string) (request_type : ParentRightType)
    (reason : option string) (now : datetime) : M (option ParentRightOutcome) :=
  begin_ (
    invitation ← unrevoked_invitation token_digest;
    match invitation with
    | None => mret None
    | Some invitation =>
      if inv_expires_at invitation <=? now then mret None
      else
        link ← get ParentLinks (inv_parent_link_id invitation);
        match link : option ParentLink with
        | None => mret None
        | Some link =>
          parent_id ← rights_holder link now;
          i ← uuid4;
          stamp ← func_now;
          let request := (new_ParentDataRequest i (link_student_id link) parent_id
            (value request_type) stamp) <| pdr_reason := reason |> in
          insert ParentDataRequests request;;
          (if request_type == WITHDRAW_CONSENT
           then withdraw_learning_consent (link_student_id link) parent_id now
           else mret tt);;
          flush_;;
          mret (Some (mkRightOutcome (pdr_id request) request_type (pdr_status request)
            (opt_truthy reason)))
        end
    end).
End ConsentRepo.
