(* ===== verification/ConsentFacts.v ===== *)
(** * What the consent repository guarantees

    The consent table is read as a map from a learner and a consent type to a
    record ([consent_of]); each operation is specified by what it does to that
    map. *)

From Stdlib Require Import String.
From S2P Require Import Prelude Relational Text Vocabulary Schema Fixtures Crypto Notices AgeAssurance ConsentExpiry ConsentRepo.

Local Open Scope string_scope.
Local Open Scope Z_scope.
Local Open Scope nevo_scope.

(** ** The consent map *)

Definition consent_pred (s : uuid) (t : ConsentType) (r : ConsentRecord) : bool :=
  (cr_subject_user_id r == s) && (cr_consent_type r == t).
Definition consent_of (db : Database) (s : uuid) (t : ConsentType) : option ConsentRecord :=
  findb (consent_pred s t) (db_tables db ConsentRecords).
Definition status_of (db : Database) (s : uuid) (t : ConsentType) : option ConsentStatus :=
  cr_status <$> consent_of db s t.

Lemma consent_pred_spec s t r :
  consent_pred s t r = true ↔ cr_subject_user_id r = s ∧ cr_consent_type r = t.
Proof. unfold consent_pred. rewrite andb_true_iff, !bool_decide_eq_true. done. Qed.

Lemma consent_of_Some db s t r :
  consent_of db s t = Some r →
  cr_subject_user_id r = s ∧ cr_consent_type r = t ∧ r ∈ db_tables db ConsentRecords.
Proof. intros [Hp Hin]%findb_Some. apply consent_pred_spec in Hp as [? ?]. done. Qed.

Lemma consent_for_update_run s t db : consent_for_update s t db = (inr (consent_of db s t), db).
Proof. done. Qed.

(** Consents of another learner, or of another type. *)
Definition same_consents_but (s : uuid) (t : ConsentType) (db db' : Database) : Prop :=
  ∀ s' t', (s', t') ≠ (s, t) → consent_of db' s' t' = consent_of db s' t'.

Lemma consent_of_tables db db' s t :
  db_tables db' ConsentRecords = db_tables db ConsentRecords → consent_of db' s t = consent_of db s t.
Proof. unfold consent_of. by intros ->. Qed.

(** Adding a record for a consent that has none. *)
Lemma consent_of_insert db r :
  consent_of db (cr_subject_user_id r) (cr_consent_type r) = None →
  let db' := set_table ConsentRecords (db_tables db ConsentRecords ++ [r]) db in
  consent_of db' (cr_subject_user_id r) (cr_consent_type r) = Some r ∧
  same_consents_but (cr_subject_user_id r) (cr_consent_type r) db db'.
Proof.
  intros Hnone. cbv zeta. unfold same_consents_but, consent_of in *. rewrite set_table_eq. split.
  - rewrite findb_app, Hnone, findb_cons.
    assert (consent_pred (cr_subject_user_id r) (cr_consent_type r) r = true) as ->; [|done].
    by apply consent_pred_spec.
  - intros s' t' Hne. rewrite findb_app, findb_cons. destruct (findb (consent_pred s' t') (db_tables db ConsentRecords)); [done|].
    destruct (consent_pred s' t' r) eqn:Hp; [exfalso|reflexivity]. apply Hne.
    apply consent_pred_spec in Hp as [<- <-]. done.
Qed.

(** Saving a record loaded from the table. *)
Lemma consent_of_save db s t r r' :
  keyed ConsentRecords db → consent_of db s t = Some r →
  cr_id r' = cr_id r → cr_subject_user_id r' = s → cr_consent_type r' = t →
  let db' := snd (save ConsentRecords r' db) in
  consent_of db' s t = Some r' ∧ same_consents_but s t db db'.
Proof.
  intros [Hnd _] Hr Hid Hs Ht db'. pose proof (consent_of_Some _ _ _ _ Hr) as (Hrs & Hrt & Hin).
  assert (∀ s' t', consent_of db' s' t' =
    (λ x, if cr_id x == cr_id r then r' else x) <$> consent_of db s' t') as Heq.
  { intros s' t'. subst db'. unfold consent_of. change (db_tables (snd _) ConsentRecords) with
      (db_tables (set_table ConsentRecords (update_list (λ x : ConsentRecord, cr_id x == cr_id r')
         (λ _, r') (db_tables db ConsentRecords)) db) ConsentRecords).
    rewrite set_table_eq, Hid.
    apply (findb_save_keyed ConsentRecords _ _ r r' Hnd Hin).
    unfold consent_pred. by rewrite Hs, Ht, Hrs, Hrt. }
  split.
  - rewrite Heq, Hr. simpl. by rewrite bool_decide_true.
  - intros s' t' Hne. rewrite Heq. destruct (consent_of db s' t') as [x|] eqn:Hx; [|done]. simpl.
    case_bool_decide as Hc; [|done]. exfalso. apply Hne.
    apply consent_of_Some in Hx as (<- & <- & Hx).
    by rewrite (NoDup_map_inj _ _ x r Hnd Hx Hin Hc), Hrs, Hrt.
Qed.

(** ** Where the operations start from *)

Section Records.
Context `{Crypto}.

(** The record of a consent after [ensure_pending_record]: the one on file, or
    a new pending one. *)
Lemma ensure_pending_record_run s t db :
  keyed ConsentRecords db →
  ∃ r db', ensure_pending_record s t db = (inr (r, status_of db s t), db') ∧
    keyed ConsentRecords db' ∧ consent_of db' s t = Some r ∧
    match consent_of db s t with
    | Some r0 => r = r0
    | None => ∃ i, r = new_ConsentRecord i s t
    end ∧
    same_consents_but s t db db' ∧ issued (db_uuids db) db'.
Proof.
  intros Hk. unfold ensure_pending_record. rewrite bind_run, consent_for_update_run.
  unfold status_of. destruct (consent_of db s t) as [r|] eqn:Hr.
  - exists r, db. split_and!; try done. unfold issued. lia.
  - set (r := new_ConsentRecord (db_uuids db) s t).
    set (db1 := mkDb (db_tables db) (db_uuids db + 1) (db_now db) : Database).
    exists r, (set_table ConsentRecords (db_tables db1 ConsentRecords ++ [r])%list db1).
    split; [done|]. destruct Hk as [Hnd Hlt].
    destruct (consent_of_insert db1 r) as [Hof Hsame]; [exact Hr|].
    split_and!; [|exact Hof|by eexists|exact Hsame|].
    + apply (keyed_insert ConsentRecords r db1); [split|..].
      * exact Hnd.
      * intros x Hx. specialize (Hlt x Hx). unfold db1; simpl in *. lia.
      * intros x Hx. exact (Hlt x Hx).
      * unfold db1, r; simpl. lia.
    + unfold issued. autorewrite with store. simpl. lia.
Qed.

(** The one shape all decisions have: the record of the consent, added when
    missing, is changed by [f] when its status attribute satisfies [c]. *)
Definition touch {A} (c : option ConsentStatus → bool) (f : ConsentRecord → ConsentRecord)
    (yes no : ConsentRecord → A) (s : uuid) (t : ConsentType) : M A :=
  '(record, status) ← ensure_pending_record s t;
  if c status then save ConsentRecords (f record);; mret (yes (f record)) else mret (no record).

(** The record [touch] leaves, from the one on file. *)
Definition touched (c : option ConsentStatus → bool) (f : ConsentRecord → ConsentRecord)
    (s : uuid) (t : ConsentType) (before : option ConsentRecord) (after : ConsentRecord) : Prop :=
  match before with
  | Some r => after = if c (Some (cr_status r)) then f r else r
  | None => ∃ i, after = if c None then f (new_ConsentRecord i s t) else new_ConsentRecord i s t
  end.

Definition keeps_key (f : ConsentRecord → ConsentRecord) : Prop :=
  ∀ r, cr_id (f r) = cr_id r ∧ cr_subject_user_id (f r) = cr_subject_user_id r ∧
       cr_consent_type (f r) = cr_consent_type r.

Lemma touch_consent_run {A} c f (yes no : ConsentRecord → A) s t db :
  keeps_key f → keyed ConsentRecords db →
  ∃ r db', touch c f yes no s t db =
      (inr (if c (status_of db s t) then yes r else no r), db') ∧
    keyed ConsentRecords db' ∧ issued (db_uuids db) db' ∧ same_consents_but s t db db' ∧
    consent_of db' s t = Some r ∧ touched c f s t (consent_of db s t) r.
Proof.
  intros Hf Hk. unfold touch.
  destruct (ensure_pending_record_run s t db Hk) as (r & db1 & Hrun & Hk1 & Hof & Hr & Hsame & Hiss).
  rewrite bind_run, Hrun. cbv beta iota. destruct (c (status_of db s t)) eqn:Hc.
  - destruct (Hf r) as (Hid & Hs & Ht). destruct (consent_of_Some _ _ _ _ Hof) as (Hrs & Hrt & _).
    destruct (consent_of_save db1 s t r (f r) Hk1 Hof) as [Hof' Hsame'];
      [done|by rewrite Hs|by rewrite Ht|].
    exists (f r), (snd (save ConsentRecords (f r) db1)). split; [done|]. split_and!.
    + exact (keyed_save ConsentRecords (f r) db1 Hk1).
    + done.
    + intros s' t' Hne. by rewrite Hsame', Hsame.
    + done.
    + unfold touched, status_of in *. destruct (consent_of db s t) as [r0|].
      * change (cr_status <$> Some r0) with (Some (cr_status r0)) in Hc. rewrite Hc. by f_equal.
      * change (cr_status <$> None) with (@None ConsentStatus) in Hc. destruct Hr as [i ->]. exists i. by rewrite Hc.
  - exists r, db1. split_and!; try done.
    unfold touched, status_of in *. destruct (consent_of db s t) as [r0|].
    + change (cr_status <$> Some r0) with (Some (cr_status r0)) in Hc. rewrite Hc. by f_equal.
    + change (cr_status <$> None) with (@None ConsentStatus) in Hc. destruct Hr as [i ->]. exists i. by rewrite Hc.
Qed.

(** A loop over several consents of one learner, collecting those changed. *)
Definition touch_all (c : option ConsentStatus → bool) (f : ConsentRecord → ConsentRecord)
    (s : uuid) (acc : gset ConsentType) (t : ConsentType) : M (gset ConsentType) :=
  touch c f (λ _, {[t]} ∪ acc) (λ _, acc) s t.

Lemma touch_all_run c f s ts acc db :
  keeps_key f → keyed ConsentRecords db → NoDup ts →
  ∃ db', fold_each ts acc (touch_all c f s) db =
      (inr (list_to_set (filterb (λ t, c (status_of db s t)) ts) ∪ acc), db') ∧
    keyed ConsentRecords db' ∧ issued (db_uuids db) db' ∧
    (∀ t, t ∈ ts → ∃ r, consent_of db' s t = Some r ∧ touched c f s t (consent_of db s t) r) ∧
    (∀ s' t', s' ≠ s ∨ t' ∉ ts → consent_of db' s' t' = consent_of db s' t').
Proof.
  intros Hf. revert acc db. induction ts as [|t ts IH]; intros acc db Hk Hnd; simpl.
  { exists db. split; [by rewrite ret_run, union_empty_l_L|]. split_and!; [done|unfold issued; lia|set_solver|done]. }
  apply NoDup_cons in Hnd as [Ht Hnd].
  destruct (touch_consent_run c f (λ _, {[t]} ∪ acc) (λ _, acc) s t db Hf Hk)
    as (r & db1 & Hrun & Hk1 & Hiss1 & Hsame1 & Hof1 & Hr).
  rewrite bind_run. unfold touch_all at 1. rewrite Hrun.
  destruct (IH (if c (status_of db s t) then {[t]} ∪ acc else acc) db1 Hk1 Hnd)
    as (db2 & Hrun2 & Hk2 & Hiss2 & Hts & Hother).
  exists db2. split_and!; [|done|unfold issued in *; lia|..].
  - rewrite Hrun2. do 2 f_equal. rewrite filterb_cons.
    assert (filterb (λ t, c (status_of db1 s t)) ts = filterb (λ t, c (status_of db s t)) ts) as ->.
    { apply filterb_ext. intros x Hx. unfold status_of. rewrite Hsame1; [done|].
      intros [= ->]. done. }
    destruct (c (status_of db s t)); rewrite ?list_to_set_cons; set_solver.
  - intros t' [->|Ht']%elem_of_cons.
    + exists r. rewrite Hother by auto. done.
    + destruct (Hts t' Ht') as (r' & Hof' & Hr'). exists r'. split; [done|].
      rewrite <- Hsame1; [done|]. intros [= ->]. done.
  - intros s' t' Hor. rewrite Hother, Hsame1; [done|..].
    + intros [= -> ->]. destruct Hor as [Hor|Hor]; [done|]. set_solver.
    + destruct Hor; [auto|]. right. set_solver.
Qed.

(** ** The parent's answer *)

Definition is_pending (st : option ConsentStatus) : bool := st == Some PENDING.
Definition is_open (st : option ConsentStatus) : bool := (st == Some PENDING) || (st == Some NOT_SENT).

Definition declined_record (parent_id : uuid) (at_ : datetime) (r : ConsentRecord) : ConsentRecord :=
  r <| cr_last_actor_user_id := Some parent_id |> <| cr_last_changed_at := Some at_ |>
    <| cr_last_channel := Some (value DIGITAL) |>.

Lemma grant_one_touch s p at_ rel nv name :
  grant_one s p at_ rel nv name =
  touch_all is_pending (λ r, parent_confirmation r p at_ rel nv name) s.
Proof. reflexivity. Qed.

Lemma decline_one_touch s p at_ :
  decline_one s p at_ = touch_all is_open (declined_record p at_) s.
Proof. reflexivity. Qed.

Lemma keeps_key_parent_confirmation p at_ rel nv name :
  keeps_key (λ r, parent_confirmation r p at_ rel nv name).
Proof. intros r. unfold parent_confirmation. destruct name as [n|]; [destruct (truthy (strip n))|]; done. Qed.

Lemma keeps_key_declined p at_ : keeps_key (declined_record p at_).
Proof. by intros r. Qed.

Lemma parent_confirmation_status r p at_ rel nv name :
  cr_status (parent_confirmation r p at_ rel nv name) = CONFIRMED.
Proof. unfold parent_confirmation. destruct name as [n|]; [destruct (truthy (strip n))|]; done. Qed.

(** What the steps around the records leave alone. *)
Lemma frames_parent_for_link link : frames [Users] (parent_for_link link).
Proof. unfold parent_for_link. frames_tac. Qed.

Lemma frames_add_notification u a b c now : frames [Notifications] (add_notification u a b c now).
Proof. unfold add_notification. frames_tac. Qed.

Lemma frames_weaken {A} ts ts' (m : M A) : frames ts m → ts ⊆ ts' → frames ts' m.
Proof. intros Hm Hts db t Ht. apply Hm. set_solver. Qed.

Lemma frames_record_parent_date school s dob now :
  frames [AgeChecks; Users; Notifications] (record_parent_date school s dob now).
Proof.
  unfold record_parent_date, load_check, capture_band, enrolled_year_groups, apply_check,
    notify_school_operative_date, notify_school, add_notification. frames_tac.
Qed.

Lemma keeps_issued_parent_for_link n link : keeps (issued n) (parent_for_link link).
Proof. unfold parent_for_link. keeps_tac. Qed.

Lemma keeps_issued_record_parent_date n school s dob now :
  keeps (issued n) (record_parent_date school s dob now).
Proof.
  unfold record_parent_date, load_check, capture_band, enrolled_year_groups, apply_check,
    notify_school_operative_date, notify_school, add_notification. keeps_tac.
Qed.

Lemma after_frame {A} ts (m : M A) t db a db' :
  frames ts m → (∀ n, keeps (issued n) m) → t ∉ ts → m db = (inr a, db') → keyed t db →
  keyed t db' ∧ db_tables db' t = db_tables db t.
Proof.
  intros Hfr Hiss Ht Hrun Hk. assert (db' = snd (m db)) as -> by (by rewrite Hrun).
  specialize (Hfr db t Ht). split; [|done]. apply (keyed_frame t m db Hk Hfr).
  apply (Hiss (db_uuids db) db a); [unfold issued; lia|by rewrite Hrun].
Qed.

(** The consent types an invitation asks for. *)
Definition asked_types (db : Database) (invitation_id : uuid) : gset ConsentType :=
  list_to_set (map item_consent_type
    (filterb (λ i : ConsentInvitationItem, item_invitation_id i == invitation_id)
       (db_tables db ConsentInvitationItems))).

Lemma filterb_elements (p : ConsentType → bool) (X : gset ConsentType) t :
  t ∈ (list_to_set (filterb p (elements X)) : gset ConsentType) ↔ t ∈ X ∧ p t = true.
Proof. rewrite elem_of_list_to_set, elem_of_filterb, elem_of_elements. naive_solver. Qed.

(** What an answer does to the consent map. *)
Record answered (db db' : Database) (inv : ConsentInvitation) (granted : gset ConsentType)
    (completion : ParentConsentCompletion) : Prop := {
  answered_confirmed : ∀ t, t ∈ done_confirmed_types completion ↔
    t ∈ asked_types db (inv_id inv) ∧ t ∈ granted ∧
    status_of db (inv_student_id inv) t = Some PENDING;
  answered_declined : ∀ t, t ∈ done_declined_types completion ↔
    t ∈ asked_types db (inv_id inv) ∧ t ∉ granted ∧
    (status_of db (inv_student_id inv) t = Some PENDING ∨
     status_of db (inv_student_id inv) t = Some NOT_SENT);
  answered_status : ∀ t, status_of db' (inv_student_id inv) t =
    if decide (t ∈ done_confirmed_types completion) then Some CONFIRMED
    else if decide (t ∈ asked_types db (inv_id inv))
         then Some (default PENDING (status_of db (inv_student_id inv) t))
         else status_of db (inv_student_id inv) t;
  answered_others : ∀ s t, s ≠ inv_student_id inv → consent_of db' s t = consent_of db s t
}.

Lemma granted_status p at_ rel nv name s t before after :
  touched is_pending (λ r, parent_confirmation r p at_ rel nv name) s t before after →
  Some (cr_status after) =
    if decide (cr_status <$> before = Some PENDING) then Some CONFIRMED
    else Some (default PENDING (cr_status <$> before)).
Proof.
  unfold touched, is_pending. destruct before as [r|]; simpl.
  - intros ->. destruct (decide _) as [Hd|Hd].
    + rewrite bool_decide_true by done. by rewrite parent_confirmation_status.
    + by rewrite bool_decide_false.
  - by intros [i ->].
Qed.

Lemma declined_status p at_ s t before after :
  touched is_open (declined_record p at_) s t before after →
  cr_status after = default PENDING (cr_status <$> before).
Proof.
  unfold touched. destruct before as [r|]; simpl; [|by intros [i ->]].
  intros ->. by destruct (is_open _).
Qed.

(** The two loops of an answer: what was ticked, then what was not. *)
Lemma answer_records_run s p at_ rel nv name (asked granted : gset ConsentType) db :
  keyed ConsentRecords db →
  ∃ confirmed declined db1 db2,
    fold_each (elements (asked ∩ granted)) ∅ (grant_one s p at_ rel nv name) db =
      (inr confirmed, db1) ∧
    fold_each (elements (asked ∖ granted)) ∅ (decline_one s p at_) db1 = (inr declined, db2) ∧
    keyed ConsentRecords db2 ∧
    (∀ t, t ∈ confirmed ↔ t ∈ asked ∧ t ∈ granted ∧ status_of db s t = Some PENDING) ∧
    (∀ t, t ∈ declined ↔ t ∈ asked ∧ t ∉ granted ∧
       (status_of db s t = Some PENDING ∨ status_of db s t = Some NOT_SENT)) ∧
    (∀ t, status_of db2 s t =
       if decide (t ∈ confirmed) then Some CONFIRMED
       else if decide (t ∈ asked) then Some (default PENDING (status_of db s t))
            else status_of db s t) ∧
    (∀ s' t, s' ≠ s → consent_of db2 s' t = consent_of db s' t).
Proof.
  intros Hk. rewrite grant_one_touch, decline_one_touch.
  destruct (touch_all_run is_pending (λ r, parent_confirmation r p at_ rel nv name) s
    (elements (asked ∩ granted)) ∅ db) as (db1 & Hrun1 & Hk1 & _ & Hin1 & Hout1);
    [apply keeps_key_parent_confirmation|done|apply NoDup_elements|].
  destruct (touch_all_run is_open (declined_record p at_) s (elements (asked ∖ granted)) ∅ db1)
    as (db2 & Hrun2 & Hk2 & _ & Hin2 & Hout2);
    [apply keeps_key_declined|done|apply NoDup_elements|].
  assert (∀ t, t ∉ granted → consent_of db1 s t = consent_of db s t) as Hsame.
  { intros t Ht. apply Hout1. right. set_solver. }
  assert (∀ t, t ∉ granted → status_of db1 s t = status_of db s t) as Hsame'.
  { intros t Ht. unfold status_of. by rewrite Hsame. }
  assert (∀ t, t ∈ (list_to_set (filterb (λ t, is_pending (status_of db s t))
            (elements (asked ∩ granted))) ∪ ∅ : gset ConsentType)
          ↔ t ∈ asked ∧ t ∈ granted ∧ status_of db s t = Some PENDING) as Hconf.
  { intros t. rewrite union_empty_r_L, filterb_elements. unfold is_pending.
    rewrite bool_decide_eq_true. set_solver. }
  eexists _, _, db1, db2. split_and!; [exact Hrun1|exact Hrun2|exact Hk2|exact Hconf|..].
  - intros t. rewrite union_empty_r_L, filterb_elements. unfold is_open.
    rewrite orb_true_iff, !bool_decide_eq_true, elem_of_difference.
    split; intros ?; destruct_and!; rewrite ?Hsame' in * by done; naive_solver.
  - intros t. specialize (Hconf t). destruct (decide (t ∈ asked ∩ granted)) as [Hg|Hg].
    + destruct (Hin1 t) as (r & Hof & Hr); [by apply elem_of_elements|].
      assert (status_of db2 s t = Some (cr_status r)) as ->.
      { unfold status_of. rewrite Hout2, Hof by (right; set_solver). done. }
      rewrite (granted_status _ _ _ _ _ _ _ _ _ Hr). fold (status_of db s t).
      apply elem_of_intersection in Hg as [Ha Hg].
      destruct (decide (status_of db s t = Some PENDING)) as [Hp|Hp].
      * rewrite decide_True; [done|]. by apply Hconf.
      * rewrite decide_False, decide_True; [done..|]. by intros (_ & _ & ?)%Hconf.
    + rewrite decide_False by (intros (? & ? & _)%Hconf; set_solver).
      destruct (decide (t ∈ asked)) as [Ha|Ha].
      * destruct (Hin2 t) as (r & Hof & Hr); [set_solver|].
        assert (status_of db2 s t = Some (cr_status r)) as -> by (unfold status_of; by rewrite Hof).
        rewrite (declined_status _ _ _ _ _ _ Hr), Hsame by set_solver. done.
      * unfold status_of. rewrite Hout2 by (right; set_solver).
        by rewrite Hout1 by (right; set_solver).
  - intros s' t Hs. rewrite Hout2, Hout1 by auto. done.
Qed.

Lemma flush_run db u db' : flush_ db = (inr u, db') → db' = db.
Proof. unfold flush_, flush. destruct (db_ok db); [by intros [= _ <-]|done]. Qed.

Lemma invitation_types_run i db : invitation_types i db = (inr (asked_types db i), db).
Proof. done. Qed.

Lemma frames_grant_one s p at_ rel nv name acc t :
  frames [ConsentRecords] (grant_one s p at_ rel nv name acc t).
Proof. unfold grant_one, ensure_pending_record, consent_for_update. frames_tac. Qed.

Lemma frames_decline_one s p at_ acc t : frames [ConsentRecords] (decline_one s p at_ acc t).
Proof. unfold decline_one, ensure_pending_record, consent_for_update. frames_tac. Qed.

(** What follows the records: the link, the invitation, the emails. *)
Lemma answer_tail_run (inv : ConsentInvitation) (link : ParentLink) (p : uuid) (at_ : datetime)
    (confirmed : gset ConsentType) {A} (result : A) db db' a :
  (save ParentLinks (link <| link_parent_id := Some p |>
     <| link_account_created := true |> <| link_updated_at := at_ |>);;
   save ConsentInvitations (inv <| inv_accepted_at := Some at_ |>);;
   update_where ConsentOutbox
     (λ o : ConsentNotificationOutbox, outbox_invitation_id o == inv_id inv)
     (λ o : ConsentNotificationOutbox, o <| outbox_consent_url := "" |>);;
   (if confirmed != ∅ then
      i ← uuid4;
      now ← func_now;
      insert ConsentOutbox ((new_ConsentNotificationOutbox i (inv_id inv)
        (link_contact_method link) (link_parent_contact link) "" now now)
          <| outbox_kind := KIND_RECEIPT |>)
    else mret tt);;
   flush_;;
   mret result) db = (inr a, db') →
  a = result ∧
  db_tables db' ConsentInvitations = update_list (λ i : ConsentInvitation, inv_id i == inv_id inv)
    (λ _, inv <| inv_accepted_at := Some at_ |>) (db_tables db ConsentInvitations) ∧
  (∀ t, t ∉ [ParentLinks; ConsentInvitations; ConsentOutbox] → db_tables db' t = db_tables db t).
Proof.
  intros Hrun. unfold flush_ in Hrun. destruct (confirmed != ∅); run_inv;
    autorewrite with store; split_and!; try done;
    intros t Ht; autorewrite with store; rewrite !set_table_ne by set_solver;
    autorewrite with store; rewrite ?set_table_ne by set_solver; done.
Qed.

Lemma answer_invitation_spec inv link at_ granted dob rel name nv db completion db' :
  keyed ConsentRecords db →
  answer_invitation inv link at_ granted dob rel name nv db = (inr completion, db') →
  answered db db' inv granted completion ∧
  done_student_id completion = inv_student_id inv ∧
  db_tables db' ConsentInvitations = update_list (λ i : ConsentInvitation, inv_id i == inv_id inv)
    (λ _, inv <| inv_accepted_at := Some at_ |>) (db_tables db ConsentInvitations).
Proof.
  intros Hk Hrun. unfold answer_invitation in Hrun.
  apply bind_inv_inr in Hrun as (parent & db1 & Hparent & Hrun).
  destruct (after_frame [Users] _ ConsentRecords _ _ _ (frames_parent_for_link link)
    (λ n, keeps_issued_parent_for_link n link) ltac:(set_solver) Hparent Hk) as [Hk1 Hrec1].
  pose proof (frames_parent_for_link link db) as Hfr1. rewrite Hparent in Hfr1. simpl in Hfr1.
  apply bind_inv_inr in Hrun as ([] & db1' & Hfl & Hrun). apply flush_run in Hfl as ->.
  apply bind_inv_inr in Hrun as (asked & db1' & Hasked & Hrun).
  rewrite invitation_types_run in Hasked. injection Hasked as <- <-.
  assert (asked_types db1 (inv_id inv) = asked_types db (inv_id inv)) as Hasked
    by (unfold asked_types; by rewrite Hfr1 by set_solver).
  rewrite Hasked in Hrun.
  destruct (answer_records_run (inv_student_id inv) (user_id parent) at_ rel nv name
    (asked_types db (inv_id inv)) granted db1 Hk1)
    as (confirmed & declined & db2 & db3 & Hrun1 & Hrun2 & Hk3 & Hconf & Hdecl & Hstat & Hoth).
  apply bind_inv_inr in Hrun as (c' & db2' & Hc & Hrun). rewrite Hrun1 in Hc. injection Hc as <- <-.
  apply bind_inv_inr in Hrun as (d' & db3' & Hd & Hrun). rewrite Hrun2 in Hd. injection Hd as <- <-.
  apply bind_inv_inr in Hrun as (age & db4 & Hage & Hrun).
  destruct (after_frame [AgeChecks; Users; Notifications] _ ConsentRecords _ _ _
    (frames_record_parent_date _ _ _ _) (λ n, keeps_issued_record_parent_date n _ _ _ _)
    ltac:(set_solver) Hage Hk3) as [_ Hrec4].
  pose proof (frames_record_parent_date (link_school_id link) (inv_student_id inv) dob at_ db3) as Hfr4.
  rewrite Hage in Hfr4. simpl in Hfr4.
  apply answer_tail_run in Hrun as (-> & Hinv & Htail).
  assert (∀ s t, consent_of db' s t = consent_of db3 s t) as Hof.
  { intros s t. apply consent_of_tables. by rewrite Htail, Hrec4 by set_solver. }
  assert (∀ s t, consent_of db1 s t = consent_of db s t) as Hof1.
  { intros s t. by apply consent_of_tables. }
  assert (∀ s t, status_of db1 s t = status_of db s t) as Hst1 by (intros; unfold status_of; by rewrite Hof1).
  split; [|split; [done|]].
  - split; simpl; intros.
    + by rewrite Hconf, Hst1.
    + by rewrite Hdecl, !Hst1.
    + assert (status_of db' (inv_student_id inv) t = status_of db3 (inv_student_id inv) t) as ->
        by (unfold status_of; by rewrite Hof).
      by rewrite Hstat, Hst1.
    + by rewrite Hof, Hoth, Hof1.
  - rewrite Hinv, Hfr4 by set_solver. f_equal.
    pose proof (frames_fold_each [ConsentRecords] (elements (asked_types db (inv_id inv) ∩ granted)) _
      (frames_grant_one (inv_student_id inv) (user_id parent) at_ rel nv name) ∅ db1
      ConsentInvitations ltac:(set_solver)) as Hg. rewrite Hrun1 in Hg.
    pose proof (frames_fold_each [ConsentRecords] (elements (asked_types db (inv_id inv) ∖ granted)) _
      (frames_decline_one (inv_student_id inv) (user_id parent) at_) ∅ db2
      ConsentInvitations ltac:(set_solver)) as Hd. rewrite Hrun2 in Hd.
    simpl in Hg, Hd. by rewrite Hd, Hg, Hfr1 by set_solver.
Qed.

Definition by_digest (digest : string) (i : ConsentInvitation) : bool := inv_token_digest i == digest.

(** A request that was answered went through [answer_invitation]. *)
Lemma complete_parent_request_inv digest at_ granted dob rel name nv db completion db' :
  complete_parent_request digest at_ granted dob rel name nv db = (inr (Some completion), db') →
  ∃ inv link, findb (by_digest digest) (db_tables db ConsentInvitations) = Some inv ∧
    usable_invitation at_ inv = true ∧
    answer_invitation inv link at_ granted dob rel name nv db = (inr completion, db') ∧
    db_ok db' = true.
Proof.
  unfold complete_parent_request, try_except.
  destruct (begin_ _ db) as [[e|o] d] eqn:Hrun; [by destruct e|]. intros [= -> ->].
  apply transaction_commit in Hrun as [Hrun Hok].
  apply bind_inv_inr in Hrun as (oinv & db1 & Hinv & Hrun). injection Hinv as <- <-.
  destruct (findb _ _) as [inv|] eqn:Hf in Hrun; [|done].
  destruct (usable_invitation at_ inv) eqn:Hu; [|done]. simpl in Hrun.
  apply bind_inv_inr in Hrun as (olink & db1 & Hlink & Hrun). injection Hlink as <- <-.
  destruct (findb _ _) as [link|] in Hrun; [|done].
  apply bind_inv_inr in Hrun as (c & db1 & Hans & Hret). injection Hret as -> ->.
  exists inv, link. done.
Qed.

(** An invitation that cannot be used answers nothing and changes nothing. *)
Lemma complete_parent_request_none digest at_ granted dob rel name nv db :
  db_ok db = true →
  match findb (by_digest digest) (db_tables db ConsentInvitations) with
  | Some inv => usable_invitation at_ inv = false
  | None => True
  end →
  complete_parent_request digest at_ granted dob rel name nv db = (inr None, db).
Proof.
  intros Hok Hinv. unfold complete_parent_request, try_except, begin_. erewrite transaction_ok; [done| |done].
  erewrite bind_inr by reflexivity.
  change (findb _ _) with (findb (by_digest digest) (db_tables db ConsentInvitations)).
  destruct (findb _ _) as [inv|]; [|done]. by rewrite Hinv.
Qed.

Lemma usable_accepted at_ at' inv :
  usable_invitation at_ (inv <| inv_accepted_at := Some at' |>) = false.
Proof. done. Qed.

(** C2: what a parent's answer does. The consents confirmed are exactly those the invitation
    asked for, the parent ticked and the learner's record had pending; the ones declined are
    those asked for, not ticked and still open. Every other decision stands as it was, an
    asked consent that had no record is left pending, and no other learner's consents change.
    *)
Theorem parent_answer_confirms_what_was_ticked digest at_ granted dob rel name nv db completion db' :
  db_wf db →
  complete_parent_request digest at_ granted dob rel name nv db = (inr (Some completion), db') →
  ∃ inv, findb (by_digest digest) (db_tables db ConsentInvitations) = Some inv ∧
    done_student_id completion = inv_student_id inv ∧ answered db db' inv granted completion.
Proof.
  intros Hwf (inv & link & Hf & _ & Hans & _)%complete_parent_request_inv.
  apply answer_invitation_spec in Hans as (Hans & Hs & _); [|by apply db_wf_keyed].
  by exists inv.
Qed.

(** A consent link answers only while it is live, and once: an expired, revoked or used link
    answers nothing and leaves the database as it is, and after an answer the link is used. *)
Theorem consent_link_is_single_use digest db :
  db_wf db →
  (∀ inv at_ granted dob rel name nv,
     findb (by_digest digest) (db_tables db ConsentInvitations) = Some inv →
     inv_expires_at inv <= at_ ∨ is_Some (inv_revoked_at inv) ∨ is_Some (inv_accepted_at inv) →
     complete_parent_request digest at_ granted dob rel name nv db = (inr None, db)) ∧
  (∀ at_ granted dob rel name nv completion db' at2 granted2 dob2 rel2 name2 nv2,
     complete_parent_request digest at_ granted dob rel name nv db = (inr (Some completion), db') →
     complete_parent_request digest at2 granted2 dob2 rel2 name2 nv2 db' = (inr None, db')).
Proof.
  intros Hwf. split.
  { intros inv at_ granted dob rel name nv Hf Hdead. apply complete_parent_request_none; [apply Hwf|].
    rewrite Hf. unfold usable_invitation. destruct Hdead as [Hdead|[[x Hx]|[x Hx]]].
    - apply Z.leb_le in Hdead. rewrite Hdead. by rewrite andb_false_r.
    - rewrite Hx. by rewrite andb_false_r.
    - by rewrite Hx. }
  intros at_ granted dob rel name nv completion db' at2 granted2 dob2 rel2 name2 nv2
    (inv & link & Hf & _ & Hans & Hok)%complete_parent_request_inv.
  apply answer_invitation_spec in Hans as (_ & _ & Hinv); [|by apply db_wf_keyed].
  apply complete_parent_request_none; [done|]. rewrite Hinv.
  destruct (db_wf_keyed ConsentInvitations db Hwf) as [Hnd _].
  apply findb_Some in Hf as Hf'. destruct Hf' as [_ Hin].
  assert (findb (by_digest digest) (update_list (λ i : ConsentInvitation, inv_id i == inv_id inv)
    (λ _, inv <| inv_accepted_at := Some at_ |>) (db_tables db ConsentInvitations))
    = Some (inv <| inv_accepted_at := Some at_ |>)) as ->; [|done].
  set (inv' := inv <| inv_accepted_at := Some at_ |>).
  transitivity ((λ i, if inv_id i == inv_id inv then inv' else i)
    <$> findb (by_digest digest) (db_tables db ConsentInvitations)).
  { exact (findb_save_keyed ConsentInvitations (by_digest digest) _ inv inv' Hnd Hin eq_refl). }
  rewrite Hf. simpl. by rewrite bool_decide_true.
Qed.
End Records.
