(* ===== verification/ConsentDecisions.v ===== *)
(** * Decisions only evolve

    A consent decision, once recorded, is never taken again: through any
    sequence of the repository's operations a confirmed consent can only be
    withdrawn, by its parent, and a withdrawn one stays withdrawn. *)

From Stdlib Require Import String.
From S2P Require Import Prelude Relational Text Vocabulary Schema Fixtures Crypto Notices AgeAssurance ConsentExpiry ConsentRepo ConsentFacts.

Local Open Scope string_scope.
Local Open Scope Z_scope.
Local Open Scope nevo_scope.

(** ** The operations of the repository *)

Inductive repository_op :=
| OpConfirmBySchool (school_id student_id : uuid) (consent_types : gset ConsentType)
    (confirmed_by_user_id : uuid) (confirmed_via : ConsentMethod) (confirmed_at : datetime)
| OpCreateParentRequest (draft : ParentConsentRequestDraft)
| OpCompleteParentRequest (token_digest : string) (completed_at : datetime)
    (granted_types : gset ConsentType) (child_date_of_birth : option date)
    (parent_relationship parent_name notice_version : option string)
| OpActivateParentAccount (token_digest password_hash : string) (now : datetime)
| OpParentForLogin (contact : string) (token_digest : option string)
| OpEnsurePending (student_id : uuid) (consent_types : gset ConsentType)
| OpExerciseParentRight (token_digest : string) (request_type : ParentRightType)
    (reason : option string) (now : datetime).

Definition run_op `{Crypto} (op : repository_op) (db : Database) : Database :=
  match op with
  | OpConfirmBySchool a b c d e f => snd (confirm_by_school a b c d e f db)
  | OpCreateParentRequest d => snd (create_parent_request d db)
  | OpCompleteParentRequest a b c d e f g => snd (complete_parent_request a b c d e f g db)
  | OpActivateParentAccount a b c => snd (activate_parent_account a b c db)
  | OpParentForLogin a b => snd (parent_for_login a b db)
  | OpEnsurePending a b => snd (ensure_pending a b db)
  | OpExerciseParentRight a b c d => snd (exercise_parent_right a b c d db)
  end.

Definition is_withdrawal (op : repository_op) : bool :=
  match op with OpExerciseParentRight _ WITHDRAW_CONSENT _ _ => true | _ => false end.

(** ** How a decision may evolve *)

Definition decided_status (s : ConsentStatus) : bool := (s == CONFIRMED) || (s == WITHDRAWN).

(** A later record of the same decision: who confirmed, when and how are never
    rewritten, and only a confirmed consent can become withdrawn. *)
Definition later_decision (r r' : ConsentRecord) : Prop :=
  cr_id r' = cr_id r ∧ cr_confirmed_at r' = cr_confirmed_at r ∧
  cr_confirmed_via r' = cr_confirmed_via r ∧
  cr_confirmation_source r' = cr_confirmation_source r ∧
  cr_confirmed_by_admin_id r' = cr_confirmed_by_admin_id r ∧
  cr_confirmed_by_parent_id r' = cr_confirmed_by_parent_id r ∧
  (r' = r ∨ cr_status r = CONFIRMED ∧ cr_status r' = WITHDRAWN).

Lemma later_decision_refl r : later_decision r r.
Proof. by repeat split; auto. Qed.

Lemma later_decision_trans r1 r2 r3 :
  later_decision r1 r2 → later_decision r2 r3 → later_decision r1 r3.
Proof.
  intros (H0 & H1 & H2 & H3 & H4 & H5 & Hc) (H0' & H1' & H2' & H3' & H4' & H5' & Hc').
  unfold later_decision. split_and!; try congruence.
  destruct Hc as [->|[? ?]], Hc' as [->|[? ?]]; auto; congruence.
Qed.

Lemma later_decision_decided r r' :
  later_decision r r' → decided_status (cr_status r) = true → decided_status (cr_status r') = true.
Proof. intros (_ & _ & _ & _ & _ & _ & [->|[_ ->]]); done. Qed.

(** [D] relates a decision on file to the one that may replace it. *)
Definition evolves (D : ConsentRecord → ConsentRecord → Prop) (db db' : Database) : Prop :=
  keyed ConsentRecords db →
  keyed ConsentRecords db' ∧
  ∀ s t r, consent_of db s t = Some r → decided_status (cr_status r) = true →
    ∃ r', consent_of db' s t = Some r' ∧ D r r'.

Class Evolution (D : ConsentRecord → ConsentRecord → Prop) := {
  evolution_refl r : D r r;
  evolution_trans r1 r2 r3 : D r1 r2 → D r2 r3 → D r1 r3;
  evolution_decided r r' :
    D r r' → decided_status (cr_status r) = true → decided_status (cr_status r') = true
}.

#[export] Instance evolution_eq : Evolution (=).
Proof. split; [done | by intros ? ? ? -> -> | by intros ? ? <-]. Qed.

#[export] Instance evolution_later : Evolution later_decision.
Proof. split; [apply later_decision_refl | apply later_decision_trans | apply later_decision_decided]. Qed.

#[export] Instance evolves_preorder D `{!Evolution D} : PreOrder (evolves D).
Proof.
  split.
  - intros db Hk. split; [done|]. intros s t r Hr _. exists r. split; [done|apply evolution_refl].
  - intros db1 db2 db3 H12 H23 Hk. destruct (H12 Hk) as [Hk2 Hd2]. destruct (H23 Hk2) as [Hk3 Hd3].
    split; [done|]. intros s t r Hr Hd. destruct (Hd2 s t r Hr Hd) as (r2 & Hr2 & HD2).
    destruct (Hd3 s t r2 Hr2) as (r3 & Hr3 & HD3); [by eapply evolution_decided|].
    exists r3. split; [done|by eapply evolution_trans].
Qed.

Section Decisions.
Context `{Crypto} (D : ConsentRecord → ConsentRecord → Prop) `{!Evolution D}.

(** Steps that leave the consent table alone. *)
Lemma obeys_other_tables {A} (m : M A) :
  frames (all_but ConsentRecords) m → (∀ n, keeps (issued n) m) → obeys (evolves D) m.
Proof.
  intros Hfr Hiss db a db' Hrun Hk.
  destruct (after_frame _ m ConsentRecords db a db' Hfr Hiss) as [Hk' Htab]; try done.
  { rewrite elem_of_all_but. by intros []. }
  split; [done|]. intros s t r Hr _. exists r. split; [|apply evolution_refl].
  by rewrite (consent_of_tables db db').
Qed.

(** A touch that respects decisions. *)
Lemma obeys_touch {A} c f (yes no : ConsentRecord → A) s t :
  keeps_key f →
  (∀ r, decided_status (cr_status r) = true → c (Some (cr_status r)) = true → D r (f r)) →
  obeys (evolves D) (touch c f yes no s t).
Proof.
  intros Hf HD db a db' Hrun Hk.
  destruct (touch_consent_run c f yes no s t db Hf Hk) as (r & db1 & Hrun1 & Hk1 & _ & Hsame & Hof & Hr).
  rewrite Hrun1 in Hrun. injection Hrun as _ <-. split; [done|].
  intros s' t' r0 Hr0 Hd. destruct (decide ((s', t') = (s, t))) as [[= -> ->]|Hne].
  - exists r. split; [done|]. unfold touched in Hr. rewrite Hr0 in Hr. rewrite Hr.
    destruct (c (Some (cr_status r0))) eqn:Hc; [auto|apply evolution_refl].
  - exists r0. split; [by rewrite Hsame|apply evolution_refl].
Qed.

Lemma obeys_ensure_pending_record s t : obeys (evolves D) (ensure_pending_record s t).
Proof.
  intros db a db' Hrun Hk.
  destruct (ensure_pending_record_run s t db Hk) as (r & db1 & Hrun1 & Hk1 & Hof & Hr & Hsame & _).
  rewrite Hrun1 in Hrun. injection Hrun as _ <-. split; [done|].
  intros s' t' r0 Hr0 _. exists r0. split; [|apply evolution_refl].
  destruct (decide ((s', t') = (s, t))) as [[= -> ->]|Hne]; [|by rewrite Hsame].
  rewrite Hr0 in Hr. by subst r.
Qed.

Lemma obeys_touch_open {A} f (yes no : ConsentRecord → A) s t c :
  keeps_key f → (∀ st, decided_status st = true → c (Some st) = false) →
  obeys (evolves D) (touch c f yes no s t).
Proof. intros Hf Hc. apply obeys_touch; [done|]. intros r Hr. by rewrite Hc. Qed.
End Decisions.

#[export] Hint Extern 3 (obeys (evolves _) _) =>
  apply obeys_other_tables; [typeclasses eauto|solve [frames_tac]|intros ?; solve [keeps_tac]] : obeys.
#[export] Hint Extern 1 (obeys (evolves _) (ensure_pending_record _ _)) =>
  apply obeys_ensure_pending_record; typeclasses eauto : obeys.

(** ** Every operation *)

Section Operations.
Context `{Crypto} (D : ConsentRecord → ConsentRecord → Prop) `{!Evolution D}.

Lemma frames_parent_for_link' link : frames (all_but ConsentRecords) (parent_for_link link).
Proof. unfold parent_for_link. frames_tac. Qed.

Lemma obeys_parent_for_link link : obeys (evolves D) (parent_for_link link).
Proof.
  apply obeys_other_tables; [done|apply frames_parent_for_link'|intros; apply keeps_issued_parent_for_link].
Qed.

Lemma obeys_record_parent_date school s dob now :
  obeys (evolves D) (record_parent_date school s dob now).
Proof.
  apply obeys_other_tables; [done| |intros; apply keeps_issued_record_parent_date].
  eapply frames_weaken; [apply frames_record_parent_date|].
  intros t Ht. apply elem_of_all_but. intros ->. set_solver.
Qed.

Lemma obeys_confirm_one s u via at_ t : obeys (evolves D) (confirm_one_by_school s u via at_ t).
Proof.
  change (confirm_one_by_school s u via at_ t) with
    (touch is_pending (λ r, school_confirmation r u via at_) id id s t).
  by apply obeys_touch_open; [|done|intros []].
Qed.

Lemma obeys_grant_one s p at_ rel nv name acc t :
  obeys (evolves D) (grant_one s p at_ rel nv name acc t).
Proof.
  rewrite grant_one_touch. apply obeys_touch_open; [done|apply keeps_key_parent_confirmation|by intros []].
Qed.

Lemma obeys_decline_one s p at_ acc t : obeys (evolves D) (decline_one s p at_ acc t).
Proof. rewrite decline_one_touch. apply obeys_touch_open; [done|by intros r|by intros []]. Qed.

Lemma obeys_notify_pending school s name :
  obeys (evolves D) (notify_school_of_pending_consent school s name).
Proof.
  unfold notify_school_of_pending_consent, notify_each, notify.
  apply obeys_other_tables; [done|frames_tac|intros; keeps_tac].
Qed.

#[local] Hint Resolve obeys_parent_for_link obeys_record_parent_date obeys_confirm_one obeys_grant_one
  obeys_decline_one obeys_notify_pending : obeys.
#[local] Hint Extern 1 (obeys (evolves D) (ensure_pending_record _ _)) =>
  apply obeys_ensure_pending_record; exact _ : obeys.

Lemma obeys_create_parent_request_body draft : obeys (evolves D) (create_parent_request_body draft).
Proof.
  unfold create_parent_request_body, require_student, already_refused, upsert_parent_link, flush_.
  obeys_tac.
Qed.

Lemma obeys_answer_invitation inv link at_ granted dob rel name nv :
  obeys (evolves D) (answer_invitation inv link at_ granted dob rel name nv).
Proof. unfold answer_invitation, invitation_types, flush_. obeys_tac. Qed.

Lemma begin_obeys {A} (m : M A) db : obeys (evolves D) m → evolves D db (snd (begin_ m db)).
Proof. intros Hm. exact (transaction_obeys (evolves D) IntegrityError m db _ Hm). Qed.

Lemma try_begin_obeys {A} (m : M A) db :
  obeys (evolves D) m → evolves D db (snd (try_except (begin_ m) conflict_on_integrity_error db)).
Proof.
  intros Hm. pose proof (begin_obeys m db Hm) as Hb. unfold try_except.
  destruct (begin_ m db) as [[e|a] db']; [|done]. by destruct e.
Qed.

(** Every operation but a withdrawal leaves decisions as they are. *)
Lemma run_op_evolves op db : is_withdrawal op = false → evolves D db (run_op op db).
Proof.
  intros Hop. destruct op as [school s ts u via at_|draft|digest at_ granted dob rel name nv|
    digest hash now|contact digest|s ts|digest kind reason now]; simpl.
  - apply begin_obeys. unfold require_student, flush_. obeys_tac.
  - apply try_begin_obeys, obeys_create_parent_request_body.
  - apply try_begin_obeys. unfold complete_parent_request.
    obeys_tac; try apply obeys_answer_invitation.
  - apply begin_obeys. unfold unrevoked_invitation, flush_. obeys_tac.
  - apply begin_obeys. unfold parent_by_token, parent_by_contact, unrevoked_invitation, flush_. obeys_tac.
  - apply begin_obeys. obeys_tac.
  - apply begin_obeys. unfold unrevoked_invitation, rights_holder, flush_.
    assert (kind == WITHDRAW_CONSENT = false) as -> by (by destruct kind). obeys_tac.
Qed.
End Operations.

(** ** Withdrawal *)

Definition withdrawn_record (parent_id : uuid) (now : datetime) (r : ConsentRecord) : ConsentRecord :=
  r <| cr_status := WITHDRAWN |> <| cr_last_actor_user_id := Some parent_id |>
    <| cr_last_changed_at := Some now |> <| cr_last_channel := Some "parent_portal" |>.

Section Withdrawal.
Context `{Crypto}.

Lemma obeys_withdraw_learning_consent s p now :
  obeys (evolves later_decision) (withdraw_learning_consent s p now).
Proof.
  unfold withdraw_learning_consent. obeys_step; [solve [eauto with obeys]|].
  obeys_step; [case_match; eauto with obeys|].
  intros db [] db' Hrun.
  assert (touch (λ st, st != Some WITHDRAWN) (withdrawn_record p now) (λ _, tt) (λ _, tt)
    s REQUIRED_LEARNING_CONSENT db = (inr tt, db')) as Htouch.
  { unfold touch. apply bind_inv_inr in Hrun as ([r st] & db1 & Hens & Hrun).
    erewrite bind_inr by exact Hens. revert Hrun. cbv beta iota.
    destruct (st != Some WITHDRAWN); intros Hrun; [|exact Hrun].
    erewrite bind_inr by exact Hrun. done. }
  revert Htouch. apply (obeys_touch later_decision); [by intros r|].
  intros r Hd Hc. split_and!; try done. right. split; [|done].
  unfold decided_status in Hd. bool_to_prop. destruct (cr_status r); naive_solver.
Qed.

Lemma run_op_evolves_later op db : evolves later_decision db (run_op op db).
Proof.
  destruct (is_withdrawal op) eqn:Hop; [|by apply run_op_evolves; [typeclasses eauto|]].
  destruct op as [| | | | | |digest kind reason now]; try done. simpl.
  apply begin_obeys; [typeclasses eauto|]. unfold unrevoked_invitation, rights_holder, flush_.
  obeys_tac; first [by apply obeys_parent_for_link; typeclasses eauto
                   |apply obeys_withdraw_learning_consent].
Qed.

Definition run_ops (ops : list repository_op) (db : Database) : Database :=
  fold_left (λ d op, run_op op d) ops db.

Lemma run_ops_evolves D `{!Evolution D} ops db :
  (∀ op d, op ∈ ops → evolves D d (run_op op d)) → evolves D db (run_ops ops db).
Proof.
  unfold run_ops. revert db. induction ops as [|op ops IH]; intros db Hop; simpl; [done|].
  transitivity (run_op op db); [apply Hop; set_solver|]. apply IH. intros op' d Hin. apply Hop. set_solver.
Qed.

(** C1: through any sequence of repository operations, in any order and whether they succeed
    or fail, a consent that was decided keeps its evidence: who confirmed it, how and when
    never change, a confirmed consent can at most become withdrawn, a withdrawn one stays
    withdrawn, and without a withdrawal request the record is not touched at all. *)
Theorem decisions_only_evolve ops db s t r :
  db_wf db → consent_of db s t = Some r → decided_status (cr_status r) = true →
  ∃ r', consent_of (run_ops ops db) s t = Some r' ∧ later_decision r r' ∧
    ((∀ op, op ∈ ops → is_withdrawal op = false) → r' = r).
Proof.
  intros Hwf Hr Hd. pose proof (db_wf_keyed ConsentRecords db Hwf) as Hk.
  destruct (run_ops_evolves later_decision ops db (λ op d _, run_op_evolves_later op d) Hk)
    as [_ Hev].
  destruct (Hev s t r Hr Hd) as (r' & Hr' & Hlater). exists r'. split_and!; [done|done|].
  intros Hno. destruct (run_ops_evolves (=) ops db (λ op d Hin, run_op_evolves (=) op d (Hno op Hin)) Hk)
    as [_ Heq].
  destruct (Heq s t r Hr Hd) as (r2 & Hr2 & <-). congruence.
Qed.
End Withdrawal.

(** ** The school's confirmation *)

Section School.
Context `{Crypto}.

Definition confirmed_or_left (st : option ConsentStatus) : ConsentStatus :=
  match st with Some PENDING => CONFIRMED | Some s => s | None => PENDING end.

Lemma confirmed_or_left_Some st :
  confirmed_or_left (Some st) = if Some st == Some PENDING then CONFIRMED else st.
Proof. by destruct st. Qed.

Lemma confirm_one_run s u via at_ t db :
  keyed ConsentRecords db →
  ∃ r db', confirm_one_by_school s u via at_ t db = (inr r, db') ∧
    keyed ConsentRecords db' ∧ same_consents_but s t db db' ∧ consent_of db' s t = Some r ∧
    cr_status r = confirmed_or_left (status_of db s t) ∧
    (status_of db s t = Some PENDING →
      cr_confirmation_source r = Some SOURCE_SCHOOL ∧ cr_confirmed_by_admin_id r = Some u ∧
      cr_confirmed_via r = Some via ∧ cr_confirmed_at r = Some at_).
Proof.
  intros Hk. change (confirm_one_by_school s u via at_ t) with
    (touch is_pending (λ r, school_confirmation r u via at_) id id s t).
  destruct (touch_consent_run is_pending (λ r, school_confirmation r u via at_) id id s t db)
    as (r & db' & Hrun & Hk' & _ & Hsame & Hof & Hr); [by intros r|done|].
  exists r, db'. split_and!; try done.
  - rewrite Hrun. by destruct (is_pending _).
  - unfold touched, is_pending, status_of in *. destruct (consent_of db s t) as [r0|].
    + change (cr_status <$> Some r0) with (Some (cr_status r0)).
      rewrite confirmed_or_left_Some, Hr. by destruct (_ == _).
    + by destruct Hr as [i ->].
  - unfold touched, is_pending, status_of in *. destruct (consent_of db s t) as [r0|]; [|done].
    intros [= Hs]. rewrite Hr, bool_decide_true by (by f_equal). done.
Qed.

Lemma confirm_all_run s u via at_ ts db :
  keyed ConsentRecords db → NoDup ts →
  ∃ rs db', map_each ts (confirm_one_by_school s u via at_) db = (inr rs, db') ∧
    keyed ConsentRecords db' ∧
    (∀ t, t ∈ ts → ∃ r, r ∈ rs ∧ consent_of db' s t = Some r ∧
       cr_status r = confirmed_or_left (status_of db s t) ∧
       (status_of db s t = Some PENDING →
         cr_confirmation_source r = Some SOURCE_SCHOOL ∧ cr_confirmed_by_admin_id r = Some u ∧
         cr_confirmed_via r = Some via ∧ cr_confirmed_at r = Some at_)) ∧
    (∀ s' t', s' ≠ s ∨ t' ∉ ts → consent_of db' s' t' = consent_of db s' t').
Proof.
  revert db. induction ts as [|t ts IH]; intros db Hk Hnd; simpl.
  { exists [], db. split_and!; try done. set_solver. }
  apply NoDup_cons in Hnd as [Ht Hnd].
  destruct (confirm_one_run s u via at_ t db Hk) as (r & db1 & Hrun & Hk1 & Hsame & Hof & Hst & Hev).
  destruct (IH db1 Hk1 Hnd) as (rs & db2 & Hrun2 & Hk2 & Hts & Hoth).
  exists (r :: rs), db2. split_and!; [|done|..].
  - erewrite bind_inr by exact Hrun. by erewrite bind_inr by exact Hrun2.
  - intros t' [->|Ht']%elem_of_cons.
    + exists r. rewrite Hoth by auto. split_and!; [left|done..].
    + destruct (Hts t' Ht') as (r' & Hin & Hof' & Hst' & Hev'). exists r'.
      assert (status_of db1 s t' = status_of db s t') as Heq.
      { unfold status_of. rewrite Hsame; [done|]. by intros [= ->]. }
      rewrite Heq in Hst', Hev'. split_and!; [by right|done..].
  - intros s' t' Hor. rewrite Hoth, Hsame; [done|..].
    + intros [= -> ->]. destruct Hor as [Hor|Hor]; [done|]. set_solver.
    + destruct Hor; [auto|]. right. set_solver.
Qed.

(** The school's confirmation. Only a learner of the school that is not deactivated can be
    confirmed; of the consents named, exactly those on file as pending become confirmed, with
    the school, the administrator, the method and the time as evidence, and every other
    decision stands. A consent that had no record is added and left pending. *)
Theorem school_confirms_pending_records school s ts u via at_ db views db' :
  db_wf db →
  confirm_by_school school s ts u via at_ db = (inr views, db') →
  (∃ user, user ∈ db_tables db Users ∧ user_id user = s ∧ user_school_id user = Some school ∧
     user_role user = STUDENT ∧ user_status user ≠ DEACTIVATED) ∧
  (∀ t, t ∈ ts → status_of db' s t = Some (confirmed_or_left (status_of db s t))) ∧
  (∀ t, t ∈ ts → status_of db s t = Some PENDING →
     ∃ r, consent_of db' s t = Some r ∧ consent_view r ∈ views ∧
       cr_confirmation_source r = Some SOURCE_SCHOOL ∧ cr_confirmed_by_admin_id r = Some u ∧
       cr_confirmed_via r = Some via ∧ cr_confirmed_at r = Some at_) ∧
  (∀ s' t, s' ≠ s ∨ t ∉ ts → consent_of db' s' t = consent_of db s' t).
Proof.
  intros Hwf Hrun. apply transaction_commit in Hrun as [Hrun _].
  apply bind_inv_inr in Hrun as ([] & db1 & Hreq & Hrun).
  unfold require_student in Hreq. apply bind_inv_inr in Hreq as (o & db2 & Hsel & Hreq).
  injection Hsel as <- <-. unfold guard_or in Hreq.
  destruct (is_some _) eqn:Hsome; [|done]. injection Hreq as <-.
  destruct (confirm_all_run s u via at_ (elements ts) db) as (rs & db3 & Hall & _ & Hts & Hoth);
    [by apply db_wf_keyed|apply NoDup_elements|].
  erewrite bind_inr in Hrun by exact Hall.
  apply bind_inv_inr in Hrun as ([] & db4 & Hfl & Hret). apply flush_run in Hfl as ->.
  injection Hret as <- <-. split_and!.
  - apply is_some_spec in Hsome as [user Huser]. apply findb_Some in Huser as [Hp Hin].
    bool_to_prop. by exists user.
  - intros t Ht%elem_of_elements. destruct (Hts t Ht) as (r & _ & Hof & Hst & _).
    unfold status_of at 1. rewrite Hof. by rewrite <- Hst.
  - intros t Ht%elem_of_elements Hp. destruct (Hts t Ht) as (r & Hin & Hof & _ & Hev).
    destruct (Hev Hp) as (? & ? & ? & ?). exists r. split_and!; try done. by apply list_elem_of_fmap_2.
  - intros s' t Hor. apply Hoth. destruct Hor; [auto|]. right. by rewrite elem_of_elements.
Qed.
End School.

(** ** The right to withdraw *)

Section Rights.
Context `{Crypto}.

(** The parent's own live link, with an account behind it. *)
Definition holds_link (db : Database) (digest : string) (now : datetime) (link : ParentLink)
    (parent : uuid) : Prop :=
  ∃ inv, findb (λ i : ConsentInvitation, (inv_token_digest i == digest) && is_none (inv_revoked_at i))
           (db_tables db ConsentInvitations) = Some inv ∧
    now < inv_expires_at inv ∧
    findb (λ l : ParentLink, link_id l == inv_parent_link_id inv) (db_tables db ParentLinks) = Some link ∧
    link_parent_id link = Some parent.

Definition right_request (db : Database) (link : ParentLink) (parent : uuid)
    (kind : ParentRightType) (reason : option string) : ParentDataRequest :=
  (new_ParentDataRequest (db_uuids db) (link_student_id link) parent (value kind) (db_now db))
    <| pdr_reason := reason |>.

(** The database once the request is on record. *)
Definition requested (db : Database) (r : ParentDataRequest) : Database :=
  set_table ParentDataRequests (db_tables db ParentDataRequests ++ [r])%list
    (mkDb (db_tables db) (db_uuids db + 1) (db_now db)).

Lemma exercise_right_run digest kind reason now db link p :
  holds_link db digest now link p →
  exercise_parent_right digest kind reason now db =
  begin_ (λ _,
    ((if kind == WITHDRAW_CONSENT then withdraw_learning_consent (link_student_id link) p now
      else mret tt);;
     flush_;;
     mret (Some (mkRightOutcome (db_uuids db) kind "open" (opt_truthy reason))))
    (requested db (right_request db link p kind reason))) db.
Proof.
  intros (inv & Hinv & Hexp & Hlink & Hp). unfold exercise_parent_right, begin_, transaction.
  erewrite bind_inr by reflexivity.
  change (findb _ _) with (findb (λ i : ConsentInvitation, (inv_token_digest i == digest) &&
    is_none (inv_revoked_at i)) (db_tables db ConsentInvitations)).
  rewrite Hinv. apply Z.leb_gt in Hexp. rewrite Hexp. erewrite bind_inr by reflexivity.
  change (findb _ _) with (findb (λ l : ParentLink, link_id l == inv_parent_link_id inv)
    (db_tables db ParentLinks)).
  rewrite Hlink. unfold rights_holder. rewrite Hp. reflexivity.
Qed.

Definition suspended (u : User) (now : datetime) : User :=
  u <| user_status := DEACTIVATED |> <| user_deactivated_at := Some now |>.

Definition suspend_student (s : uuid) (now : datetime) (db : Database) : Database :=
  match findb (λ u : User, user_id u == s) (db_tables db Users) with
  | Some u => set_table Users (update_list (λ r : User, user_id r == user_id u)
                (λ _, suspended u now) (db_tables db Users)) db
  | None => db
  end.

Lemma suspend_student_other s now db t :
  t ≠ Users → db_tables (suspend_student s now db) t = db_tables db t.
Proof. intros Ht. unfold suspend_student. case_match; [by rewrite set_table_ne|done]. Qed.

Lemma suspend_student_users s now db u :
  findb (λ u : User, user_id u == s) (db_tables db Users) = Some u →
  db_tables (suspend_student s now db) Users =
    update_list (λ r : User, user_id r == user_id u) (λ _, suspended u now) (db_tables db Users).
Proof. intros Hu. unfold suspend_student. by rewrite Hu, set_table_eq. Qed.

Lemma requested_other db r t :
  t ≠ ParentDataRequests → db_tables (requested db r) t = db_tables db t.
Proof. intros Ht. unfold requested. by rewrite set_table_ne. Qed.

Lemma withdraw_run s p now db :
  withdraw_learning_consent s p now db =
  ('(consent, status) ← ensure_pending_record s REQUIRED_LEARNING_CONSENT;
   if status != Some WITHDRAWN then save ConsentRecords (withdrawn_record p now consent)
   else mret tt) (suspend_student s now db).
Proof.
  unfold withdraw_learning_consent, suspend_student. erewrite bind_inr by reflexivity.
  change (findb _ _) with (findb (λ u : User, user_id u == s) (db_tables db Users)).
  destruct (findb _ _) as [u|]; by erewrite bind_inr by reflexivity.
Qed.

(** A record whose status and evidence do not agree fails the commit. *)
Lemma bad_record_not_ok db r :
  r ∈ db_tables db ConsentRecords → consent_row_ok r = false → db_ok db = false.
Proof.
  intros Hin Hbad. apply not_true_iff_false. rewrite db_ok_spec. intros Hok.
  specialize (Hok ConsentRecords). simpl in Hok. unfold consent_records_ok in Hok. bool_to_prop.
  rewrite forallb_forall in H2. rewrite (H2 r) in Hbad; [done|by apply list_elem_of_In].
Qed.

Lemma open_record_has_no_source r :
  consent_row_ok r = true → decided_status (cr_status r) = false → cr_confirmation_source r = None.
Proof.
  unfold consent_row_ok, confirmation_fields_match_status, decided_status. intros Hok Hd.
  destruct (cr_status r); try done; bool_to_prop; done.
Qed.

Lemma withdraw_touch s p now db :
  withdraw_learning_consent s p now db =
  touch (λ st, st != Some WITHDRAWN) (withdrawn_record p now) (λ _, tt) (λ _, tt)
    s REQUIRED_LEARNING_CONSENT (suspend_student s now db).
Proof.
  rewrite withdraw_run. unfold touch. rewrite !bind_run.
  destruct (ensure_pending_record _ _ _) as [[e|[r st]] d]; [done|].
  destruct (st != Some WITHDRAWN); reflexivity.
Qed.

Lemma withdrawn_without_source_not_ok p now r :
  cr_confirmation_source r = None → consent_row_ok (withdrawn_record p now r) = false.
Proof.
  intros Hsrc. unfold consent_row_ok, confirmation_fields_match_status.
  assert (cr_status (withdrawn_record p now r) = WITHDRAWN) as -> by done.
  assert (cr_confirmation_source (withdrawn_record p now r) = None) as -> by exact Hsrc.
  by rewrite andb_false_r.
Qed.

Lemma keyed_requested db r s now : keyed ConsentRecords db →
  keyed ConsentRecords (suspend_student s now (requested db r)).
Proof.
  intros [Hnd Hlt]. unfold keyed, Relational.keyed. rewrite suspend_student_other by done.
  assert (db_uuids (suspend_student s now (requested db r)) = db_uuids db + 1) as ->
    by (unfold suspend_student; case_match; done).
  unfold requested. rewrite set_table_ne by done. split; [done|].
  intros x Hx. specialize (Hlt x Hx). lia.
Qed.

(** Withdrawing a consent that was never confirmed does not work: the record would claim a
    withdrawal with no confirmation behind it, the constraint on the table refuses it, and the
    request is lost with it: the learner is not suspended and nothing is on record. *)
Theorem withdrawal_before_confirmation_is_refused digest reason now db link p :
  db_wf db → holds_link db digest now link p →
  match status_of db (link_student_id link) REQUIRED_LEARNING_CONSENT with
  | Some st => decided_status st = false
  | None => True
  end →
  exercise_parent_right digest WITHDRAW_CONSENT reason now db = (inl IntegrityError, db).
Proof.
  intros Hwf Hlink Hst. rewrite (exercise_right_run _ _ _ _ _ _ _ Hlink).
  set (req := right_request db link p WITHDRAW_CONSENT reason).
  set (s := link_student_id link) in *.
  pose proof (keyed_requested db req s now (db_wf_keyed ConsentRecords db Hwf)) as Hk.
  destruct (touch_consent_run (λ st, st != Some WITHDRAWN) (withdrawn_record p now) (λ _, tt) (λ _, tt) s
    REQUIRED_LEARNING_CONSENT _ (λ r, ltac:(done)) Hk) as (r & d & Hrun & _ & _ & _ & Hof & Hr).
  assert (consent_of (suspend_student s now (requested db req)) s REQUIRED_LEARNING_CONSENT =
          consent_of db s REQUIRED_LEARNING_CONSENT) as Heq.
  { apply consent_of_tables. rewrite suspend_student_other by done. unfold requested.
    by rewrite set_table_ne. }
  unfold status_of in *. rewrite Heq in Hrun, Hr.
  assert (consent_row_ok r = false) as Hbad.
  { unfold touched in Hr. destruct (consent_of db s _) as [r0|] eqn:Hr0.
    - change (cr_status <$> Some r0) with (Some (cr_status r0)) in Hst.
      rewrite Hr. destruct (Some (cr_status r0) != Some WITHDRAWN) eqn:Hc.
      + apply withdrawn_without_source_not_ok, open_record_has_no_source; [|done].
        destruct Hwf as [Hok _]. apply not_false_iff_true. intros Hno.
        apply consent_of_Some in Hr0 as (_ & _ & Hin).
        by rewrite (bad_record_not_ok db r0) in Hok.
      + exfalso. apply negb_false_iff, bool_decide_eq_true in Hc. injection Hc as Hc. by rewrite Hc in Hst.
    - destruct Hr as [i ->]. by apply withdrawn_without_source_not_ok. }
  unfold begin_, transaction. rewrite bool_decide_true by done.
  rewrite bind_run, withdraw_touch, Hrun. rewrite bind_run. unfold flush_, flush.
  apply consent_of_Some in Hof as (_ & _ & Hin). by rewrite (bad_record_not_ok d r).
Qed.

Lemma requested_ok db r : db_wf db → pdr_id r = db_uuids db → db_ok (requested db r) = true.
Proof.
  intros [Hok Hfresh] Hid. unfold requested. apply db_ok_set_table; [exact Hok|].
  rewrite db_ok_spec in Hok. simpl. specialize (Hok ParentDataRequests).
  by apply (primary_key_fresh ParentDataRequests pdr_id).
Qed.

Lemma suspend_student_ok s now db : db_ok db = true → db_ok (suspend_student s now db) = true.
Proof.
  intros Hok. unfold suspend_student. destruct (findb _ _) as [u|] eqn:Hu; [|done].
  apply db_ok_set_table; [done|]. rewrite db_ok_spec in Hok. specialize (Hok Users).
  apply findb_Some in Hu as [_ Hin]. by apply users_ok_save.
Qed.

Lemma withdrawn_confirmed_ok p now r :
  consent_row_ok r = true → cr_status r = CONFIRMED → consent_row_ok (withdrawn_record p now r) = true.
Proof.
  intros Hok Hst. unfold consent_row_ok, confirmation_fields_match_status in Hok. rewrite Hst in Hok.
  exact Hok.
Qed.

(** A confirmed consent can always be withdrawn by the parent: the request is accepted and
    recorded, the consent becomes withdrawn, and the learner's account is deactivated. *)
Theorem confirmed_consent_can_be_withdrawn digest reason now db link p r u :
  db_wf db → holds_link db digest now link p →
  consent_of db (link_student_id link) REQUIRED_LEARNING_CONSENT = Some r →
  cr_status r = CONFIRMED →
  findb (λ u : User, user_id u == link_student_id link) (db_tables db Users) = Some u →
  ∃ outcome db', exercise_parent_right digest WITHDRAW_CONSENT reason now db = (inr (Some outcome), db') ∧
    status_of db' (link_student_id link) REQUIRED_LEARNING_CONSENT = Some WITHDRAWN ∧
    suspended u now ∈ db_tables db' Users ∧
    right_request db link p WITHDRAW_CONSENT reason ∈ db_tables db' ParentDataRequests.
Proof.
  intros Hwf Hlink Hr Hst Hu. rewrite (exercise_right_run _ _ _ _ _ _ _ Hlink).
  set (req := right_request db link p WITHDRAW_CONSENT reason).
  set (s := link_student_id link) in *. set (db1 := suspend_student s now (requested db req)).
  assert (db_tables db1 ConsentRecords = db_tables db ConsentRecords) as Hrec.
  { unfold db1, requested. by rewrite suspend_student_other, set_table_ne by done. }
  assert (consent_of db1 s REQUIRED_LEARNING_CONSENT = Some r) as Hr1
    by (by rewrite (consent_of_tables db)).
  pose proof (keyed_requested db req s now (db_wf_keyed ConsentRecords db Hwf)) as Hk.
  assert (withdraw_learning_consent s p now (requested db req) =
    (inr tt, snd (save ConsentRecords (withdrawn_record p now r) db1))) as Hrun.
  { rewrite withdraw_run. erewrite bind_inr;
      [|unfold ensure_pending_record; erewrite bind_inr by apply consent_for_update_run;
        fold db1; rewrite Hr1; reflexivity].
    cbv beta iota. rewrite Hst. reflexivity. }
  destruct (consent_of_save db1 s REQUIRED_LEARNING_CONSENT r (withdrawn_record p now r) Hk Hr1)
    as [Hof _]; [done|by apply consent_of_Some in Hr as (? & ? & ?)..|].
  set (db2 := snd (save ConsentRecords (withdrawn_record p now r) db1)) in *.
  assert (db_ok db2 = true) as Hok.
  { destruct Hwf as [Hok Hfresh]. apply db_ok_set_table.
    - apply suspend_student_ok, requested_ok; [done|reflexivity].
    - rewrite Hrec. apply consent_of_Some in Hr as (_ & _ & Hin). rewrite db_ok_spec in Hok.
      specialize (Hok ConsentRecords). apply (consent_records_ok_save _ r); try done.
      apply withdrawn_confirmed_ok; [|done]. simpl in Hok. unfold consent_records_ok in Hok. bool_to_prop.
      rewrite forallb_forall in H2. by apply H2, list_elem_of_In. }
  unfold begin_, transaction. rewrite bool_decide_true by done. rewrite bind_run, Hrun, bind_run.
  unfold flush_, flush. rewrite Hok, ret_run, Hok. eexists _, db2. split; [done|].
  split; [|split].
  - unfold status_of. by rewrite Hof.
  - unfold db2. change (db_tables (snd _) Users) with (db_tables
      (set_table ConsentRecords (update_list (λ x : ConsentRecord, cr_id x == cr_id r)
        (λ _, withdrawn_record p now r) (db_tables db1 ConsentRecords)) db1) Users).
    rewrite set_table_ne by done. unfold db1.
    rewrite (suspend_student_users _ _ _ u) by (by rewrite requested_other).
    rewrite requested_other by done. apply findb_Some in Hu as [_ Hin].
    apply elem_of_update_list. exists u. by rewrite bool_decide_true.
  - unfold db2. change (db_tables (snd _) ParentDataRequests) with (db_tables
      (set_table ConsentRecords (update_list (λ x : ConsentRecord, cr_id x == cr_id r)
        (λ _, withdrawn_record p now r) (db_tables db1 ConsentRecords)) db1) ParentDataRequests).
    rewrite set_table_ne by done. unfold db1, requested.
    rewrite suspend_student_other, set_table_eq by done. apply elem_of_app. right. by left.
Qed.
End Rights.

(** ** At the small school *)

#[local] Existing Instance Toy.crypto.

Definition tok_digest : string := "hmac256:pepper:parent-consent:tok".
Definition answer (db : Database) : (exn + option ParentConsentCompletion) * Database :=
  complete_parent_request tok_digest (day 1) {[DATA_PROCESSING]} (Some born) (Some "mother")
    (Some "Ngozi Obi") (Some "2026-09-v1") db.
Definition answered_db : Database := snd (answer asked_db).

Lemma asked_db_wf : db_wf asked_db.
Proof. apply db_wfb_spec. vm_compute. reflexivity. Qed.
Lemma answered_db_wf : db_wf answered_db.
Proof. apply db_wfb_spec. vm_compute. reflexivity. Qed.

Definition the_completion : ParentConsentCompletion :=
  match fst (answer asked_db) with
  | inr (Some c) => c
  | _ => mkCompletion 0 0 0 0 ∅ 0 ∅ MATCHED None
  end.

Lemma answer_runs : answer asked_db = (inr (Some the_completion), answered_db).
Proof.
  apply run_returns. unfold the_completion.
  assert (match fst (answer asked_db) with inr (Some _) => true | _ => false end = true) as Hrun
    by (vm_compute; reflexivity).
  destruct (fst (answer asked_db)) as [e|[c|]]; done.
Qed.

Lemma parent_answer_confirms_what_was_ticked_witness :
  ∃ inv, findb (by_digest tok_digest) (db_tables asked_db ConsentInvitations) = Some inv ∧
    done_student_id the_completion = inv_student_id inv ∧
    answered asked_db answered_db inv {[DATA_PROCESSING]} the_completion.
Proof. exact (parent_answer_confirms_what_was_ticked _ _ _ _ _ _ _ _ _ _ asked_db_wf answer_runs). Defined.

Lemma consent_link_is_single_use_witness :
  complete_parent_request tok_digest (day 2) ∅ None None None None answered_db = (inr None, answered_db).
Proof.
  exact (proj2 (consent_link_is_single_use tok_digest asked_db asked_db_wf)
    (day 1) {[DATA_PROCESSING]} (Some born) (Some "mother") (Some "Ngozi Obi") (Some "2026-09-v1")
    the_completion answered_db (day 2) ∅ None None None None answer_runs).
Defined.

(** The record the parent's answer left. *)
Definition the_consent : ConsentRecord :=
  match consent_of answered_db 2 DATA_PROCESSING with Some r => r | None => pending_record end.

Lemma the_consent_confirmed :
  consent_of answered_db 2 DATA_PROCESSING = Some the_consent ∧ cr_status the_consent = CONFIRMED.
Proof. split; vm_compute; reflexivity. Qed.

Lemma decisions_only_evolve_witness :
  let ops := [OpConfirmBySchool 1 2 {[DATA_PROCESSING]} 4 VERBAL (day 2);
              OpExerciseParentRight tok_digest WITHDRAW_CONSENT None (day 3);
              OpEnsurePending 2 {[DATA_PROCESSING]}] in
  ∃ r', consent_of (run_ops ops answered_db) 2 DATA_PROCESSING = Some r' ∧
    later_decision the_consent r' ∧ ((∀ op, op ∈ ops → is_withdrawal op = false) → r' = the_consent).
Proof.
  intros ops. apply (decisions_only_evolve ops answered_db 2 DATA_PROCESSING the_consent).
  - exact answered_db_wf.
  - exact (proj1 the_consent_confirmed).
  - vm_compute. reflexivity.
Defined.

Lemma school_confirms_pending_records_witness :
  ∃ views, let db' := snd (confirm_by_school 1 2 {[DATA_PROCESSING]} 4 VERBAL (day 2) asked_db) in
  (∃ user, user ∈ db_tables asked_db Users ∧ user_id user = 2 ∧ user_school_id user = Some 1 ∧
     user_role user = STUDENT ∧ user_status user ≠ DEACTIVATED) ∧
  (∀ t, t ∈ ({[DATA_PROCESSING]} : gset ConsentType) →
     status_of db' 2 t = Some (confirmed_or_left (status_of asked_db 2 t))) ∧
  (∀ t, t ∈ ({[DATA_PROCESSING]} : gset ConsentType) → status_of asked_db 2 t = Some PENDING →
     ∃ r, consent_of db' 2 t = Some r ∧ consent_view r ∈ (views : list ConsentRecordView) ∧
       cr_confirmation_source r = Some SOURCE_SCHOOL ∧ cr_confirmed_by_admin_id r = Some 4 ∧
       cr_confirmed_via r = Some VERBAL ∧ cr_confirmed_at r = Some (day 2)) ∧
  (∀ s' t, s' ≠ 2 ∨ t ∉ ({[DATA_PROCESSING]} : gset ConsentType) →
     consent_of db' s' t = consent_of asked_db s' t).
Proof.
  eexists. apply (school_confirms_pending_records 1 2 {[DATA_PROCESSING]} 4 VERBAL (day 2) asked_db).
  - exact asked_db_wf.
  - apply run_returns. vm_compute. reflexivity.
Defined.

Lemma answered_link : ∃ link, holds_link answered_db tok_digest (day 2) link 3 ∧ link_student_id link = 2.
Proof. eexists. split; [eexists; split_and!; vm_compute; reflexivity|reflexivity]. Qed.

Lemma confirmed_consent_can_be_withdrawn_witness :
  ∃ link outcome db',
    exercise_parent_right tok_digest WITHDRAW_CONSENT None (day 2) answered_db = (inr (Some outcome), db') ∧
    status_of db' (link_student_id link) REQUIRED_LEARNING_CONSENT = Some WITHDRAWN.
Proof.
  destruct answered_link as (link & Hlink & Hs).
  edestruct (confirmed_consent_can_be_withdrawn tok_digest None (day 2) answered_db link 3 the_consent)
    as (outcome & db' & Hrun & Hst & _); [exact answered_db_wf|exact Hlink|
    rewrite Hs; exact (proj1 the_consent_confirmed)|exact (proj2 the_consent_confirmed)|
    rewrite Hs; vm_compute; reflexivity|].
  exists link, outcome, db'. split; [exact Hrun|exact Hst].
Defined.

(** The parent has an account, and has not answered. *)
Definition unanswered_db : Database :=
  set_table ParentLinks [the_link <| link_parent_id := Some 3 |> <| link_account_created := true |>] asked_db.

Lemma withdrawal_before_confirmation_is_refused_witness :
  exercise_parent_right tok_digest WITHDRAW_CONSENT None (day 2) unanswered_db =
    (inl IntegrityError, unanswered_db).
Proof.
  eapply (withdrawal_before_confirmation_is_refused tok_digest None (day 2) unanswered_db).
  - apply db_wfb_spec. vm_compute. reflexivity.
  - eexists. split_and!; vm_compute; reflexivity.
  - vm_compute. reflexivity.
Defined.
