(* ===== verification/ConsentService.v ===== *)
(** * The consent service and the gate

    [src/nevo/consent/service.py] and [security.py]: the service is written
    against the repository and the token service as interfaces
    ([ConsentRepository], [ConsentTokenService], the Protocols of [ports.py]);
    [sqlalchemy_consent] and [HmacConsentTokenService] implement them. *)

From Stdlib Require Import String.
From S2P Require Import Prelude Relational Text Vocabulary Schema Fixtures Crypto Notices AgeAssurance ConsentExpiry AuthPolicies ConsentRepo ConsentFacts ConsentDecisions.

Local Open Scope string_scope.
Local Open Scope Z_scope.
Local Open Scope nevo_scope.

(** ** Interfaces *)

Class ConsentTokenService := {
  consent_issue : M (string * string);
  consent_digest : string → string;
  consent_issue_returns db : ∃ t db', consent_issue db = (inr (t, consent_digest t), db') ∧
    db_tables db' = db_tables db ∧ db_now db' = db_now db ∧ db_uuids db <= db_uuids db'
}.

Class ConsentRepository := {
  repo_confirm_by_school : uuid → uuid → gset ConsentType → uuid → ConsentMethod → datetime →
    M (list ConsentRecordView);
  repo_create_parent_request : ParentConsentRequestDraft → M QueuedParentConsentRequest;
  repo_complete_parent_request : string → datetime → gset ConsentType → option date →
    option string → option string → option string → M (option ParentConsentCompletion);
  repo_parent_invitation : string → datetime → M (option ParentInvitationView);
  repo_exercise_parent_right : string → ParentRightType → option string → datetime →
    M (option ParentRightOutcome);
  repo_activate_parent_account : string → string → datetime → M (option ParentAccount);
  repo_parent_for_login : string → option string → M (option ParentAccount);
  repo_children_for_parent : uuid → M (list ParentChildView);
  repo_parent_links : uuid → uuid → M (list ParentLinkView);
  repo_parent_rights_log : uuid → option uuid → option ParentRightType → Z → Z →
    M (list ParentRightLogEntry * Z);
  repo_consent_status : uuid → ConsentType → M ConsentStatus;
  repo_ensure_pending : uuid → gset ConsentType → M unit
}.

#[export] Instance sqlalchemy_consent `{Crypto} : ConsentRepository := {|
  repo_confirm_by_school := confirm_by_school;
  repo_create_parent_request := create_parent_request;
  repo_complete_parent_request := complete_parent_request;
  repo_parent_invitation := parent_invitation;
  repo_exercise_parent_right := exercise_parent_right;
  repo_activate_parent_account := activate_parent_account;
  repo_parent_for_login := parent_for_login;
  repo_children_for_parent := children_for_parent;
  repo_parent_links := parent_links;
  repo_parent_rights_log := parent_rights_log;
  repo_consent_status := consent_status;
  repo_ensure_pending := ensure_pending
|}.

Section HmacConsent.
Context `{Crypto} (pepper : string).

Definition hmac_consent_digest (token : string) : string :=
  hmac_sha256_hex pepper ("parent-consent:" ++ token).
Definition hmac_consent_issue : M (string * string) :=
  token ← draw token_urlsafe;
  mret (token, hmac_consent_digest token).

Program Definition HmacConsentTokenService : ConsentTokenService := {|
  consent_issue := hmac_consent_issue;
  consent_digest := hmac_consent_digest
|}.
Next Obligation. intros db. eexists _, _. split; [reflexivity|]. simpl. split_and!; [done..|lia]. Qed.
End HmacConsent.

(** ** The service *)

Definition PARENT_CONSENT_LIFETIME : timedelta := days 30.
Definition NOTICE_VERSION : string := "2026-09-v1".
Definition DEFAULT_REQUESTED_CONSENT : gset ConsentType := {[DATA_PROCESSING; CROSS_BORDER_TRANSFER]}.

(** [consent_types or DEFAULT_REQUESTED_CONSENT] *)
Definition required_types (consent_types : gset ConsentType) : gset ConsentType :=
  if consent_types == ∅ then DEFAULT_REQUESTED_CONSENT else consent_types.

Definition normalize_contact (contact : string) (method : ParentContactMethod) : exn + string :=
  let normalized := casefold (strip contact) in
  if negb (email_pattern normalized) then inl InvalidParentContactError else inr normalized.

Section ConsentService.
Context `{!ConsentRepository, !ConsentTokenService} (public_base_url : string) (now : datetime).

Definition service_confirm_by_school (actor : ConsentActor) (student_id : uuid)
    (consent_types : gset ConsentType) (confirmed_via : ConsentMethod)
  : M (list ConsentRecordView) :=
  if confirmed_via == DIGITAL then raise InvalidConsentMethodError
  else repo_confirm_by_school (actor_school_id actor) student_id (required_types consent_types)
         (actor_user_id actor) confirmed_via now.

Definition request_parent_consent (actor : ConsentActor) (student_id : uuid)
    (parent_name parent_contact : string) (contact_method : ParentContactMethod)
    (consent_types : gset ConsentType) : M QueuedParentConsentRequest :=
  let normalized_name := join " " (split_words parent_name) in
  normalized_contact ← lift (normalize_contact parent_contact contact_method);
  '(token, token_digest) ← consent_issue;
  invitation_id ← uuid4;
  parent_link_id ← uuid4;
  repo_create_parent_request {|
    draft_invitation_id := invitation_id; draft_parent_link_id := parent_link_id;
    draft_school_id := actor_school_id actor; draft_student_id := student_id;
    draft_parent_name := normalized_name; draft_parent_contact := normalized_contact;
    draft_contact_method := contact_method; draft_consent_types := required_types consent_types;
    draft_token_digest := token_digest;
    draft_consent_url := parent_consent_url (rstrip_slash public_base_url) token;
    draft_requested_by_user_id := actor_user_id actor; draft_created_at := now;
    draft_expires_at := now + PARENT_CONSENT_LIFETIME
  |}.

Definition complete_parent_consent (token : string) (granted_types : gset ConsentType)
    (child_date_of_birth : option date) (parent_relationship parent_name : option string)
  : M (option ParentConsentCompletion) :=
  repo_complete_parent_request (consent_digest token) now granted_types child_date_of_birth
    parent_relationship parent_name (Some NOTICE_VERSION).

Definition service_parent_invitation (token : string) : M (option ParentInvitationView) :=
  repo_parent_invitation (consent_digest token) now.

Definition service_exercise_parent_right (token : string) (request_type : ParentRightType)
    (reason : option string) : M (option ParentRightOutcome) :=
  repo_exercise_parent_right (consent_digest token) request_type
    (none_if_empty (strip (opt_str_or reason ""))) now.

Definition service_activate_parent_account (token password_hash : string) : M (option ParentAccount) :=
  repo_activate_parent_account (consent_digest token) password_hash now.

Definition service_parent_for_login (contact : string) (token : option string)
  : M (option ParentAccount) :=
  repo_parent_for_login contact
    (match token with Some t => if truthy t then Some (consent_digest t) else None | None => None end).

Definition service_children_for_parent (parent_id : uuid) : M (list ParentChildView) :=
  repo_children_for_parent parent_id.

Definition service_parent_links (actor : ConsentActor) (student_id : uuid) : M (list ParentLinkView) :=
  repo_parent_links (actor_school_id actor) student_id.

Definition service_parent_rights_log (actor : ConsentActor) (student_id : option uuid)
    (request_type : option ParentRightType) (limit offset : Z) : M (list ParentRightLogEntry * Z) :=
  repo_parent_rights_log (actor_school_id actor) student_id request_type
    (Z.min (Z.max limit 1) 100) (Z.max offset 0).

Definition student_gate (principal : AuthPrincipal) : M ConsentGate :=
  if principal_role principal != "student" then raise StudentConsentAccessError
  else
    status ← try_except (repo_consent_status (principal_user_id principal) REQUIRED_LEARNING_CONSENT)
      (λ e, if is_consent_error e then None else Some (raise ConsentUnavailableError));
    mret {| gate_student_id := principal_user_id principal;
            gate_granted := status == CONFIRMED; gate_blocked := status != CONFIRMED;
            gate_required_type := REQUIRED_LEARNING_CONSENT; gate_status := status |}.

Definition require_student_consent (principal : AuthPrincipal) : M ConsentGate :=
  gate ← student_gate principal;
  if gate_status gate == WITHDRAWN then raise ConsentWithdrawnError
  else if gate_status gate == PENDING then raise ConsentPendingError
  else if negb (gate_granted gate) then raise ConsentRequiredError
  else mret gate.

Definition initialize_roster_student (student_id : uuid) : M unit :=
  repo_ensure_pending student_id {[REQUIRED_LEARNING_CONSENT]}.
End ConsentService.

(** ** The gate *)

Section Gate.
Context `{!ConsentRepository}.

(** What the gate answers for each stored status. *)
Definition gate_verdict (student : uuid) (status : ConsentStatus) : exn + ConsentGate :=
  match status with
  | CONFIRMED => inr {| gate_student_id := student; gate_granted := true; gate_blocked := false;
                        gate_required_type := REQUIRED_LEARNING_CONSENT; gate_status := CONFIRMED |}
  | WITHDRAWN => inl ConsentWithdrawnError
  | PENDING => inl ConsentPendingError
  | NOT_SENT => inl ConsentRequiredError
  end.

(** The consent gate, against any repository. Only a student may ask; a confirmed consent
    opens the gate, and each other status has its own refusal; a failure of the repository
    never opens it: its own consent errors pass through, anything else is reported as
    unavailable. *)
Theorem gate_decides principal db :
  require_student_consent principal db =
  if principal_role principal != "student" then (inl StudentConsentAccessError, db)
  else match repo_consent_status (principal_user_id principal) REQUIRED_LEARNING_CONSENT db with
       | (inr status, db') => (gate_verdict (principal_user_id principal) status, db')
       | (inl e, db') => (inl (if is_consent_error e then e else ConsentUnavailableError), db')
       end.
Proof.
  unfold require_student_consent, student_gate. destruct (principal_role principal != "student"); [done|].
  rewrite !bind_run. unfold try_except.
  destruct (repo_consent_status _ _ db) as [[e|status] db'].
  - by destruct (is_consent_error e).
  - by destruct status.
Qed.
End Gate.

Section Service.
Context `{Crypto}.

Lemma consent_status_run s t db :
  consent_status s t db = (inr (match findb (λ r : ConsentRecord,
    (cr_subject_user_id r == s) && (cr_consent_type r == t)) (db_tables db ConsentRecords) with
    | Some r => cr_status r | None => NOT_SENT end), db).
Proof. done. Qed.

Lemma has_confirmed_run s t db :
  has_confirmed_consent s t db = (inr (is_some (findb (λ r : ConsentRecord,
    (cr_subject_user_id r == s) && (cr_consent_type r == t) && (cr_status r == CONFIRMED))
    (db_tables db ConsentRecords))), db).
Proof. done. Qed.

(** On a consistent database the first record of a consent is the only one. *)
Lemma consent_status_confirmed s t db :
  db_ok db = true →
  fst (consent_status s t db) = inr CONFIRMED ↔ fst (has_confirmed_consent s t db) = inr true.
Proof.
  intros Hok. rewrite consent_status_run, has_confirmed_run. simpl.
  assert (unique_on consent_key (db_tables db ConsentRecords) = true) as Hu.
  { rewrite db_ok_spec in Hok. specialize (Hok ConsentRecords). simpl in Hok.
    unfold consent_records_ok in Hok. by bool_to_prop. }
  split.
  - destruct (findb _ _) as [r|] eqn:Hf; [|done]. intros [= Hst]. f_equal.
    apply findb_Some in Hf as [Hp Hin]. apply is_some_spec. apply (findb_is_Some _ _ r Hin).
    by rewrite Hp, Hst, bool_decide_true.
  - intros [= Hsome]. apply is_some_spec in Hsome as [r Hr]. apply findb_Some in Hr as [Hp Hin].
    bool_to_prop. f_equal.
    assert (findb (λ r : ConsentRecord, (cr_subject_user_id r == s) && (cr_consent_type r == t))
      (db_tables db ConsentRecords) = Some r) as ->; [|done].
    apply findb_unique; [done|by rewrite !bool_decide_true|]. intros r' Hin' Hp'. bool_to_prop.
    apply (unique_on_eq consent_key _ _ _ (s, t) Hu); try done; unfold consent_key; congruence.
Qed.

(** C40: with the database behind it the gate opens for exactly the students whose learning
    consent is on record as confirmed, and asking changes nothing. *)
Theorem gate_opens_only_on_confirmed_consent principal db :
  db_ok db = true →
  snd (require_student_consent principal db) = db ∧
  ((∃ gate, fst (require_student_consent principal db) = inr gate) ↔
   principal_role principal = "student" ∧
   fst (has_confirmed_consent (principal_user_id principal) REQUIRED_LEARNING_CONSENT db) = inr true).
Proof.
  intros Hok. rewrite <- consent_status_confirmed by done.
  unfold require_student_consent, student_gate. case_bool_decide as Hrole; cbn [negb].
  - rewrite !bind_run. unfold try_except. cbn [repo_consent_status sqlalchemy_consent].
    rewrite consent_status_run. cbn [fst snd].
    destruct (match findb _ _ with Some r => cr_status r | None => NOT_SENT end); simpl; split; try done;
      split; naive_solver.
  - split; [done|]. split; [by intros [? ?]|by intros [? _]].
Qed.
End Service.

(** ** Asking a parent *)

Section Asking.
Context `{Crypto}.

Definition new_invitation (draft : ParentConsentRequestDraft) (link : uuid) : ConsentInvitation :=
  new_ConsentInvitation (draft_invitation_id draft) link (draft_school_id draft)
    (draft_student_id draft) (draft_token_digest draft) (draft_requested_by_user_id draft)
    (draft_created_at draft) (draft_expires_at draft).

(** After the invitation was added: its items, the pending records, the email
    and the school's notice. *)
Definition request_tail (draft : ParentConsentRequestDraft) (link : uuid)
  : M QueuedParentConsentRequest :=
  flush_;;
  for_each (elements (draft_consent_types draft)) (λ consent_type,
    i ← uuid4;
    insert ConsentInvitationItems (new_ConsentInvitationItem i (draft_invitation_id draft) consent_type);;
    ensure_pending_record (draft_student_id draft) consent_type;;
    mret tt);;
  i ← uuid4;
  now ← func_now;
  insert ConsentOutbox (new_ConsentNotificationOutbox i (draft_invitation_id draft)
    (draft_contact_method draft) (draft_parent_contact draft) (draft_consent_url draft) now now);;
  notify_school_of_pending_consent (draft_school_id draft) (draft_student_id draft)
    (draft_parent_name draft);;
  flush_;;
  mret (mkQueued (draft_invitation_id draft) link (draft_student_id draft)
    (draft_consent_types draft) DELIVERY_QUEUED (draft_expires_at draft)).

Lemma frames_request_tail draft link : frames (all_but ConsentInvitations) (request_tail draft link).
Proof.
  unfold request_tail, flush_, ensure_pending_record, consent_for_update,
    notify_school_of_pending_consent, notify_each, notify. frames_tac.
Qed.

Lemma request_tail_result draft link db q db' :
  request_tail draft link db = (inr q, db') → queued_parent_link_id q = link.
Proof.
  unfold request_tail. intros Hrun.
  repeat (apply bind_inv_inr in Hrun as (? & ? & _ & Hrun)). by injection Hrun as <- _.
Qed.

Lemma already_refused_run s contact db :
  already_refused s contact db = (inr (is_some (findb (λ r : ConsentRefusal,
    (refusal_student_id r == s) && (refusal_contact_digest r == contact_digest contact))
    (db_tables db ConsentRefusals))), db).
Proof. done. Qed.

Lemma require_student_run school s db :
  require_student school s db =
    ((if is_some (findb (λ u : User,
        (user_id u == s) && (user_school_id u == Some school) &&
        (user_role u == STUDENT) && (user_status u != DEACTIVATED)) (db_tables db Users))
      then inr tt else inl StudentNotFoundError), db).
Proof. unfold require_student. rewrite bind_run. simpl. by destruct (is_some _). Qed.

(** A parent who is on record as having refused, or never answered, is not asked about that
    learner again: the request fails and writes nothing. *)
Theorem refused_parent_is_not_asked_again draft db :
  fst (already_refused (draft_student_id draft) (draft_parent_contact draft) db) = inr true →
  create_parent_request draft db =
    (inl (match fst (require_student (draft_school_id draft) (draft_student_id draft) db) with
          | inl e => e | inr _ => ParentAlreadyRefusedError end), db).
Proof.
  intros Href. unfold create_parent_request, try_except, begin_, transaction, create_parent_request_body.
  rewrite bind_run, require_student_run. cbn [fst].
  destruct (is_some (findb (λ u : User, _) (db_tables db Users))); [|done].
  rewrite bind_run, already_refused_run in *. cbn [fst] in Href. injection Href as ->. done.
Qed.

(** A new request supersedes the earlier ones: when it succeeds the parent had not refused,
    the new invitation is on file with the draft's token and expiry, and no other invitation
    of that parent link is live. *)
Theorem parent_request_supersedes draft db q db' :
  create_parent_request draft db = (inr q, db') →
  fst (already_refused (draft_student_id draft) (draft_parent_contact draft) db) = inr false ∧
  new_invitation draft (queued_parent_link_id q) ∈ db_tables db' ConsentInvitations ∧
  ∀ i, i ∈ db_tables db' ConsentInvitations → live_invitation (queued_parent_link_id q) i = true →
       i = new_invitation draft (queued_parent_link_id q).
Proof.
  unfold create_parent_request, try_except.
  destruct (begin_ _ db) as [[e|o] d] eqn:Hrun; [by destruct e|]. intros [= -> ->].
  apply transaction_commit in Hrun as [Hrun _]. unfold create_parent_request_body in Hrun.
  apply bind_inv_inr in Hrun as ([] & db1 & Hreq & Hrun). rewrite require_student_run in Hreq.
  destruct (is_some _) in Hreq; [|done]. injection Hreq as <-.
  apply bind_inv_inr in Hrun as (refused & db1 & Href & Hrun). rewrite already_refused_run in Href |- *.
  injection Href as <- <-.
  apply bind_inv_inr in Hrun as ([] & db1 & Hguard & Hrun). unfold guard_or in Hguard.
  destruct (negb _) eqn:Hneg in Hguard; [|done]. injection Hguard as <-. apply negb_true_iff in Hneg.
  apply bind_inv_inr in Hrun as (link & db1 & Hup & Hrun).
  apply bind_inv_inr in Hrun as ([] & db2 & Hfl & Hrun). apply flush_run in Hfl as ->.
  apply bind_inv_inr in Hrun as ([] & db2 & Hrev & Hrun). injection Hrev as <-.
  apply bind_inv_inr in Hrun as ([] & db3 & Hins & Hrun). injection Hins as <-.
  match type of Hrun with _ ?d = _ => set (db3 := d) in Hrun end.
  change (request_tail draft (link_id link) db3 = (inr q, db')) in Hrun.
  pose proof (request_tail_result _ _ _ _ _ Hrun) as ->.
  pose proof (frames_request_tail draft (link_id link) db3 ConsentInvitations) as Hfr.
  rewrite Hrun in Hfr. simpl in Hfr. rewrite Hfr by (rewrite elem_of_all_but; by intros []).
  subst db3. autorewrite with store. split; [|split].
  - cbn [fst]. by f_equal.
  - apply elem_of_app. right. by left.
  - intros i [Hi|Hi]%elem_of_app Hlive; [|by apply list_elem_of_singleton in Hi].
    exfalso. apply elem_of_update_list in Hi as (i0 & _ & ->).
    destruct (live_invitation (link_id link) i0) eqn:Hl; [|congruence].
    unfold live_invitation in Hlive. simpl in Hlive. by rewrite andb_false_r in Hlive.
Qed.
End Asking.

(** ** From the parent's answer to the learner's lesson *)

Section EndToEnd.
Context `{Crypto, !ConsentTokenService}.

Lemma consent_status_status_of s t db :
  consent_status s t db = (inr (default NOT_SENT (status_of db s t)), db).
Proof.
  rewrite consent_status_run. unfold status_of, consent_of.
  change (λ r : ConsentRecord, (cr_subject_user_id r == s) && (cr_consent_type r == t))
    with (consent_pred s t). by destruct (findb _ _).
Qed.

(** The answer reaches the lesson: when the parent's answer confirmed the processing consent,
    the gate opens for that learner, and when the parent did not tick it and it was pending,
    the gate stays shut. *)
Theorem parent_answer_decides_the_gate now token granted dob rel name db completion db' session :
  db_wf db →
  complete_parent_consent now token granted dob rel name db = (inr (Some completion), db') →
  let gate := fst (require_student_consent
    (mkAuthPrincipal (done_student_id completion) "student" session) db') in
  (REQUIRED_LEARNING_CONSENT ∈ done_confirmed_types completion →
     gate = gate_verdict (done_student_id completion) CONFIRMED) ∧
  (REQUIRED_LEARNING_CONSENT ∈ done_declined_types completion →
     gate = inl ConsentPendingError ∨ gate = inl ConsentRequiredError).
Proof.
  intros Hwf Hrun gate. subst gate. unfold complete_parent_consent in Hrun.
  cbn [repo_complete_parent_request sqlalchemy_consent] in Hrun.
  apply complete_parent_request_inv in Hrun as (inv & link & _ & _ & Hans & _).
  apply answer_invitation_spec in Hans as ([Hc Hd Hs _] & Hst & _); [|by apply db_wf_keyed].
  unfold require_student_consent, student_gate. cbn [principal_role principal_user_id].
  rewrite bool_decide_true by done. cbn [negb]. rewrite Hst.
  assert (∀ st, default NOT_SENT (status_of db' (inv_student_id inv) REQUIRED_LEARNING_CONSENT) = st →
    repo_consent_status (inv_student_id inv) REQUIRED_LEARNING_CONSENT db' = (inr st, db')) as Hread.
  { intros st <-. cbn [repo_consent_status sqlalchemy_consent]. apply consent_status_status_of. }
  rewrite Hs in Hread. split; intros Hin.
  - rewrite !bind_run. unfold try_except. rewrite (Hread CONFIRMED); [done|].
    by rewrite decide_True.
  - apply Hd in Hin as (Ha & Hg & Hopen). rewrite !bind_run. unfold try_except.
    rewrite decide_False in Hread by (intros (_ & ? & _)%Hc; done).
    rewrite decide_True in Hread by done.
    destruct Hopen as [Ho|Ho]; rewrite Ho in Hread.
    + rewrite (Hread PENDING) by done. by left.
    + rewrite (Hread NOT_SENT) by done. by right.
Qed.
End EndToEnd.

(** ** At the small school *)

#[local] Existing Instance Toy.crypto.
#[local] Instance toy_tokens : ConsentTokenService := HmacConsentTokenService "pepper".

Lemma gate_opens_only_on_confirmed_consent_witness :
  let p := mkAuthPrincipal 2 "student" 50 in
  snd (require_student_consent p consented_db) = consented_db ∧
  ((∃ gate, fst (require_student_consent p consented_db) = inr gate) ↔
   principal_role p = "student" ∧
   fst (has_confirmed_consent 2 REQUIRED_LEARNING_CONSENT consented_db) = inr true).
Proof.
  apply (gate_opens_only_on_confirmed_consent (mkAuthPrincipal 2 "student" 50) consented_db).
  vm_compute. reflexivity.
Defined.

Definition a_draft : ParentConsentRequestDraft :=
  mkDraft 100 101 1 2 "Ngozi Obi" "ngozi@example.com" CONTACT_EMAIL {[DATA_PROCESSING]}
    "new-digest" "https://nevo.school/parent/new" 4 (day 3) (day 33).
Definition drafting (db : Database) : Database := mkDb (db_tables db) (db_uuids db + 2) (db_now db).

Lemma refused_parent_is_not_asked_again_witness :
  create_parent_request a_draft (drafting refused_db) = (inl ParentAlreadyRefusedError, drafting refused_db).
Proof.
  apply (refused_parent_is_not_asked_again a_draft (drafting refused_db)). vm_compute. reflexivity.
Defined.

Lemma parent_request_supersedes_witness :
  ∃ q, let db' := snd (create_parent_request a_draft (drafting asked_db)) in
  fst (already_refused 2 "ngozi@example.com" (drafting asked_db)) = inr false ∧
  new_invitation a_draft (queued_parent_link_id q) ∈ db_tables db' ConsentInvitations ∧
  ∀ i, i ∈ db_tables db' ConsentInvitations → live_invitation (queued_parent_link_id q) i = true →
       i = new_invitation a_draft (queued_parent_link_id q).
Proof.
  destruct (run_returned (create_parent_request a_draft) (drafting asked_db)) as [q Hq];
    [vm_compute; reflexivity|].
  exists q. exact (parent_request_supersedes a_draft (drafting asked_db) q _ Hq).
Defined.

Lemma parent_answer_decides_the_gate_witness :
  let db' := answered_db in
  let gate := fst (require_student_consent
    (mkAuthPrincipal (done_student_id the_completion) "student" 50) db') in
  (REQUIRED_LEARNING_CONSENT ∈ done_confirmed_types the_completion →
     gate = gate_verdict (done_student_id the_completion) CONFIRMED) ∧
  (REQUIRED_LEARNING_CONSENT ∈ done_declined_types the_completion →
     gate = inl ConsentPendingError ∨ gate = inl ConsentRequiredError).
Proof.
  apply (parent_answer_decides_the_gate (day 1) "tok" {[DATA_PROCESSING]} (Some born) (Some "mother")
    (Some "Ngozi Obi") asked_db); [exact asked_db_wf|exact answer_runs].
Defined.
