(* ===== verification/ConsentOutbox.v ===== *)
(** * The consent delivery worker

    [src/nevo/consent/worker.py]: the emails of the consent outbox, claimed one
    at a time, sent, and retried with a growing delay at most six times. The
    delivery itself is a parameter: it sends, or raises with a text. *)

From Stdlib Require Import String.
From S2P Require Import Prelude Relational Text Vocabulary Schema Fixtures Branding.

Local Open Scope string_scope.
Local Open Scope Z_scope.
Local Open Scope nevo_scope.

(** ** Messages *)

Definition MAX_ATTEMPTS : Z := 6.
Definition EMAIL_SUBJECT : string := "Review your child's Nevo consent request".
Definition RECEIPT_SUBJECT : string := "Your Nevo consent - a copy for your records".

Definition newline : string := String (Ascii.ascii_of_nat 10) EmptyString.

Definition opening_line (child_name : option string) : string :=
  if opt_truthy child_name then
    opt_str_or child_name "" ++ "'s learning begins as soon as you give permission. "
    ++ "Nothing starts before then."
  else "Your child's learning begins as soon as you give permission. Nothing starts before then.".

Definition consent_message (consent_url : string) (child_name : option string) : string :=
  opening_line child_name ++ " "
  ++ "Review and respond here: " ++ consent_url ++ newline ++ newline
  ++ "This link expires in 7 days. If you did not expect this, ignore this message.".

Definition consent_html (consent_url : string) (child_name : option string) : string :=
  render_email "A decision about your child's learning" [opening_line child_name]
    (Some ("Review and respond", consent_url))
    (Some ("This link expires in 7 days. If you did not expect this, you can "
           ++ "ignore this message, and nothing about your child changes."))
    (Some "Nothing starts until you give permission. The link expires in 7 days.").

Definition receipt_html : string :=
  render_email "Your consent has been recorded"
    ["You gave consent for your child to use Nevo. This message is your copy.";
     "You can withdraw that consent at any time, or ask what data we "
     ++ "hold, from the link your school sent you."]
    None (Some "If this was not you, contact your school straight away.")
    (Some "This message is your copy.").

Definition receipt_message : string :=
  "You gave consent for your child to use Nevo. This message is your copy." ++ newline ++ newline
  ++ "You can withdraw that consent at any time, or ask what data we hold, "
  ++ "from the link your school sent you." ++ newline ++ newline
  ++ "If this was not you, contact your school straight away.".

(** ** The worker *)

Record Claimed := mkClaimed {
  claimed_id : uuid; claimed_method : ParentContactMethod; claimed_destination : string;
  claimed_url : string; claimed_kind : ConsentNotificationKind; claimed_child : option string
}.

Definition due (now : datetime) (o : ConsentNotificationOutbox) : bool :=
  ((outbox_status o == DELIVERY_QUEUED) || (outbox_status o == DELIVERY_FAILED)) &&
  (outbox_attempt_count o <? MAX_ATTEMPTS) && (outbox_next_attempt_at o <=? now) &&
  ((outbox_kind o == KIND_RECEIPT) || (outbox_consent_url o != "")).

Definition older (a b : ConsentNotificationOutbox) : bool :=
  outbox_created_at a <=? outbox_created_at b.

Definition claim_row (o : ConsentNotificationOutbox) : ConsentNotificationOutbox :=
  o <| outbox_status := DELIVERY_PROCESSING |>
    <| outbox_attempt_count := outbox_attempt_count o + 1 |>
    <| outbox_last_error := None |>.

(** The first name of the learner an invitation is about. *)
Definition child_of_invitation (invitation_id : uuid) : M (option string) :=
  invitation ← get ConsentInvitations invitation_id;
  match invitation : option ConsentInvitation with
  | None => mret None
  | Some i =>
    student ← get Users (inv_student_id i);
    mret ((student : option User) ≫= λ u, user_first_name u)
  end.

Definition claim (now : datetime) : M (option Claimed) :=
  begin_ (
    waiting ← select ConsentOutbox (due now);
    match order_by older waiting with
    | [] => mret None
    | record :: _ =>
      let record := claim_row record in
      save ConsentOutbox record;;
      child_name ← child_of_invitation (outbox_invitation_id record);
      mret (Some (mkClaimed (outbox_id record) (outbox_contact_method record)
        (outbox_destination record) (outbox_consent_url record) (outbox_kind record) child_name))
    end).

Definition sent (i : uuid) (now : datetime) : M unit :=
  begin_ (
    record ← get ConsentOutbox i;
    match record : option ConsentNotificationOutbox with
    | None => mret tt
    | Some o => save ConsentOutbox (o <| outbox_status := DELIVERY_SENT |> <| outbox_sent_at := Some now |>)
    end).

(** [timedelta(minutes=min(60, 2 ** max(0, attempt_count - 1)))] *)
Definition retry_delay (attempt_count : Z) : timedelta :=
  minutes (Z.min 60 (2 ^ Z.max 0 (attempt_count - 1))).

Definition failed (i : uuid) (error : string) (now : datetime) : M unit :=
  begin_ (
    record ← get ConsentOutbox i;
    match record : option ConsentNotificationOutbox with
    | None => mret tt
    | Some o => save ConsentOutbox (o <| outbox_status := DELIVERY_FAILED |>
        <| outbox_last_error := Some (take_string 1000 error) |>
        <| outbox_next_attempt_at := now + retry_delay (outbox_attempt_count o) |>)
    end).

(** What is handed to the delivery. *)
Record Email := mkEmail { email_to : string; email_subject : string; email_text : string; email_html : string }.

Definition email_of (c : Claimed) : Email :=
  let is_receipt := claimed_kind c == KIND_RECEIPT in
  {| email_to := claimed_destination c;
     email_subject := if is_receipt then RECEIPT_SUBJECT else EMAIL_SUBJECT;
     email_text := if is_receipt then receipt_message else consent_message (claimed_url c) (claimed_child c);
     email_html := if is_receipt then receipt_html else consent_html (claimed_url c) (claimed_child c) |}.

Section Worker.
(** [ResendEmailDelivery.send]: [None] when it returned, the text of the
    exception when it raised. *)
Context (send : Email → datetime → option string).

(** [process_next]: the outbox row handled, if there was one. *)
Definition process_next (now : datetime) : M (option uuid) :=
  claimed ← claim now;
  match claimed with
  | None => mret None
  | Some c =>
    match send (email_of c) now with
    | Some error => failed (claimed_id c) error now
    | None => sent (claimed_id c) now
    end;;
    mret (Some (claimed_id c))
  end.

(** The loop of the worker over the given moments: what it sent, in order. *)
Fixpoint run_worker (times : list datetime) (db : Database) : list uuid * Database :=
  match times with
  | [] => ([], db)
  | now :: rest =>
    match process_next now db with
    | (inr (Some i), db') => let '(sends, db'') := run_worker rest db' in (i :: sends, db'')
    | (_, db') => run_worker rest db'
    end
  end.
End Worker.

(** ** Facts about one step *)

Definition has_id (i : uuid) (o : ConsentNotificationOutbox) : bool := outbox_id o == i.
Definition attempts (db : Database) (i : uuid) : Z :=
  match findb (has_id i) (db_tables db ConsentOutbox) with
  | Some o => outbox_attempt_count o
  | None => 0
  end.

(** No email leaves for this row any more: it is sent or in hand, it has used
    its attempts, or its link was used. *)
Definition dead (o : ConsentNotificationOutbox) : bool :=
  negb ((outbox_status o == DELIVERY_QUEUED) || (outbox_status o == DELIVERY_FAILED)) ||
  (MAX_ATTEMPTS <=? outbox_attempt_count o) ||
  (negb (outbox_kind o == KIND_RECEIPT) && (outbox_consent_url o == "")).

Lemma dead_not_due now o : dead o = true → due now o = false.
Proof.
  unfold dead, due. intros Hd. apply not_true_iff_false. intros Hdue.
  apply andb_true_iff in Hdue as [[[H1 H2]%andb_true_iff _]%andb_true_iff H4].
  rewrite H1 in Hd. apply Z.ltb_lt in H2. apply orb_true_iff in Hd as [Hd|Hd].
  - apply Z.leb_le in Hd. lia.
  - by destruct (outbox_kind o == KIND_RECEIPT), (outbox_consent_url o == "").
Qed.

Lemma outbox_ids db : db_ok db = true → NoDup (map outbox_id (db_tables db ConsentOutbox)).
Proof. intros Hok. rewrite db_ok_spec in Hok. exact (table_primary_key ConsentOutbox _ (Hok ConsentOutbox)). Qed.

(** One row replaced by another of the same identifier. *)
Definition replaced (db db' : Database) (o o' : ConsentNotificationOutbox) : Prop :=
  o ∈ db_tables db ConsentOutbox ∧ outbox_id o' = outbox_id o ∧
  db_tables db' ConsentOutbox =
    update_list (λ x, outbox_id x == outbox_id o) (λ _, o') (db_tables db ConsentOutbox).

Lemma replaced_attempts db db' o o' i :
  db_ok db = true → replaced db db' o o' →
  attempts db (outbox_id o) = outbox_attempt_count o ∧
  attempts db' i = if outbox_id o == i then outbox_attempt_count o' else attempts db i.
Proof.
  intros Hok (Hin & Hid & Htab). pose proof (outbox_ids db Hok) as Hnd. unfold attempts. split.
  - rewrite (findb_unique _ _ o); [done|done|by apply bool_decide_eq_true|].
    intros x Hx Hp. unfold has_id in Hp. bool_to_prop. by apply (NoDup_map_inj outbox_id _ x o Hnd).
  - rewrite Htab.
    assert (findb (has_id i) (update_list (λ x, outbox_id x == outbox_id o) (λ _, o') (db_tables db ConsentOutbox))
      = (λ x, if outbox_id x == outbox_id o then o' else x) <$> findb (has_id i) (db_tables db ConsentOutbox)) as ->.
    { apply (findb_save_keyed ConsentOutbox (has_id i) _ o o' Hnd Hin). unfold has_id. by rewrite Hid. }
    destruct (findb (has_id i) (db_tables db ConsentOutbox)) as [x|] eqn:Hf; cbn [fmap option_fmap option_map].
    + apply findb_Some in Hf as [Hx _]. unfold has_id in Hx. bool_to_prop. subst i.
      rewrite (bool_decide_ext (outbox_id x = outbox_id o) (outbox_id o = outbox_id x)) by done.
      by case_bool_decide.
    + case_bool_decide as Hc; [|done]. exfalso. rewrite findb_None in Hf. specialize (Hf o Hin).
      unfold has_id in Hf. by rewrite bool_decide_true in Hf.
Qed.

Lemma replaced_keeps db db' o o' x :
  db_ok db = true → replaced db db' o o' → x ∈ db_tables db ConsentOutbox → x ≠ o →
  x ∈ db_tables db' ConsentOutbox.
Proof.
  intros Hok (Hin & _ & Htab) Hx Hne. rewrite Htab. apply elem_of_update_list. exists x. split; [done|].
  rewrite bool_decide_false; [done|]. intros Heq. apply Hne.
  by apply (NoDup_map_inj outbox_id _ _ _ (outbox_ids db Hok)).
Qed.

Lemma claim_run now db :
  db_ok db = true →
  (∃ e, claim now db = (inl e, db)) ∨ claim now db = (inr None, db) ∨
  ∃ o c db', claim now db = (inr (Some c), db') ∧ due now o = true ∧ claimed_id c = outbox_id o ∧
    replaced db db' o (claim_row o) ∧ db_ok db' = true.
Proof.
  intros Hok. destruct (claim now db) as [[e|r] db'] eqn:Hrun.
  { left. exists e. pose proof (transaction_raise _ _ _ _ _ Hrun) as ->. done. }
  right. apply transaction_commit in Hrun as [Hrun Hok'].
  apply bind_inv_inr in Hrun as (waiting & db1 & Hsel & Hrun). injection Hsel as <- <-.
  destruct (order_by older _) as [|o rest] eqn:Hord in Hrun.
  { left. by injection Hrun as <- <-. }
  right. assert (o ∈ filterb (due now) (db_tables db ConsentOutbox)) as [Hdue Hin]%elem_of_filterb.
  { apply (elem_of_order_by older). unfold table_row in *. rewrite Hord. by left. }
  apply bind_inv_inr in Hrun as ([] & db1 & Hsave & Hrun). injection Hsave as Hsave.
  apply bind_inv_inr in Hrun as (child & db2 & Hchild & Hret). injection Hret as <- <-.
  assert (db2 = db1) as ->.
  { revert Hchild. unfold child_of_invitation. intros Hchild. run_inv; done. }
  exists o. eexists _, db1. split; [done|]. split; [done|]. split; [done|]. split; [|done].
  split; [done|]. split; [done|]. rewrite <- Hsave, set_table_eq. done.
Qed.

(** Recording the outcome of a send changes no attempt count and no other row. *)
Definition quiet (i : uuid) (db db' : Database) : Prop :=
  db_ok db' = true ∧ (∀ j, attempts db' j = attempts db j) ∧
  ∀ x, x ∈ db_tables db ConsentOutbox → outbox_id x ≠ i → x ∈ db_tables db' ConsentOutbox.

Lemma record_outcome_quiet (f : ConsentNotificationOutbox → ConsentNotificationOutbox) i db :
  (∀ o, outbox_id (f o) = outbox_id o ∧ outbox_attempt_count (f o) = outbox_attempt_count o) →
  db_ok db = true →
  quiet i db (snd (begin_ (
    record ← get ConsentOutbox i;
    match record : option ConsentNotificationOutbox with
    | None => mret tt
    | Some o => save ConsentOutbox (f o)
    end) db)).
Proof.
  intros Hf Hok. destruct (begin_ _ db) as [[e|[]] db'] eqn:Hrun; cbn [snd].
  { pose proof (transaction_raise _ _ _ _ _ Hrun) as ->. by split_and!. }
  apply transaction_commit in Hrun as [Hrun Hok'].
  apply bind_inv_inr in Hrun as (r & db1 & Hget & Hrun). injection Hget as <- <-.
  change (findb _ (db_tables db ConsentOutbox)) with
    (findb (has_id i) (db_tables db ConsentOutbox)) in Hrun.
  destruct (findb (has_id i) (db_tables db ConsentOutbox)) as [o|] eqn:Ho.
  - destruct (Hf o) as [Hid Hatt]. pose proof (findb_Some _ _ _ Ho) as [Hi Hin].
    unfold has_id in Hi. bool_to_prop.
    assert (replaced db db' o (f o)) as Hrep.
    { split_and!; [done..|]. injection Hrun as <-. rewrite set_table_eq.
      assert (∀ k, k = outbox_id o →
        update_list (λ x, outbox_id x == k) (λ _, f o) (db_tables db ConsentOutbox) =
        update_list (λ x, outbox_id x == outbox_id o) (λ _, f o) (db_tables db ConsentOutbox))
        as Hk by (by intros k ->).
      exact (Hk (outbox_id (f o)) Hid). }
    split_and!; [done| |].
    + intros j. destruct (replaced_attempts _ _ _ _ j Hok Hrep) as [Ha ->].
      case_bool_decide as Hc; [|done]. by rewrite Hatt, <- Ha, Hc.
    + intros x Hx Hne. apply (replaced_keeps _ _ _ _ _ Hok Hrep Hx). by intros ->.
  - injection Hrun as <-. by split_and!.
Qed.

Section WorkerFacts.
Context (send : Email → datetime → option string).

(** One turn of the worker: nothing happened, or one due row was attempted. *)
Lemma process_next_run now db :
  db_ok db = true →
  let r := fst (process_next send now db) in
  let db' := snd (process_next send now db) in
  (db' = db ∧ ∀ i, r ≠ inr (Some i)) ∨
  ∃ o, due now o = true ∧ (∀ i, r = inr (Some i) → i = outbox_id o) ∧ db_ok db' = true ∧
    attempts db (outbox_id o) < MAX_ATTEMPTS ∧
    (∀ i, attempts db' i = attempts db i + (if outbox_id o == i then 1 else 0)) ∧
    (∀ x, x ∈ db_tables db ConsentOutbox → outbox_id x ≠ outbox_id o → x ∈ db_tables db' ConsentOutbox) ∧
    o ∈ db_tables db ConsentOutbox.
Proof.
  intros Hok. unfold process_next. rewrite bind_run.
  destruct (claim_run now db Hok) as [[e ->]|[->|(o & c & db1 & -> & Hdue & Hc & Hrep & Hok1)]];
    [by left; split|by left; split|]. right. cbv zeta.
  assert (∀ m : M unit, quiet (claimed_id c) db1 (snd (m db1)) →
    let r := fst ((m;; mret (Some (claimed_id c))) db1) in
    let db' := snd ((m;; mret (Some (claimed_id c))) db1) in
    db' = snd (m db1) ∧ ∀ i, r = inr (Some i) → i = claimed_id c) as Hshape.
  { intros m _. cbv zeta. rewrite bind_run. destruct (m db1) as [[e|u] d]; simpl; split; try done.
    by intros i [= ->]. }
  set (m := match send (email_of c) now with Some error => failed (claimed_id c) error now
            | None => sent (claimed_id c) now end).
  assert (quiet (claimed_id c) db1 (snd (m db1))) as Hq.
  { unfold m. destruct (send (email_of c) now); by apply record_outcome_quiet. }
  destruct (Hshape m Hq) as [Hdb Hr]. destruct Hq as (Hok2 & Hatt & Hkeep).
  exists o. cbv zeta in Hdb, Hr. rewrite Hdb. pose proof (replaced_attempts _ _ _ _ (outbox_id o) Hok Hrep) as [Ho _].
  assert (outbox_attempt_count o < MAX_ATTEMPTS) as Hlt.
  { unfold due in Hdue. apply andb_true_iff in Hdue as [[[_ Hlt]%andb_true_iff _]%andb_true_iff _].
    by apply Z.ltb_lt. }
  split_and!; try done.
  - intros i Hi. rewrite (Hr i Hi). done.
  - by rewrite Ho.
  - intros i. rewrite Hatt. destruct (replaced_attempts _ _ _ _ i Hok Hrep) as [_ ->].
    case_bool_decide as Heq; [|lia]. subst i. rewrite Ho. done.
  - intros x Hx Hne. apply Hkeep; [|by rewrite Hc].
    apply (replaced_keeps _ _ _ _ _ Hok Hrep Hx). by intros ->.
  - apply Hrep.
Qed.

Definition sends_of (i : uuid) (sends : list uuid) : Z := Z.of_nat (length (filterb (λ j, j == i) sends)).

Lemma run_worker_cons now times db :
  run_worker send (now :: times) db =
  let rest := run_worker send times (snd (process_next send now db)) in
  (match fst (process_next send now db) with
   | inr (Some i) => i :: rest.1
   | _ => rest.1
   end, rest.2).
Proof.
  simpl. destruct (process_next send now db) as [[e|[i|]] db']; cbn [fst snd];
    by destruct (run_worker send times db').
Qed.

Lemma run_worker_attempts times db i :
  db_ok db = true →
  attempts db i + sends_of i (run_worker send times db).1 <= attempts (run_worker send times db).2 i ∧
  (attempts db i <= MAX_ATTEMPTS → attempts (run_worker send times db).2 i <= MAX_ATTEMPTS).
Proof.
  revert db. induction times as [|now times IH]; intros db Hok.
  { simpl. unfold sends_of. simpl. lia. }
  rewrite run_worker_cons. cbv zeta. cbn [fst snd].
  destruct (process_next_run now db Hok) as [[-> Hno]|(o & _ & Hid & Hok' & Hlt & Hatt & _)].
  - destruct (IH db Hok) as [H1 H2]. destruct (fst _) as [e|[j|]]; [done|by destruct (Hno j)|done].
  - destruct (IH _ Hok') as [H1 H2]. rewrite Hatt in H1, H2.
    destruct (fst (process_next send now db)) as [e|[j|]] eqn:Hr; try (case_bool_decide; subst; split; lia).
    rewrite (Hid j eq_refl) in *. unfold sends_of in *. rewrite filterb_cons.
    case_bool_decide; subst; cbn [length]; split; lia.
Qed.

Lemma run_worker_dead times db x :
  db_ok db = true → x ∈ db_tables db ConsentOutbox → dead x = true →
  x ∈ db_tables (run_worker send times db).2 ConsentOutbox ∧
  outbox_id x ∉ (run_worker send times db).1.
Proof.
  revert db. induction times as [|now times IH]; intros db Hok Hx Hdead.
  { simpl. split; [done|set_solver]. }
  rewrite run_worker_cons. cbv zeta. cbn [fst snd].
  destruct (process_next_run now db Hok) as [[-> Hno]|(o & Hdue & Hid & Hok' & _ & _ & Hkeep & Hin)].
  - destruct (IH db Hok Hx Hdead) as [H1 H2]. destruct (fst _) as [e|[j|]]; [done|by destruct (Hno j)|done].
  - assert (outbox_id x ≠ outbox_id o) as Hne.
    { intros Heq. apply (NoDup_map_inj outbox_id _ _ _ (outbox_ids db Hok) Hx Hin) in Heq as ->.
      by rewrite (dead_not_due now o Hdead) in Hdue. }
    destruct (IH _ Hok' (Hkeep x Hx Hne) Hdead) as [H1 H2]. split; [done|].
    destruct (fst (process_next send now db)) as [e|[j|]]; [done| |done].
    rewrite (Hid j eq_refl). set_solver.
Qed.

(** Whatever the delivery does and however long the worker runs, an email is handed to the
    delivery at most six times, counting the attempts already made, and its attempt count
    never passes six. *)
Theorem email_attempted_at_most_six_times times db i :
  db_ok db = true → attempts db i <= MAX_ATTEMPTS →
  attempts db i + sends_of i (run_worker send times db).1 <= MAX_ATTEMPTS ∧
  attempts (run_worker send times db).2 i <= MAX_ATTEMPTS.
Proof. intros Hok Ha. destruct (run_worker_attempts times db i Hok) as [H1 H2]. lia. Qed.

(** An email that was sent, a request whose link was used, one that has used its attempts, and
    one left in hand by a worker that died, are never sent again: the row stays as it is
    through every run of the worker. *)
Theorem dead_email_never_sent times db x :
  db_ok db = true → x ∈ db_tables db ConsentOutbox → dead x = true →
  x ∈ db_tables (run_worker send times db).2 ConsentOutbox ∧
  outbox_id x ∉ (run_worker send times db).1.
Proof. apply run_worker_dead. Qed.
End WorkerFacts.

(** The delay before a retry doubles from one minute and never passes an hour. *)
Theorem retry_delay_bounds n :
  minutes 1 <= retry_delay n <= minutes 60 ∧ retry_delay n <= retry_delay (n + 1) ∧
  (1 <= n < 6 → retry_delay (n + 1) = 2 * retry_delay n) ∧ retry_delay MAX_ATTEMPTS = minutes 32.
Proof.
  unfold retry_delay, minutes, seconds.
  assert (1 <= 2 ^ Z.max 0 (n - 1)) as H1 by (pose proof (Z.pow_pos_nonneg 2 (Z.max 0 (n - 1))); lia).
  assert (2 ^ Z.max 0 (n - 1) <= 2 ^ Z.max 0 (n + 1 - 1)) as H2 by (apply Z.pow_le_mono_r; lia).
  split_and!; [lia|lia|lia| |reflexivity].
  intros Hn. assert (n = 1 ∨ n = 2 ∨ n = 3 ∨ n = 4 ∨ n = 5) as Hcases by lia.
  destruct Hcases as [->|[->|[->|[->| ->]]]]; vm_compute; reflexivity.
Qed.

(** ** At the small school *)

Definition request_email : ConsentNotificationOutbox :=
  new_ConsentNotificationOutbox 30 21 CONTACT_EMAIL "ngozi@example.com" "https://nevo.school/parent/tok" t0 t0.
Definition stuck_email : ConsentNotificationOutbox :=
  (new_ConsentNotificationOutbox 31 22 CONTACT_EMAIL "bisi@example.com" "https://nevo.school/parent/abc" t0 t0)
    <| outbox_status := DELIVERY_PROCESSING |> <| outbox_attempt_count := 1 |>.
Definition mail_db : Database := set_table ConsentOutbox [request_email; stuck_email] asked_db.
(** A delivery that is down for the first hour. *)
Definition flaky (e : Email) (now : datetime) : option string :=
  if now <? t0 + hours 1 then Some "timeout" else None.
Definition turns : list datetime :=
  map (λ m, t0 + minutes m) [0; 1; 2; 4; 8; 16; 32; 64; 128].

Lemma email_attempted_at_most_six_times_witness :
  attempts mail_db 30 + sends_of 30 (run_worker flaky turns mail_db).1 <= MAX_ATTEMPTS ∧
  attempts (run_worker flaky turns mail_db).2 30 <= MAX_ATTEMPTS.
Proof.
  apply (email_attempted_at_most_six_times flaky turns mail_db 30); vm_compute; [reflexivity|discriminate].
Defined.

Lemma dead_email_never_sent_witness :
  stuck_email ∈ db_tables (run_worker flaky turns mail_db).2 ConsentOutbox ∧
  outbox_id stuck_email ∉ (run_worker flaky turns mail_db).1.
Proof.
  apply (dead_email_never_sent flaky turns mail_db stuck_email); vm_compute; [reflexivity| |reflexivity].
  right. left.
Defined.

(** The run itself: six attempts, and nothing after the sixth. *)
Example the_run : (run_worker flaky turns mail_db).1 = [30; 30; 30; 30; 30; 30].
Proof. vm_compute. reflexivity. Qed.
