(* ===== verification/AuthRepo.v ===== *)
(** * Accounts, sessions and login attempts in the database

    [src/nevo/auth/repositories.py]: the lookups a sign-in makes, the session
    rows it writes, the login rate limiter and the audit log. *)

From Stdlib Require Import String.
From S2P Require Import Prelude Relational Text Vocabulary Schema Fixtures AgeAssurance AuthPolicies.

Local Open Scope string_scope.
Local Open Scope Z_scope.
Local Open Scope nevo_scope.

(** ** Accounts *)

Definition to_auth_user (user : User) (school_auth_method : option AuthMethod) : AuthUser := {|
  au_id := user_id user; au_school_id := user_school_id user; au_role := value (user_role user);
  au_auth_method := value (user_auth_method user); au_status := value (user_status user);
  au_email := user_email user; au_password_hash := user_password_hash user;
  au_pin_hash := user_pin_hash user; au_login_identifier := user_login_identifier user;
  au_school_auth_method := value <$> school_auth_method;
  au_deactivated_at := user_deactivated_at user;
  au_preferences := if json_truthy (user_preferences user) then user_preferences user else JObj []
|}.

(** [dataclasses.replace(account, status=...)] *)
Definition with_status (account : AuthUser) (status : string) : AuthUser := {|
  au_id := au_id account; au_school_id := au_school_id account; au_role := au_role account;
  au_auth_method := au_auth_method account; au_status := status; au_email := au_email account;
  au_password_hash := au_password_hash account; au_pin_hash := au_pin_hash account;
  au_login_identifier := au_login_identifier account;
  au_school_auth_method := au_school_auth_method account;
  au_deactivated_at := au_deactivated_at account; au_preferences := au_preferences account
|}.

(** [outerjoin(School)]: every account, with its school's method if any. *)
Definition with_school (users : list User) (schools : list School)
  : list (User * option AuthMethod) :=
  users ≫= λ u,
    match filterb (λ s : School, Some (school_id s) == user_school_id u) schools with
    | [] => [(u, None)]
    | ss => (λ s : School, (u, Some (school_auth_method s))) <$> ss
    end.

(** [join(School)]: only accounts with a school. *)
Definition join_school (users : list User) (schools : list School) : list (User * School) :=
  users ≫= λ u,
    (λ s, (u, s)) <$> filterb (λ s : School, Some (school_id s) == user_school_id u) schools.

(** [_find]: a learner whose date of birth is on hold is not active. *)
Definition find_ (row : option (User * option AuthMethod)) : M (option AuthUser) :=
  match row with
  | None => mret None
  | Some (user, school_auth_method) =>
    held ← (if user_role user == STUDENT then age_check_blocks (user_id user) else mret false);
    let account := to_auth_user user school_auth_method in
    mret (Some (if held : bool then with_status account "pending" else account))
  end.

Definition find_by_email (email : string) : M (option AuthUser) :=
  users ← select Users (λ u : User, lower_opt (user_email u) == Some email);
  schools ← rows Schools;
  find_ (head (with_school users schools)).

(** [ORDER BY (lower(admission_number) = identifier) DESC]: PostgreSQL puts
    NULL first, then true, then false. *)
Definition match_rank (identifier : string) (u : User) : Z :=
  match lower_opt (user_admission_number u) with
  | None => 0
  | Some n => if n == identifier then 1 else 2
  end.

Definition find_pin_user (school_code login_identifier : string) : M (option AuthUser) :=
  users ← select Users (λ u : User,
    (lower_opt (user_admission_number u) == Some login_identifier) ||
    (lower_opt (user_login_identifier u) == Some login_identifier));
  schools ← select Schools (λ s : School, casefold (school_school_code s) == school_code);
  let candidates := order_by (λ a b : User * School,
    match_rank login_identifier a.1 <=? match_rank login_identifier b.1) (join_school users schools) in
  find_ ((λ us : User * School, (us.1, Some (school_auth_method us.2))) <$> head candidates).

Definition find_parents_by_contact (contact : string) (school_code : option string)
  : M (list AuthUser) :=
  users ← select Users (λ u : User, (user_role u == PARENT_GUARDIAN) &&
    ((lower_opt (user_email u) == Some contact) || (lower_opt (user_login_identifier u) == Some contact)));
  schools ← select Schools (λ s : School,
    match school_code with Some code => casefold (school_school_code s) == code | None => true end);
  mret (map (λ us : User * School, to_auth_user us.1 (Some (school_auth_method us.2)))
          (join_school users schools)).

Definition find_by_id (i : uuid) : M (option AuthUser) :=
  users ← select Users (λ u : User, user_id u == i);
  schools ← rows Schools;
  find_ (head (with_school users schools)).

(** ** Sessions *)

Definition to_session_record (session : AuthSession) : SessionRecord := {|
  sr_id := ses_id session; sr_user_id := ses_user_id session; sr_role := value (ses_role session);
  sr_token_digest := ses_token_digest session; sr_created_at := ses_created_at session;
  sr_last_seen_at := ses_last_seen_at session; sr_expires_at := ses_expires_at session;
  sr_revoked_at := ses_revoked_at session; sr_revocation_reason := ses_revocation_reason session;
  sr_replaced_by_session_id := ses_replaced_by_session_id session
|}.

Definition unrevoked (user : uuid) (s : AuthSession) : bool :=
  (ses_user_id s == user) && is_none (ses_revoked_at s).

Definition newest_session (a b : AuthSession) : bool := ses_created_at b <=? ses_created_at a.

(** The sessions of the account are ended before the new one is written, in
    the same transaction. *)
Definition create (draft : SessionDraft) (replace_active : bool) : M (option SessionRecord) :=
  begin_ (
    active ← (if replace_active
              then found ← select AuthSessions (unrevoked (sd_user_id draft));
                   mret (order_by newest_session found)
              else mret []);
    let active_ids := map ses_id active in
    let in_active (s : AuthSession) := bool_decide (ses_id s ∈ active_ids) in
    let replaced := to_session_record <$> head active in
    (if is_some replaced then
       update_where AuthSessions in_active (λ s : AuthSession,
         s <| ses_revoked_at := Some (sd_created_at draft) |>
           <| ses_revocation_reason := Some "concurrent_login" |>)
     else mret tt);;
    match parse (sd_role draft) with
    | None => raise (ValueError (sd_role draft))
    | Some role =>
      insert AuthSessions ((new_AuthSession (sd_id draft) (sd_user_id draft) role
        (sd_token_digest draft) (sd_created_at draft) (sd_last_seen_at draft) (sd_expires_at draft)));;
      flush_;;
      (if replace_active && is_some replaced then
         update_where AuthSessions in_active (λ s : AuthSession,
           s <| ses_replaced_by_session_id := Some (sd_id draft) |>)
       else mret tt);;
      mret replaced
    end).

Definition find_by_digest (token_digest : string) : M (option SessionRecord) :=
  session ← scalar AuthSessions (λ s : AuthSession, ses_token_digest s == token_digest);
  mret (to_session_record <$> (session : option AuthSession)).

Definition touch (session_id : uuid) (last_seen_at expires_at : datetime) : M unit :=
  begin_ (update_where AuthSessions
    (λ s : AuthSession, (ses_id s == session_id) && is_none (ses_revoked_at s))
    (λ s : AuthSession, s <| ses_last_seen_at := last_seen_at |> <| ses_expires_at := expires_at |>)).

Definition revoke (session_id : uuid) (reason : string) (revoked_at : datetime) : M unit :=
  begin_ (update_where AuthSessions
    (λ s : AuthSession, (ses_id s == session_id) && is_none (ses_revoked_at s))
    (λ s : AuthSession, s <| ses_revoked_at := Some revoked_at |>
                          <| ses_revocation_reason := Some reason |>)).

(** ** The rate limiter *)

Section RateLimiter.
Context (max_failures : Z) (window : timedelta).

Definition counted_failure (identity_digest ip_digest : string) (now : datetime)
    (a : AuthLoginAttempt) : bool :=
  negb (attempt_succeeded a) && (now - window <=? attempt_occurred_at a) &&
  ((attempt_identity_digest a == identity_digest) || (attempt_ip_digest a == ip_digest)).

(** [func.min] of a column: [None] on no rows. *)
Definition oldest_failure (l : list AuthLoginAttempt) : option datetime :=
  match map attempt_occurred_at l with
  | [] => None
  | t :: ts => Some (fold_left Z.min ts t)
  end.

Definition check (identity_digest ip_digest : string) (now : datetime) : M unit :=
  found ← select AuthLoginAttempts (counted_failure identity_digest ip_digest now);
  let failures := Z.of_nat (length (found : list AuthLoginAttempt)) in
  match oldest_failure found with
  | Some oldest =>
    if max_failures <=? failures then raise (RateLimitExceededError (oldest + window)) else mret tt
  | None => mret tt
  end.
End RateLimiter.

Definition DEFAULT_MAX_FAILURES : Z := 5.
Definition DEFAULT_WINDOW : timedelta := minutes 15.

Definition record_attempt (identity_digest ip_digest : string) (succeeded : bool)
    (occurred_at : datetime) : M unit :=
  begin_ (
    i ← uuid4;
    insert AuthLoginAttempts (new_AuthLoginAttempt i identity_digest ip_digest succeeded occurred_at)).

(** ** The audit log *)

Definition record_event (event_type : string) (occurred_at : datetime) (user session : option uuid)
    (identity_digest ip_digest : option string) (details : list (string * string)) : M unit :=
  begin_ (
    i ← uuid4;
    insert AuthAuditEvents ((new_AuthAuditEvent i event_type occurred_at)
      <| audit_user_id := user |> <| audit_session_id := session |>
      <| audit_identity_digest := identity_digest |> <| audit_ip_digest := ip_digest |>
      <| audit_details := details |>)).
