(* ===== verification/AuthService.v ===== *)
(** * Signing in, staying signed in, signing out

    [src/nevo/auth/service.py]: the three ways to sign in, the check every
    request makes ([authenticate]), the refresh and the sign-out, over the
    repositories of [AuthRepo]. Each repository call is a transaction of its
    own, so a session the check ends stays ended although the check raises. *)

From Stdlib Require Import String.
From S2P Require Import Prelude Relational Text Vocabulary Schema AgeAssurance AuthPolicies AuthRepo.

Local Open Scope string_scope.
Local Open Scope Z_scope.
Local Open Scope nevo_scope.

Definition ACTIVE_STATUS : string := "active".
Definition MANUAL_AUTH_METHODS : list string := ["email_password"; "pin"].

Definition is_paused (user : AuthUser) : bool :=
  (au_status user == "deactivated") || is_some (au_deactivated_at user).

Definition is_active (user : AuthUser) : bool :=
  (au_status user == ACTIVE_STATUS) && is_none (au_deactivated_at user).

Definition can_use_manual_method (user : AuthUser) (requested_method : string) : bool :=
  if negb (is_active user) || (au_auth_method user != requested_method) then false
  else match au_school_auth_method user with
       | None => true
       | Some m => bool_decide (m ∈ MANUAL_AUTH_METHODS)
       end.

(** [dict(user.preferences)] *)
Definition preferences_of (user : option AuthUser) : Json :=
  match user with Some u => au_preferences u | None => JObj [] end.

Section AuthService.
Context `{!CredentialHasher, !TokenService} (now : datetime).

Definition complete_login (user : AuthUser) (identity_digest ip_digest : string)
  : M IssuedSession :=
  '(token, digest) ← issue_token;
  timeout ← lift (idle_timeout_for_role (au_role user));
  id ← uuid4;
  let draft := {|
    sd_id := id; sd_user_id := au_id user; sd_role := au_role user; sd_token_digest := digest;
    sd_created_at := now; sd_last_seen_at := now; sd_expires_at := now + timeout |} in
  replaced ← create draft (requires_single_session (au_role user));
  record_attempt identity_digest ip_digest true now;;
  record_event "login_succeeded" now (Some (au_id user)) (Some (sd_id draft))
    (Some identity_digest) (Some ip_digest) [("method", au_auth_method user)];;
  (match replaced with
   | Some r =>
     record_event "session_replaced" now (Some (au_id user)) (Some (sr_id r))
       (Some identity_digest) (Some ip_digest) [("replacement_session_id", uuid_str (sd_id draft))]
   | None => mret tt
   end);;
  mret {|
    issued_access_token := token; issued_token_type := "bearer";
    issued_expires_at := sd_expires_at draft; issued_user_id := au_id user;
    issued_role := au_role user; issued_replaced_session := is_some replaced;
    issued_preferences := au_preferences user |}.

Definition reject_login {A} (user : option AuthUser) (identity_digest ip_digest : string)
    (error : exn) : M A :=
  record_attempt identity_digest ip_digest false now;;
  let event_type :=
    match user with
    | Some u => if negb (is_active u) then "deactivated_login_attempt" else "login_failed"
    | None => "login_failed"
    end in
  record_event event_type now (au_id <$> user) None (Some identity_digest) (Some ip_digest) [];;
  raise error.

Definition rate_limit (identity_digest ip_digest : string) : M unit :=
  check DEFAULT_MAX_FAILURES DEFAULT_WINDOW identity_digest ip_digest now.

Definition login_with_password (email password ip_address : string) : M IssuedSession :=
  let normalized_email := strip (casefold email) in
  let identity_digest := protect_identifier ("email:" ++ normalized_email) in
  let ip_digest := protect_identifier ("ip:" ++ ip_address) in
  rate_limit identity_digest ip_digest;;
  user ← find_by_email normalized_email;
  let verified := verify_password (user ≫= au_password_hash) password in
  match user with
  | None => reject_login user identity_digest ip_digest InvalidCredentialsError
  | Some u =>
    (if verified && is_paused u
     then reject_login user identity_digest ip_digest AccountPausedError else mret tt);;
    (if negb verified || negb (can_use_manual_method u "email_password")
     then reject_login user identity_digest ip_digest InvalidCredentialsError else mret tt);;
    complete_login u identity_digest ip_digest
  end.

Definition login_with_parent_contact (contact password ip_address : string)
    (school_code : option string) : M IssuedSession :=
  let normalized := strip (casefold contact) in
  let identity_digest := protect_identifier ("parent:" ++ normalized) in
  let ip_digest := protect_identifier ("ip:" ++ ip_address) in
  rate_limit identity_digest ip_digest;;
  candidates ← find_parents_by_contact normalized
    (if opt_truthy school_code then (λ c, strip (casefold c)) <$> school_code else None);
  (if (1 <? length (candidates : list AuthUser))%nat then raise SchoolCodeRequiredError
   else mret tt);;
  let user := head candidates in
  let verified := verify_password (user ≫= au_password_hash) password in
  match user with
  | None => reject_login user identity_digest ip_digest InvalidCredentialsError
  | Some u =>
    (if negb verified || negb (is_active u)
     then reject_login user identity_digest ip_digest InvalidCredentialsError else mret tt);;
    complete_login u identity_digest ip_digest
  end.

Definition login_with_pin (school_code login_identifier pin ip_address : string)
  : M IssuedSession :=
  let normalized_school_code := strip (casefold school_code) in
  let normalized_identifier := strip (casefold login_identifier) in
  let identity_digest :=
    protect_identifier ("pin:" ++ normalized_school_code ++ ":" ++ normalized_identifier) in
  let ip_digest := protect_identifier ("ip:" ++ ip_address) in
  rate_limit identity_digest ip_digest;;
  user ← find_pin_user normalized_school_code normalized_identifier;
  let verified := verify_pin (user ≫= au_pin_hash) pin in
  match user with
  | None => reject_login user identity_digest ip_digest InvalidCredentialsError
  | Some u =>
    (if verified && (au_role u == "student") && is_paused u
     then reject_login user identity_digest ip_digest AccountPausedError else mret tt);;
    (if (au_role u != "student") || negb verified || negb (can_use_manual_method u "pin")
     then reject_login user identity_digest ip_digest InvalidCredentialsError else mret tt);;
    complete_login u identity_digest ip_digest
  end.

Definition session_event (event_type : string) (session : SessionRecord) : M unit :=
  record_event event_type now (Some (sr_user_id session)) (Some (sr_id session)) None None [].

Definition authenticate (access_token : string) : M AuthPrincipal :=
  found ← find_by_digest (token_digest access_token);
  match found with
  | None => raise InvalidSessionError
  | Some session =>
    (if is_some (sr_revoked_at session) then
       (if sr_revocation_reason session == Some "concurrent_login" then raise SessionReplacedError
        else if sr_revocation_reason session == Some "user_unavailable" then raise AccountPausedError
        else raise SessionRevokedError)
     else mret tt);;
    (if sr_expires_at session <=? now then
       revoke (sr_id session) "expired" now;;
       session_event "session_expired" session;;
       raise SessionExpiredError
     else mret tt);;
    (if absolute_lifetime_for_role (sr_role session) <=? now - sr_created_at session then
       revoke (sr_id session) "absolute_lifetime_reached" now;;
       session_event "session_expired" session;;
       raise SessionExpiredError
     else mret tt);;
    user ← find_by_id (sr_user_id session);
    (if negb (match user with Some u => is_active u | None => false end) then
       revoke (sr_id session) "user_unavailable" now;;
       raise AccountPausedError
     else mret tt);;
    timeout ← lift (idle_timeout_for_role (sr_role session));
    touch (sr_id session) now (now + timeout);;
    mret {| principal_user_id := sr_user_id session; principal_role := sr_role session;
            principal_session_id := sr_id session |}
  end.

Definition issue_for_provisioned_user (user_id : uuid) : M IssuedSession :=
  found ← find_by_id user_id;
  match found with
  | None => raise InvalidCredentialsError
  | Some user =>
    (if negb (is_active user) then raise AccountPausedError else mret tt);;
    complete_login user (protect_identifier ("provisioned:" ++ uuid_str (au_id user)))
      (protect_identifier "ip:provisioning")
  end.

Definition logout (access_token : string) : M unit :=
  found ← find_by_digest (token_digest access_token);
  match found with
  | None => mret tt
  | Some session =>
    if is_some (sr_revoked_at session) then mret tt
    else
      revoke (sr_id session) "logout" now;;
      session_event "logout" session
  end.

Definition refresh (access_token : string) : M IssuedSession :=
  principal ← authenticate access_token;
  found ← find_by_digest (token_digest access_token);
  match found with
  | None => raise InvalidSessionError
  | Some session =>
    (if is_some (sr_revoked_at session) then raise InvalidSessionError else mret tt);;
    user ← find_by_id (principal_user_id principal);
    mret {|
      issued_access_token := access_token; issued_token_type := "bearer";
      issued_expires_at := sr_expires_at session; issued_user_id := principal_user_id principal;
      issued_role := principal_role principal; issued_replaced_session := false;
      issued_preferences := preferences_of user |}
  end.
End AuthService.
