(* ===== verification/AuthFacts.v ===== *)
(** * What the session check decides

    The lookups and the writes of [AuthRepo] as functions of the tables, and
    the decision table of [authenticate]. *)

From Stdlib Require Import String.
From S2P Require Import Prelude Relational Text Vocabulary Schema Fixtures AgeAssurance AuthPolicies AuthRepo AuthService.

Local Open Scope string_scope.
Local Open Scope Z_scope.
Local Open Scope nevo_scope.

(** ** Specification *)

(** The session a token digest names. *)
Definition session_of (db : Database) (digest : string) : option AuthSession :=
  findb (λ s : AuthSession, ses_token_digest s == digest) (db_tables db AuthSessions).

(** The date of birth of the learner is on hold. *)
Definition on_hold (db : Database) (student : uuid) : bool :=
  existsb (λ c : AgeCheck, (ac_student_id c == student) && (ac_state c == MISMATCH))
    (db_tables db AgeChecks).

(** An account that may be used: active, not deactivated, and no learner whose
    date of birth is on hold. *)
Definition user_usable (db : Database) (u : User) : bool :=
  (user_status u == ACTIVE) && is_none (user_deactivated_at u) &&
  negb ((user_role u == STUDENT) && on_hold db (user_id u)).

Definition account_usable (db : Database) (i : uuid) : bool :=
  match findb (λ u : User, user_id u == i) (db_tables db Users) with
  | Some u => user_usable db u
  | None => false
  end.

(** How long a session of the role may stay unused. *)
Definition idle_timeout (role : UserRole) : timedelta :=
  match role with
  | STUDENT => minutes 60
  | SENCO_ADMIN => minutes 30
  | TEACHER | OTHER_ADMIN | PARENT_GUARDIAN => minutes 120
  end.

Definition ended (s : AuthSession) (reason : string) (now : datetime) : AuthSession :=
  s <| ses_revoked_at := Some now |> <| ses_revocation_reason := Some reason |>.

Definition renewed (s : AuthSession) (now : datetime) : AuthSession :=
  s <| ses_last_seen_at := now |> <| ses_expires_at := now + idle_timeout (ses_role s) |>.

(** The error a client gets for a session that has ended. *)
Definition ended_error (s : AuthSession) : exn :=
  if ses_revocation_reason s == Some "concurrent_login" then SessionReplacedError
  else if ses_revocation_reason s == Some "user_unavailable" then AccountPausedError
  else SessionRevokedError.

(** Why an open session is over at [now], if it is. *)
Definition over (s : AuthSession) (now : datetime) : option string :=
  if ses_expires_at s <=? now then Some "expired"
  else if absolute_lifetime_for_role (value (ses_role s)) <=? now - ses_created_at s
       then Some "absolute_lifetime_reached"
       else None.

Definition principal_of (s : AuthSession) : AuthPrincipal := {|
  principal_user_id := ses_user_id s; principal_role := value (ses_role s);
  principal_session_id := ses_id s |}.

(** ** The lookups *)

Lemma idle_timeout_spec (r : UserRole) : idle_timeout_for_role (value r) = inr (idle_timeout r).
Proof. by destruct r. Qed.

Lemma idle_timeout_pos r : 0 < idle_timeout r.
Proof. destruct r; unfold idle_timeout, minutes, seconds; lia. Qed.

Lemma find_by_digest_run d db : find_by_digest d db = (inr (to_session_record <$> session_of db d), db).
Proof. done. Qed.

Lemma with_school_head us ss :
  (fst <$> head (with_school us ss)) = head us.
Proof.
  destruct us as [|u us]; [done|]. unfold with_school. simpl.
  destruct (filterb _ ss) as [|s l]; done.
Qed.

(** The account a row of [find_*] becomes: pending while on hold. *)
Definition account (db : Database) (u : User) (m : option AuthMethod) : AuthUser :=
  if (user_role u == STUDENT) && on_hold db (user_id u)
  then with_status (to_auth_user u m) "pending" else to_auth_user u m.

Lemma find_run o db : find_ o db = (inr ((λ um : User * option AuthMethod, account db um.1 um.2) <$> o), db).
Proof.
  destruct o as [[u m]|]; [|done]. unfold find_, account. cbn [fst snd fmap option_fmap option_map].
  destruct (user_role u == STUDENT); cbn [andb]; [|done].
  erewrite bind_inr by apply age_check_blocks_run. by destruct (on_hold db (user_id u)) eqn:Hh;
    unfold on_hold in Hh; rewrite Hh.
Qed.

Lemma account_id db u m : au_id (account db u m) = user_id u.
Proof. unfold account. by destruct (_ && _). Qed.
Lemma account_role db u m : au_role (account db u m) = value (user_role u).
Proof. unfold account. by destruct (_ && _). Qed.

Lemma account_active db u m : is_active (account db u m) = user_usable db u.
Proof.
  unfold is_active, user_usable, account.
  destruct (user_role u == STUDENT) eqn:Hr, (on_hold db (user_id u)) eqn:Hh; cbn [andb negb];
    rewrite ?andb_true_r, ?andb_false_r; try done;
    change (au_status (to_auth_user u m)) with (value (user_status u));
    change ACTIVE_STATUS with (value ACTIVE); by rewrite value_is.
Qed.

Lemma find_by_id_run i db : ∃ o,
  find_by_id i db = (inr o, db) ∧
  (match o with Some a => is_active a | None => false end) = account_usable db i.
Proof.
  change (find_by_id i db) with (find_ (head (with_school
    (filterb (λ u : User, user_id u == i) (db_tables db Users)) (db_tables db Schools))) db).
  rewrite find_run. eexists. split; [done|].
  unfold account_usable, findb.
  rewrite <- (with_school_head _ (db_tables db Schools)). destruct (head _) as [[u m]|]; [|done].
  simpl. apply account_active.
Qed.

(** ** The writes *)

Lemma sessions_ok_save (l : list AuthSession) s s' :
  sessions_ok l = true → s ∈ l → session_row_ok s' = true → ses_id s' = ses_id s →
  ses_token_digest s' = ses_token_digest s →
  (active_student_key s' = active_student_key s ∨ active_student_key s' = None) →
  sessions_ok (update_list (λ x, ses_id x == ses_id s) (λ _, s') l) = true.
Proof.
  unfold sessions_ok. intros Hok Hin Hrow Hid Hd Hk. bool_to_prop.
  repeat (apply andb_true_intro; split); [by apply primary_key_save|by apply forallb_save|..].
  - apply (unique_on_save ses_id); try done. by rewrite Hd.
  - apply unique_on_update_drop; [done|]. intros a Ha Hm. bool_to_prop.
    by rewrite (primary_key_inj ses_id l s) with (a := a).
Qed.

Lemma session_of_Some db d s :
  session_of db d = Some s → ses_token_digest s = d ∧ s ∈ db_tables db AuthSessions.
Proof. intros [Hd Hin]%findb_Some. by apply bool_decide_eq_true in Hd. Qed.

Lemma db_ok_sessions db : db_ok db = true → sessions_ok (db_tables db AuthSessions) = true.
Proof. intros Hok. rewrite db_ok_spec in Hok. exact (Hok AuthSessions). Qed.

Lemma sessions_nodup db : db_ok db = true → NoDup (map ses_id (db_tables db AuthSessions)).
Proof. intros Hok. exact (table_primary_key AuthSessions _ (db_ok_sessions db Hok)). Qed.

(** Rewriting one open session. *)
Definition with_session (db : Database) (s s' : AuthSession) : Database :=
  set_table AuthSessions
    (update_list (λ x : AuthSession, ses_id x == ses_id s) (λ _, s') (db_tables db AuthSessions)) db.

Section EditSession.
Context (db : Database) (s : AuthSession) (d : string).
Context (Hdb : db_ok db = true) (Hs : session_of db d = Some s) (Hopen : ses_revoked_at s = None).

Lemma edit_open_run (f : AuthSession → AuthSession) :
  db_ok (with_session db s (f s)) = true →
  begin_ (update_where AuthSessions
    (λ x : AuthSession, (ses_id x == ses_id s) && is_none (ses_revoked_at x)) f) db =
  (inr tt, with_session db s (f s)).
Proof.
  intros Hok. apply session_of_Some in Hs as [_ Hin].
  assert (update_list (λ x : AuthSession, (ses_id x == ses_id s) && is_none (ses_revoked_at x)) f
    (db_tables db AuthSessions) =
    update_list (λ x : AuthSession, ses_id x == ses_id s) (λ _, f s) (db_tables db AuthSessions)) as Heq.
  { apply map_ext_in. intros x Hx%list_elem_of_In. case_bool_decide as Hid; [|done].
    pose proof (db_ok_sessions db Hdb) as Hpk. unfold sessions_ok in Hpk. bool_to_prop.
    rewrite (primary_key_inj ses_id (db_tables db AuthSessions) s) with (a := x) by done.
    by rewrite Hopen. }
  apply transaction_ok; [|exact Hok].
  exact (f_equal (λ l, (inr tt, set_table AuthSessions l db)) Heq).
Qed.

Context (s' : AuthSession) (Hrow : session_row_ok s' = true) (Hid : ses_id s' = ses_id s)
  (Hd : ses_token_digest s' = ses_token_digest s)
  (Hk : active_student_key s' = active_student_key s ∨ active_student_key s' = None).

Lemma with_session_ok : db_ok (with_session db s s') = true.
Proof.
  apply session_of_Some in Hs as [_ Hin]. apply db_ok_set_table; [done|].
  simpl. apply sessions_ok_save; try done. by apply db_ok_sessions.
Qed.

Lemma with_session_wf : ids_fresh db → db_wf (with_session db s s').
Proof.
  intros Hfresh. split; [exact with_session_ok|].
  intros t r. destruct (decide (AuthSessions = t)) as [<-|Hne].
  - unfold with_session. rewrite set_table_eq. intros (a & Ha & ->)%elem_of_update_list.
    apply session_of_Some in Hs as [_ Hin].
    case_match; [change (ses_id s' < db_uuids db); rewrite Hid|]; by apply (Hfresh AuthSessions).
  - unfold with_session. rewrite set_table_ne by done. apply Hfresh.
Qed.

Lemma session_of_with_session :
  session_of (with_session db s s') d = Some s' ∧
  ∀ d', d' ≠ d → session_of (with_session db s s') d' = session_of db d'.
Proof.
  pose proof (sessions_nodup db Hdb) as Hnd.
  destruct (session_of_Some _ _ _ Hs) as [Hds Hin].
  assert (∀ e, session_of (with_session db s s') e =
    (λ x : AuthSession, if ses_id x == ses_id s then s' else x) <$> session_of db e) as Heq.
  { intros e. unfold session_of, with_session. rewrite set_table_eq.
    apply (findb_save_keyed AuthSessions (λ x : AuthSession, ses_token_digest x == e)); try done.
    by rewrite Hd. }
  split.
  - rewrite Heq, Hs. simpl. by rewrite bool_decide_true.
  - intros d' Hne. rewrite Heq. destruct (session_of db d') as [x|] eqn:Hx; [|done]. simpl.
    apply session_of_Some in Hx as [Hdx Hinx]. rewrite bool_decide_false; [done|].
    intros Heqid. apply Hne. rewrite <- Hdx, <- Hds. f_equal.
    by apply (NoDup_map_inj ses_id (db_tables db AuthSessions)).
Qed.
End EditSession.

(** Appending to the two logs always succeeds. *)
Definition event_row (event_type : string) (at_ : datetime) (user session : option uuid)
    (identity ip : option string) (details : list (string * string)) (i : uuid) : AuthAuditEvent :=
  (new_AuthAuditEvent i event_type at_)
    <| audit_user_id := user |> <| audit_session_id := session |>
    <| audit_identity_digest := identity |> <| audit_ip_digest := ip |>
    <| audit_details := details |>.

Definition attempt_row (identity ip : string) (succeeded : bool) (at_ : datetime) (i : uuid)
  : AuthLoginAttempt := new_AuthLoginAttempt i identity ip succeeded at_.

Lemma log_ok t (id : table_row t → uuid) (mk : uuid → table_row t) db :
  db_wf db → id = table_id t → (∀ i, id (mk i) = i) → table_constraints t = primary_key id →
  table_constraints t (db_tables db t ++ [mk (db_uuids db)])%list = true.
Proof.
  intros [Hok Hfresh] -> Hid Hc. rewrite db_ok_spec in Hok. specialize (Hok t).
  simpl in Hok. rewrite Hc in Hok |- *. apply (primary_key_fresh t); auto.
Qed.

Section Logs.
Context (db : Database) (Hwf : db_wf db).

Lemma record_event_run ty at_ u s i ip ds :
  record_event ty at_ u s i ip ds db = (inr tt, appended AuthAuditEvents (event_row ty at_ u s i ip ds) db)
  ∧ db_wf (appended AuthAuditEvents (event_row ty at_ u s i ip ds) db).
Proof.
  pose proof (log_ok AuthAuditEvents audit_id (event_row ty at_ u s i ip ds) db Hwf eq_refl
    (λ _, eq_refl) eq_refl) as Hl.
  split; [exact (append_run AuthAuditEvents IntegrityError _ db Hwf Hl)|by apply appended_wf].
Qed.

Lemma record_attempt_run i ip ok at_ :
  record_attempt i ip ok at_ db = (inr tt, appended AuthLoginAttempts (attempt_row i ip ok at_) db)
  ∧ db_wf (appended AuthLoginAttempts (attempt_row i ip ok at_) db).
Proof.
  pose proof (log_ok AuthLoginAttempts attempt_id (attempt_row i ip ok at_) db Hwf eq_refl
    (λ _, eq_refl) eq_refl) as Hl.
  split; [exact (append_run AuthLoginAttempts IntegrityError _ db Hwf Hl)|by apply appended_wf].
Qed.
End Logs.

Lemma session_of_other db db' d :
  db_tables db' AuthSessions = db_tables db AuthSessions → session_of db' d = session_of db d.
Proof. unfold session_of. by intros ->. Qed.

(** ** Ending and renewing the session a check found *)
Section Check.
Context (db : Database) (s : AuthSession) (d : string) (now : datetime).
Context (Hdb : db_ok db = true) (Hs : session_of db d = Some s) (Hopen : ses_revoked_at s = None).

Lemma row_ok_of : session_row_ok s = true.
Proof.
  pose proof (db_ok_sessions db Hdb) as H. unfold sessions_ok in H. bool_to_prop.
  apply session_of_Some in Hs as [_ Hin]. rewrite forallb_forall in *.
  match goal with H : ∀ x, _ → session_row_ok x = true |- _ => by apply H, list_elem_of_In end.
Qed.

Lemma ended_row_ok reason : session_row_ok (ended s reason now) = true.
Proof.
  pose proof row_ok_of as H. unfold session_row_ok in *. bool_to_prop.
  apply andb_true_intro. split; [by apply Z.ltb_lt|done].
Qed.

Lemma ended_key reason : active_student_key (ended s reason now) = None.
Proof. unfold active_student_key, ended. cbn. by rewrite andb_false_r. Qed.

Lemma ended_wf reason : ids_fresh db → db_wf (with_session db s (ended s reason now)).
Proof. intros Hf. eapply with_session_wf; try done; [apply ended_row_ok|right; apply ended_key]. Qed.

Lemma revoke_run reason :
  revoke (ses_id s) reason now db = (inr tt, with_session db s (ended s reason now)).
Proof.
  apply (edit_open_run db s d Hdb Hs Hopen). eapply with_session_ok; try done;
    [apply ended_row_ok|right; apply ended_key].
Qed.

Context (Hborn : ses_created_at s <= now).

Lemma renewed_row_ok : session_row_ok (renewed s now) = true.
Proof.
  pose proof row_ok_of as H. pose proof (idle_timeout_pos (ses_role s)).
  unfold session_row_ok in *. bool_to_prop. apply andb_true_intro. split; [|done].
  apply Z.ltb_lt. change (ses_created_at s < now + idle_timeout (ses_role s)). lia.
Qed.

Lemma renewed_wf : ids_fresh db → db_wf (with_session db s (renewed s now)).
Proof. intros Hf. eapply with_session_wf; try done; [apply renewed_row_ok|by left]. Qed.

Lemma touch_run :
  AuthRepo.touch (ses_id s) now (now + idle_timeout (ses_role s)) db =
    (inr tt, with_session db s (renewed s now)).
Proof.
  apply (edit_open_run db s d Hdb Hs Hopen). eapply with_session_ok; try done; [apply renewed_row_ok|by left].
Qed.
End Check.

(** ** The check as a whole *)

(** What the check answers for a session, and what the session becomes. *)
Definition check_outcome (db : Database) (s : AuthSession) (now : datetime)
  : (exn + AuthPrincipal) * AuthSession :=
  if is_some (ses_revoked_at s) then (inl (ended_error s), s)
  else match over s now with
       | Some reason => (inl SessionExpiredError, ended s reason now)
       | None =>
         if account_usable db (ses_user_id s) then (inr (principal_of s), renewed s now)
         else (inl AccountPausedError, ended s "user_unavailable" now)
       end.

(** The session with digest [d] became [s'], and no other session changed. *)
Definition only_session (db db' : Database) (d : string) (s' : AuthSession) : Prop :=
  session_of db' d = Some s' ∧ (∀ d', d' ≠ d → session_of db' d' = session_of db d') ∧
  (∀ t, t ≠ AuthSessions → t ≠ AuthAuditEvents → db_tables db' t = db_tables db t).

Lemma only_session_with db s d s' :
  db_ok db = true → session_of db d = Some s → ses_id s' = ses_id s → ses_token_digest s' = ses_token_digest s →
  only_session db (with_session db s s') d s'.
Proof.
  intros Hok Hs Hid Hd.
  destruct (session_of_with_session db s d Hok Hs s' Hd) as [H1 H2].
  split; [done|]. split; [done|]. intros t Ht _. unfold with_session. by rewrite set_table_ne.
Qed.

Lemma only_session_logged db db' d s' mk :
  only_session db db' d s' → only_session db (appended AuthAuditEvents mk db') d s'.
Proof.
  intros (H1 & H2 & H3). split_and!.
  - by rewrite (session_of_other db') by (by rewrite appended_ne).
  - intros d' Hne. rewrite (session_of_other db') by (by rewrite appended_ne). auto.
  - intros t Ht Ht'. rewrite appended_ne by done. auto.
Qed.

Section Authenticate.
Context `{!CredentialHasher, !TokenService} (now : datetime).

(** Ending the session, logging why, and refusing. *)
Lemma end_and_log_run db s d reason {A} :
  db_wf db → session_of db d = Some s → ses_revoked_at s = None →
  ∃ db', (revoke (sr_id (to_session_record s)) reason now;;
          session_event now "session_expired" (to_session_record s);;
          raise SessionExpiredError : M A) db = (inl SessionExpiredError, db') ∧
    only_session db db' d (ended s reason now) ∧ db_wf db'.
Proof.
  intros [Hok Hf] Hs Hopen. change (sr_id (to_session_record s)) with (ses_id s).
  erewrite bind_inr by (by apply (revoke_run db s d)).
  pose proof (ended_wf db s d now Hok Hs reason Hf) as Hwf'.
  edestruct (record_event_run _ Hwf') as [Hrun Hwf'']. unfold session_event.
  erewrite bind_inr by exact Hrun. eexists. split; [done|]. split; [|exact Hwf''].
  apply only_session_logged. by apply only_session_with.
Qed.

Lemma authenticate_none token db :
  session_of db (token_digest token) = None →
  authenticate now token db = (inl InvalidSessionError, db).
Proof. intros Hs. unfold authenticate. erewrite bind_inr by apply find_by_digest_run. by rewrite Hs. Qed.

Lemma authenticate_run token db s :
  let d := token_digest token in
  db_wf db → session_of db d = Some s → ses_created_at s <= now →
  ∃ db', authenticate now token db = (fst (check_outcome db s now), db') ∧
    only_session db db' d (snd (check_outcome db s now)) ∧ db_wf db'.
Proof.
  intros d Hwf Hs Hborn. pose proof Hwf as [Hok Hf]. unfold authenticate. fold d.
  erewrite bind_inr by apply find_by_digest_run. rewrite Hs. cbn [fmap option_fmap option_map].
  unfold check_outcome. change (sr_revoked_at (to_session_record s)) with (ses_revoked_at s).
  change (sr_revocation_reason (to_session_record s)) with (ses_revocation_reason s).
  destruct (ses_revoked_at s) as [t|] eqn:Hopen; cbn [is_some is_none negb].
  { exists db. split; [|split; [by repeat split|exact Hwf]]. unfold ended_error. rewrite bind_run.
    destruct (_ == Some "concurrent_login"); [done|]. by destruct (_ == Some "user_unavailable"). }
  rewrite (bind_inr _ _ _ _ tt) by done.
  change (sr_expires_at (to_session_record s)) with (ses_expires_at s).
  change (sr_created_at (to_session_record s)) with (ses_created_at s).
  change (sr_role (to_session_record s)) with (value (ses_role s)). unfold over.
  destruct (ses_expires_at s <=? now).
  { destruct (end_and_log_run (A := unit) db s d "expired" Hwf Hs Hopen) as (db' & Hrun & ? & ?).
    exists db'. split; [|done]. by erewrite bind_inl by exact Hrun. }
  rewrite (bind_inr _ _ _ _ tt) by done.
  destruct (absolute_lifetime_for_role (value (ses_role s)) <=? now - ses_created_at s).
  { destruct (end_and_log_run (A := unit) db s d "absolute_lifetime_reached" Hwf Hs Hopen)
      as (db' & Hrun & ? & ?).
    exists db'. split; [|done]. by erewrite bind_inl by exact Hrun. }
  rewrite (bind_inr _ _ _ _ tt) by done.
  destruct (find_by_id_run (ses_user_id s) db) as (o & Hrun & Husable).
  change (sr_user_id (to_session_record s)) with (ses_user_id s).
  erewrite bind_inr by exact Hrun. rewrite Husable.
  change (sr_id (to_session_record s)) with (ses_id s).
  destruct (account_usable db (ses_user_id s)) eqn:Hu; cbn [negb].
  - rewrite (bind_inr _ _ _ _ tt) by done. rewrite idle_timeout_spec. cbn [lift].
    rewrite (bind_inr _ _ _ _ (idle_timeout (ses_role s))) by done.
    erewrite bind_inr by (by apply (touch_run db s d)).
    eexists. split; [done|]. split; [|by apply (renewed_wf db s d)]. by apply only_session_with.
  - erewrite bind_inl by (erewrite bind_inr by (by apply (revoke_run db s d)); reflexivity).
    eexists. split; [done|]. split; [|by apply (ended_wf db s d)]. by apply only_session_with.
Qed.

(** An open session of a usable account is accepted. *)
Lemma authenticate_accepts token db s :
  db_ok db = true → session_of db (token_digest token) = Some s → ses_created_at s <= now →
  ses_revoked_at s = None → over s now = None → account_usable db (ses_user_id s) = true →
  fst (authenticate now token db) = inr (principal_of s).
Proof.
  intros Hok Hs Hborn Hopen Hover Hu. unfold authenticate.
  erewrite bind_inr by apply find_by_digest_run. rewrite Hs. cbn [fmap option_fmap option_map].
  change (sr_revoked_at (to_session_record s)) with (ses_revoked_at s). rewrite Hopen.
  cbn [is_some is_none negb]. rewrite (bind_inr _ _ _ _ tt) by done.
  change (sr_expires_at (to_session_record s)) with (ses_expires_at s).
  change (sr_created_at (to_session_record s)) with (ses_created_at s).
  change (sr_role (to_session_record s)) with (value (ses_role s)). unfold over in Hover.
  destruct (ses_expires_at s <=? now); [done|]. rewrite (bind_inr _ _ _ _ tt) by done.
  destruct (_ <=? _); [done|]. rewrite (bind_inr _ _ _ _ tt) by done.
  destruct (find_by_id_run (ses_user_id s) db) as (o & Hrun & Husable).
  change (sr_user_id (to_session_record s)) with (ses_user_id s).
  erewrite bind_inr by exact Hrun. rewrite Husable, Hu. cbn [negb].
  change (sr_id (to_session_record s)) with (ses_id s).
  rewrite (bind_inr _ _ _ _ tt) by done. rewrite idle_timeout_spec. cbn [lift].
  rewrite (bind_inr _ _ _ _ (idle_timeout (ses_role s))) by done.
  by erewrite bind_inr by (by apply (touch_run db s (token_digest token))).
Qed.
End Authenticate.
