(* ===== verification/AuthProperties.v ===== *)
(** * What sessions and sign-ins guarantee

    Through any sequence of sign-ins, checks and sign-outs: a session that
    ended stays ended, none outlives its role's lifetime, a learner has one
    open session, refused sign-ins are all recorded and five of them close an
    address for fifteen minutes. *)

From Stdlib Require Import String.
From S2P Require Import Prelude Relational Text Vocabulary Schema Fixtures Crypto AgeAssurance AuthPolicies AuthRepo AuthService AuthFacts.

Local Open Scope string_scope.
Local Open Scope Z_scope.
Local Open Scope nevo_scope.

(** ** The operations of the service *)

Inductive login_request :=
| ByPassword (email password : string)
| ByParentContact (contact password : string) (school_code : option string)
| ByPin (school_code login_identifier pin : string).

Inductive auth_op :=
| OpLogin (request : login_request) (ip_address : string)
| OpProvisioned (user_id : uuid)
| OpAuthenticate (access_token : string)
| OpRefresh (access_token : string)
| OpLogout (access_token : string).

Section Operations.
Context `{!CredentialHasher, !TokenService}.

Definition login (now : datetime) (r : login_request) (ip : string) : M IssuedSession :=
  match r with
  | ByPassword email password => login_with_password now email password ip
  | ByParentContact contact password code => login_with_parent_contact now contact password ip code
  | ByPin code identifier pin => login_with_pin now code identifier pin ip
  end.

Definition run_auth_op (op : auth_op) (now : datetime) (db : Database) : Database :=
  match op with
  | OpLogin r ip => snd (login now r ip db)
  | OpProvisioned i => snd (issue_for_provisioned_user now i db)
  | OpAuthenticate t => snd (authenticate now t db)
  | OpRefresh t => snd (refresh now t db)
  | OpLogout t => snd (logout now t db)
  end.

Fixpoint run_auth_ops (ops : list (auth_op * datetime)) (db : Database) : Database :=
  match ops with
  | [] => db
  | (op, now) :: ops' => run_auth_ops ops' (run_auth_op op now db)
  end.
End Operations.

(** ** How sessions evolve *)

(** A later state of the same session: who it belongs to and when it began do
    not change, and an ended session keeps when and why it ended. *)
Definition later_session (s s' : AuthSession) : Prop :=
  ses_id s' = ses_id s ∧ ses_user_id s' = ses_user_id s ∧ ses_role s' = ses_role s ∧
  ses_token_digest s' = ses_token_digest s ∧ ses_created_at s' = ses_created_at s ∧
  (ses_revoked_at s = None ∨
   ses_revoked_at s' = ses_revoked_at s ∧ ses_revocation_reason s' = ses_revocation_reason s).

#[export] Instance later_session_preorder : PreOrder later_session.
Proof.
  split.
  - intros s. repeat split; auto.
  - intros a b c (?&?&?&?&?&Hab) (?&?&?&?&?&Hbc). repeat split; try congruence.
    destruct Hab as [?|[Ha ?]]; [by left|]. destruct Hbc as [Hb|[? ?]]; [left; congruence|].
    right. split; congruence.
Qed.

(** Sessions are only added and ended, login attempts only added. *)
Record auth_later (db db' : Database) : Prop := {
  later_sessions : ∃ kept new, db_tables db' AuthSessions = (kept ++ new)%list ∧
    Forall2 later_session (db_tables db AuthSessions) kept;
  later_attempts : ∃ new,
    db_tables db' AuthLoginAttempts = (db_tables db AuthLoginAttempts ++ new)%list
}.

Lemma auth_later_same db db' :
  db_tables db' AuthSessions = db_tables db AuthSessions →
  db_tables db' AuthLoginAttempts = db_tables db AuthLoginAttempts → auth_later db db'.
Proof.
  intros Hs Ha. split.
  - exists (db_tables db AuthSessions), []. rewrite app_nil_r. split; [done|]. reflexivity.
  - exists []. by rewrite app_nil_r.
Qed.

#[export] Instance auth_later_preorder : PreOrder auth_later.
Proof.
  split.
  - intros db. by apply auth_later_same.
  - intros a b c [(k1 & n1 & E1 & F1) (l1 & A1)] [(k2 & n2 & E2 & F2) (l2 & A2)]. split.
    + rewrite E1 in F2. apply Forall2_app_inv_l in F2 as (k & n & Hk & Hn & ->).
      exists k, (n ++ n2)%list. rewrite E2, <- app_assoc. split; [done|].
      by transitivity k1.
    + exists (l1 ++ l2)%list. by rewrite A2, A1, <- app_assoc.
Qed.

Lemma auth_later_session_of db db' d s :
  auth_later db db' → session_of db d = Some s →
  ∃ s', session_of db' d = Some s' ∧ later_session s s'.
Proof.
  intros [(kept & new & E & Hall) _]. unfold session_of. rewrite E. intros Hs. rewrite findb_app.
  assert (∃ s', findb (λ s : AuthSession, ses_token_digest s == d) kept = Some s' ∧ later_session s s')
    as (s' & -> & Hl); [|by exists s'].
  clear E. revert Hs. induction Hall as [|x y l l' Hxy _ IH]; [done|]. rewrite !findb_cons.
  assert (ses_token_digest y = ses_token_digest x) as -> by apply Hxy.
  destruct (ses_token_digest x == d); [|exact IH]. intros [= ->]. by exists y.
Qed.

(** *** What writing a new session does *)

(** The open sessions a sign-in replaces. *)
Definition replaced_sessions (d : SessionDraft) (replace_active : bool) (db : Database)
  : list AuthSession :=
  if replace_active
  then order_by newest_session (filterb (unrevoked (sd_user_id d)) (db_tables db AuthSessions))
  else [].

Definition replaced_by (d : SessionDraft) (s : AuthSession) : AuthSession :=
  (ended s "concurrent_login" (sd_created_at d)) <| ses_replaced_by_session_id := Some (sd_id d) |>.

Definition session_row (d : SessionDraft) (role : UserRole) : AuthSession :=
  new_AuthSession (sd_id d) (sd_user_id d) role (sd_token_digest d) (sd_created_at d)
    (sd_last_seen_at d) (sd_expires_at d).

(** A run of [create] that returns, and the sessions it leaves. *)
Lemma create_inv d b r db db' :
  create d b db = (inr r, db') →
  let in_active (s : AuthSession) := bool_decide (ses_id s ∈ map ses_id (replaced_sessions d b db)) in
  db_ok db' = true ∧ r = to_session_record <$> head (replaced_sessions d b db) ∧
  (∀ t, t ≠ AuthSessions → db_tables db' t = db_tables db t) ∧
  db_uuids db' = db_uuids db ∧
  ∃ role, parse (sd_role d) = Some role ∧
    db_tables db' AuthSessions = (update_list in_active (replaced_by d) (db_tables db AuthSessions) ++
      update_list in_active (λ s, s <| ses_replaced_by_session_id := Some (sd_id d) |>)
        [session_row d role])%list.
Proof.
  intros [Hrun Hok]%transaction_commit in_active. split; [exact Hok|].
  assert (∃ active, active = replaced_sessions d b db) as [active Hactive] by eauto.
  subst in_active. rewrite <- Hactive.
  apply bind_inv_inr in Hrun as (l & db1 & Hl & Hrun).
  assert (l = active ∧ db1 = db) as [-> ->]
    by (rewrite Hactive; unfold replaced_sessions; destruct b; run_inv; done).
  assert (b = true ∨ active = []) as Hb by (rewrite Hactive; unfold replaced_sessions; destruct b; auto).
  clear Hl Hactive. unfold flush_ in Hrun.
  destruct active as [|s0 ss]; cbn [head fmap option_fmap option_map is_some is_none negb] in Hrun.
  - rewrite andb_false_r in Hrun. run_inv. split; [done|]. split; [intros t Ht; by rewrite set_table_ne|].
    split; [done|]. exists u. rewrite set_table_eq. split; [done|].
    change (map ses_id []) with (@nil uuid).
    rewrite !update_list_id; [done|..]; intros ? _ Hin%bool_decide_eq_true; set_solver.
  - destruct Hb as [->|?]; [|done]. cbn [andb] in Hrun. run_inv. clear Heqb Hok.
    autorewrite with store. split; [done|]. split; [intros t Ht; by rewrite !set_table_ne|].
    split; [done|]. exists u. split; [done|].
    rewrite update_list_app, update_list_twice; [done|]. intros; done.
Qed.

Lemma create_raises d b e db db' : create d b db = (inl e, db') → db' = db.
Proof. apply transaction_raise. Qed.

Lemma replaced_sessions_open d b db s :
  s ∈ replaced_sessions d b db → s ∈ db_tables db AuthSessions ∧ unrevoked (sd_user_id d) s = true.
Proof.
  unfold replaced_sessions. destruct b; [|set_solver].
  rewrite elem_of_order_by, elem_of_filterb. naive_solver.
Qed.

(** On a database with distinct identifiers, the sessions a sign-in ends are
    the open ones it found. *)
Lemma in_replaced d b db s :
  NoDup (map ses_id (db_tables db AuthSessions)) → s ∈ db_tables db AuthSessions →
  bool_decide (ses_id s ∈ map ses_id (replaced_sessions d b db)) =
    b && unrevoked (sd_user_id d) s.
Proof.
  intros Hnd Hin. apply eq_true_iff_eq. rewrite bool_decide_eq_true, list_elem_of_fmap. split.
  - intros (s' & Hid & Hs'). pose proof (replaced_sessions_open _ _ _ _ Hs') as [Hin' Hopen].
    assert (s = s') as -> by by apply (NoDup_map_inj ses_id (db_tables db AuthSessions)).
    unfold replaced_sessions in Hs'. destruct b; [done|set_solver].
  - intros [-> Hopen]%andb_prop. exists s. split; [done|]. unfold replaced_sessions.
    by rewrite elem_of_order_by, elem_of_filterb.
Qed.

Lemma later_replaced d s : ses_revoked_at s = None → later_session s (replaced_by d s).
Proof. intros Hopen. repeat split. by left. Qed.

(** *** Every operation obeys it *)

Lemma Forall2_update_list {A} (R : A → A → Prop) `{!Reflexive R} p f (l : list A) :
  (∀ a, a ∈ l → p a = true → R a (f a)) → Forall2 R l (update_list p f l).
Proof.
  induction l as [|a l IH]; intros Hf; [constructor|]. rewrite update_list_cons.
  constructor; [|apply IH; set_solver]. destruct (p a) eqn:Hp; [apply Hf; set_solver|reflexivity].
Qed.

Definition auth_inv (db0 db : Database) : Prop := db_ok db = true ∧ auth_later db0 db.

Section Evolve.
Context (db0 : Database).

Lemma update_session_later (p : AuthSession → bool) f :
  (∀ s, p s = true → later_session s (f s)) → keeps (auth_later db0) (update_where AuthSessions p f).
Proof.
  intros Hf db a db' Hdb [= _ <-]. etransitivity; [exact Hdb|]. split.
  - exists (update_list p f (db_tables db AuthSessions)), []. rewrite set_table_eq, app_nil_r.
    split; [done|]. apply (Forall2_update_list later_session p f). auto.
  - exists []. by rewrite set_table_ne, app_nil_r.
Qed.

Lemma begin_preserves {A} (m : M A) : keeps (auth_later db0) m → preserves (auth_inv db0) (begin_ m).
Proof.
  intros Hm db [Hok Hdb]. split; [by apply transaction_preserves_ok|].
  by apply (preserves_transaction_keeps (auth_later db0)).
Qed.

Lemma create_preserves d b : preserves (auth_inv db0) (create d b).
Proof.
  intros db [Hok Hdb]. destruct (create d b db) as [[e|r] db'] eqn:Hrun.
  { by apply create_raises in Hrun as ->. }
  apply create_inv in Hrun as (Hok' & _ & Hne & _ & role & _ & Hs). split; [done|].
  etransitivity; [exact Hdb|]. split.
  - eexists _, _. split; [exact Hs|]. apply (Forall2_update_list later_session).
    intros s Hin Hrep. apply later_replaced.
    rewrite in_replaced in Hrep by (done || by apply sessions_nodup). bool_to_prop.
    unfold unrevoked in *. by bool_to_prop.
  - exists []. by rewrite Hne, app_nil_r.
Qed.

Lemma revoke_preserves i r t : preserves (auth_inv db0) (revoke i r t).
Proof.
  apply begin_preserves, update_session_later. intros s Hs. bool_to_prop. repeat split. by left.
Qed.

Lemma touch_preserves i a b : preserves (auth_inv db0) (AuthRepo.touch i a b).
Proof.
  apply begin_preserves, update_session_later. intros s Hs. bool_to_prop. repeat split. by left.
Qed.

Lemma record_attempt_preserves a b c d : preserves (auth_inv db0) (record_attempt a b c d).
Proof.
  apply begin_preserves. intros db r db' Hdb [= _ <-]. etransitivity; [exact Hdb|]. split.
  - exists (db_tables db AuthSessions), []. rewrite set_table_ne, app_nil_r by done.
    split; [done|reflexivity].
  - eexists. by rewrite set_table_eq.
Qed.

Lemma record_event_preserves a b c d e f g : preserves (auth_inv db0) (record_event a b c d e f g).
Proof.
  apply begin_preserves. intros db r db' Hdb [= _ <-]. etransitivity; [exact Hdb|].
  apply auth_later_same; by rewrite set_table_ne.
Qed.

Lemma same_tables_inv db db' : db_tables db' = db_tables db → auth_inv db0 db → auth_inv db0 db'.
Proof.
  intros Ht [Hok Hdb]. split; [rewrite !db_ok_spec in *; by rewrite Ht|].
  etransitivity; [exact Hdb|]. by apply auth_later_same; rewrite Ht.
Qed.

Lemma uuid4_preserves : preserves (auth_inv db0) uuid4.
Proof. intros db Hdb. exact (same_tables_inv db (snd (uuid4 db)) eq_refl Hdb). Qed.

Lemma issue_token_preserves `{!TokenService} : preserves (auth_inv db0) issue_token.
Proof.
  intros db Hdb. destruct (issue_token_returns db) as (t & db' & Hrun & Ht & _). rewrite Hrun.
  exact (same_tables_inv db db' Ht Hdb).
Qed.
End Evolve.

Lemma preserves_lift I {A} (r : exn + A) : preserves I (lift r : M A).
Proof. destruct r; [apply preserves_raise|apply preserves_ret]. Qed.

Lemma find_reads o db : snd (find_ o db) = db.
Proof. by rewrite find_run. Qed.

#[local] Hint Resolve create_preserves revoke_preserves touch_preserves record_attempt_preserves
  record_event_preserves uuid4_preserves issue_token_preserves preserves_lift : preserves.
#[local] Hint Extern 1 (preserves _ (find_by_digest _)) => apply preserves_reads; reflexivity : preserves.
#[local] Hint Extern 1 (preserves _ (find_by_email _)) =>
  apply preserves_reads; intros ?; apply find_reads : preserves.
#[local] Hint Extern 1 (preserves _ (find_by_id _)) =>
  apply preserves_reads; intros ?; apply find_reads : preserves.
#[local] Hint Extern 1 (preserves _ (find_pin_user _ _)) =>
  apply preserves_reads; intros ?; apply find_reads : preserves.
#[local] Hint Extern 1 (preserves _ (find_parents_by_contact _ _)) =>
  apply preserves_reads; reflexivity : preserves.
#[local] Hint Extern 1 (preserves _ (rate_limit _ _ _)) =>
  apply preserves_reads; intros ?; unfold rate_limit, check; rewrite bind_run;
  cbn beta iota delta [Relational.select]; repeat case_match; reflexivity : preserves.

Section EvolveOps.
Context `{!CredentialHasher, !TokenService} (db0 : Database).

Lemma complete_login_preserves now u i ip : preserves (auth_inv db0) (complete_login now u i ip).
Proof. unfold complete_login. preserves_tac. Qed.

Lemma reject_login_preserves now u i ip e {A} : preserves (auth_inv db0) (reject_login now u i ip e : M A).
Proof. unfold reject_login. preserves_tac. Qed.
#[local] Hint Resolve complete_login_preserves reject_login_preserves : preserves.

Lemma login_preserves now r ip : preserves (auth_inv db0) (login now r ip).
Proof.
  destruct r; unfold login, login_with_password, login_with_parent_contact, login_with_pin; preserves_tac.
Qed.

Lemma authenticate_preserves now t : preserves (auth_inv db0) (authenticate now t).
Proof. unfold authenticate, session_event. preserves_tac. Qed.
#[local] Hint Resolve login_preserves authenticate_preserves : preserves.

Lemma run_auth_op_inv op now db : auth_inv db0 db → auth_inv db0 (run_auth_op op now db).
Proof.
  intros Hdb. destruct op; simpl.
  1: by apply login_preserves.
  2: by apply authenticate_preserves.
  all: revert db Hdb; unfold issue_for_provisioned_user, refresh, logout, session_event;
    match goal with |- ∀ db, _ → auth_inv _ (snd (?m db)) => change (preserves (auth_inv db0) m) end;
    preserves_tac.
Qed.

Lemma run_auth_ops_inv ops db : auth_inv db0 db → auth_inv db0 (run_auth_ops ops db).
Proof.
  revert db. induction ops as [|[op now] ops IH]; intros db Hdb; [done|]. simpl.
  by apply IH, run_auth_op_inv.
Qed.
End EvolveOps.

(** ** Inverting a check and a sign-in *)

Section Inversion.
Context `{!CredentialHasher, !TokenService} (now : datetime).

Lemma authenticate_success token db p db' :
  authenticate now token db = (inr p, db') →
  ∃ s, session_of db (token_digest token) = Some s ∧ ses_revoked_at s = None ∧ over s now = None ∧
    account_usable db (ses_user_id s) = true ∧ p = principal_of s.
Proof.
  unfold authenticate. erewrite bind_inr by apply find_by_digest_run.
  destruct (session_of db _) as [s|]; [|done]. cbn [fmap option_fmap option_map]. intros Hrun.
  exists s. split; [done|].
  apply bind_inv_inr in Hrun as ([] & db1 & H1 & Hrun).
  change (sr_revoked_at (to_session_record s)) with (ses_revoked_at s) in H1.
  destruct (ses_revoked_at s); cbn [is_some is_none negb] in H1.
  { exfalso. revert H1. by repeat case_match. }
  injection H1 as <-. split; [done|].
  apply bind_inv_inr in Hrun as ([] & db2 & H2 & Hrun). unfold over.
  change (sr_expires_at (to_session_record s)) with (ses_expires_at s) in H2.
  destruct (ses_expires_at s <=? now).
  { exfalso. apply bind_inv_inr in H2 as (? & ? & _ & H2). apply bind_inv_inr in H2 as (? & ? & _ & H2). done. }
  injection H2 as <-. apply bind_inv_inr in Hrun as ([] & db3 & H3 & Hrun).
  change (sr_role (to_session_record s)) with (value (ses_role s)) in *.
  change (sr_created_at (to_session_record s)) with (ses_created_at s) in *.
  destruct (absolute_lifetime_for_role _ <=? _).
  { exfalso. apply bind_inv_inr in H3 as (? & ? & _ & H3). apply bind_inv_inr in H3 as (? & ? & _ & H3). done. }
  injection H3 as <-. split; [done|].
  destruct (find_by_id_run (ses_user_id s) db) as (o & Hfind & Husable).
  change (sr_user_id (to_session_record s)) with (ses_user_id s) in *.
  rewrite (bind_inr _ _ _ _ _ Hfind), Husable in Hrun.
  apply bind_inv_inr in Hrun as ([] & db4 & H4 & Hrun).
  destruct (account_usable db (ses_user_id s)); cbn [negb] in H4.
  2: { exfalso. apply bind_inv_inr in H4 as (? & ? & _ & H4). done. }
  split; [done|]. by repeat (apply bind_inv_inr in Hrun as (? & ? & _ & Hrun)); injection Hrun as <- _.
Qed.

Lemma authenticate_ended token db s :
  session_of db (token_digest token) = Some s → ses_revoked_at s ≠ None →
  authenticate now token db = (inl (ended_error s), db).
Proof.
  intros Hs Hrev. unfold authenticate. erewrite bind_inr by apply find_by_digest_run.
  rewrite Hs. cbn [fmap option_fmap option_map].
  change (sr_revoked_at (to_session_record s)) with (ses_revoked_at s).
  change (sr_revocation_reason (to_session_record s)) with (ses_revocation_reason s).
  destruct (ses_revoked_at s); [|done]. cbn [is_some is_none negb]. unfold ended_error. rewrite bind_run.
  destruct (_ == Some "concurrent_login"); [done|]. by destruct (_ == Some "user_unavailable").
Qed.
End Inversion.

Lemma auth_inv_refl db : db_ok db = true → auth_inv db db.
Proof. by split. Qed.

(** *** What a sign-in that succeeds did *)

Lemma elem_of_with_school us ss (um : User * option AuthMethod) :
  um ∈ with_school us ss → um.1 ∈ us.
Proof.
  unfold with_school. intros (u & Hin & Hu)%list_elem_of_bind. revert Hin.
  destruct (filterb _ ss); simpl; [set_solver|].
  intros [->|(s' & -> & _)%list_elem_of_fmap]%elem_of_cons; done.
Qed.

Lemma elem_of_join_school us ss (um : User * School) : um ∈ join_school us ss → um.1 ∈ us.
Proof.
  unfold join_school. intros (u & Hin & Hu)%list_elem_of_bind.
  by apply list_elem_of_fmap in Hin as (s & -> & _).
Qed.

(** An account a lookup found: a row of the table, read as [account] reads it. *)
Definition account_of_row (db : Database) (a : AuthUser) (usr : User) : Prop :=
  usr ∈ db_tables db Users ∧ au_id a = user_id usr ∧ au_role a = value (user_role usr) ∧
  is_active a = user_usable db usr.

Lemma account_is db u m : u ∈ db_tables db Users → account_of_row db (account db u m) u.
Proof. intros Hin. split_and!; [done|apply account_id|apply account_role|apply account_active]. Qed.

Lemma find_by_email_found e db : ∃ o, find_by_email e db = (inr o, db) ∧
  ∀ a, o = Some a → ∃ usr, account_of_row db a usr.
Proof.
  change (find_by_email e db) with (find_ (head (with_school
    (filterb (λ u : User, lower_opt (user_email u) == Some e) (db_tables db Users))
    (db_tables db Schools))) db).
  rewrite find_run. eexists. split; [done|]. intros a Ha.
  apply fmap_Some in Ha as ([u m] & Hh & ->). exists u. apply account_is.
  apply head_Some_elem_of, elem_of_with_school in Hh. simpl in Hh. by apply elem_of_filterb in Hh as [_ ?].
Qed.

Lemma find_by_id_found i db a :
  find_by_id i db = (inr (Some a), db) → ∃ usr, account_of_row db a usr ∧ user_id usr = i.
Proof.
  change (find_by_id i db) with (find_ (head (with_school
    (filterb (λ u : User, user_id u == i) (db_tables db Users)) (db_tables db Schools))) db).
  rewrite find_run. intros [= Ha].
  apply fmap_Some in Ha as ([u m] & Hh & ->). exists u.
  apply head_Some_elem_of, elem_of_with_school in Hh. simpl in Hh.
  apply elem_of_filterb in Hh as [Hid ?]. bool_to_prop. split; [by apply account_is|done].
Qed.

Lemma find_pin_user_found c i db : ∃ o, find_pin_user c i db = (inr o, db) ∧
  ∀ a, o = Some a → ∃ usr, account_of_row db a usr.
Proof.
  unfold find_pin_user. erewrite bind_inr by reflexivity. erewrite bind_inr by reflexivity.
  cbv zeta. rewrite find_run. eexists. split; [done|]. intros a Ha.
  apply fmap_Some in Ha as (um & Hum & ->). apply fmap_Some in Hum as ([u s] & Hh & ->). exists u.
  apply account_is. apply head_Some_elem_of, elem_of_order_by, elem_of_join_school in Hh. simpl in Hh.
  by apply elem_of_filterb in Hh as [_ ?].
Qed.

Lemma find_parents_found c k db : ∃ l, find_parents_by_contact c k db = (inr l, db) ∧
  ∀ a, a ∈ l → ∃ usr, account_of_row db a usr.
Proof.
  unfold find_parents_by_contact. erewrite bind_inr by reflexivity. erewrite bind_inr by reflexivity.
  eexists. split; [done|]. intros a (us & -> & Hin)%list_elem_of_fmap. exists us.1.
  apply elem_of_join_school, elem_of_filterb in Hin as [Hr Hin]. bool_to_prop.
  replace (to_auth_user us.1 (Some (school_auth_method us.2)))
    with (account db us.1 (Some (school_auth_method us.2))); [by apply account_is|].
  unfold account. by match goal with H : user_role _ = _ |- _ => rewrite H end.
Qed.

Section LoginInversion.
Context `{!CredentialHasher, !TokenService} (now : datetime).

Lemma rate_limit_reads i ip db r db' : rate_limit now i ip db = (r, db') → db' = db.
Proof.
  unfold rate_limit, check. erewrite bind_inr by reflexivity. cbv zeta.
  destruct (oldest_failure _); [destruct (_ <=? _)|]; by intros [= _ <-].
Qed.

Lemma reject_never {A} u i ip e db (a : A) db' : reject_login now u i ip e db ≠ (inr a, db').
Proof.
  unfold reject_login. intros (? & ? & _ & Hr)%bind_inv_inr.
  by apply bind_inv_inr in Hr as (? & ? & _ & Hr).
Qed.

Lemma if_reject (b : bool) u i ip e db x db' :
  (if b then reject_login now u i ip e else mret tt : M unit) db = (inr x, db') → b = false ∧ db' = db.
Proof. destruct b; [by intros ?%reject_never|]. by intros [= _ <-]. Qed.

Lemma can_use_active a m : can_use_manual_method a m = true → is_active a = true.
Proof. unfold can_use_manual_method. by destruct (is_active a). Qed.

(** A sign-in that succeeds completed the login of an account that may be used. *)
Lemma login_inv r ip db iss db' :
  login now r ip db = (inr iss, db') →
  ∃ a usr i ipd, account_of_row db a usr ∧ user_usable db usr = true ∧
    complete_login now a i ipd db = (inr iss, db').
Proof.
  destruct r as [email pw|contact pw code|code ident pin]; simpl.
  - unfold login_with_password. cbv zeta. intros (? & db1 & ->%rate_limit_reads & Hrun)%bind_inv_inr.
    destruct (find_by_email_found (strip (casefold email)) db) as (o & Hf & Hrow).
    rewrite (bind_inr _ _ _ _ _ Hf) in Hrun. destruct o as [a|]; [|by apply reject_never in Hrun].
    apply bind_inv_inr in Hrun as (? & ? & [_ ->]%if_reject & Hrun).
    apply bind_inv_inr in Hrun as (? & ? & [Hu ->]%if_reject & Hrun). bool_to_prop.
    destruct (Hrow a eq_refl) as [usr Ha]. eexists a, usr, _, _. split; [done|]. split; [|exact Hrun].
    destruct Ha as (_ & _ & _ & <-). by eapply can_use_active.
  - unfold login_with_parent_contact. cbv zeta. intros (? & db1 & ->%rate_limit_reads & Hrun)%bind_inv_inr.
    edestruct (find_parents_found (strip (casefold contact))) as (l & Hf & Hrow).
    rewrite (bind_inr _ _ _ _ _ Hf) in Hrun.
    apply bind_inv_inr in Hrun as ([] & db2 & Hone & Hrun).
    assert (db2 = db) as -> by (destruct (1 <? _)%nat; by injection Hone).
    destruct (head l) as [a|] eqn:Hl; [|by apply reject_never in Hrun].
    apply bind_inv_inr in Hrun as (? & ? & [Hu ->]%if_reject & Hrun). bool_to_prop.
    destruct (Hrow a) as [usr Ha]; [by apply head_Some_elem_of|].
    eexists a, usr, _, _. split; [done|]. split; [|exact Hrun]. by destruct Ha as (_ & _ & _ & <-).
  - unfold login_with_pin. cbv zeta. intros (? & db1 & ->%rate_limit_reads & Hrun)%bind_inv_inr.
    destruct (find_pin_user_found (strip (casefold code)) (strip (casefold ident)) db) as (o & Hf & Hrow).
    rewrite (bind_inr _ _ _ _ _ Hf) in Hrun. destruct o as [a|]; [|by apply reject_never in Hrun].
    apply bind_inv_inr in Hrun as (? & ? & [_ ->]%if_reject & Hrun).
    apply bind_inv_inr in Hrun as (? & ? & [Hu ->]%if_reject & Hrun). bool_to_prop.
    destruct (Hrow a eq_refl) as [usr Ha]. eexists a, usr, _, _. split; [done|]. split; [|exact Hrun].
    destruct Ha as (_ & _ & _ & <-). by eapply can_use_active.
Qed.

(** The logs are the only other tables a sign-in writes. *)
Lemma frames_record_attempt a b c d :
  frames [AuthLoginAttempts; AuthAuditEvents] (record_attempt a b c d).
Proof. unfold record_attempt, begin_. frames_tac. Qed.
Lemma frames_record_event a b c d e f g :
  frames [AuthLoginAttempts; AuthAuditEvents] (record_event a b c d e f g).
Proof. unfold record_event, begin_. frames_tac. Qed.

(** The session a completed sign-in opened. *)
Record opened (a : AuthUser) (iss : IssuedSession) (d : SessionDraft) : Prop := {
  opened_user : sd_user_id d = au_id a ∧ issued_user_id iss = au_id a;
  opened_role : sd_role d = au_role a ∧ issued_role iss = au_role a;
  opened_digest : sd_token_digest d = token_digest (issued_access_token iss);
  opened_times : sd_created_at d = now ∧ sd_last_seen_at d = now ∧
    ∃ t, idle_timeout_for_role (au_role a) = inr t ∧ sd_expires_at d = now + t ∧
      issued_expires_at iss = now + t
}.

Lemma complete_login_inv a i ip db iss db' :
  complete_login now a i ip db = (inr iss, db') →
  ∃ d db1 r db2, opened a iss d ∧ db_tables db1 = db_tables db ∧
    create d (requires_single_session (au_role a)) db1 = (inr r, db2) ∧
    issued_replaced_session iss = is_some r ∧
    ∀ t, t ∉ [AuthLoginAttempts; AuthAuditEvents] → db_tables db' t = db_tables db2 t.
Proof.
  unfold complete_login. intros ([token digest] & db0 & Htok & Hrun)%bind_inv_inr.
  assert (digest = token_digest token) as -> by (by eapply issue_token_digest).
  assert (db_tables db0 = db_tables db) as Htables.
  { destruct (issue_token_returns db) as (t & x & Hx & Ht & _). rewrite Htok in Hx.
    assert (db0 = x) as -> by congruence. done. }
  apply bind_inv_inr in Hrun as (t & db1 & Ht & Hrun).
  destruct (idle_timeout_for_role (au_role a)) as [|t'] eqn:Hidle; [done|]. injection Ht as -> ->.
  apply bind_inv_inr in Hrun as (id & db2 & Hid & Hrun). injection Hid as <- <-.
  apply bind_inv_inr in Hrun as (r & db3 & Hcreate & Hrun).
  eexists _, _, r, db3. split; [|split; [|split; [exact Hcreate|]]]; [|exact Htables|].
  all: cycle 1.
  - repeat (apply bind_inv_inr in Hrun as (? & ? & ? & Hrun)). injection Hrun as <- <-.
    split; [done|]. intros tb Htb.
    repeat match goal with
    | H : record_attempt ?a ?b ?c ?d ?x = (_, ?y) |- _ =>
      let F := fresh "F" in pose proof (frames_record_attempt a b c d x tb Htb) as F; rewrite H in F; clear H; simpl in F
    | H : record_event ?a ?b ?c ?d ?e ?f ?g ?x = (_, ?y) |- _ =>
      let F := fresh "F" in pose proof (frames_record_event a b c d e f g x tb Htb) as F; rewrite H in F; clear H; simpl in F
    | H : (match ?o with Some _ => _ | None => _ end) _ = _ |- _ => destruct o
    | H : mret _ _ = (inr _, _) |- _ => injection H as ? ?; subst
    end; congruence.
  - repeat (apply bind_inv_inr in Hrun as (? & ? & _ & Hrun)). injection Hrun as <- _.
    split; simpl; eauto 10.
Qed.
End LoginInversion.

(** *** The session a sign-in opens *)

Lemma account_usable_row db usr :
  db_ok db = true → usr ∈ db_tables db Users → account_usable db (user_id usr) = user_usable db usr.
Proof.
  intros Hok Hin. unfold account_usable.
  rewrite (findb_unique _ _ usr Hin); [done|by apply bool_decide_true|].
  intros b Hb Hid. bool_to_prop. rewrite db_ok_spec in Hok.
  pose proof (table_primary_key Users _ (Hok Users)) as Hnd.
  exact (NoDup_map_inj user_id _ _ _ Hnd Hb Hin Hid).
Qed.

Lemma account_usable_tables db db' i :
  db_tables db' Users = db_tables db Users → db_tables db' AgeChecks = db_tables db AgeChecks →
  account_usable db' i = account_usable db i.
Proof. unfold account_usable, user_usable, on_hold. by intros -> ->. Qed.

Lemma session_of_unique db s :
  db_ok db = true → s ∈ db_tables db AuthSessions → session_of db (ses_token_digest s) = Some s.
Proof.
  intros Hok Hin. apply findb_unique; [done|by apply bool_decide_true|].
  intros b Hb Hd. bool_to_prop. pose proof (db_ok_sessions db Hok) as H. unfold sessions_ok in H.
  bool_to_prop.
  eapply (unique_on_eq (λ r, Some (ses_token_digest r))); [eassumption|exact Hb|exact Hin| |reflexivity].
  by rewrite Hd.
Qed.

Lemma idle_within_lifetime r : idle_timeout r <= absolute_lifetime_for_role (value r).
Proof. by destruct r. Qed.

Lemma over_fresh s now later :
  ses_created_at s = now → ses_expires_at s = now + idle_timeout (ses_role s) → now <= later →
  later < ses_expires_at s → over s later = None.
Proof.
  intros Hc He Hle Hlt. unfold over. destruct (ses_expires_at s <=? later) eqn:H1; [by bool_to_prop; lia|].
  destruct (_ <=? later - _) eqn:H2; [|done]. exfalso. bool_to_prop. rewrite Hc in H2. rewrite He in Hlt.
  pose proof (idle_within_lifetime (ses_role s)). lia.
Qed.

Section Opened.
Context `{!CredentialHasher, !TokenService} (now : datetime).

Lemma completed_session a i ip db iss db' usr :
  complete_login now a i ip db = (inr iss, db') → account_of_row db a usr → db_ok db' = true →
  (∃ s, session_of db' (token_digest (issued_access_token iss)) = Some s ∧ ses_revoked_at s = None ∧
    ses_created_at s = now ∧ ses_expires_at s = now + idle_timeout (ses_role s) ∧
    ses_expires_at s = issued_expires_at iss ∧ ses_user_id s = issued_user_id iss ∧
    value (ses_role s) = issued_role iss) ∧ issued_user_id iss = user_id usr ∧
  db_tables db' Users = db_tables db Users ∧ db_tables db' AgeChecks = db_tables db AgeChecks.
Proof.
  intros Hrun (_ & Hid & Hrole & _) Hok'.
  apply complete_login_inv in Hrun as (d & db1 & rep & db2 & Hd & Ht & Hcreate & _ & Hrest).
  apply create_inv in Hcreate as (_ & _ & Hne & _ & role & Hparse & Hs).
  rewrite <- (Hrest AuthSessions) in Hs by set_solver.
  destruct Hd as [[Hu Hiu] [Hr Hir] Hdig (Hc & _ & t & Hidle & He & Hie)].
  rewrite Hr, Hrole, parse_value in Hparse. injection Hparse as <-.
  rewrite Hrole, idle_timeout_spec in Hidle. injection Hidle as <-.
  split; [|split; [congruence|]].
  - assert (∃ s, s ∈ db_tables db' AuthSessions ∧ (s = session_row d (user_role usr) ∨
      s = (session_row d (user_role usr)) <| ses_replaced_by_session_id := Some (sd_id d) |>)) as (s & Hin & Hx).
    { eexists. rewrite Hs. split; [apply elem_of_app; right; by left|]. destruct (bool_decide _); auto. }
    exists s. rewrite <- Hdig. replace (sd_token_digest d) with (ses_token_digest s) by by destruct Hx as [->| ->].
    rewrite (session_of_unique db' s Hok' Hin).
    destruct Hx as [->| ->]; cbn; rewrite ?Hc, ?He, ?Hie, ?Hu, ?Hiu, ?Hir, ?Hrole; by split_and!.
  - by rewrite !Hrest, !Hne, Ht by set_solver.
Qed.
End Opened.

Section Later.
Context `{!CredentialHasher, !TokenService}.

(** An ended session is refused for good, with the reason it ended. *)
Lemma ended_later ops token now db s :
  db_ok db = true → session_of db (token_digest token) = Some s → ses_revoked_at s ≠ None →
  authenticate now token (run_auth_ops ops db) = (inl (ended_error s), run_auth_ops ops db).
Proof.
  intros Hok Hs Hrev. destruct (run_auth_ops_inv db ops db (auth_inv_refl db Hok)) as [_ Hl].
  destruct (auth_later_session_of _ _ _ _ Hl Hs) as (s' & Hs' & _ & _ & _ & _ & _ & [?|[E1 E2]]); [done|].
  rewrite (authenticate_ended _ _ _ s' Hs') by congruence. unfold ended_error. by rewrite E2.
Qed.

Lemma login_ok now r ip db : db_ok db = true → db_ok (snd (login now r ip db)) = true.
Proof. intros Hok. by apply (login_preserves db), auth_inv_refl. Qed.
End Later.

(** *** Refused sign-ins *)

Section Refusals.
Context `{!CredentialHasher, !TokenService}.

Definition ip_digest_of (ip : string) : string := protect_identifier ("ip:" ++ ip).

(** The failed attempts from an address since a moment. *)
Definition failed_from (ip : string) (since : datetime) (a : AuthLoginAttempt) : bool :=
  negb (attempt_succeeded a) && (since <=? attempt_occurred_at a) &&
  (attempt_ip_digest a == ip_digest_of ip).

Definition failures_from (ip : string) (since : datetime) (db : Database) : nat :=
  length (filterb (failed_from ip since) (db_tables db AuthLoginAttempts)).

(** How many sign-ins from the address were refused for their credentials
    during a run of operations, since a moment. *)
Definition refused_now (op : auth_op) (ip : string) (since now : datetime) (db : Database) : bool :=
  match op with
  | OpLogin r ip' => (ip' == ip) && (since <=? now) &&
      match fst (login now r ip' db) with inl InvalidCredentialsError => true | _ => false end
  | _ => false
  end.

Fixpoint refusals (ip : string) (since : datetime) (ops : list (auth_op * datetime)) (db : Database) : nat :=
  match ops with
  | [] => 0
  | (op, now) :: ops' =>
    (if refused_now op ip since now db then 1 else 0) + refusals ip since ops' (run_auth_op op now db)
  end.

Lemma filterb_length_app {A} (p : A → bool) l1 l2 :
  length (filterb p (l1 ++ l2)) = (length (filterb p l1) + length (filterb p l2))%nat.
Proof. unfold filterb. by rewrite filter_app, length_app. Qed.

Lemma filterb_length_le {A} (p q : A → bool) l :
  (∀ a, p a = true → q a = true) → (length (filterb p l) <= length (filterb q l))%nat.
Proof.
  intros Hpq. induction l as [|a l IH]; [done|]. rewrite !filterb_cons.
  specialize (Hpq a). destruct (p a); [rewrite Hpq by done; simpl; lia|]. destruct (q a); simpl; lia.
Qed.

Lemma later_failures ip since db db' :
  auth_later db db' → (failures_from ip since db <= failures_from ip since db')%nat.
Proof. intros [_ [new E]]. unfold failures_from. rewrite E, filterb_length_app. lia. Qed.

(** The errors a completed sign-in may end with. *)
Lemma begin_raises {A} (m : M A) db e db' :
  begin_ m db = (inl e, db') → e = IntegrityError ∨ ∃ db1, m db = (inl e, db1).
Proof.
  unfold begin_, transaction. destruct (m db) as [[x|a] db1]; [intros [= <- _]; eauto|].
  destruct (db_ok db1); [done|]. intros [= <- _]. by left.
Qed.

Lemma record_attempt_raises a b c d db e db' :
  record_attempt a b c d db = (inl e, db') → e = IntegrityError.
Proof. intros [?|[? Hx]]%begin_raises; [done|discriminate Hx]. Qed.
Lemma record_event_raises a b c d x f g db e db' :
  record_event a b c d x f g db = (inl e, db') → e = IntegrityError.
Proof. intros [?|[? Hx]]%begin_raises; [done|discriminate Hx]. Qed.

Lemma complete_login_raises now a i ip db e db' :
  complete_login now a i ip db = (inl e, db') → e ≠ InvalidCredentialsError.
Proof.
  unfold complete_login. destruct (issue_token_returns db) as (t & db1 & Hrun & _).
  rewrite (bind_inr _ _ _ _ _ Hrun). intros [Hx|(tm & db2 & Hidle & Hr)]%bind_inv_inl.
  { unfold idle_timeout_for_role in Hx. destruct (dict_get _ _); [done|]. by injection Hx as <- _. }
  clear Hidle. rewrite (bind_inr _ _ _ _ (db_uuids db2)) in Hr by reflexivity.
  apply bind_inv_inl in Hr as [Hx|(r & db3 & _ & Hr)].
  { apply begin_raises in Hx as [->|[db4 Hx]]; [done|]. intros ->. revert Hx. clear.
    unfold flush_. intros Hx. 
    repeat match goal with
    | Hx : (_ ≫= _) _ = (inl _, _) |- _ => apply bind_inv_inl in Hx as [Hx|(? & ? & _ & Hx)]
    | Hx : (if ?b then _ else _) _ = (inl _, _) |- _ => destruct b
    | Hx : (match ?b with Some _ => _ | None => _ end) _ = (inl _, _) |- _ => destruct b
    | Hx : flush _ _ = _ |- _ => unfold flush in Hx
    | Hx : (if ?b then _ else _) = (inl _, _) |- _ => destruct b
    end; try discriminate Hx. }
  repeat match goal with
  | Hx : (_ ≫= _) _ = (inl _, _) |- _ => apply bind_inv_inl in Hx as [Hx|(? & ? & _ & Hx)]
  | Hx : (match ?b with Some _ => _ | None => _ end) _ = (inl _, _) |- _ => destruct b
  | Hx : record_attempt _ _ _ _ _ = _ |- _ => apply record_attempt_raises in Hx as ->
  | Hx : record_event _ _ _ _ _ _ _ _ = _ |- _ => apply record_event_raises in Hx as ->
  end; done.
Qed.

Lemma frames_event_only a b c d e f g : frames [AuthAuditEvents] (record_event a b c d e f g).
Proof. unfold record_event, begin_. frames_tac. Qed.

(** A refusal leaves one more failed attempt. *)
Definition one_failure (ip : string) (now : datetime) (db db' : Database) : Prop :=
  ∃ identity i, db_tables db' AuthLoginAttempts =
    (db_tables db AuthLoginAttempts ++ [attempt_row identity (ip_digest_of ip) false now i])%list.

Lemma reject_inv {A} now u i ip e db db' :
  (reject_login now u i (ip_digest_of ip) e : M A) db = (inl InvalidCredentialsError, db') →
  one_failure ip now db db'.
Proof.
  unfold reject_login. intros [Hx|([] & db1 & Hatt & Hrun)]%bind_inv_inl.
  { by apply record_attempt_raises in Hx. }
  apply bind_inv_inl in Hrun as [Hx|([] & db2 & Hev & Hrun)]; [by apply record_event_raises in Hx|].
  injection Hrun as _ <-. apply transaction_commit in Hatt as [Hatt _].
  injection Hatt as <-. exists i, (db_uuids db).
  match type of Hev with record_event ?a ?b ?c ?d ?e ?f ?g ?x = _ =>
    pose proof (frames_event_only a b c d e f g x AuthLoginAttempts ltac:(set_solver)) as HF end.
  rewrite Hev in HF. simpl in HF. rewrite HF, set_table_eq. done.
Qed.

Lemma if_reject_inv (b : bool) now u i ip e db db' :
  (if b then reject_login now u i (ip_digest_of ip) e else mret tt : M unit) db =
    (inl InvalidCredentialsError, db') → one_failure ip now db db'.
Proof. destruct b; [apply reject_inv|done]. Qed.

Lemma login_refused now r ip db db' :
  login now r ip db = (inl InvalidCredentialsError, db') → one_failure ip now db db'.
Proof.
  assert (∀ i db db', rate_limit now i (ip_digest_of ip) db = (inl InvalidCredentialsError, db') → False) as Hlim.
  { intros i d d'. unfold rate_limit, check. erewrite bind_inr by reflexivity. cbv zeta.
    by destruct (oldest_failure _); [destruct (_ <=? _)|]. }
  destruct r as [email pw|contact pw code|code ident pin]; simpl.
  - unfold login_with_password. cbv zeta. fold (ip_digest_of ip).
    intros [[]%Hlim|(? & db1 & ->%rate_limit_reads & Hrun)]%bind_inv_inl.
    destruct (find_by_email_found (strip (casefold email)) db) as (o & Hf & _).
    rewrite (bind_inr _ _ _ _ _ Hf) in Hrun. destruct o as [a|]; [|by eapply reject_inv].
    apply bind_inv_inl in Hrun as [Hx|(? & ? & [_ ->]%if_reject & Hrun)]; [by eapply if_reject_inv|].
    apply bind_inv_inl in Hrun as [Hx|(? & ? & [_ ->]%if_reject & Hrun)]; [by eapply if_reject_inv|].
    by apply complete_login_raises in Hrun.
  - unfold login_with_parent_contact. cbv zeta. fold (ip_digest_of ip).
    intros [[]%Hlim|(? & db1 & ->%rate_limit_reads & Hrun)]%bind_inv_inl.
    edestruct (find_parents_found (strip (casefold contact))) as (l & Hf & _).
    rewrite (bind_inr _ _ _ _ _ Hf) in Hrun.
    apply bind_inv_inl in Hrun as [Hx|([] & db2 & Hone & Hrun)]; [by destruct (1 <? _)%nat|].
    assert (db2 = db) as -> by (destruct (1 <? _)%nat; by injection Hone).
    destruct (head l) as [a|] eqn:Hl; [|by eapply reject_inv].
    apply bind_inv_inl in Hrun as [Hx|(? & ? & [_ ->]%if_reject & Hrun)]; [by eapply if_reject_inv|].
    by apply complete_login_raises in Hrun.
  - unfold login_with_pin. cbv zeta. fold (ip_digest_of ip).
    intros [[]%Hlim|(? & db1 & ->%rate_limit_reads & Hrun)]%bind_inv_inl.
    destruct (find_pin_user_found (strip (casefold code)) (strip (casefold ident)) db) as (o & Hf & _).
    rewrite (bind_inr _ _ _ _ _ Hf) in Hrun. destruct o as [a|]; [|by eapply reject_inv].
    apply bind_inv_inl in Hrun as [Hx|(? & ? & [_ ->]%if_reject & Hrun)]; [by eapply if_reject_inv|].
    apply bind_inv_inl in Hrun as [Hx|(? & ? & [_ ->]%if_reject & Hrun)]; [by eapply if_reject_inv|].
    by apply complete_login_raises in Hrun.
Qed.

(** The refusals of a run are all among the failures it leaves. *)
Lemma refusals_recorded ip since ops db :
  db_ok db = true →
  (failures_from ip since db + refusals ip since ops db <= failures_from ip since (run_auth_ops ops db))%nat.
Proof.
  revert db. induction ops as [|[op now] ops IH]; intros db Hok; simpl; [lia|].
  pose proof (run_auth_op_inv db op now db (auth_inv_refl db Hok)) as [Hok' Hl].
  specialize (IH _ Hok'). pose proof (later_failures ip since _ _ Hl).
  destruct (refused_now op ip since now db) eqn:Href; [|lia].
  assert (failures_from ip since db + 1 <= failures_from ip since (run_auth_op op now db))%nat; [|lia].
  destruct op as [r ip'| | | |]; try done. unfold refused_now in Href. bool_to_prop. simpl in *. subst ip'.
  destruct (login now r ip db) as [[e|] db'] eqn:Hlogin; [|done]. simpl in *. destruct e; try done.
  apply login_refused in Hlogin as (identity & i & E). unfold failures_from.
  rewrite E, filterb_length_app. rewrite (filterb_cons _ _ []).
  unfold failed_from at 3. cbn. rewrite bool_decide_true by done.
  rewrite (proj2 (Z.leb_le _ _)) by done. simpl. lia.
Qed.

(** Five failures from an address close it. *)
Lemma rate_limited ip now identity db :
  (5 <= failures_from ip (now - DEFAULT_WINDOW)%Z db)%nat →
  ∃ retry, rate_limit now identity (ip_digest_of ip) db = (inl (RateLimitExceededError retry), db) ∧
    now <= retry.
Proof.
  intros Hn. set (found := filterb (counted_failure DEFAULT_WINDOW identity (ip_digest_of ip) now)
    (db_tables db AuthLoginAttempts)).
  change (rate_limit now identity (ip_digest_of ip) db) with ((match oldest_failure found with
    | Some oldest => if DEFAULT_MAX_FAILURES <=? Z.of_nat (length found)
                     then raise (RateLimitExceededError (oldest + DEFAULT_WINDOW)) else mret tt
    | None => mret tt end : M unit) db).
  assert (5 <= length found)%nat as Hlen.
  { etransitivity; [exact Hn|]. unfold failures_from, found.
    apply filterb_length_le. unfold failed_from, counted_failure. intros a Ha. bool_to_prop.
    repeat (apply andb_true_intro; split); [by apply negb_true_iff|by apply Z.leb_le|].
    apply orb_true_iff. right. by apply bool_decide_true. }
  assert (∃ oldest, oldest_failure found = Some oldest ∧ now - DEFAULT_WINDOW <= oldest) as (o & Ho & Hle).
  { unfold oldest_failure. destruct found as [|a l] eqn:Hf; [simpl in Hlen; lia|]. simpl. eexists. split; [done|].
    assert (∀ b, b ∈ a :: l → now - DEFAULT_WINDOW <= attempt_occurred_at b) as Hall.
    { intros b. rewrite <- Hf. intros [Hb _]%elem_of_filterb. unfold counted_failure in Hb. by bool_to_prop. }
    clear Hf Hlen found. assert (now - DEFAULT_WINDOW <= attempt_occurred_at a) as Hfirst by (apply Hall; by left).
    revert Hfirst Hall. generalize (attempt_occurred_at a). induction l as [|b l IH]; intros t Ht Hall; [done|].
    simpl. apply IH; [|intros x Hx; apply Hall; set_solver].
    specialize (Hall b ltac:(set_solver)). lia. }
  rewrite Ho. rewrite (proj2 (Z.leb_le _ _)) by (unfold DEFAULT_MAX_FAILURES; lia).
  eexists. split; [done|]. lia.
Qed.

(** The accounts a request names, and whether its secret is one's. *)
Definition identity_of (r : login_request) : string :=
  match r with
  | ByPassword email _ => protect_identifier ("email:" ++ strip (casefold email))
  | ByParentContact contact _ _ => protect_identifier ("parent:" ++ strip (casefold contact))
  | ByPin code ident _ =>
    protect_identifier ("pin:" ++ strip (casefold code) ++ ":" ++ strip (casefold ident))
  end.

Definition named_accounts (r : login_request) : M (list AuthUser) :=
  match r with
  | ByPassword email _ => option_list <$> find_by_email (strip (casefold email))
  | ByParentContact contact _ code =>
    find_parents_by_contact (strip (casefold contact))
      (if opt_truthy code then (λ c, strip (casefold c)) <$> code else None)
  | ByPin code ident _ => option_list <$> find_pin_user (strip (casefold code)) (strip (casefold ident))
  end.

Definition secret_matches (r : login_request) (a : AuthUser) : bool :=
  match r with
  | ByPassword _ password | ByParentContact _ password _ => verify_password (au_password_hash a) password
  | ByPin _ _ pin => verify_pin (au_pin_hash a) pin
  end.

Lemma reject_run {A} now u i ip e db :
  db_wf db → ∃ db', (reject_login now u i ip e : M A) db = (inl e, db') ∧
    db_tables db' AuthLoginAttempts =
      (db_tables db AuthLoginAttempts ++ [attempt_row i ip false now (db_uuids db)])%list ∧
    (∀ t, t ∉ [AuthLoginAttempts; AuthAuditEvents] → db_tables db' t = db_tables db t).
Proof.
  intros Hwf. unfold reject_login. destruct (record_attempt_run db Hwf i ip false now) as [Hrun Hwf'].
  rewrite (bind_inr _ _ _ _ _ Hrun). cbv zeta.
  match goal with |- context [record_event ?ty ?t ?us ?se ?id ?ad ?de] =>
    destruct (record_event_run _ Hwf' ty t us se id ad de) as [Hrun' _] end.
  erewrite bind_inr by exact Hrun'. eexists. split; [done|]. split.
  - by rewrite appended_ne, appended_eq by done.
  - intros t Ht. rewrite !appended_ne; [done|set_solver..].
Qed.
End Refusals.

Section Properties.
Context `{!CredentialHasher, !TokenService}.

(** C3: the check every request makes, on every branch: an unknown token is refused; a session
    that has ended is refused with the reason it ended and nothing is written; an open one is
    ended when it expired, outlived its role or its account may not be used, and otherwise
    renewed and accepted. No other session is touched, and the outcome is committed even when
    the check refuses. *)
Theorem authenticate_decides token now db :
  db_wf db → (∀ s, session_of db (token_digest token) = Some s → ses_created_at s <= now) →
  match session_of db (token_digest token) with
  | None => authenticate now token db = (inl InvalidSessionError, db)
  | Some s => ∃ db', authenticate now token db = (fst (check_outcome db s now), db') ∧
      only_session db db' (token_digest token) (snd (check_outcome db s now))
  end.
Proof.
  intros Hwf Hborn. destruct (session_of db _) as [s|] eqn:Hs; [|by apply authenticate_none].
  destruct (authenticate_run now token db s Hwf Hs (Hborn s eq_refl)) as (db' & ? & ? & _). eauto.
Qed.

(** C39: through any sequence of sign-ins, checks, refreshes and sign-outs, a token is only
    accepted within the absolute lifetime its role's sessions have, counted from sign-in, only
    if its session had not ended before the sequence, and only as the user and role it was
    issued to. *)
Theorem session_never_outlives_its_role ops token now db db' s p :
  db_ok db = true → session_of db (token_digest token) = Some s →
  authenticate now token (run_auth_ops ops db) = (inr p, db') →
  ses_revoked_at s = None ∧
  now - ses_created_at s < absolute_lifetime_for_role (value (ses_role s)) ∧
  p = principal_of s.
Proof.
  intros Hok Hs (s1 & Hs1 & Hopen & Hover & _ & ->)%authenticate_success.
  destruct (run_auth_ops_inv db ops db (auth_inv_refl db Hok)) as [_ Hl].
  destruct (auth_later_session_of _ _ _ _ Hl Hs) as (s2 & Hs2 & Hlater).
  rewrite Hs1 in Hs2. injection Hs2 as <-. destruct Hlater as (Hid & Hu & Hr & _ & Hc & Hrev).
  unfold over in Hover. rewrite Hr, Hc in Hover. split_and!.
  - destruct Hrev as [?|[? _]]; congruence.
  - repeat case_match; try done. by bool_to_prop.
  - unfold principal_of. by rewrite Hid, Hu, Hr.
Qed.

(** A session that ended stays ended: after any sequence of operations its token is refused
    with the very error of its ending, and the check writes nothing. *)
Theorem ended_session_stays_ended ops token now db s :
  db_ok db = true → session_of db (token_digest token) = Some s → ses_revoked_at s ≠ None →
  authenticate now token (run_auth_ops ops db) = (inl (ended_error s), run_auth_ops ops db).
Proof. apply ended_later. Qed.

(** A learner has one open session: when one signs in, every open session of the account ends,
    its token is answered [session_replaced] whatever happens next, and the session of the new
    token is the only one open. *)
Theorem student_login_ends_the_other_sessions now r ip db iss db' :
  db_ok db = true → login now r ip db = (inr iss, db') → issued_role iss = "student" →
  (∀ token s ops later, session_of db (token_digest token) = Some s →
     ses_user_id s = issued_user_id iss → ses_revoked_at s = None →
     fst (authenticate later token (run_auth_ops ops db')) = inl SessionReplacedError) ∧
  (∀ s, s ∈ db_tables db' AuthSessions → unrevoked (issued_user_id iss) s = true →
     ses_token_digest s = token_digest (issued_access_token iss)).
Proof.
  intros Hok Hlogin Hstudent. pose proof (login_ok now r ip db Hok) as Hok'. rewrite Hlogin in Hok'.
  apply login_inv in Hlogin as (a & usr & i & ipd & _ & _ & Hrun).
  apply complete_login_inv in Hrun as (d & db1 & rep & db2 & Hd & Ht & Hcreate & _ & Hrest).
  destruct Hd as [[Hu Hiu] [Hr Hir] Hdig _]. rewrite Hir in Hstudent. rewrite Hstudent in Hcreate.
  change (requires_single_session "student") with true in Hcreate.
  apply create_inv in Hcreate as (_ & _ & _ & _ & role & _ & Hs).
  rewrite <- (Hrest AuthSessions) in Hs by set_solver.
  pose proof (sessions_nodup db Hok) as Hnd.
  rewrite Ht in Hs. rewrite Hiu, <- Hu. split.
  - intros token s ops later Hof Huser Hopen.
    assert (session_of db' (token_digest token) = Some (replaced_by d s)) as Hof'.
    { unfold session_of. rewrite Hs, findb_app.
      rewrite (findb_update_list _ (replaced_by d)) by done.
      pose proof (session_of_Some _ _ _ Hof) as [_ Hin]. unfold session_of in Hof. rewrite Hof.
      cbn [fmap option_fmap option_map].
      rewrite (in_replaced d true db1 s) by (rewrite ?Ht; done). unfold unrevoked.
      by rewrite bool_decide_true, Hopen by done. }
    by rewrite (ended_later ops token later db' _ Hok' Hof').
  - intros s. rewrite Hs. intros [(x & Hin & ->)%elem_of_update_list|Hin]%elem_of_app Hopen.
    + exfalso. rewrite (in_replaced d true db1 x) in Hopen by (rewrite ?Ht; done).
      destruct (unrevoked (sd_user_id d) x) eqn:Hx; cbn [andb] in Hopen; [|congruence].
      unfold unrevoked in Hopen. bool_to_prop. done.
    + apply elem_of_update_list in Hin as (x & Hx & ->). apply list_elem_of_singleton in Hx as ->.
      by case_match.
Qed.

(** A sign-in that succeeds is one for an account that may be used (active, and no learner
    whose date of birth is on hold), and its token is accepted as that user and role until it
    has been idle for the role's timeout. *)
Theorem issued_session_is_accepted now r ip db iss db' later :
  db_ok db = true → login now r ip db = (inr iss, db') →
  now <= later → later < issued_expires_at iss →
  account_usable db (issued_user_id iss) = true ∧
  ∃ i, fst (authenticate later (issued_access_token iss) db') =
    inr (mkAuthPrincipal (issued_user_id iss) (issued_role iss) i).
Proof.
  intros Hok Hlogin Hle Hlt. pose proof (login_ok now r ip db Hok) as Hok'. rewrite Hlogin in Hok'.
  apply login_inv in Hlogin as (a & usr & i & ipd & Hrow & Husable & Hrun).
  destruct (completed_session now _ _ _ _ _ _ _ Hrun Hrow Hok')
    as ((s & Hs & Hopen & Hc & He & Hie & Hu & Hr) & Hid & HU & HA).
  assert (account_usable db (issued_user_id iss) = true) as Hacc.
  { rewrite Hid, account_usable_row; [done|done|apply Hrow]. }
  split; [done|]. exists (ses_id s). rewrite (authenticate_accepts later _ db' s); try done.
  - unfold principal_of. by rewrite Hu, Hr.
  - by rewrite Hc.
  - apply (over_fresh s now); [done..|]. by rewrite Hie.
  - by rewrite (account_usable_tables db), Hu.
Qed.

(** Five sign-ins refused from one address within fifteen minutes, whatever accounts they name
    and whatever happens in between, close the address: the next sign-in from it, with the
    right credentials too, is refused before they are looked at, and nothing is written. *)
Theorem five_refusals_close_an_address ops r ip now db :
  db_ok db = true → (5 <= refusals ip (now - DEFAULT_WINDOW)%Z ops db)%nat →
  ∃ retry, login now r ip (run_auth_ops ops db) =
    (inl (RateLimitExceededError retry), run_auth_ops ops db) ∧ now <= retry.
Proof.
  intros Hok Hn. pose proof (refusals_recorded ip (now - DEFAULT_WINDOW) ops db Hok) as Hrec.
  pose proof (λ identity, rate_limited ip now identity (run_auth_ops ops db) ltac:(lia)) as Hlim.
  destruct r; simpl; unfold login_with_password, login_with_parent_contact, login_with_pin; cbv zeta;
    fold (ip_digest_of ip); edestruct Hlim as (retry & Hl & Hle);
    (exists retry; split; [by erewrite bind_inl by exact Hl|exact Hle]).
Qed.

(** A sign-in whose secret is wrong is refused in the same way whether or not it names an
    account: the same error, the same failed attempt recorded against the identity and the
    address, and no other table but the audit log is written. *)
Theorem wrong_credentials_are_refused_alike r ip now db l :
  db_wf db → rate_limit now (identity_of r) (ip_digest_of ip) db = (inr tt, db) →
  named_accounts r db = (inr l, db) → (length l <= 1)%nat →
  (∀ a, a ∈ l → secret_matches r a = false) →
  ∃ db', login now r ip db = (inl InvalidCredentialsError, db') ∧
    db_tables db' AuthLoginAttempts = (db_tables db AuthLoginAttempts ++
      [attempt_row (identity_of r) (ip_digest_of ip) false now (db_uuids db)])%list ∧
    (∀ t, t ∉ [AuthLoginAttempts; AuthAuditEvents] → db_tables db' t = db_tables db t).
Proof.
  intros Hwf Hlim Hnamed Hlen Hwrong.
  destruct r as [email pw|contact pw code|code ident pin]; simpl in *.
  - unfold login_with_password. cbv zeta. fold (ip_digest_of ip).
    rewrite (bind_inr _ _ _ _ _ Hlim).
    destruct (find_by_email_found (strip (casefold email)) db) as (o & Hf & _).
    unfold fmap, comp_fmap in Hnamed. rewrite (bind_inr _ _ _ _ _ Hf) in Hnamed. injection Hnamed as <-.
    rewrite (bind_inr _ _ _ _ _ Hf). destruct o as [a|]; [|by apply reject_run].
    specialize (Hwrong a ltac:(by left)). cbn [mbind option_bind]. rewrite Hwrong. cbn [andb negb orb].
    rewrite (bind_inr _ _ _ _ tt) by done.
    destruct (reject_run (A := unit) now (Some a) (protect_identifier ("email:" ++ strip (casefold email)))
      (ip_digest_of ip) InvalidCredentialsError db Hwf) as (db' & Hrun & ?).
    exists db'. split; [by erewrite bind_inl by exact Hrun|done].
  - unfold login_with_parent_contact. cbv zeta. fold (ip_digest_of ip).
    rewrite (bind_inr _ _ _ _ _ Hlim), (bind_inr _ _ _ _ _ Hnamed).
    destruct l as [|a [|]]; [| |simpl in Hlen; lia]; rewrite (bind_inr _ _ _ _ tt) by done; cbn [head].
    + by apply reject_run.
    + specialize (Hwrong a ltac:(by left)). cbn [mbind option_bind]. rewrite Hwrong. cbn [negb orb].
      destruct (reject_run (A := unit) now (Some a) (protect_identifier ("parent:" ++ strip (casefold contact)))
        (ip_digest_of ip) InvalidCredentialsError db Hwf) as (db' & Hrun & ?).
      exists db'. split; [by erewrite bind_inl by exact Hrun|done].
  - unfold login_with_pin. cbv zeta. fold (ip_digest_of ip).
    rewrite (bind_inr _ _ _ _ _ Hlim).
    destruct (find_pin_user_found (strip (casefold code)) (strip (casefold ident)) db) as (o & Hf & _).
    unfold fmap, comp_fmap in Hnamed. rewrite (bind_inr _ _ _ _ _ Hf) in Hnamed. injection Hnamed as <-.
    rewrite (bind_inr _ _ _ _ _ Hf). destruct o as [a|]; [|by apply reject_run].
    specialize (Hwrong a ltac:(by left)). cbn [mbind option_bind]. rewrite Hwrong.
    cbn [andb negb orb]. rewrite orb_true_r. cbn [orb]. rewrite (bind_inr _ _ _ _ tt) by done.
    destruct (reject_run (A := unit) now (Some a)
      (protect_identifier ("pin:" ++ strip (casefold code) ++ ":" ++ strip (casefold ident)))
      (ip_digest_of ip) InvalidCredentialsError db Hwf) as (db' & Hrun & ?).
    exists db'. split; [by erewrite bind_inl by exact Hrun|done].
Qed.

(** Signing out ends the session for good and touches no other: its token is answered
    [session_revoked] from then on, and signing out again does nothing. *)
Theorem logout_ends_the_session token now db s :
  db_wf db → session_of db (token_digest token) = Some s → ses_revoked_at s = None →
  ∃ db', logout now token db = (inr tt, db') ∧
    only_session db db' (token_digest token) (ended s "logout" now) ∧
    (∀ later, logout later token db' = (inr tt, db')) ∧
    ∀ ops later, fst (authenticate later token (run_auth_ops ops db')) = inl SessionRevokedError.
Proof.
  intros [Hok Hf] Hs Hopen. unfold logout at 1. erewrite bind_inr by apply find_by_digest_run.
  rewrite Hs. cbn [fmap option_fmap option_map].
  change (sr_revoked_at (to_session_record s)) with (ses_revoked_at s). rewrite Hopen. cbn [is_some is_none negb].
  change (sr_id (to_session_record s)) with (ses_id s).
  erewrite bind_inr by (by apply (revoke_run db s (token_digest token))).
  pose proof (ended_wf db s (token_digest token) now Hok Hs "logout" Hf) as Hwf'.
  edestruct (record_event_run _ Hwf') as [Hrun Hwf'']. unfold session_event.
  change (sr_user_id (to_session_record s)) with (ses_user_id s).
  change (sr_id (to_session_record s)) with (ses_id s). rewrite Hrun. eexists. split; [done|].
  assert (∀ mk, only_session db (appended AuthAuditEvents mk (with_session db s (ended s "logout" now)))
    (token_digest token) (ended s "logout" now)) as Honly.
  { intros mk. by apply only_session_logged, only_session_with. }
  split; [apply Honly|]. pose proof (Honly (event_row "logout" now (Some (ses_user_id s)) (Some (ses_id s))
    None None [])) as (Hs' & _). split.
  - intros later. unfold logout. erewrite bind_inr by apply find_by_digest_run.
    by erewrite Hs'.
  - intros ops later. destruct Hwf'' as [Hok' _].
    erewrite (ended_later ops token later _ _ Hok' Hs') by done. done.
Qed.

(** When a typed identifier is the admission number of one learner and the internal handle of
    another of the school who has no admission number, the lookup finds an account without an
    admission number: PostgreSQL sorts the unknown comparison before the true one. *)
Theorem pin_lookup_prefers_a_missing_admission_number c ident db u s a :
  u ∈ db_tables db Users → s ∈ db_tables db Schools → user_school_id u = Some (school_id s) →
  casefold (school_school_code s) = c → user_admission_number u = None →
  lower_opt (user_login_identifier u) = Some ident →
  find_pin_user c ident db = (inr a, db) →
  ∃ a' found, a = Some a' ∧ account_of_row db a' found ∧ user_admission_number found = None.
Proof.
  intros Hu Hs Hschool Hcode Hnone Hident. unfold find_pin_user.
  erewrite bind_inr by reflexivity. erewrite bind_inr by reflexivity. cbv zeta. rewrite find_run.
  set (rows := join_school _ _). intros [= <-].
  assert ((u, s) ∈ rows) as Hin.
  { unfold rows, join_school. apply list_elem_of_bind. exists u. split.
    - apply list_elem_of_fmap. exists s. split; [done|]. apply elem_of_filterb.
      split; [by apply bool_decide_true|]. apply elem_of_filterb. split; [by apply bool_decide_true|done].
    - apply elem_of_filterb. split; [|done]. rewrite Hident, (bool_decide_true (Some ident = Some ident)) by done.
      apply orb_true_r. }
  destruct (head (order_by _ rows)) as [[x xs]|] eqn:Hh.
  2: { apply order_by_head_None in Hh. rewrite Hh in Hin. by apply not_elem_of_nil in Hin. }
  apply order_by_head in Hh as [Hx Hmin].
  - specialize (Hmin _ Hin). simpl in Hmin. cbn [fmap option_fmap option_map fst snd].
    eexists _, x. split; [done|]. split.
    + apply account_is. apply elem_of_join_school in Hx. by apply elem_of_filterb in Hx as [_ ?].
    + bool_to_prop. unfold match_rank in Hmin. rewrite Hnone in Hmin. simpl in Hmin.
      destruct (user_admission_number x); [|done]. simpl in Hmin. by destruct (bool_decide _).
  - intros p q. rewrite !Z.leb_le. lia.
  - intros p q r. rewrite !Z.leb_le. lia.
Qed.
End Properties.
