(* ===== verification/ParentCodes.v ===== *)
(** * Sign-in codes for parents

    [src/nevo/auth/parent_codes.py]: a short code sent to the contact the
    school holds, stored as a digest, spent once and within five guesses. *)

From Stdlib Require Import String Ascii.
From S2P Require Import Prelude Relational Text Vocabulary Schema Fixtures Crypto.

Local Open Scope string_scope.
Local Open Scope Z_scope.
Local Open Scope nevo_scope.

Definition CODE_LIFETIME : timedelta := minutes 10.
Definition MAX_ATTEMPTS : Z := 5.
Definition MAX_LIVE_CODES_PER_HOUR : nat := 5.

Record IssuedCode := mkIssuedCode {
  issued_code : option string; issued_parent_user_id : option uuid; issued_code_expires_at : datetime
}.

(** One spelling of a contact, so a code follows it wherever it is typed. *)
Definition normalise (contact : string) : string :=
  casefold (strip (join " " (split_words contact))).

Section ParentLoginCodes.
Context `{Crypto} (pepper : string) (code_length : nat).

Definition digest (contact code : string) : string :=
  hmac_sha256_hex pepper ("parent-code:" ++ normalise contact ++ ":" ++ code).

(** [stale.consumed_at or moment] *)
Definition retire (moment : datetime) (c : ParentLoginCode) : ParentLoginCode :=
  c <| code_consumed_at := Some (match code_consumed_at c with Some t => t | None => moment end) |>.

(** [secrets.choice] for each character of the code. *)
Fixpoint code_digits (seed : Z) (n : nat) : string :=
  match n with
  | O => ""
  | S n' => String (random_digit seed n) (code_digits seed n')
  end.

Definition recent_code (contact : string) (moment : datetime) (c : ParentLoginCode) : bool :=
  (code_contact c == contact) && (moment - hours 1 <? code_created_at c).

Definition issue (contact : string) (parent_user_id : option uuid) (moment : datetime) : M IssuedCode :=
  let expires_at := moment + CODE_LIFETIME in
  let normalised := normalise contact in
  begin_ (
    recent ← select ParentLoginCodes (recent_code normalised moment);
    if (MAX_LIVE_CODES_PER_HOUR <=? length (recent : list ParentLoginCode))%nat
    then mret (mkIssuedCode None parent_user_id expires_at)
    else
      for_each recent (λ stale, save ParentLoginCodes (retire moment stale));;
      code ← draw (λ seed, code_digits seed code_length);
      i ← uuid4;
      created ← func_now;
      insert ParentLoginCodes
        ((new_ParentLoginCode i normalised (digest normalised code) expires_at created)
           <| code_parent_user_id := parent_user_id |>);;
      mret (mkIssuedCode (Some code) parent_user_id expires_at)).

Definition newest_code (a b : ParentLoginCode) : bool := code_created_at b <=? code_created_at a.

(** The newest code of a contact that has not been spent. *)
Definition live_code (contact : string) (l : list ParentLoginCode) : option ParentLoginCode :=
  head (order_by newest_code
    (filterb (λ c : ParentLoginCode, (code_contact c == contact) && is_none (code_consumed_at c)) l)).

Definition redeem (contact code : string) (moment : datetime) : M (option uuid) :=
  let normalised := normalise contact in
  let wanted := digest normalised (strip code) in
  begin_ (
    codes ← rows ParentLoginCodes;
    match live_code normalised codes with
    | None => mret None
    | Some record =>
      if code_expires_at record <=? moment then mret None
      else
        let record := record <| code_attempt_count := code_attempt_count record + 1 |> in
        if MAX_ATTEMPTS <? code_attempt_count record then
          save ParentLoginCodes (record <| code_consumed_at := Some moment |>);;
          mret None
        else if code_code_digest record != wanted then
          save ParentLoginCodes record;;
          mret None
        else
          save ParentLoginCodes (record <| code_consumed_at := Some moment |>);;
          mret (code_parent_user_id record)
    end).
End ParentLoginCodes.

(** ** One code as an automaton

    What a contact's current code is to the outside: a digest, an expiry, the
    parent it signs in and how many guesses it has had; or nothing to guess. *)

Inductive code_state :=
| Live (attempts : Z)
| Spent.

(** A guess: the code typed and when. *)
Definition guess (c : ParentLoginCode) (matches : string → bool) (st : code_state)
    (typed : string) (moment : datetime) : code_state * option uuid :=
  match st with
  | Spent => (Spent, None)
  | Live n =>
    if code_expires_at c <=? moment then (st, None)
    else if MAX_ATTEMPTS <? n + 1 then (Spent, None)
    else if matches typed then (Spent, code_parent_user_id c) else (Live (n + 1), None)
  end.

Fixpoint guesses (c : ParentLoginCode) (matches : string → bool) (st : code_state)
    (typed : list (string * datetime)) : list (option uuid) :=
  match typed with
  | [] => []
  | (code, moment) :: rest =>
    let '(st', answer) := guess c matches st code moment in answer :: guesses c matches st' rest
  end.

(** The guesses a live code compared with its digest. *)
Definition compared (c : ParentLoginCode) (typed : list (string * datetime)) : nat :=
  length (filterb (λ g : string * datetime, negb (code_expires_at c <=? g.2)) typed).

Lemma guesses_spent c m typed : guesses c m Spent typed = replicate (length typed) None.
Proof. induction typed as [|[code t] typed IH]; simpl; [done|]. by rewrite IH. Qed.

(** ** The table and the automaton *)

Definition unspent (contact : string) (c : ParentLoginCode) : bool :=
  (code_contact c == contact) && is_none (code_consumed_at c).

(** [st] describes the codes of a contact from [since] on: [c] is the newest
    unspent one, [n] guesses old, or none is left; the older ones expired. *)
Definition describes (contact : string) (since : datetime) (c : ParentLoginCode)
    (l : list ParentLoginCode) (st : code_state) : Prop :=
  match st with
  | Live n => ∃ c', c' ∈ l ∧ unspent contact c' = true ∧
      c' = c <| code_attempt_count := n |> ∧
      ∀ x, x ∈ l → unspent contact x = true → x = c' ∨
        code_created_at x < code_created_at c ∧ code_expires_at x <= since
  | Spent => ∀ x, x ∈ l → unspent contact x = true → code_expires_at x <= since
  end.

Lemma live_code_head contact l c :
  live_code contact l = Some c → c ∈ l ∧ unspent contact c = true ∧
    ∀ x, x ∈ l → unspent contact x = true → code_created_at x <= code_created_at c.
Proof.
  unfold live_code. intros Hc. apply order_by_head in Hc as [Hin Hmin].
  - apply elem_of_filterb in Hin as [Hu Hin]. split; [done|]. split; [done|].
    intros x Hx Hux. apply Z.leb_le, Hmin. by apply elem_of_filterb.
  - intros a b. unfold newest_code. rewrite !Z.leb_le. lia.
  - intros a b x. unfold newest_code. rewrite !Z.leb_le. lia.
Qed.

Lemma live_code_describes contact since c n l :
  describes contact since c l (Live n) → live_code contact l = Some (c <| code_attempt_count := n |>).
Proof.
  intros (c' & Hin & Hu & -> & Honly). destruct (live_code contact l) as [x|] eqn:Hx.
  - apply live_code_head in Hx as (Hxin & Hxu & Hmax). specialize (Hmax _ Hin Hu).
    destruct (Honly x Hxin Hxu) as [->|[Hlt _]]; [done|].
    change (code_created_at c <= code_created_at x) in Hmax. lia.
  - apply order_by_head_None in Hx. exfalso.
    assert (c <| code_attempt_count := n |> ∈ @nil ParentLoginCode) by (rewrite <- Hx; by apply elem_of_filterb).
    set_solver.
Qed.

Lemma db_ok_codes db : db_ok db = true → codes_ok (db_tables db ParentLoginCodes) = true.
Proof. intros Hok. rewrite db_ok_spec in Hok. exact (Hok ParentLoginCodes). Qed.

Lemma codes_ok_save (l : list ParentLoginCode) c c' :
  codes_ok l = true → c ∈ l → code_id c' = code_id c → 0 <= code_attempt_count c' →
  codes_ok (update_list (λ x, code_id x == code_id c') (λ _, c') l) = true.
Proof.
  unfold codes_ok. intros Hok Hin Hid Hn. bool_to_prop. rewrite Hid.
  apply andb_true_intro. split; [by apply primary_key_save|]. apply forallb_save; [done|].
  by apply Z.leb_le.
Qed.

Lemma save_code_tables c db :
  db_tables (snd (save ParentLoginCodes c db)) ParentLoginCodes =
    update_list (λ x, code_id x == code_id c) (λ _, c) (db_tables db ParentLoginCodes).
Proof. apply set_table_eq. Qed.

Section Redeem.
Context `{Crypto} (pepper : string) (contact : string).
Let k : string := normalise contact.
Let matches (c : ParentLoginCode) (typed : string) : bool :=
  code_code_digest c == digest pepper k (strip typed).

(** Saving the current code leaves the others alone. *)
Lemma save_code_describes since c n l st' c' :
  NoDup (map code_id l) → describes k since c l (Live n) → code_id c' = code_id c →
  (∀ x, unspent k c' = true → x = c' → st' = Live (code_attempt_count c') ∧
     c' = c <| code_attempt_count := code_attempt_count c' |>) →
  (unspent k c' = false → st' = Spent) →
  describes k since c (update_list (λ x, code_id x == code_id c') (λ _, c') l) st'.
Proof.
  intros Hnd (c0 & Hin & Hu & -> & Honly) Hid Hlive Hdead.
  assert (∀ x, x ∈ update_list (λ x, code_id x == code_id c') (λ _, c') l → unspent k x = true →
    x = c' ∨ code_created_at x < code_created_at c ∧ code_expires_at x <= since) as Hall.
  { intros x (a & Ha & ->)%elem_of_update_list Hux. case_bool_decide as Hc; [by left|].
    destruct (Honly a Ha Hux) as [->|?]; [|by right]. exfalso. apply Hc. by rewrite Hid. }
  destruct (unspent k c') eqn:Hc'.
  - destruct (Hlive c' eq_refl eq_refl) as [-> Hshape]. exists c'. split_and!; [|done|exact Hshape|exact Hall].
    apply elem_of_update_list. eexists. split; [exact Hin|]. by rewrite bool_decide_true.
  - rewrite (Hdead eq_refl). intros x Hx Hux. destruct (Hall x Hx Hux) as [->|[_ ?]]; [congruence|done].
Qed.

(** What a redemption does with the code it found. *)
Definition redeem_found (found : option ParentLoginCode) (typed : string) (moment : datetime)
  : M (option uuid) :=
  match found with
  | None => mret None
  | Some record =>
    if code_expires_at record <=? moment then mret None
    else
      let record := record <| code_attempt_count := code_attempt_count record + 1 |> in
      if MAX_ATTEMPTS <? code_attempt_count record then
        save ParentLoginCodes (record <| code_consumed_at := Some moment |>);; mret None
      else if code_code_digest record != digest pepper k (strip typed) then
        save ParentLoginCodes record;; mret None
      else
        save ParentLoginCodes (record <| code_consumed_at := Some moment |>);;
        mret (code_parent_user_id record)
  end.

Lemma redeem_eq typed moment db :
  redeem pepper contact typed moment db =
    begin_ (redeem_found (live_code k (db_tables db ParentLoginCodes)) typed moment) db.
Proof. reflexivity. Qed.

(** One redemption is one guess. *)
Lemma redeem_refines since c st typed moment db :
  db_ok db = true → describes k since c (db_tables db ParentLoginCodes) st → since <= moment →
  (∀ n, st = Live n → 0 <= n) →
  ∃ db', redeem pepper contact typed moment db = (inr (snd (guess c (matches c) st typed moment)), db') ∧
    db_ok db' = true ∧
    describes k since c (db_tables db' ParentLoginCodes) (fst (guess c (matches c) st typed moment)).
Proof.
  intros Hok Hdesc Hmoment Hn. rewrite redeem_eq.
  assert (begin_ (mret None : M (option uuid)) db = (inr None, db)) as Hidle
    by (by apply transaction_ok).
  destruct st as [n|].
  - rewrite (live_code_describes _ _ _ _ _ Hdesc).
    pose proof (Hn n eq_refl) as Hn0.
    assert (∀ c' (a : option uuid), code_id c' = code_id c → 0 <= code_attempt_count c' →
      begin_ (save ParentLoginCodes c';; mret a) db = (inr a, snd (save ParentLoginCodes c' db)) ∧
      db_ok (snd (save ParentLoginCodes c' db)) = true) as Hrun.
    { intros c' a Hid Hc'. assert (db_ok (snd (save ParentLoginCodes c' db)) = true) as Hok'.
      { apply db_ok_set_table; [done|]. destruct Hdesc as (c0 & Hin & _ & -> & _).
        by apply (codes_ok_save _ (c <| code_attempt_count := n |>)); [apply db_ok_codes|..]. }
      split; [by apply transaction_ok|done]. }
    assert (NoDup (map code_id (db_tables db ParentLoginCodes))) as Hnd.
    { rewrite db_ok_spec in Hok. exact (table_primary_key ParentLoginCodes _ (Hok ParentLoginCodes)). }
    pose proof (λ c' st', save_code_describes since c n _ st' c' Hnd Hdesc) as Hnext.
    set (c1 := c <| code_attempt_count := n + 1 |>) in *.
    assert (redeem_found (Some (c <| code_attempt_count := n |>)) typed moment =
      if code_expires_at c <=? moment then mret None
      else if MAX_ATTEMPTS <? n + 1 then
        save ParentLoginCodes (c1 <| code_consumed_at := Some moment |>);; mret None
      else if code_code_digest c != digest pepper k (strip typed) then
        save ParentLoginCodes c1;; mret None
      else save ParentLoginCodes (c1 <| code_consumed_at := Some moment |>);;
        mret (code_parent_user_id c)) as -> by reflexivity.
    assert (∀ a : option uuid, ∃ db', begin_ (save ParentLoginCodes (c1 <| code_consumed_at := Some moment |>);; mret a) db =
      (inr a, db') ∧ db_ok db' = true ∧ describes k since c (db_tables db' ParentLoginCodes) Spent) as Hspend.
    { intros a. set (c2 := c1 <| code_consumed_at := Some moment |>).
      destruct (Hrun c2 a eq_refl) as [Hr Hok']; [change (0 <= n + 1); lia|].
      eexists; split; [exact Hr|split; [exact Hok'|]].
      rewrite save_code_tables. apply (Hnext c2 Spent); [done|..|done].
      intros x Hx. unfold unspent in Hx. by rewrite andb_false_r in Hx. }
    unfold guess. destruct (code_expires_at c <=? moment); [by exists db|].
    destruct (MAX_ATTEMPTS <? n + 1); [apply Hspend|]. unfold matches.
    destruct (code_code_digest c == _); cbn [negb]; [apply Hspend|].
    destruct (Hrun c1 None eq_refl) as [Hr Hok']; [change (0 <= n + 1); lia|].
    eexists; split; [exact Hr|split; [exact Hok'|]].
    rewrite save_code_tables. apply (Hnext c1 (Live (n + 1))); [done|..].
    + intros x Hx Heq. split; [done|reflexivity].
    + intros Hx. exfalso. destruct Hdesc as (c0 & _ & Hu & -> & _). revert Hx.
      change (unspent k c1) with (unspent k (c <| code_attempt_count := n |>)). by rewrite Hu.
  - unfold guess. cbn [fst snd]. simpl in Hdesc. exists db. split; [|done].
    destruct (live_code k _) as [x|] eqn:Hx; [|done]. unfold redeem_found.
    apply live_code_head in Hx as (Hin & Hu & _). rewrite (proj2 (Z.leb_le _ _)); [done|].
    specialize (Hdesc x Hin Hu). lia.
Qed.
End Redeem.

(** ** What the automaton lets through *)

Lemma guesses_accept c m typed : ∀ n i p,
  guesses c m (Live n) typed !! i = Some (Some p) →
  ∃ g, typed !! i = Some g ∧ m g.1 = true ∧ g.2 < code_expires_at c ∧
    code_parent_user_id c = Some p ∧
    n + Z.of_nat (compared c (take i typed)) < MAX_ATTEMPTS ∧
    ∀ j q, guesses c m (Live n) typed !! j = Some (Some q) → j = i.
Proof.
  assert (∀ l j (q : uuid), guesses c m Spent l !! j = Some (Some q) → False) as Hspent.
  { intros l j q. rewrite guesses_spent. by intros [? _]%lookup_replicate. }
  induction typed as [|[code t] typed IH]; intros n i p; [done|]. simpl. cbn [guess].
  destruct (code_expires_at c <=? t) eqn:Hexp.
  - destruct i as [|i]; [done|]. simpl. intros Hi.
    destruct (IH n i p Hi) as (g & Hg & Hm & Ht & Hp & Hn & Hu). exists g. split_and!; try done.
    + unfold compared. rewrite filterb_cons. cbn [snd]. rewrite Hexp. exact Hn.
    + intros [|j] q; [done|]. simpl. intros Hj. f_equal. by eapply Hu.
  - destruct (MAX_ATTEMPTS <? n + 1) eqn:Hmax.
    { destruct i as [|i]; [done|]. simpl. by intros []%Hspent. }
    bool_to_prop. destruct (m code) eqn:Hm; simpl.
    + destruct i as [|i]; simpl; [|by intros []%Hspent]. intros [= Hp]. exists (code, t).
      split_and!; try done; [unfold compared; change (length (filterb _ [])) with 0%nat; lia|].
      intros [|j] q; [done|]. simpl. by intros []%Hspent.
    + destruct i as [|i]; [done|]. simpl. intros Hi.
      destruct (IH (n + 1) i p Hi) as (g & Hg & Hmg & Ht & Hp & Hn & Hu). exists g. split_and!; try done.
      * unfold compared. rewrite filterb_cons. cbn [snd]. rewrite (proj2 (Z.leb_gt _ _)) by done.
        cbn [negb length]. unfold compared in Hn. lia.
      * intros [|j] q; [done|]. simpl. intros Hj. f_equal. by eapply Hu.
Qed.

Section Properties.
Context `{Crypto} (pepper : string).

(** Typing codes one after the other. *)
Fixpoint redeem_all (contact : string) (typed : list (string * datetime)) (db : Database)
  : list (exn + option uuid) :=
  match typed with
  | [] => []
  | (code, moment) :: rest =>
    let '(answer, db') := redeem pepper contact code moment db in
    answer :: redeem_all contact rest db'
  end.

Lemma redeem_all_refines contact since c st typed db :
  db_ok db = true → describes (normalise contact) since c (db_tables db ParentLoginCodes) st →
  Forall (λ g, since <= g.2) typed → (∀ n, st = Live n → 0 <= n) →
  redeem_all contact typed db =
    map inr (guesses c (λ code, code_code_digest c == digest pepper (normalise contact) (strip code))
      st typed).
Proof.
  revert st db. induction typed as [|[code t] typed IH]; intros st db Hok Hdesc Hall Hn; [done|].
  inversion Hall as [|? ? Hle Hrest]; subst. simpl in Hle. simpl.
  destruct (redeem_refines pepper contact since c st code t db Hok Hdesc Hle Hn) as (db' & -> & Hok' & Hdesc').
  destruct (guess c _ st code t) as [st' a] eqn:Hg. simpl in *. f_equal. apply IH; try done.
  intros m ->. unfold guess in Hg. destruct st as [n|]; [|done]. specialize (Hn n eq_refl).
  repeat case_match; simplify_eq; lia.
Qed.

(** C38: however often codes are typed for a contact, its current code signs the parent in at
    most once, only when the code typed is right and in time, and only while fewer than five
    guesses were compared with it before. *)
Theorem parent_code_is_spent_once_within_five_guesses contact since c n typed db :
  db_ok db = true → describes (normalise contact) since c (db_tables db ParentLoginCodes) (Live n) →
  0 <= n → Forall (λ g, since <= g.2) typed →
  ∃ answers, redeem_all contact typed db = map inr answers ∧
    ∀ i p, answers !! i = Some (Some p) →
      code_parent_user_id c = Some p ∧
      (∃ g, typed !! i = Some g ∧ g.2 < code_expires_at c ∧
        code_code_digest c = digest pepper (normalise contact) (strip g.1)) ∧
      n + Z.of_nat (compared c (take i typed)) < MAX_ATTEMPTS ∧
      ∀ j q, answers !! j = Some (Some q) → j = i.
Proof.
  intros Hok Hdesc Hn Hall. eexists. split; [by apply (redeem_all_refines contact since c (Live n)); [..|intros ? [= <-]]|].
  intros i p Hi. apply guesses_accept in Hi as (g & Hg & Hm & Ht & Hp & Hlt & Hu).
  split; [done|]. split; [|done]. exists g. by bool_to_prop.
Qed.

(** *** Issuing *)

(** A code never outlives its creation by more than ten minutes. *)
Definition short_lived (db : Database) : Prop :=
  ∀ c, c ∈ db_tables db ParentLoginCodes → code_expires_at c <= code_created_at c + CODE_LIFETIME.

Definition recent_codes (contact : string) (moment : datetime) (db : Database) : list ParentLoginCode :=
  filterb (recent_code (normalise contact) moment) (db_tables db ParentLoginCodes).

Definition code_row (contact code : string) (parent : option uuid) (moment : datetime) (i : uuid)
  : ParentLoginCode :=
  (new_ParentLoginCode i (normalise contact) (digest pepper (normalise contact) code)
    (moment + CODE_LIFETIME) moment) <| code_parent_user_id := parent |>.

Context (code_length : nat).

(** Issuing a code when fewer than five were asked for in the last hour. *)
Lemma issue_run contact parent moment db :
  db_wf db → db_now db = moment → (length (recent_codes contact moment db) < MAX_LIVE_CODES_PER_HOUR)%nat →
  let code := code_digits (db_uuids db) code_length in
  let new := code_row contact code parent moment (db_uuids db + 1) in
  ∃ db', issue pepper code_length contact parent moment db =
      (inr (mkIssuedCode (Some code) parent (moment + CODE_LIFETIME)), db') ∧ db_wf db' ∧
    db_tables db' ParentLoginCodes =
      (update_list (λ x : ParentLoginCode, bool_decide (code_id x ∈ map code_id (recent_codes contact moment db)))
        (retire moment) (db_tables db ParentLoginCodes) ++ [new])%list.
Proof.
  intros Hwf Hnow Hlen code new. pose proof Hwf as [Hok Hfresh].
  pose proof (db_wf_keyed ParentLoginCodes db Hwf) as [Hnd Hlt].
  set (recent := recent_codes contact moment db) in *. set (l := db_tables db ParentLoginCodes) in *.
  destruct (for_each_save ParentLoginCodes (retire moment) recent db)
    as (db1 & Hrun & Ht & Hne & Hu & Hn); [done| |exact Hnd| |].
  { eapply sublist_NoDup; [exact Hnd|]. apply (fmap_sublist code_id), sublist_filter. }
  { intros x Hx. by apply elem_of_filterb in Hx as [_ ?]. }
  set (l1 := update_list _ (retire moment) l) in Ht |- *.
  assert (∀ x, x ∈ l1 → code_id x < db_uuids db) as Hids.
  { intros x (a & Ha & ->)%elem_of_update_list. specialize (Hlt a Ha). by case_match. }
  set (db2 := set_table ParentLoginCodes (l1 ++ [new])
    (mkDb (db_tables db1) (db_uuids db1 + 1 + 1) (db_now db1))).
  assert (table_constraints ParentLoginCodes (l1 ++ [new])%list = true) as Hcodes.
  { pose proof (db_ok_codes db Hok) as Hc. fold l in Hc. simpl. unfold codes_ok in *. bool_to_prop.
    apply andb_true_intro. split.
    - apply unique_on_snoc.
      + apply unique_on_update; [done|]. by intros.
      + intros k [= <-] x Hx [= Heq]. specialize (Hids x Hx). change (code_id new) with (db_uuids db + 1) in Heq. lia.
    - rewrite forallb_app. apply andb_true_intro. split; [|done]. rewrite forallb_forall in *.
      intros x Hx%list_elem_of_In. apply elem_of_update_list in Hx as (a & Ha & ->).
      specialize (H1 a (proj1 (list_elem_of_In _ _) Ha)). by case_match. }
  assert (db_wf db2) as Hwf2.
  { unfold db2. split.
    - apply db_ok_spec. intros t. destruct (decide (ParentLoginCodes = t)) as [<-|Hne'].
      + by rewrite set_table_eq.
      + rewrite set_table_ne by done. simpl. rewrite Hne by done. exact (proj1 (db_ok_spec db) Hok t).
    - intros t r. destruct (decide (ParentLoginCodes = t)) as [<-|Hne'].
      + rewrite set_table_eq. simpl. rewrite Hu.
        intros [Hr|Hr]%elem_of_app; [specialize (Hids r Hr); change (code_id r < db_uuids db + 1 + 1); lia|].
        apply list_elem_of_singleton in Hr as ->. change (db_uuids db + 1 < db_uuids db + 1 + 1). lia.
      + rewrite set_table_ne by done. simpl. rewrite Hne, Hu by done. intros Hr.
        apply Z.lt_trans with (db_uuids db); [exact (Hfresh t r Hr)|rewrite set_table_uuids; simpl; lia]. }
  exists db2. split; [|split; [done|unfold db2; by rewrite set_table_eq]].
  unfold issue, begin_. cbv zeta. apply transaction_ok; [|apply Hwf2].
  erewrite bind_inr by reflexivity. fold l. change (filterb _ l) with recent.
  rewrite (proj2 (Nat.leb_gt _ _)) by done. erewrite bind_inr by exact Hrun.
  unfold draw. erewrite bind_inr by (erewrite bind_inr by reflexivity; reflexivity).
  erewrite bind_inr by reflexivity. erewrite bind_inr by reflexivity.
  unfold db2. simpl. rewrite Hu. replace (db_now db1) with moment by congruence.
  erewrite bind_inr by reflexivity. rewrite ret_run. cbn [db_tables]. by rewrite Ht.
Qed.

Lemma not_space_digit a : is_digit a = true → is_space a = false.
Proof. destruct a as [[] [] [] [] [] [] [] []]; vm_compute; congruence. Qed.

(** [strip] leaves a code of digits alone. *)
Lemma strip_digits s : string_forall is_digit s = true → strip s = s.
Proof.
  intros Hs. unfold strip. assert (lstrip s = s) as ->.
  { destruct s as [|a s]; [done|]. simpl in *. bool_to_prop. by rewrite not_space_digit. }
  induction s as [|a s IH]; [done|]. simpl in *. bool_to_prop. rewrite IH by done.
  rewrite not_space_digit by done. by destruct s.
Qed.

Lemma code_digits_digits seed n :
  (∀ s k, is_digit (random_digit s k) = true) → string_forall is_digit (code_digits seed n) = true.
Proof. intros Hd. induction n as [|n IH]; simpl; [done|]. by rewrite Hd, IH. Qed.

(** A code that is sent works: while fewer than five were asked for in the last hour, issuing
    one stores only its digest and retires the codes of the last hour, and typing it within
    ten minutes, with the contact spelled in any way that normalises alike, signs in the
    parent it was issued for. With five in the last hour nothing is issued and nothing
    written. *)
Theorem issued_code_signs_the_parent_in contact parent moment db :
  db_wf db → db_now db = moment → short_lived db → (∀ s k, is_digit (random_digit s k) = true) →
  if (MAX_LIVE_CODES_PER_HOUR <=? length (recent_codes contact moment db))%nat then
    issue pepper code_length contact parent moment db =
      (inr (mkIssuedCode None parent (moment + CODE_LIFETIME)), db)
  else ∃ code db',
    issue pepper code_length contact parent moment db =
      (inr (mkIssuedCode (Some code) parent (moment + CODE_LIFETIME)), db') ∧
    db_wf db' ∧ short_lived db' ∧
    ∀ contact' later, normalise contact' = normalise contact →
      moment <= later < moment + CODE_LIFETIME →
      fst (redeem pepper contact' code later db') = inr parent.
Proof.
  intros Hwf Hnow Hshort Hdigits. pose proof Hwf as [Hok _].
  destruct (_ <=? _)%nat eqn:Hlen.
  { unfold issue, begin_. cbv zeta. apply transaction_ok; [|done]. erewrite bind_inr by reflexivity.
    match goal with |- (if ?b then _ else _) _ = _ => replace b with true by (symmetry; exact Hlen) end.
    done. }
  apply Nat.leb_gt in Hlen. destruct (issue_run contact parent moment db Hwf Hnow Hlen) as (db' & Hrun & Hwf' & Ht).
  set (code := code_digits _ _) in *. set (new := code_row _ _ _ _ _) in *.
  eexists code, db'. split; [exact Hrun|]. split; [done|]. split.
  { intros x. rewrite Ht. intros [(a & Ha & ->)%elem_of_update_list|Hx]%elem_of_app.
    - specialize (Hshort a Ha). by case_match.
    - apply list_elem_of_singleton in Hx as ->. apply Z.le_refl. }
  intros contact' later Hcontact [Hle Hlt]. destruct Hwf' as [Hok' _].
  destruct (redeem_refines pepper contact' moment new (Live 0) code later db') as (db'' & Hred & _);
    [done| |done|by intros ? [= <-]|].
  - rewrite Hcontact. exists new. split_and!; [rewrite Ht; apply elem_of_app; right; by left| |done|].
    + unfold unspent. by rewrite bool_decide_true.
    + intros x. rewrite Ht. intros [(a & Ha & ->)%elem_of_update_list|Hx]%elem_of_app Hu.
      2: { apply list_elem_of_singleton in Hx as ->. by left. }
      right. destruct (bool_decide _) eqn:Hin.
      { exfalso. unfold unspent, retire in Hu. by rewrite andb_false_r in Hu. }
      assert (code_created_at a <= moment - hours 1) as Hold.
      { apply Z.nlt_ge. intros Hlt'. bool_to_prop. apply Hin. apply list_elem_of_fmap. exists a. split; [done|].
        apply elem_of_filterb. split; [|done]. unfold recent_code. unfold unspent in Hu. bool_to_prop.
        apply andb_true_intro. split; [by apply bool_decide_true|by apply Z.ltb_lt]. }
      specialize (Hshort a Ha). change (code_created_at new) with moment.
      unfold CODE_LIFETIME, hours, minutes, seconds in *. lia.
  - rewrite Hred. cbn [fst]. f_equal. unfold guess.
    change (code_expires_at new) with (moment + CODE_LIFETIME).
    rewrite (proj2 (Z.leb_gt _ _)) by done. cbn [snd].
    change (MAX_ATTEMPTS <? 0 + 1) with false. cbv iota.
    change (code_code_digest new) with (digest pepper (normalise contact) code).
    rewrite Hcontact, strip_digits by (by apply code_digits_digits). by rewrite bool_decide_true.
Qed.
End Properties.
