(* ===== verification/AuthExamples.v ===== *)
(** * Sign-ins at the small school

    The theorems of [AuthProperties] and [ParentCodes] at concrete requests. *)

From Stdlib Require Import String.
From S2P Require Import Prelude Relational Text Vocabulary Schema Fixtures Crypto AgeAssurance AuthPolicies AuthRepo AuthService AuthFacts AuthProperties ParentCodes.

Local Open Scope string_scope.
Local Open Scope Z_scope.
Local Open Scope nevo_scope.

#[local] Existing Instance Toy.crypto.
#[local] Instance hasher : CredentialHasher := Argon2idCredentialHasher "pw" "pin".
#[local] Instance tokens : TokenService := HmacTokenService "session".

Definition teacher_account : User :=
  teacher <| user_password_hash := Some (hash_password "pw" "lagos-2025" 0) |>.
Definition learner_account : User :=
  learner <| user_auth_method := PIN |> <| user_pin_hash := Some (hash_pin "pin" "4711" 0) |>.
Definition accounts_db : Database :=
  set_table Users [learner_account; parent_user; senior; bursar; teacher_account] school_db.

Definition teacher_login (password : string) : login_request := ByPassword "Dele@Example.com " password.
Definition learner_login : login_request := ByPin "gf01" "NV-00002" "4711".

Definition teacher_signed_in : Database := snd (login t0 (teacher_login "lagos-2025") "10.0.0.1" accounts_db).
Definition learner_signed_in : Database := snd (login t0 learner_login "10.0.0.2" accounts_db).

(** The tokens drawn by the two sign-ins. *)
Definition the_token : string := "token-100".

Example sign_ins_return :
  returned (fst (login t0 (teacher_login "lagos-2025") "10.0.0.1" accounts_db)) &&
  returned (fst (login t0 learner_login "10.0.0.2" accounts_db)) = true.
Proof. vm_compute. reflexivity. Qed.

Example held_learner_cannot_sign_in :
  fst (login t0 learner_login "10.0.0.2" (set_table AgeChecks
    [(new_AgeCheck 30 1 2 t0) <| ac_state := MISMATCH |>] accounts_db)) = inl InvalidCredentialsError.
Proof. vm_compute. reflexivity. Qed.

Lemma accounts_db_wf : db_wf accounts_db.
Proof. apply db_wfb_spec. vm_compute. reflexivity. Qed.
Lemma teacher_signed_in_wf : db_wf teacher_signed_in.
Proof. apply db_wfb_spec. vm_compute. reflexivity. Qed.

Definition the_session : option AuthSession := session_of teacher_signed_in (token_digest the_token).

Lemma learner_open : ∃ s, session_of learner_signed_in (token_digest the_token) = Some s ∧
  ses_user_id s = 2 ∧ ses_revoked_at s = None.
Proof. eexists. split; [vm_compute; reflexivity|]. done. Qed.

Lemma teacher_open : ∃ s, session_of teacher_signed_in (token_digest the_token) = Some s ∧
  ses_created_at s = t0 ∧ ses_revoked_at s = None.
Proof. eexists. split; [vm_compute; reflexivity|]. done. Qed.

Lemma authenticate_decides_witness :
  (∃ s, session_of teacher_signed_in (token_digest the_token) = Some s) ∧
  match session_of teacher_signed_in (token_digest the_token) with
  | None => False
  | Some s => ∃ db', authenticate (t0 + minutes 5) the_token teacher_signed_in =
        (fst (check_outcome teacher_signed_in s (t0 + minutes 5)), db') ∧
      only_session teacher_signed_in db' (token_digest the_token)
        (snd (check_outcome teacher_signed_in s (t0 + minutes 5)))
  end.
Proof.
  destruct teacher_open as (s & Hs & Hc & _). split; [by exists s|].
  pose proof (authenticate_decides the_token (t0 + minutes 5) teacher_signed_in teacher_signed_in_wf) as H.
  rewrite Hs in H |- *. apply H. intros x [= <-]. rewrite Hc. unfold minutes, seconds. lia.
Defined.

(** Checked once, then a second time an hour later. *)
Definition one_check : list (auth_op * datetime) := [(OpAuthenticate the_token, t0 + minutes 60)].

Lemma session_never_outlives_its_role_witness :
  ∃ s p db', session_of teacher_signed_in (token_digest the_token) = Some s ∧
    authenticate (t0 + minutes 100) the_token (run_auth_ops one_check teacher_signed_in) = (inr p, db') ∧
    t0 + minutes 100 - ses_created_at s < absolute_lifetime_for_role (value (ses_role s)) ∧
    p = principal_of s.
Proof.
  destruct teacher_open as (s & Hs & _).
  destruct (run_returned (authenticate (t0 + minutes 100) the_token) (run_auth_ops one_check teacher_signed_in))
    as [p Hp]; [vm_compute; reflexivity|].
  exists s, p, (snd (authenticate (t0 + minutes 100) the_token (run_auth_ops one_check teacher_signed_in))).
  split; [done|]. split; [exact Hp|].
  by destruct (session_never_outlives_its_role one_check the_token _ _ _ s p (proj1 teacher_signed_in_wf) Hs Hp).
Defined.

Definition signed_out : Database := snd (logout (t0 + minutes 5) the_token teacher_signed_in).

Lemma ended_session_stays_ended_witness :
  ∃ s, session_of signed_out (token_digest the_token) = Some s ∧
    authenticate (t0 + minutes 6) the_token (run_auth_ops one_check signed_out) =
      (inl (ended_error s), run_auth_ops one_check signed_out).
Proof.
  assert (∃ s, session_of signed_out (token_digest the_token) = Some s ∧ ses_revoked_at s ≠ None) as (s & Hs & Hr)
    by (eexists; split; [vm_compute; reflexivity|done]).
  exists s. split; [done|]. apply ended_session_stays_ended; [vm_compute; reflexivity|done|done].
Defined.

Lemma student_login_ends_the_other_sessions_witness :
  ∃ s iss db', session_of learner_signed_in (token_digest the_token) = Some s ∧
    login (t0 + minutes 5) learner_login "10.0.0.3" learner_signed_in = (inr iss, db') ∧
    ses_user_id s = issued_user_id iss ∧
    fst (authenticate (t0 + minutes 6) the_token (run_auth_ops [] db')) = inl SessionReplacedError.
Proof.
  destruct learner_open as (s & Hs & Hu & Ho).
  destruct (run_checked (login (t0 + minutes 5) learner_login "10.0.0.3") learner_signed_in
    (λ i, (issued_role i == "student") && (issued_user_id i == 2))) as (iss & Hiss & Hb);
    [vm_compute; reflexivity|].
  apply andb_prop in Hb as [Hr%bool_decide_eq_true Hi%bool_decide_eq_true].
  exists s, iss. eexists. split; [done|]. split; [exact Hiss|].
  split; [by rewrite Hu, Hi|].
  destruct (student_login_ends_the_other_sessions (t0 + minutes 5) learner_login "10.0.0.3" learner_signed_in
    iss _ ltac:(vm_compute; reflexivity) Hiss Hr) as [H _].
  apply (H _ s); [done|by rewrite Hu, Hi|done].
Defined.

Lemma issued_session_is_accepted_witness :
  ∃ iss db' i, login t0 (teacher_login "lagos-2025") "10.0.0.1" accounts_db = (inr iss, db') ∧
    fst (authenticate (t0 + minutes 90) (issued_access_token iss) db') =
      inr (mkAuthPrincipal (issued_user_id iss) (issued_role iss) i).
Proof.
  destruct (run_checked (login t0 (teacher_login "lagos-2025") "10.0.0.1") accounts_db
    (λ i, issued_expires_at i == (t0 + minutes 120))) as (iss & Hiss & He%bool_decide_eq_true);
    [vm_compute; reflexivity|].
  destruct (issued_session_is_accepted t0 (teacher_login "lagos-2025") "10.0.0.1" accounts_db iss _
    (t0 + minutes 90) (proj1 accounts_db_wf) Hiss) as (_ & i & Hi).
  { unfold minutes, seconds. lia. }
  { rewrite He. unfold minutes, seconds. lia. }
  exists iss. eexists _, i. split; [exact Hiss|exact Hi].
Defined.

(** Five wrong passwords for five names, a minute apart. *)
Definition five_guesses : list (auth_op * datetime) :=
  map (λ n, (OpLogin (ByPassword ("user" ++ int_str n ++ "@example.com") "guess") "10.0.0.9", t0 + minutes n))
    [1; 2; 3; 4; 5].

Lemma five_refusals_close_an_address_witness :
  ∃ retry, login (t0 + minutes 6) (teacher_login "lagos-2025") "10.0.0.9" (run_auth_ops five_guesses accounts_db) =
    (inl (RateLimitExceededError retry), run_auth_ops five_guesses accounts_db) ∧ t0 + minutes 6 <= retry.
Proof.
  apply five_refusals_close_an_address; [exact (proj1 accounts_db_wf)|].
  apply Nat.leb_le. vm_compute. reflexivity.
Defined.

Lemma wrong_credentials_are_refused_alike_witness :
  ∃ db', login t0 (teacher_login "guess") "10.0.0.1" accounts_db = (inl InvalidCredentialsError, db') ∧
    db_tables db' AuthLoginAttempts = (db_tables accounts_db AuthLoginAttempts ++
      [attempt_row (identity_of (teacher_login "guess")) (ip_digest_of "10.0.0.1") false t0
         (db_uuids accounts_db)])%list ∧
    (∀ t, t ∉ [AuthLoginAttempts; AuthAuditEvents] → db_tables db' t = db_tables accounts_db t).
Proof.
  assert (∃ l, named_accounts (teacher_login "guess") accounts_db = (inr l, accounts_db) ∧
    length l = 1%nat ∧ forallb (λ a, negb (secret_matches (teacher_login "guess") a)) l = true) as (l & Hl & Hlen & Hw).
  { eexists. split; [reflexivity|]. split; vm_compute; reflexivity. }
  eapply (wrong_credentials_are_refused_alike (teacher_login "guess") "10.0.0.1" t0 accounts_db l);
    [exact accounts_db_wf|reflexivity|exact Hl|by rewrite Hlen|].
  intros a Ha. rewrite forallb_forall in Hw. by apply negb_true_iff, Hw, list_elem_of_In.
Defined.

Lemma logout_ends_the_session_witness :
  ∃ s db', session_of teacher_signed_in (token_digest the_token) = Some s ∧
    logout (t0 + minutes 5) the_token teacher_signed_in = (inr tt, db') ∧
    fst (authenticate (t0 + minutes 6) the_token (run_auth_ops one_check db')) = inl SessionRevokedError.
Proof.
  destruct teacher_open as (s & Hs & _ & Ho).
  destruct (logout_ends_the_session the_token (t0 + minutes 5) teacher_signed_in s teacher_signed_in_wf Hs Ho)
    as (db' & Hrun & _ & _ & Hend).
  exists s, db'. split; [done|]. split; [exact Hrun|apply Hend].
Defined.

(** Two learners: one whose handle is "a1", one whose admission number is. *)
Definition handle_learner : User := learner <| user_login_identifier := Some "A1" |>.
Definition admitted_learner : User :=
  (new_User 9 (Some 1) STUDENT PIN) <| user_admission_number := Some "A1" |>.
Definition collision_db : Database := set_table Users [admitted_learner; handle_learner] school_db.

Lemma pin_lookup_prefers_a_missing_admission_number_witness :
  db_ok collision_db = true ∧
  ∃ a a' found, find_pin_user "gf01" "a1" collision_db = (inr a, collision_db) ∧
    a = Some a' ∧ account_of_row collision_db a' found ∧ user_admission_number found = None.
Proof.
  split; [vm_compute; reflexivity|].
  destruct (find_pin_user_found "gf01" "a1" collision_db) as (a & Ha & _).
  destruct (pin_lookup_prefers_a_missing_admission_number "gf01" "a1" collision_db handle_learner the_school a)
    as (a' & found & H); try done.
  - unfold collision_db. rewrite set_table_eq. right. by left.
  - unfold collision_db, school_db. rewrite set_table_ne, set_table_eq by done. by left.
  - exists a, a', found. split; [exact Ha|exact H].
Defined.

(** ** Codes *)

Definition coded : (exn + IssuedCode) * Database :=
  issue "code-pepper" 4 " Ngozi@Example.com" (Some 3) t0 school_db.
Definition coded_db : Database := snd coded.

Lemma toy_digits : ∀ s k, is_digit (random_digit s k) = true.
Proof.
  intros s k. unfold random_digit. simpl. pose proof (Z.mod_pos_bound (s + Z.of_nat k) 10 ltac:(lia)) as Hm.
  remember ((s + Z.of_nat k) mod 10) as m. clear Heqm.
  assert (m = 0 ∨ m = 1 ∨ m = 2 ∨ m = 3 ∨ m = 4 ∨ m = 5 ∨ m = 6 ∨ m = 7 ∨ m = 8 ∨ m = 9) as Hc by lia.
  by repeat destruct Hc as [->|Hc]; subst.
Qed.

Lemma issued_code_signs_the_parent_in_witness :
  ∃ code db', issue "code-pepper" 4 " Ngozi@Example.com" (Some 3) t0 school_db =
      (inr (mkIssuedCode (Some code) (Some 3) (t0 + CODE_LIFETIME)), db') ∧
    fst (redeem "code-pepper" "ngozi@example.com" code (t0 + minutes 9) db') = inr (Some 3).
Proof.
  assert (db_tables school_db ParentLoginCodes = []) as Hnone by (vm_compute; reflexivity).
  pose proof (issued_code_signs_the_parent_in "code-pepper" 4 " Ngozi@Example.com" (Some 3) t0 school_db
    ltac:(apply db_wfb_spec; vm_compute; reflexivity) eq_refl) as H.
  replace (MAX_LIVE_CODES_PER_HOUR <=? _)%nat with false in H
    by (unfold recent_codes; rewrite Hnone; reflexivity).
  destruct H as (code & db' & Hrun & _ & _ & Hred); [|exact toy_digits|].
  { intros c. rewrite Hnone. by intros ?%not_elem_of_nil. }
  exists code, db'. split; [exact Hrun|]. apply Hred; [vm_compute; reflexivity|].
  unfold CODE_LIFETIME, minutes, seconds. lia.
Defined.

Lemma map_inr_inj (a b : list (option uuid)) : map (@inr exn (option uuid)) a = map inr b → a = b.
Proof. revert b. induction a as [|x a IH]; intros [|y b]; [done..|]. intros [= -> Heq]. f_equal. auto. Qed.

Definition the_code : option ParentLoginCode := head (db_tables coded_db ParentLoginCodes).
Definition typed_codes : list (string * datetime) :=
  [("0000", t0 + minutes 1); (from_option (λ i, from_option id "" (issued_code i)) ""
     (match fst coded with inr i => Some i | _ => None end), t0 + minutes 2); ("0000", t0 + minutes 3)].

Lemma parent_code_is_spent_once_within_five_guesses_witness :
  ∃ c answers, the_code = Some c ∧
    redeem_all "code-pepper" "ngozi@example.com" typed_codes coded_db = map inr answers ∧
    answers = [None; Some 3; None] ∧
    ∀ j q, answers !! j = Some (Some q) → j = 1%nat.
Proof.
  assert (∃ c, the_code = Some c ∧ db_tables coded_db ParentLoginCodes = [c] ∧
    code_attempt_count c = 0 ∧ code_consumed_at c = None ∧ code_contact c = normalise "ngozi@example.com")
    as (c & Hc & Htab & Hn & Hcon & Hk) by (eexists; split_and!; vm_compute; reflexivity).
  destruct (parent_code_is_spent_once_within_five_guesses "code-pepper" "ngozi@example.com" t0 c 0 typed_codes coded_db)
    as (answers & Hrun & Hall).
  - vm_compute. reflexivity.
  - rewrite Htab. exists c. split_and!; [by left| | |].
    + unfold unspent. by rewrite Hk, Hcon, bool_decide_true.
    + rewrite <- Hn. reflexivity.
    + intros x ->%list_elem_of_singleton _. by left.
  - done.
  - repeat constructor; simpl; unfold minutes, seconds; lia.
  - exists c, answers. assert (answers = [None; Some 3; None]) as Ha.
    { apply map_inr_inj. rewrite <- Hrun. vm_compute. reflexivity. }
    split_and!; [done|done|done|]. eapply (Hall 1%nat 3). by rewrite Ha.
Defined.
