(* ===== verification/PermissionRepo.v ===== *)
(** * Administration teams in the database

    [src/nevo/permissions/entities.py] and [repositories.py]: who administers
    a school, with which scopes, and the operations that change it. Row locks
    ([with_for_update]) have no effect on a serial execution. *)

From Stdlib Require Import String.
From S2P Require Import Prelude Relational Text Vocabulary Schema Fixtures.

Local Open Scope string_scope.
Local Open Scope Z_scope.
Local Open Scope nevo_scope.

(** ** Entities *)

Record PermissionSnapshot := mkPermissionSnapshot {
  snap_user_id : uuid; snap_school_id : option uuid; snap_role : string; snap_status : string;
  snap_school_auth_method : option string; snap_assigned_scopes : gset PermissionScope;
  snap_admin_access_level : option AdminAccessLevel; snap_email_confirmed : bool;
  snap_email : option string
}.

Record AdminTeamMember := mkAdminTeamMember {
  member_user_id : uuid; member_admin_id : uuid; member_school_id : uuid;
  member_email : option string; member_first_name : option string;
  member_last_name : option string; member_role : string; member_status : string;
  member_scopes : gset PermissionScope; member_founding : bool;
  member_last_active_at : option datetime; member_access_level : AdminAccessLevel;
  member_senior_promoted_by : option uuid; member_senior_promoted_by_name : option string;
  member_senior_promoted_at : option datetime; member_learning_support : bool;
  member_learning_support_granted_at : option datetime;
  member_learning_support_granted_by : option uuid;
  member_learning_support_granted_by_name : option string
}.

Record InvitationDraft := mkInvitationDraft {
  idraft_invitation_id : uuid; idraft_user_id : uuid; idraft_admin_id : uuid;
  idraft_school_id : uuid; idraft_email : string; idraft_role : string;
  idraft_scopes : gset PermissionScope; idraft_token_digest : string;
  idraft_invited_by_user_id : uuid; idraft_created_at : datetime; idraft_expires_at : datetime
}.

Record IssuedInvitation := mkIssuedInvitation {
  iinv_invitation_id : uuid; iinv_user_id : uuid; iinv_email : string; iinv_role : string;
  iinv_scopes : gset PermissionScope; iinv_invitation_token : string; iinv_expires_at : datetime
}.

Record AcceptedInvitation := mkAcceptedInvitation {
  accepted_user_id : uuid; accepted_school_id : uuid; accepted_role : string
}.

(** [" ".join(part for part in (first, last) if part) or email] *)
Definition display_name (first last email : option string) : option string :=
  let joined := join " " (filterb truthy (option_list first ++ option_list last)%list) in
  if truthy joined then Some joined else email.

Definition team_member (admin : Admin) (user : User) (scopes : gset PermissionScope)
    (last_active_at : option datetime) (learning_support : option (LearningSupportGrant * User))
  : AdminTeamMember := {|
  member_user_id := user_id user; member_admin_id := admin_id admin;
  member_school_id := admin_school_id admin; member_email := user_email user;
  member_first_name := user_first_name user; member_last_name := user_last_name user;
  member_role := value (user_role user); member_status := value (user_status user);
  member_scopes := scopes; member_founding := is_none (admin_created_by_user_id admin);
  member_last_active_at := last_active_at; member_access_level := admin_access_level admin;
  member_senior_promoted_by := admin_senior_promoted_by admin;
  member_senior_promoted_by_name := admin_senior_promoted_by_name admin;
  member_senior_promoted_at := admin_senior_promoted_at admin;
  member_learning_support := is_some learning_support;
  member_learning_support_granted_at := (λ gu, grant_granted_at gu.1) <$> learning_support;
  member_learning_support_granted_by := (λ gu, grant_granted_by_user_id gu.1) <$> learning_support;
  member_learning_support_granted_by_name :=
    gu ← learning_support;
    display_name (user_first_name gu.2) (user_last_name gu.2) (user_email gu.2)
|}.

(** ** Reading *)

Definition live_assignment (admin : uuid) (g : AdminScopeAssignment) : bool :=
  (asg_admin_id g == admin) && is_none (asg_revoked_at g).

(** [_active_scopes] and [_active_scopes_for_update] *)
Definition active_scopes (admin : uuid) : M (gset PermissionScope) :=
  found ← select AdminScopeAssignments (live_assignment admin);
  mret (list_to_set (map asg_scope (found : list AdminScopeAssignment))).

Definition snapshot (i : uuid) : M (option PermissionSnapshot) :=
  found ← scalar Users (λ u : User, user_id u == i);
  match found with
  | None => mret None
  | Some user =>
    school ← scalar Schools (λ s : School, Some (school_id s) == user_school_id user);
    admin ← scalar Admins (λ a : Admin, admin_user_id a == user_id user);
    scopes ← match admin with
             | None => mret ∅
             | Some a => active_scopes (admin_id a)
             end;
    mret (Some {|
      snap_user_id := user_id user; snap_school_id := user_school_id user;
      snap_role := value (user_role user); snap_status := value (user_status user);
      snap_school_auth_method := (λ s : School, value (school_auth_method s)) <$> school;
      snap_assigned_scopes := scopes;
      snap_admin_access_level := admin_access_level <$> admin;
      snap_email_confirmed := is_some (user_email_confirmed_at user);
      snap_email := user_email user |})
  end.

(** [join(User, User.id == Admin.user_id)] *)
Definition join_users (admins : list Admin) (users : list User) : list (Admin * User) :=
  admins ≫= λ a, (λ u, (a, u)) <$> filterb (λ u : User, user_id u == admin_user_id a) users.

Definition school_admins (school : uuid) : M (list (Admin * User)) :=
  admins ← select Admins (λ a : Admin, admin_school_id a == school);
  users ← rows Users;
  mret (join_users admins users).

(** [order_by(User.last_name, User.first_name, User.email)] *)
Definition by_name (p q : Admin * User) : bool :=
  let lt a b := opt_text_le a b && negb (opt_text_le b a) in
  let '(_, u) := p in let '(_, v) := q in
  lt (user_last_name u) (user_last_name v) ||
  ((user_last_name u == user_last_name v) &&
    (lt (user_first_name u) (user_first_name v) ||
     ((user_first_name u == user_first_name v) && opt_text_le (user_email u) (user_email v)))).

Definition latest (ts : list datetime) : option datetime :=
  match ts with [] => None | t :: ts' => Some (fold_left Z.max ts' t) end.

(** Live learning support grants with who granted them. *)
Definition support_rows (holders : list uuid) : M (list (LearningSupportGrant * User)) :=
  grants ← select LearningSupportGrants (λ g : LearningSupportGrant,
    bool_decide (grant_holder_user_id g ∈ holders) && is_none (grant_revoked_at g));
  users ← rows Users;
  mret ((grants : list LearningSupportGrant) ≫= λ g,
    (λ u, (g, u)) <$> filterb (λ u : User, user_id u == grant_granted_by_user_id g) (users : list User)).

Definition list_team (school : uuid) : M (list AdminTeamMember) :=
  found ← school_admins school;
  let rows_ := order_by by_name found in
  assignments ← rows AdminScopeAssignments;
  let user_ids := map (λ au : Admin * User, user_id au.2) rows_ in
  sessions ← rows AuthSessions;
  support ← support_rows user_ids;
  mret (map (λ au : Admin * User,
    team_member au.1 au.2
      (list_to_set (map asg_scope (filterb (live_assignment (admin_id au.1))
                                     (assignments : list AdminScopeAssignment))))
      (latest (map ses_last_seen_at
        (filterb (λ s : AuthSession, ses_user_id s == user_id au.2) (sessions : list AuthSession))))
      (last (filterb (λ gu : LearningSupportGrant * User, grant_holder_user_id gu.1 == user_id au.2)
               support))) rows_).

(** [int(limit or 5)] *)
Definition admin_seat_limit (school : uuid) : M Z :=
  found ← scalar Schools (λ s : School, school_id s == school);
  mret (match found with
        | Some s => if school_admin_seat_limit s == 0 then 5 else school_admin_seat_limit s
        | None => 5
        end).

(** ** Changing scopes *)

Definition replace_assignment_rows (admin : uuid) (scopes : gset PermissionScope)
    (changed_by_user_id : uuid) (changed_at : datetime) (current : option (gset PermissionScope))
  : M unit :=
  active ← match current with Some c => mret c | None => active_scopes admin end;
  let removed := active ∖ scopes in
  let added := scopes ∖ active in
  (if removed != ∅ then
     update_where AdminScopeAssignments
       (λ g : AdminScopeAssignment, live_assignment admin g && bool_decide (asg_scope g ∈ removed))
       (λ g : AdminScopeAssignment, g <| asg_revoked_at := Some (Z.max changed_at (asg_granted_at g)) |>)
   else mret tt);;
  for_each (elements added) (λ scope,
    i ← uuid4;
    insert AdminScopeAssignments
      ((new_AdminScopeAssignment i admin scope changed_at)
         <| asg_granted_by_user_id := Some changed_by_user_id |>)).

(** ** Invitations *)

Definition counts_as_seat (u : User) : bool := (user_status u == ACTIVE) || (user_status u == INVITED).

Definition pending_invitation (user : uuid) (i : AdminInvitation) : bool :=
  (ainv_user_id i == user) && is_none (ainv_accepted_at i) && is_none (ainv_revoked_at i).

Definition with_account (draft : InvitationDraft) (user admin : uuid) : InvitationDraft := {|
  idraft_invitation_id := idraft_invitation_id draft; idraft_user_id := user;
  idraft_admin_id := admin; idraft_school_id := idraft_school_id draft;
  idraft_email := idraft_email draft; idraft_role := idraft_role draft;
  idraft_scopes := idraft_scopes draft; idraft_token_digest := idraft_token_digest draft;
  idraft_invited_by_user_id := idraft_invited_by_user_id draft;
  idraft_created_at := idraft_created_at draft; idraft_expires_at := idraft_expires_at draft
|}.

Definition role_of (role : string) : M UserRole :=
  match parse role with Some r => mret r | None => raise (ValueError role) end.

(** The account is already known: only an open invitation of the same school
    is renewed. *)
Definition renew_invited (draft : InvitationDraft) (existing : User) : M InvitationDraft :=
  (if (user_status existing != INVITED) || (user_school_id existing != Some (idraft_school_id draft))
   then raise TeamMemberAlreadyExistsError else mret tt);;
  found ← scalar Admins (λ a : Admin, admin_user_id a == user_id existing);
  match found with
  | None => raise TeamMemberAlreadyExistsError
  | Some admin =>
    update_where AdminInvitations (pending_invitation (user_id existing))
      (λ i : AdminInvitation, i <| ainv_revoked_at := Some (idraft_created_at draft) |>);;
    replace_assignment_rows (admin_id admin) (idraft_scopes draft) (idraft_invited_by_user_id draft)
      (idraft_created_at draft) None;;
    role ← role_of (idraft_role draft);
    save Users (existing <| user_role := role |>);;
    mret (with_account draft (user_id existing) (admin_id admin))
  end.

Definition add_invited (stored : InvitationDraft) : M InvitationDraft :=
  role ← role_of (idraft_role stored);
  insert Users ((new_User (idraft_user_id stored) (Some (idraft_school_id stored)) role EMAIL_PASSWORD)
    <| user_email := Some (idraft_email stored) |> <| user_status := INVITED |>);;
  insert Admins ((new_Admin (idraft_admin_id stored) (idraft_user_id stored) (idraft_school_id stored))
    <| admin_created_by_user_id := Some (idraft_invited_by_user_id stored) |>);;
  for_each (elements (idraft_scopes stored)) (λ scope,
    i ← uuid4;
    insert AdminScopeAssignments
      ((new_AdminScopeAssignment i (idraft_admin_id stored) scope (idraft_created_at stored))
         <| asg_granted_by_user_id := Some (idraft_invited_by_user_id stored) |>));;
  mret stored.

(** [except IntegrityError: raise TeamMemberAlreadyExistsError] *)
Definition already_exists {A} (m : M A) : M A :=
  try_except m (λ e, if e == IntegrityError then Some (raise TeamMemberAlreadyExistsError) else None).

Definition create_invitation (draft : InvitationDraft) : M InvitationDraft :=
  already_exists (begin_ (
    school ← scalar Schools (λ s : School, school_id s == idraft_school_id draft);
    existing ← scalar Users (λ u : User, lower_opt (user_email u) == Some (idraft_email draft));
    match school with
    | None => raise TeamMemberAlreadyExistsError
    | Some school =>
      team ← school_admins (idraft_school_id draft);
      let seats_used := Z.of_nat (length (filterb (λ au : Admin * User, counts_as_seat au.2) team)) in
      (if is_none existing && (school_admin_seat_limit school <=? seats_used)
       then raise AdminSeatLimitReachedError else mret tt);;
      stored ← match existing with
               | Some existing => renew_invited draft existing
               | None => add_invited draft
               end;
      role ← role_of (idraft_role stored);
      insert AdminInvitations
        ((new_AdminInvitation (idraft_invitation_id stored) (idraft_user_id stored)
            (idraft_school_id stored) role (idraft_token_digest stored) (idraft_created_at stored)
            (idraft_expires_at stored))
           <| ainv_invited_by_user_id := Some (idraft_invited_by_user_id stored) |>);;
      flush_;;
      mret stored
    end)).

Definition accept_invitation (token_digest password_hash : string) (accepted_at : datetime)
  : M (option AcceptedInvitation) :=
  begin_ (
    invitation ← scalar AdminInvitations (λ i : AdminInvitation, ainv_token_digest i == token_digest);
    match invitation with
    | None => mret None
    | Some invitation =>
      if is_some (ainv_accepted_at invitation) || is_some (ainv_revoked_at invitation) ||
         (ainv_expires_at invitation <=? accepted_at)
      then mret None
      else
        user ← scalar Users (λ u : User, user_id u == ainv_user_id invitation);
        match user with
        | None => mret None
        | Some user =>
          if user_status user != INVITED then mret None
          else
            save Users (user <| user_password_hash := Some password_hash |>
              <| user_auth_method := EMAIL_PASSWORD |> <| user_status := ACTIVE |>
              <| user_deactivated_at := None |>);;
            save AdminInvitations (invitation <| ainv_accepted_at := Some accepted_at |>);;
            mret (Some {| accepted_user_id := user_id user;
              accepted_school_id := ainv_school_id invitation;
              accepted_role := value (user_role user) |})
        end
    end).

(** ** The team *)

(** [select(Admin, User).join(...).where(Admin.school_id == school, User.id == user)] *)
Definition team_row (school target : uuid) : M (option (Admin * User)) :=
  found ← school_admins school;
  match filterb (λ au : Admin * User, user_id au.2 == target) found with
  | [] => mret None
  | [au] => mret (Some au)
  | _ => raise MultipleResultsFound
  end.

Definition holds_support (school target : uuid) (g : LearningSupportGrant) : bool :=
  (grant_school_id g == school) && (grant_holder_user_id g == target) && is_none (grant_revoked_at g).

(** The live oversight grants of active administrators of the school. *)
Definition oversight_count (school : uuid) : M Z :=
  team ← school_admins school;
  assignments ← rows AdminScopeAssignments;
  mret (Z.of_nat (length (team ≫= λ au : Admin * User,
    if user_status au.2 == ACTIVE
    then filterb (λ g : AdminScopeAssignment, live_assignment (admin_id au.1) g &&
                    (asg_scope g == SCOPE_OVERSIGHT)) (assignments : list AdminScopeAssignment)
    else []))).

(** [row_lock]: the locking reads change nothing. *)
Definition replace_scopes (school target : uuid) (scopes : gset PermissionScope)
    (changed_by_user_id : uuid) (changed_at : datetime) : M (option AdminTeamMember) :=
  begin_ (
    row ← team_row school target;
    match row with
    | None => mret None
    | Some (admin, user) =>
      current ← active_scopes (admin_id admin);
      let removed := current ∖ scopes in
      (if bool_decide (SCOPE_SENCO ∈ removed) then
         support_grant ← scalar LearningSupportGrants (holds_support school target);
         (if is_some support_grant then raise LearningSupportGrantActiveError else mret tt)
       else mret tt);;
      (if bool_decide (SCOPE_OVERSIGHT ∈ removed) then
         n ← oversight_count school;
         (if n <=? 1 then raise LastOversightAdminError else mret tt)
       else mret tt);;
      replace_assignment_rows (admin_id admin) scopes changed_by_user_id changed_at (Some current);;
      flush_;;
      mret (Some (team_member admin user scopes None None))
    end).

(** Active holders of the school's live learning support grants. *)
Definition support_holder_count (school : uuid) : M Z :=
  grants ← select LearningSupportGrants (λ g : LearningSupportGrant,
    (grant_school_id g == school) && is_none (grant_revoked_at g));
  users ← rows Users;
  mret (Z.of_nat (length ((grants : list LearningSupportGrant) ≫= λ g,
    filterb (λ u : User, (user_id u == grant_holder_user_id g) && (user_status u == ACTIVE))
      (users : list User)))).

Definition set_team_member_active (school target : uuid) (active : bool) (changed_at : datetime)
  : M (option AdminTeamMember) :=
  begin_ (
    row ← team_row school target;
    match row with
    | None => mret None
    | Some (admin, user) =>
      scopes ← active_scopes (admin_id admin);
      if active && (user_status user == ACTIVE) then mret (Some (team_member admin user scopes None None))
      else if negb active && (user_status user == DEACTIVATED)
      then mret (Some (team_member admin user scopes None None))
      else if (user_status user != ACTIVE) && (user_status user != DEACTIVATED) then mret None
      else
        (if negb active && bool_decide (SCOPE_OVERSIGHT ∈ scopes) then
           n ← oversight_count school;
           (if n <=? 1 then raise LastOversightAdminError else mret tt)
         else mret tt);;
        (if negb active then
           holds ← scalar LearningSupportGrants (holds_support school target);
           (if is_some holds then
              n ← support_holder_count school;
              (if n <=? 1 then raise LastLearningSupportHolderError else mret tt)
            else mret tt)
         else mret tt);;
        let user' := user <| user_status := if active then ACTIVE else DEACTIVATED |>
                          <| user_deactivated_at := if active then None else Some changed_at |> in
        save Users user';;
        (if negb active then
           update_where AuthSessions
             (λ s : AuthSession, (ses_user_id s == user_id user) && is_none (ses_revoked_at s))
             (λ s : AuthSession, s <| ses_revoked_at := Some changed_at |>
                                   <| ses_revocation_reason := Some "admin_revoked" |>)
         else mret tt);;
        flush_;;
        mret (Some (team_member admin user' scopes None None))
    end).

(** Another active senior administrator of the school. *)
Definition other_senior (school target : uuid) : M bool :=
  team ← school_admins school;
  mret (existsb (λ au : Admin * User, (admin_user_id au.1 != target) &&
          (admin_access_level au.1 == SENIOR) && (user_status au.2 == ACTIVE)) team).

Definition promotion_name (granter : option User) (i : uuid) : string :=
  match granter with
  | None => uuid_str i
  | Some u =>
    opt_str_or (display_name (user_first_name u) (user_last_name u) (user_email u)) (uuid_str i)
  end.

Definition set_admin_access_level (school target : uuid) (access_level : AdminAccessLevel)
    (changed_by_user_id : uuid) (changed_at : datetime) : M (option AdminTeamMember) :=
  begin_ (
    found ← get Schools school;
    if is_none found then mret None
    else
      row ← team_row school target;
      match row with
      | None => mret None
      | Some (admin, user) =>
        (if (access_level == STANDARD) && (admin_access_level admin == SENIOR) &&
            (user_status user == ACTIVE) then
           other ← other_senior school target;
           (if negb other then raise LastSeniorAdminError else mret tt)
         else mret tt);;
        let promoted := (admin_access_level admin != access_level) && (access_level == SENIOR) in
        granter ← (if promoted then get Users changed_by_user_id else mret None);
        let admin1 :=
          if promoted
          then admin <| admin_senior_promoted_by := Some changed_by_user_id |>
                     <| admin_senior_promoted_by_name := Some (promotion_name granter changed_by_user_id) |>
                     <| admin_senior_promoted_at := Some changed_at |>
          else admin in
        let admin2 := admin1 <| admin_access_level := access_level |> in
        save Admins admin2;;
        scopes ← active_scopes (admin_id admin);
        flush_;;
        support ← support_rows [target];
        (if (1 <? length support)%nat then raise MultipleResultsFound else mret tt);;
        mret (Some (team_member admin2 user scopes None (head support)))
      end).
