(* ===== verification/PermissionFacts.v ===== *)
(** * Every school keeps someone with oversight

    Through any sequence of the repository's operations, a school that has an
    active administrator with the oversight scope keeps one; inviting never
    exceeds the seats of the school; an invitation is accepted once. *)

From Stdlib Require Import String.
From S2P Require Import Prelude Relational Text Vocabulary Schema Fixtures PermissionRepo.

Local Open Scope string_scope.
Local Open Scope Z_scope.
Local Open Scope nevo_scope.

(** ** Who administers a school *)

(** The administrator [a] of the school, whose account [u] is active. *)
Record active_admin (db : Database) (school : uuid) (a : Admin) (u : User) : Prop := {
  active_in : a ∈ db_tables db Admins;
  active_school : admin_school_id a = school;
  active_user_in : u ∈ db_tables db Users;
  active_user : user_id u = admin_user_id a;
  active_status : user_status u = ACTIVE
}.

Definition live_oversight (g : AdminScopeAssignment) (a : Admin) : Prop :=
  asg_admin_id g = admin_id a ∧ asg_scope g = SCOPE_OVERSIGHT ∧ asg_revoked_at g = None.

(** Someone active oversees the school. *)
Definition overseen (school : uuid) (db : Database) : Prop :=
  ∃ a u g, active_admin db school a u ∧ g ∈ db_tables db AdminScopeAssignments ∧ live_oversight g a.

(** ** Reading the team *)

Lemma elem_of_join_users admins users a u :
  (a, u) ∈ join_users admins users ↔ a ∈ admins ∧ u ∈ users ∧ user_id u = admin_user_id a.
Proof.
  unfold join_users. rewrite list_elem_of_bind. split.
  - intros (x & Hin & Hx). apply list_elem_of_fmap in Hin as (v & [= -> ->] & Hv).
    apply elem_of_filterb in Hv as [Hid Hv]. by bool_to_prop.
  - intros (Ha & Hu & Hid). exists a. split; [|done]. apply list_elem_of_fmap. exists u. split; [done|].
    apply elem_of_filterb. split; [by apply bool_decide_true|done].
Qed.

Definition team_of (db : Database) (school : uuid) : list (Admin * User) :=
  join_users (filterb (λ a : Admin, admin_school_id a == school) (db_tables db Admins)) (db_tables db Users).

Lemma school_admins_run school db : school_admins school db = (inr (team_of db school), db).
Proof. done. Qed.

Lemma elem_of_team db school a u :
  (a, u) ∈ team_of db school ↔
    a ∈ db_tables db Admins ∧ admin_school_id a = school ∧ u ∈ db_tables db Users ∧
    user_id u = admin_user_id a.
Proof.
  unfold team_of. rewrite elem_of_join_users, elem_of_filterb, bool_decide_eq_true. tauto.
Qed.

Lemma team_row_inv school target db o db' :
  team_row school target db = (inr o, db') → db' = db ∧
    ∀ a u, o = Some (a, u) → (a, u) ∈ team_of db school ∧ user_id u = target.
Proof.
  unfold team_row. erewrite bind_inr by apply school_admins_run.
  destruct (filterb _ (team_of db school)) as [|au [|]] eqn:Hf; [by intros [= <- <-]| |done].
  intros [= <- <-]. split; [done|]. intros a u [= ->].
  assert ((a, u) ∈ filterb (λ au : Admin * User, user_id au.2 == target) (team_of db school)) as Hin
    by (rewrite Hf; by left).
  apply elem_of_filterb in Hin as [Hid Hin]. by bool_to_prop.
Qed.

Definition scopes_of (db : Database) (admin : uuid) : gset PermissionScope :=
  list_to_set (map asg_scope (filterb (live_assignment admin) (db_tables db AdminScopeAssignments))).

Lemma active_scopes_run admin db : active_scopes admin db = (inr (scopes_of db admin), db).
Proof. done. Qed.

Lemma elem_of_scopes_of db a g :
  g ∈ db_tables db AdminScopeAssignments → live_oversight g a → SCOPE_OVERSIGHT ∈ scopes_of db (admin_id a).
Proof.
  intros Hg (Ha & Hs & Hr). unfold scopes_of. apply elem_of_list_to_set, list_elem_of_fmap.
  exists g. split; [done|]. apply elem_of_filterb. split; [|done].
  unfold live_assignment. by rewrite Ha, Hr, bool_decide_true.
Qed.

(** *** Identities *)

Section Identities.
Context (db : Database) (Hok : db_ok db = true).

Lemma table_ids t : NoDup (map (table_id t) (db_tables db t)).
Proof. rewrite db_ok_spec in Hok. exact (table_primary_key t _ (Hok t)). Qed.

Lemma users_same u v :
  u ∈ db_tables db Users → v ∈ db_tables db Users → user_id u = user_id v → u = v.
Proof. exact (NoDup_map_inj user_id _ u v (table_ids Users)). Qed.

Lemma admins_same a b :
  a ∈ db_tables db Admins → b ∈ db_tables db Admins → admin_id a = admin_id b → a = b.
Proof. exact (NoDup_map_inj admin_id _ a b (table_ids Admins)). Qed.

Lemma admins_same_user a b :
  a ∈ db_tables db Admins → b ∈ db_tables db Admins → admin_user_id a = admin_user_id b → a = b.
Proof.
  intros Ha Hb Heq. rewrite db_ok_spec in Hok. specialize (Hok Admins). simpl in Hok.
  unfold admins_ok in Hok. bool_to_prop.
  eapply (unique_on_eq (λ r, Some (admin_user_id r))); eauto. by rewrite Heq.
Qed.

Lemma team_NoDup school : NoDup (team_of db school).
Proof.
  unfold team_of, join_users. apply NoDup_bind.
  - intros a b y _ _ (u & -> & _)%list_elem_of_fmap (v & Heq & _)%list_elem_of_fmap. by injection Heq.
  - intros a _. apply NoDup_fmap_2_strong; [by intros ? ? _ _ [= ->]|]. apply NoDup_filter.
    exact (NoDup_fmap_1 user_id _ (table_ids Users)).
  - apply NoDup_filter. exact (NoDup_fmap_1 admin_id _ (table_ids Admins)).
Qed.

(** At most one live grant of a scope per administrator. *)
Lemma one_live_grant admin :
  (length (filterb (λ g : AdminScopeAssignment, live_assignment admin g && (asg_scope g == SCOPE_OVERSIGHT))
     (db_tables db AdminScopeAssignments)) <= 1)%nat.
Proof.
  set (l := filterb _ _).
  assert (NoDup l) as Hnd.
  { apply NoDup_filter. exact (NoDup_fmap_1 asg_id _ (table_ids AdminScopeAssignments)). }
  assert (unique_on assignment_key (db_tables db AdminScopeAssignments) = true) as Hunique.
  { rewrite db_ok_spec in Hok. specialize (Hok AdminScopeAssignments). simpl in Hok.
    unfold assignments_ok in Hok. by bool_to_prop. }
  assert (∀ g h, g ∈ l → h ∈ l → g = h) as Heq.
  { intros g h [Hg Hgin]%elem_of_filterb [Hh Hhin]%elem_of_filterb.
    assert (∀ x, live_assignment admin x && (asg_scope x == SCOPE_OVERSIGHT) = true →
      assignment_key x = Some (admin, SCOPE_OVERSIGHT)) as Hkey.
    { intros x Hx. unfold live_assignment in Hx. bool_to_prop. unfold assignment_key.
      match goal with H : asg_revoked_at x = None |- _ => rewrite H end. simpl. congruence. }
    eapply (unique_on_eq assignment_key); [exact Hunique|exact Hgin|exact Hhin|by apply Hkey|by apply Hkey]. }
  destruct l as [|g [|h l']]; simpl; [lia|lia|]. exfalso.
  rewrite (Heq g h) in Hnd by set_solver. apply NoDup_cons in Hnd as [Hn _]. set_solver.
Qed.
End Identities.

(** *** Counting the overseers *)

Lemma bind_at_most {A B} (f : A → list B) (p : A → bool) (l : list A) :
  (∀ x, x ∈ l → p x = false → f x = []) → (∀ x, x ∈ l → (length (f x) <= 1)%nat) →
  (length (l ≫= f) <= length (filterb p l))%nat.
Proof.
  induction l as [|x l IH]; intros Hf Hone; [simpl; lia|].
  change (length (f x ++ (l ≫= f)) <= length (filterb p (x :: l)))%nat.
  rewrite length_app, filterb_cons. specialize (IH ltac:(set_solver) ltac:(set_solver)).
  pose proof (Hone x ltac:(set_solver)). destruct (p x) eqn:Hp; simpl; [lia|].
  rewrite (Hf x) by (set_solver || done). simpl. lia.
Qed.

Lemma all_equal_length {A} (l : list A) :
  NoDup l → (∀ x y, x ∈ l → y ∈ l → x = y) → (length l <= 1)%nat.
Proof.
  intros Hnd Heq. destruct l as [|x [|y l]]; simpl; [lia|lia|]. exfalso.
  rewrite (Heq x y) in Hnd by set_solver. apply NoDup_cons in Hnd as [Hn _]. set_solver.
Qed.

(** With more than one live oversight grant, someone else oversees too. *)
Lemma another_overseer school db n db' a0 u0 :
  db_ok db = true → oversight_count school db = (inr n, db') → 1 < n → (a0, u0) ∈ team_of db school →
  ∃ a u g, active_admin db school a u ∧ g ∈ db_tables db AdminScopeAssignments ∧ live_oversight g a ∧
    a ≠ a0 ∧ u ≠ u0.
Proof.
  intros Hok Hrun Hn H0. set (grants := λ au : Admin * User,
    if user_status au.2 == ACTIVE
    then filterb (λ g : AdminScopeAssignment, live_assignment (admin_id au.1) g && (asg_scope g == SCOPE_OVERSIGHT))
           (db_tables db AdminScopeAssignments) else []).
  set (same := λ au : Admin * User, user_id au.2 == user_id u0).
  assert (n = Z.of_nat (length (team_of db school ≫= grants))) as -> by (by injection Hrun as <- _).
  apply elem_of_team in H0 as (Ha0 & Hs0 & Hu0 & Hid0).
  destruct (existsb (λ au, negb (same au) && is_some (head (grants au))) (team_of db school)) eqn:He.
  - apply existsb_exists in He as ([a u] & Hin%list_elem_of_In & Hau). unfold same in Hau. bool_to_prop.
    apply is_some_spec in H0 as [g Hg%head_Some_elem_of]. unfold grants in Hg. cbn [fst snd] in *.
    destruct (user_status u == ACTIVE) eqn:Hst; [|set_solver].
    apply elem_of_filterb in Hg as [Hlive Hgin]. unfold live_assignment in Hlive. bool_to_prop.
    apply elem_of_team in Hin as (Ha & Hs & Hu & Hid).
    exists a, u, g. split; [by split|]. split; [done|]. split; [by repeat split|]. split.
    + intros ->. congruence.
    + intros ->. congruence.
  - exfalso. assert (length (team_of db school ≫= grants) <= length (filterb same (team_of db school)))%nat as Hle.
    { apply bind_at_most.
      - intros au Hau Hsame. destruct (head (grants au)) as [g|] eqn:Hg.
        + exfalso. assert (existsb (λ au, negb (same au) && is_some (head (grants au))) (team_of db school) = true); [|congruence].
          apply existsb_exists. exists au. split; [by apply list_elem_of_In|]. by rewrite Hsame, Hg.
        + by destruct (grants au).
      - intros au _. unfold grants. destruct (_ == ACTIVE); [by apply one_live_grant|simpl; lia]. }
    assert (length (filterb same (team_of db school)) <= 1)%nat; [|lia].
    apply all_equal_length; [apply NoDup_filter; by apply team_NoDup|].
    intros [a u] [b v] [Hx Hxin]%elem_of_filterb [Hy Hyin]%elem_of_filterb. unfold same in Hx, Hy.
    cbn [snd] in *. bool_to_prop.
    apply elem_of_team in Hxin as (Ha & _ & Hu & Hid). apply elem_of_team in Hyin as (Hb & _ & Hv & Hid').
    f_equal; [apply (admins_same_user db Hok)|apply (users_same db Hok)]; congruence.
Qed.

(** ** What the operations change *)

Lemma frames_replace_rows admin scopes by_ at_ cur :
  frames [AdminScopeAssignments] (replace_assignment_rows admin scopes by_ at_ cur).
Proof. unfold replace_assignment_rows, active_scopes. frames_tac. Qed.

(** The live grants that are not taken away stay. *)
Lemma replace_rows_keeps admin scopes by_ at_ cur db x db' g :
  replace_assignment_rows admin scopes by_ at_ cur db = (inr x, db') →
  g ∈ db_tables db AdminScopeAssignments → asg_revoked_at g = None →
  asg_admin_id g ≠ admin ∨ asg_scope g ∉ (match cur with Some c => c | None => scopes_of db admin end) ∖ scopes →
  g ∈ db_tables db' AdminScopeAssignments.
Proof.
  unfold replace_assignment_rows. intros (active & db1 & Hact & Hrun)%bind_inv_inr Hg Hlive Hkeep. cbv zeta in Hrun.
  assert (active = match cur with Some c => c | None => scopes_of db admin end ∧ db1 = db) as [-> ->]
    by (destruct cur; by injection Hact as <- <-).
  apply bind_inv_inr in Hrun as ([] & db2 & Hupd & Hrun).
  assert (g ∈ db_tables db2 AdminScopeAssignments) as Hg2.
  { destruct (_ != ∅).
    - injection Hupd as <-. rewrite set_table_eq. apply elem_of_update_list. exists g. split; [done|].
      destruct (live_assignment admin g && bool_decide _) eqn:Hm; [|done]. exfalso.
      unfold live_assignment in Hm. bool_to_prop. by destruct Hkeep.
    - by injection Hupd as <-. }
  match type of Hrun with for_each ?xs ?body ?d = _ =>
    destruct (for_each_insert AdminScopeAssignments (λ i scope,
      (new_AdminScopeAssignment i admin scope at_) <| asg_granted_by_user_id := Some by_ |>) xs d)
      as (db3 & Hrun3 & Ht & _) end.
  assert (db' = db3) as -> by (rewrite Hrun3 in Hrun; congruence).
  rewrite Ht. apply elem_of_app. by left.
Qed.

(** The evidence that a school is overseen survives a change that keeps its
    administrator, its active account and its grant. *)
Lemma overseen_survives school db db' a u g :
  (∃ a', a' ∈ db_tables db' Admins ∧ admin_id a' = admin_id a ∧ admin_user_id a' = admin_user_id a ∧
     admin_school_id a' = admin_school_id a) →
  u ∈ db_tables db' Users → g ∈ db_tables db' AdminScopeAssignments →
  active_admin db school a u → live_oversight g a → overseen school db'.
Proof.
  intros (a' & Ha' & Hid & Huid & Hsch) Hu Hg [_ Hs _ Hau Hst] (Hga & Hgs & Hgr).
  exists a', u, g. split; [split; congruence|]. split; [done|]. split; [congruence|done].
Qed.

Lemma overseen_other_tables school db db' :
  (∀ t, t ∈ [Admins; Users; AdminScopeAssignments] → db_tables db' t = db_tables db t) →
  overseen school db → overseen school db'.
Proof.
  intros Ht (a & u & g & Ha & Hg & Hl). pose proof Ha as [Hin _ Huin _ _].
  apply (overseen_survives school db db' a u g); [exists a; by rewrite Ht by set_solver|..];
    rewrite ?Ht by set_solver; done.
Qed.

(** An update keeps the rows it does not match. *)
Lemma update_keeps t (p : table_row t → bool) f (l : list (table_row t)) x (db : Database) :
  x ∈ l → p x = false → x ∈ db_tables (set_table t (update_list p f l) db) t.
Proof. intros Hx Hp. rewrite set_table_eq. apply elem_of_update_list. exists x. by rewrite Hp. Qed.

(** ** Every operation keeps a school overseen *)

Section Overseen.
Context (school : uuid).
Implicit Types (db : Database).

Lemma if_raise (b : bool) (e : exn) db x db' :
  (if b then raise e else mret tt : M unit) db = (inr x, db') → b = false ∧ db' = db.
Proof. destruct b; [done|]. by intros [= _ <-]. Qed.

Lemma flush_inv db x db' : flush_ db = (inr x, db') → db' = db.
Proof. unfold flush_, flush. destruct (db_ok db); [|done]. by intros [= _ <-]. Qed.

Lemma role_of_inv r db x db' : role_of r db = (inr x, db') → db' = db.
Proof. unfold role_of. destruct (parse r); by intros [= _ <-]. Qed.

Lemma renew_invited_overseen draft existing db r db' :
  db_ok db = true → existing ∈ db_tables db Users → overseen school db →
  renew_invited draft existing db = (inr r, db') → overseen school db'.
Proof.
  intros Hok Hex (a & u & g & Ha & Hg & Hl) Hrun. unfold renew_invited in Hrun.
  apply bind_inv_inr in Hrun as (? & ? & [Hinv ->]%if_raise & Hrun). bool_to_prop.
  erewrite bind_inr in Hrun by reflexivity.
  destruct (findb _ _) as [admin|] eqn:Hadm; [|done]. apply findb_Some in Hadm as [Hau Hain]. bool_to_prop.
  apply bind_inv_inr in Hrun as ([] & db1 & Hupd & Hrun). injection Hupd as <-.
  apply bind_inv_inr in Hrun as ([] & db2 & Hrep & Hrun).
  apply bind_inv_inr in Hrun as (role & db3 & ->%role_of_inv & Hrun).
  apply bind_inv_inr in Hrun as ([] & db4 & Hsave & Hrun). injection Hrun as _ <-.
  assert (u ≠ existing) as Hne by (intros ->; destruct Ha; congruence).
  pose proof (λ t Ht, frames_run _ _ _ _ _ t (frames_replace_rows _ _ _ _ _) Hrep Ht) as Hfr.
  injection Hsave as <-.
  apply (overseen_survives school db _ a u g); try done.
  - exists a. rewrite set_table_ne, Hfr, set_table_ne by (done || set_solver). by destruct Ha.
  - apply (update_keeps Users).
    + rewrite Hfr, set_table_ne by (done || set_solver). by destruct Ha.
    + apply bool_decide_eq_false. intros Heq. apply Hne. apply (users_same db Hok); by destruct Ha.
  - rewrite set_table_ne by done. eapply replace_rows_keeps; [exact Hrep|by rewrite set_table_ne|by apply Hl|].
    left. destruct Hl as (-> & _ & _). intros Heq. apply Hne.
    assert (a = admin) as -> by (apply (admins_same db Hok); [by destruct Ha|done|done]).
    apply (users_same db Hok); [by destruct Ha|done|]. destruct Ha. congruence.
Qed.

Lemma frames_insert_rows admin scopes by_ at_ :
  frames [AdminScopeAssignments] (for_each scopes (λ scope,
    i ← uuid4;
    insert AdminScopeAssignments
      ((new_AdminScopeAssignment i admin scope at_) <| asg_granted_by_user_id := Some by_ |>)) : M unit).
Proof. frames_tac. Qed.

Lemma add_invited_overseen draft db r db' :
  overseen school db → add_invited draft db = (inr r, db') → overseen school db'.
Proof.
  intros (a & u & g & Ha & Hg & Hl) Hrun. unfold add_invited in Hrun.
  apply bind_inv_inr in Hrun as (role & ? & ->%role_of_inv & Hrun).
  apply bind_inv_inr in Hrun as ([] & db1 & H1 & Hrun). injection H1 as <-.
  apply bind_inv_inr in Hrun as ([] & db2 & H2 & Hrun). injection H2 as <-.
  apply bind_inv_inr in Hrun as ([] & db3 & H3 & Hrun). injection Hrun as _ <-.
  pose proof (λ t Ht, frames_run _ _ _ _ _ t (frames_insert_rows _ _ _ _) H3 Ht) as Hfr.
  match type of H3 with for_each ?xs ?body ?d = _ =>
    destruct (for_each_insert AdminScopeAssignments (λ i scope,
      (new_AdminScopeAssignment i (idraft_admin_id draft) scope (idraft_created_at draft))
        <| asg_granted_by_user_id := Some (idraft_invited_by_user_id draft) |>) xs d)
      as (db4 & Hrun4 & Ht & _) end.
  assert (db3 = db4) as <- by (rewrite Hrun4 in H3; congruence).
  apply (overseen_survives school db _ a u g); try done.
  - exists a. rewrite Hfr, set_table_eq by set_solver. split; [|done]. apply elem_of_app. left.
    rewrite set_table_ne by done. by destruct Ha.
  - rewrite Hfr by set_solver. rewrite set_table_ne, set_table_eq by done. apply elem_of_app. left.
    by destruct Ha.
  - rewrite Ht. apply elem_of_app. left. by rewrite !set_table_ne.
Qed.

Lemma create_invitation_overseen draft db r db' :
  db_ok db = true → overseen school db → create_invitation draft db = (inr r, db') → overseen school db'.
Proof.
  intros Hok Hover Hrun. unfold create_invitation, already_exists, try_except in Hrun.
  destruct (begin_ _ db) as [[e|x] d] eqn:Hbegin; [by destruct (e == IntegrityError)|].
  injection Hrun as -> ->. apply transaction_commit in Hbegin as [Hrun _].
  erewrite bind_inr in Hrun by reflexivity. erewrite bind_inr in Hrun by reflexivity.
  destruct (findb _ (db_tables db Schools)) as [s|]; [|done].
  erewrite bind_inr in Hrun by apply school_admins_run. cbv zeta in Hrun.
  apply bind_inv_inr in Hrun as (? & ? & [_ ->]%if_raise & Hrun).
  apply bind_inv_inr in Hrun as (stored & db1 & Hstored & Hrun).
  assert (overseen school db1) as Hover1.
  { destruct (findb _ (db_tables db Users)) as [existing|] eqn:Hex.
    - apply findb_Some in Hex as [_ Hex]. by apply (renew_invited_overseen draft existing db stored db1).
    - by apply (add_invited_overseen draft db stored db1). }
  apply bind_inv_inr in Hrun as (role & ? & ->%role_of_inv & Hrun).
  apply bind_inv_inr in Hrun as ([] & db2 & H2 & Hrun). injection H2 as <-.
  apply bind_inv_inr in Hrun as ([] & ? & ->%flush_inv & Hrun). injection Hrun as _ <-.
  apply (overseen_other_tables school db1); [|done]. intros t Ht. rewrite set_table_ne; [done|set_solver].
Qed.

Lemma accept_invitation_overseen digest hash at_ db r db' :
  db_ok db = true → overseen school db → accept_invitation digest hash at_ db = (inr r, db') →
  overseen school db'.
Proof.
  intros Hok Hover [Hrun _]%transaction_commit.
  erewrite bind_inr in Hrun by reflexivity.
  destruct (findb _ (db_tables db AdminInvitations)) as [inv|]; [|by injection Hrun as _ <-].
  destruct (_ || _ || _); [by injection Hrun as _ <-|].
  erewrite bind_inr in Hrun by reflexivity.
  destruct (findb _ (db_tables db Users)) as [v|] eqn:Hv; [|by injection Hrun as _ <-].
  destruct (user_status v != INVITED) eqn:Hst; [by injection Hrun as _ <-|].
  apply findb_Some in Hv as [_ Hv]. bool_to_prop.
  apply bind_inv_inr in Hrun as ([] & db1 & H1 & Hrun). injection H1 as <-.
  apply bind_inv_inr in Hrun as ([] & db2 & H2 & Hrun). injection H2 as <-. injection Hrun as _ <-.
  destruct Hover as (a & u & g & Ha & Hg & Hl).
  apply (overseen_survives school db _ a u g); try done.
  - exists a. rewrite !set_table_ne by done. by destruct Ha.
  - rewrite set_table_ne by done. apply (update_keeps Users); [by destruct Ha|].
    apply bool_decide_eq_false. intros Heq.
    assert (u = v) as -> by (apply (users_same db Hok); by destruct Ha). destruct Ha. congruence.
Qed.

Lemma oversight_guard (b : bool) sch e db x db' :
  (if b then n ← oversight_count sch; (if n <=? 1 then raise e else mret tt) else mret tt : M unit) db =
    (inr x, db') →
  db' = db ∧ (b = true → ∃ n, oversight_count sch db = (inr n, db) ∧ 1 < n).
Proof.
  destruct b; [|by intros [= _ <-]]. intros (n & db1 & Hn & Hrun)%bind_inv_inr.
  assert (db1 = db) as -> by (by injection Hn). apply if_raise in Hrun as [Hlt ->]. bool_to_prop.
  split; [done|]. intros _. by exists n.
Qed.

(** An operation on the administrator [admin] of [sch] that goes through with a
    grant of oversight taken from him leaves another overseer. *)
Lemma other_evidence sch admin user db :
  db_ok db = true → overseen school db → (admin, user) ∈ team_of db sch →
  (SCOPE_OVERSIGHT ∈ scopes_of db (admin_id admin) → ∃ n, oversight_count sch db = (inr n, db) ∧ 1 < n) →
  ∃ a u g, active_admin db school a u ∧ g ∈ db_tables db AdminScopeAssignments ∧ live_oversight g a ∧
    a ≠ admin ∧ u ≠ user.
Proof.
  intros Hok (a & u & g & Ha & Hg & Hl) Hteam Hcount.
  pose proof Hteam as (Hadm & Hsch & Husr & Hid)%elem_of_team. pose proof Ha as [Hain Has Huin Hau Hst].
  destruct (decide (admin_id a = admin_id admin)) as [Heq|Hne].
  - assert (a = admin) as -> by (by apply (admins_same db Hok)).
    destruct Hcount as (n & Hn & Hlt); [by eapply elem_of_scopes_of|].
    assert (sch = school) as -> by congruence. by eapply another_overseer.
  - exists a, u, g. split; [done|]. split; [done|]. split; [done|].
    assert (a ≠ admin) as Hna by (by intros ->). split; [done|]. intros ->. apply Hna.
    apply (admins_same_user db Hok); congruence.
Qed.

Lemma replace_scopes_overseen sch target scopes by_ at_ db r db' :
  db_ok db = true → overseen school db → replace_scopes sch target scopes by_ at_ db = (inr r, db') →
  overseen school db'.
Proof.
  intros Hok Hover [Hrun _]%transaction_commit.
  apply bind_inv_inr in Hrun as (row & db1 & [-> Hrow]%team_row_inv & Hrun).
  destruct row as [[admin user]|]; [|by injection Hrun as _ <-].
  destruct (Hrow admin user eq_refl) as [Hteam _].
  erewrite bind_inr in Hrun by apply active_scopes_run. cbv zeta in Hrun.
  apply bind_inv_inr in Hrun as ([] & db1 & H1 & Hrun).
  assert (db1 = db) as ->.
  { destruct (bool_decide (SCOPE_SENCO ∈ _)); [|by injection H1].
    apply bind_inv_inr in H1 as (o & d & Ho & [_ ->]%if_raise). by injection Ho. }
  apply bind_inv_inr in Hrun as ([] & ? & [-> Hcount]%oversight_guard & Hrun).
  apply bind_inv_inr in Hrun as ([] & db2 & Hrep & Hrun).
  apply bind_inv_inr in Hrun as ([] & ? & ->%flush_inv & Hrun). injection Hrun as _ <-.
  pose proof (λ t Ht, frames_run _ _ _ _ _ t (frames_replace_rows _ _ _ _ _) Hrep Ht) as Hfr.
  assert (∀ a u g, active_admin db school a u → g ∈ db_tables db AdminScopeAssignments → live_oversight g a →
    a ≠ admin ∨ SCOPE_OVERSIGHT ∉ scopes_of db (admin_id admin) ∖ scopes → overseen school db2) as Hsurvive.
  { intros a u g Ha Hg Hl Hor. apply (overseen_survives school db _ a u g); try done.
    - exists a. rewrite Hfr by set_solver. by destruct Ha.
    - rewrite Hfr by set_solver. by destruct Ha.
    - eapply replace_rows_keeps; [exact Hrep|done|by apply Hl|]. destruct Hl as (-> & -> & _).
      destruct Hor as [Hna|?]; [|by right]. left. intros Heq. apply Hna.
      apply elem_of_team in Hteam as (? & _). apply (admins_same db Hok); [by destruct Ha|done|done]. }
  destruct (decide (SCOPE_OVERSIGHT ∈ scopes_of db (admin_id admin) ∖ scopes)) as [Hrem|Hkeep].
  - destruct (other_evidence sch admin user db Hok Hover Hteam) as (a & u & g & Ha & Hg & Hl & Hna & _).
    { intros _. apply Hcount. by apply bool_decide_true. }
    eapply Hsurvive; eauto.
  - destruct Hover as (a & u & g & Ha & Hg & Hl). eapply Hsurvive; eauto.
Qed.

Lemma set_team_member_active_overseen sch target active at_ db r db' :
  db_ok db = true → overseen school db → set_team_member_active sch target active at_ db = (inr r, db') →
  overseen school db'.
Proof.
  intros Hok Hover [Hrun _]%transaction_commit.
  apply bind_inv_inr in Hrun as (row & db1 & [-> Hrow]%team_row_inv & Hrun).
  destruct row as [[admin user]|]; [|by injection Hrun as _ <-].
  destruct (Hrow admin user eq_refl) as [Hteam _].
  erewrite bind_inr in Hrun by apply active_scopes_run. cbv zeta in Hrun.
  destruct (active && _) eqn:Hact; [by injection Hrun as _ <-|].
  destruct (negb active && _) eqn:Hdea; [by injection Hrun as _ <-|].
  destruct (_ && (_ != DEACTIVATED)) eqn:Hst; [by injection Hrun as _ <-|].
  apply bind_inv_inr in Hrun as ([] & ? & [-> Hcount]%oversight_guard & Hrun).
  apply bind_inv_inr in Hrun as ([] & db2 & H2 & Hrun).
  assert (db2 = db) as ->.
  { destruct (negb active); [|by injection H2].
    apply bind_inv_inr in H2 as (o & d & Ho & H2). injection Ho as <- <-.
    destruct (is_some _); [|by injection H2].
    apply bind_inv_inr in H2 as (n & d & Hn & [_ ->]%if_raise). by injection Hn. }
  apply bind_inv_inr in Hrun as ([] & db3 & H3 & Hrun). injection H3 as <-.
  apply bind_inv_inr in Hrun as ([] & db4 & H4 & Hrun).
  apply bind_inv_inr in Hrun as ([] & ? & ->%flush_inv & Hrun). injection Hrun as _ <-.
  assert (∀ t, t ∈ [Admins; Users; AdminScopeAssignments] → db_tables db4 t =
    db_tables (set_table Users (update_list (λ x : User, user_id x == user_id user)
      (λ _, user <| user_status := if active then ACTIVE else DEACTIVATED |>
                 <| user_deactivated_at := if active then None else Some at_ |>) (db_tables db Users)) db) t) as Ht.
  { intros t Htin. destruct (negb active); injection H4 as <-; [|done].
    rewrite set_table_ne; [done|]. intros <-. set_solver. }
  assert (∃ a u g, active_admin db school a u ∧ g ∈ db_tables db AdminScopeAssignments ∧ live_oversight g a ∧
    u ≠ user) as (a & u & g & Ha & Hg & Hl & Hne).
  { destruct active.
    - destruct Hover as (a & u & g & Ha & Hg & Hl). exists a, u, g. split_and!; try done.
      intros ->. destruct Ha as [_ _ _ _ Hs]. by rewrite Hs in Hact.
    - destruct (other_evidence sch admin user db Hok Hover Hteam) as (a & u & g & ? & ? & ? & _ & ?).
      + intros Hin. apply Hcount. by rewrite bool_decide_true.
      + by exists a, u, g. }
  apply (overseen_survives school db _ a u g); try done.
  - exists a. rewrite Ht, set_table_ne by (done || set_solver). by destruct Ha.
  - rewrite Ht by set_solver. apply (update_keeps Users); [by destruct Ha|].
    apply bool_decide_eq_false. intros Heq. apply Hne. apply elem_of_team in Hteam as (_ & _ & ? & _).
    apply (users_same db Hok); by destruct Ha.
  - by rewrite Ht, set_table_ne by (done || set_solver).
Qed.

Lemma set_admin_access_level_overseen sch target level by_ at_ db r db' :
  db_ok db = true → overseen school db → set_admin_access_level sch target level by_ at_ db = (inr r, db') →
  overseen school db'.
Proof.
  intros Hok Hover [Hrun _]%transaction_commit.
  erewrite bind_inr in Hrun by reflexivity.
  destruct (is_none _); [by injection Hrun as _ <-|].
  apply bind_inv_inr in Hrun as (row & db1 & [-> Hrow]%team_row_inv & Hrun).
  destruct row as [[admin user]|]; [|by injection Hrun as _ <-].
  destruct (Hrow admin user eq_refl) as [Hteam _]. apply elem_of_team in Hteam as (Hadm & _).
  apply bind_inv_inr in Hrun as ([] & db1 & H1 & Hrun).
  assert (db1 = db) as ->.
  { destruct (_ && _ && _); [|by injection H1].
    apply bind_inv_inr in H1 as (o & d & Ho & [_ ->]%if_raise). by injection Ho. }
  cbv zeta in Hrun. apply bind_inv_inr in Hrun as (granter & db2 & H2 & Hrun).
  assert (db2 = db) as -> by (destruct (_ && _); by injection H2).
  apply bind_inv_inr in Hrun as ([] & db3 & H3 & Hrun). injection H3 as <-.
  erewrite bind_inr in Hrun by apply active_scopes_run.
  apply bind_inv_inr in Hrun as ([] & ? & ->%flush_inv & Hrun).
  apply bind_inv_inr in Hrun as (support & db4 & H4 & Hrun).
  apply bind_inv_inr in Hrun as ([] & ? & [_ ->]%if_raise & Hrun). injection Hrun as _ <-.
  injection H4 as _ <-.
  destruct Hover as (a & u & g & Ha & Hg & Hl).
  apply (overseen_survives school db _ a u g); try done; [|by rewrite set_table_ne by done; destruct Ha..].
  rewrite set_table_eq. destruct (decide (admin_id a = admin_id admin)) as [Heq|Hne].
  - assert (a = admin) as -> by (apply (admins_same db Hok); by destruct Ha).
    eexists. split; [apply elem_of_update_list; exists admin; split; [by destruct Ha|]|].
    + rewrite bool_decide_true; [reflexivity|]. by destruct (_ && _).
    + by destruct (_ && _).
  - exists a. split; [|done]. apply elem_of_update_list. exists a. split; [by destruct Ha|].
    rewrite bool_decide_false; [done|]. by destruct (_ && _).
Qed.
End Overseen.

(** ** Sequences of operations *)

Inductive permission_op :=
| OpCreateInvitation (draft : InvitationDraft)
| OpAcceptInvitation (token_digest password_hash : string) (accepted_at : datetime)
| OpReplaceScopes (school target : uuid) (scopes : gset PermissionScope) (changed_by : uuid)
    (changed_at : datetime)
| OpSetTeamMemberActive (school target : uuid) (active : bool) (changed_at : datetime)
| OpSetAdminAccessLevel (school target : uuid) (level : AdminAccessLevel) (changed_by : uuid)
    (changed_at : datetime).

Definition run_permission_op (op : permission_op) (db : Database) : Database :=
  match op with
  | OpCreateInvitation d => snd (create_invitation d db)
  | OpAcceptInvitation a b c => snd (accept_invitation a b c db)
  | OpReplaceScopes a b c d e => snd (replace_scopes a b c d e db)
  | OpSetTeamMemberActive a b c d => snd (set_team_member_active a b c d db)
  | OpSetAdminAccessLevel a b c d e => snd (set_admin_access_level a b c d e db)
  end.

Definition run_permission_ops (ops : list permission_op) (db : Database) : Database :=
  fold_left (λ db op, run_permission_op op db) ops db.

(** An operation that raises changes nothing. *)
Lemma begin_unchanged {A} (m : M A) db e db' : begin_ m db = (inl e, db') → db' = db.
Proof. apply transaction_raise. Qed.

Lemma create_invitation_unchanged d db e db' : create_invitation d db = (inl e, db') → db' = db.
Proof.
  unfold create_invitation, already_exists, try_except.
  destruct (begin_ _ db) as [[x|r] d'] eqn:Hb; [|done]. apply begin_unchanged in Hb as ->.
  by destruct (x == IntegrityError); intros [= _ <-].
Qed.

Lemma create_invitation_ok d db : db_ok db = true → db_ok (snd (create_invitation d db)) = true.
Proof.
  intros Hok. unfold create_invitation, already_exists, try_except.
  match goal with |- context [begin_ ?m db] =>
    pose proof (transaction_preserves_ok IntegrityError m db Hok) as Hd end.
  unfold begin_. destruct (transaction _ _ db) as [[x|r] d']; [|done].
  by destruct (x == IntegrityError).
Qed.

Lemma run_permission_op_ok op db : db_ok db = true → db_ok (run_permission_op op db) = true.
Proof.
  intros Hok. destruct op; simpl; [by apply create_invitation_ok|..]; by apply transaction_preserves_ok.
Qed.

(** A property of the operations that return is one of every operation. *)
Lemma permission_ops_keep (P : Database → Prop) :
  (∀ d db r db', db_ok db = true → P db → create_invitation d db = (inr r, db') → P db') →
  (∀ a b c db r db', db_ok db = true → P db → accept_invitation a b c db = (inr r, db') → P db') →
  (∀ a b c d e db r db', db_ok db = true → P db → replace_scopes a b c d e db = (inr r, db') → P db') →
  (∀ a b c d db r db', db_ok db = true → P db → set_team_member_active a b c d db = (inr r, db') → P db') →
  (∀ a b c d e db r db', db_ok db = true → P db →
     set_admin_access_level a b c d e db = (inr r, db') → P db') →
  ∀ ops db, db_ok db = true → P db →
    P (run_permission_ops ops db) ∧ db_ok (run_permission_ops ops db) = true.
Proof.
  intros H1 H2 H3 H4 H5 ops. induction ops as [|op ops IH]; intros db Hok HP; [done|].
  unfold run_permission_ops. simpl. apply IH; [by apply run_permission_op_ok|].
  destruct op as [d|a b c|a b c d e|a b c d|a b c d e]; cbn [run_permission_op].
  - destruct (create_invitation d db) as [[x|r] db'] eqn:Hrun; cbn [snd]; [|by eapply H1].
    by apply create_invitation_unchanged in Hrun as ->.
  - destruct (accept_invitation a b c db) as [[x|r] db'] eqn:Hrun; cbn [snd]; [|by eapply H2].
    by apply transaction_raise in Hrun as ->.
  - destruct (replace_scopes a b c d e db) as [[x|r] db'] eqn:Hrun; cbn [snd]; [|by eapply H3].
    by apply transaction_raise in Hrun as ->.
  - destruct (set_team_member_active a b c d db) as [[x|r] db'] eqn:Hrun; cbn [snd]; [|by eapply H4].
    by apply transaction_raise in Hrun as ->.
  - destruct (set_admin_access_level a b c d e db) as [[x|r] db'] eqn:Hrun; cbn [snd]; [|by eapply H5].
    by apply transaction_raise in Hrun as ->.
Qed.

(** C4: through any sequence of invitations, acceptances, changes of scopes, of access level
    and of activity, whoever makes them, a school that has an active administrator with
    oversight keeps one. *)
Theorem schools_stay_overseen ops school db :
  db_ok db = true → overseen school db → overseen school (run_permission_ops ops db).
Proof.
  intros Hok Hover. eapply (permission_ops_keep (overseen school)); [..|exact Hok|exact Hover].
  - intros. by eapply create_invitation_overseen.
  - intros. by eapply accept_invitation_overseen.
  - intros. by eapply replace_scopes_overseen.
  - intros. by eapply set_team_member_active_overseen.
  - intros. by eapply set_admin_access_level_overseen.
Qed.

(** ** Invitations *)

(** The invitation of a digest was accepted or withdrawn. *)
Definition closed_invitation (digest : string) (i : AdminInvitation) : Prop :=
  ainv_token_digest i = digest ∧ (is_some (ainv_accepted_at i) || is_some (ainv_revoked_at i)) = true.

Definition link_spent (digest : string) (db : Database) : Prop :=
  ∃ i, i ∈ db_tables db AdminInvitations ∧ closed_invitation digest i.

Lemma link_spent_frames digest {A} (m : M A) db r db' :
  frames (all_but AdminInvitations) m → m db = (r, db') → link_spent digest db → link_spent digest db'.
Proof.
  intros Hm Hrun (i & Hi & Hc). exists i. split; [|done].
  rewrite (frames_run _ _ _ _ _ AdminInvitations Hm Hrun); [done|]. rewrite elem_of_all_but. by intros [].
Qed.

Lemma frames_replace_rows_but admin scopes by_ at_ cur :
  frames (all_but AdminInvitations) (replace_assignment_rows admin scopes by_ at_ cur).
Proof. unfold replace_assignment_rows, active_scopes. frames_tac. Qed.

Lemma create_invitation_spent digest d db r db' :
  link_spent digest db → create_invitation d db = (inr r, db') → link_spent digest db'.
Proof.
  intros Hspent Hrun. unfold create_invitation, already_exists, try_except in Hrun.
  destruct (begin_ _ db) as [[e|x] d'] eqn:Hbegin; [by destruct (e == IntegrityError)|].
  injection Hrun as -> ->. apply transaction_commit in Hbegin as [Hrun _].
  erewrite bind_inr in Hrun by reflexivity. erewrite bind_inr in Hrun by reflexivity.
  destruct (findb _ (db_tables db Schools)) as [s|]; [|done].
  erewrite bind_inr in Hrun by apply school_admins_run. cbv zeta in Hrun.
  apply bind_inv_inr in Hrun as (? & ? & [_ ->]%if_raise & Hrun).
  apply bind_inv_inr in Hrun as (stored & db1 & Hstored & Hrun).
  assert (link_spent digest db1) as Hspent1.
  { destruct (findb _ (db_tables db Users)) as [existing|] eqn:Hex.
    - unfold renew_invited in Hstored.
      apply bind_inv_inr in Hstored as (? & ? & [_ ->]%if_raise & Hstored).
      erewrite bind_inr in Hstored by reflexivity. destruct (findb _ (db_tables db Admins)); [|done].
      apply bind_inv_inr in Hstored as ([] & db2 & H2 & Hstored). injection H2 as <-.
      eapply link_spent_frames; [|exact Hstored|].
      + pose proof frames_replace_rows_but. unfold role_of. frames_tac.
      + destruct Hspent as (i & Hi & Hd & Hc). exists i. split; [|done].
        apply (update_keeps AdminInvitations); [done|]. unfold pending_invitation. by destruct (ainv_accepted_at i),
          (ainv_revoked_at i); rewrite ?andb_false_r.
    - eapply link_spent_frames; [|exact Hstored|done]. unfold add_invited, role_of. frames_tac. }
  apply bind_inv_inr in Hrun as (role & ? & ->%role_of_inv & Hrun).
  apply bind_inv_inr in Hrun as ([] & db2 & H2 & Hrun). injection H2 as <-.
  apply bind_inv_inr in Hrun as ([] & ? & ->%flush_inv & Hrun). injection Hrun as _ <-.
  destruct Hspent1 as (i & Hi & Hc). exists i. rewrite set_table_eq. split; [|done]. apply elem_of_app. by left.
Qed.

Section Accept.
Context (db : Database) (Hok : db_ok db = true).

Lemma invitations_same i j :
  i ∈ db_tables db AdminInvitations → j ∈ db_tables db AdminInvitations →
  ainv_token_digest i = ainv_token_digest j → i = j.
Proof.
  intros Hi Hj Heq. rewrite db_ok_spec in Hok. specialize (Hok AdminInvitations). simpl in Hok.
  unfold admin_invitations_ok in Hok. bool_to_prop.
  eapply (unique_on_eq (λ r, Some (ainv_token_digest r))); [eassumption|exact Hi|exact Hj| |reflexivity].
  by rewrite Heq.
Qed.

Lemma accept_spent digest hash at_ : link_spent digest db →
  accept_invitation digest hash at_ db = (inr None, db).
Proof.
  intros (i & Hi & Hd & Hc). apply transaction_ok; [|done]. erewrite bind_inr by reflexivity.
  rewrite (findb_unique _ _ i Hi); [|by apply bool_decide_true|].
  - unfold closed_invitation in Hc. by rewrite Hc.
  - intros j Hj Hjd. bool_to_prop. apply invitations_same; [done|done|congruence].
Qed.

(** An acceptance that goes through closes its own invitation and no other. *)
Lemma accept_inv digest hash at_ a db' :
  accept_invitation digest hash at_ db = (inr (Some a), db') →
  link_spent digest db' ∧ (∀ d, link_spent d db → link_spent d db') ∧
  ∃ i u, i ∈ db_tables db AdminInvitations ∧ ainv_token_digest i = digest ∧ at_ < ainv_expires_at i ∧
    u ∈ db_tables db Users ∧ user_id u = ainv_user_id i ∧ user_status u = INVITED ∧
    accepted_user_id a = user_id u ∧
    ∃ u', u' ∈ db_tables db' Users ∧ user_id u' = user_id u ∧ user_status u' = ACTIVE ∧
      user_password_hash u' = Some hash ∧ user_role u' = user_role u.
Proof.
  intros [Hrun _]%transaction_commit. erewrite bind_inr in Hrun by reflexivity.
  destruct (findb _ (db_tables db AdminInvitations)) as [inv|] eqn:Hinv; [|done].
  destruct (_ || _ || _) eqn:Hopen; [done|]. bool_to_prop.
  erewrite bind_inr in Hrun by reflexivity.
  destruct (findb _ (db_tables db Users)) as [v|] eqn:Hv; [|done].
  destruct (user_status v != INVITED) eqn:Hst; [done|].
  apply findb_Some in Hv as [Hvid Hv]. apply findb_Some in Hinv as [Hdig Hin]. bool_to_prop.
  apply bind_inv_inr in Hrun as ([] & db1 & H1' & Hrun). injection H1' as <-.
  apply bind_inv_inr in Hrun as ([] & db2 & H2' & Hrun). injection H2' as <-. injection Hrun as <- <-.
  split; [|split].
  - eexists. rewrite set_table_eq, set_table_ne by done. split.
    + apply elem_of_update_list. exists inv. split; [done|]. by rewrite bool_decide_true.
    + done.
  - intros d (i & Hi & Hd & Hc). exists i. split; [|done]. apply (update_keeps AdminInvitations).
    + by rewrite set_table_ne.
    + apply bool_decide_eq_false. intros Heq. assert (i = inv) as ->.
      { by apply (NoDup_map_inj ainv_id (db_tables db AdminInvitations));
          [exact (table_ids db Hok AdminInvitations)|..]. }
      by destruct (ainv_accepted_at inv), (ainv_revoked_at inv).
  - exists inv, v. split_and!; try done. eexists. rewrite set_table_ne, set_table_eq by done. split.
    + apply elem_of_update_list. exists v. split; [done|]. by rewrite bool_decide_true.
    + done.
Qed.
End Accept.

Lemma accept_none digest hash at_ db db' :
  accept_invitation digest hash at_ db = (inr None, db') → db' = db.
Proof.
  intros [Hrun _]%transaction_commit. erewrite bind_inr in Hrun by reflexivity.
  destruct (findb _ (db_tables db AdminInvitations)); [|by injection Hrun].
  destruct (_ || _ || _); [by injection Hrun|]. erewrite bind_inr in Hrun by reflexivity.
  destruct (findb _ (db_tables db Users)) as [v|]; [|by injection Hrun].
  destruct (user_status v != INVITED); [by injection Hrun|].
  apply bind_inv_inr in Hrun as ([] & db1 & _ & Hrun).
  by apply bind_inv_inr in Hrun as ([] & db2 & _ & Hrun).
Qed.

Lemma spent_kept digest ops db :
  db_ok db = true → link_spent digest db →
  link_spent digest (run_permission_ops ops db) ∧ db_ok (run_permission_ops ops db) = true.
Proof.
  intros Hok Hspent. eapply (permission_ops_keep (link_spent digest)); [..|exact Hok|exact Hspent].
  - intros. by eapply create_invitation_spent.
  - intros a b c d [x|] d' Hok' Hs Hrun.
    + by apply (accept_inv d Hok' _ _ _ _ _ Hrun).
    + by apply accept_none in Hrun as ->.
  - intros. eapply link_spent_frames; [|eassumption|done]. unfold replace_scopes, begin_, flush_.
    pose proof frames_replace_rows_but. unfold team_row, oversight_count, school_admins, active_scopes. frames_tac.
  - intros. eapply link_spent_frames; [|eassumption|done]. unfold set_team_member_active, begin_, flush_.
    unfold team_row, oversight_count, support_holder_count, school_admins, active_scopes. frames_tac.
  - intros. eapply link_spent_frames; [|eassumption|done]. unfold set_admin_access_level, begin_, flush_.
    unfold team_row, other_senior, school_admins, active_scopes, support_rows. frames_tac.
Qed.

(** An invitation is accepted at most once and only before it expires: the acceptance
    activates the invited account with the chosen password, keeps its role, and afterwards,
    whatever else happens to the team, the link is refused and refusing it writes nothing. *)
Theorem invitation_is_accepted_once digest hash at_ db a db' :
  db_ok db = true → accept_invitation digest hash at_ db = (inr (Some a), db') →
  (∃ i, i ∈ db_tables db AdminInvitations ∧ ainv_token_digest i = digest ∧ at_ < ainv_expires_at i ∧
     ainv_user_id i = accepted_user_id a) ∧
  (∃ u, u ∈ db_tables db' Users ∧ user_id u = accepted_user_id a ∧ user_status u = ACTIVE ∧
     user_password_hash u = Some hash) ∧
  ∀ ops hash' later, accept_invitation digest hash' later (run_permission_ops ops db') =
    (inr None, run_permission_ops ops db').
Proof.
  intros Hok Hrun.
  destruct (accept_inv db Hok _ _ _ _ _ Hrun) as (Hspent & _ & i & u & Hi & Hd & Ht & Hu & Hid & Hst & Ha & Hu').
  assert (db_ok db' = true) as Hok' by (by apply transaction_commit in Hrun as [_ ?]).
  split; [exists i; split_and!; congruence|]. split.
  - destruct Hu' as (u' & Hin' & Hid' & Hst' & Hp' & _). exists u'. split_and!; congruence.
  - intros ops hash' later. destruct (spent_kept digest ops db' Hok' Hspent) as [Hs Hk]. by apply accept_spent.
Qed.

(** ** Switching an administrator off *)

(** What switching a member off writes. *)
Lemma deactivation_inv school target at_ db m db' :
  db_ok db = true → set_team_member_active school target false at_ db = (inr (Some m), db') →
  (∃ u, u ∈ db_tables db Users ∧ user_id u = target ∧ user_status u ≠ DEACTIVATED) →
  ∃ user, user ∈ db_tables db Users ∧ user_id user = target ∧
    db_tables db' Admins = db_tables db Admins ∧
    db_tables db' Users = update_list (λ x : User, user_id x == user_id user)
      (λ _, user <| user_status := DEACTIVATED |> <| user_deactivated_at := Some at_ |>) (db_tables db Users) ∧
    db_tables db' AuthSessions = update_list
      (λ s : AuthSession, (ses_user_id s == user_id user) && is_none (ses_revoked_at s))
      (λ s : AuthSession, s <| ses_revoked_at := Some at_ |> <| ses_revocation_reason := Some "admin_revoked" |>)
      (db_tables db AuthSessions).
Proof.
  intros Hok [Hrun _]%transaction_commit (u0 & Hu0 & Hid0 & Hst0).
  apply bind_inv_inr in Hrun as (row & db1 & [-> Hrow]%team_row_inv & Hrun).
  destruct row as [[admin user]|]; [|done]. destruct (Hrow admin user eq_refl) as [Hteam Htarget].
  apply elem_of_team in Hteam as (_ & _ & Huser & _).
  assert (user = u0) as <- by (apply (users_same db Hok); congruence).
  erewrite bind_inr in Hrun by apply active_scopes_run. cbv zeta in Hrun. cbn [negb andb] in Hrun.
  rewrite (bool_decide_false (user_status user = DEACTIVATED)) in Hrun by done.
  destruct (_ && _); [done|].
  apply bind_inv_inr in Hrun as ([] & ? & [-> _]%oversight_guard & Hrun).
  apply bind_inv_inr in Hrun as ([] & db2 & H2 & Hrun).
  assert (db2 = db) as ->.
  { apply bind_inv_inr in H2 as (o & d & Ho & H2). injection Ho as <- <-.
    destruct (is_some _); [|by injection H2].
    apply bind_inv_inr in H2 as (n & d & Hn & [_ ->]%if_raise). by injection Hn. }
  apply bind_inv_inr in Hrun as ([] & db3 & H3 & Hrun). injection H3 as <-.
  apply bind_inv_inr in Hrun as ([] & db4 & H4 & Hrun). injection H4 as <-.
  apply bind_inv_inr in Hrun as ([] & ? & ->%flush_inv & Hrun). injection Hrun as _ <-.
  exists user. split; [done|]. split; [done|]. split; [by rewrite !set_table_ne|]. split.
  - by rewrite set_table_ne, set_table_eq.
  - by rewrite set_table_eq, set_table_ne.
Qed.

(** Switching a team member off deactivates the account and ends every open session of it in
    the same transaction, so that no token of his is accepted any more; the sessions of others
    are untouched. *)
Theorem deactivated_member_is_signed_out school target at_ db m db' :
  db_ok db = true → set_team_member_active school target false at_ db = (inr (Some m), db') →
  (∃ u, u ∈ db_tables db Users ∧ user_id u = target ∧ user_status u ≠ DEACTIVATED) →
  (∃ u, u ∈ db_tables db' Users ∧ user_id u = target ∧ user_status u = DEACTIVATED ∧
     user_deactivated_at u = Some at_) ∧
  (∀ s, s ∈ db_tables db' AuthSessions → ses_user_id s = target → ses_revoked_at s ≠ None) ∧
  (∀ s, s ∈ db_tables db AuthSessions → ses_user_id s ≠ target → s ∈ db_tables db' AuthSessions).
Proof.
  intros Hok Hrun Hex.
  destruct (deactivation_inv _ _ _ _ _ _ Hok Hrun Hex) as (user & Hin & Hid & _ & HU & HS). rewrite HU, HS.
  split; [|split].
  - eexists. split; [apply elem_of_update_list; exists user; split; [done|]; by rewrite bool_decide_true|done].
  - intros s (x & Hx & ->)%elem_of_update_list Hs. destruct (_ && _) eqn:Hm; [done|]. intros Hr.
    rewrite Hs, Hid, Hr in Hm. by rewrite bool_decide_true in Hm.
  - intros s Hs Hne. apply elem_of_update_list. exists s. split; [done|].
    by rewrite Hid, bool_decide_false.
Qed.

(** The guard of the last senior administrator is missing where a member is switched off: when
    the only active senior of a school is switched off, the operation goes through and the
    school has no active senior left. *)
Theorem deactivation_can_remove_the_last_senior school target at_ db m db' :
  db_ok db = true → set_team_member_active school target false at_ db = (inr (Some m), db') →
  (∃ u, u ∈ db_tables db Users ∧ user_id u = target ∧ user_status u ≠ DEACTIVATED) →
  (∀ a u, active_admin db school a u → admin_access_level a = SENIOR → user_id u = target) →
  ∀ a u, active_admin db' school a u → admin_access_level a ≠ SENIOR.
Proof.
  intros Hok Hrun Hex Hsole a u [Ha Hs Hu Hid Hst] Hlevel.
  destruct (deactivation_inv _ _ _ _ _ _ Hok Hrun Hex) as (user & Hin & Htarget & HA & HU & _).
  rewrite HA in Ha. rewrite HU in Hu. apply elem_of_update_list in Hu as (x & Hx & ->).
  destruct (bool_decide _) eqn:Hm; [done|]. bool_to_prop. apply Hm.
  rewrite Htarget. by apply (Hsole a x).
Qed.
