(* ===== verification/PermissionService.v ===== *)
(** * Who may change the administration team

    [src/nevo/permissions/service.py] and [security.py]: the checks every
    operation makes on the person asking, over the repository of
    [PermissionRepo]. *)

From Stdlib Require Import String.
From S2P Require Import Prelude Relational Text Vocabulary Schema Fixtures Crypto AuthPolicies PermissionRepo PermissionFacts.

Local Open Scope string_scope.
Local Open Scope Z_scope.
Local Open Scope nevo_scope.

(** The links of invitations. *)
Class InvitationTokenService := {
  invitation_issue : M (string * string);
  invitation_digest : string → string;
  invitation_issue_returns db : ∃ t db', invitation_issue db = (inr (t, invitation_digest t), db') ∧
    db_tables db' = db_tables db ∧ db_now db' = db_now db ∧ db_uuids db <= db_uuids db'
}.

Section HmacInvitations.
Context `{Crypto} (session_pepper : string).

Definition hmac_invitation_digest (token : string) : string :=
  hmac_sha256_hex session_pepper ("admin-invitation:" ++ token).
Definition hmac_invitation_issue : M (string * string) :=
  token ← draw token_urlsafe;
  mret (token, hmac_invitation_digest token).

Program Definition HmacInvitationTokenService : InvitationTokenService := {|
  invitation_issue := hmac_invitation_issue;
  invitation_digest := hmac_invitation_digest
|}.
Next Obligation. intros db. eexists _, _. split; [reflexivity|]. simpl. split_and!; [done..|lia]. Qed.
End HmacInvitations.

Definition ADMIN_ROLES : list string := ["teacher"; "senco_admin"; "other_admin"].
Definition DEFAULT_INVITATION_TTL : timedelta := days 7.

(** [effective_scopes(role, scopes)]; the roles come from the database, so
    none is unknown. *)
Definition effective (role : string) (scopes : gset PermissionScope) : M (gset PermissionScope) :=
  match effective_scopes role scopes with
  | Some s => mret s
  | None => raise (ValueError role)
  end.

Definition with_effective_scopes (m : AdminTeamMember) : M AdminTeamMember :=
  scopes ← effective (member_role m) (member_scopes m);
  mret {|
    member_user_id := member_user_id m; member_admin_id := member_admin_id m;
    member_school_id := member_school_id m; member_email := member_email m;
    member_first_name := member_first_name m; member_last_name := member_last_name m;
    member_role := member_role m; member_status := member_status m; member_scopes := scopes;
    member_founding := member_founding m; member_last_active_at := member_last_active_at m;
    member_access_level := member_access_level m;
    member_senior_promoted_by := member_senior_promoted_by m;
    member_senior_promoted_by_name := member_senior_promoted_by_name m;
    member_senior_promoted_at := member_senior_promoted_at m;
    member_learning_support := member_learning_support m;
    member_learning_support_granted_at := member_learning_support_granted_at m;
    member_learning_support_granted_by := member_learning_support_granted_by m;
    member_learning_support_granted_by_name := member_learning_support_granted_by_name m |}.

Section PermissionService.
Context `{!InvitationTokenService} (hash_password : string → M string)
  (invitation_ttl : timedelta) (now : datetime).

Definition permissions_for (principal : AuthPrincipal) : M PermissionSnapshot :=
  found ← snapshot (principal_user_id principal);
  match found with
  | None => raise PermissionDeniedError
  | Some s =>
    if snap_status s != "active" then raise PermissionDeniedError
    else
      scopes ← effective (snap_role s) (snap_assigned_scopes s);
      mret {|
        snap_user_id := snap_user_id s; snap_school_id := snap_school_id s; snap_role := snap_role s;
        snap_status := snap_status s; snap_school_auth_method := snap_school_auth_method s;
        snap_assigned_scopes := scopes; snap_admin_access_level := snap_admin_access_level s;
        snap_email_confirmed := snap_email_confirmed s; snap_email := snap_email s |}
  end.

Definition require (principal : AuthPrincipal) (scope : PermissionScope) : M PermissionSnapshot :=
  s ← permissions_for principal;
  if negb (bool_decide (scope ∈ snap_assigned_scopes s)) then raise PermissionDeniedError else mret s.

Definition require_senior_admin (principal : AuthPrincipal) : M PermissionSnapshot :=
  s ← permissions_for principal;
  if snap_admin_access_level s != Some SENIOR then raise PermissionDeniedError else mret s.

Definition service_navigation_for (principal : AuthPrincipal) : M (list string) :=
  s ← permissions_for principal;
  mret (navigation_for (snap_assigned_scopes s)).

(** [if actor.school_id is None: raise PermissionDeniedError] *)
Definition school_of (actor : PermissionSnapshot) : M uuid :=
  match snap_school_id actor with Some s => mret s | None => raise PermissionDeniedError end.

Definition service_list_team (principal : AuthPrincipal) : M (list AdminTeamMember) :=
  actor ← require principal SCOPE_OVERSIGHT;
  school ← school_of actor;
  members ← list_team school;
  map_each members with_effective_scopes.

Definition team_seat_limit (principal : AuthPrincipal) : M Z :=
  actor ← require principal SCOPE_OVERSIGHT;
  school ← school_of actor;
  admin_seat_limit school.

Definition is_seat (m : AdminTeamMember) : bool :=
  (member_status m == "active") || (member_status m == "invited").

Definition invite (principal : AuthPrincipal) (email role : string) (scopes : gset PermissionScope)
  : M IssuedInvitation :=
  actor ← require principal SCOPE_OVERSIGHT;
  school ← school_of actor;
  (if snap_school_auth_method actor == Some "sso" then raise SsoManagedTeamError else mret tt);;
  (if negb (bool_decide (role ∈ ADMIN_ROLES)) then raise InvalidAdminRoleError else mret tt);;
  (if bool_decide (scopes = ∅) && (role == "other_admin") then raise PermissionDeniedError else mret tt);;
  members ← list_team school;
  seat_limit ← admin_seat_limit school;
  let existing := findb (λ m : AdminTeamMember,
    casefold (opt_str_or (member_email m) "") == casefold email) members in
  let seats_used := Z.of_nat (length (filterb is_seat members)) in
  (if is_none existing && (seat_limit <=? seats_used) then raise AdminSeatLimitReachedError else mret tt);;
  '(token, digest) ← invitation_issue;
  invitation_id ← uuid4;
  user_id ← uuid4;
  admin_id ← uuid4;
  stored ← create_invitation {|
    idraft_invitation_id := invitation_id; idraft_user_id := user_id; idraft_admin_id := admin_id;
    idraft_school_id := school; idraft_email := strip (casefold email); idraft_role := role;
    idraft_scopes := scopes; idraft_token_digest := digest;
    idraft_invited_by_user_id := snap_user_id actor; idraft_created_at := now;
    idraft_expires_at := now + invitation_ttl |};
  scopes' ← effective (idraft_role stored) (idraft_scopes stored);
  mret {|
    iinv_invitation_id := idraft_invitation_id stored; iinv_user_id := idraft_user_id stored;
    iinv_email := idraft_email stored; iinv_role := idraft_role stored; iinv_scopes := scopes';
    iinv_invitation_token := token; iinv_expires_at := idraft_expires_at stored |}.

Definition service_accept_invitation (token password : string) : M AcceptedInvitation :=
  hash ← hash_password password;
  accepted ← accept_invitation (invitation_digest token) hash now;
  match accepted with
  | None => raise InvalidInvitationError
  | Some a => mret a
  end.

Definition found_member (m : option AdminTeamMember) : M AdminTeamMember :=
  match m with
  | None => raise TeamMemberNotFoundError
  | Some m => with_effective_scopes m
  end.

Definition service_replace_scopes (principal : AuthPrincipal) (target_user_id : uuid)
    (scopes : gset PermissionScope) : M AdminTeamMember :=
  actor ← require principal SCOPE_OVERSIGHT;
  school ← school_of actor;
  (if (target_user_id == snap_user_id actor) && negb (bool_decide (SCOPE_OVERSIGHT ∈ scopes))
   then raise SelfScopeRemovalError else mret tt);;
  member ← replace_scopes school target_user_id scopes (snap_user_id actor) now;
  found_member member.

Definition promote_to_senior (principal : AuthPrincipal) (target_user_id : uuid) : M AdminTeamMember :=
  actor ← require_senior_admin principal;
  school ← school_of actor;
  member ← set_admin_access_level school target_user_id SENIOR (snap_user_id actor) now;
  found_member member.

Definition demote_to_standard (principal : AuthPrincipal) (target_user_id : uuid) : M AdminTeamMember :=
  actor ← require_senior_admin principal;
  school ← school_of actor;
  member ← set_admin_access_level school target_user_id STANDARD (snap_user_id actor) now;
  found_member member.

Definition service_set_team_member_active (principal : AuthPrincipal) (target_user_id : uuid)
    (active : bool) : M AdminTeamMember :=
  actor ← require principal SCOPE_OVERSIGHT;
  school ← school_of actor;
  (if negb active && (target_user_id == snap_user_id actor) then raise SelfDeactivationError else mret tt);;
  member ← set_team_member_active school target_user_id active now;
  found_member member.
End PermissionService.

(** ** Authority *)

(** The scopes an account holds by assignment, if it is active. *)
Definition assigned_scopes (db : Database) (i : uuid) : gset PermissionScope :=
  match findb (λ u : User, user_id u == i) (db_tables db Users) with
  | Some u =>
    if user_status u == ACTIVE then
      match findb (λ a : Admin, admin_user_id a == user_id u) (db_tables db Admins) with
      | Some a => scopes_of db (admin_id a)
      | None => ∅
      end
    else ∅
  | None => ∅
  end.

Definition has_oversight (db : Database) (i : uuid) : bool :=
  bool_decide (SCOPE_OVERSIGHT ∈ assigned_scopes db i).

(** The account is that of an active senior administrator. *)
Definition is_senior (db : Database) (i : uuid) : bool :=
  match findb (λ u : User, user_id u == i) (db_tables db Users) with
  | Some u =>
    (user_status u == ACTIVE) &&
    match findb (λ a : Admin, admin_user_id a == user_id u) (db_tables db Admins) with
    | Some a => admin_access_level a == SENIOR
    | None => false
    end
  | None => false
  end.

(** What a person may ask of the service. *)
Inductive team_op :=
| ListTeam
| Invite (email role : string) (scopes : gset PermissionScope)
| ReplaceScopes (target : uuid) (scopes : gset PermissionScope)
| SetActive (target : uuid) (active : bool)
| Promote (target : uuid)
| Demote (target : uuid).

Definition authorised (db : Database) (p : AuthPrincipal) (op : team_op) : bool :=
  match op with
  | Promote _ | Demote _ => is_senior db (principal_user_id p)
  | _ => has_oversight db (principal_user_id p)
  end.

Section Authority.
Context `{!InvitationTokenService} (ttl : timedelta) (now : datetime).

Definition run_team_op (p : AuthPrincipal) (op : team_op) (db : Database) : exn + unit :=
  let answer {A} (r : (exn + A) * Database) : exn + unit :=
    match fst r with inl e => inl e | inr _ => inr tt end in
  match op with
  | ListTeam => answer (service_list_team p db)
  | Invite e r s => answer (invite ttl now p e r s db)
  | ReplaceScopes t s => answer (service_replace_scopes now p t s db)
  | SetActive t a => answer (service_set_team_member_active now p t a db)
  | Promote t => answer (promote_to_senior now p t db)
  | Demote t => answer (demote_to_standard now p t db)
  end.

Definition after_team_op (p : AuthPrincipal) (op : team_op) (db : Database) : Database :=
  match op with
  | ListTeam => snd (service_list_team p db)
  | Invite e r s => snd (invite ttl now p e r s db)
  | ReplaceScopes t s => snd (service_replace_scopes now p t s db)
  | SetActive t a => snd (service_set_team_member_active now p t a db)
  | Promote t => snd (promote_to_senior now p t db)
  | Demote t => snd (demote_to_standard now p t db)
  end.

Lemma implicit_scopes (r : UserRole) : ∃ s, IMPLICIT_SCOPES_BY_ROLE (value r) = Some s ∧ SCOPE_OVERSIGHT ∉ s.
Proof. unfold IMPLICIT_SCOPES_BY_ROLE. rewrite parse_value. destruct r; eexists; (split; [done|set_solver]). Qed.

(** The snapshot of an account. *)
Definition snapshot_of (db : Database) (i : uuid) : option PermissionSnapshot :=
  (λ user : User,
    let school := findb (λ s : School, Some (school_id s) == user_school_id user) (db_tables db Schools) in
    let admin := findb (λ a : Admin, admin_user_id a == user_id user) (db_tables db Admins) in
    {| snap_user_id := user_id user; snap_school_id := user_school_id user;
       snap_role := value (user_role user); snap_status := value (user_status user);
       snap_school_auth_method := (λ s : School, value (school_auth_method s)) <$> school;
       snap_assigned_scopes := match admin with None => ∅ | Some a => scopes_of db (admin_id a) end;
       snap_admin_access_level := admin_access_level <$> admin;
       snap_email_confirmed := is_some (user_email_confirmed_at user); snap_email := user_email user |})
  <$> findb (λ u : User, user_id u == i) (db_tables db Users).

Lemma snapshot_run i db : snapshot i db = (inr (snapshot_of db i), db).
Proof.
  unfold snapshot, snapshot_of. set (found := findb (λ u : User, user_id u == i) (db_tables db Users)).
  rewrite (bind_inr _ _ db db found) by reflexivity. destruct found as [u|]; [|reflexivity].
  rewrite (bind_inr _ _ db db (findb (λ s : School, Some (school_id s) == user_school_id u)
    (db_tables db Schools))) by reflexivity.
  cbn [fmap option_fmap option_map]. set (admin := findb (λ a : Admin, admin_user_id a == user_id u) (db_tables db Admins)).
  rewrite (bind_inr _ _ db db admin) by reflexivity. by destruct admin.
Qed.

(** Reading the permissions of a person: refused, or with the scopes and the
    level the tables give an active account. *)
Lemma permissions_for_run p db :
  (permissions_for p db = (inl PermissionDeniedError, db) ∧
   has_oversight db (principal_user_id p) = false ∧ is_senior db (principal_user_id p) = false) ∨
  ∃ s, permissions_for p db = (inr s, db) ∧
    bool_decide (SCOPE_OVERSIGHT ∈ snap_assigned_scopes s) = has_oversight db (principal_user_id p) ∧
    (snap_admin_access_level s == Some SENIOR) = is_senior db (principal_user_id p).
Proof.
  unfold permissions_for. erewrite bind_inr by apply snapshot_run.
  unfold snapshot_of, has_oversight, assigned_scopes, is_senior.
  destruct (findb (A := User) _ (db_tables db Users)) as [u|]; cbn [fmap option_fmap option_map]; cbn [snap_status snap_role snap_assigned_scopes].
  2: { left. split; [done|]. split; [|done]. apply bool_decide_eq_false. set_solver. }
  change "active" with (value ACTIVE). rewrite value_is.
  destruct (user_status u == ACTIVE) eqn:Hst; cbn [negb].
  2: { left. split; [done|]. split; [|done]. apply bool_decide_eq_false. set_solver. }
  destruct (implicit_scopes (user_role u)) as (im & Him & Hno). unfold effective, effective_scopes.
  right. rewrite Him. cbn [mbind option_bind]. eexists. split; [reflexivity|].
  cbn [snap_assigned_scopes snap_admin_access_level]. split.
  - apply bool_decide_ext. rewrite elem_of_union. destruct (findb (A := Admin) _ (db_tables db Admins)); tauto.
  - destruct (findb (A := Admin) _ (db_tables db Admins)) as [a|]; cbn [fmap option_fmap option_map andb]; [|done].
    apply bool_decide_ext. split; [by intros [= Hs]|intros Hs; by rewrite <- Hs].
Qed.

Lemma require_denied p db {A} (k : PermissionSnapshot → M A) :
  has_oversight db (principal_user_id p) = false →
  (require p SCOPE_OVERSIGHT ≫= k) db = (inl PermissionDeniedError, db).
Proof.
  intros Hno. rewrite bind_run. unfold require.
  destruct (permissions_for_run p db) as [(Hrun & _)|(s & Hrun & Hs & _)].
  - by rewrite (bind_inl _ _ _ _ _ Hrun).
  - rewrite (bind_inr _ _ _ _ _ Hrun), Hs, Hno. done.
Qed.

Lemma require_senior_denied p db {A} (k : PermissionSnapshot → M A) :
  is_senior db (principal_user_id p) = false →
  (require_senior_admin p ≫= k) db = (inl PermissionDeniedError, db).
Proof.
  intros Hno. rewrite bind_run. unfold require_senior_admin.
  destruct (permissions_for_run p db) as [(Hrun & _)|(s & Hrun & _ & Hs)].
  - by rewrite (bind_inl _ _ _ _ _ Hrun).
  - rewrite (bind_inr _ _ _ _ _ Hrun), Hs, Hno. done.
Qed.

(** Whoever asks, an operation on the team of a school (reading it, inviting, changing scopes,
    switching members on or off) is refused and writes nothing unless the account is active
    and was assigned oversight, and a change of seniority unless it is that of an active
    senior administrator: no role confers either. *)
Theorem team_needs_authority p op db :
  authorised db p op = false →
  run_team_op p op db = inl PermissionDeniedError ∧ after_team_op p op db = db.
Proof.
  intros Hno. destruct op; simpl in *; unfold service_list_team, invite, service_replace_scopes,
    service_set_team_member_active, promote_to_senior, demote_to_standard;
    first [ rewrite require_denied by done | rewrite require_senior_denied by done ]; done.
Qed.
End Authority.
