(* ===== verification/PermissionExamples.v ===== *)
(** * The team of the small school

    The theorems of [PermissionFacts] and [PermissionService] at concrete
    requests: a senior administrator with oversight, and a bursar with
    oversight and billing. *)

From Stdlib Require Import String.
From S2P Require Import Prelude Relational Text Vocabulary Schema Fixtures Crypto AuthPolicies PermissionRepo PermissionFacts PermissionService.

Local Open Scope string_scope.
Local Open Scope Z_scope.
Local Open Scope nevo_scope.

#[local] Existing Instance Toy.crypto.
#[local] Instance invitations : InvitationTokenService := HmacInvitationTokenService "session".

Definition senior_admin : Admin := (new_Admin 40 4 1) <| admin_access_level := SENIOR |>.
Definition bursar_admin : Admin := new_Admin 41 5 1.
Definition senior_oversight : AdminScopeAssignment := new_AdminScopeAssignment 42 40 SCOPE_OVERSIGHT t0.

Definition team_db : Database :=
  set_table Admins [senior_admin; bursar_admin]
  (set_table AdminScopeAssignments
    [senior_oversight; new_AdminScopeAssignment 43 41 SCOPE_OVERSIGHT t0;
     new_AdminScopeAssignment 44 41 SCOPE_BILLING t0]
  (set_table AuthSessions [new_AuthSession 45 4 SENCO_ADMIN "digest" t0 t0 (t0 + minutes 30)] school_db)).

Lemma team_db_ok : db_ok team_db = true.
Proof. vm_compute. reflexivity. Qed.

Lemma team_users : db_tables team_db Users = [learner; parent_user; senior; bursar; teacher].
Proof. unfold team_db, school_db. by rewrite !set_table_ne, set_table_eq by done. Qed.
Lemma team_admins : db_tables team_db Admins = [senior_admin; bursar_admin].
Proof. apply set_table_eq. Qed.

Lemma senior_active : active_admin team_db 1 senior_admin senior.
Proof.
  split; [rewrite team_admins; by left|done|rewrite team_users; do 2 right; by left|done|done].
Qed.

Lemma team_overseen : overseen 1 team_db.
Proof.
  exists senior_admin, senior, senior_oversight. split; [exact senior_active|]. split; [|done].
  unfold team_db. rewrite set_table_ne, set_table_eq by done. by left.
Qed.

(** The bursar tries to take everything from the senior, twice. *)
Definition takeover : list permission_op :=
  [OpReplaceScopes 1 4 ∅ 5 (t0 + hours 1); OpSetTeamMemberActive 1 4 false (t0 + hours 2);
   OpReplaceScopes 1 5 ∅ 5 (t0 + hours 3)].

Lemma schools_stay_overseen_witness :
  overseen 1 team_db ∧ overseen 1 (run_permission_ops takeover team_db).
Proof. split; [exact team_overseen|]. exact (schools_stay_overseen takeover 1 team_db team_db_ok team_overseen). Defined.

Example takeover_refused_at_last :
  fst (replace_scopes 1 5 ∅ 5 (t0 + hours 3) (run_permission_ops (take 2 takeover) team_db)) =
    inl LastOversightAdminError.
Proof. vm_compute. reflexivity. Qed.

(** A new teacher is invited. *)
Definition overseer : AuthPrincipal := mkAuthPrincipal 5 "other_admin" 46.
Definition invited_db : Database :=
  snd (invite DEFAULT_INVITATION_TTL t0 overseer "efe@example.com" "teacher" ∅ team_db).
Definition invited_digest : string := "hmac256:session:admin-invitation:token-100".

Lemma invitation_is_accepted_once_witness :
  ∃ a db', accept_invitation invited_digest "hash" (t0 + days 1) invited_db = (inr (Some a), db') ∧
    (∃ u, u ∈ db_tables db' Users ∧ user_id u = accepted_user_id a ∧ user_status u = ACTIVE ∧
       user_password_hash u = Some "hash") ∧
    accept_invitation invited_digest "other" (t0 + days 2) (run_permission_ops takeover db') =
      (inr None, run_permission_ops takeover db').
Proof.
  destruct (run_checked (accept_invitation invited_digest "hash" (t0 + days 1)) invited_db is_some)
    as ([a|] & Ha & Hb); [vm_compute; reflexivity| |discriminate Hb].
  destruct (invitation_is_accepted_once invited_digest "hash" (t0 + days 1) invited_db a _
    ltac:(vm_compute; reflexivity) Ha) as (_ & Hu & Hagain).
  exists a. eexists. split; [exact Ha|]. split; [exact Hu|apply Hagain].
Defined.

Lemma senior_not_off : ∃ u, u ∈ db_tables team_db Users ∧ user_id u = 4 ∧ user_status u ≠ DEACTIVATED.
Proof. exists senior. split; [rewrite team_users; do 2 right; by left|done]. Qed.

Lemma deactivated_member_is_signed_out_witness :
  ∃ m db', set_team_member_active 1 4 false (t0 + hours 1) team_db = (inr (Some m), db') ∧
    ∀ s, s ∈ db_tables db' AuthSessions → ses_user_id s = 4 → ses_revoked_at s ≠ None.
Proof.
  destruct (run_checked (set_team_member_active 1 4 false (t0 + hours 1)) team_db is_some)
    as ([m|] & Hm & Hb); [vm_compute; reflexivity| |discriminate Hb].
  destruct (deactivated_member_is_signed_out 1 4 (t0 + hours 1) team_db m _ team_db_ok Hm senior_not_off)
    as (_ & Hs & _).
  exists m. eexists. split; [exact Hm|exact Hs].
Defined.

Lemma deactivation_can_remove_the_last_senior_witness :
  active_admin team_db 1 senior_admin senior ∧ admin_access_level senior_admin = SENIOR ∧
  ∃ m db', set_team_member_active 1 4 false (t0 + hours 1) team_db = (inr (Some m), db') ∧
    ∀ a u, active_admin db' 1 a u → admin_access_level a ≠ SENIOR.
Proof.
  split; [exact senior_active|]. split; [done|].
  destruct (run_checked (set_team_member_active 1 4 false (t0 + hours 1)) team_db is_some)
    as ([m|] & Hm & Hb); [vm_compute; reflexivity| |discriminate Hb].
  exists m. eexists. split; [exact Hm|].
  apply (deactivation_can_remove_the_last_senior 1 4 (t0 + hours 1) team_db m _ team_db_ok Hm senior_not_off).
  intros a u [Ha _ _ Hid _] Hlevel. rewrite team_admins in Ha. rewrite Hid.
  apply elem_of_cons in Ha as [->|Ha]; [done|]. by apply list_elem_of_singleton in Ha as ->.
Defined.

(** A teacher, who has no assignment, asks to switch the bursar off. *)
Lemma team_needs_authority_witness :
  authorised team_db (mkAuthPrincipal 6 "teacher" 47) (SetActive 5 false) = false ∧
  run_team_op DEFAULT_INVITATION_TTL t0 (mkAuthPrincipal 6 "teacher" 47) (SetActive 5 false) team_db =
    inl PermissionDeniedError.
Proof.
  assert (authorised team_db (mkAuthPrincipal 6 "teacher" 47) (SetActive 5 false) = false) as H
    by (vm_compute; reflexivity).
  split; [exact H|].
  exact (proj1 (team_needs_authority DEFAULT_INVITATION_TTL t0 _ _ team_db H)).
Defined.
