(* ===== verification/Access.v ===== *)
(** * Whom an actor may see

    [src/nevo/access.py]: the learners and the classes within an actor's reach.
    One definition serves the masking of names and the tools that resolve
    learners. The lessons of the same module are not modelled. *)

From Stdlib Require Import String.
From S2P Require Import Prelude Relational Text Vocabulary Schema.

Local Open Scope string_scope.
Local Open Scope Z_scope.
Local Open Scope nevo_scope.

(** An open assignment of the teacher to the class. *)
Definition teaches (teacher class : uuid) (a : TeacherClassAssignment) : bool :=
  (tca_teacher_id a == teacher) && (tca_class_id a == class) && is_none (tca_removed_at a).

(** Some class of the learner is the teacher's. *)
Definition taught_by (teacher : uuid) (enrollments : list StudentClassEnrollment)
    (assignments : list TeacherClassAssignment) (u : User) : bool :=
  existsb (λ e, (enrollment_student_id e == user_id u) &&
                existsb (teaches teacher (enrollment_class_id e)) assignments) enrollments.

Definition learner_of (school : uuid) (u : User) : bool :=
  (user_school_id u == Some school) && (user_role u == STUDENT) && (user_status u != DEACTIVATED).

Definition accessible_students (actor : User) : M (list User) :=
  if user_role actor == STUDENT then mret [actor]
  else
    match user_school_id actor with
    | None => mret []
    | Some school =>
      learners ← select Users (learner_of school);
      if user_role actor == TEACHER then
        enrollments ← rows StudentClassEnrollments;
        assignments ← rows TeacherClassAssignments;
        mret (filterb (taught_by (user_id actor) enrollments assignments) (learners : list User))
      else mret (learners : list User)
    end.

Definition by_class_name (a b : Class_) : bool := text_le (class_name a) (class_name b).

Definition accessible_classes (actor : User) : M (list Class_) :=
  match user_school_id actor with
  | None => mret []
  | Some school =>
    if user_role actor == STUDENT then mret []
    else
      classes ← select Classes (λ c, (class_school_id c == school) && is_none (class_archived_at c));
      assignments ← rows TeacherClassAssignments;
      let found := if user_role actor == TEACHER
                   then filterb (λ c, existsb (teaches (user_id actor) (class_id c)) assignments) (classes : list Class_)
                   else (classes : list Class_) in
      mret (order_by by_class_name found)
  end.

Lemma taught_by_spec teacher enrollments assignments u :
  taught_by teacher enrollments assignments u = true ↔
  ∃ e a, e ∈ enrollments ∧ a ∈ assignments ∧ enrollment_student_id e = user_id u ∧
    tca_teacher_id a = teacher ∧ tca_class_id a = enrollment_class_id e ∧ tca_removed_at a = None.
Proof.
  unfold taught_by, teaches. rewrite existsb_elem. split.
  - intros (e & He & Hp). apply andb_prop in Hp as [Hs Hp]. apply existsb_elem in Hp as (a & Ha & Hp).
    rewrite !andb_true_iff, !bool_decide_eq_true in Hp. destruct Hp as [[Ht Hc] Hr].
    apply bool_decide_eq_true in Hs. exists e, a. split_and!; try done. by destruct (tca_removed_at a).
  - intros (e & a & He & Ha & Hs & Ht & Hc & Hr). exists e. split; [done|].
    rewrite andb_true_iff, bool_decide_eq_true, existsb_elem. split; [done|]. exists a.
    rewrite !andb_true_iff, !bool_decide_eq_true, Hr. done.
Qed.

(** Who is within reach: a learner sees themselves; everybody else active
    learners of their own school, a teacher only those of the classes they
    have. *)
Definition within_reach (actor : User) (db : Database) (u : User) : Prop :=
  if user_role actor == STUDENT then u = actor
  else
    u ∈ db_tables db Users ∧ user_school_id u ≠ None ∧ user_school_id u = user_school_id actor ∧
    user_role u = STUDENT ∧ user_status u ≠ DEACTIVATED ∧
    (user_role actor = TEACHER → ∃ e a, e ∈ db_tables db StudentClassEnrollments ∧
       a ∈ db_tables db TeacherClassAssignments ∧ enrollment_student_id e = user_id u ∧
       tca_teacher_id a = user_id actor ∧ tca_class_id a = enrollment_class_id e ∧ tca_removed_at a = None).

Lemma learner_of_spec school u :
  learner_of school u = true ↔ user_school_id u = Some school ∧ user_role u = STUDENT ∧ user_status u ≠ DEACTIVATED.
Proof. unfold learner_of. rewrite !andb_true_iff, negb_true_iff, !bool_decide_eq_true, bool_decide_eq_false. tauto. Qed.

Lemma accessible_students_spec actor (db : Database) :
  ∃ learners, accessible_students actor db = (inr learners, db) ∧ ∀ u, u ∈ learners ↔ within_reach actor db u.
Proof.
  unfold accessible_students, within_reach. case_bool_decide as Hstudent.
  { exists [actor]. split; [done|]. intros u. by rewrite list_elem_of_singleton. }
  destruct (user_school_id actor) as [school|].
  2: { exists []. split; [done|]. intros u. split; [set_solver|]. by intros (_ & H1 & H2 & _). }
  erewrite bind_inr by reflexivity. case_bool_decide as Hteacher.
  - erewrite bind_inr by reflexivity. erewrite bind_inr by reflexivity. eexists. split; [reflexivity|].
    intros u. rewrite !elem_of_filterb, taught_by_spec, learner_of_spec. split.
    + intros (He & (Hs & Hr & Hst) & Hu). rewrite Hs. split_and!; try done.
    + intros (Hu & _ & Hs & Hr & Hst & He). split_and!; auto.
  - eexists. split; [reflexivity|]. intros u. rewrite elem_of_filterb, learner_of_spec. split.
    + intros ((Hs & Hr & Hst) & Hu). rewrite Hs. split_and!; done.
    + intros (Hu & _ & Hs & Hr & Hst & He). split_and!; auto.
Qed.
