(* ===== verification/Regex.v ===== *)
(** * Regular expressions

    The part of Python's [re] the program uses on texts: classes, sequences,
    alternatives tried in order, greedy repetitions of a class, one group, and
    the assertions on what stands before and after. [run] backtracks as [re]
    does; [matches] says what a pattern means, and the two agree. [cut] divides
    a text as [re.sub] does. Texts are ASCII. *)

From Stdlib Require Import Ascii String.
From S2P Require Import Prelude Text.

Local Open Scope string_scope.
Local Open Scope Z_scope.
Local Open Scope nevo_scope.

(** [\w] *)
Definition word_char (c : ascii) : bool := is_alnum c || (c == "_"%char).

(** A place in a text: the character before it, and what follows. *)
Definition before (p : ascii → bool) (prev : option ascii) : bool :=
  match prev with Some c => p c | None => false end.
Definition ahead (p : ascii → bool) (s : string) : bool :=
  match s with String c _ => p c | "" => false end.

Inductive Re :=
| Eps
| Chr (p : ascii → bool)
| Cat (a b : Re)
| Or (a b : Re)
(** [[...]{lo,hi}] *)
| Rep (p : ascii → bool) (lo : nat) (hi : option nat)
(** [(...)] *)
| Group (a : Re)
(** [\b] *)
| Boundary
(** [(?<!p)] and [(?!p)] *)
| NotBehind (p : ascii → bool)
| NotAhead (p : ascii → bool).

(** The text between a place and a later one. *)
Definition between (s s' : string) : string := take_string (String.length s - String.length s') s.

(** ** Matching *)

Section Run.
Context {R : Type}.
Implicit Types (prev : option ascii) (s : string).

Definition or_else (a b : option R) : option R := match a with Some x => Some x | None => b end.

(** As many as there are, then fewer. *)
Fixpoint run_rep (p : ascii → bool) (lo : nat) (hi : option nat) (prev : option ascii) (s : string)
    (k : option ascii → string → option R) : option R :=
  let stop := if (lo =? 0)%nat then k prev s else None in
  match s with
  | String c s' =>
    if p c && (hi != Some 0%nat) then or_else (run_rep p (pred lo) (pred <$> hi) (Some c) s' k) stop else stop
  | "" => stop
  end.

Fixpoint run (r : Re) (prev : option ascii) (s : string) (group : option string)
    (k : option ascii → string → option string → option R) : option R :=
  match r with
  | Eps => k prev s group
  | Chr p => match s with String c s' => if p c then k (Some c) s' group else None | "" => None end
  | Cat a b => run a prev s group (λ prev' s' group', run b prev' s' group' k)
  | Or a b => or_else (run a prev s group k) (run b prev s group k)
  | Rep p lo hi => run_rep p lo hi prev s (λ prev' s', k prev' s' group)
  | Group a => run a prev s group (λ prev' s' _, k prev' s' (Some (between s s')))
  | Boundary => if xorb (before word_char prev) (ahead word_char s) then k prev s group else None
  | NotBehind p => if before p prev then None else k prev s group
  | NotAhead p => if ahead p s then None else k prev s group
  end.
End Run.

(** A match: what follows it and the group. *)
Definition match_at (r : Re) (prev : option ascii) (s : string) : option (string * option string) :=
  run r prev s None (λ _ s' group, Some (s', group)).

(** [re.search(s)] *)
Fixpoint search (r : Re) (prev : option ascii) (s : string) : bool :=
  is_some (match_at r prev s) || match s with String c s' => search r (Some c) s' | "" => false end.

(** [re.match] and [re.fullmatch] *)
Definition match_start (r : Re) (s : string) : bool := is_some (match_at r None s).
Definition full_match (r : Re) (s : string) : bool :=
  is_some (run r None s None (λ _ s' _, if truthy s' then None else Some tt)).

(** ** Meaning *)

Inductive repeats (p : ascii → bool) : nat → option nat → option ascii → string → option ascii → string → Prop :=
| repeats_stop hi prev s : repeats p 0 hi prev s prev s
| repeats_more lo hi prev c s prev' s' :
    p c = true → hi ≠ Some 0%nat → repeats p (pred lo) (pred <$> hi) (Some c) s prev' s' →
    repeats p lo hi prev (String c s) prev' s'.

Inductive matches : Re → option ascii → string → option string → option ascii → string → option string → Prop :=
| matches_eps prev s g : matches Eps prev s g prev s g
| matches_chr p prev c s g : p c = true → matches (Chr p) prev (String c s) g (Some c) s g
| matches_cat a b prev s g prev1 s1 g1 prev2 s2 g2 :
    matches a prev s g prev1 s1 g1 → matches b prev1 s1 g1 prev2 s2 g2 →
    matches (Cat a b) prev s g prev2 s2 g2
| matches_left a b prev s g prev' s' g' : matches a prev s g prev' s' g' → matches (Or a b) prev s g prev' s' g'
| matches_right a b prev s g prev' s' g' : matches b prev s g prev' s' g' → matches (Or a b) prev s g prev' s' g'
| matches_rep p lo hi prev s g prev' s' :
    repeats p lo hi prev s prev' s' → matches (Rep p lo hi) prev s g prev' s' g
| matches_group a prev s g prev' s' g' :
    matches a prev s g prev' s' g' → matches (Group a) prev s g prev' s' (Some (between s s'))
| matches_boundary prev s g :
    before word_char prev ≠ ahead word_char s → matches Boundary prev s g prev s g
| matches_not_behind p prev s g : before p prev = false → matches (NotBehind p) prev s g prev s g
| matches_not_ahead p prev s g : ahead p s = false → matches (NotAhead p) prev s g prev s g.

Create HintDb regex.
#[export] Hint Constructors matches repeats : regex.

Section Agree.
Context {R : Type}.

Lemma or_else_some (a b : option R) x : or_else a b = Some x → a = Some x ∨ b = Some x.
Proof. destruct a; [by left|by right]. Qed.

Lemma or_else_none (a b : option R) : or_else a b = None → a = None ∧ b = None.
Proof. by destruct a. Qed.

Lemma run_rep_sound p lo hi prev s (k : option ascii → string → option R) x :
  run_rep p lo hi prev s k = Some x →
  ∃ prev' s', repeats p lo hi prev s prev' s' ∧ k prev' s' = Some x.
Proof.
  revert lo hi prev. induction s as [|c s IH]; intros lo hi prev; simpl.
  { destruct lo; [|done]. intros Hk. exists prev, "". split; [constructor|done]. }
  intros Hrun. assert ((if (lo =? 0)%nat then k prev (String c s) else None) = Some x →
    ∃ prev' s', repeats p lo hi prev (String c s) prev' s' ∧ k prev' s' = Some x) as Hstop.
  { destruct lo; [|done]. intros Hk. exists prev, (String c s). split; [constructor|done]. }
  destruct (p c && (hi != Some 0%nat)) eqn:Hc; [|by apply Hstop].
  apply andb_prop in Hc as [Hc Hhi]. apply negb_true_iff, bool_decide_eq_false in Hhi.
  apply or_else_some in Hrun as [Hrun|Hrun]; [|by apply Hstop].
  apply IH in Hrun as (prev' & s' & Hrep & Hk). exists prev', s'. split; [by constructor|done].
Qed.

Lemma run_rep_complete p lo hi prev s prev' s' (k : option ascii → string → option R) :
  repeats p lo hi prev s prev' s' → run_rep p lo hi prev s k = None → k prev' s' = None.
Proof.
  induction 1 as [hi prev s|lo hi prev c s prev' s' Hc Hhi Hrep IH].
  - destruct s as [|c s]; [done|]. simpl. destruct (_ && _); [|done]. by intros [_ H]%or_else_none.
  - simpl. rewrite Hc, bool_decide_eq_false_2 by done. simpl. intros [H _]%or_else_none. auto.
Qed.

Lemma run_sound r prev s g (k : option ascii → string → option string → option R) x :
  run r prev s g k = Some x →
  ∃ prev' s' g', matches r prev s g prev' s' g' ∧ k prev' s' g' = Some x.
Proof.
  revert prev s g k. induction r as [|p|a IHa b IHb|a IHa b IHb|p lo hi|a IH| |p|p]; intros prev s g k; simpl.
  - eauto with regex.
  - destruct s as [|c s]; [done|]. destruct (p c) eqn:Hc; [|done]. eauto 6 with regex.
  - intros (prev1 & s1 & g1 & Ha & Hrun)%IHa. apply IHb in Hrun as (prev2 & s2 & g2 & Hb & Hk). eauto 6 with regex.
  - intros [(prev' & s' & g' & H & Hk)%IHa|(prev' & s' & g' & H & Hk)%IHb]%or_else_some; eauto 6 with regex.
  - intros (prev' & s' & H & Hk)%run_rep_sound. eauto 6 with regex.
  - intros (prev' & s' & g' & H & Hk)%IH. eauto 6 with regex.
  - destruct (xorb _ _) eqn:Hx; [|done]. intros Hk. exists prev, s, g. split; [|done]. constructor.
    intros Heq. by rewrite Heq, xorb_nilpotent in Hx.
  - destruct (before p prev) eqn:Hp; [done|]. eauto 6 with regex.
  - destruct (ahead p s) eqn:Hp; [done|]. eauto 6 with regex.
Qed.

Lemma run_complete r prev s g prev' s' g' (k : option ascii → string → option string → option R) :
  matches r prev s g prev' s' g' → run r prev s g k = None → k prev' s' g' = None.
Proof.
  intros Hm. revert k. induction Hm; intros k; simpl; try done.
  - by rewrite H.
  - intros Hrun. apply IHHm1 in Hrun. by apply IHHm2.
  - intros [Hrun _]%or_else_none. auto.
  - intros [_ Hrun]%or_else_none. auto.
  - intros Hrun. by eapply run_rep_complete in Hrun.
  - intros Hrun. by apply IHHm in Hrun.
  - destruct (before word_char prev), (ahead word_char s); done.
  - by rewrite H.
  - by rewrite H.
Qed.
End Agree.

(** The character before the end of [a]. *)
Fixpoint last_char (prev : option ascii) (a : string) : option ascii :=
  match a with String c a' => last_char (Some c) a' | "" => prev end.

Lemma match_at_matches r prev s s' g :
  match_at r prev s = Some (s', g) → ∃ prev', matches r prev s None prev' s' g.
Proof. intros (prev' & s1 & g1 & Hm & [= <- <-])%run_sound. eauto. Qed.

Lemma match_at_none r prev s prev' s' g :
  match_at r prev s = None → ¬ matches r prev s None prev' s' g.
Proof. intros Hnone Hm. by apply run_complete with (prev' := prev') (s' := s') (g' := g) in Hnone. Qed.

Lemma match_at_some r prev s :
  is_some (match_at r prev s) = true ↔ ∃ prev' s' g, matches r prev s None prev' s' g.
Proof.
  destruct (match_at r prev s) as [[s' g]|] eqn:Hm; simpl; split; try done.
  - intros _. apply match_at_matches in Hm as (prev' & Hm). eauto.
  - intros (prev' & s' & g & H). by eapply match_at_none in Hm.
Qed.

Lemma search_found r prev s :
  search r prev s = true ↔
  ∃ a b prev' s' g, s = a ++ b ∧ matches r (last_char prev a) b None prev' s' g.
Proof.
  revert prev. induction s as [|c s IH]; intros prev; cbn [search]; rewrite orb_true_iff, match_at_some; split.
  - intros [(prev' & s' & g & H)|?]; [|done]. by exists "", "", prev', s', g.
  - intros (a & b & prev' & s' & g & Hs & H). left. destruct a as [|c a]; [|discriminate Hs].
    change ("" = b) in Hs. subst. eauto.
  - intros [(prev' & s' & g & H)|(a & b & prev' & s' & g & -> & H)%IH].
    + by exists "", (String c s), prev', s', g.
    + by exists (String c a), b, prev', s', g.
  - intros (a & b & prev' & s' & g & Hs & H). destruct a as [|c' a].
    + left. change (String c s = b) in Hs. subst. eauto.
    + right. apply IH. change (String c s = String c' (a ++ b)) in Hs. injection Hs as <- ->. by exists a, b, prev', s', g.
Qed.

(** The matcher of patterns finds a match exactly when the pattern has one, for the meaning of
    patterns that [matches] gives: at a place, anywhere in a text, and of a text as a whole.
    *)
Theorem matcher_agrees_with_meaning r :
  (∀ prev s, is_some (match_at r prev s) = true ↔ ∃ prev' s' g, matches r prev s None prev' s' g) ∧
  (∀ prev s, search r prev s = true ↔
     ∃ a b prev' s' g, s = a ++ b ∧ matches r (last_char prev a) b None prev' s' g) ∧
  (∀ s, full_match r s = true ↔ ∃ prev' g, matches r None s None prev' "" g).
Proof.
  split_and!; [apply match_at_some|apply search_found|]. intros s. unfold full_match.
  destruct (run r None s None _) as [x|] eqn:Hrun; simpl; split; try done.
  - intros _. apply run_sound in Hrun as (prev' & s' & g & Hm & Hk). destruct s'; [eauto|done].
  - intros (prev' & g & Hm). by apply run_complete with (prev' := prev') (s' := "") (g' := g) in Hrun.
Qed.

(** ** Substitution *)

(** A text as [re.sub] divides it: characters kept, and matches with their
    group. No pattern of the program matches the empty text, so a match ends
    after it began. *)
Inductive piece := Keep (c : ascii) | Found (text : string) (group : option string).

Fixpoint cut_from (r : Re) (skip : nat) (prev : option ascii) (s : string) : list piece :=
  match s with
  | "" => []
  | String c s' =>
    match skip with
    | S skip' => cut_from r skip' (Some c) s'
    | O =>
      match match_at r prev s with
      | Some (rest, group) =>
        Found (between s rest) group :: cut_from r (String.length s' - String.length rest) (Some c) s'
      | None => Keep c :: cut_from r 0 (Some c) s'
      end
    end
  end.

Definition cut (r : Re) (s : string) : list piece := cut_from r 0 None s.

Definition render_piece (f : string → option string → string) (p : piece) : string :=
  match p with Keep c => String c "" | Found t g => f t g end.
Fixpoint render (f : string → option string → string) (ps : list piece) : string :=
  match ps with [] => "" | p :: ps' => render_piece f p ++ render f ps' end.

(** [r.sub(f, s)] *)
Definition sub (r : Re) (f : string → option string → string) (s : string) : string := render f (cut r s).

(** How a text was divided. *)
Inductive divided (r : Re) : option ascii → string → list piece → Prop :=
| divided_end prev : divided r prev "" []
| divided_keep prev c s ps :
    match_at r prev (String c s) = None → divided r (Some c) s ps → divided r prev (String c s) (Keep c :: ps)
| divided_found prev t s g ps :
    t ≠ "" → match_at r prev (t ++ s) = Some (s, g) → divided r (last_char prev t) s ps →
    divided r prev (t ++ s) (Found t g :: ps).

(** A pattern that takes a character whenever it matches. *)
Fixpoint consumes (r : Re) : bool :=
  match r with
  | Chr _ => true
  | Cat a b => consumes a || consumes b
  | Or a b => consumes a && consumes b
  | Rep _ lo _ => (0 <? lo)%nat
  | Group a => consumes a
  | Eps | Boundary | NotBehind _ | NotAhead _ => false
  end.

Lemma last_char_append prev a b : last_char prev (a ++ b) = last_char (last_char prev a) b.
Proof. revert prev. induction a as [|c a IH]; intros prev; [done|]. rewrite append_cons. simpl. apply IH. Qed.

Lemma repeats_prefix p lo hi prev s prev' s' :
  repeats p lo hi prev s prev' s' →
  ∃ t, s = t ++ s' ∧ prev' = last_char prev t ∧ (lo <= String.length t)%nat.
Proof.
  induction 1 as [hi prev s|lo hi prev c s prev' s' Hc Hhi Hrep (t & -> & -> & Ht)].
  - exists "". split_and!; [done|done|simpl; lia].
  - exists (String c t). split_and!; [done|done|simpl; lia].
Qed.

(** What a match takes. *)
Lemma matches_prefix r prev s g prev' s' g' :
  matches r prev s g prev' s' g' →
  ∃ t, s = t ++ s' ∧ prev' = last_char prev t ∧ (consumes r = true → t ≠ "").
Proof.
  induction 1 as [|p prev c s g Hc|a b prev s g prev1 s1 g1 prev2 s2 g2 _ (t & -> & -> & Ht) _ (u & -> & -> & Hu)
    |a b prev s g prev' s' g' _ (t & -> & -> & Ht)|a b prev s g prev' s' g' _ (t & -> & -> & Ht)
    |p lo hi prev s g prev' s' Hrep|a prev s g prev' s' g' _ IH| | |]; simpl consumes.
  - by exists "".
  - by exists (String c "").
  - exists (t ++ u). split_and!; [by rewrite append_assoc|by rewrite last_char_append|].
    intros [Ha|Hb]%orb_prop Heq; apply (f_equal String.length) in Heq; rewrite append_length in Heq; simpl in Heq.
    + apply Ht; [done|]. destruct t; [done|simpl in Heq; lia].
    + apply Hu; [done|]. destruct u; [done|simpl in Heq; lia].
  - exists t. split_and!; [done|done|]. intros [Ha _]%andb_prop. auto.
  - exists t. split_and!; [done|done|]. intros [_ Hb]%andb_prop. auto.
  - apply repeats_prefix in Hrep as (t & -> & -> & Ht). exists t. split_and!; [done|done|].
    intros Hlo%Nat.ltb_lt ->. simpl in Ht. lia.
  - done.
  - by exists "".
  - by exists "".
  - by exists "".
Qed.

Lemma take_string_length n s : (n <= String.length s)%nat → String.length (take_string n s) = n.
Proof. revert n. induction s as [|c s IH]; intros [|n] Hn; simpl in *; try lia. rewrite IH; lia. Qed.

Lemma between_append t s : between (t ++ s) s = t.
Proof.
  unfold between. rewrite append_length, Nat.add_sub. induction t as [|c t IH]; [by destruct s|].
  rewrite append_cons. simpl. by rewrite IH.
Qed.

Lemma cut_from_skip r t prev s : cut_from r (String.length t) prev (t ++ s) = cut_from r 0 (last_char prev t) s.
Proof. revert prev. induction t as [|c t IH]; intros prev; [done|]. rewrite append_cons. simpl. apply IH. Qed.

Lemma cut_divided r prev s : consumes r = true → divided r prev s (cut_from r 0 prev s).
Proof.
  intros Hr. remember (String.length s) as n eqn:Hn. revert prev s Hn.
  induction (lt_wf n) as [n _ IH]. intros prev s Hn. destruct s as [|c s]; [constructor|]. cbn [cut_from].
  destruct (match_at r prev (String c s)) as [[rest g]|] eqn:Hm.
  - apply match_at_matches in Hm as Hmatch. destruct Hmatch as (prev' & Hmatch).
    apply matches_prefix in Hmatch as (t & Hs & _ & Ht). specialize (Ht Hr). rewrite Hs, between_append in *.
    destruct t as [|c' t]; [done|]. rewrite append_cons in Hs. injection Hs as <- Hs.
    rewrite Hs, append_length, Nat.add_sub, cut_from_skip. constructor; [done|done|].
    apply (IH (String.length rest)); [|done]. subst n s. simpl. rewrite append_length. lia.
  - constructor; [done|]. apply (IH (String.length s)); [subst n; simpl; lia|done].
Qed.
