(* ===== verification/ZeroTag.v ===== *)
(** * The Zero-Tag policy

    [src/nevo/ai_gateway/compliance.py] with the terms of
    [domain/learner_profiles/vocabulary.py]: which texts name a diagnosis or a
    fixed learner type, and how such a text is rewritten. Texts are ASCII. *)

From Stdlib Require Import Ascii String.
From S2P Require Import Prelude Text Regex.

Local Open Scope string_scope.
Local Open Scope Z_scope.
Local Open Scope nevo_scope.

(** ** Terms *)

Definition PROHIBITED_SCHEMA_TERMS : list string :=
  ["adhd"; "autism"; "autistic"; "diagnosis"; "diagnostic"; "disability"; "disorder"; "dyslexia"; "dyslexic";
   "medical_condition"; "neuro_profile"; "neurodivergent"; "special_needs"].

Definition PROHIBITED_RESPONSE_TERMS : list string :=
  PROHIBITED_SCHEMA_TERMS ++
  ["clinical"; "diagnosed"; "diagnoses"; "impairment"; "pathology"; "patient"; "syndrome"; "treatment";
   "visual_learner"; "auditory_learner"; "kinesthetic_learner"; "kinaesthetic_learner"; "learning_style";
   "learning_styles"; "visual_spatial_preference"; "auditory_preference"; "reading_writing_preference";
   "interactive_kinesthetic_preference"; "processing_channel_preference"].

Definition underscore : ascii := "_".

(** [term.split("_")] *)
Fixpoint split_underscore (s : string) : list string :=
  match s with
  | "" => [""]
  | String c s' =>
    if c == underscore then "" :: split_underscore s'
    else match split_underscore s' with
         | part :: parts => String c part :: parts
         | [] => [String c ""]
         end
  end.

(** ** Their patterns

    [(?<!\w)part[\s_-]+part...(?!\w)] without regard to case. No part begins
    with a character of the class [\s_-], so taking as many of these as there
    are, as the greedy quantifier does first, loses no match. *)

(** [\w] *)
Definition is_word (c : ascii) : bool := is_alnum c || (c == underscore).
(** [[\s_-]] *)
Definition is_gap (c : ascii) : bool := is_space c || (c == underscore) || (c == "-"%char).

Definition word_before (prev : option ascii) : bool := match prev with Some c => is_word c | None => false end.
Definition word_ahead (s : string) : bool := match s with String c _ => is_word c | "" => false end.

(** What follows [p] at the start of [s]. *)
Fixpoint match_part (p s : string) : option string :=
  match p, s with
  | "", _ => Some s
  | String a p', String b s' => if lower_ascii a == lower_ascii b then match_part p' s' else None
  | String _ _, "" => None
  end.

Fixpoint skip_gap (s : string) : string :=
  match s with
  | String c s' => if is_gap c then skip_gap s' else s
  | "" => ""
  end.

Definition match_gap (s : string) : option string :=
  match s with
  | String c s' => if is_gap c then Some (skip_gap s') else None
  | "" => None
  end.

Fixpoint match_parts (ps : list string) (s : string) : option string :=
  match ps with
  | [] => Some s
  | [p] => match_part p s
  | p :: ps' => s ← match_part p s; s ← match_gap s; match_parts ps' s
  end.

(** The pattern of [term] at a place preceded by [prev]. *)
Definition match_term (term : string) (prev : option ascii) (s : string) : option string :=
  if word_before prev then None
  else
    rest ← match_parts (split_underscore term) s;
    if word_ahead rest then None else Some rest.

(** [pattern.search(s)] found something. *)
Fixpoint search (term : string) (prev : option ascii) (s : string) : bool :=
  is_some (match_term term prev s) ||
  match s with
  | String c s' => search term (Some c) s'
  | "" => false
  end.

Definition REPLACEMENT : string := "observable learning need".

(** [pattern.sub(REPLACEMENT, s)]: [skip] characters of the match that was
    replaced last are still to be passed. *)
Fixpoint sub_from (term : string) (skip : nat) (prev : option ascii) (s : string) : string :=
  match s with
  | "" => ""
  | String c s' =>
    match skip with
    | S k => sub_from term k (Some c) s'
    | O =>
      match match_term term prev s with
      | Some rest => REPLACEMENT ++ sub_from term (String.length s' - String.length rest) (Some c) s'
      | None => String c (sub_from term 0 (Some c) s')
      end
    end
  end.

Definition sub (term s : string) : string := sub_from term 0 None s.

(** ** The policy *)

Record ComplianceResult := mkComplianceResult { allowed : bool; violations : list string }.

Section Policy.
(** The keys of [_patterns], in the order of the set they come from. *)
Context (patterns : list string).

Definition inspect (text : string) : ComplianceResult :=
  let violations := filterb (λ term, search term None text) patterns in
  {| allowed := violations == []; violations := violations |}.

Definition sanitize (text : string) : string := foldl (λ s term, sub term s) text patterns.
End Policy.

Example zero_tag_examples :
  violations (inspect PROHIBITED_RESPONSE_TERMS "A Visual-Learner with ADHD; neuro__profile, treatments") =
    ["adhd"; "neuro_profile"; "visual_learner"] ∧
  sanitize PROHIBITED_RESPONSE_TERMS "Her ADHD is a special  needs matter (autism/autistic)." =
    "Her observable learning need is a observable learning need matter (observable learning need/observable learning need)." ∧
  sanitize PROHIBITED_RESPONSE_TERMS "outpatient _adhd disorderly" = "outpatient _adhd disorderly".
Proof. split_and!; vm_compute; reflexivity. Qed.

(** ** Characters *)

Lemma alnum_lower c : is_alnum (lower_ascii c) = is_alnum c.
Proof. by destruct c as [[] [] [] [] [] [] [] []]. Qed.

Lemma lower_alnum a b : lower_ascii a = lower_ascii b → is_alnum a = true → is_alnum b = true.
Proof. intros Heq Ha. by rewrite <- alnum_lower, <- Heq, alnum_lower. Qed.

Lemma alnum_word c : is_alnum c = true → is_word c = true.
Proof. intros Hc. unfold is_word. by rewrite Hc. Qed.

Lemma alnum_no_gap c : is_alnum c = true → is_gap c = false.
Proof. destruct c as [[] [] [] [] [] [] [] []]; try reflexivity; discriminate. Qed.

(** ** What a rewritten text looks like

    Its characters are kept or belong to replacements, each put where a word
    began and ended. A kept place is one the term [x] does not match at. *)

Inductive rewritten (x : string) : option ascii → string → string → Prop :=
| rewritten_end prev : rewritten x prev "" ""
| rewritten_keep prev c s o :
    match_term x prev (String c s) = None → rewritten x (Some c) s o →
    rewritten x prev (String c s) (String c o)
| rewritten_sub prev b t c rest o :
    word_before prev = false → is_gap b = false → is_word c = true →
    rewritten x (Some c) rest o → rewritten x prev (String b t) (REPLACEMENT ++ o).

(** A part of a term: letters, and not the beginning of the replacement. *)
Definition plain (p : string) : Prop :=
  p ≠ "" ∧ string_forall is_alnum p = true ∧ ∀ t, match_part p (REPLACEMENT ++ t) = None.

(** A term the policy can be enforced for: its parts are plain, and no place
    inside a replacement matches it. *)
Definition enforceable (x : string) : Prop :=
  split_underscore x ≠ [] ∧ Forall plain (split_underscore x) ∧
  ∀ o, match_parts (split_underscore x) (REPLACEMENT ++ o) = None ∧
    match_parts (split_underscore x) ("learning need" ++ o) = None ∧
    match_parts (split_underscore x) ("need" ++ o) = None.

Lemma search_on x prev c s : match_term x prev (String c s) = None → search x prev (String c s) = search x (Some c) s.
Proof. intros Hm. simpl. by rewrite Hm. Qed.

(** A place inside a word, or one whose text is not the term's. *)
Lemma no_match_in_word x c s : is_word c = true → match_term x (Some c) s = None.
Proof. intros Hc. unfold match_term. simpl. by rewrite Hc. Qed.

Lemma no_match_of_parts x prev s : match_parts (split_underscore x) s = None → match_term x prev s = None.
Proof. intros Hm. unfold match_term. rewrite Hm. by destruct (word_before prev). Qed.

(** On past the next character of a replacement. *)
Ltac search_on_by tac :=
  match goal with
  | |- search ?x ?p (String.append (String ?c ?s) ?o) = _ =>
    change (String.append (String c s) o) with (String c (String.append s o)); rewrite search_on by tac
  end.

Lemma search_replacement x prev o :
  enforceable x → search x prev (REPLACEMENT ++ o) = search x (Some "d"%char) o.
Proof.
  intros (Hne & Hp & Ho). destruct (Ho o) as (H1 & H2 & H3). unfold REPLACEMENT.
  search_on_by ltac:(by apply no_match_of_parts).
  do 9 search_on_by ltac:(by apply no_match_in_word).
  search_on_by ltac:(by apply no_match_in_word).
  search_on_by ltac:(by apply no_match_of_parts).
  do 7 search_on_by ltac:(by apply no_match_in_word).
  search_on_by ltac:(by apply no_match_in_word).
  search_on_by ltac:(by apply no_match_of_parts).
  do 3 search_on_by ltac:(by apply no_match_in_word).
  done.
Qed.

Section Rewritten.
Context (x : string).

(** A part matched in the rewritten text was matched in the text itself. *)
Lemma match_part_back p prev s o o' :
  rewritten x prev s o → match_part p o = Some o' → string_forall is_alnum p = true →
  word_before prev = true ∨ (∀ t, match_part p (REPLACEMENT ++ t) = None) →
  ∃ s' prev', match_part p s = Some s' ∧ rewritten x prev' s' o' ∧
    (p ≠ "" ∨ word_before prev = true → word_before prev' = true).
Proof.
  revert prev s o. induction p as [|a p IH]; intros prev s o Hr Hm Hp Hside.
  { injection Hm as <-. exists s, prev. split_and!; [done|done|]. by intros [|]. }
  apply andb_prop in Hp as [Ha Hp]. destruct Hr as [|prev c s o Hnone Hr|prev b t c rest o Hprev Hb Hc Hr].
  - discriminate Hm.
  - cbn [match_part] in Hm |- *. case_bool_decide as Hac; [|done].
    assert (is_word c = true) as Hc by (by eapply alnum_word, lower_alnum).
    destruct (IH (Some c) s o Hr Hm Hp ltac:(by left)) as (s' & prev' & Hs & Hr' & Hw).
    exists s', prev'. split_and!; [done|done|]. intros _. apply Hw. by right.
  - destruct Hside as [Hw|Hside]; [congruence|]. by rewrite Hside in Hm.
Qed.

Lemma skip_gap_back prev s o :
  rewritten x prev s o → ∃ prev', rewritten x prev' (skip_gap s) (skip_gap o).
Proof.
  induction 1 as [prev|prev c s o Hnone Hr IH|prev b t c rest o Hprev Hb Hc Hr IH].
  - exists prev. constructor.
  - simpl. destruct (is_gap c); [done|]. exists prev. by constructor.
  - simpl. rewrite Hb. exists prev. by econstructor.
Qed.

Lemma match_gap_back prev s o o' :
  rewritten x prev s o → match_gap o = Some o' → ∃ s' prev', match_gap s = Some s' ∧ rewritten x prev' s' o'.
Proof.
  destruct 1 as [prev|prev c s o Hnone Hr|prev b t c rest o Hprev Hb Hc Hr]; [done| |done].
  simpl. destruct (is_gap c); [|done]. intros [= <-]. apply skip_gap_back in Hr as [prev' Hr]. by exists (skip_gap s), prev'.
Qed.

Lemma match_parts_back ps prev s o o' :
  rewritten x prev s o → Forall plain ps → ps ≠ [] → match_parts ps o = Some o' →
  ∃ s' prev', match_parts ps s = Some s' ∧ rewritten x prev' s' o' ∧ word_before prev' = true.
Proof.
  revert prev s o. induction ps as [|p ps IH]; intros prev s o Hr Hps Hne Hm; [done|].
  apply Forall_cons in Hps as [(Hp0 & Hp & Hrep) Hps].
  assert (∀ o1, match_part p o = Some o1 → ∃ s' prev', match_part p s = Some s' ∧ rewritten x prev' s' o1 ∧
    word_before prev' = true) as Hpart.
  { intros o1 Ho1. destruct (match_part_back p prev s o o1 Hr Ho1 Hp ltac:(by right)) as (s' & prev' & ? & ? & Hw).
    exists s', prev'. split_and!; [done|done|]. apply Hw. by left. }
  destruct ps as [|p2 ps]; [by apply Hpart|].
  change (match_parts (p :: p2 :: ps) o) with
    (o1 ← match_part p o; o2 ← match_gap o1; match_parts (p2 :: ps) o2) in Hm.
  apply bind_Some in Hm as (o1 & Ho1 & Hm). apply bind_Some in Hm as (o2 & Ho2 & Hm).
  destruct (Hpart o1 Ho1) as (s1 & prev1 & Hs1 & Hr1 & _).
  destruct (match_gap_back prev1 s1 o1 o2 Hr1 Ho2) as (s2 & prev2 & Hs2 & Hr2).
  destruct (IH prev2 s2 o2 Hr2 Hps ltac:(done) Hm) as (s' & prev' & Hs' & Hr' & Hw).
  exists s', prev'. split_and!; [|done|done].
  change (match_parts (p :: p2 :: ps) s) with
    (o1 ← match_part p s; o2 ← match_gap o1; match_parts (p2 :: ps) o2).
  rewrite Hs1. cbn [mbind option_bind]. by rewrite Hs2.
Qed.

Lemma match_term_back prev s o :
  rewritten x prev s o → enforceable x → is_some (match_term x prev o) = true → is_some (match_term x prev s) = true.
Proof.
  intros Hr (Hne & Hplain & _). unfold match_term. destruct (word_before prev); [done|].
  destruct (match_parts _ o) as [o'|] eqn:Hm; [|done]. cbn [mbind option_bind].
  destruct (match_parts_back _ prev s o o' Hr Hplain Hne Hm) as (s' & prev' & -> & Hr' & Hw).
  destruct (word_ahead o') eqn:Ho'; [done|]. cbn [mbind option_bind]. destruct (word_ahead s') eqn:Hs'; [|done].
  destruct Hr' as [|prev' c s2 o2 _ Hr'|prev' b t c rest o2 _ _ _ Hr']; [done| |done]. simpl in *. congruence.
Qed.

Lemma search_prev prev prev' s : word_before prev = word_before prev' → search x prev s = search x prev' s.
Proof. intros Hw. destruct s; simpl; unfold match_term; by rewrite Hw. Qed.

(** The rewritten text has no place [x] matches at. *)
Lemma rewritten_clean prev s o : enforceable x → rewritten x prev s o → search x prev o = false.
Proof.
  intros Hx. induction 1 as [prev|prev c s o Hnone Hr IH|prev b t c rest o Hprev Hb Hc Hr IH].
  - assert (is_some (match_term x prev "") = false) as Hno.
    { unfold match_term. destruct (word_before prev); [done|]. destruct Hx as (Hne & Hplain & _).
      destruct (split_underscore x) as [|p [|p2 ps]]; [done| |];
        apply Forall_cons in Hplain as [(Hp & _) _]; by destruct p. }
    simpl. by rewrite Hno.
  - simpl. rewrite IH, orb_false_r. apply not_true_iff_false. intros Hm.
    apply (match_term_back prev (String c s)) in Hm; [by rewrite Hnone in Hm|by constructor|done].
  - rewrite search_replacement by exact Hx. rewrite (search_prev _ (Some c)); [done|]. simpl. by rewrite Hc.
Qed.
End Rewritten.

(** ** Substitution rewrites *)

(** [s'] is reached from [s], with [prev'] the character before it. *)
Inductive reached : option ascii → string → option ascii → string → Prop :=
| reached_here prev s : reached prev s prev s
| reached_on prev c s prev' s' : reached (Some c) s prev' s' → reached prev (String c s) prev' s'.

Lemma reached_trans prev s prev1 s1 prev2 s2 :
  reached prev s prev1 s1 → reached prev1 s1 prev2 s2 → reached prev s prev2 s2.
Proof. induction 1; [done|]. intros H2. constructor. auto. Qed.

Lemma reached_length prev s prev' s' : reached prev s prev' s' → (String.length s' <= String.length s)%nat.
Proof. induction 1; simpl; lia. Qed.

Lemma reached_search x prev s prev' s' : reached prev s prev' s' → search x prev s = false → search x prev' s' = false.
Proof. induction 1 as [|prev c s prev' s' _ IH]; [done|]. simpl. intros [_ H]%orb_false_iff. auto. Qed.

(** Passing the rest of a match. *)
Lemma sub_from_skip x prev s prev' s' :
  reached prev s prev' s' → sub_from x (String.length s - String.length s') prev s = sub_from x 0 prev' s'.
Proof.
  induction 1 as [prev s|prev c s prev' s' Hr IH]; [by rewrite Nat.sub_diag|].
  pose proof (reached_length _ _ _ _ Hr).
  replace (String.length (String c s) - String.length s')%nat with (S (String.length s - String.length s'))
    by (simpl; lia). exact IH.
Qed.

Lemma match_part_reached p s s' :
  match_part p s = Some s' → string_forall is_alnum p = true → p ≠ "" →
  ∃ b t c, s = String b t ∧ is_gap b = false ∧ is_word c = true ∧ reached (Some b) t (Some c) s'.
Proof.
  revert s. induction p as [|a p IH]; intros s Hm Hp Hne; [done|]. destruct s as [|b t]; [done|].
  cbn [match_part] in Hm. case_bool_decide as Hab; [|done]. apply andb_prop in Hp as [Ha Hp].
  assert (is_alnum b = true) as Hb by (by eapply lower_alnum). exists b, t.
  destruct (decide (p = "")) as [->|Hp0].
  - injection Hm as <-. exists b. split_and!; [done|by apply alnum_no_gap|by apply alnum_word|constructor].
  - destruct (IH t Hm Hp Hp0) as (b' & t' & c & -> & Hb' & Hc & Hr). exists c.
    split_and!; [done|by apply alnum_no_gap|done|by constructor].
Qed.

Lemma skip_gap_reached prev s : ∃ prev', reached prev s prev' (skip_gap s).
Proof.
  revert prev. induction s as [|c s IH]; intros prev; simpl; [exists prev; constructor|].
  destruct (is_gap c); [|exists prev; constructor]. destruct (IH (Some c)) as [prev' Hr]. exists prev'. by constructor.
Qed.

Lemma match_parts_reached ps s s' :
  Forall plain ps → ps ≠ [] → match_parts ps s = Some s' →
  ∃ b t c, s = String b t ∧ is_gap b = false ∧ is_word c = true ∧ reached (Some b) t (Some c) s'.
Proof.
  revert s. induction ps as [|p ps IH]; intros s Hps Hne Hm; [done|].
  apply Forall_cons in Hps as [(Hp0 & Hp & _) Hps]. destruct ps as [|p2 ps]; [by eapply match_part_reached|].
  change (match_parts (p :: p2 :: ps) s) with
    (o1 ← match_part p s; o2 ← match_gap o1; match_parts (p2 :: ps) o2) in Hm.
  apply bind_Some in Hm as (s1 & Hs1 & Hm). apply bind_Some in Hm as (s2 & Hs2 & Hm).
  destruct (match_part_reached p s s1 Hs1 Hp Hp0) as (b & t & c & -> & Hb & _ & Hr1).
  destruct s1 as [|g s1]; [done|]. simpl in Hs2. destruct (is_gap g); [|done]. injection Hs2 as <-.
  destruct (skip_gap_reached (Some g) s1) as [prev2 Hr2].
  destruct (IH (skip_gap s1) Hps ltac:(done) Hm) as (b' & t' & c' & Heq & _ & Hc' & Hr3).
  exists b, t, c'. split_and!; [done|done|done|].
  eapply reached_trans; [exact Hr1|]. constructor. eapply reached_trans; [exact Hr2|]. rewrite Heq. by constructor.
Qed.

(** A match replaced leads on to the text after it. *)
Lemma match_term_reached x prev s rest :
  enforceable x → match_term x prev s = Some rest →
  word_before prev = false ∧ ∃ b t c, s = String b t ∧ is_gap b = false ∧ is_word c = true ∧
    reached (Some b) t (Some c) rest.
Proof.
  intros (Hne & Hplain & _). unfold match_term. destruct (word_before prev); [done|].
  destruct (match_parts _ s) as [s'|] eqn:Hm; [|done]. cbn [mbind option_bind].
  destruct (word_ahead s'); [done|]. intros [= <-]. split; [done|]. by eapply match_parts_reached.
Qed.

(** What [sub] makes of a text is the text rewritten, for its own term and for
    every term that matched nowhere before. *)
Lemma sub_from_rewritten x term prev s :
  enforceable term → x = term ∨ search x prev s = false → rewritten x prev s (sub_from term 0 prev s).
Proof.
  intros Ht. remember (String.length s) as n eqn:Hn. revert prev s Hn.
  induction (lt_wf n) as [n _ IH]. intros prev s -> Hx. destruct s as [|b t]; [constructor|].
  cbn [sub_from]. destruct (match_term term prev (String b t)) as [rest|] eqn:Hm.
  - destruct (match_term_reached _ _ _ _ Ht Hm) as (Hprev & b' & t' & c & [= <- <-] & Hb & Hc & Hr).
    rewrite (sub_from_skip _ _ _ _ _ Hr). econstructor; [done|done|exact Hc|].
    pose proof (reached_length _ _ _ _ Hr). eapply IH; [|done|]; [simpl; lia|].
    destruct Hx as [->|Hx]; [by left|right]. simpl in Hx. apply orb_false_iff in Hx as [_ Hx].
    by eapply reached_search.
  - constructor.
    + destruct Hx as [->|Hx]; [done|]. simpl in Hx. apply orb_false_iff in Hx as [Hx _].
      destruct (match_term x prev (String b t)); done.
    + eapply IH; [|done|]; [simpl; lia|]. destruct Hx as [->|Hx]; [by left|right].
      simpl in Hx. by apply orb_false_iff in Hx as [_ Hx].
Qed.

Lemma sub_clean x term s :
  enforceable term → enforceable x → x = term ∨ search x None s = false → search x None (sub term s) = false.
Proof. intros Ht Hx Hs. eapply rewritten_clean; [exact Hx|]. by apply sub_from_rewritten. Qed.

(** A term that matches nowhere is not replaced. *)
Lemma sub_from_idle term prev s : search term prev s = false → sub_from term 0 prev s = s.
Proof.
  revert prev. induction s as [|b t IH]; intros prev Hs; [done|]. simpl in Hs. apply orb_false_iff in Hs as [Hm Hs].
  simpl. destruct (match_term term prev (String b t)); [done|]. by rewrite IH.
Qed.

(** ** The terms of the policy *)

Lemma terms_enforceable : Forall enforceable PROHIBITED_RESPONSE_TERMS.
Proof.
  unfold PROHIBITED_RESPONSE_TERMS, PROHIBITED_SCHEMA_TERMS. cbn [app].
  repeat apply Forall_cons_2; try apply Forall_nil_2.
  all: split; [discriminate|split].
  all: try (intros o; split; [|split]; vm_compute; reflexivity).
  all: match goal with |- Forall plain ?l => let l' := eval vm_compute in l in change (Forall plain l') end.
  all: repeat apply Forall_cons_2; try apply Forall_nil_2.
  all: split; [discriminate|split; [vm_compute; reflexivity|intros t; vm_compute; reflexivity]].
Qed.

(** The order of the patterns does not matter for what is left. *)
Lemma sanitize_clean patterns x s :
  Forall enforceable patterns → enforceable x → x ∈ patterns ∨ search x None s = false →
  search x None (foldl (λ s term, sub term s) s patterns) = false.
Proof.
  revert s. induction patterns as [|term patterns IH]; intros s Hp Hx Hs; simpl.
  { destruct Hs as [Hs|]; [set_solver|done]. }
  apply Forall_cons in Hp as [Ht Hp]. apply IH; [done|done|].
  destruct Hs as [[->|Hs]%elem_of_cons|Hs]; [|by left|]; right; apply sub_clean; auto.
Qed.

Lemma inspect_allowed patterns s :
  allowed (inspect patterns s) = true ↔ ∀ x, x ∈ patterns → search x None s = false.
Proof.
  unfold inspect. cbn [allowed]. rewrite bool_decide_eq_true. split.
  - intros Hv x Hx. apply not_true_iff_false. intros Hs.
    assert (x ∈ filterb (λ term, search term None s) patterns) as Hin by (by apply elem_of_filterb).
    rewrite Hv in Hin. set_solver.
  - apply filterb_nil.
Qed.

Lemma patterns_enforceable patterns : patterns ≡ₚ PROHIBITED_RESPONSE_TERMS → Forall enforceable patterns.
Proof. intros Hp. rewrite Hp. apply terms_enforceable. Qed.

Lemma sanitized_allowed patterns text :
  patterns ≡ₚ PROHIBITED_RESPONSE_TERMS → allowed (inspect patterns (sanitize patterns text)) = true.
Proof.
  intros Hp%patterns_enforceable. apply inspect_allowed. intros x Hx.
  apply sanitize_clean; [done| |by left]. rewrite Forall_forall in Hp. auto.
Qed.

(** A sanitized text passes the policy. In whatever order the terms are replaced, no
    prohibited term is left in the text, none comes up anew out of the replacements and what
    surrounds them, and a text that passes already is returned as it was. *)
Theorem sanitized_text_is_allowed patterns text :
  patterns ≡ₚ PROHIBITED_RESPONSE_TERMS →
  allowed (inspect patterns (sanitize patterns text)) = true ∧
  violations (inspect patterns (sanitize patterns text)) = [] ∧
  (allowed (inspect patterns text) = true → sanitize patterns text = text).
Proof.
  intros Hp. pose proof (sanitized_allowed patterns text Hp) as Ha. split_and!; [done| |].
  - unfold inspect in *. cbn [allowed violations] in *. by bool_to_prop.
  - rewrite inspect_allowed. unfold sanitize. clear Ha Hp. induction patterns as [|x patterns IH]; [done|].
    intros Hs. simpl. unfold sub at 2. rewrite sub_from_idle by (apply Hs; set_solver). apply IH. set_solver.
Qed.

(** ** The patterns, declaratively

    The matcher above takes gaps greedily and never goes back; that it finds
    exactly the occurrences of a term is a property of the terms. *)

(** A text in which the parts stand in order, in any case, gaps between them. *)
Inductive occurs : list string → string → Prop :=
| occurs_last p t : casefold p = casefold t → occurs [p] t
| occurs_more p ps t g rest :
    casefold p = casefold t → g ≠ "" → string_forall is_gap g = true → occurs ps rest →
    occurs (p :: ps) (t ++ (g ++ rest)).

Lemma match_part_spec p s r : match_part p s = Some r ↔ ∃ t, s = t ++ r ∧ casefold p = casefold t.
Proof.
  revert s. induction p as [|a p IH]; intros s.
  - split; [intros [= <-]; by exists ""|]. intros (t & -> & Ht). by destruct t.
  - destruct s as [|b s]; cbn [match_part]; [split; [done|]; intros (t & Hs & Ht); by destruct t|].
    split.
    + case_bool_decide as Hab; [|done]. intros (t & -> & Ht)%IH. exists (String b t). split; [done|].
      unfold casefold in *. simpl. by rewrite Hab, Ht.
    + intros (t & Hs & Ht). destruct t as [|b' t]; [done|]. injection Hs as <- ->.
      injection Ht as Hab Ht. rewrite bool_decide_true by done. apply IH. by exists t.
Qed.

Lemma skip_gap_split s : ∃ g, s = g ++ skip_gap s ∧ string_forall is_gap g = true.
Proof.
  induction s as [|c s (g & Hs & Hg)]; [by exists ""|]. simpl. destruct (is_gap c) eqn:Hc; [|by exists ""].
  exists (String c g). split; [exact (f_equal (String c) Hs)|]. simpl. by rewrite Hc.
Qed.

Lemma skip_gap_all g s : string_forall is_gap g = true → skip_gap (g ++ s) = skip_gap s.
Proof.
  induction g as [|c g IH]; [done|]. intros [Hc Hg]%andb_prop.
  change (skip_gap (String c (g ++ s)) = skip_gap s). simpl. rewrite Hc. auto.
Qed.

(** An occurrence of plain parts begins with a letter, so no gap. *)
Lemma occurs_no_gap ps t r :
  Forall plain ps → occurs ps t → skip_gap (t ++ r) = t ++ r.
Proof.
  intros Hps Ho. assert (∃ c t', t = String c t' ∧ is_alnum c = true) as (c & t' & -> & Hc).
  { assert (∀ p u, plain p → casefold p = casefold u → ∃ c t', u = String c t' ∧ is_alnum c = true) as Hp.
    { intros p u (Hp0 & Hp & _) Hc. destruct p as [|a p], u as [|b u]; try done. injection Hc as Hab _.
      apply andb_prop in Hp as [Ha _]. exists b, u. split; [done|]. exact (lower_alnum a b Hab Ha). }
    destruct Ho as [p t Ht|p ps t g rest Ht _ _ _]; apply Forall_cons in Hps as [Hpl _];
      destruct (Hp p t Hpl Ht) as (c & t' & -> & Hc); exists c; eexists; (split; [reflexivity|done]). }
  change (skip_gap (String c (t' ++ r)) = String c (t' ++ r)). simpl. by rewrite alnum_no_gap.
Qed.

Lemma match_parts_spec ps s r :
  Forall plain ps → ps ≠ [] → match_parts ps s = Some r ↔ ∃ t, s = t ++ r ∧ occurs ps t.
Proof.
  revert s. induction ps as [|p ps IH]; intros s Hps Hne; [done|]. apply Forall_cons in Hps as [Hp Hps].
  destruct ps as [|p2 ps].
  { change (match_parts [p] s) with (match_part p s). rewrite match_part_spec. split.
    - intros (t & -> & Ht). exists t. split; [done|by constructor].
    - intros (t & -> & Ho). exists t. split; [done|].
      inversion Ho as [|? ? ? ? ? ? ? ? Hnil]; subst; [done|inversion Hnil]. }
  change (match_parts (p :: p2 :: ps) s) with (o1 ← match_part p s; o2 ← match_gap o1; match_parts (p2 :: ps) o2).
  rewrite bind_Some. setoid_rewrite bind_Some. split.
  - intros (s1 & (t & -> & Ht)%match_part_spec & s2 & Hg & (u & -> & Hu)%IH); [|done|done].
    destruct s1 as [|c s1]; [done|]. simpl in Hg. destruct (is_gap c) eqn:Hc; [|done]. injection Hg as Hg.
    destruct (skip_gap_split s1) as (g & Hs1 & Hgg). rewrite Hg in Hs1.
    exists (t ++ (String c g ++ u)). split.
    + rewrite append_assoc. f_equal. change (String c s1 = String c ((g ++ u) ++ r)). f_equal.
      by rewrite append_assoc.
    + constructor; [done|done| |done]. simpl. by rewrite Hc.
  - intros (t & -> & Ho). inversion Ho as [|p' ps' t0 g rest Ht Hg0 Hg Hrest]; subst.
    exists (g ++ (rest ++ r)). split.
    { apply match_part_spec. exists t0. split; [|done]. by rewrite !append_assoc. }
    exists (rest ++ r). split; [|apply IH; [done|done|by exists rest]].
    destruct g as [|c g]; [done|]. apply andb_prop in Hg as [Hc Hg].
    change ((if is_gap c then Some (skip_gap (g ++ (rest ++ r))) else None) = Some (rest ++ r)).
    rewrite Hc, skip_gap_all by done. f_equal. by apply occurs_no_gap with (ps := p2 :: ps).
Qed.

Lemma search_spec x prev s :
  search x prev s = true ↔ ∃ before s', s = before ++ s' ∧ is_some (match_term x (last_char prev before) s') = true.
Proof.
  revert prev. induction s as [|c s IH]; intros prev; cbn [search]; rewrite orb_true_iff.
  - split.
    + intros [Hm|]; [|done]. by exists "", "".
    + intros (b & s' & Hs & Hm). destruct b; [|done]. change ("" = s') in Hs. subst s'. by left.
  - rewrite IH. split.
    + intros [Hm|(b & s' & -> & Hm)]; [by exists "", (String c s)|]. by exists (String c b), s'.
    + intros (b & s' & Hs & Hm). destruct b as [|c' b].
      * left. change (String c s = s') in Hs. by subst.
      * right. injection Hs as <- Hs. by exists b, s'.
Qed.

(** C14: what it takes to be refused. A text is refused exactly when an occurrence of one of
    the terms stands in it, with no letter, digit or underscore before it or after it. *)
Theorem refused_text_names_a_term patterns text :
  patterns ≡ₚ PROHIBITED_RESPONSE_TERMS →
  allowed (inspect patterns text) = false ↔
  ∃ x before t after, x ∈ PROHIBITED_RESPONSE_TERMS ∧ text = before ++ (t ++ after) ∧
    occurs (split_underscore x) t ∧ word_before (last_char None before) = false ∧ word_ahead after = false.
Proof.
  intros Hp. rewrite <- not_true_iff_false, inspect_allowed. split.
  - intros Hno. destruct (decide (Exists (λ x, search x None text = true) patterns)) as [He|He].
    + apply Exists_exists in He as (x & Hx & (before & s & -> & Hm)%search_spec).
      rewrite Hp in Hx. pose proof (proj1 (Forall_forall _ _) terms_enforceable x Hx) as (Hne & Hpl & _).
      unfold match_term in Hm. destruct (word_before _) eqn:Hw; [done|].
      destruct (match_parts _ s) as [rest|] eqn:Hs; [|done]. cbn [mbind option_bind] in Hm.
      destruct (word_ahead rest) eqn:Ha; [done|]. apply match_parts_spec in Hs as (t & -> & Ho); [|done|done].
      by exists x, before, t, rest.
    + exfalso. apply Hno. intros x Hx. apply not_true_iff_false. intros Hs. apply He, Exists_exists. by exists x.
  - intros (x & before & t & after & Hx & -> & Ho & Hw & Ha) Hall.
    pose proof (proj1 (Forall_forall _ _) terms_enforceable x Hx) as (Hne & Hpl & _).
    rewrite <- Hp in Hx. specialize (Hall x Hx). apply not_true_iff_false in Hall. apply Hall, search_spec.
    exists before, (t ++ after). split; [done|]. unfold match_term. rewrite Hw.
    assert (match_parts (split_underscore x) (t ++ after) = Some after) as -> by
      (apply match_parts_spec; [done|done|by exists t]).
    cbn [mbind option_bind]. by rewrite Ha.
Qed.

(** ** At concrete texts *)

Lemma sanitized_text_is_allowed_witness :
  allowed (inspect (rev PROHIBITED_RESPONSE_TERMS) (sanitize (rev PROHIBITED_RESPONSE_TERMS) "Has ADHD, special-needs.")) = true ∧
  sanitize (rev PROHIBITED_RESPONSE_TERMS) "Has ADHD." = "Has observable learning need.".
Proof.
  assert (rev PROHIBITED_RESPONSE_TERMS ≡ₚ PROHIBITED_RESPONSE_TERMS) as Hp by (symmetry; apply Permutation_rev).
  split; [|vm_compute; reflexivity].
  exact (proj1 (sanitized_text_is_allowed (rev PROHIBITED_RESPONSE_TERMS) "Has ADHD, special-needs." Hp)).
Defined.

Lemma refused_text_names_a_term_witness :
  ∃ x before t after, x ∈ PROHIBITED_RESPONSE_TERMS ∧ "An autistic learner" = before ++ (t ++ after) ∧
    occurs (split_underscore x) t ∧ word_before (last_char None before) = false ∧ word_ahead after = false.
Proof.
  apply (proj1 (refused_text_names_a_term PROHIBITED_RESPONSE_TERMS "An autistic learner" (Permutation_refl _))).
  vm_compute. reflexivity.
Defined.
