(* ===== verification/Privacy.v ===== *)
(** * What a provider is not told

    [src/nevo/ai_gateway/privacy.py]: contacts, credentials and names are
    struck out of a text before it leaves, each person keeping a stand-in; the
    characters of a lesson are masked and put back. Texts are ASCII, so the
    typographic apostrophe of a name is not among its characters here. *)

From Stdlib Require Import Ascii String.
From stdpp Require Import gmap.
From S2P Require Import Prelude Relational Text Vocabulary Schema Fixtures Crypto Regex.

Local Open Scope string_scope.
Local Open Scope Z_scope.
Local Open Scope nevo_scope.

(** ** Patterns *)

Definition is_alpha (c : ascii) : bool := is_alnum c && negb (is_digit c).
Definition one_of (s : string) (c : ascii) : bool := bool_decide (c ∈ list_ascii_of_string s).

(** A literal, in any case. *)
Definition same_letter (a b : ascii) : bool := lower_ascii a == lower_ascii b.
Fixpoint literal (s : string) : Re :=
  match s with "" => Eps | String c s' => Cat (Chr (same_letter c)) (literal s') end.
Fixpoint alternatives (terms : list string) : Re :=
  match terms with
  | [] => Chr (λ _, false)
  | [t] => literal t
  | t :: ts => Or (literal t) (alternatives ts)
  end.

Definition EMAIL_PATTERN : Re :=
  Cat Boundary (Cat (Rep (λ c, is_alnum c || one_of "._%+-" c) 1 None) (Cat (literal "@")
    (Cat (Rep (λ c, is_alnum c || one_of ".-" c) 1 None) (Cat (literal ".") (Cat (Rep is_alpha 2 None) Boundary))))).

Definition PHONE_PATTERN : Re :=
  Cat (NotBehind word_char) (Cat (Rep (one_of "+") 0 (Some 1%nat)) (Cat (Chr is_digit)
    (Cat (Rep (λ c, is_digit c || one_of " ()-" c) 7 None) (Cat (Chr is_digit) (NotAhead word_char))))).

(** [\s*[:=]\s*] *)
Definition labelled_by (rest : Re) : Re :=
  Cat (Rep is_space 0 None) (Cat (Chr (one_of ":=")) (Cat (Rep is_space 0 None) rest)).

Definition CREDENTIAL_PATTERN : Re :=
  let gap := Rep (one_of "_ -") 0 (Some 1%nat) in
  Cat Boundary (Cat (Group (Or (literal "password") (Or (literal "passcode") (Or (literal "pin")
      (Or (Cat (literal "api") (Cat gap (literal "key"))) (Or (Cat (literal "access") (Cat gap (literal "token")))
      (Cat (literal "refresh") (Cat gap (literal "token")))))))))
    (Cat Boundary (labelled_by (Rep (λ c, negb (is_space c || one_of ",;" c)) 1 None)))).

(** The second group is not used. *)
Definition newline : ascii := ascii_of_nat 10.
Definition LABELLED_IDENTIFIER_PATTERN : Re :=
  Cat Boundary (Cat (Group (alternatives ["student"; "teacher"; "parent"; "guardian"; "school"; "name"; "age"]))
    (labelled_by (Rep (λ c, negb ((c == newline) || one_of ",;." c)) 1 (Some 60%nat)))).

Definition SENSITIVE_KEYS : list string :=
  ["email"; "first_name"; "firstname"; "last_name"; "lastname"; "full_name"; "student_name"; "teacher_name";
   "school_name"; "age"; "date_of_birth"; "dob"; "password"; "pin"; "credential"; "token"].

(** Terms as whole words, the longest tried first. *)
Definition longest_first (terms : list string) : list string :=
  order_by (λ a b, (String.length b <=? String.length a)%nat) terms.
Definition whole_words (terms : list string) : Re :=
  Cat (NotBehind word_char) (Cat (alternatives (longest_first terms)) (NotAhead word_char)).

(** ** A text *)

(** [d[key] = value] *)
Fixpoint dict_put (key value : string) (d : list (string * string)) : list (string * string) :=
  match d with
  | [] => [(key, value)]
  | (k, v) :: d' => if k == key then (k, value) :: d' else (k, v) :: dict_put key value d'
  end.
Fixpoint dict_get (key : string) (d : list (string * string)) : option string :=
  match d with [] => None | (k, v) :: d' => if k == key then Some v else dict_get key d' end.

Definition sensitive_names := list (string * string).

Definition replacements_of (sensitive_terms : sensitive_names) : list (string * string) :=
  foldl (λ d '(term, replacement),
    if (3 <=? String.length (strip term))%nat then dict_put (casefold (strip term)) replacement d else d)
    [] sensitive_terms.

Definition group_text (g : option string) : string := default "None" g.

(** The patterns that need no names. *)
Definition scrub (pseudonym value : string) : string :=
  let value := sub EMAIL_PATTERN (λ _ _, "[email removed]") value in
  let value := sub PHONE_PATTERN (λ _ _, "[contact removed]") value in
  let value := sub CREDENTIAL_PATTERN (λ _ g, group_text g ++ ": [removed]") value in
  sub LABELLED_IDENTIFIER_PATTERN (λ _ g, group_text g ++ ": " ++ pseudonym) value.

Definition stand_in (replacements : list (string * string)) (pseudonym matched : string) : string :=
  default pseudonym (dict_get (casefold matched) replacements).

Definition sanitize_text (value pseudonym : string) (sensitive_terms : sensitive_names) : string :=
  let value := scrub pseudonym value in
  let replacements := replacements_of sensitive_terms in
  if replacements == [] then value
  else sub (whole_words (map fst replacements)) (λ matched _, stand_in replacements pseudonym matched) value.

Example sanitize_text_example :
  sanitize_text "Ada Obi (ada@x.org, +234 801 234 567) told Ada: password = hunter2; name: Bisi Ola, ok. Adamant."
    "Learner-0" [("Ada", "Learner-1"); ("Ada Obi", "Learner-1"); ("ok", "no")]
  = "Learner-1 ([email removed], [contact removed]) told Learner-1: password: [removed]; name: Learner-0, ok. Adamant.".
Proof. vm_compute. reflexivity. Qed.

(** [subject_id.bytes], most significant first. *)
Fixpoint bytes_of (width : nat) (n : Z) : string :=
  match width with
  | O => ""
  | S w => bytes_of w (n / 256) ++ String (ascii_of_nat (Z.to_nat (n mod 256))) ""
  end.

(** ** The variables of a prompt *)

(** [s.replace("-", "_")] *)
Definition dashes_to_underscores : string → string := string_map (λ c, if c == "-"%char then "_"%char else c).

Fixpoint contains (part s : string) : bool :=
  String.prefix part s || match s with String _ s' => contains part s' | "" => false end.
Definition ends_with (part s : string) : bool :=
  (String.length part <=? String.length s)%nat &&
  (String.substring (String.length s - String.length part) (String.length part) s == part).

Section Pseudonym.
Context `{!Crypto}.

Definition pseudonym (subject_id : uuid) : string :=
  "Learner-" ++ upper (take_string 10 (sha256_hex (bytes_of 16 subject_id))).

Definition sanitize_variable (pseudonym : string) (sensitive_terms : sensitive_names) (key value : string) : string :=
  let normalized := dashes_to_underscores (casefold key) in
  if bool_decide (normalized ∈ SENSITIVE_KEYS) ||
     existsb (λ marker, contains marker normalized) ["email"; "password"; "credential"; "api_key"; "token"]
  then pseudonym
  else if ends_with "_name" normalized || String.prefix "name_" normalized then pseudonym
  else if bool_decide (normalized ∈ ["age_band"; "year_group"]) then value
  else sanitize_text value pseudonym sensitive_terms.

Definition sanitize_variables (variables : gmap string string) (requester_user_id : uuid) (student_id : option uuid)
    (sensitive_terms : sensitive_names) : gmap string string :=
  let pseudonym := pseudonym (default requester_user_id student_id) in
  map_imap (λ key value, Some (sanitize_variable pseudonym sensitive_terms key value)) variables.
End Pseudonym.

(** ** The characters of a lesson *)

Definition uuid_hex (u : uuid) : string := hex_of 32 u.

Definition name_char (c : ascii) : bool := is_alpha c || one_of " '-" c.

(** The names to mask: those of learners, as words could spell them. *)
Definition character_names (sensitive_terms : sensitive_names) : list string :=
  remove_dups (omap (λ '(term, replacement),
    let name := strip term in
    if String.prefix "Learner-" replacement && (3 <=? String.length name)%nat && string_forall name_char name
    then Some name else None) sensitive_terms).

(** The names met so far, each with its alias. *)
Definition aliases := list (string * string).

(** [pattern.sub(mask, clean)] *)
Fixpoint mask_pieces (known : aliases) (ps : list piece) : M (string * aliases) :=
  match ps with
  | [] => mret ("", known)
  | Keep c :: ps' =>
    '(rest, known) ← mask_pieces known ps';
    mret (String c rest, known)
  | Found original _ :: ps' =>
    '(alias, known) ← match dict_get original known with
                      | Some alias => mret (alias, known)
                      | None => i ← uuid4; let alias := "LessonCharacter" ++ uuid_hex i in
                                mret (alias, dict_put original alias known)
                      end;
    '(rest, known) ← mask_pieces known ps';
    mret (alias ++ rest, known)
  end.

(** [for key in material_keys & variables.keys()], in whatever order *)
Section MaskVariables.
Context (variables : gmap string string) (pattern : Re) (pseudonym : string).

Fixpoint mask_variables (keys : list string) (prepared : gmap string string) (known : aliases)
  : M (gmap string string * aliases) :=
  match keys with
  | [] => mret (prepared, known)
  | key :: keys' =>
    match variables !! key with
    | None => mask_variables keys' prepared known
    | Some value =>
      '(masked, known) ← mask_pieces known (cut pattern (sanitize_text value pseudonym []));
      mask_variables keys' (<[key := masked]> prepared) known
    end
  end.
End MaskVariables.

(** Returns the aliases as pairs of a name and its alias. *)
Definition mask_lesson_characters (variables : gmap string string) (material_keys : list string)
    (pseudonym : string) (sensitive_terms : sensitive_names) : M (gmap string string * aliases) :=
  let names := character_names sensitive_terms in
  if names == [] then mret (variables, [])
  else mask_variables variables (whole_words names) pseudonym material_keys variables [].

(** [text.replace(old, new)] for an [old] that is not empty *)
Fixpoint replace_from (skip : nat) (old new s : string) : string :=
  match s with
  | "" => ""
  | String c s' =>
    match skip with
    | S skip' => replace_from skip' old new s'
    | O => if String.prefix old s then new ++ replace_from (String.length old - 1) old new s'
           else String c (replace_from 0 old new s')
    end
  end.
Definition replace (old new s : string) : string := replace_from 0 old new s.

(** [for alias, original in lesson_characters.items(): text = text.replace(alias, original)] *)
Definition restore_characters (known : aliases) (text : string) : string :=
  foldl (λ text '(original, alias), replace alias original text) text known.

(** * What is left of a text, and what comes back

    No name stays in a sanitised text outside the stand-ins, and the characters
    of a lesson are put back as they were. *)

(** ** Names *)

Lemma lower_idem c : lower_ascii (lower_ascii c) = lower_ascii c.
Proof. by destruct c as [[] [] [] [] [] [] [] []]. Qed.

Lemma casefold_cons c s : casefold (String c s) = String (lower_ascii c) (casefold s).
Proof. done. Qed.

Lemma casefold_idem s : casefold (casefold s) = casefold s.
Proof. induction s as [|c s IH]; [done|]. by rewrite !casefold_cons, lower_idem, IH. Qed.

Lemma literal_matches w t prev s g :
  casefold w = casefold t → matches (literal w) prev (t ++ s) g (last_char prev t) s g.
Proof.
  revert t prev. induction w as [|a w IH]; intros [|b t] prev Heq; try discriminate Heq; [constructor|].
  rewrite !casefold_cons in Heq. injection Heq as Hab Heq. rewrite append_cons. cbn [literal last_char].
  econstructor; [|by apply IH]. constructor. unfold same_letter. by rewrite Hab, bool_decide_eq_true_2.
Qed.

Lemma alternatives_matches w ws prev s g prev' s' g' :
  w ∈ ws → matches (literal w) prev s g prev' s' g' → matches (alternatives ws) prev s g prev' s' g'.
Proof.
  intros Hw Hm. induction ws as [|v ws IH]; [set_solver|]. apply elem_of_cons in Hw as [->|Hw].
  - simpl. destruct ws; [done|]. by apply matches_left.
  - destruct ws as [|u ws]; [set_solver|]. cbn [alternatives]. apply matches_right, IH, Hw.
Qed.

Lemma whole_words_match ws w t prev s :
  w ∈ ws → casefold w = casefold t → before word_char prev = false → ahead word_char s = false →
  matches (whole_words ws) prev (t ++ s) None (last_char prev t) s None.
Proof.
  intros Hw Ht Hprev Hs. econstructor; [by constructor|]. econstructor; [|by constructor].
  eapply alternatives_matches; [|by apply literal_matches]. by apply elem_of_order_by.
Qed.

Lemma literal_consumes w : w ≠ "" → consumes (literal w) = true.
Proof. by destruct w. Qed.

Lemma alternatives_consumes ws : (∀ w, w ∈ ws → w ≠ "") → consumes (alternatives ws) = true.
Proof.
  induction ws as [|w ws IH]; intros Hws; [done|].
  pose proof (literal_consumes w ltac:(apply Hws; left)) as Hw. destruct ws as [|v ws]; [done|].
  cbn [alternatives consumes]. rewrite Hw. apply IH. set_solver.
Qed.

Lemma whole_words_consumes ws : (∀ w, w ∈ ws → w ≠ "") → consumes (whole_words ws) = true.
Proof.
  intros Hws. cbn [whole_words consumes]. rewrite alternatives_consumes; [done|].
  intros w Hw. apply Hws. by apply elem_of_order_by in Hw.
Qed.

(** ** Dictionaries *)

Lemma dict_get_put k v d k' : dict_get k' (dict_put k v d) = if k == k' then Some v else dict_get k' d.
Proof.
  induction d as [|[k1 v1] d IH]; simpl; [done|].
  destruct (decide (k1 = k)) as [->|Hk].
  - rewrite (bool_decide_eq_true_2 (k = k) eq_refl). simpl. by case_bool_decide.
  - rewrite (bool_decide_eq_false_2 _ Hk). simpl. rewrite IH.
    repeat case_bool_decide; congruence.
Qed.

Lemma dict_keys k d : k ∈ map fst d ↔ is_some (dict_get k d) = true.
Proof.
  induction d as [|[k1 v1] d IH]; simpl; [set_solver|]. rewrite elem_of_cons, IH.
  case_bool_decide as Hk; naive_solver.
Qed.

Lemma replacements_of_get terms k :
  (is_some (dict_get k (replacements_of terms)) = true ↔
     ∃ term r, (term, r) ∈ terms ∧ (3 <= String.length (strip term))%nat ∧ casefold (strip term) = k) ∧
  ∀ r, dict_get k (replacements_of terms) = Some r → ∃ term, (term, r) ∈ terms ∧ casefold (strip term) = k.
Proof.
  unfold replacements_of. induction terms as [|[term r] terms IH] using rev_ind.
  { simpl. split; [|done]. split; [done|]. intros (? & ? & ? & _). set_solver. }
  rewrite foldl_app. cbn [foldl]. destruct IH as [IHk IHr].
  destruct (Nat.leb_spec 3 (String.length (strip term))) as [Hlen|Hlen].
  - rewrite dict_get_put. case_bool_decide as Hk.
    + split; [|intros r' [= <-]; exists term; set_solver]. split; [|done]. intros _. exists term, r. set_solver.
    + rewrite IHk. split; [|intros r' Hr; destruct (IHr r' Hr) as (t & Ht & Hc); exists t; set_solver].
      split; intros (t & r' & Ht & Hl & Hc); exists t, r'; set_solver.
  - rewrite IHk. split; [|intros r' Hr; destruct (IHr r' Hr) as (t & Ht & Hc); exists t; set_solver].
    split; intros (t & r' & Ht & Hl & Hc); exists t, r'; split_and!; try done; [set_solver|].
    apply elem_of_app in Ht as [Ht|Ht]; [done|]. apply list_elem_of_singleton in Ht. injection Ht as -> ->. lia.
Qed.

(** ** Kept text *)

Definition keep_all (s : string) : list piece := map Keep (list_ascii_of_string s).

(** A stand-in that is a word, or words, as it stands. *)
Definition wordy (s : string) : Prop := ahead word_char s = true ∧ before word_char (last_char None s) = true.

Lemma wordy_last s prev : wordy s → before word_char (last_char prev s) = true.
Proof. intros [Hs Hl]. destruct s as [|c s]; [done|]. exact Hl. Qed.

(** What was found is a word of the list. *)
Lemma literal_found w prev s g prev' s' g' :
  matches (literal w) prev s g prev' s' g' → ∃ t, s = t ++ s' ∧ casefold w = casefold t.
Proof.
  revert prev s g. induction w as [|a w IH]; intros prev s g Hm; inversion Hm; subst.
  - by exists "".
  - match goal with H : matches (Chr _) _ _ _ _ _ _ |- _ => inversion H; subst end.
    match goal with H : matches (literal w) _ _ _ _ _ _ |- _ => apply IH in H as (t & -> & Ht) end.
    exists (String c t). split; [done|]. rewrite !casefold_cons, Ht. f_equal.
    match goal with H : same_letter _ _ = true |- _ => by apply bool_decide_eq_true in H end.
Qed.

Lemma alternatives_found ws prev s g prev' s' g' :
  matches (alternatives ws) prev s g prev' s' g' → ∃ w t, w ∈ ws ∧ s = t ++ s' ∧ casefold w = casefold t.
Proof.
  induction ws as [|w [|v l] IH]; intros Hm.
  - inversion Hm. done.
  - apply literal_found in Hm as (t & -> & Ht). exists w, t. set_solver.
  - change (alternatives (w :: v :: l)) with (Or (literal w) (alternatives (v :: l))) in Hm.
    inversion Hm; subst; clear Hm.
    + match goal with H : matches (literal w) _ _ _ _ _ _ |- _ => apply literal_found in H as (t & Hs & Ht) end.
      exists w, t. split_and!; [left|done|done].
    + match goal with H : matches _ _ _ _ _ _ _ |- _ => apply IH in H as (u & t & Hu & Hrest) end.
      exists u, t. split; [by right|done].
Qed.
Section Kept.
Context (ws : list string) (f : string → option string → string).
Hypothesis (Hws : ∀ w, w ∈ ws → w ≠ "").

Abbreviation r := (whole_words ws).

(** Every match of a text is rendered as a word. *)
Definition rendered_wordy (ps : list piece) : Prop := ∀ t g, Found t g ∈ ps → wordy (f t g).

(** The place in the text that the rest of its pieces belongs to: what stands
    before it there is what stands before it as rendered, or a stand-in does. *)
Definition aligned (prev out : option ascii) : Prop := prev = out ∨ before word_char out = true.

Lemma divided_skip ps1 ps2 prev out s :
  divided r prev s (ps1 ++ ps2) → rendered_wordy ps1 → aligned prev out →
  ∃ prev' s', divided r prev' s' ps2 ∧ aligned prev' (last_char out (render f ps1)).
Proof.
  revert prev out s. induction ps1 as [|p ps1 IH]; intros prev out s Hd Hf Ha; [by exists prev, s|].
  assert (rendered_wordy ps1) as Hf1 by (intros t g Ht; apply (Hf t g); by right).
  cbn [app] in Hd. inversion Hd as [|? c s' ? Hnone Hd'|? t s' g ? Ht Hm Hd']; subst; cbn [render].
  - rewrite last_char_append. eapply IH; [exact Hd'|done|by left].
  - rewrite last_char_append. eapply IH; [exact Hd'|done|]. right.
    apply (wordy_last (f t g)), Hf. left.
Qed.

Lemma divided_keep_all t ps prev s :
  divided r prev s (keep_all t ++ ps) → ∃ s', s = t ++ s' ∧ divided r (last_char prev t) s' ps.
Proof.
  revert prev s. induction t as [|c t IH]; intros prev s Hd; [by exists s|].
  inversion Hd as [|? c' s1 ? Hnone Hd'|]; subst. apply IH in Hd' as (s' & -> & Hd'). by exists s'.
Qed.

Lemma render_keep_all t : render f (keep_all t) = t.
Proof.
  induction t as [|c t IH]; [done|]. change (keep_all (String c t)) with (Keep c :: keep_all t).
  cbn [render render_piece]. by rewrite IH.
Qed.

Lemma render_app ps1 ps2 : render f (ps1 ++ ps2) = render f ps1 ++ render f ps2.
Proof. induction ps1 as [|p ps1 IH]; [done|]. simpl. by rewrite IH, append_assoc. Qed.

Lemma ahead_rendered ps prev s :
  divided r prev s ps → rendered_wordy ps → ahead word_char (render f ps) = false → ahead word_char s = false.
Proof.
  destruct 1 as [|prev c s ps Hnone Hd|prev t s g ps Ht Hm Hd]; intros Hf Ha; [done|done|].
  destruct (Hf t g ltac:(left)) as [Hword _]. cbn [render render_piece] in Ha.
  destruct (f t g) as [|c u]; [done|]. rewrite append_cons in Ha. simpl in Ha, Hword. congruence.
Qed.

(** No word of the list is kept. *)
Lemma no_word_kept s ps1 l1 t l2 ps2 w :
  divided r None s (ps1 ++ keep_all (l1 ++ (t ++ l2)) ++ ps2) →
  rendered_wordy (ps1 ++ keep_all (l1 ++ (t ++ l2)) ++ ps2) →
  w ∈ ws → casefold w = casefold t →
  before word_char (last_char None (render f ps1 ++ l1)) = false →
  ahead word_char (l2 ++ render f ps2) = false → False.
Proof.
  intros Hd Hf Hw Ht Hbefore Hafter.
  assert (∀ a b, keep_all (a ++ b) = (keep_all a ++ keep_all b)%list) as Happ.
  { intros a b. unfold keep_all. induction a as [|c a IH]; [done|]. rewrite append_cons. simpl. by f_equal. }
  rewrite !Happ in Hd, Hf. rewrite <- !app_assoc in Hd, Hf. rewrite app_assoc in Hd, Hf.
  destruct (divided_skip (ps1 ++ keep_all l1) _ None None s Hd) as (prev & s1 & Hd1 & Ha); [|by left|].
  { intros u g Hu. apply (Hf u g). set_solver. }
  rewrite render_app, render_keep_all in Ha. destruct Ha as [Hprev|Hprev]; [|congruence].
  apply divided_keep_all in Hd1 as Hd2. destruct Hd2 as (s2 & -> & Hd2).
  assert (rendered_wordy (keep_all l2 ++ ps2)) as Hf2 by (intros u g Hu; apply (Hf u g); set_solver).
  assert (ahead word_char s2 = false) as Hs2.
  { eapply ahead_rendered; [exact Hd2|done|]. by rewrite render_app, render_keep_all. }
  assert (t ≠ "") as Hne.
  { intros ->. apply (Hws w Hw). destruct w; [done|discriminate Ht]. }
  destruct t as [|c t]; [done|]. inversion Hd1 as [|? c' s' ? Hnone Hd'|]; subst.
  eapply match_at_none; [exact Hnone|]. rewrite <- append_cons. eapply whole_words_match; [done|done| |done].
  by rewrite Hbefore.
Qed.

End Kept.

Lemma divided_found_match r prev s ps t g :
  divided r prev s ps → Found t g ∈ ps → ∃ prev' s', match_at r prev' (t ++ s') = Some (s', g).
Proof.
  induction 1 as [|prev c s ps Hnone Hd IH|prev u s h ps Hu Hm Hd IH]; intros Hin; [set_solver| |].
  - apply elem_of_cons in Hin as [|Hin]; [done|auto].
  - apply elem_of_cons in Hin as [[= -> ->]|Hin]; [eauto|auto].
Qed.

Lemma whole_words_found ws prev t s g :
  match_at (whole_words ws) prev (t ++ s) = Some (s, g) → ∃ w, w ∈ ws ∧ casefold w = casefold t.
Proof.
  intros (prev' & Hm)%match_at_matches. inversion Hm; subst. clear Hm.
  match goal with H : matches (NotBehind _) _ _ _ _ _ _ |- _ => inversion H; subst; clear H end.
  match goal with H : matches (Cat _ _) _ _ _ _ _ _ |- _ => inversion H; subst; clear H end.
  match goal with H : matches (NotAhead _) _ _ _ _ _ _ |- _ => inversion H; subst; clear H end.
  match goal with H : matches _ _ _ _ _ _ _ |- _ => apply alternatives_found in H as (w & u & Hw & Hs & Hu) end.
  exists w. split; [by apply elem_of_order_by in Hw|]. rewrite Hu. f_equal.
  pose proof (between_append t s) as Ht. rewrite Hs, between_append in Ht. done.
Qed.

(** The text itself, from its pieces. *)
Lemma divided_render r prev s ps : divided r prev s ps → render (λ t _, t) ps = s.
Proof. induction 1 as [|prev c s ps _ _ IH|prev t s g ps _ _ _ IH]; simpl; [done|by rewrite IH..]. Qed.

Lemma render_ext f f' ps : (∀ t g, Found t g ∈ ps → f t g = f' t g) → render f ps = render f' ps.
Proof.
  induction ps as [|p ps IH]; intros Hf; [done|]. simpl. rewrite IH by (intros t g Ht; apply Hf; by right).
  destruct p as [c|t g]; [done|]. simpl. by rewrite (Hf t g ltac:(left)).
Qed.

Definition name_pieces (value pseudonym : string) (terms : sensitive_names) : list piece :=
  cut (whole_words (map fst (replacements_of terms))) (scrub pseudonym value).
Definition named (pseudonym : string) (terms : sensitive_names) (t : string) (_ : option string) : string :=
  stand_in (replacements_of terms) pseudonym t.

Lemma replacement_keys_nonempty terms w : w ∈ map fst (replacements_of terms) → w ≠ "".
Proof.
  intros Hw ->. apply dict_keys, replacements_of_get in Hw as (term & r & _ & Hlen & Hterm).
  destruct (strip term); [simpl in Hlen; lia|discriminate Hterm].
Qed.

Lemma name_pieces_found value pseudonym terms t g :
  Found t g ∈ name_pieces value pseudonym terms →
  ∃ term, (term, named pseudonym terms t g) ∈ terms ∧ casefold (strip term) = casefold t.
Proof.
  intros Hin. unfold name_pieces in Hin.
  pose proof (cut_divided (whole_words (map fst (replacements_of terms))) None (scrub pseudonym value)
    (whole_words_consumes _ (replacement_keys_nonempty terms))) as Hd.
  destruct (divided_found_match _ _ _ _ _ _ Hd Hin) as (prev & s & Hm). apply whole_words_found in Hm as (w & Hw & Ht).
  assert (casefold w = w) as Hwf.
  { apply dict_keys, replacements_of_get in Hw as (term & r & _ & _ & <-). apply casefold_idem. }
  rewrite Hwf in Ht. subst w. apply dict_keys in Hw. unfold named, stand_in.
  destruct (dict_get (casefold t) (replacements_of terms)) as [r|] eqn:Hr; [|done]. simpl.
  by apply replacements_of_get in Hr.
Qed.

(** C12: no name is left in a text for the provider. A sanitised text is what the patterns
    made of it, cut into the parts kept and the names found; each name found is replaced by
    the stand-in of the term it spells; and where a kept part still spells a term of three
    characters or more, in any case, it is within a longer word. Stand-ins begin and end with
    a letter or digit. *)
Theorem no_name_is_left value pseudonym terms :
  (∀ term r, (term, r) ∈ terms → wordy r) →
  let ps := name_pieces value pseudonym terms in
  let out := render (named pseudonym terms) in
  sanitize_text value pseudonym terms = out ps ∧
  (∀ t g, Found t g ∈ ps → ∃ term, (term, named pseudonym terms t g) ∈ terms ∧ casefold (strip term) = casefold t) ∧
  (∀ ps1 l1 t l2 ps2 term r,
    ps = (ps1 ++ keep_all (l1 ++ (t ++ l2)) ++ ps2)%list →
    (term, r) ∈ terms → (3 <= String.length (strip term))%nat → casefold t = casefold (strip term) →
    before word_char (last_char None (out ps1 ++ l1)) = true ∨ ahead word_char (l2 ++ out ps2) = true).
Proof.
  intros Hwordy ps out. split_and!.
  - unfold sanitize_text. case_bool_decide as Hnone; [|done].
    rewrite <- (divided_render _ _ _ _ (cut_divided (whole_words (map fst (replacements_of terms))) None
      (scrub pseudonym value) (whole_words_consumes _ (replacement_keys_nonempty terms)))).
    apply render_ext. intros t g Hin.
    destruct (divided_found_match _ _ _ _ _ _ (cut_divided _ _ _ (whole_words_consumes _ (replacement_keys_nonempty terms)))
      Hin) as (prev & s & (w & Hw & _)%whole_words_found).
    by rewrite Hnone in Hw; apply elem_of_nil in Hw.
  - intros t g Hin. by eapply name_pieces_found.
  - intros ps1 l1 t l2 ps2 term r Hps Hin Hlen Ht.
    destruct (before word_char _) eqn:Hb; [by left|]. destruct (ahead word_char _) eqn:Ha; [by right|]. exfalso.
    eapply (no_word_kept (map fst (replacements_of terms)) (named pseudonym terms) (replacement_keys_nonempty terms)
      (scrub pseudonym value) ps1 l1 t l2 ps2 (casefold (strip term))); try done.
    + rewrite <- Hps. apply cut_divided, whole_words_consumes, replacement_keys_nonempty.
    + rewrite <- Hps. intros u g Hu. apply name_pieces_found in Hu as (term' & Hu & _). eauto.
    + apply dict_keys, replacements_of_get. eauto.
    + by rewrite casefold_idem.
Qed.

Definition two_names : sensitive_names := [("Ada", "Learner-1A"); ("Ada Obi", "Learner-1A"); ("Hill School", "the school")].

Lemma no_name_is_left_witness :
  sanitize_text "Adamant ada obi of Hill School" "Learner-0" two_names = "Adamant Learner-1A of the school" ∧
  (before word_char (last_char None ("" ++ "")) = true ∨
   ahead word_char ("mant " ++ "Learner-1A of the school") = true).
Proof.
  split; [vm_compute; reflexivity|].
  refine (proj2 (proj2 (no_name_is_left "Adamant ada obi of Hill School" "Learner-0" two_names _))
    [] "" "Ada" "mant " [Found "ada obi" None; Keep " "; Keep "o"; Keep "f"; Keep " "; Found "Hill School" None]
    "Ada" "Learner-1A" _ _ _ _).
  - intros term r. unfold two_names. rewrite !elem_of_cons, elem_of_nil.
    intros [[= -> ->]|[[= -> ->]|[[= -> ->]|[]]]]; split; reflexivity.
  - vm_compute. reflexivity.
  - left.
  - vm_compute. lia.
  - reflexivity.
Defined.

(** ** Lesson characters *)

Definition MARKER : string := "LessonCharacter".

Lemma hex_of_chars n u : (∀ c, c ∈ list_ascii_of_string (hex_of n u) → c ≠ "L"%char) ∧ String.length (hex_of n u) = n.
Proof.
  revert u. induction n as [|n IH]; intros u; [split; [set_solver|done]|]. cbn [hex_of].
  assert (∀ d, 0 <= d < 16 → String.length (hex_digit d) = 1%nat ∧
    (∀ c, c ∈ list_ascii_of_string (hex_digit d) → c ≠ "L"%char)) as Hdigit.
  { intros d Hd. assert (forallb (λ d, (String.length (hex_digit d) =? 1)%nat &&
      negb (bool_decide ("L"%char ∈ list_ascii_of_string (hex_digit d)))) (seqZ 0 16) = true) as Hall
      by (vm_compute; reflexivity).
    rewrite forallb_forall in Hall. specialize (Hall d). rewrite andb_true_iff, Nat.eqb_eq in Hall.
    destruct Hall as [Hl Hn]; [apply list_elem_of_In, elem_of_seqZ; lia|]. split; [done|].
    apply negb_true_iff, bool_decide_eq_false in Hn. by intros c Hc ->. }
  destruct (Hdigit (u mod 16)) as [Hlen Hc]; [apply Z.mod_pos_bound; lia|]. destruct (IH (u / 16)) as [IHc IHlen].
  split; [|rewrite append_length, IHlen, Hlen; lia].
  intros c. assert (∀ a b, list_ascii_of_string (a ++ b) = (list_ascii_of_string a ++ list_ascii_of_string b)%list) as Happ.
  { induction a as [|x a IHa]; intros b; [done|]. rewrite append_cons. simpl. by rewrite IHa. }
  rewrite Happ, elem_of_app. intros [H|H]; auto.
Qed.

(** The number that [n] hexadecimal digits spell. *)
Lemma hex_of_inj n u v : hex_of n u = hex_of n v → u mod 16 ^ Z.of_nat n = v mod 16 ^ Z.of_nat n.
Proof.
  revert u v. induction n as [|n IH]; intros u v Heq; [by rewrite !Z.mod_1_r|]. cbn [hex_of] in Heq.
  assert (∀ a b c d, String.length a = String.length b → a ++ c = b ++ d → a = b ∧ c = d) as Hsplit.
  { induction a as [|x a IHa]; intros [|y b] c d Hlen Hab; try discriminate Hlen; [done|].
    rewrite !append_cons in Hab. injection Hab as -> Hab. injection Hlen as Hlen.
    destruct (IHa b c d Hlen Hab) as [-> ->]. done. }
  apply Hsplit in Heq as [Hhi Hlo]; [|by rewrite !(proj2 (hex_of_chars n _))]. apply IH in Hhi.
  assert (u mod 16 = v mod 16) as Hmod.
  { assert (∀ a b, 0 <= a < 16 → 0 <= b < 16 → hex_digit a = hex_digit b → a = b) as Hd.
    { intros a b Ha Hb Hab.
      assert (forallb (λ a, forallb (λ b, (hex_digit a != hex_digit b) || (a =? b)) (seqZ 0 16)) (seqZ 0 16) = true)
        as Hall by (vm_compute; reflexivity).
      rewrite forallb_forall in Hall. specialize (Hall a). rewrite forallb_forall in Hall. specialize (Hall ltac:(apply list_elem_of_In, elem_of_seqZ; lia) b).
      rewrite orb_true_iff, negb_true_iff, bool_decide_eq_false, Z.eqb_eq in Hall.
      destruct Hall as [?|?]; [apply list_elem_of_In, elem_of_seqZ; lia|done|done]. }
    apply Hd; [apply Z.mod_pos_bound; lia..|done]. }
  rewrite Nat2Z.inj_succ, Z.pow_succ_r by lia. rewrite !Z.rem_mul_r by lia. by rewrite Hmod, Hhi.
Qed.

Section Restore.
Implicit Types (K : aliases) (ps : list piece) (t u a o : string).

Definition without_L t : Prop := string_forall (λ c, c != "L"%char) t = true.

Definition is_alias a : Prop := ∃ i, a = MARKER ++ uuid_hex i.

Definition masked K t : string := default t (dict_get t K).
Definition clean ps : string := render (λ t _, t) ps.

Lemma without_L_spec t : without_L t ↔ ∀ c, c ∈ list_ascii_of_string t → c ≠ "L"%char.
Proof.
  unfold without_L. induction t as [|c t IH]; simpl; [set_solver|].
  rewrite andb_true_iff, IH, negb_true_iff, bool_decide_eq_false. set_solver.
Qed.

Lemma alias_shape a : is_alias a → ∃ t, a = String "L" t ∧ without_L t ∧ String.length a = 47%nat.
Proof.
  intros [i ->]. destruct (hex_of_chars 32 i) as [Hc Hlen]. fold (uuid_hex i) in *.
  exists ("essonCharacter" ++ uuid_hex i). split_and!; [done| |by rewrite append_length, Hlen].
  change (without_L (uuid_hex i)). by apply without_L_spec.
Qed.

Lemma prefix_of_append u t x :
  String.prefix u (t ++ x) = true → (∃ w, t = u ++ w) ∨ ∃ w, u = t ++ w ∧ String.prefix w x = true.
Proof.
  revert u. induction t as [|c t IH]; intros u Hu; [by right; exists u|].
  destruct u as [|d u]; [by left; exists (String c t)|]. rewrite append_cons in Hu. cbn [String.prefix] in Hu.
  destruct (ascii_dec d c) as [->|]; [|done]. apply IH in Hu as [(w & ->)|(w & -> & Hw)]; [left|right]; exists w; done.
Qed.

Lemma prefix_append u t x : String.prefix u x = true → String.prefix (t ++ u) (t ++ x) = true.
Proof. intros Hu. induction t as [|c t IH]; [done|]. rewrite !append_cons. cbn. by destruct (ascii_dec c c). Qed.

Lemma prefix_self t x : String.prefix t (t ++ x) = true.
Proof. pose proof (prefix_append "" t x) as Hp. rewrite append_nil in Hp. apply Hp. by destruct x. Qed.

Lemma prefix_weaken u w x : String.prefix (u ++ w) x = true → String.prefix u x = true.
Proof.
  revert x. induction u as [|c u IH]; intros x Hx; [by destruct x|]. rewrite append_cons in Hx.
  destruct x as [|d x]; [done|]. cbn in Hx |- *. destruct (ascii_dec c d); [auto|done].
Qed.

Lemma contains_prefix part t s : String.prefix part s = true → contains part (t ++ s) = true.
Proof.
  intros Hp. induction t as [|c t IH].
  { change ("" ++ s) with s. destruct s; cbn [contains]; apply orb_true_iff; by left. }
  rewrite append_cons. simpl. rewrite IH. by rewrite orb_true_r.
Qed.

Lemma contains_tail part t s : contains part (t ++ s) = false → contains part s = false.
Proof.
  induction t as [|c t IH]; [done|]. rewrite append_cons. simpl. rewrite orb_false_iff. intros [_ H]. auto.
Qed.

(** A text without an L that stands at the front of a masked text stands at the
    front of the text itself. *)
Lemma prefix_masked K ps u :
  (∀ t a, dict_get t K = Some a → is_alias a) → without_L u →
  String.prefix u (render (λ t _, masked K t) ps) = true → String.prefix u (clean ps) = true.
Proof.
  intros HK. revert u. induction ps as [|p ps IH]; intros u Hu Hp; [done|]. unfold clean in *. cbn [render] in Hp |- *.
  assert (∀ t, String.prefix u (t ++ render (λ t _, masked K t) ps) = true →
    String.prefix u (t ++ render (λ t _, t) ps) = true) as Hkept.
  { intros t [(w & ->)|(w & -> & Hw)]%prefix_of_append; [rewrite append_assoc; apply prefix_self|].
    apply prefix_append, IH; [|done]. apply without_L_spec. rewrite without_L_spec in Hu. intros c Hc. apply Hu.
    clear -Hc. induction t as [|d t IHt]; [done|]. rewrite append_cons. simpl. by right. }
  destruct p as [c|t g]; cbn [render_piece] in Hp |- *; [by apply Hkept|].
  unfold masked in Hp at 1. destruct (dict_get t K) as [a|] eqn:Hget; [|by apply Hkept].
  apply HK, alias_shape in Hget as (x & -> & _). destruct u as [|c u]; [by destruct t, (render (λ t _, t) ps)|].
  cbn in Hp. rewrite append_cons in Hp. cbn [String.prefix] in Hp. destruct (ascii_dec c "L") as [->|]; [|done].
  by apply without_L_spec with (c := "L"%char) in Hu; [|left].
Qed.

Lemma replace_from_skip old new t x : replace_from (String.length t) old new (t ++ x) = replace_from 0 old new x.
Proof. induction t as [|c t IH]; [done|]. rewrite append_cons. apply IH. Qed.

Lemma replace_here a o x : a ≠ "" → replace_from 0 a o (a ++ x) = o ++ replace_from 0 a o x.
Proof.
  intros Ha. destruct a as [|c a]; [done|]. rewrite append_cons. cbn [replace_from].
  rewrite <- append_cons, prefix_self. replace (String.length (String c a) - 1)%nat with (String.length a) by (simpl; lia).
  by rewrite replace_from_skip.
Qed.

(** Where no place of [t] begins an occurrence, it stays. *)
Lemma replace_stays a o t x :
  (∀ u v, t = u ++ v → v ≠ "" → String.prefix a (v ++ x) = false) →
  replace_from 0 a o (t ++ x) = t ++ replace_from 0 a o x.
Proof.
  induction t as [|c t IH]; intros Hp; [done|]. rewrite !append_cons. cbn [replace_from].
  pose proof (Hp "" (String c t) eq_refl ltac:(done)) as Hc. rewrite append_cons in Hc. rewrite Hc.
  f_equal. apply IH.
  intros u v Ht Hv. apply (Hp (String c u)); [by rewrite Ht|done].
Qed.

Section Step.
Context (K : aliases) (o a : string).
Hypothesis (Ha : is_alias a) (Ho : dict_get o K = None) (HK : ∀ t b, dict_get t K = Some b → is_alias b ∧ b ≠ a).

Lemma step_alias t b : dict_get t ((o, a) :: K) = Some b → is_alias b.
Proof. simpl. case_bool_decide; [by intros [= <-]|]. intros Hb. by apply HK in Hb as [Hb _]. Qed.

(** The places of a text that is kept. *)
Lemma kept_place t ps :
  t ≠ "" → contains MARKER (t ++ clean ps) = false →
  String.prefix a (t ++ render (λ t _, masked ((o, a) :: K) t) ps) = false.
Proof.
  intros Ht Hc. apply not_true_is_false. intros Hp. pose proof Ha as Ha'. destruct Ha' as [i Hi].
  destruct (alias_shape a Ha) as (x & Hx & Hl & _).
  enough (String.prefix a (t ++ clean ps) = true) as Hbad.
  { rewrite Hi in Hbad. apply prefix_weaken, (contains_prefix _ "") in Hbad.
    change (contains MARKER (t ++ clean ps) = true) in Hbad. congruence. }
  apply prefix_of_append in Hp as [(w & ->)|(w & Hw & Hp)]; [rewrite append_assoc; apply prefix_self|].
  rewrite Hw. apply prefix_append. eapply prefix_masked; [apply step_alias| |exact Hp].
  destruct t as [|c t]; [done|]. rewrite Hx, append_cons in Hw. injection Hw as _ ->.
  apply without_L_spec. rewrite without_L_spec in Hl. intros d Hd. apply Hl.
  clear -Hd. induction t as [|e t IHt]; [done|]. rewrite append_cons. simpl. by right.
Qed.

(** The places of another alias. *)
Lemma other_alias_place b u v x : is_alias b → b ≠ a → b = u ++ v → v ≠ "" → String.prefix a (v ++ x) = false.
Proof.
  intros Hb Hne -> Hv. apply not_true_is_false. intros Hp.
  destruct (alias_shape a Ha) as (ta & Hta & _ & Hlen). destruct (alias_shape _ Hb) as (tb & Htb & Hl & Hlenb).
  destruct u as [|c u].
  - change ("" ++ v) with v in *. apply prefix_of_append in Hp as [(w & ->)|(w & Hw & _)].
    + rewrite append_length in Hlenb. destruct w; [|simpl in Hlenb; lia]. by rewrite append_nil in Hne.
    + rewrite Hw, append_length in Hlen. destruct w; [|simpl in Hlen; lia]. by rewrite append_nil in Hw.
  - rewrite append_cons in Htb. injection Htb as _ Htb. subst tb. destruct v as [|d v]; [done|].
    rewrite Hta, append_cons in Hp. cbn [String.prefix] in Hp. destruct (ascii_dec "L" d) as [<-|]; [|done].
    rewrite without_L_spec in Hl. apply (Hl "L"%char); [|done].
    clear. induction u as [|e u IHu]; [by left|]. rewrite append_cons. simpl. by right.
Qed.

Lemma replace_step ps :
  contains MARKER (clean ps) = false →
  replace a o (render (λ t _, masked ((o, a) :: K) t) ps) = render (λ t _, masked K t) ps.
Proof.
  unfold replace. induction ps as [|p ps IH]; intros Hc; [done|]. cbn [render].
  change (clean (p :: ps)) with (render_piece (λ t _, t) p ++ clean ps) in Hc.
  assert (∀ t, contains MARKER (t ++ clean ps) = false →
    replace_from 0 a o (t ++ render (λ t _, masked ((o, a) :: K) t) ps) = t ++ render (λ t _, masked K t) ps) as Hkept.
  { intros t Ht. rewrite replace_stays; [by rewrite IH by (by eapply contains_tail)|].
    intros u v -> Hv. apply kept_place; [done|]. rewrite append_assoc in Ht. by eapply contains_tail. }
  specialize (IH (contains_tail _ _ _ Hc)).
  destruct p as [c|t g]; cbn [render_piece] in Hc |- *; [by apply Hkept|].
  assert (masked ((o, a) :: K) t = if o == t then a else masked K t) as Hmasked
    by (unfold masked; simpl; by case_bool_decide).
  rewrite Hmasked. destruct (decide (o = t)) as [<-|Hne].
  - rewrite bool_decide_eq_true_2 by done. assert (masked K o = o) as -> by (unfold masked; by rewrite Ho).
    rewrite replace_here; [by rewrite IH|]. destruct (alias_shape a Ha) as (x & -> & _). done.
  - rewrite bool_decide_eq_false_2 by done. assert (masked K t = t ∨ dict_get t K = Some (masked K t)) as [->|Hb]
      by (unfold masked; destruct (dict_get t K); auto); [by apply Hkept|].
    apply HK in Hb as [Hb Hba]. rewrite replace_stays; [by rewrite IH|]. intros u v. by apply other_alias_place.
Qed.
End Step.

(** Names with their aliases, each once. *)
Definition aliases_ok K : Prop :=
  NoDup (map fst K) ∧ NoDup (map snd K) ∧ ∀ t a, (t, a) ∈ K → is_alias a.

Lemma dict_get_elem t a K : dict_get t K = Some a → (t, a) ∈ K.
Proof.
  induction K as [|[k v] K IH]; simpl; [done|]. case_bool_decide as Hk; [intros [= ->]; subst; left|right; auto].
Qed.

Lemma restore_masked K ps :
  aliases_ok K → contains MARKER (clean ps) = false →
  restore_characters K (render (λ t _, masked K t) ps) = clean ps.
Proof.
  unfold restore_characters. induction K as [|[o a] K IH]; intros (Hf & Hs & Ha) Hc; [by apply render_ext|].
  simpl in Hf, Hs. apply NoDup_cons in Hf as [Ho Hf], Hs as [Has Hs]. cbn [foldl].
  rewrite replace_step; [|apply (Ha o); left| | |done].
  - apply IH; [|done]. split_and!; [done|done|]. intros t b Hb. apply (Ha t). by right.
  - destruct (dict_get o K) as [b|] eqn:Hb; [|done]. destruct Ho. apply dict_keys. by rewrite Hb.
  - intros t b Hb%dict_get_elem. split; [apply (Ha t); by right|]. intros ->. apply Has.
    apply list_elem_of_fmap. by exists (t, a).
Qed.
End Restore.

(** ** The masks *)

Lemma dict_put_new k v d : dict_get k d = None → dict_put k v d = (d ++ [(k, v)])%list.
Proof.
  induction d as [|[k1 v1] d IH]; [done|]. simpl. case_bool_decide; [done|]. intros Hd. by rewrite IH.
Qed.

Lemma dict_get_none k d : dict_get k d = None ↔ k ∉ map fst d.
Proof. rewrite dict_keys. by destruct (dict_get k d). Qed.

(** Aliases made of identifiers below [n]. *)
Definition issued_aliases (n : Z) (K : aliases) : Prop :=
  NoDup (map fst K) ∧ NoDup (map snd K) ∧ ∀ t a, (t, a) ∈ K → ∃ i, 0 <= i < n ∧ a = MARKER ++ uuid_hex i.

Definition extends (K K' : aliases) : Prop := ∀ t a, dict_get t K = Some a → dict_get t K' = Some a.

Lemma issued_aliases_ok n K : issued_aliases n K → aliases_ok K.
Proof. intros (H1 & H2 & H3). split_and!; [done|done|]. intros t a (i & _ & ->)%H3. by exists i. Qed.

Lemma issued_aliases_later n n' K : n <= n' → issued_aliases n K → issued_aliases n' K.
Proof. intros Hn (H1 & H2 & H3). split_and!; [done|done|]. intros t a (i & Hi & ->)%H3. exists i. split; [lia|done]. Qed.

Lemma alias_inj i j : 0 <= i < 2 ^ 128 → 0 <= j < 2 ^ 128 → MARKER ++ uuid_hex i = MARKER ++ uuid_hex j → i = j.
Proof.
  intros Hi Hj Heq. assert (∀ m a b, m ++ a = m ++ b → a = b) as Hcancel.
  { induction m as [|c m IH]; intros a b Hab; [done|]. rewrite !append_cons in Hab. injection Hab as Hab. auto. }
  apply Hcancel, hex_of_inj in Heq. change (16 ^ Z.of_nat 32) with (2 ^ 128) in Heq. by rewrite !Z.mod_small in Heq.
Qed.

Lemma issue_alias n K t :
  0 <= n < 2 ^ 128 → issued_aliases n K → dict_get t K = None →
  let K' := dict_put t (MARKER ++ uuid_hex n) K in
  issued_aliases (n + 1) K' ∧ extends K K' ∧ dict_get t K' = Some (MARKER ++ uuid_hex n).
Proof.
  intros Hn (H1 & H2 & H3) Ht K'. unfold K'. split_and!.
  - rewrite dict_put_new by done. split_and!.
    + rewrite map_app. simpl. apply NoDup_app. split_and!; [done| |apply NoDup_singleton].
      intros x Hx ->%list_elem_of_singleton. by apply dict_get_none in Ht.
    + rewrite map_app. simpl. apply NoDup_app. split_and!; [done| |apply NoDup_singleton].
      intros x Hx ->%list_elem_of_singleton. apply list_elem_of_fmap in Hx as ([u a] & Ha & Hin). simpl in Ha. subst a.
      apply H3 in Hin as (i & Hi & Heq). apply alias_inj in Heq; lia.
    + intros u a [Hu|Hu]%elem_of_app; [apply H3 in Hu as (i & Hi & ->); exists i; split; [lia|done]|].
      apply list_elem_of_singleton in Hu as [= -> ->]. exists n. split; [lia|done].
  - intros u a Hu. rewrite dict_get_put. case_bool_decide as Heq; [congruence|done].
  - rewrite dict_get_put. by rewrite bool_decide_eq_true_2.
Qed.

(** The rest of the pieces, once the alias of the first is known. *)
Lemma mask_rest t g ps K K1 a (db1 : Database) r db' :
  (∀ r0, mask_pieces K1 ps db1 = (r0, db') → ∃ text K', r0 = inr (text, K') ∧ issued_aliases (db_uuids db') K' ∧
     extends K1 K' ∧ ∀ K2, extends K' K2 → text = render (λ t _, masked K2 t) ps) →
  extends K K1 → dict_get t K1 = Some a →
  ('(rest, known) ← mask_pieces K1 ps; mret (a ++ rest, known)) db1 = (r, db') →
  ∃ text K', r = inr (text, K') ∧ issued_aliases (db_uuids db') K' ∧ extends K K' ∧
    ∀ K2, extends K' K2 → text = render (λ t _, masked K2 t) (Found t g :: ps).
Proof.
  intros IH HK1 Ht Hrun. rewrite bind_run in Hrun. destruct (mask_pieces K1 ps db1) as [r1 db2].
  assert (db2 = db') as -> by (destruct r1 as [|[]]; by injection Hrun).
  destruct (IH r1 eq_refl) as (text & K' & -> & HK' & Hext & Htext). injection Hrun as <-.
  exists (a ++ text), K'. split_and!; [done|done|intros u b Hu; by apply Hext, HK1|].
  intros K2 HK2. cbn [render render_piece]. rewrite <- (Htext K2 HK2). f_equal.
  unfold masked. by rewrite (HK2 t a (Hext t a Ht)).
Qed.

Lemma mask_pieces_later ps K (db : Database) : db_uuids db <= db_uuids (snd (mask_pieces K ps db)).
Proof.
  revert K db. induction ps as [|[c|t g] ps IH]; intros K db; cbn [mask_pieces]; [simpl; lia| |]; rewrite bind_run.
  - specialize (IH K db). by destruct (mask_pieces K ps db) as [[|[]] db1].
  - destruct (dict_get t K) as [a|]; [rewrite ret_run|rewrite bind_run]; cbn [uuid4]; rewrite ?ret_run, bind_run;
      match goal with |- context [mask_pieces ?K1 ps ?s] => specialize (IH K1 s);
        destruct (mask_pieces K1 ps s) as [[|[]] db1] end; simpl in *; lia.
Qed.

(** Masking a text, through any aliases that extend those it ends with. *)
Lemma mask_pieces_spec ps K (db : Database) r db' :
  mask_pieces K ps db = (r, db') → issued_aliases (db_uuids db) K → 0 <= db_uuids db → db_uuids db' <= 2 ^ 128 →
  ∃ text K', r = inr (text, K') ∧ issued_aliases (db_uuids db') K' ∧ extends K K' ∧
    ∀ K2, extends K' K2 → text = render (λ t _, masked K2 t) ps.
Proof.
  revert K db r db'. induction ps as [|p ps IH]; intros K db r db' Hrun HK Hpos Hmax.
  { injection Hrun as <- <-. exists "", K. split_and!; [done|done|by intros ??|done]. }
  destruct p as [c|t g]; cbn [mask_pieces] in Hrun; rewrite bind_run in Hrun.
  - destruct (mask_pieces K ps db) as [r1 db1] eqn:Hps.
    assert (db1 = db') as -> by (destruct r1 as [|[]]; by injection Hrun).
    destruct (IH _ _ _ _ Hps HK Hpos Hmax) as (text & K' & -> & HK' & Hext & Htext).
    injection Hrun as <-. exists (String c text), K'. split_and!; [done..|].
    intros K2 HK2. simpl. by rewrite (Htext K2 HK2).
  - destruct (dict_get t K) as [a|] eqn:Ht.
    + rewrite ret_run in Hrun. eapply (mask_rest t g ps K K); [|by intros ??|exact Ht|exact Hrun].
      intros r0 Hr0. by eapply IH.
    + rewrite bind_run in Hrun. cbn [uuid4] in Hrun. rewrite ret_run in Hrun.
      set (db1 := mkDb _ _ _) in Hrun. set (K1 := dict_put _ _ _) in Hrun.
      pose proof (mask_pieces_later ps K1 db1) as Hlater.
      assert (snd (mask_pieces K1 ps db1) = db') as Hdb.
      { rewrite bind_run in Hrun. destruct (mask_pieces K1 ps db1) as [[|[]] db2]; by injection Hrun. }
      rewrite Hdb in Hlater. unfold db1 at 1 in Hlater. cbn [db_uuids] in Hlater.
      destruct (issue_alias (db_uuids db) K t) as (HK1 & Hext & Hget); [lia|done..|].
      eapply (mask_rest t g ps K K1); [|exact Hext|exact Hget|exact Hrun].
      intros r0 Hr0. eapply IH; [exact Hr0|exact HK1| |done]. unfold db1. simpl. lia.
Qed.

Section MaskVariablesFacts.
Context (variables : gmap string string) (terms : sensitive_names) (pseudonym : string).
Abbreviation pattern := (whole_words (character_names terms)).

Definition material (value : string) : list piece := cut pattern (sanitize_text value pseudonym []).

Lemma mask_variables_later keys prepared K (db : Database) :
  db_uuids db <= db_uuids (snd (mask_variables variables pattern pseudonym keys prepared K db)).
Proof.
  revert prepared K db. induction keys as [|key keys IH]; intros prepared K db; cbn [mask_variables]; [simpl; lia|].
  destruct (variables !! key) as [value|]; [|apply IH]. rewrite bind_run.
  pose proof (mask_pieces_later (material value) K db) as Hle. fold (material value).
  destruct (mask_pieces K (material value) db) as [[e|[text K1]] db1]; [done|]. specialize (IH (<[key:=text]> prepared) K1 db1).
  cbn [snd] in Hle. lia.
Qed.

Lemma mask_variables_spec keys prepared K (db : Database) r db' :
  mask_variables variables pattern pseudonym keys prepared K db = (r, db') →
  issued_aliases (db_uuids db) K → 0 <= db_uuids db → db_uuids db' <= 2 ^ 128 → NoDup keys →
  ∃ prepared' K', r = inr (prepared', K') ∧ issued_aliases (db_uuids db') K' ∧ extends K K' ∧
    (∀ key, key ∉ keys ∨ variables !! key = None → prepared' !! key = prepared !! key) ∧
    (∀ key value, key ∈ keys → variables !! key = Some value →
       ∀ K2, extends K' K2 → prepared' !! key = Some (render (λ t _, masked K2 t) (material value))).
Proof.
  revert prepared K db. induction keys as [|key keys IH]; intros prepared K db Hrun HK Hpos Hmax Hkeys.
  { injection Hrun as <- <-. exists prepared, K. split_and!; [done|done|by intros ??|done|set_solver]. }
  apply NoDup_cons in Hkeys as [Hkey Hkeys]. cbn [mask_variables] in Hrun.
  destruct (variables !! key) as [value|] eqn:Hv.
  - fold (material value) in Hrun. rewrite bind_run in Hrun.
    destruct (mask_pieces K (material value) db) as [r1 db1] eqn:Hm.
    pose proof (mask_pieces_later (material value) K db) as Hle. rewrite Hm in Hle. cbn [snd] in Hle.
    assert (db_uuids db1 <= db_uuids db') as Hle1.
    { destruct r1 as [e|[text K1]]; [by injection Hrun as _ <-|].
      pose proof (mask_variables_later keys (<[key:=text]> prepared) K1 db1) as Hl. by rewrite Hrun in Hl. }
    destruct (mask_pieces_spec _ _ _ _ _ Hm HK Hpos ltac:(lia)) as (text & K1 & -> & HK1 & Hext1 & Htext).
    destruct (IH _ _ _ Hrun HK1 ltac:(lia) Hmax Hkeys) as (prepared' & K' & -> & HK' & Hext' & Hother & Hmasked).
    exists prepared', K'. split_and!; [done|done|by intros t a Ha; apply Hext', Hext1| |].
    + intros k Hk. rewrite Hother by (destruct Hk; [left; set_solver|by right]). apply lookup_insert_ne. set_solver.
    + intros k v Hk Hkv K2 HK2. destruct (decide (k = key)) as [->|Hne]; [|apply Hmasked; set_solver].
      rewrite Hother, lookup_insert_eq by (by left). rewrite Hv in Hkv. injection Hkv as <-. f_equal. apply Htext.
      intros t a Ha. by apply HK2, Hext'.
  - destruct (IH _ _ _ Hrun HK Hpos Hmax Hkeys) as (prepared' & K' & -> & HK' & Hext' & Hother & Hmasked).
    exists prepared', K'. split_and!; [done|done|done| |].
    + intros k Hk. apply Hother. destruct Hk; [left; set_solver|by right].
    + intros k v [->|Hk]%elem_of_cons Hkv; [by rewrite Hv in Hkv|by apply Hmasked].
Qed.
End MaskVariablesFacts.

Lemma character_names_nonempty terms w : w ∈ character_names terms → w ≠ "".
Proof.
  unfold character_names. rewrite elem_of_remove_dups, list_elem_of_omap. intros ([t r] & _ & Hw) ->.
  revert Hw. case_match eqn:Hc; [|done]. intros [= Hs]. rewrite Hs in Hc. by rewrite andb_false_r in Hc.
Qed.

(** C16: the characters of a lesson come back as they were. Masking the material of a lesson
    always returns; what is not material is not touched; and putting the names back for their
    aliases turns the masked material into the sanitised original, for any material in which
    no text looks like an alias. *)
Theorem masked_characters_are_restored variables keys pseudonym terms (db : Database) r db' :
  mask_lesson_characters variables keys pseudonym terms db = (r, db') →
  0 <= db_uuids db → db_uuids db' <= 2 ^ 128 → NoDup keys →
  (∀ key value, variables !! key = Some value → contains MARKER (sanitize_text value pseudonym []) = false) →
  ∃ prepared known, r = inr (prepared, known) ∧
    (∀ key, key ∉ keys → prepared !! key = variables !! key) ∧
    (∀ key value, key ∈ keys → variables !! key = Some value →
       ∃ masked, prepared !! key = Some masked ∧
         (if character_names terms == [] then masked = value
          else restore_characters known masked = sanitize_text value pseudonym [])).
Proof.
  unfold mask_lesson_characters. intros Hrun Hpos Hmax Hkeys Hclean. case_bool_decide as Hnames.
  { injection Hrun as <- <-. exists variables, []. split_and!; [done|done|]. intros key value _ Hv. by exists value. }
  apply mask_variables_spec in Hrun as (prepared & known & -> & Hknown & _ & Hother & Hmasked); [|split_and!|done..].
  2,3: constructor. 2: by intros t a Hin%elem_of_nil.
  exists prepared, known. split_and!; [done|by intros key Hkey; apply Hother; left|].
  intros key value Hkey Hv. eexists. split; [exact (Hmasked key value Hkey Hv known (λ t a Ha, Ha))|].
  assert (clean (material terms pseudonym value) = sanitize_text value pseudonym []) as Htext.
  { unfold clean, material. eapply divided_render, cut_divided, whole_words_consumes, character_names_nonempty. }
  rewrite restore_masked; [done|by eapply issued_aliases_ok|]. rewrite Htext. by eapply Hclean.
Qed.

Definition lesson_variables : gmap string string := {[ "source_text" := "ada Obi met Ada; ADAMANT."; "tone" := "Ada" ]}.

Lemma masked_characters_are_restored_witness :
  ∃ prepared known, fst (mask_lesson_characters lesson_variables ["source_text"; "lesson_title"] "Learner-0" two_names school_db)
      = inr (prepared, known) ∧ prepared !! "tone" = Some "Ada" ∧
    ∃ masked, prepared !! "source_text" = Some masked ∧ restore_characters known masked = "ada Obi met Ada; ADAMANT.".
Proof.
  destruct (masked_characters_are_restored lesson_variables ["source_text"; "lesson_title"] "Learner-0" two_names
    school_db _ _ (surjective_pairing _)) as (prepared & known & Hrun & Hother & Hmat).
  - vm_compute. discriminate.
  - vm_compute. discriminate.
  - apply (bool_decide_unpack _). vm_compute. exact I.
  - intros key value. unfold lesson_variables. rewrite !lookup_insert_Some, lookup_singleton_Some.
    intros [[_ <-]|[_ [_ <-]]]; vm_compute; reflexivity.
  - exists prepared, known. split; [done|]. split.
    { rewrite (Hother "tone"); [vm_compute; reflexivity|]. apply (bool_decide_unpack _). vm_compute. exact I. }
    destruct (Hmat "source_text" "ada Obi met Ada; ADAMANT.") as (masked & Hm & Hr); [left|reflexivity|].
    exists masked. split; [done|]. rewrite bool_decide_eq_false_2 in Hr by discriminate. exact Hr.
Defined.
