(* ===== verification/Json.v ===== *)
(** * Decoded JSON

    Python's [str], [repr], [int] and [or] on the values [json.loads] makes,
    [json.dumps], and HTTP messages with such bodies. *)

From Stdlib Require Import Ascii String SpecFloat.
From S2P Require Import Prelude Floats Relational Text Vocabulary.

Local Open Scope string_scope.
Local Open Scope Z_scope.
Local Open Scope nevo_scope.

(** * Floats as text

    [repr(x)] and [float(text)] of Python: the shortest decimal that reads back
    as the number, and the number next to a decimal. *)

(** ** Reading *)

(** The float next to [n * 10^e]. *)
Definition f_of_decimal (n e : Z) : float :=
  if 0 <=? e then binary_normalize 53 1024 (n * 10 ^ e) 0 false
  else match n, 10 ^ (- e) with
       | Z.pos p, Z.pos d => f_quot (S754_finite false p 0) (S754_finite false d 0)
       | Z.neg p, Z.pos d => f_quot (S754_finite true p 0) (S754_finite false d 0)
       | _, _ => f_zero
       end.

(** The digits in front, single underscores allowed between them: their value,
    how many there are, and what follows. *)
Fixpoint digits_run (acc : Z) (n : nat) (s : string) : Z * nat * string :=
  match s with
  | EmptyString => (acc, n, s)
  | String c s' =>
    if is_digit c then digits_run (10 * acc + (Z.of_N (N_of_ascii c) - 48)) (S n) s'
    else
      match s' with
      | String d s'' =>
        if (c == "_"%char) && (0 <? n)%nat && is_digit d
        then digits_run (10 * acc + (Z.of_N (N_of_ascii d) - 48)) (S n) s'' else (acc, n, s)
      | EmptyString => (acc, n, s)
      end
  end.

(** A sign in front of what [read] reads. *)
Definition signed_text {A} (read : bool → string → option A) (s : string) : option A :=
  match s with
  | String c s' => if c == "-"%char then read true s' else if c == "+"%char then read false s' else read false s
  | EmptyString => None
  end.

(** What follows the digits: nothing, or an exponent. *)
Definition exponent_of (s : string) : option Z :=
  match s with
  | EmptyString => Some 0
  | String c s' =>
    if (c == "e"%char) || (c == "E"%char) then
      signed_text (λ negative t, let '(e, n, rest) := digits_run 0 0 t in
        if (0 <? n)%nat && (rest == "") then Some (f_signed negative e) else None) s'
    else None
  end.

Definition f_sign (negative : bool) (x : float) : float := if negative then SFopp x else x.

(** A numeral without its sign. *)
Definition unsigned_float (negative : bool) (s : string) : option float :=
  if (casefold s == "inf") || (casefold s == "infinity") then Some (S754_infinity negative)
  else if casefold s == "nan" then Some S754_nan
  else
    let '(whole, n, rest) := digits_run 0 0 s in
    let '(value, places, rest) :=
      match rest with
      | String "." tail => let '(v, k, r) := digits_run whole 0 tail in (v, k, r)
      | _ => (whole, 0%nat, rest)
      end in
    if (n + places =? 0)%nat then None
    else (λ e, f_sign negative (f_of_decimal value (e - Z.of_nat places))) <$> exponent_of rest.

(** [float(text)]; [None] is the [ValueError]. *)
Definition float_of_text (s : string) : option float := signed_text unsigned_float (strip s).

(** ** Printing *)

(** [floor(log10(n / d))], from a guess that is one off at most. *)
Definition log10_floor (n d : Z) : Z :=
  let p := (Z.log2 n - Z.log2 d) * 30103 / 100000 in
  let above p := if 0 <=? p then 10 ^ p * d <=? n else d <=? n * 10 ^ (- p) in
  if above (p + 1) then p + 1 else if above p then p else p - 1.

(** The integer nearest to [n / d], a tie going to the even one. *)
Definition round_ratio (n d : Z) : Z :=
  let q := n / d in
  let twice := 2 * (n mod d) in
  if (d <? twice) || ((twice =? d) && Z.odd q) then q + 1 else q.

(** [n / d], which has its first digit at [10^p], to [k] significant digits:
    the digits and the place of the last one. *)
Definition significant (n d p k : Z) : Z * Z :=
  let e := p - k + 1 in
  let q := if 0 <=? e then round_ratio n (d * 10 ^ e) else round_ratio (n * 10 ^ (- e)) d in
  if q =? 10 ^ k then (q / 10, e + 1) else (q, e).

Fixpoint shortest (x : float) (n d p k : Z) (fuel : nat) : Z * Z :=
  let '(q, e) := significant n d p k in
  match fuel with
  | O => (q, e)
  | S fuel' => if f_of_decimal q e == x then (q, e) else shortest x n d p (k + 1) fuel'
  end.

Definition zeros (n : Z) : string := string_of_list_ascii (replicate (Z.to_nat n) "0"%char).

(** The digits [q] with the last one at [10^e], the way [repr] writes them. *)
Definition decimal_text (q e : Z) : string :=
  let digits := int_str q in
  let len := Z.of_nat (String.length digits) in
  let point := len + e in
  if (-4 <? point) && (point <=? 16) then
    if point <=? 0 then "0." ++ zeros (- point) ++ digits
    else if len <=? point then digits ++ zeros (point - len) ++ ".0"
    else take_string (Z.to_nat point) digits ++ "." ++ String.substring (Z.to_nat point) (Z.to_nat (len - point)) digits
  else
    let exponent := point - 1 in
    let size := int_str (Z.abs exponent) in
    String.substring 0 1 digits ++ (if 1 <? len then "." ++ String.substring 1 (Z.to_nat (len - 1)) digits else "") ++
    (if exponent <? 0 then "e-" else "e+") ++ (if Z.abs exponent <? 10 then "0" else "") ++ size.

(** [repr(x)] *)
Definition float_repr (x : float) : string :=
  match x with
  | S754_nan => "nan"
  | S754_infinity s => if s then "-inf" else "inf"
  | S754_zero s => if s then "-0.0" else "0.0"
  | S754_finite s m e =>
    let n := if 0 <=? e then Z.shiftl (Z.pos m) e else Z.pos m in
    let d := if 0 <=? e then 1 else Z.shiftl 1 (- e) in
    let '(q, e10) := shortest (S754_finite false m e) n d (log10_floor n d) 1 16 in
    (if s then "-" else "") ++ decimal_text q e10
  end.

Example float_of_text_examples :
  map float_of_text [" 0.1 "; "-1_0.5e1"; ".5"; "1e400"; "-Infinity"; "1."; "1__0"; "e5"; "."; "0x1"; ""]
  = [Some (f_ratio 1 10); Some (f_of_Z (-105)); Some (f_ratio 1 2); Some (S754_infinity false);
     Some (S754_infinity true); Some f_one; None; None; None; None; None].
Proof. vm_compute. reflexivity. Qed.

Example float_repr_examples :
  map float_repr [f_ratio 1 10; (f_ratio 1 10 + f_ratio 2 10)%F; f_of_Z 120; f_ratio 1 100000; f_ratio (-1) 8;
                  f_of_Z (10 ^ 16); f_of_Z 123456789012345678; f_ratio 2 3; f_ratio 15 10000]
  = ["0.1"; "0.30000000000000004"; "120.0"; "1e-05"; "-0.125"; "1e+16"; "1.2345678901234568e+17"; "0.6666666666666666"; "0.0015"].
Proof. vm_compute. reflexivity. Qed.

Definition quote_char : ascii := "'"%char.
Definition dquote_char : ascii := ascii_of_nat 34.

(** One character inside [repr] of a string quoted with [q]. *)
Definition repr_char (q c : ascii) : string :=
  let n := nat_of_ascii c in
  if (c == q) || (c == "\"%char) then String "\" (String c "")
  else if (n =? 9)%nat then "\t" else if (n =? 10)%nat then "\n" else if (n =? 13)%nat then "\r"
  else if (n <? 32)%nat || (n =? 127)%nat then "\x" ++ hex_of 2 (Z.of_nat n)
  else String c "".

Fixpoint repr_chars (q : ascii) (s : string) : string :=
  match s with
  | EmptyString => ""
  | String c s' => repr_char q c ++ repr_chars q s'
  end.

(** [repr(s)]: double quotes only around a text with an apostrophe and no
    double quote. *)
Definition repr_str (s : string) : string :=
  let has c := negb (string_forall (λ x, x != c) s) in
  let q := if has quote_char && negb (has dquote_char) then dquote_char else quote_char in
  String q (repr_chars q s ++ String q "").

Fixpoint json_repr (j : Json) : string :=
  match j with
  | JNull => "None"
  | JBool b => if b then "True" else "False"
  | JInt z => int_str z
  | JFloat x => float_repr x
  | JStr s => repr_str s
  | JArr items => "[" ++ join ", " (map json_repr items) ++ "]"
  | JObj fields => "{" ++ join ", " (map (λ '(k, v), repr_str k ++ ": " ++ json_repr v) fields) ++ "}"
  end.

(** [str(value)] *)
Definition json_str (j : Json) : string := match j with JStr s => s | _ => json_repr j end.

Example json_str_examples :
  map json_str [JNull; JBool true; JInt (-3); JStr "it's"; JArr [JStr "it's"; JInt 1];
                JObj [("a", JStr "b")]]
  = ["None"; "True"; "-3"; "it's"; "[" ++ String dquote_char "it's" ++ String dquote_char ", 1]";
     "{'a': 'b'}"].
Proof. vm_compute. reflexivity. Qed.

(** Digits, single underscores allowed between them. *)
Fixpoint int_digits (after_digit : bool) (acc : Z) (s : string) : option Z :=
  match s with
  | EmptyString => if after_digit then Some acc else None
  | String c s' =>
    if is_digit c then int_digits true (10 * acc + (Z.of_N (N_of_ascii c) - 48)) s'
    else if (c == "_"%char) && after_digit then int_digits false acc s'
    else None
  end.

(** [int(text)]; [None] is the [ValueError]. *)
Definition int_of_text (s : string) : option Z :=
  match strip s with
  | String c s' =>
    if c == "-"%char then Z.opp <$> int_digits false 0 s'
    else if c == "+"%char then int_digits false 0 s'
    else int_digits false 0 (String c s')
  | EmptyString => None
  end.

Example int_of_text_examples :
  map int_of_text [" 42 "; "-7"; "+1_000"; "1__0"; "_1"; ""; "4.2"; "1_"]
  = [Some 42; Some (-7); Some 1000; None; None; None; None; None].
Proof. vm_compute. reflexivity. Qed.

(** [int(value)] *)
Definition json_int (j : Json) : exn + Z :=
  match j with
  | JInt z => inr z
  | JBool b => inr (if b then 1 else 0)
  | JFloat x =>
    match x, f_trunc x with
    | _, Some z => inr z
    | SpecFloat.S754_nan, None => inl (ValueError (float_repr x))
    | _, None => inl OverflowError
    end
  | JStr s => match int_of_text s with Some z => inr z | None => inl (ValueError s) end
  | JNull | JArr _ | JObj _ => inl TypeError
  end.

(** [float(value)] *)
Definition json_float (j : Json) : exn + float :=
  match j with
  | JFloat x => inr x
  | JInt z => let x := f_of_Z z in if f_finite x then inr x else inl OverflowError
  | JBool b => inr (f_of_Z (if b then 1 else 0))
  | JStr s => match float_of_text s with Some x => inr x | None => inl (ValueError s) end
  | JNull | JArr _ | JObj _ => inl TypeError
  end.

(** [d.get(key)] where a missing key reads as [None]. *)
Definition field (key : string) (data : list (string * Json)) : Json :=
  match assoc key data with Some v => v | None => JNull end.

(** [a or b] on decoded values. *)
Definition json_or (a b : Json) : Json := if json_truthy a then a else b.

(** ** [json.dumps], all escapes in ASCII *)

Definition dumps_char (c : ascii) : string :=
  let n := nat_of_ascii c in
  if (c == dquote_char) || (c == "\"%char) then String "\" (String c "")
  else if (n =? 8)%nat then "\b" else if (n =? 9)%nat then "\t" else if (n =? 10)%nat then "\n"
  else if (n =? 12)%nat then "\f" else if (n =? 13)%nat then "\r"
  else if (n <? 32)%nat || (126 <? n)%nat then "\u" ++ hex_of 4 (Z.of_nat n)
  else String c "".

Fixpoint dumps_chars (s : string) : string :=
  match s with
  | EmptyString => ""
  | String c s' => dumps_char c ++ dumps_chars s'
  end.

Definition dumps_str (s : string) : string := String dquote_char (dumps_chars s ++ String dquote_char "").

(** A number the way [json.dumps] writes it. *)
Definition dumps_float (x : float) : string :=
  match x with
  | SpecFloat.S754_nan => "NaN"
  | SpecFloat.S754_infinity s => if s then "-Infinity" else "Infinity"
  | _ => float_repr x
  end.

Fixpoint json_dumps (j : Json) : string :=
  match j with
  | JNull => "null"
  | JBool b => if b then "true" else "false"
  | JInt z => int_str z
  | JFloat x => dumps_float x
  | JStr s => dumps_str s
  | JArr items => "[" ++ join ", " (map json_dumps items) ++ "]"
  | JObj fields => "{" ++ join ", " (map (λ '(k, v), dumps_str k ++ ": " ++ json_dumps v) fields) ++ "}"
  end.

Example json_dumps_example :
  json_dumps (JObj [("a", JArr [JInt 1; JNull; JBool false]); ("b", JStr (String dquote_char "\"))])
  = "{" ++ dumps_str "a" ++ ": [1, null, false], " ++ dumps_str "b" ++ ": " ++
      String dquote_char ("\" ++ String dquote_char ("\\" ++ String dquote_char "}")).
Proof. vm_compute. reflexivity. Qed.

(** ** The network *)

(** A request of [httpx] and its response: [None] for a body that is not
    JSON. *)
Record HttpRequest := mkHttpRequest {
  req_method : string; req_url : string; req_headers : list (string * string); req_json : option Json
}.
Record HttpResponse := mkHttpResponse { resp_status_code : Z; resp_json : option Json }.

(** What is outside the program: the HTTP client and the server behind it, and
    three parsers and printers of the standard library whose values are only
    passed on. *)
Class Network := {
  (** [client.request(...)] at the moment numbered by the second argument *)
  http_send : HttpRequest → Z → exn + HttpResponse;
  (** [datetime.fromisoformat] *)
  fromisoformat : string → option datetime;
  (** [json.loads] of a request body *)
  json_loads : string → option Json;
  (** [str(error)] *)
  exception_text : exn → string
}.

Definition raise_or {S E A} (r : E + A) : Comp S E A := match r with inl e => raise e | inr a => mret a end.

Definition is_error (r : HttpResponse) : bool :=
  (400 <=? resp_status_code r) && (resp_status_code r <=? 599).
