(* ===== verification/Email.v ===== *)
(** * Delivery of emails

    [src/nevo/notifications/email.py]: one message handed to the mail service
    over HTTP. The server behind it is [Json.Network]; the class name of an
    error of the HTTP client is a parameter. *)

From Stdlib Require Import Ascii String.
From S2P Require Import Prelude Relational Text Vocabulary Schema Json.

Local Open Scope string_scope.
Local Open Scope Z_scope.
Local Open Scope nevo_scope.

Definition RESEND_API_URL : string := "https://api.resend.com/emails".

Record EmailSettings := mkEmailSettings {
  resend_api_key : option string; from_address : string; email_frontend_base_url : string
}.

Definition email_configured (s : EmailSettings) : bool := is_some (resend_api_key s).
Definition frontend_base_url (s : EmailSettings) : string := rstrip_slash (email_frontend_base_url s).

(** The arguments of [send]. *)
Record OutgoingEmail := mkOutgoingEmail {
  out_to : string; out_subject : string; out_text : string; out_html : option string;
  out_attachment : option (string * string)
}.

(** The message as the mail service gets it. *)
Definition resend_body (s : EmailSettings) (e : OutgoingEmail) : Json :=
  JObj ([("from", JStr (from_address s)); ("to", JArr [JStr (out_to e)]);
         ("subject", JStr (out_subject e)); ("text", JStr (out_text e))] ++
        (if opt_truthy (out_html e) then [("html", JStr (default "" (out_html e)))] else []) ++
        match out_attachment e with
        | Some (filename, content) =>
          [("attachments", JArr [JObj [("filename", JStr filename); ("content", JStr (b64encode content))]])]
        | None => []
        end)%list.

Definition resend_request (s : EmailSettings) (key : string) (e : OutgoingEmail) : HttpRequest :=
  mkHttpRequest "POST" RESEND_API_URL
    [("Authorization", "Bearer " ++ key); ("Content-Type", "application/json")] (Some (resend_body s e)).

Section Delivery.
Context `{!Network}.
(** [type(error).__name__] *)
Context (error_name : exn → string).

(** [except httpx.HTTPError] *)
Definition unreachable (e : exn) : option (M HttpResponse) :=
  match e with
  | HttpxError _ => Some (raise (EmailDeliveryUnavailableError ("Resend could not be reached: " ++ error_name e)))
  | _ => None
  end.

(** [ResendEmailDelivery.send] *)
Definition send (s : EmailSettings) (e : OutgoingEmail) : M unit :=
  match resend_api_key s with
  | None => raise (EmailDeliveryUnavailableError "Resend email delivery is not configured")
  | Some key =>
    response ← try_except (
      moment ← uuid4;
      raise_or (http_send (resend_request s key e) moment)) unreachable;
    if is_error response
    then raise (EmailDeliveryUnavailableError ("Resend rejected the email with status " ++ int_str (resp_status_code response)))
    else mret tt
  end.

(** The mail service took the message. *)
Definition accepted (s : EmailSettings) (e : OutgoingEmail) : Prop :=
  ∃ key moment response, resend_api_key s = Some key ∧
    http_send (resend_request s key e) moment = inr response ∧ is_error response = false.

(** It is not configured, could not be reached, or refused it. *)
Definition rejected (s : EmailSettings) (e : OutgoingEmail) : Prop :=
  resend_api_key s = None ∨
  ∃ key moment, resend_api_key s = Some key ∧
    match http_send (resend_request s key e) moment with inl _ => True | inr response => is_error response = true end.

(** A send returns exactly when the message was taken; when the client only
    fails with its own errors, a send that raises says why. *)
Lemma send_run s e (db : Database) r db' :
  (∀ q n x, http_send q n = inl x → ∃ m, x = HttpxError m) →
  send s e db = (r, db') →
  db_tables db' = db_tables db ∧ db_now db' = db_now db ∧ db_uuids db <= db_uuids db' ∧
  match r with
  | inr _ => accepted s e
  | inl x => rejected s e ∧ ∃ message, x = EmailDeliveryUnavailableError message ∧ message ≠ ""
  end.
Proof.
  intros Hclient Hrun. unfold send in Hrun. destruct (resend_api_key s) as [key|] eqn:Hkey.
  2: { injection Hrun as <- <-. split_and!; [done|done|lia|by left|]. eexists. split; [done|discriminate]. }
  rewrite bind_run in Hrun. unfold try_except in Hrun. rewrite bind_run in Hrun. cbn [uuid4] in Hrun.
  unfold raise_or in Hrun. destruct (http_send _ _) as [x|response] eqn:Hsend.
  - destruct (Hclient _ _ _ Hsend) as [m ->]. injection Hrun as <- <-. cbn.
    split_and!; [done|done|lia|right; exists key, (db_uuids db); by rewrite Hsend|]. eexists. split; [done|discriminate].
  - cbn in Hrun. destruct (is_error response) eqn:Herr; injection Hrun as <- <-; cbn.
    + split_and!; [done|done|lia|right; exists key, (db_uuids db); by rewrite Hsend|].
      eexists. split; [done|discriminate].
    + split_and!; [done|done|lia|]. by exists key, (db_uuids db), response.
Qed.
End Delivery.
