(* ===== verification/Pdf.v ===== *)
(** * One-page documents

    [render_simple_pdf] of [src/nevo/intelligence/compliance_audit.py], which
    prints invoices and reports: the escaped lines, the five objects of the
    file and the table of where each begins. A text is the bytes of its
    encoding in UTF-8, which is what the program writes. *)

From Stdlib Require Import Ascii String.
From stdpp Require Import pretty.
From S2P Require Import Prelude Text Vocabulary.

Local Open Scope string_scope.
Local Open Scope Z_scope.
Local Open Scope nevo_scope.

Definition nl : string := String (ascii_of_nat 10) "".
Definition backslash : ascii := "\".

(** [_pdf_escape] *)
Definition pdf_escape (value : string) : string :=
  replace_char ")" "\)" (replace_char "(" "\(" (replace_char backslash "\\" value)).

(** [value[:n]]: the first [n] characters, each with the bytes that continue
    it. *)
Definition continues (c : ascii) : bool := let b := N_of_ascii c in ((128 <=? b) && (b <? 192))%N.

Fixpoint take_points (n : nat) (s : string) : string :=
  match s with
  | "" => ""
  | String c s' =>
    if continues c then String c (take_points n s')
    else match n with O => "" | S n' => String c (take_points n' s') end
  end.

(** The lines below the heading, each 22 points under the one before. *)
Fixpoint text_lines (y : Z) (lines : list string) : list string :=
  match lines with
  | [] => []
  | line :: rest =>
    let y := y - 22 in
    ("1 0 0 1 72 " ++ int_str y ++ " Tm (" ++ pdf_escape (take_points 110 line) ++ ") Tj") :: text_lines y rest
  end.

Definition content_lines (heading : string) (lines : list string) : list string :=
  (["BT"; "/F1 16 Tf"; "1 0 0 1 72 800 Tm"; ("(" ++ pdf_escape heading ++ ") Tj")%string; "/F1 11 Tf"] ++
   text_lines 760 lines ++ ["ET"])%list.

Definition string_length (s : string) : Z := Z.of_nat (String.length s).

Definition stream_object (stream : string) : string :=
  "<< /Length " ++ int_str (string_length stream) ++ " >>" ++ nl ++ "stream" ++ nl ++ stream ++ nl ++ "endstream".

Definition pdf_objects (stream : string) : list string :=
  ["<< /Type /Catalog /Pages 2 0 R >>";
   "<< /Type /Pages /Kids [3 0 R] /Count 1 >>";
   "<< /Type /Page /Parent 2 0 R /MediaBox [0 0 612 792] "
   ++ "/Resources << /Font << /F1 4 0 R >> >> /Contents 5 0 R >>";
   "<< /Type /Font /Subtype /Type1 /BaseFont /Helvetica >>";
   stream_object stream].

(** [f"{index} 0 obj\n" ... "\nendobj\n"] *)
Definition written_object (index : Z) (obj : string) : string :=
  int_str index ++ " 0 obj" ++ nl ++ obj ++ nl ++ "endobj" ++ nl.

(** [for index, obj in enumerate(objects, start=1)]: the file and where the
    objects begin in it. *)
Fixpoint write_objects (index : Z) (objects : list string) (pdf : string) (offsets : list Z) : string * list Z :=
  match objects with
  | [] => (pdf, offsets)
  | obj :: rest =>
    write_objects (index + 1) rest (pdf ++ written_object index obj) (offsets ++ [string_length pdf])%list
  end.

(** [f"{offset:010d} 00000 n \n"] *)
Definition xref_entry (offset : Z) : string := pad 10 offset ++ " 00000 n " ++ nl.

Definition pdf_header : string := "%PDF-1.4" ++ nl.
Definition xref_head (n : Z) : string := "xref" ++ nl ++ "0 " ++ int_str (n + 1) ++ nl ++ "0000000000 65535 f " ++ nl.
Definition trailer (n xref : Z) : string :=
  "trailer" ++ nl ++ "<< /Size " ++ int_str (n + 1) ++ " /Root 1 0 R >>" ++ nl ++ "startxref" ++ nl ++
  int_str xref ++ nl ++ "%%EOF" ++ nl.

(** The file around a stream. *)
Definition assemble (objects : list string) : string :=
  let '(pdf, offsets) := write_objects 1 objects pdf_header [] in
  let n := Z.of_nat (length objects) in
  pdf ++ xref_head n ++ join "" (map xref_entry offsets) ++ trailer n (string_length pdf).

(** [None] is the [IndexError] of no lines at all. *)
Definition render_simple_pdf (lines : list string) : option string :=
  match lines with
  | [] => None
  | heading :: rest => Some (assemble (pdf_objects (join nl (content_lines heading rest))))
  end.

Example pdf_escape_example : pdf_escape "a(b)\c" = "a\(b\)\\c".
Proof. reflexivity. Qed.

(** ** What a reader finds *)

(** A literal string of the format, from behind its opening parenthesis: the
    text and what follows the closing one. A backslash stands in front of a
    parenthesis or another backslash; of line ends, which the format reads as
    line feeds, a printable text has none. *)
Fixpoint pdf_string (s : string) : option (string * string) :=
  match s with
  | "" => None
  | String c s' =>
    if c == backslash then
      match s' with
      | String d s'' =>
        if (d == "("%char) || (d == ")"%char) || (d == backslash)
        then '(text, rest) ← pdf_string s''; Some (String d text, rest) else None
      | "" => None
      end
    else if c == ")"%char then Some ("", s')
    else if c == "("%char then None
    else '(text, rest) ← pdf_string s'; Some (String c text, rest)
  end.

Definition escaped (c : ascii) : string :=
  if (c == "("%char) || (c == ")"%char) || (c == backslash) then String backslash (String c "") else String c "".

Lemma pdf_escape_cons c s : pdf_escape (String c s) = escaped c ++ pdf_escape s.
Proof.
  unfold pdf_escape, escaped.
  destruct (decide (c = backslash)) as [->|Hb]; [reflexivity|].
  destruct (decide (c = "("%char)) as [->|Ho]; [reflexivity|].
  destruct (decide (c = ")"%char)) as [->|Hc]; [reflexivity|].
  assert (∀ x, String c "" ++ x = String c x) as Happ by done.
  do 3 (cbn [replace_char]; rewrite ?bool_decide_false, ?Happ by done). reflexivity.
Qed.

Lemma pdf_string_escaped c x :
  pdf_string (escaped c ++ x) = ('(text, rest) ← pdf_string x; Some (String c text, rest)).
Proof.
  unfold escaped.
  destruct (decide (c = "("%char)) as [->|Ho]; [reflexivity|].
  destruct (decide (c = ")"%char)) as [->|Hc]; [reflexivity|].
  destruct (decide (c = backslash)) as [->|Hb]; [reflexivity|].
  rewrite !bool_decide_false by done. cbn [orb]. change (String c "" ++ x) with (String c x). cbn [pdf_string].
  by rewrite !bool_decide_false by done.
Qed.

(** Whatever a line contains, a reader gets it back and goes on behind it. *)
Lemma pdf_string_escape s rest : pdf_string (pdf_escape s ++ String ")" rest) = Some (s, rest).
Proof. induction s as [|c s IH]; [reflexivity|]. by rewrite pdf_escape_cons, append_assoc, pdf_string_escaped, IH. Qed.

(** ** The table of objects *)

Lemma string_length_append a b : string_length (a ++ b) = string_length a + string_length b.
Proof. unfold string_length. rewrite append_length. lia. Qed.

(** What stands at a position of a file. *)
Definition stands_at (position : Z) (part whole : string) : Prop :=
  ∃ before after, whole = before ++ (part ++ after) ∧ string_length before = position.

Lemma stands_at_append position part whole rest :
  stands_at position part whole → stands_at position part (whole ++ rest).
Proof. intros (b & a & -> & Hb). exists b, (a ++ rest). by rewrite !append_assoc. Qed.

(** Every object stands where its entry says, and the file is only extended. *)
Lemma write_objects_spec objects : ∀ index pdf offsets pdf' offsets',
  write_objects index objects pdf offsets = (pdf', offsets') →
  (∃ rest, pdf' = pdf ++ rest) ∧
  ∃ own, offsets' = (offsets ++ own)%list ∧ length own = length objects ∧
    ∀ k obj offset, objects !! k = Some obj → own !! k = Some offset →
      stands_at offset (written_object (index + Z.of_nat k) obj) pdf'.
Proof.
  induction objects as [|obj rest IH]; intros index pdf offsets pdf' offsets' Hw; cbn [write_objects] in Hw.
  { injection Hw as <- <-. split; [exists ""; by rewrite append_nil|]. exists []. rewrite app_nil_r.
    split_and!; [done|done|]. intros k o off [=]. }
  apply IH in Hw as [(tail & ->) (own & -> & Hlen & Hat)]. split.
  { eexists. by rewrite append_assoc. }
  exists (string_length pdf :: own). split; [by rewrite <- app_assoc|]. split; [cbn; by rewrite Hlen|].
  intros [|k] o off Ho Hoff.
  - injection Ho as <-. injection Hoff as <-. rewrite Z.add_0_r. eexists pdf, tail. by rewrite append_assoc.
  - specialize (Hat k o off Ho Hoff). by replace (index + Z.of_nat (S k)) with (index + 1 + Z.of_nat k) by lia.
Qed.
(** An entry has the twenty bytes the format asks for, as long as ten digits
    are enough for the place. *)
Lemma pretty_N_go_length w : ∀ x s, (x < 10 ^ N.of_nat w)%N →
  (String.length (pretty_N_go x s) <= w + String.length s)%nat.
Proof.
  induction w as [|w IH]; intros x s Hx.
  - replace x with 0%N by (simpl in Hx; lia). by rewrite pretty_N_go_0.
  - destruct (decide (0 < x)%N) as [Hp|Hp]; [|replace x with 0%N by lia; rewrite pretty_N_go_0; lia].
    rewrite pretty_N_go_step by done. etrans; [apply IH|cbn; lia].
    rewrite Nat2N.inj_succ, N.pow_succ_r' in Hx. apply N.Div0.div_lt_upper_bound. lia.
Qed.

Lemma int_str_length w z : (0 < w)%nat → 0 <= z < 10 ^ Z.of_nat w → (String.length (int_str z) <= w)%nat.
Proof.
  intros Hw Hz. destruct z as [|p|p]; [cbn; lia| |lia].
  change (String.length (if decide (Npos p = 0)%N then "0" else pretty_N_go (Npos p) "") <= w)%nat.
  rewrite decide_False by done.
  etrans; [apply (pretty_N_go_length w)|cbn; lia]. apply N2Z.inj_lt. rewrite N2Z.inj_pow, nat_N_Z. cbn. lia.
Qed.

Lemma zeros_length k s :
  String.length ((fix zeros (k : nat) : string := match k with O => s | S k' => String "0" (zeros k') end) k)
  = (k + String.length s)%nat.
Proof. induction k as [|k IH]; [done|]. cbn. by rewrite IH. Qed.

Lemma xref_entry_length offset : 0 <= offset < 10 ^ 10 → String.length (xref_entry offset) = 20%nat.
Proof.
  intros Ho. unfold xref_entry. rewrite !append_length. unfold pad. rewrite zeros_length.
  pose proof (int_str_length 10 offset ltac:(lia) Ho). cbn. lia.
Qed.
(** ** The document *)

Lemma joined_contains sep x (l : list string) : x ∈ l → ∃ before after, join sep l = before ++ (x ++ after).
Proof.
  induction l as [|y l IH]; intros Hx; [by apply elem_of_nil in Hx|]. destruct l as [|z l].
  { apply list_elem_of_singleton in Hx as ->. exists "", "". by rewrite append_nil. }
  change (join sep (y :: z :: l)) with (y ++ sep ++ join sep (z :: l)).
  apply elem_of_cons in Hx as [->|Hx]; [by exists "", (sep ++ join sep (z :: l))|].
  destruct (IH Hx) as (b & a & ->). exists (y ++ (sep ++ b)), a. by rewrite !append_assoc.
Qed.

(** The text is shown: a literal string with it stands in the stream. *)
Definition shows (stream line : string) : Prop :=
  ∃ before after rest, stream = before ++ String "(" after ∧ pdf_string after = Some (line, rest).

Lemma shows_escaped prefix suffix line stream :
  (∃ before after, stream = before ++ ((prefix ++ String "(" (pdf_escape line ++ String ")" suffix)) ++ after)) →
  shows stream line.
Proof.
  intros (b & a & ->). eexists (b ++ prefix), _, _. split; [rewrite !append_assoc; reflexivity|].
  rewrite append_assoc. apply (pdf_string_escape line (suffix ++ a)).
Qed.

Lemma text_lines_show y lines line :
  line ∈ lines → ∃ y', ("1 0 0 1 72 " ++ int_str y' ++ " Tm (" ++ pdf_escape (take_points 110 line) ++ ") Tj") ∈ text_lines y lines.
Proof.
  revert y. induction lines as [|x lines IH]; intros y Hx; [by apply elem_of_nil in Hx|]. cbn [text_lines].
  apply elem_of_cons in Hx as [->|Hx]; [eexists; by left|]. destruct (IH (y - 22) Hx) as [y' Hy']. exists y'. by right.
Qed.

Lemma content_shows heading lines :
  let stream := join nl (content_lines heading lines) in
  shows stream heading ∧ ∀ line, line ∈ lines → shows stream (take_points 110 line).
Proof.
  intros stream. split.
  - apply (shows_escaped "" " Tj"). apply joined_contains. unfold content_lines. set_solver.
  - intros line [y Hy]%(text_lines_show 760). apply (shows_escaped ("1 0 0 1 72 " ++ int_str y ++ " Tm ") " Tj").
    assert ((("1 0 0 1 72 " ++ int_str y ++ " Tm ") ++ String "(" (pdf_escape (take_points 110 line) ++ String ")" " Tj"))
      = "1 0 0 1 72 " ++ int_str y ++ " Tm (" ++ pdf_escape (take_points 110 line) ++ ") Tj") as -> by (by rewrite !append_assoc).
    apply joined_contains. unfold content_lines. set_solver.
Qed.

(** The characters between the space and the tilde, which the font of the
    page and the strings of the format take for what they are. *)
Definition printable (s : string) : bool :=
  string_forall (λ c, let b := N_of_ascii c in ((32 <=? b) && (b <=? 126))%N) s.

Lemma take_points_printable n s : printable s = true → take_points n s = take_string n s.
Proof.
  revert n. induction s as [|c s IH]; intros n Hs; [by destruct n|]. apply andb_prop in Hs as [Hc Hs].
  assert (continues c = false) as Hcont.
  { apply andb_prop in Hc as [_ Hc%N.leb_le]. apply andb_false_iff. left. apply N.leb_gt. lia. }
  cbn [take_points]. rewrite Hcont. destruct n as [|n]; [done|]. cbn. by rewrite IH.
Qed.

