(* ===== verification/Kept.v ===== *)
(** * Rows that stay

    An operation may add rows and change others; [kept t r] says that the row
    [r] of the table [t] is there, unchanged, and that no other row has its
    identifier. It is the invariant of what is decided once and for all. *)

From S2P Require Import Prelude Relational Vocabulary Schema.

Local Open Scope Z_scope.
Local Open Scope nevo_scope.

Record kept (t : Table) (r : table_row t) (db : Database) : Prop := {
  kept_in : r ∈ db_tables db t;
  kept_alone : ∀ x, x ∈ db_tables db t → table_id t x = table_id t r → x = r;
  kept_issued : table_id t r < db_uuids db
}.

Lemma wf_kept t r db : db_wf db → r ∈ db_tables db t → kept t r db.
Proof.
  intros Hwf Hr. destruct (db_wf_keyed t db Hwf) as [Hnd Hlt]. split; [done| |by apply Hlt].
  intros x Hx Heq. by apply (NoDup_map_inj (table_id t) (db_tables db t)).
Qed.

Lemma kept_of_ok t r db :
  db_ok db = true → r ∈ db_tables db t → table_id t r < db_uuids db → kept t r db.
Proof.
  intros Hok Hr Hlt. split; [done| |done]. intros x Hx Heq. rewrite db_ok_spec in Hok.
  by apply (NoDup_map_inj (table_id t) (db_tables db t)); [exact (table_primary_key t _ (Hok t))|..].
Qed.

Section Kept.
Context (t : Table) (r : table_row t).

Lemma kept_other (db db' : Database) :
  kept t r db → db_tables db' t = db_tables db t → db_uuids db <= db_uuids db' → kept t r db'.
Proof. intros [Hin Halone Hi] Ht Hu. split; rewrite ?Ht; [done|done|lia]. Qed.

(** Statements on other tables. *)
Lemma keeps_kept_insert t' x : t' ≠ t → keeps (kept t r) (insert t' x).
Proof. intros Hne db a db' Hdb [= _ <-]. eapply kept_other; [done|by apply set_table_ne|by rewrite set_table_uuids]. Qed.
Lemma keeps_kept_update t' p f : t' ≠ t → keeps (kept t r) (update_where t' p f).
Proof. intros Hne db a db' Hdb [= _ <-]. eapply kept_other; [done|by apply set_table_ne|by rewrite set_table_uuids]. Qed.
Lemma keeps_kept_save t' x : t' ≠ t → keeps (kept t r) (save t' x).
Proof. apply keeps_kept_update. Qed.
Lemma keeps_kept_delete t' p : t' ≠ t → keeps (kept t r) (delete_where t' p).
Proof. intros Hne db a db' Hdb [= _ <-]. eapply kept_other; [done|by apply set_table_ne|by rewrite set_table_uuids]. Qed.
Lemma keeps_kept_uuid4 : keeps (kept t r) uuid4.
Proof. intros db a db' Hdb [= _ <-]. eapply kept_other; [done|done|simpl; lia]. Qed.

(** Statements on the table itself: another row is changed, a new one added. *)
Lemma keeps_kept_save_same x : table_id t x ≠ table_id t r → keeps (kept t r) (save t x).
Proof.
  intros Hne db a db' [Hin Halone Hi] [= _ <-]. split; [| |exact Hi]; rewrite set_table_eq.
  - apply elem_of_update_list. exists r. split; [done|]. by rewrite bool_decide_false by congruence.
  - intros y (z & Hz & ->)%elem_of_update_list. case_bool_decide as Hc; [by intros ?|]. by apply Halone.
Qed.

Lemma kept_appended mk db :
  (∀ i, table_id t (mk i) = i) → kept t r db → kept t r (appended t mk db).
Proof.
  intros Hid [Hin Halone Hi]. split; unfold appended; autorewrite with store.
  - set_solver.
  - intros x [Hx|Hx]%elem_of_app; [by apply Halone|].
    apply list_elem_of_singleton in Hx as ->. rewrite Hid. lia.
  - simpl. lia.
Qed.

Lemma keeps_kept_insert_fresh {A} (mk : uuid → table_row t) (k : uuid → M A) :
  (∀ i, table_id t (mk i) = i) → (∀ i, keeps (kept t r) (k i)) →
  keeps (kept t r) (i ← uuid4; insert t (mk i);; k i).
Proof.
  intros Hid Hk db a db' Hdb Hrun. unfold uuid4, insert in Hrun. rewrite !bind_run in Hrun.
  eapply Hk; [|exact Hrun]. exact (kept_appended mk db Hid Hdb).
Qed.

(** A row that was looked up is the kept one or has another identifier. *)
Lemma keeps_kept_found {A} (p : table_row t → bool) (k : option (table_row t) → M A) :
  keeps (kept t r) (k None) →
  (∀ x, p x = true → (table_id t x = table_id t r → x = r) → keeps (kept t r) (k (Some x))) →
  keeps (kept t r) (scalar t p ≫= k).
Proof.
  intros Hn Hs db a db' Hdb Hrun. erewrite bind_inr in Hrun by reflexivity.
  destruct (findb _ _) as [x|] eqn:Hf; [|by eapply Hn].
  apply findb_Some in Hf as [Hp Hx]. eapply Hs; [exact Hp| |exact Hdb|exact Hrun]. by apply (kept_alone _ _ _ Hdb).
Qed.

(** What a computation handed out is not the identifier of a kept row. *)
Lemma preserves_kept_begin {A} (m : M A) : keeps (kept t r) m → preserves (kept t r) (begin_ m).
Proof. apply preserves_transaction_keeps. Qed.

Lemma preserves_kept_uuid4 : preserves (kept t r) uuid4.
Proof. intros db Hdb. eapply kept_other; [done|done|simpl; lia]. Qed.
End Kept.

#[export] Hint Extern 1 (keeps (kept _ _) (insert _ _)) => apply keeps_kept_insert; discriminate : keeps.
#[export] Hint Extern 1 (keeps (kept _ _) (update_where _ _ _)) => apply keeps_kept_update; discriminate : keeps.
#[export] Hint Extern 1 (keeps (kept _ _) (save _ _)) => apply keeps_kept_save; discriminate : keeps.
#[export] Hint Extern 1 (keeps (kept _ _) (delete_where _ _)) => apply keeps_kept_delete; discriminate : keeps.
#[export] Hint Extern 1 (keeps (kept _ _) uuid4) => apply keeps_kept_uuid4 : keeps.
#[export] Hint Extern 1 (preserves (kept _ _) uuid4) => apply preserves_kept_uuid4 : preserves.
#[export] Hint Extern 1 (preserves _ (rows _)) => apply preserves_reads; reflexivity : preserves.
#[export] Hint Extern 1 (preserves _ (select _ _)) => apply preserves_reads; reflexivity : preserves.
#[export] Hint Extern 1 (preserves _ (scalar _ _)) => apply preserves_reads; reflexivity : preserves.
#[export] Hint Extern 1 (preserves _ (get _ _)) => apply preserves_reads; reflexivity : preserves.
