(* ===== verification/Calendar.v ===== *)
(** * Calendar arithmetic

    Python's [date] plus a number of days, and [date.fromisoformat]. Dates
    beyond the year 9999, where Python raises [OverflowError], are not
    reached by the code's spans of at most six years. *)

From Stdlib Require Import Ascii String.
From S2P Require Import Prelude Text.

Local Open Scope string_scope.
Local Open Scope Z_scope.
Local Open Scope nevo_scope.

(** Days since 1970-01-01. *)
Definition days_of_civil (d : date) : Z :=
  let y := if month d <=? 2 then year d - 1 else year d in
  let era := y / 400 in
  let yoe := y - era * 400 in
  let mp := (month d + 9) mod 12 in
  let doy := (153 * mp + 2) / 5 + day d - 1 in
  let doe := yoe * 365 + yoe / 4 - yoe / 100 + doy in
  era * 146097 + doe - 719468.

(** [d + timedelta(days=n)] *)
Definition add_days (d : date) (n : Z) : date := civil_of_days (days_of_civil d + n).

Example add_days_examples :
  (add_days (mkDate 2026 9 1) 365, add_days (mkDate 2026 9 1) 730, add_days (mkDate 2026 9 1) 121,
   add_days (mkDate 2024 2 28) 2)
  = (mkDate 2027 9 1, mkDate 2028 8 31, mkDate 2026 12 31, mkDate 2024 3 1).
Proof. vm_compute. reflexivity. Qed.

(** ** [date.fromisoformat] *)

(** [n] decimal digits and what follows them. *)
Fixpoint parse_digits (n : nat) (acc : Z) (s : string) : option (Z * string) :=
  match n, s with
  | O, _ => Some (acc, s)
  | S n', String c s' =>
    if is_digit c then parse_digits n' (10 * acc + (Z.of_N (N_of_ascii c) - 48)) s' else None
  | S _, EmptyString => None
  end.

(** A character that must be there when separators are used. *)
Definition separator (uses_separator : bool) (s : string) : option string :=
  if uses_separator then match s with String c s' => if c == "-"%char then Some s' else None | "" => None end
  else Some s.

(** Monday is 0. *)
Definition weekday (n : Z) : Z := (n + 3) mod 7.

Definition iso_week1_monday (y : Z) : Z :=
  let first_day := days_of_civil (mkDate y 1 1) in
  let monday := first_day - weekday first_day in
  if 3 <? weekday first_day then monday + 7 else monday.

Definition iso_to_date (y week d : Z) : option date :=
  let first_weekday := weekday (days_of_civil (mkDate y 1 1)) in
  let has_week_53 := (first_weekday =? 3) || ((first_weekday =? 2) && leap_year y) in
  if (1 <=? week) && ((week <? 53) || ((week =? 53) && has_week_53)) && (1 <=? d) && (d <=? 7)
  then Some (civil_of_days (iso_week1_monday y + (week - 1) * 7 + d - 1)) else None.

Definition parse_iso_fields (s : string) : option date :=
  '(y, rest) ← parse_digits 4 0 s;
  let sep := match rest with String c _ => c == "-"%char | "" => false end in
  rest ← separator sep rest;
  match rest with
  | String "W" rest =>
    '(week, rest) ← parse_digits 2 0 rest;
    match rest with
    | "" => iso_to_date y week 1
    | _ => rest ← separator sep rest; '(d, _) ← parse_digits 1 0 rest; iso_to_date y week d
    end
  | _ =>
    '(m, rest) ← parse_digits 2 0 rest;
    rest ← separator sep rest;
    '(d, _) ← parse_digits 2 0 rest;
    Some (mkDate y m d)
  end.

Definition date_fromisoformat (s : string) : option date :=
  if bool_decide (String.length s ∈ [7; 8; 10]%nat) then
    d ← parse_iso_fields s;
    if date_valid d then Some d else None
  else None.

Example date_fromisoformat_examples :
  map date_fromisoformat ["2026-09-01"; "20260901"; "2026-W36"; "2026W362"; "2026-W36-2"; "20260901ab"]
    = [Some (mkDate 2026 9 1); Some (mkDate 2026 9 1); Some (mkDate 2026 8 31); Some (mkDate 2026 9 1);
       Some (mkDate 2026 9 1); Some (mkDate 2026 9 1)] ∧
  map date_fromisoformat ["2026-0901"; "202609-01"; "2026-W362"; "2026-9-1"; "2026-W54"; "2021-W53-1";
      "0000-01-01"; "2026-W00-1"; "2026-02-30"; ""]
    = repeat None 10 ∧
  date_fromisoformat "2020-W53-1" = Some (mkDate 2020 12 28).
Proof. vm_compute. auto. Qed.

(** Every date that is written is read back. *)
