(* ===== verification/Money.v ===== *)
(** * Decimal arithmetic

    Python's [decimal] as the billing and payment code uses it, on the
    representation of [Schema] ([coef / 10 ^ scale]). The arithmetic is exact;
    the code stays far below the 28 digits of the default context, its columns
    being [NUMERIC(12, 2)]. *)

From Stdlib Require Import String.
From S2P Require Import Prelude Relational Text Vocabulary Schema.

Local Open Scope string_scope.
Local Open Scope Z_scope.
Local Open Scope nevo_scope.

Inductive Rounding := ROUND_HALF_UP | ROUND_HALF_EVEN.

Definition pow10 (n : nat) : Z := 10 ^ Z.of_nat n.

Lemma pow10_pos n : 0 < pow10 n.
Proof. unfold pow10. apply Z.pow_pos_nonneg; lia. Qed.

Lemma pow10_add m n : pow10 (m + n) = pow10 m * pow10 n.
Proof. unfold pow10. rewrite Nat2Z.inj_add. apply Z.pow_add_r; lia. Qed.

(** [n / k] to the nearest integer, for [0 <= n] and [0 < k]. *)
Definition round_div (rounding : Rounding) (n k : Z) : Z :=
  let q := n / k in
  let r := n mod k in
  match rounding with
  | ROUND_HALF_UP => if k <=? 2 * r then q + 1 else q
  | ROUND_HALF_EVEN => if (k <? 2 * r) || ((2 * r =? k) && Z.odd q) then q + 1 else q
  end.

Definition dec_of_Z (z : Z) : decimal := mkDecimal z 0.

(** [d.quantize(Decimal(10) ** -places, rounding=...)] *)
Definition dec_quantize (rounding : Rounding) (places : nat) (d : decimal) : decimal :=
  if (dec_scale d <=? places)%nat
  then mkDecimal (dec_coef d * pow10 (places - dec_scale d)) places
  else mkDecimal (Z.sgn (dec_coef d) *
                  round_div rounding (Z.abs (dec_coef d)) (pow10 (dec_scale d - places))) places.

Definition dec_mul (a b : decimal) : decimal :=
  mkDecimal (dec_coef a * dec_coef b) (dec_scale a + dec_scale b).

(** The coefficient of [d] written with [scale] digits after the point, for a
    scale that is large enough. *)
Definition dec_at (scale : nat) (d : decimal) : Z := dec_coef d * pow10 (scale - dec_scale d).

Definition dec_add (a b : decimal) : decimal :=
  let s := Nat.max (dec_scale a) (dec_scale b) in mkDecimal (dec_at s a + dec_at s b) s.
Definition dec_sub (a b : decimal) : decimal :=
  let s := Nat.max (dec_scale a) (dec_scale b) in mkDecimal (dec_at s a - dec_at s b) s.

(** Numerical comparison. *)
Definition dec_eqb (a b : decimal) : bool :=
  dec_coef a * pow10 (dec_scale b) =? dec_coef b * pow10 (dec_scale a).
Definition dec_leb (a b : decimal) : bool :=
  dec_coef a * pow10 (dec_scale b) <=? dec_coef b * pow10 (dec_scale a).
Definition dec_ltb (a b : decimal) : bool := negb (dec_leb b a).

(** [int(d)]: towards zero. *)
Definition dec_int (d : decimal) : Z := Z.quot (dec_coef d) (pow10 (dec_scale d)).

(** [str(d)], for an amount with at most six decimals. *)
Definition dec_str (d : decimal) : string :=
  let c := Z.abs (dec_coef d) in
  (if dec_coef d <? 0 then "-" else "") ++
  (if (dec_scale d =? 0)%nat then int_str c
   else int_str (c / pow10 (dec_scale d)) ++ "." ++ pad (dec_scale d) (c mod pow10 (dec_scale d))).

(** A comma before every third digit from the right. *)
Fixpoint group_digits (s : string) : string :=
  match s with
  | "" => ""
  | String c s' =>
    String c (if (Nat.modulo (String.length s') 3 =? 0)%nat && (s' != "") then "," ++ group_digits s'
              else group_digits s')
  end.

(** [f"{d:,.2f}"] *)
Definition dec_money_str (d : decimal) : string :=
  let c := dec_coef (dec_quantize ROUND_HALF_EVEN 2 d) in
  (if c <? 0 then "-" else "") ++ group_digits (int_str (Z.abs c / 100)) ++ "." ++ pad 2 (Z.abs c mod 100).

Example dec_str_examples :
  (map dec_str [mkDecimal 750 2; mkDecimal 5 2; mkDecimal (-12) 1; mkDecimal 7 0],
   map dec_money_str [mkDecimal 64500000 2; mkDecimal 99 2; mkDecimal 1234567 0; mkDecimal (-1005) 3])
  = (["7.50"; "0.05"; "-1.2"; "7"], ["645,000.00"; "0.99"; "1,234,567.00"; "-1.00"]).
Proof. vm_compute. reflexivity. Qed.

Example quantize_examples :
  map (dec_quantize ROUND_HALF_UP 2) [mkDecimal 12345 3; mkDecimal (-12345) 3; mkDecimal 7 0]
    = [mkDecimal 1235 2; mkDecimal (-1235) 2; mkDecimal 700 2] ∧
  map (dec_quantize ROUND_HALF_EVEN 2) [mkDecimal 12345 3; mkDecimal 12355 3; mkDecimal 12356 3]
    = [mkDecimal 1234 2; mkDecimal 1236 2; mkDecimal 1236 2].
Proof. vm_compute. auto. Qed.

(** ** Facts *)

Lemma round_div_near rounding n k :
  0 < k → 2 * Z.abs (n - round_div rounding n k * k) <= k.
Proof.
  intros Hk. pose proof (Z.div_mod n k ltac:(lia)). pose proof (Z.mod_pos_bound n k Hk).
  unfold round_div. destruct rounding.
  - destruct (Z.leb_spec k (2 * (n mod k))); nia.
  - destruct (Z.ltb_spec k (2 * (n mod k))); simpl; [nia|].
    destruct (Z.eqb_spec (2 * (n mod k)) k); simpl; [|nia]. destruct (Z.odd (n / k)); nia.
Qed.

(** Half up: the nearest, the larger of two. *)
Lemma round_half_up n k :
  0 < k → - k < 2 * (round_div ROUND_HALF_UP n k * k - n) <= k.
Proof.
  intros Hk. pose proof (Z.div_mod n k ltac:(lia)). pose proof (Z.mod_pos_bound n k Hk).
  unfold round_div. destruct (Z.leb_spec k (2 * (n mod k))); nia.
Qed.

(** Quantizing moves a value by at most half a unit of the last place kept. *)
Lemma dec_quantize_near rounding places d :
  2 * Z.abs (dec_coef d * pow10 places - dec_coef (dec_quantize rounding places d) * pow10 (dec_scale d))
    <= pow10 (dec_scale d).
Proof.
  unfold dec_quantize. destruct (Nat.leb_spec (dec_scale d) places) as [Hs|Hs]; simpl.
  - replace places with (dec_scale d + (places - dec_scale d))%nat at 1 by lia.
    rewrite pow10_add. pose proof (pow10_pos (dec_scale d)).
    replace (_ - _) with 0 by ring. lia.
  - set (e := (dec_scale d - places)%nat).
    assert (pow10 (dec_scale d) = pow10 places * pow10 e) as ->.
    { rewrite <- pow10_add. f_equal. unfold e. lia. }
    pose proof (round_div_near rounding (Z.abs (dec_coef d)) _ (pow10_pos e)) as Hn.
    set (q := round_div _ _ _) in *. pose proof (pow10_pos places) as Hp.
    assert (Z.abs (dec_coef d * pow10 places - Z.sgn (dec_coef d) * q * (pow10 places * pow10 e)) =
            Z.abs (Z.abs (dec_coef d) - q * pow10 e) * pow10 places ∨ dec_coef d = 0) as [->|H0].
    { destruct (Z.lt_trichotomy (dec_coef d) 0) as [Hd|[Hd|Hd]]; [left|by right|left].
      - rewrite (Z.sgn_neg _ Hd), (Z.abs_neq (dec_coef d)) by lia.
        rewrite <- (Z.abs_eq (pow10 places)) at 3 by lia. rewrite <- Z.abs_mul.
        rewrite <- Z.abs_opp. f_equal. ring.
      - rewrite (Z.sgn_pos _ Hd), (Z.abs_eq (dec_coef d)) by lia.
        rewrite <- (Z.abs_eq (pow10 places)) at 3 by lia. rewrite <- Z.abs_mul. f_equal. ring. }
    + nia.
    + rewrite H0. simpl. nia.
Qed.

Lemma dec_quantize_exact rounding places d :
  (dec_scale d <= places)%nat →
  dec_quantize rounding places d = mkDecimal (dec_at places d) places.
Proof. intros Hs. unfold dec_quantize. by apply Nat.leb_le in Hs as ->. Qed.

Lemma dec_quantize_scale rounding places d : dec_scale (dec_quantize rounding places d) = places.
Proof. unfold dec_quantize. by destruct (_ <=? _)%nat. Qed.
