(* ===== verification/AiGateway.v ===== *)
(** * The AI gateway's tool loop, fallback and rate limit

    [src/nevo/ai_gateway/agent.py], [fallback.py] and the rate limit of
    [scheduler.py], with the requests and answers of [entities.py]. The
    provider and the tools of a caller are computations of any kind: what they
    do to the state, and whether they raise, is theirs. *)

From Stdlib Require Import Ascii String Sorted.
From stdpp Require Import gmap.
From S2P Require Import Prelude Relational Text Vocabulary Schema ZeroTag Json Money.

Local Open Scope string_scope.
Local Open Scope Z_scope.
Local Open Scope nevo_scope.

(** ** Entities *)

Record ToolCall := mkToolCall {
  tool_call_id : string; tool_call_name : string; tool_call_arguments : list (string * Json)
}.

Record ProviderRequest := mkProviderRequest {
  preq_system_instruction : string; preq_user_content : string; preq_max_output_tokens : Z;
  preq_model : option string; preq_cache_prompt : bool; preq_tools : list Json;
  preq_history : list Json; preq_timeout_seconds : option decimal
}.

Record ProviderResponse := mkProviderResponse {
  pres_text : string; pres_provider : AiProviderName; pres_model : string;
  pres_tool_calls : list ToolCall; pres_raw_content : list Json; pres_stop_reason : option string;
  pres_input_tokens : Z; pres_output_tokens : Z; pres_thought_tokens : Z;
  pres_cache_creation_input_tokens : Z; pres_cache_read_input_tokens : Z
}.

Definition new_ProviderResponse (text : string) (provider : AiProviderName) (model : string) : ProviderResponse :=
  mkProviderResponse text provider model [] [] None 0 0 0 0 0.

(** ** The loop over tool calls *)

Definition MAX_TOOL_ITERATIONS : Z := 5.
Definition MAX_TOOL_CALLS : Z := 12.

Record AgentOutcome := mkAgentOutcome {
  outcome_text : string; outcome_tool_names : list string; outcome_iterations : Z;
  outcome_truncated : bool; outcome_response : ProviderResponse
}.

Definition response_with_text (o : AgentOutcome) : ProviderResponse :=
  let r := outcome_response o in
  mkProviderResponse (outcome_text o) (pres_provider r) (pres_model r) (pres_tool_calls r) (pres_raw_content r)
    (pres_stop_reason r) (pres_input_tokens r) (pres_output_tokens r) (pres_thought_tokens r)
    (pres_cache_creation_input_tokens r) (pres_cache_read_input_tokens r).

(** [_with_history]: the timeout of the request is not among what is copied. *)
Definition with_history (request : ProviderRequest) (history : list Json) (drop_tools : bool) : ProviderRequest := {|
  preq_system_instruction := preq_system_instruction request; preq_user_content := preq_user_content request;
  preq_max_output_tokens := preq_max_output_tokens request; preq_model := preq_model request;
  preq_cache_prompt := preq_cache_prompt request;
  preq_tools := if drop_tools then [] else preq_tools request;
  preq_history := history; preq_timeout_seconds := None |}.

Definition assistant_turn (r : ProviderResponse) : Json :=
  JObj [("role", JStr "assistant"); ("content", JArr (pres_raw_content r))].
Definition tool_result (call : ToolCall) (payload : Json) : Json :=
  JObj [("type", JStr "tool_result"); ("tool_use_id", JStr (tool_call_id call)); ("content", JStr (json_dumps payload))].
Definition results_turn (results : list Json) : Json :=
  JObj [("role", JStr "user"); ("content", JArr results)].

Section Agent.
Context {S E : Type} (generate : ProviderRequest → Comp S E ProviderResponse)
  (execute : string → list (string * Json) → Comp S E Json).
Context (request : ProviderRequest) (max_iterations max_tool_calls : Z).

(** Asked once more, without tools. *)
Definition answer_without_tools (history : list Json) (used : list string) : Comp S E AgentOutcome :=
  final ← generate (with_history request history true);
  mret (mkAgentOutcome (pres_text final) used max_iterations true final).

(** [n] iterations are left; [iteration] is the number of this one. *)
Fixpoint tool_iterations (n : nat) (iteration : Z) (history : list Json) (used : list string)
  : Comp S E AgentOutcome :=
  match n with
  | O => answer_without_tools history used
  | Datatypes.S n' =>
    last ← generate (with_history request history false);
    match pres_tool_calls last with
    | [] => mret (mkAgentOutcome (pres_text last) used iteration false last)
    | calls =>
      if max_tool_calls <? Z.of_nat (length used) + Z.of_nat (length calls) then answer_without_tools history used
      else
        results ← map_each calls (λ call,
          payload ← execute (tool_call_name call) (tool_call_arguments call);
          mret (tool_result call payload));
        tool_iterations n' (iteration + 1) (history ++ [assistant_turn last; results_turn results])%list
          (used ++ map tool_call_name calls)%list
    end
  end.

Definition run_tool_loop : Comp S E AgentOutcome :=
  tool_iterations (Z.to_nat max_iterations) 1 (preq_history request) [].

(** ** What a turn costs

    [spent] measures the state: calls of the provider, or calls of tools. *)
Section Cost.
Context (spent : S → Z) (per_call per_tool : Z).
Hypothesis (Hgenerate : ∀ r s, spent s <= spent (snd (generate r s)) <= spent s + per_call)
  (Hexecute : ∀ name args s, spent s <= spent (snd (execute name args s)) <= spent s + per_tool)
  (Hpos : 0 <= per_call ∧ 0 <= per_tool).

Lemma execute_cost calls s :
  spent s <= spent (snd (map_each calls (λ call,
    payload ← execute (tool_call_name call) (tool_call_arguments call);
    mret (tool_result call payload)) s)) <= spent s + per_tool * Z.of_nat (length calls).
Proof.
  revert s. induction calls as [|call calls IH]; intros s; [simpl; lia|].
  cbn [map_each]. rewrite !bind_run. pose proof (Hexecute (tool_call_name call) (tool_call_arguments call) s) as Hx.
  destruct (execute _ _ s) as [[e|payload] s1]; cbn [snd] in Hx |- *; [cbn [length]; nia|].
  rewrite ret_run. cbn [fst snd]. rewrite bind_run. specialize (IH s1).
  destruct (map_each calls _ s1) as [[e|rs] s2]; [|rewrite ret_run]; cbn [snd] in IH |- *; cbn [length]; nia.
Qed.

Lemma answer_cost history used s :
  spent s <= spent (snd (answer_without_tools history used s)) <= spent s + per_call.
Proof.
  unfold answer_without_tools. rewrite bind_run. pose proof (Hgenerate (with_history request history true) s) as Hg.
  by destruct (generate _ s) as [[e|r] s1].
Qed.

Lemma tool_iterations_cost n iteration history used s :
  Z.of_nat (length used) <= max_tool_calls →
  spent s <= spent (snd (tool_iterations n iteration history used s)) <=
    spent s + per_call * (Z.of_nat n + 1) + per_tool * (max_tool_calls - Z.of_nat (length used)).
Proof.
  revert iteration history used s. induction n as [|n IH]; intros iteration history used s Hused.
  { pose proof (answer_cost history used s). simpl. nia. }
  cbn [tool_iterations]. rewrite bind_run. pose proof (Hgenerate (with_history request history false) s) as Hg.
  destruct (generate _ s) as [[e|r] s1]; cbn [snd] in Hg |- *; [nia|].
  destruct (pres_tool_calls r) as [|call calls] eqn:Hcalls; [simpl; nia|]. rewrite <- Hcalls. clear Hcalls.
  destruct (Z.ltb_spec max_tool_calls (Z.of_nat (length used) + Z.of_nat (length (pres_tool_calls r)))).
  { pose proof (answer_cost history used s1). nia. }
  rewrite bind_run. pose proof (execute_cost (pres_tool_calls r) s1) as Hx.
  destruct (map_each (pres_tool_calls r) _ s1) as [[e|results] s2]; cbn [snd] in Hx |- *; [nia|].
  pose proof (IH (iteration + 1) (history ++ [assistant_turn r; results_turn results])%list
    (used ++ map tool_call_name (pres_tool_calls r))%list s2) as Hrec.
  rewrite length_app, length_map in Hrec. specialize (Hrec ltac:(lia)). nia.
Qed.
End Cost.

(** What an answer of the loop is. *)
Definition sound_outcome (used : list string) (o : AgentOutcome) : Prop :=
  (∃ more, outcome_tool_names o = (used ++ more)%list) ∧
  Z.of_nat (length (outcome_tool_names o)) <= max_tool_calls ∧
  outcome_iterations o <= max_iterations ∧ outcome_text o = pres_text (outcome_response o) ∧
  (outcome_truncated o = false → pres_tool_calls (outcome_response o) = []).

Lemma answer_outcome history used s o s' :
  Z.of_nat (length used) <= max_tool_calls → 0 <= max_iterations →
  answer_without_tools history used s = (inr o, s') → sound_outcome used o.
Proof.
  intros Hu Hmax Hrun. apply bind_inv_inr in Hrun as (r & s1 & _ & Hret). injection Hret as <- _.
  split_and!; [exists []; by rewrite app_nil_r|done|cbn; lia|done|done].
Qed.

Lemma tool_iterations_outcome n iteration history used s o s' :
  Z.of_nat (length used) <= max_tool_calls → 0 <= max_iterations → iteration + Z.of_nat n <= max_iterations + 1 →
  tool_iterations n iteration history used s = (inr o, s') → sound_outcome used o.
Proof.
  revert iteration history used s. induction n as [|n IH]; intros iteration history used s Hu Hmax Hit Hrun.
  { by eapply answer_outcome. }
  cbn [tool_iterations] in Hrun. apply bind_inv_inr in Hrun as (r & s1 & _ & Hrun).
  destruct (pres_tool_calls r) as [|call calls] eqn:Hcalls.
  { injection Hrun as <- _. split_and!; [exists []; by rewrite app_nil_r|done|cbn; lia|done|done]. }
  rewrite <- Hcalls in Hrun.
  destruct (Z.ltb_spec max_tool_calls (Z.of_nat (length used) + Z.of_nat (length (pres_tool_calls r)))).
  { by eapply answer_outcome. }
  apply bind_inv_inr in Hrun as (results & s2 & _ & Hrun). apply IH in Hrun as (H1 & H2).
  - split; [|done]. destruct H1 as [more Hmore]. exists (map tool_call_name (pres_tool_calls r) ++ more)%list.
    by rewrite Hmore, app_assoc.
  - rewrite length_app, length_map. lia.
  - done.
  - lia.
Qed.

(** The loop returns when the provider and the tools do. *)
Lemma execute_returns calls s :
  (∀ name args s, returned (fst (execute name args s)) = true) →
  returned (fst (map_each calls (λ call,
    payload ← execute (tool_call_name call) (tool_call_arguments call);
    mret (tool_result call payload)) s)) = true.
Proof.
  intros Hx. revert s. induction calls as [|call calls IH]; intros s; [done|].
  cbn [map_each]. rewrite !bind_run. pose proof (Hx (tool_call_name call) (tool_call_arguments call) s) as H1.
  destruct (execute _ _ s) as [[e|payload] s1]; [done|]. rewrite ret_run, bind_run. specialize (IH s1).
  by destruct (map_each calls _ s1) as [[e|rs] s2].
Qed.

Lemma answer_returns history used s :
  (∀ r s, returned (fst (generate r s)) = true) → returned (fst (answer_without_tools history used s)) = true.
Proof.
  intros Hg. unfold answer_without_tools. rewrite bind_run. pose proof (Hg (with_history request history true) s) as H.
  by destruct (generate _ s) as [[e|r] s1].
Qed.

Lemma tool_iterations_returns n iteration history used s :
  (∀ r s, returned (fst (generate r s)) = true) → (∀ name args s, returned (fst (execute name args s)) = true) →
  returned (fst (tool_iterations n iteration history used s)) = true.
Proof.
  intros Hg Hx. revert iteration history used s. induction n as [|n IH]; intros iteration history used s.
  { by apply answer_returns. }
  cbn [tool_iterations]. rewrite bind_run. pose proof (Hg (with_history request history false) s) as H.
  destruct (generate _ s) as [[e|r] s1]; [done|].
  destruct (pres_tool_calls r) as [|call calls] eqn:Hcalls; [done|]. rewrite <- Hcalls.
  destruct (_ <? _); [by apply answer_returns|]. rewrite bind_run.
  pose proof (execute_returns (pres_tool_calls r) s1 Hx) as H2.
  destruct (map_each (pres_tool_calls r) _ s1) as [[e|results] s2]; [done|]. apply IH.
Qed.
End Agent.

(** C15: a tool loop is bounded whatever the model asks for. With the caps of the code the
    provider is called at most six times and tools at most twelve; when the provider and the
    tools return, so does the loop; and an answer lists at most twelve tool calls, carries the
    text of the last response and is only that of a model still asking for tools when it is
    marked as truncated. *)
Theorem tool_loop_is_bounded {S E} (generate : ProviderRequest → Comp S E ProviderResponse)
    (execute : string → list (string * Json) → Comp S E Json) request (calls tools : S → Z) s :
  (∀ r s, calls s <= calls (snd (generate r s)) <= calls s + 1 ∧ tools (snd (generate r s)) = tools s) →
  (∀ name args s, calls (snd (execute name args s)) = calls s ∧
     tools s <= tools (snd (execute name args s)) <= tools s + 1) →
  let run := run_tool_loop generate execute request MAX_TOOL_ITERATIONS MAX_TOOL_CALLS s in
  calls (snd run) <= calls s + 6 ∧ tools (snd run) <= tools s + 12 ∧
  ((∀ r s, returned (fst (generate r s)) = true) → (∀ name args s, returned (fst (execute name args s)) = true) →
   returned (fst run) = true) ∧
  ∀ o, fst run = inr o →
    (length (outcome_tool_names o) <= 12)%nat ∧ outcome_iterations o <= 5 ∧
    outcome_text o = pres_text (outcome_response o) ∧
    (outcome_truncated o = false → pres_tool_calls (outcome_response o) = []).
Proof.
  intros Hg Hx run. split_and!.
  - destruct (tool_iterations_cost generate execute request MAX_TOOL_ITERATIONS MAX_TOOL_CALLS calls 1 0)
      with (n := 5%nat) (iteration := 1) (history := preq_history request) (used := @nil string) (s := s)
      as [_ H]; [intros r s1; apply Hg|intros name args s1; destruct (Hx name args s1); lia|lia|done|]. refine (Z.le_trans _ _ _ H _). cbn. lia.
  - destruct (tool_iterations_cost generate execute request MAX_TOOL_ITERATIONS MAX_TOOL_CALLS tools 0 1)
      with (n := 5%nat) (iteration := 1) (history := preq_history request) (used := @nil string) (s := s)
      as [_ H]; [intros r s1; destruct (Hg r s1); lia|intros name args s1; apply Hx|lia|done|]. refine (Z.le_trans _ _ _ H _). cbn. unfold MAX_TOOL_CALLS. lia.
  - intros. by apply tool_iterations_returns.
  - intros o Ho. pose proof (run_returns _ _ _ Ho) as Hrun.
    destruct (tool_iterations_outcome generate execute request MAX_TOOL_ITERATIONS MAX_TOOL_CALLS 5 1
      (preq_history request) [] s o _ ltac:(done) ltac:(done) ltac:(done) Hrun) as (_ & Hn & Hi & Htext & Htrunc).
    split_and!; [|done|done|done]. unfold MAX_TOOL_CALLS in Hn. lia.
Qed.

(** ** The fallback

    What is answered when no provider gave an acceptable text. *)

Record AiGenerationRequest := mkAiGenerationRequest {
  areq_requester_user_id : uuid; areq_service : AiService; areq_prompt_name : string;
  areq_variables : gmap string string; areq_student_id : option uuid;
  areq_system_instruction_suffix : string; areq_max_output_tokens : Z;
  areq_timeout_seconds : option decimal; areq_model : option string; areq_cache_prompt : bool;
  areq_json_output : bool; areq_tools : list Json
}.

Definition ASK_NEVO_OFFLINE : string :=
  "I can help with this, but I need the live assistant connection "
  ++ "to give a specific answer. Try the current lesson example first, "
  ++ "then use one small check-in question to decide the next step.".
Definition LESSON_OFFLINE : string :=
  "Continue with the original learning activity. "
  ++ "Your teacher's source material remains available.".

Section Fallback.
Context (patterns : list string).

(** [RuleBasedFallbackGenerator.generate] *)
Definition fallback_generate (request : AiGenerationRequest) : ProviderResponse :=
  let variables := areq_variables request in
  let source := strip (opt_str_or (opt_or (opt_or (variables !! "source_text") (variables !! "content"))
                                          (variables !! "text")) "") in
  let safe_source := sanitize patterns source in
  let safe_source :=
    if String.prefix "ask_nevo." (areq_prompt_name request) then ASK_NEVO_OFFLINE
    else if negb (truthy safe_source) then LESSON_OFFLINE
    else safe_source in
  new_ProviderResponse safe_source RULE_BASED "deterministic-v1".
End Fallback.

(** Whatever the request, the fallback answers with a text that is not empty and passes the Zero-Tag
    policy, and asks for no tools. *)
Lemma fallback_allowed patterns request :
  patterns ≡ₚ PROHIBITED_RESPONSE_TERMS →
  let answer := fallback_generate patterns request in
  allowed (inspect patterns (pres_text answer)) = true ∧ pres_text answer ≠ "" ∧
  pres_tool_calls answer = [] ∧ pres_provider answer = RULE_BASED.
Proof.
  intros Hp answer. assert (∀ s, forallb (λ x, negb (search x None s)) PROHIBITED_RESPONSE_TERMS = true →
    allowed (inspect patterns s) = true) as Hconst.
  { intros s Hs. apply inspect_allowed. intros x Hx. rewrite Hp in Hx. rewrite forallb_forall in Hs.
    apply negb_true_iff, Hs. by apply list_elem_of_In. }
  unfold answer, fallback_generate. cbn [pres_text new_ProviderResponse pres_tool_calls pres_provider].
  destruct (String.prefix _ _); [|destruct (negb (truthy _)) eqn:He].
  - split_and!; [apply Hconst; vm_compute; reflexivity|discriminate|done|done].
  - split_and!; [apply Hconst; vm_compute; reflexivity|discriminate|done|done].
  - split_and!; [by apply sanitized_allowed| |done|done]. apply negb_false_iff in He. intros Hs. by rewrite Hs in He.
Qed.

(** ** The rate limit

    [PriorityRateLimitedScheduler._await_rate_slot]: the moments of the
    requests of the last minute, oldest first. Moments are those of the
    monotonic clock. *)

Definition window_seconds : timedelta := seconds 60.

(** [while times and now - times[0] >= window: times.popleft()] *)
Fixpoint expire (now : Z) (request_times : list Z) : list Z :=
  match request_times with
  | t :: rest => if window_seconds <=? now - t then expire now rest else request_times
  | [] => []
  end.

(** [times[0]] of no times is an [IndexError]. *)
Inductive Slot := SlotTaken | SlotWait (wait_seconds : timedelta) | SlotIndexError.

Section RateLimit.
Context (requests_per_minute : nat).

(** One pass of the loop. *)
Definition rate_slot (now : Z) (request_times : list Z) : Slot * list Z :=
  let times := expire now request_times in
  if (length times <? requests_per_minute)%nat then (SlotTaken, (times ++ [now])%list)
  else (match times with t :: _ => SlotWait (window_seconds - (now - t)) | [] => SlotIndexError end, times).

(** The workers try at the given moments: when they got a slot. *)
Fixpoint granted (moments : list Z) (request_times : list Z) : list Z :=
  match moments with
  | [] => []
  | now :: rest =>
    match rate_slot now request_times with
    | (SlotTaken, times) => now :: granted rest times
    | (_, times) => granted rest times
    end
  end.

Lemma expire_split now times :
  ∃ gone, times = (gone ++ expire now times)%list ∧ ∀ t, t ∈ gone → window_seconds <= now - t.
Proof.
  induction times as [|t times (gone & Heq & Hgone)]; [exists []; split; [done|set_solver]|]. simpl.
  destruct (Z.leb_spec window_seconds (now - t)); [|exists []; split; [done|set_solver]].
  exists (t :: gone). split; [by rewrite Heq at 1|]. intros x [->|Hx]%elem_of_cons; auto.
Qed.

(** No slot is taken while as many as allowed were in the minute before it. *)
Definition spaced (slots : list Z) : Prop :=
  ∀ i t t', slots !! i = Some t → slots !! (i + requests_per_minute)%nat = Some t' → window_seconds <= t' - t.

(** The slots of the past are those that expired and those kept. *)
Lemma granted_spaced moments past times :
  Sorted Z.le moments → spaced (past ++ times) → (length times <= requests_per_minute)%nat →
  (∀ now t, now ∈ moments → t ∈ past → window_seconds <= now - t) →
  spaced (past ++ times ++ granted moments times).
Proof.
  revert past times. induction moments as [|now moments IH]; intros past times Hsort Hsp Hlen Hpast; simpl.
  { by rewrite app_nil_r. }
  destruct (expire_split now times) as (gone & Heq & Hgone). set (kept := expire now times) in *.
  apply Sorted_StronglySorted in Hsort as Hstrong; [|intros ???; apply Z.le_trans].
  apply StronglySorted_inv in Hstrong as [_ Hafter]. rewrite Forall_forall in Hafter.
  apply Sorted_inv in Hsort as [Hsort _].
  assert (∀ m t, m ∈ moments → t ∈ (past ++ gone)%list → window_seconds <= m - t) as Hpast'.
  { intros m t Hm Ht. specialize (Hafter m Hm). apply elem_of_app in Ht as [Ht|Ht].
    - apply Hpast; [set_solver|done].
    - specialize (Hgone t Ht). lia. }
  assert (length kept <= length times)%nat as Hk by (rewrite Heq, length_app; lia).
  unfold rate_slot. fold kept. destruct (Nat.ltb_spec (length kept) requests_per_minute) as [Hlt|Hge].
  - rewrite Heq at 1. rewrite <- app_assoc, (app_assoc past), cons_middle, (app_assoc kept).
    apply IH; [done| |rewrite length_app; simpl; lia|done].
    rewrite Heq, app_assoc in Hsp. intros i t t' Hi Hi'.
    assert (i < length (past ++ gone ++ kept))%nat as Hin.
    { apply lookup_lt_Some in Hi'. rewrite !length_app in *. simpl in Hi'. lia. }
    rewrite <- app_assoc in Hsp. rewrite app_assoc, <- (app_assoc past) in Hi, Hi'.
    rewrite lookup_app_l in Hi by done. destruct (decide (i + requests_per_minute < length (past ++ gone ++ kept))%nat).
    + rewrite lookup_app_l in Hi' by done. eapply Hsp; [exact Hi|exact Hi'].
    + assert (i + requests_per_minute = length (past ++ gone ++ kept))%nat as Hlast.
      { apply lookup_lt_Some in Hi'. rewrite length_app in Hi'. simpl in Hi'. lia. }
      rewrite lookup_app_r in Hi' by lia. rewrite Hlast, Nat.sub_diag in Hi'. injection Hi' as <-.
      rewrite app_assoc in Hi. rewrite lookup_app_l in Hi by (rewrite !length_app in *; lia).
      apply list_elem_of_lookup_2 in Hi. apply elem_of_app in Hi as [Ht|Ht]; [apply Hpast; [set_solver|done]|auto].
  - assert (spaced (past ++ gone ++ kept ++ granted moments kept)) as Hrest.
    { rewrite app_assoc. apply IH; [done|by rewrite <- app_assoc, <- Heq|lia|done]. }
    rewrite Heq at 1. rewrite <- app_assoc. by destruct kept.
Qed.

(** Whoever waits as long as told gets the slot, when nobody else took it. *)
Lemma waiting_is_enough now times w times' :
  rate_slot now times = (SlotWait w, times') → (length times <= requests_per_minute)%nat →
  fst (rate_slot (now + w) times') = SlotTaken.
Proof.
  intros Hslot Hlen. unfold rate_slot in Hslot.
  destruct (expire_split now times) as (gone & Heq & _). set (kept := expire now times) in *.
  assert (length kept <= length times)%nat as Hk by (rewrite Heq, length_app; lia).
  destruct (Nat.ltb_spec (length kept) requests_per_minute); [done|]. destruct kept as [|t rest] eqn:Hkept; [done|].
  injection Hslot as <- <-. unfold rate_slot. simpl expire.
  destruct (Z.leb_spec window_seconds (now + (window_seconds - (now - t)) - t)); [|lia].
  destruct (expire_split (now + (window_seconds - (now - t))) rest) as (gone' & Heq' & _).
  assert (length (expire (now + (window_seconds - (now - t))) rest) <= length rest)%nat.
  { rewrite Heq' at 2. rewrite length_app. lia. }
  simpl in Hk. destruct (Nat.ltb_spec (length (expire (now + (window_seconds - (now - t))) rest)) requests_per_minute);
    [done|lia].
Qed.
End RateLimit.

(** The gateway keeps its rate. Whenever the workers try, of the slots they get any two that
    are [requests_per_minute] apart in the order they were taken are at least a minute apart
    in time, so no minute sees more; and whoever waits as long as the limiter says finds a
    slot free, when nobody else took it. *)
Theorem rate_limit_holds requests_per_minute moments :
  Sorted Z.le moments →
  (∀ i t t', granted requests_per_minute moments [] !! i = Some t →
     granted requests_per_minute moments [] !! (i + requests_per_minute)%nat = Some t' → seconds 60 <= t' - t) ∧
  ∀ now times w times', (length times <= requests_per_minute)%nat →
    rate_slot requests_per_minute now times = (SlotWait w, times') →
    fst (rate_slot requests_per_minute (now + w) times') = SlotTaken.
Proof.
  intros Hsort. split.
  - apply (granted_spaced requests_per_minute moments [] []); [done|by intros i t t' Hi|simpl; lia|set_solver].
  - intros. by eapply waiting_is_enough.
Qed.

(** ** At concrete requests *)

(** A model that asks for two tools in every answer, on a state that counts. *)
Definition insatiable (r : ProviderRequest) : Comp (Z * Z) unit ProviderResponse := λ s,
  (inr (mkProviderResponse "more" CLAUDE "m"
     (if bool_decide (length (preq_tools r) = 0%nat) then []
      else [mkToolCall "1" "find_student" []; mkToolCall "2" "read_lesson" []])
     [] None 10 5 0 0 0), (s.1 + 1, s.2)).
Definition empty_handed (name : string) (args : list (string * Json)) : Comp (Z * Z) unit Json := λ s,
  (inr JNull, (s.1, s.2 + 1)).
Definition a_request : ProviderRequest := mkProviderRequest "sys" "user" 1024 None true [JStr "tool"] [] (Some (mkDecimal 20 0)).

Lemma tool_loop_is_bounded_witness :
  let run := run_tool_loop insatiable empty_handed a_request MAX_TOOL_ITERATIONS MAX_TOOL_CALLS (0, 0) in
  snd run = (6, 10) ∧ fst (snd run) <= 0 + 6 ∧ snd (snd run) <= 0 + 12.
Proof.
  intros run. split; [vm_compute; reflexivity|].
  destruct (tool_loop_is_bounded insatiable empty_handed a_request fst snd (0, 0)) as (Hc & Ht & _).
  - intros r s. simpl. lia.
  - intros name args s. simpl. lia.
  - split; [exact Hc|exact Ht].
Defined.

Definition tries : list Z := map seconds [0; 1; 2; 3; 59; 60; 61; 62].

Lemma rate_limit_holds_witness :
  granted 2 tries [] = map seconds [0; 1; 60; 61] ∧
  ∀ i t t', granted 2 tries [] !! i = Some t → granted 2 tries [] !! (i + 2)%nat = Some t' → seconds 60 <= t' - t.
Proof.
  split; [vm_compute; reflexivity|]. apply rate_limit_holds. repeat constructor; vm_compute; discriminate.
Defined.
