(* ===== verification/AiRepo.v ===== *)
(** * Prompts, the context of a request and the record of a call

    [src/nevo/ai_gateway/prompts.py] and [repositories.py], with the entities
    of [entities.py] they make. *)

From Stdlib Require Import Ascii String.
From stdpp Require Import gmap.
From S2P Require Import Prelude Relational Text Vocabulary Schema Crypto Access Regex Privacy Json AiSafety.

Local Open Scope string_scope.
Local Open Scope Z_scope.
Local Open Scope nevo_scope.

(** ** Prompts *)

Record PromptTemplate := mkPromptTemplate {
  pt_id : uuid; pt_service : AiService; pt_name : string; pt_version : Z;
  pt_system_template : string; pt_user_template : string; pt_required_variables : list string
}.

Record RenderedPrompt := mkRenderedPrompt {
  rp_template : PromptTemplate; rp_system_instruction : string; rp_user_content : string
}.

(** A format string: text, and fields up to their closing brace. Doubled
    braces stand for one. *)
Inductive segment := Literal (c : ascii) | FieldRef (name : string).

Definition open_brace : ascii := "{".
Definition close_brace : ascii := "}".

(** The name of a field and what follows its closing brace; the fields of the
    templates are plain names. *)
Fixpoint field_name (s : string) : option (string * string) :=
  match s with
  | "" => None
  | String c s' =>
    if c == close_brace then Some ("", s')
    else '(name, rest) ← field_name s'; Some (String c name, rest)
  end.

(** A name that is looked up: not empty and not a number (a position), without
    an attribute, index, conversion, format or a nested field. *)
Definition plain_field (name : string) : bool :=
  truthy name && negb (string_forall is_digit name) &&
  string_forall (λ c, negb (bool_decide (c ∈ list_ascii_of_string ".[!:{"))) name.

(** [None] is the [ValueError] of a brace without its partner or of a position.
    [n] bounds the characters left. *)
Fixpoint parse_format (n : nat) (s : string) : option (list segment) :=
  match n, s with
  | _, "" => Some []
  | O, _ => None
  | S n', String c s' =>
    if c == open_brace then
      match s' with
      | String d s'' =>
        if d == open_brace then cons (Literal open_brace) <$> parse_format n' s''
        else '(name, rest) ← field_name s';
             if plain_field name then cons (FieldRef name) <$> parse_format n' rest else None
      | "" => None
      end
    else if c == close_brace then
      match s' with
      | String d s'' => if d == close_brace then cons (Literal close_brace) <$> parse_format n' s'' else None
      | "" => None
      end
    else cons (Literal c) <$> parse_format n' s'
  end.

Definition segments (template : string) : option (list segment) := parse_format (String.length template) template.

Fixpoint fill (values : gmap string string) (l : list segment) : option string :=
  match l with
  | [] => Some ""
  | Literal c :: l' => String c <$> fill values l'
  | FieldRef name :: l' => v ← values !! name; rest ← fill values l'; Some (v ++ rest)
  end.

(** [template.format_map(values)]; [None] is a [KeyError] or [ValueError]. *)
Definition format_map (template : string) (values : gmap string string) : option string :=
  segments template ≫= fill values.

Definition referenced_variables (template_text : string) : option (list string) :=
  (λ l : list segment, omap (λ s, match s with FieldRef name => Some name | Literal _ => None end) l)
    <$> segments template_text.

Definition render_prompt (template : PromptTemplate) (variables : gmap string string) : exn + RenderedPrompt :=
  if negb (forallb (λ v, is_some (variables !! v)) (pt_required_variables template)) then inl PromptVariablesError
  else
    let clean_variables := strip <$> variables in
    match format_map (pt_system_template template) clean_variables,
          format_map (pt_user_template template) clean_variables with
    | Some system_instruction, Some user_content => inr (mkRenderedPrompt template system_instruction user_content)
    | _, _ => inl PromptVariablesError
    end.

Example format_map_examples :
  map (λ t, format_map t {[ "name" := "Ada"; "topic" := "leaves" ]})
    ["Hi {name}: {{{topic}}}"; "{missing}"; "{}"; "{0}"; "} {"; "{name"]
  = [Some "Hi Ada: {leaves}"; None; None; None; None; None].
Proof. vm_compute. reflexivity. Qed.

(** ** Repositories *)

(** [SqlAlchemyPromptTemplateRepository.active] *)
Definition active_template (name : string) (service : AiService) : M (option PromptTemplate) :=
  record ← scalar AiPromptTemplates (λ t, (apt_name t == name) && (apt_service t == service) && apt_active t);
  mret ((λ r : AiPromptTemplate, mkPromptTemplate (apt_id r) (apt_service r) (apt_name r) (apt_version r)
           (apt_system_template r) (apt_user_template r) (apt_required_variables r)) <$> record).

(** Pairs by their first text, then the second. *)
Definition term_le (a b : string * string) : bool :=
  if a.1 == b.1 then text_le a.2 b.2 else text_le a.1 b.1.

Record AiCallAudit := mkAiCallAudit {
  audit_context : AiRequestContext; audit_template_id : uuid; audit_service : AiService; audit_priority : Z;
  audit_provider : AiProviderName; audit_model : string; audit_status : AiCallStatus;
  audit_input_tokens : Z; audit_output_tokens : Z; audit_thought_tokens : Z; audit_latency_ms : Z;
  audit_estimated_cost_usd : decimal; audit_compliance_retries : Z; audit_fallback_used : bool;
  audit_error_code : option string
}.

Section Repository.
Context `{!Crypto}.

(** [_add_person] *)
Definition add_person (person_id : uuid) (first_name last_name email : option string) : list (string * string) :=
  let pseudonym := pseudonym person_id in
  let parts := filterb truthy (omap id [first_name; last_name]) in
  (map (λ value, (value, pseudonym)) (filterb truthy (omap id [first_name; last_name; email])) ++
   if parts == [] then [] else [(join " " parts, pseudonym)])%list.

Definition person_terms (u : User) : list (string * string) :=
  add_person (user_id u) (user_first_name u) (user_last_name u) (user_email u).

(** [_sensitive_terms]: the terms added, in order; a set in the code. *)
Definition sensitive_terms (requester : User) (student_id : option uuid) : M (list (string * string)) :=
  school ← match user_school_id requester with
           | None => mret []
           | Some school_id =>
             school ← scalar Schools (λ s, school_id == Schema.school_id s);
             mret match (school : option School) with
                  | Some s => if truthy (school_name s) then [(school_name s, "the school")] else []
                  | None => []
                  end
           end;
  learners ← accessible_students requester;
  people ← select Users (λ u, bool_decide (user_id u ∈ user_id requester :: option_list student_id));
  parents ← match student_id with
            | None => mret []
            | Some student => links ← select ParentLinks (λ l, link_student_id l == student); mret (links : list ParentLink)
            end;
  mret (school ++ flat_map person_terms learners ++ flat_map person_terms (people : list User) ++
        flat_map (λ l : ParentLink, map (λ v, (v, "their parent"))
                    (filterb truthy [link_parent_name l; link_parent_contact l])) parents)%list.

(** [SqlAlchemyAiCallRepository.resolve_context] *)
Definition resolve_context (requester_user_id : uuid) (student_id : option uuid) : M AiRequestContext :=
  requester ← scalar Users (λ u, (user_id u == requester_user_id) && (user_status u != DEACTIVATED));
  match (requester : option User) with
  | None => raise InvalidAiContextError
  | Some requester =>
    match student_id with
    | None => mret tt
    | Some student_id =>
      student ← scalar Users (λ u, (user_id u == student_id) && (user_school_id u == user_school_id requester) &&
                                   (user_role u == STUDENT) && (user_status u != DEACTIVATED));
      match (student : option User) with None => raise InvalidAiContextError | Some _ => mret tt end
    end;;
    terms ← sensitive_terms requester student_id;
    mret (mkAiRequestContext (user_id requester) (user_school_id requester) student_id
            (order_by term_le (remove_dups terms)))
  end.
End Repository.

(** [SqlAlchemyAiCallRepository.record] *)
Definition record_call (audit : AiCallAudit) : M uuid :=
  i ← uuid4;
  begin_ (now ← func_now;
    insert AiGatewayCalls {|
      call_id := i; call_school_id := ctx_school_id (audit_context audit);
      call_requester_user_id := ctx_requester_user_id (audit_context audit);
      call_student_id := ctx_student_id (audit_context audit);
      call_prompt_template_id := audit_template_id audit; call_service := audit_service audit;
      call_priority := audit_priority audit; call_provider := audit_provider audit; call_model := audit_model audit;
      call_status := audit_status audit; call_input_tokens := audit_input_tokens audit;
      call_output_tokens := audit_output_tokens audit; call_thought_tokens := audit_thought_tokens audit;
      call_latency_ms := audit_latency_ms audit; call_estimated_cost_usd := audit_estimated_cost_usd audit;
      call_compliance_retries := audit_compliance_retries audit; call_fallback_used := audit_fallback_used audit;
      call_error_code := audit_error_code audit; call_created_at := now |});;
  mret i.
