(* ===== verification/Gateway.v ===== *)
(** * The AI gateway

    [src/nevo/ai_gateway/claude.py] and [service.py]: one generation, from the
    context of the request to the record of the call. The scheduler runs an
    operation at once (its queue orders concurrent callers, of which a serial
    model has none); moments of the clock are left out, the latency being an
    argument. *)

From Stdlib Require Import Ascii String.
From stdpp Require Import gmap.
From S2P Require Import Prelude Relational Text Vocabulary Schema Crypto Access Regex ZeroTag Privacy Json Money AiSafety AiGateway AiRepo.

Local Open Scope string_scope.
Local Open Scope Z_scope.
Local Open Scope nevo_scope.

(** ** The provider *)

Record ClaudeRestProvider := mkClaudeRestProvider {
  claude_api_key : option string; claude_model : string; claude_base_url : string;
  claude_version : string; claude_prompt_caching_enabled : bool
}.

Record ClaudeTextBlock := mkClaudeTextBlock {
  block_type : string; block_text : option string; block_id : option string; block_name : option string;
  block_input : option (list (string * Json)); block_extra : list (string * Json)
}.

Definition text_json (s : string) : Json := JObj [("type", JStr "text"); ("text", JStr s)].

Section Claude.
Context `{!Network}.
(** The validation library's conversion of a value to an integer field. *)
Context (lax_int : Json → option Z).

(** A field of type [str | None], or [dict | None], that may be missing. *)
Definition optional_str (key : string) (fields : list (string * Json)) : option (option string) :=
  match field key fields with JNull => Some None | JStr s => Some (Some s) | _ => None end.
Definition optional_obj (key : string) (fields : list (string * Json)) : option (option (list (string * Json))) :=
  match field key fields with JNull => Some None | JObj o => Some (Some o) | _ => None end.

Definition block_fields : list string := ["type"; "text"; "id"; "name"; "input"].

Definition parse_block (j : Json) : option ClaudeTextBlock :=
  match j with
  | JObj fields =>
    match field "type" fields, optional_str "text" fields, optional_str "id" fields, optional_str "name" fields,
          optional_obj "input" fields with
    | JStr type, Some text, Some i, Some name, Some input =>
      Some (mkClaudeTextBlock type text i name input
              (filterb (λ '(k, _), negb (bool_decide (k ∈ block_fields))) fields))
    | _, _, _, _, _ => None
    end
  | _ => None
  end.

(** [block.model_dump(exclude_none=True)] *)
Definition dump_block (b : ClaudeTextBlock) : Json :=
  let given {A} key (f : A → Json) (o : option A) := match o with Some a => [(key, f a)] | None => [] end in
  JObj (("type", JStr (block_type b)) :: given "text" JStr (block_text b) ++ given "id" JStr (block_id b) ++
        given "name" JStr (block_name b) ++ given "input" JObj (block_input b) ++
        filterb (λ '(_, v), match v with JNull => false | _ => true end) (block_extra b))%list.

Definition usage_field (key : string) (usage : list (string * Json)) : option Z :=
  match assoc key usage with None => Some 0 | Some v => lax_int v end.

Record ClaudeResponse := mkClaudeResponse {
  cresp_content : list ClaudeTextBlock; cresp_model : option string; cresp_stop_reason : option string;
  cresp_input : Z; cresp_output : Z; cresp_cache_creation : Z; cresp_cache_read : Z
}.

(** [_ClaudeResponse.model_validate] *)
Definition parse_claude (j : Json) : option ClaudeResponse :=
  match j with
  | JObj fields =>
    content ← match assoc "content" fields with None => Some [] | Some (JArr l) => mapM parse_block l | Some _ => None end;
    model ← optional_str "model" fields;
    stop ← optional_str "stop_reason" fields;
    usage ← match assoc "usage" fields with None => Some [] | Some (JObj u) => Some u | Some _ => None end;
    input ← usage_field "input_tokens" usage;
    output ← usage_field "output_tokens" usage;
    creation ← usage_field "cache_creation_input_tokens" usage;
    cached ← usage_field "cache_read_input_tokens" usage;
    Some (mkClaudeResponse content model stop input output creation cached)
  | _ => None
  end.

Definition ephemeral : Json := JObj [("type", JStr "ephemeral")].

Definition claude_payload (p : ClaudeRestProvider) (request : ProviderRequest) : Json :=
  let cached := claude_prompt_caching_enabled p && preq_cache_prompt request in
  JObj ([("model", JStr (opt_str_or (preq_model request) (claude_model p)));
         ("max_tokens", JInt (preq_max_output_tokens request));
         ("system", JArr [JObj ([("type", JStr "text"); ("text", JStr (preq_system_instruction request))] ++
                                if cached then [("cache_control", ephemeral)] else [])%list]);
         ("messages", JArr (JObj [("role", JStr "user"); ("content", JArr [text_json (preq_user_content request)])] ::
                            preq_history request))] ++
        (if preq_tools request == [] then [] else [("tools", JArr (preq_tools request))]) ++
        (if cached then [("cache_control", ephemeral)] else []))%list.

Definition claude_request (p : ClaudeRestProvider) (request : ProviderRequest) : HttpRequest :=
  mkHttpRequest "POST" (claude_base_url p ++ "/messages")
    [("x-api-key", default "None" (claude_api_key p)); ("anthropic-version", claude_version p);
     ("Content-Type", "application/json")]
    (Some (claude_payload p request)).

(** The text and the tools of the blocks. *)
Definition blocks_text (content : list ClaudeTextBlock) : string :=
  strip (join "" (map (λ b, default "" (block_text b)) (filterb (λ b, block_type b == "text") content))).
Definition blocks_tools (content : list ClaudeTextBlock) : list ToolCall :=
  omap (λ b, if (block_type b == "tool_use") && opt_truthy (block_id b) && opt_truthy (block_name b)
             then Some (mkToolCall (default "" (block_id b)) (default "" (block_name b)) (default [] (block_input b)))
             else None) content.

(** [except (httpx.HTTPError, ValueError, ValidationError)] *)
Definition provider_failure (e : exn) : option (M ClaudeResponse) :=
  match e with HttpxError _ | ValueError _ => Some (raise ProviderUnavailableError) | _ => None end.

(** [response.raise_for_status()], then the body as the response it should be. *)
Definition claude_answer (r : HttpResponse) : exn + ClaudeResponse :=
  if (200 <=? resp_status_code r) && (resp_status_code r <=? 299) then
    match resp_json r ≫= parse_claude with Some c => inr c | None => inl (ValueError "response") end
  else inl (HttpxError "status").

(** [ClaudeRestProvider.generate] *)
Definition claude_generate (p : ClaudeRestProvider) (request : ProviderRequest) : M ProviderResponse :=
  if negb (opt_truthy (claude_api_key p)) then raise ProviderNotConfiguredError
  else
    parsed ← try_except (
      moment ← uuid4;
      response ← raise_or (http_send (claude_request p request) moment);
      raise_or (claude_answer response)) provider_failure;
    let text := blocks_text (cresp_content parsed) in
    let tool_calls := blocks_tools (cresp_content parsed) in
    if negb (truthy text) && (tool_calls == []) then raise ProviderResponseError
    else mret {|
      pres_text := text; pres_provider := CLAUDE;
      pres_model := opt_str_or (opt_or (cresp_model parsed) (preq_model request)) (claude_model p);
      pres_tool_calls := tool_calls; pres_raw_content := map dump_block (cresp_content parsed);
      pres_stop_reason := cresp_stop_reason parsed; pres_input_tokens := cresp_input parsed;
      pres_output_tokens := cresp_output parsed; pres_thought_tokens := 0;
      pres_cache_creation_input_tokens := cresp_cache_creation parsed;
      pres_cache_read_input_tokens := cresp_cache_read parsed |}.
End Claude.

(** ** The service *)

Definition ZERO_TAG_REWRITE_INSTRUCTION : string := "

Your previous response violated Nevo's Zero-Tag policy. Rewrite it using only observable classroom activity and functional support. Do not mention or infer labels, and do not describe how a person learns as a fixed trait.".

Definition JSON_INSTRUCTION : string :=
  String newline ("Return only a complete valid JSON object, without markdown. " ++
  "Escape all backslashes, quotes and control characters in JSON strings, including mathematical notation.").

(** [public_ai_error(error).code] *)
Definition public_ai_error (e : exn) : string := default "ai_gateway_error" (ai_error_code e).

Record AiGenerationResult := mkAiGenerationResult {
  ares_text : string; ares_provider : AiProviderName; ares_model : string; ares_prompt_name : string;
  ares_prompt_version : Z; ares_fallback_used : bool; ares_compliance_retries : Z; ares_call_id : uuid;
  ares_stop_reason : option string; ares_input_tokens : Z; ares_output_tokens : Z
}.

(** [AiGatewayService(...)], the ports apart. *)
Record GatewaySettings := mkGatewaySettings {
  gw_guard : ContentSafetyGuard; gw_max_compliance_retries : nat;
  gw_input_cost : decimal; gw_output_cost : decimal; gw_cache_write_cost : decimal; gw_cache_read_cost : decimal;
  gw_closed : bool
}.

(** The variables of a lesson prompt that hold its material. *)
Definition material_keys (prompt_name : string) : list string :=
  match findb (λ '(n, _), n == prompt_name)
    [("content_parse.default", ["source_text"; "lesson_title"]);
     ("lesson_depth.default", ["body"; "title"]);
     ("calculation_parts.default", ["source_text"; "steps_json"]);
     ("content_question_repair.default", ["source_text"; "questions"]);
     ("content_transfer.default", ["source_text"; "concept_name"]);
     ("content_guided_steps_backfill.default", ["source_text"; "questions"])] with
  | Some (_, keys) => keys
  | None => []
  end.

(** How the attempts at an answer ended. *)
Record Attempts := mkAttempts {
  att_responses : list ProviderResponse; att_retries : Z; att_error_code : option string;
  att_accepted : option ProviderResponse
}.

(** A port of the service: whoever generates texts. *)
Definition TextGenerationProvider := ProviderRequest → M ProviderResponse.
Definition ToolExecutor := string → list (string * Json) → M Json.

Section Service.
Context `{!Crypto} `{!Network}.
(** The order of the patterns of the policy, and the schema of a decision. *)
Context (patterns : list string) (decision_schema : Json).
Context (gw : GatewaySettings) (provider : TextGenerationProvider).

Definition guard_check (context : AiRequestContext) (phase text : string) : M unit :=
  check decision_schema (gw_guard gw) text phase (Some context) None.

(** A text as the reviewer and the provider may see it. *)
Definition masked_for (context : AiRequestContext) (subject : uuid) (text : string) : string :=
  sanitize_text text (pseudonym subject) (ctx_sensitive_terms context).

Definition context_subject (context : AiRequestContext) : uuid :=
  default (ctx_requester_user_id context) (ctx_student_id context).

(** [_SafetyReviewedProvider.generate] *)
Definition reviewed_generate (context : AiRequestContext) (prompt_name : string) (request : ProviderRequest)
  : M ProviderResponse :=
  let material := preq_user_content request ++ String newline (json_dumps (JArr (preq_history request))) in
  guard_check context ("input:" ++ prompt_name) (masked_for context (context_subject context) material);;
  response ← provider request;
  let output := pres_text response ++
    String newline (json_dumps (JArr (map (λ call, JObj (tool_call_arguments call)) (pres_tool_calls response)))) in
  guard_check context ("output:" ++ prompt_name) (masked_for context (context_subject context) output);;
  mret response.

(** [PriorityRateLimitedScheduler.execute] *)
Definition schedule {A} (operation : M A) : M A := if gw_closed gw then raise SchedulerClosedError else operation.

(** [check_content] *)
Definition check_content (text : string) (requester_user_id : uuid) (student_id : option uuid) (phase : string)
  : M AiRequestContext :=
  context ← resolve_context requester_user_id student_id;
  guard_check context phase (masked_for context (default requester_user_id student_id) text);;
  mret context.

Definition sum_of (f : ProviderResponse → Z) (responses : list ProviderResponse) : Z :=
  foldr (λ r n, f r + n) 0 responses.

(** [Decimal(n) * cost], summed, over a million *)
Definition estimated_cost (responses : list ProviderResponse) : decimal :=
  let part f cost := dec_mul (dec_of_Z (sum_of f responses)) cost in
  let total := dec_add (dec_add (dec_add (part pres_input_tokens (gw_input_cost gw))
      (part (λ r, pres_output_tokens r + pres_thought_tokens r) (gw_output_cost gw)))
      (part pres_cache_creation_input_tokens (gw_cache_write_cost gw)))
      (part pres_cache_read_input_tokens (gw_cache_read_cost gw)) in
  mkDecimal (dec_coef total) (dec_scale total + 6).

(** What ends the attempts without an answer. *)
Definition attempt_failure (e : exn) : option (M (string + ProviderResponse)) :=
  match e with
  | ProviderUnavailableError | ProviderNotConfiguredError | ProviderResponseError =>
    Some (mret (inl (public_ai_error e)))
  | _ => None
  end.

Section Request.
Context (request : AiGenerationRequest) (tool_executor : option ToolExecutor) (context : AiRequestContext).

Definition subject : uuid := default (areq_requester_user_id request) (areq_student_id request).

Definition provider_request (system_instruction user_content : string) : ProviderRequest := {|
  preq_system_instruction := masked_for context subject
    (system_instruction ++
     (if truthy (areq_system_instruction_suffix request)
      then String newline (areq_system_instruction_suffix request) else "") ++
     (if areq_json_output request then JSON_INSTRUCTION else ""));
  preq_user_content := masked_for context subject user_content;
  preq_max_output_tokens := areq_max_output_tokens request; preq_model := areq_model request;
  preq_cache_prompt := areq_cache_prompt request; preq_tools := areq_tools request; preq_history := [];
  preq_timeout_seconds := areq_timeout_seconds request |}.

(** [generate_once] *)
Definition generate_once (preq : ProviderRequest) : M ProviderResponse :=
  let reviewed := reviewed_generate context (areq_prompt_name request) in
  match preq_tools preq, tool_executor with
  | _ :: _, Some execute =>
    outcome ← run_tool_loop reviewed execute preq MAX_TOOL_ITERATIONS MAX_TOOL_CALLS;
    mret (response_with_text outcome)
  | _, _ => reviewed preq
  end.

(** [for attempt in range(...)]: [n] attempts are left. *)
Fixpoint attempts (system_instruction : string) (n : nat) (user_content : string) (responses : list ProviderResponse)
    (retries : Z) (error_code : option string) : M Attempts :=
  match n with
  | O => mret (mkAttempts responses retries error_code None)
  | S n' =>
    answer ← try_except (
      r ← schedule (generate_once (provider_request system_instruction user_content)); mret (inr r)) attempt_failure;
    match answer with
    | inl code => mret (mkAttempts responses retries (Some code) None)
    | inr response =>
      let responses := (responses ++ [response])%list in
      if allowed (inspect patterns (pres_text response))
      then mret (mkAttempts responses retries error_code (Some response))
      else
        let error_code := Some "zero_tag_rejected" in
        match n' with
        | O => mret (mkAttempts responses retries error_code None)
        | S _ => attempts system_instruction n' (user_content ++ ZERO_TAG_REWRITE_INSTRUCTION) responses
                   (retries + 1) error_code
        end
    end
  end.
End Request.

(** [AiGatewayService.generate]; [latency] is the time it took, in
    milliseconds. *)
Definition generate (request : AiGenerationRequest) (tool_executor : option ToolExecutor) (latency : Z)
  : M AiGenerationResult :=
  context ← resolve_context (areq_requester_user_id request) (areq_student_id request);
  template ← active_template (areq_prompt_name request) (areq_service request);
  match template with
  | None => raise PromptTemplateNotFoundError
  | Some template =>
    '(variables, lesson_characters) ←
      (if areq_service request == LESSON_GENERATION
       then mask_lesson_characters (areq_variables request) (material_keys (areq_prompt_name request))
              (pseudonym (subject request)) (ctx_sensitive_terms context)
       else mret (areq_variables request, []));
    let safe_variables := sanitize_variables variables (areq_requester_user_id request) (areq_student_id request)
                            (ctx_sensitive_terms context) in
    rendered ← raise_or (render_prompt template safe_variables);
    ended ← attempts request tool_executor context (rp_system_instruction rendered)
              (S (gw_max_compliance_retries gw)) (rp_user_content rendered) [] 0 None;
    let fallback_used := is_none (att_accepted ended) in
    let accepted := default (fallback_generate patterns request) (att_accepted ended) in
    let responses := att_responses ended in
    let text := restore_characters lesson_characters (pres_text accepted) in
    guard_check context ("final:" ++ areq_prompt_name request) (masked_for context (subject request) text);;
    call_id ← record_call {|
      audit_context := context; audit_template_id := pt_id template; audit_service := areq_service request;
      audit_priority := AiPriority_value (areq_service request); audit_provider := pres_provider accepted;
      audit_model := pres_model accepted;
      audit_status := if fallback_used then CALL_FALLBACK else CALL_SUCCEEDED;
      audit_input_tokens := sum_of pres_input_tokens responses;
      audit_output_tokens := sum_of pres_output_tokens responses;
      audit_thought_tokens := sum_of pres_thought_tokens responses;
      audit_latency_ms := Z.max 0 latency; audit_estimated_cost_usd := estimated_cost responses;
      audit_compliance_retries := att_retries ended; audit_fallback_used := fallback_used;
      audit_error_code := att_error_code ended |};
    mret {|
      ares_text := text; ares_provider := pres_provider accepted; ares_model := pres_model accepted;
      ares_prompt_name := pt_name template; ares_prompt_version := pt_version template;
      ares_fallback_used := fallback_used; ares_compliance_retries := att_retries ended; ares_call_id := call_id;
      ares_stop_reason := pres_stop_reason accepted; ares_input_tokens := sum_of pres_input_tokens responses;
      ares_output_tokens := pres_output_tokens accepted |}
  end.
End Service.
