(* ===== verification/GatewayFacts.v ===== *)
(** * What the gateway lets out, and in

    Which requests a provider gets, which texts come back, what is recorded,
    and whose names are masked. *)

From Stdlib Require Import Ascii String.
From stdpp Require Import gmap.
From S2P Require Import Prelude Relational Text Vocabulary Schema Fixtures Crypto Access Regex ZeroTag Privacy Json Money AiSafety AiGateway AiRepo Gateway.

Local Open Scope string_scope.
Local Open Scope Z_scope.
Local Open Scope nevo_scope.

(** ** Frames *)

Lemma frames_raise_or ts {A} (r : exn + A) : frames ts (raise_or r : M A).
Proof. destruct r; [apply frames_raise|apply frames_ret]. Qed.
#[export] Hint Resolve frames_raise_or : frames.

Section Frames.
Context `{!Crypto} `{!Network}.

Lemma frames_record_review g d phase context usage ts :
  ContentSafetyEvents ∈ ts → frames ts (record_review g d phase context usage).
Proof.
  intros Hts. unfold record_review, begin_. frames_tac.
Qed.

Lemma frames_check schema g text phase context image ts :
  ContentSafetyEvents ∈ ts → frames ts (check schema g text phase context image).
Proof.
  intros Hts. unfold check, review_chunk, unavailable.
  repeat (first [ progress simplify_eq | frames_step | apply frames_record_review; exact Hts | solve [eauto with frames] ]).
  match goal with H : _ = Some _ |- _ => revert H end. case_match; intros [= <-]; apply frames_raise.
Qed.

Lemma frames_accessible_students ts actor : frames ts (accessible_students actor).
Proof. intros db t _. destruct (accessible_students_spec actor db) as (l & -> & _). done. Qed.
#[local] Hint Resolve frames_accessible_students : frames.

Lemma frames_resolve_context ts requester student : frames ts (resolve_context requester student).
Proof. unfold resolve_context, sensitive_terms. frames_tac. Qed.

Lemma frames_active_template ts name service : frames ts (active_template name service).
Proof. unfold active_template. frames_tac. Qed.

Lemma frames_mask_pieces ts K ps : frames ts (mask_pieces K ps).
Proof. revert K. induction ps as [|[c|t g] ps IH]; intros K; cbn [mask_pieces]; frames_tac; apply IH. Qed.
#[local] Hint Resolve frames_mask_pieces : frames.

Lemma frames_mask_lesson_characters ts variables keys pseudonym terms :
  frames ts (mask_lesson_characters variables keys pseudonym terms).
Proof.
  unfold mask_lesson_characters. case_bool_decide; [apply frames_ret|]. generalize variables at 2. generalize (@nil (string * string)).
  induction keys as [|key keys IH]; intros K prepared; cbn [mask_variables]; frames_tac; apply IH.
Qed.

Lemma frames_record_call ts audit : AiGatewayCalls ∈ ts → frames ts (record_call audit).
Proof. intros Hts. unfold record_call, begin_. frames_tac. Qed.
End Frames.

#[export] Hint Resolve frames_resolve_context frames_active_template frames_mask_lesson_characters : frames.

(** Statements on other tables keep what holds of one. *)
Lemma preserves_frames (t : Table) (J : list (row t) → Prop) ts {A} (m : M A) :
  frames ts m → t ∉ ts → preserves (λ db, J (db_tables db t)) m.
Proof. intros Hm Ht db HJ. by rewrite (Hm db t Ht). Qed.

(** ** The tool loop *)

Section Loop.
Context {S E : Type} (I : S → Prop) (generate : ProviderRequest → Comp S E ProviderResponse)
  (execute : string → list (string * Json) → Comp S E Json) (request : ProviderRequest).
Hypothesis (Hgenerate : ∀ r, preq_system_instruction r = preq_system_instruction request →
    preq_user_content r = preq_user_content request → preserves I (generate r))
  (Hexecute : ∀ name args, preserves I (execute name args)).

Lemma preserves_tool_loop max_iterations max_tool_calls :
  preserves I (run_tool_loop generate execute request max_iterations max_tool_calls).
Proof.
  unfold run_tool_loop. generalize 1, (preq_history request), (@nil string).
  induction (Z.to_nat max_iterations) as [|n IH]; intros iteration history used; cbn [tool_iterations];
    unfold answer_without_tools; preserves_tac; try (apply Hgenerate; done); try apply Hexecute; try apply IH.
Qed.
End Loop.

(** ** What the reviewer allowed *)

Section Gateway.
Context `{!Crypto} `{!Network}.
Context (patterns : list string) (decision_schema : Json) (gw : GatewaySettings) (provider : TextGenerationProvider).
(** The HTTP client raises no exception of the program's own. *)
Hypothesis (Hclient : ∀ q n e, http_send q n = inl e → e ≠ SafetyBlocked).

(** The reviewer is there and allowed every part of the text. *)
Definition allowed_by_review (phase text : string) : Prop :=
  guard_configured (gw_guard gw) = true ∧
  ∀ chunk, chunk ∈ chunks_of text → ∃ d, decided decision_schema (gw_guard gw) phase None chunk d ∧ decision_action d = "allow".

Lemma guard_check_allows context phase text db db' :
  guard_check decision_schema gw context phase text db = (inr tt, db') → allowed_by_review phase text.
Proof.
  unfold guard_check, check. intros Hrun. destruct (guard_configured (gw_guard gw)) eqn:Hg; [|done]. simpl in Hrun.
  destruct (_ <? _); [done|]. split; [done|]. by apply review_chunks_spec in Hrun as (_ & Hall & _).
Qed.

(** What is appended to a prompt after [k] rejected answers. *)
Fixpoint rewrites (k : nat) : string :=
  match k with
  | O => ""
  | S k' => rewrites k' ++ ZERO_TAG_REWRITE_INSTRUCTION
  end.

(** The instruction and the content of a request are the texts [system] and
    [user], with what is appended to them, masked for the subject. *)
Definition masked_prompt (context : AiRequestContext) (subject : uuid) (system user : string) (r : ProviderRequest) : Prop :=
  (∃ suffix, preq_system_instruction r =
     sanitize_text (system ++ suffix) (pseudonym subject) (ctx_sensitive_terms context)) ∧
  (∃ k, preq_user_content r =
     sanitize_text (user ++ rewrites k) (pseudonym subject) (ctx_sensitive_terms context)).

(** A request the provider may see: its instruction and content are the prompt
    with the names the context knows masked; the content with the turns before it
    was allowed by the reviewer; and without tools there are no turns before it. *)
Definition presentable (context : AiRequestContext) (subject : uuid) (prompt_name : string)
    (executor : option ToolExecutor) (system user : string) (r : ProviderRequest) : Prop :=
  masked_prompt context subject system user r ∧
  allowed_by_review ("input:" ++ prompt_name)
    (sanitize_text (preq_user_content r ++ String newline (json_dumps (JArr (preq_history r))))
       (pseudonym (context_subject context)) (ctx_sensitive_terms context)) ∧
  (executor = None → preq_history r = []).

Lemma frames_guard_check context phase text : frames [ContentSafetyEvents] (guard_check decision_schema gw context phase text).
Proof. apply frames_check. set_solver. Qed.

Section Preserved.
Context (t : Table) (J : list (row t) → Prop).
Hypothesis (Ht : t ≠ ContentSafetyEvents).
Abbreviation I := (λ db : Database, J (db_tables db t)).

Lemma preserves_guard_check context phase text : preserves I (guard_check decision_schema gw context phase text).
Proof. apply (preserves_frames t J [ContentSafetyEvents]); [apply frames_guard_check|set_solver]. Qed.

Section OneRequest.
Context (context : AiRequestContext) (request : AiGenerationRequest) (executor : option ToolExecutor).
Abbreviation prompt_name := (areq_prompt_name request).
(** The prompt, as it is rendered. *)
Context (system user : string).
Hypothesis (Hprovider : ∀ r, presentable context (subject request) prompt_name executor system user r → preserves I (provider r))
  (Hexecutor : ∀ execute name args, executor = Some execute → preserves I (execute name args)).

Definition masked_request (r : ProviderRequest) : Prop :=
  masked_prompt context (subject request) system user r ∧ (executor = None → preq_history r = []).

Lemma preserves_reviewed_generate r :
  masked_request r → preserves I (reviewed_generate decision_schema gw provider context prompt_name r).
Proof.
  intros (Hm & Hh). apply preserves_bind_run; [apply preserves_guard_check|]. intros db [] db' _ Hrun.
  apply guard_check_allows in Hrun. apply preserves_bind; [by apply Hprovider; split_and!|]. intros response.
  apply preserves_bind; [apply preserves_guard_check|]. intros []. apply preserves_ret.
Qed.

Lemma preserves_generate_once r :
  masked_request r → preserves I (generate_once decision_schema gw provider request executor context r).
Proof.
  intros Hr. unfold generate_once. destruct (preq_tools r); [by apply preserves_reviewed_generate|].
  pose proof preserves_reviewed_generate as Hreview. pose proof Hexecutor as Htools. unfold masked_request, masked_prompt in *.
  clear Hprovider Hexecutor. destruct executor as [execute|]; [|by apply Hreview].
  apply preserves_bind; [|intros o; apply preserves_ret]. apply preserves_tool_loop.
  - intros r' Hs' Hu'. apply Hreview. rewrite Hs', Hu'. naive_solver.
  - intros name args. by apply (Htools execute).
Qed.

Lemma preserves_attempts_from k n responses retries error :
  preserves I (attempts patterns decision_schema gw provider request executor context system n (user ++ rewrites k)
    responses retries error).
Proof.
  revert k responses retries error. induction n as [|n IH]; intros k responses retries error;
    cbn [attempts]; [apply preserves_ret|]. apply preserves_bind.
  - apply preserves_try.
    + apply preserves_bind; [|intros; apply preserves_ret]. unfold schedule.
      destruct (gw_closed gw); [apply preserves_raise|]. apply preserves_generate_once.
        split; [split; by eexists|done].
    + intros e handler. unfold attempt_failure. case_match; try done; intros [= <-]; apply preserves_ret.
  - intros [code|response]; [apply preserves_ret|]. destruct (allowed _); [apply preserves_ret|].
    destruct n; [apply preserves_ret|]. rewrite append_assoc. apply (IH (S k)).
Qed.

Lemma preserves_attempts n responses retries error :
  preserves I (attempts patterns decision_schema gw provider request executor context system n user responses retries error).
Proof. rewrite <- (append_nil user). apply (preserves_attempts_from 0). Qed.
End OneRequest.
End Preserved.

(** A response one of the attempts got: from the provider, or from the loop
    that runs the tools. *)
Definition answered (context : AiRequestContext) (request : AiGenerationRequest) (executor : option ToolExecutor)
    (system : string) (r : ProviderResponse) : Prop :=
  ∃ user s s', generate_once decision_schema gw provider request executor context
    (provider_request request context system user) s = (inr r, s').
Definition rejected (r : ProviderResponse) : Prop := allowed (inspect patterns (pres_text r)) = false.

(** How [n] attempts end: with the first response that is allowed; or with none,
    because a request failed or every attempt was rejected. *)
Record attempts_ended (answer : ProviderResponse → Prop) (n : nat) (responses : list ProviderResponse) (retries : Z)
    (error : option string) (ended : Attempts) (more : list ProviderResponse) : Prop := {
  ended_responses : att_responses ended = (responses ++ more)%list;
  ended_answered : Forall answer more;
  ended_accepted : match att_accepted ended with
    | Some r => ∃ before, more = (before ++ [r])%list ∧ Forall rejected before ∧ allowed (inspect patterns (pres_text r)) = true ∧
        (length before < n)%nat ∧ att_retries ended = retries + Z.of_nat (length before) ∧
        att_error_code ended = (if before == [] then error else Some "zero_tag_rejected")
    | None => Forall rejected more ∧
        att_retries ended = retries + Z.of_nat (min (length more) (pred n)) ∧
        (length more = n ∧ att_error_code ended = Some "zero_tag_rejected" ∨
         (length more < n)%nat ∧ ∃ e k, attempt_failure e = Some k ∧ att_error_code ended = Some (public_ai_error e))
    end
}.

Lemma attempts_spec context request executor system n user responses retries error db ended db' :
  attempts patterns decision_schema gw provider request executor context system (S n) user responses retries error db
    = (inr ended, db') →
  ∃ more, attempts_ended (answered context request executor system) (S n) responses retries error ended more.
Proof.
  revert user responses retries error db. induction n as [|n IH]; intros user responses retries error db;
    cbn [attempts]; intros (answer & db1 & Htry & Hrun)%bind_inv_inr.
  all: assert (match answer with
    | inl code => ∃ e k, attempt_failure e = Some k ∧ code = public_ai_error e
    | inr r => answered context request executor system r end) as Hanswer.
  1,3: unfold try_except in Htry; rewrite bind_run in Htry; unfold schedule in Htry;
    destruct (gw_closed gw); [by destruct answer; cbn in Htry|];
    destruct (generate_once _ _ _ _ _ _ _ db) as [[e|r] db2] eqn:Honce;
    [destruct (attempt_failure e) as [k|] eqn:He; [|done]; pose proof He as Hk; unfold attempt_failure in Hk;
       destruct e; try discriminate Hk; injection Hk as <-; injection Htry as <- _; by eexists _, _
    |injection Htry as <- _; by exists user, db, db2].
  all: destruct answer as [code|response];
    [injection Hrun as <- _; destruct Hanswer as (e & k & He & ->); exists []; split;
      [by rewrite app_nil_r|done|cbn; split; [done|]; split; [lia|]; right; split; [lia|]; by exists e, k]|].
  - destruct (allowed _) eqn:Ha; injection Hrun as <- _; (exists [response]; split; [done|by constructor|]); cbn.
    + exists []. split_and!; [done|done|done|cbn; lia|cbn; lia|by rewrite bool_decide_true].
    + split; [by constructor|]. split; [lia|]. by left.
  - destruct (allowed _) eqn:Ha.
    { injection Hrun as <- _. exists [response]. split; [done|by constructor|]. cbn. exists [].
      split_and!; [done|done|done|cbn; lia|cbn; lia|by rewrite bool_decide_true]. }
    apply IH in Hrun as (more & [Hr Hans Hacc]). exists (response :: more). split.
    + by rewrite Hr, <- app_assoc.
    + by constructor.
    + destruct (att_accepted ended) as [r|].
      * destruct Hacc as (before & -> & Hbefore & Hok & Hlen & Hret & Herr). exists (response :: before).
        split_and!; [done|by constructor|done|cbn; lia|rewrite Hret; cbn; lia|]. rewrite Herr, (bool_decide_false (response :: before = [])) by done.
        by destruct (before == []).
      * destruct Hacc as (Hmore & Hret & Hend). split; [by constructor|]. split; [rewrite Hret; cbn; lia|].
        destruct Hend as [[Hl He]|[Hl He]]; [left|right]; (split; [cbn; lia|done]).
Qed.
End Gateway.

(** Reading the context writes nothing. *)
Lemma sensitive_terms_reads `{!Crypto} u student (db : Database) : snd (sensitive_terms u student db) = db.
Proof.
  destruct (accessible_students_spec u db) as (learners & Hrun & _). unfold sensitive_terms.
  rewrite bind_run. destruct (user_school_id u) as [i|]; [erewrite bind_inr by reflexivity|];
    rewrite ?ret_run, bind_run, Hrun; erewrite bind_inr by reflexivity; by destruct student.
Qed.

Lemma resolve_context_reads `{!Crypto} requester student (db : Database) : snd (resolve_context requester student db) = db.
Proof.
  unfold resolve_context. erewrite bind_inr by reflexivity. destruct (findb _ _) as [u|]; [|done].
  assert (∀ m : M unit, snd (m db) = db → snd ((m;; terms ← sensitive_terms u student;
    mret (mkAiRequestContext (user_id u) (user_school_id u) student (order_by term_le (remove_dups terms)))) db) = db) as Hlast.
  { intros m Hm. rewrite bind_run. destruct (m db) as [[e|[]] db1]; cbn [snd] in Hm; subst db1; [done|].
    rewrite bind_run. pose proof (sensitive_terms_reads u student db) as Ht. by destruct (sensitive_terms u student db) as [[e|terms] db1]. }
  apply Hlast. destruct student as [i|]; [|done]. erewrite bind_inr by reflexivity. by destruct (findb _ _).
Qed.

(** The prompt of a request: the active template of its name and service,
    rendered from variables in which the names the context knows are masked; they
    are the request's own, except that the characters of a lesson go first. *)
Definition rendered_for `{!Crypto} (request : AiGenerationRequest) (context : AiRequestContext) (db : Database)
    (rendered : RenderedPrompt) : Prop :=
  ∃ template variables,
    fst (active_template (areq_prompt_name request) (areq_service request) db) = inr (Some template) ∧
    (areq_service request ≠ LESSON_GENERATION → variables = areq_variables request) ∧
    render_prompt template (sanitize_variables variables (areq_requester_user_id request) (areq_student_id request)
      (ctx_sensitive_terms context)) = inr rendered.

(** What a generation keeps of a table, from the database it starts from. *)
Lemma generate_keeps `{!Crypto} `{!Network} patterns decision_schema gw provider request
    executor latency (t : Table) (J : list (row t) → Prop) (db : Database) :
  (∀ q n e, http_send q n = inl e → e ≠ SafetyBlocked) →
  t ≠ ContentSafetyEvents → t ≠ AiGatewayCalls →
  let run := generate patterns decision_schema gw provider request executor latency db in
  match fst (resolve_context (areq_requester_user_id request) (areq_student_id request) db) with
  | inl e => run = (inl e, db)
  | inr context =>
    (∀ rendered r, rendered_for request context db rendered →
       presentable decision_schema gw context (subject request) (areq_prompt_name request) executor
         (rp_system_instruction rendered) (rp_user_content rendered) r →
       preserves (λ db, J (db_tables db t)) (provider r)) →
    (∀ execute name args, executor = Some execute → preserves (λ db, J (db_tables db t)) (execute name args)) →
    J (db_tables db t) → J (db_tables (snd run) t)
  end.
Proof.
  intros Hclient Ht Htcalls run. unfold run, generate. rewrite bind_run.
  pose proof (resolve_context_reads (areq_requester_user_id request) (areq_student_id request) db) as Hread.
  destruct (resolve_context _ _ db) as [[e|context] db1]; cbn [fst snd] in *; subst db1; [done|]. intros Hprovider Hexecutor HJ.
  assert (∀ A (m : M A) ts, frames ts m → t ∉ ts → preserves (λ db, J (db_tables db t)) m) as Hframe
    by (intros; by eapply preserves_frames).
  rewrite bind_run.
  pose proof (Hframe _ _ _ (frames_active_template [] (areq_prompt_name request) (areq_service request))
    (not_elem_of_nil _) db HJ) as HJ1.
  destruct (active_template _ _ db) as [[e|[template|]] db1] eqn:Htemplate; cbn [snd] in HJ1; [done| |done].
  match goal with |- J (db_tables (snd (?m db1)) t) =>
    apply (λ H : preserves (λ db, J (db_tables db t)) m, H db1 HJ1) end.
  apply preserves_bind_run.
  { case_bool_decide; [|apply preserves_ret]. eapply (Hframe _ _ []); [apply frames_mask_lesson_characters|set_solver]. }
  intros db2 [variables characters] db3 _ Hvariables. cbv zeta.
  apply preserves_bind_run; [eapply (Hframe _ _ []); [apply frames_raise_or|set_solver]|].
  intros db4 rendered db5 _ Hrendered.
  assert (rendered_for request context db rendered) as Hprompt.
  { exists template, variables. split_and!; [by rewrite Htemplate| |].
    - intros Hplain. rewrite bool_decide_false in Hvariables by done. by injection Hvariables.
    - unfold raise_or in Hrendered. by destruct (render_prompt _ _); injection Hrendered as ->. }
  apply preserves_bind; [apply preserves_attempts; eauto|]. intros ended.
  apply preserves_bind; [by apply preserves_guard_check|]. intros [].
  apply preserves_bind; [|intros; apply preserves_ret].
  eapply (Hframe _ _ [AiGatewayCalls]); [apply frames_record_call; set_solver|set_solver].
Qed.

(** What every request to the provider and the tools keep, a generation keeps. *)
Lemma preserves_generate `{!Crypto} `{!Network} patterns decision_schema gw provider request
    executor latency (t : Table) (J : list (row t) → Prop) :
  (∀ q n e, http_send q n = inl e → e ≠ SafetyBlocked) →
  t ≠ ContentSafetyEvents → t ≠ AiGatewayCalls →
  (∀ r, preserves (λ db, J (db_tables db t)) (provider r)) →
  (∀ execute name args, executor = Some execute → preserves (λ db, J (db_tables db t)) (execute name args)) →
  preserves (λ db, J (db_tables db t)) (generate patterns decision_schema gw provider request executor latency).
Proof.
  intros Hclient Ht Htcalls Hprovider Hexecutor db HJ.
  pose proof (generate_keeps patterns decision_schema gw provider request executor latency t J db Hclient Ht Htcalls) as Hkeeps.
  cbv zeta in Hkeeps. destruct (fst (resolve_context _ _ db)) as [e|context]; [by rewrite Hkeeps|]. apply Hkeeps; auto.
Qed.

(** A provider that leaves the tables alone, asked without tools. *)
Lemma generate_frames `{!Crypto} `{!Network} patterns decision_schema gw provider request latency (t : Table) (db : Database) :
  (∀ q n e, http_send q n = inl e → e ≠ SafetyBlocked) →
  (∀ r, frames [] (provider r)) → t ≠ ContentSafetyEvents → t ≠ AiGatewayCalls →
  db_tables (snd (generate patterns decision_schema gw provider request None latency db)) t = db_tables db t.
Proof.
  intros Hclient Hprovider Ht Htcalls.
  apply (preserves_generate patterns decision_schema gw provider request None latency t (λ l, l = db_tables db t)); try done.
  intros r db1 Hdb1. by rewrite (Hprovider r db1 t) by apply not_elem_of_nil.
Qed.

(** C9: a provider only gets what it may see. When the context of a request cannot be read
    from the database, the provider is not asked and nothing changes. Otherwise let the
    provider do whatever it likes in any table, as long as it keeps an invariant [J] on these
    requests: their instruction and content are the active template of the request, rendered
    from variables in which the names of that very context are masked (the request's own
    variables, except for lessons, whose characters go first), with what is appended, the
    whole masked once more for the subject; the content, with the turns before it, was allowed
    by the reviewer; and there are no turns when there are no tools. Then the generation keeps
    [J], however it ends: the provider is never asked anything else. What the tools answered
    stands in the turns before as the tools gave it; only the copy the reviewer reads is
    masked. *)
Theorem provider_gets_only_masked_and_reviewed `{!Crypto} `{!Network} patterns decision_schema gw provider request
    executor latency (t : Table) (J : list (row t) → Prop) (db : Database) :
  (∀ q n e, http_send q n = inl e → e ≠ SafetyBlocked) →
  t ≠ ContentSafetyEvents → t ≠ AiGatewayCalls →
  let run := generate patterns decision_schema gw provider request executor latency db in
  match fst (resolve_context (areq_requester_user_id request) (areq_student_id request) db) with
  | inl e => run = (inl e, db)
  | inr context =>
    (∀ rendered r, rendered_for request context db rendered →
       presentable decision_schema gw context (subject request) (areq_prompt_name request) executor
         (rp_system_instruction rendered) (rp_user_content rendered) r →
       preserves (λ db, J (db_tables db t)) (provider r)) →
    (∀ execute name args, executor = Some execute → preserves (λ db, J (db_tables db t)) (execute name args)) →
    J (db_tables db t) → J (db_tables (snd run) t)
  end.
Proof. apply generate_keeps. Qed.

(** ** What comes back *)

Definition school_terms (u : User) (db : Database) : list (string * string) :=
  match user_school_id u with
  | None => []
  | Some i => match findb (λ s : School, i == Schema.school_id s) (db_tables db Schools) with
              | Some s => if truthy (school_name s) then [(school_name s, "the school")] else []
              | None => []
              end
  end.
Definition parent_terms (student : option uuid) (db : Database) : list (string * string) :=
  match student with
  | None => []
  | Some s => flat_map (λ l : ParentLink, map (λ v, (v, "their parent")) (filterb truthy [link_parent_name l; link_parent_contact l]))
                (filterb (λ l : ParentLink, link_student_id l == s) (db_tables db ParentLinks))
  end.

Lemma sensitive_terms_run `{!Crypto} u student (db : Database) :
  ∃ learners, (∀ x, x ∈ learners ↔ within_reach u db x) ∧
    sensitive_terms u student db =
      (inr (school_terms u db ++ flat_map person_terms learners ++
            flat_map person_terms (filterb (λ x : User, bool_decide (user_id x ∈ user_id u :: option_list student)) (db_tables db Users)) ++
            parent_terms student db)%list, db).
Proof.
  destruct (accessible_students_spec u db) as (learners & Hrun & Hin). exists learners. split; [done|].
  unfold sensitive_terms, school_terms, parent_terms.
  rewrite bind_run. destruct (user_school_id u) as [i|] eqn:Hi; [erewrite bind_inr by reflexivity|];
    rewrite ?ret_run, bind_run, Hrun; erewrite bind_inr by reflexivity; destruct student; reflexivity.
Qed.

Lemma resolve_context_spec `{!Crypto} requester student (db : Database) context db' :
  resolve_context requester student db = (inr context, db') →
  db' = db ∧ ctx_requester_user_id context = requester ∧ ctx_student_id context = student ∧
  ∃ u, u ∈ db_tables db Users ∧ user_id u = requester ∧ user_status u ≠ DEACTIVATED ∧
    user_school_id u = ctx_school_id context ∧
    (∃ terms, sensitive_terms u student db = (inr terms, db) ∧
       ctx_sensitive_terms context = order_by term_le (remove_dups terms)) ∧
    (∀ s, student = Some s → ∃ v, v ∈ db_tables db Users ∧ user_id v = s ∧ user_school_id v = user_school_id u ∧
       user_role v = STUDENT ∧ user_status v ≠ DEACTIVATED).
Proof.
  unfold resolve_context. erewrite bind_inr by reflexivity. intros Hrun.
  destruct (findb _ _) as [u|] eqn:Hu; [|done].
  apply findb_Some in Hu as [Hp Hu]. apply andb_prop in Hp as [Hid Hst].
  apply bool_decide_eq_true in Hid. apply negb_true_iff, bool_decide_eq_false in Hst.
  destruct (sensitive_terms_run u student db) as (learners & _ & Hterms).
  apply bind_inv_inr in Hrun as ([] & db1 & Hcheck & Hrun).
  assert (db1 = db ∧ ∀ s, student = Some s → ∃ v, v ∈ db_tables db Users ∧ user_id v = s ∧
    user_school_id v = user_school_id u ∧ user_role v = STUDENT ∧ user_status v ≠ DEACTIVATED) as [-> Hstudent].
  { destruct student as [s|]; [|injection Hcheck as <-; done]. erewrite bind_inr in Hcheck by reflexivity.
    destruct (findb _ _) as [v|] eqn:Hv; [|done]. injection Hcheck as <-. split; [done|]. intros s' [= <-].
    apply findb_Some in Hv as [Hp Hv]. rewrite !andb_true_iff, negb_true_iff, !bool_decide_eq_true, bool_decide_eq_false in Hp.
    exists v. naive_solver. }
  rewrite (bind_inr _ _ _ _ _ Hterms) in Hrun. injection Hrun as <- <-. split_and!; try done.
  exists u. split_and!; try done. by eexists.
Qed.

(** ** Whose names are masked *)

(** A way of writing somebody down. *)
Definition spelled (u : User) (v : string) : Prop :=
  v ≠ "" ∧
  (user_first_name u = Some v ∨ user_last_name u = Some v ∨ user_email u = Some v ∨
   ∃ f l, f ≠ "" ∧ l ≠ "" ∧ user_first_name u = Some f ∧ user_last_name u = Some l ∧ v = f ++ " " ++ l).

Lemma truthy_spec s : truthy s = true ↔ s ≠ "".
Proof. unfold truthy. by rewrite negb_true_iff, bool_decide_eq_false. Qed.

Lemma person_terms_spelled `{!Crypto} u v : spelled u v → (v, pseudonym (user_id u)) ∈ person_terms u.
Proof.
  intros [Hv Hspell]. unfold person_terms, add_person. apply elem_of_app.
  destruct Hspell as [Hx|[Hx|[Hx|(f & l & Hf & Hl & H1 & H2 & ->)]]].
  1-3: left; apply list_elem_of_fmap; exists v; split; [done|]; apply elem_of_filterb; split; [by apply truthy_spec|];
    apply list_elem_of_omap; exists (Some v); split; [|done]; rewrite Hx; set_solver.
  right. apply truthy_spec in Hf as Hf', Hl as Hl'.
  assert (filterb truthy (omap id [user_first_name u; user_last_name u]) = [f; l]) as ->.
  { rewrite H1, H2. change (omap id [Some f; Some l]) with [f; l]. by rewrite !filterb_cons, Hf', Hl'. }
  rewrite bool_decide_eq_false_2 by discriminate. left.
Qed.

Lemma wordy_upper s : s ≠ "" → string_forall is_alnum s = true → wordy (upper s).
Proof.
  intros Hne Hs. assert (∀ c, is_alnum c = true → word_char (upper_ascii c) = true) as Hup.
  { intros c. by destruct c as [[] [] [] [] [] [] [] []]. }
  destruct s as [|c s]; [done|]. apply andb_prop in Hs as [Hc Hs]. split; [by apply Hup|].
  change (last_char None (upper (String c s))) with (last_char (Some (upper_ascii c)) (upper s)).
  clear Hne. revert c Hc. induction s as [|d s IH]; intros c Hc; [by apply Hup|].
  apply andb_prop in Hs as [Hd Hs]. change (upper (String d s)) with (String (upper_ascii d) (upper s)). by apply IH.
Qed.

Lemma pseudonym_wordy `{!Crypto} u :
  (∀ s, sha256_hex s ≠ "" ∧ string_forall is_alnum (sha256_hex s) = true) → wordy (pseudonym u).
Proof.
  intros Hsha. destruct (Hsha (bytes_of 16 u)) as [Hne Hall]. unfold pseudonym.
  set (h := take_string 10 (sha256_hex (bytes_of 16 u))).
  assert (wordy (upper h)) as [_ Hlast].
  { apply wordy_upper; [|by apply string_forall_take]. unfold h. by destruct (sha256_hex _). }
  split; [done|]. rewrite last_char_append. destruct (upper h) as [|c t] eqn:Hh; [|exact Hlast].
  exfalso. revert Hh. unfold h. by destruct (sha256_hex (bytes_of 16 u)).
Qed.

Lemma person_terms_wordy `{!Crypto} u term r :
  (∀ s, sha256_hex s ≠ "" ∧ string_forall is_alnum (sha256_hex s) = true) → (term, r) ∈ person_terms u → wordy r.
Proof.
  intros Hsha. unfold person_terms, add_person. rewrite elem_of_app. intros [Hx|Hx].
  - apply list_elem_of_fmap in Hx as (v & [= -> ->] & _). by apply pseudonym_wordy.
  - case_bool_decide; [set_solver|]. apply list_elem_of_singleton in Hx as [= -> ->]. by apply pseudonym_wordy.
Qed.

Lemma sensitive_terms_wordy `{!Crypto} u student (db : Database) terms db' term r :
  (∀ s, sha256_hex s ≠ "" ∧ string_forall is_alnum (sha256_hex s) = true) →
  sensitive_terms u student db = (inr terms, db') → (term, r) ∈ terms → wordy r.
Proof.
  intros Hsha Hrun. destruct (sensitive_terms_run u student db) as (learners & _ & Hrun'). rewrite Hrun' in Hrun.
  injection Hrun as <- _. rewrite !elem_of_app. intros [Hx|[Hx|[Hx|Hx]]].
  - unfold school_terms in Hx. repeat case_match; try set_solver. apply list_elem_of_singleton in Hx as [= -> ->]. done.
  - apply list_elem_of_In, in_flat_map in Hx as (x & _ & Hx%list_elem_of_In). by eapply person_terms_wordy.
  - apply list_elem_of_In, in_flat_map in Hx as (x & _ & Hx%list_elem_of_In). by eapply person_terms_wordy.
  - unfold parent_terms in Hx. destruct student; [|set_solver].
    apply list_elem_of_In, in_flat_map in Hx as (x & _ & Hx%list_elem_of_In).
    apply list_elem_of_fmap in Hx as (v & [= -> ->] & _). done.
Qed.

(** C11: the names of every learner within the requester's reach are masked. The context of a
    request, which exists only for an account that is not switched off and, when a learner is
    named, for a learner of its school who is not switched off either, has a stand-in for each
    way of writing down a learner the requester may see, the requester and the learner asked
    about: the pseudonym of that person. All its stand-ins are words of their own, so that
    [no_name_is_left] holds of them. *)
Theorem learners_within_reach_are_masked `{!Crypto} requester student (db : Database) context db' :
  (∀ s, sha256_hex s ≠ "" ∧ string_forall is_alnum (sha256_hex s) = true) →
  resolve_context requester student db = (inr context, db') →
  ∃ actor, actor ∈ db_tables db Users ∧ user_id actor = requester ∧ user_status actor ≠ DEACTIVATED ∧
    (∀ s, student = Some s → ∃ v, v ∈ db_tables db Users ∧ user_id v = s ∧ user_school_id v = user_school_id actor ∧
       user_role v = STUDENT ∧ user_status v ≠ DEACTIVATED) ∧
    (∀ u v, (within_reach actor db u ∨ u ∈ db_tables db Users ∧ (user_id u = requester ∨ student = Some (user_id u))) →
       spelled u v → (v, pseudonym (user_id u)) ∈ ctx_sensitive_terms context) ∧
    (∀ term r, (term, r) ∈ ctx_sensitive_terms context → wordy r).
Proof.
  intros Hsha Hrun. apply resolve_context_spec in Hrun as (-> & Hreq & Hstu & actor & Hin & Hid & Hst & Hsch &
    (terms & Hterms & Hctx) & Hstudent).
  assert (∀ p, p ∈ ctx_sensitive_terms context ↔ p ∈ terms) as Helem.
  { intros p. by rewrite Hctx, elem_of_order_by, elem_of_remove_dups. }
  exists actor. split_and!; try done.
  - intros u v Hu Hv. apply Helem. destruct (sensitive_terms_run actor student db) as (learners & Hl & Hrun').
    rewrite Hrun' in Hterms. injection Hterms as <-. rewrite !elem_of_app. right.
    apply person_terms_spelled in Hv. destruct Hu as [Hu|[Hu Huid]].
    + left. apply list_elem_of_In, in_flat_map. exists u. split; [by apply list_elem_of_In, Hl|by apply list_elem_of_In].
    + right. left. apply list_elem_of_In, in_flat_map. exists u. split; [|by apply list_elem_of_In].
      apply list_elem_of_In, elem_of_filterb. split; [|done]. apply bool_decide_eq_true.
      destruct Huid as [Huid|Huid]; [rewrite Huid, Hid; left|rewrite Huid; right; left].
  - intros term r Ht%Helem. by eapply sensitive_terms_wordy.
Qed.

(** ** An answer, and its record *)

Lemma record_call_spec audit (db db' : Database) i :
  record_call audit db = (inr i, db') →
  ∃ call, db_tables db' AiGatewayCalls = (db_tables db AiGatewayCalls ++ [call])%list ∧ call_id call = i ∧
    (call_requester_user_id call, call_student_id call, call_service call) =
      (ctx_requester_user_id (audit_context audit), ctx_student_id (audit_context audit), audit_service audit) ∧
    (call_provider call, call_model call, call_status call, call_fallback_used call, call_compliance_retries call) =
      (audit_provider audit, audit_model audit, audit_status audit, audit_fallback_used audit, audit_compliance_retries audit) ∧
    (call_input_tokens call, call_output_tokens call, call_thought_tokens call, call_estimated_cost_usd call) =
      (audit_input_tokens audit, audit_output_tokens audit, audit_thought_tokens audit, audit_estimated_cost_usd audit).
Proof.
  unfold record_call. erewrite bind_inr by reflexivity. intros ([] & db1 & Hrun & Hret)%bind_inv_inr.
  injection Hret as <- <-. apply transaction_commit in Hrun as [Hrun _]. erewrite bind_inr in Hrun by reflexivity.
  injection Hrun as <-. rewrite set_table_eq. eexists. split_and!; try reflexivity.
Qed.

(** Outside lessons an answer passes the Zero-Tag policy. *)
Lemma generate_allowed `{!Crypto} `{!Network} patterns decision_schema gw provider request executor latency
    (db : Database) result db' :
  patterns ≡ₚ PROHIBITED_RESPONSE_TERMS → areq_service request ≠ LESSON_GENERATION →
  generate patterns decision_schema gw provider request executor latency db = (inr result, db') →
  allowed (inspect patterns (ares_text result)) = true.
Proof.
  intros Hpat Hservice Hrun. unfold generate in Hrun.
  apply bind_inv_inr in Hrun as (context & db1 & _ & Hrun). apply bind_inv_inr in Hrun as (template & db2 & _ & Hrun).
  destruct template as [template|]; [|done]. rewrite bool_decide_eq_false_2 in Hrun by done.
  erewrite bind_inr in Hrun by reflexivity. cbv zeta in Hrun.
  apply bind_inv_inr in Hrun as (rendered & db4 & _ & Hrun). apply bind_inv_inr in Hrun as (ended & db5 & Hended & Hrun).
  apply bind_inv_inr in Hrun as ([] & db6 & _ & Hrun). apply bind_inv_inr in Hrun as (i & db7 & _ & Hrun).
  injection Hrun as <- _. cbn [ares_text]. change (restore_characters [] ?x) with x.
  destruct (attempts_spec _ _ _ _ _ _ _ _ _ _ _ _ _ _ _ _ Hended) as (more & [_ _ Hacc]).
  destruct (att_accepted ended) as [r|]; [by destruct Hacc as (_ & _ & _ & Hok & _)|]. by apply fallback_allowed.
Qed.

Lemma sum_of_total f l : sum_of f l = foldr Z.add 0 (map f l).
Proof. induction l as [|r l IH]; [done|]. cbn. unfold sum_of in IH. by rewrite IH. Qed.

(** Until the call is recorded no call is. *)
Lemma calls_before_record `{!Crypto} `{!Network} patterns decision_schema gw provider request executor context system n
    user responses retries error phase text (db db3 db5 db6 : Database) ended :
  (∀ q n e, http_send q n = inl e → e ≠ SafetyBlocked) →
  (∀ r db0, db_tables (snd (provider r db0)) AiGatewayCalls = db_tables db0 AiGatewayCalls) →
  (∀ execute name args db0, executor = Some execute →
     db_tables (snd (execute name args db0)) AiGatewayCalls = db_tables db0 AiGatewayCalls) →
  db_tables db3 AiGatewayCalls = db_tables db AiGatewayCalls →
  attempts patterns decision_schema gw provider request executor context system n user responses retries error db3 = (inr ended, db5) →
  guard_check decision_schema gw context phase text db5 = (inr tt, db6) →
  db_tables db6 AiGatewayCalls = db_tables db AiGatewayCalls.
Proof.
  intros Hclient Hprovider Hexecutor H3 Hended Hguard. set (J := λ l : list AiGatewayCall, l = db_tables db AiGatewayCalls).
  assert (J (db_tables db5 AiGatewayCalls)) as H5.
  { match type of Hended with ?m _ = _ =>
      assert (preserves (λ s : Database, J (db_tables s AiGatewayCalls)) m) as Hp end.
    { apply preserves_attempts; [done|done| |].
      - intros r _ db0 HJ. unfold J in *. by rewrite Hprovider.
      - intros execute name args He db0 HJ. unfold J in *. by rewrite Hexecutor. }
    specialize (Hp _ H3). by rewrite Hended in Hp. }
  pose proof (frames_guard_check decision_schema gw Hclient context phase text db5 AiGatewayCalls ltac:(set_solver)) as Hf.
  rewrite Hguard in Hf. cbn [snd] in Hf. by rewrite Hf.
Qed.

(** What the answer says of the responses [responses] the attempts got. *)
Definition answered_with (patterns : list string) (request : AiGenerationRequest) (max_retries : nat)
    (responses : list ProviderResponse) (result : AiGenerationResult) : Prop :=
  let plain := areq_service request ≠ LESSON_GENERATION in
  if ares_fallback_used result then
    let answer := fallback_generate patterns request in
    Forall (rejected patterns) responses ∧ (length responses <= S max_retries)%nat ∧
    ares_compliance_retries result = Z.of_nat (min (length responses) max_retries) ∧
    (ares_provider result, ares_output_tokens result) = (RULE_BASED, 0) ∧ (plain → ares_text result = pres_text answer)
  else
    ∃ before last, responses = (before ++ [last])%list ∧ Forall (rejected patterns) before ∧
      allowed (inspect patterns (pres_text last)) = true ∧ (length before <= max_retries)%nat ∧
      ares_compliance_retries result = Z.of_nat (length before) ∧
      (ares_provider result, ares_model result, ares_output_tokens result) =
        (pres_provider last, pres_model last, pres_output_tokens last) ∧
      (plain → ares_text result = pres_text last).

(** C10: an answer is reviewed, free of labels and accounted for. When a generation returns,
    the final text was allowed by the reviewer as masked for the subject, and outside lessons,
    whose characters are put back, it passes the Zero-Tag policy. It is the first response of
    the attempts that passes the policy, after as many retries as were rejected before it (no
    more than are configured), and not marked as a fallback; or, exactly when no response
    passed, it is the text of the fallback, marked as one. One call was recorded, with the
    requester, the learner, the service, the provider, the model and the retries of the
    answer, a status that says whether it is the fallback's, and the input, output and thought
    tokens of all the responses that were got, with their cost. *)
Theorem answers_are_reviewed_and_recorded `{!Crypto} `{!Network} patterns decision_schema gw provider request
    executor latency (db : Database) result db' :
  (∀ q n e, http_send q n = inl e → e ≠ SafetyBlocked) →
  patterns ≡ₚ PROHIBITED_RESPONSE_TERMS →
  (∀ r db0, db_tables (snd (provider r db0)) AiGatewayCalls = db_tables db0 AiGatewayCalls) →
  (∀ execute name args db0, executor = Some execute →
     db_tables (snd (execute name args db0)) AiGatewayCalls = db_tables db0 AiGatewayCalls) →
  generate patterns decision_schema gw provider request executor latency db = (inr result, db') →
  ∃ context call responses system,
    resolve_context (areq_requester_user_id request) (areq_student_id request) db = (inr context, db) ∧
    allowed_by_review decision_schema gw ("final:" ++ areq_prompt_name request)
      (sanitize_text (ares_text result) (pseudonym (subject request)) (ctx_sensitive_terms context)) ∧
    (areq_service request ≠ LESSON_GENERATION → allowed (inspect patterns (ares_text result)) = true) ∧
    Forall (answered decision_schema gw provider context request executor system) responses ∧
    answered_with patterns request (gw_max_compliance_retries gw) responses result ∧
    db_tables db' AiGatewayCalls = (db_tables db AiGatewayCalls ++ [call])%list ∧
    call_id call = ares_call_id result ∧
    (call_requester_user_id call, call_student_id call, call_service call) =
      (areq_requester_user_id request, areq_student_id request, areq_service request) ∧
    (call_provider call, call_model call, call_status call, call_fallback_used call, call_compliance_retries call) =
      (ares_provider result, ares_model result, (if ares_fallback_used result then CALL_FALLBACK else CALL_SUCCEEDED),
       ares_fallback_used result, ares_compliance_retries result) ∧
    let total f := foldr Z.add 0 (map f responses) in
    (call_input_tokens call, call_output_tokens call, call_thought_tokens call, call_estimated_cost_usd call) =
      (total pres_input_tokens, total pres_output_tokens, total pres_thought_tokens, estimated_cost gw responses) ∧
    ares_input_tokens result = total pres_input_tokens.
Proof.
  intros Hclient Hpat Hprovider Hexecutor Hrun. pose proof Hrun as Hgenerate. unfold generate in Hrun.
  apply bind_inv_inr in Hrun as (context & db1 & Hcontext & Hrun).
  destruct (resolve_context_spec _ _ _ _ _ Hcontext) as (-> & Hreq & Hstu & _).
  apply bind_inv_inr in Hrun as (template & db2 & Htemplate & Hrun).
  assert (db2 = db) as -> by (unfold active_template in Htemplate; erewrite bind_inr in Htemplate by reflexivity; by injection Htemplate).
  destruct template as [template|]; [|done].
  apply bind_inv_inr in Hrun as ([variables characters] & db3 & Hmask & Hrun). cbv zeta in Hrun.
  apply bind_inv_inr in Hrun as (rendered & db4 & Hrender & Hrun).
  assert (db4 = db3) as -> by (destruct (render_prompt _ _); [done|]; by injection Hrender).
  apply bind_inv_inr in Hrun as (ended & db5 & Hended & Hrun).
  apply bind_inv_inr in Hrun as ([] & db6 & Hguard & Hrun).
  apply bind_inv_inr in Hrun as (i & db7 & Hrecord & Hrun). injection Hrun as <- <-.
  assert (db_tables db6 AiGatewayCalls = db_tables db AiGatewayCalls) as H6.
  { eapply (calls_before_record _ _ _ provider); [exact Hclient|exact Hprovider|exact Hexecutor| |exact Hended|exact Hguard].
    case_bool_decide; [|by injection Hmask as _ _ <-].
    by rewrite (frames_run [] _ _ _ _ _ (frames_mask_lesson_characters _ _ _ _ _) Hmask) by set_solver. }
  destruct (record_call_spec _ _ _ _ Hrecord) as (call & Hcalls & Hcid & Hcreq & Hcprov & Htokens).
  destruct (attempts_spec _ _ _ _ _ _ _ _ _ _ _ _ _ _ _ _ Hended) as (more & [Hresponses Hanswered Hacc]).
  cbn [app] in Hresponses. exists context, call, more, (rp_system_instruction rendered). split_and!; try done.
  - by eapply guard_check_allows.
  - intros Hservice. by eapply generate_allowed in Hgenerate.
  - unfold answered_with. cbn [ares_fallback_used ares_compliance_retries ares_provider ares_output_tokens ares_model ares_text].
    assert (areq_service request ≠ LESSON_GENERATION → characters = []) as Hplain.
    { intros Hs. rewrite bool_decide_false in Hmask by done. by injection Hmask as _ <- _. }
    destruct (att_accepted ended) as [r|]; cbn [is_none default].
    + destruct Hacc as (before & -> & Hbefore & Hok & Hlen & Hret & _). exists before, r.
      split_and!; [done|done|done|lia|rewrite Hret; lia|done|]. by intros ->%Hplain.
    + destruct Hacc as (Hmore & Hret & Hend). cbn [pred] in Hret.
      split_and!; [done|lia|rewrite Hret; lia|done|]. by intros ->%Hplain.
  - by rewrite Hcalls, H6.
  - rewrite Hcreq. cbn [audit_context audit_service]. by rewrite Hreq, Hstu.
  - rewrite Htokens. cbn. by rewrite Hresponses, !sum_of_total.
Qed.

(** ** Without a key *)

Section Unconfigured.
Context `{!Crypto} `{!Network}.
Context (patterns : list string) (decision_schema : Json) (gw : GatewaySettings).
Hypothesis (Hkey : guard_configured (gw_guard gw) = false).

Lemma unconfigured_guard context phase text db :
  guard_check decision_schema gw context phase text db = (inl SafetyUnavailable, db).
Proof. unfold guard_check, check. by rewrite Hkey. Qed.

(** What an attempt raises, the scheduler being closed or not. *)
Definition refusal : exn := if gw_closed gw then SchedulerClosedError else SafetyUnavailable.

Lemma unconfigured_attempts provider request executor context system n user responses retries error db :
  attempts patterns decision_schema gw provider request executor context system (S n) user responses retries error db
    = (inl refusal, db).
Proof.
  cbn [attempts]. rewrite bind_run. unfold try_except. rewrite bind_run. unfold schedule, refusal.
  destruct (gw_closed gw); [done|].
  assert (∀ prompt r, reviewed_generate decision_schema gw provider context prompt r db = (inl SafetyUnavailable, db)) as Hr.
  { intros prompt r. unfold reviewed_generate. by rewrite bind_run, unconfigured_guard. }
  unfold generate_once. destruct (preq_tools _); [by rewrite Hr|]. destruct executor as [execute|]; [|by rewrite Hr].
  rewrite bind_run. unfold run_tool_loop, MAX_TOOL_ITERATIONS. change (Z.to_nat 5) with 5%nat. cbn [tool_iterations].
  rewrite bind_run, Hr. done.
Qed.
End Unconfigured.

(** Without a key the gateway never answers. The reviewer and the provider share one key; when
    it is not set every generation ends in an exception, before the provider or a tool is
    asked and with no call recorded: the fallback, which is meant to answer then, is never
    reached. *)
Theorem unconfigured_gateway_never_answers `{!Crypto} `{!Network} patterns decision_schema gw provider provider'
    request executor executor' latency (db : Database) :
  guard_configured (gw_guard gw) = false →
  let run := generate patterns decision_schema gw provider request executor latency db in
  (∃ e, fst run = inl e) ∧
  run = generate patterns decision_schema gw provider' request executor' latency db ∧
  db_tables (snd run) AiGatewayCalls = db_tables db AiGatewayCalls.
Proof.
  intros Hkey run. unfold run, generate.
  pose proof (frames_resolve_context [] (areq_requester_user_id request) (areq_student_id request) db AiGatewayCalls) as H1.
  rewrite !(bind_run (resolve_context _ _)).
  destruct (resolve_context _ _ db) as [[e|context] db1]; cbn [snd fst] in *; [split_and!; [by exists e|done|apply H1; set_solver]|].
  pose proof (frames_active_template [] (areq_prompt_name request) (areq_service request) db1 AiGatewayCalls) as H2.
  rewrite !(bind_run (active_template _ _)).
  destruct (active_template _ _ db1) as [[e|[template|]] db2]; cbn [snd fst] in *;
    [split_and!; [by exists e|done|rewrite H2, H1; set_solver]| |unfold raise; cbn [fst snd]; split_and!; [by eexists|done|rewrite H2, H1; set_solver]].
  match goal with |- context [(?m ≫= _) db2] => set (mask := m) end.
  assert (db_tables (snd (mask db2)) AiGatewayCalls = db_tables db2 AiGatewayCalls) as H3.
  { unfold mask. case_bool_decide; [|done]. apply (frames_mask_lesson_characters []). set_solver. }
  rewrite !(bind_run mask). destruct (mask db2) as [[e|[variables characters]] db3]; cbn [snd fst] in *;
    [split_and!; [by exists e|done|rewrite H3, H2, H1; set_solver]|].
  cbv zeta. rewrite !(bind_run (raise_or _)).
  destruct (render_prompt _ _) as [e|rendered]; cbn [raise_or raise fst snd];
    [split_and!; [by exists e|done|rewrite H3, H2, H1; set_solver]|].
  rewrite ret_run, !(bind_run (attempts _ _ _ _ _ _ _ _ _ _ _ _ _)), !unconfigured_attempts by done. cbn [fst snd].
  split_and!; [by eexists|done|rewrite H3, H2, H1; set_solver].
Qed.

(** * The gateway at work

    A school with a prompt; a reviewer and a provider behind one network. *)

(** Digests of hexadecimal digits. *)
#[local] Instance hex_crypto : Crypto := {|
  sha256_hex s := if s == bytes_of 16 2 then "ada2ada2ada2" else "c0ffee012345";
  hmac_sha256_hex k s := k ++ s; hmac_sha512_hex k s := k ++ s;
  token_urlsafe n := int_str n; token_hex n _ := int_str n; random_digit _ _ := "0"%char;
  argon2_hash s _ := s; argon2_verify h s := h == s
|}.

Lemma hex_crypto_digests s : sha256_hex s ≠ "" ∧ string_forall is_alnum (sha256_hex s) = true.
Proof. simpl. case_bool_decide; split; done. Qed.

(** The reviewer at [https://r] allows what does not say "bomb"; the model at
    [https://m] answers with a label first, and better when told to rewrite. *)
Definition says (word : string) (q : HttpRequest) : bool :=
  match req_json q with Some j => contains word (json_dumps j) | None => false end.

Definition answer_response (t : string) : HttpResponse :=
  mkHttpResponse 200 (Some (JObj [("content", JArr [text_json t]); ("stop_reason", JStr "end_turn");
    ("usage", JObj [("input_tokens", JInt 30); ("output_tokens", JInt 7)])])).

#[local] Instance two_services : Network := {|
  http_send q _ :=
    if String.prefix "https://r" (req_url q) then
      inr (if says "bomb" q then verdict_response "block" [JStr "self_harm"] else verdict_response "allow" [])
    else if says "previous response violated" q then inr (answer_response "Ada reads best with pictures.")
    else inr (answer_response "Ada is dyslexic.");
  fromisoformat _ := None; json_loads _ := None; exception_text _ := "" |}.

Definition lax_int (j : Json) : option Z := match j with JInt z => Some z | _ => None end.

Definition the_provider : TextGenerationProvider :=
  claude_generate lax_int (mkClaudeRestProvider (Some "key") "m1" "https://m" "v1" true).

Definition the_gateway (key : option string) : GatewaySettings :=
  mkGatewaySettings (mkContentSafetyGuard key "https://r" "m1" "v1" true) 2 (dec_of_Z 1) (dec_of_Z 5)
    (mkDecimal 125 2) (mkDecimal 10 2) false.

Definition prompt_db : Database :=
  set_table AiPromptTemplates
    [mkAiPromptTemplate 40 NARRATIVE "parent.summary" 3 "You write for {audience}." "Notes: {notes}" ["notes"; "audience"] true]
    school_db.

Definition summary_request : AiGenerationRequest :=
  mkAiGenerationRequest 6 NARRATIVE "parent.summary" {[ "notes" := "Dele saw Ada read."; "audience" := "parents" ]} (Some 2)
    "" 1024 None None true false [].

Definition summary_run := generate PROHIBITED_RESPONSE_TERMS JNull (the_gateway (Some "key")) the_provider summary_request None 12 prompt_db.

Definition answer_of (r : exn + AiGenerationResult) : option (string * bool * Z * Z) :=
  match r with
  | inr a => Some (ares_text a, ares_fallback_used a, ares_compliance_retries a, ares_input_tokens a)
  | inl _ => None
  end.

Example summary_result : answer_of (fst summary_run) = Some ("Ada reads best with pictures.", false, 1, 60).
Proof. vm_compute. reflexivity. Qed.

(** What the provider gets. *)
Example summary_prompt :
  match fst (resolve_context 6 (Some 2) prompt_db) with
  | inr context => masked_for context 2 "Notes: Dele saw Ada read."
  | inl _ => ""
  end = "Notes: Learner-C0FFEE0123 saw Learner-ADA2ADA2AD read.".
Proof. vm_compute. reflexivity. Qed.

Lemma two_services_client q n e : http_send q n = inl e → e ≠ SafetyBlocked.
Proof. cbn [http_send two_services]. by repeat case_match. Qed.

Lemma the_provider_frames r : frames [] (the_provider r).
Proof.
  unfold the_provider, claude_generate, provider_failure. frames_tac.
  revert H. case_match; intros [= <-]; apply frames_raise.
Qed.

Lemma answers_are_reviewed_and_recorded_witness :
  ∃ result context call before last, fst summary_run = inr result ∧ ares_text result = "Ada reads best with pictures." ∧
    allowed_by_review JNull (the_gateway (Some "key")) "final:parent.summary"
      (masked_for context 2 "Ada reads best with pictures.") ∧
    allowed (inspect PROHIBITED_RESPONSE_TERMS "Ada reads best with pictures.") = true ∧
    db_tables (snd summary_run) AiGatewayCalls = [call] ∧ call_compliance_retries call = 1 ∧
    length before = 1%nat ∧ call_output_tokens call = foldr Z.add 0 (map pres_output_tokens (before ++ [last])%list).
Proof.
  destruct (run_checked (generate PROHIBITED_RESPONSE_TERMS JNull (the_gateway (Some "key")) the_provider summary_request None 12)
    prompt_db (λ a, (ares_text a == "Ada reads best with pictures.") && (ares_compliance_retries a =? 1) && negb (ares_fallback_used a)))
    as (result & Hrun & Hcheck); [vm_compute; reflexivity|].
  apply andb_prop in Hcheck as [[Htext Hretries]%andb_prop Hfall]. apply bool_decide_eq_true in Htext. apply Z.eqb_eq in Hretries.
  destruct (answers_are_reviewed_and_recorded PROHIBITED_RESPONSE_TERMS JNull (the_gateway (Some "key")) the_provider
    summary_request None 12 prompt_db result _ two_services_client (Permutation_refl _)
    (λ r db0, the_provider_frames r db0 AiGatewayCalls (not_elem_of_nil _))
    (λ execute name args db0 (He : None = Some execute), match He with eq_refl => I end) Hrun)
    as (context & call & responses & system & _ & Hreview & Hallowed & _ & Hwith & Hcalls & _ & _ & Hcall & Htokens & _).
  unfold answered_with in Hwith. destruct (ares_fallback_used result); [discriminate Hfall|].
  destruct Hwith as (before & last & -> & _ & _ & _ & Hret & _).
  assert (db_tables prompt_db AiGatewayCalls = []) as Hnone by (vm_compute; reflexivity).
  exists result, context, call, before, last. rewrite Htext in Hreview, Hallowed. rewrite Hnone in Hcalls.
  rewrite Hretries in Hcall, Hret. split_and!.
  - exact (f_equal fst Hrun).
  - exact Htext.
  - exact Hreview.
  - by apply Hallowed.
  - exact Hcalls.
  - by injection Hcall.
  - lia.
  - by injection Htokens.
Defined.

(** A provider that writes what it is sent into the notifications. *)
Definition logging_provider : TextGenerationProvider := λ r,
  i ← uuid4;
  insert Notifications (new_Notification i 6 "provider" "prompt" "prompt" (preq_user_content r) t0);;
  the_provider r.

Definition sanitised (terms : sensitive_names) (n : Notification) : Prop := ∃ value p, note_description n = sanitize_text value p terms.

Definition logged_run :=
  generate PROHIBITED_RESPONSE_TERMS JNull (the_gateway (Some "key")) logging_provider summary_request None 12 prompt_db.

Lemma provider_gets_only_masked_and_reviewed_witness :
  length (db_tables (snd logged_run) Notifications) = 2%nat ∧
  ∃ context, resolve_context 6 (Some 2) prompt_db = (inr context, prompt_db) ∧
    ∀ n : Notification, n ∈ db_tables (snd logged_run) Notifications → sanitised (ctx_sensitive_terms context) n.
Proof.
  split; [vm_compute; reflexivity|].
  destruct (fst (resolve_context (areq_requester_user_id summary_request) (areq_student_id summary_request) prompt_db))
    as [e|context] eqn:Hfst; [vm_compute in Hfst; discriminate|].
  exists context. split.
  { apply injective_projections; [exact Hfst|apply resolve_context_reads]. }
  pose proof (provider_gets_only_masked_and_reviewed PROHIBITED_RESPONSE_TERMS JNull (the_gateway (Some "key"))
    logging_provider summary_request None 12 Notifications
    (λ l : list Notification, ∀ n, n ∈ l → sanitised (ctx_sensitive_terms context) n) prompt_db two_services_client) as Hlogged.
  cbv zeta in Hlogged. rewrite Hfst in Hlogged. apply Hlogged.
  - discriminate.
  - discriminate.
  - intros rendered r _ ((_ & k & Huser) & _) db Hdb. unfold logging_provider.
    erewrite bind_inr by reflexivity. erewrite bind_inr by reflexivity.
    rewrite (the_provider_frames r _ Notifications) by apply not_elem_of_nil. rewrite set_table_eq.
    intros n [Hn|Hn]%elem_of_app; [by apply Hdb|]. apply list_elem_of_singleton in Hn as ->.
    eexists _, (pseudonym (subject summary_request)). exact Huser.
  - discriminate.
  - intros n Hn. by apply elem_of_nil in Hn.
Defined.

Lemma unconfigured_gateway_never_answers_witness :
  guard_configured (gw_guard (the_gateway None)) = false ∧
  ∃ e, fst (generate PROHIBITED_RESPONSE_TERMS JNull (the_gateway None) the_provider summary_request None 12 prompt_db) = inl e.
Proof.
  split; [reflexivity|].
  apply (unconfigured_gateway_never_answers PROHIBITED_RESPONSE_TERMS JNull (the_gateway None) the_provider the_provider
    summary_request None None 12 prompt_db eq_refl).
Defined.

(** The teacher has the learner's class. *)
Definition taught_db : Database :=
  set_table TeacherClassAssignments
    [mkTeacherClassAssignment 50 1 None 6 7 PRIMARY FROM_MANUAL None None t0 None None] prompt_db.

Lemma learners_within_reach_are_masked_witness :
  ∃ context, resolve_context 6 None taught_db = (inr context, taught_db) ∧
    within_reach teacher taught_db learner ∧ ("Ada", "Learner-ADA2ADA2AD") ∈ ctx_sensitive_terms context ∧
    ∀ term r, (term, r) ∈ ctx_sensitive_terms context → wordy r.
Proof.
  destruct (fst (resolve_context 6 None taught_db)) as [e|context] eqn:Hfst; [vm_compute in Hfst; discriminate|].
  assert (resolve_context 6 None taught_db = (inr context, taught_db)) as Hrun.
  { rewrite (surjective_pairing (resolve_context _ _ _)), Hfst. reflexivity. }
  destruct (learners_within_reach_are_masked 6 None taught_db context taught_db hex_crypto_digests Hrun)
    as (actor & Hin & Hid & _ & _ & Hmasked & Hwordy).
  assert (actor = teacher) as ->.
  { revert Hin Hid. change (db_tables taught_db Users) with [learner; parent_user; senior; bursar; teacher].
    rewrite !elem_of_cons, elem_of_nil. by intros [->|[->|[->|[->|[->|[]]]]]]. }
  assert (within_reach teacher taught_db learner) as Hreach.
  { unfold within_reach. cbn [user_role teacher]. split_and!; [left|done|done|done|done|]. intros _.
    exists (new_StudentClassEnrollment 8 2 7), (mkTeacherClassAssignment 50 1 None 6 7 PRIMARY FROM_MANUAL None None t0 None None).
    split_and!; try done; left. }
  exists context. split_and!; [done|done| |done].
  change "Learner-ADA2ADA2AD" with (pseudonym (user_id learner)).
  apply Hmasked; [by left|]. split; [done|]. left. reflexivity.
Defined.
