(* ===== verification/AskFormatting.v ===== *)
(** * What an answer looks like

    [src/nevo/ask_nevo/formatting.py]: the text of a model, taken apart into
    headings, paragraphs, bullets and steps, and put together again. Texts are
    ASCII, so of the bullets only the dash and the star occur in one. *)

From Stdlib Require Import Ascii String.
From S2P Require Import Prelude Text Regex Privacy.

Local Open Scope string_scope.
Local Open Scope Z_scope.
Local Open Scope nevo_scope.

(** ** Patterns

    They are matched against a line; [$] is its end. *)

Definition not_newline (c : ascii) : bool := c != newline.
Definition End : Re := NotAhead (λ _, true).
Definition spaces : Re := Rep is_space 0 None.
Definition some_spaces : Re := Rep is_space 1 None.

Definition BULLET : Re :=
  Cat spaces (Cat (Chr (one_of "-*")) (Cat some_spaces (Cat (Group (Rep not_newline 1 None)) End))).
Definition NUMBERED : Re :=
  Cat spaces (Cat (Rep is_digit 1 (Some 2%nat)) (Cat (Chr (one_of ".)"))
    (Cat some_spaces (Cat (Group (Rep not_newline 1 None)) End)))).
Definition COLON_HEADING : Re :=
  Cat spaces (Cat (Group (Rep not_newline 3 (Some 60%nat))) (Cat (Chr (one_of ":")) (Cat spaces End))).
Definition PAIRED_INLINE : Re :=
  let star := Chr (one_of "*") in
  let plain := Rep (λ c, not_newline c && negb (one_of "*" c)) 1 None in
  Or (Cat star (Cat star (Cat plain (Cat star star))))
 (Or (Cat (NotBehind (one_of "*")) (Cat star (Cat plain (Cat star (NotAhead (one_of "*"))))))
     (Cat (Chr (one_of "`")) (Cat (Rep (λ c, not_newline c && negb (one_of "`" c)) 1 None) (Chr (one_of "`"))))).
Definition TRAILING_PUNCT : Re := Cat some_spaces (Group (Chr (one_of ",.;:!?"))).

(** The hashes of a heading and the space after them. *)
Definition HEADING_START : Re :=
  Cat spaces (Cat (Group (Rep (one_of "#") 1 (Some 6%nat))) some_spaces).

Definition group_of (r : Re) (line : string) : option string :=
  match match_at r None line with Some (_, Some g) => Some g | _ => None end.

(** [\s*#*$] *)
Definition heading_end (s : string) : bool := string_forall (one_of "#") (lstrip s).

(** [.+?] before [\s*#*$]: the fewest characters, one at least. *)
Fixpoint heading_text (s : string) : string :=
  match s with
  | "" => ""
  | String c s' => String c (if heading_end s' then "" else heading_text s')
  end.

(** [HEADING.match]: the hashes and the text. *)
Definition heading (line : string) : option (string * string) :=
  match match_at HEADING_START None line with
  | Some (rest, Some hashes) => if truthy rest then Some (hashes, heading_text rest) else None
  | _ => None
  end.

(** [BOLD_HEADING.match] of a line without trailing space: what stands between
    the stars at its two ends. *)
Definition bold_heading (line : string) : option string :=
  let s := lstrip line in
  let n := String.length s in
  if String.prefix "**" s && ends_with "**" s && (5 <=? n)%nat then Some (String.substring 2 (n - 4) s) else None.

(** ** Blocks *)

Inductive AnswerBlockType := PARAGRAPH | BULLETS | STEPS | HEADING.
#[export] Instance AnswerBlockType_eq_dec : EqDecision AnswerBlockType.
Proof. solve_decision. Defined.
Definition AnswerBlockType_value (t : AnswerBlockType) : string :=
  match t with PARAGRAPH => "paragraph" | BULLETS => "bullets" | STEPS => "steps" | HEADING => "heading" end.

Inductive AnswerFormat := PLAIN | STRUCTURED.

Record AnswerBlock := mkAnswerBlock {
  block_type : AnswerBlockType; block_text : string; block_items : list string; block_level : Z
}.

#[export] Instance AnswerBlock_eq_dec : EqDecision AnswerBlock.
Proof. solve_decision. Defined.

Record StructuredAnswer := mkStructuredAnswer {
  sa_blocks : list AnswerBlock; sa_plain_text : string; sa_format : AnswerFormat
}.

Definition marker (c : ascii) : bool := one_of "*_`" c.

(** [INLINE_MARKERS.sub("", value)]: each marker is one or two of the
    characters. *)
Definition drop_markers : string → string := string_filter (λ c, negb (marker c)).

(** [" ".join(TRAILING_PUNCT.sub(r"\1", value).split()).strip()] *)
Definition tidy (value : string) : string :=
  strip (join " " (split_words (sub TRAILING_PUNCT (λ _ g, default "" g) value))).

Definition strip_inline_markup (value : string) : string := tidy (drop_markers value).

(** [_clean_inline_markup] *)
Definition clean_inline_markup (preserve : bool) (value : string) : string :=
  if negb preserve then strip_inline_markup value
  else tidy (render (λ t _, t)
         (filterb (λ p, match p with Keep c => negb (marker c) | Found _ _ => true end) (cut PAIRED_INLINE value))).

(** The loop over the lines: the blocks so far and what is pending. *)
Record Parsing := mkParsing {
  ps_blocks : list AnswerBlock; ps_paragraph : list string; ps_items : list string; ps_kind : option AnswerBlockType
}.

Section Structure.
Context (preserve_inline : bool).

Definition flush_paragraph (p : Parsing) : Parsing :=
  let body := clean_inline_markup preserve_inline (join " " (ps_paragraph p)) in
  let block := if (ps_paragraph p != []) && truthy body then [mkAnswerBlock PARAGRAPH body [] 0] else [] in
  mkParsing (ps_blocks p ++ block)%list [] (ps_items p) (ps_kind p).

Definition flush_items (p : Parsing) : Parsing :=
  let block := match ps_kind p with
               | Some kind => if ps_items p != [] then [mkAnswerBlock kind "" (ps_items p) 0] else []
               | None => []
               end in
  mkParsing (ps_blocks p ++ block)%list (ps_paragraph p) [] None.

Definition add_heading (body : string) (level : Z) (p : Parsing) : Parsing :=
  if truthy body then p <| ps_blocks := (ps_blocks p ++ [mkAnswerBlock HEADING body [] level])%list |> else p.

Definition add_item (kind : AnswerBlockType) (text : string) (p : Parsing) : Parsing :=
  let p := flush_paragraph p in
  let p := if ps_kind p != Some kind then (flush_items p) <| ps_kind := Some kind |> else p in
  let body := clean_inline_markup preserve_inline text in
  if truthy body then p <| ps_items := (ps_items p ++ [body])%list |> else p.

Definition read_line (p : Parsing) (raw_line : string) : Parsing :=
  let line := rstrip raw_line in
  if negb (truthy (strip line)) then flush_paragraph (flush_items p)
  else match heading line with
  | Some (hashes, text) =>
    add_heading (strip_inline_markup text) (Z.of_nat (String.length hashes)) (flush_paragraph (flush_items p))
  | None =>
  match bold_heading line with
  | Some text => add_heading (strip_inline_markup text) 2 (flush_paragraph (flush_items p))
  | None =>
  match group_of BULLET line with
  | Some text => add_item BULLETS text p
  | None =>
  match group_of NUMBERED line with
  | Some text => add_item STEPS text p
  | None =>
  match (if ps_paragraph p == [] then group_of COLON_HEADING line else None) with
  | Some text => add_heading (strip_inline_markup text) 3 (flush_items p)
  | None => let p := flush_items p in p <| ps_paragraph := (ps_paragraph p ++ [strip line])%list |>
  end end end end end.

(** [text.split("\n")] *)
Fixpoint split_lines (s : string) : list string :=
  match s with
  | "" => [""]
  | String c s' =>
    if c == newline then "" :: split_lines s'
    else match split_lines s' with l :: ls => String c l :: ls | [] => [String c ""] end
  end.

Definition carriage_return : ascii := ascii_of_nat 13.
Definition normalise_lines (answer : string) : string :=
  strip (replace (String carriage_return (String newline "")) (String newline "") answer).

Definition number_items (items : list string) : list string :=
  imap (λ i item, int_str (Z.of_nat (S i)) ++ ". " ++ item) items.

(** [_as_plain_text] *)
Definition as_plain_text (blocks : list AnswerBlock) : string :=
  let parts := flat_map (λ b, match block_type b with
    | PARAGRAPH | HEADING => [block_text b]
    | BULLETS => map (λ item, "• " ++ item) (block_items b)
    | STEPS => number_items (block_items b)
    end) blocks in
  join (String newline "") (filterb truthy parts).

Definition answer_blocks (text : string) : list AnswerBlock :=
  let p := flush_paragraph (flush_items (foldl read_line (mkParsing [] [] [] None) (split_lines text))) in
  if ps_blocks p == [] then
    let body := clean_inline_markup preserve_inline text in
    if truthy body then [mkAnswerBlock PARAGRAPH body [] 0] else []
  else ps_blocks p.

Definition structure_answer (answer : string) : StructuredAnswer :=
  let text := normalise_lines answer in
  if negb (truthy text) then mkStructuredAnswer [] "" PLAIN
  else
    let blocks := answer_blocks text in
    mkStructuredAnswer blocks (as_plain_text blocks)
      (if forallb (λ b, block_type b == PARAGRAPH) blocks then PLAIN else STRUCTURED).
End Structure.

Definition render_block (b : AnswerBlock) : string :=
  match block_type b with
  | HEADING => "**" ++ block_text b ++ "**"
  | PARAGRAPH => block_text b
  | BULLETS => join (String newline "") (map (λ item, "- " ++ item) (block_items b))
  | STEPS => join (String newline "") (number_items (block_items b))
  end.

Definition render_answer (answer : string) : string :=
  strip (join (String newline (String newline ""))
    (filterb truthy (map render_block (sa_blocks (structure_answer true answer))))).

Definition nl : string := String newline "".
Example render_answer_examples :
  map render_answer
    ["Hello" ++ nl ++ "there *you*: `x_y` _end_ , ok"; "# Title #" ++ nl ++ nl ++ "- one" ++ nl ++ "* two" ++ nl ++ "1. a" ++ nl ++ "2) b **c**";
     "Steps:" ++ nl ++ "1. go" ++ nl ++ "**Big**" ++ nl ++ "see" ++ nl ++ "this:"]
  = ["Hello there *you*: `x_y` end, ok"; "**Title**" ++ nl ++ nl ++ "- one" ++ nl ++ "- two" ++ nl ++ nl ++ "1. a" ++ nl ++ "2. b **c**";
     "**Steps**" ++ nl ++ nl ++ "1. go" ++ nl ++ nl ++ "**Big**" ++ nl ++ nl ++ "see this:"].
Proof. vm_compute. reflexivity. Qed.

(** ** No stray markup

    A predicate on characters that holds of the space and of the punctuation
    that is moved up passes from a text to its tidied form. *)

Section Tidy.
Context (p : ascii → bool) (Hspace : p " "%char = true).
Let clean (s : string) : Prop := string_forall p s = true.

Lemma clean_lstrip s : clean s → clean (lstrip s).
Proof.
  unfold clean. induction s as [|c s IH]; [done|]. simpl. intros Hs. destruct (is_space c); [|done].
  apply IH. by apply andb_prop in Hs as [_ ?].
Qed.

Lemma clean_rstrip s : clean s → clean (rstrip s).
Proof.
  unfold clean. induction s as [|c s IH]; [done|]. simpl. intros [Hc Hs]%andb_prop.
  destruct (_ && _); [done|]. simpl. by rewrite Hc, IH.
Qed.

Lemma clean_strip s : clean s → clean (strip s).
Proof. intros. by apply clean_rstrip, clean_lstrip. Qed.

Lemma clean_split_words s : clean s → Forall clean (split_words s).
Proof.
  unfold clean. induction s as [|c s IH]; [constructor|]. cbn [string_forall]. intros [Hc Hs]%andb_prop.
  specialize (IH Hs). cbn [split_words]. destruct (is_space c); [done|]. destruct s as [|c' s].
  { constructor; [simpl; by rewrite Hc|done]. }
  assert (∀ w, string_forall p w = true → string_forall p (String c w) = true) as Hcons by (intros w Hw; simpl; by rewrite Hc).
  destruct (is_space c'); [constructor; [by apply Hcons|done]|].
  destruct (split_words (String c' s)) as [|w ws]; [constructor; [by apply Hcons|done]|].
  inversion IH; subst. constructor; [by apply Hcons|done].
Qed.

Lemma clean_join sep l : clean sep → Forall clean l → clean (join sep l).
Proof.
  unfold clean. intros Hsep. induction 1 as [|s l Hs Hl IH]; [done|]. destruct l as [|s' l]; [done|].
  change (join sep (s :: s' :: l)) with (s ++ (sep ++ join sep (s' :: l))). by rewrite !string_forall_app, Hs, Hsep.
Qed.

Lemma clean_render f ps : (∀ q, q ∈ ps → clean (render_piece f q)) → clean (render f ps).
Proof.
  unfold clean. induction ps as [|q ps IH]; intros H; [done|]. simpl.
  rewrite string_forall_app, H, IH by set_solver. done.
Qed.

End Tidy.

Lemma divided_keeps r prev s ps c : divided r prev s ps → Keep c ∈ ps → c ∈ list_ascii_of_string s.
Proof.
  induction 1 as [prev|prev c' s ps Hm Hd IH|prev t s g ps Ht Hm Hd IH]; intros Hc; [set_solver|simpl; set_solver|].
  assert (c ∈ list_ascii_of_string s) as Hin by set_solver. clear -Hin.
  induction t as [|c' t IH]; [done|]. rewrite append_cons. simpl. set_solver.
Qed.

Lemma between_cons c s : between (String c s) s = String c "".
Proof. unfold between. simpl String.length. by replace (S (String.length s) - String.length s)%nat with 1%nat by lia. Qed.

(** What is found before a mark of punctuation is that mark. *)
Lemma punct_found prev s t g ps :
  divided TRAILING_PUNCT prev s ps → Found t g ∈ ps → ∃ c, g = Some (String c "") ∧ one_of ",.;:!?" c = true.
Proof.
  induction 1 as [prev|prev c s ps Hm Hd IH|prev t' s g' ps Ht Hm Hd IH]; intros Hin; [set_solver|set_solver|].
  apply elem_of_cons in Hin as [[= -> ->]|Hin]; [|by apply IH].
  apply match_at_matches in Hm as (prev' & Hm).
  inversion Hm as [| |a b prev0 s0 g0 prev1 s1 g1 prev2 s2 g2 _ Hg| | | | | | |]; subst.
  inversion Hg as [| | | | | |a prev0 s0 g0 prev3 s3 g3 Hc| | |]; subst.
  inversion Hc; subst. rewrite between_cons. by eexists.
Qed.

Lemma tidy_clean p s :
  p " "%char = true → (∀ c, one_of ",.;:!?" c = true → p c = true) →
  string_forall p s = true → string_forall p (tidy s) = true.
Proof.
  intros Hspace Hpunct Hs. apply clean_strip. apply clean_join; [simpl; by rewrite Hspace|]. apply clean_split_words.
  assert (divided TRAILING_PUNCT None s (cut TRAILING_PUNCT s)) as Hd by (by apply cut_divided).
  apply clean_render; [done|]. intros q Hq. destruct q as [c|t g]; simpl.
  - rewrite andb_true_r. rewrite string_forall_elem in Hs. apply Hs. by eapply divided_keeps.
  - destruct (punct_found _ _ _ _ _ Hd Hq) as (c & -> & Hc). simpl. by rewrite Hpunct.
Qed.

(** No star, underscore or backquote. *)
Definition unmarked (s : string) : Prop := string_forall (λ c, negb (marker c)) s = true.

Lemma strip_inline_unmarked s : unmarked (strip_inline_markup s).
Proof.
  apply tidy_clean; [done| |apply string_forall_filter]. intros c Hc. apply bool_decide_eq_true in Hc.
  repeat (apply elem_of_cons in Hc as [->|Hc]; [done|]). by apply elem_of_nil in Hc.
Qed.

(** What a text of a block promises: it is there and, unless emphasis is kept,
    carries no markup. *)
Definition body_ok (preserve_inline : bool) (s : string) : Prop := s ≠ "" ∧ (preserve_inline = false → unmarked s).

Definition block_ok (preserve_inline : bool) (b : AnswerBlock) : Prop :=
  match block_type b with
  | PARAGRAPH => body_ok preserve_inline (block_text b) ∧ block_items b = [] ∧ block_level b = 0
  | HEADING => body_ok preserve_inline (block_text b) ∧ block_items b = [] ∧ 1 <= block_level b <= 6
  | BULLETS | STEPS =>
    block_text b = "" ∧ block_items b ≠ [] ∧ Forall (body_ok preserve_inline) (block_items b) ∧ block_level b = 0
  end.

Section Blocks.
Context (preserve : bool).

Lemma clean_body_ok value : truthy (clean_inline_markup preserve value) = true →
  body_ok preserve (clean_inline_markup preserve value).
Proof.
  intros Ht%negb_true_iff%bool_decide_eq_false. split; [done|]. intros Hp.
  unfold clean_inline_markup. rewrite Hp. apply strip_inline_unmarked.
Qed.

(** The blocks made so far and the items that are pending. *)
Definition parsing_ok (p : Parsing) : Prop :=
  Forall (block_ok preserve) (ps_blocks p) ∧ Forall (body_ok preserve) (ps_items p) ∧
  match ps_kind p with None | Some BULLETS | Some STEPS => True | _ => False end.

Lemma flush_paragraph_ok p : parsing_ok p → parsing_ok (flush_paragraph preserve p).
Proof.
  intros (Hb & Hi & Hk). split_and!; [|done|done]. cbn [ps_blocks flush_paragraph]. apply Forall_app. split; [done|].
  destruct (_ && _) eqn:Ht; [|constructor]. apply andb_prop in Ht as [_ Ht].
  apply Forall_singleton. split_and!; [by apply clean_body_ok|done..].
Qed.

Lemma flush_items_ok p : parsing_ok p → parsing_ok (flush_items p).
Proof.
  intros (Hb & Hi & Hk). split_and!; [|constructor|done]. cbn [ps_blocks flush_items]. apply Forall_app. split; [done|].
  destruct (ps_kind p) as [[]|]; try done; (case_bool_decide as Hn; [constructor|]); by repeat constructor.
Qed.

Lemma add_heading_ok text level p :
  parsing_ok p → 1 <= level <= 6 → parsing_ok (add_heading (strip_inline_markup text) level p).
Proof.
  intros (Hb & Hi & Hk) Hlevel. unfold add_heading. destruct (truthy _) eqn:Ht; [|done]. destruct p.
  apply negb_true_iff, bool_decide_eq_false in Ht. split_and!; [|exact Hi|exact Hk]. apply Forall_app. split; [done|].
  apply Forall_singleton. split; [split; [done|intros _; apply strip_inline_unmarked]|done].
Qed.

Lemma add_item_ok kind text p :
  parsing_ok p → kind = BULLETS ∨ kind = STEPS → parsing_ok (add_item preserve kind text p).
Proof.
  intros Hp Hkind. unfold add_item. cbv zeta. apply flush_paragraph_ok in Hp. revert Hp.
  generalize (flush_paragraph preserve p). intros q Hq.
  assert (parsing_ok (if ps_kind q != Some kind then (flush_items q) <| ps_kind := Some kind |> else q)) as Hr.
  { case_bool_decide; [done|]. apply flush_items_ok in Hq as (Hb & Hi & Hk). destruct (flush_items q). split_and!; [exact Hb|exact Hi|].
    by destruct Hkind as [->| ->]. }
  revert Hr. generalize (if ps_kind q != Some kind then (flush_items q) <| ps_kind := Some kind |> else q).
  intros r (Hb & Hi & Hk). destruct (truthy _) eqn:Ht; [|done]. destruct r. split_and!; [exact Hb| |exact Hk].
  apply Forall_app. split; [done|]. apply Forall_singleton. by apply clean_body_ok.
Qed.

(** A heading has one to six hashes. *)
Lemma repeats_length p lo n prev s prev' s' :
  repeats p lo (Some n) prev s prev' s' → (lo <= String.length s - String.length s' <= n)%nat ∧ (String.length s' <= String.length s)%nat.
Proof.
  remember (Some n) as hi eqn:Hhi. intros Hr. revert n Hhi.
  induction Hr as [hi prev s|lo hi prev c s prev' s' Hc Hne Hr IH]; intros n ->; [lia|].
  destruct n as [|n]; [done|]. destruct (IH n eq_refl). simpl String.length. lia.
Qed.

Lemma heading_level line hashes text : heading line = Some (hashes, text) → (1 <= String.length hashes <= 6)%nat.
Proof.
  unfold heading. destruct (match_at _ _ _) as [[rest [g|]]|] eqn:Hm; [|done..].
  destruct (truthy rest); [|done]. intros [= -> _].
  apply match_at_matches in Hm as (prev' & Hm). unfold HEADING_START in Hm.
  inversion Hm as [| |a b prev0 s0 g0 prev1 s1 g1 prev2 s2 g2 H1 H2| | | | | | |]; subst.
  inversion H2 as [| |a b prev0 s0 g0 prev3 s3 g3 prev4 s4 g4 H3 H4| | | | | | |]; subst.
  inversion H4; subst. inversion H3 as [| | | | | |a prev0 s0 g0 prev5 s5 g5 H5| | |]; subst.
  inversion H5 as [| | | | |p lo hi prev0 s0 g0 prev6 s6 Hr| | | |]; subst.
  apply repeats_length in Hr as [Hn Hle]. unfold between. clear -Hn Hle.
  assert (∀ n s, (n <= String.length s)%nat → String.length (take_string n s) = n) as ->; [|lia..].
  induction n as [|n IH]; intros [|c s] H; simpl in *; [done|done|lia|]. by rewrite IH by lia.
Qed.

Lemma read_line_ok p line : parsing_ok p → parsing_ok (read_line preserve p line).
Proof.
  intros Hp. unfold read_line. cbv zeta. destruct (negb _); [by apply flush_paragraph_ok, flush_items_ok|].
  destruct (heading _) as [[hashes text]|] eqn:Hh.
  { apply add_heading_ok; [by apply flush_paragraph_ok, flush_items_ok|].
    apply heading_level in Hh. lia. }
  destruct (bold_heading _) as [text|].
  { apply add_heading_ok; [by apply flush_paragraph_ok, flush_items_ok|lia]. }
  destruct (group_of BULLET _); [apply add_item_ok; auto|].
  destruct (group_of NUMBERED _); [apply add_item_ok; auto|].
  apply flush_items_ok in Hp. destruct (if ps_paragraph p == [] then _ else _) as [text|].
  { apply add_heading_ok; [done|lia]. }
  destruct (flush_items p). exact Hp.
Qed.

Lemma answer_blocks_ok text : Forall (block_ok preserve) (answer_blocks preserve text).
Proof.
  unfold answer_blocks. cbv zeta. case_bool_decide.
  { destruct (truthy _) eqn:Ht; [|constructor]. apply Forall_singleton. split_and!; [by apply clean_body_ok|done..]. }
  apply flush_paragraph_ok, flush_items_ok.
  assert (∀ lines p, parsing_ok p → parsing_ok (foldl (read_line preserve) p lines)) as Hfold.
  { induction lines as [|l ls IH]; intros p Hp; [done|]. apply IH. by apply read_line_ok. }
  apply Hfold. by repeat constructor.
Qed.
End Blocks.

Lemma digits_unmarked s : string_forall is_digit s = true → unmarked s.
Proof.
  unfold unmarked. rewrite !string_forall_elem. intros H c Hc. specialize (H c Hc).
  destruct (marker c) eqn:Hm; [|done]. apply bool_decide_eq_true in Hm.
  repeat (apply elem_of_cons in Hm as [->|Hm]; [done|]). by apply elem_of_nil in Hm.
Qed.

(** The pieces of the flattened text of a block. *)
Definition plain_parts (b : AnswerBlock) : list string :=
  match block_type b with
  | PARAGRAPH | HEADING => [block_text b]
  | BULLETS => map (λ item, "• " ++ item) (block_items b)
  | STEPS => number_items (block_items b)
  end.

Lemma unmarked_app a b : unmarked a → unmarked b → unmarked (a ++ b).
Proof. unfold unmarked. rewrite string_forall_app. by intros -> ->. Qed.

Lemma plain_parts_unmarked b : block_ok false b → Forall unmarked (plain_parts b).
Proof.
  unfold block_ok, plain_parts. destruct (block_type b); [intros ((_ & H) & _)|intros (_ & _ & H & _)..|intros ((_ & H) & _)].
  - apply Forall_singleton. auto.
  - apply Forall_map. eapply Forall_impl; [exact H|]. intros s [_ Hs]. apply unmarked_app; [done|auto].
  - unfold number_items. apply Forall_forall. intros s Hs. apply list_elem_of_lookup in Hs as [i Hs].
    rewrite list_lookup_imap in Hs. apply fmap_Some in Hs as (item & Hitem & ->).
    rewrite Forall_forall in H. destruct (H item) as [_ Hi]; [by eapply list_elem_of_lookup_2|].
    apply unmarked_app; [apply digits_unmarked, int_str_digits; lia|]. apply unmarked_app; [done|auto].
  - apply Forall_singleton. auto.
Qed.

Lemma plain_parts_nonempty preserve b : block_ok preserve b → ∃ s, s ∈ plain_parts b ∧ truthy s = true.
Proof.
  unfold block_ok, plain_parts, truthy. destruct (block_type b); [intros ((H & _) & _)|intros (_ & Hn & _)..|intros ((H & _) & _)].
  - exists (block_text b). rewrite bool_decide_eq_false_2 by done. set_solver.
  - destruct (block_items b) as [|i l]; [done|]. exists ("• " ++ i). split; [set_solver|done].
  - destruct (block_items b) as [|i l]; [done|]. exists (int_str 1 ++ (". " ++ i)). split; [set_solver|done].
  - exists (block_text b). rewrite bool_decide_eq_false_2 by done. set_solver.
Qed.

Lemma join_empty sep l : Forall (λ s, truthy s = true) l → join sep l = "" → l = [].
Proof.
  destruct l as [|s [|s' l]]; [done|..]; intros H Hj; inversion H as [|?? Hs]; subst.
  - change (s = "") in Hj. by subst.
  - change (s ++ (sep ++ join sep (s' :: l)) = "") in Hj. by destruct s.
Qed.

(** C22: an answer is well formed, whatever the model wrote. Every block it is taken apart
    into shows something: a paragraph or heading has text, a list has items and none of them
    is empty, a heading has one to six levels. Where emphasis is dropped no star, underscore
    or backquote is left in any block or in the flattened text; the flattened text is empty
    only when there are no blocks; and an answer counts as structured exactly when some block
    is not a paragraph. *)
Theorem answers_are_well_formed preserve answer :
  let structured := structure_answer preserve answer in
  Forall (block_ok preserve) (sa_blocks structured) ∧
  (preserve = false → unmarked (sa_plain_text structured)) ∧
  (sa_plain_text structured = "" ↔ sa_blocks structured = []) ∧
  (sa_format structured = STRUCTURED ↔ ∃ b, b ∈ sa_blocks structured ∧ block_type b ≠ PARAGRAPH).
Proof.
  cbv zeta. unfold structure_answer. cbv zeta. destruct (negb _).
  { split; [constructor|]. split; [done|]. split; [done|]. split; [done|]. intros (b & Hb & _). by apply elem_of_nil in Hb. }
  cbn [sa_blocks sa_plain_text sa_format]. pose proof (answer_blocks_ok preserve (normalise_lines answer)) as Hok.
  revert Hok. generalize (answer_blocks preserve (normalise_lines answer)). intros blocks Hok. split; [done|].
  change (as_plain_text blocks) with (join nl (filterb truthy (flat_map plain_parts blocks))). split_and!.
  - intros ->. apply clean_join; [done|]. apply Forall_forall. intros s Hs. apply elem_of_filterb in Hs as [_ Hs].
    apply list_elem_of_In, in_flat_map in Hs as (b & Hb%list_elem_of_In & Hs%list_elem_of_In).
    rewrite Forall_forall in Hok. apply Hok, plain_parts_unmarked in Hb. rewrite Forall_forall in Hb. by apply Hb.
  - split; [|by intros ->]. intros Hj. destruct blocks as [|b bs]; [done|]. exfalso.
    inversion Hok as [|?? Hb _]; subst. apply plain_parts_nonempty in Hb as (s & Hs & Ht).
    apply join_empty in Hj; [|apply Forall_forall; intros s' Hs'%elem_of_filterb; by destruct Hs'].
    assert (s ∈ filterb truthy (flat_map plain_parts (b :: bs))) as Hin.
    { apply elem_of_filterb. split; [done|]. apply list_elem_of_In, in_flat_map. exists b.
      split; [by left|by apply list_elem_of_In]. }
    rewrite Hj in Hin. by apply elem_of_nil in Hin.
  - destruct (forallb _ blocks) eqn:Hall.
    + split; [done|]. intros (b & Hb & Hne). rewrite forallb_forall in Hall.
      apply list_elem_of_In in Hb. apply Hall, bool_decide_eq_true in Hb. done.
    + split; [|done]. intros _. apply not_true_iff_false in Hall. rewrite forallb_forall in Hall.
      destruct (decide (Exists (λ b, block_type b ≠ PARAGRAPH) blocks)) as [He|Hn].
      * apply Exists_exists in He as (b & Hb & Hne). by exists b.
      * exfalso. apply Hall. intros b Hb%list_elem_of_In. apply bool_decide_eq_true. destruct (decide (block_type b = PARAGRAPH)); [done|].
        exfalso. apply Hn, Exists_exists. by exists b.
Qed.

(** The text of an answer is not a fixed point: a paragraph that ends in a
    colon is on one line the first time it is put together, and is a heading
    the next. What is stored of an answer is the first, what is shown is the
    second. *)
Example rendering_again_changes_an_answer :
  let answer := "Try this" ++ nl ++ "first:" in
  render_answer answer = "Try this first:" ∧ render_answer (render_answer answer) = "**Try this first**".
Proof. vm_compute. done. Qed.
