(* ===== verification/AskAllowance.v ===== *)
(** * A day's allowance of questions

    [src/nevo/ask_nevo/allowance.py] and the two operations of
    [ask_nevo/repositories.py] on the ledger of what was spent. Lagos keeps one
    hour ahead of UTC all year. *)

From Stdlib Require Import String.
From S2P Require Import Prelude Relational Text Vocabulary Schema.

Local Open Scope string_scope.
Local Open Scope Z_scope.
Local Open Scope nevo_scope.

Definition SCHOOL_TIMEZONE : timedelta := hours 1.
Definition OUTPUT_WEIGHT : Z := 5.
Definition STUDENT_DAILY_UNITS : Z := 20000.
Definition TEACHER_DAILY_UNITS : Z := 60000.
Definition RESERVE_UNITS : Z := 4000.

Definition DAILY_UNITS (role : AskNevoRole) : Z :=
  match role with
  | ASK_STUDENT | ASK_PARENT => STUDENT_DAILY_UNITS
  | ASK_TEACHER | ASK_ADMIN => TEACHER_DAILY_UNITS
  end.

Definition units_for (input_tokens output_tokens : Z) : Z :=
  Z.max 0 input_tokens + Z.max 0 output_tokens * OUTPUT_WEIGHT.

(** Days are counted from the epoch, as [civil_of_days] does. *)
Definition day_number (now : datetime) : Z := (now + SCHOOL_TIMEZONE) / days 1.
Definition school_day (now : datetime) : date := civil_of_days (day_number now).
Definition next_reset (now : datetime) : datetime := days (day_number now + 1) - SCHOOL_TIMEZONE.

Record Allowance := mkAllowance {
  al_role : AskNevoRole; al_day : date; al_spent_units : Z; al_exchanges : Z; al_resets_at : datetime
}.

Definition daily_units (a : Allowance) : Z := DAILY_UNITS (al_role a).
Definition remaining_units (a : Allowance) : Z := Z.max 0 (daily_units a - al_spent_units a).
Definition exhausted (a : Allowance) : bool := remaining_units a <? RESERVE_UNITS.
Definition questions_left (a : Allowance) : Z := Z.max 0 (remaining_units a / RESERVE_UNITS).

(** [strftime("%A")]; the epoch was a Thursday. *)
Definition weekday_name (day : Z) : string :=
  match (day + 3) mod 7 with
  | 0 => "Monday" | 1 => "Tuesday" | 2 => "Wednesday" | 3 => "Thursday" | 4 => "Friday" | 5 => "Saturday"
  | _ => "Sunday"
  end.

(** [Allowance.message] *)
Definition allowance_message (a : Allowance) : string :=
  let when := weekday_name (day_number (al_resets_at a)) ++ " morning" in
  if al_role a == ASK_TEACHER then
    "You have used today's Ask Nevo. It starts again on " ++ when ++
    ". Your lessons, classes and reports are all still here."
  else
    "That is all the questions Nevo can answer for you today. Come back on " ++ when ++
    " and ask again - your lessons are still here in the meantime.".

(** [AskNevoDailyLimitError(allowance)] *)
Definition daily_limit (a : Allowance) : exn := AskNevoDailyLimitError (allowance_message a) (al_resets_at a).

(** ** The ledger *)

Definition usage_of (actor_user_id : uuid) (day : date) (u : AskNevoDailyUsage) : bool :=
  (usage_actor_user_id u == actor_user_id) && (usage_usage_date u == day).

(** [SqlAlchemyAskNevoRepository.allowance] *)
Definition allowance (actor_user_id : uuid) (role : AskNevoRole) (now : datetime) : M Allowance :=
  let day := school_day now in
  row ← scalar AskNevoDailyUsages (usage_of actor_user_id day);
  mret (mkAllowance role day
    (match (row : option AskNevoDailyUsage) with Some r => usage_units_spent r | None => 0 end)
    (match (row : option AskNevoDailyUsage) with Some r => usage_exchanges r | None => 0 end) (next_reset now)).

Definition charged (units : Z) (u : AskNevoDailyUsage) : AskNevoDailyUsage :=
  u <| usage_units_spent := usage_units_spent u + units |> <| usage_exchanges := usage_exchanges u + 1 |>.

(** [charge_allowance]: [INSERT ... ON CONFLICT DO UPDATE] *)
Definition charge_allowance (actor_user_id : uuid) (role : AskNevoRole) (units : Z) (now : datetime) : M unit :=
  let day := school_day now in
  begin_ (
    existing ← scalar AskNevoDailyUsages (usage_of actor_user_id day);
    match (existing : option AskNevoDailyUsage) with
    | Some _ => update_where AskNevoDailyUsages (usage_of actor_user_id day) (charged units);; mret tt
    | None =>
      i ← uuid4;
      insert AskNevoDailyUsages (mkAskNevoDailyUsage i actor_user_id day role units 1)
    end).

(** What somebody has spent on a day. *)
Definition spent_on (actor : uuid) (day : date) (l : list AskNevoDailyUsage) : Z :=
  match findb (usage_of actor day) l with Some u => usage_units_spent u | None => 0 end.

(** ** The day *)

(** Microseconds of a day and of the hour ahead. *)
Lemma day_number_spec t : let n := day_number t in 86400000000 * n <= t + 3600000000 < 86400000000 * (n + 1).
Proof.
  cbv zeta. unfold day_number. change SCHOOL_TIMEZONE with 3600000000. change (days 1) with 86400000000.
  pose proof (Z.div_mod (t + 3600000000) 86400000000) as Hd.
  pose proof (Z.mod_pos_bound (t + 3600000000) 86400000000). lia.
Qed.

Lemma next_reset_eq now : next_reset now = 86400000000 * (day_number now + 1) - 3600000000.
Proof. unfold next_reset, days, hours, minutes, seconds. change SCHOOL_TIMEZONE with 3600000000. lia. Qed.

(** A day starts again at the next midnight in Lagos, at most 24 hours later:
    until then it is the same day, and then it is another. *)
Lemma next_reset_is_the_next_day now :
  now < next_reset now <= now + days 1 ∧ day_number (next_reset now) = day_number now + 1 ∧
  ∀ t, now <= t → (t < next_reset now ↔ day_number t = day_number now).
Proof.
  pose proof (day_number_spec now) as H. cbv zeta in H. change (days 1) with 86400000000.
  rewrite next_reset_eq. split; [lia|]. split.
  - pose proof (day_number_spec (86400000000 * (day_number now + 1) - 3600000000)) as H'. cbv zeta in H'. lia.
  - intros t Ht. pose proof (day_number_spec t) as H'. cbv zeta in H'. lia.
Qed.

Example allowance_examples :
  (** 2026-09-01 22:59:59 UTC, a Tuesday, and two seconds later *)
  let now := days 20697 + hours 23 - seconds 1 in
  school_day now = mkDate 2026 9 1 ∧ school_day (now + seconds 2) = mkDate 2026 9 2 ∧
  next_reset now = now + seconds 1 ∧
  exhausted (mkAllowance ASK_STUDENT (school_day now) 16000 7 (next_reset now)) = false ∧
  exhausted (mkAllowance ASK_STUDENT (school_day now) 16001 7 (next_reset now)) = true ∧
  questions_left (mkAllowance ASK_TEACHER (school_day now) 50000 9 (next_reset now)) = 2 ∧
  allowance_message (mkAllowance ASK_TEACHER (school_day now) 50000 9 (next_reset now)) =
    "You have used today's Ask Nevo. It starts again on Wednesday morning. Your lessons, classes and reports are all still here.".
Proof. split_and!; reflexivity. Qed.

(** ** What a charge does *)

Lemma exhausted_spec a : exhausted a = true ↔ daily_units a - RESERVE_UNITS < al_spent_units a.
Proof.
  unfold exhausted, remaining_units, RESERVE_UNITS. rewrite Z.ltb_lt.
  assert (4000 <= daily_units a); [|lia]. unfold daily_units, DAILY_UNITS, STUDENT_DAILY_UNITS, TEACHER_DAILY_UNITS.
  destruct (al_role a); lia.
Qed.

Lemma units_nonneg i o : 0 <= units_for i o.
Proof. unfold units_for, OUTPUT_WEIGHT. lia. Qed.

Lemma allowance_run actor role now (db : Database) :
  ∃ a, allowance actor role now db = (inr a, db) ∧ al_role a = role ∧ al_day a = school_day now ∧
    al_resets_at a = next_reset now ∧ al_spent_units a = spent_on actor (school_day now) (db_tables db AskNevoDailyUsages).
Proof. eexists. split; [reflexivity|]. by split_and!. Qed.

Lemma usage_of_charged actor day units u : usage_of actor day (charged units u) = usage_of actor day u.
Proof. by destruct u. Qed.

Lemma usage_of_other actor day actor' day' u :
  usage_of actor day u = true → usage_of actor' day' u = (actor == actor') && (day == day').
Proof.
  unfold usage_of. rewrite andb_true_iff, !bool_decide_eq_true. by intros [-> ->].
Qed.

(** A charge adds to the ledger of one person on one day. *)
Lemma spent_on_update actor day actor' day' units l :
  spent_on actor' day' (update_list (usage_of actor day) (charged units) l) =
  spent_on actor' day' l +
    (if (actor == actor') && (day == day') && is_some (findb (usage_of actor day) l) then units else 0).
Proof.
  unfold spent_on. rewrite findb_update_list by (intros; apply usage_of_charged).
  destruct ((actor == actor') && (day == day')) eqn:Hk.
  - apply andb_prop in Hk as [->%bool_decide_eq_true ->%bool_decide_eq_true]. simpl.
    destruct (findb _ l) as [u|] eqn:Hu; [|done]. apply findb_Some in Hu as [Hu _]. simpl. rewrite Hu. by destruct u.
  - simpl. rewrite Z.add_0_r. destruct (findb (usage_of actor' day') l) as [u|] eqn:Hu; [|done].
    apply findb_Some in Hu as [Hu _]. simpl. destruct (usage_of actor day u) eqn:Hu'; [|done].
    rewrite (usage_of_other _ _ _ _ _ Hu') in Hu. congruence.
Qed.

Lemma charge_allowance_spec actor role units now (db db' : Database) r :
  charge_allowance actor role units now db = (inr r, db') →
  (∀ actor' day', spent_on actor' day' (db_tables db' AskNevoDailyUsages) =
     spent_on actor' day' (db_tables db AskNevoDailyUsages) +
     (if (actor == actor') && (school_day now == day') then units else 0)) ∧
  (∀ t, t ≠ AskNevoDailyUsages → db_tables db' t = db_tables db t) ∧ db_ok db' = true.
Proof.
  intros [Hrun Hok]%transaction_commit. erewrite bind_inr in Hrun by reflexivity.
  destruct (findb _ _) as [u|] eqn:Hu.
  - apply bind_inv_inr in Hrun as ([] & db1 & Hrun & [= _ <-]). injection Hrun as <-.
    split_and!; [|intros t Ht; by rewrite set_table_ne|done]. intros actor' day'.
    rewrite set_table_eq, spent_on_update.
    match type of Hu with ?x = _ => change (findb (usage_of actor (school_day now)) (db_tables db AskNevoDailyUsages)) with x end.
    by rewrite Hu, andb_true_r.
  - erewrite bind_inr in Hrun by reflexivity. injection Hrun as _ <-.
    split_and!; [|intros t Ht; by rewrite set_table_ne|done]. intros actor' day'. rewrite set_table_eq.
    unfold spent_on. rewrite findb_app.
    destruct (_ && _) eqn:Hk.
    + apply andb_prop in Hk as [Ha%bool_decide_eq_true Hd%bool_decide_eq_true]. subst.
      match type of Hu with ?x = _ => change (findb (usage_of actor' (school_day now)) (db_tables db AskNevoDailyUsages)) with x end.
      rewrite Hu, findb_cons. unfold usage_of at 1. cbn. by rewrite !bool_decide_eq_true_2.
    + change (db_tables (mkDb _ _ _) AskNevoDailyUsages) with (db_tables db AskNevoDailyUsages).
      destruct (findb (usage_of actor' day') _); [lia|]. rewrite findb_cons. unfold usage_of at 1. cbn.
      rewrite Hk. done.
Qed.
