(* ===== verification/AskDirectory.v ===== *)
(** * Learners under another name

    [src/nevo/ask_nevo/directory.py]: the pseudonyms of the learners an actor
    may see, and back. *)

From Stdlib Require Import Ascii String.
From S2P Require Import Prelude Relational Text Vocabulary Schema Crypto Access Privacy.

Local Open Scope string_scope.
Local Open Scope Z_scope.
Local Open Scope nevo_scope.

Record DirectoryEntry := mkDirectoryEntry { de_student_id : uuid; de_pseudonym : string; de_display_name : string }.

(** The entries, in order; the two dictionaries are looked up in them, where
    the last entry of a key is the one that counts. *)
Definition PseudonymDirectory := list DirectoryEntry.

Definition last_such {A} (p : A → bool) (l : list A) : option A := findb p (rev l).

(** [_display_name] *)
Definition display_name (u : User) : string :=
  str_or (join " " (filterb truthy (omap id [user_first_name u; user_last_name u]))) "This learner".

Definition by_length_desc (f : DirectoryEntry → string) (a b : DirectoryEntry) : bool :=
  (String.length (f b) <=? String.length (f a))%nat.

Section Directory.
Context `{!Crypto}.

Definition directory_entry (u : User) : DirectoryEntry :=
  mkDirectoryEntry (user_id u) (pseudonym (user_id u)) (display_name u).

(** [PseudonymDirectory.for_actor] *)
Definition for_actor (actor : User) : M PseudonymDirectory :=
  students ← accessible_students actor;
  mret (map directory_entry students).
End Directory.

Definition resolve (d : PseudonymDirectory) (pseudonym : string) : option DirectoryEntry :=
  last_such (λ e, casefold (de_pseudonym e) == casefold (strip pseudonym)) d.

Definition pseudonym_for (d : PseudonymDirectory) (student_id : uuid) : option string :=
  de_pseudonym <$> last_such (λ e, de_student_id e == student_id) d.

(** [dehydrate]: the longest names first. *)
Definition dehydrate (d : PseudonymDirectory) (text : string) : string :=
  foldl (λ result e, if truthy (de_display_name e) then replace (de_display_name e) (de_pseudonym e) result else result)
    text (order_by (by_length_desc de_display_name) d).

(** [rehydrate]: the longest pseudonyms first. *)
Definition rehydrate (d : PseudonymDirectory) (text : string) : string :=
  foldl (λ result e, replace (de_pseudonym e) (de_display_name e) result)
    text (order_by (by_length_desc de_pseudonym) d).

(** ** What can be resolved *)

Lemma last_such_Some {A} (p : A → bool) l a : last_such p l = Some a → p a = true ∧ a ∈ l.
Proof.
  intros [Hp Ha]%findb_Some. split; [done|]. apply list_elem_of_In, in_rev. by apply list_elem_of_In.
Qed.

(** A code resolves to a learner within the actor's reach, and only to one
    whose code it is. *)
Lemma resolve_within_reach `{!Crypto} actor (db : Database) d text e :
  fst (for_actor actor db) = inr d → resolve d text = Some e →
  ∃ u, within_reach actor db u ∧ e = directory_entry u ∧ casefold (strip text) = casefold (pseudonym (user_id u)).
Proof.
  destruct (accessible_students_spec actor db) as (learners & Hrun & Hin).
  unfold for_actor. rewrite (bind_inr _ _ _ _ _ Hrun). intros [= <-] [Hp He]%last_such_Some.
  apply bool_decide_eq_true in Hp. apply list_elem_of_fmap in He as (u & -> & Hu).
  exists u. split_and!; [by apply Hin|done|done].
Qed.
