(* ===== verification/AskThreads.v ===== *)
(** * Conversations with Nevo

    The entities of [src/nevo/ask_nevo/entities.py], the operations of
    [ask_nevo/repositories.py] on conversations and interactions, and the part
    of [retention/service.py] that removes conversations. *)

From Stdlib Require Import Ascii String.
From S2P Require Import Prelude Relational Text Vocabulary Schema.

Local Open Scope string_scope.
Local Open Scope Z_scope.
Local Open Scope nevo_scope.

(** ** Entities *)

Record AskNevoContextIds := mkAskNevoContextIds {
  ids_student_id : option uuid; ids_class_id : option uuid; ids_lesson_id : option uuid;
  ids_segment_id : option string; ids_thread_id : option uuid
}.

Record AskNevoRequest := mkAskNevoRequest {
  ask_role : AskNevoRole; ask_current_page : string; ask_context_ids : AskNevoContextIds; ask_question : string
}.

Record ThreadSummary := mkThreadSummary {
  ts_thread_id : uuid; ts_title : string; ts_role : AskNevoRole; ts_message_count : Z;
  ts_last_message_at : datetime; ts_created_at : datetime
}.

Definition AnswerBlocks := list (string * string * list string).

Record ThreadMessage := mkThreadMessage {
  tm_message_id : uuid; tm_author : AskNevoMessageAuthor; tm_sequence : Z; tm_body : string;
  tm_blocks : AnswerBlocks; tm_created_at : datetime
}.

Record ThreadTranscript := mkThreadTranscript {
  tt_thread_id : uuid; tt_title : string; tt_role : AskNevoRole; tt_created_at : datetime;
  tt_messages : list ThreadMessage
}.

(** ** The repository *)

(** [_teacher_thread_expired] *)
Definition teacher_thread_expired (now : datetime) (t : AskNevoThread) : bool :=
  (thr_role t == ASK_TEACHER) && (thr_created_at t <=? now - days 90).

(** The line breaks of [str.splitlines]. *)
Definition line_break (c : ascii) : bool :=
  let n := nat_of_ascii c in ((10 <=? n) && (n <=? 13) || (28 <=? n) && (n <=? 30))%nat.

Fixpoint splitlines (s : string) : list string :=
  match s with
  | "" => []
  | String c s' =>
    if line_break c then
      "" :: match s' with
            | String d s'' => if (c == ascii_of_nat 13) && (d == ascii_of_nat 10) then splitlines s'' else splitlines s'
            | "" => []
            end
    else match splitlines s' with l :: ls => String c l :: ls | [] => [String c ""] end
  end.

(** [_thread_title] *)
Definition thread_title (question : string) : string :=
  let first_line := default "" (findb (λ line, truthy (strip line)) (splitlines question)) in
  let cleaned := strip (join " " (split_words first_line)) in
  if (String.length cleaned <=? 160)%nat then str_or cleaned "New chat"
  else rstrip (take_string 157 cleaned) ++ "...".

Definition id_str (i : option uuid) : option string := uuid_str <$> i.

(** [_context_ids_payload] *)
Definition context_ids_payload (ids : AskNevoContextIds) : list (string * option string) :=
  [("studentId", id_str (ids_student_id ids)); ("classId", id_str (ids_class_id ids));
   ("lessonId", id_str (ids_lesson_id ids)); ("segmentId", ids_segment_id ids);
   ("threadId", id_str (ids_thread_id ids))].

(** [log_interaction] *)
Definition log_interaction (actor_user_id : uuid) (request : AskNevoRequest) (category : AskNevoQuestionCategory)
    (ai_gateway_call_id : uuid) : M uuid :=
  interaction_id ← uuid4;
  begin_ (now ← func_now;
    insert AskNevoInteractions (mkAskNevoInteraction interaction_id actor_user_id (ask_role request)
      (ask_current_page request) (context_ids_payload (ask_context_ids request)) category
      (Some ai_gateway_call_id) None now));;
  mret interaction_id.

(** [record_helpfulness] *)
Definition record_helpfulness (interaction_id : uuid) (helpful : bool) : M unit :=
  begin_ (update_where AskNevoInteractions (λ i, ani_id i == interaction_id)
            (λ i, i <| ani_response_helpful := Some helpful |>)).

(** A conversation its asker may go on with. *)
Definition open_to (actor_user_id : uuid) (now : datetime) (t : AskNevoThread) : bool :=
  (thr_actor_user_id t == actor_user_id) && is_none (thr_deleted_at t) && negb (teacher_thread_expired now t).

Definition by_sequence (a b : AskNevoMessage) : bool := msg_sequence a <=? msg_sequence b.
Definition by_sequence_desc (a b : AskNevoMessage) : bool := msg_sequence b <=? msg_sequence a.

Definition in_thread (thread_id : uuid) (m : AskNevoMessage) : bool := msg_thread_id m == thread_id.

(** [recent_turns] *)
Definition recent_turns (thread_id actor_user_id : uuid) (limit : nat) (now : datetime) : M (list (string * string)) :=
  thread ← get AskNevoThreads thread_id;
  match (thread : option AskNevoThread) with
  | None => mret []
  | Some t =>
    if negb (open_to actor_user_id now t) then mret []
    else
      messages ← select AskNevoMessages (in_thread thread_id);
      mret (map (λ m, (AskNevoMessageAuthor_value (msg_author m), msg_body m))
              (rev (take limit (order_by by_sequence_desc (messages : list AskNevoMessage)))))
  end.

(** The two messages of an exchange, and the count. *)
Definition add_turns (t : AskNevoThread) (question answer : string) (blocks : AnswerBlocks)
    (interaction_id : option uuid) (now : datetime) : M unit :=
  let start := thr_message_count t in
  created ← func_now;
  question_id ← uuid4;
  answer_id ← uuid4;
  insert AskNevoMessages (mkAskNevoMessage question_id (thr_id t) None ASKER (start + 1) question [] created);;
  insert AskNevoMessages (mkAskNevoMessage answer_id (thr_id t) interaction_id NEVO (start + 2) answer blocks created);;
  save AskNevoThreads (t <| thr_message_count := start + 2 |> <| thr_last_message_at := now |>).

(** [append_exchange]; a new conversation gets its school and its title. *)
Definition append_exchange (thread_id actor_user_id : uuid) (role : AskNevoRole) (question answer : string)
    (blocks : AnswerBlocks) (interaction_id : option uuid) (now : datetime) : M unit :=
  begin_ (
    actor ← get Users actor_user_id;
    match (actor : option User) with
    | None => mret tt
    | Some actor =>
      thread ← get AskNevoThreads thread_id;
      match (thread : option AskNevoThread) with
      | None =>
        created ← func_now;
        let t := mkAskNevoThread thread_id actor_user_id (user_school_id actor) role (thread_title question) 0 now
                   None created in
        insert AskNevoThreads t;; flush_;; add_turns t question answer blocks interaction_id now
      | Some t =>
        if open_to actor_user_id now t then add_turns t question answer blocks interaction_id now else mret tt
      end
    end).

Definition latest_first (a b : AskNevoThread) : bool := thr_last_message_at b <=? thr_last_message_at a.

(** [list_threads] *)
Definition list_threads (actor_user_id : uuid) (limit : Z) (now : datetime) : M (list ThreadSummary) :=
  threads ← select AskNevoThreads (λ t, (thr_actor_user_id t == actor_user_id) && is_none (thr_deleted_at t) &&
    ((thr_role t != ASK_TEACHER) || (now - days 90 <? thr_created_at t)));
  mret (map (λ t, mkThreadSummary (thr_id t) (thr_title t) (thr_role t) (thr_message_count t)
                    (thr_last_message_at t) (thr_created_at t))
          (take (Z.to_nat (Z.max 1 (Z.min limit 50))) (order_by latest_first (threads : list AskNevoThread)))).

(** [read_thread] *)
Definition read_thread (actor_user_id thread_id : uuid) (now : datetime) : M (option ThreadTranscript) :=
  thread ← get AskNevoThreads thread_id;
  match (thread : option AskNevoThread) with
  | None => mret None
  | Some t =>
    if negb (open_to actor_user_id now t) then mret None
    else
      messages ← select AskNevoMessages (in_thread thread_id);
      mret (Some (mkThreadTranscript (thr_id t) (thr_title t) (thr_role t) (thr_created_at t)
        (map (λ m, mkThreadMessage (msg_id m) (msg_author m) (msg_sequence m) (msg_body m) (msg_blocks m) (msg_created_at m))
           (order_by by_sequence (messages : list AskNevoMessage)))))
  end.

(** [delete_thread] *)
Definition delete_thread (actor_user_id thread_id : uuid) (now : datetime) : M bool :=
  begin_ (
    thread ← get AskNevoThreads thread_id;
    match (thread : option AskNevoThread) with
    | None => mret false
    | Some t =>
      if (thr_actor_user_id t != actor_user_id) || is_some (thr_deleted_at t) then mret false
      else save AskNevoThreads (t <| thr_deleted_at := Some now |>);; mret true
    end).

(** ** Retention

    [RetentionService._sweep_chats]: batches until one is not full. The
    messages of a conversation go with it. *)

Definition DEFAULT_BATCH_SIZE : nat := 200.

(** [least(coalesce(data_retention_days, 180), 180)] *)
Definition chat_days (schools : list School) (t : AskNevoThread) : Z :=
  match thr_school_id t ≫= λ s, findb (λ school, Schema.school_id school == s) schools with
  | Some school => Z.min (school_data_retention_days school) 180
  | None => 180
  end.

Definition chat_expired (schools : list School) (now : datetime) (t : AskNevoThread) : bool :=
  is_some (thr_deleted_at t) || ((thr_role t == ASK_TEACHER) && (thr_created_at t <=? now - days 90)) ||
  (thr_last_message_at t <? now - days (chat_days schools t)).

(** [_sweep_chat_batch] *)
Definition sweep_chat_batch (now : datetime) : M nat :=
  begin_ (
    schools ← rows Schools;
    threads ← select AskNevoThreads (chat_expired schools now);
    let expired := map thr_id (take DEFAULT_BATCH_SIZE (threads : list AskNevoThread)) in
    (if expired == [] then mret tt
     else
       delete_where AskNevoThreads (λ t, bool_decide (thr_id t ∈ expired));;
       delete_where AskNevoMessages (λ m, bool_decide (msg_thread_id m ∈ expired)));;
    mret (length expired)).

(** [while True]: [n] bounds the batches; [None] when they did not suffice. *)
Fixpoint sweep_chats (n : nat) (now : datetime) : M (option nat) :=
  match n with
  | O => mret None
  | S n' =>
    batch ← sweep_chat_batch now;
    if (batch <? DEFAULT_BATCH_SIZE)%nat then mret (Some batch)
    else rest ← sweep_chats n' now; mret ((λ r, batch + r)%nat <$> rest)
  end.

Example thread_title_examples :
  map thread_title [""; String (ascii_of_nat 10) ("  What   is" ++ String (ascii_of_nat 9) "osmosis? " ++ String (ascii_of_nat 13) "x")]
  = ["New chat"; "What is osmosis?"].
Proof. vm_compute. reflexivity. Qed.

(** * What becomes of a conversation

    Through any sequence of exchanges, deletions and retention sweeps: the
    turns of a conversation stay numbered and complete, a deleted one is never
    read again, and a sweep ends with nothing expired left. *)

(** ** The effect of each operation *)

Definition continued (now : datetime) (t : AskNevoThread) : AskNevoThread :=
  t <| thr_message_count := thr_message_count t + 2 |> <| thr_last_message_at := now |>.

Definition has_id (i : uuid) (t : AskNevoThread) : bool := thr_id t == i.

(** The two turns an exchange adds after [start]. *)
Definition two_turns (i : uuid) (start : Z) (first_id : uuid) (l : list AskNevoMessage) : Prop :=
  ∃ q a, l = [q; a] ∧ msg_thread_id q = i ∧ msg_thread_id a = i ∧ msg_author q = ASKER ∧ msg_author a = NEVO ∧
    msg_sequence q = start + 1 ∧ msg_sequence a = start + 2 ∧ first_id <= msg_id q ∧ first_id <= msg_id a.

Section Effects.
Implicit Types (db : Database).

Lemma add_turns_effect t q a blocks interaction now db :
  let db' := snd (add_turns t q a blocks interaction now db) in
  db_uuids db <= db_uuids db' ∧
  db_tables db' AskNevoThreads = update_list (has_id (thr_id t)) (λ _, continued now t) (db_tables db AskNevoThreads) ∧
  (∃ turns, db_tables db' AskNevoMessages = (db_tables db AskNevoMessages ++ turns)%list ∧
     two_turns (thr_id t) (thr_message_count t) (db_uuids db) turns) ∧
  (∀ tab, tab ≠ AskNevoThreads → tab ≠ AskNevoMessages → db_tables db' tab = db_tables db tab).
Proof.
  cbv zeta. unfold add_turns. do 5 erewrite bind_inr by reflexivity. cbn [snd save update_where].
  rewrite set_table_eq. split_and!.
  - change (db_uuids db <= db_uuids db + 1 + 1). lia.
  - rewrite !(set_table_ne AskNevoMessages AskNevoThreads) by done. destruct t. reflexivity.
  - rewrite (set_table_ne AskNevoThreads AskNevoMessages), !set_table_eq, <- app_assoc by done. eexists. split; [reflexivity|].
    do 2 eexists. split; [reflexivity|]. cbn. split_and!; (done || lia).
  - intros tab H1 H2. by rewrite !set_table_ne.
Qed.

(** An exchange is added to the conversation it is for, when that is open to
    the asker or does not exist yet; otherwise it is dropped. *)
Lemma append_exchange_effect i actor role q a blocks interaction now db :
  let db' := snd (append_exchange i actor role q a blocks interaction now db) in
  db_uuids db <= db_uuids db' ∧
  (∀ tab, tab ≠ AskNevoThreads → tab ≠ AskNevoMessages → db_tables db' tab = db_tables db tab) ∧
  ((db_tables db' AskNevoThreads = db_tables db AskNevoThreads ∧ db_tables db' AskNevoMessages = db_tables db AskNevoMessages) ∨
   ∃ t turns, db_tables db' AskNevoMessages = (db_tables db AskNevoMessages ++ turns)%list ∧
     two_turns i (thr_message_count t) (db_uuids db) turns ∧ thr_id t = i ∧ thr_actor_user_id t = actor ∧
     ((findb (has_id i) (db_tables db AskNevoThreads) = Some t ∧ open_to actor now t = true ∧
       db_tables db' AskNevoThreads = update_list (has_id i) (λ _, continued now t) (db_tables db AskNevoThreads)) ∨
      (findb (has_id i) (db_tables db AskNevoThreads) = None ∧ thr_message_count t = 0 ∧ thr_deleted_at t = None ∧
       db_tables db' AskNevoThreads =
         update_list (has_id i) (λ _, continued now t) (db_tables db AskNevoThreads ++ [t])%list))).
Proof.
  cbv zeta. unfold append_exchange, begin_, transaction.
  match goal with |- context [match ?m db with _ => _ end] => destruct (m db) as [[e|r] db'] eqn:Hrun end.
  { split_and!; [done|done|by left]. }
  destruct (db_ok db') eqn:Hok; [|split_and!; [done|done|by left]]. cbn [snd]. clear Hok.
  erewrite bind_inr in Hrun by reflexivity. destruct (findb _ (db_tables db Users)) as [u|].
  2: { injection Hrun as _ <-. split_and!; [done|done|by left]. }
  erewrite bind_inr in Hrun by reflexivity.
  destruct (findb _ (db_tables db AskNevoThreads)) as [t|] eqn:Ht.
  - destruct (open_to actor now t) eqn:Hopen.
    2: { injection Hrun as _ <-. split_and!; [done|done|by left]. }
    apply findb_Some in Ht as Hid. destruct Hid as [Hid%bool_decide_eq_true _]. change (thr_id t = i) in Hid.
    pose proof (add_turns_effect t q a blocks interaction now db) as H. cbv zeta in H. rewrite Hrun in H. cbn [snd] in H.
    destruct H as (H1 & H2 & (turns & H3 & H4) & H5). rewrite Hid in H2, H4. split_and!; [done|done|right].
    exists t, turns. split_and!; try done; [|by left].
    unfold open_to in Hopen. bool_to_prop. done.
  - erewrite bind_inr in Hrun by reflexivity. cbv zeta in Hrun. erewrite bind_inr in Hrun by reflexivity.
    apply bind_inv_inr in Hrun as ([] & db1 & Hflush & Hrun). unfold flush_, flush in Hflush.
    destruct (db_ok _); [|done]. injection Hflush as <-.
    match type of Hrun with add_turns ?t _ _ _ _ _ ?d = _ => pose proof (add_turns_effect t q a blocks interaction now d) as H; set (t0 := t) in * end.
    cbv zeta in H. rewrite Hrun in H. cbn [snd] in H. destruct H as (H1 & H2 & (turns & H3 & H4) & H5).
    rewrite set_table_eq in H2. rewrite set_table_ne in H3 by done.
    split_and!; [done|intros tab Ha Hb; rewrite H5 by done; by rewrite set_table_ne|right].
    exists t0, turns. split_and!; try done. right. done.
Qed.
End Effects.

Lemma delete_thread_effect actor i now (db : Database) :
  let db' := snd (delete_thread actor i now db) in
  db_uuids db' = db_uuids db ∧ (∀ tab, tab ≠ AskNevoThreads → db_tables db' tab = db_tables db tab) ∧
  (db_tables db' AskNevoThreads = db_tables db AskNevoThreads ∨
   ∃ t, findb (has_id i) (db_tables db AskNevoThreads) = Some t ∧ thr_actor_user_id t = actor ∧ thr_deleted_at t = None ∧
     db_tables db' AskNevoThreads =
       update_list (has_id i) (λ _, t <| thr_deleted_at := Some now |>) (db_tables db AskNevoThreads)).
Proof.
  cbv zeta. unfold delete_thread, begin_, transaction.
  match goal with |- context [match ?m db with _ => _ end] => destruct (m db) as [[e|r] db'] eqn:Hrun end.
  { split_and!; [done|done|by left]. }
  destruct (db_ok db') eqn:Hok; [|split_and!; [done|done|by left]]. cbn [snd]. clear Hok.
  erewrite bind_inr in Hrun by reflexivity. destruct (findb _ (db_tables db AskNevoThreads)) as [t|] eqn:Ht.
  2: { injection Hrun as _ <-. split_and!; [done|done|by left]. }
  destruct (_ || _) eqn:Hmine; [injection Hrun as _ <-; split_and!; [done|done|by left]|].
  erewrite bind_inr in Hrun by reflexivity. injection Hrun as _ <-.
  apply findb_Some in Ht as Hid. destruct Hid as [Hid%bool_decide_eq_true _]. change (thr_id t = i) in Hid.
  apply orb_false_iff in Hmine as [Hactor Hdel]. apply negb_false_iff, bool_decide_eq_true in Hactor.
  split_and!; [done|intros tab Htab; by rewrite set_table_ne|right]. exists t. split_and!; [done|done|by destruct (thr_deleted_at t)|].
  rewrite set_table_eq. subst i. by destruct t.
Qed.

(** The conversations a batch of the sweep removes. *)
Definition expired_batch (now : datetime) (db : Database) : list uuid :=
  map thr_id (take DEFAULT_BATCH_SIZE
    (filterb (chat_expired (db_tables db Schools) now) (db_tables db AskNevoThreads : list AskNevoThread))).

Lemma sweep_batch_effect now (db : Database) :
  let db' := snd (sweep_chat_batch now db) in
  let gone := expired_batch now db in
  db_uuids db' = db_uuids db ∧
  (∀ tab, tab ≠ AskNevoThreads → tab ≠ AskNevoMessages → db_tables db' tab = db_tables db tab) ∧
  ((db_tables db' AskNevoThreads = db_tables db AskNevoThreads ∧ db_tables db' AskNevoMessages = db_tables db AskNevoMessages) ∨
   (db_tables db' AskNevoThreads = filterb (λ t, negb (bool_decide (thr_id t ∈ gone))) (db_tables db AskNevoThreads) ∧
    db_tables db' AskNevoMessages = filterb (λ m, negb (bool_decide (msg_thread_id m ∈ gone))) (db_tables db AskNevoMessages))).
Proof.
  cbv zeta. unfold sweep_chat_batch, begin_, transaction.
  match goal with |- context [match ?m db with _ => _ end] => destruct (m db) as [[e|r] db'] eqn:Hrun end.
  { split_and!; [done|done|by left]. }
  destruct (db_ok db') eqn:Hok; [|split_and!; [done|done|by left]]. cbn [snd]. clear Hok.
  do 2 erewrite bind_inr in Hrun by reflexivity. cbv zeta in Hrun.
  change (map thr_id _) with (expired_batch now db) in Hrun.
  case_bool_decide as Hempty.
  - erewrite bind_inr in Hrun by reflexivity. injection Hrun as _ <-. split_and!; [done|done|by left].
  - erewrite bind_inr in Hrun by reflexivity. injection Hrun as _ <-.
    split_and!; [done|intros tab Ha Hb; by rewrite !set_table_ne|right].
    rewrite (set_table_ne AskNevoMessages AskNevoThreads), !set_table_eq by done.
    by rewrite (set_table_ne AskNevoThreads AskNevoMessages).
Qed.

(** ** Sequences of operations *)

Inductive thread_op :=
| Append (thread_id actor : uuid) (role : AskNevoRole) (question answer : string) (blocks : AnswerBlocks)
    (interaction : option uuid) (now : datetime)
| Delete (actor thread_id : uuid) (now : datetime)
| SweepBatch (now : datetime).

Definition run_thread_op (o : thread_op) (db : Database) : Database :=
  match o with
  | Append i actor role q a blocks interaction now => snd (append_exchange i actor role q a blocks interaction now db)
  | Delete actor i now => snd (delete_thread actor i now db)
  | SweepBatch now => snd (sweep_chat_batch now db)
  end.
Definition after (ops : list thread_op) (db : Database) : Database := foldl (λ d o, run_thread_op o d) db ops.

Lemma after_preserves (I : Database → Prop) ops db :
  (∀ o d, I d → I (run_thread_op o d)) → I db → I (after ops db).
Proof. intros Hop. revert db. induction ops as [|o ops IH]; intros db Hdb; [done|]. apply IH. by apply Hop. Qed.

(** ** Whole conversations *)

(** Who says what, in a conversation of [k] exchanges. *)
Definition numbered (k : nat) : list (AskNevoMessageAuthor * Z) :=
  flat_map (λ j, [(ASKER, 2 * Z.of_nat j + 1); (NEVO, 2 * Z.of_nat j + 2)]) (seq 0 k).

Definition turns_of (i : uuid) (l : list AskNevoMessage) : list (AskNevoMessageAuthor * Z) :=
  map (λ m, (msg_author m, msg_sequence m)) (filterb (in_thread i) l).

Definition whole_tables (threads : list AskNevoThread) (messages : list AskNevoMessage) : Prop :=
  (∀ t, t ∈ threads → ∃ k, thr_message_count t = 2 * Z.of_nat k ∧ turns_of (thr_id t) messages = numbered k) ∧
  (∀ m, m ∈ messages → ∃ t, t ∈ threads ∧ thr_id t = msg_thread_id m).

(** Every conversation counts its turns, which are numbered from one without a
    gap, the question before its answer; every turn has its conversation. *)
Definition whole (db : Database) : Prop := whole_tables (db_tables db AskNevoThreads) (db_tables db AskNevoMessages).

Lemma numbered_S k :
  numbered (S k) = (numbered k ++ [(ASKER, 2 * Z.of_nat k + 1); (NEVO, 2 * Z.of_nat k + 2)])%list.
Proof. unfold numbered. by rewrite seq_S, flat_map_app. Qed.

Lemma turns_of_app i l1 l2 : turns_of i (l1 ++ l2) = (turns_of i l1 ++ turns_of i l2)%list.
Proof. unfold turns_of, filterb. by rewrite filter_app, map_app. Qed.

Lemma turns_of_two i j start n turns :
  two_turns i start n turns →
  turns_of j turns = if i == j then [(ASKER, start + 1); (NEVO, start + 2)] else [].
Proof.
  intros (q & a & -> & Hq & Ha & Hqa & Haa & Hqs & Has & _). unfold turns_of. rewrite !filterb_cons.
  unfold in_thread. rewrite Hq, Ha. case_bool_decide; [|done]. simpl. by rewrite Hqa, Haa, Hqs, Has.
Qed.

Lemma turns_of_none i l : (∀ m, m ∈ l → msg_thread_id m ≠ i) → turns_of i l = [].
Proof.
  intros H. unfold turns_of. rewrite filterb_nil; [done|]. intros m Hm. apply bool_decide_eq_false. auto.
Qed.

Lemma turns_of_kept p i l : (∀ m, m ∈ l → msg_thread_id m = i → p m = true) → turns_of i (filterb p l) = turns_of i l.
Proof.
  intros Hp. unfold turns_of. f_equal. induction l as [|m l IH]; [done|].
  rewrite filterb_cons. destruct (in_thread i m) eqn:Hm.
  - apply bool_decide_eq_true in Hm as Hi. rewrite (Hp m) by (done || set_solver).
    rewrite !filterb_cons, Hm, IH by set_solver. done.
  - destruct (p m); rewrite !filterb_cons, ?Hm; apply IH; set_solver.
Qed.

(** An exchange in conversation [t], where there are none but [t] of its
    identifier. *)
Lemma whole_exchange now t turns threads messages n :
  whole_tables threads messages → t ∈ threads → two_turns (thr_id t) (thr_message_count t) n turns →
  whole_tables (update_list (has_id (thr_id t)) (λ _, continued now t) threads) (messages ++ turns)%list.
Proof.
  intros [Hturns Hown] Ht Htwo. assert (thr_id (continued now t) = thr_id t) as Hid by (by destruct t).
  split.
  - intros t' (x & Hx & ->)%elem_of_update_list. unfold has_id. case_bool_decide as Heq.
    + destruct (Hturns t Ht) as (k & Hk & Hl). exists (S k). rewrite Hid, turns_of_app, (turns_of_two _ _ _ _ _ Htwo), Hl.
      rewrite bool_decide_eq_true_2 by done. rewrite numbered_S, <- Hk. split; [|done].
      assert (thr_message_count (continued now t) = thr_message_count t + 2) as -> by (by destruct t). lia.
    + destruct (Hturns x Hx) as (k & Hk & Hl). exists k. split; [done|].
      by rewrite turns_of_app, (turns_of_two _ _ _ _ _ Htwo), bool_decide_eq_false_2, app_nil_r by congruence.
  - intros m [Hm|Hm]%elem_of_app.
    + destruct (Hown m Hm) as (x & Hx & Hxm). exists (if has_id (thr_id t) x then continued now t else x).
      split; [apply elem_of_update_list; eauto|]. unfold has_id. case_bool_decide; congruence.
    + destruct Htwo as (q & a & -> & Hq & Ha & _). exists (continued now t). split.
      * apply elem_of_update_list. exists t. split; [done|]. unfold has_id. by rewrite bool_decide_eq_true_2.
      * rewrite Hid. set_solver.
Qed.

Lemma whole_new t threads messages :
  whole_tables threads messages → findb (has_id (thr_id t)) threads = None → thr_message_count t = 0 →
  whole_tables (threads ++ [t])%list messages.
Proof.
  intros [Hturns Hown] Hnone Hcount. rewrite findb_None in Hnone. split.
  - intros t' [Ht|Ht]%elem_of_app; [by apply Hturns|]. apply list_elem_of_singleton in Ht as ->.
    exists 0%nat. split; [done|]. apply turns_of_none. intros m Hm Heq. destruct (Hown m Hm) as (x & Hx & Hxm).
    specialize (Hnone x Hx). apply bool_decide_eq_false in Hnone. congruence.
  - intros m Hm. destruct (Hown m Hm) as (x & Hx & Hxm). exists x. set_solver.
Qed.

Lemma whole_op o db : whole db → whole (run_thread_op o db).
Proof.
  intros Hdb. destruct o as [i actor role q a blocks interaction now|actor i now|now]; simpl; unfold whole.
  - destruct (append_exchange_effect i actor role q a blocks interaction now db)
      as (_ & _ & [[-> ->]|(t & turns & -> & Htwo & <- & _ & [(Ht & _ & ->)|(Ht & Hcount & _ & ->)])]); [done|..].
    + eapply whole_exchange; try done. by apply findb_Some in Ht as [_ ?].
    + eapply whole_exchange; try done; [by apply whole_new|set_solver].
  - destruct (delete_thread_effect actor i now db) as (_ & Hframe & [->|(t & Ht & _ & _ & ->)]); rewrite Hframe by done; [done|].
    apply findb_Some in Ht as [Hid%bool_decide_eq_true Ht]. destruct Hdb as [Hturns Hown].
    assert (∀ x : AskNevoThread, x ∈ db_tables db AskNevoThreads →
      let y := if has_id i x then t <| thr_deleted_at := Some now |> else x in
      thr_id y = thr_id x ∧ ∃ x', x' ∈ db_tables db AskNevoThreads ∧ thr_id x' = thr_id y ∧ thr_message_count x' = thr_message_count y) as Hsame.
    { intros x Hx. unfold has_id. case_bool_decide; cbv zeta; [|by eauto]. split; [destruct t; cbn in *; congruence|].
      exists t. by destruct t. }
    split.
    + intros t' (x & Hx & ->)%elem_of_update_list. destruct (Hsame x Hx) as (_ & x' & Hx' & Hid' & Hcount).
      destruct (Hturns x' Hx') as (k & Hk & Hl). exists k. by rewrite <- Hid', <- Hcount.
    + intros m Hm. destruct (Hown m Hm) as (x & Hx & Hxm). destruct (Hsame x Hx) as (Hidx & _).
      eexists. split; [apply elem_of_update_list; eauto|]. by rewrite Hidx.
  - destruct (sweep_batch_effect now db) as (_ & _ & [[-> ->]|[-> ->]]); [done|]. destruct Hdb as [Hturns Hown]. split.
    + intros t [Hp Ht]%elem_of_filterb. destruct (Hturns t Ht) as (k & Hk & Hl). exists k. split; [done|].
      rewrite turns_of_kept; [done|]. intros m Hm Heq. by rewrite Heq.
    + intros m [Hp Hm]%elem_of_filterb. destruct (Hown m Hm) as (x & Hx & Hxm). exists x. split; [|done].
      apply elem_of_filterb. by rewrite Hxm.
Qed.

(** ** Reading *)

Lemma read_thread_run actor i now (db : Database) :
  ∃ r, read_thread actor i now db = (inr r, db) ∧
  (∀ transcript, r = Some transcript ↔
     ∃ t, findb (has_id i) (db_tables db AskNevoThreads) = Some t ∧ open_to actor now t = true ∧
       transcript = mkThreadTranscript (thr_id t) (thr_title t) (thr_role t) (thr_created_at t)
         (map (λ m, mkThreadMessage (msg_id m) (msg_author m) (msg_sequence m) (msg_body m) (msg_blocks m) (msg_created_at m))
            (order_by by_sequence (filterb (in_thread i) (db_tables db AskNevoMessages))))).
Proof.
  unfold read_thread. erewrite bind_inr by reflexivity.
  change (findb _ _) with (findb (has_id i) (db_tables db AskNevoThreads : list AskNevoThread)).
  destruct (findb _ _) as [t|]; [destruct (open_to actor now t) eqn:Hopen; cbn [negb]|].
  - erewrite bind_inr by reflexivity. eexists. split; [reflexivity|]. intros transcript. split; [intros [= <-]; eauto|].
    by intros (t' & [= <-] & _ & ->).
  - exists None. split; [done|]. intros transcript. split; [done|]. intros (t' & [= <-] & Hopen' & _). congruence.
  - exists None. split; [done|]. intros transcript. split; [done|]. by intros (t' & ? & _).
Qed.

Lemma recent_turns_run i actor limit now (db : Database) :
  ∃ ms, recent_turns i actor limit now db = (inr (map (λ m, (AskNevoMessageAuthor_value (msg_author m), msg_body m)) ms), db) ∧
  ∀ m, m ∈ ms → m ∈ db_tables db AskNevoMessages ∧ msg_thread_id m = i ∧
    ∃ t, findb (has_id i) (db_tables db AskNevoThreads) = Some t ∧ open_to actor now t = true.
Proof.
  unfold recent_turns. erewrite bind_inr by reflexivity.
  change (findb _ _) with (findb (has_id i) (db_tables db AskNevoThreads : list AskNevoThread)).
  destruct (findb _ _) as [t|]; [|exists []; split; [done|set_solver]].
  destruct (open_to actor now t) eqn:Hopen; [|exists []; split; [done|set_solver]].
  cbn [negb]. erewrite bind_inr by reflexivity. eexists. split; [reflexivity|].
  intros m Hm. apply list_elem_of_In, in_rev, list_elem_of_In, elem_of_take in Hm as (n & Hm & _).
  apply list_elem_of_lookup_2, elem_of_order_by, elem_of_filterb in Hm as [Hi%bool_decide_eq_true Hm]. eauto.
Qed.

(** C19: a conversation stays whole. Through any sequence of exchanges, deletions and
    retention sweeps, whoever asks and whether they succeed or fail, each conversation counts
    its turns, which are numbered from one without a gap, each question followed by its
    answer; every turn belongs to a conversation that is there; and whoever may read a
    conversation gets all of these turns and no others. *)
Theorem conversations_stay_whole ops (db : Database) :
  whole db →
  whole (after ops db) ∧
  ∀ actor i now transcript, fst (read_thread actor i now (after ops db)) = inr (Some transcript) →
    ∃ t k, t ∈ db_tables (after ops db) AskNevoThreads ∧ thr_id t = i ∧ thr_actor_user_id t = actor ∧
      thr_message_count t = 2 * Z.of_nat k ∧
      map (λ m, (tm_author m, tm_sequence m)) (tt_messages transcript) ≡ₚ numbered k.
Proof.
  intros Hdb. assert (whole (after ops db)) as Hwhole by (apply after_preserves; [apply whole_op|done]). split; [done|].
  intros actor i now transcript Hread. destruct (read_thread_run actor i now (after ops db)) as (r & Hrun & Hr).
  rewrite Hrun in Hread. injection Hread as ->. destruct (proj1 (Hr transcript) eq_refl) as (t & Ht & Hopen & ->).
  apply findb_Some in Ht as [Hid%bool_decide_eq_true Ht]. destruct Hwhole as [Hturns _].
  destruct (Hturns t Ht) as (k & Hk & Hl). exists t, k. unfold open_to in Hopen. bool_to_prop. split_and!; try done.
  rewrite <- Hl, Hid. cbn [tt_messages]. rewrite map_map. cbn. unfold turns_of. by rewrite order_by_perm.
Qed.

(** ** Deleted conversations *)

(** The messages [ids] are those of the deleted conversation [i], or gone. *)
Definition buried (i : uuid) (ids : list uuid) (db : Database) : Prop :=
  (∀ j, j ∈ ids → j < db_uuids db) ∧
  ((∀ m, m ∈ db_tables db AskNevoMessages → msg_id m ∉ ids) ∨
   ((∀ m, m ∈ db_tables db AskNevoMessages → msg_id m ∈ ids → msg_thread_id m = i) ∧
    (∃ t, t ∈ db_tables db AskNevoThreads ∧ thr_id t = i) ∧
    ∀ t, t ∈ db_tables db AskNevoThreads → thr_id t = i → thr_deleted_at t ≠ None)).

Lemma two_turns_fresh i start n turns m : two_turns i start n turns → m ∈ turns → n <= msg_id m ∧ msg_thread_id m = i.
Proof. intros (q & a & -> & ?). set_solver. Qed.

Lemma buried_op i ids o db : buried i ids db → buried i ids (run_thread_op o db).
Proof.
  intros [Hids Hdb]. destruct o as [j actor role q a blocks interaction now|actor j now|now]; simpl; unfold buried.
  - destruct (append_exchange_effect j actor role q a blocks interaction now db) as (Hmono & _ & Heff).
    split; [intros k Hk; specialize (Hids k Hk); lia|].
    destruct Heff as [[-> ->]|(t & turns & -> & Htwo & Hid & _ & Hthreads)]; [done|].
    assert (∀ m, m ∈ turns → msg_id m ∉ ids) as Hnew.
    { intros m Hm Hin. apply (two_turns_fresh _ _ _ _ _ Htwo) in Hm as [Hm _]. specialize (Hids _ Hin). lia. }
    destruct Hdb as [Hgone|(Hin & (t0 & Ht0 & Hid0) & Hdel)]; [left; set_solver|right].
    destruct Hthreads as [(Ht & Hopen & ->)|(Ht & _ & _ & ->)].
    + apply findb_Some in Ht as [_ Ht]. assert (j ≠ i) as Hne.
      { intros ->. apply (Hdel t Ht Hid). unfold open_to in Hopen. bool_to_prop. by destruct (thr_deleted_at t). }
      split_and!.
      * intros m [Hm|Hm]%elem_of_app Hmi; [auto|by apply Hnew in Hm].
      * exists t0. split; [|done]. apply elem_of_update_list. exists t0. split; [done|]. unfold has_id.
        by rewrite bool_decide_eq_false_2 by congruence.
      * intros t' (x & Hx & ->)%elem_of_update_list. unfold has_id. case_bool_decide; [|by apply Hdel].
        intros Heq. destruct t. cbn in *. congruence.
    + rewrite findb_None in Ht. assert (j ≠ i) as Hne.
      { intros ->. specialize (Ht t0 Ht0). apply bool_decide_eq_false in Ht. done. }
      split_and!.
      * intros m [Hm|Hm]%elem_of_app Hmi; [auto|by apply Hnew in Hm].
      * exists t0. split; [|done]. apply elem_of_update_list. exists t0. split; [set_solver|]. unfold has_id.
        by rewrite bool_decide_eq_false_2 by congruence.
      * intros t' (x & Hx & ->)%elem_of_update_list. unfold has_id. case_bool_decide.
        { intros Heq. destruct t. cbn in *. congruence. }
        apply elem_of_app in Hx as [Hx|Hx]; [by apply Hdel|]. apply list_elem_of_singleton in Hx as ->. congruence.
  - destruct (delete_thread_effect actor j now db) as (-> & Hframe & Heff). rewrite Hframe by done. split; [done|].
    destruct Heff as [->|(t & Ht & _ & Hopen & ->)]; [done|]. destruct Hdb as [Hgone|(Hin & (t0 & Ht0 & Hid0) & Hdel)]; [by left|right].
    apply findb_Some in Ht as [Hid%bool_decide_eq_true Ht]. assert (j ≠ i) as Hne by (intros ->; by apply (Hdel t)).
    split_and!; [done| |].
    + exists t0. split; [|done]. apply elem_of_update_list. exists t0. split; [done|]. unfold has_id.
      by rewrite bool_decide_eq_false_2 by congruence.
    + intros t' (x & Hx & ->)%elem_of_update_list. unfold has_id. case_bool_decide; [|by apply Hdel].
      intros Heq. destruct t. cbn in *. congruence.
  - destruct (sweep_batch_effect now db) as (-> & _ & Heff). split; [done|]. destruct Heff as [[-> ->]|[-> ->]]; [done|].
    destruct Hdb as [Hgone|(Hin & (t0 & Ht0 & Hid0) & Hdel)]; [left; intros m [_ Hm]%elem_of_filterb; auto|].
    destruct (decide (i ∈ expired_batch now db)) as [Hi|Hi].
    + left. intros m [Hp Hm]%elem_of_filterb Hmi. apply negb_true_iff, bool_decide_eq_false in Hp.
      by rewrite (Hin m Hm Hmi) in Hp.
    + right. split_and!.
      * intros m [_ Hm]%elem_of_filterb. auto.
      * exists t0. split; [|done]. apply elem_of_filterb. rewrite Hid0, bool_decide_eq_false_2 by done. done.
      * intros t [_ Ht]%elem_of_filterb. auto.
Qed.

Lemma buried_unreadable i ids (db : Database) reader j now :
  buried i ids db →
  ∀ t m, findb (has_id j) (db_tables db AskNevoThreads) = Some t → open_to reader now t = true →
    m ∈ db_tables db AskNevoMessages → msg_thread_id m = j → msg_id m ∉ ids.
Proof.
  intros [_ [Hgone|(Hin & _ & Hdel)]] t m Ht Hopen Hm Hj; [auto|]. intros Hmi.
  assert (j = i) as -> by (rewrite <- Hj; auto).
  apply findb_Some in Ht as [Hid%bool_decide_eq_true Ht]. apply (Hdel t Ht Hid).
  unfold open_to in Hopen. bool_to_prop. by destruct (thr_deleted_at t).
Qed.

(** C20: a deleted conversation is never read again. Only its asker can delete a conversation,
    and once they have, no message it held is shown or sent along with a question: not to
    anybody, under any identifier, whatever exchanges, deletions and sweeps follow, even when
    the sweep has removed it and somebody writes under its identifier again. *)
Theorem deleted_conversation_is_never_read actor i now (db db1 : Database) :
  keyed AskNevoMessages db → delete_thread actor i now db = (inr true, db1) →
  (∃ t, t ∈ db_tables db AskNevoThreads ∧ thr_id t = i ∧ thr_actor_user_id t = actor) ∧
  ∀ ops m, m ∈ db_tables db AskNevoMessages → msg_thread_id m = i →
  ∀ reader j later limit,
    (∀ transcript, fst (read_thread reader j later (after ops db1)) = inr (Some transcript) →
       msg_id m ∉ map tm_message_id (tt_messages transcript)) ∧
    ∃ ms, fst (recent_turns j reader limit later (after ops db1)) =
        inr (map (λ m, (AskNevoMessageAuthor_value (msg_author m), msg_body m)) ms) ∧
      ∀ x, x ∈ ms → msg_id x ≠ msg_id m.
Proof.
  intros [Hnd Hfresh] Hdelete. pose proof (delete_thread_effect actor i now db) as Heff. cbv zeta in Heff.
  rewrite Hdelete in Heff. cbn [snd] in Heff. destruct Heff as (Huuids & Hframe & Hthreads).
  assert (∃ t, findb (has_id i) (db_tables db AskNevoThreads) = Some t ∧ thr_actor_user_id t = actor ∧
    db_tables db1 AskNevoThreads = update_list (has_id i) (λ _, t <| thr_deleted_at := Some now |>) (db_tables db AskNevoThreads))
    as (t & Ht & Hactor & Hafter).
  { apply transaction_commit in Hdelete as [Hrun _]. erewrite bind_inr in Hrun by reflexivity.
    change (findb _ _) with (findb (has_id i) (db_tables db AskNevoThreads : list AskNevoThread)) in Hrun.
    destruct (findb _ _) as [t|] eqn:Ht; [|done]. destruct (_ || _) eqn:Hmine; [done|].
    apply orb_false_iff in Hmine as [Hactor _]. apply negb_false_iff, bool_decide_eq_true in Hactor.
    exists t. split_and!; [done|done|]. erewrite bind_inr in Hrun by reflexivity. injection Hrun as <-.
    apply findb_Some in Ht as [Hid%bool_decide_eq_true _]. rewrite set_table_eq. subst i. by destruct t. }
  apply findb_Some in Ht as [Hid%bool_decide_eq_true Ht]. split; [by exists t|].
  intros ops m Hm Hmi reader j later limit.
  assert (buried i [msg_id m] (after ops db1)) as Hburied.
  { apply after_preserves; [intros; by apply buried_op|]. split.
    - intros k Hk%list_elem_of_singleton. subst k. rewrite Huuids. by apply (Hfresh m).
    - right. rewrite Hframe, Hafter by done. split_and!.
      + intros m' Hm' Heq%list_elem_of_singleton. rewrite <- Hmi. f_equal.
        exact (NoDup_map_inj msg_id _ m' m Hnd Hm' Hm Heq).
      + eexists. split; [apply elem_of_update_list; exists t; split; [done|reflexivity]|]. unfold has_id.
        rewrite bool_decide_eq_true_2 by done. by destruct t.
      + intros t' (x & Hx & ->)%elem_of_update_list. unfold has_id. case_bool_decide; [by destruct t|done]. }
  split.
  - intros transcript Hread. destruct (read_thread_run reader j later (after ops db1)) as (r & Hrun & Hr).
    rewrite Hrun in Hread. injection Hread as ->. destruct (proj1 (Hr transcript) eq_refl) as (t' & Ht' & Hopen & ->).
    cbn [tt_messages]. rewrite map_map. cbn. intros (x & Hxm & Hx)%list_elem_of_fmap.
    apply elem_of_order_by, elem_of_filterb in Hx as [Hj%bool_decide_eq_true Hx].
    eapply buried_unreadable; [exact Hburied|exact Ht'|exact Hopen|exact Hx|exact Hj|].
    rewrite <- Hxm. set_solver.
  - destruct (recent_turns_run j reader limit later (after ops db1)) as (ms & -> & Hms). exists ms. split; [done|].
    intros x Hx Heq. destruct (Hms x Hx) as (Hin & Hj & t' & Ht' & Hopen).
    eapply buried_unreadable; [exact Hburied|exact Ht'|exact Hopen|exact Hin|exact Hj|]. rewrite Heq. set_solver.
Qed.

(** ** The sweep *)

Section Prefix.
Context {A : Type} (id : A → uuid).

(** Dropping what the first [n] are called leaves the others. *)
Lemma filterb_not_prefix n (l : list A) :
  NoDup (map id l) → filterb (λ a, negb (bool_decide (id a ∈ map id (take n l)))) l = drop n l.
Proof.
  revert n. induction l as [|a l IH]; intros n Hnd; [by destruct n|]. apply NoDup_cons in Hnd as [Ha Hnd].
  destruct n as [|n].
  - cbn [take drop map]. apply filterb_all. intros x _. cbn. done.
  - cbn [take drop map]. rewrite filterb_cons, bool_decide_eq_true_2 by set_solver. cbn [negb].
    rewrite <- (IH n Hnd). apply filterb_ext. intros x Hx. f_equal. apply bool_decide_ext. 
    assert (id x ≠ id a) by (intros Heq; apply Ha; rewrite <- Heq; by apply list_elem_of_fmap_2). set_solver.
Qed.

End Prefix.

Definition expired_chats (now : datetime) (db : Database) : list AskNevoThread :=
  filterb (chat_expired (db_tables db Schools) now) (db_tables db AskNevoThreads : list AskNevoThread).

Lemma threads_ids (db : Database) : db_ok db = true → NoDup (map thr_id (db_tables db AskNevoThreads)).
Proof. intros Hok. rewrite db_ok_spec in Hok. exact (table_primary_key AskNevoThreads _ (Hok AskNevoThreads)). Qed.

Lemma sweep_batch_run now (db : Database) :
  db_ok db = true →
  let gone := expired_batch now db in
  ∃ db', sweep_chat_batch now db = (inr (length gone), db') ∧ db_ok db' = true ∧
    db_tables db' AskNevoThreads = filterb (λ t, negb (bool_decide (thr_id t ∈ gone))) (db_tables db AskNevoThreads) ∧
    db_tables db' AskNevoMessages = filterb (λ m, negb (bool_decide (msg_thread_id m ∈ gone))) (db_tables db AskNevoMessages) ∧
    ∀ tab, tab ≠ AskNevoThreads → tab ≠ AskNevoMessages → db_tables db' tab = db_tables db tab.
Proof.
  intros Hok gone. unfold sweep_chat_batch, begin_, transaction. do 2 erewrite bind_inr by reflexivity. cbv zeta.
  change (map thr_id _) with gone. case_bool_decide as Hempty.
  - erewrite bind_inr by reflexivity. rewrite ret_run, Hok. eexists. split; [reflexivity|].
    rewrite Hempty. split_and!; [done|by rewrite filterb_all|by rewrite filterb_all|done].
  - erewrite bind_inr by reflexivity. rewrite ret_run.
    set (db' := set_table AskNevoMessages _ _). assert (db_ok db' = true) as Hok'.
    { pose proof (proj1 (db_ok_spec db) Hok) as Htables. apply db_ok_set_table; [apply db_ok_set_table; [done|]|].
      - apply unique_on_filter. exact (Htables AskNevoThreads).
      - rewrite set_table_ne by done. pose proof (Htables AskNevoMessages) as Hm. cbn in Hm |- *.
        unfold ask_messages_ok, primary_key in *. apply andb_prop in Hm as [H1 H2].
        apply andb_true_intro. split; by apply unique_on_filter. }
    rewrite Hok'. eexists. split; [reflexivity|]. unfold db'. split_and!.
    + exact Hok'.
    + rewrite (set_table_ne AskNevoMessages AskNevoThreads), set_table_eq by done. done.
    + rewrite set_table_eq. by rewrite (set_table_ne AskNevoThreads AskNevoMessages).
    + intros tab Ha Hb. by rewrite !set_table_ne.
Qed.

Lemma elem_of_batch now i (db : Database) : i ∈ expired_batch now db → ∃ t, t ∈ expired_chats now db ∧ thr_id t = i.
Proof.
  intros (t & -> & Ht)%list_elem_of_fmap. exists t. split; [|done].
  apply elem_of_take in Ht as (k & Hk & _). by apply list_elem_of_lookup_2 in Hk.
Qed.

(** What is left to sweep after a batch. *)
Lemma expired_after_batch now (db db' : Database) :
  db_ok db = true →
  db_tables db' AskNevoThreads = filterb (λ t, negb (bool_decide (thr_id t ∈ expired_batch now db))) (db_tables db AskNevoThreads) →
  db_tables db' Schools = db_tables db Schools →
  expired_chats now db' = drop DEFAULT_BATCH_SIZE (expired_chats now db).
Proof.
  intros Hok Hthreads Hschools. unfold expired_chats at 1. rewrite Hthreads, Hschools, filterb_twice.
  assert (NoDup (map thr_id (expired_chats now db))) as Hnd.
  { pose proof (threads_ids db Hok) as Hnd. revert Hnd. unfold expired_chats, filterb. intros Hnd. eapply sublist_NoDup; [exact Hnd|].
    apply fmap_sublist, sublist_filter. }
  rewrite <- (filterb_not_prefix thr_id DEFAULT_BATCH_SIZE _ Hnd). unfold expired_chats. rewrite filterb_twice.
  apply filterb_ext. intros t _. by rewrite andb_comm.
Qed.

(** C21: the sweep of the conversations ends, and removes what it should. One more batch than
    full batches are needed is enough: then no conversation is left that was deleted, that is
    a teacher's of ninety days, or that was silent for longer than its school keeps data (180
    days at most), the messages of exactly those conversations are gone with them, everything
    else is as it was, and the count it reports is theirs. *)
Theorem chats_are_swept n now (db : Database) :
  db_ok db = true → (length (expired_chats now db) < DEFAULT_BATCH_SIZE * n)%nat →
  ∃ db', sweep_chats n now db = (inr (Some (length (expired_chats now db))), db') ∧
    db_tables db' AskNevoThreads =
      filterb (λ t, negb (chat_expired (db_tables db Schools) now t)) (db_tables db AskNevoThreads) ∧
    db_tables db' AskNevoMessages =
      filterb (λ m, negb (existsb (has_id (msg_thread_id m)) (expired_chats now db))) (db_tables db AskNevoMessages) ∧
    ∀ tab, tab ≠ AskNevoThreads → tab ≠ AskNevoMessages → db_tables db' tab = db_tables db tab.
Proof.
  revert db. induction n as [|n IH]; intros db Hok Hn; [unfold DEFAULT_BATCH_SIZE in Hn; lia|].
  destruct (sweep_batch_run now db Hok) as (db1 & Hrun & Hok1 & Hthreads & Hmessages & Hframe).
  assert (length (expired_batch now db) = DEFAULT_BATCH_SIZE `min` length (expired_chats now db))%nat as Hlen
    by (unfold expired_batch; by rewrite length_map, length_take).
  pose proof (expired_after_batch now db db1 Hok Hthreads (Hframe Schools ltac:(done) ltac:(done))) as Hleft.
  cbn [sweep_chats]. rewrite (bind_inr _ _ _ _ _ Hrun).
  assert (∀ t, t ∈ (db_tables db AskNevoThreads : list AskNevoThread) → thr_id t ∈ expired_batch now db →
    chat_expired (db_tables db Schools) now t = true) as Hgone.
  { intros t Ht Hi. apply elem_of_batch in Hi as (x & Hx & Hid). apply elem_of_filterb in Hx as [Hx Hin].
    by rewrite <- (NoDup_map_inj thr_id _ x t (threads_ids db Hok) Hin Ht Hid). }
  assert (∀ m, bool_decide (msg_thread_id m ∈ expired_batch now db) = true →
    existsb (has_id (msg_thread_id m)) (expired_chats now db) = true) as Hgone'.
  { intros m Hm%bool_decide_eq_true. apply elem_of_batch in Hm as (x & Hx & Hid). apply existsb_elem. exists x.
    split; [done|]. by apply bool_decide_eq_true. }
  destruct (Nat.ltb_spec (length (expired_batch now db)) DEFAULT_BATCH_SIZE) as [Hlast|Hmore].
  - rewrite ret_run. replace (length (expired_chats now db)) with (length (expired_batch now db)) by lia.
    exists db1. split; [done|]. rewrite Hthreads, Hmessages.
    assert (expired_batch now db = map thr_id (expired_chats now db)) as Hall.
    { unfold expired_batch. change (filterb _ _) with (expired_chats now db). by rewrite take_ge by lia. }
    split_and!; [| |done].
    + apply filterb_ext. intros t Ht. f_equal. apply eq_true_iff_eq. rewrite bool_decide_eq_true. split; [by apply Hgone|].
      intros Hx. rewrite Hall. apply list_elem_of_fmap_2. by apply elem_of_filterb.
    + apply filterb_ext. intros m Hm. f_equal. apply eq_true_iff_eq. split; [apply Hgone'|].
      intros (x & Hx & Hid)%existsb_elem. apply bool_decide_eq_true. apply bool_decide_eq_true in Hid. rewrite Hall, <- Hid.
      by apply list_elem_of_fmap_2.
  - destruct (IH db1 Hok1) as (db' & Hrest & Ht & Hm & Hf).
    { rewrite Hleft, length_drop. lia. }
    exists db'. split.
    { rewrite (bind_inr _ _ _ _ _ Hrest), ret_run. cbn [fmap option_fmap option_map]. rewrite Hleft, length_drop. do 3 f_equal. lia. }
    rewrite Ht, Hm, Hthreads, Hmessages, (Hframe Schools), Hleft by done. rewrite !filterb_twice. split_and!.
    + apply filterb_ext. intros t Hin. destruct (bool_decide (thr_id t ∈ _)) eqn:Hi; [|by rewrite andb_true_r].
      apply bool_decide_eq_true in Hi. by rewrite Hgone.
    + apply filterb_ext. intros m Hin. destruct (bool_decide (msg_thread_id m ∈ _)) eqn:Hi.
      { rewrite andb_false_r. by rewrite Hgone'. }
      rewrite andb_true_r. f_equal. apply bool_decide_eq_false in Hi. apply eq_true_iff_eq. rewrite !existsb_elem.
      assert (∀ x, x ∈ expired_chats now db ↔ x ∈ take DEFAULT_BATCH_SIZE (expired_chats now db) ∨
                x ∈ drop DEFAULT_BATCH_SIZE (expired_chats now db)) as Hsplit
        by (intros x; by rewrite <- elem_of_app, take_drop).
      split.
      * intros (x & Hx & Hid). exists x. split; [|done]. apply Hsplit. by right.
      * intros (x & [Hx|Hx]%Hsplit & Hid); [|eauto]. exfalso. apply Hi. apply bool_decide_eq_true in Hid.
        rewrite <- Hid. by apply list_elem_of_fmap_2.
    + intros tab Ha Hb. rewrite Hf, Hframe by done. done.
Qed.
