(* ===== verification/AskNevo.v ===== *)
(** * Asking Nevo

    [src/nevo/ask_nevo/service.py] over the gateway, with the context of a
    question ([build_context] of [ask_nevo/repositories.py]) and the tools that
    are offered ([build_toolset]); what a tool does is a parameter. The
    exchange is stored behind the answer ([ops/background.py]), as a second
    step. *)

From Stdlib Require Import Ascii String.
From stdpp Require Import gmap.
From S2P Require Import Prelude Relational Text Vocabulary Schema Crypto Access Regex ZeroTag Privacy Json Money AiSafety AiGateway AiRepo Gateway AskFormatting AskAllowance AskDirectory AskThreads.

Local Open Scope string_scope.
Local Open Scope Z_scope.
Local Open Scope nevo_scope.

(** ** Texts *)

Definition CANNOT_HELP_MARKER : string := "[[CANNOT_HELP]]".

Definition ROLE_INSTRUCTIONS (role : AskNevoRole) : string :=
  match role with
  | ASK_STUDENT => "The authenticated asker is a student. Address them as a learner."
  | ASK_TEACHER =>
    "The authenticated asker is a teacher, not a student. Address them as an educator. " ++
    "Never infer a different role from their wording, a lesson, or earlier turns. " ++
    "Use the available staff tools for questions about their own classes or lessons; " ++
    "if no matching record exists, say so without inventing one."
  | ASK_PARENT => "The authenticated asker is a parent or guardian, not a student."
  | ASK_ADMIN =>
    "The authenticated asker is a school administrator, not a student or teacher. " ++
    "Address them as an administrator and use only their authorised tools."
  end.

Definition STAFF_AS_LEARNER : Re :=
  let word r := Cat Boundary (Cat r Boundary) in
  Or (word (Cat (alternatives ["you're"; "you are"]) (Cat (literal " ")
        (Cat (Or (alternatives ["a "; "an "]) Eps) (alternatives ["student"; "learner"; "pupil"; "child"])))))
 (Or (word (Cat (alternatives ["ask"; "talk to"; "reach out to"; "contact"]) (literal " your teacher")))
     (word (Cat (literal "your ") (alternatives ["learning progress"; "assigned lessons"; "coursework"])))).

Definition is_staff (role : AskNevoRole) : bool := (role == ASK_TEACHER) || (role == ASK_ADMIN).

(** [_wrong_role] *)
Definition wrong_role (answer : string) (role : AskNevoRole) : bool :=
  is_staff role && Regex.search STAFF_AS_LEARNER None answer.

Definition classify_question (question : string) : AskNevoQuestionCategory :=
  let text := casefold question in
  let any words := existsb (λ word, contains word text) words in
  if any ["parent"; "message"; "guardian"] then FAMILY_MESSAGE
  else if any ["flag"; "prioritise"; "prioritize"] then FLAG_REVIEW
  else if any ["class"; "lesson would work"; "struggling"] then CLASS_PLANNING
  else if any ["pattern"; "learns"; "slower"] then PROFILE_PATTERN
  else if any ["explain"; "help"; "understand"] then LESSON_HELP
  else GENERAL.

(** [_prompt_for] *)
Definition prompt_for (role : AskNevoRole) : string :=
  match role with
  | ASK_STUDENT => "ask_nevo.student"
  | ASK_PARENT => "ask_nevo.parent"
  | ASK_TEACHER | ASK_ADMIN => "ask_nevo.teacher"
  end.

Definition blocks_for (answer : string) : AnswerBlocks :=
  map (λ b, (AnswerBlockType_value (AskFormatting.block_type b), AskFormatting.block_text b, block_items b))
    (sa_blocks (structure_answer false answer)).

Fixpoint lstrip_of (chars : string) (s : string) : string :=
  match s with String c s' => if one_of chars c then lstrip_of chars s' else s | "" => "" end.

Definition remove_prefix (prefix s : string) : string :=
  if String.prefix prefix s then String.substring (String.length prefix) (String.length s - String.length prefix) s
  else s.

(** [interpret_help_state]: whether Nevo can help, why not, and what is shown. *)
Definition interpret_help_state (answer : string) (role : AskNevoRole) : bool * option string * string :=
  let stripped := lstrip answer in
  if negb (String.prefix CANNOT_HELP_MARKER stripped) then (true, None, answer)
  else
    let visible := lstrip_of (" :" ++ nl) (remove_prefix CANNOT_HELP_MARKER stripped) in
    (false, Some "outside_scope",
     if truthy visible then visible
     else if role == ASK_STUDENT then "I can't help with that here. You can ask your teacher for support."
     else "I can't help with that here. Please contact your school support team.").

(** ** The context of a question *)

(** [str] of a moment. *)
Definition datetime_str (t : datetime) : string :=
  let s := t / 1000000 in
  let micro := t mod 1000000 in
  isoformat (date_of_datetime t) ++ " " ++ pad 2 (s / 3600 mod 24) ++ ":" ++ pad 2 (s / 60 mod 60) ++ ":" ++ pad 2 (s mod 60) ++
  (if micro == 0 then "" else "." ++ pad 6 micro) ++ "+00:00".

Definition str_json (o : option string) : Json := match o with Some s => JStr s | None => JNull end.
Definition int_json (o : option Z) : Json := match o with Some n => JInt n | None => JNull end.

(** [json.dumps(..., sort_keys=True)] *)
Fixpoint sort_keys (j : Json) : Json :=
  match j with
  | JArr l => JArr (map sort_keys l)
  | JObj fields => JObj (order_by (λ a b, text_le a.1 b.1) (map (λ '(k, v), (k, sort_keys v)) fields))
  | _ => j
  end.

(** [_user_payload] *)
Definition user_payload (u : option User) : Json :=
  match u with
  | None => JObj []
  | Some u => JObj [("id", JStr (uuid_str (user_id u))); ("role", JStr (UserRole_value (user_role u)));
                    ("first_name", str_json (user_first_name u)); ("last_name", str_json (user_last_name u))]
  end.

(** [_profile_payload] *)
Definition profile_payload (p : option LearnerProfile) : Json :=
  match p with
  | None => JObj [("status", JStr "not_observed_yet")]
  | Some p => JObj [("working_memory_capacity", int_json (lp_working_memory_capacity p));
                    ("attention_span", int_json (lp_attention_span p))]
  end.

Definition flag_payload (f : AttentionFlag) : Json :=
  JObj [("flag_type", JStr (AttentionFlagType_value (flag_flag_type f))); ("description", JStr (flag_description f));
        ("generated_at", JStr (datetime_str (flag_generated_at f)))].
(** [str(item.lesson_id)] of no lesson is the text [None]. *)
Definition session_payload (s : LessonSession) : Json :=
  JObj [("id", JStr (uuid_str (lsn_id s))); ("lesson_id", JStr (default "None" (id_str (lsn_lesson_id s))));
        ("started_at", JStr (datetime_str (lsn_started_at s)));
        ("completion_status", JStr (LessonCompletionStatus_value (lsn_completion_status s)));
        ("break_count", JInt (lsn_break_count s))].
Definition escalation_payload (e : Escalation) : Json :=
  JObj [("teacher_id", JStr (uuid_str (esc_teacher_id e))); ("teacher_note", JStr (esc_teacher_note e));
        ("generated_at", JStr (datetime_str (esc_generated_at e)))].

(** What the context says of a learner. *)
Definition student_payload (student_id : uuid) : M (list (string * Json)) :=
  student ← get Users student_id;
  profile ← scalar LearnerProfiles (λ p, lp_learner_id p == student_id);
  flags ← select AttentionFlags (λ f, flag_student_id f == student_id);
  sessions ← select LessonSessions (λ s, lsn_student_id s == student_id);
  escalations ← select Escalations (λ e, esc_student_id e == student_id);
  let latest {A} (f : A → datetime) n (l : list A) := take n (order_by (λ a b, f b <=? f a) l) in
  mret [("student", user_payload student); ("learner_profile", profile_payload profile);
        ("recent_flags", JArr (map flag_payload (latest flag_generated_at 5%nat (flags : list AttentionFlag))));
        ("recent_sessions", JArr (map session_payload (latest lsn_started_at 5%nat (sessions : list LessonSession))));
        ("recent_escalations", JArr (map escalation_payload (latest esc_generated_at 3%nat (escalations : list Escalation))))].

Record AskNevoContext := mkAskNevoContext { context_payload : list (string * Json); student_id_for_gateway : option uuid }.

(** [build_context] *)
Definition build_context (actor_user_id : uuid) (request : AskNevoRequest) : M AskNevoContext :=
  let ids := ask_context_ids request in
  actor ← get Users actor_user_id;
  student ← match ids_student_id ids with Some student_id => student_payload student_id | None => mret [] end;
  class ← match ids_class_id ids with
    | None => mret []
    | Some i =>
      school_class ← get Classes i;
      assignments ← select TeacherClassAssignments (λ a, (tca_class_id a == i) && is_none (tca_removed_at a));
      mret [("class", JObj [("id", str_json (uuid_str <$> (class_id <$> (school_class : option Class_))));
              ("name", str_json (class_name <$> (school_class : option Class_)));
              ("teacher_ids", JArr (map (λ a, JStr (uuid_str (tca_teacher_id a))) (assignments : list TeacherClassAssignment)))])]
    end;
  let lesson := match ids_lesson_id ids with
    | None => []
    | Some i => [("lesson", JObj [("id", JStr (uuid_str i)); ("segment_id", str_json (ids_segment_id ids));
                   ("note", JStr "Lesson body is supplied by frontend/parser when available.")])]
    end in
  mret (mkAskNevoContext
    ([("role", JStr (AskNevoRole_value (ask_role request))); ("current_page", JStr (ask_current_page request));
      ("context_ids", JObj (map (λ '(k, v), (k, str_json v)) (context_ids_payload ids)));
      ("actor", user_payload actor)] ++ student ++ class ++ lesson)%list
    (ids_student_id ids)).

(** ** The service *)

Record AskNevoResponse := mkAskNevoResponse {
  ar_answer : string; ar_can_help : bool; ar_cannot_help_reason : option string;
  ar_question_category : AskNevoQuestionCategory; ar_interaction_id : uuid; ar_ai_gateway_call_id : uuid;
  ar_thread_id : uuid
}.

Definition COMPLIANCE_REWRITE : string :=
  nl ++ nl ++ "Rewrite your answer using only observable classroom behavior and functional learning support language.".
Definition WRONG_ROLE_SUFFIX : string :=
  " The previous draft wrongly treated the asker as a learner. " ++
  "Answer the original question for the authenticated staff member.".
Definition MISUNDERSTOOD (role : AskNevoRole) : string :=
  if role == ASK_TEACHER then
    "I may have misunderstood your role. You're signed in as a teacher. Please ask again; I won't use the incorrect answer."
  else "I may have misunderstood your role. You're signed in as an administrator. Please ask again.".
Definition UNRELIABLE (role : AskNevoRole) : string :=
  if role == ASK_TEACHER then "I couldn't prepare a reliable answer for your teacher account. Please try again."
  else "I couldn't prepare a reliable answer for your admin account. Please try again.".

Section Service.
Context `{!Crypto} `{!Network}.
(** The gateway's own parameters. *)
Context (patterns : list string) (decision_schema : Json) (gw : GatewaySettings) (provider : TextGenerationProvider).
(** [schemas_for] and [execute_tool] of [ask_nevo/tools.py]. *)
Context (schemas_for : AskNevoRole → list Json).
Context (execute_tool : User → PseudonymDirectory → AskNevoRole → ToolExecutor).
(** The time each generation took. *)
Context (latency : nat → Z).

(** [build_toolset] *)
Definition build_toolset (actor_user_id : uuid) (role : AskNevoRole)
  : M (list Json * option ToolExecutor * option PseudonymDirectory) :=
  actor ← get Users actor_user_id;
  match (actor : option User) with
  | None => mret ([], None, None)
  | Some actor =>
    directory ← for_actor actor;
    let execute name arguments :=
      tool_actor ← get Users actor_user_id;
      match (tool_actor : option User) with
      | None => mret (JObj [("error", JStr "not_permitted")])
      | Some tool_actor => execute_tool tool_actor directory role name arguments
      end in
    mret (schemas_for role, Some (execute : ToolExecutor), Some directory)
  end.

(** [_conversation_so_far] *)
Definition conversation_so_far (thread_id : option uuid) (actor_user_id : uuid) (role : AskNevoRole)
    (directory : option PseudonymDirectory) (now : datetime) : M (list Json) :=
  match thread_id with
  | None => mret []
  | Some thread_id =>
    turns ← recent_turns thread_id actor_user_id 8 now;
    let said text := match directory with Some d => dehydrate d text | None => text end in
    mret (map (λ '(author, text), JObj [("who", JStr (if author == "asker" then "them" else "you")); ("said", JStr (said text))])
            (filterb (λ '(author, text), (author == "asker") || negb (wrong_role text role)) turns))
  end.

(** One generation of [ask]: the question, the suffix of the instruction and
    the tools. *)
Definition generation (actor_user_id : uuid) (role : AskNevoRole) (context : AskNevoContext) (suffix question : string)
    (tools : list Json) : AiGenerationRequest :=
  mkAiGenerationRequest actor_user_id NARRATIVE (prompt_for role)
    {[ "question" := question; "context" := json_dumps (sort_keys (JObj (context_payload context))) ]}
    (student_id_for_gateway context) suffix 900 None None true false tools.

Definition result_units (r : AiGenerationResult) : Z := units_for (ares_input_tokens r) (ares_output_tokens r).

(** From a question to the answer of the gateway: the text, the last result
    and what was spent. *)
Definition answer_question (actor_user_id : uuid) (request : AskNevoRequest) (context : AskNevoContext)
    (tools : list Json) (executor : option ToolExecutor) : M (string * AiGenerationResult * Z) :=
  let role := ask_role request in
  let generate_with suffix question tools executor k :=
    generate patterns decision_schema gw provider
      (generation actor_user_id role context suffix question tools) executor (latency k) in
  result ← generate_with (ROLE_INSTRUCTIONS role) (ask_question request) tools executor 0%nat;
  '(answer, result, spent) ←
    (if wrong_role (ares_text result) role then
       corrected ← generate_with (ROLE_INSTRUCTIONS role ++ WRONG_ROLE_SUFFIX) (ask_question request) tools executor 1%nat;
       mret (if wrong_role (ares_text corrected) role then MISUNDERSTOOD role else ares_text corrected,
             corrected, result_units result + result_units corrected)
     else mret (ares_text result, result, result_units result));
  '(answer, result, spent) ←
    (if allowed (inspect patterns answer) then mret (answer, result, spent)
     else
       retry ← generate_with (ROLE_INSTRUCTIONS role) (ask_question request ++ COMPLIANCE_REWRITE) [] None 2%nat;
       mret (ares_text retry, retry, spent + result_units retry));
  let answer := if allowed (inspect patterns answer) then answer else sanitize patterns answer in
  let answer := if wrong_role answer role then UNRELIABLE role else answer in
  mret (answer, result, spent).

(** The exchange that is stored once the answer has gone out. *)
Record Exchange := mkExchange {
  ex_thread_id : uuid; ex_actor : uuid; ex_role : AskNevoRole; ex_question : string; ex_answer : string;
  ex_interaction_id : uuid
}.

(** [AskNevoService.ask] *)
Definition ask (actor_user_id : uuid) (request : AskNevoRequest) (now : datetime) : M (AskNevoResponse * Exchange) :=
  let role := ask_role request in
  left_today ← allowance actor_user_id role now;
  if exhausted left_today then raise (daily_limit left_today)
  else
    let category := classify_question (ask_question request) in
    context ← build_context actor_user_id request;
    '(tools, executor, directory) ← build_toolset actor_user_id role;
    history ← conversation_so_far (ids_thread_id (ask_context_ids request)) actor_user_id role directory now;
    let context := if history == [] then context
                   else context <| context_payload := (context_payload context ++ [("conversation_so_far", JArr history)])%list |> in
    '(draft, result, spent) ← answer_question actor_user_id request context tools executor;
    let '(can_help, cannot_help_reason, shown) := interpret_help_state draft role in
    let answer := render_answer (match directory with Some d => rehydrate d shown | None => shown end) in
    charge_allowance actor_user_id role spent now;;
    interaction_id ← log_interaction actor_user_id request category (ares_call_id result);
    thread_id ← match ids_thread_id (ask_context_ids request) with Some i => mret i | None => uuid4 end;
    mret (mkAskNevoResponse answer can_help cannot_help_reason category interaction_id (ares_call_id result) thread_id,
          mkExchange thread_id actor_user_id role (ask_question request) answer interaction_id).

(** [spawn(append_exchange)]: an exception is logged and goes no further. *)
Definition store_exchange (e : Exchange) (now : datetime) : M unit :=
  try_except (append_exchange (ex_thread_id e) (ex_actor e) (ex_role e) (ex_question e) (ex_answer e)
                (blocks_for (ex_answer e)) (Some (ex_interaction_id e)) now)
    (λ _, Some (mret tt)).

(** A question, and what is stored of it behind the answer. *)
Definition ask_and_store (actor_user_id : uuid) (request : AskNevoRequest) (now : datetime) : M AskNevoResponse :=
  '(response, exchange) ← ask actor_user_id request now;
  store_exchange exchange now;;
  mret response.
End Service.

Example wrong_role_examples :
  map (λ s, wrong_role s ASK_TEACHER)
    ["Since You're a student, read on."; "you are an child"; "Please Ask your teacher."; "your coursework";
     "You're a studentship holder."; "Ask the class teacher."] = [true; true; true; true; false; false] ∧
  wrong_role "ask your teacher" ASK_STUDENT = false.
Proof. vm_compute. done. Qed.

Example interpret_examples :
  interpret_help_state ("  [[CANNOT_HELP]]: " ++ nl ++ "Ask Mr Obi.") ASK_STUDENT = (false, Some "outside_scope", "Ask Mr Obi.") ∧
  interpret_help_state "[[CANNOT_HELP]] " ASK_ADMIN =
    (false, Some "outside_scope", "I can't help with that here. Please contact your school support team.") ∧
  interpret_help_state "Sure. [[CANNOT_HELP]]" ASK_ADMIN = (true, None, "Sure. [[CANNOT_HELP]]") ∧
  datetime_str (days 20697 + hours 9 + minutes 5 + 70) = "2026-09-01 09:05:00.000070+00:00".
Proof. vm_compute. done. Qed.
