(* ===== verification/AskFacts.v ===== *)
(** * What asking Nevo promises

    The answer that is shown passed the policy and does not mistake its asker;
    a day is charged for what was answered and closes before it is overspent;
    a conversation and the ledger are all that is written. *)

From Stdlib Require Import Ascii String.
From stdpp Require Import gmap.
From S2P Require Import Prelude Relational Text Vocabulary Schema Crypto Access Regex ZeroTag Privacy Json Money AiSafety AiGateway AiRepo Gateway GatewayFacts AskFormatting AskAllowance AskDirectory AskThreads AskNevo.

Local Open Scope string_scope.
Local Open Scope Z_scope.
Local Open Scope nevo_scope.

(** ** Fixed texts *)

Lemma fixed_text_allowed patterns s :
  patterns ≡ₚ PROHIBITED_RESPONSE_TERMS → forallb (λ x, negb (search x None s)) PROHIBITED_RESPONSE_TERMS = true →
  allowed (inspect patterns s) = true.
Proof.
  intros Hp Hs. apply inspect_allowed. intros x Hx. rewrite Hp in Hx. rewrite forallb_forall in Hs.
  apply negb_true_iff, Hs. by apply list_elem_of_In.
Qed.

Lemma misunderstood_allowed patterns role :
  patterns ≡ₚ PROHIBITED_RESPONSE_TERMS → allowed (inspect patterns (MISUNDERSTOOD role)) = true.
Proof. intros Hp. apply fixed_text_allowed; [done|]. by destruct role; vm_compute. Qed.

Lemma unreliable_allowed patterns role :
  patterns ≡ₚ PROHIBITED_RESPONSE_TERMS → allowed (inspect patterns (UNRELIABLE role)) = true.
Proof. intros Hp. apply fixed_text_allowed; [done|]. by destruct role; vm_compute. Qed.

Lemma unreliable_right_role role role' : wrong_role (UNRELIABLE role) role' = false.
Proof. unfold wrong_role. apply andb_false_iff. right. by destruct role; vm_compute. Qed.

(** ** Frames *)

Section Frames.
Context `{!Crypto}.

Lemma frames_for_actor ts actor : frames ts (for_actor actor).
Proof. unfold for_actor. apply frames_bind; [by apply frames_accessible_students|]. intros l. apply frames_ret. Qed.

Lemma frames_build_context ts actor request : frames ts (build_context actor request).
Proof. unfold build_context, student_payload. frames_tac. Qed.

Lemma frames_recent_turns ts i actor limit now : frames ts (recent_turns i actor limit now).
Proof. unfold recent_turns. frames_tac. Qed.

Lemma frames_conversation ts i actor role directory now : frames ts (conversation_so_far i actor role directory now).
Proof.
  unfold conversation_so_far. destruct i; [|apply frames_ret]. apply frames_bind; [apply frames_recent_turns|].
  intros turns. apply frames_ret.
Qed.

Lemma frames_toolset ts schemas execute_tool actor role : frames ts (build_toolset schemas execute_tool actor role).
Proof.
  unfold build_toolset. apply frames_bind; [frames_tac|]. intros [u|]; [|apply frames_ret].
  apply frames_bind; [apply frames_for_actor|]. intros d. apply frames_ret.
Qed.
End Frames.

Lemma frames_log_interaction ts actor request category call :
  AskNevoInteractions ∈ ts → frames ts (log_interaction actor request category call).
Proof. intros Hts. unfold log_interaction, begin_. frames_tac. Qed.

(** ** The answer *)

Section Service.
Context `{!Crypto} `{!Network}.
Context (patterns : list string) (decision_schema : Json) (gw : GatewaySettings) (provider : TextGenerationProvider).
Context (schemas_for : AskNevoRole → list Json) (execute_tool : User → PseudonymDirectory → AskNevoRole → ToolExecutor).
Context (latency : nat → Z).

Abbreviation generate_ := (generate patterns decision_schema gw provider).
Abbreviation answer_question_ := (answer_question patterns decision_schema gw provider latency).
Abbreviation ask_ := (ask patterns decision_schema gw provider schemas_for execute_tool latency).

(** An answer the gateway gave to the question. *)
Definition generated (actor : uuid) (request : AskNevoRequest) (r : AiGenerationResult) : Prop :=
  ∃ context suffix question tools executor k s s',
    generate_ (generation actor (ask_role request) context suffix question tools) executor (latency k) s = (inr r, s').

(** What an answer is billed at: five units for each token of the answer. *)
Definition billed (r : AiGenerationResult) : Z := Z.max 0 (ares_input_tokens r) + 5 * Z.max 0 (ares_output_tokens r).
Definition billed_all (results : list AiGenerationResult) : Z := foldr Z.add 0 (map billed results).

Lemma result_units_billed r : result_units r = billed r.
Proof. unfold result_units, units_for, billed, OUTPUT_WEIGHT. lia. Qed.

(** Whether the first answer took its asker for a learner decides whether there
    is a second; there is never a third, since what the gateway returns passes
    the policy. *)
Lemma answer_question_returns actor request context tools executor (db : Database) answer result spent db' :
  patterns ≡ₚ PROHIBITED_RESPONSE_TERMS →
  answer_question_ actor request context tools executor db = (inr (answer, result, spent), db') →
  allowed (inspect patterns answer) = true ∧ wrong_role answer (ask_role request) = false ∧
  ∃ first, let results := if wrong_role (ares_text first) (ask_role request) then [first; result] else [first] in
    Forall (generated actor request) results ∧ last results = Some result ∧ spent = billed_all results.
Proof.
  intros Hpat Hrun. unfold answer_question in Hrun. cbv zeta in Hrun.
  apply bind_inv_inr in Hrun as (first & db1 & Hfirst & Hrun).
  assert (∀ suffix question tools executor k (d d' : Database) r,
    generate_ (generation actor (ask_role request) context suffix question tools) executor (latency k) d = (inr r, d') →
    allowed (inspect patterns (ares_text r)) = true ∧ generated actor request r) as Hgen.
  { intros * Hrun'. split; [by eapply generate_allowed in Hrun'|]. by eexists _, _, _, _, _, _, _, _. }
  apply Hgen in Hfirst as [Hfirst Hgen1].
  apply bind_inv_inr in Hrun as ([[answer1 result1] spent1] & db2 & Hsecond & Hrun).
  assert (allowed (inspect patterns answer1) = true ∧
    (wrong_role (ares_text first) (ask_role request) = false → answer1 = ares_text first) ∧
    let results := if wrong_role (ares_text first) (ask_role request) then [first; result1] else [first] in
    Forall (generated actor request) results ∧ last results = Some result1 ∧ spent1 = billed_all results) as (Ha1 & Hsame & Hspent).
  { cbv zeta. destruct (wrong_role (ares_text first) (ask_role request)).
    - apply bind_inv_inr in Hsecond as (corrected & db3 & Hcorrected & [= <- <- <- _]).
      apply Hgen in Hcorrected as [Hcorrected Hgen2]. split_and!; [|done| |done|].
      + destruct (wrong_role (ares_text corrected) _); [by apply misunderstood_allowed|done].
      + by repeat constructor.
      + rewrite !result_units_billed. unfold billed_all. cbn [map foldr]. lia.
    - injection Hsecond as <- <- <- _. split_and!; [done|done|by repeat constructor|done|].
      rewrite result_units_billed. unfold billed_all. cbn [map foldr]. lia. }
  rewrite Ha1 in Hrun. erewrite bind_inr in Hrun by reflexivity. cbv beta iota zeta in Hrun. rewrite Ha1 in Hrun.
  injection Hrun as <- <- <- _. destruct (wrong_role answer1 (ask_role request)) eqn:Hwrong.
  - split_and!; [by apply unreliable_allowed|apply unreliable_right_role|]. by exists first.
  - split_and!; [done|done|]. by exists first.
Qed.

(** What the provider and the tools keep, a question keeps, in the tables it
    does not write itself. *)
Lemma preserves_answer_question (t : Table) (J : list (row t) → Prop) actor request context tools executor :
  (∀ q n e, http_send q n = inl e → e ≠ SafetyBlocked) →
  t ≠ ContentSafetyEvents → t ≠ AiGatewayCalls →
  (∀ r, preserves (λ db, J (db_tables db t)) (provider r)) →
  (∀ execute name args, executor = Some execute → preserves (λ db, J (db_tables db t)) (execute name args)) →
  preserves (λ db, J (db_tables db t)) (answer_question_ actor request context tools executor).
Proof.
  intros Hclient Hsafety Hcalls Hprovider Hexecutor.
  assert (∀ r e l, (e = executor ∨ e = None) → preserves (λ db, J (db_tables db t)) (generate_ r e l)) as Hgen.
  { intros r e l [->| ->]; apply preserves_generate; auto. done. }
  unfold answer_question. cbv zeta. apply preserves_bind; [auto|]. intros first.
  apply preserves_bind.
  { destruct (wrong_role _ _); [|apply preserves_ret]. apply preserves_bind; [auto|]. intros corrected. apply preserves_ret. }
  intros [[answer1 result1] spent1]. apply preserves_bind.
  { destruct (allowed _); [apply preserves_ret|]. apply preserves_bind; [auto|]. intros retry. apply preserves_ret. }
  intros [[answer2 result2] spent2]. apply preserves_ret.
Qed.

(** The provider and the tools leave the ledger alone. *)
Definition leaves_ledger : Prop :=
  (∀ q n e, http_send q n = inl e → e ≠ SafetyBlocked) ∧
  (∀ r db, db_tables (snd (provider r db)) AskNevoDailyUsages = db_tables db AskNevoDailyUsages) ∧
  (∀ u d role name args db,
     db_tables (snd (execute_tool u d role name args db)) AskNevoDailyUsages = db_tables db AskNevoDailyUsages).

Lemma toolset_executor actor role (db : Database) tools executor directory db' :
  leaves_ledger → build_toolset schemas_for execute_tool actor role db = (inr (tools, executor, directory), db') →
  ∀ execute name args d, executor = Some execute →
    db_tables (snd (execute name args d)) AskNevoDailyUsages = db_tables d AskNevoDailyUsages.
Proof.
  intros (_ & _ & Htools) Hrun. unfold build_toolset in Hrun. erewrite bind_inr in Hrun by reflexivity.
  destruct (findb _ _) as [u|]; [|injection Hrun as <- <- <- <-; done].
  apply bind_inv_inr in Hrun as (d0 & db1 & _ & Hrun). injection Hrun as <- <- <- <-.
  intros execute name args d [= <-]. erewrite bind_inr by reflexivity. destruct (findb _ _); [apply Htools|done].
Qed.

(** One charge at most: first the ledger is as it was, then it may be charged
    once. What holds of the ledger may depend on whether a result is returned. *)
Definition returned {E A} (r : E + A) : bool := match r with inr _ => true | inl _ => false end.

Lemma raised {E A} (r : E + A) : returned r = false → ∃ e, r = inl e.
Proof. destruct r as [e|a]; [by exists e|done]. Qed.

Section OneCharge.
Context (before : list AskNevoDailyUsage) (charged_once : bool → list AskNevoDailyUsage → Prop).
Hypothesis (Huncharged : charged_once false before).
Let untouched (db : Database) : Prop := db_tables db AskNevoDailyUsages = before.
Definition charges_once {A} (m : M A) : Prop :=
  ∀ db, untouched db → charged_once (returned (fst (m db))) (db_tables (snd (m db)) AskNevoDailyUsages).

Lemma charges_once_bind {A B} (m : M A) (f : A → M B) :
  preserves untouched m → (∀ db a db', m db = (inr a, db') → charges_once (f a)) → charges_once (m ≫= f).
Proof.
  intros Hm Hf db Hdb. rewrite bind_run. specialize (Hm db Hdb).
  destruct (m db) as [[e|a] db1] eqn:Hrun; [by rewrite Hm|]. by eapply Hf.
Qed.

Lemma charges_once_frames {A} (m : M A) ts : frames ts m → AskNevoDailyUsages ∉ ts → preserves untouched m.
Proof. intros Hm Hts db Hdb. unfold untouched. by rewrite (Hm db _ Hts). Qed.
End OneCharge.

(** What a question does to the ledger: when it raises it may leave everybody's
    spending as it was; otherwise it found the reserve, and charges the answers
    of the gateway to one person and one day. *)
Definition ledger_after (actor : uuid) (request : AskNevoRequest) (now : datetime) (before : list AskNevoDailyUsage)
    (answered : bool) (ledger : list AskNevoDailyUsage) : Prop :=
  (answered = false ∧ ∀ a day, spent_on a day ledger = spent_on a day before) ∨
  (spent_on actor (school_day now) before <= DAILY_UNITS (ask_role request) - RESERVE_UNITS ∧
   ∃ results, results ≠ [] ∧ Forall (generated actor request) results ∧ ∀ a day,
     spent_on a day ledger = spent_on a day before +
       (if (actor == a) && (school_day now == day) then billed_all results else 0)).

Lemma ask_ledger actor request now (db : Database) :
  leaves_ledger → patterns ≡ₚ PROHIBITED_RESPONSE_TERMS →
  ledger_after actor request now (db_tables db AskNevoDailyUsages) (returned (fst (ask_ actor request now db)))
    (db_tables (snd (ask_ actor request now db)) AskNevoDailyUsages).
Proof.
  intros Hleaves Hpat. set (before := db_tables db AskNevoDailyUsages). pose proof Hleaves as (Hclient & Hprovider & _). unfold ask.
  destruct (allowance_run actor (ask_role request) now db) as (left_today & Hal & Hrole & _ & _ & Hspent).
  rewrite (bind_inr _ _ _ _ _ Hal). destruct (exhausted left_today) eqn:Hex; [by left|]. cbv zeta.
  assert (¬ exhausted left_today = true) as Hleft by (by rewrite Hex). rewrite exhausted_spec, Hspent in Hleft.
  unfold daily_units in Hleft. rewrite Hrole in Hleft. fold before in Hleft. clear Hal Hspent Hex.
  set (once := ledger_after actor request now before).
  match goal with |- once (returned (fst (?m db))) _ =>
    enough (charges_once before once m) as Hm by (by apply Hm) end.
  assert (once false before) as Honce by (by left).
  apply charges_once_bind; [done|by eapply (charges_once_frames _ _ []); [apply frames_build_context|set_solver]|].
  intros _ context _ _.
  apply charges_once_bind; [done|by eapply (charges_once_frames _ _ []); [apply frames_toolset|set_solver]|].
  intros d [[tools executor] directory] d' Htoolset.
  pose proof (toolset_executor _ _ _ _ _ _ _ Hleaves Htoolset) as Hexecutor.
  apply charges_once_bind; [done|by eapply (charges_once_frames _ _ []); [apply frames_conversation|set_solver]|].
  intros _ history _ _.
  apply charges_once_bind; [done| |].
  { apply (preserves_answer_question AskNevoDailyUsages (λ l, l = before)); try done.
    - intros r d0 Hd0. by rewrite Hprovider.
    - intros execute name args He d0 Hd0. by rewrite (Hexecutor _ _ _ _ He). }
  intros d1 [[draft result] spent] d2 Hanswer.
  apply answer_question_returns in Hanswer as (_ & _ & first & Hresults & _ & Hunits); [|done].
  destruct (interpret_help_state draft _) as [[can_help reason] shown].
  intros d3 Hd3. rewrite bind_run.
  destruct (charge_allowance _ _ _ _ d3) as [[e|[]] d4] eqn:Hcharge.
  { apply transaction_raise in Hcharge as ->. cbn [fst snd returned]. by rewrite Hd3. }
  apply charge_allowance_spec in Hcharge as (Hcharge & _ & _). rewrite Hd3 in Hcharge.
  match goal with |- once _ (db_tables (snd (?m d4)) _) => assert (frames [AskNevoInteractions] m) as Hrest end.
  { apply frames_bind; [apply frames_log_interaction; set_solver|]. intros i. apply frames_bind; [|intros; apply frames_ret].
    destruct (ids_thread_id _); [apply frames_ret|]. frames_tac. }
  rewrite (Hrest d4 AskNevoDailyUsages) by set_solver. right. split; [lia|]. subst spent.
  eexists. split; [|split; [exact Hresults|exact Hcharge]]. by destruct (wrong_role _ _).
Qed.
End Service.

(** ** What is left of a refusal *)

Lemma search_suffix x prev a b : search x prev (a ++ b) = false → search x (last_char prev a) b = false.
Proof.
  revert prev. induction a as [|c a IH]; intros prev H; [done|]. rewrite append_cons in H. apply IH.
  destruct (match_term x prev (String c (a ++ b))) eqn:Hm.
  - cbn [search] in H. by rewrite Hm in H.
  - by rewrite search_on in H.
Qed.

(** Dropping a beginning that does not end inside a word. *)
Lemma allowed_suffix patterns a b :
  word_before (last_char None a) = false → allowed (inspect patterns (a ++ b)) = true → allowed (inspect patterns b) = true.
Proof.
  rewrite !inspect_allowed. intros Hw H x Hx. specialize (H x Hx). apply search_suffix in H.
  by rewrite (search_prev x _ None b Hw) in H.
Qed.

Lemma lstrip_split s : ∃ a, s = a ++ lstrip s ∧ word_before (last_char None a) = false.
Proof.
  assert (∀ prev, word_before prev = false → ∃ a, s = a ++ lstrip s ∧ word_before (last_char prev a) = false) as H; [|by apply H].
  induction s as [|c s IH]; intros prev Hp; [by exists ""|]. cbn [lstrip]. destruct (is_space c) eqn:Hc; [|by exists ""].
  destruct (IH (Some c)) as (a & Ha & Hw).
  { simpl. destruct (is_word c) eqn:Hword; [|done]. exfalso. revert Hc Hword. clear. destruct c as [[] [] [] [] [] [] [] []]; vm_compute; congruence. }
  exists (String c a). rewrite append_cons, <- Ha. done.
Qed.

Lemma lstrip_of_split chars s prev :
  (∀ c, one_of chars c = true → is_word c = false) → word_before prev = false →
  ∃ a, s = a ++ lstrip_of chars s ∧ word_before (last_char prev a) = false.
Proof.
  intros Hchars. revert prev. induction s as [|c s IH]; intros prev Hp; [by exists ""|]. cbn [lstrip_of].
  destruct (one_of chars c) eqn:Hc; [|by exists ""]. destruct (IH (Some c)) as (a & Ha & Hw); [by apply Hchars|].
  exists (String c a). rewrite append_cons, <- Ha. done.
Qed.

Lemma prefix_split p s : String.prefix p s = true → s = p ++ remove_prefix p s.
Proof.
  intros Hp. unfold remove_prefix. rewrite Hp.
  assert (∀ r, String.substring 0 (String.length r) r = r) as Hall.
  { induction r as [|c r IH]; [done|]. simpl. by rewrite IH. }
  revert p Hp. induction s as [|c s IH]; intros [|d p] Hp; simpl in Hp |- *; try done.
  - by rewrite Hall.
  - destruct (Ascii.ascii_dec d c) as [->|]; [|done]. rewrite append_cons, <- IH; done.
Qed.

(** What is shown of an allowed answer is allowed. *)
Lemma shown_allowed patterns draft role :
  patterns ≡ₚ PROHIBITED_RESPONSE_TERMS → allowed (inspect patterns draft) = true →
  allowed (inspect patterns (snd (interpret_help_state draft role))) = true.
Proof.
  intros Hpat Hdraft. unfold interpret_help_state. cbv zeta.
  destruct (String.prefix CANNOT_HELP_MARKER (lstrip draft)) eqn:Hp; cbn [negb snd]; [|done].
  destruct (lstrip_split draft) as (a & Ha & Hwa). apply prefix_split in Hp.
  set (rest := remove_prefix CANNOT_HELP_MARKER (lstrip draft)) in *.
  destruct (lstrip_of_split (" :" ++ nl) rest (Some "]"%char)) as (b & Hb & Hwb); [|done|].
  { intros c Hc%bool_decide_eq_true. repeat (apply elem_of_cons in Hc as [->|Hc]; [done|]). by apply elem_of_nil in Hc. }
  destruct (truthy _) eqn:Ht.
  - apply (allowed_suffix patterns (a ++ (CANNOT_HELP_MARKER ++ b))).
    + rewrite !last_char_append. exact Hwb.
    + rewrite !append_assoc, <- Hb, <- Hp, <- Ha. done.
  - case_bool_decide; (apply fixed_text_allowed; [done|vm_compute; done]).
Qed.

(** C17: what is shown was checked, and is what is stored. When a question is answered, there
    is a draft that passes the Zero-Tag policy and, for staff, does not take its asker for a
    learner; what is shown is that draft without its marker of refusal, passes the policy too,
    and only then gets the learners' names back - of nobody but those within the asker's reach
    - and its layout. The interaction is on record with the asker, the role and the call of
    the gateway; the exchange that is stored holds the question, the answer as shown, and the
    conversation the page named if it named one. *)
Theorem shown_answer_was_checked `{!Crypto} `{!Network} patterns decision_schema gw provider schemas_for execute_tool latency
    actor request now (db : Database) response exchange db' :
  patterns ≡ₚ PROHIBITED_RESPONSE_TERMS →
  ask patterns decision_schema gw provider schemas_for execute_tool latency actor request now db
    = (inr (response, exchange), db') →
  ∃ draft shown directory,
    allowed (inspect patterns draft) = true ∧ wrong_role draft (ask_role request) = false ∧
    (ar_can_help response, ar_cannot_help_reason response, shown) = interpret_help_state draft (ask_role request) ∧
    allowed (inspect patterns shown) = true ∧
    ar_answer response = render_answer (rehydrate directory shown) ∧
    (∀ e, e ∈ directory → ∃ asker u, asker ∈ db_tables db Users ∧ user_id asker = actor ∧
       within_reach asker db u ∧ e = directory_entry u) ∧
    (∃ i, i ∈ db_tables db' AskNevoInteractions ∧ ani_id i = ar_interaction_id response ∧ ani_actor_user_id i = actor ∧
       ani_role i = ask_role request ∧ ani_ai_gateway_call_id i = Some (ar_ai_gateway_call_id response)) ∧
    exchange = mkExchange (ar_thread_id response) actor (ask_role request) (ask_question request) (ar_answer response)
                 (ar_interaction_id response) ∧
    (∀ i, ids_thread_id (ask_context_ids request) = Some i → ar_thread_id response = i).
Proof.
  intros Hpat Hrun. unfold ask in Hrun. cbv zeta in Hrun.
  apply bind_inv_inr in Hrun as (left_today & db1 & [= _ <-] & Hrun). destruct (exhausted left_today); [done|].
  apply bind_inv_inr in Hrun as (context & d0 & Hcontext & Hrun).
  assert (∀ t, db_tables d0 t = db_tables db t) as Hsame
    by (intros t; apply (frames_run [] _ _ _ _ _ (frames_build_context _ _ _) Hcontext); set_solver).
  apply bind_inv_inr in Hrun as ([[tools executor] directory] & db3 & Htoolset & Hrun).
  apply bind_inv_inr in Hrun as (history & db4 & _ & Hrun).
  apply bind_inv_inr in Hrun as ([[draft result] spent] & db5 & Hanswer & Hrun).
  destruct (answer_question_returns _ _ _ _ _ _ _ _ _ _ _ _ _ _ _ Hpat Hanswer) as (Hdraft & Hwrong & _).
  pose proof (shown_allowed patterns draft (ask_role request) Hpat Hdraft) as Hshown.
  destruct (interpret_help_state draft (ask_role request)) as [[can_help reason] shown] eqn:Hhelp. cbn [snd] in Hshown.
  apply bind_inv_inr in Hrun as ([] & db6 & _ & Hrun).
  apply bind_inv_inr in Hrun as (interaction & db7 & Hlog & Hrun).
  apply bind_inv_inr in Hrun as (thread & db8 & Hthread & Hrun). injection Hrun as <- <- <-.
  exists draft, shown, (default [] directory). cbn [ar_can_help ar_cannot_help_reason ar_answer ar_interaction_id ar_ai_gateway_call_id ar_thread_id].
  split_and!; try done.
  - by destruct directory.
  - intros e He. unfold build_toolset in Htoolset. erewrite bind_inr in Htoolset by reflexivity.
    destruct (findb _ _) as [asker|] eqn:Hasker; [|injection Htoolset as <- <- <- <-; by apply elem_of_nil in He].
    apply findb_Some in Hasker as [Hid%bool_decide_eq_true Hin].
    destruct (accessible_students_spec asker d0) as (learners & Hreach & Hlearners).
    unfold for_actor in Htoolset. rewrite (bind_inr _ _ _ _ _ (bind_inr _ _ _ _ _ Hreach)) in Htoolset.
    injection Htoolset as <- <- <- <-. cbn in He. apply list_elem_of_fmap in He as (u & -> & Hu).
    rewrite Hsame in Hin. exists asker, u. split; [exact Hin|]. split; [exact Hid|]. split; [|reflexivity].
    apply Hlearners in Hu. unfold within_reach in Hu |- *. rewrite !Hsame in Hu. exact Hu.
  - unfold log_interaction in Hlog. erewrite bind_inr in Hlog by reflexivity.
    apply bind_inv_inr in Hlog as ([] & db9 & Hlog & [= <- <-]). apply transaction_commit in Hlog as [Hlog _].
    erewrite bind_inr in Hlog by reflexivity. injection Hlog as <-.
    match type of Hthread with _ ?d = _ =>
      assert (db_tables db8 AskNevoInteractions = db_tables d AskNevoInteractions) as ->
        by (destruct (ids_thread_id _); injection Hthread as _ <-; reflexivity) end.
    rewrite set_table_eq. eexists. split; [apply elem_of_app; right; by left|]. by split_and!.
  - intros i Hi. rewrite Hi in Hthread. by injection Hthread.
Qed.

(** ** A day's spending *)

Section Day.
Context `{!Crypto} `{!Network}.
Context (patterns : list string) (decision_schema : Json) (gw : GatewaySettings) (provider : TextGenerationProvider).
Context (schemas_for : AskNevoRole → list Json) (execute_tool : User → PseudonymDirectory → AskNevoRole → ToolExecutor).
Context (latency : nat → Z).

Abbreviation ask_ := (ask patterns decision_schema gw provider schemas_for execute_tool latency).
Abbreviation ask_and_store_ := (ask_and_store patterns decision_schema gw provider schemas_for execute_tool latency).

(** Somebody asks something at some moment. *)
Record Asking := mkAsking { asking_actor : uuid; asking_request : AskNevoRequest; asking_now : datetime }.

Definition asked (asks : list Asking) (db : Database) : Database :=
  foldl (λ d a, snd (ask_and_store_ (asking_actor a) (asking_request a) (asking_now a) d)) db asks.

Lemma append_exchange_ledger i actor role q a blocks interaction now (db : Database) :
  db_tables (snd (append_exchange i actor role q a blocks interaction now db)) AskNevoDailyUsages = db_tables db AskNevoDailyUsages.
Proof. by apply (append_exchange_effect i actor role q a blocks interaction now db). Qed.

Lemma stored_ledger actor request now (db : Database) :
  returned (fst (ask_and_store_ actor request now db)) = returned (fst (ask_ actor request now db)) ∧
  db_tables (snd (ask_and_store_ actor request now db)) AskNevoDailyUsages =
  db_tables (snd (ask_ actor request now db)) AskNevoDailyUsages.
Proof.
  unfold ask_and_store. rewrite bind_run. destruct (ask_ actor request now db) as [[e|[response exchange]] db1]; [done|].
  rewrite bind_run. unfold store_exchange, try_except.
  match goal with |- context [append_exchange ?i ?ac ?r ?q ?an ?b ?x ?n db1] =>
    pose proof (append_exchange_ledger i ac r q an b x n db1) as Hledger;
    destruct (append_exchange i ac r q an b x n db1) as [[e|[]] db2] end; (split; [done|exact Hledger]).
Qed.

Lemma asked_snoc asks a (db : Database) :
  asked (asks ++ [a]) db = snd (ask_and_store_ (asking_actor a) (asking_request a) (asking_now a) (asked asks db)).
Proof. unfold asked. by rewrite foldl_app. Qed.

(** The last answer [actor] got on the day: the one charged last, when what was
    spent before it was within [limit]. *)
Definition closed_by_last_answer (actor : uuid) (limit : Z) (asks : list Asking) (db : Database) (day : date) : Prop :=
  ∃ before a after, asks = (before ++ a :: after)%list ∧ asking_actor a = actor ∧ school_day (asking_now a) = day ∧
    spent_on actor day (db_tables (asked before db) AskNevoDailyUsages) <= limit ∧
    spent_on actor day (db_tables (asked asks db) AskNevoDailyUsages) =
      spent_on actor day (db_tables (asked (before ++ [a]) db) AskNevoDailyUsages).

Lemma asked_closes actor limit asks (db : Database) :
  leaves_ledger provider execute_tool → patterns ≡ₚ PROHIBITED_RESPONSE_TERMS →
  Forall (λ a, asking_actor a = actor → DAILY_UNITS (ask_role (asking_request a)) - RESERVE_UNITS <= limit) asks →
  ∀ day, spent_on actor day (db_tables (asked asks db) AskNevoDailyUsages) = spent_on actor day (db_tables db AskNevoDailyUsages) ∨
    closed_by_last_answer actor limit asks db day.
Proof.
  intros Hleaves Hpat. induction asks as [|a asks IH] using rev_ind; intros Hasks day; [by left|].
  apply Forall_app in Hasks as [Hasks Ha]. rewrite Forall_singleton in Ha. rewrite asked_snoc.
  destruct (stored_ledger (asking_actor a) (asking_request a) (asking_now a) (asked asks db)) as [_ ->].
  assert (∀ units, spent_on actor day (db_tables (snd (ask_ (asking_actor a) (asking_request a) (asking_now a) (asked asks db)))
      AskNevoDailyUsages) = spent_on actor day (db_tables (asked asks db) AskNevoDailyUsages) + units → units = 0 →
    spent_on actor day (db_tables (snd (ask_ (asking_actor a) (asking_request a) (asking_now a) (asked asks db)))
      AskNevoDailyUsages) = spent_on actor day (db_tables db AskNevoDailyUsages) ∨
    closed_by_last_answer actor limit (asks ++ [a]) db day) as Hidle.
  { intros units Heq ->. rewrite Z.add_0_r in Heq. rewrite Heq.
    destruct (IH Hasks day) as [Hsame|(before & b & after & -> & Hwho & Hday & Hle & Hlast)]; [by left|right].
    exists before, b, (after ++ [a])%list. split; [by rewrite <- app_assoc|]. split; [done|]. split; [done|]. split; [done|].
    rewrite asked_snoc.
    destruct (stored_ledger (asking_actor a) (asking_request a) (asking_now a) (asked (before ++ b :: after) db)) as [_ ->].
    by rewrite Heq. }
  destruct (ask_ledger patterns decision_schema gw provider schemas_for execute_tool latency (asking_actor a) (asking_request a)
    (asking_now a) (asked asks db) Hleaves Hpat) as [[_ Hsame]|(Hroom & results & _ & _ & Hcharge)].
  { apply (Hidle 0); [rewrite Hsame; lia|done]. }
  specialize (Hcharge actor day). destruct ((asking_actor a == actor) && (school_day (asking_now a) == day)) eqn:Hk.
  - apply andb_prop in Hk as [Hwho%bool_decide_eq_true Hday%bool_decide_eq_true]. right. exists asks, a, [].
    split; [done|]. split; [done|]. split; [done|]. specialize (Ha Hwho). rewrite Hwho, Hday in Hroom. split; [lia|done].
  - by eapply Hidle.
Qed.
End Day.

