(* ===== verification/AskExamples.v ===== *)
(** * Asking Nevo at work

    A teacher of a small school asks about a learner; the model first takes the
    teacher for a learner, and is corrected. *)

From Stdlib Require Import Ascii String.
From stdpp Require Import gmap.
From S2P Require Import Prelude Relational Text Vocabulary Schema Fixtures Crypto Access Regex ZeroTag Privacy Json Money AiSafety AiGateway AiRepo Gateway GatewayFacts AskFormatting AskAllowance AskDirectory AskThreads AskNevo AskFacts.

Local Open Scope string_scope.
Local Open Scope Z_scope.
Local Open Scope nevo_scope.

(** Digests of hexadecimal digits. *)
#[local] Instance digest_crypto : Crypto := {|
  sha256_hex s := if s == bytes_of 16 2 then "ada2ada2ada2" else "c0ffee012345";
  hmac_sha256_hex k s := k ++ s; hmac_sha512_hex k s := k ++ s;
  token_urlsafe n := int_str n; token_hex n _ := int_str n; random_digit _ _ := "0"%char;
  argon2_hash s _ := s; argon2_verify h s := h == s
|}.

Definition model_says (t : string) : HttpResponse :=
  mkHttpResponse 200 (Some (JObj [("content", JArr [text_json t]); ("stop_reason", JStr "end_turn");
    ("usage", JObj [("input_tokens", JInt 900); ("output_tokens", JInt 300)])])).

(** The reviewer at [https://r] allows everything; the model at [https://m]
    needs to be told who is asking. *)
#[local] Instance reviewer_and_model : Network := {|
  http_send q _ :=
    if String.prefix "https://r" (req_url q) then inr (verdict_response "allow" [])
    else match req_json q with
         | Some j => if contains "wrongly treated" (json_dumps j)
                     then inr (model_says "Learner-ADA2ADA2AD has finished **two** lessons.")
                     else inr (model_says "Ask your teacher about it.")
         | None => inr (model_says "")
         end;
  fromisoformat _ := None; json_loads _ := None; exception_text _ := "" |}.

Definition the_model : TextGenerationProvider :=
  claude_generate (λ j, match j with JInt z => Some z | _ => None end)
    (mkClaudeRestProvider (Some "key") "m1" "https://m" "v1" true).

Definition the_settings : GatewaySettings :=
  mkGatewaySettings (mkContentSafetyGuard (Some "key") "https://r" "m1" "v1" true) 2 (dec_of_Z 1) (dec_of_Z 5)
    (mkDecimal 125 2) (mkDecimal 10 2) false.

(** The teacher has the learner's class, and there is a prompt. *)
Definition ask_db : Database :=
  set_table AiPromptTemplates
    [mkAiPromptTemplate 40 NARRATIVE "ask_nevo.teacher" 1 "Answer." "{question} {context}" ["question"; "context"] true]
  (set_table TeacherClassAssignments
    [mkTeacherClassAssignment 50 1 None 6 7 PRIMARY FROM_MANUAL None None t0 None None] school_db).

Definition question : AskNevoRequest :=
  mkAskNevoRequest ASK_TEACHER "class_overview" (mkAskNevoContextIds (Some 2) None None None None) "How is Ada doing?".

Definition no_tools (_ : AskNevoRole) : list Json := [].
Definition no_tool (_ : User) (_ : PseudonymDirectory) (_ : AskNevoRole) : ToolExecutor := λ _ _, mret JNull.

Definition ask_run := ask PROHIBITED_RESPONSE_TERMS JNull the_settings the_model no_tools no_tool (λ _, 12) 6 question t0 ask_db.

(** Two answers of 900 and 300 tokens cost 4,800 units. *)
Example ask_result :
  match fst ask_run with
  | inr (r, e) => (ar_answer r, ar_can_help r, ar_question_category r, ex_answer e)
  | inl _ => ("", false, GENERAL, "")
  end = ("Ada has finished **two** lessons.", true, GENERAL, "Ada has finished **two** lessons.") ∧
  spent_on 6 (school_day t0) (db_tables (snd ask_run) AskNevoDailyUsages) = 4800.
Proof. vm_compute. done. Qed.

Lemma the_model_frames r : frames [] (the_model r).
Proof.
  unfold the_model, claude_generate, provider_failure. frames_tac.
  revert H. case_match; intros [= <-]; apply frames_raise.
Qed.

Lemma model_leaves_ledger : leaves_ledger the_model no_tool.
Proof.
  split; [|split].
  - intros q n e. cbn [http_send reviewer_and_model]. by repeat case_match.
  - intros r db. by rewrite (the_model_frames r db AskNevoDailyUsages) by apply not_elem_of_nil.
  - done.
Qed.

Lemma shown_answer_was_checked_witness :
  ∃ response exchange draft shown,
    fst ask_run = inr (response, exchange) ∧ ar_answer response = "Ada has finished **two** lessons." ∧
    allowed (inspect PROHIBITED_RESPONSE_TERMS draft) = true ∧ wrong_role draft ASK_TEACHER = false ∧
    interpret_help_state draft ASK_TEACHER = (true, None, shown) ∧ ex_answer exchange = "Ada has finished **two** lessons.".
Proof.
  destruct (run_checked (ask PROHIBITED_RESPONSE_TERMS JNull the_settings the_model no_tools no_tool (λ _, 12) 6 question t0)
    ask_db (λ '(r, e), (ar_answer r == "Ada has finished **two** lessons.") && ar_can_help r && is_none (ar_cannot_help_reason r)))
    as ([response exchange] & Hrun & Hcheck); [vm_compute; reflexivity|].
  apply andb_prop in Hcheck as [[Htext Hhelp]%andb_prop Hreason].
  apply bool_decide_eq_true in Htext. apply is_none_spec in Hreason.
  destruct (shown_answer_was_checked PROHIBITED_RESPONSE_TERMS JNull the_settings the_model no_tools no_tool (λ _, 12)
    6 question t0 ask_db response exchange _ (Permutation_refl _) Hrun)
    as (draft & shown & directory & Hdraft & Hrole & Hinterpret & _ & _ & _ & _ & Hexchange & _).
  exists response, exchange, draft, shown. split_and!; [by apply (f_equal fst) in Hrun|done|done|done| |by rewrite Hexchange].
  rewrite Hhelp, Hreason in Hinterpret. by symmetry.
Defined.


(** ** A conversation *)

Definition the_thread : AskNevoThread := mkAskNevoThread 60 6 (Some 1) ASK_TEACHER "How is Ada doing?" 2 t0 None t0.
Definition the_question : AskNevoMessage := mkAskNevoMessage 61 60 None ASKER 1 "How is Ada doing?" [] t0.
Definition the_answer : AskNevoMessage := mkAskNevoMessage 62 60 None NEVO 2 "Well." [("paragraph", "Well.", [])] t0.
Definition chat_db : Database :=
  set_table AskNevoThreads [the_thread] (set_table AskNevoMessages [the_question; the_answer] school_db).

Lemma chat_db_whole : whole chat_db.
Proof.
  split.
  - intros t Ht. change (t ∈ [the_thread]) in Ht. apply list_elem_of_singleton in Ht as ->. by exists 1%nat.
  - intros m Hm. exists the_thread. change (m ∈ [the_question; the_answer]) in Hm. split; [by left|]. by set_unfold; destruct Hm as [->|[->|[]]].
Qed.

Definition the_ops : list thread_op :=
  [Append 60 6 ASK_TEACHER "And Bisi?" "Also well." [] None (t0 + hours 1);
   Append 60 5 ASK_ADMIN "What was said?" "Nothing." [] None (t0 + hours 2);
   Append 70 5 ASK_ADMIN "How many are we?" "Five." [] None (t0 + hours 3)].

Lemma conversations_stay_whole_witness :
  whole chat_db ∧ whole (after the_ops chat_db) ∧
  map thr_message_count (db_tables (after the_ops chat_db) AskNevoThreads) = [4; 2].
Proof.
  split; [exact chat_db_whole|]. split; [|vm_compute; reflexivity].
  apply (conversations_stay_whole the_ops chat_db chat_db_whole).
Defined.

Definition deleted_db : Database := snd (delete_thread 6 60 (t0 + hours 1) chat_db).

Lemma deleted_conversation_is_never_read_witness :
  fst (delete_thread 6 60 (t0 + hours 1) chat_db) = inr true ∧
  ∀ reader j later transcript,
    fst (read_thread reader j later (after (the_ops ++ [SweepBatch (t0 + days 200)])%list deleted_db)) = inr (Some transcript) →
    62 ∉ map tm_message_id (tt_messages transcript).
Proof.
  split; [vm_compute; reflexivity|]. intros reader j later transcript.
  assert (fst (delete_thread 6 60 (t0 + hours 1) chat_db) = inr true) as Hdelete by (vm_compute; reflexivity).
  assert (keyed AskNevoMessages chat_db) as Hkeyed.
  { split; [by apply (bool_decide_unpack _); vm_compute|].
    intros m Hm. change (m ∈ [the_question; the_answer]) in Hm. set_unfold. destruct Hm as [->|[->|[]]]; vm_compute; done. }
  destruct (deleted_conversation_is_never_read 6 60 (t0 + hours 1) chat_db _ Hkeyed (run_returns _ _ _ Hdelete)) as [_ H].
  apply (H _ the_answer); [right; left|reflexivity|exact 8%nat].
Defined.

Lemma chats_are_swept_witness :
  ∃ db', sweep_chats 1 (t0 + days 90) chat_db = (inr (Some 1%nat), db') ∧
    db_tables db' AskNevoThreads = [] ∧ db_tables db' AskNevoMessages = [].
Proof.
  destruct (chats_are_swept 1 (t0 + days 90) chat_db) as (db' & Hrun & Hthreads & Hmessages & _).
  - vm_compute. reflexivity.
  - vm_compute. lia.
  - exists db'. split_and!; [exact Hrun|rewrite Hthreads|rewrite Hmessages]; vm_compute; reflexivity.
Defined.

(** ** Whose data a question reaches

    The page's identifiers are not checked against the asker's reach: a parent
    who has no child at the school names a learner of it, the context holds
    what was noted about that learner, and the gateway takes the request. *)
Definition noted_db : Database :=
  set_table AttentionFlags [mkAttentionFlag 80 2 SUDDEN_CHANGE "Ada has stopped finishing lessons." [] [] t0 None] school_db.

Definition another_parent_asks : AskNevoRequest :=
  mkAskNevoRequest ASK_PARENT "home" (mkAskNevoContextIds (Some 2) None None None None) "What is noted about this child?".

Theorem context_reaches_other_children :
  db_tables noted_db ParentLinks = [] ∧
  (match fst (build_context 3 another_parent_asks noted_db) with
   | inr c => contains "Ada has stopped finishing lessons." (json_dumps (sort_keys (JObj (context_payload c)))) &&
              (student_id_for_gateway c == Some 2)
   | inl _ => false
   end) = true ∧
  returned (fst (resolve_context 3 (Some 2) noted_db)) = true.
Proof. vm_compute. done. Qed.
