(* ===== verification/Mastery.v ===== *)
(** * What a learner knows of a concept

    [src/nevo/mastery/]: the tracing of knowledge from answers ([engine.py]),
    the operations of the repository on [StudentConceptMastery] and the service
    over both. Probabilities and weights are floats. *)

From Stdlib Require Import Ascii String SpecFloat.
From S2P Require Import Prelude Floats Relational Upsert Text Vocabulary Schema AgeBands Json.

Local Open Scope string_scope.
Local Open Scope Z_scope.
Local Open Scope nevo_scope.

(** The keys of a dict built from a sequence: each where it came first. *)
Fixpoint dedup_keys {K} `{EqDecision K} (ks : list K) : list K :=
  match ks with [] => [] | k :: ks' => k :: filterb (λ k', k' != k) (dedup_keys ks') end.

(** ** Entities *)

Record BaselineMasterySeed := mkBaselineMasterySeed {
  seed_concept_probability : float; seed_reading_probability : float; seed_source : string
}.

Record MasteryState := mkMasteryState {
  ms_student_id : uuid; ms_concept_id : uuid; ms_concept_name : option string;
  ms_concept : float; ms_reading : float; ms_attention_weights : list (uuid * float);
  ms_guess : float; ms_slip : float; ms_practice_count : Z; ms_last_response_correct : option bool;
  ms_last_failure_attribution : FailureAttribution; ms_seeding_source : string; ms_transition : float;
  ms_model_version : string
}.

Record MasteryUpdate := mkMasteryUpdate {
  mu_student_id : uuid; mu_concept_id : uuid; mu_response_correct : bool; mu_item_text_density : float;
  mu_related_concept_ids : list uuid; mu_response_time_ms : option Z; mu_minimum_response_time_ms : Z; mu_hint_count : Z
}.

Record MasteryUpdateResult := mkMasteryUpdateResult {
  mr_state : MasteryState; mr_attention_transfer : float; mr_recommended_modality_shift : bool
}.

Record ConceptMasteryAggregate := mkConceptMasteryAggregate {
  cma_concept_id : uuid; cma_concept_name : string; cma_student_count : Z; cma_concept : float; cma_reading : float
}.

(** ** The engine *)

Definition DEFAULT_GUESS_PROBABILITY : float := f_ratio 2 10.
Definition DEFAULT_SLIP_PROBABILITY : float := f_ratio 1 10.
Definition BASELINE_CONCEPT_CAP : float := f_ratio 7 10.
Definition TEXT_HEAVY_THRESHOLD : float := f_ratio 65 100.
Definition LOW_READING_THRESHOLD : float := f_ratio 45 100.
Definition BORDERLINE_READING_THRESHOLD : float := f_ratio 6 10.
Definition READING_LEARNING_RATE : float := f_ratio 10 100.
Definition NEGATIVE_READING_RATE : float := f_ratio 12 100.
Definition TRANSFER_RATE : float := f_ratio 8 100.
Definition ATTENTION_LEARNING_RATE : float := f_ratio 4 100.
Definition DEFAULT_TRANSITION : float := f_ratio 16 100.
Definition MODEL_VERSION : string := "bkt_reading_v2".

Definition clamp (value : float) : float := f_min f_one (f_max f_zero value).

Definition bkt_update (prior : float) (correct : bool) (guess slip transition : float) : float :=
  let prior := clamp prior in
  let guess := clamp guess in
  let slip := clamp slip in
  let transition := clamp transition in
  let known := (prior * (if correct then f_one - slip else slip))%F in
  let unknown := ((f_one - prior) * (if correct then guess else f_one - guess))%F in
  let posterior := default prior (f_div known (known + unknown)%F) in
  clamp (posterior + (f_one - posterior) * transition)%F.

Definition exponential_increase (probability rate : float) : float := (probability + (f_one - probability) * rate)%F.
Definition exponential_decrease (probability rate : float) : float := (probability * (f_one - rate))%F.

Definition uniform_attention (related_concept_ids : list uuid) : list (uuid * float) :=
  map (λ i, (i, f_quot f_one (f_of_Z (Z.of_nat (length related_concept_ids))))) (dedup_keys related_concept_ids).

(** [d.get(key, default)] *)
Definition weight_of (d : float) (i : uuid) (weights : list (uuid * float)) : float :=
  match findb (λ w, fst w == i) weights with Some w => snd w | None => d end.

Definition attention_transfer (attention_weights related_mastery : list (uuid * float)) : float :=
  if (attention_weights == []) || (related_mastery == []) then f_zero
  else clamp (foldl (λ transfer '(i, mastery), (transfer + weight_of f_zero i attention_weights * mastery)%F) f_zero related_mastery).

(** The weights before they are divided by their sum. *)
Definition moved_weights (current related_mastery : list (uuid * float)) (response_correct : bool) : list (uuid * float) :=
  let direction := f_of_Z (if response_correct then 1 else -1) in
  map (λ '(i, weight),
    (i, f_max (f_ratio 1 1000)
          (weight + direction * ATTENTION_LEARNING_RATE * (weight_of (f_ratio 1 2) i related_mastery - f_ratio 1 2))%F)) current.

(** [None] is the [ZeroDivisionError] of a sum of zero. *)
Definition updated_attention_weights (current related_mastery : list (uuid * float)) (response_correct : bool)
  : option (list (uuid * float)) :=
  let current := if (current == []) && (related_mastery != []) then uniform_attention (map fst related_mastery) else current in
  if current == [] then Some []
  else
    let updated := moved_weights current related_mastery response_correct in
    let total := f_sum (map snd updated) in
    if f_truthy total then Some (map (λ '(i, value), (i, f_quot value total)) updated) else None.

Definition failure_attribution (reading_probability item_text_density : float) : FailureAttribution :=
  if (reading_probability <? LOW_READING_THRESHOLD)%F && (TEXT_HEAVY_THRESHOLD <=? item_text_density)%F then FAILED_READING
  else if (reading_probability <? BORDERLINE_READING_THRESHOLD)%F && (f_ratio 45 100 <=? item_text_density)%F then FAILED_MIXED
  else FAILED_CONCEPT.

Definition initial_state (student_id concept_id : uuid) (seed : BaselineMasterySeed) (related_concept_ids : list uuid)
  : MasteryState :=
  mkMasteryState student_id concept_id None (clamp (f_min (seed_concept_probability seed) BASELINE_CONCEPT_CAP))
    (clamp (seed_reading_probability seed)) (uniform_attention related_concept_ids) DEFAULT_GUESS_PROBABILITY
    DEFAULT_SLIP_PROBABILITY 0 None FAILED_NONE (seed_source seed) DEFAULT_TRANSITION MODEL_VERSION.

(** A correct answer that is no evidence: with a hint, or too quick to have
    read the question. *)
Definition unsupported_recall (i : MasteryUpdate) : bool :=
  mu_response_correct i &&
  ((0 <? mu_hint_count i) ||
   ((0 <? mu_minimum_response_time_ms i) &&
    match mu_response_time_ms i with None => true | Some ms => ms <? mu_minimum_response_time_ms i end)).

(** The two probabilities after an answer, and what a wrong one is put down
    to. *)
Definition traced (state : MasteryState) (interaction : MasteryUpdate) (concept : float)
  : float * float * FailureAttribution :=
  let reading := ms_reading state in
  let density := mu_item_text_density interaction in
  let bkt correct := bkt_update concept correct (ms_guess state) (ms_slip state) (ms_transition state) in
  if mu_response_correct interaction then
    (bkt true,
     if (TEXT_HEAVY_THRESHOLD <=? density)%F then exponential_increase reading READING_LEARNING_RATE else reading,
     FAILED_NONE)
  else
    let attribution := failure_attribution reading density in
    match attribution with
    | FAILED_READING => (concept, exponential_decrease reading (NEGATIVE_READING_RATE * density)%F, attribution)
    | FAILED_CONCEPT => (bkt false, reading, attribution)
    | _ => ((concept + (bkt false - concept) * (f_one - density))%F,
            exponential_decrease reading (NEGATIVE_READING_RATE * density)%F, attribution)
    end.

(** [HybridAktMasteryEngine.update] *)
Definition engine_update (state : MasteryState) (interaction : MasteryUpdate) (related_mastery : list (uuid * float))
  : option MasteryUpdateResult :=
  if unsupported_recall interaction then Some (mkMasteryUpdateResult state f_zero false)
  else
    let transfer := attention_transfer (ms_attention_weights state) related_mastery in
    let concept := clamp (ms_concept state + (f_one - ms_concept state) * transfer * TRANSFER_RATE)%F in
    let '(concept, reading, attribution) := traced state interaction concept in
    attention_weights ← updated_attention_weights (ms_attention_weights state) related_mastery (mu_response_correct interaction);
    Some (mkMasteryUpdateResult
      (mkMasteryState (ms_student_id state) (ms_concept_id state) (ms_concept_name state) (clamp concept) (clamp reading)
         attention_weights (ms_guess state) (ms_slip state) (ms_practice_count state + 1)
         (Some (mu_response_correct interaction)) attribution (ms_seeding_source state) (ms_transition state) MODEL_VERSION)
      (f_round 6 transfer)
      (match attribution with FAILED_READING | FAILED_MIXED => true | _ => false end)).

(** ** Seeds *)

Definition concept_seed_from_theta (theta_domain : option float) : float :=
  match theta_domain with
  | None => f_ratio 15 100
  | Some theta =>
    let normalized := clamp (f_quot (theta + f_of_Z 3)%F (f_of_Z 6)) in
    f_min BASELINE_CONCEPT_CAP (f_ratio 5 100 + normalized * f_ratio 55 100)%F
  end.

Definition EXPECTED_WPM (band : AgeBand) : float :=
  f_of_Z match band with
         | EARLY_PRIMARY => 70 | UPPER_PRIMARY => 110 | JUNIOR_SECONDARY => 140 | SENIOR_SECONDARY => 165
         end.
Definition DEFAULT_EXPECTED_WPM : float := f_of_Z 120.

(** [coerce_band] is asked without a date of birth, so the day does not
    matter. *)
Definition expected_wpm (age_band : option string) : float :=
  match coerce_band age_band None (mkDate 1970 1 1) with Some band => EXPECTED_WPM band | None => DEFAULT_EXPECTED_WPM end.

Definition reading_seed_from_wpm (reading_wpm : option float) (age_band : option string) : float :=
  match reading_wpm with None => f_ratio 1 2 | Some wpm => clamp (f_quot wpm (expected_wpm age_band)) end.

(** ** The repository *)

Definition fallback_concept_name (i : uuid) : string := "Concept " ++ take_string 8 (uuid_str i).

(** [concept_name or _fallback_concept_name(...)] *)
Definition name_or_fallback (name : option string) (i : uuid) : string := opt_str_or name (fallback_concept_name i).

Definition state_from_record (r : StudentConceptMastery) (concept_name : option string) : MasteryState :=
  mkMasteryState (scm_student_id r) (scm_concept_id r) (Some (name_or_fallback concept_name (scm_concept_id r)))
    (scm_mastery_probability_concept r) (scm_mastery_probability_reading r) (scm_attention_weights r)
    (scm_guess_probability r) (scm_slip_probability r) (scm_practice_count r) (scm_last_response_correct r)
    (scm_last_failure_attribution r) (scm_seeding_source r) (scm_transition_probability r) (scm_model_version r).

Definition mastery_of (student_id concept_id : uuid) (r : StudentConceptMastery) : bool :=
  (scm_student_id r == student_id) && (scm_concept_id r == concept_id).

(** [state] *)
Definition stored_state (student_id concept_id : uuid) : M (option MasteryState) :=
  record ← scalar StudentConceptMasteries (mastery_of student_id concept_id);
  mret ((λ r, state_from_record r None) <$> (record : option StudentConceptMastery)).

(** [_float_or_none]: a value that is no number reads as none; a number that
    is too large is an exception. *)
Definition float_or_none (j : Json) : M (option float) :=
  match j with
  | JNull => mret None
  | _ => match json_float j with
         | inr x => mret (Some x)
         | inl OverflowError => raise OverflowError
         | inl _ => mret None
         end
  end.

(** [baseline_seed] *)
Definition baseline_seed (student_id : uuid) : M BaselineMasterySeed :=
  user ← scalar Users (λ u, (user_id u == student_id) && (user_status u != DEACTIVATED));
  match (user_baseline_profile <$> (user : option User)) with
  | Some (JObj payload) =>
    theta_domain ← float_or_none (field "theta_domain" payload);
    reading_wpm ← float_or_none (field "reading_wpm" payload);
    let age_band := field "age_band" payload in
    mret (mkBaselineMasterySeed (concept_seed_from_theta theta_domain)
            (reading_seed_from_wpm reading_wpm (if json_truthy age_band then Some (json_str age_band) else None))
            "baseline_profile")
  | _ => mret (mkBaselineMasterySeed (concept_seed_from_theta None) (reading_seed_from_wpm None None)
                 "default_until_scrum_104")
  end.

(** [related_mastery] *)
Definition related_mastery (student_id : uuid) (concept_ids : list uuid) : M (list (uuid * float)) :=
  if concept_ids == [] then mret []
  else
    found ← select StudentConceptMasteries (λ r, (scm_student_id r == student_id) && bool_decide (scm_concept_id r ∈ concept_ids));
    mret (map (λ r, (scm_concept_id r, scm_mastery_probability_concept r)) (found : list StudentConceptMastery)).

(** The row of a state, under an identifier and at a moment. *)
Definition record_of (i : uuid) (now : datetime) (s : MasteryState) : StudentConceptMastery :=
  mkStudentConceptMastery i (ms_student_id s) (ms_concept_id s) (ms_concept s) (ms_reading s) (ms_attention_weights s)
    (ms_guess s) (ms_slip s) (ms_practice_count s) (ms_last_response_correct s) (ms_last_failure_attribution s)
    (ms_seeding_source s) (ms_transition s) (ms_model_version s) now.

(** [save] *)
Definition save_state (s : MasteryState) : M MasteryState :=
  now ← func_now;
  begin_ (upsert StudentConceptMasteries (mastery_of (ms_student_id s) (ms_concept_id s)) (λ i, record_of i now s));;
  mret s.

Definition by_concept (a b : StudentConceptMastery) : bool := scm_concept_id a <=? scm_concept_id b.

(** [student_mastery] *)
Definition student_mastery (student_id : uuid) : M (list MasteryState) :=
  found ← select StudentConceptMasteries (λ r, scm_student_id r == student_id);
  concepts ← rows Concepts;
  mret (map (λ r, state_from_record r (concept_name <$> findb (λ c, concept_id c == scm_concept_id r) concepts))
          (order_by by_concept (found : list StudentConceptMastery))).

(** [avg] over the floats of a group, summed in the order of the rows. *)
Definition f_avg (xs : list float) : float := f_quot (foldl f_add f_zero xs) (f_of_Z (Z.of_nat (length xs))).

(** [GROUP BY concept_id, name]: the keys, each with its rows. *)
Definition concept_groups (found : list (StudentConceptMastery * option string))
  : list (uuid * option string * list StudentConceptMastery) :=
  map (λ k, (k, map fst (filterb (λ r, (scm_concept_id r.1, r.2) == k) found)))
    (dedup_keys (map (λ r, (scm_concept_id r.1, r.2)) found)).

(** [ORDER BY name, concept_id]; concepts without a name come last. *)
Definition by_concept_name (a b : uuid * option string * list StudentConceptMastery) : bool :=
  match a.1.2, b.1.2 with
  | Some m, Some n => if m == n then a.1.1 <=? b.1.1 else text_le m n
  | Some _, None => true
  | None, Some _ => false
  | None, None => a.1.1 <=? b.1.1
  end.

(** [_aggregate_from_row] *)
Definition aggregate_of (g : uuid * option string * list StudentConceptMastery) : ConceptMasteryAggregate :=
  let '((i, name), members) := g in
  mkConceptMasteryAggregate i (name_or_fallback name i) (Z.of_nat (length members))
    (f_round 6 (f_avg (map scm_mastery_probability_concept members)))
    (f_round 6 (f_avg (map scm_mastery_probability_reading members))).

Definition aggregated (found : list StudentConceptMastery) (concepts : list Concept) : list ConceptMasteryAggregate :=
  map aggregate_of (order_by by_concept_name (concept_groups
    (map (λ r, (r, concept_name <$> findb (λ c, concept_id c == scm_concept_id r) concepts)) found))).

(** [class_mastery]: the rows of the learners enrolled. *)
Definition class_mastery (i : uuid) : M (list ConceptMasteryAggregate) :=
  school_class ← get Classes i;
  if is_none (school_class : option Class_) then mret []
  else
    found ← rows StudentConceptMasteries;
    enrollments ← rows StudentClassEnrollments;
    concepts ← rows Concepts;
    mret (aggregated
      (flat_map (λ r, map (λ _, r)
         (filterb (λ e, (enrollment_student_id e == scm_student_id r) && (enrollment_class_id e == i)) enrollments)) found) concepts).

(** [school_mastery]: the rows of the users of a school. *)
Definition school_mastery (i : uuid) : M (list ConceptMasteryAggregate) :=
  found ← rows StudentConceptMasteries;
  users ← rows Users;
  concepts ← rows Concepts;
  mret (aggregated
    (flat_map (λ r, map (λ _, r) (filterb (λ u, (user_id u == scm_student_id r) && (user_school_id u == Some i)) users)) found) concepts).

(** ** The service *)

(** [MasteryService.update] *)
Definition update (interaction : MasteryUpdate) : M MasteryUpdateResult :=
  stored ← stored_state (mu_student_id interaction) (mu_concept_id interaction);
  state ← match stored with
    | Some s => mret s
    | None =>
      seed ← baseline_seed (mu_student_id interaction);
      mret (initial_state (mu_student_id interaction) (mu_concept_id interaction) seed (mu_related_concept_ids interaction))
    end;
  related ← related_mastery (mu_student_id interaction) (mu_related_concept_ids interaction);
  match engine_update state interaction related with
  | None => raise ZeroDivisionError
  | Some result => save_state (mr_state result);; mret result
  end.

(** ** A learner's first answers *)

Example traced_answers :
  let seed := mkBaselineMasterySeed (concept_seed_from_theta (Some f_zero)) (reading_seed_from_wpm (Some (f_of_Z 55)) (Some "Upper_Primary")) "baseline_profile" in
  let s := initial_state 1 2 seed [] in
  let answer correct hints density := mkMasteryUpdate 1 2 correct density [] (Some 9000) 3000 hints in
  let after i := (λ r, (f_round 4 (ms_concept (mr_state r)), f_round 4 (ms_reading (mr_state r)),
                        ms_last_failure_attribution (mr_state r), ms_practice_count (mr_state r))) <$> engine_update s i [] in
  (ms_concept s, ms_reading s) = (f_ratio 325 1000, f_ratio 1 2) ∧
  after (answer true 0 f_zero) = Some (f_ratio 7347 10000, f_ratio 1 2, FAILED_NONE, 1) ∧
  after (answer true 1 f_zero) = Some (f_ratio 325 1000, f_ratio 1 2, FAILED_NONE, 0) ∧
  after (answer false 0 (f_ratio 7 10)) = Some (f_ratio 2898 10000, f_ratio 458 1000, FAILED_MIXED, 1) ∧
  after (answer false 0 (f_ratio 1 10)) = Some (f_ratio 2077 10000, f_ratio 1 2, FAILED_CONCEPT, 1).
Proof. vm_compute. done. Qed.

(** * Facts about mastery

    Probabilities stay between zero and one whatever floats go in, so that
    every answer can be recorded; and what recording one does. *)

(** ** Comparisons of floats *)

Lemma f_lt_le a b : f_lt a b = true → f_le a b = true.
Proof. unfold f_lt, f_le, SFltb, SFleb. by destruct (SFcompare a b) as [[]|]. Qed.

(** [clamp] gives a probability for every float, infinities and NaN
    included. *)
Lemma clamp_cases x : clamp x = f_zero ∨ clamp x = f_one ∨ (clamp x = x ∧ f_lt f_zero x = true ∧ f_lt x f_one = true).
Proof.
  unfold clamp, f_min, f_max. destruct (f_lt f_zero x) eqn:H0.
  - destruct (f_lt x f_one) eqn:H1; auto.
  - by left.
Qed.

Lemma clamp_probability x : probability (clamp x) = true.
Proof.
  unfold probability. destruct (clamp_cases x) as [->|[->|(-> & H0 & H1)]]; [done|done|].
  by rewrite !f_lt_le.
Qed.

(** ** States *)

(** What the constraints ask of the row of a state. *)
Definition state_ok (s : MasteryState) : Prop :=
  probability (ms_concept s) = true ∧ probability (ms_reading s) = true ∧ probability (ms_guess s) = true ∧
  probability (ms_slip s) = true ∧ probability (ms_transition s) = true ∧ 0 <= ms_practice_count s.

Lemma mastery_row_state i now s : mastery_row_ok (record_of i now s) = true ↔ state_ok s.
Proof. unfold mastery_row_ok, state_ok. cbn. rewrite !andb_true_iff, Z.leb_le. tauto. Qed.

Lemma stored_state_ok r name : mastery_row_ok r = true → state_ok (state_from_record r name).
Proof. unfold mastery_row_ok, state_ok. cbn. rewrite !andb_true_iff, Z.leb_le. tauto. Qed.

Lemma initial_state_ok student concept seed related : state_ok (initial_state student concept seed related).
Proof. unfold state_ok. cbn. rewrite !clamp_probability. done. Qed.

(** An answer that is no evidence leaves a state as it is; any other counts
    once and is traced between zero and one. *)
Lemma engine_update_spec s i related r :
  engine_update s i related = Some r →
  if unsupported_recall i then r = mkMasteryUpdateResult s f_zero false
  else
    ms_practice_count (mr_state r) = ms_practice_count s + 1 ∧
    probability (ms_concept (mr_state r)) = true ∧ probability (ms_reading (mr_state r)) = true ∧
    ms_last_response_correct (mr_state r) = Some (mu_response_correct i) ∧
    (mu_response_correct i = true → ms_last_failure_attribution (mr_state r) = FAILED_NONE) ∧
    (mu_response_correct i = false →
       ms_last_failure_attribution (mr_state r) = failure_attribution (ms_reading s) (mu_item_text_density i)) ∧
    ms_student_id (mr_state r) = ms_student_id s ∧ ms_concept_id (mr_state r) = ms_concept_id s ∧
    ms_guess (mr_state r) = ms_guess s ∧ ms_slip (mr_state r) = ms_slip s ∧ ms_transition (mr_state r) = ms_transition s.
Proof.
  unfold engine_update. destruct (unsupported_recall i); [by intros [= <-]|].
  destruct (traced s i _) as [[concept reading] attribution] eqn:Ht. cbv zeta beta.
  destruct (updated_attention_weights _ _ _) as [weights|]; [|done]. cbn. intros [= <-]. cbn.
  rewrite !clamp_probability. unfold traced in Ht. split_and!; try done.
  - intros Hc. rewrite Hc in Ht. congruence.
  - intros Hc. rewrite Hc in Ht. by destruct (failure_attribution _ _); simplify_eq.
Qed.

Lemma engine_update_ok s i related r : state_ok s → engine_update s i related = Some r → state_ok (mr_state r).
Proof.
  intros Hs Hr. pose proof (engine_update_spec s i related r Hr) as Hspec.
  destruct (unsupported_recall i); [by subst|].
  destruct Hspec as (Hn & Hc & Hd & _ & _ & _ & _ & _ & Hg & Hsl & Ht). unfold state_ok in *.
  rewrite Hn, Hg, Hsl, Ht. destruct Hs as (_ & _ & ? & ? & ? & ?). split_and!; try done. lia.
Qed.

(** ** The repository *)

Lemma mastery_key student concept r :
  mastery_of student concept r = true ↔ Some (scm_student_id r, scm_concept_id r) = Some (student, concept).
Proof. unfold mastery_of. rewrite andb_true_iff, !bool_decide_eq_true. naive_solver. Qed.

Lemma save_state_run s (db : Database) :
  db_wf db → state_ok s →
  ∃ i db', save_state s db = (inr s, db') ∧ db_wf db' ∧
    findb (mastery_of (ms_student_id s) (ms_concept_id s)) (db_tables db' StudentConceptMasteries)
      = Some (record_of i (db_now db) s) ∧
    filterb (λ r, negb (mastery_of (ms_student_id s) (ms_concept_id s) r)) (db_tables db' StudentConceptMasteries) =
      filterb (λ r, negb (mastery_of (ms_student_id s) (ms_concept_id s) r)) (db_tables db StudentConceptMasteries) ∧
    ∀ t, t ≠ StudentConceptMasteries → db_tables db' t = db_tables db t.
Proof.
  intros Hwf Hs. unfold save_state. erewrite bind_inr by reflexivity.
  edestruct (upsert_run (H := nevo_schema) (E := exn) StudentConceptMasteries
    (λ r : StudentConceptMastery, Some (scm_student_id r, scm_concept_id r)) mastery_row_ok) with (p := mastery_of (ms_student_id s) (ms_concept_id s)) (mk := λ i, record_of i (db_now db) s)
    (e := IntegrityError) (db := db) as (i & db' & Hrun & Hwf' & Hnew & Hrest & _ & Hframe & _).
  - intros l. reflexivity.
  - intros r. apply mastery_key.
  - done.
  - intros i. by apply mastery_key.
  - intros i. by apply mastery_row_state.
  - done.
  - exists i, db'. unfold begin_. rewrite (bind_inr _ _ _ _ _ Hrun). by split_and!.
Qed.

(** What is known of a learner and a concept before an answer: the stored
    state, or the first one, from the seed. *)
Definition state_before (student concept : uuid) (related : list uuid) : M MasteryState :=
  stored ← stored_state student concept;
  match stored with
  | Some s => mret s
  | None => seed ← baseline_seed student; mret (initial_state student concept seed related)
  end.

(** A whole number that is too large for a float. *)
Definition too_large (j : Json) : Prop := ∃ z, j = JInt z ∧ f_finite (f_of_Z z) = false.

(** The baseline profile of the learner holds one where the seed reads it. *)
Definition baseline_too_large (student : uuid) (db : Database) : Prop :=
  ∃ u payload key, u ∈ db_tables db Users ∧ user_id u = student ∧ user_status u ≠ DEACTIVATED ∧
    user_baseline_profile u = JObj payload ∧ key ∈ ["theta_domain"; "reading_wpm"] ∧ too_large (field key payload).

Lemma float_or_none_reads j (db : Database) :
  ∃ r, float_or_none j db = (r, db) ∧ ∀ e, r = inl e → e = OverflowError ∧ too_large j.
Proof.
  assert (snd (float_or_none j db) = db ∧ ∀ e, fst (float_or_none j db) = inl e → e = OverflowError ∧ too_large j) as [Hs He].
  { unfold float_or_none. destruct j as [| |z| | | |]; cbn; [done|done| |done|by repeat case_match; cbn; split|done|done].
    destruct (f_finite (f_of_Z z)) eqn:Hz; [done|]. split; [done|]. intros e [= <-]. split; [done|]. by exists z. }
  exists (fst (float_or_none j db)). split; [|done]. destruct (float_or_none j db); simpl in *; congruence.
Qed.

Lemma baseline_seed_reads student (db : Database) :
  ∃ r, baseline_seed student db = (r, db) ∧ ∀ e, r = inl e → e = OverflowError ∧ baseline_too_large student db.
Proof.
  unfold baseline_seed. erewrite bind_inr by reflexivity.
  destruct (findb _ _) as [u|] eqn:Hu; [|by (eexists; split; [reflexivity|done])].
  apply findb_Some in Hu as [[Hid Hstatus]%andb_prop Hu]. apply bool_decide_eq_true in Hid.
  apply negb_true_iff, bool_decide_eq_false in Hstatus. cbn [fmap option_fmap option_map].
  match goal with |- context [match ?x with JObj _ => _ | _ => _ end] => destruct x as [| | | | | |payload] eqn:Hp end;
    try by (eexists; split; [reflexivity|done]).
  destruct (float_or_none_reads (field "theta_domain" payload) db) as ([e|theta] & Ht & He).
  { exists (inl e). rewrite (bind_inl _ _ _ _ _ Ht). split; [done|]. intros ? [= <-]. destruct (He e eq_refl) as [-> Hlarge].
    split; [done|]. exists u, payload, "theta_domain". split_and!; try done. left. }
  rewrite (bind_inr _ _ _ _ _ Ht).
  destruct (float_or_none_reads (field "reading_wpm" payload) db) as ([e|wpm] & Hw & He').
  { exists (inl e). rewrite (bind_inl _ _ _ _ _ Hw). split; [done|]. intros ? [= <-]. destruct (He' e eq_refl) as [-> Hlarge].
    split; [done|]. exists u, payload, "reading_wpm". split_and!; try done. right. left. }
  rewrite (bind_inr _ _ _ _ _ Hw). by eexists.
Qed.

Lemma state_before_spec student concept related (db : Database) :
  db_wf db →
  ∃ r, state_before student concept related db = (r, db) ∧
    (∀ e, r = inl e → e = OverflowError ∧ baseline_too_large student db ∧
       ∀ row : StudentConceptMastery, row ∈ db_tables db StudentConceptMasteries → mastery_of student concept row = false) ∧
    (∀ s, r = inr s → state_ok s ∧ ms_student_id s = student ∧ ms_concept_id s = concept).
Proof.
  intros [Hok _]. unfold state_before. erewrite bind_inr by reflexivity.
  destruct (findb _ _) as [rec|] eqn:Hr; cbn.
  - eexists. split; [reflexivity|]. split; [done|]. intros s [= <-].
    apply findb_Some in Hr as [[= <- <-]%mastery_key Hin]. split; [|done]. apply stored_state_ok.
    apply db_ok_spec with (t := StudentConceptMasteries) in Hok. apply andb_prop in Hok as [[_ Hrows]%andb_prop _].
    rewrite forallb_forall in Hrows. apply Hrows. by apply list_elem_of_In.
  - destruct (baseline_seed_reads student db) as ([e|seed] & Hs & He).
    + exists (inl e). rewrite (bind_inl _ _ _ _ _ Hs). split_and!; [done| |done]. intros ? [= <-].
      destruct (He e eq_refl) as [-> Hlarge]. split; [done|]. split; [done|]. by apply findb_None.
    + exists (inr (initial_state student concept seed related)). rewrite (bind_inr _ _ _ _ _ Hs).
      split_and!; [done..|]. intros s [= <-]. split; [apply initial_state_ok|done].
Qed.

Lemma related_mastery_reads student ids (db : Database) : ∃ l, related_mastery student ids db = (inr l, db).
Proof. unfold related_mastery. case_match; by eexists. Qed.

(** When the engine raises: weights of at least a thousandth that add up to
    zero. *)
Lemma engine_update_none s i related :
  engine_update s i related = None →
  unsupported_recall i = false ∧ ∃ weights, weights ≠ [] ∧ (∀ w, w ∈ weights → f_le (f_ratio 1 1000) w = true) ∧
    f_truthy (f_sum weights) = false.
Proof.
  unfold engine_update. destruct (unsupported_recall i); [done|]. destruct (traced s i _) as [[concept reading] attribution]. cbv zeta beta.
  destruct (updated_attention_weights _ _ _) as [weights|] eqn:Hw; [done|]. intros _. split; [done|].
  unfold updated_attention_weights in Hw. cbv zeta in Hw. set (current := if _ && _ then _ else _) in Hw.
  destruct (current == []) eqn:Hc; [done|]. apply bool_decide_eq_false in Hc.
  destruct (f_truthy _) eqn:Ht; [done|]. exists (map snd (moved_weights current related (mu_response_correct i))). split_and!; [|  |done].
  - intros Hnil. apply Hc. unfold moved_weights in Hnil. by destruct current as [|[k w] current].
  - intros w (kw & -> & Hin)%list_elem_of_fmap. unfold moved_weights in Hin. apply list_elem_of_fmap in Hin as ([k x] & -> & _).
    cbn [snd]. unfold f_max. destruct (f_lt (f_ratio 1 1000) _) eqn:Hlt; [by apply f_lt_le|by vm_compute].
Qed.

(** C23: every answer is recorded, and mastery stays a probability. Whatever the text density,
    the weights and the related concepts are, an answer leaves exactly one row for its learner
    and concept, which is what the engine makes of what was known before; nothing else
    changes. It raises in two cases only, and then nothing has changed: the first answer of a
    learner whose baseline profile holds a whole number too large for a float; and one that is
    evidence, with weights that are at least a thousandth each and yet add up to zero as
    floats. A correct answer with a hint, or quicker than the question can be read, changes
    neither the probabilities nor the count. *)
Theorem answers_are_recorded interaction (db : Database) :
  db_wf db →
  let student := mu_student_id interaction in
  let concept := mu_concept_id interaction in
  (∃ before related r i db',
     fst (state_before student concept (mu_related_concept_ids interaction) db) = inr before ∧
     fst (related_mastery student (mu_related_concept_ids interaction) db) = inr related ∧
     engine_update before interaction related = Some r ∧
     (if unsupported_recall interaction then mr_state r = before
      else ms_practice_count (mr_state r) = ms_practice_count before + 1) ∧
     update interaction db = (inr r, db') ∧ db_ok db' = true ∧
     findb (mastery_of student concept) (db_tables db' StudentConceptMasteries)
       = Some (record_of i (db_now db) (mr_state r)) ∧
     probability (ms_concept (mr_state r)) = true ∧ probability (ms_reading (mr_state r)) = true ∧
     filterb (λ r, negb (mastery_of student concept r)) (db_tables db' StudentConceptMasteries) =
       filterb (λ r, negb (mastery_of student concept r)) (db_tables db StudentConceptMasteries) ∧
     ∀ t, t ≠ StudentConceptMasteries → db_tables db' t = db_tables db t) ∨
  (update interaction db = (inl OverflowError, db) ∧ baseline_too_large student db ∧
     ∀ row : StudentConceptMastery, row ∈ db_tables db StudentConceptMasteries → mastery_of student concept row = false) ∨
  (update interaction db = (inl ZeroDivisionError, db) ∧ unsupported_recall interaction = false ∧
     ∃ weights, weights ≠ [] ∧ (∀ w, w ∈ weights → f_le (f_ratio 1 1000) w = true) ∧ f_truthy (f_sum weights) = false).
Proof.
  intros Hwf student concept.
  assert (∀ x, update interaction x = (state ← state_before student concept (mu_related_concept_ids interaction);
    related ← related_mastery student (mu_related_concept_ids interaction);
    match engine_update state interaction related with
    | None => raise ZeroDivisionError
    | Some result => save_state (mr_state result);; mret result
    end) x) as Hupdate by (intros x; unfold update, state_before; rewrite !bind_run; by destruct (stored_state _ _ x) as [[e|o] y]).
  rewrite !Hupdate.
  destruct (state_before_spec student concept (mu_related_concept_ids interaction) db Hwf) as ([e|before] & Hb & He & Hs).
  { right. left. rewrite (bind_inl _ _ _ _ _ Hb). destruct (He e eq_refl) as (-> & Hlarge & Hnone). done. }
  destruct (Hs before eq_refl) as (Hok & Hst & Hco). rewrite (bind_inr _ _ _ _ _ Hb).
  destruct (related_mastery_reads student (mu_related_concept_ids interaction) db) as (related & Hrel).
  rewrite (bind_inr _ _ _ _ _ Hrel).
  destruct (engine_update before interaction related) as [r|] eqn:Hr.
  - left. pose proof (engine_update_ok _ _ _ _ Hok Hr) as Hok'. pose proof (engine_update_spec _ _ _ _ Hr) as Hspec.
    assert (ms_student_id (mr_state r) = student ∧ ms_concept_id (mr_state r) = concept) as [Hst' Hco'].
    { destruct (unsupported_recall interaction); [by subst r|]. destruct Hspec as (_ & _ & _ & _ & _ & _ & -> & -> & _). done. }
    destruct (save_state_run (mr_state r) db Hwf Hok') as (i & db' & Hsave & Hwf' & Hrow & Hrest & Hframe).
    rewrite Hst', Hco' in Hrow, Hrest. exists before, related, r, i, db'. rewrite Hb, Hrel. split_and!; try done.
    + destruct (unsupported_recall interaction); [by rewrite Hspec|apply Hspec].
    + by rewrite (bind_inr _ _ _ _ _ Hsave).
    + apply Hwf'.
    + apply Hok'.
    + apply Hok'.
  - right. right. split; [done|]. by eapply engine_update_none.
Qed.
