(* ===== verification/Scheduler.v ===== *)
(** * When to see a concept again

    [src/nevo/scheduler/]: the intervals between reviews ([fsrs.py]), the
    operations on [StudentConceptScheduling] and the service. [pow] of the C
    library is a parameter; Python asks it here for powers of [-1.0] only, of
    numbers that are not less than one and of [0.85], where [**] raises
    nothing. *)

From Stdlib Require Import String SpecFloat.
From S2P Require Import Prelude Floats Relational Upsert Text Vocabulary Schema.

Local Open Scope string_scope.
Local Open Scope Z_scope.
Local Open Scope nevo_scope.

(** ** [timedelta(days=x)] and dates *)

Definition DAY : Z := days 1.

(** The whole microseconds of [x] days: those of the whole days, and the rest
    rounded to the nearest, a tie to the even one. *)
Definition float_days (x : float) : exn + timedelta :=
  match f_trunc x with
  | None => inl (match x with S754_nan => ValueError "cannot convert float NaN to integer" | _ => OverflowError end)
  | Some whole =>
    let rest := (f_of_Z DAY * (x - f_of_Z whole))%F in
    let us := whole * DAY + default 0 (f_trunc rest) in
    let us := match (rest - f_of_Z (default 0 (f_trunc rest)))%F with
              | S754_finite s m e => if e <? 0 then round_shift (Z.shiftl us (- e) + f_signed s (Z.pos m)) (- e) else us
              | _ => us
              end in
    if (-999999999 <=? us / DAY) && (us / DAY <=? 999999999) then inr us else inl OverflowError
  end.

(** The moments of the years 1 to 9999. *)
Definition MIN_DATETIME : datetime := days (-719162).
Definition MAX_DATETIME : datetime := days 2932897 - 1.

(** [moment + timedelta(days=x)] *)
Definition plus_days (moment : datetime) (x : float) : exn + datetime :=
  match float_days x with
  | inl e => inl e
  | inr delta =>
    let t := moment + delta in
    if (MIN_DATETIME <=? t) && (t <=? MAX_DATETIME) then inr t else inl OverflowError
  end.

(** [timedelta.total_seconds()] *)
Definition total_seconds (d : timedelta) : float := f_quot (f_of_Z d) (f_of_Z 1000000).

(** ** Entities *)

Record ConceptSchedule := mkConceptSchedule {
  cs_student_id : uuid; cs_concept_id : uuid; cs_stability : float; cs_difficulty : float;
  cs_retrievability : float; cs_last_review : datetime; cs_review_count : Z; cs_next_review_due : datetime;
  cs_lesson_id : option uuid
}.

(** ** The intervals *)

Definition FSRS_ALPHA : float := f_one.
Definition FSRS_BETA : float := f_one.
Definition REVIEW_THRESHOLD : float := f_ratio 85 100.
Definition INITIAL_SUCCESS_STABILITY_DAYS : float := f_of_Z 10.
Definition INITIAL_FAILURE_STABILITY_DAYS : float := f_of_Z 3.
Definition INITIAL_DIFFICULTY : float := f_of_Z 5.

(** The result of a call that may raise. *)
Definition lift {A} (r : exn + A) : M A := match r with inl e => raise e | inr a => mret a end.

Section Fsrs.
Context (pow : float → float → float).

Definition retrievability (elapsed_days stability : float) : float :=
  let stability := f_max stability (f_ratio 1 10) in
  let elapsed_days := f_max elapsed_days f_zero in
  pow (f_one + f_quot (FSRS_ALPHA * elapsed_days)%F stability)%F (SFopp FSRS_BETA).

Definition days_until_review_due (stability : float) : float :=
  let stability := f_max stability (f_ratio 1 10) in
  let threshold := f_min (f_max REVIEW_THRESHOLD (f_ratio 1 100)) (f_ratio 99 100) in
  let alpha := f_max FSRS_ALPHA (f_ratio 1 100) in
  let beta := f_max FSRS_BETA (f_ratio 1 100) in
  (f_quot stability alpha * (pow threshold (f_quot (f_of_Z (-1)) beta) - f_one))%F.

Definition next_review_due (reviewed_at : datetime) (stability : float) : exn + datetime :=
  plus_days reviewed_at (days_until_review_due stability).

(** [_schedule] *)
Definition schedule_of (student_id concept_id : uuid) (stability difficulty : float) (review_count : Z)
    (reviewed_at : datetime) : exn + ConceptSchedule :=
  let stability := f_round 6 (f_max stability (f_ratio 1 10)) in
  let difficulty := f_round 6 (f_min (f_max difficulty f_one) (f_of_Z 10)) in
  match next_review_due reviewed_at stability with
  | inl e => inl e
  | inr due => inr (mkConceptSchedule student_id concept_id stability difficulty f_one reviewed_at review_count due None)
  end.

Definition initial_schedule (student_id concept_id : uuid) (recall_successful : bool) (reviewed_at : datetime)
  : exn + ConceptSchedule :=
  schedule_of student_id concept_id
    (if recall_successful then INITIAL_SUCCESS_STABILITY_DAYS else INITIAL_FAILURE_STABILITY_DAYS)
    (if recall_successful then INITIAL_DIFFICULTY - f_ratio 1 2 else INITIAL_DIFFICULTY + f_one)%F 1 reviewed_at.

(** The stability and the difficulty after a review. *)
Definition reviewed (recall_successful : bool) (stability difficulty : float) : float * float :=
  if recall_successful then
    let stability_gain := (f_ratio 135 100 + f_max f_zero (f_of_Z 10 - difficulty) * f_ratio 5 100)%F in
    ((stability * stability_gain + f_one)%F, (difficulty - f_ratio 1 4)%F)
  else (f_max (f_ratio 1 2) (stability * f_ratio 55 100)%F, (difficulty + f_ratio 3 4)%F).

Definition update_schedule (current : ConceptSchedule) (recall_successful : bool) (reviewed_at : datetime)
  : exn + ConceptSchedule :=
  let '(stability, difficulty) := reviewed recall_successful (cs_stability current) (cs_difficulty current) in
  schedule_of (cs_student_id current) (cs_concept_id current) stability difficulty (cs_review_count current + 1) reviewed_at.

(** How much of a concept is left at a moment. *)
Definition left_at (now last_review : datetime) (stability : float) : float :=
  retrievability (f_quot (total_seconds (now - last_review)) (f_of_Z 86400)) stability.

Definition refresh_due_date (current : ConceptSchedule) (now : datetime) : exn + ConceptSchedule :=
  match next_review_due (cs_last_review current) (cs_stability current) with
  | inl e => inl e
  | inr due =>
    inr (mkConceptSchedule (cs_student_id current) (cs_concept_id current) (cs_stability current) (cs_difficulty current)
           (left_at now (cs_last_review current) (cs_stability current)) (cs_last_review current)
           (cs_review_count current) due None)
  end.

(** ** The repository *)

Definition schedule_from_record (r : StudentConceptScheduling) (now : datetime) (lesson_id : option uuid)
  : exn + ConceptSchedule :=
  refresh_due_date
    (mkConceptSchedule (scs_student_id r) (scs_concept_id r) (scs_stability r) (scs_difficulty r)
       (left_at now (scs_last_review r) (scs_stability r)) (scs_last_review r) (scs_review_count r)
       (scs_next_review_due r) lesson_id) now.

Definition schedule_key (student_id concept_id : uuid) (r : StudentConceptScheduling) : bool :=
  (scs_student_id r == student_id) && (scs_concept_id r == concept_id).

(** [schedule] *)
Definition schedule (student_id concept_id : uuid) (now : datetime) : M (option ConceptSchedule) :=
  record ← scalar StudentConceptSchedulings (schedule_key student_id concept_id);
  match (record : option StudentConceptScheduling) with
  | None => mret None
  | Some r => s ← lift (schedule_from_record r now None); mret (Some s)
  end.

Definition by_due (a b : StudentConceptScheduling) : bool := scs_next_review_due a <=? scs_next_review_due b.

(** [due_reviews] *)
Definition due_reviews (student_id : uuid) (now : datetime) : M (list ConceptSchedule) :=
  due ← select StudentConceptSchedulings (λ r, (scs_student_id r == student_id) && (scs_next_review_due r <=? now));
  concepts ← rows Concepts;
  map_each (order_by by_due (due : list StudentConceptScheduling))
    (λ r, lift (schedule_from_record r now (findb (λ c, concept_id c == scs_concept_id r) concepts ≫= concept_lesson_id))).

Definition scheduling_row (s : ConceptSchedule) (i : uuid) : StudentConceptScheduling :=
  mkStudentConceptScheduling i (cs_student_id s) (cs_concept_id s) (cs_stability s) (cs_difficulty s) (cs_last_review s)
    (cs_review_count s) (cs_next_review_due s).

(** [save] *)
Definition save_schedule (s : ConceptSchedule) : M ConceptSchedule :=
  begin_ (upsert StudentConceptSchedulings (schedule_key (cs_student_id s) (cs_concept_id s)) (scheduling_row s));;
  mret s.

Definition by_learner (a b : StudentConceptScheduling) : bool :=
  if scs_student_id a == scs_student_id b then scs_concept_id a <=? scs_concept_id b
  else scs_student_id a <=? scs_student_id b.

(** [all_schedules] *)
Definition all_schedules (now : datetime) : M (list ConceptSchedule) :=
  all ← rows StudentConceptSchedulings;
  map_each (order_by by_learner (all : list StudentConceptScheduling)) (λ r, lift (schedule_from_record r now None)).

(** ** The service *)

Record ReviewResult := mkReviewResult { rr_schedule : ConceptSchedule; rr_recall_successful : bool }.

(** [record_review] *)
Definition record_review (student_id concept_id : uuid) (recall_successful : bool) (now : datetime) : M ReviewResult :=
  current ← schedule student_id concept_id now;
  s ← lift match current with
      | None => initial_schedule student_id concept_id recall_successful now
      | Some current => update_schedule current recall_successful now
      end;
  save_schedule s;;
  mret (mkReviewResult s recall_successful).

(** [refresh_all_due_dates] *)
Definition refresh_all_due_dates (now : datetime) : M (list ConceptSchedule) :=
  schedules ← all_schedules now;
  map_each schedules save_schedule.
End Fsrs.

Example float_days_examples :
  map float_days [f_ratio 1 2; (f_ratio 1 10 + f_ratio 2 10)%F; f_ratio (-1) 4; f_quot f_one (f_of_Z (2 * DAY)); f_of_Z (10 ^ 9); S754_nan]
  = [inr (hours 12); inr (minutes 432); inr (hours (-6)); inr 0; inl OverflowError;
     inl (ValueError "cannot convert float NaN to integer")].
Proof. vm_compute. done. Qed.

(** * Facts about reviews

    Difficulties move in quarter steps between one and ten, a review leaves one
    row for its learner and concept, and a concept recalled often enough can no
    longer be reviewed. *)

(** ** Difficulties *)

Definition quarter_steps : list float := map (λ k, f_ratio (Z.of_nat k) 4) (seq 4 37).

Definition clamped_difficulty (d : float) : float := f_round 6 (f_min (f_max d f_one) (f_of_Z 10)).

(** One review moves a difficulty from a quarter step to one, and the first
    one begins on one. *)
Lemma steps_closed :
  forallb (λ d, forallb (λ ok, bool_decide (clamped_difficulty (snd (reviewed ok f_one d)) ∈ quarter_steps)) [true; false])
    quarter_steps = true.
Proof. vm_compute. done. Qed.

Lemma reviewed_step ok stability d :
  d ∈ quarter_steps → clamped_difficulty (snd (reviewed ok stability d)) ∈ quarter_steps.
Proof.
  intros Hd. pose proof steps_closed as Hall. rewrite forallb_forall in Hall.
  specialize (Hall d (proj1 (list_elem_of_In _ _) Hd)). rewrite forallb_forall in Hall.
  specialize (Hall ok ltac:(destruct ok; simpl; auto)). apply bool_decide_eq_true in Hall. by destruct ok.
Qed.

Lemma steps_in_range d : d ∈ quarter_steps → f_le f_one d = true ∧ f_le d (f_of_Z 10) = true.
Proof.
  assert (forallb (λ d, f_le f_one d && f_le d (f_of_Z 10)) quarter_steps = true) as Hall by (vm_compute; done).
  rewrite forallb_forall in Hall. intros Hd%list_elem_of_In. by apply andb_prop, Hall.
Qed.

(** ** Schedules *)

Lemma lift_run {A} (r : exn + A) (db : Database) : lift r db = (r, db).
Proof. by destruct r. Qed.

Section Facts.
Context (pow : float → float → float).

(** The moment a review at [moment] would be due again is none of the dates
    there are. *)
Definition due_out_of_dates (moment : datetime) (stability : float) : Prop :=
  match float_days (days_until_review_due pow stability) with
  | inl _ => True
  | inr delay => ¬ (MIN_DATETIME <= moment + delay <= MAX_DATETIME)
  end.

Lemma due_error moment stability e :
  next_review_due pow moment stability = inl e → e ≠ IntegrityError ∧ due_out_of_dates moment stability.
Proof.
  unfold next_review_due, plus_days, due_out_of_dates. destruct (float_days _) as [e'|delay] eqn:Hd.
  - intros [= <-]. split; [|done]. intros ->. unfold float_days in Hd. destruct (f_trunc _); [|by destruct (days_until_review_due _ _)].
    cbv zeta in Hd. by destruct (_ && _).
  - cbv zeta. destruct (_ && _) eqn:Hin; [done|]. intros [= <-]. split; [done|]. apply andb_false_iff in Hin. lia.
Qed.

(** The stability a review leaves. *)
Definition next_stability (ok : bool) (before : option StudentConceptScheduling) : float :=
  match before with
  | None => f_of_Z (if ok then 10 else 3)
  | Some r => f_round 6 (f_max (fst (reviewed ok (scs_stability r) (scs_difficulty r))) (f_ratio 1 10))
  end.

Lemma schedule_of_error student concept stability d n now e :
  schedule_of pow student concept stability d n now = inl e →
  e ≠ IntegrityError ∧ due_out_of_dates now (f_round 6 (f_max stability (f_ratio 1 10))).
Proof.
  unfold schedule_of. destruct (next_review_due _ _ _) eqn:Hdue; [|done]. intros [= <-]. by eapply due_error.
Qed.

Lemma initial_stability (ok : bool) :
  f_round 6 (f_max (if ok then INITIAL_SUCCESS_STABILITY_DAYS else INITIAL_FAILURE_STABILITY_DAYS) (f_ratio 1 10)) =
    next_stability ok (None : option StudentConceptScheduling) ∧
  clamped_difficulty (if ok then INITIAL_DIFFICULTY - f_ratio 1 2 else INITIAL_DIFFICULTY + f_one)%F =
    (if ok then f_ratio 9 2 else f_of_Z 6).
Proof. destruct ok; vm_compute; done. Qed.

(** What a schedule just made looks like. *)
Definition fresh_schedule (student concept : uuid) (now : datetime) (s : ConceptSchedule) : Prop :=
  cs_student_id s = student ∧ cs_concept_id s = concept ∧ cs_last_review s = now ∧
  cs_difficulty s ∈ quarter_steps ∧ 1 <= cs_review_count s ∧
  next_review_due pow now (cs_stability s) = inr (cs_next_review_due s).

Lemma schedule_of_spec student concept stability d n now s :
  clamped_difficulty d ∈ quarter_steps → 1 <= n → schedule_of pow student concept stability d n now = inr s →
  fresh_schedule student concept now s ∧ cs_difficulty s = clamped_difficulty d ∧ cs_review_count s = n.
Proof.
  intros Hd Hn. unfold schedule_of. destruct (next_review_due _ _ _) as [|due] eqn:Hdue; [done|].
  intros [= <-]. unfold fresh_schedule. by split_and!.
Qed.

Lemma initial_schedule_spec student concept ok now s :
  initial_schedule pow student concept ok now = inr s →
  fresh_schedule student concept now s ∧ cs_review_count s = 1 ∧ cs_stability s = next_stability ok None ∧
  cs_difficulty s = (if ok then f_ratio 9 2 else f_of_Z 6).
Proof.
  intros Hs. pose proof (initial_stability ok) as [Hstab Hdiff]. pose proof Hs as Hs'. unfold initial_schedule, schedule_of in Hs'.
  apply schedule_of_spec in Hs as (? & -> & ?); [| |lia].
  - split_and!; try done. rewrite <- Hstab. destruct (next_review_due _ _ _); [done|]. by injection Hs' as <-.
  - rewrite Hdiff. destruct ok; apply (bool_decide_unpack _); vm_compute; done.
Qed.

Lemma update_schedule_spec current ok now s :
  cs_difficulty current ∈ quarter_steps → 0 <= cs_review_count current → update_schedule pow current ok now = inr s →
  fresh_schedule (cs_student_id current) (cs_concept_id current) now s ∧
  cs_review_count s = cs_review_count current + 1 ∧
  cs_difficulty s = clamped_difficulty (snd (reviewed ok (cs_stability current) (cs_difficulty current))).
Proof.
  intros Hd Hn. unfold update_schedule. destruct (reviewed _ _ _) as [stability d] eqn:Hr. intros Hs.
  apply schedule_of_spec in Hs as (? & ? & ?); [done| |lia].
  pose proof (reviewed_step ok (cs_stability current) _ Hd) as Hstep. by rewrite Hr in Hstep.
Qed.

Lemma schedule_from_record_spec r now lesson s :
  schedule_from_record pow r now lesson = inr s →
  cs_student_id s = scs_student_id r ∧ cs_concept_id s = scs_concept_id r ∧ cs_stability s = scs_stability r ∧
  cs_difficulty s = scs_difficulty r ∧ cs_review_count s = scs_review_count r ∧ cs_last_review s = scs_last_review r ∧
  cs_lesson_id s = None.
Proof.
  unfold schedule_from_record, refresh_due_date. destruct (next_review_due _ _ _); [done|]. by intros [= <-].
Qed.

(** ** The repository *)

Lemma scheduling_key student concept r :
  schedule_key student concept r = true ↔ Some (scs_student_id r, scs_concept_id r) = Some (student, concept).
Proof. unfold schedule_key. rewrite andb_true_iff, !bool_decide_eq_true. naive_solver. Qed.

(** Every difficulty on file is a quarter step. *)
Definition in_steps (db : Database) : Prop :=
  ∀ r, r ∈ (db_tables db StudentConceptSchedulings : list StudentConceptScheduling) → scs_difficulty r ∈ quarter_steps.

Definition row_of (student concept : uuid) (db : Database) : option StudentConceptScheduling :=
  findb (schedule_key student concept) (db_tables db StudentConceptSchedulings).

Definition positive_stability (s : ConceptSchedule) : bool :=
  f_lt f_zero (cs_stability s) || (cs_stability s == S754_nan).

(** The rows of everybody and everything else. *)
Definition other_rows (student concept : uuid) (db : Database) : list StudentConceptScheduling :=
  filterb (λ r, negb (schedule_key student concept r)) (db_tables db StudentConceptSchedulings).

Lemma save_schedule_run s (db : Database) :
  db_wf db → cs_difficulty s ∈ quarter_steps → 0 <= cs_review_count s → positive_stability s = true →
  ∃ i db', save_schedule s db = (inr s, db') ∧ db_wf db' ∧
    row_of (cs_student_id s) (cs_concept_id s) db' = Some (scheduling_row s i) ∧
    other_rows (cs_student_id s) (cs_concept_id s) db' = other_rows (cs_student_id s) (cs_concept_id s) db ∧
    ∀ t, t ≠ StudentConceptSchedulings → db_tables db' t = db_tables db t.
Proof.
  intros Hwf Hd Hn Hs. unfold save_schedule.
  edestruct (upsert_run (H := nevo_schema) (E := exn) StudentConceptSchedulings
    (λ r : StudentConceptScheduling, Some (scs_student_id r, scs_concept_id r)) scheduling_row_ok)
    with (p := schedule_key (cs_student_id s) (cs_concept_id s)) (mk := scheduling_row s)
    (e := IntegrityError) (db := db) as (i & db' & Hrun & Hwf' & Hnew & Hrest & _ & Hframe & _).
  - intros l. reflexivity.
  - intros r. apply scheduling_key.
  - done.
  - intros i. by apply scheduling_key.
  - intros i. unfold scheduling_row_ok, scheduling_row. cbn [scs_stability scs_difficulty scs_review_count]. destruct (steps_in_range _ Hd) as [-> ->]. unfold positive_stability in Hs.
    rewrite Hs. by apply Z.leb_le.
  - done.
  - exists i, db'. unfold begin_. rewrite (bind_inr _ _ _ _ _ Hrun). by split_and!.
Qed.

Lemma save_schedule_refused s (db : Database) :
  positive_stability s = false → save_schedule s db = (inl IntegrityError, db).
Proof.
  intros Hs. unfold save_schedule. apply bind_inl.
  apply (upsert_refused (H := nevo_schema) StudentConceptSchedulings scheduling_row_ok).
  - intros l [[_ Hl]%andb_prop _]%andb_prop. exact Hl.
  - intros i. unfold scheduling_row_ok, scheduling_row. cbn [scs_stability]. unfold positive_stability in Hs. by rewrite Hs.
Qed.

Lemma in_steps_row (db db' : Database) student concept s i :
  in_steps db → row_of student concept db' = Some (scheduling_row s i) → cs_difficulty s ∈ quarter_steps →
  unique_on (λ r : StudentConceptScheduling, Some (scs_student_id r, scs_concept_id r)) (db_tables db' StudentConceptSchedulings) = true →
  other_rows student concept db' = other_rows student concept db → in_steps db'.
Proof.
  intros Hdb Hrow Hs Hu Hrest r Hr. destruct (schedule_key student concept r) eqn:Hk.
  - pose proof Hrow as [Hk' Hin]%findb_Some. apply scheduling_key in Hk, Hk'.
    assert (r = scheduling_row s i) as -> by by eapply (unique_on_eq _ _ _ _ _ Hu Hr Hin Hk Hk'). done.
  - apply Hdb. assert (r ∈ other_rows student concept db') as Ho by (apply elem_of_filterb; by rewrite Hk).
    rewrite Hrest in Ho. by apply elem_of_filterb in Ho as [_ Ho].
Qed.

(** What is on file of a learner and a concept, when a review is recorded. *)
Definition reviewed_from (student concept : uuid) (ok : bool) (now : datetime) (before : option StudentConceptScheduling)
    (s : ConceptSchedule) : Prop :=
  fresh_schedule student concept now s ∧ cs_stability s = next_stability ok before ∧
  match before with
  | None => cs_review_count s = 1 ∧ cs_difficulty s = (if ok then f_ratio 9 2 else f_of_Z 6)
  | Some r =>
    cs_review_count s = scs_review_count r + 1 ∧
    cs_difficulty s = clamped_difficulty (snd (reviewed ok (scs_stability r) (scs_difficulty r)))
  end.

(** Why a review cannot be recorded: the row on file, or the one to come, is due
    at none of the dates there are. *)
Definition not_due (ok : bool) (now : datetime) (before : option StudentConceptScheduling) : Prop :=
  (∃ r, before = Some r ∧ due_out_of_dates (scs_last_review r) (scs_stability r)) ∨
  due_out_of_dates now (next_stability ok before).

Lemma next_schedule_spec student concept ok now (db : Database) :
  db_wf db → in_steps db →
  ∃ r, (current ← schedule pow student concept now;
        lift match current with
             | None => initial_schedule pow student concept ok now
             | Some current => update_schedule pow current ok now
             end) db = (r, db) ∧
    (∀ e, r = inl e → not_due ok now (row_of student concept db)) ∧
    ∀ s, r = inr s → reviewed_from student concept ok now (row_of student concept db) s.
Proof.
  intros [Hok _] Hsteps. unfold schedule. rewrite bind_run. erewrite bind_inr by reflexivity.
  change (findb _ _) with (row_of student concept db).
  destruct (row_of student concept db) as [r|] eqn:Hr.
  - pose proof Hr as [[= Hst Hco]%scheduling_key Hin]%findb_Some.
    destruct (schedule_from_record pow r now None) as [e|current] eqn:Hcur; cbn.
    { eexists. split; [reflexivity|]. split; [|done]. intros ? [= <-]. unfold schedule_from_record, refresh_due_date in Hcur.
      destruct (next_review_due _ _ _) eqn:Hdue; [|done]. left. exists r. split; [done|]. by apply due_error in Hdue as [_ ?]. }
    apply schedule_from_record_spec in Hcur as (H1 & H2 & H3 & H4 & H5 & _).
    exists (update_schedule pow current ok now). split; [exact (lift_run _ db)|].
    destruct (update_schedule pow current ok now) as [e|s] eqn:Hs; split; try done.
    { intros ? [= <-]. unfold update_schedule in Hs. rewrite H3, H4 in Hs. right. unfold next_stability.
      destruct (reviewed _ _ _). by apply schedule_of_error in Hs as [_ ?]. }
    intros ? [= <-]. unfold reviewed_from.
    assert (0 <= scs_review_count r) as Hn.
    { apply db_ok_spec with (t := StudentConceptSchedulings) in Hok. apply andb_prop in Hok as [[_ Hrows]%andb_prop _].
      rewrite forallb_forall in Hrows. specialize (Hrows r ltac:(by apply list_elem_of_In)).
      unfold scheduling_row_ok in Hrows. apply andb_prop in Hrows as [_ Hrows]. by apply Z.leb_le. }
    pose proof Hs as (Hf & Hc & Hd)%update_schedule_spec; [|rewrite H4; by apply Hsteps|by rewrite H5].
    rewrite H1, Hst, H2, Hco in Hf. rewrite H5 in Hc. rewrite H3, H4 in Hd. split_and!; try done.
    unfold update_schedule in Hs. rewrite H3, H4 in Hs. unfold next_stability. destruct (reviewed _ _ _) as [stability d]. unfold schedule_of in Hs.
    destruct (next_review_due _ _ _); [done|]. by injection Hs as <-.
  - exists (initial_schedule pow student concept ok now). split; [exact (lift_run _ db)|].
    destruct (initial_schedule pow student concept ok now) as [e|s] eqn:Hs; split; try done.
    { intros ? [= <-]. right. apply schedule_of_error in Hs as [_ Hdue]. by rewrite (proj1 (initial_stability ok)) in Hdue. }
    intros ? [= <-]. unfold reviewed_from. pose proof Hs as (? & ? & ? & ?)%initial_schedule_spec. by split_and!.
Qed.

End Facts.
