(* ===== verification/Breaks.v ===== *)
(** * When to offer a break

    The signals of a lesson and the profile the engine reads, of
    [src/nevo/intelligence/entities.py], and the thresholds of
    [intelligence/breaks.py]. *)

From Stdlib Require Import String.
From S2P Require Import Prelude Floats Text Vocabulary LearningVocabulary.

Local Open Scope string_scope.
Local Open Scope Z_scope.
Local Open Scope nevo_scope.

(** ** Entities *)

(** A number as JSON and the columns hold one. *)
Inductive number :=
| Whole (n : Z)
| Real (x : float).

Record LearnerProfileSnapshot := mkLearnerProfileSnapshot {
  ps_working_memory_capacity : option number; ps_attention_span : option Z
}.

Record RuntimeSignals := mkRuntimeSignals {
  rs_current_segment_id : option string; rs_current_modality : option ContentModality; rs_current_depth : option string;
  rs_available_modalities : list ContentModality; rs_continuous_minutes : float;
  rs_engagement_score : option float; rs_engagement_baseline : option float;
  rs_engagement_below_baseline_seconds : Z; rs_comprehension_score : option float;
  rs_session_average_comprehension : option float; rs_consecutive_errors : Z; rs_replay_count_on_segment : Z;
  rs_same_segment_suggestion_shown : bool; rs_segments_since_last_suggestion : option Z;
  rs_declined_modalities : list ContentModality; rs_session_decline_count : Z; rs_accuracy_below_baseline : bool;
  rs_response_time_below_baseline : bool; rs_midpoint_reached : bool; rs_current_segment_elapsed_seconds : option Z;
  rs_seconds_since_last_adaptation : option Z; rs_session_modality_shift_count : option Z;
  rs_session_adaptation_count : Z; rs_session_break_count : Z; rs_misconception_confirmed : bool;
  rs_question_support_ready : bool; rs_support_grace_until : option datetime; rs_break_declined_seconds_ago : option Z;
  rs_break_in_progress : bool; rs_frustration_detected : bool; rs_reteaching_exhausted : bool; rs_check_miss_pending : bool
}.

Record BreakThresholdResult := mkBreakThresholdResult {
  bt_triggered_thresholds : list BreakThreshold; bt_severity : BreakSeverity; bt_break_type : option BreakType;
  bt_reason : option string
}.

(** ** The thresholds *)

Definition comprehension_drop (s : RuntimeSignals) : bool :=
  match rs_comprehension_score s, rs_session_average_comprehension s with
  | Some score, Some average => f_le (f_of_Z 20) (average - score)%F
  | _, _ => false
  end.

Definition frustration (s : RuntimeSignals) : bool :=
  rs_frustration_detected s ||
  ((1 <=? rs_consecutive_errors s) &&
   ((1 <=? rs_replay_count_on_segment s) || comprehension_drop s || (60 <=? rs_engagement_below_baseline_seconds s))).

(** [min(20, max(5, attention_span or 20))] *)
Definition attention_window (p : LearnerProfileSnapshot) : Z :=
  Z.min 20 (Z.max 5 (match ps_attention_span p with Some 0 | None => 20 | Some n => n end)).

Definition fired (s : RuntimeSignals) (p : LearnerProfileSnapshot) (t : BreakThreshold) : bool :=
  match t with
  | FRUSTRATION_HIGH => frustration s
  | PERSISTENT_STALL => (2 <=? rs_session_adaptation_count s) && (2 <=? rs_consecutive_errors s)
  | TIME_THRESHOLD => f_le (f_of_Z (attention_window p)) (rs_continuous_minutes s)
  | BREAK_ENGAGEMENT_DECLINE => 180 <=? rs_engagement_below_baseline_seconds s
  | COMPREHENSION_DROP => comprehension_drop s
  | REPEATED_ERRORS => 3 <=? rs_consecutive_errors s
  | REPLAY_ACCUMULATION => 3 <=? rs_replay_count_on_segment s
  end.

(** The order the thresholds are tried in. *)
Definition threshold_order : list BreakThreshold :=
  [FRUSTRATION_HIGH; PERSISTENT_STALL; TIME_THRESHOLD; BREAK_ENGAGEMENT_DECLINE; COMPREHENSION_DROP; REPEATED_ERRORS;
   REPLAY_ACCUMULATION].

(** Whether one of some thresholds is among those that fired, and how many
    are. *)
Definition any_of (ts triggered : list BreakThreshold) : bool := existsb (λ t, bool_decide (t ∈ triggered)) ts.
Definition count_of (ts triggered : list BreakThreshold) : nat := length (filterb (λ t, bool_decide (t ∈ triggered)) ts).

(** [capacity is not None and capacity <= 2] *)
Definition at_most_two (o : option number) : bool :=
  match o with Some (Whole n) => n <=? 2 | Some (Real x) => f_le x (f_of_Z 2) | None => false end.

Definition select_break_type (triggered : list BreakThreshold) (s : RuntimeSignals) (p : LearnerProfileSnapshot) : BreakType :=
  if any_of [FRUSTRATION_HIGH; PERSISTENT_STALL] triggered then
    if (2 <=? rs_session_break_count s) || rs_reteaching_exhausted s then STOP_FOR_DAY
    else if (1 <=? rs_session_break_count s) || (3 <=? rs_consecutive_errors s) then FULL
    else MICRO
  else if (3 <=? length triggered)%nat ||
          (2 <=? count_of [BREAK_ENGAGEMENT_DECLINE; COMPREHENSION_DROP; REPEATED_ERRORS] triggered)%nat then FULL
  else if any_of [TIME_THRESHOLD] triggered && any_of [BREAK_ENGAGEMENT_DECLINE] triggered then MOVEMENT
  else if rs_midpoint_reached s && any_of [COMPREHENSION_DROP; REPLAY_ACCUMULATION] triggered then CONSOLIDATION
  else if at_most_two (ps_working_memory_capacity p) && any_of [REPEATED_ERRORS; COMPREHENSION_DROP] triggered
  then CONSOLIDATION
  else if any_of [TIME_THRESHOLD] triggered then MOVEMENT
  else MICRO.

Definition severity (triggered : list BreakThreshold) : BreakSeverity :=
  if (3 <=? length triggered)%nat then SEVERITY_HIGH
  else if (length triggered =? 2)%nat then SEVERITY_MEDIUM else MILD.

Definition reason_for (break_type : BreakType) (triggered : list BreakThreshold) : string :=
  let joined := join ", " (map BreakThreshold_value triggered) in
  match break_type with
  | FULL => "Multiple high-severity signals fired: " ++ joined ++ "."
  | MOVEMENT => "Extended continuous work or attention decline detected: " ++ joined ++ "."
  | CONSOLIDATION => "Memory or comprehension support signal detected: " ++ joined ++ "."
  | _ => "Mild learning support signal detected: " ++ joined ++ "."
  end.

(** A break is under way, or was declined less than two minutes ago. *)
Definition break_muted (s : RuntimeSignals) : bool :=
  rs_break_in_progress s || match rs_break_declined_seconds_ago s with Some n => n <? 120 | None => false end.

Definition monitor_break_thresholds (s : RuntimeSignals) (p : LearnerProfileSnapshot) : BreakThresholdResult :=
  if break_muted s then mkBreakThresholdResult [] SEVERITY_NONE None None
  else
    let thresholds := filterb (fired s p) threshold_order in
    if thresholds == [] then mkBreakThresholdResult [] SEVERITY_NONE None None
    else
      let break_type := select_break_type thresholds s p in
      mkBreakThresholdResult thresholds (severity thresholds) (Some break_type) (Some (reason_for break_type thresholds)).

(** ** What a break offer says *)

Lemma any_of_spec ts triggered : any_of ts triggered = true ↔ ∃ t, t ∈ ts ∧ t ∈ triggered.
Proof.
  unfold any_of. rewrite existsb_exists. split.
  - intros (t & Ht%list_elem_of_In & Hin%bool_decide_eq_true). eauto.
  - intros (t & Ht & Hin). exists t. split; [by apply list_elem_of_In|by apply bool_decide_eq_true].
Qed.

Lemma fired_in s p t : t ∈ filterb (fired s p) threshold_order ↔ fired s p t = true.
Proof.
  rewrite elem_of_filterb. split; [by intros [? _]|]. intros Ht. split; [done|]. destruct t; set_solver.
Qed.

(** The learner understands twenty points less than in the session so far. *)
Definition dropped_by_twenty (s : RuntimeSignals) : Prop :=
  ∃ score average, rs_comprehension_score s = Some score ∧ rs_session_average_comprehension s = Some average ∧
    f_le (f_of_Z 20) (average - score)%F = true.

(** For how many minutes a learner works on: what the profile says, between
    five and twenty, and twenty when it says nothing. *)
Inductive works_on (p : LearnerProfileSnapshot) : Z → Prop :=
| works_on_unknown : ps_attention_span p = None ∨ ps_attention_span p = Some 0 → works_on p 20
| works_on_short n : ps_attention_span p = Some n → n ≠ 0 → n < 5 → works_on p 5
| works_on_known n : ps_attention_span p = Some n → 5 <= n <= 20 → works_on p n
| works_on_long n : ps_attention_span p = Some n → 20 < n → works_on p 20.

(** What the signals have to say for each threshold. *)
Inductive reaches (s : RuntimeSignals) (p : LearnerProfileSnapshot) : BreakThreshold → Prop :=
| reached_told : rs_frustration_detected s = true → reaches s p FRUSTRATION_HIGH
| reached_replayed : 1 <= rs_consecutive_errors s → 1 <= rs_replay_count_on_segment s → reaches s p FRUSTRATION_HIGH
| reached_lost : 1 <= rs_consecutive_errors s → dropped_by_twenty s → reaches s p FRUSTRATION_HIGH
| reached_away : 1 <= rs_consecutive_errors s → 60 <= rs_engagement_below_baseline_seconds s → reaches s p FRUSTRATION_HIGH
| reached_stall : 2 <= rs_session_adaptation_count s → 2 <= rs_consecutive_errors s → reaches s p PERSISTENT_STALL
| reached_time n : works_on p n → f_le (f_of_Z n) (rs_continuous_minutes s) = true → reaches s p TIME_THRESHOLD
| reached_decline : 180 <= rs_engagement_below_baseline_seconds s → reaches s p BREAK_ENGAGEMENT_DECLINE
| reached_drop : dropped_by_twenty s → reaches s p COMPREHENSION_DROP
| reached_errors : 3 <= rs_consecutive_errors s → reaches s p REPEATED_ERRORS
| reached_replays : 3 <= rs_replay_count_on_segment s → reaches s p REPLAY_ACCUMULATION.

Lemma comprehension_drop_spec s : comprehension_drop s = true ↔ dropped_by_twenty s.
Proof.
  unfold comprehension_drop, dropped_by_twenty. split.
  - intros H. repeat case_match; try done. eauto.
  - intros (score & average & -> & -> & H). done.
Qed.

Lemma attention_window_spec p n : works_on p n ↔ attention_window p = n.
Proof.
  unfold attention_window. split.
  - intros [[-> | ->]|m -> ? ?|m -> ?|m -> ?]; try done; destruct m; lia.
  - intros <-. destruct (ps_attention_span p) as [m|] eqn:Hm; [|apply works_on_unknown; auto].
    destruct (decide (m = 0)) as [->|Hne]; [apply works_on_unknown; auto|].
    assert (match m with 0 => 20 | _ => m end = m) as -> by by destruct m.
    destruct (Z.lt_ge_cases m 5); [|destruct (Z.lt_ge_cases 20 m)].
    + replace (Z.min _ _) with 5 by lia. by eapply works_on_short.
    + replace (Z.min _ _) with 20 by lia. by eapply works_on_long.
    + replace (Z.min _ _) with m by lia. by apply works_on_known; [|lia].
Qed.

Lemma fired_reached s p t : fired s p t = true ↔ reaches s p t.
Proof.
  split.
  - intros Hf. destruct t; cbn [fired] in Hf.
    + by eapply reached_time, Hf; apply attention_window_spec.
    + apply andb_prop in Hf as [? ?]. apply reached_stall; lia.
    + apply reached_decline. lia.
    + by apply reached_drop, comprehension_drop_spec.
    + apply reached_errors. lia.
    + apply reached_replays. lia.
    + unfold frustration in Hf. rewrite orb_true_iff, andb_true_iff, !orb_true_iff, comprehension_drop_spec, !Z.leb_le in Hf.
      destruct Hf as [?|[? [[?|?]|?]]];
        [by apply reached_told|by apply reached_replayed|by apply reached_lost|by apply reached_away].
  - intros [H|H1 H2|H1 H2|H1 H2|H1 H2|n H1%attention_window_spec H2|H|H|H|H]; cbn [fired]; unfold frustration;
      rewrite ?orb_true_iff, ?andb_true_iff, ?orb_true_iff, ?comprehension_drop_spec, ?Z.leb_le; subst; tauto.
Qed.

(** The learner is struggling: answering wrongly, and more. *)
Definition struggling (s : RuntimeSignals) (p : LearnerProfileSnapshot) : Prop :=
  reaches s p FRUSTRATION_HIGH ∨ reaches s p PERSISTENT_STALL.

Lemma any_struggling s p :
  any_of [FRUSTRATION_HIGH; PERSISTENT_STALL] (filterb (fired s p) threshold_order) = true ↔ struggling s p.
Proof.
  rewrite any_of_spec. unfold struggling. rewrite <- !fired_reached. split.
  - intros (t & Ht & Hf%fired_in). set_unfold. destruct Ht as [->|[->|[]]]; auto.
  - intros [Hf|Hf]; eexists; (split; [|by apply fired_in]); set_solver.
Qed.

(** No break is offered now: one is under way, or was refused less than two
    minutes ago. *)
Inductive left_alone (s : RuntimeSignals) : Prop :=
| left_alone_resting : rs_break_in_progress s = true → left_alone s
| left_alone_refused n : rs_break_declined_seconds_ago s = Some n → n < 120 → left_alone s.

Lemma break_muted_spec s : break_muted s = true ↔ left_alone s.
Proof.
  unfold break_muted. rewrite orb_true_iff. split.
  - intros [?|H]; [by apply left_alone_resting|]. destruct (rs_break_declined_seconds_ago s) eqn:Hd; [|done].
    eapply left_alone_refused; [done|lia].
  - intros [?|n -> ?]; [auto|right; lia].
Qed.

(** How strong the offer is, by how many thresholds were reached. *)
Inductive as_strong_as : nat → BreakSeverity → Prop :=
| strong_one : as_strong_as 1 MILD
| strong_two : as_strong_as 2 SEVERITY_MEDIUM
| strong_more n : (3 <= n)%nat → as_strong_as n SEVERITY_HIGH.

Lemma severity_spec triggered : triggered ≠ [] → as_strong_as (length triggered) (severity triggered).
Proof.
  destruct triggered as [|a [|b [|c l]]]; intros H; [done|apply strong_one|apply strong_two|].
  apply strong_more. cbn. lia.
Qed.

Lemma thresholds_once s p : NoDup (filterb (fired s p) threshold_order).
Proof. apply NoDup_filter, (bool_decide_unpack _). by vm_compute. Qed.

(** ** The kind of break *)

Section Kind.
Context (s : RuntimeSignals) (p : LearnerProfileSnapshot).

Let triggered : list BreakThreshold := filterb (fired s p) threshold_order.

Lemma reason_lists b l :
  ∃ what, Some (reason_for b l) = Some (what ++ ": " ++ join ", " (map BreakThreshold_value l) ++ ".").
Proof.
  eexists match b with
          | FULL => "Multiple high-severity signals fired"
          | MOVEMENT => "Extended continuous work or attention decline detected"
          | CONSOLIDATION => "Memory or comprehension support signal detected"
          | _ => "Mild learning support signal detected"
          end.
  by destruct b.
Qed.

Lemma break_of_the_struggling :
  let b := select_break_type triggered s p in
  let sent_home := 2 <= rs_session_break_count s ∨ rs_reteaching_exhausted s = true in
  struggling s p →
  (b = STOP_FOR_DAY ↔ sent_home) ∧
  (b = FULL ↔ ¬ sent_home ∧ (1 <= rs_session_break_count s ∨ 3 <= rs_consecutive_errors s)) ∧
  b ∈ [MICRO; FULL; STOP_FOR_DAY].
Proof.
  cbv zeta. intros Hs%any_struggling. unfold select_break_type, triggered. rewrite Hs.
  destruct (Z.leb_spec 2 (rs_session_break_count s)), (rs_reteaching_exhausted s); cbn [orb]; try (split_and!; [..|set_solver]; naive_solver).
  destruct (Z.leb_spec 1 (rs_session_break_count s)), (Z.leb_spec 3 (rs_consecutive_errors s)); cbn [orb];
    (split_and!; [..|set_solver]); split; try done; try (intros [?|?]; [lia|done]); try (intros [_ [?|?]]; lia);
    intros _; (split; [intros [?|?]; [lia|done]|auto]).
Qed.

Lemma not_struggling : ¬ struggling s p → any_of [FRUSTRATION_HIGH; PERSISTENT_STALL] triggered = false.
Proof. intros Hs. apply not_true_iff_false. unfold triggered. by rewrite any_struggling. Qed.

Lemma break_of_the_others :
  let b := select_break_type triggered s p in
  ¬ struggling s p → b ≠ STOP_FOR_DAY ∧ ((3 <= length triggered)%nat → b = FULL).
Proof.
  cbv zeta. intros Hs%not_struggling. unfold select_break_type. rewrite Hs. split; [by repeat case_match|].
  intros Hl%Nat.leb_le. by rewrite Hl.
Qed.

Lemma break_of_the_tired :
  triggered ≠ [] → (∀ t, reaches s p t → t = TIME_THRESHOLD) → select_break_type triggered s p = MOVEMENT.
Proof.
  intros Hne Honly.
  assert (∀ t, fired s p t = bool_decide (t = TIME_THRESHOLD)) as Hfired.
  { intros t. apply eq_bool_prop_intro. rewrite !Is_true_true, bool_decide_eq_true. split.
    - intros Hf. by apply Honly, fired_reached.
    - intros ->. destruct triggered as [|t0 l] eqn:Hl; [done|].
      assert (fired s p t0 = true) as Hf by (apply fired_in; unfold triggered in Hl; rewrite Hl; set_solver).
      rewrite <- (Honly t0); [done|by apply fired_reached]. }
  unfold select_break_type, triggered. rewrite (filterb_ext (fired s p) (λ t, bool_decide (t = TIME_THRESHOLD)))
    by (intros; apply Hfired). by destruct (rs_midpoint_reached s), (at_most_two _).
Qed.
End Kind.
