(* ===== verification/Adaptation.v ===== *)
(** * How a lesson adapts

    [src/nevo/intelligence/adaptation.py]: the plan the engine proposes from
    the signals of a lesson, the limits it keeps, and the log of what was held
    back. *)

From Stdlib Require Import String.
From S2P Require Import Prelude Floats Relational Text Vocabulary LearningVocabulary Schema Json Scheduler Breaks.

Local Open Scope string_scope.
Local Open Scope Z_scope.
Local Open Scope nevo_scope.

(** ** Entities *)

Record ContentSegment := mkContentSegment {
  seg_id : string; seg_type : ContentSegmentType; seg_available_modalities : list ContentModality;
  seg_available_depths : option (list string); seg_hints : list string; seg_guided_questions : list string;
  seg_scaffold_intensity : option ScaffoldIntensity; seg_primary_modality : option ContentModality
}.

Record SegmentAdaptation := mkSegmentAdaptation {
  sa_segment_id : string; sa_modality : ContentModality; sa_density : DensityLevel; sa_scaffolding : ScaffoldingLevel;
  sa_priority : Z
}.

Record TriggerSignal := mkTriggerSignal { tr_category : string; tr_name : string; tr_confidence : float }.

Record ProactiveAdjustment := mkProactiveAdjustment {
  pa_action : string; pa_reason : string; pa_confidence : float; pa_trigger_signals : list TriggerSignal;
  pa_hint : option string; pa_guided_questions : list string; pa_segment_id : option string
}.

Record ModalitySuggestion := mkModalitySuggestion {
  mo_suggested : ContentModality; mo_trigger_reason : string; mo_confidence : ConfidenceLevel;
  mo_adaptation_confidence : float; mo_trigger_signals : list TriggerSignal
}.

Record SuppressedAdaptationAttempt := mkSuppressedAdaptationAttempt {
  su_attempted_type : string; su_reason : string; su_current_segment_id : option string;
  su_current_modality : option ContentModality; su_suggested_modality : option ContentModality; su_confidence : float;
  su_trigger_signals : list TriggerSignal
}.

Record AdaptationRequest := mkAdaptationRequest {
  aq_student_id : uuid; aq_lesson_id : uuid; aq_mode : AdaptationMode; aq_segments : list ContentSegment;
  aq_signals : RuntimeSignals; aq_session_id : option uuid
}.

Record AdaptationPlan := mkAdaptationPlan {
  pl_lesson_id : uuid; pl_segments : list SegmentAdaptation; pl_break_suggestion : BreakThresholdResult;
  pl_proactive_adjustment : option ProactiveAdjustment; pl_modality_suggestion : option ModalitySuggestion;
  pl_source : string; pl_suppressed_attempt : option SuppressedAdaptationAttempt
}.

Record AdaptationRateLimitState := mkAdaptationRateLimitState {
  rl_last_adaptation_at : option datetime; rl_modality_shift_count : Z
}.

Definition FIRST_ADAPTATION_CONFIDENCE_THRESHOLD : float := f_ratio 60 100.
Definition SUBSEQUENT_ADAPTATION_CONFIDENCE_THRESHOLD : float := f_ratio 70 100.
Definition MIN_ALIGNED_SIGNAL_COUNT : nat := 3.
Definition MIN_ALIGNED_SIGNAL_CATEGORIES : nat := 2.
Definition MIN_MODALITY_DWELL_SECONDS : Z := 90.
Definition ADAPTATION_COOLDOWN_SECONDS : Z := 120.
Definition MAX_MODALITY_SHIFTS_PER_SESSION : Z := 3.

Definition ADAPTATION_HISTORY_EVENT_TYPES : list SignalEventType :=
  [SIMPLIFY_TRIGGER; EXPAND_TRIGGER; SLOWER_TRIGGER; MODALITY_SUGGESTION_ACCEPTED; HINT_OFFERED; GUIDED_QUESTION_SHOWN].
Definition MODALITY_SHIFT_EVENT_TYPES : list SignalEventType := [MODALITY_SUGGESTION_ACCEPTED].

(** ** Segments *)

Definition preferred_modality (s : ContentSegment) : ContentModality :=
  match seg_available_modalities s with m :: _ => m | [] => TEXT_MODALITY end.

Definition scaffolding_of (i : ScaffoldIntensity) : ScaffoldingLevel :=
  match i with
  | FULL_SUPPORT => STRONG | PARTIAL_SUPPORT => SCAFFOLDING_STANDARD | HINTS_ONLY => LIGHT | INDEPENDENT => SCAFFOLDING_NONE
  end.

(** [_adapt_segment] *)
Definition adapt_segment (p : LearnerProfileSnapshot) (s : ContentSegment) : SegmentAdaptation :=
  let low := at_most_two (ps_working_memory_capacity p) in
  mkSegmentAdaptation (seg_id s)
    (match seg_primary_modality s with Some m => m | None => preferred_modality s end)
    (if low then DENSITY_LOW else DENSITY_MEDIUM)
    (match seg_scaffold_intensity s with
     | Some i => scaffolding_of i
     | None => if low then STRONG else SCAFFOLDING_STANDARD
     end) 50.

(** [_current_segment] *)
Definition current_segment (r : AdaptationRequest) : option ContentSegment :=
  i ← rs_current_segment_id (aq_signals r); findb (λ s, seg_id s == i) (aq_segments r).

(** ** Evidence *)

(** A signal, when there is reason for it. *)
Definition signal (b : bool) (category name : string) (confidence : float) : list TriggerSignal :=
  if b then [mkTriggerSignal category name confidence] else [].

(** [comprehension_score] and the average, when both are known. *)
Definition scores (s : RuntimeSignals) : option (float * float) :=
  match rs_comprehension_score s, rs_session_average_comprehension s with
  | Some score, Some average => Some (score, average)
  | _, _ => None
  end.

Definition engagement (s : RuntimeSignals) : option (float * float) :=
  match rs_engagement_score s, rs_engagement_baseline s with
  | Some score, Some baseline => Some (score, baseline)
  | _, _ => None
  end.

Definition engagement_dropped (s : RuntimeSignals) : bool :=
  match engagement s with Some (score, baseline) => f_le score (baseline - f_ratio 15 100)%F | None => false end.

(** [_comprehension_declining] and [_engagement_declining] *)
Definition comprehension_declining (s : RuntimeSignals) : bool :=
  rs_accuracy_below_baseline s || rs_response_time_below_baseline s.
Definition engagement_declining (s : RuntimeSignals) : bool :=
  (180 <=? rs_engagement_below_baseline_seconds s) || (3 <=? rs_replay_count_on_segment s) || engagement_dropped s.

(** [_trigger_signals] *)
Definition trigger_signals (s : RuntimeSignals) (p : LearnerProfileSnapshot) : list TriggerSignal :=
  (match scores s with
   | Some (score, average) =>
     let drop := (average - score)%F in
     signal (f_le (f_of_Z 20) drop) "comprehension" "comprehension_drop"
       (f_min (f_ratio 95 100) (f_ratio 60 100 + f_quot drop (f_of_Z 100))%F)
   | None => []
   end ++
   signal (rs_accuracy_below_baseline s) "comprehension" "accuracy_below_baseline" (f_ratio 72 100) ++
   signal (rs_response_time_below_baseline s &&
           (rs_accuracy_below_baseline s ||
            match scores s with Some (score, average) => f_lt score average | None => false end))
     "comprehension" "response_time_with_accuracy_shift" (f_ratio 64 100) ++
   signal (180 <=? rs_engagement_below_baseline_seconds s) "engagement" "engagement_below_baseline" (f_ratio 70 100) ++
   signal (engagement_dropped s) "engagement" "engagement_score_drop" (f_ratio 70 100) ++
   signal ((3 <=? rs_replay_count_on_segment s) && comprehension_declining s)
     "engagement" "replay_accumulation_with_comprehension_shift" (f_ratio 68 100) ++
   signal (2 <=? rs_consecutive_errors s) "performance" "repeated_errors" (f_ratio 76 100) ++
   signal (at_most_two (ps_working_memory_capacity p)) "profile" "working_memory_support_pattern" (f_ratio 62 100))%list.

(** The comprehension score is ten above the session's average. *)
Definition comprehension_rose (s : RuntimeSignals) : bool :=
  match scores s with Some (score, average) => f_le (average + f_of_Z 10)%F score | None => false end.

(** [_positive_trigger_signals] *)
Definition positive_trigger_signals (s : RuntimeSignals) : list TriggerSignal :=
  (signal (match engagement s with Some (score, baseline) => f_le (baseline + f_ratio 2 10)%F score | None => false end)
     "engagement" "engagement_above_baseline" (f_ratio 72 100) ++
   match scores s with
   | Some (score, average) =>
     signal (comprehension_rose s) "comprehension" "comprehension_at_or_above_session_average"
       (f_min (f_ratio 95 100) (f_ratio 70 100 + f_quot (score - average) (f_of_Z 100))%F)
   | None => []
   end ++
   signal ((rs_consecutive_errors s =? 0) && (rs_replay_count_on_segment s =? 0))
     "performance" "no_current_error_or_replay_pattern" (f_ratio 66 100))%list.

Definition combined_confidence (evidence : list TriggerSignal) : float :=
  if evidence == [] then f_zero
  else f_round 2 (f_quot (f_sum (map tr_confidence evidence)) (f_of_Z (Z.of_nat (length evidence)))).

(** [_evidence_by_category]: the set of categories. *)
Definition categories (evidence : list TriggerSignal) : list string := remove_dups (map tr_category evidence).

Definition confidence_threshold (s : RuntimeSignals) : float :=
  if (0 <? rs_session_adaptation_count s) ||
     match rs_session_modality_shift_count s with Some n => 0 <? n | None => false end
  then SUBSEQUENT_ADAPTATION_CONFIDENCE_THRESHOLD else FIRST_ADAPTATION_CONFIDENCE_THRESHOLD.

(** [_evidence_allows_adaptation] *)
Definition evidence_allows (s : RuntimeSignals) (evidence : list TriggerSignal) : bool :=
  (MIN_ALIGNED_SIGNAL_COUNT <=? length evidence)%nat &&
  (MIN_ALIGNED_SIGNAL_CATEGORIES <=? length (categories evidence))%nat &&
  f_le (confidence_threshold s) (combined_confidence evidence).

(** ** Proposals *)

Definition ERRORS_BEFORE_A_HINT : Z := 2.
Definition ERRORS_BEFORE_STEPPING_THROUGH : Z := 3.

(** [_stuck_adjustment] *)
Definition stuck_adjustment (s : RuntimeSignals) (segment : option ContentSegment) (confidence : float)
    (evidence : list TriggerSignal) : option ProactiveAdjustment :=
  match segment with
  | None => None
  | Some segment =>
    if rs_consecutive_errors s <? ERRORS_BEFORE_A_HINT then None
    else
      let stepping_through := (ERRORS_BEFORE_STEPPING_THROUGH <=? rs_consecutive_errors s) ||
                              (1 <=? rs_replay_count_on_segment s) || rs_misconception_confirmed s in
      if stepping_through && (seg_guided_questions segment != []) && rs_question_support_ready s then
        Some (mkProactiveAdjustment "show_socratic_panel" "Several wrong answers after going back over this part."
                confidence evidence None (seg_guided_questions segment) None)
      else
        match seg_hints segment with
        | hint :: _ =>
          Some (mkProactiveAdjustment "offer_hint" "Two wrong answers in a row on this part." confidence evidence
                  (Some hint) [] None)
        | [] => None
        end
  end.

(** An adjustment of the segment on screen that carries nothing with it. *)
Definition plain_adjustment (s : RuntimeSignals) (action reason : string) (evidence : list TriggerSignal)
  : ProactiveAdjustment :=
  mkProactiveAdjustment action reason (combined_confidence evidence) evidence None [] (rs_current_segment_id s).

Definition COMPREHENSION_DROPPED : string := "Comprehension has dropped below this session's average.".

(** [_proactive_adjustment] *)
Definition proactive_adjustment (s : RuntimeSignals) (p : LearnerProfileSnapshot) (segment : option ContentSegment)
  : option ProactiveAdjustment :=
  let positive := positive_trigger_signals s in
  if (MIN_ALIGNED_SIGNAL_COUNT <=? length positive)%nat && comprehension_rose s && (2 <=? length (categories positive))%nat &&
     f_le (confidence_threshold s) (combined_confidence positive)
  then Some (plain_adjustment s "expand" "Engagement and comprehension are both above the current baseline." positive)
  else
    let evidence := trigger_signals s p in
    if negb (evidence_allows s evidence) then None
    else
      match stuck_adjustment s segment (combined_confidence evidence) evidence with
      | Some a => Some (a <| pa_segment_id := rs_current_segment_id s |>)
      | None =>
        let has c := bool_decide (c ∈ categories evidence) in
        if has "performance" then Some (plain_adjustment s "simplify" COMPREHENSION_DROPPED evidence)
        else if has "engagement" && has "comprehension" then
          Some (plain_adjustment s "slower" "Multiple signals suggest the current pace may be too high." evidence)
        else if has "comprehension" then Some (plain_adjustment s "simplify" COMPREHENSION_DROPPED evidence)
        else None
      end.

(** [DEPTH_BY_ACTION.get(action)] *)
Definition depth_by_action (action : string) : option string :=
  if action == "simplify" then Some "simplified" else if action == "expand" then Some "expanded" else None.

(** [_servable_adjustment] *)
Definition servable_adjustment (a : option ProactiveAdjustment) (r : AdaptationRequest) : option ProactiveAdjustment :=
  match a with
  | None => None
  | Some a =>
    match depth_by_action (pa_action a) with
    | None => Some a
    | Some depth =>
      if rs_current_depth (aq_signals r) == Some depth then None
      else
        match current_segment r ≫= seg_available_depths with
        | None => Some a
        | Some depths => if bool_decide (depth ∈ depths) then Some a else None
        end
    end
  end.

(** [_depth_suppression_reason] *)
Definition depth_suppression_reason (action : string) (r : AdaptationRequest) : string :=
  match depth_by_action action with
  | Some desired => if rs_current_depth (aq_signals r) == Some desired then "depth_already_applied" else "depth_variant_unavailable"
  | None => "depth_variant_unavailable"
  end.

(** [_modality_constraints_allow] *)
Definition modality_constraints_allow (s : RuntimeSignals) : bool :=
  negb (rs_same_segment_suggestion_shown s) &&
  negb (match rs_segments_since_last_suggestion s with Some n => n <? 2 | None => false end) &&
  negb (2 <=? rs_session_decline_count s).

(** [_modality_suggestion] *)
Definition modality_suggestion (s : RuntimeSignals) (p : LearnerProfileSnapshot) : option ModalitySuggestion :=
  if negb (modality_constraints_allow s) then None
  else if negb (comprehension_declining s) || negb (engagement_declining s) then None
  else
    current ← rs_current_modality s;
    candidate ← findb (λ m, (m != current) && negb (bool_decide (m ∈ rs_declined_modalities s))) (rs_available_modalities s);
    let evidence := trigger_signals s p in
    if negb (evidence_allows s evidence) then None
    else Some (mkModalitySuggestion candidate "combined" CONFIDENCE_MEDIUM (combined_confidence evidence) evidence).

Definition by_priority_desc (a b : SegmentAdaptation) : bool := sa_priority b <=? sa_priority a.

(** [rule_based_adaptation_plan] *)
Definition rule_based_adaptation_plan (r : AdaptationRequest) (p : LearnerProfileSnapshot) : AdaptationPlan :=
  let s := aq_signals r in
  let in_lesson {A} (o : option A) := if aq_mode r == IN_LESSON then o else None in
  mkAdaptationPlan (aq_lesson_id r) (order_by by_priority_desc (map (adapt_segment p) (aq_segments r)))
    (monitor_break_thresholds s p)
    (in_lesson (servable_adjustment (proactive_adjustment s p (current_segment r)) r))
    (in_lesson (modality_suggestion s p)) "rule_based" None.

(** ** Limits *)

(** [_has_suppressible_adaptation], [_plan_confidence] and
    [_plan_trigger_signals] *)
Definition has_suppressible_adaptation (plan : AdaptationPlan) : bool :=
  is_some (pl_modality_suggestion plan) || is_some (pl_proactive_adjustment plan).
Definition plan_confidence (plan : AdaptationPlan) : float :=
  match pl_modality_suggestion plan, pl_proactive_adjustment plan with
  | Some m, _ => mo_adaptation_confidence m
  | None, Some a => pa_confidence a
  | None, None => f_zero
  end.
Definition plan_trigger_signals (plan : AdaptationPlan) : list TriggerSignal :=
  match pl_modality_suggestion plan, pl_proactive_adjustment plan with
  | Some m, _ => mo_trigger_signals m
  | None, Some a => pa_trigger_signals a
  | None, None => []
  end.

(** [_suppression_attempt] *)
Definition suppression_attempt (r : AdaptationRequest) (plan : AdaptationPlan) (reason : string)
  : SuppressedAdaptationAttempt :=
  mkSuppressedAdaptationAttempt
    (if is_some (pl_modality_suggestion plan) then "modality_shift" else "proactive_adjustment") reason
    (rs_current_segment_id (aq_signals r)) (rs_current_modality (aq_signals r)) (mo_suggested <$> pl_modality_suggestion plan)
    (plan_confidence plan) (plan_trigger_signals plan).

Definition below (limit : Z) (o : option Z) : bool := match o with Some n => n <? limit | None => false end.
Definition reached (limit : Z) (o : option Z) : bool := match o with Some n => limit <=? n | None => false end.

(** [_rate_limit_violation_from_signals] *)
Definition violation_from_signals (r : AdaptationRequest) (plan : AdaptationPlan) : option SuppressedAdaptationAttempt :=
  let s := aq_signals r in
  let shift := is_some (pl_modality_suggestion plan) in
  if negb (has_suppressible_adaptation plan) then None
  else if shift && below MIN_MODALITY_DWELL_SECONDS (rs_current_segment_elapsed_seconds s) && negb (rs_check_miss_pending s)
  then Some (suppression_attempt r plan "minimum_dwell_time")
  else if below ADAPTATION_COOLDOWN_SECONDS (rs_seconds_since_last_adaptation s) && negb (rs_check_miss_pending s)
  then Some (suppression_attempt r plan "adaptation_cooldown")
  else if shift && reached MAX_MODALITY_SHIFTS_PER_SESSION (rs_session_modality_shift_count s)
  then Some (suppression_attempt r plan "session_modality_shift_cap")
  else None.

(** [_rate_limit_violation_from_history] *)
Definition violation_from_history (r : AdaptationRequest) (plan : AdaptationPlan) (state : AdaptationRateLimitState)
    (now : datetime) : option SuppressedAdaptationAttempt :=
  let shift := is_some (pl_modality_suggestion plan) in
  if negb (has_suppressible_adaptation plan) then None
  else if match rl_last_adaptation_at state with
          | Some t => f_lt (total_seconds (now - t)) (f_of_Z ADAPTATION_COOLDOWN_SECONDS)
          | None => false
          end && negb (rs_check_miss_pending (aq_signals r))
  then Some (suppression_attempt r plan "adaptation_cooldown")
  else if shift && (MAX_MODALITY_SHIFTS_PER_SESSION <=? rl_modality_shift_count state)
  then Some (suppression_attempt r plan "session_modality_shift_cap")
  else None.

(** [_suppress_plan] *)
Definition suppress_plan (plan : AdaptationPlan) (attempt : SuppressedAdaptationAttempt) : AdaptationPlan :=
  mkAdaptationPlan (pl_lesson_id plan) (pl_segments plan) (pl_break_suggestion plan) None None (pl_source plan) (Some attempt).

(** ** The repositories *)

(** [round(value)] *)
Definition json_round (j : Json) : exn + Z :=
  match j with
  | JInt z => inr z
  | JBool b => inr (if b then 1 else 0)
  | JFloat x => match x, f_round_int x with
                | _, Some z => inr z
                | SpecFloat.S754_nan, None => inl (ValueError "cannot convert float NaN to integer")
                | _, None => inl OverflowError
                end
  | _ => inl TypeError
  end.

(** [user.baseline_profile or {}], which is asked with [get]: what is neither
    empty nor an object has no such method. *)
Definition baseline_of (j : Json) : M (list (string * Json)) :=
  if json_truthy j then match j with JObj fields => mret fields | _ => raise AttributeError end else mret [].

(** The working memory the baseline holds, which later is compared with two:
    [True] and [False] are one and zero there. What is no number at all
    ([baseline.py] stores a whole one) raises in the first comparison, and
    here at once. *)
Definition capacity_of (j : Json) : M (option number) :=
  match j with
  | JNull => mret None
  | JInt n => mret (Some (Whole n))
  | JBool b => mret (Some (Whole (if b then 1 else 0)))
  | JFloat x => mret (Some (Real x))
  | JStr _ | JArr _ | JObj _ => raise TypeError
  end.

(** [SqlAlchemyLearnerProfileRepository.get_profile] *)
Definition get_profile (student_id : uuid) : M LearnerProfileSnapshot :=
  profile ← scalar LearnerProfiles (λ p, lp_learner_id p == student_id);
  user ← get Users student_id;
  baseline ← match (user : option User) with Some u => baseline_of (user_baseline_profile u) | None => mret [] end;
  let stored := profile : option LearnerProfile in
  capacity ← match assoc "working_memory_capacity" baseline with
             | Some j => capacity_of j
             | None => mret (Whole <$> (stored ≫= lp_working_memory_capacity))
             end;
  let minutes := field "attention_span_minutes" baseline in
  span ← (if json_truthy minutes then n ← lift (json_round minutes); mret (Some n)
          else mret (stored ≫= lp_attention_span));
  mret (mkLearnerProfileSnapshot capacity span).

Definition of_sitting (student_id session_id : uuid) (types : list SignalEventType) (e : SignalEvent) : bool :=
  (sig_student_id e == student_id) && (sig_session_id e == session_id) && bool_decide (sig_event_type e ∈ types).

(** [func.max] of some moments: none of none. *)
Definition latest (ts : list datetime) : option datetime :=
  match ts with [] => None | t :: ts' => Some (foldl Z.max t ts') end.

(** [SqlAlchemyAdaptationRateLimitRepository.state] *)
Definition rate_limit_state (student_id session_id : uuid) : M AdaptationRateLimitState :=
  history ← select SignalEvents (of_sitting student_id session_id ADAPTATION_HISTORY_EVENT_TYPES);
  shifts ← select SignalEvents (of_sitting student_id session_id MODALITY_SHIFT_EVENT_TYPES);
  mret (mkAdaptationRateLimitState (latest (map sig_timestamp (history : list SignalEvent)))
          (Z.of_nat (length (shifts : list SignalEvent)))).

Definition opt_json {A} (f : A → Json) (o : option A) : Json := match o with Some a => f a | None => JNull end.

(** A key that is left out when there is nothing to say. *)
Definition opt_field {A} (key : string) (f : A → Json) (o : option A) : list (string * Json) :=
  match o with Some a => [(key, f a)] | None => [] end.

(** The [event_data] of [log_suppressed]. *)
Definition suppressed_data (r : AdaptationRequest) (a : SuppressedAdaptationAttempt) : Json :=
  let s := aq_signals r in
  JObj ([("lessonId", JStr (uuid_str (aq_lesson_id r))); ("attemptedType", JStr (su_attempted_type a));
         ("reason", JStr (su_reason a))] ++
        opt_field "segmentId" JStr (su_current_segment_id a) ++
        opt_field "currentModality" (λ m, JStr (ContentModality_value m)) (su_current_modality a) ++
        opt_field "suggestedModality" (λ m, JStr (ContentModality_value m)) (su_suggested_modality a) ++
        [("adaptationConfidence", JFloat (su_confidence a));
         ("triggerSignals", JArr (map (λ t, JObj [("category", JStr (tr_category t)); ("name", JStr (tr_name t));
                                                  ("confidence", JFloat (tr_confidence t))]) (su_trigger_signals a)));
         ("signalSnapshot", JObj [
            ("currentSegmentElapsedSeconds", opt_json JInt (rs_current_segment_elapsed_seconds s));
            ("secondsSinceLastAdaptation", opt_json JInt (rs_seconds_since_last_adaptation s));
            ("sessionModalityShiftCount", opt_json JInt (rs_session_modality_shift_count s));
            ("engagementBelowBaselineSeconds", JInt (rs_engagement_below_baseline_seconds s));
            ("comprehensionScore", opt_json JFloat (rs_comprehension_score s));
            ("sessionAverageComprehension", opt_json JFloat (rs_session_average_comprehension s));
            ("consecutiveErrors", JInt (rs_consecutive_errors s));
            ("replayCountOnSegment", JInt (rs_replay_count_on_segment s));
            ("accuracyBelowBaseline", JBool (rs_accuracy_below_baseline s));
            ("responseTimeBelowBaseline", JBool (rs_response_time_below_baseline s))])])%list.

(** [log_suppressed] *)
Definition log_suppressed (r : AdaptationRequest) (a : SuppressedAdaptationAttempt) (timestamp : datetime) : M unit :=
  match aq_session_id r with
  | None => mret tt
  | Some session_id =>
    begin_ (i ← uuid4;
            insert SignalEvents (mkSignalEvent i (aq_student_id r) session_id ADAPTATION_SUPPRESSED (suppressed_data r a) timestamp))
  end.

(** ** The service *)

(** [_apply_rate_limits] *)
Definition apply_rate_limits (r : AdaptationRequest) (plan : AdaptationPlan) (now : datetime) : M AdaptationPlan :=
  attempt ← match violation_from_signals r plan, aq_session_id r with
    | Some a, _ => mret (Some a)
    | None, Some session_id =>
      state ← rate_limit_state (aq_student_id r) session_id;
      mret (violation_from_history r plan state now)
    | None, None => mret None
    end;
  match attempt with
  | None => mret plan
  | Some a => log_suppressed r a now;; mret (suppress_plan plan a)
  end.

(** The attempt logged for replays that are no evidence on their own. *)
Definition replay_attempt (s : RuntimeSignals) : SuppressedAdaptationAttempt :=
  mkSuppressedAdaptationAttempt "modality_shift" "insufficient_aligned_signals" (rs_current_segment_id s)
    (rs_current_modality s) None (f_ratio 68 100)
    [mkTriggerSignal "engagement" "replay_accumulation_without_comprehension_confirmation" (f_ratio 68 100)].

(** What [adapt] notes as held back before the limits. *)
Definition noted_attempt (r : AdaptationRequest) (p : LearnerProfileSnapshot) (plan : AdaptationPlan)
  : option SuppressedAdaptationAttempt :=
  let candidate := proactive_adjustment (aq_signals r) p (current_segment r) in
  match candidate, pl_proactive_adjustment plan with
  | Some a, None => Some (suppression_attempt r (plan <| pl_proactive_adjustment := candidate |>)
                            (depth_suppression_reason (pa_action a) r))
  | _, _ => if 3 <=? rs_replay_count_on_segment (aq_signals r) then Some (replay_attempt (aq_signals r)) else None
  end.

(** [adapt], the service wired with the limits kept in the database. *)
Definition adapt (r : AdaptationRequest) (now : datetime) : M AdaptationPlan :=
  p ← get_profile (aq_student_id r);
  let plan := rule_based_adaptation_plan r p in
  if aq_mode r == IN_LESSON then
    match noted_attempt r p plan with
    | Some a => log_suppressed r a now;; apply_rate_limits r (plan <| pl_suppressed_attempt := Some a |>) now
    | None => apply_rate_limits r plan now
    end
  else mret plan.

(** * Facts about adaptations

    What the engine proposes rests on evidence and can be carried out, keeps
    its limits, and is on record when it is held back; what a break offer
    says. *)

(** ** Proposals *)

(** Enough signals, of enough kinds, that together are sure enough. *)
Definition well_supported (s : RuntimeSignals) (evidence : list TriggerSignal) (confidence : float) : Prop :=
  let adapted_before := 0 < rs_session_adaptation_count s ∨ ∃ n, rs_session_modality_shift_count s = Some n ∧ 0 < n in
  (3 <= length evidence)%nat ∧ (∃ t t', t ∈ evidence ∧ t' ∈ evidence ∧ tr_category t ≠ tr_category t') ∧
  confidence = f_round 2 (f_quot (f_sum (map tr_confidence evidence)) (f_of_Z (Z.of_nat (length evidence)))) ∧
  (adapted_before → f_le (f_ratio 70 100) confidence = true) ∧
  (¬ adapted_before → f_le (f_ratio 60 100) confidence = true).

Lemma categories_two evidence :
  (2 <= length (categories evidence))%nat → ∃ t t', t ∈ evidence ∧ t' ∈ evidence ∧ tr_category t ≠ tr_category t'.
Proof.
  unfold categories. intros Hl. pose proof (NoDup_remove_dups (map tr_category evidence)) as Hnd.
  pose proof (elem_of_remove_dups (map tr_category evidence)) as Hin.
  destruct (remove_dups _) as [|c [|c' l]]; [simpl in Hl; lia..|].
  assert (c ∈ map tr_category evidence ∧ c' ∈ map tr_category evidence) as [Hc Hc'] by (split; apply Hin; set_solver).
  apply list_elem_of_fmap in Hc as (t & -> & Ht), Hc' as (t' & -> & Ht'). exists t, t'. split_and!; try done.
  intros Heq. rewrite Heq in Hnd. apply NoDup_cons in Hnd as [Hnd _]. set_solver.
Qed.

Lemma supported_spec s evidence :
  (3 <= length evidence)%nat → (2 <= length (categories evidence))%nat →
  f_le (confidence_threshold s) (combined_confidence evidence) = true →
  well_supported s evidence (combined_confidence evidence).
Proof.
  intros Hl Hc Hconf. unfold well_supported. split; [done|]. split; [by apply categories_two|].
  split; [unfold combined_confidence; rewrite bool_decide_false; [reflexivity|by intros ->; simpl in Hl; lia]|]. unfold confidence_threshold in Hconf.
  destruct (Z.ltb_spec 0 (rs_session_adaptation_count s)); cbn [orb] in Hconf; [split; [done|]; intros []; auto|].
  destruct (rs_session_modality_shift_count s) as [n|]; [|split; [|done]; intros [|(? & ? & _)]; [lia|done]].
  destruct (Z.ltb_spec 0 n); (split; [|]); try done.
  - intros []. right. by exists n.
  - intros [|(? & [= <-] & ?)]; lia.
Qed.

Lemma evidence_allows_spec s evidence :
  evidence_allows s evidence = true → well_supported s evidence (combined_confidence evidence).
Proof.
  unfold evidence_allows, MIN_ALIGNED_SIGNAL_COUNT, MIN_ALIGNED_SIGNAL_CATEGORIES.
  rewrite !andb_true_iff, !Nat.leb_le. intros [[Hl Hc] Hconf]. exact (supported_spec _ _ Hl Hc Hconf).
Qed.

(** What an adjustment carries is there: a hint is a hint of the segment, and
    a panel has its questions. *)
Definition can_be_shown (segment : option ContentSegment) (a : ProactiveAdjustment) : Prop :=
  (pa_action a = "offer_hint" → ∃ seg hint, segment = Some seg ∧ pa_hint a = Some hint ∧ hint ∈ seg_hints seg) ∧
  (pa_action a = "show_socratic_panel" →
     ∃ seg, segment = Some seg ∧ pa_guided_questions a = seg_guided_questions seg ∧ seg_guided_questions seg ≠ []).

Lemma stuck_adjustment_spec s segment confidence evidence a :
  stuck_adjustment s segment confidence evidence = Some a →
  can_be_shown segment a ∧ pa_confidence a = confidence ∧ pa_trigger_signals a = evidence ∧
  2 <= rs_consecutive_errors s ∧ pa_action a ∈ ["offer_hint"; "show_socratic_panel"].
Proof.
  unfold stuck_adjustment, ERRORS_BEFORE_A_HINT. destruct segment as [seg|]; [|done].
  destruct (Z.ltb_spec (rs_consecutive_errors s) 2); [done|].
  destruct (_ && rs_question_support_ready s) eqn:Hpanel.
  - intros [= <-]. rewrite !andb_true_iff, !negb_true_iff, bool_decide_eq_false in Hpanel.
    destruct Hpanel as [[_ Hq] _]. split_and!; try done; [|set_solver]. split; [done|]. intros _. by exists seg.
  - destruct (seg_hints seg) as [|hint hints] eqn:Hh; [done|]. intros [= <-]. split_and!; try done; [|set_solver].
    split; [|done]. intros _. exists seg, hint. rewrite Hh. split_and!; try done. set_solver.
Qed.

Lemma proactive_adjustment_spec s p segment a :
  proactive_adjustment s p segment = Some a →
  well_supported s (pa_trigger_signals a) (pa_confidence a) ∧ pa_segment_id a = rs_current_segment_id s ∧
  can_be_shown segment a.
Proof.
  unfold proactive_adjustment. destruct (_ && f_le _ _) eqn:Hpos.
  - intros [= <-]. unfold MIN_ALIGNED_SIGNAL_COUNT in Hpos. rewrite !andb_true_iff, !Nat.leb_le in Hpos. cbn.
    split; [apply supported_spec; tauto|]. by split.
  - destruct (evidence_allows s (trigger_signals s p)) eqn:Hev; [|done]. apply evidence_allows_spec in Hev. cbn [negb].
    destruct (stuck_adjustment _ _ _ _) as [b|] eqn:Hb.
    + intros [= <-]. apply stuck_adjustment_spec in Hb as ((Hhint & Hpanel) & Hc & Ht & _). destruct b. cbn in *. subst.
      split_and!; try done.
    + repeat case_match; try done; intros [= <-]; by split_and!.
Qed.

(** A rewrite is proposed only where the client, if it says which ones the
    segment on screen has, says so of this one; and not over itself. *)
Definition rewrite_exists (r : AdaptationRequest) (a : ProactiveAdjustment) : Prop :=
  ∀ depth, depth_by_action (pa_action a) = Some depth →
    rs_current_depth (aq_signals r) ≠ Some depth ∧
    ∀ seg depths, current_segment r = Some seg → seg_available_depths seg = Some depths → depth ∈ depths.

Lemma servable_adjustment_spec o r a : servable_adjustment o r = Some a → o = Some a ∧ rewrite_exists r a.
Proof.
  unfold servable_adjustment, rewrite_exists. destruct o as [b|]; [|done].
  destruct (depth_by_action (pa_action b)) as [depth|] eqn:Hd; [|intros [= <-]; split; [done|]; congruence].
  case_bool_decide as Hcur; [done|]. intros Hb.
  assert (b = a ∧ ∀ seg depths, current_segment r = Some seg → seg_available_depths seg = Some depths → depth ∈ depths)
    as [<- Hs].
  { destruct (current_segment r) as [seg|] eqn:Hseg; simpl in Hb; [|by simplify_eq].
    destruct (seg_available_depths seg) as [depths|] eqn:Hdep; [|simplify_eq; split; [done|]; congruence].
    case_bool_decide as Hin; simplify_eq. split; [done|]. congruence. }
  split; [done|]. intros depth' Hdepth'. rewrite Hd in Hdepth'. by simplify_eq.
Qed.

(** What a suggested modality is: one of those the client offers. *)
Definition fits_learner (s : RuntimeSignals) (m : ModalitySuggestion) : Prop :=
  mo_suggested m ∈ rs_available_modalities s ∧ rs_current_modality s ≠ Some (mo_suggested m) ∧
  mo_suggested m ∉ rs_declined_modalities s ∧ rs_same_segment_suggestion_shown s = false ∧ rs_session_decline_count s < 2 ∧
  ∀ n, rs_segments_since_last_suggestion s = Some n → 2 <= n.

Lemma modality_suggestion_spec s p m :
  modality_suggestion s p = Some m →
  fits_learner s m ∧ well_supported s (mo_trigger_signals m) (mo_adaptation_confidence m).
Proof.
  unfold modality_suggestion. destruct (modality_constraints_allow s) eqn:Hc; [|done]. cbn [negb].
  unfold modality_constraints_allow in Hc. rewrite !andb_true_iff, !negb_true_iff in Hc.
  destruct Hc as [[Hshown Hsince] Hdecl%Z.leb_gt].
  assert (∀ n, rs_segments_since_last_suggestion s = Some n → 2 <= n) as Hsince' by (intros n Hn; rewrite Hn in Hsince; lia).
  clear Hsince. destruct (_ || _); [done|].
  destruct (rs_current_modality s) as [current|] eqn:Hcur; [|done]. simpl.
  destruct (findb _ _) as [candidate|] eqn:Hcand; [|done]. simpl.
  destruct (evidence_allows _ _) eqn:Hev; [|done]. apply evidence_allows_spec in Hev. intros [= <-].
  apply findb_Some in Hcand as [Hcand Hin]. rewrite andb_true_iff, !negb_true_iff, !bool_decide_eq_false in Hcand.
  unfold fits_learner. rewrite Hcur. cbn. split_and!; try done; naive_solver.
Qed.

(** ** Limits *)

(** The moment of the last adaptation of a sitting on record, and how often
    its modality changed. *)
Definition history (r : AdaptationRequest) (db : Database) : option AdaptationRateLimitState :=
  (λ i, default (mkAdaptationRateLimitState None 0)
     match fst (rate_limit_state (aq_student_id r) i db) with inr s => Some s | inl _ => None end) <$> aq_session_id r.

(** The limits, by what the client reports and by what is on record. *)
Definition within_limits (r : AdaptationRequest) (shift : bool) (now : datetime) (db : Database) : Prop :=
  let s := aq_signals r in
  (rs_check_miss_pending s = false → below ADAPTATION_COOLDOWN_SECONDS (rs_seconds_since_last_adaptation s) = false) ∧
  (shift = true → rs_check_miss_pending s = false → below MIN_MODALITY_DWELL_SECONDS (rs_current_segment_elapsed_seconds s) = false) ∧
  (shift = true → reached MAX_MODALITY_SHIFTS_PER_SESSION (rs_session_modality_shift_count s) = false) ∧
  ∀ h, history r db = Some h →
    (∀ t, rs_check_miss_pending s = false → rl_last_adaptation_at h = Some t →
       f_lt (total_seconds (now - t)) (f_of_Z ADAPTATION_COOLDOWN_SECONDS) = false) ∧
    (shift = true → rl_modality_shift_count h < MAX_MODALITY_SHIFTS_PER_SESSION).

(** An adaptation of the sitting that is on record, and the last one. *)
Definition on_record (r : AdaptationRequest) (db : Database) (e : SignalEvent) : Prop :=
  e ∈ (db_tables db SignalEvents : list SignalEvent) ∧ sig_student_id e = aq_student_id r ∧
  aq_session_id r = Some (sig_session_id e) ∧
  sig_event_type e ∈ [SIMPLIFY_TRIGGER; EXPAND_TRIGGER; SLOWER_TRIGGER; MODALITY_SUGGESTION_ACCEPTED; HINT_OFFERED;
                      GUIDED_QUESTION_SHOWN].
Definition last_on_record (r : AdaptationRequest) (db : Database) (e : SignalEvent) : Prop :=
  on_record r db e ∧ ∀ e', on_record r db e' → sig_timestamp e' <= sig_timestamp e.

(** Two minutes since the last adaptation and, for a change of modality, a
    minute and a half on the segment, unless a wrong answer was just given;
    and fewer than three changes of modality so far. *)
Definition spaced_out (r : AdaptationRequest) (shift : bool) (now : datetime) (db : Database) : Prop :=
  let s := aq_signals r in
  (rs_check_miss_pending s = false →
     (∀ n, rs_seconds_since_last_adaptation s = Some n → 120 <= n) ∧
     (∀ e, last_on_record r db e → f_lt (total_seconds (now - sig_timestamp e)) (f_of_Z 120) = false) ∧
     (shift = true → ∀ n, rs_current_segment_elapsed_seconds s = Some n → 90 <= n)) ∧
  (shift = true →
     (∀ n, rs_session_modality_shift_count s = Some n → n < 3) ∧
     ∀ es, NoDup es → (∀ e, e ∈ es → on_record r db e ∧ sig_event_type e = MODALITY_SUGGESTION_ACCEPTED) → (length es < 3)%nat).

Lemma latest_spec ts t : t ∈ ts → (∀ t', t' ∈ ts → t' <= t) → latest ts = Some t.
Proof.
  destruct ts as [|a ts]; [set_solver|]. cbn. intros Hin Hmax. f_equal. revert a Hin Hmax.
  induction ts as [|b ts IH]; intros a Hin Hmax; [set_solver|]. cbn. apply IH.
  - pose proof (Hmax a ltac:(set_solver)). pose proof (Hmax b ltac:(set_solver)). set_unfold.
    destruct Hin as [->|[->|?]]; [left; lia..|by right].
  - intros t' Ht'. set_unfold. destruct Ht' as [->|?]; [|apply Hmax; auto].
    pose proof (Hmax a ltac:(auto)). pose proof (Hmax b ltac:(auto)). lia.
Qed.

Lemma on_record_spec r db i e :
  aq_session_id r = Some i →
  on_record r db e ↔ e ∈ filterb (of_sitting (aq_student_id r) i ADAPTATION_HISTORY_EVENT_TYPES) (db_tables db SignalEvents).
Proof.
  intros Hi. rewrite elem_of_filterb. unfold on_record, of_sitting. rewrite !andb_true_iff, !bool_decide_eq_true, Hi.
  naive_solver.
Qed.

Lemma within_spaced r shift now db : within_limits r shift now db → spaced_out r shift now db.
Proof.
  intros (Hcool & Hdwell & Hshift & Hhist). unfold spaced_out. split.
  - intros Hm. split_and!.
    + intros n Hn. specialize (Hcool Hm). rewrite Hn in Hcool. unfold below, ADAPTATION_COOLDOWN_SECONDS in Hcool. lia.
    + intros e [He Hlast]. pose proof He as (_ & _ & Hi & _). unfold history in Hhist. rewrite Hi in Hhist.
      destruct (Hhist _ eq_refl) as [Ht _]. apply Ht; [done|]. cbn. apply latest_spec.
      * apply (list_elem_of_fmap_2 sig_timestamp). by apply (on_record_spec r db _ e Hi).
      * intros t' (e' & -> & He')%list_elem_of_fmap. apply Hlast. by apply (on_record_spec r db _ e' Hi).
    + intros Hs n Hn. specialize (Hdwell Hs Hm). rewrite Hn in Hdwell. unfold below, MIN_MODALITY_DWELL_SECONDS in Hdwell. lia.
  - intros Hs. split.
    + intros n Hn. specialize (Hshift Hs). rewrite Hn in Hshift. unfold reached, MAX_MODALITY_SHIFTS_PER_SESSION in Hshift. lia.
    + intros es Hnd Hes. destruct es as [|e0 es']; [simpl; lia|]. set (es := e0 :: es') in *.
      destruct (Hes e0 ltac:(set_solver)) as [(_ & _ & Hi & _) _]. unfold history in Hhist. rewrite Hi in Hhist.
      destruct (Hhist _ eq_refl) as [_ Hcount]. specialize (Hcount Hs).
      change (Z.of_nat (length (filterb (of_sitting (aq_student_id r) (sig_session_id e0) MODALITY_SHIFT_EVENT_TYPES)
        (db_tables db SignalEvents))) < 3) in Hcount.
      assert (es ⊆+ filterb (of_sitting (aq_student_id r) (sig_session_id e0) MODALITY_SHIFT_EVENT_TYPES) (db_tables db SignalEvents))
        as Hsub%submseteq_length.
      { apply NoDup_submseteq; [done|]. intros e He. destruct (Hes e He) as [(Hin & Hst & Hse & _) Hty].
        apply elem_of_filterb. split; [|done]. unfold of_sitting, MODALITY_SHIFT_EVENT_TYPES.
        rewrite Hi in Hse. injection Hse as ->. rewrite Hst, Hty, !andb_true_iff, !bool_decide_eq_true. set_solver. }
      lia.
Qed.

(** The event a held back adaptation leaves. *)
Definition suppressed_event (r : AdaptationRequest) (a : SuppressedAdaptationAttempt) (now : datetime) (e : SignalEvent) : Prop :=
  sig_event_type e = ADAPTATION_SUPPRESSED ∧ sig_student_id e = aq_student_id r ∧ aq_session_id r = Some (sig_session_id e) ∧
  sig_timestamp e = now ∧ sig_event_data e = suppressed_data r a.

(** The log of a sitting grew by these attempts, and nothing else changed. *)
Definition logged (r : AdaptationRequest) (now : datetime) (attempts : list SuppressedAdaptationAttempt) (db db' : Database) : Prop :=
  ∃ es, db_tables db' SignalEvents = (db_tables db SignalEvents ++ es)%list ∧
    (aq_session_id r = None → es = []) ∧
    (is_Some (aq_session_id r) → Forall2 (λ a e, suppressed_event r a now e) attempts es) ∧
    (∀ t, t ≠ SignalEvents → db_tables db' t = db_tables db t) ∧ db_wf db'.

Lemma logged_nil r now db : db_wf db → logged r now [] db db.
Proof. intros Hwf. exists []. rewrite app_nil_r. split_and!; try done. Qed.

Lemma logged_app r now l1 l2 db db1 db2 :
  logged r now l1 db db1 → logged r now l2 db1 db2 → logged r now (l1 ++ l2) db db2.
Proof.
  intros (es1 & H1 & Hn1 & Hs1 & Hf1 & _) (es2 & H2 & Hn2 & Hs2 & Hf2 & Hwf). exists (es1 ++ es2)%list.
  split_and!; [by rewrite H2, H1, app_assoc| |..]; try done.
  - intros Hnone. by rewrite Hn1, Hn2.
  - intros Hsome. by apply Forall2_app; auto.
  - intros t Ht. by rewrite Hf2, Hf1.
Qed.

Lemma log_suppressed_run r a now (db : Database) :
  db_wf db → ∃ db', log_suppressed r a now db = (inr tt, db') ∧ logged r now [a] db db'.
Proof.
  intros Hwf. unfold log_suppressed. destruct (aq_session_id r) as [i|] eqn:Hi.
  - set (mk n := mkSignalEvent n (aq_student_id r) i ADAPTATION_SUPPRESSED (suppressed_data r a) now).
    assert (table_ok SignalEvents (db_tables db SignalEvents ++ [mk (db_uuids db)])%list = true) as Hok.
    { destruct Hwf as [Hok Hfresh]. apply (unique_on_id_snoc SignalEvents db); [done|done|].
      exact (proj1 (db_ok_spec db) Hok SignalEvents). }
    exists (appended SignalEvents mk db). split; [exact (append_run SignalEvents IntegrityError mk db Hwf Hok)|].
    exists [mk (db_uuids db)]. split_and!.
    + by rewrite appended_eq.
    + by rewrite Hi.
    + intros _. repeat constructor. by rewrite Hi.
    + intros t Ht. by rewrite appended_ne.
    + by apply appended_wf.
  - exists db. split; [done|]. exists []. rewrite app_nil_r, Hi. split_and!; try done.
Qed.

(** [_apply_rate_limits]: either the plan stands and is within the limits, or
    what it proposed is dropped and logged. *)
Lemma apply_rate_limits_run r plan now (db : Database) :
  db_wf db →
  (∃ plan' db', apply_rate_limits r plan now db = (inr plan', db') ∧
    ((plan' = plan ∧ db' = db ∧
      (has_suppressible_adaptation plan = true → within_limits r (is_some (pl_modality_suggestion plan)) now db)) ∨
     ∃ a, plan' = suppress_plan plan a ∧ logged r now [a] db db' ∧ has_suppressible_adaptation plan = true ∧
       ∃ reason, a = suppression_attempt r plan reason)).
Proof.
  intros Hwf. unfold apply_rate_limits.
  assert (∀ attempt : option SuppressedAdaptationAttempt,
    (∀ a, attempt = Some a → has_suppressible_adaptation plan = true ∧ ∃ reason, a = suppression_attempt r plan reason) →
    (attempt = None → has_suppressible_adaptation plan = true → within_limits r (is_some (pl_modality_suggestion plan)) now db) →
    ∃ plan' db', match attempt with None => mret plan | Some a => log_suppressed r a now;; mret (suppress_plan plan a) end db
      = (inr plan', db') ∧
    ((plan' = plan ∧ db' = db ∧
      (has_suppressible_adaptation plan = true → within_limits r (is_some (pl_modality_suggestion plan)) now db)) ∨
     ∃ a, plan' = suppress_plan plan a ∧ logged r now [a] db db' ∧ has_suppressible_adaptation plan = true ∧
       ∃ reason, a = suppression_attempt r plan reason)) as Hfinish.
  { intros [a|] Hsome Hnone; [|exists plan, db; split; [done|]; left; split_and!; auto].
    destruct (log_suppressed_run r a now db Hwf) as (db' & Hrun & Hlog). destruct (Hsome a eq_refl).
    exists (suppress_plan plan a), db'. rewrite (bind_inr _ _ _ _ _ Hrun). split; [done|]. right. by exists a. }
  assert (∀ a, violation_from_signals r plan = Some a →
    has_suppressible_adaptation plan = true ∧ ∃ reason, a = suppression_attempt r plan reason) as Hsig.
  { unfold violation_from_signals. intros a. destruct (has_suppressible_adaptation plan); [|done]. cbn [negb].
    repeat case_match; try done; intros [= <-]; eauto. }
  destruct (violation_from_signals r plan) as [a|] eqn:Hv.
  { apply (Hfinish (Some a)); [exact Hsig|done]. }
  assert (has_suppressible_adaptation plan = true →
    (rs_check_miss_pending (aq_signals r) = false → below ADAPTATION_COOLDOWN_SECONDS (rs_seconds_since_last_adaptation (aq_signals r)) = false) ∧
    (is_some (pl_modality_suggestion plan) = true → rs_check_miss_pending (aq_signals r) = false →
       below MIN_MODALITY_DWELL_SECONDS (rs_current_segment_elapsed_seconds (aq_signals r)) = false) ∧
    (is_some (pl_modality_suggestion plan) = true →
       reached MAX_MODALITY_SHIFTS_PER_SESSION (rs_session_modality_shift_count (aq_signals r)) = false)) as Hreported.
  { unfold violation_from_signals in Hv. intros Hs. rewrite Hs in Hv. cbn [negb] in Hv. clear Hfinish Hsig.
    destruct (is_some _), (rs_check_miss_pending _), (below MIN_MODALITY_DWELL_SECONDS _), (below ADAPTATION_COOLDOWN_SECONDS _),
      (reached _ _); done. }
  destruct (aq_session_id r) as [i|] eqn:Hi.
  - rewrite bind_run. erewrite bind_inr by reflexivity. set (h := mkAdaptationRateLimitState _ _).
    assert (history r db = Some h) as Hh by (unfold history; by rewrite Hi).
    apply (Hfinish (violation_from_history r plan h now)).
    + unfold violation_from_history. intros a. destruct (has_suppressible_adaptation plan); [|done]. cbn [negb].
      repeat case_match; try done; intros [= <-]; eauto.
    + intros Hvh Hs. destruct (Hreported Hs) as (H1 & H2 & H3). unfold within_limits. split_and!; try done.
      intros h' Hh'. rewrite Hh in Hh'. injection Hh' as <-.
      unfold violation_from_history in Hvh. rewrite Hs in Hvh. cbn [negb] in Hvh. clear -Hvh.
      destruct (rl_last_adaptation_at h) as [t|], (rs_check_miss_pending _), (is_some _),
        (Z.leb_spec MAX_MODALITY_SHIFTS_PER_SESSION (rl_modality_shift_count h)); try done; try (split; [done|intros; lia]).
      all: destruct (f_lt _ _) eqn:Hlt; try done; split; try (intros; lia); intros ? _ [= <-]; done.
  - apply (Hfinish None); [done|]. intros _ Hs. destruct (Hreported Hs) as (H1 & H2 & H3). unfold within_limits.
    split_and!; try done. intros h. unfold history. by rewrite Hi.
Qed.

(** ** The service *)

Lemma rate_limit_state_run student i (db : Database) :
  rate_limit_state student i db =
    (inr (mkAdaptationRateLimitState
       (latest (map sig_timestamp (filterb (of_sitting student i ADAPTATION_HISTORY_EVENT_TYPES) (db_tables db SignalEvents))))
       (Z.of_nat (length (filterb (of_sitting student i MODALITY_SHIFT_EVENT_TYPES) (db_tables db SignalEvents))))), db).
Proof. done. Qed.

(** Events of held back adaptations do not count against the limits. *)
Lemma history_logged r now attempts db db' : logged r now attempts db db' → history r db' = history r db.
Proof.
  intros (es & Hes & _ & Hev & _). unfold history. destruct (aq_session_id r) as [i|] eqn:Hi; [|done]. cbn. do 2 f_equal.
  assert (∀ types, ADAPTATION_SUPPRESSED ∉ types →
    filterb (of_sitting (aq_student_id r) i types) (db_tables db' SignalEvents) =
    filterb (of_sitting (aq_student_id r) i types) (db_tables db SignalEvents)) as Hskip.
  { intros types Htypes. rewrite Hes. unfold filterb. rewrite filter_app.
    rewrite <- (app_nil_r (filter _ (db_tables db SignalEvents))) at 2. f_equal. specialize (Hev ltac:(by eexists)).
    clear Hes. induction Hev as [|a e as_ es He _ IH]; [done|]. rewrite filter_cons, decide_False; [exact IH|].
    destruct He as (Hty & _). unfold of_sitting. rewrite Hty, (bool_decide_false _ Htypes), andb_false_r. done. }
  rewrite !rate_limit_state_run, !Hskip; [done|unfold MODALITY_SHIFT_EVENT_TYPES|unfold ADAPTATION_HISTORY_EVENT_TYPES]; set_solver.
Qed.

Lemma within_limits_logged r shift now attempts db db' :
  logged r now attempts db db' → within_limits r shift now db' → within_limits r shift now db.
Proof. intros Hlog. unfold within_limits. by rewrite (history_logged _ _ _ _ _ Hlog). Qed.

(** The next read of a block of reads. *)
Ltac next_read :=
  match goal with |- ∃ r, (?m ≫= ?f) ?db = (r, ?db) =>
    let H := fresh in
    assert (∃ o, m db = (o, db)) as ([?|?] & H);
    [|rewrite (bind_inl _ _ _ _ _ H); by eexists|rewrite (bind_inr _ _ _ _ _ H)] end.

Lemma get_profile_reads student (db : Database) : ∃ r, get_profile student db = (r, db).
Proof.
  unfold get_profile. erewrite bind_inr by reflexivity. erewrite bind_inr by reflexivity. cbv zeta.
  next_read; [unfold baseline_of; repeat case_match; by eexists|].
  next_read; [unfold capacity_of; repeat case_match; by eexists|].
  next_read; [|by eexists]. destruct (json_truthy _); [|by eexists]. unfold lift. destruct (json_round _); by eexists.
Qed.

(** What [adapt] does in a lesson: the plan of the rules, what is noted as
    held back, and the limits. *)
Lemma adapt_run r now (db : Database) plan db' :
  db_wf db → aq_mode r = IN_LESSON → adapt r now db = (inr plan, db') →
  ∃ p noted db1, fst (get_profile (aq_student_id r) db) = inr p ∧
    let rule := rule_based_adaptation_plan r p in
    noted_attempt r p rule = noted ∧ logged r now (option_list noted) db db1 ∧
    ∃ held, pl_suppressed_attempt plan = match held with Some a => Some a | None => noted end ∧
      logged r now (option_list held) db1 db' ∧
      match held with
      | None =>
        pl_proactive_adjustment plan = pl_proactive_adjustment rule ∧
        pl_modality_suggestion plan = pl_modality_suggestion rule ∧
        (has_suppressible_adaptation rule = true → within_limits r (is_some (pl_modality_suggestion rule)) now db)
      | Some a =>
        pl_proactive_adjustment plan = None ∧ pl_modality_suggestion plan = None ∧ has_suppressible_adaptation rule = true ∧
        ∃ reason, a = suppression_attempt r rule reason
      end.
Proof.
  intros Hwf Hmode Hrun. unfold adapt in Hrun. destruct (get_profile_reads (aq_student_id r) db) as ([e|p] & Hp).
  { by rewrite (bind_inl _ _ _ _ _ Hp) in Hrun. }
  rewrite (bind_inr _ _ _ _ _ Hp), Hmode in Hrun. cbn [AdaptationMode_eq_dec] in Hrun.
  rewrite bool_decide_true in Hrun by done.
  exists p, (noted_attempt r p (rule_based_adaptation_plan r p)).
  destruct (noted_attempt r p (rule_based_adaptation_plan r p)) as [a|] eqn:Hn.
  - destruct (log_suppressed_run r a now db Hwf) as (db1 & Hlog1 & Hl1). rewrite (bind_inr _ _ _ _ _ Hlog1) in Hrun.
    exists db1. rewrite Hp. split; [done|]. cbv zeta. split; [done|]. split; [exact Hl1|].
    set (plan1 := (rule_based_adaptation_plan r p) <| pl_suppressed_attempt := Some a |>) in *.
    destruct (apply_rate_limits_run r plan1 now db1) as (plan' & db2 & Hr2 & Hcase); [by destruct Hl1 as (? & _ & _ & _ & _ & ?)|].
    rewrite Hr2 in Hrun. injection Hrun as -> ->. destruct Hcase as [(-> & -> & Hlim)|(b & -> & Hl2 & Hs & reason & ->)].
    + exists None. split_and!; try done; [apply logged_nil; by destruct Hl1 as (? & _ & _ & _ & _ & ?)|].
      intros Hs. eapply within_limits_logged; [exact Hl1|]. by apply Hlim.
    + eexists (Some _). split_and!; try done. by exists reason.
  - exists db. rewrite Hp. split; [done|]. cbv zeta. split; [done|]. split; [by apply logged_nil|].
    destruct (apply_rate_limits_run r (rule_based_adaptation_plan r p) now db Hwf) as (plan' & db2 & Hr2 & Hcase).
    rewrite Hr2 in Hrun. injection Hrun as -> ->. destruct Hcase as [(-> & -> & Hlim)|(b & -> & Hl2 & Hs & reason & ->)].
    + exists None. split_and!; try done. by apply logged_nil.
    + eexists (Some _). split_and!; try done. by exists reason.
Qed.

Lemma adapt_outside_lessons r now (db : Database) plan db' :
  aq_mode r = LESSON_LOAD → adapt r now db = (inr plan, db') →
  pl_proactive_adjustment plan = None ∧ pl_modality_suggestion plan = None ∧ db' = db.
Proof.
  intros Hmode Hrun. unfold adapt in Hrun. destruct (get_profile_reads (aq_student_id r) db) as ([e|p] & Hp).
  { by rewrite (bind_inl _ _ _ _ _ Hp) in Hrun. }
  rewrite (bind_inr _ _ _ _ _ Hp), Hmode in Hrun. rewrite bool_decide_false in Hrun by done. injection Hrun as <- <-.
  unfold rule_based_adaptation_plan. cbn. by rewrite Hmode.
Qed.

(** C25: an adaptation is earned, possible by what the client reports, and spaced out. Outside
    a lesson nothing is proposed. In a lesson an adjustment or a change of modality is
    proposed only on three signals or more, of two kinds at least, whose mean confidence is
    0.6, or 0.7 once the sitting was adapted; a hint is one of the segment's and a panel has
    the segment's questions; a rewrite is not the one on screen and, where the client reports
    the rewrites of the segment, one of them; a modality is one the client offers, not the
    current one, none the learner declined, and no second suggestion on a segment nor after
    two refusals. Neither comes within two minutes of the last adaptation, by the client's
    report or on record, nor a modality after less than ninety seconds on the segment - unless
    a wrong answer was just given - or once three changes were accepted. *)
Theorem adaptations_are_earned r now (db : Database) plan db' :
  db_wf db → adapt r now db = (inr plan, db') →
  (aq_mode r = LESSON_LOAD → pl_proactive_adjustment plan = None ∧ pl_modality_suggestion plan = None ∧ db' = db) ∧
  (∀ a, pl_proactive_adjustment plan = Some a →
     well_supported (aq_signals r) (pa_trigger_signals a) (pa_confidence a) ∧
     pa_segment_id a = rs_current_segment_id (aq_signals r) ∧ can_be_shown (current_segment r) a ∧ rewrite_exists r a ∧
     spaced_out r (is_some (pl_modality_suggestion plan)) now db) ∧
  (∀ m, pl_modality_suggestion plan = Some m →
     well_supported (aq_signals r) (mo_trigger_signals m) (mo_adaptation_confidence m) ∧ fits_learner (aq_signals r) m ∧
     spaced_out r true now db).
Proof.
  intros Hwf Hrun. split; [intros Hmode; by eapply adapt_outside_lessons|].
  destruct (aq_mode r) eqn:Hmode.
  { destruct (adapt_outside_lessons r now db plan db' Hmode Hrun) as (-> & -> & _). done. }
  destruct (adapt_run r now db plan db' Hwf Hmode Hrun) as (p & noted & db1 & _ & Hrule). cbv zeta in Hrule.
  destruct Hrule as (_ & _ & held & _ & _ & Hheld). destruct held as [b|].
  { destruct Hheld as (-> & -> & _). done. }
  destruct Hheld as (-> & -> & Hlim). unfold rule_based_adaptation_plan in *. rewrite Hmode in *.
  rewrite bool_decide_true in * by done. cbn [pl_proactive_adjustment pl_modality_suggestion] in *. split.
  - intros a Ha. unfold has_suppressible_adaptation in Hlim. cbn [pl_proactive_adjustment pl_modality_suggestion] in Hlim.
    rewrite Ha, orb_true_r in Hlim. apply servable_adjustment_spec in Ha as [Ha Hw].
    destruct (proactive_adjustment_spec _ _ _ _ Ha) as (? & ? & ?). split_and!; try done. by apply within_spaced, Hlim.
  - intros m Hm. unfold has_suppressible_adaptation in Hlim. cbn [pl_proactive_adjustment pl_modality_suggestion] in Hlim.
    rewrite Hm in Hlim. destruct (modality_suggestion_spec _ _ _ Hm) as (? & ?). split_and!; try done. by apply within_spaced, Hlim.
Qed.

(** C26: what is held back is on record. In a lesson that has a sitting, each adaptation the
    rules proposed is either in the plan or dropped together with the other, and then the plan
    says so and so does the log, with the same data; a rewrite that does not exist is noted
    too. At most two events are written, both of this sitting, and nothing else changes. *)
Theorem held_back_is_on_record r now (db : Database) plan db' :
  db_wf db → aq_mode r = IN_LESSON → is_Some (aq_session_id r) → adapt r now db = (inr plan, db') →
  ∃ p attempts es, fst (get_profile (aq_student_id r) db) = inr p ∧
    db_tables db' SignalEvents = (db_tables db SignalEvents ++ es)%list ∧ Forall2 (λ a e, suppressed_event r a now e) attempts es ∧
    (length attempts <= 2)%nat ∧ pl_suppressed_attempt plan = last attempts ∧
    (∀ t, t ≠ SignalEvents → db_tables db' t = db_tables db t) ∧
    let rule := rule_based_adaptation_plan r p in
    ((pl_proactive_adjustment plan, pl_modality_suggestion plan) = (pl_proactive_adjustment rule, pl_modality_suggestion rule) ∨
     pl_proactive_adjustment plan = None ∧ pl_modality_suggestion plan = None ∧
     ∃ reason, last attempts = Some (suppression_attempt r rule reason)) ∧
    (is_Some (proactive_adjustment (aq_signals r) p (current_segment r)) → pl_proactive_adjustment plan = None → attempts ≠ []).
Proof.
  intros Hwf Hmode Hsess Hrun.
  destruct (adapt_run r now db plan db' Hwf Hmode Hrun) as (p & noted & db1 & Hp & Hrule). cbv zeta in Hrule.
  destruct Hrule as (Hnoted & Hl1 & held & Hsup & Hl2 & Hheld).
  pose proof (logged_app r now _ _ _ _ _ Hl1 Hl2) as (es & Hes & _ & Hev & Hframe & _).
  exists p, (option_list noted ++ option_list held)%list, es. split; [done|]. split; [done|]. split; [by apply Hev|]. split.
  { destruct noted, held; simpl; lia. }
  split. { rewrite Hsup. destruct noted, held; done. }
  split; [done|]. cbv zeta. destruct held as [b|].
  - destruct Hheld as (-> & -> & _ & reason & ->). split; [|by destruct noted]. right. split_and!; try done. exists reason.
    by destruct noted.
  - destruct Hheld as (Ha & Hm & _). split; [left; by rewrite Ha, Hm|]. intros [c Hc] Hnone Hempty. rewrite Ha in Hnone.
    unfold noted_attempt in Hnoted. rewrite Hc, Hnone in Hnoted. by destruct noted.
Qed.

(** ** Breaks *)

(** C27: a break is offered for what was seen, and the day is never ended lightly. Nothing is
    offered while a break is under way or within two minutes of a refusal, nor when no
    threshold was reached; otherwise the offer names exactly the thresholds reached, each
    once, is mild for one of them, medium for two and high for more, and its reason lists
    them. A struggling learner is sent home exactly when there were two breaks already or
    nothing is left to teach differently; short of that the break is a full one after a first
    break or three errors in a row, and a short one otherwise. Nobody else is sent home: three
    thresholds at once are a full break, and tiredness alone is answered with movement. *)
Theorem breaks_follow_the_signals s p :
  let offer := monitor_break_thresholds s p in
  let triggered := bt_triggered_thresholds offer in
  let sent_home := 2 <= rs_session_break_count s ∨ rs_reteaching_exhausted s = true in
  (bt_break_type offer = None ↔ left_alone s ∨ ∀ t, ¬ reaches s p t) ∧
  (bt_break_type offer = None → triggered = [] ∧ bt_severity offer = SEVERITY_NONE ∧ bt_reason offer = None) ∧
  (∀ b, bt_break_type offer = Some b →
     (∀ t, t ∈ triggered ↔ reaches s p t) ∧ NoDup triggered ∧ as_strong_as (length triggered) (bt_severity offer) ∧
     (∃ what, bt_reason offer = Some (what ++ ": " ++ join ", " (map BreakThreshold_value triggered) ++ ".")) ∧
     (struggling s p →
        (b = STOP_FOR_DAY ↔ sent_home) ∧
        (b = FULL ↔ ¬ sent_home ∧ (1 <= rs_session_break_count s ∨ 3 <= rs_consecutive_errors s)) ∧
        b ∈ [MICRO; FULL; STOP_FOR_DAY]) ∧
     (¬ struggling s p → b ≠ STOP_FOR_DAY ∧ ((3 <= length triggered)%nat → b = FULL)) ∧
     ((∀ t, reaches s p t → t = TIME_THRESHOLD) → b = MOVEMENT)).
Proof.
  cbv zeta. rewrite <- break_muted_spec. unfold monitor_break_thresholds. destruct (break_muted s); [by split_and!; [split; auto|..]|].
  case_bool_decide as Hnone.
  - split_and!; try done. split; [|done]. intros _. right. intros t Hf%fired_reached%fired_in. rewrite Hnone in Hf. set_solver.
  - cbn [bt_triggered_thresholds bt_severity bt_break_type bt_reason].
    split; [split; [done|]|split; [done|]].
    { intros [?|Hall]; [done|]. destruct (filterb (fired s p) threshold_order) as [|t l] eqn:Hl; [done|].
      destruct (Hall t). apply fired_reached, fired_in. rewrite Hl. set_solver. }
    intros b [= <-]. split; [intros t; by rewrite fired_in, fired_reached|]. split; [apply thresholds_once|].
    split; [by apply severity_spec|]. split; [by apply reason_lists|].
    split; [apply break_of_the_struggling|]. split; [apply break_of_the_others|]. by apply break_of_the_tired.
Qed.
