(* ===== verification/Scaffolds.v ===== *)
(** * How much support a problem gets

    [src/nevo/intelligence/scaffolds.py], [scaffold_service.py] and
    [scaffold_repositories.py]: four rungs of support on a concept, left for
    the next after three unaided correct answers and taken back up on a wrong
    one. *)

From Stdlib Require Import String.
From S2P Require Import Prelude Relational Upsert Text Vocabulary LearningVocabulary Schema Json.

Local Open Scope string_scope.
Local Open Scope Z_scope.
Local Open Scope nevo_scope.

(** ** Entities *)

Record ScaffoldConceptState := mkScaffoldConceptState {
  sc_student_id : uuid; sc_concept_id : uuid; sc_current_intensity : ScaffoldIntensity; sc_consecutive_correct : Z;
  sc_response_time_improvement_streak : Z; sc_reduced_hint_streak : Z; sc_last_response_time_ms : option Z;
  sc_last_hint_count : option Z
}.

Record ScaffoldProblemAttempt := mkScaffoldProblemAttempt {
  at_student_id : uuid; at_concept_id : uuid; at_problem_id : string; at_response_correct : bool;
  at_scaffold_intensity : option ScaffoldIntensity; at_response_time_ms : option Z;
  at_expected_response_time_ms : option Z; at_hint_count : Z; at_counts_as_independent : bool
}.

Record ScaffoldDecision := mkScaffoldDecision {
  sd_state : ScaffoldConceptState; sd_previous_intensity : ScaffoldIntensity; sd_next_intensity : ScaffoldIntensity;
  sd_outcome : ScaffoldOutcome; sd_level_changed : bool; sd_change_reason : option string; sd_student_message : string
}.

Record ScaffoldProblemLogEntry := mkScaffoldProblemLogEntry {
  le_student_id : uuid; le_concept_id : uuid; le_problem_id : string; le_scaffold_intensity : ScaffoldIntensity;
  le_outcome : ScaffoldOutcome; le_response_time_ms : option Z; le_expected_response_time_ms : option Z; le_hint_count : Z;
  le_next_scaffold_intensity : ScaffoldIntensity; le_level_changed : bool; le_change_reason : option string
}.

(** ** The engine *)

Definition FADE_AFTER_CONSECUTIVE_CORRECT : Z := 3.

(** The rungs in order: [INTENSITY_ORDER[index + 1]] and [[index - 1]], where
    they exist. *)
Definition INTENSITY_ORDER : list ScaffoldIntensity := [FULL_SUPPORT; PARTIAL_SUPPORT; HINTS_ONLY; INDEPENDENT].

Definition index (i : ScaffoldIntensity) : nat :=
  match i with FULL_SUPPORT => 0 | PARTIAL_SUPPORT => 1 | HINTS_ONLY => 2 | INDEPENDENT => 3 end%nat.

(** [d.get(key)] of a decoded value. *)
Definition get_key (key : string) (j : Json) : exn + Json :=
  match j with JObj fields => inr (field key fields) | _ => inl AttributeError end.

(** [initial_scaffold_intensity] *)
Definition initial_scaffold_intensity (config : Json) : exn + ScaffoldIntensity :=
  match get_key "support" config with
  | inl e => inl e
  | inr support =>
    match json_or support (JObj []) with
    | JObj fields =>
      match assoc "initialScaffoldLevel" fields with
      | Some (JStr level) =>
        inr (if level == "strong" then FULL_SUPPORT else if level == "standard" then PARTIAL_SUPPORT
             else if level == "light" then HINTS_ONLY else if level == "none" then INDEPENDENT else PARTIAL_SUPPORT)
      | Some (JArr _ | JObj _) => inl TypeError
      | _ => inr PARTIAL_SUPPORT
      end
    | _ => inl AttributeError
    end
  end.

(** [initial_state] *)
Definition first_state (student_id concept_id : uuid) (intensity : ScaffoldIntensity) : ScaffoldConceptState :=
  mkScaffoldConceptState student_id concept_id intensity 0 0 0 None None.

(** A correct answer that was helped. *)
Definition supported_pass (a : ScaffoldProblemAttempt) : bool :=
  at_response_correct a && (negb (at_counts_as_independent a) || (0 <? at_hint_count a)).

(** [_mastery_signal_met] *)
Definition mastery_signal_met (s : ScaffoldConceptState) (a : ScaffoldProblemAttempt) : bool :=
  if negb (at_response_correct a) || (0 <? at_hint_count a) then false
  else if match sc_last_hint_count s with Some n => n <? at_hint_count a | None => false end then false
  else at_counts_as_independent a.

(** [_response_time_streak] and [_hint_streak] *)
Definition response_time_streak (s : ScaffoldConceptState) (a : ScaffoldProblemAttempt) : Z :=
  match sc_last_response_time_ms s, at_response_time_ms a with
  | Some last, Some ms => if ms <=? last then sc_response_time_improvement_streak s + 1 else 0
  | _, _ => sc_response_time_improvement_streak s
  end.
Definition hint_streak (s : ScaffoldConceptState) (a : ScaffoldProblemAttempt) : Z :=
  match sc_last_hint_count s with
  | None => sc_reduced_hint_streak s
  | Some last => if at_hint_count a <=? last then sc_reduced_hint_streak s + 1 else 0
  end.

(** [_fade_if_ready] *)
Definition fade_if_ready (current : ScaffoldIntensity) (consecutive_correct : Z) : ScaffoldIntensity * option string :=
  if consecutive_correct <? FADE_AFTER_CONSECUTIVE_CORRECT then (current, None)
  else match nth_error INTENSITY_ORDER (S (index current)) with
       | Some next => (next, Some "mastery_signals_accumulated")
       | None => (current, None)
       end.

(** [_support_if_needed] *)
Definition support_if_needed (current : ScaffoldIntensity) : ScaffoldIntensity * option string :=
  match index current with
  | O => (current, None)
  | S i => (nth i INTENSITY_ORDER current, Some "support_reengaged")
  end.

(** [ProgressiveScaffoldFadingEngine.record_attempt] *)
Definition decide_attempt (s : ScaffoldConceptState) (a : ScaffoldProblemAttempt) : ScaffoldDecision :=
  let used := default (sc_current_intensity s) (at_scaffold_intensity a) in
  let supported := supported_pass a in
  let outcome := if supported || mastery_signal_met s a then CORRECT else STRUGGLED in
  let '(correct, times, hints, (next, reason)) :=
    if supported then (0, 0, 0, (used, Some "supported_pass"))
    else if outcome == CORRECT then
      let correct := sc_consecutive_correct s + 1 in
      (correct, response_time_streak s a, hint_streak s a, fade_if_ready used correct)
    else (0, 0, 0, support_if_needed used) in
  mkScaffoldDecision
    (mkScaffoldConceptState (sc_student_id s) (sc_concept_id s) next (if next != used then 0 else correct) times hints
       (at_response_time_ms a) (Some (at_hint_count a)))
    used next outcome (next != used) reason "".

(** ** The repository *)

Definition scaffold_key (student_id concept_id : uuid) (r : StudentConceptScaffoldState) : bool :=
  (sss_student_id r == student_id) && (sss_concept_id r == concept_id).

(** [_state_from_record] *)
Definition scaffold_state_from_record (r : StudentConceptScaffoldState) : ScaffoldConceptState :=
  mkScaffoldConceptState (sss_student_id r) (sss_concept_id r) (sss_current_intensity r) (sss_consecutive_correct r)
    (sss_response_time_improvement_streak r) (sss_reduced_hint_streak r) (sss_last_response_time_ms r) (sss_last_hint_count r).

Definition later_start (a b : LessonSession) : bool := lsn_started_at b <=? lsn_started_at a.

(** The configuration of the lesson under way, or the learner's. *)
Definition config_of (sitting : option LessonSession) (user : User) : exn + Json :=
  match match sitting with
        | None => inr JNull
        | Some l => get_key "engineConfig" (json_or (lsn_delivery_state l) (JObj []))
        end with
  | inl e => inl e
  | inr j => inr (json_or (json_or j (user_engine_config user)) (JObj []))
  end.

(** [SqlAlchemyScaffoldRepository.state] *)
Definition scaffold_state (student_id concept_id : uuid) : M (option ScaffoldConceptState) :=
  record ← scalar StudentConceptScaffoldStates (scaffold_key student_id concept_id);
  match (record : option StudentConceptScaffoldState) with
  | Some r => mret (Some (scaffold_state_from_record r))
  | None =>
    user ← get Users student_id;
    match (user : option User) with
    | None => mret None
    | Some user =>
      sittings ← select LessonSessions (λ l, (lsn_student_id l == student_id) && (lsn_completion_status l == LESSON_IN_PROGRESS));
      match config_of (head (order_by later_start (sittings : list LessonSession))) user with
      | inl e => raise e
      | inr config =>
        match initial_scaffold_intensity config with
        | inl e => raise e
        | inr intensity => mret (Some (first_state student_id concept_id intensity))
        end
      end
    end
  end.

Definition scaffold_row (s : ScaffoldConceptState) (i : uuid) : StudentConceptScaffoldState :=
  mkStudentConceptScaffoldState i (sc_student_id s) (sc_concept_id s) (sc_current_intensity s) (sc_consecutive_correct s)
    (sc_response_time_improvement_streak s) (sc_reduced_hint_streak s) (sc_last_response_time_ms s) (sc_last_hint_count s).

Definition log_row (l : ScaffoldProblemLogEntry) (now : datetime) (i : uuid) : ScaffoldProblemLog :=
  mkScaffoldProblemLog i (le_student_id l) (le_concept_id l) (le_problem_id l) (le_scaffold_intensity l) (le_outcome l)
    (le_response_time_ms l) (le_expected_response_time_ms l) (le_hint_count l) (le_next_scaffold_intensity l)
    (le_level_changed l) (le_change_reason l) now.

(** [save_decision] *)
Definition save_decision (d : ScaffoldDecision) (l : ScaffoldProblemLogEntry) : M ScaffoldDecision :=
  let s := sd_state d in
  begin_ (
    upsert StudentConceptScaffoldStates (scaffold_key (sc_student_id s) (sc_concept_id s)) (scaffold_row s);;
    now ← func_now;
    i ← uuid4;
    insert ScaffoldProblemLogs (log_row l now i));;
  mret d.

(** [_log_from_record] *)
Definition log_from_record (r : ScaffoldProblemLog) : ScaffoldProblemLogEntry :=
  mkScaffoldProblemLogEntry (spl_student_id r) (spl_concept_id r) (spl_problem_id r) (spl_scaffold_intensity r)
    (spl_outcome r) (spl_response_time_ms r) (spl_expected_response_time_ms r) (spl_hint_count r)
    (spl_next_scaffold_intensity r) (spl_level_changed r) (spl_change_reason r).

Definition newest (a b : ScaffoldProblemLog) : bool := spl_created_at b <=? spl_created_at a.

(** [logs] *)
Definition logs (student_id : uuid) (concept_id : option uuid) (limit : nat) : M (list ScaffoldProblemLogEntry) :=
  found ← select ScaffoldProblemLogs (λ r, (spl_student_id r == student_id) &&
    match concept_id with Some c => spl_concept_id r == c | None => true end);
  mret (map log_from_record (take limit (order_by newest (found : list ScaffoldProblemLog)))).

(** ** The service *)

(** [current_state] *)
Definition current_state (student_id concept_id : uuid) : M ScaffoldConceptState :=
  state ← scaffold_state student_id concept_id;
  mret (default (first_state student_id concept_id FULL_SUPPORT) state).

Definition log_entry (a : ScaffoldProblemAttempt) (d : ScaffoldDecision) : ScaffoldProblemLogEntry :=
  mkScaffoldProblemLogEntry (at_student_id a) (at_concept_id a) (at_problem_id a) (sd_previous_intensity d) (sd_outcome d)
    (at_response_time_ms a) (at_expected_response_time_ms a) (at_hint_count a) (sd_next_intensity d) (sd_level_changed d)
    (sd_change_reason d).

(** [ScaffoldFadingService.record_attempt] *)
Definition record_attempt (a : ScaffoldProblemAttempt) : M ScaffoldDecision :=
  state ← current_state (at_student_id a) (at_concept_id a);
  let d := decide_attempt state a in
  save_decision d (log_entry a d).

(** * Facts about support

    The ladder of support as a function of the attempts, and that the service
    keeps it on record. *)

(** ** The ladder *)

(** A correct answer without any help. *)
Definition unaided (a : ScaffoldProblemAttempt) : bool :=
  at_response_correct a && at_counts_as_independent a && (at_hint_count a <=? 0).

Lemma unaided_or_supported a : at_response_correct a = true → supported_pass a = negb (unaided a).
Proof.
  intros Hc. unfold supported_pass, unaided. rewrite Hc, Z.ltb_antisym. by destruct (at_counts_as_independent a), (_ <=? _).
Qed.

Lemma met_unaided s a : mastery_signal_met s a = true → unaided a = true.
Proof.
  unfold mastery_signal_met, unaided. rewrite Z.ltb_antisym.
  destruct (at_response_correct a), (at_hint_count a <=? 0), (at_counts_as_independent a); simpl; by repeat case_match.
Qed.

(** The states along some attempts. *)
Definition climb (s : ScaffoldConceptState) (l : list ScaffoldProblemAttempt) : ScaffoldConceptState :=
  foldl (λ s a, sd_state (decide_attempt s a)) s l.

Lemma climb_snoc s l a : climb s (l ++ [a]) = sd_state (decide_attempt (climb s l) a).
Proof. unfold climb. by rewrite foldl_app. Qed.

(** How many of the last attempts were unaided, without a break. *)
Fixpoint run_of (newest_first : list ScaffoldProblemAttempt) : Z :=
  match newest_first with a :: l => if unaided a then 1 + run_of l else 0 | [] => 0 end.
Definition unaided_run (l : list ScaffoldProblemAttempt) : Z := run_of (rev l).

Lemma run_of_nonneg l : 0 <= run_of l.
Proof. induction l as [|a l IH]; simpl; [lia|]. case_match; lia. Qed.

Lemma unaided_run_snoc l a : unaided_run (l ++ [a]) = if unaided a then 1 + unaided_run l else 0.
Proof. unfold unaided_run. by rewrite rev_app_distr. Qed.

Lemma fade_spec current n next reason :
  fade_if_ready current n = (next, reason) →
  next = current ∨ (FADE_AFTER_CONSECUTIVE_CORRECT <= n ∧ index next = S (index current)).
Proof.
  unfold fade_if_ready. destruct (Z.ltb_spec n FADE_AFTER_CONSECUTIVE_CORRECT); [intros [= <- _]; by left|].
  destruct current; simpl; intros [= <- _]; auto.
Qed.

Lemma support_spec current next reason :
  support_if_needed current = (next, reason) → index next = pred (index current) ∧ (next = current ↔ current = FULL_SUPPORT).
Proof. destruct current; intros [= <- _]; done. Qed.

(** One attempt: what it counts as, and where it leads. *)
Lemma decide_attempt_spec s a :
  let d := decide_attempt s a in
  let used := default (sc_current_intensity s) (at_scaffold_intensity a) in
  sd_previous_intensity d = used ∧ sc_current_intensity (sd_state d) = sd_next_intensity d ∧
  sd_level_changed d = (sd_next_intensity d != used) ∧
  (sd_level_changed d = true → sc_consecutive_correct (sd_state d) = 0) ∧
  sc_student_id (sd_state d) = sc_student_id s ∧ sc_concept_id (sd_state d) = sc_concept_id s ∧
  ((supported_pass a = true ∧ sd_outcome d = CORRECT ∧ sd_next_intensity d = used ∧ sc_consecutive_correct (sd_state d) = 0) ∨
   (supported_pass a = false ∧ mastery_signal_met s a = true ∧ sd_outcome d = CORRECT ∧
    sc_consecutive_correct (sd_state d) = (if sd_next_intensity d != used then 0 else sc_consecutive_correct s + 1) ∧
    (sd_next_intensity d = used ∨
     (FADE_AFTER_CONSECUTIVE_CORRECT <= sc_consecutive_correct s + 1 ∧ index (sd_next_intensity d) = S (index used)))) ∨
   (supported_pass a = false ∧ mastery_signal_met s a = false ∧ sd_outcome d = STRUGGLED ∧
    sc_consecutive_correct (sd_state d) = 0 ∧ index (sd_next_intensity d) = pred (index used))).
Proof.
  cbv zeta. unfold decide_attempt. destruct (supported_pass a) eqn:Hs; cbn.
  { rewrite bool_decide_true by done. cbn. split_and!; try done. by left. }
  destruct (mastery_signal_met s a) eqn:Hm; cbn.
  - rewrite bool_decide_true by done. destruct (fade_if_ready _ _) as [next reason] eqn:Hf. cbn. apply fade_spec in Hf.
    split_and!; try done.
    { by intros ->. }
    right. left. by split_and!.
  - rewrite bool_decide_false by done. destruct (support_if_needed _) as [next reason] eqn:Hf. cbn.
    apply support_spec in Hf as [Hf _]. split_and!; try done.
    { by intros ->. }
    right. right. split_and!; try done. by case_match.
Qed.

Lemma climb_count s l :
  sc_consecutive_correct s = 0 → 0 <= sc_consecutive_correct (climb s l) <= unaided_run l.
Proof.
  intros Hs. induction l as [|a l IH] using rev_ind; [cbn; rewrite Hs; done|].
  rewrite climb_snoc, unaided_run_snoc.
  destruct (decide_attempt_spec (climb s l) a) as (_ & _ & _ & _ & _ & _ & Hcase). cbv zeta in Hcase.
  pose proof (run_of_nonneg (rev l)) as Hrun. fold (unaided_run l) in Hrun.
  destruct Hcase as [(_ & _ & _ & ->)|[(_ & Hm%met_unaided & _ & -> & _)|(_ & _ & _ & -> & _)]].
  - case_match; lia.
  - rewrite Hm. case_match; lia.
  - case_match; lia.
Qed.

(** The rung a problem was worked at: the one the attempt reports, whatever is
    on record, and the one on record when it reports none. *)
Inductive worked_at (s : ScaffoldConceptState) (a : ScaffoldProblemAttempt) : ScaffoldIntensity → Prop :=
| worked_as_reported i : at_scaffold_intensity a = Some i → worked_at s a i
| worked_as_recorded : at_scaffold_intensity a = None → worked_at s a (sc_current_intensity s).

Lemma worked_at_spec s a used : worked_at s a used ↔ default (sc_current_intensity s) (at_scaffold_intensity a) = used.
Proof.
  split; [by intros [i -> | ->]|]. intros <-.
  destruct (at_scaffold_intensity a) eqn:Ha; [by apply worked_as_reported|by apply worked_as_recorded].
Qed.

(** The third unaided answer moves to the next rung. *)
Lemma third_eases s a :
  unaided a = true → 2 <= sc_consecutive_correct s → (∀ n, sc_last_hint_count s = Some n → 0 <= n) →
  let used := default (sc_current_intensity s) (at_scaffold_intensity a) in
  used ≠ INDEPENDENT → index (sd_next_intensity (decide_attempt s a)) = S (index used).
Proof.
  intros Hu Hn Hlast. cbv zeta. intros Hused. pose proof Hu as [[Hc Hi]%andb_prop Hh]%andb_prop.
  unfold decide_attempt. rewrite (unaided_or_supported a Hc), Hu. cbn [negb orb].
  assert (mastery_signal_met s a = true) as ->.
  { unfold mastery_signal_met. rewrite Hc, Hi, Z.ltb_antisym, Hh. cbn. destruct (sc_last_hint_count s) as [n|]; [|done].
    specialize (Hlast n eq_refl). destruct (Z.ltb_spec n (at_hint_count a)); [lia|done]. }
  rewrite bool_decide_true by done. unfold fade_if_ready, FADE_AFTER_CONSECUTIVE_CORRECT.
  destruct (Z.ltb_spec (sc_consecutive_correct s + 1) 3); [lia|]. by destruct (default _ _).
Qed.

(** C29: support is eased after three unaided correct answers, one rung at a time, and given
    back at once - from the rung the attempt says the problem was worked at, or the rung on
    record when it says nothing. Whatever the attempts on a concept were, the next one leads
    to that rung or to one beside it; it eases support only when this answer and the two
    before it were correct and without any help, and the count then starts again, and it does
    when two were counted and there is a rung left; an answer with help is taken as correct
    and leaves the rung; a wrong answer takes support back up a rung, or keeps it at full
    support. The rung arrived at is the one on record afterwards. *)
Theorem support_is_eased_by_three first l a used :
  sc_consecutive_correct first = 0 → worked_at (climb first l) a used →
  let before := climb first l in
  let d := decide_attempt before a in
  let next := sc_current_intensity (sd_state d) in
  sd_previous_intensity d = used ∧ sd_next_intensity d = next ∧
  (index next <= S (index used))%nat ∧ (index used <= S (index next))%nat ∧
  ((index used < index next)%nat → unaided a = true ∧ 2 <= unaided_run l ∧ sc_consecutive_correct (sd_state d) = 0) ∧
  (unaided a = true → 2 <= sc_consecutive_correct before → used ≠ INDEPENDENT →
   (∀ n, sc_last_hint_count before = Some n → 0 <= n) → index next = S (index used)) ∧
  (at_response_correct a = true → unaided a = false → sd_outcome d = CORRECT ∧ next = used) ∧
  (at_response_correct a = false → sd_outcome d = STRUGGLED ∧ index next = pred (index used)).
Proof.
  intros Hfirst Hused%worked_at_spec. cbv zeta.
  destruct (decide_attempt_spec (climb first l) a) as (-> & -> & Hch & Hreset & _ & _ & Hcase).
  pose proof (climb_count first l Hfirst) as Hcount. pose proof (third_eases (climb first l) a) as Hthird. cbv zeta in *.
  rewrite Hused in *. split; [done|]. split; [done|].
  destruct Hcase as [(Hs & Ho & Hn & Hc)|[(Hs & Hm & Ho & Hc & Hn)|(Hs & Hm & Ho & Hc & Hn)]].
  - rewrite Hn. assert (unaided a = false) as Hu.
    { destruct (at_response_correct a) eqn:Hcor; [|by unfold unaided; rewrite Hcor].
      rewrite (unaided_or_supported a Hcor) in Hs. by apply negb_true_iff. }
    rewrite Hu. split_and!; try lia; try done. intros Hw. unfold supported_pass in Hs. by rewrite Hw in Hs.
  - pose proof (met_unaided _ _ Hm) as Hu. unfold FADE_AFTER_CONSECUTIVE_CORRECT in Hn.
    assert (at_response_correct a = true) as Hcor by (unfold unaided in Hu; by destruct (at_response_correct a)).
    split_and!; try (destruct Hn as [->|[? ->]]; lia); rewrite ?Hcor, ?Hu; try done; [|auto].
    intros Hlt. destruct Hn as [Heq|[Hthree Hidx]]; [rewrite Heq in Hlt; lia|]. split_and!; [done|lia|].
    apply Hreset. rewrite Hch. apply negb_true_iff, bool_decide_eq_false. intros Heq. rewrite Heq in Hidx. lia.
  - split_and!; try lia; try done; [auto|]. intros Hcor Hu. rewrite (unaided_or_supported a Hcor), Hu in Hs. done.
Qed.

(** ** On record *)

Definition streaks_ok (s : ScaffoldConceptState) : Prop :=
  0 <= sc_consecutive_correct s ∧ 0 <= sc_response_time_improvement_streak s ∧ 0 <= sc_reduced_hint_streak s.

Lemma streaks_row s i : scaffold_state_row_ok (scaffold_row s i) = true ↔ streaks_ok s.
Proof. unfold scaffold_state_row_ok, streaks_ok. cbn. rewrite !andb_true_iff, !Z.leb_le. tauto. Qed.

Lemma streaks_record r : scaffold_state_row_ok r = true → streaks_ok (scaffold_state_from_record r).
Proof. unfold scaffold_state_row_ok, streaks_ok. cbn. rewrite !andb_true_iff, !Z.leb_le. tauto. Qed.

Lemma decide_streaks s a : streaks_ok s → streaks_ok (sd_state (decide_attempt s a)).
Proof.
  unfold streaks_ok. intros (Hc & Ht & Hh). split.
  - destruct (decide_attempt_spec s a) as (_ & _ & _ & _ & _ & _ & [(_ & _ & _ & ->)|[(_ & _ & _ & -> & _)|(_ & _ & _ & -> & _)]]);
      try case_match; lia.
  - unfold decide_attempt, response_time_streak, hint_streak. repeat case_match; simplify_eq; cbn; repeat case_match; lia.
Qed.

Lemma scaffolding_key student concept r :
  scaffold_key student concept r = true ↔ Some (sss_student_id r, sss_concept_id r) = Some (student, concept).
Proof. unfold scaffold_key. rewrite andb_true_iff, !bool_decide_eq_true. naive_solver. Qed.

(** A state as it is read: of this learner and concept, with no streak below
    zero. *)
Lemma current_state_spec student concept (db db' : Database) s :
  db_wf db → current_state student concept db = (inr s, db') →
  db' = db ∧ sc_student_id s = student ∧ sc_concept_id s = concept ∧ streaks_ok s.
Proof.
  intros [Hok _] Hrun. unfold current_state in Hrun. apply bind_inv_inr in Hrun as (o & db1 & Hrun & Hret).
  unfold scaffold_state in Hrun. erewrite bind_inr in Hrun by reflexivity.
  destruct (findb _ _) as [r|] eqn:Hr.
  - injection Hrun as <- <-. injection Hret as <- <-. apply findb_Some in Hr as [[= <- <-]%scaffolding_key Hin].
    split_and!; try done. apply streaks_record.
    apply db_ok_spec with (t := StudentConceptScaffoldStates) in Hok. apply andb_prop in Hok as [[_ Hrows]%andb_prop _].
    rewrite forallb_forall in Hrows. apply Hrows. by apply list_elem_of_In.
  - apply bind_inv_inr in Hrun as (user & db2 & Hget & Hrun). injection Hget as <- <-.
    destruct (findb (λ r : User, user_id r == student) _) as [user|].
    + apply bind_inv_inr in Hrun as (sittings & db3 & Hsel & Hrun). injection Hsel as <- <-.
      destruct (config_of _ _) as [|config]; [done|].
      destruct (initial_scaffold_intensity config); [done|]. injection Hrun as <- <-. by injection Hret as <- <-.
    + injection Hrun as <- <-. by injection Hret as <- <-.
Qed.

Lemma current_state_stored student concept (db : Database) s i :
  findb (scaffold_key student concept) (db_tables db StudentConceptScaffoldStates) = Some (scaffold_row s i) →
  current_state student concept db = (inr s, db).
Proof.
  intros Hr.
  assert ((scalar StudentConceptScaffoldStates (scaffold_key student concept) : M _) db = (inr (Some (scaffold_row s i)), db))
    as Hrow by (unfold scalar; do 2 f_equal; exact Hr).
  unfold current_state. erewrite bind_inr; [|unfold scaffold_state; exact (bind_inr _ _ _ _ _ Hrow)]. by destruct s.
Qed.

(** What the log accepts of an attempt. *)
Definition recordable (student concept : uuid) (a : ScaffoldProblemAttempt) : Prop :=
  at_student_id a = student ∧ at_concept_id a = concept ∧ 0 <= at_hint_count a ∧
  (∀ n, at_response_time_ms a = Some n → 0 <= n) ∧ (∀ n, at_expected_response_time_ms a = Some n → 0 < n).

Lemma recordable_log student concept a d now i :
  recordable student concept a → scaffold_log_row_ok (log_row (log_entry a d) now i) = true.
Proof.
  intros (_ & _ & Hh & Ht & He). unfold scaffold_log_row_ok. cbn. rewrite !andb_true_iff. split_and!.
  - by apply Z.leb_le.
  - destruct (at_response_time_ms a); [apply Z.leb_le; auto|done].
  - destruct (at_expected_response_time_ms a); [apply Z.ltb_lt; auto|done].
Qed.

Definition log_of (db : Database) : list ScaffoldProblemLogEntry := map log_from_record (db_tables db ScaffoldProblemLogs).

(** The states of everybody and everything else. *)
Definition other_states (student concept : uuid) (db : Database) : list StudentConceptScaffoldState :=
  filterb (λ r, negb (scaffold_key student concept r)) (db_tables db StudentConceptScaffoldStates).

Lemma attempt_run student concept s a (db : Database) :
  db_wf db → current_state student concept db = (inr s, db) → recordable student concept a →
  ∃ db', record_attempt a db = (inr (decide_attempt s a), db') ∧ db_wf db' ∧
    current_state student concept db' = (inr (sd_state (decide_attempt s a)), db') ∧
    log_of db' = (log_of db ++ [log_entry a (decide_attempt s a)])%list ∧
    other_states student concept db' = other_states student concept db ∧
    ∀ t, t ≠ StudentConceptScaffoldStates → t ≠ ScaffoldProblemLogs → db_tables db' t = db_tables db t.
Proof.
  intros Hwf Hs Ha. pose proof (current_state_spec _ _ _ _ _ Hwf Hs) as (_ & Hst & Hco & Hstreaks).
  pose proof Ha as (Hast & Haco & _). set (d := decide_attempt s a).
  destruct (decide_attempt_spec s a) as (_ & _ & _ & _ & Hdst & Hdco & _). cbv zeta in Hdst, Hdco. fold d in Hdst, Hdco.
  edestruct (upsert_run (H := nevo_schema) (E := exn) StudentConceptScaffoldStates
    (λ r : StudentConceptScaffoldState, Some (sss_student_id r, sss_concept_id r)) scaffold_state_row_ok)
    with (p := scaffold_key student concept) (mk := scaffold_row (sd_state d)) (e := IntegrityError) (db := db)
    as (i & db1 & Hrun & Hwf1 & Hrow & Hrest & _ & Hframe & _).
  - intros l. reflexivity.
  - intros r. apply scaffolding_key.
  - done.
  - intros j. apply scaffolding_key. cbn. by rewrite Hdst, Hdco, Hst, Hco.
  - intros j. apply streaks_row. by apply decide_streaks.
  - done.
  - set (mk := log_row (log_entry a d) (db_now db1)).
    assert (table_ok ScaffoldProblemLogs (db_tables db1 ScaffoldProblemLogs ++ [mk (db_uuids db1)]) = true) as Hlogs.
    { pose proof Hwf1 as [Hok1 Hfresh1]. apply db_ok_spec with (t := ScaffoldProblemLogs) in Hok1.
      apply andb_prop in Hok1 as [Hpk Hrows]. apply andb_true_iff. split.
      - by apply (unique_on_id_snoc ScaffoldProblemLogs db1 (mk (db_uuids db1))).
      - rewrite forallb_app. apply andb_true_iff. split; [exact Hrows|]. cbn [forallb]. unfold mk.
        by rewrite (recordable_log student concept). }
    pose proof (appended_wf ScaffoldProblemLogs mk db1 Hwf1 (λ _, eq_refl) Hlogs) as Hwf2.
    exists (appended ScaffoldProblemLogs mk db1). split_and!.
    + unfold record_attempt. rewrite Hast, Haco, (bind_inr _ _ _ _ _ Hs). cbv zeta. fold d.
      unfold save_decision. rewrite Hdst, Hdco, Hst, Hco. unfold begin_. apply transaction_commit in Hrun as [Hrun _].
      etrans; [apply bind_inr with (s' := appended ScaffoldProblemLogs mk db1) (a := tt)|reflexivity].
      apply transaction_ok; [|apply Hwf2]. etrans; [exact (bind_inr _ _ _ _ _ Hrun)|reflexivity].
    + done.
    + apply (current_state_stored _ _ _ _ i). by rewrite appended_ne.
    + unfold log_of. rewrite appended_eq, map_app, Hframe by done. done.
    + unfold other_states. by rewrite appended_ne.
    + intros t Ht1 Ht2. rewrite appended_ne by done. by apply Hframe.
Qed.

(** What is logged along some attempts. *)
Fixpoint entries (s : ScaffoldConceptState) (l : list ScaffoldProblemAttempt) : list ScaffoldProblemLogEntry :=
  match l with
  | a :: l' => log_entry a (decide_attempt s a) :: entries (sd_state (decide_attempt s a)) l'
  | [] => []
  end.

(** C28: the service keeps the ladder. From what is known of a learner and a concept, stored
    or taken from the configuration, any attempts that the log accepts all go through; what is
    then read back is where the engine alone would have got to, the log has gained one entry
    for each attempt, in order and with the engine's decision, and nothing else has changed.
    *)
Theorem attempts_follow_the_ladder student concept first attempts (db : Database) :
  db_wf db → current_state student concept db = (inr first, db) → Forall (recordable student concept) attempts →
  ∃ db', for_each attempts (λ a, record_attempt a;; mret tt) db = (inr tt, db') ∧ db_wf db' ∧
    current_state student concept db' = (inr (climb first attempts), db') ∧
    log_of db' = (log_of db ++ entries first attempts)%list ∧
    other_states student concept db' = other_states student concept db ∧
    ∀ t, t ≠ StudentConceptScaffoldStates → t ≠ ScaffoldProblemLogs → db_tables db' t = db_tables db t.
Proof.
  intros Hwf Hs Hall. revert first db Hwf Hs. induction Hall as [|a l Ha Hl IH]; intros first db Hwf Hs.
  { exists db. split_and!; try done. by rewrite app_nil_r. }
  destruct (attempt_run student concept first a db Hwf Hs Ha) as (db1 & Hrun & Hwf1 & Hs1 & Hlog1 & Hrest1 & Hframe1).
  destruct (IH _ db1 Hwf1 Hs1) as (db' & Hrun' & Hwf' & Hs' & Hlog' & Hrest' & Hframe').
  exists db'. split_and!; try done.
  - simpl. rewrite !bind_run, Hrun. exact Hrun'.
  - rewrite Hlog', Hlog1. by rewrite <- app_assoc.
  - by rewrite Hrest'.
  - intros t Ht1 Ht2. by rewrite Hframe', Hframe1.
Qed.
