(* ===== verification/Sittings.v ===== *)
(** * Sittings of lessons and their events

    [src/nevo/signal_events]: what a client reports of a sitting is merged into
    what is known of it, and its events are appended. *)

From Stdlib Require Import String.
From S2P Require Import Prelude Relational Text Vocabulary LearningVocabulary Schema Fixtures.

Local Open Scope string_scope.
Local Open Scope Z_scope.
Local Open Scope nevo_scope.

(** ** Entities *)

Record LessonSessionSnapshot := mkLessonSessionSnapshot {
  sn_id : uuid; sn_student_id : uuid; sn_lesson_id : option uuid; sn_started_at : datetime;
  sn_ended_at : option datetime; sn_completion_status : LessonCompletionStatus; sn_exit_position : option string;
  sn_break_count : Z; sn_proactive_adjustments_count : Z; sn_session_type : string
}.

Record SignalEventDraft := mkSignalEventDraft {
  dr_student_id : uuid; dr_session_id : uuid; dr_event_type : SignalEventType; dr_event_data : Json; dr_timestamp : datetime
}.

Record SignalIngestionBatch := mkSignalIngestionBatch { ba_session : LessonSessionSnapshot; ba_events : list SignalEventDraft }.

Record SignalIngestionReceipt := mkSignalIngestionReceipt { rc_session_id : uuid; rc_accepted_events : Z }.

Definition MAX_SIGNAL_BATCH_SIZE : nat := 100.

(** ** The repository *)

(** The row the statement proposes. *)
Definition proposed (s : LessonSessionSnapshot) : LessonSession :=
  mkLessonSession (sn_id s) (sn_student_id s) (sn_lesson_id s) (sn_started_at s) (sn_ended_at s) (sn_completion_status s)
    (sn_break_count s) (sn_session_type s) (sn_exit_position s) (sn_proactive_adjustments_count s) (JObj []).

(** [coalesce] *)
Definition coalesce {A} (a b : option A) : option A := match a with Some _ => a | None => b end.

(** A sitting that is over. *)
Definition terminal (r : LessonSession) : bool :=
  (lsn_completion_status r == LESSON_COMPLETED) || is_some (lsn_ended_at r).

(** The end that was reported, unless it is before the start on record. *)
Definition valid_end (r : LessonSession) (ended_at : option datetime) : option datetime :=
  match ended_at with Some e => if lsn_started_at r <=? e then Some e else None | None => None end.

(** [ON CONFLICT DO UPDATE SET ...] *)
Definition merged (r x : LessonSession) : LessonSession :=
  mkLessonSession (lsn_id r) (lsn_student_id r) (coalesce (lsn_lesson_id r) (lsn_lesson_id x)) (lsn_started_at r)
    (coalesce (lsn_ended_at r) (valid_end r (lsn_ended_at x)))
    (if terminal r then lsn_completion_status r else lsn_completion_status x)
    (Z.max (lsn_break_count r) (lsn_break_count x)) (lsn_session_type r)
    (if terminal r then lsn_exit_position r else coalesce (lsn_exit_position x) (lsn_exit_position r))
    (Z.max (lsn_proactive_adjustments_count r) (lsn_proactive_adjustments_count x)) (lsn_delivery_state r).

(** The [where] of the update: the same learner, and no two different
    lessons. *)
Definition compatible (r x : LessonSession) : bool :=
  (lsn_student_id r == lsn_student_id x) &&
  (is_none (lsn_lesson_id r) || is_none (lsn_lesson_id x) || (lsn_lesson_id r == lsn_lesson_id x)).

(** The statement: the constraints of the row proposed come first; then it is
    inserted, or merged into the row of its identifier where the two are
    compatible. Whether a row was written is what it returns. *)
Definition insert_or_merge (x : LessonSession) : M bool :=
  if negb (lesson_session_row_ok x) then raise IntegrityError
  else
    found ← get LessonSessions (lsn_id x);
    match (found : option LessonSession) with
    | None => insert LessonSessions x;; mret true
    | Some r => if compatible r x then save LessonSessions (merged r x);; mret true else mret false
    end.

Definition event_row (d : SignalEventDraft) (i : uuid) : SignalEvent :=
  mkSignalEvent i (dr_student_id d) (dr_session_id d) (dr_event_type d) (dr_event_data d) (dr_timestamp d).

(** [SqlAlchemySignalIngestionRepository.ingest] *)
Definition repository_ingest (b : SignalIngestionBatch) : M unit :=
  begin_ (
    updated ← insert_or_merge (proposed (ba_session b));
    if negb updated then raise SessionMismatchError
    else for_each (ba_events b) (λ d, i ← uuid4; insert SignalEvents (event_row d i))).

(** ** The service *)

(** [SignalIngestionService.ingest] *)
Definition ingest (b : SignalIngestionBatch) : M SignalIngestionReceipt :=
  if ba_events b == [] then raise EmptySignalBatchError
  else if (MAX_SIGNAL_BATCH_SIZE <? length (ba_events b))%nat then raise SignalBatchTooLargeError
  else if existsb (λ d, dr_session_id d != sn_id (ba_session b)) (ba_events b) then raise SessionMismatchError
  else
    repository_ingest b;;
    mret (mkSignalIngestionReceipt (sn_id (ba_session b)) (Z.of_nat (length (ba_events b)))).

(** ** Sittings only move forward *)

(** What may become of a sitting. *)
Record later (r r' : LessonSession) : Prop := {
  later_same : lsn_id r' = lsn_id r ∧ lsn_student_id r' = lsn_student_id r ∧ lsn_started_at r' = lsn_started_at r ∧
    lsn_session_type r' = lsn_session_type r ∧ lsn_delivery_state r' = lsn_delivery_state r;
  later_lesson : is_Some (lsn_lesson_id r) → lsn_lesson_id r' = lsn_lesson_id r;
  later_end : is_Some (lsn_ended_at r) → lsn_ended_at r' = lsn_ended_at r;
  later_over : terminal r = true →
    terminal r' = true ∧ lsn_completion_status r' = lsn_completion_status r ∧ lsn_exit_position r' = lsn_exit_position r;
  later_breaks : lsn_break_count r <= lsn_break_count r';
  later_adjustments : lsn_proactive_adjustments_count r <= lsn_proactive_adjustments_count r'
}.

#[export] Instance later_preorder : PreOrder later.
Proof.
  split.
  - intros r. by split; try lia.
  - intros a b c [(? & ? & ? & ? & ?) Hl He Ho ? ?] [(? & ? & ? & ? & ?) Hl' He' Ho' ? ?]. split; try lia.
    + split_and!; congruence.
    + intros Hs. rewrite Hl' by (by rewrite Hl). by apply Hl.
    + intros Hs. rewrite He' by (by rewrite He). by apply He.
    + intros Hs. destruct (Ho Hs) as (Ht & ? & ?), (Ho' Ht) as (? & ? & ?). split_and!; congruence.
Qed.

Lemma merged_terminal r x : terminal r = true → terminal (merged r x) = true.
Proof.
  intros Ht. unfold terminal at 1. cbn. rewrite Ht. unfold terminal in Ht.
  destruct (lsn_ended_at r); [by rewrite orb_true_r|]. rewrite orb_false_r in Ht. by rewrite Ht.
Qed.

Lemma merged_later r x : later r (merged r x).
Proof.
  split; simpl; try lia; try done.
  - intros [l Hl]. by rewrite Hl.
  - intros [e He]. by rewrite He.
  - intros Ht. rewrite Ht. split; [by apply merged_terminal|done].
Qed.

(** The same report changes nothing the second time. *)
Lemma merged_again r x : merged (merged r x) x = merged r x.
Proof.
  unfold merged at 1 3. f_equal; cbn.
  - by destruct (lsn_lesson_id r), (lsn_lesson_id x).
  - unfold valid_end. cbn. destruct (lsn_ended_at r), (lsn_ended_at x); try done; cbn; by repeat case_match.
  - destruct (terminal r) eqn:Ht; [|by case_match]. by rewrite merged_terminal.
  - lia.
  - destruct (terminal r) eqn:Ht; [by rewrite merged_terminal|]. case_match; [done|]. by destruct (lsn_exit_position x).
  - lia.
Qed.

Lemma merged_row_ok r x :
  lesson_session_row_ok r = true → lesson_session_row_ok x = true → lesson_session_row_ok (merged r x) = true.
Proof.
  unfold lesson_session_row_ok. cbn. rewrite !andb_true_iff, !Z.leb_le. intros [[He ?] ?] [[_ ?] ?]. split_and!; try lia.
  destruct (lsn_ended_at r); [done|]. unfold valid_end. cbn. destruct (lsn_ended_at x); [|done]. by destruct (_ <=? _) eqn:?.
Qed.

(** ** One batch *)

Definition sessions (db : Database) : list LessonSession := db_tables db LessonSessions.
Definition sitting (i : uuid) (db : Database) : option LessonSession := findb (λ r, lsn_id r == i) (sessions db).

(** What becomes of the sitting a report is about, if the report is taken. *)
Definition sitting_after (x : LessonSession) (db : Database) : option LessonSession :=
  match sitting (lsn_id x) db with
  | None => Some x
  | Some r => if compatible r x then Some (merged r x) else None
  end.

Definition sessions_after (x : LessonSession) (db : Database) : list LessonSession :=
  match sitting (lsn_id x) db with
  | None => sessions db ++ [x]
  | Some r => update_list (λ r', lsn_id r' == lsn_id x) (λ _, merged r x) (sessions db)
  end.

(** Why a batch is refused, first reason first. *)
Definition refusal (b : SignalIngestionBatch) (db : Database) : option exn :=
  let x := proposed (ba_session b) in
  if ba_events b == [] then Some EmptySignalBatchError
  else if (MAX_SIGNAL_BATCH_SIZE <? length (ba_events b))%nat then Some SignalBatchTooLargeError
  else if existsb (λ d, dr_session_id d != sn_id (ba_session b)) (ba_events b) then Some SessionMismatchError
  else if negb (lesson_session_row_ok x) then Some IntegrityError
  else if is_none (sitting_after x db) then Some SessionMismatchError
  else None.

Lemma sitting_Some i db r : sitting i db = Some r → lsn_id r = i ∧ r ∈ sessions db.
Proof. intros [Hi%bool_decide_eq_true Hr]%findb_Some. done. Qed.

Lemma sitting_none i db : sitting i db = None → ∀ r, r ∈ sessions db → lsn_id r ≠ i.
Proof. intros Hnone r Hr Hi. apply findb_None with (a := r) in Hnone; [|done]. by apply bool_decide_eq_false in Hnone. Qed.

Lemma insert_or_merge_run x (db : Database) :
  lesson_session_row_ok x = true →
  insert_or_merge x db =
  match sitting_after x db with
  | Some _ => (inr true, set_table LessonSessions (sessions_after x db) db)
  | None => (inr false, db)
  end.
Proof.
  intros Hx. unfold insert_or_merge, sitting_after, sessions_after. rewrite Hx. cbn [negb]. erewrite bind_inr by reflexivity.
  change (findb _ (db_tables db LessonSessions)) with (sitting (lsn_id x) db).
  destruct (sitting (lsn_id x) db) as [r|] eqn:Hr; [|reflexivity]. apply sitting_Some in Hr as [Hi _].
  destruct (compatible r x); [|reflexivity]. rewrite <- Hi. reflexivity.
Qed.

Lemma sessions_after_ok x (db : Database) row :
  db_ok db = true → lesson_session_row_ok x = true → sitting_after x db = Some row →
  lesson_sessions_ok (sessions_after x db) = true.
Proof.
  intros Hok Hx Hrow. apply db_ok_spec with (t := LessonSessions) in Hok. apply andb_prop in Hok as [Hpk Hrows].
  change (db_tables db LessonSessions) with (sessions db) in *.
  unfold sitting_after, sessions_after in *. destruct (sitting (lsn_id x) db) as [r|] eqn:Hr; apply andb_true_iff; split.
  - apply unique_on_update; [done|]. intros r' _ Heq%bool_decide_eq_true. apply sitting_Some in Hr as [Hi _]. cbn. by rewrite Heq, Hi.
  - rewrite forallb_forall in *. intros r' Hr'%list_elem_of_In. apply elem_of_update_list in Hr' as (y & Hy & ->).
    apply sitting_Some in Hr as [_ Hin]. destruct (lsn_id y == lsn_id x); [apply merged_row_ok; [|done]|]; apply Hrows; by apply list_elem_of_In.
  - apply unique_on_snoc; [done|]. intros k [= <-] r' Hr' [= Heq]. by apply (sitting_none _ _ Hr r').
  - rewrite forallb_app, Hrows. cbn. by rewrite Hx.
Qed.

Lemma sitting_after_spec x (db db' : Database) row :
  sitting_after x db = Some row → sessions db' = sessions_after x db →
  sitting (lsn_id x) db' = Some row ∧ (∀ i, i ≠ lsn_id x → sitting i db' = sitting i db).
Proof.
  unfold sitting_after, sessions_after. intros Hrow Hs. destruct (sitting (lsn_id x) db) as [r|] eqn:Hr.
  - pose proof Hr as [Hi _]%sitting_Some. destruct (compatible r x); [|done]. injection Hrow as <-.
    assert (∀ i, sitting i db' = (λ a, if lsn_id a == lsn_id x then merged r x else a) <$> sitting i db) as Hall.
    { intros i. unfold sitting. rewrite Hs. apply findb_update_list. intros a _ Ha%bool_decide_eq_true. cbn. by rewrite Hi, Ha. }
    split; [rewrite Hall, Hr; cbn; rewrite Hi; by rewrite bool_decide_true|].
    intros i Hne. rewrite Hall. destruct (sitting i db) as [s|] eqn:Hsi; [|done]. apply sitting_Some in Hsi as [Hsi _]. cbn.
    by rewrite bool_decide_false by congruence.
  - injection Hrow as <-.
    assert (∀ i, sitting i db' = match sitting i db with Some s => Some s | None => if lsn_id x == i then Some x else None end) as Hall.
    { intros i. unfold sitting. rewrite Hs, findb_app, findb_cons. by destruct (findb _ (sessions db)). }
    split; [rewrite Hall, Hr; by rewrite bool_decide_true|]. intros i Hne. rewrite Hall.
    destruct (sitting i db); [done|]. by rewrite bool_decide_false.
Qed.

Lemma primary_key_distinct {R} (id : R → uuid) (k : list R) : primary_key id k = true ↔ NoDup (map id k).
Proof.
  unfold primary_key. rewrite unique_on_spec. assert (omap (λ r, Some (id r)) k = map id k) as ->; [|done].
  induction k as [|x k IH]; [done|]. simpl. by rewrite <- IH.
Qed.

(** The events of the database, oldest first. *)
Definition events (db : Database) : list SignalEvent := db_tables db SignalEvents.

Definition report (b : SignalIngestionBatch) : LessonSession := proposed (ba_session b).

(** What an accepted batch does. *)
Definition recorded (b : SignalIngestionBatch) (row : LessonSession) (db db' : Database) : Prop :=
  sitting_after (report b) db = Some row ∧ sessions db' = sessions_after (report b) db ∧
  events db' = (events db ++ stamped (T := Table) SignalEvents (λ i d, event_row d i) (db_uuids db) (ba_events b))%list ∧
  ∀ t, t ≠ LessonSessions → t ≠ SignalEvents → db_tables db' t = db_tables db t.

Lemma repository_ingest_run b (db : Database) row :
  db_ok db = true → keyed SignalEvents db → lesson_session_row_ok (report b) = true → sitting_after (report b) db = Some row →
  ∃ db', repository_ingest b db = (inr tt, db') ∧ db_ok db' = true ∧ keyed SignalEvents db' ∧ recorded b row db db'.
Proof.
  intros Hok [Hnd Hlt] Hx Hrow. set (db1 := set_table LessonSessions (sessions_after (report b) db) db).
  destruct (for_each_insert SignalEvents (λ i d, event_row d i) (ba_events b) db1)
    as (db' & Hrun & Hev & Hframe & Hu & _).
  unfold db1 in Hev, Hu. rewrite set_table_ne in Hev by done. autorewrite with store in Hev, Hu.
  assert (∀ t, t ≠ LessonSessions → t ≠ SignalEvents → db_tables db' t = db_tables db t) as Hrest.
  { intros t H1 H2. rewrite Hframe by done. unfold db1. by rewrite set_table_ne. }
  assert (sessions db' = sessions_after (report b) db) as Hs.
  { unfold sessions at 1. rewrite Hframe by done. unfold db1. by rewrite set_table_eq. }
  assert (NoDup (map sig_id (db_tables db' SignalEvents))) as Hnd'.
  { rewrite Hev. exact (stamped_NoDup SignalEvents (λ i d, event_row d i) _ _ _ (λ _ _, eq_refl) Hlt Hnd). }
  assert (db_ok db' = true) as Hok'.
  { apply db_ok_spec. intros t. destruct (decide (t = LessonSessions)) as [->|H1]; [|destruct (decide (t = SignalEvents)) as [->|H2]].
    - change (lesson_sessions_ok (sessions db') = true). rewrite Hs. by eapply sessions_after_ok.
    - by apply primary_key_distinct.
    - rewrite Hrest by done. by apply db_ok_spec. }
  exists db'. split; [|split; [done|split; [split; [done|]|by split_and!]]].
  - unfold repository_ingest, begin_. fold (report b). apply transaction_ok; [|done].
    rewrite (bind_inr _ _ _ db1 true) by (rewrite insert_or_merge_run by done; by rewrite Hrow). exact Hrun.
  - rewrite Hev, Hu. intros r [Hr|Hr]%elem_of_app; [specialize (Hlt r Hr); lia|].
    apply elem_of_stamped in Hr as (i & d & _ & -> & Hi). cbn. lia.
Qed.

Lemma ingest_run b (db : Database) :
  db_ok db = true → keyed SignalEvents db →
  match refusal b db with
  | Some e => ingest b db = (inl e, db)
  | None => ∃ row db', ingest b db = (inr (mkSignalIngestionReceipt (sn_id (ba_session b)) (Z.of_nat (length (ba_events b)))), db') ∧
      db_ok db' = true ∧ keyed SignalEvents db' ∧ recorded b row db db'
  end.
Proof.
  intros Hok Hkeyed. unfold refusal, ingest. fold (report b). destruct (ba_events b == []); [done|].
  destruct (_ <? _)%nat; [done|]. destruct (existsb _ _); [done|].
  destruct (lesson_session_row_ok (report b)) eqn:Hx; cbn [negb].
  - destruct (sitting_after (report b) db) as [row|] eqn:Hrow; cbn [is_none].
    + destruct (repository_ingest_run b db row Hok Hkeyed Hx Hrow) as (db' & Hrun & Hok' & Hk' & Hrec).
      exists row, db'. rewrite (bind_inr _ _ _ _ _ Hrun). by split_and!.
    + apply bind_inl. unfold repository_ingest, begin_. fold (report b). apply transaction_inl with (db1 := db).
      rewrite (bind_inr _ _ _ db false) by (rewrite insert_or_merge_run by done; by rewrite Hrow). done.
  - apply bind_inl. unfold repository_ingest, begin_. apply transaction_inl with (db1 := db).
    apply bind_inl. unfold insert_or_merge. fold (report b). by rewrite Hx.
Qed.

(** ** What batches do *)

Lemma refusal_session b (db : Database) d :
  refusal b db = None → d ∈ ba_events b → dr_session_id d = sn_id (ba_session b).
Proof.
  unfold refusal. repeat (case_match; [done|]). intros _ Hd.
  destruct (existsb _ (ba_events b)) eqn:Hall; [done|]. destruct (decide (dr_session_id d = sn_id (ba_session b))) as [|Hne]; [done|].
  exfalso. rewrite <- not_true_iff_false, existsb_exists in Hall. apply Hall. exists d. split; [by apply list_elem_of_In|].
  by rewrite bool_decide_false.
Qed.

Lemma compatible_student r x : compatible r x = true → lsn_student_id r = lsn_student_id x.
Proof. unfold compatible. rewrite andb_true_iff, bool_decide_eq_true. tauto. Qed.

(** What one batch may do to the sittings and the events. *)
Definition moved_on (b : SignalIngestionBatch) (db db' : Database) : Prop :=
  (∀ i r, sitting i db = Some r → ∃ r', sitting i db' = Some r' ∧ later r r' ∧
     (r' ≠ r → i = sn_id (ba_session b) ∧ lsn_student_id r = sn_student_id (ba_session b))) ∧
  ∃ es, events db' = (events db ++ es)%list ∧ ∀ e, e ∈ es → is_Some (sitting (sig_session_id e) db').

Lemma ingest_moves_on b (db : Database) :
  db_ok db = true → keyed SignalEvents db →
  let db' := snd (ingest b db) in db_ok db' = true ∧ keyed SignalEvents db' ∧ moved_on b db db'.
Proof.
  intros Hok Hkeyed. cbv zeta. pose proof (ingest_run b db Hok Hkeyed) as Hrun. destruct (refusal b db) as [e|] eqn:Href.
  - rewrite Hrun. split; [done|]. split; [done|]. split.
    + intros i r Hr. exists r. split; [done|]. split; [reflexivity|done].
    + exists []. split; [by rewrite app_nil_r|]. by intros e' ?%not_elem_of_nil.
  - destruct Hrun as (row & db' & -> & Hok' & Hkeyed' & Hrow & Hs & Hev & _). split; [done|]. split; [done|]. cbn [snd].
    destruct (sitting_after_spec (report b) db db' row Hrow Hs) as [Hnew Hothers]. split.
    + intros i r Hr. destruct (decide (i = lsn_id (report b))) as [->|Hne].
      * exists row. split; [done|]. unfold sitting_after in Hrow. rewrite Hr in Hrow.
        destruct (compatible r (report b)) eqn:Hc; [|done]. injection Hrow as <-. split; [apply merged_later|].
        intros _. split; [done|]. exact (compatible_student _ _ Hc).
      * exists r. rewrite Hothers by done. split; [done|]. split; [reflexivity|done].
    + eexists. split; [exact Hev|]. intros e He. destruct (elem_of_stamped (H := nevo_schema) SignalEvents (λ i d, event_row d i) _ _ e He) as (i & d & Hd & -> & _). cbn.
      rewrite (refusal_session b db d Href Hd). by exists row.
Qed.

(** Batches as they arrive, those that are refused included. *)
Definition after_batches (bs : list SignalIngestionBatch) (db : Database) : Database :=
  foldl (λ db b, snd (ingest b db)) db bs.

(** C31: sittings only move forward. Whatever batches arrive, in whatever order and however
    often: a sitting keeps its learner and its start; its lesson and its end are never changed
    once known; a sitting that is over stays so, with the outcome and the place it ended with;
    its counters never fall; it is only touched by batches that name it and its learner; and
    events are only added, each for a sitting that exists. *)
Theorem sittings_only_move_forward bs (db : Database) :
  db_ok db = true → keyed SignalEvents db →
  let db' := after_batches bs db in
  (∀ i r, sitting i db = Some r → ∃ r', sitting i db' = Some r' ∧ later r r' ∧
     (r' ≠ r → ∃ b, b ∈ bs ∧ sn_id (ba_session b) = i ∧ sn_student_id (ba_session b) = lsn_student_id r)) ∧
  ∃ es, events db' = (events db ++ es)%list ∧ ∀ e, e ∈ es → is_Some (sitting (sig_session_id e) db').
Proof.
  cbv zeta. revert db. induction bs as [|b bs IH]; intros db Hok Hkeyed; simpl.
  { split; [|exists []; split; [by rewrite app_nil_r|by intros e ?%not_elem_of_nil]].
    intros i r Hr. exists r. split; [done|]. split; [reflexivity|done]. }
  destruct (ingest_moves_on b db Hok Hkeyed) as (Hok1 & Hkeyed1 & Hmove & es1 & Hes1 & Hin1).
  destruct (IH _ Hok1 Hkeyed1) as (Hmove' & es2 & Hes2 & Hin2). split.
  - intros i r Hr. destruct (Hmove i r Hr) as (r1 & Hr1 & Hl1 & Hby1). destruct (Hmove' i r1 Hr1) as (r' & Hr' & Hl' & Hby').
    exists r'. split; [done|]. split; [by transitivity r1|]. intros Hne.
    destruct (decide (i = sn_id (ba_session b) ∧ lsn_student_id r = sn_student_id (ba_session b))) as [[H1 H2]|Hno].
    + exists b. split; [by left|]. done.
    + destruct Hby' as (b' & Hb' & Hi & Hs); [intros ->; by apply Hno, Hby1|]. exists b'. split; [by right|]. split; [done|].
      rewrite Hs. apply Hl1.
  - exists (es1 ++ es2)%list. split; [by rewrite Hes2, Hes1, app_assoc|]. intros e [He|He]%elem_of_app; [|by apply Hin2].
    destruct (Hin1 e He) as [r Hr]. destruct (Hmove' _ r Hr) as (r' & Hr' & _). by exists r'.
Qed.

Lemma merged_self x : merged x x = x.
Proof.
  destruct x. unfold merged, valid_end, coalesce. cbn in *. f_equal.
  - by destruct lsn_lesson_id.
  - destruct lsn_ended_at; [done|]. done.
  - by destruct (terminal _).
  - lia.
  - destruct (terminal _); [done|]. by destruct lsn_exit_position.
  - lia.
Qed.

Lemma stamped_data n l :
  map sig_event_data (stamped (T := Table) SignalEvents (λ i d, event_row d i) n l) = map dr_event_data l.
Proof. revert n. induction l as [|d l IH]; intros n; [done|]. simpl. by rewrite <- (IH (n + 1)). Qed.

(** The sitting after a report takes the same report again, and stays. *)
Lemma taken_again x (db db' : Database) row :
  sitting_after x db = Some row → sitting (lsn_id x) db' = Some row → sitting_after x db' = Some row.
Proof.
  intros Hrow Hr'. unfold sitting_after in *. rewrite Hr'. destruct (sitting (lsn_id x) db) as [r|] eqn:Hr.
  - destruct (compatible r x) eqn:Hc; [|done]. injection Hrow as <-. rewrite merged_again.
    assert (compatible (merged r x) x = true) as ->; [|done]. unfold compatible in *. cbn. apply andb_prop in Hc as [-> Hl].
    destruct (lsn_lesson_id r), (lsn_lesson_id x); try done. cbn. by rewrite bool_decide_true.
  - injection Hrow as <-. rewrite merged_self. assert (compatible x x = true) as ->; [|done].
    unfold compatible. rewrite !bool_decide_true by done. by rewrite !orb_true_r.
Qed.

(** C34: a batch is recorded once for the sitting, and once each time for the events. A batch
    that is empty, has more than a hundred events, or events of another sitting, that reports
    an impossible sitting, or one of another learner or another lesson under the same
    identifier, is refused with that error and changes nothing; every other batch is accepted,
    its report merged into the sitting and its events appended in order; and a client that
    sends it again, having missed the answer, leaves the sittings as they are but has every
    event recorded twice. *)
Theorem accepted_batch_is_recorded b (db : Database) :
  db_ok db = true → keyed SignalEvents db →
  let receipt := mkSignalIngestionReceipt (sn_id (ba_session b)) (Z.of_nat (length (ba_events b))) in
  match refusal b db with
  | Some e => ingest b db = (inl e, db)
  | None => ∃ row db' db'', ingest b db = (inr receipt, db') ∧ db_ok db' = true ∧ recorded b row db db' ∧
      ingest b db' = (inr receipt, db'') ∧ sessions db'' = sessions db' ∧
      map sig_event_data (events db'') =
        (map sig_event_data (events db') ++ map dr_event_data (ba_events b))%list
  end.
Proof.
  intros Hok Hkeyed. cbv zeta. pose proof (ingest_run b db Hok Hkeyed) as Hrun.
  destruct (refusal b db) as [e|] eqn:Href; [done|]. destruct Hrun as (row & db' & Hrun & Hok' & Hkeyed' & Hrec).
  pose proof Hrec as (Hrow & Hs & _). destruct (sitting_after_spec (report b) db db' row Hrow Hs) as [Hnew _].
  pose proof (taken_again (report b) db db' row Hrow Hnew) as Hagain.
  assert (refusal b db' = None) as Href'.
  { unfold refusal in *. fold (report b) in *. rewrite Hagain. by repeat (case_match; [done|]). }
  pose proof (ingest_run b db' Hok' Hkeyed') as Hrun'. rewrite Href' in Hrun'.
  destruct Hrun' as (row' & db'' & Hrun' & _ & _ & Hrow' & Hs' & Hev' & _).
  exists row, db', db''. split_and!; try done.
  - rewrite Hs'. unfold sessions_after. rewrite Hnew. apply update_list_id. intros a Ha Hid%bool_decide_eq_true.
    assert (merged row (report b) = row) as ->.
    { unfold sitting_after in Hagain. rewrite Hnew in Hagain. destruct (compatible _ _); [|done]. by injection Hagain. }
    apply db_ok_spec with (t := LessonSessions) in Hok'. apply andb_prop in Hok' as [Hpk _].
    apply sitting_Some in Hnew as [Hi Hin].
    symmetry. apply (unique_on_eq _ _ a row (lsn_id (report b)) Hpk Ha Hin); cbn; by rewrite ?Hid, ?Hi.
  - rewrite Hev', map_app. f_equal. apply stamped_data.
Qed.

(** ** At work *)

Definition a_report (status : LessonCompletionStatus) (ended_at : option datetime) (breaks : Z) : LessonSessionSnapshot :=
  mkLessonSessionSnapshot 90 2 (Some 40) t0 ended_at status None breaks 0 "lesson".

Definition a_replay : SignalEventDraft := mkSignalEventDraft 2 90 REPLAY (JObj [("segmentId", JStr "s1")]) (t0 + hours 1).

(** A sitting begins, ends with a break taken, and is reported once more by a
    device that was behind; then another learner names it. *)
Definition some_batches : list SignalIngestionBatch :=
  [mkSignalIngestionBatch (a_report LESSON_IN_PROGRESS None 0) [a_replay];
   mkSignalIngestionBatch (a_report LESSON_COMPLETED (Some (t0 + hours 1)) 1) [a_replay; a_replay];
   mkSignalIngestionBatch (a_report LESSON_IN_PROGRESS None 0) [a_replay];
   mkSignalIngestionBatch ((a_report LESSON_IN_PROGRESS None 7) <| sn_student_id := 4 |>) [a_replay]].

Definition begun_db : Database := snd (ingest (mkSignalIngestionBatch (a_report LESSON_IN_PROGRESS None 0) [a_replay]) school_db).

Example batches_result :
  (λ r, (lsn_completion_status r, lsn_ended_at r, lsn_break_count r)) <$> sitting 90 (after_batches some_batches school_db)
  = Some (LESSON_COMPLETED, Some (t0 + hours 1), 1) ∧
  length (events (after_batches some_batches school_db)) = 4%nat.
Proof. vm_compute. done. Qed.

Lemma keyed_bool (db : Database) :
  primary_key sig_id (events db) && forallb (λ e, sig_id e <? db_uuids db) (events db) = true → keyed SignalEvents db.
Proof.
  intros [Hpk Hlt]%andb_prop. split; [by apply primary_key_distinct|]. rewrite forallb_forall in Hlt.
  intros e He. apply Z.ltb_lt, Hlt. by apply list_elem_of_In.
Qed.

Lemma sittings_only_move_forward_witness :
  db_ok begun_db = true ∧ keyed SignalEvents begun_db ∧
  ∃ r r', sitting 90 begun_db = Some r ∧ sitting 90 (after_batches some_batches begun_db) = Some r' ∧ later r r' ∧
    lsn_completion_status r' = LESSON_COMPLETED.
Proof.
  assert (db_ok begun_db = true) as Hok by (vm_compute; reflexivity).
  assert (keyed SignalEvents begun_db) as Hkeyed by (apply keyed_bool; vm_compute; reflexivity).
  split; [exact Hok|]. split; [exact Hkeyed|].
  destruct (sittings_only_move_forward some_batches begun_db Hok Hkeyed) as [Hmove _].
  assert ((lsn_completion_status <$> sitting 90 (after_batches some_batches begun_db)) = Some LESSON_COMPLETED) as Hover
    by (vm_compute; reflexivity).
  assert (is_Some (sitting 90 begun_db)) as [r Hr] by (apply is_Some_alt; vm_compute; exact I).
  destruct (Hmove 90 r Hr) as (r' & Hr' & Hl & _). exists r, r'. rewrite Hr' in Hover. split_and!; [exact Hr|exact Hr'|exact Hl|].
  by injection Hover.
Defined.

Lemma accepted_batch_is_recorded_witness :
  let b := mkSignalIngestionBatch (a_report LESSON_COMPLETED (Some (t0 + hours 1)) 1) [a_replay; a_replay] in
  db_ok begun_db = true ∧ keyed SignalEvents begun_db ∧ refusal b begun_db = None ∧
  ∃ db' db'', ingest b begun_db = (inr (mkSignalIngestionReceipt 90 2), db') ∧
    ingest b db' = (inr (mkSignalIngestionReceipt 90 2), db'') ∧ sessions db'' = sessions db'.
Proof.
  cbv zeta.
  assert (db_ok begun_db = true) as Hok by (vm_compute; reflexivity).
  assert (keyed SignalEvents begun_db) as Hkeyed by (apply keyed_bool; vm_compute; reflexivity).
  set (b := mkSignalIngestionBatch (a_report LESSON_COMPLETED (Some (t0 + hours 1)) 1) [a_replay; a_replay]).
  assert (refusal b begun_db = None) as Href by (vm_compute; reflexivity).
  pose proof (accepted_batch_is_recorded b begun_db Hok Hkeyed) as H. rewrite Href in H.
  destruct H as (row & db' & db'' & Hrun & _ & _ & Hrun' & Hs & _).
  split; [exact Hok|]. split; [exact Hkeyed|]. split; [exact Href|]. exists db', db''. split_and!; [exact Hrun|exact Hrun'|exact Hs].
Defined.
