(* ===== verification/PostLesson.v ===== *)
(** * What is left to do after a lesson

    [src/nevo/learner_profiles/post_lesson_worker.py]: the queue of finished
    lessons and the worker that takes them. What is done for a lesson - the
    profile, the flags, the record of accommodations, the notice - is a
    parameter. *)

From Stdlib Require Import String.
From S2P Require Import Prelude Relational Text Vocabulary Schema Fixtures AgeAssurance.

Local Open Scope string_scope.
Local Open Scope Z_scope.
Local Open Scope nevo_scope.

Definition MAX_JOB_ATTEMPTS : Z := 5.

(** ** The queue *)

(** [enqueue_post_lesson], in the transaction of the caller. *)
Definition enqueue_post_lesson (session_id student_id : uuid) (completed_at : option datetime) (now : datetime) : M string :=
  existing ← get PostLessonProcessings session_id;
  (if is_none (existing : option PostLessonProcessing) then
     insert PostLessonProcessings
       (mkPostLessonProcessing session_id student_id (default now completed_at) "pending" 0 now false false None None)
   else mret tt);;
  record ← get PostLessonProcessings session_id;
  mret (match (record : option PostLessonProcessing) with Some r => plp_status r | None => "pending" end).

(** [PostLessonProcessingWorker.enqueue] *)
Definition enqueue (session_id student_id : uuid) (completed_at : option datetime) (now : datetime) : M string :=
  begin_ (enqueue_post_lesson session_id student_id completed_at now).

(** ** The worker *)

Definition due (now : datetime) (r : PostLessonProcessing) : bool :=
  (plp_attempt_count r <? MAX_JOB_ATTEMPTS) && (plp_next_attempt_at r <=? now) &&
  (bool_decide (plp_status r ∈ ["pending"; "failed"; "consent_blocked"]) || (plp_status r == "processing")).

Definition earlier_job (a b : PostLessonProcessing) : bool := plp_next_attempt_at a <=? plp_next_attempt_at b.

Definition claimed_row (now : datetime) (r : PostLessonProcessing) : PostLessonProcessing :=
  r <| plp_status := "processing" |> <| plp_attempt_count := plp_attempt_count r + 1 |>
    <| plp_next_attempt_at := now + minutes 10 |> <| plp_last_error := None |>.

(** [_claim] *)
Definition claim_job (now : datetime) : M (option PostLessonProcessing) :=
  begin_ (
    waiting ← select PostLessonProcessings (due now);
    match order_by earlier_job (waiting : list PostLessonProcessing) with
    | [] => mret None
    | r :: _ => save PostLessonProcessings (claimed_row now r);; mret (Some r)
    end).

(** A transaction that changes the job of a sitting, if there is one. *)
Definition change_job (session_id : uuid) (f : PostLessonProcessing → PostLessonProcessing) : M unit :=
  begin_ (
    record ← get PostLessonProcessings session_id;
    match (record : option PostLessonProcessing) with
    | None => mret tt
    | Some r => save PostLessonProcessings (f r)
    end).

Definition blocked_row (reason : string) (now : datetime) (r : PostLessonProcessing) : PostLessonProcessing :=
  r <| plp_status := "consent_blocked" |> <| plp_last_error := Some reason |>
    <| plp_next_attempt_at := now + minutes 15 |> <| plp_attempt_count := Z.max 0 (plp_attempt_count r - 1) |>.

Definition completed_row (now : datetime) (r : PostLessonProcessing) : PostLessonProcessing :=
  r <| plp_status := "completed" |> <| plp_processed_at := Some now |> <| plp_last_error := None |>.

Definition retried_row (error : string) (now : datetime) (r : PostLessonProcessing) : PostLessonProcessing :=
  r <| plp_status := if MAX_JOB_ATTEMPTS <=? plp_attempt_count r then "permanently_failed" else "failed" |>
    <| plp_next_attempt_at := now + minutes (Z.min 60 (2 ^ Z.max 0 (plp_attempt_count r - 1))) |>
    <| plp_last_error := Some (take_string 1000 error) |>.

(** The stored learning consent, if there is one. *)
Definition learning_consent (student_id : uuid) : M (option ConsentStatus) :=
  record ← scalar ConsentRecords (λ r : ConsentRecord,
    (cr_subject_user_id r == student_id) && (cr_consent_type r == REQUIRED_LEARNING_CONSENT));
  mret (cr_status <$> (record : option ConsentRecord)).

(** [_check_consent] *)
Definition check_consent (session_id student_id : uuid) (now : datetime) : M bool :=
  begin_ (
    consent ← learning_consent student_id;
    held ← age_check_blocks student_id;
    if (consent == Some CONFIRMED) && negb held then mret true
    else
      record ← get PostLessonProcessings session_id;
      match (record : option PostLessonProcessing) with
      | None => mret tt
      | Some r =>
        let reason := if held then "age_check_pending"
                      else if consent == Some WITHDRAWN then "consent_withdrawn" else "consent_required" in
        save PostLessonProcessings (blocked_row reason now r)
      end;;
      mret false).

Section Worker.
(** What is done for a learner and a sitting, and [str(error)]. *)
Context (update_after_lesson notify_modality_shifts : uuid → uuid → M unit)
  (evaluate_student record_accommodation_changes : uuid → M unit) (str_error : exn → string).

Definition mark_profile (r : PostLessonProcessing) : PostLessonProcessing := r <| plp_profile_updated := true |>.
Definition mark_flags (r : PostLessonProcessing) : PostLessonProcessing := r <| plp_flags_evaluated := true |>.

(** What [process_next] does with a job, up to a consent that is missing. *)
Definition work (session_id student_id : uuid) (profile_updated flags_evaluated : bool) (now : datetime) : M unit :=
  consented ← check_consent session_id student_id now;
  if negb consented then mret tt
  else
    (if profile_updated then mret tt
     else update_after_lesson student_id session_id;; change_job session_id mark_profile);;
    proceed ← (if flags_evaluated then mret true
               else
                 consented ← check_consent session_id student_id now;
                 if negb consented then mret false
                 else evaluate_student student_id;; change_job session_id mark_flags;; mret true);
    if negb proceed then mret tt
    else
      consented ← check_consent session_id student_id now;
      if negb consented then mret tt
      else
        record_accommodation_changes student_id;;
        begin_ (notify_modality_shifts session_id student_id);;
        change_job session_id (completed_row now).

(** [process_next], all at one moment *)
Definition process_job (now : datetime) : M bool :=
  job ← claim_job now;
  match job with
  | None => mret false
  | Some r =>
    try_except (work (plp_session_id r) (plp_student_id r) (plp_profile_updated r) (plp_flags_evaluated r) now)
      (λ e, Some (change_job (plp_session_id r) (retried_row (str_error e) now)));;
    mret true
  end.

(** The same as what it awaits, one after the other; each says whether there
    is more to do. A process may die before any of them, and during it. *)
Definition actions (session_id student_id : uuid) (profile_updated flags_evaluated : bool) (now : datetime) : list (M bool) :=
  ([check_consent session_id student_id now] ++
   (if profile_updated then []
    else [update_after_lesson student_id session_id;; mret true; change_job session_id mark_profile;; mret true]) ++
   (if flags_evaluated then []
    else [check_consent session_id student_id now; evaluate_student student_id;; mret true;
          change_job session_id mark_flags;; mret true]) ++
   [check_consent session_id student_id now; record_accommodation_changes student_id;; mret true;
    begin_ (notify_modality_shifts session_id student_id);; mret true; change_job session_id (completed_row now);; mret true])%list.

Fixpoint run_actions (l : list (M bool)) : M unit :=
  match l with
  | [] => mret tt
  | a :: l' => more ← a; if (more : bool) then run_actions l' else mret tt
  end.

Lemma last_actions session_id student_id now (db : Database) :
  (consented ← check_consent session_id student_id now;
   if negb consented then mret tt
   else record_accommodation_changes student_id;; begin_ (notify_modality_shifts session_id student_id);;
     change_job session_id (completed_row now)) db =
  run_actions [check_consent session_id student_id now; record_accommodation_changes student_id;; mret true;
    begin_ (notify_modality_shifts session_id student_id);; mret true; change_job session_id (completed_row now);; mret true] db.
Proof.
  cbn [run_actions]. rewrite !bind_run. destruct (check_consent _ _ _ db) as [[e|[]] db1]; [done| |done].
  cbn [negb]. rewrite !bind_run. destruct (record_accommodation_changes student_id db1) as [[e|[]] db2]; [done|].
  cbn. rewrite !bind_run. destruct (begin_ _ db2) as [[e|[]] db3]; [done|]. cbn. rewrite !bind_run.
  by destruct (change_job _ _ db3) as [[e|[]] db4].
Qed.

Lemma later_actions session_id student_id (f : bool) now (db : Database) :
  (proceed ← (if f then mret true
              else consented ← check_consent session_id student_id now;
                   if negb consented then mret false
                   else evaluate_student student_id;; change_job session_id mark_flags;; mret true);
   if negb proceed then mret tt
   else consented ← check_consent session_id student_id now;
     if negb consented then mret tt
     else record_accommodation_changes student_id;; begin_ (notify_modality_shifts session_id student_id);;
       change_job session_id (completed_row now)) db =
  run_actions ((if f then [] else [check_consent session_id student_id now; evaluate_student student_id;; mret true;
      change_job session_id mark_flags;; mret true]) ++
    [check_consent session_id student_id now; record_accommodation_changes student_id;; mret true;
     begin_ (notify_modality_shifts session_id student_id);; mret true; change_job session_id (completed_row now);; mret true])%list db.
Proof.
  destruct f; [apply last_actions|]. cbn [app]. cbn [run_actions]. rewrite !bind_run.
  destruct (check_consent _ _ _ db) as [[e|[]] db1]; [done| |done]. cbn [negb]. rewrite !bind_run.
  destruct (evaluate_student student_id db1) as [[e|[]] db2]; [done|]. cbn -[run_actions]. rewrite !bind_run.
  destruct (change_job _ _ db2) as [[e|[]] db3]; [done|]. apply last_actions.
Qed.

Lemma work_actions session_id student_id p f now (db : Database) :
  work session_id student_id p f now db = run_actions (actions session_id student_id p f now) db.
Proof.
  unfold work, actions. cbn [app run_actions]. rewrite !bind_run.
  destruct (check_consent _ _ _ db) as [[e|[]] db1]; [done| |done]. cbn [negb].
  destruct p; [apply later_actions|]. cbn [app]. cbn [run_actions]. rewrite !bind_run.
  destruct (update_after_lesson _ _ db1) as [[e|[]] db2]; [done|]. cbn -[run_actions]. rewrite !bind_run.
  destruct (change_job _ _ db2) as [[e|[]] db3]; [done|]. apply later_actions.
Qed.
End Worker.

(** ** The queue and one job of it *)

Definition jobs (db : Database) : list PostLessonProcessing := db_tables db PostLessonProcessings.
Definition job (s : uuid) (db : Database) : option PostLessonProcessing := findb (λ r, plp_session_id r == s) (jobs db).

Definition staged (p f : bool) (r : PostLessonProcessing) : PostLessonProcessing :=
  r <| plp_profile_updated := p |> <| plp_flags_evaluated := f |>.

(** How a job may come out of a turn of the worker: a stage that was done
    before the turn is still done after it. [blocked] and [raised] are what
    must have happened for a turn that does not complete the job. *)
Inductive turn (blocked : Prop) (raised : string → Prop) (now : datetime) (r : PostLessonProcessing) : PostLessonProcessing → Prop :=
| turn_completed : turn blocked raised now r (completed_row now (staged true true (claimed_row now r)))
| turn_blocked p f reason :
    implb (plp_profile_updated r) p = true → implb (plp_flags_evaluated r) f = true → blocked →
    turn blocked raised now r (blocked_row reason now (staged p f (claimed_row now r)))
| turn_retried p f error :
    implb (plp_profile_updated r) p = true → implb (plp_flags_evaluated r) f = true → raised error →
    turn blocked raised now r (retried_row error now (staged p f (claimed_row now r))).

(** The consent that is looked at before each stage. *)
Definition consent_on_file (student_id : uuid) (db : Database) : option ConsentStatus :=
  cr_status <$> findb (λ r : ConsentRecord, (cr_subject_user_id r == student_id) && (cr_consent_type r == REQUIRED_LEARNING_CONSENT))
    (db_tables db ConsentRecords).
Definition on_hold (student_id : uuid) (db : Database) : bool :=
  existsb (λ c : AgeCheck, (ac_student_id c == student_id) && (ac_state c == MISMATCH)) (db_tables db AgeChecks).
Definition may_process (student_id : uuid) (db : Database) : bool :=
  (consent_on_file student_id db == Some CONFIRMED) && negb (on_hold student_id db).

(** The queue [l] with the job of [s] replaced. *)
Definition replaced (s : uuid) (r : PostLessonProcessing) (l : list PostLessonProcessing) : list PostLessonProcessing :=
  update_list (λ r', plp_session_id r' == s) (λ _, r) l.

Lemma replaced_twice s r r' l : plp_session_id r = s → replaced s r' (replaced s r l) = replaced s r' l.
Proof.
  intros Hs. unfold replaced, update_list. rewrite map_map. apply map_ext. intros a.
  destruct (plp_session_id a == s) eqn:Ha; [|by rewrite Ha]. by rewrite bool_decide_true.
Qed.

Lemma save_job_run r (db : Database) :
  (save PostLessonProcessings r : M unit) db = (inr tt, set_table PostLessonProcessings (replaced (plp_session_id r) r (jobs db)) db).
Proof. done. Qed.

(** [K] is whatever else is known of the database that the queue does not
    touch. *)
Section Known.
Context (K : Database → Prop) (HK : ∀ l db, K db → K (set_table PostLessonProcessings l db)).

(** The constraints and [K] hold afterwards, and nothing was done to the
    queue. *)
Definition quiet (m : M unit) : Prop :=
  ∀ db, db_ok db = true → K db → db_ok (snd (m db)) = true ∧ K (snd (m db)) ∧ jobs (snd (m db)) = jobs db.

Section OneJob.
Context (s : uuid) (l : list PostLessonProcessing) (Hin : ∃ r, r ∈ l ∧ plp_session_id r = s).

(** The database is sound and its queue is [l] but for the job of [s],
    which is now [r]. *)
Definition job_is (r : PostLessonProcessing) (db : Database) : Prop :=
  db_ok db = true ∧ K db ∧ plp_session_id r = s ∧ jobs db = replaced s r l.

Lemma job_is_found r db : job_is r db → job s db = Some r.
Proof.
  intros (_ & _ & Hs & Hl). unfold job. rewrite Hl. unfold replaced.
  rewrite findb_update_list by (intros a _ ->; by apply bool_decide_eq_true).
  destruct Hin as (r0 & Hr0 & Hid). destruct (findb_is_Some (λ r, plp_session_id r == s) l r0 Hr0) as [x Hx].
  { by apply bool_decide_eq_true. }
  pose proof Hx as [Hxs _]%findb_Some. rewrite Hx. cbn. by rewrite Hxs.
Qed.

Lemma job_is_save r r' (db : Database) :
  job_is r db → plp_session_id r' = s →
  job_is r' (set_table PostLessonProcessings (replaced s r' (jobs db)) db).
Proof.
  intros (Hok & Hkn & Hs & Hl) Hs'. split; [|split; [by apply HK|split; [done|]]].
  - apply db_ok_spec with (t := PostLessonProcessings) in Hok as Hpk. apply db_ok_set_table; [done|].
    apply unique_on_update; [exact Hpk|]. intros a _ Ha%bool_decide_eq_true. cbn. by rewrite Hs', Ha.
  - unfold jobs at 1. rewrite set_table_eq, Hl. by apply replaced_twice.
Qed.

(** A change of the job, in a transaction of its own. *)
Lemma change_job_run r f db :
  job_is r db → plp_session_id (f r) = s → ∃ db', change_job s f db = (inr tt, db') ∧ job_is (f r) db'.
Proof.
  intros Hr Hs. eexists. split; [|exact (job_is_save r (f r) db Hr Hs)].
  apply transaction_ok; [|exact (proj1 (job_is_save r (f r) db Hr Hs))]. erewrite bind_inr by reflexivity.
  change (findb _ (db_tables db PostLessonProcessings)) with (job s db). rewrite (job_is_found r db Hr), <- Hs. reflexivity.
Qed.

Lemma check_consent_run r student_id now db :
  job_is r db →
  if may_process student_id db then check_consent s student_id now db = (inr true, db)
  else ∃ reason db', check_consent s student_id now db = (inr false, db') ∧ job_is (blocked_row reason now r) db'.
Proof.
  intros Hr. unfold check_consent, may_process.
  assert (∀ k : option ConsentStatus → bool → M bool,
    (x ← learning_consent student_id; y ← age_check_blocks student_id; k x y) db
    = k (consent_on_file student_id db) (on_hold student_id db) db) as Hreads.
  { intros k. erewrite bind_inr by reflexivity. rewrite bind_run, age_check_blocks_run. done. }
  set (consent := consent_on_file student_id db) in *. set (held := on_hold student_id db) in *.
  destruct ((consent == Some CONFIRMED) && negb held) eqn:Hmay.
  - apply transaction_ok; [|apply Hr]. by rewrite Hreads, Hmay.
  - set (reason := if held then "age_check_pending"
                   else if consent == Some WITHDRAWN then "consent_withdrawn" else "consent_required").
    assert (plp_session_id (blocked_row reason now r) = s) as Hs by (destruct Hr as (_ & _ & <- & _); by destruct r).
    pose proof (job_is_save r (blocked_row reason now r) db Hr Hs) as Hafter.
    exists reason. eexists. split; [|exact Hafter]. apply transaction_ok; [|exact (proj1 Hafter)].
    rewrite Hreads, Hmay. fold reason. erewrite bind_inr by reflexivity. cbn beta.
    change (findb _ (db_tables db PostLessonProcessings)) with (job s db). rewrite (job_is_found r db Hr).
    unfold save. cbn. unfold replaced. rewrite Hs. reflexivity.
Qed.

(** A computation that leaves the queue and the constraints alone. *)
Lemma quiet_run (m : M unit) r db :
  quiet m → job_is r db → ∃ res db', m db = (res, db') ∧ job_is r db'.
Proof.
  intros Hm (Hok & Hkn & Hs & Hl). destruct (Hm db Hok Hkn) as (Hok' & Hkn' & Hl'). exists (fst (m db)), (snd (m db)).
  split; [by destruct (m db)|]. split_and!; [done..|]. by rewrite Hl'.
Qed.

Lemma quiet_begin (m : M unit) : quiet m → quiet (begin_ m).
Proof.
  intros Hm db Hok Hkn. destruct (Hm db Hok Hkn) as (Hok' & Hkn' & Hl'). unfold begin_, transaction.
  destruct (m db) as [[e|a] db']; [done|]. cbn in *. by rewrite Hok'.
Qed.

End OneJob.

Lemma staged_id p f r : plp_session_id (staged p f r) = plp_session_id r.
Proof. by destruct r. Qed.
Lemma staged_self r : staged (plp_profile_updated r) (plp_flags_evaluated r) r = r.
Proof. by destruct r. Qed.
Lemma mark_profile_staged f r : mark_profile (staged false f r) = staged true f r.
Proof. by destruct r. Qed.
Lemma mark_flags_staged p r : mark_flags (staged p false r) = staged p true r.
Proof. by destruct r. Qed.
Lemma completed_id now r : plp_session_id (completed_row now r) = plp_session_id r.
Proof. by destruct r. Qed.
Lemma retried_id e now r : plp_session_id (retried_row e now r) = plp_session_id r.
Proof. by destruct r. Qed.
Lemma claimed_id now r : plp_session_id (claimed_row now r) = plp_session_id r.
Proof. by destruct r. Qed.

(** The job a turn takes. *)
Definition next_job (now : datetime) (db : Database) : option PostLessonProcessing :=
  head (order_by earlier_job (filterb (due now) (jobs db))).

Lemma next_job_Some now db r : next_job now db = Some r → r ∈ jobs db ∧ due now r = true.
Proof. intros Hr%head_Some_elem_of%elem_of_order_by%elem_of_filterb. tauto. Qed.

Lemma claim_job_run now db :
  db_ok db = true → K db →
  match next_job now db with
  | None => claim_job now db = (inr None, db)
  | Some r => ∃ db', claim_job now db = (inr (Some r), db') ∧
      job_is (plp_session_id r) (jobs db) (claimed_row now r) db'
  end.
Proof.
  intros Hok Hkn. pose proof (next_job_Some now db) as Hin. unfold next_job, claim_job, begin_ in *.
  destruct (order_by earlier_job (filterb (due now) (jobs db))) as [|r rest] eqn:Hord; cbn [head] in *.
  { apply transaction_ok; [|done]. erewrite bind_inr by reflexivity. fold (jobs db).
    change (row PostLessonProcessings) with PostLessonProcessing. by rewrite Hord. }
  assert (job_is (plp_session_id r) (jobs db) r db) as Hr.
  { split; [done|]. split; [done|]. split; [done|]. destruct (Hin r eq_refl) as [Hr _]. symmetry. apply update_list_id.
    intros a Ha Hid%bool_decide_eq_true. apply db_ok_spec with (t := PostLessonProcessings) in Hok.
    apply (unique_on_eq _ _ r a (plp_session_id r) Hok Hr Ha); cbn; by rewrite ?Hid. }
  pose proof (job_is_save _ _ r (claimed_row now r) db Hr (claimed_id now r)) as Hafter. eexists. split; [|exact Hafter].
  apply transaction_ok; [|exact (proj1 Hafter)]. erewrite bind_inr by reflexivity. fold (jobs db).
  change (row PostLessonProcessings) with PostLessonProcessing. rewrite Hord.
  rewrite (bind_inr _ _ _ _ _ (save_job_run (claimed_row now r) db)), claimed_id. done.
Qed.

Section Turns.
Context (update_after_lesson notify_modality_shifts : uuid → uuid → M unit)
  (evaluate_student record_accommodation_changes : uuid → M unit) (str_error : exn → string).
Context (Hupdate : ∀ i j, quiet (update_after_lesson i j)) (Hnotify : ∀ i j, quiet (notify_modality_shifts i j))
  (Hevaluate : ∀ i, quiet (evaluate_student i)) (Hrecord : ∀ i, quiet (record_accommodation_changes i)).

Local Notation do_work := (work update_after_lesson notify_modality_shifts evaluate_student record_accommodation_changes).
Local Notation process_next :=
  (process_job update_after_lesson notify_modality_shifts evaluate_student record_accommodation_changes str_error).

Definition stages (s student_id : uuid) : list (M unit) :=
  [update_after_lesson student_id s; evaluate_student student_id; record_accommodation_changes student_id;
   begin_ (notify_modality_shifts s student_id)].

(** The learner's consent was found missing. *)
Definition no_consent (student_id : uuid) : Prop := ∃ db, K db ∧ may_process student_id db = false.
(** A stage raised the exception. *)
Definition stage_raises (s student_id : uuid) (e : exn) : Prop :=
  ∃ m db, m ∈ stages s student_id ∧ db_ok db = true ∧ K db ∧ fst (m db) = inl e.

(** What has become of a claimed job when its work returns, or fails. *)
Definition worked (s student_id : uuid) (now : datetime) (r : PostLessonProcessing) (res : exn + unit) (r' : PostLessonProcessing) : Prop :=
  (res = inr tt ∧ r' = completed_row now (staged true true r)) ∨
  ∃ p f, implb (plp_profile_updated r) p = true ∧ implb (plp_flags_evaluated r) f = true ∧
    ((res = inr tt ∧ no_consent student_id ∧ ∃ reason, r' = blocked_row reason now (staged p f r)) ∨
     (∃ e, res = inl e ∧ stage_raises s student_id e ∧ r' = staged p f r)).

Section OneTurn.
Context (s student_id : uuid) (l : list PostLessonProcessing) (Hin : ∃ r, r ∈ l ∧ plp_session_id r = s).

(** [m], run when the job is [x], ends the work on the job that was [r]. *)
Definition ends (now : datetime) (r : PostLessonProcessing) (m : M unit) (db : Database) : Prop :=
  ∃ res db' r', m db = (res, db') ∧ job_is s l r' db' ∧ worked s student_id now r res r'.

Lemma ends_consent now r p f (m : M unit) db :
  job_is s l (staged p f r) db → implb (plp_profile_updated r) p = true → implb (plp_flags_evaluated r) f = true →
  (job_is s l (staged p f r) db → ends now r m db) →
  ends now r (consented ← check_consent s student_id now; if negb consented then mret tt else m) db.
Proof.
  intros Hr Hp Hf Hm. pose proof (check_consent_run s l Hin _ student_id now db Hr) as Hc. destruct (may_process student_id db) eqn:Hmay.
  - destruct (Hm Hr) as (res & db' & r' & Hrun & Hr' & Hw). exists res, db', r'. by rewrite (bind_inr _ _ _ _ _ Hc).
  - destruct Hc as (reason & db' & Hc & Hr'). exists (inr tt), db', (blocked_row reason now (staged p f r)).
    rewrite (bind_inr _ _ _ _ _ Hc). split; [done|]. split; [done|]. right. exists p, f. split_and!; [done..|]. left. split; [done|]. split; [|eauto].
    exists db. split; [apply Hr|done].
Qed.

Lemma ends_quiet now r p f (m k : M unit) db :
  quiet m → m ∈ stages s student_id → job_is s l (staged p f r) db →
  implb (plp_profile_updated r) p = true → implb (plp_flags_evaluated r) f = true →
  (∀ db', job_is s l (staged p f r) db' → ends now r k db') → ends now r (m;; k) db.
Proof.
  intros Hm Hst Hr Hp Hf Hk. destruct (quiet_run s l m _ db Hm Hr) as ([e|[]] & db' & Hrun & Hr').
  - exists (inl e), db', (staged p f r). rewrite (bind_inl _ _ _ _ _ Hrun). split; [done|]. split; [done|].
    right. exists p, f. split_and!; [done..|]. right. exists e. split; [done|]. split; [|done]. exists m, db.
    split; [done|]. split; [apply Hr|]. split; [apply Hr|by rewrite Hrun].
  - destruct (Hk db' Hr') as (res & db2 & r2 & Hrun2 & ? & ?). exists res, db2, r2. by rewrite (bind_inr _ _ _ _ _ Hrun).
Qed.

Lemma ends_stage now r p f p' f' (m k : M unit) mark db :
  quiet m → m ∈ stages s student_id → job_is s l (staged p f r) db → mark (staged p f r) = staged p' f' r →
  implb (plp_profile_updated r) p = true → implb (plp_flags_evaluated r) f = true →
  (∀ db', job_is s l (staged p' f' r) db' → ends now r k db') →
  ends now r ((m;; change_job s mark);; k) db.
Proof.
  intros Hm Hst Hr Hmark Hp Hf Hk.
  enough (ends now r (m;; (change_job s mark;; k)) db) as (res & db' & r' & Hrun & ?).
  { exists res, db', r'. split; [|done]. rewrite <- Hrun. unfold mbind, comp_bind. by destruct (m db) as [[e|[]] db1]. }
  eapply ends_quiet; [done..|]. clear Hr. intros db1 Hr.
  destruct (change_job_run s l Hin _ mark db1 Hr) as (db2 & Hrun2 & Hr2).
  { rewrite Hmark, staged_id, <- (staged_id p f). apply Hr. }
  rewrite Hmark in Hr2. destruct (Hk db2 Hr2) as (res & db3 & r3 & Hrun3 & ? & ?). exists res, db3, r3.
  by rewrite (bind_inr _ _ _ _ _ Hrun2).
Qed.

Lemma ends_finish now r db :
  job_is s l (staged true true r) db →
  ends now r (consented ← check_consent s student_id now;
    if negb consented then mret tt
    else record_accommodation_changes student_id;; begin_ (notify_modality_shifts s student_id);; change_job s (completed_row now)) db.
Proof.
  assert (∀ b, implb b true = true) as Htrue by (by intros []).
  intros Hr. eapply ends_consent; [exact Hr|done..|]. clear Hr. intros Hr.
  eapply ends_quiet; [apply Hrecord|unfold stages; set_solver|exact Hr|done..|]. clear db Hr. intros db Hr.
  eapply ends_quiet; [apply quiet_begin, Hnotify|unfold stages; set_solver|exact Hr|done..|]. clear db Hr. intros db Hr.
  destruct (change_job_run s l Hin _ (completed_row now) db Hr) as (db' & Hrun & Hr').
  { rewrite completed_id. apply Hr. }
  exists (inr tt), db', (completed_row now (staged true true r)). split; [done|]. split; [done|]. by left.
Qed.

Lemma ends_work now r db :
  job_is s l r db → ends now r (do_work s student_id (plp_profile_updated r) (plp_flags_evaluated r) now) db.
Proof.
  assert (∀ b, implb b b = true) as Hself by (by intros []). assert (∀ b, implb b true = true) as Htrue by (by intros []).
  intros Hr. unfold work. rewrite <- (staged_self r) in Hr.
  eapply ends_consent; [exact Hr|done..|]. clear Hr. intros Hr.
  set (tail := proceed ← (if plp_flags_evaluated r then mret true else _); _).
  assert (∀ db', job_is s l (staged true (plp_flags_evaluated r) r) db' → ends now r tail db') as Htail.
  { clear db Hr. intros db Hr. unfold tail. destruct (plp_flags_evaluated r) eqn:Hf.
    { exact (ends_finish now r db Hr). }
    set (finish := ends_finish now r). unfold tail.
    match goal with |- ends _ _ (_ ≫= λ proceed, if negb proceed then mret tt else ?k) _ => set (last := k) end.
    enough (ends now r (consented ← check_consent s student_id now;
      if negb consented then mret tt else (evaluate_student student_id;; change_job s mark_flags);; last) db) as (res & db' & r' & Hrun & ?).
    { exists res, db', r'. split; [|done]. rewrite <- Hrun. unfold mbind, comp_bind.
      destruct (check_consent s student_id now db) as [[e|[]] db1]; [done| |done]. cbn [negb].
      destruct (evaluate_student student_id db1) as [[e|[]] db2]; [done|].
      by destruct (change_job s mark_flags db2) as [[e|[]] db3]. }
    eapply ends_consent; [exact Hr|done|by rewrite Hf|]. clear Hr. intros Hr.
    eapply ends_stage; [apply Hevaluate|unfold stages; set_solver|exact Hr|apply mark_flags_staged|done|by rewrite Hf|].
    intros db' Hr'. exact (finish db' Hr'). }
  destruct (plp_profile_updated r) eqn:Hp; [by apply Htail|].
  eapply ends_stage; [apply Hupdate|unfold stages; set_solver|exact Hr|apply mark_profile_staged|by rewrite Hp|done|exact Htail].
Qed.
End OneTurn.

(** What must have happened when a job is blocked, and when it is to be
    tried again. *)
Definition raised_on (r : PostLessonProcessing) (error : string) : Prop :=
  ∃ e, error = str_error e ∧ stage_raises (plp_session_id r) (plp_student_id r) e.

(** A turn of the worker takes the due job that waits longest, and leaves it
    in one of three ways; it never fails. *)
Lemma process_job_run now db :
  db_ok db = true → K db →
  match next_job now db with
  | None => process_next now db = (inr false, db)
  | Some r => ∃ r' db', process_next now db = (inr true, db') ∧ db_ok db' = true ∧ K db' ∧
      turn (no_consent (plp_student_id r)) (raised_on r) now r r' ∧
      jobs db' = replaced (plp_session_id r) r' (jobs db)
  end.
Proof.
  intros Hok Hkn. unfold process_job. pose proof (claim_job_run now db Hok Hkn) as Hclaim.
  destruct (next_job now db) as [r|] eqn:Hnext; [|by rewrite (bind_inr _ _ _ _ _ Hclaim)].
  destruct Hclaim as (db1 & Hclaim & Hr1). rewrite (bind_inr _ _ _ _ _ Hclaim). apply next_job_Some in Hnext as [Hin Hdue].
  assert (∃ r', r' ∈ jobs db ∧ plp_session_id r' = plp_session_id r) as Hex by eauto.
  destruct (ends_work _ (plp_student_id r) _ Hex now (claimed_row now r) db1 Hr1) as (res & db2 & r2 & Hwork & Hr2 & Hw).
  assert (plp_profile_updated (claimed_row now r) = plp_profile_updated r) as Hp by (by destruct r).
  assert (plp_flags_evaluated (claimed_row now r) = plp_flags_evaluated r) as Hf by (by destruct r).
  rewrite Hp, Hf in Hwork. unfold worked in Hw. rewrite Hp, Hf in Hw.
  destruct Hw as [[-> ->]|(p & f & Hp' & Hf' & [(-> & Hno & reason & ->)|(e & -> & He & ->)])].
  - eexists _, db2. split; [unfold try_except; by rewrite bind_run, Hwork|]. destruct Hr2 as (? & ? & _ & ?).
    split_and!; [done..|constructor|done].
  - eexists _, db2. split; [unfold try_except; by rewrite bind_run, Hwork|]. destruct Hr2 as (? & ? & _ & ?).
    split_and!; [done..|by constructor|done].
  - destruct (change_job_run _ _ Hex _ (retried_row (str_error e) now) db2 Hr2) as (db3 & Hrun3 & Hr3).
    { rewrite retried_id. apply Hr2. }
    eexists _, db3. split; [unfold try_except; rewrite bind_run, Hwork; by rewrite Hrun3|]. destruct Hr3 as (? & ? & _ & ?).
    split_and!; [done..|constructor; [done..|by exists e]|done].
Qed.
End Turns.
End Known.

(** ** The life of a job *)

(** A job that is finished with. *)
Definition job_over (r : PostLessonProcessing) : bool :=
  (plp_status r == "completed") || (plp_status r == "permanently_failed").

(** What a job looks like. *)
Definition job_sound (r : PostLessonProcessing) : bool :=
  (0 <=? plp_attempt_count r) && (plp_attempt_count r <=? MAX_JOB_ATTEMPTS) &&
  (if plp_status r == "completed" then plp_profile_updated r && plp_flags_evaluated r && is_some (plp_processed_at r)
   else if plp_status r == "permanently_failed" then plp_attempt_count r == MAX_JOB_ATTEMPTS
   else if plp_status r == "processing" then true
   else bool_decide (plp_status r ∈ ["pending"; "failed"; "consent_blocked"]) && (plp_attempt_count r <? MAX_JOB_ATTEMPTS)).

(** What may become of a job. *)
Record job_later (r r' : PostLessonProcessing) : Prop := {
  job_later_same : plp_session_id r' = plp_session_id r ∧ plp_student_id r' = plp_student_id r ∧
    plp_completed_at r' = plp_completed_at r;
  job_later_stages : implb (plp_profile_updated r) (plp_profile_updated r') = true ∧
    implb (plp_flags_evaluated r) (plp_flags_evaluated r') = true;
  job_later_over : job_over r = true → r' = r
}.

#[export] Instance job_later_preorder : PreOrder job_later.
Proof.
  split.
  - intros r. split; [done| |done]. by destruct (plp_profile_updated r), (plp_flags_evaluated r).
  - intros a b c [(? & ? & ?) [? ?] Ho] [(? & ? & ?) [? ?] Ho']. split.
    + split_and!; congruence.
    + destruct (plp_profile_updated a), (plp_profile_updated b), (plp_flags_evaluated a), (plp_flags_evaluated b); done.
    + intros Hover. specialize (Ho Hover) as ->. by apply Ho'.
Qed.

Lemma due_not_over now r : due now r = true → job_over r = false ∧ plp_attempt_count r < MAX_JOB_ATTEMPTS.
Proof.
  unfold due, job_over. rewrite !andb_true_iff. intros [[Hatt%Z.ltb_lt _] Hst]. split; [|done].
  apply orb_true_iff in Hst as [Hst%bool_decide_eq_true|Hst%bool_decide_eq_true]; [|by rewrite Hst].
  set_unfold in Hst. by destruct Hst as [->|[->|[->|[]]]].
Qed.

Lemma waiting_job_sound r :
  plp_status r ∈ ["pending"; "failed"; "consent_blocked"] → 0 <= plp_attempt_count r < MAX_JOB_ATTEMPTS → job_sound r = true.
Proof.
  intros Hst Hatt. unfold job_sound.
  assert (plp_status r ≠ "completed" ∧ plp_status r ≠ "permanently_failed" ∧ plp_status r ≠ "processing") as (? & ? & ?)
    by (set_unfold in Hst; destruct Hst as [->|[->|[->|[]]]]; done).
  rewrite !bool_decide_false by done. rewrite bool_decide_true, !andb_true_iff, !Z.leb_le, Z.ltb_lt by done. split_and!; [lia..|done|lia].
Qed.

Lemma turn_sound blocked raised now r r' :
  due now r = true → job_sound r = true → turn blocked raised now r r' → job_sound r' = true ∧ job_later r r'.
Proof.
  intros Hdue Hr Ht. apply due_not_over in Hdue as [Hover Hatt].
  assert (0 <= plp_attempt_count r) as H0.
  { unfold job_sound in Hr. rewrite !andb_true_iff, !Z.leb_le in Hr. tauto. }
  destruct Ht as [|p f reason Hp Hf _|p f error Hp Hf _].
  - split; [|destruct r; split; cbn in *; [done|by rewrite !implb_true_r|by rewrite Hover]]. destruct r. cbn in *.
    unfold job_sound. cbn -[Z.leb Z.add]. rewrite !andb_true_iff, !Z.leb_le. unfold MAX_JOB_ATTEMPTS in *. split_and!; [lia..|done].
  - split; [|destruct r; split; cbn in *; [done|done|by rewrite Hover]]. destruct r. cbn in *.
    apply waiting_job_sound; cbn -[Z.max Z.add]; [set_solver|]. unfold MAX_JOB_ATTEMPTS in *. lia.
  - split; [|destruct r; split; cbn in *; [done|done|by rewrite Hover]]. destruct r. cbn in *.
    unfold retried_row. cbn -[Z.leb Z.add Z.max Z.min Z.pow]. destruct (MAX_JOB_ATTEMPTS <=? plp_attempt_count + 1) eqn:Hle.
    + apply Z.leb_le in Hle. assert (plp_attempt_count + 1 = MAX_JOB_ATTEMPTS) as Heq by lia.
      unfold job_sound. cbn -[Z.add]. by rewrite Heq.
    + apply Z.leb_gt in Hle. apply waiting_job_sound; cbn -[Z.add]; [set_solver|lia].
Qed.

Lemma claimed_sound now r :
  due now r = true → job_sound r = true → job_sound (claimed_row now r) = true ∧ job_later r (claimed_row now r).
Proof.
  intros Hdue Hr. apply due_not_over in Hdue as [Hover Hatt]. split.
  - unfold job_sound in Hr |- *. rewrite !andb_true_iff, !Z.leb_le in Hr. destruct r. cbn -[Z.leb Z.add] in *.
    rewrite !andb_true_iff, !Z.leb_le. unfold MAX_JOB_ATTEMPTS in *. split_and!; [lia..|done].
  - destruct r. split; cbn in *; [done| |by rewrite Hover]. by destruct plp_profile_updated, plp_flags_evaluated.
Qed.

(** A job put in place of another. *)
Lemma job_replaced (db db' : Database) r r' :
  db_ok db = true → r ∈ jobs db → plp_session_id r' = plp_session_id r → jobs db' = replaced (plp_session_id r) r' (jobs db) →
  job (plp_session_id r) db' = Some r' ∧ ∀ i, i ≠ plp_session_id r → job i db' = job i db.
Proof.
  intros Hok Hr Hid Hjobs.
  assert (∀ i, job i db' = (λ a, if plp_session_id a == plp_session_id r then r' else a) <$> job i db) as Hall.
  { intros i. unfold job. rewrite Hjobs. apply findb_update_list. intros a _ Ha%bool_decide_eq_true. cbn. by rewrite Hid, Ha. }
  split.
  - rewrite Hall. destruct (findb_is_Some (λ a, plp_session_id a == plp_session_id r) (jobs db) r Hr) as [x Hx]; [by apply bool_decide_eq_true|].
    unfold job. rewrite Hx. apply findb_Some in Hx as [Hx _]. cbn. by rewrite Hx.
  - intros i Hne. rewrite Hall. destruct (job i db) as [a|] eqn:Ha; [|done]. apply findb_Some in Ha as [Ha%bool_decide_eq_true _].
    cbn. by rewrite bool_decide_false by congruence.
Qed.

Lemma job_of_elem (db : Database) r : db_ok db = true → r ∈ jobs db → job (plp_session_id r) db = Some r.
Proof.
  intros Hok Hr. apply findb_unique; [done|by apply bool_decide_eq_true|]. intros a Ha Hid%bool_decide_eq_true.
  apply db_ok_spec with (t := PostLessonProcessings) in Hok. symmetry.
  apply (unique_on_eq _ _ r a (plp_session_id r) Hok Hr Ha); cbn; by rewrite ?Hid.
Qed.

(** The queue moves on. *)
Definition queue_moves (db db' : Database) : Prop :=
  db_ok db' = true ∧ Forall (λ r, job_sound r = true) (jobs db') ∧
  ∀ i r, job i db = Some r → ∃ r', job i db' = Some r' ∧ job_later r r'.

Lemma queue_moves_replaced (db db' : Database) r r' :
  db_ok db = true → db_ok db' = true → Forall (λ r, job_sound r = true) (jobs db) → r ∈ jobs db →
  jobs db' = replaced (plp_session_id r) r' (jobs db) → job_sound r' = true → job_later r r' → queue_moves db db'.
Proof.
  intros Hok Hok' Hall Hr Hjobs Hr' Hlater. split; [done|]. split.
  - rewrite Hjobs. by apply Forall_update_list.
  - destruct (job_replaced db db' r r' Hok Hr (proj1 (job_later_same _ _ Hlater)) Hjobs) as [Hthis Hothers].
    intros i x Hx. destruct (decide (i = plp_session_id r)) as [->|Hne].
    + rewrite job_of_elem in Hx by done. injection Hx as <-. eauto.
    + exists x. rewrite Hothers by done. split; [done|reflexivity].
Qed.

(** The row a finished lesson adds. *)
Definition new_job (session_id student_id : uuid) (completed_at : option datetime) (now : datetime) : PostLessonProcessing :=
  mkPostLessonProcessing session_id student_id (default now completed_at) "pending" 0 now false false None None.

Lemma get_job_run i (db : Database) : (get PostLessonProcessings i : M _) db = (inr (job i db), db).
Proof. done. Qed.

Lemma enqueue_run session_id student_id completed_at now (db : Database) :
  db_ok db = true →
  match job session_id db with
  | Some r => enqueue session_id student_id completed_at now db = (inr (plp_status r), db)
  | None => ∃ db', enqueue session_id student_id completed_at now db = (inr "pending", db') ∧ db_ok db' = true ∧
      jobs db' = (jobs db ++ [new_job session_id student_id completed_at now])%list ∧
      ∀ t, t ≠ PostLessonProcessings → db_tables db' t = db_tables db t
  end.
Proof.
  intros Hok. unfold enqueue, enqueue_post_lesson, begin_. destruct (job session_id db) as [r|] eqn:Hjob.
  - apply transaction_ok; [|done]. rewrite (bind_inr _ _ _ _ _ (get_job_run session_id db)), Hjob. cbn [is_none].
    rewrite bind_run, ret_run, (bind_inr _ _ _ _ _ (get_job_run session_id db)), Hjob. done.
  - set (x := new_job session_id student_id completed_at now).
    set (db' := set_table PostLessonProcessings (jobs db ++ [x]) db). exists db'.
    assert (jobs db' = (jobs db ++ [x])%list) as Hjobs by (unfold jobs at 1, db'; by rewrite set_table_eq).
    assert (db_ok db' = true) as Hok'.
    { apply db_ok_set_table; [done|]. apply db_ok_spec with (t := PostLessonProcessings) in Hok.
      apply unique_on_snoc; [exact Hok|]. intros k [= <-] r Hr [= Hid]. unfold job in Hjob. rewrite findb_None in Hjob.
      specialize (Hjob r Hr). by rewrite bool_decide_eq_false in Hjob. }
    split; [|split; [done|split; [done|intros t Ht; by apply set_table_ne]]].
    apply transaction_ok; [|done]. rewrite (bind_inr _ _ _ _ _ (get_job_run session_id db)), Hjob. cbn [is_none].
    rewrite (bind_inr _ _ _ db' tt) by done. rewrite (bind_inr _ _ _ _ _ (get_job_run session_id db')).
    unfold job. rewrite Hjobs, findb_app. fold (job session_id db). rewrite Hjob, findb_cons. by rewrite bool_decide_true.
Qed.

(** What happens to the queue: a lesson is finished, the worker takes a turn,
    or it takes a job and its process dies - after [k] of the actions, and
    with [torn] of the next one done. *)
Inductive Tick :=
| Finished (session_id student_id : uuid) (completed_at : option datetime) (now : datetime)
| Turn (now : datetime)
| Died (now : datetime) (k : nat) (torn : M unit).

(** Moments that are an hour apart or more. *)
Fixpoint hourly (nows : list datetime) : bool :=
  match nows with
  | a :: ((b :: _) as rest) => (a + hours 1 <=? b) && hourly rest
  | _ => true
  end.

Section History.
Context (update_after_lesson notify_modality_shifts : uuid → uuid → M unit)
  (evaluate_student record_accommodation_changes : uuid → M unit) (str_error : exn → string).

Definition tick (t : Tick) (db : Database) : Database :=
  match t with
  | Finished s st c now => snd (enqueue s st c now db)
  | Turn now => snd (process_job update_after_lesson notify_modality_shifts evaluate_student record_accommodation_changes str_error now db)
  | Died now k torn =>
    match claim_job now db with
    | (inr (Some r), db1) =>
      snd (torn (snd (run_actions (take k (actions update_after_lesson notify_modality_shifts evaluate_student
        record_accommodation_changes (plp_session_id r) (plp_student_id r) (plp_profile_updated r) (plp_flags_evaluated r) now))
        db1)))
    | (_, db1) => db1
    end
  end.

Definition history (ts : list Tick) (db : Database) : Database := foldl (λ db t, tick t db) db ts.

Local Notation quiet := (quiet (λ _, True)).
Context (Hupdate : ∀ i j, quiet (update_after_lesson i j)) (Hnotify : ∀ i j, quiet (notify_modality_shifts i j))
  (Hevaluate : ∀ i, quiet (evaluate_student i)) (Hrecord : ∀ i, quiet (record_accommodation_changes i)).

Lemma queue_moves_refl (db : Database) :
  db_ok db = true → Forall (λ r, job_sound r = true) (jobs db) → queue_moves db db.
Proof. intros Hok Hall. split; [done|]. split; [done|]. intros i r Hr. exists r. split; [done|reflexivity]. Qed.

Lemma history_cons t ts (db : Database) : history (t :: ts) db = history ts (tick t db).
Proof. done. Qed.

(** *** What the stages achieve

    [achieved g student session] is whatever a stage leaves behind when it
    returns, and the other stages and the queue do not undo. *)
Inductive Stage := PROFILE_STAGE | FLAGS_STAGE | ACCOMMODATION_STAGE | NOTICE_STAGE.

Definition stage (g : Stage) (student session : uuid) : M unit :=
  match g with
  | PROFILE_STAGE => update_after_lesson student session
  | FLAGS_STAGE => evaluate_student student
  | ACCOMMODATION_STAGE => record_accommodation_changes student
  | NOTICE_STAGE => begin_ (notify_modality_shifts session student)
  end.

Context (achieved : Stage → uuid → uuid → Database → Prop).

(** It is there once the stage returned, and stays. *)
Record lasting : Prop := {
  lasting_achieved : ∀ g st s db db', db_ok db = true → stage g st s db = (inr tt, db') → achieved g st s db';
  lasting_stage : ∀ g st s g' st' s', preserves (achieved g st s) (stage g' st' s');
  lasting_queue : ∀ g st s l db, achieved g st s db → achieved g st s (set_table PostLessonProcessings l db)
}.

(** The marks of a job are true: a stage marked as done has been done, and
    all four of them when the job is completed. *)
Definition marks_ok (db : Database) (r : PostLessonProcessing) : Prop :=
  let has g := achieved g (plp_student_id r) (plp_session_id r) db in
  (plp_profile_updated r = true → has PROFILE_STAGE) ∧ (plp_flags_evaluated r = true → has FLAGS_STAGE) ∧
  (plp_status r = "completed" → has ACCOMMODATION_STAGE ∧ has NOTICE_STAGE).

(** What a dying process had done of an action leaves the queue and what was
    achieved alone. *)
Definition torn_ok (t : Tick) : Prop :=
  match t with
  | Died _ _ torn => quiet torn ∧ ∀ g st s, preserves (achieved g st s) torn
  | _ => True
  end.

Context (Hlasting : lasting).

Lemma stage_quiet g st s : quiet (stage g st s).
Proof. destruct g; [apply Hupdate|apply Hevaluate|apply Hrecord|apply quiet_begin, Hnotify]. Qed.

Section Kept.
Context (g : Stage) (st s : uuid).
Local Notation kept := (preserves (achieved g st s)).

Lemma kept_change i f : kept (change_job i f).
Proof.
  apply preserves_transaction. intros db Hdb. rewrite (bind_inr _ _ _ _ _ (get_job_run i db)).
  destruct (job i db); [by apply (lasting_queue Hlasting)|done].
Qed.

Lemma kept_enqueue i student c now : kept (enqueue i student c now).
Proof.
  apply preserves_transaction. unfold enqueue_post_lesson. apply preserves_bind; [by apply preserves_reads|]. intros existing.
  apply preserves_bind; [|intros _; preserves_tac; by apply preserves_reads].
  destruct (is_none _); [|apply preserves_ret]. intros db Hdb. by apply (lasting_queue Hlasting).
Qed.

Lemma kept_claim now : kept (claim_job now).
Proof.
  apply preserves_transaction. apply preserves_bind; [by apply preserves_reads|]. intros waiting.
  case_match; [apply preserves_ret|]. apply preserves_bind; [|intros; apply preserves_ret].
  intros db Hdb. by apply (lasting_queue Hlasting).
Qed.

Lemma kept_consent i student now : kept (check_consent i student now).
Proof.
  apply preserves_transaction. apply preserves_bind; [by apply preserves_reads|]. intros consent.
  apply preserves_bind; [apply preserves_reads; intros db; by rewrite age_check_blocks_run|]. intros held.
  case_match; [apply preserves_ret|]. apply preserves_bind; [by apply preserves_reads|]. intros record.
  apply preserves_bind; [|intros; apply preserves_ret]. case_match; [|apply preserves_ret].
  intros db Hdb. by apply (lasting_queue Hlasting).
Qed.

Lemma kept_actions k i student p f now :
  kept (run_actions (take k (actions update_after_lesson notify_modality_shifts evaluate_student
    record_accommodation_changes i student p f now))).
Proof.
  assert (∀ l : list (M bool), Forall (λ a, kept a) l → kept (run_actions l)) as Hrun.
  { induction 1 as [|a l Ha _ IH]; [apply preserves_ret|]. cbn [run_actions]. apply preserves_bind; [exact Ha|].
    intros []; [exact IH|apply preserves_ret]. }
  apply Hrun, Forall_take. unfold actions.
  assert (∀ g', kept (stage g' student i;; mret true)) as Hstage.
  { intros g'. apply preserves_bind; [apply Hlasting|]. intros _. apply preserves_ret. }
  assert (∀ h, kept (change_job i h;; mret true)) as Hchange.
  { intros h. apply preserves_bind; [apply kept_change|]. intros _. apply preserves_ret. }
  destruct p, f; repeat (apply Forall_cons_2 || apply Forall_nil_2); try apply Hchange; try apply kept_consent;
    first [exact (Hstage PROFILE_STAGE)|exact (Hstage FLAGS_STAGE)|exact (Hstage ACCOMMODATION_STAGE)|exact (Hstage NOTICE_STAGE)].
Qed.
End Kept.

(** *** What a process has done when it dies *)

(** What a claimed job looks like until its turn is over. *)
Definition halfway (now : datetime) (r r' : PostLessonProcessing) : Prop :=
  r' = completed_row now (staged true true r) ∨
  ∃ p f, implb (plp_profile_updated r) p = true ∧ implb (plp_flags_evaluated r) f = true ∧
    (r' = staged p f r ∨ ∃ reason, r' = blocked_row reason now (staged p f r)).

Section Prefix.
Context (s st : uuid) (l : list PostLessonProcessing) (Hin : ∃ r, r ∈ l ∧ plp_session_id r = s)
  (now : datetime) (r : PostLessonProcessing) (Hst : plp_student_id r = st) (Hclaimed : plp_status r = "processing").

Local Notation job_is := (job_is (λ _, True) s l).

(** The stages marked and the stages achieved, while the work goes on. *)
Definition at_work (p f : bool) (gs : list Stage) (db : Database) : Prop :=
  job_is (staged p f r) db ∧ implb (plp_profile_updated r) p = true ∧ implb (plp_flags_evaluated r) f = true ∧
  (p = true → PROFILE_STAGE ∈ gs) ∧ (f = true → FLAGS_STAGE ∈ gs) ∧ ∀ g, g ∈ gs → achieved g st s db.

Definition left_at (db : Database) : Prop := ∃ r', job_is r' db ∧ halfway now r r' ∧ marks_ok db r'.

Lemma at_work_left p f gs db : at_work p f gs db → left_at db.
Proof.
  intros (Hr & Hp & Hf & Hps & Hfs & Hgs). exists (staged p f r). split; [done|]. split; [right; exists p, f; auto|].
  pose proof Hr as (_ & _ & Hs & _). unfold marks_ok. rewrite Hs. destruct r. cbn in *. subst. split_and!; auto. done.
Qed.

Lemma halts_cons (a : M bool) acts db :
  left_at db → left_at (snd (a db)) →
  (∀ db', a db = (inr true, db') → ∀ k, left_at (snd (run_actions (take k acts) db'))) →
  ∀ k, left_at (snd (run_actions (take k (a :: acts)) db)).
Proof.
  intros H0 H1 Hnext [|k]; [done|]. cbn [take run_actions]. rewrite bind_run.
  destruct (a db) as [[e|[]] db']; [done|by apply Hnext|done].
Qed.

Lemma halts_consent p f gs acts db :
  at_work p f gs db → (∀ k, left_at (snd (run_actions (take k acts) db))) →
  ∀ k, left_at (snd (run_actions (take k (check_consent s st now :: acts)) db)).
Proof.
  intros Hw Hnext. pose proof Hw as (Hr & Hp & Hf & Hps & Hfs & Hgs).
  pose proof (check_consent_run (λ _, True) (λ _ _ _, I) s l Hin _ st now db Hr) as Hc.
  assert (∀ g, g ∈ gs → achieved g st s (snd (check_consent s st now db))) as Hgs'.
  { intros g Hg. by apply kept_consent, Hgs. }
  destruct (may_process st db).
  - apply halts_cons; rewrite ?Hc; [by eapply at_work_left|by eapply at_work_left|]. intros db' [= <-]. exact Hnext.
  - destruct Hc as (reason & db' & Hc & Hr'). rewrite Hc in Hgs'. cbn [snd] in Hgs'.
    apply halts_cons; rewrite ?Hc; [by eapply at_work_left| |done]. cbn [snd].
    eexists. split; [exact Hr'|]. split; [right; exists p, f; eauto|]. pose proof Hr' as (_ & _ & Hs & _). unfold marks_ok.
    rewrite Hs. destruct r. cbn in *. subst. split_and!; auto. done.
Qed.

Lemma halts_stage g p f gs acts db :
  at_work p f gs db → (∀ db', at_work p f (g :: gs) db' → ∀ k, left_at (snd (run_actions (take k acts) db'))) →
  ∀ k, left_at (snd (run_actions (take k ((stage g st s;; mret true) :: acts)) db)).
Proof.
  intros Hw Hnext. pose proof Hw as (Hr & Hp & Hf & Hps & Hfs & Hgs).
  destruct (quiet_run (λ _, True) s l (stage g st s) _ db (stage_quiet g st s) Hr) as (res & db1 & Hrun & Hr1).
  assert (∀ g', g' ∈ gs → achieved g' st s db1) as Hgs1.
  { intros g' Hg'. pose proof (lasting_stage Hlasting g' st s g st s db (Hgs g' Hg')) as H. by rewrite Hrun in H. }
  assert (at_work p f gs db1) as Hw1 by done.
  apply halts_cons; [by eapply at_work_left|rewrite bind_run, Hrun; destruct res as [e|[]]; by eapply at_work_left|].
  intros db' Hgo. rewrite bind_run, Hrun in Hgo. destruct res as [e|[]]; [done|]. injection Hgo as <-. apply Hnext.
  split_and!; try done; [set_solver..|]. intros g' [->|Hg']%elem_of_cons; [|auto].
  eapply (lasting_achieved Hlasting); [|exact Hrun]. apply Hr.
Qed.

Lemma halts_mark mark p f p' f' gs acts db :
  at_work p f gs db → mark (staged p f r) = staged p' f' r → implb p p' = true → implb f f' = true →
  (p' = true → PROFILE_STAGE ∈ gs) → (f' = true → FLAGS_STAGE ∈ gs) →
  (∀ db', at_work p' f' gs db' → ∀ k, left_at (snd (run_actions (take k acts) db'))) →
  ∀ k, left_at (snd (run_actions (take k ((change_job s mark;; mret true) :: acts)) db)).
Proof.
  intros Hw Hmark Hpp Hff Hp' Hf' Hnext. pose proof Hw as (Hr & Hp & Hf & _ & _ & Hgs).
  destruct (change_job_run (λ _, True) (λ _ _ _, I) s l Hin _ mark db Hr) as (db1 & Hrun & Hr1).
  { rewrite Hmark, staged_id, <- (staged_id p f). apply Hr. }
  rewrite Hmark in Hr1.
  assert (at_work p' f' gs db1) as Hw1.
  { split_and!; try done; [by destruct (plp_profile_updated r), p|by destruct (plp_flags_evaluated r), f|].
    intros g Hg. pose proof (kept_change g st s s mark db (Hgs g Hg)) as H. by rewrite Hrun in H. }
  apply halts_cons; rewrite ?(bind_inr _ _ _ _ _ Hrun); [by eapply at_work_left|by eapply at_work_left|].
  intros db' [= <-]. by apply Hnext.
Qed.

Lemma halts_complete gs db :
  at_work true true gs db → ACCOMMODATION_STAGE ∈ gs → NOTICE_STAGE ∈ gs →
  ∀ k, left_at (snd (run_actions (take k [change_job s (completed_row now);; mret true]) db)).
Proof.
  intros Hw Ha Hn. pose proof Hw as (Hr & _ & _ & Hps & Hfs & Hgs).
  destruct (change_job_run (λ _, True) (λ _ _ _, I) s l Hin _ (completed_row now) db Hr) as (db1 & Hrun & Hr1).
  { rewrite completed_id. apply Hr. }
  assert (∀ g, g ∈ gs → achieved g st s db1) as Hgs1.
  { intros g Hg. pose proof (kept_change g st s s (completed_row now) db (Hgs g Hg)) as H. by rewrite Hrun in H. }
  assert (left_at db1) as Hend.
  { eexists. split; [exact Hr1|]. split; [by left|]. pose proof Hr1 as (_ & _ & Hs & _). unfold marks_ok.
    rewrite Hs. destruct r. cbn in *. subst. split_and!; auto. }
  apply halts_cons; rewrite ?(bind_inr _ _ _ _ _ Hrun); [by eapply at_work_left|done|]. intros db' [= <-] k. by rewrite take_nil.
Qed.

Lemma halts_last gs db :
  at_work true true gs db →
  ∀ k, left_at (snd (run_actions (take k [check_consent s st now; record_accommodation_changes st;; mret true;
    begin_ (notify_modality_shifts s st);; mret true; change_job s (completed_row now);; mret true]) db)).
Proof.
  intros Hw. eapply halts_consent; [exact Hw|].
  apply (halts_stage ACCOMMODATION_STAGE _ _ _ _ _ Hw). clear db Hw. intros db Hw.
  apply (halts_stage NOTICE_STAGE _ _ _ _ _ Hw). clear db Hw. intros db Hw.
  eapply halts_complete; [exact Hw|set_solver..].
Qed.

Lemma halts_later f gs db :
  at_work true f gs db →
  ∀ k, left_at (snd (run_actions (take k ((if f then [] else [check_consent s st now; evaluate_student st;; mret true;
      change_job s mark_flags;; mret true]) ++
    [check_consent s st now; record_accommodation_changes st;; mret true;
     begin_ (notify_modality_shifts s st);; mret true; change_job s (completed_row now);; mret true])) db)).
Proof.
  intros Hw. destruct f; [by eapply halts_last|]. cbn [app]. eapply halts_consent; [exact Hw|].
  apply (halts_stage FLAGS_STAGE _ _ _ _ _ Hw). clear db Hw. intros db Hw.
  eapply (halts_mark mark_flags true false true true); [exact Hw|apply mark_flags_staged|done..| | |].
  - intros _. destruct Hw as (_ & _ & _ & Hp & _). by apply Hp.
  - set_solver.
  - clear db Hw. intros db Hw. by eapply halts_last.
Qed.

Lemma halts_actions db k :
  job_is r db → marks_ok db r →
  left_at (snd (run_actions (take k (actions update_after_lesson notify_modality_shifts evaluate_student
    record_accommodation_changes s st (plp_profile_updated r) (plp_flags_evaluated r) now)) db)).
Proof.
  intros Hr (Hp & Hf & _). set (gs := ((if plp_profile_updated r then [PROFILE_STAGE] else []) ++
    (if plp_flags_evaluated r then [FLAGS_STAGE] else []))%list).
  assert (at_work (plp_profile_updated r) (plp_flags_evaluated r) gs db) as Hw.
  { pose proof Hr as (_ & _ & Hs & _). split; [by rewrite staged_self|]. rewrite Hs, Hst in Hp, Hf.
    split_and!; [by destruct (plp_profile_updated r)|by destruct (plp_flags_evaluated r)|unfold gs; intros ->; set_solver| |].
    - unfold gs. intros ->. set_solver.
    - intros g Hg. unfold gs in Hg. apply elem_of_app in Hg as [Hg|Hg]; repeat case_match; set_solver. }
  revert k. unfold actions. cbn [app]. eapply halts_consent; [exact Hw|]. clearbody gs. clear Hr Hp Hf.
  destruct (plp_profile_updated r); [by eapply halts_later|]. cbn [app].
  apply (halts_stage PROFILE_STAGE _ _ _ _ _ Hw). clear db Hw. intros db Hw.
  eapply (halts_mark mark_profile false _ true); [exact Hw|apply mark_profile_staged|done|by destruct (plp_flags_evaluated r)|set_solver| |].
  - destruct Hw as (_ & _ & _ & _ & Hf & _). exact Hf.
  - clear db Hw. intros db Hw. by eapply halts_later.
Qed.
End Prefix.

(** *** The queue moves on, whatever happens *)

Lemma marks_kept (db db' : Database) x :
  (∀ g i j, achieved g i j db → achieved g i j db') → marks_ok db x → marks_ok db' x.
Proof. intros Hkept (Hp & Hf & Hc). split_and!; [auto..|]. intros Hx. destruct (Hc Hx). auto. Qed.

Definition marked (db : Database) : Prop := ∀ r, r ∈ jobs db → marks_ok db r.

Lemma marks_replaced (db db' : Database) i r' :
  (∀ g j k, achieved g j k db → achieved g j k db') → marked db → marks_ok db' r' →
  jobs db' = replaced i r' (jobs db) → marked db'.
Proof.
  intros Hkept Hall Hr' Hjobs x Hx. rewrite Hjobs in Hx. apply elem_of_update_list in Hx as (y & Hy & ->).
  case_match; [done|]. by eapply marks_kept, Hall.
Qed.

(** A job just claimed. *)
Lemma claimed_run now r (db : Database) :
  db_ok db = true → next_job now db = Some r → marks_ok db r →
  ∃ db1, claim_job now db = (inr (Some r), db1) ∧
    job_is (λ _, True) (plp_session_id r) (jobs db) (claimed_row now r) db1 ∧ marks_ok db1 (claimed_row now r) ∧
    ∀ g i j, achieved g i j db → achieved g i j db1.
Proof.
  intros Hok Hnext Hmarks. pose proof (claim_job_run (λ _, True) (λ _ _ _, I) now db Hok I) as Hclaim. rewrite Hnext in Hclaim.
  destruct Hclaim as (db1 & Hclaim & Hr1). exists db1. split; [done|]. split; [done|].
  assert (∀ g i j, achieved g i j db → achieved g i j db1) as Hkept.
  { intros g i j Hg. pose proof (kept_claim g i j now db Hg) as H. by rewrite Hclaim in H. }
  split; [|done]. destruct (marks_kept _ _ _ Hkept Hmarks) as (Hp & Hf & _). by destruct r.
Qed.

Lemma kept_turn g i j now : preserves (achieved g i j)
  (process_job update_after_lesson notify_modality_shifts evaluate_student record_accommodation_changes str_error now).
Proof.
  apply preserves_bind; [apply kept_claim|]. intros [r|]; [|apply preserves_ret].
  apply preserves_bind; [|intros _; apply preserves_ret]. apply preserves_try.
  - intros db Hdb. rewrite work_actions. rewrite <- (firstn_all (actions _ _ _ _ _ _ _ _ _)). by apply kept_actions.
  - intros e k [= <-]. apply kept_change.
Qed.

(** The job a turn leaves. *)
Lemma turn_marks now r (db : Database) :
  db_ok db = true → next_job now db = Some r → marks_ok db r →
  let db' := snd (process_job update_after_lesson notify_modality_shifts evaluate_student record_accommodation_changes str_error now db) in
  ∃ r', jobs db' = replaced (plp_session_id r) r' (jobs db) ∧ marks_ok db' r'.
Proof.
  intros Hok Hnext Hmarks. cbv zeta. pose proof (next_job_Some _ _ _ Hnext) as [Hin _].
  assert (∃ x, x ∈ jobs db ∧ plp_session_id x = plp_session_id r) as Hex by eauto.
  destruct (claimed_run now r db Hok Hnext Hmarks) as (db1 & Hclaim & Hr1 & Hmarks1 & _).
  assert (plp_student_id (claimed_row now r) = plp_student_id r ∧ plp_status (claimed_row now r) = "processing" ∧
    plp_profile_updated (claimed_row now r) = plp_profile_updated r ∧
    plp_flags_evaluated (claimed_row now r) = plp_flags_evaluated r) as (Hst & Hstatus & Hp & Hf) by (by destruct r).
  pose proof (halts_actions (plp_session_id r) (plp_student_id r) (jobs db) Hex now (claimed_row now r) Hst Hstatus db1
    (length (actions update_after_lesson notify_modality_shifts evaluate_student record_accommodation_changes
       (plp_session_id r) (plp_student_id r) (plp_profile_updated r) (plp_flags_evaluated r) now)) Hr1 Hmarks1) as Hleft.
  rewrite Hp, Hf, firstn_all, <- work_actions in Hleft. destruct Hleft as (r2 & Hr2 & _ & Hmarks2).
  unfold process_job. rewrite (bind_inr _ _ _ _ _ Hclaim), bind_run. unfold try_except.
  destruct (work _ _ _ _ _ _ _ _ _ db1) as [[e|[]] db2]; cbn [snd] in *; [|exists r2; split; [apply Hr2|done]].
  destruct (change_job_run (λ _, True) (λ _ _ _, I) _ _ Hex _ (retried_row (str_error e) now) db2 Hr2) as (db3 & Hrun3 & Hr3).
  { rewrite retried_id. apply Hr2. }
  rewrite Hrun3. cbn [snd ret_run]. exists (retried_row (str_error e) now r2). split; [apply Hr3|].
  assert (∀ g i j, achieved g i j db2 → achieved g i j db3) as Hkept.
  { intros g i j Hg. pose proof (kept_change g i j (plp_session_id r) (retried_row (str_error e) now) db2 Hg) as H.
    by rewrite Hrun3 in H. }
  destruct (marks_kept _ _ _ Hkept Hmarks2) as (Hp2 & Hf2 & _). clear -Hp2 Hf2.
  destruct r2. split_and!; [exact Hp2|exact Hf2|]. unfold retried_row. cbn -[Z.leb]. by case_match.
Qed.

Lemma halfway_sound now r r' :
  due now r = true → job_sound r = true → halfway now (claimed_row now r) r' → job_sound r' = true ∧ job_later r r'.
Proof.
  intros Hdue Hr [->|(p & f & Hp & Hf & [->|(reason & ->)])].
  - eapply (turn_sound True (λ _, True)); [done..|constructor].
  - destruct (claimed_sound now r Hdue Hr) as [Hs Hl]. split; [by destruct r|].
    destruct Hl as [Hsame _ Hover]. destruct r. split; [exact Hsame|done|]. intros Ho. apply due_not_over in Hdue as [Hno _].
    by rewrite Hno in Ho.
  - eapply (turn_sound True (λ _, True)); [done..|]. constructor; [by destruct r|by destruct r|done].
Qed.

Lemma died_moves now k torn (db : Database) :
  torn_ok (Died now k torn) → db_ok db = true → Forall (λ r, job_sound r = true) (jobs db) → marked db →
  queue_moves db (tick (Died now k torn) db) ∧ marked (tick (Died now k torn) db).
Proof.
  intros [Htorn Hkeep] Hok Hall Hmarks. cbn [tick].
  pose proof (claim_job_run (λ _, True) (λ _ _ _, I) now db Hok I) as Hrun.
  destruct (next_job now db) as [r|] eqn:Hnext; [|rewrite Hrun; split; [by apply queue_moves_refl|done]].
  clear Hrun. pose proof (next_job_Some _ _ _ Hnext) as [Hin Hdue].
  assert (∃ x, x ∈ jobs db ∧ plp_session_id x = plp_session_id r) as Hex by eauto.
  destruct (claimed_run now r db Hok Hnext (Hmarks r Hin)) as (db1 & -> & Hr1 & Hmarks1 & Hkept1).
  assert (plp_student_id (claimed_row now r) = plp_student_id r ∧ plp_status (claimed_row now r) = "processing" ∧
    plp_profile_updated (claimed_row now r) = plp_profile_updated r ∧
    plp_flags_evaluated (claimed_row now r) = plp_flags_evaluated r) as (Hst & Hstatus & Hp & Hf) by (by destruct r).
  pose proof (halts_actions (plp_session_id r) (plp_student_id r) (jobs db) Hex now (claimed_row now r) Hst Hstatus db1 k Hr1 Hmarks1)
    as Hleft. rewrite Hp, Hf in Hleft. destruct Hleft as (r2 & Hr2 & Hhalf & Hmarks2).
  match goal with |- context [snd (run_actions ?l db1)] => set (acts := l) in *; set (db2 := snd (run_actions acts db1)) in * end.
  assert (∀ g i j, achieved g i j db → achieved g i j (snd (torn db2))) as Hkept.
  { intros g i j Hg. apply Hkeep. unfold db2, acts. apply kept_actions. by apply Hkept1. }
  destruct (quiet_run (λ _, True) _ _ torn r2 db2 Htorn Hr2) as (res & db3 & Hrun3 & Hr3).
  assert (snd (torn db2) = db3) as Hdb3 by by rewrite Hrun3. rewrite Hdb3 in *.
  destruct Hr3 as (Hok3 & _ & _ & Hjobs3). pose proof Hall as Hall'. rewrite Forall_forall in Hall'.
  destruct (halfway_sound now r r2 Hdue (Hall' r Hin) Hhalf) as [Hs2 Hl2]. split; [by eapply queue_moves_replaced|].
  refine (marks_replaced db db3 _ _ Hkept Hmarks (marks_kept db2 db3 _ _ Hmarks2) Hjobs3).
  intros g i j Hg. rewrite <- Hdb3. by apply Hkeep.
Qed.

Lemma tick_moves t (db : Database) :
  torn_ok t → db_ok db = true → Forall (λ r, job_sound r = true) (jobs db) → marked db →
  queue_moves db (tick t db) ∧ marked (tick t db).
Proof.
  intros Ht Hok Hall Hmarks. destruct t as [s st c now|now|now k torn]; [..|by apply died_moves]; cbn [tick].
  - pose proof (enqueue_run s st c now db Hok) as Hrun. destruct (job s db) as [r|] eqn:Hjob.
    { rewrite Hrun. split; [by apply queue_moves_refl|done]. }
    destruct Hrun as (db' & Hrun & Hok' & Hjobs & _). rewrite Hrun. cbn [snd]. split; [split; [done|split]|].
    + rewrite Hjobs. apply Forall_app. split; [done|]. by constructor.
    + intros i r Hr. exists r. split; [|reflexivity]. unfold job in *. by rewrite Hjobs, findb_app, Hr.
    + intros x Hx. rewrite Hjobs in Hx. apply elem_of_app in Hx as [Hx| ->%list_elem_of_singleton]; [|by split_and!].
      eapply marks_kept; [|by apply Hmarks]. intros g i j Hg. pose proof (kept_enqueue g i j s st c now db Hg) as H.
      by rewrite Hrun in H.
  - pose proof (process_job_run (λ _, True) (λ _ _ _, I) _ _ _ _ str_error Hupdate Hnotify Hevaluate Hrecord now db Hok I) as Hrun.
    destruct (next_job now db) as [r|] eqn:Hnext; [|rewrite Hrun; split; [by apply queue_moves_refl|done]].
    pose proof (next_job_Some _ _ _ Hnext) as [Hin Hdue].
    destruct (turn_marks now r db Hok Hnext (Hmarks r Hin)) as (r2 & Hjobs2 & Hmarks2).
    pose proof (λ g i j, kept_turn g i j now db) as Hkept.
    destruct Hrun as (r' & db' & Hrun & Hok' & _ & Hturn & Hjobs). rewrite Hrun in *. cbn [snd] in *.
    pose proof Hall as Hall'. rewrite Forall_forall in Hall'.
    destruct (turn_sound _ _ _ _ _ Hdue (Hall' r Hin) Hturn) as [Hs' Hl'].
    split; [exact (queue_moves_replaced db db' r r' Hok Hok' Hall Hin Hjobs Hs' Hl')|].
    exact (marks_replaced db db' _ _ Hkept Hmarks Hmarks2 Hjobs2).
Qed.

Lemma finished_is_queued s st c now (db : Database) : db_ok db = true → is_Some (job s (tick (Finished s st c now) db)).
Proof.
  intros Hok. cbn [tick]. pose proof (enqueue_run s st c now db Hok) as Hrun. destruct (job s db) as [r|] eqn:Hjob.
  - rewrite Hrun. cbn [snd]. by rewrite Hjob.
  - destruct Hrun as (db' & -> & _ & Hjobs & _). cbn [snd]. unfold job. rewrite Hjobs, findb_app. fold (job s db).
    rewrite Hjob, findb_cons. cbn. by rewrite bool_decide_true.
Qed.

(** C32: no finished lesson is forgotten, nor worked on once it is over, nor taken for done
    when it is not. Whatever lessons are finished, however often the worker takes a turn,
    whatever its stages raise and wherever its process dies - between any two of the things it
    awaits or in the middle of one: every finished lesson is in the queue and stays there with
    its learner; a stage marked as done has returned, for this learner and this sitting, and
    what it achieved is still there, and so for all four stages when the job is completed; a
    mark is never taken back; a job given up was tried five times; a job that is over is never
    touched again; and any other job that no worker is holding has attempts left. *)
Theorem finished_lessons_are_kept ts (db : Database) :
  db_ok db = true → Forall (λ r, job_sound r = true) (jobs db) → marked db → Forall torn_ok ts →
  let db' := history ts db in
  db_ok db' = true ∧ Forall (λ r, job_sound r = true) (jobs db') ∧ marked db' ∧
  (∀ i r, job i db = Some r → ∃ r', job i db' = Some r' ∧ job_later r r') ∧
  ∀ s st c now, Finished s st c now ∈ ts → is_Some (job s db').
Proof.
  cbv zeta. intros Hok Hall Hmarks Hts. revert db Hok Hall Hmarks.
  induction Hts as [|t ts Ht _ IH]; intros db Hok Hall Hmarks.
  { split_and!; try done; [|set_solver]. intros i r Hr. exists r. split; [done|reflexivity]. }
  destruct (tick_moves t db Ht Hok Hall Hmarks) as ((Hok1 & Hall1 & Hmove1) & Hmarks1).
  destruct (IH _ Hok1 Hall1 Hmarks1) as (Hok2 & Hall2 & Hmarks2 & Hmove2 & Hfin2).
  split_and!; try done.
  - intros i r Hr. destruct (Hmove1 i r Hr) as (r1 & Hr1 & Hl1).
    destruct (Hmove2 i r1 Hr1) as (r2 & Hr2 & Hl2). exists r2. split; [done|]. by transitivity r1.
  - intros s st c now [<-|Hin]%elem_of_cons; [|by eapply Hfin2].
    destruct (finished_is_queued s st c now db Hok) as [r1 Hr1]. destruct (Hmove2 s r1 Hr1) as (r2 & Hr2 & _). by exists r2.
Qed.
End History.

(** ** A finished lesson comes to an end *)

Lemma next_job_None now (db : Database) r : next_job now db = None → r ∈ jobs db → due now r = false.
Proof.
  intros Hnone%order_by_head_None Hr. apply not_true_iff_false. intros Hdue. apply (elem_of_nil r).
  rewrite <- Hnone. by apply elem_of_filterb.
Qed.

(** The one job of the queue that is not over is the one that is taken. *)
Lemma only_job_is_next now (db : Database) r :
  db_ok db = true → r ∈ jobs db → due now r = true →
  (∀ x, x ∈ jobs db → plp_session_id x ≠ plp_session_id r → job_over x = true) → next_job now db = Some r.
Proof.
  intros Hok Hr Hdue Hothers. destruct (next_job now db) as [x|] eqn:Hnext.
  - apply next_job_Some in Hnext as [Hx [Hover _]%due_not_over].
    destruct (decide (plp_session_id x = plp_session_id r)) as [Hid|Hne]; [|by rewrite (Hothers x Hx Hne) in Hover].
    rewrite <- (job_of_elem db r Hok Hr), <- Hid. symmetry. by apply job_of_elem.
  - by rewrite (next_job_None now db r Hnext Hr) in Hdue.
Qed.

(** A job that failed is due again within the hour. *)
Lemma retried_again error now r now' :
  0 <= plp_attempt_count r < MAX_JOB_ATTEMPTS → now + hours 1 <= now' →
  due now' (retried_row error now r) = true ∧ plp_attempt_count (retried_row error now r) = plp_attempt_count r.
Proof.
  intros Hatt Hlater.
  assert (plp_attempt_count (retried_row error now r) = plp_attempt_count r) as Ha by (by destruct r).
  assert (plp_status (retried_row error now r) = if MAX_JOB_ATTEMPTS <=? plp_attempt_count r then "permanently_failed" else "failed") as Hst
    by (by destruct r).
  assert (plp_next_attempt_at (retried_row error now r) = now + minutes (Z.min 60 (2 ^ Z.max 0 (plp_attempt_count r - 1)))) as Hn
    by (by destruct r).
  split; [|done]. unfold due. rewrite Ha, Hst, Hn, (proj2 (Z.leb_gt MAX_JOB_ATTEMPTS _)), !andb_true_iff, Z.ltb_lt, Z.leb_le by lia.
  split_and!; [lia| |done]. unfold hours, minutes, seconds in *. lia.
Qed.

Section Liveness.
Context (update_after_lesson notify_modality_shifts : uuid → uuid → M unit)
  (evaluate_student record_accommodation_changes : uuid → M unit) (str_error : exn → string) (s student_id : uuid).

(** The learner's consent is in place. *)
Let K (db : Database) : Prop := may_process student_id db = true.

Context (Hupdate : ∀ i j, quiet K (update_after_lesson i j)) (Hnotify : ∀ i j, quiet K (notify_modality_shifts i j))
  (Hevaluate : ∀ i, quiet K (evaluate_student i)) (Hrecord : ∀ i, quiet K (record_accommodation_changes i)).

Local Notation raises := (stage_raises K update_after_lesson notify_modality_shifts evaluate_student record_accommodation_changes s student_id).
Local Notation process_next :=
  (process_job update_after_lesson notify_modality_shifts evaluate_student record_accommodation_changes str_error).

Lemma may_process_set_jobs l (db : Database) : K db → K (set_table PostLessonProcessings l db).
Proof. unfold K, may_process, consent_on_file, on_hold. by rewrite !set_table_ne by done. Qed.

(** The job of the sitting after [n] turns, each of which failed; it is due
    at [now]. *)
Definition failing (n : Z) (now : datetime) (db : Database) : Prop :=
  db_ok db = true ∧ K db ∧ ∃ r, r ∈ jobs db ∧ plp_session_id r = s ∧ plp_student_id r = student_id ∧ due now r = true ∧
    plp_attempt_count r = n ∧ ∀ x, x ∈ jobs db → plp_session_id x ≠ s → job_over x = true.

Definition completed_at_work (now : datetime) (db : Database) : Prop :=
  ∃ r, job s db = Some r ∧ plp_status r = "completed" ∧ plp_processed_at r = Some now.

Definition over_at_work (db : Database) : Prop :=
  db_ok db = true ∧ (∃ r, job s db = Some r ∧ job_over r = true) ∧ ∀ x, x ∈ jobs db → job_over x = true.

Lemma failing_turn n now (db : Database) :
  0 <= n → failing n now db →
  ∃ db', process_next now db = (inr true, db') ∧
    ((completed_at_work now db' ∧ over_at_work db') ∨
     (∃ e, raises e) ∧ (if n + 1 <? MAX_JOB_ATTEMPTS then ∀ now', now + hours 1 <= now' → failing (n + 1) now' db'
                        else over_at_work db')).
Proof.
  intros Hn (Hok & Hkn & r & Hr & Hs & Hst & Hdue & Hatt & Hothers). rewrite <- Hs in Hothers.
  pose proof (only_job_is_next now db r Hok Hr Hdue Hothers) as Hnext.
  pose proof (process_job_run K may_process_set_jobs _ _ _ _ str_error Hupdate Hnotify Hevaluate Hrecord now db Hok Hkn) as Hrun.
  rewrite Hnext in Hrun. destruct Hrun as (r' & db' & Hrun & Hok' & Hkn' & Hturn & Hjobs). exists db'. split; [exact Hrun|].
  assert (plp_session_id r' = plp_session_id r ∧ plp_student_id r' = plp_student_id r) as [Hid Hst'].
  { by destruct Hturn; destruct r. }
  destruct (job_replaced db db' r r' Hok Hr Hid Hjobs) as [Hjob' _]. pose proof Hjob' as [_ Hr']%findb_Some.
  assert (∀ x, x ∈ jobs db' → plp_session_id x ≠ plp_session_id r → job_over x = true) as Hothers'.
  { intros x Hx Hne. rewrite Hjobs in Hx. apply elem_of_update_list in Hx as (y & Hy & ->).
    destruct (plp_session_id y == plp_session_id r) eqn:Hy'; [done|]. by apply Hothers. }
  assert (job_over r' = true → over_at_work db') as Hover.
  { intros Hr'o. split; [done|]. split; [exists r'; by rewrite <- Hs|]. intros x Hx.
    destruct (decide (plp_session_id x = plp_session_id r)) as [Heq|Hne]; [|by apply Hothers'].
    pose proof (job_of_elem db' x Hok' Hx) as Hx'. rewrite Heq, Hjob' in Hx'. by injection Hx' as <-. }
  destruct Hturn as [|p f reason _ _ (dbx & Hkx & Hno)|p f error _ _ (e & -> & He)].
  - left. split; [|apply Hover; by destruct r]. eexists. split; [by rewrite <- Hs|]. by destruct r.
  - unfold K in Hkx. rewrite Hst in Hno. by rewrite Hno in Hkx.
  - right. split; [exists e; by rewrite <- Hs, <- Hst|]. destruct (n + 1 <? MAX_JOB_ATTEMPTS) eqn:Hlt.
    + intros now' Hlater. split; [done|]. split; [done|]. eexists. split; [exact Hr'|]. split; [by rewrite Hid|].
      split; [by rewrite Hst'|]. rewrite <- Hs. destruct (retried_again (str_error e) now (staged p f (claimed_row now r)) now') as [Hdue' Hatt'].
      * destruct r. cbn -[Z.add] in *. apply Z.ltb_lt in Hlt. lia.
      * done.
      * split; [done|]. split; [|done]. rewrite Hatt'. destruct r. cbn -[Z.add] in *. lia.
    + apply Hover. destruct r. cbn -[Z.add Z.leb] in *. unfold retried_row. cbn -[Z.add Z.leb Z.max Z.pow Z.min]. apply Z.ltb_ge in Hlt.
      by rewrite (proj2 (Z.leb_le _ _)) by lia.
Qed.

Local Notation history :=
  (history update_after_lesson notify_modality_shifts evaluate_student record_accommodation_changes str_error).

Lemma over_stays nows (db : Database) : over_at_work db → history (Turn <$> nows) db = db.
Proof.
  intros (Hok & Hjob & Hall). induction nows as [|now nows IH]; [done|]. rewrite fmap_cons, history_cons. cbn [tick].
  assert (next_job now db = None) as Hnone.
  { destruct (next_job now db) as [x|] eqn:Hx; [|done]. apply next_job_Some in Hx as [Hx [Hover _]%due_not_over]. by rewrite Hall in Hover. }
  unfold process_job. pose proof (claim_job_run (λ _, True) (λ _ _ _, I) now db Hok I) as Hclaim. rewrite Hnone in Hclaim.
  by rewrite (bind_inr _ _ _ _ _ Hclaim).
Qed.

Lemma failing_ends nows n now (db : Database) :
  0 <= n < MAX_JOB_ATTEMPTS → failing n now db → hourly (now :: nows) = true →
  MAX_JOB_ATTEMPTS - n <= Z.of_nat (length (now :: nows)) →
  over_at_work (history (Turn <$> (now :: nows)) db).
Proof.
  revert n now db. induction nows as [|now' nows IH]; intros n now db Hn Hf Hh Hlen; rewrite fmap_cons, history_cons; cbn [tick].
  - destruct (failing_turn n now db (proj1 Hn) Hf) as (db' & -> & [[_ Hover]|[_ Hend]]); [by rewrite over_stays|]. cbn [length] in Hlen.
    rewrite (proj2 (Z.ltb_ge _ _)) in Hend by lia. by rewrite over_stays.
  - destruct (failing_turn n now db (proj1 Hn) Hf) as (db' & -> & [[_ Hover]|[_ Hend]]); [by rewrite over_stays|].
    apply andb_prop in Hh as [Hlater%Z.leb_le Hh]. cbn [snd]. destruct (n + 1 <? MAX_JOB_ATTEMPTS) eqn:Hlt; [|by rewrite over_stays].
    apply Z.ltb_lt in Hlt. apply (IH (n + 1)); [lia|by apply Hend|exact Hh|]. cbn [length] in *. lia.
Qed.

(** C33: a finished lesson comes to an end. Of a learner whose consent is in place, with
    nothing else in the queue to be done: whatever its stages raise, a lesson that is finished
    is completed or given up after five turns of the worker that are an hour apart; and when
    no stage raises, the first turn completes it. *)
Theorem finished_lesson_comes_to_an_end completed_at finished now nows (db : Database) :
  db_ok db = true → may_process student_id db = true → job s db = None → (∀ x, x ∈ jobs db → job_over x = true) →
  finished <= now → hourly (now :: nows) = true → (5 <= length (now :: nows))%nat →
  let db1 := snd (enqueue s student_id completed_at finished db) in
  over_at_work (history (Turn <$> (now :: nows)) db1) ∧
  ((¬ ∃ e, raises e) → completed_at_work now (history [Turn now] db1)).
Proof.
  intros Hok Hkn Hjob Hall Hnow Hh Hlen. cbv zeta. pose proof (enqueue_run s student_id completed_at finished db Hok) as Hrun.
  rewrite Hjob in Hrun. destruct Hrun as (db1 & -> & Hok1 & Hjobs & Hframe). cbn [snd].
  assert (failing 0 now db1) as Hf.
  { split; [done|]. split; [unfold K, may_process, consent_on_file, on_hold; by rewrite !Hframe by done|].
    exists (new_job s student_id completed_at finished). rewrite Hjobs. split; [apply elem_of_app; right; by left|].
    split; [done|]. split; [done|]. split; [unfold due; cbn; by rewrite (proj2 (Z.leb_le _ _))|]. split; [done|].
    intros x [Hx|Hx%list_elem_of_singleton]%elem_of_app Hne; [by apply Hall|]. by subst x. }
  split; [apply (failing_ends nows 0); [unfold MAX_JOB_ATTEMPTS; lia|done|done|exact (proj1 (Nat2Z.inj_le 5 _) Hlen)]|].
  intros Hquiet. rewrite history_cons. cbn [tick].
  destruct (failing_turn 0 now db1 (Z.le_refl 0) Hf) as (db' & -> & [[Hdone _]|[Hraise _]]); [exact Hdone|by destruct Hquiet].
Qed.
End Liveness.

(** ** At work *)

(** Stages that succeed, and a stage that does not. *)
Definition no_stage (_ _ : uuid) : M unit := mret tt.
Definition no_stage_of (_ : uuid) : M unit := mret tt.
Definition bad_stage_of (_ : uuid) : M unit := raise (ValueError "no").

Lemma no_stage_quiet K i j : quiet K (no_stage i j).
Proof. intros db Hok Hkn. by split_and!. Qed.
Lemma no_stage_of_quiet K i : quiet K (no_stage_of i).
Proof. intros db Hok Hkn. by split_and!. Qed.
Lemma bad_stage_of_quiet K i : quiet K (bad_stage_of i).
Proof. intros db Hok Hkn. by split_and!. Qed.

Definition smooth_history : list Tick → Database → Database := history no_stage no_stage no_stage_of no_stage_of (λ _, "error").
Definition bad_history : list Tick → Database → Database := history no_stage no_stage bad_stage_of no_stage_of (λ _, "error").

Definition outcome (db : Database) : list (string * Z * bool * bool) :=
  map (λ r, (plp_status r, plp_attempt_count r, plp_profile_updated r, plp_flags_evaluated r)) (jobs db).

Example a_smooth_lesson : outcome (smooth_history [Finished 90 2 None t0; Turn t0] consented_db) = [("completed", 1, true, true)].
Proof. vm_compute. reflexivity. Qed.

(** Without consent nothing is done, and nothing is counted. *)
Example an_unconsented_lesson :
  outcome (smooth_history [Finished 90 2 None t0; Turn t0; Turn (t0 + hours 1)] school_db) = [("consent_blocked", 0, false, false)].
Proof. vm_compute. reflexivity. Qed.

(** The profile is updated once, however often the flags fail. *)
Example a_bad_lesson :
  outcome (bad_history (Finished 90 2 None t0 :: (Turn <$> [t0; t0 + hours 1; t0 + hours 2; t0 + hours 3; t0 + hours 4])) consented_db)
  = [("permanently_failed", 5, true, false)].
Proof. vm_compute. reflexivity. Qed.

(** A process that dies five times leaves the job claimed for good: no turn
    ever takes it again, and it is not given up either. *)
Example five_deaths_strand_a_job :
  let stranded := smooth_history (Finished 90 2 None t0 :: ((λ now, Died now 0 (mret tt)) <$> [t0; t0 + hours 1; t0 + hours 2; t0 + hours 3; t0 + hours 4])) consented_db in
  outcome stranded = [("processing", 5, false, false)] ∧ next_job (t0 + days 365) stranded = None.
Proof. vm_compute. done. Qed.

(** A profile stage that notes the sitting, and what it leaves behind; the
    flags, which always fail, leave nothing. *)
Definition noting_stage (_ session : uuid) : M unit :=
  begin_ (
    c ← get Concepts session;
    match (c : option Concept) with
    | Some _ => mret tt
    | None => insert Concepts (mkConcept session None None "done")
    end).

Definition noted (g : Stage) (_ session : uuid) (db : Database) : Prop :=
  match g with
  | PROFILE_STAGE => ∃ c : Concept, c ∈ db_tables db Concepts ∧ concept_id c = session
  | FLAGS_STAGE => False
  | _ => True
  end.

Definition noting_history : list Tick → Database → Database :=
  history noting_stage no_stage bad_stage_of no_stage_of (λ _, "error").

Lemma noting_body (session : uuid) (db : Database) :
  ∃ l, snd ((c ← get Concepts session;
     match (c : option Concept) with
     | Some _ => mret tt
     | None => insert Concepts (mkConcept session None None "done")
     end) db) = (if is_some (findb (λ c : Concept, concept_id c == session) (db_tables db Concepts)) then db
                 else set_table Concepts (db_tables db Concepts ++ l) db) ∧ (∀ c, c ∈ l ↔ c = mkConcept session None None "done").
Proof.
  exists [mkConcept session None None "done"]. split; [|set_solver]. erewrite bind_inr by reflexivity.
  change (findb _ _) with (findb (λ c : Concept, concept_id c == session) (db_tables db Concepts)).
  by destruct (findb (λ c : Concept, concept_id c == session) (db_tables db Concepts)).
Qed.

Lemma noting_quiet i j : quiet (λ _, True) (noting_stage i j).
Proof.
  intros db Hok _. split; [by apply transaction_preserves_ok|]. split; [done|].
  apply (preserves_transaction (λ db', jobs db' = jobs db)); [|done]. intros db' Hdb'.
  destruct (noting_body j db') as (l & -> & _). by case_match.
Qed.

Lemma noted_kept g st s i j : preserves (noted g st s) (noting_stage i j).
Proof.
  apply preserves_transaction. intros db Hdb. destruct (noting_body j db) as (l & -> & _). case_match; [done|].
  destruct g; try done. destruct Hdb as (c & Hc & Hs). exists c. rewrite set_table_eq. split; [|done]. apply elem_of_app. by left.
Qed.

Lemma noted_lasting : lasting noting_stage no_stage bad_stage_of no_stage_of noted.
Proof.
  split.
  - intros [] st s db db' Hok Hrun; try done. apply transaction_commit in Hrun as [Hrun _].
    pose proof (noting_body s db) as (l & Hdb' & Hl). rewrite Hrun in Hdb'. cbn [snd] in Hdb'. cbn. destruct (findb _ _) as [c|] eqn:Hc; cbn in Hdb'.
    + exists c. rewrite Hdb'. apply findb_Some in Hc as [Hc%bool_decide_eq_true ?]. done.
    + exists (mkConcept s None None "done"). rewrite Hdb', set_table_eq. split; [|done]. apply elem_of_app. right. by apply Hl.
  - intros g st s [] st' s'; [apply noted_kept|by intros db Hdb..|]. apply preserves_transaction. by intros db Hdb.
  - by intros [] st s l db Hdb.
Qed.

Lemma finished_lessons_are_kept_witness :
  let ts := [Finished 90 2 None t0; Turn t0; Died (t0 + hours 1) 2 (noting_stage 2 90); Turn (t0 + hours 2);
             Finished 92 2 None (t0 + hours 2)] in
  db_ok consented_db = true ∧ Forall (torn_ok noted) ts ∧
  ∃ r, job 90 (noting_history ts consented_db) = Some r ∧ plp_profile_updated r = true ∧ plp_flags_evaluated r = false ∧
    plp_attempt_count r = 3 ∧ noted PROFILE_STAGE 2 90 (noting_history ts consented_db) ∧
    is_Some (job 92 (noting_history ts consented_db)).
Proof.
  cbv zeta. assert (db_ok consented_db = true) as Hok by (vm_compute; reflexivity).
  set (ts := [Finished 90 2 None t0; _; _; _; _]).
  assert (Forall (torn_ok noted) ts) as Hts.
  { unfold ts. apply Forall_cons_2; [exact I|]. apply Forall_cons_2; [exact I|]. apply Forall_cons_2; [|by repeat constructor].
    split; [exact (noting_quiet 2 90)|]. intros g st s. apply noted_kept. }
  split; [exact Hok|]. split; [exact Hts|].
  assert (jobs consented_db = []) as Hjobs by (vm_compute; reflexivity).
  destruct (finished_lessons_are_kept noting_stage no_stage bad_stage_of no_stage_of (λ _, "error") noting_quiet (no_stage_quiet _)
    (bad_stage_of_quiet _) (no_stage_of_quiet _) noted noted_lasting ts consented_db Hok) as (_ & _ & Hmarks & _ & Hfin);
    [rewrite Hjobs; constructor|intros r Hr; rewrite Hjobs in Hr; by apply elem_of_nil in Hr|exact Hts|].
  assert (match job 90 (noting_history ts consented_db) with
          | Some r => plp_profile_updated r && negb (plp_flags_evaluated r) && (plp_attempt_count r =? 3) && (plp_student_id r =? 2)
          | None => false end = true) as Hc by (vm_compute; reflexivity).
  fold noting_history in Hmarks, Hfin. pose proof (Hfin 92 2 None (t0 + hours 2) (list_elem_of_lookup_2 ts 4 _ eq_refl)) as H92.
  destruct (job 90 (noting_history ts consented_db)) as [r|] eqn:Hr; [|done].
  apply andb_prop in Hc as [[[Hp Hf%negb_true_iff]%andb_prop Hn%Z.eqb_eq]%andb_prop Hst%Z.eqb_eq].
  pose proof Hr as [Hid%bool_decide_eq_true Hin]%findb_Some. destruct (Hmarks r Hin) as (Hprofile & _).
  exists r. split; [reflexivity|]. split; [exact Hp|]. split; [exact Hf|]. split; [exact Hn|]. split; [|exact H92].
  rewrite <- Hst, <- Hid. by apply Hprofile.
Defined.

Lemma finished_lesson_comes_to_an_end_witness :
  let nows := [t0 + hours 1; t0 + hours 2; t0 + hours 3; t0 + hours 4] in
  may_process 2 consented_db = true ∧ job 90 consented_db = None ∧
  over_at_work 90 (bad_history (Turn <$> (t0 :: nows)) (snd (enqueue 90 2 None t0 consented_db))) ∧
  completed_at_work 90 t0 (smooth_history [Turn t0] (snd (enqueue 90 2 None t0 consented_db))).
Proof.
  cbv zeta. assert (db_ok consented_db = true) as Hok by (vm_compute; reflexivity).
  assert (may_process 2 consented_db = true) as Hmay by (vm_compute; reflexivity).
  assert (job 90 consented_db = None) as Hjob by (vm_compute; reflexivity).
  assert (jobs consented_db = []) as Hjobs by (vm_compute; reflexivity).
  assert (∀ x, x ∈ jobs consented_db → job_over x = true) as Hall by (rewrite Hjobs; intros x Hx; by apply elem_of_nil in Hx).
  assert (hourly [t0; t0 + hours 1; t0 + hours 2; t0 + hours 3; t0 + hours 4] = true) as Hh by (vm_compute; reflexivity).
  split; [exact Hmay|]. split; [exact Hjob|]. split.
  - refine (proj1 (finished_lesson_comes_to_an_end no_stage no_stage bad_stage_of no_stage_of (λ _, "error") 90 2 (no_stage_quiet _) (no_stage_quiet _)
      (bad_stage_of_quiet _) (no_stage_of_quiet _) None t0 t0 _ consented_db Hok Hmay Hjob Hall (Z.le_refl _) Hh _)). cbn. lia.
  - refine (proj2 (finished_lesson_comes_to_an_end no_stage no_stage no_stage_of no_stage_of (λ _, "error") 90 2 (no_stage_quiet _) (no_stage_quiet _)
      (no_stage_of_quiet _) (no_stage_of_quiet _) None t0 t0 _ consented_db Hok Hmay Hjob Hall (Z.le_refl _) Hh _) _); [cbn; lia|].
    intros (e & m & db & Hm & Hdb & _ & Hrun). assert (fst (m db) = inr tt) as Hin; [|by rewrite Hin in Hrun].
    unfold stages in Hm. repeat (apply elem_of_cons in Hm as [->|Hm]; [try reflexivity|]); [|by apply elem_of_nil in Hm].
    assert (begin_ (mret tt) db = (inr tt, db)) as Hb by (apply transaction_ok; [reflexivity|exact Hdb]). exact (f_equal fst Hb).
Defined.
