(* ===== verification/SignalIntake.v ===== *)
(** * Taking signals from a client

    [src/nevo/api/signals.py] with [src/nevo/api/privacy.py]: what an event may
    carry, and the request that hands a batch to the service. A [ValueError]
    is a refused request; any other exception of the checks is an error of the
    server. Keys are compared without case on ASCII. *)

From Stdlib Require Import Ascii String.
From S2P Require Import Prelude Floats Relational Text Vocabulary LearningVocabulary Schema Fixtures Crypto AuthPolicies ConsentRepo ConsentService Privacy Json Sittings PostLesson.

Local Open Scope string_scope.
Local Open Scope Z_scope.
Local Open Scope nevo_scope.

Local Notation fields := (list (string * Json)).

(** Checks: nothing is read or written. *)
Definition Check : Type → Type := Comp unit exn.

Definition unless (b : bool) (message : string) : Check unit := if b then mret tt else raise (ValueError message).

(** ** Private keys *)

Definition PRIVATE_INTERACTION_MARKERS : list string :=
  ["tap"; "touch"; "gesture"; "dwell"; "coordinate"; "pressure"; "keystroke"; "pointermove"; "swipepath"].

Definition POINTER_KEYS : list string :=
  ["clientx"; "clienty"; "pagex"; "pagey"; "screenx"; "screeny"; "pointerx"; "pointery"].

Definition is_private_interaction_key (key : string) : bool :=
  let normalized := casefold key in
  let compact := string_filter is_alnum normalized in
  existsb (λ marker, contains marker normalized || contains marker compact) PRIVATE_INTERACTION_MARKERS ||
  ends_with "_pattern" normalized || bool_decide (compact ∈ POINTER_KEYS).

(** The keys of one object. *)
Definition private_keys (keys : list string) : bool :=
  let folded := map casefold keys in
  (bool_decide ("x" ∈ folded) && bool_decide ("y" ∈ folded)) || existsb is_private_interaction_key keys.

Definition TOO_LARGE : string := "Signal data is too deeply nested or too large.".
Definition RAW_INPUT : string := "Raw input measurements cannot be submitted as learning events.".

(** [visit]: what is left of the values that may be visited, or an error. *)
Fixpoint visit (item : Json) (depth : Z) (remaining : Z) : exn + Z :=
  let remaining := remaining - 1 in
  if (8 <? depth) || (remaining <? 0) then inl (ValueError TOO_LARGE)
  else
    match item with
    | JObj kvs =>
      if private_keys (map fst kvs) then inl (ValueError RAW_INPUT)
      else
        (fix each (l : fields) (remaining : Z) : exn + Z :=
           match l with
           | [] => inr remaining
           | (_, child) :: l' => match visit child (depth + 1) remaining with inl e => inl e | inr n => each l' n end
           end) kvs remaining
    | JArr items =>
        (fix each (l : list Json) (remaining : Z) : exn + Z :=
           match l with
           | [] => inr remaining
           | child :: l' => match visit child (depth + 1) remaining with inl e => inl e | inr n => each l' n end
           end) items remaining
    | _ => inr remaining
    end.

Definition VISITED_AT_MOST : Z := 2048.

Definition validate_signal_privacy (value : Json) : Check unit :=
  match visit value 0 VISITED_AT_MOST with inl e => raise e | inr _ => mret tt end.

(** ** Python's sets and numbers *)

(** [value in {...}] of texts: a list or an object cannot be looked up. *)
Definition in_set (value : Json) (texts : list string) : Check bool :=
  match value with
  | JArr _ | JObj _ => raise TypeError
  | JStr s => mret (bool_decide (s ∈ texts))
  | _ => mret false
  end.

Definition in_set_or_refuse (value : Json) (texts : list string) (message : string) : Check unit :=
  found ← in_set value texts; unless found message.

(** [isinstance(value, int | float)], with and without the two booleans. *)
Definition is_number (j : Json) : bool := match j with JInt _ | JFloat _ | JBool _ => true | _ => false end.
Definition is_plain_number (j : Json) : bool := match j with JInt _ | JFloat _ => true | _ => false end.

(** [value < 0] of a number. *)
Definition negative (j : Json) : bool :=
  match j with JInt z => z <? 0 | JFloat x => f_lt x f_zero | _ => false end.

(** [0 <= float(value) <= limit] *)
Definition float_within (limit : Z) (j : Json) : Check bool :=
  match json_float j with
  | inl e => raise e
  | inr x => mret (f_le f_zero x && f_le x (f_of_Z limit))
  end.

(** [{**a, **b}] *)
Definition merge_dict (a b : fields) : fields :=
  (map (λ '(k, v), (k, default v (assoc k b))) a ++ filterb (λ '(k, _), is_none (assoc k a)) b)%list.

Definition is_null (j : Json) : bool := match j with JNull => true | _ => false end.

(** ** An event *)

Record SignalEventRequest := mkSignalEventRequest {
  er_session_id : uuid; er_event_type : SignalEventType; er_timestamp : datetime; er_has_zone : bool;
  er_event_data : option fields; er_model_extra : fields
}.

Definition STUDENT_ASK_NEVO_CATEGORIES : list string := ["comprehension"; "vocabulary"; "navigation"; "general"].
Definition TEACHER_ASK_NEVO_CATEGORIES : list string :=
  ["student_insight"; "class_pattern"; "lesson_recommendation"; "communication_help"; "general"].
Definition FORBIDDEN_ASK_NEVO_TEXT_KEYS : list string :=
  ["question"; "questionText"; "fullQuestion"; "prompt"; "message"; "text"].
Definition BREAK_TYPES : list string := ["micro"; "movement"; "consolidation"; "full"; "stop_for_day"].
Definition ENGAGEMENT_INDICATORS : list string :=
  ["focus_drop"; "task_switch"; "navigation_fragmentation"; "rapid_guessing"; "steady_progress"; "return_after_pause"].
Definition DEPTH_SHOWN_VALUES : list string := ["standard"; "simplified"; "expanded"].
Definition BREAK_TRIGGERS : list string :=
  ["adaptation_plan"; "plan_offer"; "engine_offer"; "module_boundary"; "student_request"].
Definition RETIRED_BREAK_TRIGGERS (trigger : string) : string :=
  if trigger == "affect_offer" then "plan_offer" else trigger.

Definition sorted_texts (l : list string) : list string := order_by text_le l.

(** [_require_keys] *)
Definition require_keys (payload : fields) (keys : list string) : Check unit :=
  if existsb (λ k, match field k payload with JArr _ | JObj _ => true | _ => false end) keys then raise TypeError
  else
    let missing := sorted_texts (filterb (λ k, match field k payload with JNull => true | JStr s => s == "" | _ => false end) keys) in
    unless (missing == []) ("Ask Nevo signal missing required field(s): " ++ join ", " missing ++ ".").

(** [_require_category] *)
Definition require_category (payload : fields) (allowed : list string) : Check unit :=
  in_set_or_refuse (field "questionCategory" payload) allowed
    ("Ask Nevo questionCategory must be one of: " ++ join ", " (sorted_texts allowed) ++ ".").

(** [depth_shown_is_one_of_three] *)
Definition depth_shown_is_one_of_three (value : fields) : Check unit :=
  unless (match field "depthShown" value with JNull => true | JStr s => bool_decide (s ∈ DEPTH_SHOWN_VALUES) | _ => false end)
    ("depthShown must be one of: " ++ join ", " DEPTH_SHOWN_VALUES ++ ".").

(** [bound_event_data] *)
Definition bound_event_data (value : fields) : Check unit :=
  unless (length value <=? 64)%nat "Signal event data cannot contain more than 64 keys.";;
  validate_signal_privacy (JObj value).

(** [_validate_ask_nevo_signal_payload] *)
Definition validate_ask_nevo (t : SignalEventType) (data : fields) : Check unit :=
  if bool_decide (t ∈ [ASK_NEVO_QUESTION_STUDENT; ASK_NEVO_QUESTION_TEACHER; ASK_NEVO_CANNOT_HELP; ASK_NEVO_REDIRECT_USED]) then
    let leaked := filterb (λ k, is_some (assoc k data)) FORBIDDEN_ASK_NEVO_TEXT_KEYS in
    unless (leaked == []) ("Ask Nevo signal cannot include full text fields: " ++ join ", " (sorted_texts leaked) ++ ".");;
    match t with
    | ASK_NEVO_QUESTION_STUDENT =>
      require_keys data ["studentId"; "currentPage"; "lessonId"; "segmentId"; "questionCategory"];;
      require_category data STUDENT_ASK_NEVO_CATEGORIES
    | ASK_NEVO_QUESTION_TEACHER =>
      require_keys data ["teacherId"; "currentPage"; "questionCategory"];;
      require_category data TEACHER_ASK_NEVO_CATEGORIES
    | ASK_NEVO_CANNOT_HELP =>
      require_keys data ["role"; "currentPage"];;
      in_set_or_refuse (field "role" data) ["student"; "teacher"] "Ask Nevo cannot-help role must be student or teacher."
    | _ =>
      require_keys data ["role"; "currentPage"; "redirectTarget"];;
      in_set_or_refuse (field "role" data) ["student"; "teacher"] "Ask Nevo redirect role must be student or teacher."
    end
  else mret tt.

(** A value that is there must be one of some texts. *)
Definition absent_or_in (value : Json) (texts : list string) (message : string) : Check unit :=
  if is_null value then mret tt else in_set_or_refuse value texts message.

(** A value that is there must be a number that is not negative. *)
Definition absent_or_nonnegative (value : Json) (message : string) : Check unit :=
  unless (is_null value || (is_plain_number value && negb (negative value))) message.

Definition absent_or_score (key : string) (value : Json) : Check unit :=
  let message := key ++ " must be a number from 0 to 100." in
  if is_null value then mret tt
  else if negb (is_plain_number value) then raise (ValueError message)
  else within ← float_within 100 value; unless within message.

(** [_validate_modality_outcome] *)
Definition validate_modality_outcome (t : SignalEventType) (data : fields) : Check unit :=
  if t != MODALITY_SWITCH_OUTCOME then mret tt
  else
    require_keys data ["segmentId"];;
    let outcome := field "outcome" data in
    (if is_null outcome && negb (forallb (λ k, is_some (assoc k data)) ["from"; "to"; "timeOnSegment"])
     then require_keys data ["modality"; "comprehensionScore"; "engagementScore"; "timeOnSegment"] else mret tt);;
    for_each ["from"; "to"; "modality"] (λ key,
      absent_or_in (field key data) ["text"; "audio"; "visual"; "interactive"] (key ++ " must be text, audio, visual, or interactive."));;
    for_each ["comprehensionScore"; "engagementScore"] (λ key, absent_or_score key (field key data));;
    absent_or_nonnegative (field "timeOnSegment" data) "timeOnSegment must be milliseconds as a non-negative number.";;
    absent_or_in outcome ["better"; "worse"; "no_change"] "Modality switch outcome must be better, worse, or no_change.".

Definition BREAK_EVENTS : list SignalEventType := [BREAK_SUGGESTED; BREAK_TAKEN; BREAK_DECLINED; BREAK_START; BREAK_END].

(** [self.event_data.setdefault("source", "checkpoint")] *)
Definition with_source (data : fields) : fields :=
  if is_some (assoc "source" data) then data else (data ++ [("source", JStr "checkpoint")])%list.

(** [_validate_learning_signal_payload]: the data, completed. *)
Definition validate_learning (t : SignalEventType) (data : fields) : Check fields :=
  (if bool_decide (t ∈ BREAK_EVENTS)
   then absent_or_in (field "breakType" data) BREAK_TYPES "breakType must be micro, movement, consolidation, full, or stop_for_day."
   else mret tt);;
  (if bool_decide (t ∈ [SCROLL; TIME_ON_SEGMENT]) && is_some (assoc "depthRatio" data) then
     let ratio := field "depthRatio" data in
     let message := "depthRatio must be a number from 0 to 1." in
     if negb (is_number ratio) then raise (ValueError message) else within ← float_within 1 ratio; unless within message
   else mret tt);;
  match t with
  | TIME_ON_SEGMENT => require_keys data ["segmentId"; "durationMs"; "depthShown"];; mret data
  | COMPREHENSION_RESPONSE =>
    require_keys data ["questionId"];;
    let data := with_source data in
    in_set_or_refuse (field "source" data) ["checkpoint"; "assessment"]
      "comprehension_response source must be checkpoint or assessment.";;
    unless (is_none (assoc "correct" data)) "Correctness is marked on the server and must not be sent.";;
    mret data
  | ENGAGEMENT_SIGNAL =>
    require_keys data ["indicator"; "value"];;
    in_set_or_refuse (field "indicator" data) ENGAGEMENT_INDICATORS
      ("engagement_signal indicator must be one of: " ++ join ", " (sorted_texts ENGAGEMENT_INDICATORS) ++ ".");;
    let value := field "value" data in
    unless (is_plain_number value && negb (negative value)) "engagement_signal value must be a non-negative number.";;
    mret data
  | READING_CHUNK_VIEWED =>
    require_keys data ["segmentId"; "chunkId"; "action"; "formFactor"];;
    in_set_or_refuse (field "action" data) ["entered"; "passed"] "reading_chunk_viewed action must be entered or passed.";;
    in_set_or_refuse (field "formFactor" data) ["phone"; "tablet"; "desktop"] "formFactor must be phone, tablet, or desktop.";;
    absent_or_nonnegative (field "durationMs" data) "durationMs must be a non-negative number.";;
    mret data
  | _ => mret data
  end.

(** [_settle_break_trigger] *)
Definition settle_break_trigger (t : SignalEventType) (data : fields) : Check fields :=
  let raw := field "trigger" data in
  if negb (bool_decide (t ∈ BREAK_EVENTS)) || is_null raw then mret data
  else
    let trigger := RETIRED_BREAK_TRIGGERS (json_str raw) in
    unless (bool_decide (trigger ∈ BREAK_TRIGGERS)) ("Break trigger must be one of: " ++ join ", " (sorted_texts BREAK_TRIGGERS) ++ ".");;
    mret (merge_dict data [("trigger", JStr trigger)]).

(** The validators of [SignalEventRequest], in order: those of the field when it
    was sent, then [merge_extra_event_fields]. *)
Definition validated_data (r : SignalEventRequest) : Check fields :=
  match er_event_data r with
  | Some data => depth_shown_is_one_of_three data;; bound_event_data data
  | None => mret tt
  end;;
  let data := default [] (er_event_data r) in
  let data := if er_model_extra r == [] then data else merge_dict (er_model_extra r) data in
  bound_event_data data;;
  validate_ask_nevo (er_event_type r) data;;
  validate_modality_outcome (er_event_type r) data;;
  data ← validate_learning (er_event_type r) data;
  settle_break_trigger (er_event_type r) data.

(** ** The catalogue *)

Record SignalContract := mkSignalContract { trigger : string; payload : list string }.

Definition SIGNAL_CONTRACTS : list (SignalEventType * SignalContract) :=
  [(TIME_ON_SEGMENT, mkSignalContract "The child leaves a segment, or the lesson ends on it. depthShown says which text version was actually on screen - standard, simplified or expanded - on every segment, not only the ones an adaptation touched. Design D23, ask B45."
      ["segmentId"; "durationMs"; "depthShown"; "[depthRatio]"]);
   (REPLAY, mkSignalContract "The child plays a finished piece of media again from the start. Use this for a narration restart too, rather than narration_replayed, so one restart is not counted twice."
      ["segmentId"; "[channel]"]);
   (SCROLL, mkSignalContract "The child scrolls within a segment."
      ["segmentId"; "[depthRatio]"]);
   (SIMPLIFY_TRIGGER, mkSignalContract "The child asks for the simpler wording."
      ["segmentId"]);
   (EXPAND_TRIGGER, mkSignalContract "The child asks for the fuller wording."
      ["segmentId"]);
   (SLOWER_TRIGGER, mkSignalContract "The child asks for a slower pace."
      ["segmentId"]);
   (COMPREHENSION_RESPONSE, mkSignalContract "The child answers a comprehension checkpoint. Correctness is not sent: it is decided on the server against the stored answer. segmentId is omitted for an after-lesson assessment item that is not owned by one segment."
      ["[segmentId]"; "questionId"; "source: checkpoint|assessment"]);
   (EXIT_ATTEMPT, mkSignalContract "The child tries to leave mid-lesson."
      ["segmentId"]);
   (BREAK_SUGGESTED, mkSignalContract "Nevo offered a break."
      ["breakType: micro|movement|consolidation|full"; "trigger"]);
   (BREAK_TAKEN, mkSignalContract "The child accepted an offered break."
      ["breakType: micro|movement|consolidation|full"; "trigger"]);
   (BREAK_DECLINED, mkSignalContract ("The child refused an offered break. Without this the engine cannot tell " ++ String dquote_char "not now" ++ String dquote_char " from no answer and may offer again a minute later.")
      ["breakType: micro|movement|consolidation|full"; "trigger"]);
   (BREAK_START, mkSignalContract "A break actually began."
      ["breakType: micro|movement|consolidation|full"; "trigger"]);
   (BREAK_END, mkSignalContract "A break ended. With break_start this is how long it lasted, which is the part that says whether it helped."
      ["breakType: micro|movement|consolidation|full"; "trigger"; "durationMs"]);
   (FEELING_CHECKIN, mkSignalContract "The child answers the consolidation break's question about how they are getting on."
      ["response"]);
   (MODULE_BOUNDARY_REACHED, mkSignalContract "The child reaches the end of a module."
      ["moduleId"]);
   (MODULE_BOUNDARY_ACTION, mkSignalContract "What they chose there."
      ["moduleId"; "action"]);
   (ENGAGEMENT_SIGNAL, mkSignalContract "A reading the named types do not already cover. value is a non-negative number: focus_drop and steady_progress use milliseconds; task_switch, navigation_fragmentation and rapid_guessing use a count; return_after_pause uses the pause duration in milliseconds. The type is a last resort: use a named event where one exists."
      ["indicator: focus_drop|task_switch|navigation_fragmentation|rapid_guessing|steady_progress|return_after_pause"; "value"]);
   (MODALITY_SUGGESTION_SHOWN, mkSignalContract "Nevo offered a different modality."
      ["segmentId"; "suggested"]);
   (MODALITY_SUGGESTION_ACCEPTED, mkSignalContract "The child took the offer."
      ["segmentId"; "suggested"]);
   (MODALITY_SUGGESTION_DECLINED, mkSignalContract "The child refused it."
      ["segmentId"; "suggested"]);
   (MODALITY_SUGGESTION_IGNORED, mkSignalContract "The offer was shown and neither taken nor refused before the child moved on."
      ["segmentId"; "suggested"]);
   (MODALITY_SWITCH_OUTCOME, mkSignalContract "Sent once when the next segment entered in the new modality is left or completed. That entry-to-exit interval is a full segment; it has no minimum number of seconds. timeOnSegment is milliseconds. The from, to and timeOnSegment may be sent as observations without client judgements. If outcome or aggregate scores are omitted, the event is stored as an unscored switch; raw interaction data is never sent. One per switch. Ask B38."
      ["segmentId"; "[from]"; "[to]"; "[outcome: better|worse|no_change]"; "[modality]"; "[comprehensionScore]"; "[engagementScore]"; "[timeOnSegment]"]);
   (MODALITY_MANUAL_SWITCH, mkSignalContract "The child changed modality themselves, with nothing offered."
      ["segmentId"; "from"; "to"]);
   (CALCULATION_STEP_RESPONSE, mkSignalContract "The child answers one step of a calculation."
      ["segmentId"; "stepId"]);
   (CALCULATION_COMPLETE, mkSignalContract "The child finishes a calculation."
      ["segmentId"]);
   (NARRATION_PLAYED, mkSignalContract "Narration starts for the first time on a segment."
      ["segmentId"]);
   (NARRATION_REPLAYED, mkSignalContract "Reserved. Send replay for a restart instead, so one restart is not counted under two types. Ask B39."
      ["segmentId"]);
   (MANIPULATIVE_PIECE_PLACED, mkSignalContract "The child places a draggable piece."
      ["segmentId"; "[stepId]"]);
   (ASK_NEVO_QUESTION_STUDENT, mkSignalContract "A child asks Nevo a question, on an ask_nevo session."
      ["interactionId"; "studentId"; "currentPage"; "questionCategory"]);
   (ASK_NEVO_QUESTION_TEACHER, mkSignalContract "A teacher asks Nevo a question."
      ["interactionId"; "role"; "currentPage"; "questionCategory"]);
   (ASK_NEVO_CANNOT_HELP, mkSignalContract "Ask Nevo declined to answer and handed the asker on."
      ["interactionId"; "role"; "currentPage"]);
   (ASK_NEVO_REDIRECT_USED, mkSignalContract "The asker followed where it sent them."
      ["interactionId"; "role"; "currentPage"; "redirectTarget"]);
   (ADAPTATION_SUPPRESSED, mkSignalContract "Server-written. An adaptation was decided and then held back by a rate limit or a cooldown. Clients do not send this."
      ["attemptedType"; "reason"]);
   (MEDIA_LOAD_FAILED, mkSignalContract "A picture or a recording did not load. reason is one of offline, refresh_failed, load_error."
      ["segmentId"; "channel"; "reason"]);
   (SYSTEM_BUSY, mkSignalContract "The system owned the wait, not the child - audio playing, a dialog open, a transition running. Counted as idle time until this existed."
      ["reason"; "durationMs"]);
   (TAP_BLOCKED, mkSignalContract "A tap the interface refused because something was loading or disabled. Repeated refused taps are a child trying, which reads as a child doing nothing unless it is reported."
      ["target"; "reason"]);
   (SESSION_CONTEXT, mkSignalContract "Once per session, first. Dwell times on a phone are not dwell times on a desktop, and a child with reduced motion on is not a child ignoring an animation."
      ["formFactor"; "reducedMotion"]);
   (READING_CHUNK_VIEWED, mkSignalContract "A stable reading chunk entered view or was passed. A later entered event after passed is a reread; formFactor keeps scrolling patterns comparable."
      ["segmentId"; "chunkId"; "action: entered|passed"; "formFactor"]);
   (BASELINE_MODULE_START, mkSignalContract "A baseline module begins."
      ["moduleId"]);
   (BASELINE_MODULE_COMPLETE, mkSignalContract "A baseline module finishes."
      ["moduleId"]);
   (BASELINE_SUBMITTED, mkSignalContract "The baseline is submitted. With the two above, an abandoned baseline can be told from one never started."
      []);
   (HINT_OFFERED, mkSignalContract "The hint became visible to the child, whether or not they asked for it. Do not send this when the engine response arrives while another step's confirmation is still showing; send it when the next step actually displays it."
      ["segmentId"; "[conceptId]"; "[hintIndex]"]);
   (HINT_USED, mkSignalContract "The child acted on a hint: opened one they had to open, or submitted the calculation step after reading one shown in full. A hint shown and ignored is hint_offered alone; moving to a later screen is not required. Ask B41/B130."
      ["segmentId"; "[conceptId]"; "[hintIndex]"]);
   (STEP_UP_OFFERED, mkSignalContract "Nevo offered harder work."
      ["segmentId"]);
   (STEP_UP_ACCEPTED, mkSignalContract "The child took it."
      ["segmentId"]);
   (STEP_UP_DECLINED, mkSignalContract "The child refused it."
      ["segmentId"]);
   (GUIDED_QUESTION_SHOWN, mkSignalContract "A guided question was put to the child."
      ["segmentId"; "promptId"]);
   (GUIDED_QUESTION_ANSWERED, mkSignalContract "Server-written by POST /api/intelligence/guided-questions/answer. Clients do not send this, or one reply would count twice. Ask B41."
      ["segmentId"; "promptId"; "outcome"])].

Record SignalContractResponse := mkSignalContractResponse {
  scr_event_type : SignalEventType; scr_trigger : string; scr_payload : list string; scr_server_written : bool
}.

(** [signal_catalogue] *)
Definition signal_catalogue : list SignalContractResponse :=
  map (λ '(t, c), mkSignalContractResponse t (trigger c) (payload c) (contains "Server-written" (trigger c))) SIGNAL_CONTRACTS.

(** [render_catalogue] *)
Definition render_catalogue : string :=
  let line '(t, c) :=
    let carried := if payload c == [] then "no payload" else join ", " (payload c) in
    "- `" ++ SignalEventType_value t ++ "` — " ++ trigger c ++ " Carries: " ++ carried ++ "." in
  let note := "Keys in brackets are optional. Types marked server-written are " ++
    "produced here and must not be sent by a client, or they count twice." in
  join (String (Ascii.ascii_of_nat 10) "")
    (["What each signal means and what it carries."; ""; note; ""] ++ map line SIGNAL_CONTRACTS)%list.

(** ** A batch *)

Record LessonSessionRequest := mkLessonSessionRequest {
  lr_session_id : uuid; lr_lesson_id : option uuid; lr_session_type : string; lr_started_at : datetime;
  lr_ended_at : option datetime; lr_completion_status : LessonCompletionStatus; lr_exit_position : option string;
  lr_break_count : Z; lr_proactive_adjustments_count : Z
}.

Record SignalBatchRequest := mkSignalBatchRequest { br_session : LessonSessionRequest; br_events : list SignalEventRequest }.

Definition SESSION_TYPES : list string := ["lesson"; "onboarding"; "profiling"; "sso"; "ask_nevo"].

(** The constraints of the fields of [LessonSessionRequest]. *)
Definition lesson_session_request (r : LessonSessionRequest) : Check unit :=
  unless (bool_decide (lr_session_type r ∈ SESSION_TYPES)) "sessionType";;
  unless (match lr_exit_position r with Some p => (String.length p <=? 120)%nat | None => true end) "exitPosition";;
  unless (0 <=? lr_break_count r) "breakCount";;
  unless (0 <=? lr_proactive_adjustments_count r) "proactiveAdjustmentsCount".

(** The event with the data its validators leave. *)
Definition validated_event (r : SignalEventRequest) : Check SignalEventRequest :=
  data ← validated_data r; mret (r <| er_event_data := Some data |>).

Definition is_refusal (e : exn) : bool := match e with ValueError _ => true | _ => false end.

(** Two parts of a request: a part that is refused does not keep the other
    from being looked at, an error of the server does. *)
Definition both {A B C} (f : A → B → C) (a : exn + A) (b : exn + B) : exn + C :=
  match a, b with
  | inl e, inl e' => inl (if is_refusal e && negb (is_refusal e') then e' else e)
  | inl e, inr _ => inl e
  | inr _, inl e' => inl e'
  | inr x, inr y => inr (f x y)
  end.

Definition checked {A} (c : Check A) : exn + A := fst (c tt).

Definition validated_events : list SignalEventRequest → exn + list SignalEventRequest :=
  foldr (λ r rest, both cons (checked (validated_event r)) rest) (inr []).

(** [SignalBatchRequest] *)
Definition validated_batch (b : SignalBatchRequest) : exn + SignalBatchRequest :=
  both (λ _ events, b <| br_events := events |>) (checked (lesson_session_request (br_session b)))
    (if (br_events b == []) || (MAX_SIGNAL_BATCH_SIZE <? length (br_events b))%nat then inl (ValueError "events")
     else validated_events (br_events b)).

(** ** Time away *)

Section Intake.
(** [datetime.fromisoformat]: the moment, and whether a zone was named; the
    setting, and which services are there. *)
Context `{Crypto} (fromisoformat : string → option (datetime * bool)) (focus_timing_verified consent_service post_lesson_worker : bool).

(** [attention_state]; an attention that is not an object is refused. *)
Definition attention_state (sitting : LessonSession) : exn + fields :=
  match lsn_delivery_state sitting with
  | JObj delivery =>
    match field "attention" delivery with
    | JObj attention => inr attention
    | attention => if json_truthy attention then inl TypeError else inr []
    end
  | delivery => if json_truthy delivery then inl AttributeError else inr []
  end.

(** A moment written down in an object, if it can be read. *)
Definition written_moment (key : string) (data : fields) : option (datetime * bool) :=
  match field key data with JStr s => fromisoformat s | _ => None end.

(** The first and the last moment of a [datetime]. *)
Definition DATETIME_MIN : datetime := seconds (-62135596800).
Definition DATETIME_MAX : datetime := seconds 253402300800 - 1.
Definition datetime_exists (t : datetime) : bool := (DATETIME_MIN <=? t) && (t <=? DATETIME_MAX).

Definition milliseconds (n : Z) : timedelta := n * 1000.

(** [int(overlap.total_seconds() * 1000)] *)
Definition whole_milliseconds (overlap : timedelta) : Z :=
  default 0 (f_trunc (f_ratio overlap 1000000 * f_of_Z 1000)%F).

(** The milliseconds of an interval between [start] and [at_]. *)
Definition away_within (start at_ : datetime) (segment_id : option string) (interval : Json) : exn + Z :=
  let named := default "" segment_id in
  match interval with
  | JObj interval =>
    if truthy named && (match field "segmentId" interval with JStr s => s != named | _ => true end) then inr 0
    else
      match written_moment "awayAt" interval, written_moment "returnedAt" interval with
      | Some (away_at, true), Some (returned_at, true) =>
        inr (whole_milliseconds (Z.max 0 (Z.min returned_at at_ - Z.max away_at start)))
      | _, _ => inr 0
      end
  | _ => if truthy named then inl AttributeError else inr 0
  end.

Fixpoint away_ms (start at_ : datetime) (segment_id : option string) (intervals : list Json) : exn + Z :=
  match intervals with
  | [] => inr 0
  | i :: rest =>
    match away_within start at_ segment_id i with
    | inl e => inl e
    | inr n => match away_ms start at_ segment_id rest with inl e => inl e | inr m => inr (n + m) end
    end
  end.

(** [for x in value or []] *)
Definition iterated (value : Json) : exn + list Json :=
  if negb (json_truthy value) then inr []
  else
    match value with
    | JArr l => inr l
    | JObj kvs => inr (map (λ '(k, _), JStr k) kvs)
    | JStr s => inr (map (λ c, JStr (String c "")) (list_ascii_of_string s))
    | _ => inl TypeError
    end.

(** [active_response_ms], of a time that was reported *)
Definition active_response_ms (sitting : LessonSession) (reported_ms : Z) (at_ : datetime) (segment_id : option string) : exn + option Z :=
  match attention_state sitting with
  | inl e => inl e
  | inr attention =>
    if json_truthy (field "open" attention) then inr None
    else
      let start := at_ - milliseconds reported_ms in
      if negb (datetime_exists start) then inl OverflowError else
      match written_moment "observedAt" attention with
      | Some (observed_at, true) =>
        if start <? observed_at then inr None
        else
          let truncated := field "historyTruncatedAt" attention in
          if json_truthy truncated &&
             (match written_moment "historyTruncatedAt" attention with Some (t, true) => start <? t | _ => true end)
          then inr None
          else
            match iterated (field "intervals" attention) with
            | inl e => inl e
            | inr l => match away_ms start at_ segment_id l with inl e => inl e | inr away => inr (Some (Z.max 0 (reported_ms - away))) end
            end
      | _ => inr None
      end
  end.
(** ** The request *)

(** [data[key] = value] *)
Definition set_field (key : string) (value : Json) (data : fields) : fields := merge_dict data [(key, value)].

Definition duration_key (t : SignalEventType) : option string :=
  match t with
  | TIME_ON_SEGMENT | READING_CHUNK_VIEWED => Some "durationMs"
  | MODALITY_SWITCH_OUTCOME => Some "timeOnSegment"
  | _ => None
  end.

Definition unestablished (key : string) (data : fields) : fields :=
  set_field "awayTimingUnestablished" (JBool true) (set_field key (JInt 0) data).

(** [adjusted_data] *)
Definition adjusted_data (sitting : option LessonSession) (event : SignalEventRequest) (event_at : datetime) : exn + fields :=
  let data := default [] (er_event_data event) in
  if negb focus_timing_verified then inr data
  else
    match duration_key (er_event_type event) with
    | None => inr data
    | Some key =>
      if negb (is_plain_number (field key data)) then inr data
      else
        match sitting with
        | None => inr (unestablished key data)
        | Some sitting =>
          if negb (er_has_zone event) || (seconds 30 <? Z.abs (event_at - er_timestamp event)) then inr (unestablished key data)
          else
            match json_int (field key data) with
            | inl e => inl e
            | inr reported =>
              let segment := field "segmentId" data in
              match active_response_ms sitting reported event_at (if json_truthy segment then Some (json_str segment) else None) with
              | inl e => inl e
              | inr None => inr (unestablished key data)
              | inr (Some effective) => inr (set_field "awayTimeExcluded" (JBool true) (set_field key (JInt effective) data))
              end
            end
        end
    end.

(** [public_consent_error] *)
Definition public_consent_error (e : exn) : exn :=
  HTTPException
    match e with
    | ConsentUnavailableError => 503
    | StudentNotFoundError => 404
    | StudentConsentAccessError | ConsentRequiredError | ConsentPendingError | ConsentWithdrawnError => 403
    | ParentAccountConflictError | ParentAlreadyRefusedError => 409
    | _ => 400
    end (default "" (consent_error_code e)).

(** [_require_confirmed_consent] *)
Definition require_confirmed_consent (principal : AuthPrincipal) : M unit :=
  let unavailable := HTTPException 503 "consent_service_unavailable" in
  if negb consent_service then raise unavailable
  else
    try_except (gate ← require_student_consent principal; mret tt)
      (λ e, Some (raise (if is_consent_error e then public_consent_error e else unavailable))).

Definition snapshot (principal : AuthPrincipal) (r : LessonSessionRequest) : LessonSessionSnapshot :=
  mkLessonSessionSnapshot (lr_session_id r) (principal_user_id principal) (lr_lesson_id r) (lr_started_at r) (lr_ended_at r)
    (lr_completion_status r) (lr_exit_position r) (lr_break_count r) (lr_proactive_adjustments_count r) (lr_session_type r).

Definition draft (principal : AuthPrincipal) (e : SignalEventRequest) (data : fields) : SignalEventDraft :=
  mkSignalEventDraft (principal_user_id principal) (er_session_id e) (er_event_type e) (JObj data) (er_timestamp e).

(** [ingest_signal_batch], of a validated batch, all at one moment *)
Definition ingest_signal_batch (payload : SignalBatchRequest) (principal : AuthPrincipal) (now : datetime) : M SignalIngestionReceipt :=
  if principal_role principal != "student" then raise (HTTPException 403 "student_required")
  else
    require_confirmed_consent principal;;
    sitting ← get LessonSessions (lr_session_id (br_session payload));
    if (match (sitting : option LessonSession) with Some r => lsn_student_id r != principal_user_id principal | None => false end)
    then raise (HTTPException 404 "lesson_session_not_found")
    else
      receipt ← try_except
        (drafts ← map_each (br_events payload) (λ e, data ← raise_or (adjusted_data sitting e now); mret (draft principal e data));
         ingest (mkSignalIngestionBatch (snapshot principal (br_session payload)) drafts))
        (λ e, (λ code, raise (HTTPException 400 code)) <$> signal_error_code e);
      (if is_some (lr_lesson_id (br_session payload)) && (lr_completion_status (br_session payload) == LESSON_COMPLETED) && post_lesson_worker
       then enqueue (lr_session_id (br_session payload)) (principal_user_id principal) (lr_ended_at (br_session payload)) now;; mret tt
       else mret tt);;
      mret receipt.

(** The route: the request is validated, then handled. *)
Definition post_signals (b : SignalBatchRequest) (principal : AuthPrincipal) (now : datetime) : M SignalIngestionReceipt :=
  payload ← raise_or (validated_batch b); ingest_signal_batch payload principal now.
End Intake.

(** ** What the privacy check accepts *)

(** No object of a value has a private key. *)
Fixpoint clean (j : Json) : bool :=
  match j with
  | JObj kvs => negb (private_keys (map fst kvs)) && foldr (λ '(_, c) b, clean c && b) true kvs
  | JArr items => foldr (λ c b, clean c && b) true items
  | _ => true
  end.

(** How many values a value is made of, and how deep they lie. *)
Fixpoint weight (j : Json) : Z :=
  1 + match j with
      | JObj kvs => foldr (λ '(_, c) n, weight c + n) 0 kvs
      | JArr items => foldr (λ c n, weight c + n) 0 items
      | _ => 0
      end.
Fixpoint height (j : Json) : Z :=
  match j with
  | JObj kvs => foldr (λ '(_, c) n, Z.max (1 + height c) n) 0 kvs
  | JArr items => foldr (λ c n, Z.max (1 + height c) n) 0 items
  | _ => 0
  end.

Definition children (j : Json) : list Json :=
  match j with JObj kvs => map snd kvs | JArr items => items | _ => [] end.

(** Induction through the children. *)
Lemma json_deep_ind (P : Json → Prop) : (∀ j, Forall P (children j) → P j) → ∀ j, P j.
Proof.
  intros Hstep. fix IH 1. intros j. apply Hstep. destruct j as [| | | | |items|kvs]; cbn; try constructor.
  - induction items as [|c items IHl]; constructor; [apply IH|exact IHl].
  - induction kvs as [|[k c] kvs IHl]; constructor; [apply IH|exact IHl].
Qed.

Fixpoint visit_all (f : Json → Z → exn + Z) (l : list Json) (n : Z) : exn + Z :=
  match l with [] => inr n | c :: l' => match f c n with inl e => inl e | inr m => visit_all f l' m end end.

Definition own_keys_clean (j : Json) : bool := match j with JObj kvs => negb (private_keys (map fst kvs)) | _ => true end.

Lemma visit_eq j depth n :
  visit j depth n =
  if (8 <? depth) || (n - 1 <? 0) then inl (ValueError TOO_LARGE)
  else if negb (own_keys_clean j) then inl (ValueError RAW_INPUT)
  else visit_all (λ c, visit c (depth + 1)) (children j) (n - 1).
Proof.
  destruct j as [| | | | |items|kvs]; cbn [visit own_keys_clean children negb]; destruct (_ || _); try done.
  - generalize (n - 1). induction items as [|c items IH]; intros m; [done|]. cbn. destruct (visit c (depth + 1) m); [done|]. apply IH.
  - destruct (private_keys _); [done|]. cbn [negb]. generalize (n - 1). induction kvs as [|[k c] kvs IH]; intros m; [done|]. cbn.
    destruct (visit c (depth + 1) m); [done|]. apply IH.
Qed.

Definition weights (l : list Json) : Z := foldr (λ c n, weight c + n) 0 l.
Definition heights (l : list Json) : Z := foldr (λ c n, Z.max (1 + height c) n) 0 l.

Lemma weight_eq j : weight j = 1 + weights (children j).
Proof. destruct j as [| | | | |items|kvs]; try done. cbn. f_equal. induction kvs as [|[k c] kvs IH]; [done|]. cbn. by rewrite IH. Qed.
Lemma height_eq j : height j = heights (children j).
Proof. destruct j as [| | | | |items|kvs]; try done. cbn. induction kvs as [|[k c] kvs IH]; [done|]. cbn. by rewrite IH. Qed.
Lemma clean_eq j : clean j = own_keys_clean j && forallb clean (children j).
Proof.
  destruct j as [| | | | |items|kvs]; try done. cbn. f_equal. induction kvs as [|[k c] kvs IH]; [done|]. cbn. by rewrite IH.
Qed.

Lemma weight_pos j : 1 <= weight j.
Proof.
  induction j as [j IH] using json_deep_ind. rewrite weight_eq. unfold weights.
  assert (0 <= foldr (λ c n, weight c + n) 0 (children j)); [|lia]. induction IH as [|c l Hc _ IHl]; cbn; lia.
Qed.
Lemma heights_nonneg l : 0 <= heights l.
Proof. induction l as [|c l IH]; cbn; [lia|]. fold (heights l). lia. Qed.

Lemma visit_all_spec l depth n m :
  depth <= 8 → 0 <= n →
  Forall (λ c, ∀ d n m, visit c d n = inr m ↔ clean c = true ∧ d + height c <= 8 ∧ weight c <= n ∧ m = n - weight c) l →
  visit_all (λ c, visit c (depth + 1)) l n = inr m ↔
    forallb clean l = true ∧ depth + heights l <= 8 ∧ weights l <= n ∧ m = n - weights l.
Proof.
  intros Hd Hn Hall. revert n m Hn. induction Hall as [|c l Hc _ IH]; intros n m Hn; cbn [visit_all forallb].
  - cbn. split; [intros [= <-]; split_and!; done || lia|]. intros (_ & _ & _ & ->). f_equal. lia.
  - change (heights (c :: l)) with (Z.max (1 + height c) (heights l)). change (weights (c :: l)) with (weight c + weights l).
    rewrite andb_true_iff. destruct (visit c (depth + 1) n) as [e|k] eqn:Hv.
    + split; [done|]. intros ([Hcl _] & Hh & Hw & _). exfalso.
      assert (0 <= weights l) by (clear; induction l as [|x l IH]; cbn; [done|]; pose proof (weight_pos x); fold (weights l); lia).
      assert (visit c (depth + 1) n = inr (n - weight c)) as Hvisit; [|by rewrite Hvisit in Hv]. apply Hc. split_and!; [done|lia..].
    + apply Hc in Hv as (Hcl & Hh & Hw & ->). rewrite IH by lia. split.
      * intros (? & ? & ? & ->). split_and!; [done..|lia|lia|lia].
      * intros ([_ ?] & ? & ? & ->). split_and!; [done|lia..].
Qed.

Lemma visit_spec j depth n m :
  visit j depth n = inr m ↔ clean j = true ∧ depth + height j <= 8 ∧ weight j <= n ∧ m = n - weight j.
Proof.
  revert depth n m. induction j as [j IH] using json_deep_ind. intros depth n m.
  rewrite visit_eq, clean_eq, weight_eq, height_eq. pose proof (heights_nonneg (children j)) as Hh.
  assert (0 <= weights (children j)) as Hw.
  { clear. induction (children j) as [|x l IH]; cbn; [done|]. pose proof (weight_pos x). fold (weights l). lia. }
  destruct (8 <? depth) eqn:Hd; [apply Z.ltb_lt in Hd; split; [done|lia]|]. apply Z.ltb_ge in Hd.
  destruct (n - 1 <? 0) eqn:Hn; [apply Z.ltb_lt in Hn; split; [done|lia]|]. apply Z.ltb_ge in Hn. cbn [orb].
  destruct (own_keys_clean j); cbn [negb andb]; [|by split; [|intros [? _]]].
  rewrite visit_all_spec by done. split; intros (? & ? & ? & ?); split_and!; done || lia.
Qed.

(** [visit] raises nothing but the two refusals. *)
Lemma visit_refuses j depth n e : visit j depth n = inl e → is_refusal e = true.
Proof.
  revert depth n e. induction j as [j IH] using json_deep_ind. intros depth n e. rewrite visit_eq.
  destruct (_ || _); [by intros [= <-]|]. destruct (own_keys_clean j); cbn [negb]; [|by intros [= <-]].
  generalize (n - 1). induction IH as [|c l Hc _ IHl]; intros k; cbn; [done|].
  destruct (visit c (depth + 1) k) eqn:Hv; [|apply IHl]. intros [= <-]. by eapply Hc.
Qed.

(** C35: what the privacy check accepts. The check, which visits the values of an event with
    one counter for them all, accepts exactly the data none of whose objects, at any depth,
    has a key that names a raw input measurement or a pair of coordinates, that lies no more
    than eight levels deep and is made of no more than 2048 values; anything else is refused
    as a bad request, and nothing is an error of the server. *)
Theorem privacy_check_accepts value :
  match checked (validate_signal_privacy value) with
  | inr _ => clean value = true ∧ height value <= 8 ∧ weight value <= VISITED_AT_MOST
  | inl e => is_refusal e = true ∧ ¬ (clean value = true ∧ height value <= 8 ∧ weight value <= VISITED_AT_MOST)
  end.
Proof.
  unfold checked, validate_signal_privacy. destruct (visit value 0 VISITED_AT_MOST) as [e|m] eqn:Hv; cbn.
  - split; [by eapply visit_refuses|]. intros (Hc & Hh & Hw).
    assert (visit value 0 VISITED_AT_MOST = inr (VISITED_AT_MOST - weight value)) as Hvisit; [|by rewrite Hvisit in Hv].
    apply visit_spec. split_and!; [done|lia..].
  - apply visit_spec in Hv as (? & ? & ? & _). split_and!; [done|lia..].
Qed.

(** ** What is stored is clean *)

(** A key that may be added to any data. *)
Definition plain_key (k : string) : bool :=
  negb (bool_decide (casefold k ∈ ["x"; "y"])) && negb (is_private_interaction_key k).

Lemma private_keys_snoc keys k :
  private_keys keys = false → plain_key k = true → private_keys (keys ++ [k])%list = false.
Proof.
  unfold private_keys, plain_key. rewrite orb_false_iff, andb_true_iff, !negb_true_iff. intros [Hxy Hpriv] [Hk%bool_decide_eq_false Hk'].
  apply orb_false_iff. split.
  - rewrite map_app. cbn [map]. rewrite <- not_true_iff_false, andb_true_iff, !bool_decide_eq_true in Hxy |- *.
    rewrite !elem_of_app, !list_elem_of_singleton. set_solver.
  - rewrite existsb_app, Hpriv. cbn. by rewrite Hk'.
Qed.

Lemma clean_obj data : clean (JObj data) = negb (private_keys (map fst data)) && forallb clean (map snd data).
Proof. apply (clean_eq (JObj data)). Qed.

Lemma clean_with_key k v data :
  clean (JObj data) = true → clean v = true → plain_key k = true ∨ is_some (assoc k data) = true →
  clean (JObj (set_field k v data)) = true.
Proof.
  rewrite !clean_obj, !andb_true_iff, !negb_true_iff. intros [Hkeys Hvals] Hv Hk. unfold set_field, merge_dict.
  rewrite !map_app, forallb_app. cbn [filterb].
  assert (map fst (map (λ '(k0, v0), (k0, default v0 (assoc k0 [(k, v)]))) data) = map fst data) as Hfst.
  { rewrite map_map. apply map_ext. by intros [? ?]. }
  assert (forallb clean (map snd (map (λ '(k0, v0), (k0, default v0 (assoc k0 [(k, v)]))) data)) = true) as Hsnd.
  { rewrite map_map. rewrite forallb_forall in Hvals |- *. intros c ([k0 v0] & <- & Hin)%in_map_iff. cbn.
    destruct (k == k0); [done|]. cbn. apply Hvals, in_map_iff. by exists (k0, v0). }
  rewrite Hfst, Hsnd. unfold filterb. rewrite filter_cons, filter_nil. destruct (assoc k data) eqn:Hassoc; cbn [is_none is_some] in *.
  - cbn. by rewrite app_nil_r.
  - destruct Hk as [Hk|]; [|done]. rewrite decide_True by done. cbn [map fst snd forallb]. split; [by apply private_keys_snoc|].
    by rewrite Hv.
Qed.

Definition event_clean (r : SignalEventRequest) : Prop :=
  clean (JObj (default [] (er_event_data r))) = true ∧ (length (default [] (er_event_data r)) <= 65)%nat.

Lemma bound_event_data_ok data s s' :
  bound_event_data data s = (inr tt, s') → clean (JObj data) = true ∧ (length data <= 64)%nat.
Proof.
  unfold bound_event_data. intros ([] & s1 & Hlen & Hv)%bind_inv_inr. split.
  - unfold validate_signal_privacy in Hv. destruct (visit _ _ _) as [|m] eqn:Hvisit; [done|]. by apply visit_spec in Hvisit as [? _].
  - unfold unless in Hlen. destruct (length data <=? 64)%nat eqn:Hle; [by apply Nat.leb_le|done].
Qed.

Lemma with_source_clean data : clean (JObj data) = true → clean (JObj (with_source data)) = true.
Proof.
  unfold with_source. destruct (is_some (assoc "source" data)); [done|]. rewrite !clean_obj, !map_app, forallb_app, !andb_true_iff, !negb_true_iff.
  intros [Hk ->]. split; [|done]. by apply private_keys_snoc.
Qed.

Lemma set_field_length k v data : (length (set_field k v data) <= S (length data))%nat.
Proof.
  unfold set_field, merge_dict. rewrite length_app, length_map. unfold filterb. rewrite filter_cons, filter_nil.
  destruct (decide _); cbn; rewrite ?Nat.add_1_r, ?Nat.add_0_r; auto.
Qed.
Lemma set_field_present k v data : is_some (assoc k data) = true → length (set_field k v data) = length data.
Proof.
  intros Hk. unfold set_field, merge_dict. rewrite length_app, length_map. unfold filterb. rewrite filter_cons, filter_nil.
  destruct (assoc k data); [|done]. cbn. by rewrite Nat.add_0_r.
Qed.

(** The checks give back the data they were given, but for the two things
    that are filled in. *)
Lemma validate_learning_ok t data s data' s' :
  validate_learning t data s = (inr data', s') → data' = data ∨ data' = with_source data.
Proof.
  unfold validate_learning. intros (? & ? & _ & H1)%bind_inv_inr. apply bind_inv_inr in H1 as (? & ? & _ & H2).
  destruct t; try (injection H2 as <- <-; by left);
    repeat (apply bind_inv_inr in H2 as (? & ? & _ & H2)); injection H2 as <- <-; auto.
Qed.

Lemma settle_break_trigger_ok t data s data' s' :
  settle_break_trigger t data s = (inr data', s') →
  data' = data ∨ ∃ text, text ∈ BREAK_TRIGGERS ∧ data' = set_field "trigger" (JStr text) data ∧ is_some (assoc "trigger" data) = true.
Proof.
  unfold settle_break_trigger. destruct (_ || is_null _) eqn:Hnull; [injection 1 as <- <-; by left|].
  intros ([] & s1 & Hin & H2)%bind_inv_inr. injection H2 as <- <-. right. eexists. split; [|split; [reflexivity|]].
  - unfold unless in Hin. by destruct (bool_decide (_ ∈ BREAK_TRIGGERS)) eqn:Hb; [apply bool_decide_eq_true in Hb|].
  - apply orb_false_iff in Hnull as [_ Hnull]. unfold field in Hnull. by destruct (assoc "trigger" data).
Qed.

Lemma validated_event_ok r r' :
  checked (validated_event r) = inr r' → event_clean r' ∧ er_session_id r' = er_session_id r ∧ er_event_type r' = er_event_type r.
Proof.
  unfold checked. destruct (validated_event r tt) as [[e|x] s'] eqn:Hrun; [done|]. cbn. intros [= ->].
  apply bind_inv_inr in Hrun as (data & s1 & Hdata & Hrun). injection Hrun as <- <-. unfold validated_data in Hdata.
  apply bind_inv_inr in Hdata as (? & ? & _ & Hdata).
  set (d0 := if er_model_extra r == [] then _ else _) in Hdata.
  apply bind_inv_inr in Hdata as ([] & ? & Hbound & Hdata). apply bind_inv_inr in Hdata as (? & ? & _ & Hdata).
  apply bind_inv_inr in Hdata as (? & ? & _ & Hdata). apply bind_inv_inr in Hdata as (d1 & ? & Hlearn & Hsettle).
  apply bound_event_data_ok in Hbound as [Hc0 Hl0].
  assert (clean (JObj d1) = true ∧ (length d1 <= 65)%nat) as [Hc1 Hl1].
  { apply validate_learning_ok in Hlearn as [->| ->]; [split; [done|lia]|]. split; [by apply with_source_clean|].
    unfold with_source. destruct (is_some _); [lia|]. rewrite length_app. cbn. lia. }
  destruct r. cbn. split; [|done]. unfold event_clean. cbn [er_event_data default].
  apply settle_break_trigger_ok in Hsettle as [->|(text & _ & -> & Hk)]; [done|].
  split; [apply clean_with_key; auto|]. change (length (set_field "trigger" (JStr text) d1) <= 65)%nat. by rewrite set_field_present.
Qed.

Lemma both_ok {A B C} (f : A → B → C) a b c : both f a b = inr c → ∃ x y, a = inr x ∧ b = inr y ∧ c = f x y.
Proof. destruct a, b; cbn; try done. intros [= <-]. eauto. Qed.

Lemma validated_batch_ok b b' :
  validated_batch b = inr b' → br_session b' = br_session b ∧ Forall event_clean (br_events b').
Proof.
  unfold validated_batch. intros Hb. apply both_ok in Hb as (u & events & _ & Hev & ->). destruct (_ || _); [done|].
  destruct b as [r l]. cbn in *. split; [done|]. revert events Hev. induction l as [|e l IH]; intros events Hev; [by injection Hev as <-|].
  apply both_ok in Hev as (e' & l' & He & Hl & ->). constructor; [by eapply validated_event_ok|by apply IH].
Qed.

Section Stored.
Context `{Crypto} (fromisoformat : string → option (datetime * bool)) (focus_timing_verified consent_service post_lesson_worker : bool).

Local Notation adjusted := (adjusted_data fromisoformat focus_timing_verified).
Local Notation post := (post_signals fromisoformat focus_timing_verified consent_service post_lesson_worker).

Lemma unestablished_clean key data :
  clean (JObj data) = true → is_plain_number (field key data) = true →
  clean (JObj (unestablished key data)) = true ∧
  ∀ n, clean (JObj (set_field "awayTimeExcluded" (JBool true) (set_field key (JInt n) data))) = true.
Proof.
  intros Hc Hnum. assert (is_some (assoc key data) = true) as Hin by (unfold field in Hnum; by destruct (assoc key data)).
  split; [|intros n]; (apply clean_with_key; [apply clean_with_key; auto|done|by left]).
Qed.

Lemma adjusted_clean sitting e now data :
  event_clean e → adjusted sitting e now = inr data → clean (JObj data) = true.
Proof.
  intros [Hc _]. unfold adjusted_data. set (d := default [] (er_event_data e)) in *. destruct focus_timing_verified; cbn [negb]; [|by intros [= <-]].
  destruct (duration_key (er_event_type e)) as [key|]; [|by intros [= <-]].
  destruct (is_plain_number (field key d)) eqn:Hnum; cbn [negb]; [|by intros [= <-]].
  destruct (unestablished_clean key d Hc Hnum) as [H1 H2].
  destruct sitting as [r|]; [|by intros [= <-]]. destruct (_ || _); [by intros [= <-]|].
  destruct (json_int (field key d)) as [|n]; [done|].
  destruct (active_response_ms _ _ _ _ _) as [|[m|]]; [done|by intros [= <-]|by intros [= <-]].
Qed.

(** The learner's consent, as the gate reads it. *)
Definition consented (principal : AuthPrincipal) (db : Database) : Prop :=
  principal_role principal = "student" ∧
  fst (has_confirmed_consent (principal_user_id principal) REQUIRED_LEARNING_CONSENT db) = inr true.

Lemma require_confirmed_consent_run principal db :
  db_ok db = true →
  ∃ res, require_confirmed_consent consent_service principal db = (res, db) ∧ (res = inr tt → consented principal db).
Proof.
  intros Hok. unfold require_confirmed_consent. destruct consent_service; cbn [negb]; [|by eexists].
  unfold try_except. rewrite bind_run, gate_decides. 
  pose proof (consent_status_confirmed (principal_user_id principal) REQUIRED_LEARNING_CONSENT db Hok) as Hiff.
  destruct (decide (principal_role principal = "student")) as [Hrole|Hrole].
  - rewrite bool_decide_true by done. cbn [negb repo_consent_status sqlalchemy_consent]. rewrite consent_status_run in Hiff |- *. cbn [fst] in Hiff.
    set (st := match findb _ _ with Some r => cr_status r | None => NOT_SENT end) in *.
    unfold gate_verdict. destruct st; cbn; eexists; (split; [reflexivity|]); intros Hres; try done. split; [done|]. by apply Hiff.
  - rewrite bool_decide_false by done. cbn. eexists. split; [reflexivity|done].
Qed.

Lemma drafts_run sitting es principal now (db : Database) :
  ∃ res, (map_each es (λ e, data ← raise_or (adjusted sitting e now); mret (draft principal e data)) : M _) db = (res, db) ∧
    ∀ drafts, res = inr drafts → Forall2 (λ e d, ∃ data, adjusted sitting e now = inr data ∧ d = draft principal e data) es drafts.
Proof.
  induction es as [|e es (res & Hrun & Hres)]; [eexists; split; [reflexivity|]; intros ? [= <-]; constructor|]. cbn [map_each].
  destruct (adjusted sitting e now) as [x|data] eqn:Hd; [eexists; split; [by apply bind_inl with (s' := db)|done]|].
  rewrite (bind_inr _ _ _ db (draft principal e data)) by reflexivity. destruct res as [x|drafts].
  - rewrite (bind_inl _ _ _ _ _ Hrun). by eexists.
  - rewrite (bind_inr _ _ _ _ _ Hrun). eexists. split; [reflexivity|]. intros ? [= <-]. constructor; eauto.
Qed.

(** What a request may have done to the events: nothing, or it added some of
    its own learner's, all of the sitting it reports. *)
Definition events_added (b : SignalBatchRequest) (principal : AuthPrincipal) (db db' : Database) : Prop :=
  ∃ es, events db' = (events db ++ es)%list ∧
    (∃ r, sitting (lr_session_id (br_session b)) db' = Some r ∧ lsn_student_id r = principal_user_id principal) ∧
    ∀ e, e ∈ es → sig_student_id e = principal_user_id principal ∧ sig_session_id e = lr_session_id (br_session b) ∧
      clean (sig_event_data e) = true.

Lemma ingest_adds payload principal sit now drafts (db : Database) :
  db_ok db = true → keyed SignalEvents db → Forall event_clean (br_events payload) →
  Forall2 (λ e d, ∃ data, adjusted sit e now = inr data ∧ d = draft principal e data) (br_events payload) drafts →
  let '(res, db') := ingest (mkSignalIngestionBatch (snapshot principal (br_session payload)) drafts) db in
  db_ok db' = true ∧ (db' = db ∨ events_added payload principal db db').
Proof.
  intros Hok Hkeyed Hclean Hdrafts. set (batch := mkSignalIngestionBatch _ _).
  pose proof (ingest_run batch db Hok Hkeyed) as Hrun. destruct (refusal batch db) as [e|] eqn:Href; [rewrite Hrun; auto|].
  destruct Hrun as (row & db' & -> & Hok' & _ & Hrow & Hs & Hev & _). split; [done|]. right. eexists. split; [exact Hev|].
  destruct (sitting_after_spec (report batch) db db' row Hrow Hs) as [Hnew _]. split.
  - exists row. split; [exact Hnew|]. unfold sitting_after in Hrow. destruct (sitting _ db) as [r|].
    + destruct (compatible r (report batch)) eqn:Hc; [|done]. injection Hrow as <-. exact (compatible_student _ _ Hc).
    + by injection Hrow as <-.
  - intros e He. apply (elem_of_stamped (H := nevo_schema) SignalEvents (λ i d, event_row d i)) in He as (i & d & Hd & -> & _).
    pose proof (refusal_session batch db d Href Hd) as Hsess. cbn in Hd.
    apply list_elem_of_lookup_1 in Hd as [k Hk].
    destruct (Forall2_lookup_r _ _ _ _ _ Hdrafts Hk) as (ev & Hev' & data & Hdata & ->). split; [done|]. split; [exact Hsess|].
    rewrite Forall_lookup in Hclean. exact (adjusted_clean _ _ _ _ (Hclean k ev Hev') Hdata).
Qed.

(** The service, called by the route. *)
Lemma service_adds payload principal sit now (db : Database) :
  db_ok db = true → keyed SignalEvents db → Forall event_clean (br_events payload) →
  let '(res, db') := try_except
        (drafts ← map_each (br_events payload) (λ e, data ← raise_or (adjusted sit e now); mret (draft principal e data));
         ingest (mkSignalIngestionBatch (snapshot principal (br_session payload)) drafts))
        (λ e, (λ code, raise (HTTPException 400 code)) <$> signal_error_code e) db in
  db_ok db' = true ∧ (db' = db ∨ events_added payload principal db db').
Proof.
  intros Hok Hkeyed Hclean. destruct (drafts_run sit (br_events payload) principal now db) as (res & Hdrafts & Hall). unfold try_except.
  destruct res as [e|drafts].
  - rewrite (bind_inl _ _ _ _ _ Hdrafts). by destruct (signal_error_code e); cbn; auto.
  - rewrite (bind_inr _ _ _ _ _ Hdrafts). pose proof (ingest_adds payload principal sit now drafts db Hok Hkeyed Hclean (Hall _ eq_refl)) as Hadds.
    destruct (ingest _ db) as [[e|receipt] db']; [|done]. by destruct (signal_error_code e).
Qed.

(** What follows only touches the queue of finished lessons. *)
Lemma enqueue_leaves s st c now (db : Database) :
  db_ok db = true → let db' := snd (enqueue s st c now db) in sessions db' = sessions db ∧ events db' = events db.
Proof.
  intros Hok. cbv zeta. pose proof (enqueue_run s st c now db Hok) as Hrun. destruct (job s db); [by rewrite Hrun|].
  destruct Hrun as (db' & -> & _ & _ & Hframe). unfold sessions, events. by rewrite !Hframe.
Qed.

(** C30: a learner's events are only taken with their consent. Whatever is posted, by whom and
    whenever: either the sittings and the events are as they were, or the one who posted is a
    student whose consent to the processing is confirmed, and all that was added are events of
    their own, of the sitting they reported, which is theirs, and free of raw input
    measurements at every depth. *)
Theorem events_need_consent b principal now (db : Database) :
  db_ok db = true → keyed SignalEvents db →
  let db' := snd (post b principal now db) in
  (sessions db' = sessions db ∧ events db' = events db) ∨ (consented principal db ∧ events_added b principal db db').
Proof.
  intros Hok Hkeyed. cbv zeta. unfold post_signals, raise_or. destruct (validated_batch b) as [e|payload] eqn:Hb; [by left|].
  apply validated_batch_ok in Hb as [Hsame Hclean]. rewrite (bind_inr _ _ db db payload) by reflexivity.
  unfold events_added. rewrite <- Hsame. fold (events_added payload principal db).
  unfold ingest_signal_batch. destruct (principal_role principal != "student"); [by left|].
  destruct (require_confirmed_consent_run principal db Hok) as (res & Hgate & Hcons).
  destruct res as [e|[]]; [rewrite (bind_inl _ _ _ _ _ Hgate); by left|]. rewrite (bind_inr _ _ _ _ _ Hgate).
  specialize (Hcons eq_refl). set (sid := lr_session_id (br_session payload)).
  rewrite (bind_inr _ _ db db (sitting sid db)) by reflexivity.
  destruct (match sitting sid db with Some r => _ | None => false end); [by left|].
  pose proof (service_adds payload principal (sitting sid db) now db Hok Hkeyed Hclean) as Hserv.
  destruct (try_except _ _ db) as [[e|receipt] db1] eqn:Hrun; destruct Hserv as [Hok1 Hadds].
  - rewrite (bind_inl _ _ _ _ _ Hrun). cbn [snd]. destruct Hadds as [->|Hadds]; auto.
  - rewrite (bind_inr _ _ _ _ _ Hrun).
    match goal with |- context [snd (?m db1)] => set (db2 := snd (m db1)) end.
    assert (sessions db2 = sessions db1 ∧ events db2 = events db1) as [Hs2 He2].
    { unfold db2. destruct (_ && _ && _); [|done]. rewrite bind_run.
      destruct (enqueue_leaves sid (principal_user_id principal) (lr_ended_at (br_session payload)) now db1 Hok1) as [Hs He].
      rewrite bind_run. fold sid. destruct (enqueue sid _ _ now db1) as [[x|y] db3]; exact (conj Hs He). }
    destruct Hadds as [->|(es & Hes & Hsit & Hall)]; [by left|]. right. split; [done|]. exists es. rewrite He2. split; [done|].
    split; [|done]. unfold sitting. by rewrite Hs2.
Qed.
End Stored.

(** ** At work *)

#[local] Existing Instance Toy.crypto.

Definition a_student : AuthPrincipal := mkAuthPrincipal 2 "student" 50.
Definition a_request (t : SignalEventType) (data : fields) : SignalBatchRequest :=
  mkSignalBatchRequest (mkLessonSessionRequest 90 (Some 40) "lesson" t0 None LESSON_IN_PROGRESS None 0 0)
    [mkSignalEventRequest 90 t t0 true (Some data) []].
Definition time_on_segment : fields := [("segmentId", JStr "s1"); ("durationMs", JInt 4000); ("depthShown", JStr "standard")].

Definition post_it : SignalBatchRequest → AuthPrincipal → datetime → M SignalIngestionReceipt :=
  post_signals (λ _, None) true true true.

Example a_posted_event :
  fst (post_it (a_request TIME_ON_SEGMENT time_on_segment) a_student t0 consented_db) = inr (mkSignalIngestionReceipt 90 1) ∧
  fst (post_it (a_request TIME_ON_SEGMENT time_on_segment) a_student t0 school_db) = inl (HTTPException 403 "consent_required") ∧
  fst (post_it (a_request TIME_ON_SEGMENT time_on_segment) (mkAuthPrincipal 6 "teacher" 51) t0 consented_db)
    = inl (HTTPException 403 "student_required") ∧
  is_refusal (default TypeError (match fst (post_it (a_request SCROLL [("tapCount", JInt 3)]) a_student t0 consented_db) with
                                 | inl e => Some e | inr _ => None end)) = true.
Proof. vm_compute. done. Qed.

(** The time away is not established without a sitting that was watched. *)
Example an_unestablished_time :
  map sig_event_data (events (snd (post_it (a_request TIME_ON_SEGMENT time_on_segment) a_student t0 consented_db)))
  = [JObj [("segmentId", JStr "s1"); ("durationMs", JInt 0); ("depthShown", JStr "standard"); ("awayTimingUnestablished", JBool true)]].
Proof. vm_compute. done. Qed.

Definition an_event (t : SignalEventType) (data : option fields) (extra : fields) : SignalEventRequest :=
  mkSignalEventRequest 90 t t0 true data extra.

(** A depth that nobody can act on is refused in [eventData], and taken from
    a client that sends it beside the event. *)
Example depth_beside_the_event :
  let bad := [("segmentId", JStr "s1"); ("durationMs", JInt 4000); ("depthShown", JStr "wrong")] in
  checked (validated_data (an_event TIME_ON_SEGMENT (Some bad) [])) = inl (ValueError "depthShown must be one of: standard, simplified, expanded.") ∧
  checked (validated_data (an_event TIME_ON_SEGMENT None bad)) = inr bad.
Proof. vm_compute. done. Qed.

(** A list where a text is expected is an error of the server. *)
Example a_list_for_a_text :
  checked (validated_data (an_event TIME_ON_SEGMENT (Some (("segmentId", JArr []) :: tail time_on_segment)) [])) = inl TypeError.
Proof. vm_compute. done. Qed.

(** The fields the catalogue names for a learner's question are not the ones
    that are required. *)
Example the_catalogue_names_other_fields :
  let catalogued := [("interactionId", JStr "i"); ("studentId", JStr "2"); ("currentPage", JStr "home"); ("questionCategory", JStr "general")] in
  payload <$> (snd <$> findb (λ c, fst c == ASK_NEVO_QUESTION_STUDENT) SIGNAL_CONTRACTS) = Some (map fst catalogued) ∧
  checked (validated_data (an_event ASK_NEVO_QUESTION_STUDENT (Some catalogued) []))
    = inl (ValueError "Ask Nevo signal missing required field(s): lessonId, segmentId.").
Proof. vm_compute. done. Qed.

(** The types the catalogue keeps for the server are taken from a client. *)
Example a_server_written_type :
  map scr_event_type (filterb scr_server_written signal_catalogue) = [ADAPTATION_SUPPRESSED; GUIDED_QUESTION_ANSWERED] ∧
  checked (validated_data (an_event GUIDED_QUESTION_ANSWERED (Some [("segmentId", JStr "s1")]) [])) = inr [("segmentId", JStr "s1")].
Proof. vm_compute. done. Qed.

(** Nothing the catalogue asks for is refused as private. *)
Example the_catalogue_is_plain :
  length SIGNAL_CONTRACTS = 48%nat ∧ existsb is_private_interaction_key (concat (map (λ c, payload (snd c)) SIGNAL_CONTRACTS)) = false.
Proof. vm_compute. done. Qed.

Lemma events_need_consent_witness :
  let b := a_request TIME_ON_SEGMENT time_on_segment in
  db_ok consented_db = true ∧ keyed SignalEvents consented_db ∧
  consented a_student consented_db ∧ events_added b a_student consented_db (snd (post_it b a_student t0 consented_db)).
Proof.
  cbv zeta. assert (db_ok consented_db = true) as Hok by (vm_compute; reflexivity).
  assert (keyed SignalEvents consented_db) as Hkeyed by (apply keyed_bool; vm_compute; reflexivity).
  split; [exact Hok|]. split; [exact Hkeyed|].
  destruct (events_need_consent (λ _, None) true true true (a_request TIME_ON_SEGMENT time_on_segment) a_student t0 consented_db Hok Hkeyed)
    as [[_ Hnone]|Hadded]; [|exact Hadded].
  exfalso. apply (f_equal length) in Hnone. revert Hnone. vm_compute. discriminate.
Defined.
