(* ===== verification/AttentionFlags.v ===== *)
(** * Noticing a change in a learner

    [src/nevo/attention_flags/service.py]: how engaged a learner was in each of
    the last lessons, what counts as a sudden change or a decline, the one flag
    that is open for it, and the recommendation the gateway writes for a new
    one. *)

From Stdlib Require Import Ascii String SpecFloat.
From S2P Require Import Prelude Floats Relational Text Vocabulary LearningVocabulary Schema Fixtures Crypto Access Regex ZeroTag Privacy Json Money AiSafety AiGateway AiRepo Gateway GatewayFacts AskThreads AskNevo Sittings.

Local Open Scope string_scope.
Local Open Scope Z_scope.
Local Open Scope nevo_scope.

(** ** Numbers that are whole or floating *)

(** A Python number that is an [int] or a [float], as a JSON value. *)
Definition num_float (n : Json) : float := match n with JInt z => f_of_Z z | JFloat x => x | _ => f_zero end.

(** [sum]: exact as long as only whole numbers came, then in floats. *)
Fixpoint num_sum_from (total lost : float) (ns : list Json) : float :=
  match ns with
  | [] => if f_truthy lost && f_finite lost then (total + lost)%F else total
  | JInt z :: ns' => num_sum_from (total + f_of_Z z)%F lost ns'
  | n :: ns' =>
    let x := num_float n in
    let t := (total + x)%F in
    let lost := if f_le (SFabs x) (SFabs total) then (lost + ((total - t) + x))%F
                else (lost + ((x - t) + total))%F in
    num_sum_from t lost ns'
  end.
Fixpoint num_sum (acc : Z) (ns : list Json) : Json :=
  match ns with
  | [] => JInt acc
  | JInt z :: ns' => num_sum (acc + z) ns'
  | n :: ns' => JFloat (num_sum_from (f_of_Z acc + num_float n)%F f_zero ns')
  end.

(** [sum(ns) / len(ns)] of a list that is not empty *)
Definition num_average (ns : list Json) : float := f_quot (num_float (num_sum 0 ns)) (f_of_Z (Z.of_nat (length ns))).

(** [round(n, 3)] *)
Definition num_round3 (n : Json) : Json := match n with JFloat x => JFloat (f_round 3 x) | _ => n end.

(** ** Entities *)

Definition INTERVENTION_RECOMMENDATION_PROMPT_NAME : string := "intervention_recommendation.default".
Definition STANDARD_DECLINE_MINIMUM_SESSIONS : nat := 3.
Definition STANDARD_DECLINE_RECENT_SESSIONS : nat := 2.
Definition STANDARD_DECLINE_THRESHOLD : float := f_ratio 15 100.
Definition SUDDEN_CHANGE_THRESHOLD : float := f_ratio 35 100.

Record SessionEngagementSnapshot := mkSessionEngagementSnapshot {
  ses_session_id : uuid; ses_started_at : datetime; ses_engagement_score : Json; ses_event_count : Z; ses_lesson_id : option uuid
}.

Record AttentionFlagDraft := mkAttentionFlagDraft {
  afd_student_id : uuid; afd_flag_type : AttentionFlagType; afd_description : string; afd_session_ids : list uuid;
  afd_baseline_score : option Json; afd_current_score : option Json
}.

Record AttentionDetectionContext := mkAttentionDetectionContext {
  adc_student_id : uuid; adc_sessions : list SessionEngagementSnapshot
}.

Record AttentionFlagRecord := mkAttentionFlagRecord {
  afr_id : uuid; afr_student_id : uuid; afr_flag_type : AttentionFlagType; afr_description : string;
  afr_generated_at : option datetime
}.

Record InterventionRecommendationRecord := mkInterventionRecommendationRecord {
  irr_id : uuid; irr_attention_flag_id : uuid; irr_student_id : uuid; irr_recommendation_text : string;
  irr_ai_gateway_call_id : option uuid; irr_lesson_id : option uuid
}.

Record AttentionFlagOutcome := mkAttentionFlagOutcome {
  afo_attention_flag_id : option uuid; afo_recommendation_id : option uuid; afo_flag_type : option AttentionFlagType;
  afo_status : string
}.

(** ** How engaged a learner was *)

(** [_clamp]: [max(0, min(score, 1))] gives back whole numbers at the ends. *)
Definition clamp_score (score : float) : Json :=
  if f_lt f_one score then JInt 1 else if f_lt f_zero score then JFloat score else JInt 0.

(** [_normalize_score] *)
Definition normalize_score (score : float) : Json :=
  clamp_score (if f_lt f_one score then f_quot score (f_of_Z 100) else score).

Definition ENGAGEMENT_KEYS : list string := ["engagementScore"; "engagement_score"; "engagement"; "score"; "value"].

(** [_extract_engagement_score]; a whole number too large for a float is an
    error. *)
Fixpoint extract_from (keys : list string) (data : list (string * Json)) : exn + option Json :=
  match keys with
  | [] => inr None
  | key :: keys' =>
    match field key data with
    | JStr s => match float_of_text s with Some x => inr (Some (normalize_score x)) | None => extract_from keys' data end
    | JInt _ | JFloat _ | JBool _ =>
      match json_float (field key data) with inl e => inl e | inr x => inr (Some (normalize_score x)) end
    | _ => extract_from keys' data
    end
  end.

Definition extract_engagement_score (event_data : Json) : exn + option Json :=
  match event_data with JObj data => extract_from ENGAGEMENT_KEYS data | _ => inl AttributeError end.

Fixpoint extracted_scores (events : list SignalEvent) : exn + list Json :=
  match events with
  | [] => inr []
  | e :: events' =>
    match extract_engagement_score (sig_event_data e), extracted_scores events' with
    | inl x, _ => inl x
    | _, inl x => inl x
    | inr o, inr l => inr (match o with Some s => s :: l | None => l end)
    end
  end.

(** [0.65 + min(positive_events, 3) * 0.05 - min(exit_attempts, 4) * 0.12] *)
Definition heuristic_score (positive_events exit_attempts : Z) : float :=
  ((f_ratio 65 100 + f_of_Z (Z.min positive_events 3) * f_ratio 5 100)
   - f_of_Z (Z.min exit_attempts 4) * f_ratio 12 100)%F.

Definition POSITIVE_EVENTS : list SignalEventType := [BREAK_TAKEN; MODALITY_SUGGESTION_ACCEPTED; CALCULATION_COMPLETE].

Definition count_events (types : list SignalEventType) (events : list SignalEvent) : Z :=
  Z.of_nat (length (filterb (λ e, bool_decide (sig_event_type e ∈ types)) events)).

(** [session_engagement_score] *)
Definition session_engagement_score (events : list SignalEvent) : exn + Json :=
  match extracted_scores events with
  | inl e => inl e
  | inr [] => inr (clamp_score (heuristic_score (count_events POSITIVE_EVENTS events) (count_events [EXIT_ATTEMPT] events)))
  | inr scores => inr (clamp_score (num_average scores))
  end.

(** ** What is noticed *)

Definition average_score (sessions : list SessionEngagementSnapshot) : float := num_average (map ses_engagement_score sessions).

Definition SUDDEN_CHANGE_TEXT : string :=
  "The most recent session diverged sharply from this student's " ++
  "usual engagement pattern and may need timely teacher review.".
Definition ENGAGEMENT_DECLINE_TEXT : string :=
  "Engagement signals have remained below this student's recent " ++
  "baseline across two consecutive sessions.".

(** The last session, and those before it. *)
Definition latest_and_before {A} (l : list A) : option (A * list A) :=
  match rev l with [] => None | x :: before => Some (x, rev before) end.

(** [_detect_sudden_change] *)
Definition detect_sudden_change (student_id : uuid) (sessions : list SessionEngagementSnapshot) : option AttentionFlagDraft :=
  match latest_and_before sessions with
  | None | Some (_, []) => None
  | Some (latest, before) =>
    let baseline := average_score before in
    if f_le (num_float (ses_engagement_score latest)) (baseline - SUDDEN_CHANGE_THRESHOLD)%F
    then Some (mkAttentionFlagDraft student_id SUDDEN_CHANGE SUDDEN_CHANGE_TEXT [ses_session_id latest]
                 (Some (JFloat (f_round 3 baseline))) (Some (num_round3 (ses_engagement_score latest))))
    else None
  end.

(** [_detect_engagement_decline] *)
Definition detect_engagement_decline (student_id : uuid) (sessions : list SessionEngagementSnapshot) : option AttentionFlagDraft :=
  if (length sessions <? STANDARD_DECLINE_MINIMUM_SESSIONS)%nat then None
  else
    let n := (length sessions - STANDARD_DECLINE_RECENT_SESSIONS)%nat in
    let recent := drop n sessions in
    let baseline_sessions := take n sessions in
    if (length baseline_sessions =? 0)%nat then None
    else
      let baseline := average_score baseline_sessions in
      if forallb (λ s, f_le (num_float (ses_engagement_score s)) (baseline - STANDARD_DECLINE_THRESHOLD)%F) recent
      then Some (mkAttentionFlagDraft student_id ENGAGEMENT_DECLINE ENGAGEMENT_DECLINE_TEXT (map ses_session_id recent)
                   (Some (JFloat (f_round 3 baseline))) (Some (JFloat (f_round 3 (average_score recent)))))
      else None.

(** [detect_attention_flag] *)
Definition detect_attention_flag (student_id : uuid) (sessions : list SessionEngagementSnapshot) : option AttentionFlagDraft :=
  let ordered := order_by (λ a b, ses_started_at a <=? ses_started_at b) sessions in
  if (length ordered <? 2)%nat then None
  else
    match detect_sudden_change student_id ordered with
    | Some draft => Some draft
    | None => detect_engagement_decline student_id ordered
    end.

(** ** The repository *)

Definition LESSONS_LOOKED_AT : nat := 8.

(** [load_detection_context] *)
Definition load_detection_context (student_id : uuid) : M AttentionDetectionContext :=
  sittings ← select LessonSessions (λ s, lsn_student_id s == student_id);
  let recent := take LESSONS_LOOKED_AT (order_by (λ a b, lsn_started_at b <=? lsn_started_at a) (sittings : list LessonSession)) in
  let ordered := order_by (λ a b, lsn_started_at a <=? lsn_started_at b) recent in
  let session_ids := map lsn_id ordered in
  found ← (if session_ids == [] then mret []
           else select SignalEvents (λ e, (sig_student_id e == student_id) && bool_decide (sig_session_id e ∈ session_ids)));
  let events := order_by (λ a b, sig_timestamp a <=? sig_timestamp b) (found : list SignalEvent) in
  snapshots ← map_each ordered (λ s,
    let of_sitting := filterb (λ e, sig_session_id e == lsn_id s) events in
    score ← raise_or (session_engagement_score of_sitting);
    mret (mkSessionEngagementSnapshot (lsn_id s) (lsn_started_at s) score (Z.of_nat (length of_sitting)) (lsn_lesson_id s)));
  mret (mkAttentionDetectionContext student_id snapshots).

Definition open_flag (student_id : uuid) (f : AttentionFlag) : bool :=
  (flag_student_id f == student_id) && is_none (flag_resolved_at f).

Definition flag_record (f : AttentionFlag) : AttentionFlagRecord :=
  mkAttentionFlagRecord (flag_id f) (flag_student_id f) (flag_flag_type f) (flag_description f) (Some (flag_generated_at f)).

Definition resolved (now : datetime) (f : AttentionFlag) : AttentionFlag := f <| flag_resolved_at := Some now |>.

(** The first open flag of the draft's type. *)
Definition matching_flag (draft : option AttentionFlagDraft) (active : list AttentionFlag) : option AttentionFlag :=
  d ← draft; findb (λ f, flag_flag_type f == afd_flag_type d) active.

Definition new_flag (d : AttentionFlagDraft) (i : uuid) (generated_at : datetime) : AttentionFlag :=
  mkAttentionFlag i (afd_student_id d) (afd_flag_type d) (afd_description d)
    (option_list (afd_baseline_score d) ++ option_list (afd_current_score d))%list
    ["view_student"; "open_recommendation"] generated_at None.

(** Its last step: the flag that is there, or a new one. *)
Definition kept_or_new (draft : option AttentionFlagDraft) (matching : option AttentionFlag) : M (option AttentionFlagRecord * bool) :=
  match draft with
  | None => mret (None, false)
  | Some d =>
    match matching with
    | Some f => mret (Some (flag_record f), false)
    | None =>
      i ← uuid4; at_ ← func_now;
      insert AttentionFlags (new_flag d i at_);;
      flush_;;
      mret (Some (flag_record (new_flag d i at_)), true)
    end
  end.

(** [reconcile_attention_flag] *)
Definition reconcile_attention_flag (student_id : uuid) (draft : option AttentionFlagDraft) (now : datetime)
  : M (option AttentionFlagRecord * bool) :=
  begin_ (
    found ← select AttentionFlags (open_flag student_id);
    let active := order_by (λ a b, flag_generated_at b <=? flag_generated_at a) (found : list AttentionFlag) in
    let matching := matching_flag draft active in
    for_each active (λ f, if Some (flag_id f) == (flag_id <$> matching) then mret tt else save AttentionFlags (resolved now f));;
    kept_or_new draft matching).

(** [create_intervention_recommendation] *)
Definition create_intervention_recommendation (attention_flag_id student_id : uuid) (recommendation_text : string)
    (ai_gateway_call_id lesson_id : option uuid) : M InterventionRecommendationRecord :=
  begin_ (
    i ← uuid4; at_ ← func_now;
    insert InterventionRecommendations
      (mkInterventionRecommendation i attention_flag_id student_id lesson_id recommendation_text ai_gateway_call_id at_);;
    flush_;;
    mret (mkInterventionRecommendationRecord i attention_flag_id student_id recommendation_text ai_gateway_call_id lesson_id)).

(** [create_escalation] *)
Definition create_escalation (student_id teacher_id : uuid) (teacher_note : string) (attention_flag_id : option uuid) : M uuid :=
  begin_ (
    i ← uuid4; at_ ← func_now;
    insert Escalations (mkEscalation i attention_flag_id student_id teacher_id teacher_note at_);;
    flush_;;
    mret i).

(** ** The service *)

Section Service.
Context `{!Crypto} `{!Network}.
Context (patterns : list string) (decision_schema : Json) (gw : GatewaySettings) (provider : TextGenerationProvider) (latency : Z).

(** The text between the first and the last line of three grave accents. *)
Definition unfenced (text : string) : string :=
  let stripped := strip text in
  if String.prefix "```" stripped then
    let lines := splitlines stripped in
    match latest_and_before lines with
    | Some (last_line, _ :: middle) =>
      if negb (middle == []) && (strip last_line == "```") then strip (join (String newline "") middle) else stripped
    | _ => stripped
    end
  else stripped.

(** [parse_recommendation_response] *)
Definition parse_recommendation_response (response_text : string) : string :=
  let stripped := unfenced response_text in
  match json_loads stripped with
  | Some (JObj payload) =>
    match field "recommendation_text" payload with JNull => stripped | recommendation => strip (json_str recommendation) end
  | _ => stripped
  end.

Definition score_json (o : option Json) : Json := default JNull o.

(** The request of [_generate_recommendation] *)
Definition recommendation_request (flag : AttentionFlagRecord) (draft : AttentionFlagDraft) (requested_by_user_id : uuid)
  : AiGenerationRequest :=
  mkAiGenerationRequest requested_by_user_id NARRATIVE INTERVENTION_RECOMMENDATION_PROMPT_NAME
    {[ "flag_context" := json_dumps (sort_keys (JObj
         [("flag_type", JStr (AttentionFlagType_value (afr_flag_type flag))); ("description", JStr (afr_description flag));
          ("session_ids", JArr (map (λ i, JStr (uuid_str i)) (afd_session_ids draft)));
          ("baseline_score", score_json (afd_baseline_score draft)); ("current_score", score_json (afd_current_score draft))])) ]}
    (Some (afr_student_id flag)) "" 700 None None true false [].

(** [_generate_recommendation] *)
Definition generate_recommendation (flag : AttentionFlagRecord) (draft : AttentionFlagDraft) (requested_by_user_id : uuid)
  : M (string * uuid) :=
  result ← generate patterns decision_schema gw provider (recommendation_request flag draft requested_by_user_id) None latency;
  mret (parse_recommendation_response (ares_text result), ares_call_id result).

(** The lesson of the latest of the sessions that are implicated. *)
Definition implicated_lesson (draft : AttentionFlagDraft) (sessions : list SessionEngagementSnapshot) : option uuid :=
  findb (λ s, bool_decide (ses_session_id s ∈ afd_session_ids draft) && is_some (ses_lesson_id s)) (rev sessions) ≫= ses_lesson_id.

(** [evaluate_student] *)
Definition evaluate_student (student_id requested_by_user_id : uuid) (now : datetime) : M AttentionFlagOutcome :=
  context ← load_detection_context student_id;
  let draft := detect_attention_flag student_id (adc_sessions context) in
  '(flag, created) ← reconcile_attention_flag student_id draft now;
  match flag, draft with
  | Some flag, Some draft =>
    if negb created then mret (mkAttentionFlagOutcome (Some (afr_id flag)) None (Some (afr_flag_type flag)) "flagged")
    else
      '(recommendation_text, call_id) ← generate_recommendation flag draft requested_by_user_id;
      recommendation ← create_intervention_recommendation (afr_id flag) student_id recommendation_text (Some call_id)
                         (implicated_lesson draft (adc_sessions context));
      mret (mkAttentionFlagOutcome (Some (afr_id flag)) (Some (irr_id recommendation)) (Some (afr_flag_type flag)) "flagged")
  | _, _ => mret (mkAttentionFlagOutcome None None None "no_flag")
  end.

(** [escalate_to_support] *)
Definition escalate_to_support (student_id teacher_id : uuid) (teacher_note : string) (attention_flag_id : option uuid) : M uuid :=
  create_escalation student_id teacher_id teacher_note attention_flag_id.
End Service.

(** Three lessons as engaged as ever and a bad one; two lessons below the
    first; a learner who does better again. *)
Definition lesson_at (i : uuid) (score : float) : SessionEngagementSnapshot :=
  mkSessionEngagementSnapshot i (t0 + days i) (JFloat score) 1 (Some (100 + i)).

Example detected_examples :
  map (λ l, (λ d, (afd_flag_type d, afd_session_ids d)) <$> detect_attention_flag 2 l)
    [[lesson_at 3 (f_ratio 8 10); lesson_at 1 (f_ratio 8 10); lesson_at 2 (f_ratio 8 10); lesson_at 4 (f_ratio 4 10)];
     [lesson_at 1 (f_ratio 8 10); lesson_at 2 (f_ratio 6 10); lesson_at 3 (f_ratio 6 10)];
     [lesson_at 1 (f_ratio 5 10); lesson_at 2 (f_ratio 4 10); lesson_at 3 (f_ratio 9 10)]; [lesson_at 1 (f_ratio 1 10)]]
  = [Some (SUDDEN_CHANGE, [4]); Some (ENGAGEMENT_DECLINE, [2; 3]); None; None].
Proof. vm_compute. reflexivity. Qed.

(** ** One open flag *)

Lemma for_each_skip {S E A} (p : A → bool) (body : A → Comp S E unit) xs s :
  for_each xs (λ x, if p x then mret tt else body x) s = for_each (filterb (λ x, negb (p x)) xs) body s.
Proof.
  revert s. induction xs as [|x xs IH]; intros s; [done|]. unfold filterb. rewrite filter_cons. fold (filterb (λ x, negb (p x)) xs).
  cbn [for_each]. destruct (p x) eqn:Hp; cbn [negb].
  - rewrite decide_False by done. rewrite bind_run, ret_run. apply IH.
  - rewrite decide_True by done. cbn [for_each]. rewrite !bind_run. destruct (body x s) as [[e|[]] s']; [done|]. apply IH.
Qed.

Lemma update_list_ext {A} (p q : A → bool) (f : A → A) l :
  (∀ a, a ∈ l → p a = q a) → update_list p f l = update_list q f l.
Proof. intros Hpq. apply map_ext_in. intros a Ha. by rewrite Hpq by by apply list_elem_of_In. Qed.

Definition flags (db : Database) : list AttentionFlag := db_tables db AttentionFlags.
Definition active_flags (student_id : uuid) (db : Database) : list AttentionFlag :=
  order_by (λ a b, flag_generated_at b <=? flag_generated_at a) (filterb (open_flag student_id) (flags db)).

(** The flags when every open one of the learner but [keep] is resolved. *)
Definition superseded (student_id : uuid) (now : datetime) (keep : option AttentionFlag) (f : AttentionFlag) : bool :=
  open_flag student_id f && (Some (flag_id f) != (flag_id <$> keep)).
Definition resolved_but (student_id : uuid) (now : datetime) (keep : option AttentionFlag) (l : list AttentionFlag) : list AttentionFlag :=
  update_list (superseded student_id now keep) (resolved now) l.

Definition flags_after (student_id : uuid) (draft : option AttentionFlagDraft) (now : datetime) (db : Database) : list AttentionFlag :=
  let matching := matching_flag draft (active_flags student_id db) in
  (resolved_but student_id now matching (flags db) ++
   match draft, matching with Some d, None => [new_flag d (db_uuids db) (db_now db)] | _, _ => [] end)%list.

Definition reconciled (student_id : uuid) (draft : option AttentionFlagDraft) (db : Database) : option AttentionFlagRecord * bool :=
  match draft with
  | None => (None, false)
  | Some d =>
    match matching_flag draft (active_flags student_id db) with
    | Some f => (Some (flag_record f), false)
    | None => (Some (flag_record (new_flag d (db_uuids db) (db_now db))), true)
    end
  end.

Lemma active_flags_spec student_id db f : f ∈ active_flags student_id db ↔ f ∈ flags db ∧ open_flag student_id f = true.
Proof. unfold active_flags. rewrite elem_of_order_by, elem_of_filterb. tauto. Qed.

(** What a database needs to be well formed when only the flags changed. *)
Lemma flags_wf (db db' : Database) :
  db_wf db → (∀ t, t ≠ AttentionFlags → db_tables db' t = db_tables db t) → db_uuids db <= db_uuids db' →
  NoDup (map flag_id (flags db')) → (∀ f, f ∈ flags db' → flag_id f < db_uuids db') → db_wf db'.
Proof.
  intros [Hok Hfresh] Hne Hu Hnd Hlt. split.
  - apply db_ok_spec. intros t. destruct (decide (t = AttentionFlags)) as [->|Ht]; [by apply primary_key_distinct|].
    rewrite Hne by done. by apply db_ok_spec.
  - intros t r Hr. destruct (decide (t = AttentionFlags)) as [->|Ht]; [by apply Hlt|].
    rewrite Hne in Hr by done. specialize (Hfresh t r Hr). lia.
Qed.

Lemma resolved_but_ids student_id now keep l : map flag_id (resolved_but student_id now keep l) = map flag_id l.
Proof. unfold resolved_but, update_list. rewrite map_map. apply map_ext. intros f. by destruct (superseded _ _ _ f), f. Qed.

(** The database once the flags are resolved, and with a new one. *)
Section Resolved.
Context (student_id : uuid) (keep : option AttentionFlag) (now : datetime) (db db1 : Database).
Hypothesis (Hwf : db_wf db) (Hfl1 : flags db1 = resolved_but student_id now keep (flags db))
  (Hne : ∀ t, t ≠ AttentionFlags → db_tables db1 t = db_tables db t) (Hu : db_uuids db1 = db_uuids db).

Lemma resolved_below f : f ∈ flags db1 → flag_id f < db_uuids db.
Proof.
  intros Hf. rewrite Hfl1 in Hf. apply (list_elem_of_fmap_2 flag_id) in Hf. rewrite resolved_but_ids in Hf.
  apply list_elem_of_fmap in Hf as (g & -> & Hg). by apply (db_wf_keyed AttentionFlags db Hwf).
Qed.

Lemma resolved_wf : db_wf db1.
Proof.
  pose proof (db_wf_keyed AttentionFlags db Hwf) as [Hnd _].
  apply (flags_wf db); [done|done|lia| |rewrite Hu; apply resolved_below]. by rewrite Hfl1, resolved_but_ids.
Qed.

Lemma flag_added_wf d :
  let x := new_flag d (db_uuids db) (db_now db) in
  let db2 := set_table AttentionFlags (flags db1 ++ [x]) (mkDb (db_tables db1) (db_uuids db + 1) (db_now db)) in
  db_wf db2 ∧ flags db2 = (flags db1 ++ [x])%list ∧ ∀ t, t ≠ AttentionFlags → db_tables db2 t = db_tables db t.
Proof.
  intros x db2. pose proof (db_wf_keyed AttentionFlags db Hwf) as [Hnd Hlt].
  assert (flags db2 = (flags db1 ++ [x])%list) as Hfl2 by (unfold flags at 1, db2; by rewrite set_table_eq).
  assert (∀ t, t ≠ AttentionFlags → db_tables db2 t = db_tables db t) as Hne2.
  { intros t Ht. unfold db2. rewrite set_table_ne by done. by apply Hne. }
  split; [|done]. apply (flags_wf db); [done|done|unfold db2; autorewrite with store; cbn [db_uuids]; lia| |].
  - rewrite Hfl2, map_app, Hfl1, resolved_but_ids. apply NoDup_app. split; [done|]. split; [|apply NoDup_singleton].
    intros i (g & -> & Hg)%list_elem_of_fmap Hi%list_elem_of_singleton. specialize (Hlt g Hg). cbn in Hi, Hlt. lia.
  - intros f. rewrite Hfl2. unfold db2. autorewrite with store. cbn [db_uuids].
    intros [Hf%resolved_below|Hf%list_elem_of_singleton]%elem_of_app; [lia|]. subst f. cbn. lia.
Qed.
End Resolved.

Lemma reconcile_run student_id draft now (db : Database) :
  db_wf db →
  ∃ db', reconcile_attention_flag student_id draft now db = (inr (reconciled student_id draft db), db') ∧ db_wf db' ∧
    flags db' = flags_after student_id draft now db ∧ ∀ t, t ≠ AttentionFlags → db_tables db' t = db_tables db t.
Proof.
  intros Hwf. pose proof (db_wf_keyed AttentionFlags db Hwf) as [Hnd Hlt]. set (active := active_flags student_id db).
  set (matching := matching_flag draft active). set (skip := λ f : AttentionFlag, Some (flag_id f) == (flag_id <$> matching)).
  assert (NoDup (map flag_id active)) as Hnda.
  { unfold active, active_flags. rewrite order_by_perm. eapply sublist_NoDup; [exact Hnd|]. apply fmap_sublist, sublist_filter. }
  destruct (for_each_save AttentionFlags (resolved now) (filterb (λ f, negb (skip f)) active) db) as (db1 & Hrun & Hfl & Hne & Hu & Hn).
  { by intros []. }
  { eapply sublist_NoDup; [exact Hnda|]. apply fmap_sublist, sublist_filter. }
  { exact Hnd. }
  { intros f [_ Hf]%elem_of_filterb. by apply active_flags_spec in Hf as [? _]. }
  assert (flags db1 = resolved_but student_id now matching (flags db)) as Hfl1.
  { unfold flags at 1. rewrite Hfl. apply update_list_ext. intros f Hf. unfold superseded. apply eq_true_iff_eq.
    rewrite bool_decide_eq_true, list_elem_of_fmap, andb_true_iff. split.
    - intros (f' & Hid & [Hskip Hf']%elem_of_filterb). apply active_flags_spec in Hf' as [Hf' Hopen].
      rewrite (NoDup_map_inj flag_id _ f f' Hnd Hf Hf' Hid). split; [exact Hopen|exact Hskip].
    - intros [Hopen Hskip]. exists f. split; [done|]. apply elem_of_filterb. split; [exact Hskip|]. by apply active_flags_spec. }
  pose proof (resolved_wf student_id matching now db db1 Hwf Hfl1 Hne Hu) as Hwf1.
  assert (∀ res db', kept_or_new draft matching db1 = (inr res, db') → db_ok db' = true →
    reconcile_attention_flag student_id draft now db = (inr res, db')) as Hloop.
  { intros res db' Hlast Hok'. unfold reconcile_attention_flag, begin_. apply transaction_ok; [|done].
    erewrite bind_inr by reflexivity. rewrite bind_run.
    change (for_each _ _ db) with (for_each active (λ f, if skip f then mret tt else save AttentionFlags (resolved now f)) db).
    rewrite for_each_skip. match goal with |- context [for_each ?l ?b db] => assert (for_each l b db = (inr tt, db1)) as -> by exact Hrun end.
    exact Hlast. }
  unfold reconciled, flags_after. fold active matching.
  destruct draft as [d|]; [destruct matching as [f|] eqn:Hm|].
  - exists db1. split; [apply Hloop; [done|apply Hwf1]|]. by rewrite app_nil_r.
  - destruct (flag_added_wf student_id None now db db1 Hwf Hfl1 Hne d) as (Hwf2 & Hfl2 & Hne2).
    set (x := new_flag d (db_uuids db) (db_now db)) in *. set (db2 := set_table AttentionFlags _ _) in *.
    exists db2. split; [|split; [done|split; [by rewrite Hfl2, Hfl1|done]]]. apply Hloop; [|apply Hwf2]. cbn [kept_or_new].
    erewrite bind_inr by reflexivity. erewrite bind_inr by reflexivity. rewrite Hu, Hn.
    erewrite bind_inr by reflexivity. fold x.
    rewrite (bind_inr _ _ _ db2 tt); [done|]. unfold flush_, flush.
    match goal with |- (if db_ok ?d then _ else _) = _ => change d with db2 end. by rewrite (proj1 Hwf2).
  - exists db1. split; [apply Hloop; [done|apply Hwf1]|]. by rewrite app_nil_r.
Qed.

Definition open_flags (student_id : uuid) (db : Database) : list AttentionFlag := filterb (open_flag student_id) (flags db).

Lemma filterb_app {A} (p : A → bool) l1 l2 : filterb p (l1 ++ l2)%list = (filterb p l1 ++ filterb p l2)%list.
Proof. apply filter_app. Qed.

(** Rows that leave a selection when they are changed. *)
Lemma filterb_update_out {A} (p q : A → bool) (f : A → A) l :
  (∀ a, a ∈ l → q a = true → p (f a) = false) → filterb p (update_list q f l) = filterb (λ a, p a && negb (q a)) l.
Proof.
  induction l as [|a l IH]; intros Hq; [done|]. rewrite update_list_cons, !filterb_cons, IH by set_solver.
  destruct (q a) eqn:Ha; [rewrite Hq by (done || set_solver); by rewrite andb_false_r|]. by rewrite andb_true_r.
Qed.

Lemma filterb_one (p : AttentionFlag → bool) (l : list AttentionFlag) f :
  NoDup (map flag_id l) → f ∈ l → p f = true → filterb (λ a, p a && (flag_id a == flag_id f)) l = [f].
Proof.
  induction l as [|a l IH]; [by intros _ ?%not_elem_of_nil|]. intros [Ha Hnd]%NoDup_cons Hf Hp. rewrite filterb_cons.
  apply elem_of_cons in Hf as [->|Hf].
  - rewrite Hp, bool_decide_true by done. cbn. f_equal. apply filterb_nil. intros b Hb. apply andb_false_iff. right.
    apply bool_decide_eq_false. intros Heq. apply Ha. rewrite <- Heq. by apply list_elem_of_fmap_2.
  - rewrite bool_decide_false, andb_false_r; [by apply IH|]. intros Heq. apply Ha. rewrite Heq. by apply list_elem_of_fmap_2.
Qed.

Lemma resolved_not_open student_id now f : open_flag student_id (resolved now f) = false.
Proof. destruct f. unfold open_flag. cbn. by rewrite andb_false_r. Qed.

(** What is open once the flags were reconciled. *)
Lemma flags_after_open student_id draft now (db db' : Database) :
  db_wf db → (∀ d, draft = Some d → afd_student_id d = student_id) → flags db' = flags_after student_id draft now db →
  match draft with
  | None => open_flags student_id db' = []
  | Some d => ∃ f, open_flags student_id db' = [f] ∧ flag_flag_type f = afd_flag_type d ∧
      (reconciled student_id draft db).1 = Some (flag_record f)
  end.
Proof.
  intros Hwf Hd Hfl. pose proof (db_wf_keyed AttentionFlags db Hwf) as [Hnd _]. unfold open_flags. rewrite Hfl. unfold flags_after, reconciled.
  set (matching := matching_flag draft (active_flags student_id db)). rewrite filterb_app. unfold resolved_but.
  rewrite filterb_update_out by (intros f _ _; apply resolved_not_open).
  assert (filterb (λ f, open_flag student_id f && negb (superseded student_id now matching f)) (flags db) =
          filterb (λ f, open_flag student_id f && (Some (flag_id f) == (flag_id <$> matching))) (flags db)) as ->.
  { apply filterb_ext. intros f _. unfold superseded. by destruct (open_flag student_id f); cbn [andb]; rewrite ?negb_involutive. }
  destruct matching as [f|] eqn:Hm; cbn [fmap option_fmap option_map].
  - unfold matching, matching_flag in Hm. destruct draft as [d|]; [|done]. cbn in Hm. pose proof Hm as [Htype%bool_decide_eq_true Hf]%findb_Some.
    apply active_flags_spec in Hf as [Hf Hopen]. exists f. rewrite app_nil_r. split; [|done].
    rewrite <- (filterb_one (open_flag student_id) (flags db) f Hnd Hf Hopen). apply filterb_ext. intros a _.
    destruct (open_flag student_id a); [|done]. cbn [andb]. apply bool_decide_ext. cbn. split; [by intros [= ->]|by intros ->].
  - rewrite filterb_nil by (intros f _; apply andb_false_iff; right; by apply bool_decide_eq_false).
    destruct draft as [d|]; [|done]. set (x := new_flag d (db_uuids db) (db_now db)). exists x. split; [|done].
    rewrite filterb_cons. unfold open_flag at 1. cbn. rewrite (Hd d eq_refl). by rewrite bool_decide_true.
Qed.

Lemma flags_after_others student_id draft now (db : Database) f :
  flag_student_id f ≠ student_id → f ∈ flags db → f ∈ flags_after student_id draft now db.
Proof.
  intros Hother Hf. unfold flags_after. apply elem_of_app. left. unfold resolved_but, update_list. apply list_elem_of_fmap.
  exists f. split; [|done]. unfold superseded, open_flag. by rewrite (bool_decide_false (flag_student_id f = student_id)).
Qed.

Lemma detected_student student_id sessions d : detect_attention_flag student_id sessions = Some d → afd_student_id d = student_id.
Proof.
  unfold detect_attention_flag, detect_sudden_change, detect_engagement_decline. intros H.
  repeat (case_match; try discriminate); try (injection H as <-; reflexivity); by simplify_eq.
Qed.

Lemma load_detection_context_reads student_id (db : Database) : snd (load_detection_context student_id db) = db.
Proof.
  apply (λ H : preserves (λ x, x = db) (load_detection_context student_id), H db eq_refl).
  unfold load_detection_context. preserves_tac.
  - by intros s ->.
  - by intros s ->.
  - intros s ->. by destruct (session_engagement_score _).
Qed.

(** What an evaluation did about recommendations. *)
Definition recommendations (db : Database) : list InterventionRecommendation := db_tables db InterventionRecommendations.

Lemma create_recommendation_inv flag_i student_id text call_id lesson_id (db db' : Database) res :
  create_intervention_recommendation flag_i student_id text call_id lesson_id db = (res, db') →
  flags db' = flags db ∧
  match res with
  | inl _ => recommendations db' = recommendations db
  | inr r => ∃ row, recommendations db' = (recommendations db ++ [row])%list ∧ ir_id row = irr_id r ∧
      ir_attention_flag_id row = flag_i ∧ ir_recommendation_text row = text ∧ ir_ai_gateway_call_id row = call_id ∧
      ir_lesson_id row = lesson_id
  end.
Proof.
  intros Hrun. unfold create_intervention_recommendation, begin_ in Hrun. destruct res as [e|r].
  - apply transaction_raise in Hrun as ->. done.
  - apply transaction_commit in Hrun as [Hrun _]. erewrite bind_inr in Hrun by reflexivity. erewrite bind_inr in Hrun by reflexivity.
    erewrite bind_inr in Hrun by reflexivity. apply bind_inv_inr in Hrun as ([] & db1 & Hflush & [= <- <-]).
    unfold flush_, flush in Hflush. destruct (db_ok _); [|done]. injection Hflush as <-.
    unfold flags, recommendations. rewrite set_table_eq, set_table_ne by done. split; [done|]. by eexists.
Qed.

(** What an evaluation of the learner leaves when the draft [d] was detected:
    one open flag, of its type. It was open before, and nothing is asked of the
    model; or it is new, and the recommendation is kept only when the model
    answered. *)
Definition flag_raised (student_id : uuid) (d : AttentionFlagDraft) (sessions : list SessionEngagementSnapshot)
    (db : Database) (run : (exn + AttentionFlagOutcome) * Database) : Prop :=
  ∃ f, open_flags student_id (snd run) = [f] ∧ flag_flag_type f = afd_flag_type d ∧
    match matching_flag (Some d) (active_flags student_id db) with
    | Some f' => flag_record f = flag_record f' ∧ recommendations (snd run) = recommendations db ∧
        fst run = inr (mkAttentionFlagOutcome (Some (flag_id f)) None (Some (flag_flag_type f)) "flagged")
    | None =>
      match fst run with
      | inl _ => recommendations (snd run) = recommendations db
      | inr outcome => ∃ row, recommendations (snd run) = (recommendations db ++ [row])%list ∧
          ir_attention_flag_id row = flag_id f ∧ ir_lesson_id row = implicated_lesson d sessions ∧
          outcome = mkAttentionFlagOutcome (Some (flag_id f)) (Some (ir_id row)) (Some (flag_flag_type f)) "flagged"
      end
    end.

Section Recommending.
Context `{!Crypto} `{!Network}.
Context (patterns : list string) (decision_schema : Json) (gw : GatewaySettings) (provider : TextGenerationProvider) (latency : Z).
Hypothesis client_errors : ∀ q n e, http_send q n = inl e → e ≠ SafetyBlocked.
Hypothesis provider_frames : ∀ r, frames [] (provider r).

(** Asking the model leaves every table but the gateway's own. *)
Lemma generate_recommendation_frames flag draft user (db : Database) t :
  t ≠ ContentSafetyEvents → t ≠ AiGatewayCalls →
  db_tables (snd (generate_recommendation patterns decision_schema gw provider latency flag draft user db)) t = db_tables db t.
Proof.
  intros H1 H2. unfold generate_recommendation.
  rewrite bind_run. pose proof (generate_frames patterns decision_schema gw provider (recommendation_request flag draft user) latency
    t db client_errors provider_frames H1 H2) as Hframe. by destruct (generate _ _ _ _ _ _ _ db) as [[e|result] db'].
Qed.

(** After the flags are reconciled they stay as they are. *)
Lemma recommendation_after_flag flag d sessions student_id user (db : Database) :
  let run := ('(recommendation_text, call_id) ← generate_recommendation patterns decision_schema gw provider latency flag d user;
      recommendation ← create_intervention_recommendation (afr_id flag) student_id recommendation_text (Some call_id)
                         (implicated_lesson d sessions);
      mret (mkAttentionFlagOutcome (Some (afr_id flag)) (Some (irr_id recommendation)) (Some (afr_flag_type flag)) "flagged") : M _) db in
  flags (snd run) = flags db ∧
  match fst run with
  | inl _ => recommendations (snd run) = recommendations db
  | inr outcome => ∃ row, recommendations (snd run) = (recommendations db ++ [row])%list ∧
      ir_attention_flag_id row = afr_id flag ∧ ir_lesson_id row = implicated_lesson d sessions ∧
      outcome = mkAttentionFlagOutcome (Some (afr_id flag)) (Some (ir_id row)) (Some (afr_flag_type flag)) "flagged"
  end.
Proof.
  intros run. unfold run. rewrite !bind_run.
  pose proof (generate_recommendation_frames flag d user db AttentionFlags) as Hf1.
  pose proof (generate_recommendation_frames flag d user db InterventionRecommendations) as Hr1.
  destruct (generate_recommendation _ _ _ _ _ _ _ _ db) as [[e|[text call_id]] db1]; cbn [fst snd] in Hf1, Hr1 |- *.
  { split; [by apply Hf1|by apply Hr1]. }
  rewrite bind_run. destruct (create_intervention_recommendation _ _ _ _ _ db1) as [res db2] eqn:Hcreate.
  apply create_recommendation_inv in Hcreate as [Hf2 Hr2].
  assert (recommendations db1 = recommendations db) as Hr by by apply Hr1. rewrite Hr in Hr2.
  destruct res as [e|r]; rewrite ?ret_run; cbn [fst snd]; (split; [rewrite Hf2; by apply Hf1|]); [done|].
  destruct Hr2 as (x & Hx & Hid & Hflag & _ & _ & Hlesson). exists x. by rewrite Hid.
Qed.
End Recommending.

(** An evaluation leaves exactly what was noticed. When the learner's last
    sittings show nothing, every flag of theirs is resolved and the answer is
    that there is none; when they show a change, exactly one flag is open after
    the evaluation, of the type that was noticed, even when the model fails or
    raises. A flag that was open already is kept as it is and nothing more is
    recorded; for a new one the recommendation of the model is recorded, for
    that flag and the latest implicated lesson, exactly when the evaluation
    returns. The flags of other learners are not touched, and an evaluation
    that cannot read the sittings changes nothing. *)
Theorem evaluation_leaves_one_flag `{!Crypto} `{!Network} patterns decision_schema gw provider latency student_id user now
    (db : Database) :
  db_wf db →
  (∀ q n e, http_send q n = inl e → e ≠ SafetyBlocked) →
  (∀ r, frames [] (provider r)) →
  let run := evaluate_student patterns decision_schema gw provider latency student_id user now db in
  (∀ f, flag_student_id f ≠ student_id → f ∈ flags db → f ∈ flags (snd run)) ∧
  match fst (load_detection_context student_id db) with
  | inl e => run = (inl e, db)
  | inr context =>
    match detect_attention_flag student_id (adc_sessions context) with
    | None => open_flags student_id (snd run) = [] ∧ recommendations (snd run) = recommendations db ∧
        fst run = inr (mkAttentionFlagOutcome None None None "no_flag")
    | Some d => flag_raised student_id d (adc_sessions context) db run
    end
  end.
Proof.
  intros Hwf Hclient Hprovider run. unfold run, evaluate_student. rewrite !bind_run.
  pose proof (load_detection_context_reads student_id db) as Hread.
  destruct (load_detection_context student_id db) as [[e|context] dbr]; cbn [fst snd] in Hread |- *; subst dbr; [done|].
  set (draft := detect_attention_flag student_id (adc_sessions context)).
  destruct (reconcile_run student_id draft now db Hwf) as (db1 & Hrec & Hwf1 & Hfl & Hne).
  rewrite !bind_run, Hrec. cbn beta iota.
  assert (recommendations db1 = recommendations db) as Hr1 by by apply (Hne InterventionRecommendations).
  assert (∀ f, flag_student_id f ≠ student_id → f ∈ flags db → f ∈ flags db1) as Hothers by (rewrite Hfl; apply flags_after_others).
  pose proof (flags_after_open student_id draft now db db1 Hwf) as Hopen.
  destruct draft as [d|] eqn:Hdraft.
  - destruct Hopen as (f & Hopen & Htype & Hrecord); [by intros ? [= <-]; eapply detected_student|done|].
    assert (∀ db2, flags db2 = flags db1 → open_flags student_id db2 = [f]) as Hopen2 by (intros db2 H2; unfold open_flags; by rewrite H2).
    unfold flag_raised. clear Hrec Hfl. unfold reconciled in Hrecord |- *. cbn [matching_flag] in Hrecord |- *.
    destruct (matching_flag (Some d) (active_flags student_id db)) as [f'|] eqn:Hm; cbn beta iota; cbn [negb fst] in Hrecord |- *.
    + rewrite ret_run. cbn [fst snd]. split; [done|]. exists f. injection Hrecord as Hrec1 Hrec2 Hrec3 Hrec4 Hrec5.
      split; [done|]. split; [done|]. split; [unfold flag_record; congruence|]. split; [done|]. cbn. congruence.
    + set (x := new_flag _ _ _) in *.
      pose proof (recommendation_after_flag patterns decision_schema gw provider latency Hclient Hprovider (flag_record x) d
        (adc_sessions context) student_id user db1) as [Hfl Hrecs]. cbv zeta in Hfl, Hrecs.
      match type of Hfl with flags (snd ?r) = _ => set (ran := r) in * end.
      injection Hrecord as Hrec1 Hrec2 Hrec3 Hrec4 Hrec5. cbn [flag_record afr_id afr_flag_type] in Hrecs.
      rewrite Hr1 in Hrecs. cbn in Hrec1, Hrec3, Hrecs.
      rewrite Hrec1, Hrec3 in Hrecs. rewrite Hfl. split; [done|]. exists f. split; [by apply Hopen2|done].
  - cbn [reconciled]. cbn beta iota. rewrite ret_run. cbn [fst snd]. split; [done|]. split; [|done]. by apply Hopen.
Qed.
