(* ===== verification/LearningExamples.v ===== *)
(** * Learning at work

    One learner of a small school: answers, reviews, adaptations and support. *)

From Stdlib Require Import String.
From S2P Require Import Prelude Floats Relational Text Vocabulary LearningVocabulary Schema Fixtures Json Mastery Scheduler Breaks Adaptation Scaffolds.

Local Open Scope string_scope.
Local Open Scope Z_scope.
Local Open Scope nevo_scope.

Lemma school_db_wf : db_wf school_db.
Proof. apply db_wfb_spec. vm_compute. reflexivity. Qed.

(** ** Answers *)

Definition an_answer : MasteryUpdate := mkMasteryUpdate 2 30 true (f_ratio 7 10) [31] (Some 9000) 2000 0.

Lemma answers_are_recorded_witness :
  db_wf school_db ∧
  ∃ r db', update an_answer school_db = (inr r, db') ∧ ms_practice_count (mr_state r) = 1 ∧
    probability (ms_concept (mr_state r)) = true.
Proof.
  split; [exact school_db_wf|].
  destruct (answers_are_recorded an_answer school_db school_db_wf)
    as [(before & related & r & i & db' & _ & _ & _ & _ & Hrun & _ & _ & Hp & _)|[(Hrun & _)|(Hrun & _)]].
  - exists r, db'. split_and!; [exact Hrun| |exact Hp].
    assert ((match fst (update an_answer school_db) with inr x => ms_practice_count (mr_state x) | inl _ => 0 end) = 1) as Hn
      by (vm_compute; reflexivity).
    by rewrite Hrun in Hn.
  - exfalso. assert (returned (fst (update an_answer school_db)) = true) as Hr by (vm_compute; reflexivity).
    by rewrite Hrun in Hr.
  - exfalso. assert (returned (fst (update an_answer school_db)) = true) as Hr by (vm_compute; reflexivity).
    by rewrite Hrun in Hr.
Defined.

(** ** Reviews *)

(** Python's [x ** y] where the code uses it: [y] is minus one. *)
Definition inverse (x _ : float) : float := f_quot f_one x.


(** Successful recalls on consecutive days. *)
Fixpoint daily_recalls (n : nat) (db : Database) : (exn + unit) * Database :=
  match n with
  | O => (inr tt, db)
  | S n' =>
    match daily_recalls n' db with
    | (inl e, db1) => (inl e, db1)
    | (inr _, db1) =>
      match record_review inverse 2 30 true (t0 + days (Z.of_nat n')) db1 with
      | (inl e, db2) => (inl e, db2)
      | (inr _, db2) => (inr tt, db2)
      end
    end
  end.

(** The stability grows with every recall, without a limit: when a concept was
    recalled on twenty-six days in a row, the recall of the next day cannot be
    recorded, because the review after it would be beyond the year 9999. *)
Theorem recalled_too_often :
  returned (fst (daily_recalls 26 school_db)) = true ∧ fst (daily_recalls 27 school_db) = inl OverflowError.
Proof. vm_compute. done. Qed.

(** The reviews that are due are listed without their lesson: it is looked up,
    and lost when the due date is worked out again. *)
Definition due_db : Database :=
  set_table Concepts [mkConcept 30 (Some 1) (Some 40) "Fractions"] (snd (daily_recalls 1 school_db)).

Theorem due_reviews_lose_their_lesson :
  map concept_lesson_id (db_tables due_db Concepts) = [Some 40] ∧
  match fst (due_reviews inverse 2 (t0 + days 3) due_db) with
  | inr l => map (λ s, (cs_concept_id s, cs_lesson_id s)) l
  | inl _ => []
  end = [(30, None)].
Proof. vm_compute. done. Qed.

(** ** Adaptations *)

Definition quiet_signals : RuntimeSignals :=
  mkRuntimeSignals (Some "s1") (Some TEXT_MODALITY) (Some "standard") [TEXT_MODALITY; AUDIO; VISUAL] (f_of_Z 5) None None 0 None None 0 0
    false None [] 0 false false false (Some 120) None None 0 0 false false None None false false false false.

(** Two wrong answers and a score thirty below the session's average. *)
Definition struggling_signals : RuntimeSignals :=
  quiet_signals <| rs_comprehension_score := Some (f_of_Z 40) |> <| rs_session_average_comprehension := Some (f_of_Z 70) |>
    <| rs_consecutive_errors := 2 |> <| rs_accuracy_below_baseline := true |>.

Definition a_segment : ContentSegment :=
  mkContentSegment "s1" EXPLANATION [TEXT_MODALITY; AUDIO; VISUAL] (Some ["simplified"]) ["Count the parts first."] [] None None.

Definition in_lesson (s : RuntimeSignals) : AdaptationRequest :=
  mkAdaptationRequest 2 40 IN_LESSON [a_segment] s (Some 90).

Lemma adaptations_are_earned_witness :
  db_wf school_db ∧
  ∃ plan db' a, adapt (in_lesson struggling_signals) t0 school_db = (inr plan, db') ∧ pl_proactive_adjustment plan = Some a ∧
    pa_action a = "offer_hint" ∧ well_supported struggling_signals (pa_trigger_signals a) (pa_confidence a).
Proof.
  split; [exact school_db_wf|].
  pose proof (adaptations_are_earned (in_lesson struggling_signals) t0 school_db) as H.
  assert (match fst (adapt (in_lesson struggling_signals) t0 school_db) with
          | inr plan => match pl_proactive_adjustment plan with Some a => pa_action a == "offer_hint" | None => false end
          | inl _ => false
          end = true) as Hc by (vm_compute; reflexivity).
  destruct (adapt (in_lesson struggling_signals) t0 school_db) as [[e|plan] db']; [done|]. cbn [fst] in Hc.
  destruct (H plan db' school_db_wf eq_refl) as (_ & Hadjusted & _). destruct (pl_proactive_adjustment plan) as [a|] eqn:Ha; [|done].
  apply bool_decide_eq_true in Hc. destruct (Hadjusted a eq_refl) as (Hw & _).
  exists plan, db', a. split_and!; [done|exact Ha|exact Hc|exact Hw].
Defined.

(** A minute after the last adaptation everything is held back. *)
Definition hurried_signals : RuntimeSignals := struggling_signals <| rs_seconds_since_last_adaptation := Some 60 |>.

Lemma held_back_is_on_record_witness :
  db_wf school_db ∧
  ∃ plan db' attempts e, adapt (in_lesson hurried_signals) t0 school_db = (inr plan, db') ∧
    pl_proactive_adjustment plan = None ∧ db_tables db' SignalEvents = [e] ∧
    Forall2 (λ a e, suppressed_event (in_lesson hurried_signals) a t0 e) attempts [e] ∧
    last attempts = pl_suppressed_attempt plan ∧ (su_reason <$> pl_suppressed_attempt plan) = Some "adaptation_cooldown".
Proof.
  split; [exact school_db_wf|].
  pose proof (held_back_is_on_record (in_lesson hurried_signals) t0 school_db) as H.
  assert (let '(o, db') := adapt (in_lesson hurried_signals) t0 school_db in
          match o with
          | inr plan => negb (is_some (pl_proactive_adjustment plan)) &&
                        ((su_reason <$> pl_suppressed_attempt plan) == Some "adaptation_cooldown")
          | inl _ => false
          end && (length (db_tables db' SignalEvents) =? 1)%nat = true) as Hc by (vm_compute; reflexivity).
  destruct (adapt (in_lesson hurried_signals) t0 school_db) as [[e|plan] db']; [done|]. cbv beta iota in Hc.
  apply andb_prop in Hc as [[Hnone Hreason]%andb_prop Hone].
  destruct (H plan db' school_db_wf eq_refl (ex_intro _ 90 eq_refl) eq_refl)
    as (_ & attempts & es & _ & Hes & Hev & _ & Hlast & _).
  change (db_tables school_db SignalEvents) with ([] : list SignalEvent) in Hes. cbn [app] in Hes.
  assert (length (db_tables db' SignalEvents) = length es) as Hl by exact (f_equal length Hes). rewrite Hl in Hone. destruct es as [|e [|]]; [done| |done]. apply bool_decide_eq_true in Hreason.
  exists plan, db', attempts, e. split_and!; try done. by destruct (pl_proactive_adjustment plan).
Defined.

(** Three replays are noted as an adaptation that was held back for want of
    evidence, though nothing was: there is evidence, and the learner is shown
    the hint. *)
Theorem served_adaptation_is_noted_as_held_back :
  match fst (adapt (in_lesson (struggling_signals <| rs_replay_count_on_segment := 3 |>)) t0 school_db) with
  | inr plan => (pa_action <$> pl_proactive_adjustment plan, su_reason <$> pl_suppressed_attempt plan)
  | inl _ => (None, None)
  end = (Some "offer_hint", Some "insufficient_aligned_signals").
Proof. vm_compute. done. Qed.

(** A rewrite that does not exist is noted as a change of modality that was
    held back, when another modality is suggested, and that suggestion is
    made. *)
Definition no_rewrite : ContentSegment := a_segment <| seg_available_depths := Some [] |> <| seg_hints := [] |>.

Theorem suggested_modality_is_noted_as_held_back :
  let r := (in_lesson (struggling_signals <| rs_engagement_below_baseline_seconds := 200 |>)) <| aq_segments := [no_rewrite] |> in
  match fst (adapt r t0 school_db) with
  | inr plan => (mo_suggested <$> pl_modality_suggestion plan,
                 (λ a, (su_attempted_type a, su_reason a, su_suggested_modality a)) <$> pl_suppressed_attempt plan)
  | inl _ => (None, None)
  end = (Some AUDIO, Some ("modality_shift", "depth_variant_unavailable", Some AUDIO)).
Proof. vm_compute. done. Qed.

(** ** Support *)

Definition solved (hints : Z) (correct : bool) (problem : string) : ScaffoldProblemAttempt :=
  mkScaffoldProblemAttempt 2 30 problem correct None (Some 9000) (Some 20000) hints true.

Definition some_attempts : list ScaffoldProblemAttempt := [solved 0 true "p1"; solved 0 true "p2"; solved 0 true "p3"; solved 1 true "p4"; solved 0 false "p5"].

(** The ladder under them: eased after three, and given back. *)
Example ladder :
  map le_next_scaffold_intensity (entries (first_state 2 30 FULL_SUPPORT) some_attempts)
  = [FULL_SUPPORT; FULL_SUPPORT; PARTIAL_SUPPORT; PARTIAL_SUPPORT; FULL_SUPPORT].
Proof. vm_compute. done. Qed.

Lemma support_is_eased_by_three_witness :
  let first := first_state 2 30 FULL_SUPPORT in
  let before := climb first [solved 0 true "p1"; solved 0 true "p2"] in
  let d := decide_attempt before (solved 0 true "p3") in
  sc_consecutive_correct first = 0 ∧ worked_at before (solved 0 true "p3") FULL_SUPPORT ∧
  sd_next_intensity d = PARTIAL_SUPPORT ∧ index (sc_current_intensity (sd_state d)) = 1%nat ∧
  sc_consecutive_correct (sd_state d) = 0.
Proof.
  cbv zeta.
  assert (worked_at (climb (first_state 2 30 FULL_SUPPORT) [solved 0 true "p1"; solved 0 true "p2"]) (solved 0 true "p3")
    FULL_SUPPORT) as Hw by (apply worked_at_spec; vm_compute; reflexivity).
  destruct (support_is_eased_by_three (first_state 2 30 FULL_SUPPORT) [solved 0 true "p1"; solved 0 true "p2"]
    (solved 0 true "p3") FULL_SUPPORT eq_refl Hw) as (_ & _ & _ & _ & Honly & Heased & _).
  assert (index (sc_current_intensity (sd_state (decide_attempt
    (climb (first_state 2 30 FULL_SUPPORT) [solved 0 true "p1"; solved 0 true "p2"]) (solved 0 true "p3")))) = 1%nat) as H1
    by (apply Heased; try done; intros n [= <-]; done).
  destruct Honly as (_ & _ & Hcount); [rewrite H1; simpl; lia|]. by split_and!.
Defined.

(** The rung an attempt reports outweighs the one on record: under full
    support, a wrong answer that reports none is followed by hints only. *)
Theorem reported_rung_outweighs_the_record :
  let d := decide_attempt (first_state 2 30 FULL_SUPPORT)
             ((mkScaffoldProblemAttempt 2 30 "p1" false (Some INDEPENDENT) None None 0 true)) in
  sd_outcome d = STRUGGLED ∧ sc_current_intensity (sd_state d) = HINTS_ONLY.
Proof. vm_compute. done. Qed.

Lemma attempts_follow_the_ladder_witness :
  ∃ first db',
    current_state 2 30 school_db = (inr first, school_db) ∧
    for_each some_attempts (λ a, record_attempt a;; mret tt) school_db = (inr tt, db') ∧
    current_state 2 30 db' = (inr (climb first some_attempts), db') ∧ log_of db' = entries first some_attempts.
Proof.
  assert (match fst (current_state 2 30 school_db) with
          | inr s => (sc_student_id s =? 2) && (sc_concept_id s =? 30)
          | inl _ => false end = true) as Hc by (vm_compute; reflexivity).
  destruct (current_state 2 30 school_db) as [[e|first] db1] eqn:Hfirst; [done|].
  destruct (current_state_spec 2 30 school_db db1 first school_db_wf Hfirst) as (-> & _).
  assert (Forall (recordable 2 30) some_attempts) as Hall.
  { repeat constructor; try done; intros n [= <-]; done. }
  destruct (attempts_follow_the_ladder 2 30 first some_attempts school_db school_db_wf Hfirst Hall)
    as (db' & Hrun & _ & Hstate & Hlog & _).
  change (log_of school_db) with ([] : list ScaffoldProblemLogEntry) in Hlog.
  exists first, db'. split_and!; [reflexivity|exact Hrun|exact Hstate|exact Hlog].
Defined.
