(* ===== verification/TeacherAssignments.v ===== *)
(** * Who teaches what to which class

    [src/nevo/teacher_assignments]: the repository and the service. An
    assignment puts a teacher on a class for a subject; it is never deleted, a
    removed one stays with the moment it ended. *)

From Stdlib Require Import String.
From S2P Require Import Prelude Relational Text Vocabulary Schema Fixtures PermissionRepo Access.

Local Open Scope string_scope.
Local Open Scope Z_scope.
Local Open Scope nevo_scope.

(** ** Entities

    The entity [TeacherClassAssignment] next to the row of that name. *)

Record AssignmentEntity := mkAssignmentEntity {
  ta_id : uuid; ta_school_id : uuid; ta_teacher_id : uuid; ta_class_id : uuid; ta_role : TeacherAssignmentRole;
  ta_source : TeacherAssignmentSource; ta_assigned_at : datetime; ta_removed_at : option datetime;
  ta_replaced_by_assignment_id : option uuid; ta_school_subject_id : option uuid
}.

Record AssignedClass := mkAssignedClass {
  ac_assignment_id : uuid; ac_class_id : uuid; ac_class_name : string; ac_class_code : option string;
  ac_role : TeacherAssignmentRole; ac_assigned_at : datetime; ac_subject_id : option uuid; ac_subject : option string
}.

Record AssignedTeacher := mkAssignedTeacher {
  at_assignment_id : uuid; at_teacher_id : uuid; at_first_name : option string; at_last_name : option string;
  at_email : option string; at_role : TeacherAssignmentRole; at_assigned_at : datetime;
  at_subject_id : option uuid; at_subject : option string
}.

Record RosterAssignmentCandidate := mkRosterAssignmentCandidate {
  cand_teacher_id : option uuid; cand_class_id : option uuid; cand_role : TeacherAssignmentRole;
  cand_source_reference : option string
}.

Record RosterAssignmentBatch := mkRosterAssignmentBatch {
  batch_supported : bool; batch_assignments : list RosterAssignmentCandidate
}.

Record RosterSyncOutcome := mkRosterSyncOutcome {
  sync_status : string; sync_imported_assignments : Z; sync_missing_mappings : Z; sync_message : string
}.

(** ** The repository *)

(** [_assignment] *)
Definition assignment (a : TeacherClassAssignment) : AssignmentEntity := {|
  ta_id := tca_id a; ta_school_id := tca_school_id a; ta_teacher_id := tca_teacher_id a;
  ta_class_id := tca_class_id a; ta_role := tca_role a; ta_source := tca_source a;
  ta_assigned_at := tca_assigned_at a; ta_removed_at := tca_removed_at a;
  ta_replaced_by_assignment_id := tca_replaced_by_assignment_id a; ta_school_subject_id := tca_school_subject_id a |}.

(** [_lock_class] *)
Definition lock_class (school class : uuid) : M unit :=
  school_class ← scalar Classes (λ c, (class_id c == class) && (class_school_id c == school));
  match (school_class : option Class_) with None => raise ClassNotFoundError | Some _ => mret tt end.

Definition is_admin_role (r : UserRole) : bool := (r == OTHER_ADMIN) || (r == SENCO_ADMIN).

(** The invitation of a teacher that can still be accepted. *)
Definition open_invitation (school teacher : uuid) (now : datetime) (i : SchoolInvitation) : bool :=
  (sinv_id i == teacher) && (sinv_school_id i == school) && (sinv_role i == UserRole_value TEACHER) &&
  (sinv_status i == "pending") && is_none (sinv_revoked_at i) && (now <? sinv_expires_at i).

(** The account an invitation stands for until it is accepted. *)
Definition invited_teacher (school : uuid) (i : SchoolInvitation) : User :=
  (new_User (sinv_id i) (Some school) TEACHER EMAIL_PASSWORD)
    <| user_first_name := sinv_first_name i |> <| user_last_name := sinv_last_name i |>
    <| user_email := sinv_email i |> <| user_status := INVITED |>.

(** [_require_teacher]; the answer is whether the teacher is there by an
    invitation that is still open. *)
Definition require_teacher (school teacher_id : uuid) (now : datetime) : M bool :=
  teacher ← scalar Users (λ u, (user_id u == teacher_id) && (user_school_id u == Some school) &&
              ((user_role u == TEACHER) || is_admin_role (user_role u)));
  match (teacher : option User) with
  | None =>
    invitation ← scalar SchoolInvitations (open_invitation school teacher_id now);
    match (invitation : option SchoolInvitation) with
    | Some i =>
      if negb (opt_truthy (sinv_email i)) then raise TeacherNotFoundError
      else insert Users (invited_teacher school i);; flush_;; mret true
    | None => raise TeacherNotFoundError
    end
  | Some teacher =>
    (if is_admin_role (user_role teacher) then
       admins ← select Admins (λ a, (admin_user_id a == user_id teacher) && (admin_school_id a == school));
       has_teacher_scope ← scalar AdminScopeAssignments (λ s,
         existsb (λ a, admin_id a == asg_admin_id s) (admins : list Admin) &&
         (asg_scope s == SCOPE_TEACHER) && is_none (asg_revoked_at s));
       match (has_teacher_scope : option AdminScopeAssignment) with
       | None => raise TeacherNotFoundError
       | Some _ => mret tt
       end
     else mret tt);;
    if negb ((user_status teacher == ACTIVE) || (user_status teacher == INVITED)) then raise TeacherNotActiveError
    else if user_status teacher == INVITED then
      invitation ← scalar SchoolInvitations (open_invitation school teacher_id now);
      mret (is_some (invitation : option SchoolInvitation))
    else mret false
  end.

Definition teaches_subject (teacher subject : uuid) (t : TeacherSubject) : bool :=
  (ts_teacher_id t == teacher) && (ts_school_subject_id t == subject).
Definition class_has_subject (class subject : uuid) (c : ClassSubject) : bool :=
  (cs_class_id c == class) && (cs_school_subject_id c == subject).

(** A teacher who was only invited gets the subject along with the class. *)
Definition widen_subjects (invited_from_link : bool) (teacher : uuid) (subject : option uuid) : M unit :=
  match invited_from_link, subject with
  | true, Some s =>
    existing_subject ← scalar TeacherSubjects (teaches_subject teacher s);
    match (existing_subject : option TeacherSubject) with
    | None => i ← uuid4; insert TeacherSubjects (mkTeacherSubject i teacher s);; flush_
    | Some _ => mret tt
    end
  | _, _ => mret tt
  end.

(** [_require_subject_on_both] *)
Definition require_subject_on_both (teacher class : uuid) (subject : option uuid) : M unit :=
  match subject with
  | None => raise SubjectRequiredError
  | Some s =>
    on_teacher ← scalar TeacherSubjects (teaches_subject teacher s);
    match (on_teacher : option TeacherSubject) with
    | None => raise SubjectNotOnTeacherError
    | Some _ =>
      on_class ← scalar ClassSubjects (class_has_subject class s);
      match (on_class : option ClassSubject) with None => raise SubjectNotOnClassError | Some _ => mret tt end
    end
  end.

Definition active_primary (school class : uuid) (excluding : option uuid) (a : TeacherClassAssignment) : bool :=
  (tca_school_id a == school) && (tca_class_id a == class) && (tca_role a == PRIMARY) &&
  is_none (tca_removed_at a) && (excluding != Some (tca_id a)).

(** [_ensure_primary_available] *)
Definition ensure_primary_available (school class : uuid) (excluding_assignment_id : option uuid) : M unit :=
  existing ← scalar TeacherClassAssignments (active_primary school class excluding_assignment_id);
  match (existing : option TeacherClassAssignment) with None => mret tt | Some _ => raise PrimaryTeacherExistsError end.

Definition holds (school teacher class : uuid) (subject : option uuid) (a : TeacherClassAssignment) : bool :=
  (tca_school_id a == school) && (tca_teacher_id a == teacher) && (tca_class_id a == class) &&
  (tca_school_subject_id a == subject) && is_none (tca_removed_at a).

(** The repository's [assign]. *)
Definition repository_assign (school teacher class : uuid) (role : TeacherAssignmentRole)
    (source : TeacherAssignmentSource) (source_reference : option string) (assigned_by_user_id : option uuid)
    (assigned_at : datetime) (subject : option uuid) (now : datetime) : M AssignmentEntity :=
  begin_ (
    lock_class school class;;
    invited_from_link ← require_teacher school teacher now;
    widen_subjects invited_from_link teacher subject;;
    require_subject_on_both teacher class subject;;
    existing ← scalar TeacherClassAssignments (holds school teacher class subject);
    match (existing : option TeacherClassAssignment) with
    | Some existing =>
      if tca_role existing == role then mret (assignment existing) else raise AssignmentConflictError
    | None =>
      (if role == PRIMARY then ensure_primary_available school class None else mret tt);;
      i ← uuid4;
      let a := mkTeacherClassAssignment i school subject teacher class role source source_reference
                 assigned_by_user_id assigned_at None None in
      insert TeacherClassAssignments a;;
      flush_;;
      mret (assignment a)
    end).

Definition active_assignment (school assignment_id : uuid) (a : TeacherClassAssignment) : bool :=
  (tca_id a == assignment_id) && (tca_school_id a == school) && is_none (tca_removed_at a).

Definition duplicate_of (school teacher : uuid) (current a : TeacherClassAssignment) : bool :=
  (tca_school_id a == school) && (tca_teacher_id a == teacher) && (tca_class_id a == tca_class_id current) &&
  is_none (tca_removed_at a) && (tca_id a != tca_id current).

(** The repository's [reassign]: the assignment ends and another takes its
    place, of the same class and subject. The program reads the assignment
    again once the class is locked, which is the same row here, where
    transactions are serial. *)
Definition repository_reassign (school assignment_id new_teacher : uuid) (role : option TeacherAssignmentRole)
    (assigned_by_user_id : uuid) (assigned_at now : datetime) : M AssignmentEntity :=
  begin_ (
    current ← scalar TeacherClassAssignments (active_assignment school assignment_id);
    match (current : option TeacherClassAssignment) with
    | None => raise AssignmentNotFoundError
    | Some current =>
      lock_class school (tca_class_id current);;
      invited_from_link ← require_teacher school new_teacher now;
      widen_subjects invited_from_link new_teacher (tca_school_subject_id current);;
      require_subject_on_both new_teacher (tca_class_id current) (tca_school_subject_id current);;
      let next_role := default (tca_role current) role in
      if (tca_teacher_id current == new_teacher) && (tca_role current == next_role) then mret (assignment current)
      else
        duplicate ← scalar TeacherClassAssignments (duplicate_of school new_teacher current);
        match (duplicate : option TeacherClassAssignment) with
        | Some _ => raise AssignmentConflictError
        | None =>
          (if next_role == PRIMARY
           then ensure_primary_available school (tca_class_id current) (Some (tca_id current)) else mret tt);;
          update_where TeacherClassAssignments (λ a, tca_id a == tca_id current)
            (λ a : TeacherClassAssignment, a <| tca_removed_at := Some assigned_at |>);;
          i ← uuid4;
          let replacement := mkTeacherClassAssignment i school (tca_school_subject_id current) new_teacher
            (tca_class_id current) next_role FROM_MANUAL None (Some assigned_by_user_id) assigned_at None None in
          insert TeacherClassAssignments replacement;;
          flush_;;
          update_where TeacherClassAssignments (λ a, tca_id a == tca_id current)
            (λ a : TeacherClassAssignment, a <| tca_replaced_by_assignment_id := Some i |>);;
          mret (assignment replacement)
        end
    end).

(** The repository's [remove]. *)
Definition repository_remove (school assignment_id : uuid) (removed_at : datetime) : M bool :=
  begin_ (
    found ← select TeacherClassAssignments (active_assignment school assignment_id);
    update_where TeacherClassAssignments (active_assignment school assignment_id)
      (λ a : TeacherClassAssignment, a <| tca_removed_at := Some removed_at |>);;
    mret (negb (bool_decide ((found : list TeacherClassAssignment) = [])))).

(** The name of the subject of an assignment, of an outer join. *)
Definition subject_of (subjects : list SchoolSubject) (a : TeacherClassAssignment) : option string :=
  subject ← tca_school_subject_id a; ss_name <$> findb (λ s, ss_id s == subject) subjects.

Definition class_name_le (a b : TeacherClassAssignment * Class_) : bool := text_le (class_name a.2) (class_name b.2).

(** The repository's [teacher_classes]. *)
Definition repository_teacher_classes (school teacher : uuid) : M (list AssignedClass) :=
  assignments ← select TeacherClassAssignments (λ a,
    (tca_school_id a == school) && (tca_teacher_id a == teacher) && is_none (tca_removed_at a));
  classes ← rows Classes;
  subjects ← rows SchoolSubjects;
  mret (map (λ '(a, c), mkAssignedClass (tca_id a) (class_id c) (class_name c) (class_class_code c) (tca_role a)
               (tca_assigned_at a) (tca_school_subject_id a) (subject_of subjects a))
    (order_by class_name_le
      (omap (λ a, pair a <$> findb (λ c, class_id c == tca_class_id a) (classes : list Class_))
        (assignments : list TeacherClassAssignment)))).

(** [ORDER BY role, last_name, first_name]: the primary teacher first. *)
Definition role_rank (r : TeacherAssignmentRole) : Z := match r with PRIMARY => 0 | CO_TEACHER => 1 end.
Definition teacher_le (a b : TeacherClassAssignment * User) : bool :=
  let (r, s) := (role_rank (tca_role a.1), role_rank (tca_role b.1)) in
  if r =? s then
    if user_last_name a.2 == user_last_name b.2 then opt_text_le (user_first_name a.2) (user_first_name b.2)
    else opt_text_le (user_last_name a.2) (user_last_name b.2)
  else r <? s.

(** The repository's [class_teachers]. *)
Definition repository_class_teachers (school class : uuid) : M (list AssignedTeacher) :=
  assignments ← select TeacherClassAssignments (λ a,
    (tca_school_id a == school) && (tca_class_id a == class) && is_none (tca_removed_at a));
  users ← rows Users;
  subjects ← rows SchoolSubjects;
  mret (map (λ '(a, u), mkAssignedTeacher (tca_id a) (user_id u) (user_first_name u) (user_last_name u)
               (user_email u) (tca_role a) (tca_assigned_at a) (tca_school_subject_id a) (subject_of subjects a))
    (order_by teacher_le
      (omap (λ a, pair a <$> findb (λ u, user_id u == tca_teacher_id a) (users : list User))
        (assignments : list TeacherClassAssignment)))).

(** The repository's [is_teacher_assigned]. *)
Definition is_teacher_assigned (school teacher class : uuid) : M bool :=
  found ← scalar TeacherClassAssignments (λ a,
    (tca_school_id a == school) && (tca_teacher_id a == teacher) && (tca_class_id a == class) &&
    is_none (tca_removed_at a));
  mret (is_some (found : option TeacherClassAssignment)).

(** ** The service *)

Definition MANUAL_FALLBACK_MESSAGE : string :=
  "Roster mappings were not found. Assign teachers manually from the class or teacher detail page.".

(** [_school_id] *)
Definition school_id_of (actor : PermissionSnapshot) : M uuid :=
  match snap_school_id actor with None => raise MissingSchoolContextError | Some s => mret s end.

(** A port: who knows the assignments of a roster. *)
Definition RosterAssignmentProvider := uuid → M RosterAssignmentBatch.

(** [UnavailableRosterAssignmentProvider], the one the program is wired with. *)
Definition unavailable_roster : RosterAssignmentProvider := λ _, mret (mkRosterAssignmentBatch false []).

Section Service.
Context (now : datetime).
Implicit Types actor : PermissionSnapshot.

Definition assign actor (teacher class : uuid) (role : TeacherAssignmentRole) (subject : option uuid)
  : M AssignmentEntity :=
  school ← school_id_of actor;
  repository_assign school teacher class role FROM_MANUAL None (Some (snap_user_id actor)) now subject now.

Definition reassign actor (assignment_id new_teacher : uuid) (role : option TeacherAssignmentRole)
  : M AssignmentEntity :=
  school ← school_id_of actor;
  repository_reassign school assignment_id new_teacher role (snap_user_id actor) now now.

Definition remove actor (assignment_id : uuid) : M unit :=
  school ← school_id_of actor;
  removed ← repository_remove school assignment_id now;
  if (removed : bool) then mret tt else raise AssignmentNotFoundError.

Definition teacher_classes actor (teacher : uuid) : M (list AssignedClass) :=
  school ← school_id_of actor; repository_teacher_classes school teacher.

Definition class_teachers actor (class : uuid) : M (list AssignedTeacher) :=
  school ← school_id_of actor; repository_class_teachers school class.

Definition require_teacher_assignment actor (teacher class : uuid) : M unit :=
  school ← school_id_of actor;
  assigned ← is_teacher_assigned school teacher class;
  if (assigned : bool) then mret tt else raise TeacherNotAssignedError.

(** One candidate of the roster: how many were imported and how many lack a
    mapping. The repository is called without a subject. *)
Definition sync_candidate (school : uuid) (counts : Z * Z) (c : RosterAssignmentCandidate) : M (Z * Z) :=
  match cand_teacher_id c, cand_class_id c with
  | Some teacher, Some class =>
    repository_assign school teacher class (cand_role c) FROM_ROSTER_SYNC (cand_source_reference c) None now None now;;
    mret (counts.1 + 1, counts.2)
  | _, _ => mret (counts.1, counts.2 + 1)
  end.

Definition sync_from_roster (provider : RosterAssignmentProvider) actor : M RosterSyncOutcome :=
  school ← school_id_of actor;
  batch ← provider school;
  if negb (batch_supported batch) then
    mret (mkRosterSyncOutcome "manual_fallback_required" 0 0 MANUAL_FALLBACK_MESSAGE)
  else
    '(imported, missing) ← fold_each (batch_assignments batch) (0, 0) (sync_candidate school);
    let requires_fallback := 0 <? missing in
    mret (mkRosterSyncOutcome
      (if requires_fallback then "partial_manual_fallback_required" else "completed") imported missing
      (if requires_fallback then MANUAL_FALLBACK_MESSAGE else "Roster teacher assignments are up to date.")).
End Service.

(** * What assignments of teachers promise

    Over [TeacherAssignments]: where an assignment puts a teacher, through any
    sequence of operations; what a change of teacher keeps; what the roster
    imports; and, with [Access], whom a teacher may ask about from then on. *)

(** ** What an assignment stands on *)

(** An administrator of the school who holds the scope of teachers. *)
Definition holds_teacher_scope (db : Database) (school user : uuid) : Prop :=
  ∃ a s, a ∈ (db_tables db Admins : list Admin) ∧ admin_user_id a = user ∧ admin_school_id a = school ∧
    s ∈ (db_tables db AdminScopeAssignments : list AdminScopeAssignment) ∧ asg_admin_id s = admin_id a ∧
    asg_scope s = SCOPE_TEACHER ∧ asg_revoked_at s = None.

(** Somebody of the school who may teach: a teacher or such an administrator,
    whose account is active or invited. *)
Definition staff (db : Database) (school teacher : uuid) (u : User) : Prop :=
  user_id u = teacher ∧ user_school_id u = Some school ∧
  (user_role u = TEACHER ∨ is_admin_role (user_role u) = true ∧ holds_teacher_scope db school (user_id u)) ∧
  (user_status u = ACTIVE ∨ user_status u = INVITED).

(** The class and the teacher are the school's, and the subject is on the
    lists of both. *)
Definition placed (db : Database) (school teacher class : uuid) (subject : option uuid) : Prop :=
  (∃ c, c ∈ db_tables db Classes ∧ class_id c = class ∧ class_school_id c = school) ∧
  (∃ u, u ∈ db_tables db Users ∧ staff db school teacher u) ∧
  ∃ s, subject = Some s ∧
    (∃ t, t ∈ db_tables db TeacherSubjects ∧ ts_teacher_id t = teacher ∧ ts_school_subject_id t = s) ∧
    (∃ c, c ∈ db_tables db ClassSubjects ∧ cs_class_id c = class ∧ cs_school_subject_id c = s).

Definition places : list Table := [Classes; Users; TeacherSubjects; ClassSubjects; Admins; AdminScopeAssignments].

(** No row of the tables a place stands on is gone. *)
Definition grown (db db' : Database) : Prop :=
  ∀ t r, t ∈ places → r ∈ db_tables db t → r ∈ db_tables db' t.

#[export] Instance grown_preorder : PreOrder grown.
Proof. split; [by intros db t r|]. intros a b c Hab Hbc t r Ht Hr. by apply Hbc, Hab. Qed.

Lemma grown_same (db db' : Database) : db_tables db' = db_tables db → grown db db'.
Proof. intros Heq t r _. by rewrite Heq. Qed.

Lemma grown_appended (db : Database) t (r : row t) n :
  grown db (mkDb (db_tables (set_table t (db_tables db t ++ [r]) db)) n (db_now db)).
Proof.
  intros t' r' _ Hr. cbn [db_tables]. destruct (decide (t = t')) as [<-|Hne].
  - rewrite set_table_eq. apply elem_of_app. by left.
  - by rewrite set_table_ne.
Qed.

Lemma grown_elsewhere (db db' : Database) :
  (∀ t, t ∈ places → db_tables db' t = db_tables db t) → grown db db'.
Proof. intros Heq t r Ht. by rewrite Heq. Qed.

Ltac is_place := unfold places; repeat (apply list_elem_of_here || apply list_elem_of_further).

(** A write beside these tables. *)
Lemma grown_beside (db : Database) t l n :
  t ∉ places → grown db (set_table t l (mkDb (db_tables db) n (db_now db))).
Proof. intros Ht. apply grown_elsewhere. intros t' Ht'. by rewrite set_table_ne by (intros <-; by apply Ht). Qed.

Lemma assignments_no_place : TeacherClassAssignments ∉ places.
Proof. unfold places. set_solver. Qed.

Lemma staff_grown db db' school teacher u : grown db db' → staff db school teacher u → staff db' school teacher u.
Proof.
  intros Hg (? & ? & Hrole & ?). split_and!; [done..| |done]. destruct Hrole as [?|(? & a & s & Ha & ? & ? & Hs & ?)]; [by left|].
  right. split; [done|]. exists a, s. split_and!; try tauto; [by apply (Hg Admins); [is_place|]|].
  by apply (Hg AdminScopeAssignments); [is_place|].
Qed.

Lemma placed_grown db db' school teacher class subject :
  grown db db' → placed db school teacher class subject → placed db' school teacher class subject.
Proof.
  intros Hg ((c & Hc & ?) & (u & Hu & ?) & s & -> & (t & Ht & ?) & (k & Hk & ?)).
  apply (Hg Classes) in Hc; [|is_place]. apply (Hg Users) in Hu; [|is_place].
  apply (Hg TeacherSubjects) in Ht; [|is_place]. apply (Hg ClassSubjects) in Hk; [|is_place].
  split; [by exists c|]. split; [exists u; split; [done|by eapply staff_grown]|]. exists s. split; [done|]. split; [by exists t|by exists k].
Qed.

(** ** The steps of an assignment *)

Lemma lock_class_run school class (db db' : Database) :
  lock_class school class db = (inr tt, db') →
  db' = db ∧ ∃ c, c ∈ db_tables db Classes ∧ class_id c = class ∧ class_school_id c = school.
Proof.
  unfold lock_class. intros Hrun. run_inv. split; [done|].
  match goal with H : findb _ _ = Some ?c |- _ => apply findb_Some in H as [Hp Hc]; exists c end.
  by bool_to_prop.
Qed.

Lemma require_teacher_frames school teacher now : frames [Users] (require_teacher school teacher now).
Proof. unfold require_teacher. frames_tac. Qed.

Lemma teacher_scope_found (db : Database) school user s :
  findb (λ s : AdminScopeAssignment,
    existsb (λ a : Admin, admin_id a == asg_admin_id s)
      (filterb (λ a : Admin, (admin_user_id a == user) && (admin_school_id a == school)) (db_tables db Admins)) &&
    (asg_scope s == SCOPE_TEACHER) && is_none (asg_revoked_at s)) (db_tables db AdminScopeAssignments) = Some s →
  holds_teacher_scope db school user.
Proof.
  intros [Hp Hs]%findb_Some. rewrite !andb_true_iff, existsb_exists, bool_decide_eq_true in Hp.
  destruct Hp as [[(a & Ha%list_elem_of_In & Hid%bool_decide_eq_true) Hscope] Hrevoked].
  apply elem_of_filterb in Ha as [Hu Ha]. rewrite andb_true_iff, !bool_decide_eq_true in Hu. destruct Hu.
  exists a, s. split_and!; try done. by destruct (asg_revoked_at s).
Qed.

Lemma require_teacher_run school teacher now (db : Database) b db' :
  require_teacher school teacher now db = (inr b, db') →
  grown db db' ∧
  ∃ u, u ∈ db_tables db' Users ∧ staff db' school teacher u.
Proof.
  intros Hrun. unfold require_teacher, flush_ in Hrun. run_inv.
  1-4: split; [done|];
    apply findb_Some in Heqo as [Hp Hu]; exists u;
    rewrite !andb_true_iff, !bool_decide_eq_true in Hp; destruct Hp as [[Hid Hs] Hr];
    (split; [done|]); split_and!; [done|done| |destruct (user_status u); (by left) || (by right) || done].
  1, 3: right; split; [done|]; by eapply teacher_scope_found.
  1, 2: left; apply orb_prop in Hr as [Hr%bool_decide_eq_true|Hr]; [done|by rewrite Hr in Heqb].
  apply findb_Some in Heqo0 as [Hp Hi]. unfold open_invitation in Hp. bool_to_prop.
  split; [apply (grown_appended x1 Users _ (db_uuids x1))|]. eexists. rewrite set_table_eq, elem_of_app.
  split; [right; by apply list_elem_of_singleton|]. unfold staff. cbn. naive_solver.
Qed.

Lemma widen_subjects_frames b teacher subject : frames [TeacherSubjects] (widen_subjects b teacher subject).
Proof. unfold widen_subjects. frames_tac. Qed.

Lemma widen_subjects_grows b teacher subject (db db' : Database) :
  widen_subjects b teacher subject db = (inr tt, db') → grown db db'.
Proof. intros Hrun. unfold widen_subjects, flush_ in Hrun. run_inv; try done.
  apply (grown_appended x0 TeacherSubjects _ (db_uuids x0 + 1)). Qed.

Lemma require_subject_on_both_run teacher class subject (db db' : Database) :
  require_subject_on_both teacher class subject db = (inr tt, db') →
  db' = db ∧ ∃ s, subject = Some s ∧
    (∃ t, t ∈ db_tables db TeacherSubjects ∧ ts_teacher_id t = teacher ∧ ts_school_subject_id t = s) ∧
    (∃ c, c ∈ db_tables db ClassSubjects ∧ cs_class_id c = class ∧ cs_school_subject_id c = s).
Proof.
  intros Hrun. unfold require_subject_on_both in Hrun. run_inv. split; [done|]. eexists. split; [done|].
  repeat match goal with H : findb _ _ = Some _ |- _ => apply findb_Some in H as [? ?] end.
  unfold teaches_subject, class_has_subject in *. bool_to_prop. eauto 10.
Qed.

Lemma place_steps_issued n school teacher class subject b now :
  keeps (issued n) (lock_class school class) ∧ keeps (issued n) (require_teacher school teacher now) ∧
  keeps (issued n) (widen_subjects b teacher subject) ∧ keeps (issued n) (require_subject_on_both teacher class subject).
Proof.
  unfold lock_class, require_teacher, widen_subjects, require_subject_on_both, flush_.
  split_and!; keeps_tac.
Qed.

(** The four steps in front of every assignment. *)
Lemma place_settled school teacher class subject now (db db1 db2 db3 db4 : Database) b :
  lock_class school class db = (inr tt, db1) → require_teacher school teacher now db1 = (inr b, db2) →
  widen_subjects b teacher subject db2 = (inr tt, db3) →
  require_subject_on_both teacher class subject db3 = (inr tt, db4) →
  db4 = db3 ∧ db_uuids db <= db_uuids db3 ∧ grown db db3 ∧ placed db3 school teacher class subject ∧
  ∀ t, t ∉ [Users; TeacherSubjects] → db_tables db3 t = db_tables db t.
Proof.
  intros Hlock Hteacher Hwiden Hsubject.
  destruct (place_steps_issued (db_uuids db) school teacher class subject b now) as (K1 & K2 & K3 & _).
  assert (issued (db_uuids db) db) as Hissued by (unfold Relational.issued; lia).
  apply (K1 _ _ _ Hissued) in Hlock as Hi1. apply (K2 _ _ _ Hi1) in Hteacher as Hi2.
  apply (K3 _ _ _ Hi2) in Hwiden as Hi3. clear Hissued Hi1 Hi2 K1 K2 K3.
  revert Hlock Hteacher Hwiden Hsubject.
  intros [-> (c & Hc & Hid & Hschool)]%lock_class_run Hteacher Hwiden [-> Hsubject]%require_subject_on_both_run.
  pose proof (widen_subjects_grows _ _ _ _ _ Hwiden) as Hg2.
  pose proof (require_teacher_run _ _ _ _ _ _ Hteacher) as [Hg1 (u & Hu & Hstaff)].
  apply (staff_grown _ _ _ _ _ Hg2) in Hstaff.
  apply (Hg2 Users) in Hu; [|is_place]. split; [done|]. split; [exact Hi3|]. split; [by etrans|]. split_and!.
  - split; [|split; [by exists u|done]]. exists c. split; [|done]. apply (Hg2 Classes); [is_place|].
    apply (Hg1 Classes); [is_place|done].
  - intros t Ht. rewrite (frames_run _ _ _ _ _ t (widen_subjects_frames _ _ _) Hwiden) by set_solver.
    apply (frames_run _ _ _ _ _ t (require_teacher_frames _ _ _) Hteacher). set_solver.
Qed.
Lemma ensure_primary_available_run school class excluding (db db' : Database) :
  ensure_primary_available school class excluding db = (inr tt, db') → db' = db.
Proof. intros Hrun. unfold ensure_primary_available in Hrun. by run_inv. Qed.

Lemma maybe_primary_run (b : bool) school class excluding (db db' : Database) :
  (if b then ensure_primary_available school class excluding else mret tt) db = (inr tt, db') → db' = db.
Proof. destruct b; [apply ensure_primary_available_run|intros Hrun; by run_inv]. Qed.

(** The row that stands for an assignment of this teacher. *)
Definition holding (school teacher class : uuid) (role : TeacherAssignmentRole) (subject : option uuid)
    (a : TeacherClassAssignment) : Prop :=
  tca_school_id a = school ∧ tca_teacher_id a = teacher ∧ tca_class_id a = class ∧ tca_role a = role ∧
  tca_school_subject_id a = subject ∧ tca_removed_at a = None.

Lemma repository_assign_run school teacher class role source reference by_user assigned_at subject now (db : Database) e db' :
  repository_assign school teacher class role source reference by_user assigned_at subject now db = (inr e, db') →
  db_ok db' = true ∧ grown db db' ∧ placed db' school teacher class subject ∧
  (∃ a, e = assignment a ∧ a ∈ db_tables db' TeacherClassAssignments ∧ holding school teacher class role subject a ∧
    (db_tables db' TeacherClassAssignments = db_tables db TeacherClassAssignments ∨
     db_tables db' TeacherClassAssignments = (db_tables db TeacherClassAssignments ++ [a])%list)) ∧
  ∀ t, t ∉ [Users; TeacherSubjects; TeacherClassAssignments] → db_tables db' t = db_tables db t.
Proof.
  intros Hrun. unfold repository_assign, begin_, flush_ in Hrun. apply transaction_commit in Hrun as [Hrun Hok].
  split; [done|].
  apply bind_inv_inr in Hrun as ([] & db1 & H1 & Hrun). apply bind_inv_inr in Hrun as (b & db2 & H2 & Hrun).
  apply bind_inv_inr in Hrun as ([] & db3 & H3 & Hrun). apply bind_inv_inr in Hrun as ([] & db4 & H4 & Hrun).
  destruct (place_settled _ _ _ _ _ _ _ _ _ _ _ H1 H2 H3 H4) as (-> & Hissued & Hg & Hplaced & Hsame).
  clear H1 H2 H3 H4. pose proof (Hsame TeacherClassAssignments ltac:(set_solver)) as Htca.
  erewrite bind_inr in Hrun by reflexivity. destruct (findb _ _) as [a|] eqn:Hfind.
  - apply findb_Some in Hfind as [Hp Ha]. case_bool_decide as Hrole; [|discriminate]. injection Hrun as <- <-.
    unfold holds in Hp. bool_to_prop. split_and!; [done..| |set_solver].
    exists a. split_and!; [done|done| |by left]. by split_and!.
  - apply bind_inv_inr in Hrun as ([] & db4 & ->%maybe_primary_run & Hrun). run_inv.
    split; [|split; [|split]].
    + etrans; [exact Hg|]. apply grown_beside, assignments_no_place.
    + eapply placed_grown; [apply grown_beside, assignments_no_place|done].
    + eexists. split; [reflexivity|]. rewrite set_table_eq, elem_of_app. split; [right; by apply list_elem_of_singleton|].
      split; [by split_and!|]. right. by rewrite Htca.
    + intros t Ht. rewrite set_table_ne by set_solver. apply Hsame. set_solver.
Qed.

(** A row once its assignment has gone to another. *)
Definition handed_over (moment : datetime) (successor : uuid) (a : TeacherClassAssignment) : TeacherClassAssignment :=
  a <| tca_removed_at := Some moment |> <| tca_replaced_by_assignment_id := Some successor |>.

(** The rows after [old] went to [new]: all of them, [old] with its end and
    its successor, then the new one. *)
Definition succession (old : uuid) (moment : datetime) (new : TeacherClassAssignment) (l : list TeacherClassAssignment)
  : list TeacherClassAssignment :=
  (update_list (λ a, tca_id a == old) (handed_over moment (tca_id new)) l ++ [new])%list.

Lemma fresh_successor (old : uuid) f (new : TeacherClassAssignment) (db : Database) a :
  (∀ a, tca_id (f a) = tca_id a) → a ∈ db_tables db TeacherClassAssignments → tca_id a = old →
  table_ok TeacherClassAssignments
    (update_list (λ a, tca_id a == old) f (db_tables db TeacherClassAssignments) ++ [new])%list = true →
  tca_id new ≠ old.
Proof.
  intros Hf Ha Hid Hok Heq. apply (table_primary_key TeacherClassAssignments) in Hok.
  change (table_id TeacherClassAssignments) with tca_id in Hok.
  rewrite map_app in Hok. apply NoDup_app in Hok as (_ & Hd & _).
  apply (Hd old); [|apply list_elem_of_singleton; by rewrite <- Heq].
  apply list_elem_of_fmap. exists (f a). split; [by rewrite Hf|]. apply elem_of_update_list. exists a.
  split; [done|]. by rewrite bool_decide_true.
Qed.

Lemma succession_run (old : uuid) moment (mk : uuid → TeacherClassAssignment) (db : Database) e db' :
  (∀ n, tca_id (mk n) = n) → (∃ a, a ∈ db_tables db TeacherClassAssignments ∧ tca_id a = old) →
  (update_where TeacherClassAssignments (λ a, tca_id a == old)
     (λ a : TeacherClassAssignment, a <| tca_removed_at := Some moment |>);;
   i ← uuid4;
   insert TeacherClassAssignments (mk i);;
   flush IntegrityError;;
   update_where TeacherClassAssignments (λ a, tca_id a == old)
     (λ a : TeacherClassAssignment, a <| tca_replaced_by_assignment_id := Some i |>);;
   mret (assignment (mk i))) db = (inr e, db') →
  e = assignment (mk (db_uuids db)) ∧ db_uuids db ≠ old ∧
  db_tables db' TeacherClassAssignments =
    succession old moment (mk (db_uuids db)) (db_tables db TeacherClassAssignments) ∧
  ∀ t, t ≠ TeacherClassAssignments → db_tables db' t = db_tables db t.
Proof.
  intros Hid (a & Ha & Hold) Hrun. run_inv.
  match goal with H : db_ok _ = true |- _ => rewrite db_ok_spec in H; specialize (H TeacherClassAssignments); rename H into Hok end.
  autorewrite with store in Hok. cbn [db_tables db_uuids] in Hok. autorewrite with store in Hok.
  apply (fresh_successor (tca_id a) _ _ db a) in Hok as Hne; [|done..]. rewrite Hid in Hne.
  split; [done|]. split; [done|]. split.
  - rewrite !set_table_eq. cbn [db_tables db_uuids]. rewrite ?set_table_eq, ?set_table_uuids.
    unfold succession. rewrite update_list_app, update_list_twice by (intros; done). f_equal.
    + by rewrite Hid.
    + unfold update_list. cbn [map]. by rewrite Hid, bool_decide_false.
  - intros t Ht. rewrite !set_table_ne by done. cbn [db_tables]. by rewrite ?set_table_ne by done.
Qed.

Lemma repository_reassign_run school i new_teacher role by_user assigned_at now (db : Database) e db' :
  repository_reassign school i new_teacher role by_user assigned_at now db = (inr e, db') →
  db_ok db' = true ∧ ∃ current, current ∈ db_tables db TeacherClassAssignments ∧
    active_assignment school i current = true ∧
    grown db db' ∧ placed db' school new_teacher (tca_class_id current) (tca_school_subject_id current) ∧
    (∀ t, t ∉ [Users; TeacherSubjects; TeacherClassAssignments] → db_tables db' t = db_tables db t) ∧
    if (tca_teacher_id current == new_teacher) && (tca_role current == default (tca_role current) role)
    then e = assignment current ∧ db_tables db' TeacherClassAssignments = db_tables db TeacherClassAssignments
    else ∃ a, e = assignment a ∧ tca_id a ≠ i ∧ tca_assigned_at a = assigned_at ∧
       holding school new_teacher (tca_class_id current) (default (tca_role current) role) (tca_school_subject_id current) a ∧
       db_tables db' TeacherClassAssignments = succession i assigned_at a (db_tables db TeacherClassAssignments).
Proof.
  intros Hrun. unfold repository_reassign, begin_, flush_ in Hrun. apply transaction_commit in Hrun as [Hrun Hok].
  split; [done|]. erewrite bind_inr in Hrun by reflexivity. destruct (findb _ _) as [current|] eqn:Hfind; [|discriminate].
  apply findb_Some in Hfind as [Hp Hin]. exists current. split; [done|]. split; [done|].
  assert (tca_id current = i) as Hi by (unfold active_assignment in Hp; by bool_to_prop).
  apply bind_inv_inr in Hrun as ([] & db1 & H1 & Hrun). apply bind_inv_inr in Hrun as (b & db2 & H2 & Hrun).
  apply bind_inv_inr in Hrun as ([] & db3 & H3 & Hrun). apply bind_inv_inr in Hrun as ([] & db4 & H4 & Hrun).
  destruct (place_settled _ _ _ _ _ _ _ _ _ _ _ H1 H2 H3 H4) as (-> & Hissued & Hg & Hplaced & Hsame).
  pose proof (Hsame TeacherClassAssignments ltac:(set_solver)) as Htca.
  destruct (_ && _) eqn:Hsame_teacher.
  { injection Hrun as <- <-. split_and!; [done|done|set_solver|done|done]. }
  erewrite bind_inr in Hrun by reflexivity. destruct (findb _ _) as [d|]; [discriminate|].
  apply bind_inv_inr in Hrun as ([] & db4 & ->%maybe_primary_run & Hrun).
  apply (succession_run _ _ (λ n, mkTeacherClassAssignment n _ _ _ _ _ _ _ _ _ _ _)) in Hrun as (-> & Hne & Hrows & Hothers); [|done|exists current; by rewrite Htca].
  assert (grown db3 db') as Hg' by (apply grown_elsewhere; intros t Ht; apply Hothers; intros ->; by apply assignments_no_place in Ht).
  split; [by etrans|]. split; [by eapply placed_grown|].
  split; [intros t Ht; rewrite Hothers by set_solver; apply Hsame; set_solver|].
  eexists. split; [reflexivity|]. split; [by rewrite <- Hi|].
  split; [done|]. split; [by split_and!|]. by rewrite Hrows, Hi, Htca.
Qed.

(** ** Every assignment stays where it belongs *)

(** Every assignment with a subject stands on a class and a teacher of its
    school that have it. *)
Definition staffed (db : Database) : Prop :=
  ∀ a, a ∈ db_tables db TeacherClassAssignments → tca_school_subject_id a ≠ None →
  placed db (tca_school_id a) (tca_teacher_id a) (tca_class_id a) (tca_school_subject_id a).

(** The rows of later: those of before, as far as the place goes, and rows
    whose place is good. *)
Lemma staffed_grown (db db' : Database) :
  staffed db → grown db db' →
  (∀ a', a' ∈ db_tables db' TeacherClassAssignments →
     placed db' (tca_school_id a') (tca_teacher_id a') (tca_class_id a') (tca_school_subject_id a') ∨
     ∃ a, a ∈ db_tables db TeacherClassAssignments ∧ tca_school_id a' = tca_school_id a ∧
       tca_teacher_id a' = tca_teacher_id a ∧ tca_class_id a' = tca_class_id a ∧
       tca_school_subject_id a' = tca_school_subject_id a) →
  staffed db'.
Proof.
  intros Hs Hg Hrows a' Ha' Hsubject. destruct (Hrows a' Ha') as [?|(a & Ha & Heq & Heq1 & Heq2 & Heq3)]; [done|].
  rewrite Heq, Heq1, Heq2, Heq3 in *. eapply placed_grown; [done|]. by apply Hs.
Qed.

Lemma repository_assign_staffed school teacher class role source reference by_user assigned_at subject now (db db' : Database) e :
  repository_assign school teacher class role source reference by_user assigned_at subject now db = (e, db') →
  staffed db → staffed db'.
Proof.
  destruct e as [x|e]; intros Hrun Hs; [by apply transaction_raise in Hrun as ->|].
  apply repository_assign_run in Hrun as (_ & Hg & Hplaced & (a & -> & Ha & (E1 & E2 & E3 & _ & E5 & _) & Hrows) & _).
  eapply staffed_grown; [done..|]. intros a' Ha'. destruct Hrows as [Hrows|Hrows]; rewrite Hrows in Ha'.
  - right. by exists a'.
  - apply elem_of_app in Ha' as [Ha'|Ha'%list_elem_of_singleton]; [right; by exists a'|]. subst a'. left. by rewrite E1, E2, E3, E5.
Qed.

Lemma repository_reassign_staffed school i new_teacher role by_user assigned_at now (db db' : Database) e :
  repository_reassign school i new_teacher role by_user assigned_at now db = (e, db') →
  staffed db → staffed db'.
Proof.
  destruct e as [x|e]; intros Hrun Hs; [by apply transaction_raise in Hrun as ->|].
  apply repository_reassign_run in Hrun as (_ & current & Hin & _ & Hg & Hplaced & _ & Hrows).
  eapply staffed_grown; [done..|]. intros a' Ha'.
  destruct (_ && _); [destruct Hrows as [_ Hrows]|destruct Hrows as (a & -> & _ & _ & (E1 & E2 & E3 & _ & E5 & _) & Hrows)];
    rewrite Hrows in Ha'.
  - right. by exists a'.
  - unfold succession in Ha'. apply elem_of_app in Ha' as [Ha'|Ha'%list_elem_of_singleton].
    + apply elem_of_update_list in Ha' as (a0 & Ha0 & ->). right. exists a0. by destruct (_ == _).
    + subst a'. left. by rewrite E1, E2, E3, E5.
Qed.

Lemma repository_remove_staffed school i removed_at (db db' : Database) e :
  repository_remove school i removed_at db = (e, db') → staffed db → staffed db'.
Proof.
  destruct e as [x|e]; intros Hrun Hs; [by apply transaction_raise in Hrun as ->|].
  unfold repository_remove, begin_ in Hrun. run_inv. eapply staffed_grown; [done| |].
  - apply grown_elsewhere. intros t Ht. apply set_table_ne. intros <-. by apply assignments_no_place in Ht.
  - intros a' Ha'. rewrite set_table_eq in Ha'. apply elem_of_update_list in Ha' as (a & Ha & ->). right. exists a.
    by destruct (active_assignment _ _ _).
Qed.
(** An assignment without a subject is always refused, and leaves nothing behind. *)
Lemma no_subject_no_assignment school teacher class role source reference by_user assigned_at now (db db' : Database) e :
  repository_assign school teacher class role source reference by_user assigned_at None now db = (e, db') →
  db' = db ∧ ∃ x, e = inl x.
Proof.
  destruct e as [x|e]; intros Hrun; [apply transaction_raise in Hrun as ->; eauto|].
  apply repository_assign_run in Hrun as (_ & _ & (_ & _ & s & Hs & _) & _). discriminate.
Qed.

Definition complete (c : RosterAssignmentCandidate) : bool := is_some (cand_teacher_id c) && is_some (cand_class_id c).

Lemma sync_candidates_run now school l counts (db db' : Database) r :
  fold_each l counts (sync_candidate now school) db = (r, db') →
  db' = db ∧ ∀ k, r = inr k → k.1 = counts.1 ∧ ∀ c, c ∈ l → complete c = false.
Proof.
  revert counts. induction l as [|c l IH]; intros counts Hrun.
  { injection Hrun as <- <-. split; [done|]. intros k [= <-]. split; [done|]. intros c Hc. by apply elem_of_nil in Hc. }
  cbn [fold_each] in Hrun. rewrite bind_run in Hrun. unfold sync_candidate at 1 in Hrun. unfold complete.
  destruct (cand_teacher_id c) as [teacher|] eqn:Ht, (cand_class_id c) as [class|] eqn:Hc.
  - rewrite bind_run in Hrun. destruct (repository_assign _ _ _ _ _ _ _ _ _ _ _) as [e db1] eqn:Ha.
    apply no_subject_no_assignment in Ha as [-> [x ->]]. injection Hrun as <- <-. by split.
  - apply IH in Hrun as [-> Hk]. split; [done|]. intros k [Hk1 Hl]%Hk. split; [done|].
    intros c' [->|Hc']%elem_of_cons; [by rewrite Ht, Hc|by apply Hl].
  - apply IH in Hrun as [-> Hk]. split; [done|]. intros k [Hk1 Hl]%Hk. split; [done|].
    intros c' [->|Hc']%elem_of_cons; [by rewrite Ht, Hc|by apply Hl].
  - apply IH in Hrun as [-> Hk]. split; [done|]. intros k [Hk1 Hl]%Hk. split; [done|].
    intros c' [->|Hc']%elem_of_cons; [by rewrite Ht, Hc|by apply Hl].
Qed.

(** ** Sequences of operations *)

(** What the service is asked; a roster is the batch its provider answers. *)
Inductive assignment_op :=
| OpAssign (actor : PermissionSnapshot) (teacher class : uuid) (role : TeacherAssignmentRole) (subject : option uuid)
| OpReassign (actor : PermissionSnapshot) (assignment_id new_teacher : uuid) (role : option TeacherAssignmentRole)
| OpRemove (actor : PermissionSnapshot) (assignment_id : uuid)
| OpSync (actor : PermissionSnapshot) (roster : RosterAssignmentBatch).

Definition run_assignment_op (op : assignment_op) (now : datetime) (db : Database) : Database :=
  match op with
  | OpAssign actor teacher class role subject => snd (assign now actor teacher class role subject db)
  | OpReassign actor i new_teacher role => snd (reassign now actor i new_teacher role db)
  | OpRemove actor i => snd (remove now actor i db)
  | OpSync actor roster => snd (sync_from_roster now (λ _, mret roster) actor db)
  end.

Definition run_assignment_ops (ops : list (assignment_op * datetime)) (db : Database) : Database :=
  foldl (λ db '(op, now), run_assignment_op op now db) db ops.

Lemma school_id_of_run actor (db : Database) :
  school_id_of actor db =
    (match snap_school_id actor with Some s => inr s | None => inl MissingSchoolContextError end, db).
Proof. unfold school_id_of. by destruct (snap_school_id actor). Qed.

Lemma sync_run now (provider : RosterAssignmentProvider) actor (db db' : Database) r :
  (∀ school db, snd (provider school db) = db) →
  sync_from_roster now provider actor db = (r, db') →
  db' = db ∧ ∀ outcome, r = inr outcome → sync_imported_assignments outcome = 0 ∧
    ∃ school batch, snap_school_id actor = Some school ∧ fst (provider school db) = inr batch ∧
      (batch_supported batch = true → ∀ c, c ∈ batch_assignments batch → complete c = false).
Proof.
  intros Hp Hrun. unfold sync_from_roster in Hrun. rewrite bind_run, school_id_of_run in Hrun.
  destruct (snap_school_id actor) as [school|]; [|by injection Hrun as <- <-].
  rewrite bind_run in Hrun. specialize (Hp school db). destruct (provider school db) as [[x|batch] db1] eqn:Hbatch; cbn [snd] in Hp.
  { injection Hrun as <- <-. by split. }
  subst db1. destruct (batch_supported batch) eqn:Hsupported; cbn [negb] in Hrun.
  - rewrite bind_run in Hrun. destruct (fold_each _ _ _ _) as [k db1] eqn:Hfold.
    apply sync_candidates_run in Hfold as [-> Hk]. destruct k as [x|[imported missing]]; cbn beta iota in Hrun; [by injection Hrun as <- <-|].
    injection Hrun as <- <-. split; [done|]. intros outcome [= <-]. destruct (Hk _ eq_refl) as [Hi Hl]. split; [done|]. exists school, batch. split_and!; [done|by rewrite Hbatch|by intros _].
  - injection Hrun as <- <-. split; [done|]. intros outcome [= <-]. split; [done|]. exists school, batch.
    split_and!; [done|by rewrite Hbatch|congruence].
Qed.

(** C36: every assignment stays where it belongs. Through any sequence of assignments,
    reassignments, removals and roster imports, whoever makes them and whether or not they
    succeed, each assignment with a subject stands on a class of its school, on somebody of
    that school who may teach - a teacher, or an administrator who holds the scope of
    teachers, with an account that is active or invited - and on a subject that is both the
    teacher's and the class's. *)
Theorem assignments_stay_where_they_belong ops (db : Database) :
  staffed db → staffed (run_assignment_ops ops db).
Proof.
  revert db. induction ops as [|[op now] ops IH]; intros db Hs; [done|]. cbn. apply IH. clear IH.
  destruct op as [actor teacher class role subject|actor i new_teacher role|actor i|actor roster]; cbn [run_assignment_op].
  - unfold assign. rewrite bind_run, school_id_of_run. destruct (snap_school_id actor); [|done].
    destruct (repository_assign _ _ _ _ _ _ _ _ _ _ _) as [e db'] eqn:Hrun. by eapply repository_assign_staffed.
  - unfold reassign. rewrite bind_run, school_id_of_run. destruct (snap_school_id actor); [|done].
    destruct (repository_reassign _ _ _ _ _ _ _ _) as [e db'] eqn:Hrun. by eapply repository_reassign_staffed.
  - unfold remove. rewrite bind_run, school_id_of_run. destruct (snap_school_id actor); [|done].
    rewrite bind_run. destruct (repository_remove _ _ _ _) as [e db'] eqn:Hrun.
    apply repository_remove_staffed in Hrun; [|done]. destruct e as [x|[]]; done.
  - destruct (sync_from_roster _ _ _ _) as [r db'] eqn:Hrun. apply sync_run in Hrun as [-> _]; done.
Qed.

(** The import of a roster never assigns anybody. Whatever the roster service answers, the
    database is left as it was and no assignment counts as imported; an import that returns
    saw no roster, or one without a single complete mapping, because every complete mapping is
    refused for the subject it does not carry. *)
Theorem roster_import_never_assigns now (provider : RosterAssignmentProvider) actor (db : Database) :
  (∀ school db, snd (provider school db) = db) →
  snd (sync_from_roster now provider actor db) = db ∧
  ∀ outcome, fst (sync_from_roster now provider actor db) = inr outcome →
    sync_imported_assignments outcome = 0 ∧
    ∃ school batch, snap_school_id actor = Some school ∧ fst (provider school db) = inr batch ∧
      (batch_supported batch = true → ∀ c, c ∈ batch_assignments batch → cand_teacher_id c = None ∨ cand_class_id c = None).
Proof.
  intros Hp. destruct (sync_from_roster now provider actor db) as [r db'] eqn:Hrun.
  apply sync_run in Hrun as [-> Hout]; [|done]. split; [done|]. cbn [fst]. intros outcome Hr.
  destruct (Hout outcome Hr) as (Hz & school & batch & H1 & H2 & H3). split; [done|]. exists school, batch.
  split_and!; [done|done|]. intros Hsup c Hc. specialize (H3 Hsup c Hc). unfold complete in H3.
  destruct (cand_teacher_id c), (cand_class_id c); auto. discriminate.
Qed.
(** ** What an assignment gives *)

Lemma one_active_primary (db : Database) a b :
  db_ok db = true → a ∈ db_tables db TeacherClassAssignments → b ∈ db_tables db TeacherClassAssignments →
  tca_class_id a = tca_class_id b → tca_role a = PRIMARY → tca_role b = PRIMARY →
  tca_removed_at a = None → tca_removed_at b = None → a = b.
Proof.
  intros Hok Ha Hb Hclass Hra Hrb Hoa Hob. rewrite db_ok_spec in Hok. specialize (Hok TeacherClassAssignments).
  change (teacher_assignments_ok (db_tables db TeacherClassAssignments) = true) in Hok.
  unfold teacher_assignments_ok in Hok. apply andb_prop in Hok as [_ Hu].
  apply (unique_on_eq _ _ a b (tca_class_id a) Hu Ha Hb); cbn beta; [by rewrite Hra, Hoa|by rewrite Hrb, Hob, Hclass].
Qed.

Lemma listed_class school teacher class (db : Database) a c :
  a ∈ db_tables db TeacherClassAssignments → tca_school_id a = school → tca_teacher_id a = teacher →
  tca_class_id a = class → tca_removed_at a = None → c ∈ db_tables db Classes → class_id c = class →
  ∃ listed k, repository_teacher_classes school teacher db = (inr listed, db) ∧ k ∈ listed ∧
    ac_assignment_id k = tca_id a ∧ ac_class_id k = class ∧ ac_role k = tca_role a ∧ ac_subject_id k = tca_school_subject_id a.
Proof.
  intros Ha Hs Ht Hclass Hr Hc Hid. unfold repository_teacher_classes.
  do 3 (erewrite bind_inr by reflexivity).
  destruct (findb_is_Some (λ c : Class_, class_id c == tca_class_id a) (db_tables db Classes) c Hc) as [c' Hfind];
    [by apply bool_decide_eq_true; congruence|].
  apply findb_Some in Hfind as Hc'. destruct Hc' as [Hid'%bool_decide_eq_true _].
  eexists _, _. split; [reflexivity|]. split.
  { apply list_elem_of_fmap. exists (a, c'). split; [reflexivity|]. apply elem_of_order_by.
    apply list_elem_of_omap. exists a. split; [|by rewrite Hfind]. apply elem_of_filterb. split; [|done].
    by rewrite Hs, Ht, Hr, !bool_decide_true. }
  cbn. split_and!; [done|congruence|done|done].
Qed.

(** An assignment takes effect. When assigning somebody to a class returns, the class and the
    teacher are the school's and both have the subject; the check for that class lets the
    teacher through and the class is on the teacher's list; a primary teacher is the only one
    the class has; and whoever teaches may from now on ask about every learner of the class.
    *)
Theorem assigned_teacher_has_the_class now actor teacher class role subject (db : Database) e db' :
  assign now actor teacher class role subject db = (inr e, db') →
  ∃ school, snap_school_id actor = Some school ∧ placed db' school teacher class subject ∧
    fst (require_teacher_assignment actor teacher class db') = inr tt ∧
    (∃ listed k, fst (teacher_classes actor teacher db') = inr listed ∧ k ∈ listed ∧
       ac_assignment_id k = ta_id e ∧ ac_class_id k = class ∧ ac_role k = role ∧ ac_subject_id k = subject) ∧
    (role = PRIMARY → ∀ a, a ∈ db_tables db' TeacherClassAssignments → tca_class_id a = class →
       tca_role a = PRIMARY → tca_removed_at a = None → tca_id a = ta_id e) ∧
    ∀ u learner enrollment, user_id u = teacher → user_school_id u = Some school → user_role u = TEACHER →
      learner ∈ db_tables db' Users → learner_of school learner = true →
      enrollment ∈ db_tables db' StudentClassEnrollments →
      enrollment_student_id enrollment = user_id learner → enrollment_class_id enrollment = class →
      ∃ reachable, fst (accessible_students u db') = inr reachable ∧ learner ∈ reachable.
Proof.
  intros Hrun. unfold assign in Hrun. rewrite bind_run, school_id_of_run in Hrun.
  destruct (snap_school_id actor) as [school|] eqn:Hschool; [|discriminate]. exists school. split; [done|].
  apply repository_assign_run in Hrun as (Hok & _ & Hplaced & (a & -> & Ha & Hholds & _) & _).
  destruct Hholds as (Es & Et & Ec & Er & Ej & Eo). split; [done|]. split; [|split; [|split]].
  - unfold require_teacher_assignment. rewrite bind_run, school_id_of_run, Hschool. unfold is_teacher_assigned.
    erewrite bind_inr by (erewrite bind_inr by reflexivity; reflexivity).
    destruct (findb _ _) eqn:Hfind; [done|]. apply (proj1 (findb_None _ _)) with (a := a) in Hfind; [|done].
    cbn beta in Hfind. by rewrite Es, Et, Ec, Eo, !bool_decide_true in Hfind.
  - destruct Hplaced as ((c & Hc & Hid & _) & _).
    destruct (listed_class school teacher class db' a c Ha Es Et Ec Eo Hc Hid) as (listed & k & Hrun & Hk & E1 & E2 & E3 & E4).
    exists listed, k. unfold teacher_classes. rewrite bind_run, school_id_of_run, Hschool, Hrun.
    split_and!; [done|done|done|done|by rewrite E3|by rewrite E4].
  - intros -> b Hb Hbc Hbr Hbo. cbn. by rewrite (one_active_primary db' b a Hok Hb Ha ltac:(congruence) Hbr Er Hbo Eo).
  - intros u learner en Hid Hus Hteacher Hl (Hls & Hlr & Hlst)%learner_of_spec Hen Hes Hec.
    destruct (accessible_students_spec u db') as (reachable & Hreach & Hin). exists reachable. rewrite Hreach.
    split; [done|]. apply Hin. unfold within_reach. rewrite Hteacher, bool_decide_false by done.
    split_and!; [done|by rewrite Hls|by rewrite Hls, Hus|done|done|]. intros _. exists en, a.
    split_and!; try done; congruence.
Qed.

(** A class changes hands with its history kept. When a reassignment returns and names another
    teacher or role, the old assignment ends at that moment and names its successor, the
    successor holds the same class and subject of the same school for the new teacher, and
    every other assignment is as it was; otherwise nothing of the assignments changes. A
    refused reassignment leaves everything as it was. *)
Theorem reassignment_keeps_the_history now actor i new_teacher role (db : Database) :
  match reassign now actor i new_teacher role db with
  | (inl _, db') => db' = db
  | (inr e, db') =>
    ∃ school current, snap_school_id actor = Some school ∧ current ∈ db_tables db TeacherClassAssignments ∧
      active_assignment school i current = true ∧
      placed db' school new_teacher (tca_class_id current) (tca_school_subject_id current) ∧
      if (tca_teacher_id current == new_teacher) && (tca_role current == default (tca_role current) role)
      then db_tables db' TeacherClassAssignments = db_tables db TeacherClassAssignments
      else ∃ a, e = assignment a ∧ tca_id a ≠ i ∧ tca_assigned_at a = now ∧
        holding school new_teacher (tca_class_id current) (default (tca_role current) role) (tca_school_subject_id current) a ∧
        db_tables db' TeacherClassAssignments = succession i now a (db_tables db TeacherClassAssignments)
  end.
Proof.
  destruct (reassign now actor i new_teacher role db) as [[x|e] db'] eqn:Hrun; unfold reassign in Hrun;
    rewrite bind_run, school_id_of_run in Hrun; destruct (snap_school_id actor) as [school|]; try discriminate.
  - by apply transaction_raise in Hrun.
  - by injection Hrun as _ <-.
  - apply repository_reassign_run in Hrun as (_ & current & Hin & Hactive & _ & Hplaced & _ & Hrows).
    exists school, current. split_and!; [done..|]. destruct (_ && _); [by destruct Hrows|done].
Qed.

(** * Teachers of the small school

    The theorems above at the school of [Fixtures]: its
    teacher takes a class, an invited one takes it over, a roster arrives. *)

Definition admin_actor : PermissionSnapshot :=
  mkPermissionSnapshot 4 (Some 1) "senco_admin" "active" None ∅ None true None.

(** Mathematics is taught to the class and by the teacher; somebody else is
    invited. *)
Definition staffing_db : Database :=
  set_table SchoolSubjects [mkSchoolSubject 30 1 "Mathematics" "mathematics"]
  (set_table TeacherSubjects [mkTeacherSubject 31 6 30]
  (set_table ClassSubjects [mkClassSubject 32 7 30]
  (set_table SchoolInvitations
     [mkSchoolInvitation 9 1 "teacher" (Some "Efe") None (Some "efe@example.com") None "digest" "pending" (t0 + days 7) None None]
     school_db))).

Definition first_assignment := assign t0 admin_actor 6 7 PRIMARY (Some 30) staffing_db.
Definition assigned_db : Database := snd first_assignment.

Example staffing_runs :
  db_ok staffing_db = true ∧
  (ta_id <$> (match fst first_assignment with inr a => Some a | inl _ => None end)) = Some 100 ∧
  map (λ u : User, (user_id u, user_status u))
    (filterb (λ u : User, user_role u == TEACHER) (db_tables (snd (reassign (t0 + 1) admin_actor 100 9 None assigned_db)) Users))
  = [(6, ACTIVE); (9, INVITED)] ∧
  map (λ a, (tca_id a, tca_teacher_id a, tca_removed_at a, tca_replaced_by_assignment_id a))
    (db_tables (snd (reassign (t0 + 1) admin_actor 100 9 None assigned_db)) TeacherClassAssignments)
  = [(100, 6, Some (t0 + 1), Some 102); (102, 9, None, None)].
Proof. vm_compute. split_and!; reflexivity. Qed.

(** A second primary teacher, a subject the class is not taught, an unknown
    teacher and a second removal are refused. *)
Example staffing_refusals :
  map (λ r : exn + AssignmentEntity, match r with inl e => assignment_error_code e | inr _ => None end)
    [fst (assign t0 admin_actor 9 7 PRIMARY (Some 30) assigned_db); fst (assign t0 admin_actor 6 7 PRIMARY (Some 33) assigned_db);
     fst (assign t0 admin_actor 6 7 CO_TEACHER (Some 30) assigned_db); fst (assign t0 admin_actor 5 7 PRIMARY (Some 30) assigned_db);
     fst (assign t0 admin_actor 6 7 PRIMARY None assigned_db)]
  = [Some "primary_teacher_exists"; Some "subject_not_on_teacher"; Some "assignment_conflict"; Some "teacher_not_found";
     Some "subject_required"] ∧
  fst (remove (t0 + 1) admin_actor 100 assigned_db) = inr tt ∧
  fst (remove (t0 + 2) admin_actor 100 (snd (remove (t0 + 1) admin_actor 100 assigned_db))) = inl AssignmentNotFoundError.
Proof. vm_compute. split_and!; reflexivity. Qed.

(** A teacher who has the class for two subjects cannot hand over one of them
    to a colleague who has it for the other: the duplicate is looked for
    without the subject. *)
Definition two_subjects_db : Database :=
  set_table TeacherSubjects [mkTeacherSubject 31 6 30; mkTeacherSubject 33 6 34; mkTeacherSubject 35 36 30; mkTeacherSubject 37 36 34]
  (set_table ClassSubjects [mkClassSubject 32 7 30; mkClassSubject 38 7 34]
  (set_table Users [teacher; (new_User 36 (Some 1) TEACHER EMAIL_PASSWORD) <| user_email := Some "femi@example.com" |>] staffing_db)).
Definition both_teach : Database :=
  snd (assign t0 admin_actor 36 7 CO_TEACHER (Some 34) (snd (assign t0 admin_actor 6 7 CO_TEACHER (Some 30) two_subjects_db))).

Example other_subject_blocks_handing_over :
  db_ok both_teach = true ∧
  fst (reassign (t0 + 1) admin_actor 100 36 None both_teach) = inl AssignmentConflictError.
Proof. vm_compute. split; reflexivity. Qed.

Lemma assigned_teacher_has_the_class_witness :
  ∃ e, fst first_assignment = inr e ∧
    (∃ reachable, fst (accessible_students teacher assigned_db) = inr reachable ∧ learner ∈ reachable) ∧
    fst (require_teacher_assignment admin_actor 6 7 assigned_db) = inr tt.
Proof.
  destruct (run_returned (assign t0 admin_actor 6 7 PRIMARY (Some 30)) staffing_db) as [e Hrun]; [vm_compute; reflexivity|].
  destruct (assigned_teacher_has_the_class t0 admin_actor 6 7 PRIMARY (Some 30) staffing_db e _ Hrun)
    as (school & [= <-] & _ & Hcheck & _ & _ & Hreach).
  exists e. split; [exact (f_equal fst Hrun)|]. split; [|exact Hcheck].
  apply (Hreach teacher learner (new_StudentClassEnrollment 8 2 7)); try reflexivity.
  - assert (db_tables assigned_db Users = [learner; parent_user; senior; bursar; teacher]) as HU by (vm_compute; reflexivity).
    change (learner ∈ db_tables assigned_db Users). rewrite HU. by left.
  - assert (db_tables assigned_db StudentClassEnrollments = [new_StudentClassEnrollment 8 2 7]) as HE by (vm_compute; reflexivity).
    change (new_StudentClassEnrollment 8 2 7 ∈ db_tables assigned_db StudentClassEnrollments). rewrite HE. by left.
Defined.

Definition a_roster : RosterAssignmentBatch :=
  mkRosterAssignmentBatch true [mkRosterAssignmentCandidate None (Some 7) PRIMARY None; mkRosterAssignmentCandidate (Some 6) (Some 7) PRIMARY (Some "r1")].

Lemma assignments_stay_where_they_belong_witness :
  staffed staffing_db ∧
  staffed (run_assignment_ops [(OpAssign admin_actor 6 7 PRIMARY (Some 30), t0); (OpReassign admin_actor 100 9 None, t0 + 1);
    (OpSync admin_actor a_roster, t0 + 2); (OpRemove admin_actor 102, t0 + 3)] staffing_db).
Proof.
  assert (staffed staffing_db) as Hs by (intros a Ha; by apply elem_of_nil in Ha).
  split; [exact Hs|]. by apply assignments_stay_where_they_belong.
Defined.

Lemma roster_import_never_assigns_witness :
  fst (sync_from_roster t0 (λ _, mret a_roster) admin_actor staffing_db) = inl SubjectRequiredError ∧
  snd (sync_from_roster t0 (λ _, mret a_roster) admin_actor staffing_db) = staffing_db.
Proof.
  split; [vm_compute; reflexivity|].
  apply (roster_import_never_assigns t0 (λ _, mret a_roster) admin_actor staffing_db). done.
Defined.
