(* ===== verification/Quotes.v ===== *)
(** * Quotes

    [src/nevo/billing/service.py] and [billing/entities.py]: what a school owes
    for its head count, and the billing service over its repository. *)

From Stdlib Require Import String.
From S2P Require Import Prelude Relational Text Vocabulary Schema Money.

Local Open Scope string_scope.
Local Open Scope Z_scope.
Local Open Scope nevo_scope.

(** In percent. *)
Definition VAT_RATE : decimal := mkDecimal 750 2.

(** The rate card, per student, in naira. *)
Definition PUBLISHED_RATES_NGN (plan : PricingPlan) : decimal :=
  match plan with
  | ANNUAL => mkDecimal 15000000 2
  | PER_TERM => mkDecimal 5500000 2
  end.

Definition ACCESS_WINDOWS (plan : PricingPlan) : AccessWindow :=
  match plan with
  | ANNUAL => YEAR_ROUND
  | PER_TERM => SCHOOL_SESSION
  end.

Definition published_rate (plan : PricingPlan) : decimal := PUBLISHED_RATES_NGN plan.

(** What a school owes, derived from its head count and its rate. *)
Record PerStudentQuote := mkPerStudentQuote {
  quote_pricing_plan : PricingPlan;
  quote_student_count : Z;
  quote_per_student_rate : decimal;
  quote_rate_type : RateType;
  quote_rate_locked_until : option datetime;
  quote_access_window : AccessWindow;
  quote_total_before_vat : decimal;
  quote_vat_rate : decimal;
  quote_vat_amount : decimal;
  quote_total_with_vat : decimal;
  quote_currency : PricingCurrency
}.

(** [_money] *)
Definition money (value : decimal) : decimal := dec_quantize ROUND_HALF_UP 2 value.

(** Dividing by 100 moves the point by two places. *)
Definition dec_percent (d : decimal) : decimal := mkDecimal (dec_coef d) (dec_scale d + 2).

Definition quote_per_student (plan : PricingPlan) (student_count : Z) (rate_type : RateType)
    (per_student_rate : option decimal) (rate_locked_until : option datetime)
    (currency : PricingCurrency) : exn + PerStudentQuote :=
  if student_count <? 0 then inl (ValueError "student_count cannot be negative")
  else
    let rate := default (published_rate plan) per_student_rate in
    if dec_ltb rate (dec_of_Z 0) then inl (ValueError "per_student_rate cannot be negative")
    else
      let total_before_vat := money (dec_mul rate (dec_of_Z student_count)) in
      let vat_amount := money (dec_percent (dec_mul total_before_vat VAT_RATE)) in
      inr {|
        quote_pricing_plan := plan; quote_student_count := student_count;
        quote_per_student_rate := money rate; quote_rate_type := rate_type;
        quote_rate_locked_until := rate_locked_until; quote_access_window := ACCESS_WINDOWS plan;
        quote_total_before_vat := total_before_vat; quote_vat_rate := VAT_RATE;
        quote_vat_amount := vat_amount; quote_total_with_vat := money (dec_add total_before_vat vat_amount);
        quote_currency := currency |}.

(** Four pupils for a term: 220 000 and 16 500 of VAT. *)
Example quote_example :
  (λ q, (quote_total_before_vat q, quote_vat_amount q, quote_total_with_vat q)) <$>
    match quote_per_student PER_TERM 4 RATE_STANDARD None None NGN with inr q => Some q | inl _ => None end
  = Some (mkDecimal 22000000 2, mkDecimal 1650000 2, mkDecimal 23650000 2).
Proof. vm_compute. reflexivity. Qed.

(** ** What a quote says *)

(** The value of an amount in hundredths of the currency unit, when it has at
    most two decimals. *)
Definition cents (d : decimal) : Z := dec_at 2 d.

Lemma money_exact d : (dec_scale d <= 2)%nat → money d = mkDecimal (cents d) 2.
Proof. apply dec_quantize_exact. Qed.

Lemma money_scale d : dec_scale (money d) = 2%nat.
Proof. apply dec_quantize_scale. Qed.

Lemma cents_money d : cents (money d) = dec_coef (money d).
Proof. unfold cents, dec_at. rewrite money_scale. apply Z.mul_1_r. Qed.

(** A quote is exact. A head count or a rate below zero is refused, and nothing else is. With
    a rate of at most two decimals, the total before VAT is the rate times the head count, to
    the cent; the VAT is 7.5% of it rounded to the nearest cent, half up; the total is their
    sum; and no amount is negative. *)
Theorem quote_is_exact plan n rate_type rate until currency :
  let r := default (published_rate plan) rate in
  (dec_scale r <= 2)%nat →
  match quote_per_student plan n rate_type rate until currency with
  | inl e => ∃ m, e = ValueError m ∧ (n < 0 ∨ dec_coef r < 0)
  | inr q =>
    0 <= n ∧ 0 <= dec_coef r ∧
    quote_total_before_vat q = mkDecimal (cents r * n) 2 ∧
    ∃ vat, quote_vat_amount q = mkDecimal vat 2 ∧
      -500 < 1000 * vat - 75 * (cents r * n) <= 500 ∧ 0 <= vat ∧
      quote_total_with_vat q = mkDecimal (cents r * n + vat) 2
  end.
Proof.
  intros r Hr. unfold quote_per_student. fold r.
  destruct (Z.ltb_spec n 0); [eexists; by auto|].
  unfold dec_ltb, dec_leb. simpl (dec_coef (dec_of_Z 0)). simpl (dec_scale (dec_of_Z 0)).
  change (pow10 0) with 1. rewrite Z.mul_0_l, Z.mul_1_r.
  destruct (Z.leb_spec 0 (dec_coef r)) as [Hpos|Hneg]; cbn [negb]; [|eexists; by auto].
  assert (money (dec_mul r (dec_of_Z n)) = mkDecimal (cents r * n) 2) as Ht.
  { rewrite money_exact by (simpl; lia). unfold cents, dec_at, dec_mul, dec_of_Z. simpl.
    rewrite Nat.add_0_r. f_equal. ring. }
  rewrite Ht. cbn [quote_total_before_vat quote_vat_amount quote_total_with_vat].
  set (t := cents r * n). assert (0 <= t).
  { unfold t, cents, dec_at. pose proof (pow10_pos (2 - dec_scale r)). nia. }
  split; [done|]. split; [done|]. split; [done|].
  set (v := money _). exists (dec_coef v).
  assert (v = mkDecimal (dec_coef v) 2) as Hv.
  { unfold v. rewrite <- (money_scale (dec_percent (dec_mul (mkDecimal t 2) VAT_RATE))). by destruct (money _). }
  assert (dec_coef v = round_div ROUND_HALF_UP (t * 750) 10000) as Hvat.
  { unfold v, money, dec_quantize, dec_percent, dec_mul, VAT_RATE. simpl.
    change (pow10 4) with 10000. rewrite (Z.abs_eq (t * 750)) by lia.
    destruct (Z.eq_dec t 0) as [->|Ht0]; [reflexivity|]. rewrite Z.sgn_pos by lia. lia. }
  pose proof (round_half_up (t * 750) 10000 ltac:(lia)) as Hround. rewrite <- Hvat in Hround.
  split; [done|]. split; [lia|]. split; [lia|].
  rewrite Hv. set (w := dec_coef v). unfold dec_add. simpl. rewrite money_exact by (simpl; lia).
  unfold cents, dec_at. simpl. change (pow10 0) with 1. f_equal. lia.
Qed.
