(* ===== verification/Billing.v ===== *)
(** * Billing details of a school

    [src/nevo/billing/entities.py], [billing/repositories.py] and the service
    of [billing/service.py]: the subscription, the invoices and the upcoming
    charge of a school, its payment method and its billing contact. The times
    of the last change, which are only displayed, are left out. *)

From Stdlib Require Import String.
From S2P Require Import Prelude Relational Text Vocabulary Schema Calendar Money Quotes.

Local Open Scope string_scope.
Local Open Scope Z_scope.
Local Open Scope nevo_scope.

Definition RENEWAL_NOTICE_DAYS : Z := 60.

(** ** Entities *)

Record BillingContactRecord := mkBillingContactRecord {
  bcr_id : uuid; bcr_email : string; bcr_phone : option string; bcr_address_line1 : string;
  bcr_address_line2 : option string; bcr_city : string; bcr_region : option string;
  bcr_postal_code : option string; bcr_country : string
}.

Record PaymentMethodRecord := mkPaymentMethodRecord {
  pmr_id : uuid; pmr_method_type : PaymentMethodType; pmr_display_name : string; pmr_last_four : string;
  pmr_card_brand : option string; pmr_expiry_month : option Z; pmr_expiry_year : option Z;
  pmr_bank_name : option string; pmr_account_holder_name : option string
}.

Record SubscriptionRecord := mkSubscriptionRecord {
  sub_school_id : uuid; sub_school_name : string; sub_contract_start : option datetime;
  sub_contract_end : option datetime; sub_renewal_banner_visible : bool; sub_renewal_message : option string;
  sub_billing_contact : option BillingContactRecord; sub_payment_method : option PaymentMethodRecord;
  sub_quote : PerStudentQuote; sub_billing_contacts : list BillingContactRecord
}.

Record InvoiceRecord := mkInvoiceRecord {
  ir_id : uuid; ir_invoice_number : string; ir_issued_at : date; ir_amount : decimal;
  ir_status : InvoiceStatus; ir_due_at : date; ir_paid_at : option datetime; ir_pdf_url : string;
  ir_currency : PricingCurrency; ir_period_label : option string; ir_student_count : option Z;
  ir_per_student_rate : option decimal; ir_total_before_vat : option decimal;
  ir_vat_amount : option decimal; ir_vat_rate : option decimal
}.

Record UpcomingCharge := mkUpcomingCharge {
  up_invoice_id : option uuid; up_invoice_number : option string; up_due_at : option date;
  up_amount : option decimal; up_status : option InvoiceStatus; up_renewal_banner_visible : bool;
  up_renewal_message : option string; up_currency : PricingCurrency; up_student_count : option Z;
  up_per_student_rate : option decimal; up_total_before_vat : option decimal;
  up_vat_amount : option decimal; up_vat_rate : option decimal
}.

Record PaymentMethodUpdate := mkPaymentMethodUpdate {
  pmu_method_type : PaymentMethodType; pmu_display_name : string; pmu_last_four : string;
  pmu_processor_name : option string; pmu_processor_payment_method_ref : option string;
  pmu_card_brand : option string; pmu_expiry_month : option Z; pmu_expiry_year : option Z;
  pmu_bank_name : option string; pmu_account_holder_name : option string
}.

Record BillingContactUpdate := mkBillingContactUpdate {
  bcu_email : string; bcu_phone : option string; bcu_address_line1 : string;
  bcu_address_line2 : option string; bcu_city : string; bcu_region : option string;
  bcu_postal_code : option string; bcu_country : string
}.

(** ** The repository *)

Definition contact_record (r : BillingContact) : BillingContactRecord := {|
  bcr_id := bc_id r; bcr_email := bc_email r; bcr_phone := bc_phone r;
  bcr_address_line1 := bc_address_line1 r; bcr_address_line2 := bc_address_line2 r;
  bcr_city := bc_city r; bcr_region := bc_region r; bcr_postal_code := bc_postal_code r;
  bcr_country := bc_country r |}.

Definition payment_method_record (r : BillingPaymentMethod) : PaymentMethodRecord := {|
  pmr_id := method_id r; pmr_method_type := method_method_type r; pmr_display_name := method_display_name r;
  pmr_last_four := method_last_four r; pmr_card_brand := method_card_brand r;
  pmr_expiry_month := method_expiry_month r; pmr_expiry_year := method_expiry_year r;
  pmr_bank_name := method_bank_name r; pmr_account_holder_name := method_account_holder_name r |}.

Definition invoice_record (r : Invoice) : InvoiceRecord := {|
  ir_id := invoice_id r; ir_invoice_number := invoice_invoice_number r; ir_issued_at := invoice_issued_at r;
  ir_amount := invoice_amount r; ir_status := invoice_status r; ir_due_at := invoice_due_at r;
  ir_paid_at := invoice_paid_at r; ir_pdf_url := invoice_pdf_url r; ir_currency := invoice_currency r;
  ir_period_label := invoice_period_label r; ir_student_count := invoice_student_count r;
  ir_per_student_rate := invoice_per_student_rate r; ir_total_before_vat := invoice_total_before_vat r;
  ir_vat_amount := invoice_vat_amount r; ir_vat_rate := invoice_vat_rate r |}.

(** [_renewal_notice] *)
Definition renewal_notice (contract_end : option datetime) (today : date) : bool * option string :=
  match contract_end with
  | None => (false, None)
  | Some e =>
    let renewal_date := date_of_datetime e in
    if date_le today renewal_date && date_le renewal_date (add_days today RENEWAL_NOTICE_DAYS)
    then (true, Some ("Your current contract renews on " ++ isoformat renewal_date ++ "."))
    else (false, None)
  end.

Definition billing_contact (billing_contact_id : option uuid) : M (option BillingContact) :=
  match billing_contact_id with
  | None => mret None
  | Some i => get BillingContacts i
  end.

Definition first_listed (a b : BillingContact) : bool :=
  (bc_created_at a <? bc_created_at b) ||
  ((bc_created_at a =? bc_created_at b) && (bc_id a <=? bc_id b)).

(** A learner of the roster, joined or invited. *)
Definition enrolled (school : uuid) (u : User) : bool :=
  (user_school_id u == Some school) && (user_role u == STUDENT) &&
  ((user_status u == ACTIVE) || (user_status u == INVITED)).

Definition lift_exn {A} (r : exn + A) : M A := match r with inl e => raise e | inr a => mret a end.

Definition rate_type_of (founding_partner : bool) : RateType :=
  if founding_partner then RATE_FOUNDING_PARTNER else RATE_STANDARD.

Definition repository_subscription (school_id_ : uuid) (today : date) : M SubscriptionRecord :=
  found ← get Schools school_id_;
  match found : option School with
  | None => raise BillingNotFoundError
  | Some school =>
    contact ← billing_contact (school_billing_contact_id school);
    contacts ← select BillingContacts (λ c : BillingContact, bc_school_id c == school_id_);
    payment_method ← scalar BillingPaymentMethods (λ m : BillingPaymentMethod, method_school_id m == school_id_);
    students ← select Users (enrolled school_id_);
    quote ← lift_exn (quote_per_student (school_pricing_plan school)
      (Z.of_nat (length (students : list User))) (rate_type_of (school_is_founding_partner school))
      (school_per_student_rate school) (school_price_lock_expiry school) NGN);
    let '(visible, message) := renewal_notice (school_contract_end school) today in
    mret {|
      sub_school_id := school_id school; sub_school_name := school_name school;
      sub_contract_start := school_contract_start school; sub_contract_end := school_contract_end school;
      sub_renewal_banner_visible := visible; sub_renewal_message := message;
      sub_billing_contact := contact_record <$> (contact : option BillingContact);
      sub_payment_method := payment_method_record <$> (payment_method : option BillingPaymentMethod);
      sub_quote := quote;
      sub_billing_contacts := contact_record <$> order_by first_listed (contacts : list BillingContact) |}
  end.

(** [order_by(Invoice.issued_at.desc(), Invoice.invoice_number.desc())] *)
Definition latest_invoice (a b : Invoice) : bool :=
  date_lt (invoice_issued_at b) (invoice_issued_at a) ||
  ((invoice_issued_at a == invoice_issued_at b) &&
   text_le (invoice_invoice_number b) (invoice_invoice_number a)).

Definition listed_invoice (school : uuid) (date_from date_to : option date) (status : option InvoiceStatus)
    (i : Invoice) : bool :=
  (invoice_school_id i == school) &&
  match date_from with Some d => date_le d (invoice_issued_at i) | None => true end &&
  match date_to with Some d => date_le (invoice_issued_at i) d | None => true end &&
  match status with Some s => invoice_status i == s | None => true end.

Definition repository_invoices (school : uuid) (date_from date_to : option date)
    (status : option InvoiceStatus) : M (list InvoiceRecord) :=
  found ← select Invoices (listed_invoice school date_from date_to status);
  mret (invoice_record <$> order_by latest_invoice (found : list Invoice)).

Definition charge_due (school : uuid) (today : date) (i : Invoice) : bool :=
  (invoice_school_id i == school) &&
  ((invoice_status i == INVOICE_PENDING) || (invoice_status i == INVOICE_OVERDUE)) &&
  date_le today (invoice_due_at i).
Definition due_first (a b : Invoice) : bool := date_le (invoice_due_at a) (invoice_due_at b).

Definition repository_upcoming (school_id_ : uuid) (today : date) : M UpcomingCharge :=
  found ← get Schools school_id_;
  match found : option School with
  | None => raise BillingNotFoundError
  | Some school =>
    due ← select Invoices (charge_due school_id_ today);
    let '(visible, message) := renewal_notice (school_contract_end school) today in
    mret (match head (order_by due_first (due : list Invoice)) with
      | None => {|
          up_invoice_id := None; up_invoice_number := None; up_due_at := None; up_amount := None;
          up_status := None; up_renewal_banner_visible := visible; up_renewal_message := message;
          up_currency := NGN; up_student_count := None; up_per_student_rate := None;
          up_total_before_vat := None; up_vat_amount := None; up_vat_rate := None |}
      | Some i => {|
          up_invoice_id := Some (invoice_id i); up_invoice_number := Some (invoice_invoice_number i);
          up_due_at := Some (invoice_due_at i); up_amount := Some (invoice_amount i);
          up_status := Some (invoice_status i); up_renewal_banner_visible := visible;
          up_renewal_message := message; up_currency := invoice_currency i;
          up_student_count := invoice_student_count i; up_per_student_rate := invoice_per_student_rate i;
          up_total_before_vat := invoice_total_before_vat i; up_vat_amount := invoice_vat_amount i;
          up_vat_rate := invoice_vat_rate i |}
      end)
  end.

(** The values both branches of [update_payment_method] write. *)
Definition with_method_update (m : BillingPaymentMethod) (d : PaymentMethodUpdate) (actor : uuid)
  : BillingPaymentMethod :=
  m <| method_method_type := pmu_method_type d |>
    <| method_processor_name := pmu_processor_name d |>
    <| method_processor_payment_method_ref := pmu_processor_payment_method_ref d |>
    <| method_display_name := pmu_display_name d |>
    <| method_last_four := pmu_last_four d |>
    <| method_card_brand := pmu_card_brand d |>
    <| method_expiry_month := pmu_expiry_month d |>
    <| method_expiry_year := pmu_expiry_year d |>
    <| method_bank_name := pmu_bank_name d |>
    <| method_account_holder_name := pmu_account_holder_name d |>
    <| method_updated_by_user_id := actor |>.

Definition repository_update_payment_method (school actor : uuid) (d : PaymentMethodUpdate)
  : M PaymentMethodRecord :=
  begin_ (
    found ← scalar BillingPaymentMethods (λ m : BillingPaymentMethod, method_school_id m == school);
    match found : option BillingPaymentMethod with
    | None =>
      i ← uuid4;
      let record := with_method_update
        (new_BillingPaymentMethod i school (pmu_method_type d) (pmu_display_name d) (pmu_last_four d) actor)
        d actor in
      insert BillingPaymentMethods record;;
      flush_;;
      mret (payment_method_record record)
    | Some m =>
      update_where BillingPaymentMethods (λ r : BillingPaymentMethod, method_id r == method_id m)
        (λ r : BillingPaymentMethod, with_method_update r d actor);;
      mret (payment_method_record (with_method_update m d actor))
    end).

Definition with_contact_update (c : BillingContact) (d : BillingContactUpdate) (actor : uuid) : BillingContact :=
  c <| bc_email := bcu_email d |>
    <| bc_phone := bcu_phone d |>
    <| bc_address_line1 := bcu_address_line1 d |>
    <| bc_address_line2 := bcu_address_line2 d |>
    <| bc_city := bcu_city d |>
    <| bc_region := bcu_region d |>
    <| bc_postal_code := bcu_postal_code d |>
    <| bc_country := bcu_country d |>
    <| bc_updated_by_user_id := actor |>.

(** [select(BillingContact).join(School, ...).where(School.id == school_id)] *)
Definition school_contact (school : uuid) : M (option BillingContact) :=
  found ← scalar Schools (λ s : School, school_id s == school);
  match (found : option School) ≫= λ s, school_billing_contact_id s with
  | None => mret None
  | Some i => scalar BillingContacts (λ c : BillingContact, bc_id c == i)
  end.

Definition repository_update_billing_contact (school actor : uuid) (d : BillingContactUpdate)
  : M BillingContactRecord :=
  begin_ (
    found ← school_contact school;
    match found : option BillingContact with
    | None =>
      i ← uuid4;
      now ← func_now;
      let record := with_contact_update
        (new_BillingContact i school (bcu_email d) (bcu_address_line1 d) (bcu_city d) (bcu_country d) actor now)
        d actor in
      insert BillingContacts record;;
      flush_;;
      update_where Schools (λ s : School, school_id s == school)
        (λ s : School, s <| school_billing_contact_id := Some i |>);;
      mret (contact_record record)
    | Some c =>
      update_where BillingContacts (λ r : BillingContact, bc_id r == bc_id c)
        (λ r : BillingContact, with_contact_update r d actor);;
      mret (contact_record (with_contact_update c d actor))
    end).

(** Stable storage path of an invoice. *)
Definition invoice_pdf_url_ (school : uuid) (invoice_number : string) : string :=
  "/api/billing/invoices/" ++ uuid_str school ++ "/" ++ invoice_number ++ ".pdf".

(** ** The service, over the interface of its repository *)

Class BillingRepository := {
  subscription_ : uuid → date → M SubscriptionRecord;
  invoices_ : uuid → option date → option date → option InvoiceStatus → M (list InvoiceRecord);
  upcoming_ : uuid → date → M UpcomingCharge;
  update_payment_method_ : uuid → uuid → PaymentMethodUpdate → M PaymentMethodRecord;
  update_billing_contact_ : uuid → uuid → BillingContactUpdate → M BillingContactRecord
}.

#[export] Instance SqlAlchemyBillingRepository : BillingRepository := {|
  subscription_ := repository_subscription;
  invoices_ := repository_invoices;
  upcoming_ := repository_upcoming;
  update_payment_method_ := repository_update_payment_method;
  update_billing_contact_ := repository_update_billing_contact
|}.

Section BillingService.
Context `{!BillingRepository}.

Definition subscription (school : uuid) (today : date) : M SubscriptionRecord := subscription_ school today.
Definition invoices (school : uuid) (date_from date_to : option date) (status : option InvoiceStatus)
  : M (list InvoiceRecord) := invoices_ school date_from date_to status.
Definition upcoming (school : uuid) (today : date) : M UpcomingCharge := upcoming_ school today.

(** A card needs its expiry. *)
Definition update_payment_method (school actor : uuid) (d : PaymentMethodUpdate) : M PaymentMethodRecord :=
  if (pmu_method_type d == CARD) && (is_none (pmu_expiry_month d) || is_none (pmu_expiry_year d))
  then raise BillingPaymentMethodError
  else update_payment_method_ school actor d.

Definition update_billing_contact (school actor : uuid) (d : BillingContactUpdate) : M BillingContactRecord :=
  update_billing_contact_ school actor d.
End BillingService.
