(* ===== verification/Paystack.v ===== *)
(** * The payment processor

    [src/nevo/payments/entities.py], [config.py] and [paystack.py]: the client
    of the Paystack API. The network is a parameter ([Network]): an answer
    depends on the request and on when it is made, and may be an exception. *)

From Stdlib Require Import Ascii String.
From S2P Require Import Prelude Relational Text Vocabulary Schema Crypto Json Money.

Local Open Scope string_scope.
Local Open Scope Z_scope.
Local Open Scope nevo_scope.

(** ** Entities *)

Record PaystackSettings := mkPaystackSettings {
  ps_secret_key : option string;
  ps_base_url : string;
  ps_callback_url : string;
  ps_currency : PricingCurrency;
  ps_auto_charge_enabled : bool
}.

Record CheckoutSession := mkCheckoutSession {
  checkout_transaction_id : uuid; checkout_invoice_id : uuid; checkout_reference : string;
  checkout_authorization_url : string; checkout_amount : decimal; checkout_currency : PricingCurrency
}.

Record ProviderAuthorization := mkProviderAuthorization {
  pa_authorization_code : string;
  pa_method_type : PaymentMethodType;
  pa_last_four : string;
  pa_card_brand : option string;
  pa_bank_name : option string;
  pa_expiry_month : option Z;
  pa_expiry_year : option Z;
  pa_account_name : option string;
  pa_reusable : bool
}.

Record ProviderTransaction := mkProviderTransaction {
  pt_reference : string;
  pt_status : PaymentTransactionStatus;
  pt_amount_minor : Z;
  pt_currency : string;
  pt_provider_reference : option string;
  pt_paid_at : option datetime;
  pt_customer_email : option string;
  pt_authorization : option ProviderAuthorization;
  pt_gateway_message : option string
}.

Record PaymentOutcome := mkPaymentOutcome {
  outcome_transaction_id : uuid;
  outcome_invoice_id : option uuid;
  outcome_reference : string;
  outcome_status : PaymentTransactionStatus;
  outcome_invoice_paid : bool;
  outcome_payment_method_saved : bool;
  outcome_message : string
}.

(** ** Amounts *)

Definition STATUS_BY_PROVIDER_VALUE : list (string * PaymentTransactionStatus) :=
  [("success", TX_SUCCESS); ("failed", TX_FAILED); ("abandoned", TX_ABANDONED);
   ("reversed", TX_FAILED); ("pending", TX_PENDING); ("ongoing", TX_PENDING);
   ("queued", TX_PENDING)].

Fixpoint status_of_provider (raw : string) (l : list (string * PaymentTransactionStatus))
  : PaymentTransactionStatus :=
  match l with
  | [] => TX_FAILED
  | (k, v) :: rest => if k == raw then v else status_of_provider raw rest
  end.

(** Paystack prices in the currency subunit (kobo, cents, pence). *)
Definition to_minor_units (amount : decimal) : Z :=
  dec_int (dec_mul (dec_quantize ROUND_HALF_UP 2 amount) (dec_of_Z 100)).

(** Dividing by 100 moves the point by two places. *)
Definition from_minor_units (amount_minor : Z) : decimal :=
  dec_quantize ROUND_HALF_EVEN 2 (mkDecimal amount_minor 2).

(** ** What the processor answers *)

(** [_unwrap] *)
Definition unwrap (r : HttpResponse) : exn + list (string * Json) :=
  match resp_json r with
  | None => inl (PaymentProviderRejectedError
      ("Paystack returned a non-JSON response (" ++ int_str (resp_status_code r) ++ ")"))
  | Some (JObj body) =>
    if is_error r || negb (json_truthy (field "status" body)) then
      let message := json_or (field "message" body)
                             (JStr ("status " ++ int_str (resp_status_code r))) in
      inl (PaymentProviderRejectedError ("Paystack rejected the request: " ++ json_str message))
    else
      match field "data" body with
      | JObj data => inr data
      | _ => inl (PaymentProviderRejectedError "Paystack returned no transaction data")
      end
  | Some _ => inl AttributeError
  end.

(** [_optional_str] *)
Definition optional_str (value : Json) : option string :=
  match value with
  | JNull => None
  | _ => let text := strip (json_str value) in if truthy text then Some text else None
  end.

(** [_optional_int]: what is no number is left out, but an infinite one is an
    [OverflowError] that is not caught. *)
Definition optional_int (value : Json) : exn + option Z :=
  match json_int value with
  | inr z => inr (Some z)
  | inl TypeError | inl (ValueError _) => inr None
  | inl e => inl e
  end.

(** [value.replace("Z", "+00:00")] *)
Fixpoint expand_zulu (s : string) : string :=
  match s with
  | EmptyString => ""
  | String c s' => if c == "Z"%char then "+00:00" ++ expand_zulu s' else String c (expand_zulu s')
  end.

(** [_parse_authorization] *)
Definition parse_authorization (value : Json) : exn + option ProviderAuthorization :=
  match value with
  | JObj value =>
    match field "authorization_code" value, field "last4" value with
    | JStr code, JStr last_four =>
      if negb (truthy code) then inr None
      else if negb (string_forall is_digit last_four && (String.length last_four == 4%nat)) then inr None
      else
        match optional_int (field "exp_month" value), optional_int (field "exp_year" value) with
        | inl e, _ | _, inl e => inl e
        | inr expiry_month, inr expiry_year =>
        let channel := casefold (json_str (json_or (field "channel" value) (JStr ""))) in
        inr (Some {|
          pa_authorization_code := code;
          pa_method_type := if bool_decide (channel ∈ ["bank"; "bank_transfer"; "direct_debit"])
                            then DIRECT_DEBIT else CARD;
          pa_last_four := last_four;
          pa_card_brand := optional_str (field "card_type" value);
          pa_bank_name := optional_str (field "bank" value);
          pa_expiry_month := expiry_month;
          pa_expiry_year := expiry_year;
          pa_account_name := optional_str (field "account_name" value);
          pa_reusable := json_truthy (field "reusable" value) |})
        end
    | _, _ => inr None
    end
  | _ => inr None
  end.

(** The last four digits of what is parsed are four digits. *)
Lemma parsed_last_four value a :
  parse_authorization value = inr (Some a) →
  String.length (pa_last_four a) = 4%nat ∧ string_forall is_digit (pa_last_four a) = true.
Proof.
  unfold parse_authorization. destruct value as [| | | | | |fields]; try discriminate.
  destruct (field "authorization_code" fields); try discriminate. destruct (field "last4" fields) as [| | | |last| |]; try discriminate.
  destruct (negb (truthy _)); [discriminate|]. destruct (negb (_ && _)) eqn:Hlast; [discriminate|].
  destruct (optional_int _); [discriminate|]. destruct (optional_int _); [discriminate|]. intros [= <-]. cbn [pa_last_four].
  by bool_to_prop.
Qed.

(** [hmac.compare_digest(expected, signature.strip())] over the raw body. *)
Definition verify_webhook_signature `{!Crypto} (payload : string) (signature : option string)
    (secret : string) : bool :=
  match signature with
  | Some s => truthy s && (hmac_sha512_hex secret payload == strip s)
  | None => false
  end.

Section PaystackClient.
Context `{!Network} (settings : PaystackSettings).

(** [_parse_timestamp] *)
Definition parse_timestamp (value : Json) : option datetime :=
  match value with
  | JStr s => if truthy s then fromisoformat (expand_zulu s) else None
  | _ => None
  end.

(** [_parse_transaction] *)
Definition parse_transaction (data : list (string * Json)) : exn + ProviderTransaction :=
  match field "reference" data with
  | JStr reference =>
    if negb (truthy reference)
    then inl (PaymentProviderRejectedError "Paystack returned no transaction reference")
    else
      let raw_status := casefold (json_str (json_or (field "status" data) (JStr ""))) in
      let provider_reference := field "id" data in
      match json_int (json_or (field "amount" data) (JInt 0)), parse_authorization (field "authorization" data) with
      | inl e, _ | _, inl e => inl e
      | inr amount_minor, inr authorization =>
        inr {|
          pt_reference := reference;
          pt_status := status_of_provider raw_status STATUS_BY_PROVIDER_VALUE;
          pt_amount_minor := amount_minor;
          pt_currency := json_str (json_or (field "currency" data) (JStr ""));
          pt_provider_reference :=
            if json_truthy provider_reference then Some (json_str provider_reference) else None;
          pt_paid_at := parse_timestamp (json_or (field "paid_at" data) (field "paidAt" data));
          pt_customer_email :=
            match field "customer" data with
            | JObj customer => if json_truthy (field "email" customer)
                               then Some (json_str (field "email" customer)) else None
            | _ => None
            end;
          pt_authorization := authorization;
          pt_gateway_message := optional_str (field "gateway_response" data) |}
      end
  | _ => inl (PaymentProviderRejectedError "Paystack returned no transaction reference")
  end.

Definition client_configured : bool := is_some (ps_secret_key settings).

Definition client_secret : M string :=
  match ps_secret_key settings with
  | Some key => mret key
  | None => raise PaymentProviderUnavailableError
  end.

Definition client_base : string := rstrip_slash (ps_base_url settings).

Definition client_headers : M (list (string * string)) :=
  secret ← client_secret;
  mret [("Authorization", "Bearer " ++ secret); ("Content-Type", "application/json")].

Definition http (method path : string) (payload : option Json) : M (list (string * Json)) :=
  headers ← client_headers;
  moment ← uuid4;
  response ← raise_or (http_send (mkHttpRequest method (client_base ++ path) headers payload) moment);
  raise_or (unwrap response).

Definition client_post (path : string) (payload : Json) : M (list (string * Json)) :=
  http "POST" path (Some payload).
Definition client_get (path : string) : M (list (string * Json)) := http "GET" path None.

(** Create a checkout and return the hosted authorization URL. *)
Definition initialize_transaction (email : string) (amount : decimal) (reference : string)
    (currency : PricingCurrency) (metadata : list (string * Json)) : M string :=
  body ← client_post "/transaction/initialize"
    (JObj [("email", JStr email); ("amount", JInt (to_minor_units amount));
           ("reference", JStr reference); ("currency", JStr (value currency));
           ("callback_url", JStr (ps_callback_url settings)); ("metadata", JObj metadata)]);
  match field "authorization_url" body with
  | JStr url =>
    if truthy url then mret url
    else raise (PaymentProviderRejectedError "Paystack returned no authorization URL")
  | _ => raise (PaymentProviderRejectedError "Paystack returned no authorization URL")
  end.

Definition verify_transaction (reference : string) : M ProviderTransaction :=
  body ← client_get ("/transaction/verify/" ++ reference);
  raise_or (parse_transaction body).

(** Charge a stored authorization without the payer being present. *)
Definition charge_authorization (email : string) (amount : decimal)
    (reference authorization_code : string) (currency : PricingCurrency) : M ProviderTransaction :=
  body ← client_post "/transaction/charge_authorization"
    (JObj [("email", JStr email); ("amount", JInt (to_minor_units amount));
           ("reference", JStr reference); ("authorization_code", JStr authorization_code);
           ("currency", JStr (value currency))]);
  raise_or (parse_transaction body).
End PaystackClient.

(** ** Amounts in the subunit *)

Lemma to_minor_units_coef d : to_minor_units d = dec_coef (dec_quantize ROUND_HALF_UP 2 d).
Proof.
  unfold to_minor_units, dec_mul, dec_int, dec_of_Z. simpl.
  rewrite dec_quantize_scale. change (pow10 (2 + 0)) with 100. apply Z.quot_mul. lia.
Qed.

(** What is asked of the payment processor is the amount of the invoice. An amount in the
    subunit survives the conversion and back; an amount with at most two decimals is converted
    exactly; any other is rounded by at most half a subunit. *)
Theorem minor_units_roundtrip :
  (∀ n, to_minor_units (from_minor_units n) = n) ∧
  (∀ d, (dec_scale d <= 2)%nat → dec_eqb (from_minor_units (to_minor_units d)) d = true) ∧
  (∀ d, 2 * Z.abs (100 * dec_coef d - to_minor_units d * pow10 (dec_scale d)) <= pow10 (dec_scale d)).
Proof.
  repeat split.
  - intros n. rewrite to_minor_units_coef. unfold from_minor_units.
    rewrite !dec_quantize_exact by (rewrite ?dec_quantize_exact; simpl; lia).
    unfold dec_at. simpl. change (pow10 0) with 1. lia.
  - intros d Hd. rewrite to_minor_units_coef. unfold from_minor_units, dec_eqb.
    rewrite !dec_quantize_exact by (simpl; lia). unfold dec_at. simpl.
    apply Z.eqb_eq. change (pow10 0) with 1.
    rewrite Z.mul_1_r, <- Z.mul_assoc, <- pow10_add. do 2 f_equal. lia.
  - intros d. rewrite to_minor_units_coef, (Z.mul_comm 100). apply (dec_quantize_near ROUND_HALF_UP 2 d).
Qed.
