(* ===== verification/Issuance.v ===== *)
(** * Issuing invoices

    [src/nevo/billing/issuance.py]: the daily sweep that raises the invoices of
    the billing periods that have begun, and the emails about an invoice. The
    sweep is one transaction over all active contracts. *)

From Stdlib Require Import Ascii String.
From S2P Require Import Prelude Relational Text Vocabulary Schema Notices Json Calendar Money Quotes Billing.

Local Open Scope string_scope.
Local Open Scope Z_scope.
Local Open Scope nevo_scope.

Definition PAYMENT_TERM_DAYS : Z := 30.
Definition DAYS_PER_CONTRACT_YEAR : Z := 365.
Definition MAX_CONTRACT_YEARS : Z := 6.
Definition TERMS_PER_YEAR : Z := 3.
Definition TERM_DATES_KEY : string := "term_start_dates".

(** One thing to invoice for: a contract year, or a term within one. *)
Record BillingPeriod := mkBillingPeriod {
  period_number : string; period_label : string; period_starts_on : date
}.

Record IssuanceResult := mkIssuanceResult { considered : Z; issued : Z }.

Definition summary (r : IssuanceResult) : string :=
  "issued " ++ int_str (issued r) ++ " invoices from " ++ int_str (considered r) ++ " active contracts".

(** ** Periods *)

(** [_period_start] *)
Definition period_start (start_date : date) (year_index : Z) : date :=
  add_days start_date (DAYS_PER_CONTRACT_YEAR * (year_index - 1)).

(** [_invoice_number] *)
Definition school_slug (school_code : string) : string :=
  take_string 20 (string_filter is_alnum (upper school_code)).

Definition invoice_number (school_code : string) (year_index : Z) (term : option Z) : string :=
  let slug := school_slug school_code in
  match term with
  | None => "NEVO-" ++ slug ++ "-Y" ++ int_str year_index
  | Some t => "NEVO-" ++ slug ++ "-Y" ++ int_str year_index ++ "T" ++ int_str t
  end.

(** [_term_starts]: the school's own dates when there are three of them. *)
Definition term_starts (year_start : date) (term_start_dates : list date) : list date :=
  if Z.of_nat (length term_start_dates) =? TERMS_PER_YEAR then term_start_dates
  else
    let span := DAYS_PER_CONTRACT_YEAR / TERMS_PER_YEAR in
    map (λ i, add_days year_start (span * i)) [0; 1; 2].

Definition periods_for (plan : PricingPlan) (school_code : string) (contract_start : date)
    (year_index : Z) (term_start_dates : list date) : list BillingPeriod :=
  let year_start := period_start contract_start year_index in
  match plan with
  | ANNUAL =>
    [mkBillingPeriod (invoice_number school_code year_index None) ("Year " ++ int_str year_index) year_start]
  | PER_TERM =>
    zip_with (λ t start,
      mkBillingPeriod (invoice_number school_code year_index (Some t))
        ("Year " ++ int_str year_index ++ " Term " ++ int_str t) start)
      [1; 2; 3] (term_starts year_start term_start_dates)
  end.

(** [_configured_terms]: the dates of the school's calendar, sorted, when all
    of them can be read. *)
Definition configured_terms (school : School) : exn + list date :=
  match school_academic_config school with
  | JObj config =>
    match field TERM_DATES_KEY config with
    | JArr items =>
      match mapM (λ item, date_fromisoformat (json_str item)) items with
      | Some parsed => inr (order_by date_le parsed)
      | None => inr []
      end
    | _ => inr []
    end
  | _ => inl AttributeError
  end.

(** [_advance_contract_year]: the contract in its next year, if that began. *)
Definition advance_contract_year (contract : Contract) (issue_date : date) : option Contract :=
  let next_index := contract_current_year_index contract + 1 in
  let next_start := period_start (contract_start_date contract) next_index in
  if MAX_CONTRACT_YEARS <? next_index then None
  else if date_lt issue_date next_start || date_lt (contract_end_date contract) next_start then None
  else Some (contract <| contract_current_year_index := next_index |>).

(** ** Who is paid for, and who is told *)

(** Somebody can be asked about the learner. *)
Definition reachable (links : list ParentLink) (u : User) : bool :=
  existsb (λ l : ParentLink, (link_student_id l == user_id u) && (link_parent_contact l != "")) links.

(** [_billable_students]: how many learners the school pays for, and the
    invited ones among them. *)
Definition billable_students (school : uuid) : M (Z * list uuid) :=
  links ← rows ParentLinks;
  users ← select Users (λ u : User, enrolled school u && reachable links u);
  mret (Z.of_nat (length (users : list User)),
        user_id <$> filterb (λ u : User, user_status u == INVITED) (users : list User)).

(** [_notify_billing_contacts] *)
Definition active_school_admin (school : uuid) (u : User) : bool :=
  (user_school_id u == Some school) && ((user_role u == SENCO_ADMIN) || (user_role u == OTHER_ADMIN)) &&
  (user_status u == ACTIVE).

Definition notify_billing_contacts (school : uuid) (number label : string) (amount : decimal)
    (currency : PricingCurrency) (due_on : date) : M unit :=
  admins ← select Users (active_school_admin school);
  match (admins : list User) with
  | [] => mret tt
  | _ =>
    notify_each ((λ u : User, (user_id u, value (user_role u))) <$> (admins : list User)) INVOICE_ISSUED
      ("Invoice " ++ number ++ " is ready")
      (label ++ ": " ++ value currency ++ " " ++ dec_money_str amount ++ ", due " ++ isoformat due_on ++ ".")
      (Some "/admin/billing");;
    mret tt
  end.

(** The addresses of [emails] that have no email of this kind yet. *)
Definition unqueued (emails existing : list string) : list string :=
  filterb (λ e, negb (bool_decide (e ∈ existing))) (remove_dups emails).

Definition about (invoice : uuid) (kind : string) (d : BillingEmailDelivery) : bool :=
  (bed_invoice_id d == invoice) && (bed_kind d == kind).

(** Queue an invoice message once per listed address and milestone. Python
    adds the new addresses in the order of a set; here it is their order in
    the table. *)
Definition queue_billing_emails (invoice : Invoice) (kind : string) : M Z :=
  contacts ← select BillingContacts (λ c : BillingContact, bc_school_id c == invoice_school_id invoice);
  match (contacts : list BillingContact) with
  | [] => mret 0
  | _ =>
    existing ← select BillingEmailDeliveries (about (invoice_id invoice) kind);
    now ← func_now;
    let fresh := unqueued (bc_email <$> (contacts : list BillingContact))
                          (bed_email <$> (existing : list BillingEmailDelivery)) in
    for_each fresh (λ email,
      i ← uuid4;
      insert BillingEmailDeliveries (new_BillingEmailDelivery i (invoice_id invoice) email kind now));;
    mret (Z.of_nat (length fresh))
  end.

(** ** The sweep *)

Section Sweep.
Context (billed_currency : PricingCurrency) (issue_date : date).

Definition quote_for (contract : Contract) (school : School) (student_count : Z) : exn + PerStudentQuote :=
  quote_per_student (school_pricing_plan school) student_count
    (rate_type_of (contract_is_founding_partner contract || school_is_founding_partner school))
    (school_per_student_rate school) (school_price_lock_expiry school) billed_currency.

Definition due_date : date := add_days issue_date PAYMENT_TERM_DAYS.

(** The invoice of one period. *)
Definition period_invoice (i : uuid) (school : School) (period : BillingPeriod) (q : PerStudentQuote)
    (activation_ids : list uuid) : Invoice :=
  (new_Invoice i (period_number period) (school_id school) issue_date (quote_total_with_vat q)
     INVOICE_PENDING due_date (invoice_pdf_url_ (school_id school) (period_number period)))
    <| invoice_currency := quote_currency q |>
    <| invoice_student_count := Some (quote_student_count q) |>
    <| invoice_activation_student_ids := activation_ids |>
    <| invoice_per_student_rate := Some (quote_per_student_rate q) |>
    <| invoice_total_before_vat := Some (quote_total_before_vat q) |>
    <| invoice_vat_amount := Some (quote_vat_amount q) |>
    <| invoice_vat_rate := Some (quote_vat_rate q) |>
    <| invoice_period_label := Some (period_label period) |>.

Definition numbered (number : string) (i : Invoice) : bool := invoice_invoice_number i == number.

(** One pass of the loop over the periods: the periods still to come and the
    invoices issued so far. *)
Definition issue_period (contract : Contract) (school : School) (student_count : Z)
    (activation_ids : list uuid) (acc : Z * Z) (period : BillingPeriod) : M (Z * Z) :=
  let '(outstanding, issued) := acc in
  already_issued ← scalar Invoices (numbered (period_number period));
  match already_issued : option Invoice with
  | Some _ => mret (outstanding, issued)
  | None =>
    if date_lt issue_date (period_starts_on period) then mret (outstanding + 1, issued)
    else
      q ← lift_exn (quote_for contract school student_count);
      i ← uuid4;
      let invoice := period_invoice i school period q activation_ids in
      insert Invoices invoice;;
      flush_;;
      queue_billing_emails invoice "issued";;
      notify_billing_contacts (school_id school) (period_number period) (period_label period)
        (quote_total_with_vat q) (quote_currency q) due_date;;
      mret (outstanding, issued + 1)
  end.

(** [for _ in range(n)]: year by year, until a period is still to come or the
    next year has not begun. *)
Fixpoint issue_years (n : nat) (contract : Contract) (school : School) (student_count : Z)
    (activation_ids : list uuid) (term_starts : list date) (issued : Z) : M Z :=
  match n with
  | O => mret issued
  | S n' =>
    '(outstanding, issued) ← fold_each
      (periods_for (school_pricing_plan school) (school_school_code school) (contract_start_date contract)
         (contract_current_year_index contract) term_starts)
      (0, issued) (issue_period contract school student_count activation_ids);
    if outstanding != 0 then mret issued
    else
      match advance_contract_year contract issue_date with
      | None => mret issued
      | Some contract' =>
        save Contracts contract';;
        issue_years n' contract' school student_count activation_ids term_starts issued
      end
  end.

Definition issue_contract (issued : Z) (row : Contract * School) : M Z :=
  let '(contract, school) := row in
  '(student_count, activation_ids) ← billable_students (school_id school);
  term_starts ← lift_exn (configured_terms school);
  issue_years (Z.to_nat MAX_CONTRACT_YEARS) contract school student_count activation_ids term_starts issued.

(** [select(Contract, School).join(...)] of the active contracts *)
Definition active_contracts : M (list (Contract * School)) :=
  contracts ← select Contracts (λ c : Contract, contract_status c == CONTRACT_ACTIVE);
  schools ← rows Schools;
  mret ((contracts : list Contract) ≫= λ c : Contract,
    (λ s : School, (c, s)) <$> filterb (λ s : School, school_id s == contract_school_id c) (schools : list School)).

Definition issue_due_invoices : M IssuanceResult :=
  begin_ (
    found ← active_contracts;
    issued ← fold_each found 0 issue_contract;
    mret {| considered := Z.of_nat (length found); issued := issued |}).
End Sweep.
