(* ===== verification/PaymentRepo.v ===== *)
(** * The payment repository

    [src/nevo/payments/repositories.py]: invoices, the attempts to collect
    them, the school's stored payment method and the record of the processor's
    callbacks. Each method is one transaction. *)

From Stdlib Require Import String.
From S2P Require Import Prelude Relational Text Vocabulary Schema Notices PermissionRepo Json Money Paystack.

Local Open Scope string_scope.
Local Open Scope Z_scope.
Local Open Scope nevo_scope.

(** Distinguishes money confirmed by a human from money the processor saw. *)
Definition MANUAL_PROVIDER : string := "manual_transfer".

Record PayableInvoice := mkPayableInvoice {
  payable_invoice_id : uuid; payable_school_id : uuid; payable_invoice_number : string;
  payable_amount : decimal; payable_status : InvoiceStatus; payable_billing_email : option string
}.

Record TransactionRecord := mkTransactionRecord {
  txr_id : uuid; txr_school_id : uuid; txr_invoice_id : option uuid; txr_reference : string;
  txr_status : PaymentTransactionStatus; txr_amount : decimal; txr_amount_minor : Z;
  txr_currency : PricingCurrency
}.

Record SavedMethod := mkSavedMethod {
  saved_authorization_code : string; saved_billing_email : string
}.

(** ** Invoices and attempts *)

(** The billing contact a school names, if it names one. *)
Definition billing_contact_of (school : uuid) : M (option BillingContact) :=
  found ← scalar Schools (λ s : School, school_id s == school);
  match (found : option School) ≫= λ s, school_billing_contact_id s with
  | None => mret None
  | Some c => scalar BillingContacts (λ b : BillingContact, bc_id b == c)
  end.

Definition payable_invoice (school invoice : uuid) : M (option PayableInvoice) :=
  found ← scalar Invoices (λ i : Invoice, (invoice_id i == invoice) && (invoice_school_id i == school));
  match found with
  | None => mret None
  | Some i =>
    contact ← billing_contact_of (invoice_school_id i);
    mret (Some {|
      payable_invoice_id := invoice_id i; payable_school_id := invoice_school_id i;
      payable_invoice_number := invoice_invoice_number i; payable_amount := invoice_amount i;
      payable_status := invoice_status i;
      payable_billing_email := bc_email <$> (contact : option BillingContact) |})
  end.

Definition create_transaction (school invoice : uuid) (reference : string) (amount : decimal)
    (amount_minor : Z) (currency : PricingCurrency) (initiated_by_user_id : option uuid) : M uuid :=
  transaction_id ← uuid4;
  begin_ (
    insert PaymentTransactions
      ((new_PaymentTransaction transaction_id school (Some invoice) reference amount amount_minor currency)
         <| tx_initiated_by_user_id := initiated_by_user_id |>));;
  mret transaction_id.

Definition set_authorization_url (transaction_id : uuid) (url : string) : M unit :=
  begin_ (
    record ← get PaymentTransactions transaction_id;
    match record : option PaymentTransaction with
    | Some x => save PaymentTransactions (x <| tx_authorization_url := Some url |>)
    | None => mret tt
    end).

Definition by_reference (reference : string) (x : PaymentTransaction) : bool :=
  tx_reference x == reference.

Definition transaction_record (x : PaymentTransaction) : TransactionRecord := {|
  txr_id := tx_id x; txr_school_id := tx_school_id x; txr_invoice_id := tx_invoice_id x;
  txr_reference := tx_reference x; txr_status := tx_status x; txr_amount := tx_amount x;
  txr_amount_minor := tx_amount_minor x; txr_currency := tx_currency x |}.

Definition transaction_by_reference (reference : string) : M (option TransactionRecord) :=
  record ← scalar PaymentTransactions (by_reference reference);
  mret (transaction_record <$> (record : option PaymentTransaction)).

(** ** Settlement *)

(** The learners an invoice pays for, once invited, become active. *)
Definition activated (invoice : Invoice) (u : User) : bool :=
  bool_decide (user_id u ∈ invoice_activation_student_ids invoice) &&
  (user_school_id u == Some (invoice_school_id invoice)) && (user_role u == STUDENT) &&
  (user_status u == INVITED).

Definition activate_paid_students (invoice : Invoice) : M unit :=
  match invoice_activation_student_ids invoice with
  | [] => mret tt
  | _ => update_where Users (activated invoice) (λ u : User, u <| user_status := ACTIVE |>)
  end.

(** The active administrators of the school who hold the billing scope. *)
Definition billing_recipients (school : uuid) : M (list (uuid * string)) :=
  team ← school_admins school;
  assignments ← rows AdminScopeAssignments;
  mret ((team : list (Admin * User)) ≫= λ au : Admin * User,
    if user_status au.2 == ACTIVE
    then (λ _ : AdminScopeAssignment, (user_id au.2, value (user_role au.2))) <$>
         filterb (λ g : AdminScopeAssignment, live_assignment (admin_id au.1) g &&
                    (asg_scope g == SCOPE_BILLING)) (assignments : list AdminScopeAssignment)
    else []).

Definition stored_method (existing : BillingPaymentMethod) (a : ProviderAuthorization)
    (customer_code : option string) (display_name : string) (updated_by : uuid) : BillingPaymentMethod :=
  existing
    <| method_method_type := pa_method_type a |>
    <| method_processor_name := Some "paystack" |>
    <| method_processor_payment_method_ref := Some (pa_authorization_code a) |>
    <| method_processor_customer_code := opt_or customer_code (method_processor_customer_code existing) |>
    <| method_display_name := display_name |>
    <| method_last_four := pa_last_four a |>
    <| method_card_brand := pa_card_brand a |>
    <| method_expiry_month := pa_expiry_month a |>
    <| method_expiry_year := pa_expiry_year a |>
    <| method_bank_name := pa_bank_name a |>
    <| method_account_holder_name := pa_account_name a |>
    <| method_is_reusable := pa_reusable a |>
    <| method_updated_by_user_id := updated_by |>.

Definition upsert_payment_method (school : uuid) (a : ProviderAuthorization)
    (customer_code : option string) (actor_user_id : option uuid) : M unit :=
  found ← scalar BillingPaymentMethods (λ m : BillingPaymentMethod, method_school_id m == school);
  let existing : option BillingPaymentMethod := found in
  match or_else actor_user_id (method_updated_by_user_id <$> existing) with
  | None => mret tt
  | Some updated_by =>
    let display_name := strip (opt_str_or (pa_card_brand a) (opt_str_or (pa_bank_name a) "Card")
                               ++ " ending " ++ pa_last_four a) in
    match existing with
    | None =>
      i ← uuid4;
      insert BillingPaymentMethods
        ((new_BillingPaymentMethod i school (pa_method_type a) display_name (pa_last_four a) updated_by)
           <| method_processor_name := Some "paystack" |>
           <| method_processor_payment_method_ref := Some (pa_authorization_code a) |>
           <| method_processor_customer_code := customer_code |>
           <| method_card_brand := pa_card_brand a |>
           <| method_expiry_month := pa_expiry_month a |>
           <| method_expiry_year := pa_expiry_year a |>
           <| method_bank_name := pa_bank_name a |>
           <| method_account_holder_name := pa_account_name a |>
           <| method_is_reusable := pa_reusable a |>)
    | Some m => save BillingPaymentMethods (stored_method m a customer_code display_name updated_by)
    end
  end.

(** The transaction with the outcome written on it. *)
Definition settled_transaction (record : PaymentTransaction) (status : PaymentTransactionStatus)
    (provider_reference : option string) (paid_at : option datetime) (error : option string)
    (now : datetime) : PaymentTransaction :=
  record
    <| tx_status := status |>
    <| tx_provider_reference := opt_or provider_reference (tx_provider_reference record) |>
    <| tx_last_error := error |>
    <| tx_paid_at := if status == TX_SUCCESS then or_else paid_at (Some now) else None |>.

Definition paid_invoice (invoice : Invoice) (paid_at : option datetime) : Invoice :=
  invoice <| invoice_status := INVOICE_PAID |> <| invoice_paid_at := paid_at |>.

(** Mark the invoice of a paid transaction paid, unless it is already. *)
Definition pay_invoice (record : PaymentTransaction) : M bool :=
  match tx_invoice_id record with
  | None => mret false
  | Some i =>
    found ← get Invoices i;
    match found : option Invoice with
    | None => mret false
    | Some invoice =>
      if invoice_status invoice == INVOICE_PAID then mret false
      else
        save Invoices (paid_invoice invoice (tx_paid_at record));;
        activate_paid_students invoice;;
        recipients ← billing_recipients (tx_school_id record);
        notify_each recipients PAYMENT_CLEARED "Payment received"
          ("Payment for invoice " ++ invoice_invoice_number invoice ++ " has been confirmed.")
          (Some "/admin/billing");;
        mret true
    end
  end.

(** Apply a processor outcome exactly once: whether the invoice was paid by
    it, and whether the payment method was saved. *)
Definition settle (reference : string) (status : PaymentTransactionStatus)
    (provider_reference : option string) (paid_at : option datetime) (error : option string)
    (authorization : option ProviderAuthorization) (customer_code : option string) (now : datetime)
  : M (bool * bool) :=
  begin_ (
    found ← scalar PaymentTransactions (by_reference reference);
    match found with
    | None => mret (false, false)
    | Some record =>
      if tx_status record == TX_SUCCESS then mret (false, false)
      else
        let record := settled_transaction record status provider_reference paid_at error now in
        save PaymentTransactions record;;
        if status != TX_SUCCESS then mret (false, false)
        else
          invoice_paid ← pay_invoice record;
          method_saved ←
            match authorization with
            | Some a =>
              if pa_reusable a then
                upsert_payment_method (tx_school_id record) a customer_code
                  (tx_initiated_by_user_id record);;
                mret true
              else mret false
            | None => mret false
            end;
          mret (invoice_paid, method_saved)
    end).

(** The stored method of a school with the address its receipts go to. *)
Definition saved_method (school : uuid) : M (option SavedMethod) :=
  found ← scalar BillingPaymentMethods (λ m : BillingPaymentMethod,
    (method_school_id m == school) && method_is_reusable m &&
    is_some (method_processor_payment_method_ref m));
  match (found : option BillingPaymentMethod) ≫= λ m, method_processor_payment_method_ref m with
  | None => mret None
  | Some code =>
    contact ← billing_contact_of school;
    match (contact : option BillingContact) with
    | None => mret None
    | Some c =>
      if truthy code && truthy (bc_email c) then mret (Some (mkSavedMethod code (bc_email c)))
      else mret None
    end
  end.

(** ** The processor's callbacks *)

Definition is_event (provider event_key : string) (e : PaymentWebhookEvent) : bool :=
  (event_provider e == provider) && (event_event_key e == event_key).

Definition PROVIDER : string := "paystack".

(** [INSERT ... ON CONFLICT DO NOTHING RETURNING id] *)
Definition claim_webhook_event (event_key event_type : string) (payload : Json) : M bool :=
  begin_ (
    seen ← scalar PaymentWebhookEvents (is_event PROVIDER event_key);
    match seen : option PaymentWebhookEvent with
    | Some _ => mret false
    | None =>
      i ← uuid4;
      insert PaymentWebhookEvents
        ((new_PaymentWebhookEvent i event_key event_type) <| event_payload := payload |>);;
      mret true
    end).

Definition finish_webhook_event (event_key : string) (status : WebhookEventStatus)
    (error : option string) (now : datetime) : M unit :=
  begin_ (
    record ← scalar PaymentWebhookEvents (is_event PROVIDER event_key);
    match record : option PaymentWebhookEvent with
    | Some e => save PaymentWebhookEvents (e <| event_status := status |>
        <| event_last_error := error |> <| event_processed_at := Some now |>)
    | None => mret tt
    end).

(** ** Money confirmed by hand *)

Definition same_transfer (bank_reference : string) (x : PaymentTransaction) : bool :=
  (tx_provider_reference x == Some bank_reference) && (tx_provider x == MANUAL_PROVIDER).

Definition manual_transaction (i school invoice : uuid) (reference bank_reference : string)
    (amount : decimal) (currency : PricingCurrency) (confirmed_by_user_id : uuid)
    (confirmed_at : datetime) : PaymentTransaction :=
  (new_PaymentTransaction i school (Some invoice) reference amount
     (dec_int (dec_mul amount (dec_of_Z 100))) currency)
    <| tx_provider := MANUAL_PROVIDER |>
    <| tx_provider_reference := Some bank_reference |>
    <| tx_status := TX_SUCCESS |>
    <| tx_initiated_by_user_id := Some confirmed_by_user_id |>
    <| tx_paid_at := Some confirmed_at |>.

Definition record_manual_settlement (school invoice : uuid) (reference bank_reference : string)
    (amount : decimal) (currency : PricingCurrency) (confirmed_by_user_id : uuid)
    (confirmed_at : datetime) : M (uuid * bool) :=
  begin_ (
    existing ← scalar PaymentTransactions (same_transfer bank_reference);
    match existing : option PaymentTransaction with
    | Some x => mret (tx_id x, false)
    | None =>
      transaction_id ← uuid4;
      insert PaymentTransactions (manual_transaction transaction_id school invoice reference
        bank_reference amount currency confirmed_by_user_id confirmed_at);;
      found ← get Invoices invoice;
      match found : option Invoice with
      | None => mret (transaction_id, false)
      | Some i =>
        if invoice_status i == INVOICE_PAID then mret (transaction_id, false)
        else
          save Invoices (paid_invoice i (Some confirmed_at));;
          activate_paid_students i;;
          mret (transaction_id, true)
      end
    end).
