(* ===== verification/PaymentService.v ===== *)
(** * The payment service

    [src/nevo/payments/service.py]: opening a checkout, confirming and charging
    through the processor, transfers confirmed by hand, and the processor's
    callbacks. Each call of the repository is a transaction of its own, so what
    is written before the processor fails stays. *)

From Stdlib Require Import Ascii String.
From S2P Require Import Prelude Relational Text Vocabulary Schema Crypto Json Money Paystack PaymentRepo.

Local Open Scope string_scope.
Local Open Scope Z_scope.
Local Open Scope nevo_scope.

Definition SETTLED_EVENTS : list string := ["charge.success"].
Definition FAILURE_EVENTS : list string := ["charge.failed"; "invoice.payment_failed"].

(** [now.strftime("%Y%m%d%H%M%S")] *)
Definition stamp_of (now : datetime) : string :=
  let d := date_of_datetime now in
  let s := now mod days 1 / seconds 1 in
  pad 4 (year d) ++ pad 2 (month d) ++ pad 2 (day d) ++
  pad 2 (s / 3600) ++ pad 2 (s mod 3600 / 60) ++ pad 2 (s mod 60).

Example stamp_of_example : stamp_of (days 20635 + hours 13 + minutes 5 + seconds 9) = "20260701130509".
Proof. vm_compute. reflexivity. Qed.

(** [_amount_matches] *)
Definition amount_matches (expected_minor : Z) (expected_currency : string)
    (pt : ProviderTransaction) : bool :=
  if pt_amount_minor pt != expected_minor then false
  else
    let provider_currency := upper (strip (pt_currency pt)) in
    negb (truthy provider_currency) || (provider_currency == upper expected_currency).

(** The status and the error a processor's answer is settled with: never value
    for an amount or currency that was not asked for. *)
Definition settlement (transaction : TransactionRecord) (pt : ProviderTransaction)
  : PaymentTransactionStatus * option string :=
  let currency := value (txr_currency transaction) in
  if (pt_status pt == TX_SUCCESS) && negb (amount_matches (txr_amount_minor transaction) currency pt)
  then (TX_FAILED, Some ("Provider amount did not match the invoice: expected "
         ++ int_str (txr_amount_minor transaction) ++ " " ++ currency ++ ", got "
         ++ int_str (pt_amount_minor pt) ++ " " ++ pt_currency pt))
  else (pt_status pt, pt_gateway_message pt).

Definition already_settled (transaction : TransactionRecord) : PaymentOutcome := {|
  outcome_transaction_id := txr_id transaction; outcome_invoice_id := txr_invoice_id transaction;
  outcome_reference := txr_reference transaction; outcome_status := TX_SUCCESS;
  outcome_invoice_paid := false; outcome_payment_method_saved := false;
  outcome_message := "This payment was already settled." |}.

(** [_settle] *)
Definition settle_provider (pt : ProviderTransaction) (now : datetime) : M PaymentOutcome :=
  found ← transaction_by_reference (pt_reference pt);
  match found with
  | None => raise PaymentNotFoundError
  | Some transaction =>
    if txr_status transaction == TX_SUCCESS then mret (already_settled transaction)
    else
      let '(status, error) := settlement transaction pt in
      '(invoice_paid, method_saved) ← settle (txr_reference transaction) status
        (pt_provider_reference pt) (pt_paid_at pt)
        (if status == TX_SUCCESS then None else error) (pt_authorization pt) None now;
      mret {|
        outcome_transaction_id := txr_id transaction; outcome_invoice_id := txr_invoice_id transaction;
        outcome_reference := txr_reference transaction; outcome_status := status;
        outcome_invoice_paid := invoice_paid; outcome_payment_method_saved := method_saved;
        outcome_message := if status == TX_SUCCESS then "Payment confirmed."
                           else opt_str_or error "The payment was not completed." |}
  end.

Section PaymentService.
Context `{!Crypto} `{!Network} (settings : PaystackSettings).

(** [_reference] *)
Definition new_reference (invoice_number : string) (now : datetime) : M string :=
  token ← draw (λ n, token_hex n 4);
  mret ("nevo-" ++ take_string 40 (string_filter is_alnum invoice_number) ++ "-" ++ stamp_of now
        ++ "-" ++ token).

(** [_event_key]: a stable identity per event, so retries are not applied
    twice. *)
Definition webhook_key (event_type : string) (data : list (string * Json)) (payload : string) : string :=
  let provider_id := field "id" data in
  let reference := field "reference" data in
  if json_truthy provider_id then event_type ++ ":" ++ json_str provider_id
  else if json_truthy reference then event_type ++ ":" ++ json_str reference
  else event_type ++ ":" ++ sha256_hex payload.

Definition require_configured : M unit :=
  if client_configured settings then mret tt else raise PaymentProviderUnavailableError.

(** An invoice of the school that is still to be paid. *)
Definition outstanding_invoice (school invoice : uuid) : M PayableInvoice :=
  found ← payable_invoice school invoice;
  match found with
  | None => raise PaymentNotFoundError
  | Some i => if payable_status i == INVOICE_PAID then raise InvoiceNotPayableError else mret i
  end.

(** Open a hosted checkout for an outstanding invoice. *)
Definition start_invoice_payment (school invoice : uuid) (actor_user_id : option uuid)
    (now : datetime) : M CheckoutSession :=
  require_configured;;
  i ← outstanding_invoice school invoice;
  email ← (match payable_billing_email i with
           | Some email => if truthy email then mret email else raise MissingBillingContactError
           | None => raise MissingBillingContactError
           end);
  reference ← new_reference (payable_invoice_number i) now;
  let currency := ps_currency settings in
  transaction_id ← create_transaction school invoice reference (payable_amount i)
    (to_minor_units (payable_amount i)) currency actor_user_id;
  authorization_url ← initialize_transaction settings email (payable_amount i) reference currency
    [("school_id", JStr (uuid_str school)); ("invoice_id", JStr (uuid_str invoice));
     ("invoice_number", JStr (payable_invoice_number i))];
  set_authorization_url transaction_id authorization_url;;
  mret {|
    checkout_transaction_id := transaction_id; checkout_invoice_id := invoice;
    checkout_reference := reference; checkout_authorization_url := authorization_url;
    checkout_amount := payable_amount i; checkout_currency := currency |}.

(** Confirm a transaction with the processor and apply it to the invoice. *)
Definition verify_reference (reference : string) (now : datetime) : M PaymentOutcome :=
  require_configured;;
  found ← transaction_by_reference reference;
  match found with
  | None => raise PaymentNotFoundError
  | Some _ =>
    pt ← verify_transaction settings reference;
    settle_provider pt now
  end.

(** Collect an invoice against the school's stored authorization. *)
Definition charge_saved_method (school invoice : uuid) (now : datetime) : M PaymentOutcome :=
  require_configured;;
  i ← outstanding_invoice school invoice;
  found ← saved_method school;
  match found with
  | None => raise NoReusablePaymentMethodError
  | Some method =>
    reference ← new_reference (payable_invoice_number i) now;
    let currency := ps_currency settings in
    create_transaction school invoice reference (payable_amount i)
      (to_minor_units (payable_amount i)) currency None;;
    pt ← charge_authorization settings (saved_billing_email method) (payable_amount i) reference
      (saved_authorization_code method) currency;
    settle_provider pt now
  end.

(** Record a bank transfer an administrator has confirmed receiving. *)
Definition confirm_manual_transfer (school invoice : uuid) (bank_reference : string)
    (confirmed_by_user_id : uuid) (now : datetime) : M PaymentOutcome :=
  i ← outstanding_invoice school invoice;
  reference ← new_reference (payable_invoice_number i) now;
  '(transaction_id, invoice_paid) ← record_manual_settlement school invoice reference
    (strip bank_reference) (payable_amount i) (ps_currency settings) confirmed_by_user_id now;
  mret {|
    outcome_transaction_id := transaction_id; outcome_invoice_id := Some invoice;
    outcome_reference := strip bank_reference; outcome_status := TX_SUCCESS;
    outcome_invoice_paid := invoice_paid; outcome_payment_method_saved := false;
    outcome_message := if invoice_paid then "Transfer recorded and the invoice is settled."
                       else "This transfer reference was already recorded." |}.

(** The fields of a callback: its type, its data and its reference. *)
Definition event_type_of (body : list (string * Json)) : string :=
  json_str (json_or (field "event" body) (JStr "unknown")).
Definition event_data_of (body : list (string * Json)) : list (string * Json) :=
  match field "data" body with JObj data => data | _ => [] end.
Definition event_reference_of (body : list (string * Json)) : string :=
  json_str (json_or (field "reference" (event_data_of body)) (JStr "")).

(** What the service does with a callback it has claimed. *)
Definition process_event (event_key event_type reference : string) (now : datetime)
  : M (option PaymentOutcome) :=
  if negb (bool_decide (event_type ∈ (SETTLED_EVENTS ++ FAILURE_EVENTS)%list)) || negb (truthy reference)
  then finish_webhook_event event_key EVENT_IGNORED None now;; mret None
  else
    outcome ← try_except
      (pt ← verify_transaction settings reference; settle_provider pt now)
      (λ e, Some (finish_webhook_event event_key EVENT_FAILED
                    (Some (take_string 1000 (exception_text e))) now;;
                  raise e));
    finish_webhook_event event_key EVENT_PROCESSED None now;;
    mret (Some outcome).

(** The body of a signed callback. *)
Definition signed_body (payload : string) (signature : option string) (secret : string)
  : exn + list (string * Json) :=
  if negb (verify_webhook_signature payload signature secret) then inl InvalidWebhookSignatureError
  else match json_loads payload with
       | Some (JObj body) => inr body
       | _ => inl InvalidWebhookSignatureError
       end.

(** Verify, de-duplicate, and apply one processor callback. *)
Definition handle_webhook (payload : string) (signature : option string) (now : datetime)
  : M (option PaymentOutcome) :=
  require_configured;;
  secret ← client_secret settings;
  body ← raise_or (signed_body payload signature secret);
  let event_type := event_type_of body in
  let event_key := webhook_key event_type (event_data_of body) payload in
  claimed ← claim_webhook_event event_key event_type (JObj body);
  if negb claimed then mret None
  else process_event event_key event_type (event_reference_of body) now.
End PaymentService.
