(* ===== verification/PaymentFacts.v ===== *)
(** * What payments do to the books

    Money that was received stays received, value is given only for the amount
    that was asked, and the processor's callbacks are applied once. *)

From Stdlib Require Import String.
From S2P Require Import Prelude Relational Text Vocabulary Schema Crypto Notices PermissionRepo Json Kept Money Paystack PaymentRepo PaymentService.

Local Open Scope string_scope.
Local Open Scope Z_scope.
Local Open Scope nevo_scope.

(** ** The steps of a settlement *)

Section Frames.
Context (ts : list Table).

Lemma frames_notify_each l ty ti d n : Notifications ∈ ts → frames ts (notify_each l ty ti d n).
Proof. intros. unfold notify_each, notify. frames_tac. Qed.
Lemma frames_activate i : Users ∈ ts → frames ts (activate_paid_students i).
Proof. intros. unfold activate_paid_students. frames_tac. Qed.
Lemma frames_upsert s a c u : BillingPaymentMethods ∈ ts → frames ts (upsert_payment_method s a c u).
Proof. intros. unfold upsert_payment_method. frames_tac. Qed.
Lemma frames_recipients s : frames ts (billing_recipients s).
Proof. by apply frames_reads. Qed.
End Frames.

#[export] Hint Resolve frames_recipients : frames.
#[export] Hint Extern 1 (frames _ (notify_each _ _ _ _ _)) => apply frames_notify_each; solve_in_tables : frames.
#[export] Hint Extern 1 (frames _ (activate_paid_students _)) => apply frames_activate; solve_in_tables : frames.
#[export] Hint Extern 1 (frames _ (upsert_payment_method _ _ _ _)) => apply frames_upsert; solve_in_tables : frames.

Lemma findb_id t (l : list (table_row t)) i r :
  findb (λ x : table_row t, table_id t x == i) l = Some r → r ∈ l ∧ table_id t r = i.
Proof. intros [Hid Hr]%findb_Some. by bool_to_prop. Qed.

(** After the invoice is marked, learners are activated and notices raised. *)
Definition after_payment (db db' : Database) : Prop :=
  ∀ t, t ∉ [Users; Notifications; BillingPaymentMethods] → db_tables db' t = db_tables db t.

Definition mark_paid (i : Invoice) (at_ : option datetime) (db : Database) : Database :=
  set_table Invoices (update_list (λ x, invoice_id x == invoice_id i) (λ _, paid_invoice i at_)
    (db_tables db Invoices)) db.

(** [pay_invoice] marks the invoice of the transaction, when there is one to
    mark, and touches no other table that payments read. *)
Lemma pay_invoice_inv x db b db' :
  NoDup (map invoice_id (db_tables db Invoices)) → pay_invoice x db = (inr b, db') →
  (b = true ∧ ∃ i, tx_invoice_id x = Some (invoice_id i) ∧ i ∈ db_tables db Invoices ∧
     invoice_status i ≠ INVOICE_PAID ∧ after_payment (mark_paid i (tx_paid_at x) db) db') ∨
  (b = false ∧ db' = db ∧
     ∀ i, i ∈ db_tables db Invoices → tx_invoice_id x = Some (invoice_id i) → invoice_status i = INVOICE_PAID).
Proof.
  intros Hnd. unfold pay_invoice. destruct (tx_invoice_id x) as [k|] eqn:Hk.
  2:{ intros [= <- <-]. by right. }
  erewrite bind_inr by reflexivity.
  destruct (findb _ _) as [i|] eqn:Hf.
  2:{ intros [= <- <-]. right. split_and!; [done|done|]. intros i Hi [= ->].
      rewrite findb_None in Hf. specialize (Hf i Hi). by bool_to_prop. }
  apply (findb_id Invoices) in Hf as [Hin Hid].
  destruct (invoice_status i == INVOICE_PAID) eqn:Hp; bool_to_prop.
  { intros [= <- <-]. right. split_and!; [done|done|]. intros j Hj [= ->].
    by rewrite (NoDup_map_inj invoice_id _ j i Hnd Hj Hin). }
  intros (? & db1 & Hs & Hrun)%bind_inv_inr. injection Hs as ?. subst db1.
  assert (b = true) as -> by (by run_inv).
  left. split; [done|]. exists i. split_and!; [by rewrite <- Hid|done|done|].
  intros t Ht. eapply (frames_run [Users; Notifications; BillingPaymentMethods]) in Hrun; [exact Hrun| |done].
  frames_tac.
Qed.

(** The transaction a checkout or a charge opens. *)
Definition attempt (school invoice : uuid) (reference : string) (amount : decimal) (minor : Z)
    (currency : PricingCurrency) (actor : option uuid) (i : uuid) : PaymentTransaction :=
  (new_PaymentTransaction i school (Some invoice) reference amount minor currency)
    <| tx_initiated_by_user_id := actor |>.

(** A checkout appends a transaction with a new identifier, or nothing. *)
Lemma create_transaction_inv school invoice reference amount minor currency actor db r db' :
  create_transaction school invoice reference amount minor currency actor db = (r, db') →
  (r = inl IntegrityError ∧ db_tables db' = db_tables db ∧ db_uuids db' = db_uuids db + 1) ∨
  (r = inr (db_uuids db) ∧ db_ok db' = true ∧
     db' = appended PaymentTransactions (attempt school invoice reference amount minor currency actor) db).
Proof.
  unfold create_transaction. erewrite bind_inr by reflexivity. rewrite bind_run.
  unfold begin_, transaction, insert. autorewrite with store.
  destruct (db_ok _) eqn:Hok; intros [= <- <-]; [by right|by left].
Qed.

(** What a transaction [x] with its outcome written does to the invoices: [p]
    is whether it paid one. *)
Definition booked (x : PaymentTransaction) (p : bool) (db db' : Database) : Prop :=
  (p = true ∧ tx_status x = TX_SUCCESS ∧ ∃ i, tx_invoice_id x = Some (invoice_id i) ∧
     i ∈ db_tables db Invoices ∧ invoice_status i ≠ INVOICE_PAID ∧
     db_tables db' Invoices = update_list (λ y : Invoice, invoice_id y == invoice_id i)
       (λ _ : Invoice, paid_invoice i (tx_paid_at x)) (db_tables db Invoices)) ∨
  (p = false ∧ db_tables db' Invoices = db_tables db Invoices ∧
     (tx_status x = TX_SUCCESS → ∀ i, i ∈ db_tables db Invoices → tx_invoice_id x = Some (invoice_id i) →
        invoice_status i = INVOICE_PAID)).

Lemma settle_inv reference status pref paid err auth cust now db p s db' :
  NoDup (map invoice_id (db_tables db Invoices)) →
  settle reference status pref paid err auth cust now db = (inr (p, s), db') →
  match findb (by_reference reference) (db_tables db PaymentTransactions) with
  | None => p = false ∧ db' = db
  | Some x =>
    if tx_status x == TX_SUCCESS then p = false ∧ db' = db
    else
      let x' := settled_transaction x status pref paid err now in
      db_tables db' PaymentTransactions =
        update_list (λ y : PaymentTransaction, tx_id y == tx_id x) (λ _ : PaymentTransaction, x')
          (db_tables db PaymentTransactions) ∧
      booked x' p db db'
  end.
Proof.
  intros Hnd [Hrun Hok]%transaction_commit. erewrite bind_inr in Hrun by reflexivity.
  destruct (findb _ _) as [x|] eqn:Hf; [|by injection Hrun as <- <- <-].
  destruct (tx_status x == TX_SUCCESS) eqn:Hx; [by injection Hrun as <- <- <-|].
  set (x' := settled_transaction x status pref paid err now) in *. cbv zeta in *.
  apply bind_inv_inr in Hrun as (? & db1 & Hs & Hrun). injection Hs as ?. subst db1.
  destruct (status != TX_SUCCESS) eqn:Hst; bool_to_prop.
  - injection Hrun as <- <- <-. split; [by rewrite set_table_eq|]. right.
    split_and!; [done|by rewrite set_table_ne|]. by intros ?.
  - apply bind_inv_inr in Hrun as (b & db2 & Hpay & Hrun).
    apply pay_invoice_inv in Hpay; [|by rewrite set_table_ne].
    set (rest := match auth with Some a => _ | None => _ end) in Hrun.
    assert (frames [BillingPaymentMethods] rest) as Hrest by (unfold rest; frames_tac).
    apply bind_inv_inr in Hrun as (b' & db3 & Hrun' & Hrun). injection Hrun as <- <- <-.
    assert (∀ t, t ∉ [BillingPaymentMethods] → db_tables db3 t = db_tables db2 t) as Hfr
      by (intros; by eapply frames_run).
    rewrite !Hfr by (set_solver || done).
    destruct Hpay as [(-> & i & Hi & Hin & Hp & Hafter)|(-> & -> & Hpaid)].
    + unfold after_payment, mark_paid in Hafter. rewrite !Hafter by set_solver.
      rewrite set_table_ne in Hin by done. rewrite set_table_ne, !set_table_eq by done.
      split; [done|]. left. split_and!; [done|done|]. exists i. split_and!; try done.
      rewrite Hfr, Hafter, set_table_eq, set_table_ne by set_solver. done.
    + rewrite set_table_eq. split; [done|]. right.
      rewrite set_table_ne in Hpaid by done. split_and!; [done| |done].
      by rewrite Hfr, set_table_ne by set_solver.
Qed.

Lemma manual_settlement_inv school invoice reference bank amount currency who at_ db i p db' :
  NoDup (map invoice_id (db_tables db Invoices)) →
  record_manual_settlement school invoice reference bank amount currency who at_ db = (inr (i, p), db') →
  match findb (same_transfer bank) (db_tables db PaymentTransactions) with
  | Some x => i = tx_id x ∧ p = false ∧ db' = db
  | None =>
    i = db_uuids db ∧ i < db_uuids db' ∧
    let x := manual_transaction i school invoice reference bank amount currency who at_ in
    db_tables db' PaymentTransactions = (db_tables db PaymentTransactions ++ [x])%list ∧ booked x p db db'
  end.
Proof.
  intros Hnd [Hrun Hok]%transaction_commit. erewrite bind_inr in Hrun by reflexivity.
  destruct (findb _ _) as [x|] eqn:Hf; [by injection Hrun as <- <- <-|].
  erewrite bind_inr in Hrun by reflexivity.
  set (x := manual_transaction (db_uuids db) school invoice reference bank amount currency who at_) in *.
  apply bind_inv_inr in Hrun as (? & db1 & Hs & Hrun). injection Hs as ?. subst db1.
  erewrite bind_inr in Hrun by reflexivity. autorewrite with store in Hrun.
  set (db1 := set_table PaymentTransactions _ _) in *.
  assert (db_tables db1 Invoices = db_tables db Invoices) as H1 by (unfold db1; by rewrite set_table_ne).
  assert (db_tables db1 PaymentTransactions = db_tables db PaymentTransactions ++ [x])%list as H2
    by (unfold db1; by rewrite set_table_eq).
  change (λ r : row Invoices, row_id Invoices r == invoice) with (λ r : table_row Invoices, table_id Invoices r == invoice) in Hrun.
  destruct (findb _ (db_tables db Invoices)) as [inv|] eqn:Hi.
  - apply (findb_id Invoices) in Hi as [Hin Hid]. change (invoice_id inv = invoice) in Hid.
    destruct (invoice_status inv == INVOICE_PAID) eqn:Hp; bool_to_prop.
    + injection Hrun as <- <- <-. split; [done|]. split; [unfold db1; rewrite set_table_uuids; simpl; lia|]. split; [done|].
      right. split_and!; [done|done|]. intros _ j Hj [= Hj']. by rewrite (NoDup_map_inj invoice_id _ j inv Hnd Hj Hin) by congruence.
    + apply bind_inv_inr in Hrun as (? & db2 & Hs & Hrun). injection Hs as ?. subst db2.
      apply bind_inv_inr in Hrun as (? & db3 & Ha & Hrun). injection Hrun as <- <- <-.
      assert (∀ t, t ∉ [Users] → db_tables db3 t = _) as Hfr
        by (intros t Ht; eapply (frames_run [Users]); [|exact Ha|exact Ht]; frames_tac).
      rewrite Hfr, set_table_ne, H2 by set_solver. split; [done|].
      split; [|split; [done|]; left; split_and!; [done|done|]].
      { assert (issued (db_uuids db + 1) db3) as Hissued; [|unfold issued in Hissued; lia].
        assert (keeps (issued (db_uuids db + 1)) (activate_paid_students inv)) as Hkeep
          by (unfold activate_paid_students; keeps_tac).
        eapply Hkeep; [|exact Ha]. unfold issued. rewrite set_table_uuids. unfold db1. rewrite set_table_uuids. simpl. lia. }
      exists inv. split_and!; [by rewrite <- Hid|done|done|].
      by rewrite Hfr, set_table_eq, H1 by set_solver.
  - injection Hrun as <- <- <-. split; [done|]. split; [unfold db1; rewrite set_table_uuids; simpl; lia|]. split; [done|].
    right. split_and!; [done|done|]. intros _ j Hj [= ->]. rewrite findb_None in Hi. specialize (Hi j Hj). by bool_to_prop.
Qed.

(** ** What a sequence of payments preserves *)

(** An invariant of the payment service: the steps it is made of, where
    [known school invoice i] is what is remembered of an invoice that was
    read. *)
Class PaymentInvariant (I : Database → Prop) (known : uuid → uuid → PayableInvoice → Prop) := {
  inv_uuid4 : preserves I uuid4;
  inv_known school invoice db i :
    I db → payable_invoice school invoice db = (inr (Some i), db) → known school invoice i;
  inv_create school invoice i reference currency actor :
    known school invoice i →
    preserves I (create_transaction school invoice reference (payable_amount i)
                   (to_minor_units (payable_amount i)) currency actor);
  inv_url school invoice reference amount minor currency actor db id db' url :
    I db → create_transaction school invoice reference amount minor currency actor db = (inr id, db') →
    preserves I (set_authorization_url id url);
  inv_settle reference status pref paid err auth cust now :
    preserves I (settle reference status pref paid err auth cust now);
  inv_manual school invoice i reference bank currency who at_ :
    known school invoice i →
    preserves I (record_manual_settlement school invoice reference bank (payable_amount i) currency who at_);
  inv_claim key ty payload : preserves I (claim_webhook_event key ty payload);
  inv_finish key status err now : preserves I (finish_webhook_event key status err now)
}.

Lemma payable_invoice_reads school invoice db : ∃ o, payable_invoice school invoice db = (inr o, db).
Proof.
  unfold payable_invoice, billing_contact_of. erewrite bind_inr by reflexivity.
  destruct (findb _ _) as [i|]; [|by eexists]. rewrite bind_run. erewrite bind_inr by reflexivity.
  destruct (findb _ _ ≫= _); by eexists.
Qed.

Lemma saved_method_reads school db : snd (saved_method school db) = db.
Proof.
  unfold saved_method, billing_contact_of. erewrite bind_inr by reflexivity.
  destruct (findb _ _ ≫= _) as [code|]; [|done]. rewrite bind_run. erewrite bind_inr by reflexivity.
  destruct (findb _ _ ≫= _); cbn; repeat case_match; done.
Qed.

Lemma outstanding_invoice_inv school invoice db i db' :
  outstanding_invoice school invoice db = (inr i, db') →
  db' = db ∧ payable_invoice school invoice db = (inr (Some i), db) ∧ payable_status i ≠ INVOICE_PAID.
Proof.
  unfold outstanding_invoice. destruct (payable_invoice_reads school invoice db) as [o Ho].
  rewrite (bind_inr _ _ _ _ _ Ho). destruct o as [j|]; [|done].
  destruct (payable_status j == INVOICE_PAID) eqn:Hp; [done|]. bool_to_prop. by intros [= <- <-].
Qed.

Lemma outstanding_invoice_reads school invoice db : snd (outstanding_invoice school invoice db) = db.
Proof.
  unfold outstanding_invoice. destruct (payable_invoice_reads school invoice db) as [o Ho].
  rewrite (bind_inr _ _ _ _ _ Ho). destruct o as [j|]; [|done]. by destruct (_ == _).
Qed.

Lemma preserves_raise_or (I : Database → Prop) {A} (r : exn + A) : preserves I (raise_or r : M A).
Proof. destruct r; [apply preserves_raise|apply preserves_ret]. Qed.
#[local] Hint Resolve preserves_raise_or : preserves.

Section Operations.
Context `{!Crypto} `{!Network} (settings : PaystackSettings).

Inductive payment_op :=
| op_start (school invoice : uuid) (actor : option uuid) (now : datetime)
| op_verify (reference : string) (now : datetime)
| op_charge (school invoice : uuid) (now : datetime)
| op_transfer (school invoice : uuid) (bank_reference : string) (who : uuid) (now : datetime)
| op_webhook (payload : string) (signature : option string) (now : datetime).

Definition run_payment_op (op : payment_op) : M unit :=
  match op with
  | op_start school invoice actor now => start_invoice_payment settings school invoice actor now;; mret tt
  | op_verify reference now => verify_reference settings reference now;; mret tt
  | op_charge school invoice now => charge_saved_method settings school invoice now;; mret tt
  | op_transfer school invoice bank_reference who now =>
    confirm_manual_transfer settings school invoice bank_reference who now;; mret tt
  | op_webhook payload signature now => handle_webhook settings payload signature now;; mret tt
  end.

(** Every operation is applied whatever became of the ones before it. *)
Definition run_payment_ops (ops : list payment_op) (db : Database) : Database :=
  foldl (λ db op, snd (run_payment_op op db)) db ops.

Section Preserved.
Context (I : Database → Prop) (known : uuid → uuid → PayableInvoice → Prop) `{!PaymentInvariant I known}.

#[local] Hint Resolve inv_uuid4 inv_create inv_settle inv_manual inv_claim inv_finish : preserves.
#[local] Hint Extern 1 (preserves _ (outstanding_invoice _ _)) =>
  apply preserves_reads; intros ?; apply outstanding_invoice_reads : preserves.
#[local] Hint Extern 1 (preserves _ (saved_method _)) =>
  apply preserves_reads; intros ?; apply saved_method_reads : preserves.

Lemma http_preserves method path payload : preserves I (http settings method path payload).
Proof. unfold http, client_headers, client_secret. preserves_tac. Qed.
#[local] Hint Resolve http_preserves : preserves.

Lemma settle_provider_preserves pt now : preserves I (settle_provider pt now).
Proof. unfold settle_provider, transaction_by_reference. preserves_tac. Qed.
#[local] Hint Resolve settle_provider_preserves : preserves.

Lemma new_reference_preserves number now : preserves I (new_reference number now).
Proof. unfold new_reference, draw. preserves_tac. Qed.
#[local] Hint Resolve new_reference_preserves : preserves.

Lemma verify_transaction_preserves reference : preserves I (verify_transaction settings reference).
Proof. unfold verify_transaction, client_get. preserves_tac. Qed.
#[local] Hint Resolve verify_transaction_preserves : preserves.

Lemma outstanding_then {A} school invoice (k : PayableInvoice → M A) :
  (∀ i, known school invoice i → preserves I (k i)) → preserves I (outstanding_invoice school invoice ≫= k).
Proof.
  intros Hk. apply preserves_bind_run; [eauto with preserves|]. intros db i db' Hdb Hrun.
  apply outstanding_invoice_inv in Hrun as (-> & Hrun & _). apply Hk. by eapply inv_known.
Qed.

Lemma start_preserves school invoice actor now :
  preserves I (start_invoice_payment settings school invoice actor now).
Proof.
  unfold start_invoice_payment, require_configured, initialize_transaction, client_post.
  apply preserves_bind; [preserves_tac|intros _]. apply outstanding_then; intros i Hi.
  apply preserves_bind; [preserves_tac|intros email].
  apply preserves_bind; [preserves_tac|intros reference].
  apply preserves_bind_run; [eauto with preserves|]. intros db id db' Hdb Hrun.
  apply preserves_bind; [preserves_tac|intros url].
  apply preserves_bind; [by eapply inv_url|intros _]. apply preserves_ret.
Qed.

Lemma charge_preserves school invoice now : preserves I (charge_saved_method settings school invoice now).
Proof.
  unfold charge_saved_method, require_configured, charge_authorization, client_post.
  apply preserves_bind; [preserves_tac|intros _]. apply outstanding_then; intros i Hi. preserves_tac.
Qed.

Lemma transfer_preserves school invoice bank who now :
  preserves I (confirm_manual_transfer settings school invoice bank who now).
Proof. unfold confirm_manual_transfer. apply outstanding_then; intros i Hi. preserves_tac. Qed.

Lemma verify_preserves reference now : preserves I (verify_reference settings reference now).
Proof. unfold verify_reference, require_configured, transaction_by_reference. preserves_tac. Qed.

Lemma process_event_preserves key ty reference now : preserves I (process_event settings key ty reference now).
Proof. unfold process_event. preserves_tac. Qed.
#[local] Hint Resolve process_event_preserves : preserves.

Lemma webhook_preserves payload signature now : preserves I (handle_webhook settings payload signature now).
Proof.
  unfold handle_webhook, require_configured, client_secret. preserves_tac.
Qed.

Lemma payment_op_preserves op : preserves I (run_payment_op op).
Proof.
  destruct op; simpl; apply preserves_bind; auto using preserves_ret, start_preserves, charge_preserves,
    transfer_preserves, verify_preserves, webhook_preserves.
Qed.

Theorem payment_ops_preserve ops db : I db → I (run_payment_ops ops db).
Proof.
  revert db. induction ops as [|op ops IH]; intros db Hdb; [done|]. by apply IH, payment_op_preserves.
Qed.
End Preserved.
End Operations.

(** *** The constraints hold *)

Lemma preserves_ok_begin {A} (m : M A) : preserves (λ db, db_ok db = true) (begin_ m).
Proof. apply transaction_preserves_ok. Qed.
Lemma preserves_ok_uuid4 : preserves (λ db, db_ok db = true) uuid4.
Proof. intros db Hdb. exact Hdb. Qed.

#[local] Hint Resolve preserves_ok_begin preserves_ok_uuid4 : preserves.

#[export] Instance ok_invariant : PaymentInvariant (λ db, db_ok db = true) (λ _ _ _, True).
Proof.
  split; intros; first [ apply preserves_ok_uuid4 | exact I | unfold create_transaction; preserves_tac
                       | apply preserves_ok_begin ].
Qed.

(** *** What was paid stays paid *)

#[local] Hint Resolve preserves_kept_begin : preserves.
#[local] Hint Extern 1 (keeps _ (billing_recipients _)) => apply keeps_reads; reflexivity : keeps.
#[local] Hint Extern 1 (keeps (kept _ _) (activate_paid_students _)) =>
  unfold activate_paid_students; keeps_tac : keeps.
#[local] Hint Extern 1 (keeps (kept _ _) (notify_each _ _ _ _ _)) =>
  unfold notify_each, notify; keeps_tac : keeps.
#[local] Hint Extern 1 (keeps (kept _ _) (upsert_payment_method _ _ _ _)) =>
  unfold upsert_payment_method; keeps_tac : keeps.

Section KeptInvoice.
Context (i : Invoice) (Hi : invoice_status i = INVOICE_PAID).

Lemma keeps_kept_pay x : keeps (kept Invoices i) (pay_invoice x).
Proof.
  unfold pay_invoice. destruct (tx_invoice_id x) as [k|]; [|keeps_tac].
  apply (keeps_kept_found Invoices); [keeps_tac|]. intros j _ Hj.
  destruct (invoice_status j == INVOICE_PAID) eqn:Hp; bool_to_prop; [keeps_tac|].
  apply keeps_bind; [|intros _; keeps_tac].
  apply keeps_kept_save_same. intros Heq. by rewrite (Hj Heq) in Hp.
Qed.
#[local] Hint Resolve keeps_kept_pay : keeps.

#[export] Instance paid_invoice_invariant : PaymentInvariant (kept Invoices i) (λ _ _ _, True).
Proof.
  split; intros; try exact I.
  - apply preserves_kept_uuid4.
  - unfold create_transaction. apply preserves_bind; [apply preserves_kept_uuid4|intros id].
    apply preserves_bind; [apply preserves_kept_begin; keeps_tac|intros _; apply preserves_ret].
  - apply preserves_kept_begin. keeps_tac.
  - apply preserves_kept_begin. apply keeps_bind; [keeps_tac|intros [x|]]; cbv zeta; keeps_tac.
  - apply preserves_kept_begin. apply keeps_bind; [keeps_tac|intros [x|]]; [keeps_tac|].
    apply keeps_bind; [keeps_tac|intros id]. apply keeps_bind; [keeps_tac|intros _].
    apply (keeps_kept_found Invoices); [keeps_tac|]. intros j _ Hj.
    destruct (invoice_status j == INVOICE_PAID) eqn:Hp; bool_to_prop; [keeps_tac|].
    apply keeps_bind; [|intros _; keeps_tac].
    apply keeps_kept_save_same. intros Heq. by rewrite (Hj Heq) in Hp.
  - apply preserves_kept_begin. unfold claim_webhook_event. keeps_tac.
  - apply preserves_kept_begin. keeps_tac.
Qed.
End KeptInvoice.

Section KeptTransaction.
Context (x : PaymentTransaction) (Hx : tx_status x = TX_SUCCESS).

Lemma keeps_kept_tx_pay y : keeps (kept PaymentTransactions x) (pay_invoice y).
Proof. unfold pay_invoice. keeps_tac. Qed.
#[local] Hint Resolve keeps_kept_tx_pay : keeps.

(** A new transaction has an identifier of its own. *)
Lemma create_transaction_kept school invoice reference amount minor currency actor :
  preserves (kept PaymentTransactions x)
    (create_transaction school invoice reference amount minor currency actor).
Proof.
  intros db Hdb. destruct (create_transaction _ _ _ _ _ _ _ db) as [r db'] eqn:Hrun.
  apply create_transaction_inv in Hrun as [(_ & Ht & Hu)|(_ & _ & ->)]; cbn [snd].
  - eapply kept_other; [done|by rewrite Ht|lia].
  - by apply kept_appended.
Qed.

#[export] Instance successful_transaction_invariant : PaymentInvariant (kept PaymentTransactions x) (λ _ _ _, True).
Proof.
  split; intros; try exact I.
  - apply preserves_kept_uuid4.
  - apply create_transaction_kept.
  - lazymatch goal with Hrun : create_transaction _ _ _ _ _ _ _ _ = _ |- _ =>
      apply create_transaction_inv in Hrun as [(? & _)|(Hid & _ & _)] end; [done|]. injection Hid as ->.
    apply preserves_kept_begin, (keeps_kept_found PaymentTransactions); [keeps_tac|]. intros y Hy _.
    apply keeps_kept_save_same. bool_to_prop. pose proof (kept_issued _ _ _ ltac:(eassumption)) as Hlt.
    simpl in *. lia.
  - apply preserves_kept_begin. apply (keeps_kept_found PaymentTransactions); [keeps_tac|]. intros y _ Hy.
    destruct (tx_status y == TX_SUCCESS) eqn:Hp; bool_to_prop; [keeps_tac|].
    cbv zeta. apply keeps_bind; [|intros _; keeps_tac].
    apply keeps_kept_save_same. intros Heq. by rewrite (Hy Heq) in Hp.
  - apply preserves_kept_begin. apply keeps_bind; [keeps_tac|intros [y|]]; [keeps_tac|].
    apply (keeps_kept_insert_fresh PaymentTransactions); [done|]. intros id. keeps_tac.
  - apply preserves_kept_begin. unfold claim_webhook_event. keeps_tac.
  - apply preserves_kept_begin. keeps_tac.
Qed.
End KeptTransaction.

Section Theorems.
Context `{!Crypto} `{!Network} (settings : PaystackSettings).

Lemma payment_ops_ok ops db : db_ok db = true → db_ok (run_payment_ops settings ops db) = true.
Proof. apply (payment_ops_preserve settings (λ db, db_ok db = true) (λ _ _ _, True)). Qed.

Lemma kept_success x ops db :
  kept PaymentTransactions x db → tx_status x = TX_SUCCESS →
  kept PaymentTransactions x (run_payment_ops settings ops db).
Proof.
  intros Hk Hs. pose proof (successful_transaction_invariant x Hs).
  by apply (payment_ops_preserve settings (kept PaymentTransactions x) (λ _ _ _, True)).
Qed.

(** Money that was received stays received. Whatever payment operations follow, in any order
    and with any answers of the processor, an invoice that is paid and a transaction that
    succeeded stay exactly as they are. *)
Theorem paid_stays_paid ops db :
  db_wf db →
  (∀ i : Invoice, i ∈ db_tables db Invoices → invoice_status i = INVOICE_PAID →
     i ∈ db_tables (run_payment_ops settings ops db) Invoices) ∧
  (∀ x : PaymentTransaction, x ∈ db_tables db PaymentTransactions → tx_status x = TX_SUCCESS →
     x ∈ db_tables (run_payment_ops settings ops db) PaymentTransactions).
Proof.
  intros Hwf. split.
  - intros i Hi Hpaid. pose proof (paid_invoice_invariant i Hpaid).
    by eapply kept_in, (payment_ops_preserve settings (kept Invoices i) (λ _ _ _, True)), wf_kept.
  - intros x Hx Hpaid. by eapply kept_in, kept_success, Hpaid; apply wf_kept.
Qed.
End Theorems.
