(* ===== verification/PaymentBooks.v ===== *)
(** * The books balance

    Through any sequence of payments, an invoice is paid exactly when there is
    a successful transaction for it, of its school and its amount; value is
    given only for the amount that was asked; a callback is applied once. *)

From Stdlib Require Import String.
From S2P Require Import Prelude Relational Text Vocabulary Schema Crypto Notices PermissionRepo Json Kept Money Paystack PaymentRepo PaymentService PaymentFacts.

Local Open Scope string_scope.
Local Open Scope Z_scope.
Local Open Scope nevo_scope.

(** ** Invoices and their transactions *)

(** What a transaction says of the money. *)
Definition money_of (x : PaymentTransaction) :=
  (tx_invoice_id x, tx_status x, tx_paid_at x,
   (tx_school_id x, tx_amount x, tx_amount_minor x, tx_provider x)).

(** What an invoice asks: its identifier, school and amount. *)
Definition bill_of (i : Invoice) : uuid * (uuid * decimal) :=
  (invoice_id i, (invoice_school_id i, invoice_amount i)).

(** A transaction is for the school and the amount of its invoice, and asks
    the processor for that amount. *)
Definition well_asked (bills : list (uuid * (uuid * decimal))) (x : PaymentTransaction) : Prop :=
  (∀ k b, tx_invoice_id x = Some k → (k, b) ∈ bills → (tx_school_id x, tx_amount x) = b) ∧
  (tx_provider x ≠ MANUAL_PROVIDER → tx_amount_minor x = to_minor_units (tx_amount x)).

(** The transaction [x] paid the invoice [i]. *)
Definition pays (x : PaymentTransaction) (i : Invoice) : Prop :=
  tx_invoice_id x = Some (invoice_id i) ∧ tx_status x = TX_SUCCESS.

Record balanced (bills : list (uuid * (uuid * decimal))) (db : Database) : Prop := {
  bal_ok : db_ok db = true;
  bal_bills : map bill_of (db_tables db Invoices) = bills;
  bal_asked : ∀ x, x ∈ db_tables db PaymentTransactions → well_asked bills x;
  bal_paid : ∀ i, i ∈ db_tables db Invoices → invoice_status i = INVOICE_PAID →
    ∃ x, x ∈ db_tables db PaymentTransactions ∧ pays x i ∧ tx_paid_at x = invoice_paid_at i;
  bal_success : ∀ i x, i ∈ db_tables db Invoices → x ∈ db_tables db PaymentTransactions → pays x i →
    invoice_status i = INVOICE_PAID
}.

Lemma balanced_ids bills db : balanced bills db → NoDup (map invoice_id (db_tables db Invoices)).
Proof. intros Hb. pose proof (bal_ok _ _ Hb) as Hok. rewrite db_ok_spec in Hok. exact (table_primary_key Invoices _ (Hok Invoices)). Qed.

Lemma bills_functional bills db k b b' :
  balanced bills db → (k, b) ∈ bills → (k, b') ∈ bills → b = b'.
Proof.
  intros Hb Hk Hk'. rewrite <- (bal_bills _ _ Hb) in Hk, Hk'.
  apply list_elem_of_fmap in Hk as (j & [= -> ->] & Hj), Hk' as (i & [= Hid ->] & Hi).
  by rewrite (NoDup_map_inj invoice_id _ i j (balanced_ids _ _ Hb) Hi Hj).
Qed.

Lemma same_money_asked bills x y : money_of x = money_of y → well_asked bills x → well_asked bills y.
Proof. unfold money_of, well_asked. intros [= Hi _ _ Hs Ha Hm Hp]. by rewrite Hi, Hs, Ha, Hm, Hp. Qed.

Lemma same_money_pays x y i : money_of x = money_of y → pays x i → pays y i.
Proof. unfold money_of, pays. intros [= Hi Hs _ _ _ _ _]. by rewrite Hi, Hs. Qed.

(** Other tables, and other columns of a transaction, do not matter. *)
Lemma balanced_booked bills db db' x p :
  balanced bills db → db_ok db' = true → well_asked bills x →
  (∀ y, y ∈ db_tables db' PaymentTransactions →
     y = x ∨ ∃ y0, y0 ∈ db_tables db PaymentTransactions ∧ money_of y0 = money_of y) →
  x ∈ db_tables db' PaymentTransactions →
  (∀ y0, y0 ∈ db_tables db PaymentTransactions → tx_status y0 = TX_SUCCESS →
     ∃ y, y ∈ db_tables db' PaymentTransactions ∧ money_of y0 = money_of y) →
  booked x p db db' → balanced bills db'.
Proof.
  intros Hb Hok Hx Hnew Hxin Hold Hbooked.
  assert (∀ j, j ∈ db_tables db Invoices → invoice_status j = INVOICE_PAID →
    ∃ y, y ∈ db_tables db' PaymentTransactions ∧ pays y j ∧ tx_paid_at y = invoice_paid_at j) as Hpaid.
  { intros j Hj Hp. destruct (bal_paid _ _ Hb j Hj Hp) as (y0 & Hy0 & Hpays & Hat).
    destruct (Hold y0 Hy0 (proj2 Hpays)) as (y & Hy & Hm). exists y. split_and!; [done| |].
    - by eapply same_money_pays.
    - unfold money_of in Hm. congruence. }
  assert (∀ y, y ∈ db_tables db' PaymentTransactions → y = x ∨
    ∀ j, j ∈ db_tables db Invoices → pays y j → invoice_status j = INVOICE_PAID) as Hsuc.
  { intros y [->|(y0 & Hy0 & Hm)]%Hnew; [by left|]. right. intros j Hj Hpays.
    eapply (bal_success _ _ Hb j y0); [done|done|]. by eapply same_money_pays. }
  assert (∀ y, y ∈ db_tables db' PaymentTransactions → well_asked bills y) as Hasked.
  { intros y [->|(y0 & Hy0 & Hm)]%Hnew; [done|]. eapply same_money_asked; [done|]. by eapply bal_asked. }
  destruct Hbooked as [(-> & Hst & i & Hi & Hin & Hunpaid & Ht)|(-> & Ht & Hall)].
  - assert (∀ j, j ∈ db_tables db Invoices → invoice_id j = invoice_id i → j = i) as Hsame.
    { intros j Hj. exact (NoDup_map_inj invoice_id _ j i (balanced_ids _ _ Hb) Hj Hin). }
    split; [done| |done| |]; rewrite Ht.
    + rewrite map_update_list; [by apply (bal_bills _ _ Hb)|]. intros j Hj Hid. bool_to_prop. by rewrite (Hsame j).
    + intros j' (j & Hj & ->)%elem_of_update_list. case_bool_decide as Hc; [|by apply Hpaid].
      intros _. by exists x.
    + intros j' y (j & Hj & ->)%elem_of_update_list Hy. case_bool_decide as Hc; [done|]. intros Hpays.
      apply Hsuc in Hy as [->|Hy]; [|by apply Hy]. destruct Hpays as [Hpj _]. congruence.
  - split; [done| |done| |]; rewrite Ht.
    + by apply bal_bills.
    + exact Hpaid.
    + intros j y Hj Hy Hpays. apply Hsuc in Hy as [->|Hy]; [|by apply Hy].
      destruct Hpays as [Hk Hs]. by apply Hall.
Qed.

Lemma balanced_same bills db db' :
  balanced bills db → db_ok db' = true → db_tables db' Invoices = db_tables db Invoices →
  db_tables db' PaymentTransactions = db_tables db PaymentTransactions → balanced bills db'.
Proof. intros [] Hok Hi Ht. split; rewrite ?Hi, ?Ht; done. Qed.

Lemma balanced_begin bills {A} (m : M A) ts :
  frames ts m → Invoices ∉ ts → PaymentTransactions ∉ ts → preserves (balanced bills) (begin_ m).
Proof.
  intros Hm Hi Ht db Hdb. apply (balanced_same bills db); [done| | |].
  - apply transaction_preserves_ok, (bal_ok _ _ Hdb).
  - by apply (frames_transaction ts).
  - by apply (frames_transaction ts).
Qed.

(** *** The statements on transactions *)

Section Updated.
Context (bills : list (uuid * (uuid * decimal))) (db db' : Database) (Hb : balanced bills db).
Context (x x' : PaymentTransaction) (Hx : x ∈ db_tables db PaymentTransactions).
Hypothesis (Hok : db_ok db' = true).
Hypothesis (Ht : db_tables db' PaymentTransactions =
  update_list (λ y : PaymentTransaction, tx_id y == tx_id x) (λ _ : PaymentTransaction, x')
    (db_tables db PaymentTransactions)).

(** An assignment to a transaction that keeps what was asked, and its money
    if it was received. *)
Lemma balanced_update p :
  tx_invoice_id x' = tx_invoice_id x → tx_school_id x' = tx_school_id x → tx_amount x' = tx_amount x →
  tx_amount_minor x' = tx_amount_minor x → tx_provider x' = tx_provider x →
  (tx_status x = TX_SUCCESS → money_of x = money_of x') → booked x' p db db' → balanced bills db'.
Proof.
  intros Hi Hs Ha Hm Hp Hsame Hbooked.
  assert (NoDup (map tx_id (db_tables db PaymentTransactions))) as Hnd.
  { pose proof (bal_ok _ _ Hb) as Hok0. rewrite db_ok_spec in Hok0.
    exact (table_primary_key PaymentTransactions _ (Hok0 PaymentTransactions)). }
  eapply (balanced_booked bills db db' x' p); rewrite ?Ht; [done|done| | | | |done].
  - pose proof (bal_asked _ _ Hb x Hx) as Hw. unfold well_asked in *. by rewrite Hi, Hs, Ha, Hm, Hp.
  - intros y (z & Hz & ->)%elem_of_update_list. case_bool_decide; [by left|]. right. by exists z.
  - apply elem_of_update_list. exists x. split; [done|]. by rewrite bool_decide_true.
  - intros y Hy Hsuc. destruct (decide (tx_id y = tx_id x)) as [Heq|Hne].
    + rewrite (NoDup_map_inj tx_id _ y x Hnd Hy Hx Heq) in *. exists x'. split; [|by apply Hsame].
      apply elem_of_update_list. exists x. split; [done|]. by rewrite bool_decide_true.
    + exists y. split; [|done]. apply elem_of_update_list. exists y. split; [done|]. by rewrite bool_decide_false.
Qed.
End Updated.

Lemma balanced_insert bills db db' x p :
  balanced bills db → db_ok db' = true → well_asked bills x →
  db_tables db' PaymentTransactions = (db_tables db PaymentTransactions ++ [x])%list →
  booked x p db db' → balanced bills db'.
Proof.
  intros Hb Hok Hx Ht Hbooked. eapply (balanced_booked bills db db' x p); rewrite ?Ht; [done|done|done| | | |done].
  - intros y [Hy|Hy]%elem_of_app; [right; by exists y|]. left. by apply list_elem_of_singleton in Hy.
  - apply elem_of_app. right. by apply list_elem_of_singleton.
  - intros y Hy _. exists y. split; [|done]. apply elem_of_app. by left.
Qed.

#[export] Instance balanced_invariant bills :
  PaymentInvariant (balanced bills) (λ school invoice i, (invoice, (school, payable_amount i)) ∈ bills).
Proof.
  split.
  - intros db Hdb. by apply (balanced_same bills db); [|apply (bal_ok _ _ Hdb)| |].
  - intros school invoice db i Hdb. unfold payable_invoice. erewrite bind_inr by reflexivity.
    destruct (findb _ _) as [r|] eqn:Hf; [|done]. apply findb_Some in Hf as [Hp Hr].
    intros (c & db1 & _ & [= <- _])%bind_inv_inr. cbn. bool_to_prop.
    rewrite <- (bal_bills _ _ Hdb). apply list_elem_of_fmap. exists r. by subst.
  - intros school invoice i reference currency actor Hknown db Hdb.
    destruct (create_transaction _ _ _ _ _ _ _ db) as [r db'] eqn:Hrun.
    apply create_transaction_inv in Hrun as [(_ & Ht & Hu)|(_ & Hok & Heq)]; cbn [snd].
    + apply (balanced_same bills db); rewrite ?Ht; [done| |done|done].
      pose proof (bal_ok _ _ Hdb) as Hok. rewrite db_ok_spec in *. by rewrite Ht.
    + set (mk := attempt _ _ _ _ _ _ _) in Heq.
      apply (balanced_insert bills db db' (mk (db_uuids db)) false); [done|done| | |].
      * split; [|done]. intros k b [= <-] Hk. by eapply bills_functional.
      * rewrite Heq. exact (appended_eq PaymentTransactions mk db).
      * right. split_and!; [done| |done]. rewrite Heq. by apply (appended_ne PaymentTransactions).
  - intros _ _ _ _ _ _ _ _ id _ url _ _ db Hdb. unfold set_authorization_url, begin_.
    destruct (transaction _ _ db) as [[e|[]] db'] eqn:Hrun; [by apply transaction_raise in Hrun as ->|].
    apply transaction_commit in Hrun as [Hrun Hok]. erewrite bind_inr in Hrun by reflexivity.
    destruct (findb _ _) as [x|] eqn:Hf; [|by injection Hrun as <-].
    apply findb_Some in Hf as [_ Hx]. injection Hrun as <-.
    eapply (balanced_update bills db _ Hdb x _ Hx Hok (set_table_eq _ _ _) false); try done.
    right. split_and!; [done|by apply set_table_ne|]. intros Hs i Hi Hk.
    by apply (bal_success _ _ Hdb i x).
  - intros reference status pref paid err auth cust now db Hdb.
    destruct (settle _ _ _ _ _ _ _ _ db) as [[e|[p s]] db'] eqn:Hrun; [by apply transaction_raise in Hrun as ->|].
    pose proof Hrun as [_ Hok]%transaction_commit.
    apply settle_inv in Hrun; [|by eapply balanced_ids].
    destruct (findb _ _) as [x|] eqn:Hf; [|by destruct Hrun as [_ ->]].
    apply findb_Some in Hf as [_ Hx].
    destruct (tx_status x == TX_SUCCESS) eqn:Hs; [by destruct Hrun as [_ ->]|]. bool_to_prop.
    destruct Hrun as [Ht Hbooked]. eapply (balanced_update bills db db' Hdb x _ Hx Hok Ht p); done.
  - intros school invoice i reference bank currency who at_ Hknown db Hdb.
    destruct (record_manual_settlement _ _ _ _ _ _ _ _ db) as [[e|[id p]] db'] eqn:Hrun;
      [by apply transaction_raise in Hrun as ->|].
    pose proof Hrun as [_ Hok]%transaction_commit.
    apply manual_settlement_inv in Hrun; [|by eapply balanced_ids].
    destruct (findb _ _) as [x|] eqn:Hf; [by destruct Hrun as (_ & _ & ->)|].
    destruct Hrun as (-> & _ & Ht & Hbooked). eapply balanced_insert; [done|done| |done|done].
    split; [|done]. intros k b [= <-] Hk. by eapply bills_functional.
  - intros key ty payload. apply (balanced_begin bills _ [PaymentWebhookEvents]); [|set_solver..].
    frames_tac.
  - intros key status err now. apply (balanced_begin bills _ [PaymentWebhookEvents]); [|set_solver..].
    frames_tac.
Qed.

(** ** Value only for the amount asked *)

Lemma amount_matches_spec expected currency pt :
  amount_matches expected currency pt = true ↔
    pt_amount_minor pt = expected ∧
    (upper (strip (pt_currency pt)) = "" ∨ upper (strip (pt_currency pt)) = upper currency).
Proof.
  unfold amount_matches, truthy. destruct (pt_amount_minor pt != expected) eqn:He; bool_to_prop.
  - split; [done|]. by intros [? _].
  - rewrite negb_involutive, orb_true_iff, !bool_decide_eq_true. naive_solver.
Qed.

(** A transaction is settled as successful only on a matching answer. *)
Lemma settlement_success t pt err :
  settlement t pt = (TX_SUCCESS, err) →
  pt_status pt = TX_SUCCESS ∧ amount_matches (txr_amount_minor t) (value (txr_currency t)) pt = true.
Proof.
  unfold settlement. destruct (pt_status pt == TX_SUCCESS) eqn:Hs; bool_to_prop; [|by intros [= ?]].
  destruct (amount_matches _ _ _); [done|]. by simpl.
Qed.

(** An answer for what the transaction asked. *)
Definition as_asked (x : PaymentTransaction) (pt : ProviderTransaction) : Prop :=
  pt_amount_minor pt = tx_amount_minor x ∧
  (upper (strip (pt_currency pt)) = "" ∨ upper (strip (pt_currency pt)) = upper (value (tx_currency x))).

(** What the answer is settled with. *)
Lemma settlement_spec x pt status error :
  settlement (transaction_record x) pt = (status, error) →
  (status = TX_SUCCESS ↔ pt_status pt = TX_SUCCESS ∧ as_asked x pt) ∧
  (pt_status pt = TX_SUCCESS → ¬ as_asked x pt → status = TX_FAILED ∧ ∃ m, error = Some m) ∧
  (pt_status pt ≠ TX_SUCCESS → status = pt_status pt).
Proof.
  unfold settlement, as_asked. rewrite <- amount_matches_spec.
  change (txr_amount_minor (transaction_record x)) with (tx_amount_minor x).
  change (txr_currency (transaction_record x)) with (tx_currency x).
  destruct (pt_status pt == TX_SUCCESS) eqn:Hs; bool_to_prop; cbn [andb].
  - destruct (amount_matches _ _ _); cbn [negb]; intros [= <- <-]; (split; [|split]); try done.
    + split; [done|]. by intros [_ ?].
    + intros _ _. split; [done|]. by eexists.
  - intros [= <- <-]. split; [|split]; try done. split; [done|]. by intros [? _].
Qed.

Section Settling.
Context (pt : ProviderTransaction) (now : datetime).

(** Three cases: the reference is unknown, the transaction had succeeded
    already, or it is settled with the processor's answer. *)
Lemma settle_provider_inv db o db' :
  settle_provider pt now db = (inr o, db') →
  ∃ x, findb (by_reference (pt_reference pt)) (db_tables db PaymentTransactions) = Some x ∧
    let t := transaction_record x in
    if tx_status x == TX_SUCCESS then o = already_settled t ∧ db' = db
    else
      let '(status, error) := settlement t pt in
      outcome_status o = status ∧
      settle (tx_reference x) status (pt_provider_reference pt) (pt_paid_at pt)
        (if status == TX_SUCCESS then None else error) (pt_authorization pt) None now db
        = (inr (outcome_invoice_paid o, outcome_payment_method_saved o), db').
Proof.
  unfold settle_provider, transaction_by_reference. rewrite bind_run. erewrite bind_inr by reflexivity.
  destruct (findb _ _) as [x|] eqn:Hf; [|done]. intros Hrun. exists x. split; [done|].
  cbn [fmap option_fmap option_map mret comp_ret] in Hrun. cbv zeta.
  change (txr_status (transaction_record x)) with (tx_status x) in Hrun.
  destruct (tx_status x == TX_SUCCESS); [by injection Hrun as <- <-|].
  destruct (settlement (transaction_record x) pt) as [status error].
  apply bind_inv_inr in Hrun as ([p s] & db1 & Hs & Hrun). injection Hrun as <- <-. by split.
Qed.
End Settling.

(** References are unique, so a transaction is found by its own. *)
Lemma reference_found x db :
  db_ok db = true → x ∈ db_tables db PaymentTransactions →
  findb (A := @row Table nevo_schema PaymentTransactions) (by_reference (tx_reference x))
    (db_tables db PaymentTransactions) = Some x.
Proof.
  intros Hok Hx. apply findb_unique; [exact Hx|by apply bool_decide_true|].
  intros y Hy Hyr. unfold by_reference in Hyr. bool_to_prop.
  rewrite db_ok_spec in Hok. specialize (Hok PaymentTransactions). simpl in Hok. unfold transactions_ok in Hok.
  bool_to_prop.
  eapply (unique_on_eq (λ r, Some (tx_reference r))); [eassumption|exact Hy|exact Hx|reflexivity|congruence].
Qed.

Section Theorems.
Context `{!Crypto} `{!Network} (settings : PaystackSettings).

(** C5: the books balance. If every paid invoice has a successful transaction of its school
    for its amount and every successful transaction's invoice is paid, that is still so after
    any sequence of payment operations, whatever the processor answers; the amounts asked stay
    those of the invoices, and no operation changes what an invoice asks. *)
Theorem books_balance bills ops db :
  balanced bills db → balanced bills (run_payment_ops settings ops db).
Proof. eapply payment_ops_preserve, balanced_invariant. Qed.

(** C6: value is given only for the amount that was asked. Settling the processor's answer
    concerns the one transaction with its reference. When that had succeeded already, nothing
    is written. Otherwise the answer is stored on it and on no other: it becomes a success
    exactly when the answer is one for the amount asked, in the currency asked or with the
    currency left empty; a success for anything else is stored as failed, with an error and no
    moment of payment, and any other answer with its own status and no moment of payment. An
    invoice is paid only with such a success, it is the invoice of that transaction, alone,
    and it was not paid before; in every other case no invoice changes. *)
Theorem value_only_for_the_amount_asked pt now db o db' :
  db_ok db = true → settle_provider pt now db = (inr o, db') →
  ∃ x, x ∈ db_tables db PaymentTransactions ∧ tx_reference x = pt_reference pt ∧
  if tx_status x == TX_SUCCESS then db' = db ∧ outcome_invoice_paid o = false
  else
    ∃ x', db_tables db' PaymentTransactions = update_list (λ y : PaymentTransaction, tx_id y == tx_id x)
        (λ _ : PaymentTransaction, x') (db_tables db PaymentTransactions) ∧
      (tx_id x', tx_reference x', tx_invoice_id x', tx_amount_minor x') =
        (tx_id x, tx_reference x, tx_invoice_id x, tx_amount_minor x) ∧
      outcome_status o = tx_status x' ∧
      (tx_status x' = TX_SUCCESS ↔ pt_status pt = TX_SUCCESS ∧ as_asked x pt) ∧
      (pt_status pt = TX_SUCCESS → ¬ as_asked x pt →
         tx_status x' = TX_FAILED ∧ tx_paid_at x' = None ∧ ∃ m, tx_last_error x' = Some m) ∧
      (pt_status pt ≠ TX_SUCCESS → tx_status x' = pt_status pt ∧ tx_paid_at x' = None) ∧
      if outcome_invoice_paid o then
        tx_status x' = TX_SUCCESS ∧ ∃ i, tx_invoice_id x = Some (invoice_id i) ∧ i ∈ db_tables db Invoices ∧
          invoice_status i ≠ INVOICE_PAID ∧
          db_tables db' Invoices = update_list (λ y : Invoice, invoice_id y == invoice_id i)
            (λ _ : Invoice, paid_invoice i (or_else (pt_paid_at pt) (Some now))) (db_tables db Invoices)
      else db_tables db' Invoices = db_tables db Invoices.
Proof.
  intros Hok Hrun. apply settle_provider_inv in Hrun as (x & Hf & Hrun). cbv zeta in Hrun.
  assert (NoDup (map invoice_id (db_tables db Invoices))) as Hnd
    by (rewrite db_ok_spec in Hok; exact (table_primary_key Invoices _ (Hok Invoices))).
  pose proof (findb_Some _ _ _ Hf) as [Href Hx]. unfold by_reference in Href. bool_to_prop.
  exists x. split; [done|]. split; [done|]. destruct (tx_status x == TX_SUCCESS) eqn:Hs; bool_to_prop.
  { by destruct Hrun as [-> ->]. }
  destruct (settlement (transaction_record x) pt) as [status error] eqn:Hset.
  destruct Hrun as [Hst Hsettle]. apply settle_inv in Hsettle; [|done].
  rewrite Href, Hf, bool_decide_false in Hsettle by done. destruct Hsettle as [Ht Hbooked].
  apply settlement_spec in Hset as (Hsuc & Hmiss & Hother).
  eexists. split; [exact Ht|]. split; [done|]. split; [exact Hst|]. split; [exact Hsuc|]. split; [|split].
  - intros H1 H2. destruct (Hmiss H1 H2) as (Hfail & m & Hm). rewrite Hm. cbn. rewrite Hfail. split; [done|]. split; [done|]. by exists m.
  - intros H1. cbn. rewrite (Hother H1). split; [done|]. by rewrite bool_decide_false.
  - destruct Hbooked as [(Hp & Hs' & i & Hi & Hin & Hunpaid & Hinv)|(Hp & Hinv & _)]; rewrite Hp; [|done].
    split; [done|]. exists i. split; [done|]. split; [done|]. split; [done|]. rewrite Hinv. cbn. cbn in Hs'. by rewrite bool_decide_true.
Qed.
End Theorems.
