(* ===== verification/PaymentPays.v ===== *)
(** * A matching payment pays the invoice

    On a database the program can reach, settling a successful answer for the
    amount asked commits: the invoice is paid and its learners are active. *)

From Stdlib Require Import String.
From S2P Require Import Prelude Relational Text Vocabulary Schema Crypto Notices PermissionRepo Json Kept Money Paystack PaymentRepo PaymentService PaymentFacts PaymentBooks.

Local Open Scope string_scope.
Local Open Scope Z_scope.
Local Open Scope nevo_scope.

(** * Payments and callbacks are applied once

    A payment that was settled, a callback that was claimed and a bank
    transfer that was recorded are not applied again, whatever happened in
    between; and a matching payment is applied. *)

(** ** Callbacks that were claimed *)

Record claimed (key : string) (db : Database) : Prop := {
  claimed_ok : db_ok db = true;
  claimed_event : ∃ e : PaymentWebhookEvent, e ∈ db_tables db PaymentWebhookEvents ∧ is_event PROVIDER key e = true
}.

Lemma claimed_frames key {A} ts (m : M A) :
  preserves (λ db, db_ok db = true) m → frames ts m → PaymentWebhookEvents ∉ ts → preserves (claimed key) m.
Proof. intros Hok Hm Ht db [Hdb He]. split; [by apply Hok|]. by rewrite (Hm db) by done. Qed.

Lemma frames_pay_invoice x ts :
  Invoices ∈ ts → Users ∈ ts → Notifications ∈ ts → frames ts (pay_invoice x).
Proof. intros. unfold pay_invoice, notify_each, notify, activate_paid_students. frames_tac. Qed.

Lemma frames_settle reference status pref paid err auth cust now :
  frames [PaymentTransactions; Invoices; Users; Notifications; BillingPaymentMethods]
    (settle reference status pref paid err auth cust now).
Proof.
  apply frames_transaction, frames_bind; [frames_tac|]. intros [x|]; cbv zeta; [|frames_tac].
  destruct (_ == _); [frames_tac|]. apply frames_bind; [frames_tac|intros _].
  destruct (_ != _); [frames_tac|]. apply frames_bind; [apply frames_pay_invoice; set_solver|intros ?].
  frames_tac.
Qed.

Lemma claim_inv key ty payload db b db' :
  claim_webhook_event key ty payload db = (inr b, db') →
  db_ok db' = true ∧
  match findb (is_event PROVIDER key) (db_tables db PaymentWebhookEvents) with
  | Some _ => b = false ∧ db' = db
  | None => b = true ∧ db' = appended PaymentWebhookEvents
      (λ i, (new_PaymentWebhookEvent i key ty) <| event_payload := payload |>) db
  end.
Proof.
  intros [Hrun Hok]%transaction_commit. split; [done|]. erewrite bind_inr in Hrun by reflexivity.
  destruct (findb _ _) as [x|]; [by injection Hrun as <- <-|].
  erewrite bind_inr in Hrun by reflexivity. by injection Hrun as <- <-.
Qed.

Lemma finish_claimed key key' status err now : preserves (claimed key) (finish_webhook_event key' status err now).
Proof.
  intros db [Hok (e & He & Hkey)]. unfold finish_webhook_event, begin_.
  destruct (transaction _ _ db) as [[x|[]] db'] eqn:Hrun; [by apply transaction_raise in Hrun as ->; split; eauto|].
  apply transaction_commit in Hrun as [Hrun Hok']. erewrite bind_inr in Hrun by reflexivity.
  destruct (findb _ _) as [e'|] eqn:Hf; [|injection Hrun as <-; split; eauto].
  apply findb_Some in Hf as [_ Hin]. injection Hrun as <-. split; [exact Hok'|].
  cbn [snd]. rewrite set_table_eq. rewrite db_ok_spec in Hok.
  pose proof (table_primary_key PaymentWebhookEvents _ (Hok PaymentWebhookEvents)) as Hnd.
  destruct (decide (event_id e = event_id e')) as [Heq|Hne].
  - rewrite (NoDup_map_inj event_id _ e e' Hnd He Hin Heq) in *. eexists. split.
    + apply elem_of_update_list. exists e'. split; [done|]. rewrite bool_decide_true by done. reflexivity.
    + exact Hkey.
  - exists e. split; [|done]. apply elem_of_update_list. exists e. split; [done|]. by rewrite bool_decide_false.
Qed.

#[export] Instance claimed_invariant key : PaymentInvariant (claimed key) (λ _ _ _, True).
Proof.
  split; intros; try exact I.
  - eapply claimed_frames; [apply (inv_uuid4 (PaymentInvariant := ok_invariant))|apply (frames_uuid4 [])|set_solver].
  - eapply (claimed_frames key [PaymentTransactions]); [by apply (inv_create (PaymentInvariant := ok_invariant))| |set_solver].
    unfold create_transaction, begin_. frames_tac.
  - eapply (claimed_frames key [PaymentTransactions]); [apply preserves_ok_begin| |set_solver].
    unfold set_authorization_url, begin_. frames_tac.
  - eapply claimed_frames; [apply preserves_ok_begin|apply frames_settle|set_solver].
  - eapply (claimed_frames key [PaymentTransactions; Invoices; Users]); [apply preserves_ok_begin| |set_solver].
    unfold record_manual_settlement, begin_. frames_tac.
  - intros db Hdb. destruct (claim_webhook_event _ _ _ db) as [[e|b] db'] eqn:Hrun;
      [by apply transaction_raise in Hrun as ->|].
    apply claim_inv in Hrun as [Hok Hrun]. destruct (findb _ _) as [x|]; destruct Hrun as [_ ->]; [done|].
    split; [done|]. destruct Hdb as [_ (e & He & Hkey)]. exists e. split; [|done]. cbn [snd].
    rewrite (appended_eq PaymentWebhookEvents). set_solver.
  - apply finish_claimed.
Qed.

(** On a database the program can reach, a callback is always claimed. *)
Lemma claim_claims key ty payload db :
  db_wf db → ∃ b, claim_webhook_event key ty payload db = (inr b, snd (claim_webhook_event key ty payload db)) ∧
    claimed key (snd (claim_webhook_event key ty payload db)).
Proof.
  intros Hwf. unfold claim_webhook_event, begin_.
  set (mk := λ i, (new_PaymentWebhookEvent i key ty) <| event_payload := payload |>).
  destruct (findb (A := @row Table nevo_schema PaymentWebhookEvents) (is_event PROVIDER key) (db_tables db PaymentWebhookEvents))
    as [e|] eqn:Hf.
  - erewrite transaction_ok; [|erewrite bind_inr by reflexivity; by rewrite Hf|by destruct Hwf].
    exists false. split; [done|]. apply findb_Some in Hf as [Hkey He]. split; [by destruct Hwf|by exists e].
  - assert (db_wf (appended PaymentWebhookEvents mk db)) as Hwf'.
    { apply (appended_wf PaymentWebhookEvents); [done|done|]. destruct Hwf as [Hok Hfresh].
      rewrite db_ok_spec in Hok. specialize (Hok PaymentWebhookEvents). simpl in Hok |- *.
      unfold webhook_events_ok in *. bool_to_prop. apply andb_true_intro. split.
      - by eapply (primary_key_fresh PaymentWebhookEvents).
      - apply unique_on_snoc; [done|]. intros k [= <-] r Hr [= Hp Hk]. rewrite findb_None in Hf.
        specialize (Hf r Hr). unfold is_event in Hf. by rewrite Hp, Hk, !bool_decide_true in Hf. }
    erewrite (transaction_ok _ _ _ true (appended PaymentWebhookEvents mk db)); [|..].
    + exists true. split; [done|]. split; [by destruct Hwf'|]. cbn [snd]. rewrite (appended_eq PaymentWebhookEvents).
      exists (mk (db_uuids db)). split; [set_solver|]. unfold mk, is_event, PROVIDER.
      by rewrite !bool_decide_true.
    + erewrite bind_inr by reflexivity. by rewrite Hf.
    + by destruct Hwf'.
Qed.

Section Theorems.
Context `{!Crypto} `{!Network} (settings : PaystackSettings).

Lemma handle_webhook_signed secret payload signature body now db :
  ps_secret_key settings = Some secret → signed_body payload signature secret = inr body →
  handle_webhook settings payload signature now db =
    (let key := webhook_key (event_type_of body) (event_data_of body) payload in
     claimed ← claim_webhook_event key (event_type_of body) (JObj body);
     if negb claimed then mret None
     else process_event settings key (event_type_of body) (event_reference_of body) now) db.
Proof.
  intros Hkey Hbody. unfold handle_webhook.
  erewrite bind_inr; [|unfold require_configured, client_configured; rewrite Hkey; reflexivity].
  erewrite bind_inr; [|unfold client_secret; rewrite Hkey; reflexivity].
  rewrite Hbody. reflexivity.
Qed.

Lemma handle_webhook_refused secret payload signature e now db :
  ps_secret_key settings = Some secret → signed_body payload signature secret = inl e →
  handle_webhook settings payload signature now db = (inl e, db).
Proof.
  intros Hkey Hbody. unfold handle_webhook.
  erewrite bind_inr; [|unfold require_configured, client_configured; rewrite Hkey; reflexivity].
  erewrite bind_inr; [|unfold client_secret; rewrite Hkey; reflexivity].
  rewrite Hbody. reflexivity.
Qed.

(** A callback of the processor is applied at most once and only when it is signed. A body
    whose signature does not verify is refused and changes nothing. Once a signed callback was
    handled, even if processing it failed, a callback with the same event key is acknowledged
    without doing anything, whatever payment operations happened in between. *)
Theorem callback_is_applied_once secret payload signature body now payload' signature' body' now' ops db :
  db_wf db → ps_secret_key settings = Some secret →
  signed_body payload signature secret = inr body → signed_body payload' signature' secret = inr body' →
  webhook_key (event_type_of body') (event_data_of body') payload' =
    webhook_key (event_type_of body) (event_data_of body) payload →
  (∀ forged mark, verify_webhook_signature forged mark secret = false →
     handle_webhook settings forged mark now' db = (inl InvalidWebhookSignatureError, db)) ∧
  let db1 := snd (handle_webhook settings payload signature now db) in
  let db2 := run_payment_ops settings ops db1 in
  handle_webhook settings payload' signature' now' db2 = (inr None, db2).
Proof.
  intros Hwf Hsecret Hbody Hbody' Hkey. split.
  { intros forged mark Hforged. apply (handle_webhook_refused secret); [done|].
    unfold signed_body. by rewrite Hforged. }
  intros db1 db2. set (key := webhook_key (event_type_of body) (event_data_of body) payload) in *.
  assert (claimed key db2) as [Hok (e & He & Hek)].
  { apply (payment_ops_preserve settings (claimed key) (λ _ _ _, True)). unfold db1.
    rewrite (handle_webhook_signed secret payload signature body) by done. cbv zeta. fold key.
    destruct (claim_claims key (event_type_of body) (JObj body) db Hwf) as (b & Hrun & Hc).
    rewrite bind_run, Hrun. destruct b; [|exact Hc].
    by apply (process_event_preserves settings (claimed key) (λ _ _ _, True)). }
  rewrite (handle_webhook_signed secret payload' signature' body') by done. cbv zeta. rewrite Hkey.
  destruct (findb_is_Some (A := @row Table nevo_schema PaymentWebhookEvents) _ _ e He Hek) as [e' Hf].
  erewrite bind_inr; [|eapply transaction_ok; [erewrite bind_inr by reflexivity; by rewrite Hf|done]]. done.
Qed.

(** A payment is settled at most once. Once its transaction succeeded, any later answer of the
    processor for the same reference is acknowledged as already settled and writes nothing,
    whatever payment operations happened in between. *)
Theorem settled_payment_is_settled_once x ops pt now db :
  db_wf db → x ∈ db_tables db PaymentTransactions → tx_status x = TX_SUCCESS →
  pt_reference pt = tx_reference x →
  let db' := run_payment_ops settings ops db in
  settle_provider pt now db' = (inr (already_settled (transaction_record x)), db').
Proof.
  intros Hwf Hx Hs Href db'.
  assert (x ∈ db_tables db' PaymentTransactions) as Hx' by (by eapply kept_in, kept_success, Hs; apply wf_kept).
  assert (db_ok db' = true) as Hok by (by apply payment_ops_ok; destruct Hwf).
  unfold settle_provider, transaction_by_reference. rewrite bind_run. erewrite bind_inr by reflexivity.
  rewrite Href, (reference_found x) by done. cbn [fmap option_fmap option_map mret comp_ret].
  change (txr_status (transaction_record x)) with (tx_status x). by rewrite Hs.
Qed.

(** *** Transfers confirmed by hand *)

Lemma new_reference_run number now db :
  ∃ r, new_reference number now db = (inr r, mkDb (db_tables db) (db_uuids db + 1) (db_now db)).
Proof. by eexists. Qed.

Lemma confirm_inv school invoice bank who now db o db' :
  confirm_manual_transfer settings school invoice bank who now db = (inr o, db') →
  ∃ i reference, payable_invoice school invoice db = (inr (Some i), db) ∧ payable_status i ≠ INVOICE_PAID ∧
    record_manual_settlement school invoice reference (strip bank) (payable_amount i) (ps_currency settings) who now
      (mkDb (db_tables db) (db_uuids db + 1) (db_now db)) = (inr (outcome_transaction_id o, outcome_invoice_paid o), db').
Proof.
  intros (i & db1 & Hi & Hrun)%bind_inv_inr. apply outstanding_invoice_inv in Hi as (-> & Hp & Hu).
  destruct (new_reference_run (payable_invoice_number i) now db) as [r Hr].
  rewrite (bind_inr _ _ _ _ _ Hr) in Hrun. apply bind_inv_inr in Hrun as ([id p] & db2 & Hs & Hrun).
  injection Hrun as <- <-. by exists i, r.
Qed.

(** A transfer that is on record is not recorded again. *)
Lemma recorded_again school invoice reference bank amount currency who at_ y db :
  db_ok db = true → y ∈ db_tables db PaymentTransactions → same_transfer bank y = true →
  ∃ i, record_manual_settlement school invoice reference bank amount currency who at_ db = (inr (i, false), db).
Proof.
  intros Hok Hy Hsame. destruct (findb_is_Some (A := @row Table nevo_schema PaymentTransactions) _ _ y Hy Hsame) as [x Hf].
  exists (tx_id x). apply transaction_ok; [|done]. erewrite bind_inr by reflexivity. by rewrite Hf.
Qed.

(** A bank transfer settles an invoice at most once. After a transfer paid an invoice,
    confirming a transfer with the same bank reference again, for this or any other invoice of
    any school, pays nothing and records nothing, whatever payment operations happened in
    between. *)
Theorem bank_transfer_is_recorded_once school invoice bank who now o db ops school' invoice' bank' who' now' :
  db_wf db → confirm_manual_transfer settings school invoice bank who now db = (inr o, snd (confirm_manual_transfer settings school invoice bank who now db)) →
  outcome_invoice_paid o = true → strip bank' = strip bank →
  let db1 := run_payment_ops settings ops (snd (confirm_manual_transfer settings school invoice bank who now db)) in
  let '(r, db2) := confirm_manual_transfer settings school' invoice' bank' who' now' db1 in
  db_tables db2 = db_tables db1 ∧ ∀ o', r = inr o' → outcome_invoice_paid o' = false.
Proof.
  intros Hwf Hrun Hpaid Hbank db1.
  set (db0 := snd (confirm_manual_transfer _ _ _ _ _ _ db)) in *.
  assert (∃ y, kept PaymentTransactions y db0 ∧ tx_status y = TX_SUCCESS ∧ same_transfer (strip bank) y = true)
    as (y & Hy & Hs & Hsame).
  { apply confirm_inv in Hrun as (i & reference & _ & _ & Hrun). rewrite Hpaid in Hrun.
    pose proof Hrun as [_ Hok]%transaction_commit. destruct Hwf as [Hok0 Hfresh].
    apply manual_settlement_inv in Hrun; [|rewrite db_ok_spec in Hok0; exact (table_primary_key Invoices _ (Hok0 Invoices))].
    destruct (findb _ _) as [z|]; [by destruct Hrun as (_ & ? & _)|].
    destruct Hrun as (Hid & Hlt & Ht & _). eexists. split; [|split].
    - apply kept_of_ok; [exact Hok|rewrite Ht; apply elem_of_app; right; by apply list_elem_of_singleton|exact Hlt].
    - done.
    - unfold same_transfer. by rewrite !bool_decide_true. }
  assert (y ∈ db_tables db1 PaymentTransactions) as Hy1 by (by eapply kept_in, kept_success).
  assert (db_ok db1 = true) as Hok1.
  { apply payment_ops_ok. apply (transfer_preserves settings (λ db, db_ok db = true) (λ _ _ _, True)). by destruct Hwf. }
  destruct (confirm_manual_transfer settings school' invoice' bank' who' now' db1) as [r db2] eqn:Hrun2.
  unfold confirm_manual_transfer in Hrun2. pose proof (outstanding_invoice_reads school' invoice' db1) as Hread.
  rewrite bind_run in Hrun2. destruct (outstanding_invoice school' invoice' db1) as [[e|i] db3]; simpl in Hread; subst db3.
  { injection Hrun2 as <- <-. by split. }
  destruct (new_reference_run (payable_invoice_number i) now' db1) as [reference Hr].
  rewrite (bind_inr _ _ _ _ _ Hr), Hbank in Hrun2.
  destruct (recorded_again school' invoice' reference (strip bank) (payable_amount i) (ps_currency settings) who' now' y
    (mkDb (db_tables db1) (db_uuids db1 + 1) (db_now db1)) Hok1 Hy1 Hsame) as [id Hrec].
  rewrite (bind_inr _ _ _ _ _ Hrec) in Hrun2. injection Hrun2 as <- <-. split; [done|]. by intros o' [= <-].
Qed.
End Theorems.

(** ** Statements that cannot fail *)

Lemma set_table_wf t l db :
  db_wf db → table_constraints t l = true → (∀ r, r ∈ l → table_id t r < db_uuids db) →
  db_wf (set_table t l db).
Proof. apply (@db_wf_set_table Table nevo_schema t l db). Qed.

Lemma save_wf t r r' db :
  db_wf db → r ∈ db_tables db t → table_id t r' = table_id t r →
  table_constraints t (update_list (λ x, table_id t x == table_id t r) (λ _, r') (db_tables db t)) = true →
  db_wf (set_table t (update_list (λ x, table_id t x == table_id t r) (λ _, r') (db_tables db t)) db).
Proof.
  intros Hwf Hr Hid Hok. apply set_table_wf; [done|done|].
  intros x (y & Hy & ->)%elem_of_update_list. destruct Hwf as [_ Hfresh].
  case_match; [rewrite Hid|]; by apply (Hfresh t).
Qed.

Lemma table_is_ok t db : db_wf db → table_constraints t (db_tables db t) = true.
Proof. intros [Hok _]. rewrite db_ok_spec in Hok. apply (Hok t). Qed.

(** A notice can always be written. *)
Lemma note_id_category x : note_id (category_follows_type x) = note_id x.
Proof. unfold category_follows_type. by destruct (notification_category _). Qed.

Lemma notify_wf i ro ty ti d n db :
  db_wf db → ∃ r db', notify i ro ty ti d n db = (inr r, db') ∧ db_wf db'.
Proof.
  intros Hwf. eexists _, _. split; [unfold notify; reflexivity|]. cbn [db_tables].
  match goal with |- db_wf (Relational.set_table _ (_ ++ [?x])%list _) => set (r := x) end.
  assert (note_id r = db_uuids db) as Hid by (unfold r; by rewrite note_id_category).
  pose proof (table_is_ok Notifications db Hwf) as Hok. destruct (Hwf) as [_ Hfresh].
  apply set_table_wf.
  - eapply db_wf_later; [exact Hwf|done|simpl; lia].
  - by apply (primary_key_fresh Notifications).
  - intros x [Hx|Hx]%elem_of_app; cbn [db_uuids].
    + specialize (Hfresh Notifications x Hx). simpl in *. lia.
    + apply list_elem_of_singleton in Hx as ->. simpl. lia.
Qed.

Lemma notify_each_wf l ty ti d n db :
  db_wf db → ∃ k db', notify_each l ty ti d n db = (inr k, db') ∧ db_wf db'.
Proof.
  intros Hwf. unfold notify_each.
  assert (∃ db', for_each l (λ r, notify r.1 r.2 ty ti d n;; mret tt) db = (inr tt, db') ∧ db_wf db') as (db' & Hrun & Hwf').
  { revert db Hwf. induction l as [|[u ro] l IH]; intros db Hwf; [by exists db|]. simpl.
    destruct (notify_wf u ro ty ti d n db Hwf) as (r & db1 & Hr & Hwf1).
    destruct (IH db1 Hwf1) as (db' & Hrun & Hwf'). exists db'. split; [|done].
    rewrite bind_run, (bind_run (notify _ _ _ _ _ _)). by rewrite Hr. }
  eexists _, db'. split; [by rewrite (bind_inr _ _ _ _ _ Hrun)|done].
Qed.

(** Invited learners can be activated: an invited account was not switched
    off. *)
Lemma users_ok_activated i l :
  users_ok l = true → users_ok (update_list (activated i) (λ u : User, u <| user_status := ACTIVE |>) l) = true.
Proof.
  unfold users_ok. intros Hok. bool_to_prop.
  repeat (apply andb_true_intro; split); try (by apply unique_on_update).
  rewrite forallb_forall. intros x Hx%list_elem_of_In.
  apply elem_of_update_list in Hx as (u & Hu%list_elem_of_In & ->).
  match goal with H : forallb user_row_ok _ = true |- _ => rewrite forallb_forall in H; specialize (H u Hu) end.
  destruct (activated i u) eqn:Ha; [|done]. unfold activated, user_row_ok in *. bool_to_prop.
  by destruct u; simplify_eq/=.
Qed.

Lemma invoices_ok_paid l i at_ :
  invoices_ok l = true → i ∈ l →
  invoices_ok (update_list (λ x : Invoice, invoice_id x == invoice_id i) (λ _ : Invoice, paid_invoice i (Some at_)) l) = true.
Proof.
  unfold invoices_ok. intros Hok Hi. bool_to_prop.
  assert (forallb invoice_row_ok l = true) as Hrows by done. rewrite forallb_forall in Hrows.
  specialize (Hrows i (proj1 (list_elem_of_In _ _) Hi)). unfold invoice_row_ok in Hrows. bool_to_prop.
  rewrite !andb_true_iff. split; [split; [by apply primary_key_save|apply forallb_save; try done]|by apply unique_on_save].
  unfold invoice_row_ok. apply andb_true_intro. split; [done|]. by rewrite bool_decide_true.
Qed.

Lemma transactions_ok_settled l x pref paid err now :
  transactions_ok l = true → x ∈ l →
  transactions_ok (update_list (λ y : PaymentTransaction, tx_id y == tx_id x)
    (λ _ : PaymentTransaction, settled_transaction x TX_SUCCESS pref paid err now) l) = true.
Proof.
  unfold transactions_ok. intros Hok Hx. bool_to_prop.
  assert (forallb transaction_row_ok l = true) as Hrows by done. rewrite forallb_forall in Hrows.
  specialize (Hrows x (proj1 (list_elem_of_In _ _) Hx)). unfold transaction_row_ok in Hrows.
  apply andb_prop in Hrows as [Hrows _].
  rewrite !andb_true_iff. split; [split; [by apply primary_key_save|apply forallb_save; try done]|by apply unique_on_save].
  unfold transaction_row_ok. apply andb_true_intro. split; [exact Hrows|by destruct paid].
Qed.

Definition activate (i : Invoice) (l : list User) : list User :=
  update_list (activated i) (λ u : User, u <| user_status := ACTIVE |>) l.

Lemma activate_wf i db :
  db_wf db → ∃ db', activate_paid_students i db = (inr tt, db') ∧ db_wf db' ∧
    db_tables db' Users = activate i (db_tables db Users).
Proof.
  intros Hwf. unfold activate_paid_students. destruct (invoice_activation_student_ids i) as [|s l] eqn:Hs.
  - exists db. split_and!; [done|done|]. unfold activate. rewrite update_list_id; [done|].
    intros u _ Ha. unfold activated in Ha. rewrite Hs in Ha. bool_to_prop. set_solver.
  - eexists. split; [reflexivity|]. rewrite set_table_eq. split; [|done].
    apply set_table_wf; [done|exact (users_ok_activated i _ (table_is_ok Users db Hwf))|].
    intros r (u & Hu & ->)%elem_of_update_list. destruct Hwf as [_ Hfresh].
    case_match; exact (Hfresh Users u Hu).
Qed.

Lemma pay_invoice_pays x i at_ db :
  db_wf db → tx_invoice_id x = Some (invoice_id i) → i ∈ db_tables db Invoices →
  invoice_status i ≠ INVOICE_PAID → tx_paid_at x = Some at_ →
  ∃ db', pay_invoice x db = (inr true, db') ∧ db_wf db' ∧
    db_tables db' Invoices = update_list (λ y : Invoice, invoice_id y == invoice_id i)
      (λ _ : Invoice, paid_invoice i (Some at_)) (db_tables db Invoices) ∧
    db_tables db' Users = activate i (db_tables db Users).
Proof.
  intros Hwf Hk Hi Hunpaid Hat. unfold pay_invoice. rewrite Hk.
  erewrite bind_inr by reflexivity.
  assert (findb (A := @row Table nevo_schema Invoices) (λ r, @row_id Table nevo_schema Invoices r == invoice_id i)
    (db_tables db Invoices) = Some i) as ->.
  { apply findb_unique; [exact Hi|by apply bool_decide_true|]. intros j Hj Hid. bool_to_prop.
    exact (NoDup_map_inj invoice_id _ j i (table_primary_key Invoices _ (table_is_ok Invoices db Hwf)) Hj Hi Hid). }
  rewrite bool_decide_false by done. erewrite bind_inr by reflexivity. rewrite Hat.
  assert (db_wf (mark_paid i (Some at_) db)) as Hwf1.
  { apply (save_wf Invoices i); [done|done|done|]. exact (invoices_ok_paid _ i at_ (table_is_ok Invoices db Hwf) Hi). }
  change (Relational.set_table Invoices _ db) with (mark_paid i (Some at_) db).
  destruct (activate_wf i _ Hwf1) as (db2 & Ha & Hwf2 & Hu).
  rewrite (bind_inr _ _ _ _ _ Ha). erewrite bind_inr by reflexivity.
  match goal with |- context [notify_each ?l ?ty ?ti ?d ?n] =>
    destruct (notify_each_wf l ty ti d n _ Hwf2) as (k & db3 & Hn & Hwf3);
    assert (frames [Notifications] (notify_each l ty ti d n)) as Hframe by (apply frames_notify_each; set_solver) end.
  rewrite (bind_inr _ _ _ _ _ Hn). exists db3. split_and!; [done|done| |].
  - erewrite (frames_run [Notifications]); [|exact Hframe|exact Hn|set_solver].
    erewrite (frames_run [Users]); [|apply frames_activate; set_solver|exact Ha|set_solver].
    unfold mark_paid. by rewrite set_table_eq.
  - erewrite (frames_run [Notifications]); [|exact Hframe|exact Hn|set_solver]. rewrite Hu.
    unfold mark_paid. by rewrite set_table_ne.
Qed.

(** What is kept of a reusable authorization: the school's stored method, when
    somebody can be named who stored it. *)
Definition method_kept (school : uuid) (actor : option uuid) (a : ProviderAuthorization) (db db' : Database) : Prop :=
  (is_some actor || existsb (λ m : BillingPaymentMethod, method_school_id m == school) (db_tables db BillingPaymentMethods)) = true →
  ∃ m, m ∈ db_tables db' BillingPaymentMethods ∧ method_school_id m = school ∧
    method_processor_payment_method_ref m = Some (pa_authorization_code a) ∧ method_is_reusable m = pa_reusable a.

(** A method with four last digits can always be stored. *)
Lemma upsert_wf school a actor db :
  db_wf db → String.length (pa_last_four a) = 4%nat → string_forall is_digit (pa_last_four a) = true →
  ∃ db', upsert_payment_method school a None actor db = (inr tt, db') ∧ db_wf db' ∧ method_kept school actor a db db' ∧
    ∀ t, t ≠ BillingPaymentMethods → db_tables db' t = db_tables db t.
Proof.
  intros Hwf Hlen Hdigits. pose proof (table_is_ok BillingPaymentMethods db Hwf) as Hok. cbn in Hok. unfold payment_methods_ok in Hok.
  rewrite !andb_true_iff in Hok. destruct Hok as [[Hpk Hrows] Huniq].
  assert (∀ m, method_last_four m = pa_last_four a → method_row_ok m = true) as Hrow.
  { intros m Hm. unfold method_row_ok. rewrite Hm, Hdigits. by rewrite bool_decide_true. }
  unfold upsert_payment_method, method_kept. erewrite bind_inr by reflexivity.
  destruct (findb _ (db_tables db BillingPaymentMethods)) as [m|] eqn:Hf; cbn [fmap option_fmap option_map].
  - pose proof (findb_Some _ _ _ Hf) as [Hschool Hm]. bool_to_prop.
    destruct actor as [u|]; cbn [or_else]; (eexists; split; [reflexivity|]);
      match goal with |- context [stored_method m a ?c ?d ?u] => set (r' := stored_method m a c d u) end.
    1,2: (split; [|split; [|intros t Ht; by apply set_table_ne]]).
    1,3: apply (save_wf BillingPaymentMethods m r'); [done|exact Hm|done|]; cbn; unfold payment_methods_ok; rewrite !andb_true_iff;
      (split; [split; [by apply (primary_key_save method_id)|apply forallb_save; [done|by apply Hrow]]|]);
      by apply (unique_on_save method_id _ m r').
    1,2: intros _; exists r'; rewrite set_table_eq; (split; [|by rewrite <- Hschool]);
      apply elem_of_update_list; exists m; (split; [exact Hm|]); by rewrite bool_decide_true.
  - destruct actor as [u|]; cbn [or_else is_some orb].
    + erewrite bind_inr by reflexivity. eexists. split; [reflexivity|]. cbn [db_tables].
      match goal with |- context [(db_tables db BillingPaymentMethods ++ [?r])%list] => set (r' := r) end.
      split; [|split; [|intros t Ht; by rewrite set_table_ne]].
      * set (mk := λ i, r' <| method_id := i |>). apply (@appended_wf Table nevo_schema BillingPaymentMethods mk db Hwf); [done|]. cbn. unfold payment_methods_ok.
        rewrite !andb_true_iff. change (mk (db_uuids db)) with r'. split; [split|].
        -- apply (primary_key_fresh BillingPaymentMethods); [done|apply Hwf|done|done].
        -- rewrite forallb_app, Hrows. cbn. by rewrite Hrow.
        -- apply unique_on_snoc; [done|]. intros k [= <-] m Hm [= Heq]. rewrite findb_None in Hf. specialize (Hf m Hm).
           cbn in Hf. rewrite Heq, bool_decide_true in Hf; done.
      * intros _. exists r'. rewrite set_table_eq. split; [|done]. apply elem_of_app. right. by apply list_elem_of_singleton.
    + exists db. split_and!; [done|done| |done]. intros (m & Hm & Hs)%existsb_exists. rewrite findb_None in Hf.
      rewrite Hf in Hs; [done|by apply list_elem_of_In].
Qed.
(** The authorization is one the client parsed. *)
Definition parsed (auth : option ProviderAuthorization) : Prop :=
  ∀ a, auth = Some a → ∃ j, parse_authorization j = inr (Some a).

Definition reusable (auth : option ProviderAuthorization) : bool := match auth with Some a => pa_reusable a | None => false end.

Lemma settle_pays pref paid auth now x i db :
  db_wf db → x ∈ db_tables db PaymentTransactions → tx_status x ≠ TX_SUCCESS →
  tx_invoice_id x = Some (invoice_id i) → i ∈ db_tables db Invoices → invoice_status i ≠ INVOICE_PAID →
  parsed auth →
  ∃ db', settle (tx_reference x) TX_SUCCESS pref paid None auth None now db = (inr (true, reusable auth), db') ∧
    db_tables db' Invoices = update_list (λ y : Invoice, invoice_id y == invoice_id i)
      (λ _ : Invoice, paid_invoice i (Some (default now paid))) (db_tables db Invoices) ∧
    db_tables db' Users = activate i (db_tables db Users) ∧
    ∀ a, auth = Some a → pa_reusable a = true → method_kept (tx_school_id x) (tx_initiated_by_user_id x) a db db'.
Proof.
  intros Hwf Hx Hs Hk Hi Hunpaid Hauth.
  set (x' := settled_transaction x TX_SUCCESS pref paid None now).
  set (db1 := set_table PaymentTransactions
    (update_list (λ y : PaymentTransaction, tx_id y == tx_id x) (λ _ : PaymentTransaction, x') (db_tables db PaymentTransactions)) db).
  assert (db_wf db1) as Hwf1.
  { apply (save_wf PaymentTransactions x); [done|done|done|].
    apply (transactions_ok_settled _ x); [exact (table_is_ok PaymentTransactions db Hwf)|exact Hx]. }
  assert (∀ t, t ≠ PaymentTransactions → db_tables db1 t = db_tables db t) as Hne1
    by (intros t Ht; unfold db1; by rewrite set_table_ne).
  destruct (pay_invoice_pays x' i (default now paid) db1) as (db2 & Hpay & Hwf2 & Hi2 & Hu2);
    [done|done|by rewrite Hne1|done|by destruct paid|].
  assert (db_tables db2 BillingPaymentMethods = db_tables db BillingPaymentMethods) as Hm2.
  { erewrite (frames_run [Invoices; Users; Notifications]); [|apply frames_pay_invoice; set_solver|exact Hpay|set_solver]. by apply Hne1. }
  assert (∀ db3, (match auth with
      | Some a => if pa_reusable a then upsert_payment_method (tx_school_id x') a None (tx_initiated_by_user_id x');; mret true else mret false
      | None => mret false end : M bool) db2 = (inr (reusable auth), db3) → db_ok db3 = true →
    settle (tx_reference x) TX_SUCCESS pref paid None auth None now db = (inr (true, reusable auth), db3)) as Hsettle.
  { intros db3 Hrest Hok3. apply transaction_ok; [|done]. erewrite bind_inr by reflexivity.
    rewrite (reference_found x) by (done || by destruct Hwf).
    rewrite bool_decide_false by done. cbv zeta. fold x'. erewrite bind_inr by reflexivity.
    rewrite bool_decide_true by done. cbn [negb]. erewrite bind_inr by exact Hpay. by rewrite (bind_inr _ _ _ _ _ Hrest). }
  assert (∀ db3, (∀ t, t ≠ BillingPaymentMethods → db_tables db3 t = db_tables db2 t) →
    db_tables db3 Invoices = update_list (λ y : Invoice, invoice_id y == invoice_id i)
      (λ _ : Invoice, paid_invoice i (Some (default now paid))) (db_tables db Invoices) ∧
    db_tables db3 Users = activate i (db_tables db Users)) as Htables.
  { intros db3 Hne3. rewrite (Hne3 Invoices), (Hne3 Users), Hi2, Hu2, (Hne1 Invoices), (Hne1 Users) by done. done. }
  destruct auth as [a|]; [|exists db2; split; [apply Hsettle; [done|apply Hwf2]|split_and!; [by apply Htables|by apply Htables|done]]].
  cbn [reusable] in *. destruct (pa_reusable a) eqn:Hre.
  - destruct (Hauth a eq_refl) as [j Hj]. apply parsed_last_four in Hj as [Hlen Hdigits].
    destruct (upsert_wf (tx_school_id x') a (tx_initiated_by_user_id x') db2 Hwf2 Hlen Hdigits) as (db3 & Hup & Hwf3 & Hkept & Hne3).
    exists db3. split; [apply Hsettle; [by rewrite (bind_inr _ _ _ _ _ Hup)|apply Hwf3]|].
    destruct (Htables db3 Hne3) as [HI HU]. split_and!; [done|done|]. intros a' [= <-] _. unfold method_kept in *. by rewrite <- Hm2.
  - exists db2. split; [apply Hsettle; [done|apply Hwf2]|]. split_and!; [by apply Htables|by apply Htables|]. intros a' [= <-] Hre'. congruence.
Qed.

(** C7: a matching payment pays the invoice. If the processor answers, as the client parses
    its answer, that a transaction which had not succeeded was paid, with its amount and
    currency, and its invoice is outstanding, then settling the answer succeeds, whatever card
    it was paid with: the invoice is paid at the moment the processor names, the transaction
    succeeded, and every invited learner the invoice covers becomes active. A reusable
    authorization is reported as saved, and it is the school's stored method afterwards when
    somebody started the payment or the school had a method before. *)
Theorem matching_payment_pays_the_invoice pt now x i db :
  db_wf db → x ∈ db_tables db PaymentTransactions → tx_reference x = pt_reference pt →
  tx_status x ≠ TX_SUCCESS → tx_invoice_id x = Some (invoice_id i) →
  i ∈ db_tables db Invoices → invoice_status i ≠ INVOICE_PAID →
  pt_status pt = TX_SUCCESS → amount_matches (tx_amount_minor x) (value (tx_currency x)) pt = true →
  parsed (pt_authorization pt) →
  let paid_at := Some (default now (pt_paid_at pt)) in
  ∃ o db', settle_provider pt now db = (inr o, db') ∧
    outcome_status o = TX_SUCCESS ∧ outcome_invoice_paid o = true ∧
    outcome_payment_method_saved o = reusable (pt_authorization pt) ∧
    paid_invoice i paid_at ∈ db_tables db' Invoices ∧
    (∃ x', x' ∈ db_tables db' PaymentTransactions ∧ tx_id x' = tx_id x ∧ tx_status x' = TX_SUCCESS ∧
       tx_paid_at x' = paid_at) ∧
    (∀ u, u ∈ db_tables db Users → activated i u = true → u <| user_status := ACTIVE |> ∈ db_tables db' Users) ∧
    (∀ a, pt_authorization pt = Some a → pa_reusable a = true →
       method_kept (tx_school_id x) (tx_initiated_by_user_id x) a db db').
Proof.
  intros Hwf Hx Href Hs Hk Hi Hunpaid Hpt Ham Hauth paid_at.
  destruct (settle_pays (pt_provider_reference pt) (pt_paid_at pt) (pt_authorization pt) now x i db)
    as (db2 & Hsettle & Hi2 & Hu2 & Hm2); [done..|].
  eexists _, db2. split.
  { unfold settle_provider, transaction_by_reference. rewrite bind_run. erewrite bind_inr by reflexivity.
    rewrite <- Href, (reference_found x) by (done || by destruct Hwf). cbn [fmap option_fmap option_map mret comp_ret].
    change (txr_status (transaction_record x)) with (tx_status x). rewrite bool_decide_false by done.
    unfold settlement. rewrite Hpt, bool_decide_true by done.
    change (txr_amount_minor (transaction_record x)) with (tx_amount_minor x).
    change (txr_currency (transaction_record x)) with (tx_currency x). rewrite Ham. cbn [andb negb].
    rewrite (bind_inr _ _ _ _ _ Hsettle). reflexivity. }
  split; [done|]. split; [done|]. split; [done|]. split; [|split; [|split; [|exact Hm2]]].
  - rewrite Hi2. apply elem_of_update_list. exists i. split; [done|]. by rewrite bool_decide_true.
  - apply settle_inv in Hsettle; [|exact (table_primary_key Invoices _ (table_is_ok Invoices db Hwf))].
    rewrite (reference_found x), bool_decide_false in Hsettle by (done || by destruct Hwf). destruct Hsettle as [Ht _]. rewrite Ht.
    eexists. split_and!; [apply elem_of_update_list; exists x; split; [done|by rewrite bool_decide_true]|..].
    + done.
    + done.
    + unfold paid_at. simpl. by destruct (pt_paid_at pt).
  - intros u Hu Ha. rewrite Hu2. apply elem_of_update_list. exists u. by rewrite Ha.
Qed.
