(* ===== verification/PaymentExamples.v ===== *)
(** * Paying an invoice of the small school

    The theorems on payments at concrete requests: a checkout, a callback, a
    transfer confirmed by hand, against a network that answers with a
    successful charge. *)

From Stdlib Require Import Ascii String.
From S2P Require Import Prelude Relational Text Vocabulary Schema Fixtures Crypto PermissionRepo Json Kept Money Paystack PaymentRepo PaymentService PaymentFacts PaymentBooks PaymentPays.

Local Open Scope string_scope.
Local Open Scope Z_scope.
Local Open Scope nevo_scope.

#[local] Existing Instance Toy.crypto.

(** The part of a URL after the last slash. *)
Fixpoint last_segment (acc s : string) : string :=
  match s with
  | EmptyString => acc
  | String c s' => last_segment (if c == "/"%char then s' else acc) s'
  end.

Definition charged (reference : string) : list (string * Json) :=
  [("reference", JStr reference); ("status", JStr "success"); ("amount", JInt 5000000);
   ("currency", JStr "ngn"); ("id", JInt 77)].

Definition callback (reference : string) : list (string * Json) :=
  [("event", JStr "charge.success"); ("data", JObj [("id", JInt 77); ("reference", JStr reference)])].

(** A network on which every charge succeeds, and a callback names the
    transaction that is its text. *)
#[local] Instance paying_network : Network := {|
  http_send r _ := inr (mkHttpResponse 200 (Some (JObj [("status", JBool true); ("data", JObj
    (if req_method r == "GET" then charged (last_segment "" (req_url r))
     else [("authorization_url", JStr "https://pay.example/1")]))])));
  fromisoformat _ := None;
  json_loads s := Some (JObj (callback s));
  exception_text _ := "error" |}.

Definition paystack : PaystackSettings :=
  mkPaystackSettings (Some "sk") "https://api.example" "https://nevo.example/done" NGN true.

Definition fifty_thousand : decimal := mkDecimal 5000000 2.
Definition the_invoice : Invoice :=
  (new_Invoice 50 "INV-001" 1 (mkDate 2026 1 1) fifty_thousand INVOICE_PENDING (mkDate 2026 2 1) "pdf")
    <| invoice_activation_student_ids := [2] |>.
Definition the_attempt : PaymentTransaction := attempt 1 50 "ref-1" fifty_thousand 5000000 NGN (Some 5) 51.

Definition invited_learner : User := learner <| user_status := INVITED |>.

(** The school has opened a checkout for its invoice. *)
Definition billed_db : Database :=
  set_table Schools [the_school <| school_billing_contact_id := Some 52 |>]
  (set_table BillingContacts [new_BillingContact 52 1 "bursar@example.com" "1 Road" "Lagos" "NG" 5 t0]
  (set_table Users [invited_learner; parent_user; senior; bursar; teacher]
  (set_table Invoices [the_invoice] (set_table PaymentTransactions [the_attempt] school_db)))).

Lemma billed_wf : db_wf billed_db.
Proof. apply db_wfb_spec. vm_compute. reflexivity. Qed.

Lemma billed_transactions : db_tables billed_db PaymentTransactions = [the_attempt].
Proof. unfold billed_db. by rewrite !set_table_ne, set_table_eq by done. Qed.
Lemma billed_invoices : db_tables billed_db Invoices = [the_invoice].
Proof. unfold billed_db. by rewrite !set_table_ne, set_table_eq by done. Qed.
Lemma billed_users : db_tables billed_db Users = [invited_learner; parent_user; senior; bursar; teacher].
Proof. unfold billed_db. by rewrite !set_table_ne, set_table_eq by done. Qed.

Definition the_answer : ProviderTransaction :=
  mkProviderTransaction "ref-1" TX_SUCCESS 5000000 "ngn" (Some "77") None None None None.

(** The processor's answer, parsed. *)
Example answer_parsed : parse_transaction (charged "ref-1") = inr the_answer.
Proof. vm_compute. reflexivity. Qed.

Definition paid_db : Database := snd (settle_provider the_answer t0 billed_db).

(** It was paid with a card that can be charged again. *)
Definition card_json : Json :=
  JObj [("authorization_code", JStr "AUTH_7"); ("last4", JStr "4081"); ("card_type", JStr "visa"); ("exp_month", JStr "12");
        ("exp_year", JStr "2030"); ("reusable", JBool true)].
Definition the_card : ProviderAuthorization :=
  mkProviderAuthorization "AUTH_7" CARD "4081" (Some "visa") None (Some 12) (Some 2030) None true.
Definition card_answer : ProviderTransaction :=
  mkProviderTransaction "ref-1" TX_SUCCESS 5000000 "NGN" (Some "77") None None (Some the_card) None.

Lemma matching_payment_pays_the_invoice_witness :
  amount_matches 5000000 "NGN" card_answer = true ∧ parse_authorization card_json = inr (Some the_card) ∧
  ∃ o db' m, settle_provider card_answer t0 billed_db = (inr o, db') ∧ outcome_invoice_paid o = true ∧
    learner ∈ db_tables db' Users ∧ m ∈ db_tables db' BillingPaymentMethods ∧
    method_processor_payment_method_ref m = Some "AUTH_7".
Proof.
  split; [reflexivity|]. split; [reflexivity|].
  destruct (matching_payment_pays_the_invoice card_answer t0 the_attempt the_invoice billed_db)
    as (o & db' & Hrun & _ & Hpaid & _ & _ & _ & Hu & Hm); try done.
  - exact billed_wf.
  - rewrite billed_transactions. by left.
  - rewrite billed_invoices. by left.
  - intros a [= <-]. exists card_json. reflexivity.
  - destruct (Hm the_card eq_refl eq_refl eq_refl) as (m & Hin & _ & Hcode & _).
    exists o, db', m. split; [done|]. split; [done|]. split; [|done].
    apply (Hu invited_learner); [rewrite billed_users; by left|vm_compute; reflexivity].
Defined.

(** The books balance before anything was paid. *)
Definition the_bills := [bill_of the_invoice].

Lemma billed_balanced : balanced the_bills billed_db.
Proof.
  split.
  - by destruct billed_wf.
  - by rewrite billed_invoices.
  - intros x. rewrite billed_transactions. intros ->%list_elem_of_singleton. split; [|done].
    intros k b _ Hb%list_elem_of_singleton. by injection Hb as -> ->.
  - intros i. rewrite billed_invoices. intros ->%list_elem_of_singleton. done.
  - intros i x _. rewrite billed_transactions. intros ->%list_elem_of_singleton. by intros [_ ?].
Qed.

(** A callback, a checkout of the paid invoice, a charge and a transfer. *)
Definition busy_day : list payment_op :=
  [op_webhook "ref-1" (Some "hmac512:sk:ref-1") t0; op_start 1 50 (Some 5) t0; op_charge 1 50 t0;
   op_transfer 1 50 "TRF-9" 5 t0; op_verify "ref-1" t0].

Lemma books_balance_witness :
  balanced the_bills billed_db ∧ balanced the_bills (run_payment_ops paystack busy_day billed_db).
Proof. split; [exact billed_balanced|]. exact (books_balance paystack the_bills busy_day billed_db billed_balanced). Defined.

(** The first callback of the day pays the invoice; the rest of the day is
    refused or acknowledged. *)
Example busy_day_pays :
  map invoice_status (db_tables (run_payment_ops paystack busy_day billed_db) Invoices) = [INVOICE_PAID] ∧
  length (db_tables (run_payment_ops paystack busy_day billed_db) PaymentTransactions) = 1%nat.
Proof. vm_compute. auto. Qed.

Definition outcome_paid (o : PaymentOutcome) : bool := outcome_invoice_paid o.

Lemma value_only_for_the_amount_asked_witness :
  ∃ o, settle_provider the_answer t0 billed_db = (inr o, paid_db) ∧ outcome_invoice_paid o = true ∧
    pt_amount_minor the_answer = 5000000.
Proof.
  destruct (run_checked (settle_provider the_answer t0) billed_db outcome_invoice_paid) as (o & Hrun & Hp);
    [vm_compute; reflexivity|].
  exists o. split; [exact Hrun|]. split; [exact Hp|].
  pose proof (value_only_for_the_amount_asked the_answer t0 billed_db o paid_db (proj1 billed_wf) Hrun) as Hv.
  destruct Hv as (x & Hx & _ & Hv). rewrite billed_transactions in Hx. apply list_elem_of_singleton in Hx as ->.
  rewrite bool_decide_false in Hv by done. destruct Hv as (x' & _ & _ & _ & Hsuc & _ & _ & Hv). rewrite Hp in Hv.
  apply (proj1 Hsuc), Hv.
Defined.

(** An answer for another amount pays nothing. *)
Definition short_answer : ProviderTransaction :=
  mkProviderTransaction "ref-1" TX_SUCCESS 50000 "NGN" (Some "77") None None None None.
Example short_payment_pays_nothing :
  (λ o, (outcome_status o, outcome_invoice_paid o)) <$> (match fst (settle_provider short_answer t0 billed_db) with
    inr o => Some o | inl _ => None end) = Some (TX_FAILED, false).
Proof. vm_compute. reflexivity. Qed.

Lemma paid_wf : db_wf paid_db.
Proof. apply db_wfb_spec. vm_compute. reflexivity. Qed.

Definition the_paid : PaymentTransaction :=
  settled_transaction the_attempt TX_SUCCESS (Some "77") None None t0.

Lemma paid_transactions : db_tables paid_db PaymentTransactions = [the_paid].
Proof. vm_compute. reflexivity. Qed.
Lemma paid_invoices : db_tables paid_db Invoices = [paid_invoice the_invoice (Some t0)].
Proof. vm_compute. reflexivity. Qed.

Lemma paid_stays_paid_witness :
  paid_invoice the_invoice (Some t0) ∈ db_tables (run_payment_ops paystack busy_day paid_db) Invoices.
Proof.
  apply (paid_stays_paid paystack busy_day paid_db paid_wf); [rewrite paid_invoices; by left|done].
Defined.

Lemma settled_payment_is_settled_once_witness :
  let db' := run_payment_ops paystack busy_day paid_db in
  settle_provider short_answer t0 db' = (inr (already_settled (transaction_record the_paid)), db').
Proof.
  apply (settled_payment_is_settled_once paystack the_paid busy_day short_answer t0 paid_db paid_wf);
    [rewrite paid_transactions; by left|done|done].
Defined.

Lemma callback_is_applied_once_witness :
  let db1 := snd (handle_webhook paystack "ref-1" (Some "hmac512:sk:ref-1") t0 billed_db) in
  let db2 := run_payment_ops paystack busy_day db1 in
  handle_webhook paystack "ref-2" (Some " hmac512:sk:ref-2 ") t0 db2 = (inr None, db2).
Proof.
  pose proof (callback_is_applied_once paystack "sk" "ref-1" (Some "hmac512:sk:ref-1") (callback "ref-1") t0
    "ref-2" (Some " hmac512:sk:ref-2 ") (callback "ref-2") t0 busy_day billed_db billed_wf eq_refl) as H.
  destruct H as [_ H]; [vm_compute; reflexivity..|]. exact H.
Defined.

Lemma bank_transfer_is_recorded_once_witness :
  let db1 := run_payment_ops paystack busy_day (snd (confirm_manual_transfer paystack 1 50 "TRF-1" 5 t0 billed_db)) in
  let '(r, db2) := confirm_manual_transfer paystack 1 50 " TRF-1 " 5 t0 db1 in
  db_tables db2 = db_tables db1 ∧ ∀ o', r = inr o' → outcome_invoice_paid o' = false.
Proof.
  destruct (run_checked (confirm_manual_transfer paystack 1 50 "TRF-1" 5 t0) billed_db outcome_invoice_paid)
    as (o & Hrun & Hp); [vm_compute; reflexivity|].
  exact (bank_transfer_is_recorded_once paystack 1 50 "TRF-1" 5 t0 o billed_db busy_day 1 50 " TRF-1 " 5 t0
    billed_wf Hrun Hp eq_refl).
Defined.
