(* ===== verification/IssuanceFacts.v ===== *)
(** * What the issuing sweep does

    Which invoices a sweep raises and for how much, and that a second sweep of
    the same day raises none. *)

From Stdlib Require Import Ascii String.
From stdpp Require Import pretty.
From S2P Require Import Prelude Relational Text Vocabulary Schema Notices Json Calendar Money Quotes Billing Issuance.

Local Open Scope string_scope.
Local Open Scope Z_scope.
Local Open Scope nevo_scope.

(** * What an invoice number tells

    An invoice is found again by its number alone, so what matters is which
    periods have the same number. *)

(** ** Characters of texts *)

(** The first character outside [p] ends the text before it. *)
Lemma string_split p c c' s1 s2 t1 t2 :
  string_forall p s1 = true → string_forall p s2 = true → p c = false → p c' = false →
  s1 ++ String c t1 = s2 ++ String c' t2 → s1 = s2 ∧ t1 = t2.
Proof.
  intros H1 H2 Hc Hc'. revert s2 H1 H2. induction s1 as [|a s1 IH]; intros [|b s2]; cbn.
  - by intros _ _ [= -> ->].
  - intros _ [Hb _]%andb_prop [= -> _]. congruence.
  - intros [Ha _]%andb_prop _ [= -> _]. congruence.
  - intros [_ H1]%andb_prop [_ H2]%andb_prop [= -> Heq]. by destruct (IH s2 H1 H2 Heq) as [-> ->].
Qed.

Lemma string_app_no_end p c s1 s2 t :
  string_forall p s1 = true → p c = false → s1 ≠ s2 ++ String c t.
Proof.
  intros H1 Hc Heq. subst s1. induction s2 as [|a s2 IH].
  - change (p c && string_forall p t = true) in H1. by rewrite Hc in H1.
  - change (p a && string_forall p (s2 ++ String c t) = true) in H1. apply andb_prop in H1 as [_ H1]. auto.
Qed.

Lemma int_str_inj z z' : int_str z = int_str z' → z = z'.
Proof. apply (inj pretty). Qed.

(** ** Invoice numbers *)

Lemma school_slug_alnum code : string_forall is_alnum (school_slug code) = true.
Proof. apply string_forall_take, string_forall_filter. Qed.

Lemma invoice_number_inj code code' y y' t t' :
  0 <= y → 0 <= y' → invoice_number code y t = invoice_number code' y' t' →
  school_slug code = school_slug code' ∧ y = y' ∧ t = t'.
Proof.
  intros Hy Hy'. unfold invoice_number. cbv zeta.
  pose proof (int_str_digits y Hy). pose proof (int_str_digits y' Hy').
  pose proof (school_slug_alnum code). pose proof (school_slug_alnum code').
  assert (∀ a b, "NEVO-" ++ school_slug code ++ "-Y" ++ a = "NEVO-" ++ school_slug code' ++ "-Y" ++ b →
    school_slug code = school_slug code' ∧ a = b) as Hsplit.
  { intros a b Heq%(inj (String.append "NEVO-")).
    destruct (string_split is_alnum "-" "-" (school_slug code) (school_slug code') ("Y" ++ a) ("Y" ++ b))
      as [Hs Hab%(inj (String.append "Y"))]; done. }
  destruct t as [t|], t' as [t'|]; intros [-> Hn]%Hsplit; (split; [done|]).
  - apply (string_split is_digit) in Hn as [->%int_str_inj ->%int_str_inj]; done.
  - by apply eq_sym, (string_app_no_end is_digit) in Hn.
  - by apply (string_app_no_end is_digit) in Hn.
  - by apply int_str_inj in Hn as ->.
Qed.

(** The periods of a contract year have different numbers. *)
Lemma periods_for_inj plan code start y terms p p' :
  0 <= y → p ∈ periods_for plan code start y terms → p' ∈ periods_for plan code start y terms →
  period_number p = period_number p' → p = p'.
Proof.
  intros Hy Hp Hp' Hn. destruct plan; unfold periods_for in Hp, Hp'; cbv zeta in Hp, Hp'; [set_solver|].
  apply elem_of_lookup_zip_with in Hp as (i & t & st & -> & Ht & Hst).
  apply elem_of_lookup_zip_with in Hp' as (i' & t' & st' & -> & Ht' & Hst').
  destruct (invoice_number_inj code code y y (Some t) (Some t') Hy Hy Hn) as (_ & _ & [= <-]).
  assert (i = i') as <- by (eapply (NoDup_lookup [1; 2; 3]); [apply (bool_decide_unpack _); by vm_compute|done..]).
  congruence.
Qed.

(** Two invoice numbers are the same exactly when the school codes agree in the first twenty
    of their letters and digits, whatever their case, and the contract year and the term are
    the same. *)
Theorem invoice_number_determines code code' y y' t t' :
  0 <= y → 0 <= y' →
  (invoice_number code y t = invoice_number code' y' t' ↔
   school_slug code = school_slug code' ∧ y = y' ∧ t = t').
Proof.
  intros Hy Hy'. split; [by apply invoice_number_inj|]. intros (Hs & -> & ->).
  unfold invoice_number. by rewrite Hs.
Qed.

(** Codes that differ in punctuation, case or the characters after the
    twentieth have the same numbers. *)
Example shared_invoice_numbers :
  invoice_number "ST-MARY" 1 None = invoice_number "St Mary" 1 None ∧
  invoice_number "GOVERNMENT-SECONDARY-SCHOOL-A" 1 None = invoice_number "GOVERNMENT-SECONDARY-SCHOOL-B" 1 None.
Proof. split; vm_compute; reflexivity. Qed.

Lemma invoice_number_determines_witness :
  (invoice_number "ST-MARY" 1 (Some 2) = invoice_number "St Mary" 1 (Some 2) ↔
   school_slug "ST-MARY" = school_slug "St Mary" ∧ 1 = 1 ∧ Some 2 = Some 2) ∧
  school_slug "ST-MARY" = school_slug "St Mary".
Proof.
  split; [apply invoice_number_determines; lia|vm_compute; reflexivity].
Defined.

(** ** One period *)

Lemma frames_queue_emails ts i kind :
  BillingEmailDeliveries ∈ ts → frames ts (queue_billing_emails i kind).
Proof. intros. unfold queue_billing_emails. frames_tac. Qed.

Lemma frames_notify_contacts ts s n l a c d :
  Notifications ∈ ts → frames ts (notify_billing_contacts s n l a c d).
Proof. intros. unfold notify_billing_contacts, notify_each, notify. frames_tac. Qed.

#[export] Hint Extern 1 (frames _ (queue_billing_emails _ _)) => apply frames_queue_emails; solve_in_tables : frames.
#[export] Hint Extern 1 (frames _ (notify_billing_contacts _ _ _ _ _ _)) => apply frames_notify_contacts; solve_in_tables : frames.

(** An invoice with this number is on file. *)
Definition has_number (number : string) (db : Database) : bool :=
  is_some (findb (numbered number) (db_tables db Invoices)).

Lemma has_number_spec number db :
  has_number number db = true ↔ ∃ i, i ∈ db_tables db Invoices ∧ invoice_invoice_number i = number.
Proof.
  unfold has_number. rewrite is_some_spec. split.
  - intros [i [Hn Hi]%findb_Some]. unfold numbered in Hn. bool_to_prop. eauto.
  - intros (i & Hi & <-). destruct (findb_is_Some (numbered (invoice_invoice_number i)) _ i Hi) as [j Hj]; [|by exists j].
    by apply bool_decide_true.
Qed.

(** Tables the sweep only reads. *)
Definition sweep_tables : list Table := [Invoices; BillingEmailDeliveries; Notifications].

Section Period.
Context (cur : PricingCurrency) (d : date) (contract : Contract) (school : School) (count : Z) (ids : list uuid).

(** The invoice issued for a period of the contract. *)
Definition issued_for (p : BillingPeriod) (i : Invoice) : Prop :=
  date_le (period_starts_on p) d = true ∧
  ∃ n q, quote_for cur contract school count = inr q ∧ i = period_invoice d n school p q ids.

Lemma issue_period_inv o k p db o' k' db' :
  issue_period cur d contract school count ids (o, k) p db = (inr (o', k'), db') →
  if has_number (period_number p) db then o' = o ∧ k' = k ∧ db' = db
  else if date_lt d (period_starts_on p) then o' = o + 1 ∧ k' = k ∧ db' = db
  else o' = o ∧ k' = k + 1 ∧
    (∃ i, issued_for p i ∧ db_tables db' Invoices = (db_tables db Invoices ++ [i])%list) ∧
    ∀ t, t ∉ sweep_tables → db_tables db' t = db_tables db t.
Proof.
  unfold issue_period, has_number. erewrite bind_inr by reflexivity.
  destruct (findb _ _) as [i|]; [by intros [= <- <- <-]|]. cbn [is_some is_none negb].
  destruct (date_lt d (period_starts_on p)) eqn:Hd; [by intros [= <- <- <-]|].
  destruct (quote_for cur contract school count) as [e|q] eqn:Hq; [done|].
  cbn [lift_exn]. erewrite bind_inr by reflexivity. erewrite bind_inr by reflexivity.
  set (i := period_invoice d (db_uuids db) school p q ids). cbv zeta. erewrite bind_inr by reflexivity.
  rewrite bind_inv_inr. intros (u & db2 & Hflush & Hrun). unfold flush_, flush in Hflush.
  destruct (db_ok _); [|done]. injection Hflush as ? <-.
  assert (o' = o ∧ k' = k + 1) as [-> ->] by (by run_inv).
  match type of Hrun with _ ?s = _ => set (db1 := s) in * end.
  assert (∀ t, t ∉ [BillingEmailDeliveries; Notifications] → db_tables db' t = db_tables db1 t) as Hframe.
  { intros t Ht. eapply frames_run; [|exact Hrun|exact Ht]. frames_tac. }
  unfold db1 in Hframe.
  split; [done|]. split; [done|]. split.
  - exists i. split; [split; [unfold date_le; by rewrite Hd|by exists (db_uuids db), q]|].
    by rewrite Hframe, set_table_eq by set_solver.
  - intros t Ht. unfold sweep_tables in Ht. rewrite Hframe by set_solver. rewrite set_table_ne by set_solver. done.
Qed.
End Period.

(** ** Series of periods *)

(** Going from [db] to [db'], invoices satisfying [P] were added, [k' - k] of
    them, and the tables outside [ts] are as they were. *)
Definition issues (ts : list Table) (P : Invoice → Prop) (k k' : Z) (db db' : Database) : Prop :=
  (∃ new, db_tables db' Invoices = (db_tables db Invoices ++ new)%list ∧
     k' = k + Z.of_nat (length new) ∧ Forall P new) ∧
  ∀ t, t ∉ ts → db_tables db' t = db_tables db t.

Lemma issues_refl ts P k db : issues ts P k k db db.
Proof. split; [|done]. exists []. rewrite app_nil_r. split_and!; [done|simpl; lia|done]. Qed.

Lemma issues_trans ts P k k' k'' db db' db'' :
  issues ts P k k' db db' → issues ts P k' k'' db' db'' → issues ts P k k'' db db''.
Proof.
  intros [(n1 & H1 & -> & HP1) Hf1] [(n2 & H2 & -> & HP2) Hf2]. split.
  - exists (n1 ++ n2)%list. rewrite H2, H1, app_assoc, length_app. split_and!; [done|lia|by apply Forall_app].
  - intros t Ht. by rewrite Hf2, Hf1.
Qed.

Lemma issues_mono ts ts' (P Q : Invoice → Prop) k k' db db' :
  ts ⊆ ts' → (∀ i, P i → Q i) → issues ts P k k' db db' → issues ts' Q k k' db db'.
Proof.
  intros Hts HPQ [(n & H & -> & HP) Hf]. split; [|intros t Ht; apply Hf; set_solver].
  exists n. split_and!; [done|done|]. by eapply Forall_impl.
Qed.

(** Numbers on file stay on file, and a new one is that of a new invoice. *)
Lemma issues_numbers ts P k k' db db' n :
  issues ts P k k' db db' →
  (has_number n db = true → has_number n db' = true) ∧
  (has_number n db' = true → has_number n db = true ∨ ∃ i, P i ∧ invoice_invoice_number i = n).
Proof.
  intros [(new & H & _ & HP) _]. rewrite !has_number_spec, H. split.
  - intros (i & Hi & Hn). exists i. split; [set_solver|done].
  - intros (i & [Hi|Hi]%elem_of_app & Hn); [left; eauto|]. right. rewrite Forall_forall in HP. eauto.
Qed.

Section Periods.
Context (cur : PricingCurrency) (d : date) (contract : Contract) (school : School) (count : Z) (ids : list uuid).
Let body := issue_period cur d contract school count ids.

(** A period that is still to come and not invoiced. *)
Definition to_come (db : Database) (p : BillingPeriod) : Prop :=
  date_lt d (period_starts_on p) = true ∧ has_number (period_number p) db = false.
(** A period this sweep has nothing to do for. *)
Definition covered (db : Database) (p : BillingPeriod) : Prop :=
  has_number (period_number p) db = true ∨ date_lt d (period_starts_on p) = true.

Definition of_periods (ps : list BillingPeriod) (i : Invoice) : Prop :=
  ∃ p, p ∈ ps ∧ issued_for cur d contract school count ids p i.

Lemma of_periods_number ps i : of_periods ps i → ∃ p, p ∈ ps ∧ date_lt d (period_starts_on p) = false ∧
  invoice_invoice_number i = period_number p.
Proof.
  intros (p & Hp & Hd & n & q & _ & ->). exists p. split_and!; [done| |done].
  unfold date_le in Hd. by apply negb_true_iff in Hd.
Qed.

Lemma issue_periods_inv ps o k db o' k' db' :
  (∀ p p', p ∈ ps → p' ∈ ps → period_number p = period_number p' → p = p') →
  fold_each ps (o, k) body db = (inr (o', k'), db') →
  issues sweep_tables (of_periods ps) k k' db db' ∧ (∀ p, p ∈ ps → covered db' p) ∧
  o <= o' ∧ (o < o' → ∃ p, p ∈ ps ∧ to_come db' p) ∧
  (o' = o → ∀ p, p ∈ ps → has_number (period_number p) db' = true).
Proof.
  revert o k db. induction ps as [|p ps IH]; intros o k db Hinj Hrun; simpl in Hrun.
  { injection Hrun as <- <- <-. split_and!; [apply issues_refl|set_solver|lia|lia|set_solver]. }
  apply bind_inv_inr in Hrun as ([o1 k1] & db1 & Hstep & Hrun).
  apply IH in Hrun as (Hi & Hc & Ho & Hlt & Heq); [|intros; apply Hinj; set_solver].
  apply issue_period_inv in Hstep.
  assert (issues sweep_tables (of_periods (p :: ps)) k1 k' db1 db') as Hi'.
  { eapply issues_mono; [done| |exact Hi]. intros i (x & Hx & Hix). exists x. split; [set_solver|done]. }
  pose proof (issues_numbers _ _ _ _ _ _ (period_number p) Hi) as [Hkeep Hnew].
  destruct (has_number (period_number p) db) eqn:Hn.
  - destruct Hstep as (-> & -> & ->). split_and!; [done| |done| |].
    + intros x [->|Hx]%elem_of_cons; [left; auto|auto].
    + intros Hl. destruct (Hlt Hl) as (x & Hx & Hxc). exists x. split; [set_solver|done].
    + intros He x [->|Hx]%elem_of_cons; auto.
  - destruct (date_lt d (period_starts_on p)) eqn:Hd.
    + destruct Hstep as (-> & -> & ->). split_and!; [done| |lia| |lia].
      * intros x [->|Hx]%elem_of_cons; [by right|auto].
      * intros _. exists p. split; [set_solver|]. split; [done|]. apply not_true_iff_false. intros Hn'.
        destruct (Hnew Hn') as [?|(i & Hp & Hin)]; [congruence|].
        apply of_periods_number in Hp as (x & Hx & Hdx & Hix).
        assert (p = x) as <- by (apply Hinj; [set_solver..|congruence]). congruence.
    + destruct Hstep as (-> & -> & (i & Hif & Ht) & Hframe).
      assert (issues sweep_tables (of_periods (p :: ps)) k (k + 1) db db1) as H1.
      { split; [|done]. exists [i]. split_and!; [done|done|]. apply Forall_singleton. exists p. split; [set_solver|done]. }
      assert (has_number (period_number p) db' = true) as Hp.
      { apply Hkeep, has_number_spec. exists i. rewrite Ht. split; [set_solver|].
        destruct Hif as (_ & n & q & _ & ->). done. }
      split_and!; [by eapply issues_trans| |done| |].
      * intros x [->|Hx]%elem_of_cons; [by left|auto].
      * intros Hl. destruct (Hlt Hl) as (x & Hx & Hxc). exists x. split; [set_solver|done].
      * intros He x [->|Hx]%elem_of_cons; auto.
Qed.

Lemma issue_period_covered p o k db :
  covered db p →
  ∃ o', body (o, k) p db = (inr (o', k), db) ∧ o <= o' ∧ (to_come db p → o < o').
Proof.
  unfold covered, to_come, has_number, body, issue_period. intros Hp. erewrite bind_inr by reflexivity.
  destruct (findb _ _) as [i|].
  { exists o. split_and!; [done|lia|]. by intros [_ ?]. }
  destruct Hp as [Hp| ->]; [done|]. exists (o + 1). split_and!; [done|lia|intros; lia].
Qed.

(** Over periods there is nothing to do for, nothing is done. *)
Lemma issue_periods_covered ps o k db :
  (∀ p, p ∈ ps → covered db p) →
  ∃ o', fold_each ps (o, k) body db = (inr (o', k), db) ∧ o <= o' ∧
    ((∃ p, p ∈ ps ∧ to_come db p) → o < o').
Proof.
  revert o. induction ps as [|p ps IH]; intros o Hc; simpl.
  { exists o. split_and!; [done|lia|]. intros (p & Hp & _). set_solver. }
  destruct (issue_period_covered p o k db) as (o1 & Hb & Hle & Hlt); [apply Hc; set_solver|].
  destruct (IH o1) as (o2 & Hr & Hle' & Hlt'); [intros; apply Hc; set_solver|].
  exists o2. erewrite bind_inr by exact Hb. split_and!; [done|lia|].
  intros (x & [->|Hx]%elem_of_cons & Hd); [specialize (Hlt Hd); lia|]. specialize (Hlt' ltac:(eauto)). lia.
Qed.
End Periods.

(** * The whole issuing sweep

    From one contract's years to the sweep over all active contracts: which
    invoices it raises, that it leaves nothing due, and that a second sweep of
    the same day raises none. *)

(** The tables the sweep changes. *)
Definition changed_tables : list Table := Contracts :: sweep_tables.

(** The contract as it stands in another year. *)
Definition in_year (c : Contract) (y : Z) : Contract := c <| contract_current_year_index := y |>.

Lemma in_year_same c : in_year c (contract_current_year_index c) = c.
Proof. by destruct c. Qed.

Lemma in_year_again c y y' : in_year (in_year c y) y' = in_year c y'.
Proof. done. Qed.

(** The row of the contract, in the year [y] now. *)
Definition moved (c : Contract) (y : Z) (l : list Contract) : list Contract :=
  update_list (λ x, contract_contract_id x == contract_contract_id c) (λ _, in_year c y) l.

Lemma moved_same c l :
  NoDup (map contract_contract_id l) → c ∈ l → moved c (contract_current_year_index c) l = l.
Proof.
  intros Hnd Hc. apply update_list_id. intros a Ha Hid. bool_to_prop. rewrite in_year_same.
  symmetry. by apply (NoDup_map_inj contract_contract_id l).
Qed.

Lemma moved_again c y y' l : moved (in_year c y) y' (moved c y l) = moved c y' l.
Proof.
  unfold moved, update_list. rewrite map_map. apply map_ext. intros a.
  change (contract_contract_id (in_year c y)) with (contract_contract_id c).
  destruct (contract_contract_id a == contract_contract_id c) eqn:Ha; [|by rewrite Ha].
  by rewrite bool_decide_true.
Qed.

Lemma moved_ids c y l : map contract_contract_id (moved c y l) = map contract_contract_id l.
Proof. apply map_update_list. intros a _ Ha. by bool_to_prop. Qed.

Lemma moved_has c y l : c ∈ l → in_year c y ∈ moved c y l.
Proof. intros Hc. apply elem_of_update_list. exists c. split; [done|]. by rewrite bool_decide_true. Qed.

Section Contract.
Context (cur : PricingCurrency) (d : date) (school : School) (terms : list date).

(** The periods the sweep looks at: those of the contract's current year. *)
Definition current_periods (c : Contract) : list BillingPeriod :=
  periods_for (school_pricing_plan school) (school_school_code school) (contract_start_date c)
    (contract_current_year_index c) terms.

(** Nothing is left for the sweep to do: each period is invoiced or still to
    come, and the contract stays in its year. *)
Definition settled (db : Database) (c : Contract) : Prop :=
  (∀ p, p ∈ current_periods c → covered d db p) ∧
  (advance_contract_year c d = None ∨ ∃ p, p ∈ current_periods c ∧ to_come d db p).

Lemma current_periods_number c p :
  p ∈ current_periods c → ∃ t, period_number p = invoice_number (school_school_code school) (contract_current_year_index c) t.
Proof.
  unfold current_periods, periods_for. destruct (school_pricing_plan school); cbv zeta.
  - intros ->%list_elem_of_singleton. by eexists.
  - intros (i & t & st & -> & _)%elem_of_lookup_zip_with. by eexists.
Qed.

Lemma current_periods_inj c p p' :
  0 <= contract_current_year_index c → p ∈ current_periods c → p' ∈ current_periods c →
  period_number p = period_number p' → p = p'.
Proof. apply periods_for_inj. Qed.

Section Counted.
Context (count : Z) (ids : list uuid).

Lemma settled_idle n c k db :
  settled db c → issue_years cur d (S n) c school count ids terms k db = (inr k, db).
Proof.
  intros [Hc Hnext]. simpl.
  destruct (issue_periods_covered cur d c school count ids (current_periods c) 0 k db Hc) as (o & Hrun & Hle & Hlt).
  unfold current_periods in Hrun. erewrite bind_inr by exact Hrun.
  cbv beta iota. case_bool_decide as Ho; [|done]. cbn [negb].
  destruct Hnext as [->|Hp]; [done|]. specialize (Hlt Hp). lia.
Qed.

(** The invoices of the contract: each is issued for a period of one of its
    years. *)
Definition of_years (c : Contract) (i : Invoice) : Prop :=
  ∃ y p, 1 <= y <= MAX_CONTRACT_YEARS ∧ p ∈ current_periods (in_year c y) ∧ issued_for cur d c school count ids p i.

Lemma of_years_of_periods c y i :
  1 <= y <= MAX_CONTRACT_YEARS →
  of_periods cur d (in_year c y) school count ids (current_periods (in_year c y)) i → of_years c i.
Proof. intros Hy (p & Hp & Hi). exists y, p. done. Qed.

Lemma advance_contract_year_inv c c' :
  advance_contract_year c d = Some c' →
  c' = in_year c (contract_current_year_index c + 1) ∧ contract_current_year_index c + 1 <= MAX_CONTRACT_YEARS.
Proof.
  unfold advance_contract_year. cbv zeta. destruct (_ <? _) eqn:Hm; [done|]. case_match; [done|].
  intros [= <-]. split; [done|]. lia.
Qed.

(** Year by year: the contract ends in a year it is settled in. *)
Lemma issue_years_settles n c k db k' db' :
  NoDup (map contract_contract_id (db_tables db Contracts)) → c ∈ db_tables db Contracts →
  1 <= contract_current_year_index c <= MAX_CONTRACT_YEARS →
  MAX_CONTRACT_YEARS < contract_current_year_index c + Z.of_nat n →
  issue_years cur d n c school count ids terms k db = (inr k', db') →
  ∃ y, 1 <= y <= MAX_CONTRACT_YEARS ∧
    db_tables db' Contracts = moved c y (db_tables db Contracts) ∧
    settled db' (in_year c y) ∧ issues changed_tables (of_years c) k k' db db'.
Proof.
  revert c k db. induction n as [|n IH]; intros c k db Hnd Hin Hy Hn Hrun; [lia|]. simpl in Hrun.
  apply bind_inv_inr in Hrun as ([o k1] & db1 & Hps & Hrun).
  apply issue_periods_inv in Hps as (Hi & Hc & Ho & Hlt & Heq); [|intros p p'; apply current_periods_inj; lia].
  assert (issues changed_tables (of_years c) k k1 db db1) as Hi1.
  { eapply issues_mono; [| |exact Hi]; [set_solver|]. intros i Hx. eapply of_years_of_periods; [exact Hy|].
    by rewrite in_year_same. }
  assert (db_tables db1 Contracts = db_tables db Contracts) as Hct by (apply Hi; vm_compute; set_solver).
  assert (settled db1 c → ∃ y, 1 <= y <= MAX_CONTRACT_YEARS ∧
    db_tables db1 Contracts = moved c y (db_tables db Contracts) ∧
    settled db1 (in_year c y) ∧ issues changed_tables (of_years c) k k1 db db1) as Hstay.
  { intros Hs. exists (contract_current_year_index c). rewrite in_year_same, moved_same, Hct; done. }
  cbv beta iota in Hrun. case_bool_decide as Hout; cbn [negb] in Hrun.
  2:{ injection Hrun as <- <-. apply Hstay. split; [exact Hc|]. right. apply Hlt. lia. }
  destruct (advance_contract_year c d) as [c'|] eqn:Hadv.
  2:{ injection Hrun as <- <-. apply Hstay. split; [exact Hc|]. by left. }
  apply advance_contract_year_inv in Hadv as [-> Hmax]. set (y1 := contract_current_year_index c + 1) in *.
  apply bind_inv_inr in Hrun as ([] & db2 & Hsave & Hrun). injection Hsave as <-.
  match type of Hrun with _ ?s = _ => set (db2 := s) in * end.
  assert (db_tables db2 Contracts = moved c y1 (db_tables db Contracts)) as Ht2.
  { unfold db2. rewrite set_table_eq, Hct. done. }
  apply IH in Hrun as (y & Hyy & Hrows & Hs & Hi2).
  - exists y. rewrite Ht2, moved_again in Hrows. split_and!; [lia|lia|done|done|].
    eapply issues_trans; [exact Hi1|]. destruct Hi2 as [Hnew Hf]. split; [exact Hnew|].
    intros t Ht. rewrite Hf by done. unfold db2. apply set_table_ne. set_solver.
  - by rewrite Ht2, moved_ids.
  - rewrite Ht2. by apply moved_has.
  - unfold y1 in *. simpl. lia.
  - simpl. lia.
Qed.
End Counted.
End Contract.

(** ** One contract *)

(** How many learners the school is charged for, and the invited ones. *)
Definition billed (school : uuid) (db : Database) : Z * list uuid :=
  let users := filterb (λ u : User, enrolled school u && reachable (db_tables db ParentLinks) u) (db_tables db Users) in
  (Z.of_nat (length users), user_id <$> filterb (λ u : User, user_status u == INVITED) users).

Lemma billable_students_run school db : billable_students school db = (inr (billed school db), db).
Proof. done. Qed.

Lemma billed_frame school db db' :
  (∀ t, t ∉ changed_tables → db_tables db' t = db_tables db t) → billed school db' = billed school db.
Proof. intros Hf. unfold billed. rewrite !Hf; [done|vm_compute; set_solver..]. Qed.

Section Sweep.
Context (cur : PricingCurrency) (d : date).

(** The invoice of a period of the contract, for the learners on record. *)
Definition due_invoice (db : Database) (row : Contract * School) (i : Invoice) : Prop :=
  ∃ terms, configured_terms row.2 = inr terms ∧
    of_years cur d row.2 terms (billed (school_id row.2) db).1 (billed (school_id row.2) db).2 row.1 i.

(** The sweep has nothing more to do for the contract, whatever its year. *)
Definition settled_row (db : Database) (row : Contract * School) : Prop :=
  ∃ terms, configured_terms row.2 = inr terms ∧ settled d row.2 terms db row.1.

Lemma issue_contract_idle k row db : settled_row db row → issue_contract cur d k row db = (inr k, db).
Proof.
  intros (terms & Ht & Hs). destruct row as [c s]. unfold issue_contract. simpl in Ht, Hs.
  erewrite bind_inr by apply billable_students_run. destruct (billed (school_id s) db) as [count ids].
  rewrite Ht. erewrite bind_inr by reflexivity. exact (settled_idle cur d s terms count ids 5 c k db Hs).
Qed.

Lemma issue_contract_settles k c s db k' db' :
  NoDup (map contract_contract_id (db_tables db Contracts)) → c ∈ db_tables db Contracts →
  contract_row_ok c = true →
  issue_contract cur d k (c, s) db = (inr k', db') →
  ∃ y, 1 <= y <= MAX_CONTRACT_YEARS ∧
    db_tables db' Contracts = moved c y (db_tables db Contracts) ∧
    settled_row db' (in_year c y, s) ∧ issues changed_tables (due_invoice db (c, s)) k k' db db'.
Proof.
  intros Hnd Hc Hok Hrun. unfold issue_contract in Hrun.
  erewrite bind_inr in Hrun by apply billable_students_run.
  destruct (billed (school_id s) db) as [count ids] eqn:Hb.
  destruct (configured_terms s) as [e|terms] eqn:Ht; [done|]. erewrite bind_inr in Hrun by reflexivity.
  unfold contract_row_ok in Hok. apply andb_prop in Hok as [[H1 H2]%andb_prop _].
  apply issue_years_settles in Hrun as (y & Hy & Hrows & Hs & Hi); [|done|done|unfold MAX_CONTRACT_YEARS; lia..].
  exists y. split_and!; [lia|lia|done|by exists terms|].
  eapply issues_mono; [done| |exact Hi]. intros i Hx. exists terms. cbn [fst snd]. by rewrite Hb.
Qed.

(** An invoice of the contract carries the number of a period of its school. *)
Lemma due_invoice_number db row i :
  due_invoice db row i → ∃ y t, 1 <= y ∧ invoice_invoice_number i = invoice_number (school_school_code row.2) y t.
Proof.
  intros (terms & _ & y & p & Hy & Hp & _ & n & q & _ & ->). apply current_periods_number in Hp as [t Ht].
  exists y, t. split; [lia|exact Ht].
Qed.

(** Invoices of other schools leave the contract settled. *)
Lemma settled_row_kept (P : Invoice → Prop) ts k k' db db' row :
  0 <= contract_current_year_index row.1 →
  (∀ i, P i → ∃ code y t, 0 <= y ∧ invoice_invoice_number i = invoice_number code y t ∧
     school_slug code ≠ school_slug (school_school_code row.2)) →
  issues ts P k k' db db' → settled_row db row → settled_row db' row.
Proof.
  intros Hy HP Hi (terms & Ht & Hc & Hnext). exists terms. split; [done|]. split.
  - intros p Hp. destruct (Hc p Hp) as [Hn|Hd]; [left|by right]. by apply (issues_numbers _ _ _ _ _ _ _ Hi).
  - destruct Hnext as [|(p & Hp & Hd & Hn)]; [by left|]. right. exists p. split; [done|]. split; [done|].
    apply not_true_iff_false. intros Hn'.
    apply (issues_numbers _ _ _ _ _ _ _ Hi) in Hn' as [?|(i & Hx & Heq)]; [congruence|].
    apply HP in Hx as (code & y & t & Hy' & Hnum & Hslug). apply current_periods_number in Hp as [t' Ht'].
    apply Hslug. eapply invoice_number_inj; [exact Hy'|exact Hy|]. rewrite <- Hnum, Heq. exact Ht'.
Qed.

(** ** All of them *)

(** The active contracts with their schools. *)
Definition active (db : Database) (c : Contract) (s : School) : Prop :=
  c ∈ db_tables db Contracts ∧ contract_status c = CONTRACT_ACTIVE ∧
  s ∈ db_tables db Schools ∧ school_id s = contract_school_id c.

Lemma NoDup_map_filterb {A B} (f : A → B) (p : A → bool) (l : list A) :
  NoDup (map f l) → NoDup (map f (filterb p l)).
Proof. intros Hnd. eapply sublist_NoDup; [exact Hnd|]. apply (fmap_sublist f), sublist_filter. Qed.

(** A join on the key of the other table has each row at most once. *)
Lemma join_ids (cs : list Contract) (ss : list School) :
  NoDup (map contract_contract_id cs) → NoDup (map school_id ss) →
  NoDup (map (λ row : Contract * School, contract_contract_id row.1)
    (cs ≫= λ c, (λ s, (c, s)) <$> filterb (λ s, school_id s == contract_school_id c) ss)).
Proof.
  intros Hcs Hss. induction cs as [|c cs IH]; [constructor|].
  apply NoDup_cons in Hcs as [Hc Hcs]. cbn. rewrite map_app. apply NoDup_app. split_and!; [| |by apply IH].
  - clear -Hss. induction ss as [|s ss IH]; [constructor|]. apply NoDup_cons in Hss as [Hs Hss].
    rewrite filterb_cons. destruct (_ == _) eqn:Hq; [|by apply IH]. rewrite filterb_nil; [apply NoDup_singleton|].
    intros s' Hs'. apply bool_decide_false. intros Heq. bool_to_prop. apply Hs, list_elem_of_fmap.
    exists s'. split; [exact (eq_trans Hq (eq_sym Heq))|done].
  - intros x Hx Hx'. apply list_elem_of_fmap in Hx as ([c1 s1] & -> & (s & [= -> ->] & _)%list_elem_of_fmap).
    apply list_elem_of_fmap in Hx' as ([c2 s2] & Heq & (c' & (s' & [= -> ->] & _)%list_elem_of_fmap & Hin)%list_elem_of_bind).
    apply Hc, list_elem_of_fmap. by exists c'.
Qed.

Lemma active_contracts_run db :
  db_ok db = true →
  ∃ found, active_contracts db = (inr found, db) ∧ (∀ c s, (c, s) ∈ found ↔ active db c s) ∧
    NoDup (map (λ row : Contract * School, contract_contract_id row.1) found).
Proof.
  intros Hok. eexists. split; [reflexivity|]. split.
  - intros c s. rewrite list_elem_of_bind. unfold active.
    setoid_rewrite list_elem_of_fmap. setoid_rewrite elem_of_filterb. split.
    + intros (x & (s' & [= -> ->] & Hs & Hin) & Hst & Hc). by bool_to_prop.
    + intros (Hc & Hst & Hs & Hid). exists c.
      split; [exists s; split; [done|]|]; (split; [by apply bool_decide_true|done]).
  - pose proof (λ t, proj1 (db_ok_spec db) Hok t) as Hall.
    apply join_ids; [|exact (table_primary_key Schools _ (Hall Schools))].
    pose proof (table_primary_key Contracts _ (Hall Contracts)) as Hnd. by apply NoDup_map_filterb.
Qed.
(** No other contract's invoices carry numbers of this one's school. *)
Definition alone (found : list (Contract * School)) (row : Contract * School) : Prop :=
  ∀ row', row' ∈ found →
    school_slug (school_school_code row'.2) = school_slug (school_school_code row.2) →
    contract_contract_id row'.1 = contract_contract_id row.1.

(** What the sweep leaves of a contract: moved to a year all of whose begun
    periods are invoiced, and settled there. *)
Definition left_settled (found : list (Contract * School)) (db : Database) (c : Contract) (s : School) : Prop :=
  ∃ y terms, 1 <= y <= MAX_CONTRACT_YEARS ∧ in_year c y ∈ db_tables db Contracts ∧
    configured_terms s = inr terms ∧ (∀ p, p ∈ current_periods s terms (in_year c y) → covered d db p) ∧
    (alone found (c, s) → settled_row db (in_year c y, s)).

Lemma due_invoice_frame db db' row i :
  (∀ t, t ∉ changed_tables → db_tables db' t = db_tables db t) → due_invoice db' row i ↔ due_invoice db row i.
Proof. intros Hf. unfold due_invoice. by rewrite (billed_frame _ db db' Hf). Qed.

(** The contract that was settled first stays settled through the others. *)
Lemma left_settled_kept found c s y db db' k k' :
  contract_contract_id c ∉ map (λ row : Contract * School, contract_contract_id row.1) found →
  1 <= y <= MAX_CONTRACT_YEARS → in_year c y ∈ db_tables db' Contracts → settled_row db (in_year c y, s) →
  issues changed_tables (λ i, ∃ row, row ∈ found ∧ due_invoice db row i) k k' db db' →
  left_settled ((c, s) :: found) db' c s.
Proof.
  intros Hid Hy Hin Hs Hi. destruct Hs as (terms & Ht & Hc & Hnext). exists y, terms. split_and!; [lia|lia|done|done| |].
  - intros p Hp. destruct (Hc p Hp) as [Hn|Hd]; [left|by right]. by apply (issues_numbers _ _ _ _ _ _ _ Hi).
  - intros Halone. eapply settled_row_kept; [simpl; lia| |exact Hi|by exists terms].
    intros i (row & Hrow & Hdue). apply due_invoice_number in Hdue as (y' & t & Hy' & Hn).
    exists (school_school_code row.2), y', t. split_and!; [lia|done|]. intros Hslug.
    apply Hid, list_elem_of_fmap. exists row. split; [|done]. symmetry. apply Halone; [set_solver|done].
Qed.

Lemma issue_contracts_settle found k db k' db' :
  NoDup (map contract_contract_id (db_tables db Contracts)) →
  NoDup (map (λ row : Contract * School, contract_contract_id row.1) found) →
  (∀ c s, (c, s) ∈ found → c ∈ db_tables db Contracts ∧ contract_row_ok c = true) →
  fold_each found k (issue_contract cur d) db = (inr k', db') →
  issues changed_tables (λ i, ∃ row, row ∈ found ∧ due_invoice db row i) k k' db db' ∧
  NoDup (map contract_contract_id (db_tables db' Contracts)) ∧
  (∀ x, x ∈ db_tables db' Contracts → ∃ x0 y, x0 ∈ db_tables db Contracts ∧ x = in_year x0 y) ∧
  (∀ x, x ∈ db_tables db Contracts →
     contract_contract_id x ∉ map (λ row : Contract * School, contract_contract_id row.1) found →
     x ∈ db_tables db' Contracts) ∧
  (∀ c s, (c, s) ∈ found → left_settled found db' c s).
Proof.
  revert k db. induction found as [|[c s] found IH]; intros k db Hnd Hfnd Hrows Hrun; simpl in Hrun.
  { injection Hrun as <- <-. split_and!; [apply issues_refl|done| |done|set_solver].
    intros x Hx. exists x, (contract_current_year_index x). by rewrite in_year_same. }
  apply bind_inv_inr in Hrun as (k1 & db1 & Hstep & Hrun). apply NoDup_cons in Hfnd as [Hid Hfnd].
  destruct (Hrows c s ltac:(set_solver)) as [Hc Hcok].
  apply issue_contract_settles in Hstep as (y & Hy & Hmoved & Hs & Hi); [|done..].
  assert (∀ x, x ∈ db_tables db Contracts → contract_contract_id x ≠ contract_contract_id c →
    x ∈ db_tables db1 Contracts) as Hother.
  { intros x Hx Hne. rewrite Hmoved. apply elem_of_update_list. exists x. by rewrite bool_decide_false. }
  apply IH in Hrun as (Hi' & Hnd' & Hback & Hkept & Hset); [|by rewrite Hmoved, moved_ids|done|].
  2:{ intros c2 s2 H2. destruct (Hrows c2 s2 ltac:(set_solver)) as [Hc2 ?]. split; [|done]. apply Hother; [done|].
      intros Heq. apply Hid, list_elem_of_fmap. by exists (c2, s2). }
  assert (in_year c y ∈ db_tables db' Contracts) as Hcy.
  { apply Hkept; [|exact Hid]. rewrite Hmoved. by apply moved_has. }
  assert (left_settled ((c, s) :: found) db' c s) as Hhead by (by eapply left_settled_kept).
  split_and!; [|done| | |].
  - eapply issues_trans; [eapply issues_mono; [done| |exact Hi]|eapply issues_mono; [done| |exact Hi']].
    + intros i Hx. exists (c, s). split; [set_solver|done].
    + intros i (row & Hrow & Hx). exists row. split; [set_solver|].
      by rewrite <- (due_invoice_frame db db1) by apply Hi.
  - intros x Hx. destruct (Hback x Hx) as (x1 & y1 & Hx1 & ->). rewrite Hmoved in Hx1.
    apply elem_of_update_list in Hx1 as (a & Ha & ->). case_match; [by exists c, y1|by exists a, y1].
  - intros x Hx Hnin. cbn in Hnin. apply not_elem_of_cons in Hnin as [Hne Hnin]. by apply Hkept; [apply Hother|].
  - intros c2 s2 [[= -> ->]|H2]%elem_of_cons; [exact Hhead|].
    destruct (Hset c2 s2 H2) as (y2 & terms2 & Hy2 & Hin2 & Ht2 & Hc2 & Hal). exists y2, terms2.
    split_and!; [lia|lia|done|done|done|]. intros Halone. apply Hal. intros row Hrow. apply Halone. set_solver.
Qed.
End Sweep.
