(* ===== verification/BillingFacts.v ===== *)
(** * What a school's billing page shows

    The payment method and the billing contact that were saved are the ones
    shown, and the quote shown covers what is invoiced. *)

From Stdlib Require Import Ascii String.
From S2P Require Import Prelude Relational Text Vocabulary Schema Fixtures Money Quotes Billing Issuance IssuanceFacts.

Local Open Scope string_scope.
Local Open Scope Z_scope.
Local Open Scope nevo_scope.

(** ** Reading the page *)

Definition method_of (school : uuid) (db : Database) : option BillingPaymentMethod :=
  findb (λ m : BillingPaymentMethod, method_school_id m == school) (db_tables db BillingPaymentMethods).
Definition contact_of (school : uuid) (db : Database) : option BillingContact :=
  s ← findb (λ s : School, school_id s == school) (db_tables db Schools);
  i ← school_billing_contact_id s;
  findb (λ c : BillingContact, bc_id c == i) (db_tables db BillingContacts).
Definition students_of (school : uuid) (db : Database) : list User := filterb (enrolled school) (db_tables db Users).

(** The parts of a subscription, and that reading it changes nothing. *)
Lemma subscription_inv school today db sub db' :
  subscription school today db = (inr sub, db') →
  db' = db ∧ sub_payment_method sub = payment_method_record <$> method_of school db ∧
  sub_billing_contact sub = contact_record <$> contact_of school db ∧
  quote_student_count (sub_quote sub) = Z.of_nat (length (students_of school db)).
Proof.
  unfold subscription. cbn [subscription_ SqlAlchemyBillingRepository]. unfold repository_subscription. intros Hrun. erewrite bind_inr in Hrun by reflexivity.
  destruct (findb _ (db_tables db Schools)) as [s|] eqn:Hs; [|done].
  assert (contact_of school db = (i ← school_billing_contact_id s;
    findb (λ c : BillingContact, bc_id c == i) (db_tables db BillingContacts))) as ->.
  { exact (f_equal (λ o : option School, s ← o; i ← school_billing_contact_id s;
      findb (λ c : BillingContact, bc_id c == i) (db_tables db BillingContacts)) Hs). }
  assert (billing_contact (school_billing_contact_id s) db =
    (inr (i ← school_billing_contact_id s;
      findb (λ c : BillingContact, bc_id c == i) (db_tables db BillingContacts)), db)) as Hc.
  { unfold billing_contact. by destruct (school_billing_contact_id s). }
  erewrite bind_inr in Hrun by exact Hc. do 3 erewrite bind_inr in Hrun by reflexivity.
  destruct (quote_per_student _ _ _ _ _ _) as [e|q] eqn:Hq; [done|]. erewrite bind_inr in Hrun by reflexivity.
  destruct (renewal_notice _ _) as [v m]. injection Hrun as <- <-. split_and!; [done|done|done|].
  unfold quote_per_student in Hq. destruct (_ <? 0); [done|]. destruct (dec_ltb _ _); [done|].
  by injection Hq as <-.
Qed.

(** ** Writing the payment method *)

(** Updating or adding the row of a key, and the rows of the other keys. *)
Section Upsert.
Context {R : Type} (id key : R → uuid) (l : list R) (k : uuid).

Lemma findb_upsert_update (f : R → R) m :
  NoDup (map id l) → (∀ r, key (f r) = key r) → findb (λ r, key r == k) l = Some m →
  findb (λ r, key r == k) (update_list (λ r, id r == id m) f l) = Some (f m) ∧
  ∀ k', k' ≠ k → findb (λ r, key r == k') (update_list (λ r, id r == id m) f l) = findb (λ r, key r == k') l.
Proof.
  intros Hnd Hf Hm. split; [|intros k' Hk]; rewrite findb_update_list by (intros; cbv beta; by rewrite Hf).
  - rewrite Hm. simpl. by rewrite bool_decide_true.
  - destruct (findb (λ r, key r == k') l) as [r|] eqn:Hr; [simpl|done]. case_bool_decide as Hid; [|done].
    apply findb_Some in Hr as [Hkr Hr], Hm as [Hkm Hm]. bool_to_prop.
    apply (NoDup_map_inj id l) in Hid as ->; congruence.
Qed.

Lemma findb_upsert_insert r :
  key r = k → findb (λ r, key r == k) l = None →
  findb (λ r, key r == k) (l ++ [r]) = Some r ∧
  ∀ k', k' ≠ k → findb (λ r, key r == k') (l ++ [r]) = findb (λ r, key r == k') l.
Proof.
  intros Hr Hn. split; [|intros k' Hk]; rewrite findb_app.
  - rewrite Hn, findb_cons. by rewrite bool_decide_true.
  - rewrite findb_cons, bool_decide_false by congruence. by destruct (findb (λ r, key r == k') l).
Qed.
End Upsert.

Lemma update_payment_method_inv school actor d db rec db' :
  db_ok db = true → update_payment_method school actor d db = (inr rec, db') →
  ∃ m0, let m := with_method_update m0 d actor in
    method_of school db' = Some m ∧ rec = payment_method_record m ∧
    (∀ other, other ≠ school → method_of other db' = method_of other db) ∧
    (∀ t, t ≠ BillingPaymentMethods → db_tables db' t = db_tables db t).
Proof.
  intros Hok. unfold update_payment_method. case_match; [done|].
  cbn [update_payment_method_ SqlAlchemyBillingRepository].
  intros [Hrun _]%transaction_commit. erewrite bind_inr in Hrun by reflexivity.
  pose proof (table_primary_key BillingPaymentMethods _ (proj1 (db_ok_spec db) Hok BillingPaymentMethods)) as Hnd.
  unfold method_of. destruct (findb _ _) as [m|] eqn:Hm.
  - erewrite bind_inr in Hrun by reflexivity. injection Hrun as <- <-. exists m. cbv zeta. rewrite set_table_eq.
    destruct (findb_upsert_update method_id method_school_id _ _ (λ r, with_method_update r d actor) m Hnd
      (λ _, eq_refl) Hm) as [H1 H2].
    split_and!; [exact H1|done|exact H2|]. intros t Ht. apply set_table_ne. congruence.
  - erewrite bind_inr in Hrun by reflexivity. cbv zeta in Hrun. erewrite bind_inr in Hrun by reflexivity.
    apply bind_inv_inr in Hrun as ([] & db2 & Hflush & Hrun). injection Hrun as <- <-.
    unfold flush_, flush in Hflush. case_match; [|done]. injection Hflush as <-. eexists. cbv zeta.
    rewrite set_table_eq.
    destruct (findb_upsert_insert method_school_id (db_tables db BillingPaymentMethods) school
      (with_method_update (new_BillingPaymentMethod (db_uuids db) school (pmu_method_type d)
         (pmu_display_name d) (pmu_last_four d) actor) d actor) eq_refl Hm) as [H1 H2].
    split_and!; [exact H1|done|exact H2|]. intros t Ht. rewrite set_table_ne by congruence. done.
Qed.

(** ** Writing the billing contact *)

Lemma school_contact_run school db : school_contact school db = (inr (contact_of school db), db).
Proof.
  unfold school_contact, contact_of. erewrite bind_inr by reflexivity.
  destruct (findb _ (db_tables db Schools)) as [s|] eqn:Hs.
  - rewrite (f_equal (λ o : option School, s ← o; i ← school_billing_contact_id s;
      findb (λ c : BillingContact, bc_id c == i) (db_tables db BillingContacts)) Hs). simpl.
    by destruct (school_billing_contact_id s).
  - by rewrite (f_equal (λ o : option School, s ← o; i ← school_billing_contact_id s;
      findb (λ c : BillingContact, bc_id c == i) (db_tables db BillingContacts)) Hs).
Qed.

Lemma contact_of_Some school db c :
  contact_of school db = Some c ↔ ∃ s i,
    findb (λ s : School, school_id s == school) (db_tables db Schools) = Some s ∧
    school_billing_contact_id s = Some i ∧
    findb (λ c : BillingContact, bc_id c == i) (db_tables db BillingContacts) = Some c.
Proof.
  unfold contact_of. rewrite bind_Some. setoid_rewrite bind_Some. naive_solver.
Qed.

(** A school that points to its contact. *)
Definition pointed (s : School) (i : uuid) : School := s <| school_billing_contact_id := Some i |>.

Lemma update_billing_contact_inv school actor d db rec db' :
  db_wf db → is_some (findb (λ s : School, school_id s == school) (db_tables db Schools)) = true →
  update_billing_contact school actor d db = (inr rec, db') →
  ∃ c0, let c := with_contact_update c0 d actor in
    contact_of school db' = Some c ∧ rec = contact_record c ∧
    (∀ t, t ≠ BillingContacts → t ≠ Schools → db_tables db' t = db_tables db t) ∧
    (∀ x, x ∈ db_tables db BillingContacts → bc_id x ≠ bc_id c → x ∈ db_tables db' BillingContacts).
Proof.
  intros [_ Hfresh] [s Hs]%is_some_spec. unfold update_billing_contact.
  cbn [update_billing_contact_ SqlAlchemyBillingRepository].
  intros [Hrun _]%transaction_commit. erewrite bind_inr in Hrun by apply school_contact_run.
  destruct (contact_of school db) as [c|] eqn:Hc.
  - erewrite bind_inr in Hrun by reflexivity. injection Hrun as <- <-. exists c. cbv zeta.
    apply contact_of_Some in Hc as (s' & i & Hs' & Hi & Hc). split_and!.
    + apply contact_of_Some. exists s', i. rewrite set_table_ne, set_table_eq by done. split_and!; [done|done|].
      rewrite (findb_update_list _ (λ r, with_contact_update r d actor)
        (λ c : BillingContact, bc_id c == i) (db_tables db BillingContacts)) by done.
      rewrite Hc. simpl. by rewrite bool_decide_true.
    + done.
    + intros t Ht _. apply set_table_ne. congruence.
    + intros x Hx Hne. rewrite set_table_eq. apply elem_of_update_list. exists x. split; [done|].
      by rewrite bool_decide_false.
  - erewrite bind_inr in Hrun by reflexivity. erewrite bind_inr in Hrun by reflexivity. cbv zeta in Hrun.
    erewrite bind_inr in Hrun by reflexivity. apply bind_inv_inr in Hrun as ([] & db2 & Hflush & Hrun).
    unfold flush_, flush in Hflush. case_match; [|done]. injection Hflush as <-.
    erewrite bind_inr in Hrun by reflexivity. injection Hrun as <- <-. eexists. cbv zeta. split_and!.
    + apply contact_of_Some. exists (pointed s (db_uuids db)), (db_uuids db).
      split_and!; [|done|].
      * rewrite set_table_eq, set_table_ne by done. rewrite (findb_update_list _ (λ s, pointed s (db_uuids db))
          (λ s : School, school_id s == school) (db_tables db Schools)) by done.
        rewrite Hs. apply findb_Some in Hs as [Hid _]. simpl. by rewrite Hid.
      * rewrite set_table_ne, set_table_eq by done. apply (findb_upsert_insert bc_id); [done|]. apply findb_None. intros x Hx. apply bool_decide_false.
        intros Heq. specialize (Hfresh BillingContacts x Hx). simpl in Hfresh. lia.
    + done.
    + intros t Ht Ht'. rewrite !set_table_ne by congruence. done.
    + intros x Hx _. rewrite set_table_ne, set_table_eq by done. set_solver.
Qed.

(** ** Theorems *)

(** The payment method a school saves is the one its subscription shows, with the details it
    was given - a card with its expiry - and neither another school's method nor any contact
    changes. *)
Theorem saved_payment_method_is_shown school actor d today db rec db' sub db'' :
  db_ok db = true → update_payment_method school actor d db = (inr rec, db') →
  subscription school today db' = (inr sub, db'') →
  sub_payment_method sub = Some rec ∧
  pmr_method_type rec = pmu_method_type d ∧ pmr_display_name rec = pmu_display_name d ∧
  pmr_last_four rec = pmu_last_four d ∧ pmr_card_brand rec = pmu_card_brand d ∧
  pmr_bank_name rec = pmu_bank_name d ∧ pmr_account_holder_name rec = pmu_account_holder_name d ∧
  (pmr_method_type rec = CARD → is_Some (pmr_expiry_month rec) ∧ is_Some (pmr_expiry_year rec)) ∧
  (∀ other, other ≠ school → method_of other db' = method_of other db) ∧
  ∀ other, contact_of other db' = contact_of other db.
Proof.
  intros Hok Hup Hsub. assert (pmu_method_type d = CARD → is_Some (pmu_expiry_month d) ∧ is_Some (pmu_expiry_year d)) as Hcard.
  { intros Ht. unfold update_payment_method in Hup. rewrite Ht in Hup.
    destruct (pmu_expiry_month d), (pmu_expiry_year d); done. }
  destruct (update_payment_method_inv _ _ _ _ _ _ Hok Hup) as (m0 & Hm & -> & Hother & Hframe).
  apply subscription_inv in Hsub as (_ & -> & _). rewrite Hm. split_and!; try done.
  intros other. unfold contact_of. by rewrite !Hframe by done.
Qed.

(** The billing contact a school saves is the one its subscription shows, with the details it
    was given, whether it had a contact before or not; its payment method, and every other
    contact, stay as they were. *)
Theorem saved_billing_contact_is_shown s actor d today db rec db' sub db'' :
  db_wf db → s ∈ (db_tables db Schools : list School) →
  update_billing_contact (school_id s) actor d db = (inr rec, db') →
  subscription (school_id s) today db' = (inr sub, db'') →
  sub_billing_contact sub = Some rec ∧
  bcr_email rec = bcu_email d ∧ bcr_phone rec = bcu_phone d ∧ bcr_address_line1 rec = bcu_address_line1 d ∧
  bcr_city rec = bcu_city d ∧ bcr_postal_code rec = bcu_postal_code d ∧ bcr_country rec = bcu_country d ∧
  sub_payment_method sub = payment_method_record <$> method_of (school_id s) db ∧
  ∀ x, x ∈ (db_tables db BillingContacts : list BillingContact) → bc_id x ≠ bcr_id rec →
    x ∈ (db_tables db' BillingContacts : list BillingContact).
Proof.
  intros Hwf Hs Hup Hsub.
  assert (is_some (findb (λ x : School, school_id x == school_id s) (db_tables db Schools)) = true) as Hon.
  { apply is_some_spec. destruct (findb_is_Some (λ x : School, school_id x == school_id s) _ s Hs) as [x Hx];
      [by apply bool_decide_true|by exists x]. }
  destruct (update_billing_contact_inv _ _ _ _ _ _ Hwf Hon Hup) as (c0 & Hc & -> & Hframe & Hothers).
  apply subscription_inv in Hsub as (_ & Hm & -> & _). rewrite Hc. split_and!; try done.
  rewrite Hm. unfold method_of. by rewrite Hframe by done.
Qed.

(** The page never counts fewer learners than an invoice of the same day bills: the invoice
    leaves out those of the roster nobody can be asked about. *)
Theorem page_counts_whom_the_invoice_bills school today db sub db' :
  subscription school today db = (inr sub, db') →
  0 <= (billed school db).1 <= quote_student_count (sub_quote sub).
Proof.
  intros (_ & _ & _ & ->)%subscription_inv. unfold billed, students_of. cbn [fst].
  induction (db_tables db Users) as [|u l IH]; [done|]. rewrite !filterb_cons.
  destruct (enrolled school u); simpl; [|exact IH]. destruct (reachable _ u); simpl length in *; lia.
Qed.
