(* ===== verification/IssuanceProperties.v ===== *)
(** * Theorems about issuing invoices

    What the daily sweep raises and leaves, that it can be repeated, and that
    an invoice's emails are queued once. *)

From Stdlib Require Import Ascii String.
From S2P Require Import Prelude Relational Text Vocabulary Schema Notices Json Calendar Money Quotes Billing Issuance IssuanceFacts.

Local Open Scope string_scope.
Local Open Scope Z_scope.
Local Open Scope nevo_scope.

(** ** The sweep *)

(** The run of a sweep that returns, as the run over the contracts it found. *)
Lemma sweep_run cur d db r db' :
  issue_due_invoices cur d db = (inr r, db') →
  ∃ found, active_contracts db = (inr found, db) ∧
    fold_each found 0 (issue_contract cur d) db = (inr (issued r), db') ∧ db_ok db' = true.
Proof.
  intros [Hrun Hok]%transaction_commit. eexists. split; [reflexivity|].
  erewrite bind_inr in Hrun by reflexivity. apply bind_inv_inr in Hrun as (k & db1 & Hrun & Hret).
  injection Hret as <- <-. split; [exact Hrun|exact Hok].
Qed.

Lemma db_ok_contracts db :
  db_ok db = true →
  NoDup (map contract_contract_id (db_tables db Contracts)) ∧
  ∀ c, c ∈ db_tables db Contracts → contract_row_ok c = true.
Proof.
  intros Hok. pose proof (proj1 (db_ok_spec db) Hok Contracts) as H.
  split; [exact (table_primary_key Contracts _ H)|]. apply andb_prop in H as [_ H].
  intros c Hc. rewrite forallb_forall in H. by apply H, list_elem_of_In.
Qed.

(** What the sweep leaves of the contracts it found. *)
Lemma sweep_settles cur d db r db' :
  db_ok db = true → issue_due_invoices cur d db = (inr r, db') →
  ∃ found, (∀ c s, (c, s) ∈ found ↔ active db c s) ∧
    issues changed_tables (λ i, ∃ row, row ∈ found ∧ due_invoice cur d db row i) 0 (issued r) db db' ∧
    ∀ c s, active db' c s → ∃ c0 y, c = in_year c0 y ∧ 1 <= y ∧ (c0, s) ∈ found ∧
      ∃ terms, configured_terms s = inr terms ∧ (∀ p, p ∈ current_periods s terms c → covered d db' p) ∧
        (alone found (c0, s) → settled_row d db' (c, s)).
Proof.
  intros Hok (found & Hfound & Hrun & Hok')%sweep_run.
  destruct (active_contracts_run db Hok) as (found' & Hf & Hact & Hfnd).
  rewrite Hf in Hfound. injection Hfound as ->. exists found. split; [done|].
  destruct (db_ok_contracts db Hok) as [Hnd Hrows].
  apply issue_contracts_settle in Hrun as (Hi & Hnd' & Hback & _ & Hset); [|done|done|].
  2:{ intros c s (Hc & _)%Hact. eauto. }
  split; [done|]. intros c s (Hc & Hst & Hs & Hid). destruct (Hback c Hc) as (c0 & y & Hc0 & ->).
  assert (db_tables db' Schools = db_tables db Schools) as Hss by (apply Hi; vm_compute; set_solver).
  rewrite Hss in Hs. assert ((c0, s) ∈ found) as Hin by (by apply Hact).
  destruct (Hset c0 s Hin) as (y' & terms & Hy' & Hin' & Ht & Hc' & Hal).
  assert (in_year c0 y = in_year c0 y') as Heq by (by apply (NoDup_map_inj contract_contract_id (db_tables db' Contracts))).
  exists c0, y'. split_and!; [done|lia|done|]. exists terms. rewrite Heq. done.
Qed.

Lemma active_school db c s s' : db_ok db = true → active db c s → active db c s' → s = s'.
Proof.
  intros Hok (_ & _ & Hs & Hid) (_ & _ & Hs' & Hid').
  apply (NoDup_map_inj school_id (db_tables db Schools)); [|done|done|congruence].
  exact (table_primary_key Schools _ (proj1 (db_ok_spec db) Hok Schools)).
Qed.

(** No other active contract of [db] is with a school whose code gives the same
    invoice numbers. *)
Definition numbers_of_its_own (db : Database) (c : Contract) (s : School) : Prop :=
  ∀ c' s', active db c' s' → school_slug (school_school_code s') = school_slug (school_school_code s) →
    contract_contract_id c' = contract_contract_id c.

(** An invoice for a due period whose number is that of a period of the
    contract: it is for a school with the same slug; when the contract has its
    numbers of its own, it is for that period. *)
Lemma due_invoice_of_period cur d db c0 s y terms p row i :
  db_ok db = true → active db c0 s → active db row.1 row.2 → configured_terms s = inr terms → 1 <= y →
  p ∈ current_periods s terms (in_year c0 y) → due_invoice cur d db row i → invoice_invoice_number i = period_number p →
  school_slug (school_school_code row.2) = school_slug (school_school_code s) ∧
  (numbers_of_its_own db c0 s → ∃ n q, quote_for cur c0 s (billed (school_id s) db).1 = inr q ∧
     i = period_invoice d n s p q (billed (school_id s) db).2).
Proof.
  destruct row as [c' s']. cbn [fst snd]. intros Hok Hact Hact' Hterms Hy Hp (terms' & Hterms' & y' & p' & Hy' & Hp' & _ & n & q & Hq & ->) Hn.
  cbn [fst snd] in *. destruct (current_periods_number _ _ _ _ Hp) as [t Ht]. destruct (current_periods_number _ _ _ _ Hp') as [t' Ht'].
  change (period_number p' = period_number p) in Hn. rewrite Ht, Ht' in Hn.
  apply invoice_number_inj in Hn as (Hslug & Hyy & ->); [|cbn; lia..]. cbn in Hyy. subst y'. split; [done|]. intros Hown.
  assert (c' = c0) as ->.
  { apply (NoDup_map_inj contract_contract_id (db_tables db Contracts)); [by apply db_ok_contracts|apply Hact'|apply Hact|].
    by eapply Hown. }
  rewrite (active_school db c0 s' s) in * by done. rewrite Hterms in Hterms'. injection Hterms' as <-.
  rewrite (current_periods_inj s terms (in_year c0 y) p' p) in * by (done || (cbn; lia) || congruence). by exists n, q.
Qed.

(** C8: what a sweep does. The invoices on file before are untouched, and those it adds - as
    many as it reports - are each for a period of one of the six years of an active contract
    that began on or before the day, made out for the quote over the learners on record, and
    due thirty days later. Of the current year of an active contract, each period that has
    begun either had its number taken by an invoice before the sweep, or an invoice with that
    number is among those added, for a school whose code gives the same numbers; when no other
    active contract's school has such a code, that invoice is the period's own, to this school
    and for its quote, and the year is the last that has begun, or has a period that is still
    to come. No two invoices share a number. *)
Theorem sweep_bills_what_has_begun cur d db r db' :
  db_ok db = true → issue_due_invoices cur d db = (inr r, db') →
  (∃ new, db_tables db' Invoices = (db_tables db Invoices ++ new)%list ∧ issued r = Z.of_nat (length new) ∧
     (∀ i, i ∈ new → ∃ c s terms y p q n,
       active db c s ∧ configured_terms s = inr terms ∧ 1 <= y <= MAX_CONTRACT_YEARS ∧
       p ∈ periods_for (school_pricing_plan s) (school_school_code s) (contract_start_date c) y terms ∧
       date_le (period_starts_on p) d = true ∧
       quote_for cur c s (billed (school_id s) db).1 = inr q ∧
       i = period_invoice d n s p q (billed (school_id s) db).2) ∧
     (∀ c s, active db' c s → ∃ terms, configured_terms s = inr terms ∧
       let periods := periods_for (school_pricing_plan s) (school_school_code s) (contract_start_date c)
                        (contract_current_year_index c) terms in
       (∀ p, p ∈ periods → date_le (period_starts_on p) d = true →
          (∃ i, i ∈ db_tables db Invoices ∧ invoice_invoice_number i = period_number p) ∨
          ∃ i c' s', i ∈ new ∧ invoice_invoice_number i = period_number p ∧ active db c' s' ∧
            invoice_school_id i = school_id s' ∧
            school_slug (school_school_code s') = school_slug (school_school_code s) ∧
            (numbers_of_its_own db c s → ∃ n q, quote_for cur c s (billed (school_id s) db).1 = inr q ∧
               i = period_invoice d n s p q (billed (school_id s) db).2)) ∧
       (numbers_of_its_own db c s →
          advance_contract_year c d = None ∨ ∃ p, p ∈ periods ∧ date_lt d (period_starts_on p) = true))) ∧
  (∀ i j, i ∈ db_tables db' Invoices → j ∈ db_tables db' Invoices →
     invoice_invoice_number i = invoice_invoice_number j → i = j).
Proof.
  intros Hok Hrun. pose proof (sweep_run _ _ _ _ _ Hrun) as (_ & _ & _ & Hok').
  destruct (sweep_settles _ _ _ _ _ Hok Hrun) as (found & Hact & [(new & Ht & Hk & Hnew) _] & Hset).
  rewrite Forall_forall in Hnew. split_and!.
  - exists new. split; [done|]. split; [lia|]. split.
    { intros i Hi. destruct (Hnew i Hi) as ([c s] & Hin & terms & Hterms & y & p & Hy & Hp & Hd & n & q & Hq & ->).
      exists c, s, terms, y, p, q, n. apply Hact in Hin. split_and!; [done|done|lia|lia|done|done|done|done]. }
    intros c s (c0 & y & -> & Hy & Hin & terms & Hterms & Hc & Halone)%Hset. exists terms. split; [done|].
    pose proof Hin as Hin0. apply Hact in Hin. cbv zeta. split.
    + intros p Hp Hd. destruct (Hc p Hp) as [Hnum|Hlt]; [|unfold date_le in Hd; by rewrite Hlt in Hd].
      apply has_number_spec in Hnum as (i & Hi & Hn). rewrite Ht in Hi. apply elem_of_app in Hi as [Hi|Hi]; [left; by exists i|].
      right. destruct (Hnew i Hi) as ([c' s'] & Hin' & Hdue). apply Hact in Hin'. exists i, c', s'.
      destruct (due_invoice_of_period cur d db c0 s y terms p (c', s') i) as [Hslug Hown]; try done.
      split_and!; [done|done|done| |done|exact Hown].
      by destruct Hdue as (? & _ & ? & ? & _ & _ & _ & ? & ? & _ & ->).
    + intros Hown. destruct Halone as (terms' & Hterms' & _ & Hnext).
      { intros [c' s'] Hin' Hslug. apply Hact in Hin'. by eapply Hown. }
      cbn [fst snd] in Hterms', Hnext. rewrite Hterms in Hterms'. injection Hterms' as <-.
      destruct Hnext as [|(p & Hp & Hlt & _)]; [by left|right; by exists p].
  - pose proof (proj1 (db_ok_spec db') Hok' Invoices) as Hu. apply andb_prop in Hu as [_ Hu].
    intros i j Hi Hj Hn. eapply (unique_on_eq _ _ i j); [exact Hu|done|done|done|by rewrite Hn].
Qed.

(** The sweep can be repeated. When no two schools with an active contract share the part of
    their code that goes into invoice numbers, a second sweep for the same day issues nothing
    and changes nothing - also after other work, such as payments, that leaves contracts,
    schools and invoice numbers as they were. *)
Theorem second_sweep_issues_nothing cur cur' d db r db1 db2 :
  db_ok db = true →
  (∀ c s c' s', active db c s → active db c' s' →
     school_slug (school_school_code s) = school_slug (school_school_code s') →
     contract_contract_id c = contract_contract_id c') →
  issue_due_invoices cur d db = (inr r, db1) →
  db_ok db2 = true → db_tables db2 Contracts = db_tables db1 Contracts →
  db_tables db2 Schools = db_tables db1 Schools → (∀ n, has_number n db2 = has_number n db1) →
  ∃ r', issue_due_invoices cur' d db2 = (inr r', db2) ∧ issued r' = 0.
Proof.
  intros Hok Hslugs Hrun Hok2 Hc2 Hs2 Hn2.
  destruct (sweep_settles _ _ _ _ _ Hok Hrun) as (found & Hact & _ & Hset).
  destruct (active_contracts_run db2 Hok2) as (found2 & Hf2 & Hact2 & _).
  exists (mkIssuanceResult (Z.of_nat (length found2)) 0). split; [|done].
  apply transaction_ok; [|done]. erewrite bind_inr by exact Hf2.
  erewrite bind_inr; [reflexivity|]. apply fold_each_idle. intros [c s] k Hin. apply issue_contract_idle.
  apply Hact2 in Hin as (Hc & Hst & Hs & Hid). rewrite Hc2 in Hc. rewrite Hs2 in Hs.
  destruct (Hset c s) as (c0 & y & -> & Hy & Hin & terms & Ht & _ & Hal); [done|].
  assert (settled_row d db1 (in_year c0 y, s)) as (terms' & Ht' & Hcov & Hnext).
  { apply Hal. intros [c' s'] Hin' Hslug. apply Hact in Hin, Hin'. by eapply Hslugs. }
  exists terms'. split; [done|]. unfold settled, covered, to_come in *. setoid_rewrite Hn2. done.
Qed.

(** ** Emails about an invoice *)

Lemma elem_of_unqueued e emails existing :
  e ∈ unqueued emails existing ↔ e ∈ emails ∧ e ∉ existing.
Proof.
  unfold unqueued. rewrite elem_of_filterb, elem_of_remove_dups. split.
  - intros [Hn He]. apply negb_true_iff in Hn. by bool_to_prop.
  - intros [He Hn]. split; [|done]. by rewrite bool_decide_false.
Qed.

Lemma unqueued_NoDup emails existing : NoDup (unqueued emails existing).
Proof. unfold unqueued, filterb. apply NoDup_filter, NoDup_remove_dups. Qed.

(** The addresses of the school's billing contacts, and those already queued. *)
Definition contact_emails (i : Invoice) (db : Database) : list string :=
  bc_email <$> filterb (λ c : BillingContact, bc_school_id c == invoice_school_id i) (db_tables db BillingContacts).
Definition queued_emails (i : Invoice) (kind : string) (db : Database) : list string :=
  bed_email <$> filterb (λ d : BillingEmailDelivery, (bed_invoice_id d == invoice_id i) && (bed_kind d == kind))
    (db_tables db BillingEmailDeliveries).

Lemma queue_billing_emails_run i kind db :
  ∃ db', queue_billing_emails i kind db =
      (inr (Z.of_nat (length (unqueued (contact_emails i db) (queued_emails i kind db)))), db') ∧
    db_tables db' BillingEmailDeliveries = (db_tables db BillingEmailDeliveries ++
      stamped BillingEmailDeliveries
        (λ n email, new_BillingEmailDelivery n (invoice_id i) email kind (db_now db)) (db_uuids db)
        (unqueued (contact_emails i db) (queued_emails i kind db)))%list ∧
    (∀ t, t ≠ BillingEmailDeliveries → db_tables db' t = db_tables db t) ∧
    (unqueued (contact_emails i db) (queued_emails i kind db) = [] → db' = db).
Proof.
  unfold queue_billing_emails. erewrite bind_inr by reflexivity.
  destruct (filterb _ (db_tables db BillingContacts)) as [|c cs] eqn:Hcs.
  { assert (unqueued (contact_emails i db) (queued_emails i kind db) = []) as ->
      by exact (f_equal (λ l : list BillingContact, unqueued (bc_email <$> l) (queued_emails i kind db)) Hcs).
    exists db. split_and!; [done| |done|done]. symmetry. apply app_nil_r. }
  erewrite bind_inr by reflexivity. erewrite bind_inr by reflexivity. cbv zeta.
  change (bed_email <$> _) with (queued_emails i kind db).
  rewrite <- (f_equal (λ l : list BillingContact, bc_email <$> l) Hcs).
  change (bc_email <$> _) with (contact_emails i db). set (fresh := unqueued _ _).
  destruct (for_each_insert BillingEmailDeliveries
    (λ n email, new_BillingEmailDelivery n (invoice_id i) email kind (db_now db)) fresh db)
    as (db' & Hrun & Ht & Hne & _ & _).
  exists db'. erewrite bind_inr by exact Hrun. split_and!; [done|done|done|].
  fold fresh. intros Hf. rewrite Hf in Hrun. by injection Hrun as <-.
Qed.

Lemma stamped_emails mk n (l : list string) :
  (∀ k e, bed_email (mk k e) = e) →
  bed_email <$> (stamped BillingEmailDeliveries mk n l : list BillingEmailDelivery) = l.
Proof.
  intros Hmk. revert n. induction l as [|e l IH]; intros n; [done|].
  exact (f_equal2 cons (Hmk n e) (IH (n + 1))).
Qed.

(** An invoice message is queued once per address. Afterwards there is a delivery of the kind
    for the address of each billing contact of the invoice's school; the rows added are
    pending, due at once, for this invoice and distinct addresses that had none, and as many
    as the count says; and queueing the same message again adds nothing. *)
Theorem billing_email_is_queued_once i kind db :
  ∃ n db' new, queue_billing_emails i kind db = (inr n, db') ∧
    db_tables db' BillingEmailDeliveries = (db_tables db BillingEmailDeliveries ++ new)%list ∧
    n = Z.of_nat (length new) ∧ NoDup (bed_email <$> (new : list BillingEmailDelivery)) ∧
    (∀ b, b ∈ (new : list BillingEmailDelivery) →
       bed_invoice_id b = invoice_id i ∧ bed_kind b = kind ∧ bed_status b = "pending" ∧
       bed_next_attempt_at b = db_now db ∧ bed_email b ∈ contact_emails i db ∧
       bed_email b ∉ queued_emails i kind db) ∧
    (∀ e, e ∈ contact_emails i db → e ∈ queued_emails i kind db') ∧
    queue_billing_emails i kind db' = (inr 0, db').
Proof.
  destruct (queue_billing_emails_run i kind db) as (db' & Hrun & Ht & Hne & _).
  set (fresh := unqueued _ _) in *. set (mk := λ n email, new_BillingEmailDelivery n _ email kind _) in *.
  set (new := stamped _ _ _ _) in *.
  assert (bed_email <$> (new : list BillingEmailDelivery) = fresh) as Hnew.
  { by apply stamped_emails. }
  assert (queued_emails i kind db' = queued_emails i kind db ++ fresh)%list as Hq.
  { unfold queued_emails. rewrite Ht, <- Hnew. unfold filterb. rewrite filter_app, fmap_app. f_equal. f_equal.
    apply filterb_all. intros b Hb.
    destruct (@elem_of_stamped Table nevo_schema BillingEmailDeliveries string mk _ _ b Hb) as (n & e & _ & -> & _).
    by rewrite !bool_decide_true. }
  assert (contact_emails i db' = contact_emails i db) as Hce by (unfold contact_emails; by rewrite Hne).
  exists (Z.of_nat (length fresh)), db', new. split_and!; [done|done| | | | |].
  - by rewrite <- Hnew, length_fmap.
  - rewrite Hnew. apply unqueued_NoDup.
  - intros b Hb. destruct (@elem_of_stamped Table nevo_schema BillingEmailDeliveries string mk _ _ b Hb) as (n & e & He & -> & _).
    apply elem_of_unqueued in He as [He Hn]. split_and!; done.
  - intros e He. rewrite Hq, elem_of_app. destruct (decide (e ∈ queued_emails i kind db)); [by left|right].
    by apply elem_of_unqueued.
  - destruct (queue_billing_emails_run i kind db') as (db2 & Hrun2 & _ & _ & Hsame).
    assert (unqueued (contact_emails i db') (queued_emails i kind db') = []) as Hnone.
    { apply elem_of_nil_inv. intros e [He Hn]%elem_of_unqueued. rewrite Hce in He. rewrite Hq in Hn.
      apply Hn, elem_of_app. destruct (decide (e ∈ queued_emails i kind db)); [by left|right].
      by apply elem_of_unqueued. }
    by rewrite Hnone, (Hsame Hnone) in Hrun2.
Qed.
