(* ===== verification/BillingEmails.v ===== *)
(** * Emails about invoices

    [src/nevo/billing/email_worker.py] with the lines of an invoice from
    [src/nevo/api/billing.py]: the queue that [Issuance] fills is emptied one
    message at a time, each with the printed invoice, retried with a growing
    delay at most six times. The mail service is [Email.send]. *)

From Stdlib Require Import Ascii String.
From S2P Require Import Prelude Relational Text Vocabulary Schema Fixtures Branding Json Email Pdf Money.

Local Open Scope string_scope.
Local Open Scope Z_scope.
Local Open Scope nevo_scope.

(** ** An invoice in words *)

(** [s.rstrip(c)] *)
Fixpoint rstrip_char (c : ascii) (s : string) : string :=
  match s with
  | "" => ""
  | String d s' =>
    let r := rstrip_char c s' in
    if (d == c) && (r == "") then "" else String d r
  end.

(** [_percent] *)
Definition percent (rate : decimal) : string :=
  let s := dec_str rate in
  if negb (string_forall (λ c, c != "."%char) s) then rstrip_char "." (rstrip_char "0" s) else s.

(** An optional amount as [str] writes it. *)
Definition opt_dec_str (d : option decimal) : string := match d with Some d => dec_str d | None => "None" end.

(** [_invoice_working] *)
Definition invoice_working (i : Invoice) : list string :=
  match invoice_student_count i, invoice_per_student_rate i with
  | Some count, Some rate =>
    let currency := value (invoice_currency i) in
    let vat_line := match invoice_vat_rate i with None => "VAT" | Some r => "VAT (" ++ percent r ++ "%)" end in
    [("Period: " ++ opt_str_or (invoice_period_label i) "Contract period")%string;
     ("Students: " ++ int_str count)%string;
     ("Rate per student: " ++ currency ++ " " ++ dec_str rate)%string;
     ("Subtotal: " ++ currency ++ " " ++ opt_dec_str (invoice_total_before_vat i))%string;
     (vat_line ++ ": " ++ currency ++ " " ++ opt_dec_str (invoice_vat_amount i))%string]
  | _, _ => []
  end.

Example percent_examples : map percent [mkDecimal 750 2; mkDecimal 1000 2; mkDecimal 5 0; mkDecimal 0 2] = ["7.5"; "10"; "5"; "0"].
Proof. vm_compute. reflexivity. Qed.

(** The lines of the printed invoice below its heading. *)
Definition invoice_lines (i : Invoice) (s : School) : list string :=
  ([("Invoice: " ++ invoice_invoice_number i)%string; ("School: " ++ school_name s)%string;
    ("Issued: " ++ isoformat (invoice_issued_at i))%string; ("Due: " ++ isoformat (invoice_due_at i))%string] ++
   invoice_working i ++
   [("Total: " ++ value (invoice_currency i) ++ " " ++ dec_str (invoice_amount i))%string;
    ("Status: " ++ value (invoice_status i))%string;
    "This document was generated from the school's billing record."])%list.

Definition invoice_pdf (i : Invoice) (s : School) : option string :=
  render_simple_pdf ("NEVO LEARNING INVOICE" :: invoice_lines i s).

(** The message of a delivery of this kind to this address. *)
Definition invoice_email (i : Invoice) (s : School) (recipient kind : string) (pdf : string) : OutgoingEmail :=
  let label := if kind == "issued" then "Invoice" else "Payment reminder" in
  let subject := "Nevo " ++ casefold label ++ ": " ++ invoice_invoice_number i in
  let summary := school_name s ++ ": invoice " ++ invoice_invoice_number i ++ " for " ++
    default "None" (invoice_period_label i) ++ ", " ++ value (invoice_currency i) ++ " " ++
    dec_money_str (invoice_amount i) ++ ", due " ++ isoformat (invoice_due_at i) ++ "." in
  mkOutgoingEmail recipient subject summary (Some (render_email subject [summary] None None (Some summary)))
    (Some ((invoice_invoice_number i ++ ".pdf")%string, pdf)).

(** ** The worker *)

Definition MAX_ATTEMPTS : Z := 6.

(** Waiting, or taken by a worker that did not report back. *)
Definition eligible (now : datetime) (d : BillingEmailDelivery) : bool :=
  (bed_attempt_count d <? MAX_ATTEMPTS) && (bed_next_attempt_at d <=? now) &&
  ((bed_status d == "pending") || (bed_status d == "sending") && (bed_next_attempt_at d <=? now - minutes 5)).

Definition earlier (a b : BillingEmailDelivery) : bool :=
  if bed_next_attempt_at a =? bed_next_attempt_at b then bed_id a <=? bed_id b
  else bed_next_attempt_at a <=? bed_next_attempt_at b.

Definition taken (now : datetime) (d : BillingEmailDelivery) : BillingEmailDelivery :=
  d <| bed_status := "sending" |> <| bed_attempt_count := bed_attempt_count d + 1 |>
    <| bed_next_attempt_at := now + minutes 5 |>.

(** The first transaction of [process_next]: the delivery taken, with its
    invoice and school. *)
Definition claim (now : datetime) : M (option (BillingEmailDelivery * option (Invoice * School))) :=
  begin_ (
    waiting ← select BillingEmailDeliveries (eligible now);
    match order_by earlier waiting with
    | [] => mret None
    | row :: _ =>
      save BillingEmailDeliveries (taken now row);;
      invoice ← get Invoices (bed_invoice_id row);
      match (invoice : option Invoice) with
      | None => mret (Some (row, None))
      | Some i =>
        school ← get Schools (invoice_school_id i);
        mret (Some (row, pair i <$> (school : option School)))
      end
    end).

(** [timedelta(minutes=min(60, 2 ** attempt_count))] *)
Definition retry_delay (attempt_count : Z) : timedelta := minutes (Z.min 60 (2 ^ attempt_count)).

Definition failed_row (error : string) (now : datetime) (d : BillingEmailDelivery) : BillingEmailDelivery :=
  d <| bed_status := if MAX_ATTEMPTS <=? bed_attempt_count d then "failed" else "pending" |>
    <| bed_last_error := Some (take_string 1000 error) |>
    <| bed_next_attempt_at := now + retry_delay (bed_attempt_count d) |>.
Definition sent_row (now : datetime) (d : BillingEmailDelivery) : BillingEmailDelivery :=
  d <| bed_status := "sent" |> <| bed_delivered_at := Some now |> <| bed_last_error := None |>.

(** [_finish] *)
Definition finish (delivery_id : uuid) (error : option string) (now : datetime) : M unit :=
  begin_ (
    row ← get BillingEmailDeliveries delivery_id;
    match (row : option BillingEmailDelivery) with
    | None => mret tt
    | Some d =>
      save BillingEmailDeliveries
        (if opt_truthy error then failed_row (default "" error) now d else sent_row now d)
    end).

Section Worker.
Context `{!Network} (error_name : exn → string) (mail : EmailSettings).

(** [str(error)] *)
Definition error_text (e : exn) : string :=
  match e with EmailDeliveryUnavailableError m | ValueError m => m | _ => exception_text e end.

(** [process_next]: taken at [now], settled at [later]. *)
Definition process_next (now later : datetime) : M bool :=
  claimed ← claim now;
  match claimed with
  | None => mret false
  | Some (row, None) => finish (bed_id row) (Some "missing invoice or school") later;; mret true
  | Some (row, Some (i, s)) =>
    if (bed_kind row != "issued") && (invoice_status i == INVOICE_PAID)
    then finish (bed_id row) None later;; mret true
    else
      match invoice_pdf i s with
      | None => mret true
      | Some pdf =>
        error ← try_except
          (send error_name mail (invoice_email i s (bed_email row) (bed_kind row) pdf);; mret None)
          (λ e, Some (mret (Some (error_text e))));
        finish (bed_id row) error later;;
        mret true
      end
  end.

(** The loop over the moments at which it looks and settles. *)
Fixpoint run_worker (times : list (datetime * datetime)) (db : Database) : Database :=
  match times with
  | [] => db
  | (now, later) :: rest => run_worker rest (snd (process_next now later db))
  end.
End Worker.

(** * What the invoice emails promise

    Over [BillingEmails]: what one turn of the worker does to the queue, and
    what any number of turns leaves alone. *)

Implicit Types d : BillingEmailDelivery.
Implicit Types db : Database.

(** ** The queue *)

Notation queue db := (db_tables db BillingEmailDeliveries).

(** The same message: who gets what about which invoice. *)
Definition same_message d d' : Prop :=
  bed_id d' = bed_id d ∧ bed_invoice_id d' = bed_invoice_id d ∧ bed_email d' = bed_email d ∧ bed_kind d' = bed_kind d.

#[export] Instance same_message_preorder : PreOrder same_message.
Proof. split; [by intros d|]. intros a b c (?&?&?&?) (?&?&?&?). split_and!; congruence. Qed.

Definition put d' db : Database :=
  set_table BillingEmailDeliveries (update_list (λ x, bed_id x == bed_id d') (λ _, d') (queue db)) db.

Lemma queue_ids db : db_ok db = true → NoDup (map bed_id (queue db)).
Proof. intros Hok. rewrite db_ok_spec in Hok. exact (table_primary_key BillingEmailDeliveries _ (Hok BillingEmailDeliveries)). Qed.

Lemma only_row db d x : db_ok db = true → d ∈ queue db → x ∈ queue db → bed_id x = bed_id d → x = d.
Proof. intros Hok Hd Hx. apply (NoDup_map_inj bed_id _ x d (queue_ids db Hok)); done. Qed.

Lemma put_ok d d' db : db_ok db = true → d ∈ queue db → same_message d d' → db_ok (put d' db) = true.
Proof.
  intros Hok Hd (Hid & Hi & He & Hk). apply db_ok_set_table; [done|].
  assert (∀ x, x ∈ queue db → (bed_id x == bed_id d') = true → x = d) as Honly.
  { intros x Hx Hp. apply (only_row db); [done..|]. rewrite <- Hid. by bool_to_prop. }
  rewrite db_ok_spec in Hok. specialize (Hok BillingEmailDeliveries).
  change (billing_emails_ok (queue db) = true) in Hok. unfold billing_emails_ok in Hok. apply andb_prop in Hok as [Hpk Hu].
  change (billing_emails_ok (update_list (λ x, bed_id x == bed_id d') (λ _, d') (queue db)) = true).
  unfold billing_emails_ok, primary_key. apply andb_true_intro. split; apply unique_on_update; try done;
    intros x Hx Hp; rewrite (Honly x Hx Hp); congruence.
Qed.

Lemma put_in d d' db : d ∈ queue db → bed_id d' = bed_id d → d' ∈ queue (put d' db).
Proof.
  intros Hd Hid. unfold put. rewrite set_table_eq. apply elem_of_update_list. exists d. split; [done|].
  by rewrite Hid, bool_decide_true.
Qed.

Lemma put_elsewhere d' db t : t ≠ BillingEmailDeliveries → db_tables (put d' db) t = db_tables db t.
Proof. intros Ht. unfold put. by rewrite set_table_ne. Qed.

Lemma put_put d d' db : bed_id d' = bed_id d → queue (put d' (put d db)) = queue (put d' db).
Proof.
  intros Hid. unfold put. rewrite !set_table_eq. unfold update_list. rewrite map_map. apply map_ext. intros x.
  destruct (bed_id x == bed_id d) eqn:Hx; rewrite Hid, ?Hx; [by rewrite bool_decide_true|done].
Qed.

(** ** The steps of one turn *)

(** The invoice and the school of a delivery. *)
Definition billed db d : option (Invoice * School) :=
  i ← findb (λ i, invoice_id i == bed_invoice_id d) (db_tables db Invoices);
  pair i <$> findb (λ s, Schema.school_id s == invoice_school_id i) (db_tables db Schools).

Lemma billing_claim_run now db :
  db_ok db = true →
  (claim now db = (inr None, db) ∧ ∀ d, d ∈ queue db → eligible now d = false) ∨
  ∃ d, d ∈ queue db ∧ eligible now d = true ∧ claim now db = (inr (Some (d, billed db d)), put (taken now d) db).
Proof.
  intros Hok. unfold claim, begin_.
  destruct (order_by earlier (filterb (eligible now) (queue db))) as [|d rest] eqn:Hord.
  - left. split.
    + apply transaction_ok; [|done]. erewrite bind_inr by reflexivity. change (row BillingEmailDeliveries) with BillingEmailDelivery. by rewrite Hord.
    + intros d Hd. apply not_true_iff_false. intros He. apply (elem_of_nil d). rewrite <- Hord.
      apply elem_of_order_by, elem_of_filterb. done.
  - right. assert (d ∈ filterb (eligible now) (queue db)) as [He Hd]%elem_of_filterb.
    { apply (elem_of_order_by earlier). rewrite Hord. by left. }
    exists d. split; [done|]. split; [done|]. apply transaction_ok; [|by eapply put_ok].
    erewrite bind_inr by reflexivity. change (row BillingEmailDeliveries) with BillingEmailDelivery. rewrite Hord. erewrite bind_inr by reflexivity.
    erewrite bind_inr by reflexivity. unfold billed.
    fold (put (taken now d) db).
    change (db_tables (set_table BillingEmailDeliveries _ db) Invoices) with (db_tables db Invoices).
    change (findb (λ r : row Invoices, row_id Invoices r == bed_invoice_id d) (db_tables db Invoices))
      with (findb (λ i : Invoice, invoice_id i == bed_invoice_id d) (db_tables db Invoices)).
    by destruct (findb (λ i : Invoice, invoice_id i == bed_invoice_id d) (db_tables db Invoices)) as [i|].
Qed.

(** How a delivery ends up once a turn is over. *)
Definition settled (error : option string) (now : datetime) d : BillingEmailDelivery :=
  if opt_truthy error then failed_row (default "" error) now d else sent_row now d.

Lemma settled_same error now d : same_message d (settled error now d).
Proof. unfold settled. by destruct (opt_truthy error). Qed.

Lemma taken_same now d : same_message d (taken now d).
Proof. done. Qed.

Lemma finish_run d error now db :
  db_ok db = true → d ∈ queue db →
  finish (bed_id d) error now db = (inr tt, put (settled error now d) db).
Proof.
  intros Hok Hd. unfold finish, begin_. destruct (settled_same error now d) as (Hid & Hrest).
  apply transaction_ok; [|apply (put_ok d); [done|done|by split]]. erewrite bind_inr by reflexivity.
  change (findb (λ r, row_id BillingEmailDeliveries r == bed_id d) (queue db))
    with (findb (λ x, bed_id x == bed_id d) (queue db)).
  rewrite (findb_unique _ _ d); [reflexivity|done|by apply bool_decide_eq_true|].
  intros x Hx Hp. apply (only_row db); [done..|]. by bool_to_prop.
Qed.

(** ** One turn *)

Section Turn.
Context `{!Network} (error_name : exn → string) (mail : EmailSettings).
Hypothesis client_errors : ∀ q n x, http_send q n = inl x → ∃ m, x = HttpxError m.

(** A reminder of an invoice that was paid meanwhile. *)
Definition needless d (i : Invoice) : bool := (bed_kind d != "issued") && (invoice_status i == INVOICE_PAID).

(** The message of a delivery. *)
Definition message d (i : Invoice) (s : School) : OutgoingEmail :=
  invoice_email i s (bed_email d) (bed_kind d) (default "" (invoice_pdf i s)).

(** Nothing needs to be delivered, or the mail service took it. *)
Definition delivered db d : Prop :=
  ∃ i s, billed db d = Some (i, s) ∧ (needless d i = true ∨ accepted mail (message d i s)).
(** Nothing can be delivered, or the mail service did not take it. *)
Definition undeliverable db d : Prop :=
  billed db d = None ∨ ∃ i s, billed db d = Some (i, s) ∧ needless d i = false ∧ rejected mail (message d i s).

(** What a turn that took [d] at [now] leaves of it at [later]. *)
Definition outcome db now later d d' : Prop :=
  (d' = sent_row later (taken now d) ∧ delivered db d) ∨
  ∃ error, error ≠ "" ∧ d' = failed_row error later (taken now d) ∧ undeliverable db d.

Definition turned now later db db' d : Prop :=
  d ∈ queue db ∧ eligible now d = true ∧ db_ok db' = true ∧
  (∃ d', outcome db now later d d' ∧ queue db' = update_list (λ x, bed_id x == bed_id d) (λ _, d') (queue db)) ∧
  ∀ t, t ≠ BillingEmailDeliveries → db_tables db' t = db_tables db t.

Lemma turned_by now later db db1 d error :
  db_ok db = true → d ∈ queue db → eligible now d = true → db_tables db1 = db_tables (put (taken now d) db) →
  outcome db now later d (settled error later (taken now d)) →
  ∃ db', finish (bed_id d) error later db1 = (inr tt, db') ∧ turned now later db db' d.
Proof.
  intros Hok Hd He Htables Hout.
  assert (db_ok db1 = true) as Hok1.
  { rewrite db_ok_spec, Htables, <- db_ok_spec. by apply (put_ok d). }
  assert (taken now d ∈ queue db1) as Hin by (rewrite Htables; by apply (put_in d)).
  eexists. split; [apply (finish_run (taken now d) error later db1 Hok1 Hin)|].
  destruct (settled_same error later (taken now d)) as (Hid & Hrest).
  split; [done|]. split; [done|]. split; [by apply (put_ok (taken now d))|]. split.
  - eexists. split; [exact Hout|]. transitivity (queue (put (settled error later (taken now d)) (put (taken now d) db))).
    + unfold put at 1 2. by rewrite !set_table_eq, Htables.
    + rewrite put_put by done. unfold put. by rewrite set_table_eq, Hid.
  - intros t Ht. rewrite put_elsewhere, Htables by done. by apply put_elsewhere.
Qed.

Lemma billing_turn_run now later db :
  db_ok db = true →
  (process_next error_name mail now later db = (inr false, db) ∧ ∀ d, d ∈ queue db → eligible now d = false) ∨
  ∃ d db', process_next error_name mail now later db = (inr true, db') ∧ turned now later db db' d.
Proof.
  intros Hok. unfold process_next. destruct (billing_claim_run now db Hok) as [[Hclaim Hidle]|(d & Hd & He & Hclaim)].
  { left. split; [by rewrite bind_run, Hclaim|done]. }
  right. exists d. rewrite bind_run, Hclaim. destruct (billed db d) as [[i s]|] eqn:Hbilled.
  2: { destruct (turned_by now later db (put (taken now d) db) d (Some "missing invoice or school") Hok Hd He eq_refl)
         as (db' & Hf & Ht).
       { right. eexists. split; [|split; [reflexivity|by left]]. done. }
       exists db'. by rewrite bind_run, Hf. }
  change ((bed_kind d != "issued") && (invoice_status i == INVOICE_PAID)) with (needless d i).
  destruct (needless d i) eqn:Hneed.
  { destruct (turned_by now later db (put (taken now d) db) d None Hok Hd He eq_refl) as (db' & Hf & Ht).
    { left. split; [done|]. exists i, s. auto. }
    exists db'. by rewrite bind_run, Hf. }
  change (invoice_pdf i s) with (Some (default "" (invoice_pdf i s))). cbv iota.
  change (invoice_email i s (bed_email d) (bed_kind d) (default "" (invoice_pdf i s))) with (message d i s).
  rewrite bind_run. unfold try_except. rewrite bind_run.
  destruct (send error_name mail (message d i s) (put (taken now d) db)) as [r db1] eqn:Hsend.
  apply send_run in Hsend as (Htables & _ & _ & Hr); [|done]. destruct r as [x|[]].
  - destruct Hr as (Hrej & m & -> & Hm).
    destruct (turned_by now later db db1 d (Some m) Hok Hd He Htables) as (db' & Hf & Ht).
    { right. exists m. split; [done|]. split; [|right; by exists i, s]. unfold settled, opt_truthy, truthy.
      by rewrite bool_decide_false. }
    exists db'. cbn. by rewrite bind_run, Hf.
  - destruct (turned_by now later db db1 d None Hok Hd He Htables) as (db' & Hf & Ht).
    { left. split; [done|]. exists i, s. auto. }
    exists db'. cbn. by rewrite bind_run, Hf.
Qed.

(** ** Any number of turns *)

(** No turn takes this one: it was sent or given up, or has its six attempts. *)
Definition closed d : Prop := (bed_status d ≠ "pending" ∧ bed_status d ≠ "sending") ∨ MAX_ATTEMPTS <= bed_attempt_count d.

Lemma closed_not_eligible now d : closed d → eligible now d = false.
Proof.
  intros Hc. apply not_true_iff_false. unfold eligible. intros He. apply andb_prop in He as [He Hs].
  apply andb_prop in He as [Hn _]. apply Z.ltb_lt in Hn. destruct Hc as [[H1 H2]|Hc]; [|lia].
  by rewrite !bool_decide_false in Hs.
Qed.

(** A row later: the same message, at most six attempts, untouched once
    closed, and sent only if it was delivered. *)
Definition later_row db d d' : Prop :=
  same_message d d' ∧ bed_attempt_count d <= bed_attempt_count d' <= Z.max MAX_ATTEMPTS (bed_attempt_count d) ∧
  (closed d → d' = d) ∧ (bed_status d' = "sent" → d' = d ∨ delivered db d).

Lemma later_row_refl db d : later_row db d d.
Proof. split; [done|]. split; [lia|]. by split; [|left]. Qed.

Lemma delivered_same db db' d d' :
  db_tables db' Invoices = db_tables db Invoices → db_tables db' Schools = db_tables db Schools →
  same_message d d' → delivered db' d' → delivered db d.
Proof.
  intros Hi Hs (_ & Hin & He & Hk) (i & s & Hb & Hd). exists i, s. unfold billed in *. rewrite <- Hi, <- Hs, <- Hin.
  split; [done|]. unfold needless, message in *. by rewrite <- He, <- Hk.
Qed.

Lemma later_row_trans db db1 d d1 d2 :
  db_tables db1 Invoices = db_tables db Invoices → db_tables db1 Schools = db_tables db Schools →
  later_row db d d1 → later_row db1 d1 d2 → later_row db d d2.
Proof.
  intros Hi Hs (Hm & Hn & Hc & Hsent) (Hm' & Hn' & Hc' & Hsent'). split; [by etrans|]. split; [lia|]. split.
  - intros Hd. specialize (Hc Hd). subst d1. by apply Hc'.
  - intros Hst. destruct (Hsent' Hst) as [->|Hd]; [by apply Hsent|]. right. by eapply delivered_same.
Qed.

Lemma turned_later now later db db' d d' :
  db_ok db = true → turned now later db db' d → d' ∈ queue db' → ∃ d0, d0 ∈ queue db ∧ later_row db d0 d'.
Proof.
  intros Hok (Hd & He & _ & (d1 & Hout & Hrows) & _) Hd'. rewrite Hrows in Hd'.
  apply elem_of_update_list in Hd' as (x & Hx & ->). case_bool_decide as Hid; [|exists x; split; [done|apply later_row_refl]].
  apply (only_row db) in Hid as ->; [|done..]. exists d. split; [done|].
  assert (¬ closed d) as Hopen by (intros Hc; rewrite closed_not_eligible in He; done).
  unfold eligible in He. apply andb_prop in He as [He _]. apply andb_prop in He as [Hn _]. apply Z.ltb_lt in Hn.
  destruct Hout as [[-> Hdel]|(error & _ & -> & _)].
  - split; [done|]. split; [cbn; unfold MAX_ATTEMPTS in *; lia|]. split; [done|by right].
  - split; [done|]. split; [cbn; unfold MAX_ATTEMPTS in *; lia|]. split; [done|]. cbn. by destruct (_ <=? _).
Qed.

Lemma run_worker_later times db d' :
  db_ok db = true → d' ∈ queue (run_worker error_name mail times db) → ∃ d, d ∈ queue db ∧ later_row db d d'.
Proof.
  revert db. induction times as [|[now later] times IH]; intros db Hok Hd'; [exists d'; split; [done|apply later_row_refl]|].
  cbn [run_worker] in Hd'. destruct (billing_turn_run now later db Hok) as [[Hrun _]|(d & db1 & Hrun & Ht)];
    rewrite Hrun in Hd'; cbn [snd] in Hd'; [by apply IH|].
  assert (db_ok db1 = true) as Hok1 by (destruct Ht; tauto).
  destruct (IH db1 Hok1 Hd') as (d1 & Hd1 & Hl1). destruct (turned_later _ _ _ _ _ _ Hok Ht Hd1) as (d0 & Hd0 & Hl0).
  exists d0. split; [done|]. destruct Ht as (_ & _ & _ & _ & Hsame).
  apply (later_row_trans db db1 d0 d1); [by apply Hsame|by apply Hsame|done|done].
Qed.

Lemma turned_others now later db db' d x :
  db_ok db = true → turned now later db db' d → x ∈ queue db → x ≠ d → x ∈ queue db'.
Proof.
  intros Hok (Hd & _ & _ & (d' & _ & ->) & _) Hx Hne. apply elem_of_update_list. exists x. split; [done|].
  rewrite bool_decide_false; [done|]. intros Hid. apply Hne. by apply (only_row db).
Qed.

Lemma closed_stays times db d :
  db_ok db = true → d ∈ queue db → closed d → d ∈ queue (run_worker error_name mail times db).
Proof.
  intros Hok Hd Hc. revert db Hok Hd. induction times as [|[now later] times IH]; intros db Hok Hd; [done|].
  cbn [run_worker]. destruct (billing_turn_run now later db Hok) as [[Hrun _]|(d1 & db1 & Hrun & Ht)];
    rewrite Hrun; cbn [snd]; [by apply IH|].
  apply IH; [destruct Ht; tauto|]. apply (turned_others now later db db1 d1 d Hok Ht Hd). intros ->.
  destruct Ht as (_ & He & _). by rewrite (closed_not_eligible now d1 Hc) in He.
Qed.

Lemma no_more_waiting (p q : BillingEmailDelivery → bool) d' (l : list BillingEmailDelivery) :
  p d' = false → (length (filterb p (update_list q (λ _, d') l)) <= length (filterb p l))%nat.
Proof.
  intros Hd'. induction l as [|y l IH]; [done|]. rewrite update_list_cons, !filterb_cons.
  destruct (q y); rewrite ?Hd'; destruct (p y); cbn; lia.
Qed.

Lemma fewer_waiting (p q : BillingEmailDelivery → bool) d' x (l : list BillingEmailDelivery) :
  p d' = false → x ∈ l → q x = true → p x = true →
  (length (filterb p (update_list q (λ _, d') l)) < length (filterb p l))%nat.
Proof.
  intros Hd' Hx Hq Hp. induction l as [|y l IH]; [by apply elem_of_nil in Hx|].
  pose proof (no_more_waiting p q d' l Hd') as Hle. rewrite update_list_cons, !filterb_cons.
  apply elem_of_cons in Hx as [<-|Hx]; [rewrite Hq, Hp, Hd'; cbn; lia|]. specialize (IH Hx).
  destruct (q y); rewrite ?Hd'; destruct (p y); cbn; lia.
Qed.

(** A mail service that takes everything settles the delivery it is given. *)
Lemma accepting_turn now later db d d' :
  (∀ e, ¬ rejected mail e) → billed db d ≠ None → outcome db now later d d' → d' = sent_row later (taken now d).
Proof.
  intros Hmail Hbilled [[-> _]|(error & _ & _ & [Hnone|(i & s & _ & _ & Hrej)])]; [done|done|].
  by apply Hmail in Hrej.
Qed.
End Turn.

(** ** The properties *)

(** What becomes of a queued invoice email. Whatever the mail service does and whenever the
    worker looks, every row of the queue stays the same message; it is attempted at most six
    times; once it was sent or given up, or has its six attempts, no turn changes it again;
    and it is only marked sent when the mail service took exactly the message with the printed
    invoice, or when it was a reminder of an invoice paid meanwhile. *)
Theorem queued_email_is_settled_once `{!Network} error_name mail times db :
  (∀ q n x, http_send q n = inl x → ∃ m, x = HttpxError m) → db_ok db = true →
  (∀ d', d' ∈ queue (run_worker error_name mail times db) → ∃ d, d ∈ queue db ∧ same_message d d' ∧
     bed_attempt_count d <= bed_attempt_count d' <= Z.max 6 (bed_attempt_count d) ∧
     (bed_status d' = "sent" → bed_status d ≠ "sent" → ∃ i s, billed db d = Some (i, s) ∧
        (bed_kind d ≠ "issued" ∧ invoice_status i = INVOICE_PAID ∨
         ∃ pdf, invoice_pdf i s = Some pdf ∧ accepted mail (invoice_email i s (bed_email d) (bed_kind d) pdf)))) ∧
  (∀ d, d ∈ queue db → (bed_status d ≠ "pending" ∧ bed_status d ≠ "sending") ∨ 6 <= bed_attempt_count d →
     d ∈ queue (run_worker error_name mail times db)).
Proof.
  intros Hclient Hok. split; [|intros d Hd Hc; by apply closed_stays].
  intros d' Hd'. destruct (run_worker_later error_name mail Hclient times db d' Hok Hd') as (d & Hd & Hm & Hn & _ & Hs).
  exists d. split; [done|]. split; [done|]. split; [done|]. intros Hsent Hnot.
  destruct (Hs Hsent) as [->|(i & s & Hb & Hdel)]; [done|]. exists i, s. split; [done|].
  destruct Hdel as [Hneed|Hacc]; [left|right; by exists (default "" (invoice_pdf i s))].
  unfold needless in Hneed. by bool_to_prop.
Qed.

(** The queue drains. While the mail service takes everything and every queued email has its
    invoice and its school, as many turns as there are emails due send all of them. *)
Theorem due_emails_are_sent `{!Network} error_name mail now later n db :
  (∀ q k x, http_send q k = inl x → ∃ m, x = HttpxError m) → db_ok db = true →
  (∀ e, ¬ rejected mail e) → (∀ d, d ∈ queue db → billed db d ≠ None) →
  (length (filterb (eligible now) (queue db)) <= n)%nat →
  ∀ d, d ∈ queue db → eligible now d = true →
  ∃ d', d' ∈ queue (run_worker error_name mail (replicate n (now, later)) db) ∧ same_message d d' ∧ bed_status d' = "sent".
Proof.
  intros Hclient Hok Hmail. revert db Hok. induction n as [|n IH]; intros db Hok Hbilled Hlen d Hd He.
  { apply Nat.le_0_r, nil_length_inv in Hlen. exfalso. apply (elem_of_nil d). rewrite <- Hlen. by apply elem_of_filterb. }
  cbn [replicate run_worker].
  destruct (billing_turn_run error_name mail Hclient now later db Hok) as [[_ Hidle]|(d0 & db1 & Hrun & Ht)].
  { by rewrite Hidle in He. }
  rewrite Hrun. cbn [snd]. pose proof Ht as (Hd0 & He0 & Hok1 & (d1 & Hout & Hrows) & Hsame).
  apply accepting_turn in Hout; [|done|by apply Hbilled]. subst d1.
  destruct (decide (bed_id d = bed_id d0)) as [Hid|Hid].
  - apply (only_row db) in Hid as ->; [|done..]. exists (sent_row later (taken now d0)). split; [|done]. apply closed_stays; [done|done| |left; done].
    rewrite Hrows. apply elem_of_update_list. exists d0. split; [done|]. by rewrite bool_decide_true.
  - apply IH; [done| | | |done].
    + intros x Hx. rewrite Hrows in Hx. apply elem_of_update_list in Hx as (y & Hy & ->).
      unfold billed. rewrite (Hsame Invoices), (Hsame Schools) by done. case_bool_decide as Hxid; [|by apply Hbilled].
      by apply (Hbilled d0).
    + rewrite Hrows. enough (length (filterb (eligible now) (update_list (λ x, bed_id x == bed_id d0) (λ _, sent_row later (taken now d0)) (queue db)))
        < length (filterb (eligible now) (queue db)))%nat by lia.
      apply (fewer_waiting _ _ _ d0); [|done|by apply bool_decide_true|done].
      apply closed_not_eligible. by left.
    + apply (turned_others mail now later db db1 d0 d Hok Ht Hd). by intros ->.
Qed.

(** * An invoice email of the small school

    A mail service that takes everything, an invoice and two addresses. *)

#[local] Instance kind_mail : Network := {|
  http_send _ _ := inr (mkHttpResponse 200 None);
  fromisoformat _ := None; json_loads _ := None; exception_text _ := "" |}.

Lemma kind_mail_errors q n x : http_send q n = inl x → ∃ m, x = HttpxError m.
Proof. intros Hsend. change (inr (mkHttpResponse 200 None) = inl x) in Hsend. discriminate. Qed.

Definition mail_settings : EmailSettings := mkEmailSettings (Some "key") "Nevo <noreply@nevolearning.com>" "https://nevo/".

Definition an_invoice : Invoice :=
  (new_Invoice 50 "GF01-Y1-T1" 1 (mkDate 2026 1 5) (mkDecimal 107500 2) INVOICE_PENDING (mkDate 2026 2 4) "")
    <| invoice_student_count := Some 10 |> <| invoice_per_student_rate := Some (mkDecimal 10000 2) |>
    <| invoice_total_before_vat := Some (mkDecimal 100000 2) |> <| invoice_vat_amount := Some (mkDecimal 7500 2) |>
    <| invoice_vat_rate := Some (mkDecimal 750 2) |> <| invoice_period_label := Some "Term 1" |>.

Definition queue_db : Database :=
  set_table Invoices [an_invoice]
  (set_table BillingEmailDeliveries
    [new_BillingEmailDelivery 51 50 "bursar@example.com" "issued" t0; new_BillingEmailDelivery 52 50 "head@example.com" "issued" t0]
    school_db).

Example queue_db_ok : db_ok queue_db = true.
Proof. vm_compute. reflexivity. Qed.

Example invoice_lines_example : invoice_lines an_invoice the_school =
  ["Invoice: GF01-Y1-T1"; "School: Greenfield"; "Issued: 2026-01-05"; "Due: 2026-02-04"; "Period: Term 1"; "Students: 10";
   "Rate per student: " ++ value (invoice_currency an_invoice) ++ " 100.00"; "Subtotal: " ++ value (invoice_currency an_invoice) ++ " 1000.00";
   "VAT (7.5%): " ++ value (invoice_currency an_invoice) ++ " 75.00"; "Total: " ++ value (invoice_currency an_invoice) ++ " 1075.00";
   "Status: pending"; "This document was generated from the school's billing record."].
Proof. vm_compute. reflexivity. Qed.

Lemma queued_email_is_settled_once_witness :
  map bed_status (db_tables (run_worker (λ _, "") mail_settings [(t0, t0 + 1)] queue_db) BillingEmailDeliveries) = ["sent"; "pending"] ∧
  ∀ d', d' ∈ db_tables (run_worker (λ _, "") mail_settings [(t0, t0 + 1)] queue_db) BillingEmailDeliveries →
    ∃ d, d ∈ db_tables queue_db BillingEmailDeliveries ∧ same_message d d' ∧
      bed_attempt_count d <= bed_attempt_count d' <= Z.max 6 (bed_attempt_count d).
Proof.
  split; [vm_compute; reflexivity|]. intros d' Hd'.
  destruct (proj1 (queued_email_is_settled_once (λ _, "") mail_settings [(t0, t0 + 1)] queue_db
    kind_mail_errors queue_db_ok) d' Hd') as (d & H1 & H2 & H3 & _).
  by exists d.
Defined.

Lemma due_emails_are_sent_witness :
  ∃ d', d' ∈ db_tables (run_worker (λ _, "") mail_settings (replicate 2 (t0, t0 + 1)) queue_db) BillingEmailDeliveries ∧
    same_message (new_BillingEmailDelivery 52 50 "head@example.com" "issued" t0) d' ∧ bed_status d' = "sent".
Proof.
  apply (due_emails_are_sent (λ _, "") mail_settings t0 (t0 + 1) 2 queue_db).
  - exact kind_mail_errors.
  - exact queue_db_ok.
  - intros e [H|(key & moment & _ & H)]; discriminate.
  - intros d Hd. change (db_tables queue_db BillingEmailDeliveries) with
      [new_BillingEmailDelivery 51 50 "bursar@example.com" "issued" t0; new_BillingEmailDelivery 52 50 "head@example.com" "issued" t0] in Hd.
    apply elem_of_cons in Hd as [->|[->|Hd%elem_of_nil]%elem_of_cons]; [vm_compute; discriminate..|done].
  - vm_compute. lia.
  - right. left.
  - vm_compute. reflexivity.
Defined.
