(* ===== verification/BillingExamples.v ===== *)
(** * Billing the small school

    The theorems on quotes and the issuing sweep at concrete schools, and what
    the sweep does where schools share invoice numbers or keep last year's
    term dates. *)

From Stdlib Require Import Ascii String.
From S2P Require Import Prelude Relational Text Vocabulary Schema Fixtures Notices Json Calendar Money Quotes Billing Issuance IssuanceFacts BillingFacts IssuanceProperties.

Local Open Scope string_scope.
Local Open Scope Z_scope.
Local Open Scope nevo_scope.

Lemma quote_is_exact_witness :
  (dec_scale (mkDecimal 5500050 2) <= 2)%nat ∧
  ∃ q vat, quote_per_student ANNUAL 7 RATE_STANDARD (Some (mkDecimal 5500050 2)) None NGN = inr q ∧
    quote_total_before_vat q = mkDecimal 38500350 2 ∧ quote_vat_amount q = mkDecimal vat 2 ∧
    -500 < 1000 * vat - 75 * 38500350 <= 500 ∧ quote_total_with_vat q = mkDecimal (38500350 + vat) 2.
Proof.
  assert (dec_scale (default (published_rate ANNUAL) (Some (mkDecimal 5500050 2))) <= 2)%nat as Hs by (simpl; lia).
  split; [exact Hs|].
  pose proof (quote_is_exact ANNUAL 7 RATE_STANDARD (Some (mkDecimal 5500050 2)) None NGN Hs) as H.
  destruct (quote_per_student _ _ _ _ _ _) as [e|q] eqn:Hq.
  - destruct H as (m & _ & [H|H]); [lia|]. simpl in H. lia.
  - destruct H as (_ & _ & Ht & vat & Hv & Hr & _ & Htot). exists q, vat.
    change (cents _ * 7) with 38500350 in Ht, Hr, Htot. done.
Defined.

(** ** One school *)

Definition the_contract : Contract := new_Contract 60 1 61 (mkDate 2026 9 1) (mkDate 2028 8 31).
Definition contracted_db : Database :=
  set_table Contracts [the_contract] (set_table ParentLinks [the_link]
  (set_table BillingContacts [new_BillingContact 52 1 "bursar@example.com" "1 Road" "Lagos" "NG" 5 t0] school_db)).

Definition first_day : date := mkDate 2026 9 1.
Definition issued_db : Database := snd (issue_due_invoices NGN first_day contracted_db).

Definition sweep_result (day : date) (db : Database) : exn + IssuanceResult := fst (issue_due_invoices NGN day db).
Definition numbers_of (db : Database) : list string :=
  map invoice_invoice_number (db_tables db Invoices).

(** The day before nothing is issued, on the first day the first year is, and a
    sweep a year later adds the second. *)
Example sweep_over_the_years :
  sweep_result (mkDate 2026 8 31) contracted_db = inr (mkIssuanceResult 1 0) ∧
  sweep_result first_day contracted_db = inr (mkIssuanceResult 1 1) ∧
  numbers_of (snd (issue_due_invoices NGN (mkDate 2027 9 1) contracted_db)) = ["NEVO-GF01-Y1"; "NEVO-GF01-Y2"].
Proof. split_and!; vm_compute; reflexivity. Qed.

(** A contract year is 365 days, so the two years to 31 August 2028, with a 29
    February in them, end on what counts as the first day of a third year: on
    the last day of the contract another year is billed. *)
Example last_day_bills_a_third_year :
  numbers_of (snd (issue_due_invoices NGN (mkDate 2028 8 30) contracted_db)) = ["NEVO-GF01-Y1"; "NEVO-GF01-Y2"] ∧
  numbers_of (snd (issue_due_invoices NGN (mkDate 2028 8 31) contracted_db)) =
    ["NEVO-GF01-Y1"; "NEVO-GF01-Y2"; "NEVO-GF01-Y3"].
Proof. split_and!; vm_compute; reflexivity. Qed.

Lemma sweep_bills_what_has_begun_witness :
  db_ok contracted_db = true ∧ ∃ r, issue_due_invoices NGN first_day contracted_db = (inr r, issued_db) ∧ issued r = 1 ∧
  ∀ i j, i ∈ db_tables issued_db Invoices → j ∈ db_tables issued_db Invoices →
    invoice_invoice_number i = invoice_invoice_number j → i = j.
Proof.
  assert (db_ok contracted_db = true) as Hok by (vm_compute; reflexivity).
  split; [exact Hok|].
  destruct (run_checked (issue_due_invoices NGN first_day) contracted_db (λ r, issued r =? 1)) as (r & Hrun & Hr).
  { vm_compute. reflexivity. }
  exists r. split; [exact Hrun|]. split; [lia|].
  destruct (sweep_bills_what_has_begun NGN first_day contracted_db r issued_db Hok Hrun) as (_ & Hu). exact Hu.
Defined.

Lemma contracted_contracts : db_tables contracted_db Contracts = [the_contract].
Proof. unfold contracted_db. by rewrite set_table_eq. Qed.

Lemma second_sweep_issues_nothing_witness :
  ∃ r r', issue_due_invoices NGN first_day contracted_db = (inr r, issued_db) ∧ issued r = 1 ∧
    issue_due_invoices NGN first_day issued_db = (inr r', issued_db) ∧ issued r' = 0.
Proof.
  destruct (run_checked (issue_due_invoices NGN first_day) contracted_db (λ r, issued r =? 1)) as (r & Hrun & Hr).
  { vm_compute. reflexivity. }
  destruct (second_sweep_issues_nothing NGN NGN first_day contracted_db r issued_db issued_db) as (r' & Hrun' & Hr').
  - vm_compute. reflexivity.
  - intros c s c' s' (Hc & _) (Hc' & _) _. rewrite contracted_contracts in Hc, Hc'.
    by apply list_elem_of_singleton in Hc as ->, Hc' as ->.
  - exact Hrun.
  - vm_compute. reflexivity.
  - reflexivity.
  - reflexivity.
  - reflexivity.
  - exists r, r'. split; [exact Hrun|]. split; [lia|]. split; [exact Hrun'|exact Hr'].
Defined.

(** ** The billing page *)

Definition the_card : PaymentMethodUpdate :=
  mkPaymentMethodUpdate CARD "Visa 4242" "4242" (Some "paystack") (Some "AUTH_1") (Some "visa") (Some 9) (Some 2030)
    None None.
Definition card_db : Database := snd (update_payment_method 1 5 the_card contracted_db).

Lemma saved_payment_method_is_shown_witness :
  ∃ rec sub, update_payment_method 1 5 the_card contracted_db = (inr rec, card_db) ∧
    subscription 1 first_day card_db = (inr sub, card_db) ∧
    sub_payment_method sub = Some rec ∧ pmr_last_four rec = "4242".
Proof.
  destruct (run_returned (update_payment_method 1 5 the_card) contracted_db) as [rec Hup]; [vm_compute; reflexivity|].
  destruct (run_returned (subscription 1 first_day) card_db) as [sub Hsub]; [vm_compute; reflexivity|].
  assert (db_ok contracted_db = true) as Hok by (vm_compute; reflexivity).
  destruct (saved_payment_method_is_shown 1 5 the_card first_day contracted_db rec card_db sub
    (snd (subscription 1 first_day card_db)) Hok Hup Hsub) as (Hs & _ & _ & Hl & _).
  exists rec, sub. split_and!; [exact Hup| |exact Hs|exact Hl].
  destruct (subscription_inv _ _ _ _ _ Hsub) as [Hdb _]. rewrite Hdb in Hsub. exact Hsub.
Defined.

Definition the_address : BillingContactUpdate :=
  mkBillingContactUpdate "accounts@example.com" None "2 Road" None "Lagos" None None "NG".
Definition contact_db : Database := snd (update_billing_contact 1 5 the_address contracted_db).

Lemma contracted_wf : db_wf contracted_db.
Proof. apply db_wfb_spec. vm_compute. reflexivity. Qed.

Lemma saved_billing_contact_is_shown_witness :
  ∃ rec sub, update_billing_contact 1 5 the_address contracted_db = (inr rec, contact_db) ∧
    sub_billing_contact sub = Some rec ∧ bcr_email rec = "accounts@example.com".
Proof.
  destruct (run_returned (update_billing_contact (school_id the_school) 5 the_address) contracted_db) as [rec Hup];
    [vm_compute; reflexivity|].
  destruct (run_returned (subscription (school_id the_school) first_day)
    (snd (update_billing_contact (school_id the_school) 5 the_address contracted_db))) as [sub Hsub];
    [vm_compute; reflexivity|].
  destruct (saved_billing_contact_is_shown the_school 5 the_address first_day contracted_db rec _ sub _ contracted_wf
    ltac:(vm_compute; left) Hup Hsub) as (Hs & He & _).
  exists rec, sub. split_and!; [exact Hup|exact Hs|exact He].
Defined.

Lemma page_counts_whom_the_invoice_bills_witness :
  ∃ sub, fst (subscription 1 first_day contracted_db) = inr sub ∧
    0 <= (billed 1 contracted_db).1 <= quote_student_count (sub_quote sub).
Proof.
  destruct (run_returned (subscription 1 first_day) contracted_db) as [sub Hsub]; [vm_compute; reflexivity|].
  exists sub. split; [by rewrite Hsub|].
  exact (page_counts_whom_the_invoice_bills 1 first_day contracted_db sub _ Hsub).
Defined.

(** ** Where the sweep goes astray *)

(** Two schools whose codes differ in punctuation: the second is not billed. *)
Definition namesake : School := new_School 70 "Greenfield Two" "GF-01" "greenfield-two".
Definition two_schools_db : Database :=
  set_table Schools [the_school; namesake]
  (set_table Contracts [the_contract; new_Contract 62 70 61 (mkDate 2026 9 1) (mkDate 2028 8 31)] contracted_db).

Example namesakes_share_an_invoice_number :
  db_ok two_schools_db = true ∧
  sweep_result first_day two_schools_db = inr (mkIssuanceResult 2 1) ∧
  numbers_of (snd (issue_due_invoices NGN first_day two_schools_db)) = ["NEVO-GF01-Y1"].
Proof. split_and!; vm_compute; reflexivity. Qed.

(** A school that renews: the numbers of the new contract's years are those of
    the old one's, so the new contract is not billed. *)
Definition renewed_db : Database :=
  set_table Contracts [the_contract <| contract_status := CONTRACT_TERMINATED |>;
    new_Contract 63 1 61 (mkDate 2028 9 1) (mkDate 2030 8 31)]
    (snd (issue_due_invoices NGN (mkDate 2028 8 31) contracted_db)).

Example renewal_is_not_billed :
  db_ok renewed_db = true ∧ sweep_result (mkDate 2029 9 1) renewed_db = inr (mkIssuanceResult 1 0).
Proof. split_and!; vm_compute; reflexivity. Qed.

(** The term dates of a calendar do not move with the contract year: on the
    first day of the second year all three terms of the year are billed. *)
Definition per_term_school : School := the_school <| school_pricing_plan := PER_TERM |>
  <| school_academic_config := JObj [(TERM_DATES_KEY,
       JArr [JStr "2026-09-01"; JStr "2027-01-05"; JStr "2027-04-20"])] |>.
Definition per_term_db : Database := set_table Schools [per_term_school] contracted_db.

Example last_years_term_dates_bill_the_year_at_once :
  let one_year := snd (issue_due_invoices NGN (mkDate 2027 8 31) per_term_db) in
  numbers_of one_year = ["NEVO-GF01-Y1T1"; "NEVO-GF01-Y1T2"; "NEVO-GF01-Y1T3"] ∧
  numbers_of (snd (issue_due_invoices NGN (mkDate 2027 9 1) one_year)) =
    ["NEVO-GF01-Y1T1"; "NEVO-GF01-Y1T2"; "NEVO-GF01-Y1T3"; "NEVO-GF01-Y2T1"; "NEVO-GF01-Y2T2"; "NEVO-GF01-Y2T3"].
Proof. split_and!; vm_compute; reflexivity. Qed.

(** One school with a negative rate, and nobody is billed. *)
Definition misconfigured : School :=
  (new_School 71 "Hilltop" "HT01" "hilltop") <| school_per_student_rate := Some (mkDecimal (-1) 0) |>.
Definition mixed_db : Database :=
  set_table Schools [the_school; misconfigured]
  (set_table Contracts [the_contract; new_Contract 64 71 61 (mkDate 2026 9 1) (mkDate 2028 8 31)] contracted_db).

Example one_bad_rate_stops_the_sweep :
  db_ok mixed_db = true ∧
  sweep_result first_day mixed_db = inl (ValueError "per_student_rate cannot be negative") ∧
  numbers_of (snd (issue_due_invoices NGN first_day mixed_db)) = [].
Proof. split_and!; vm_compute; reflexivity. Qed.
